(* ===== verification/_CoqProject ===== *)
-Q . S2P
Prelude.v
F64.v
Serial.v
Api.v
Encoded.v
Links.v
Types.v
Env.v
Dealer.v
DealerWs.v
DealerLink.v
Balancing.v
Bitfinex.v
Ledger.v
Operator.v
Payjoin.v
ClientApi.v
Client.v
Orders.v
Addresses.v
Market.v
Signing.v
Pending.v
Flows.v
Worker.v
Shown.v
Files.v
Ffi.v
Book.v
Jade.v
GdkApi.v
Session.v
Wallet.v
Handles.v
JadeSession.v
Register.v
Prompt.v
Rpc.v
Registry.v
Pin.v
Swaps.v
Headless.v
HeadlessCalls.v
HeadlessWallet.v
Trader.v
History.v
