(* ===== verification/Prelude.v ===== *)
(** * SideSwap client: a verification library

    The repository holds the Rust side of SideSwap, a marketplace for assets of the
    Liquid network: the client library behind the wallet application, the market
    maker's dealers, the payjoin client, and what they share.  This library translates
    that code into executable definitions and proves what the programs are for: nothing
    is signed but what was agreed, nothing is paid twice, amounts and fees add up, the
    application sees the state the worker has.

    ** Parts and files

    - [Prelude]: outcomes ([Ok], [Err], a panic), the state monad [M] whose failing
      computations keep the changes made so far, machine integers, vectors and ordered
      maps, record updates, and the program logic: [keeps] (an invariant), [yields] (a
      fact about a result), [lands] (invariants that differ after success and after an
      error), [ends] (an outcome), [same_on] (equal behaviour), with hints and tactics.
    - [F64]: IEEE 754 double arithmetic as [f64] uses it, and rounding error bounds.
    - [Api] (sideswap_api/src/lib.rs), [Types] (sideswap_common/src/types.rs, pset.rs),
      [Env] (sideswap_common/src/env.rs): protocol data, amounts, fees, coin selection,
      constants of the servers; [Encoded] (sideswap_types/src): hex, times and amounts.
    - [Links] (sideswap_common/src/ws.rs, ws/manual.rs, ws/auto.rs,
      sideswap_dealer_bitfinex/src/module.rs): the threads that keep the connections of the
      programs, and the interface [Link] of what a program may rely on.
    - [Dealer] (sideswap_dealer/src/dealer.rs): the dealer worker; [DealerLink]: the worker
      over any [Link]; [DealerWs] (sideswap_dealer_ws/src/main.rs, sideswap_dealer_example/src):
      programs that give it its prices.
    - [Balancing], [Bitfinex] (sideswap_dealer_bitfinex/src/balancing.rs, storage.rs,
      main.rs): the dealer that hedges on an exchange and moves funds to and from it;
      [Ledger]: what it logs; [Operator] (main.rs, slack.rs): the threads around its loop,
      the clients of its operator, its messages to Slack; [Rpc] (sideswap_dealer/src/rpc.rs): the node that is its wallet,
      and the dealer over it.
    - [Files] (sideswap_client/src/settings.rs, sideswap_dealer_bitfinex/src/main.rs): what
      is saved, as steps of the file system between which a program can be stopped.
    - [Payjoin] (sideswap_payjoin/src): a payment whose network fee the server pays.
    - [ClientApi] (ffi/sideswap.proto, sideswap_client/src/gdk_json.rs, models.rs,
      swaps.rs, settings.rs, sideswap_api/src/fcm_models.rs, http_rpc.rs): client data.
    - [Client], [Orders], [Market], [Flows], [Worker] (sideswap_client/src/worker.rs):
      the client worker - its state and services; submitting, reviewing and signing
      orders; order book, edits and pending work; wallets, payments, pegs, swaps and
      login; connection, routing and the main loop.
    - [Addresses], [Signing], [Pending], [Book]: theorems about the client worker that
      need definitions or lemmas of their own.
    - [Shown], [Ffi] (sideswap_client/src/ffi.rs, sideswap_headless/src/main.rs): the C
      functions of an application over the worker, as a heap of boxes and threads that take
      turns; the lines of the log; the driver that puts a WebSocket in front of them.
    - [Registry] (gdk_rust/gdk_registry/src, gdk_common/src/store.rs,
      sideswap_client/src/worker/assets_registry.rs): names, icons and precisions of assets -
      the registry files, the encrypted cache of a wallet, what the client makes of them.
    - [Pin] (sideswap_client/src/pin.rs, gdk_rust/gdk_pin_client/src): keeping a mnemonic
      under a PIN with the help of a server.
    - [Serial], [Jade] (sideswap_jade/src, sideswap_client/src/jade_mng.rs): the driver of
      the Jade hardware wallet - the serial port, the messages, the list of devices.
    - [GdkApi] (sideswap_client/src/gdk_json.rs), [Session], [Wallet]
      (sideswap_client/src/gdk_ses.rs, gdk_ses_impl.rs): a wallet session over the library
      GDK - its data; answering what GDK asks of a hardware wallet; payments, swaps,
      payjoins, logging in.
    - [Handles] (sideswap_client/src/gdk_ses_impl.rs, gdk.rs): the same calls with the
      pointers that GDK makes and the client has to destroy.
    - [JadeSession] (sideswap_client/src/gdk_ses_jade.rs): the two sessions of a wallet on
      a Jade, one of which signs.
    - [Register], [Prompt] (sideswap_client/src/worker.rs): registering a wallet, and what
      the application shows of its device.
    - [Headless], [HeadlessWallet] (sideswap_headless_server/src/worker.rs, api_server.rs,
      wallet.rs): a server that places orders for its operator - the worker with its
      orders, and the wallet thread, which signs on its own; [HeadlessCalls]: theorems about
      the worker over any [Link].
    - [Trader] (sideswap_headless_trader/src/main.rs): a seller that drives the client
      worker through the messages of the application.
    - [Swaps], [History]: theorems about sessions: a swap from the sign request to the
      signature, and the pages of a wallet's transactions.

    ** How the code is read

    A struct is a record with the struct's prefix on its fields, an enum an inductive
    type.  A method that changes its receiver is a computation of [M] over a state
    record, named as in Rust; [?] is [bind], [unwrap], [expect] and [assert!] panic, and
    what a handler did before it failed stays done.  [i64], [u64] and [u32] arithmetic
    wraps, as the release profile makes it; where a theorem assumes that it does not,
    it says so.  A [BTreeMap] is a [gmap] read in key order ([btree_list]), a [HashMap] is
    a [gmap].  Side effects (messages, requests, files, log) append to a log in the
    state; the wallets, the server, the exchange, the clock and every foreign library
    are fields of an environment record ([DealerEnv], [BfEnv], [PjEnv], [WorkerEnv],
    [WsEnv], [BridgeEnv], [PriceEnv], [RegEnv], [SerialEnv], [JadeEnv], [MngEnv], [GdkEnv],
    [JadeSesEnv], [HsEnv], [TrEnv], [FfiEnv], [RpcEnv], [RegistryEnv], [PinEnv],
    [SlackEnv], [OpEnv]) whose answers may depend on the whole log so
    far.  How the [elements] crate reads an identifier is such a field too ([ElementsIds]),
    of which only is known that 64 hexadecimal digits are one; identifiers are kept as the
    bytes of their text, as [Hash32] of sideswap_api.  A theorem without a hypothesis on the environment therefore holds for every
    behaviour of server and wallets, and one with a hypothesis has a witness with a concrete
    environment.  The threads of the programs
    share nothing but channels, so a program is its loop run on a list of messages, in any
    order.

    ** What is shown

    - signing: [Worker.orders_signed_once] (at most one signature for an order in a
      whole run), [Orders.sign_request_agreed] (at once only on agreed terms),
      [Signing.agreed_request_signed] (agreed terms are signed at once),
      [Signing.edited_price_agreed], [Dealer.dealer_signs_only_good_orders],
      [Swaps.swap_signed_as_agreed] (from the sign request to what GDK signs: by GDK's own
      account the transaction does to the wallet what was agreed),
      [JadeSession.jade_session_signs] (of the two sessions of a wallet on a Jade only one
      signs, after logging in), [HeadlessWallet.headless_signs_terms] (all the headless
      server signs are swaps for the terms of their sign requests),
      [DealerWs.unattended_offers_nothing] and [DealerWs.clients_authorized] (a dealer
      offers swaps only while somebody sets its prices whose connection began with the
      secret; a wrong one ends it).
    - money is not lost: [Rpc.wallet_pays_once] (over a node that may not answer, and
      dealers that run one after the other in one directory) and the state machine of
      transfers, [Files.dealer_resumes] (a dealer that is stopped, even while it writes its
      file, resumes with the transfer it had; only between the payment and the saving it
      must not be stopped, [Files.paid_not_saved]),
      [Dealer.dealer_quotes_once], [Headless.inputs_reserved_once] (no output is in two
      orders), [Payjoin.payjoin_pays_as_asked], [Payjoin.payjoin_only_signatures_added],
      [Payjoin.payjoin_keeps_secrets]; [Wallet.pegout_exact] (a pegout pays what was
      announced).
    - the hardware wallet: [Serial.jade_messages_delivered], [Jade.jade_request_answered],
      [Jade.jade_answers_requested], [Jade.jade_status_undisturbed],
      [Session.jade_swap_summary_net] (what the device shows of a swap),
      [Register.registration_keys] (the keys of a registration replace the device),
      [Prompt.no_prompt_left] (no prompt stays on the screen).
    - connections: [Links.links_promise] (all three threads are [Link]s),
      [Links.silent_link_given_up], [HeadlessCalls.calls_answered_once] (over a [Link], the
      headless server answers every call once), [Operator.operator_answered] and
      [Operator.operator_pays_once] (with its threads the hedging dealer is a run of its loop,
      and answers its operator), [DealerLink.offline_silent] (over a [Link], a
      dealer asks nothing of a server it is not connected to).
    - amounts: coin selection ([Types.select_utxo_correct] and its error case), fees and
      largest amounts ([Types.get_max_bitcoin_amount_safe]), inputs of orders
      ([Orders.fund_order_covers], [Dealer.dealer_inputs_cover]), hedging, what the trader
      offers ([Trader.trader_offers]).
    - refinement: [Book.application_book_refines], the application's order book is that
      of the worker after every message; [Ffi.ffi_delivers], for every program that keeps
      the rules of the C functions the interface is a pair of channels to the worker, and
      each box it hands out is freed once;
      [Handles.gdk_calls_refined], a call of GDK does with pointers what it does without
      them, and destroys each exactly once.
    - termination and equivalence: [Pending.pending_requests_terminate],
      [Addresses.load_all_addresses_complete], [History.load_transactions_complete],
      [Registry.assets_as_registered] (through queries and refreshes, the cache of a wallet
      answers as the registry does).
    - data: [Pin.pin_roundtrip] (the PIN gives back the mnemonic).

    ** Fuel

    [process_sign] and [process_pending_requests] call each other; the calls nest at most
    twice, so fuel 2 is enough ([Pending]).  The loop over queued sign requests is given
    the length of the queue, which it shortens each time round.  The loop over the pages
    of addresses has fuel [ADDRESS_PAGES] = 2^32 + 1: pointers are [u32] and fall from
    page to page ([Addresses]).  The loop over the pages of transactions has fuel
    [TX_PAGES] = 2^22: fewer than 2^31 transactions make fewer pages of 900 ([History]).
    Loops over a vector are structural, and so are the questions of GDK: a call asks
    finitely many.

    ** Not modelled

    The vendored GDK library (but for [Registry] and [Pin]), of whose C interface only the
    pointers are modelled ([Handles]); sockets, TLS and HTTP; serde encodings and generated
    code; reading configurations; address parameter tables; the scripts and keys that the
    elements and bitcoin crates build.  They are input and output or belong to other
    projects; where the modelled code calls them they are parameters. *)
From stdpp Require Import base gmap strings list sets sorting.
From Stdlib Require Import ZArith Lia.

(** Notations of the development live in their own scope. *)
Declare Scope side_scope.
Delimit Scope side_scope with side.
Open Scope side_scope.

(** ** Outcomes *)

(** What a Rust call can end in: a value, an [Err] carrying the rendered error,
    or a panic ([unwrap], [expect], [assert!], [panic!]). *)
Inductive outcome (A : Type) : Type :=
  | Ok (a : A)
  | Err (e : string)
  | Panic (e : string).
Arguments Ok {_} _.
Arguments Err {_} _.
Arguments Panic {_} _.

Definition obind {A B} (f : A → outcome B) (x : outcome A) : outcome B :=
  match x with
  | Ok a => f a
  | Err e => Err e
  | Panic e => Panic e
  end.

(** [ensure!(b, e)] in a function that returns a [Result]. *)
Definition oensure (b : bool) (e : string) : outcome unit :=
  if b then Ok tt else Err e.

(** [assert!(b)]. *)
Definition oassert (b : bool) (e : string) : outcome unit :=
  if b then Ok tt else Panic e.

(** [opt.ok_or(e)?] and [opt.expect(e)] *)
Definition ook_or {A} (o : option A) (e : string) : outcome A :=
  match o with Some a => Ok a | None => Err e end.

Definition oexpect {A} (o : option A) (e : string) : outcome A :=
  match o with Some a => Ok a | None => Panic e end.

Definition is_ok {A} (x : outcome A) : bool :=
  match x with Ok _ => true | _ => false end.

Definition is_panic {A} (x : outcome A) : bool :=
  match x with Panic _ => true | _ => false end.

Notation "'let?' x ':=' c 'in' k" := (obind (λ x, k) c)
  (at level 10, x name, c at level 100, k at level 200) : side_scope.
Notation "'let?' ' p ':=' c 'in' k" := (obind (λ p, k) c)
  (at level 10, p pattern, c at level 100, k at level 200) : side_scope.
Notation "'do?' c 'in' k" := (obind (λ _ : unit, k) c)
  (at level 10, c at level 100, k at level 200) : side_scope.

(** ** State-passing computations

    A handler that mutates its receiver is a function from the state before to
    the state after and an outcome: the mutations made before a failing [?] or a
    panic are kept. *)
Definition M (S A : Type) : Type := S → S * outcome A.

Section Monad.
Context {S : Type}.

Definition ret {A} (a : A) : M S A := λ s, (s, Ok a).

Definition bind {A B} (m : M S A) (k : A → M S B) : M S B := λ s,
  match m s with
  | (s', Ok a) => k a s'
  | (s', Err e) => (s', Err e)
  | (s', Panic e) => (s', Panic e)
  end.

Definition fail {A} (e : string) : M S A := λ s, (s, Err e).
Definition panic {A} (e : string) : M S A := λ s, (s, Panic e).
Definition gets {A} (f : S → A) : M S A := λ s, (s, Ok (f s)).
Definition modify (f : S → S) : M S unit := λ s, (f s, Ok tt).
Definition lift {A} (x : outcome A) : M S A := λ s, (s, x).
Definition ensure (b : bool) (e : string) : M S unit := lift (oensure b e).
Definition ok_or {A} (o : option A) (e : string) : M S A := lift (ook_or o e).
Definition expect {A} (o : option A) (e : string) : M S A := lift (oexpect o e).

(** [match self.try_f() { Ok(v) => .., Err(e) => .. }]: an error becomes a
    value, a panic still unwinds. *)
Definition attempt {A} (m : M S A) : M S (A + string) := λ s,
  match m s with
  | (s', Ok a) => (s', Ok (inl a))
  | (s', Err e) => (s', Ok (inr e))
  | (s', Panic e) => (s', Panic e)
  end.

(** [for x in l { f(x) }] *)
Fixpoint for_each {A} (l : list A) (f : A → M S unit) : M S unit :=
  match l with
  | [] => ret tt
  | x :: l => bind (f x) (λ _, for_each l f)
  end.

(** [loop { .. }]: [body] yields [inl] to leave the loop and [inr] to go round
    again; at most [fuel] rounds. *)
Fixpoint loop_fuel {A B} (fuel : positive) (body : B → M S (A + B)) (b : B) : M S (A + B) :=
  let twice (f g : B → M S (A + B)) (b : B) : M S (A + B) :=
    bind (f b) (λ r, match r with inl a => ret (inl a) | inr b => g b end) in
  match fuel with
  | xH => body b
  | xO fuel => twice (loop_fuel fuel body) (loop_fuel fuel body) b
  | xI fuel => twice body (twice (loop_fuel fuel body) (loop_fuel fuel body)) b
  end.
End Monad.

Notation "'let!' x ':=' c 'in' k" := (bind c (λ x, k))
  (at level 10, x name, c at level 100, k at level 200) : side_scope.
Notation "'let!' ' p ':=' c 'in' k" := (bind c (λ p, k))
  (at level 10, p pattern, c at level 100, k at level 200) : side_scope.
Notation "'do!' c 'in' k" := (bind c (λ _ : unit, k))
  (at level 10, c at level 100, k at level 200) : side_scope.

(** ** Machine integers *)

Definition wrap_s (w z : Z) : Z := (z + 2 ^ (w - 1)) `mod` 2 ^ w - 2 ^ (w - 1).
Definition wrap_u (w z : Z) : Z := z `mod` 2 ^ w.

Definition i64_min : Z := - 2 ^ 63.
Definition i64_max : Z := 2 ^ 63 - 1.
Definition u64_max : Z := 2 ^ 64 - 1.

(** Release-mode arithmetic: the workspace sets no [overflow-checks], so a
    release build wraps. *)
Definition wi64 (z : Z) : Z := wrap_s 64 z.
Definition wu64 (z : Z) : Z := wrap_u 64 z.
Definition wu32 (z : Z) : Z := wrap_u 32 z.

(** Saturation of a mathematical integer, as in the float-to-int [as] casts. *)
Definition sat (lo hi z : Z) : Z := Z.max lo (Z.min hi z).

Definition in_i64 (z : Z) : Prop := (i64_min ≤ z ≤ i64_max)%Z.
Definition in_u64 (z : Z) : Prop := (0 ≤ z ≤ u64_max)%Z.

(** ** Lists *)

(** [sort_by_key] is stable; [insert_by] puts [x] after every element that is
    not above it. *)
Fixpoint insert_by {A} (le : A → A → bool) (x : A) (l : list A) : list A :=
  match l with
  | [] => [x]
  | y :: l' => if le y x then y :: insert_by le x l' else x :: y :: l'
  end.

Definition sort_by {A} (le : A → A → bool) (l : list A) : list A :=
  foldl (λ acc x, insert_by le x acc) [] l.

Definition sort_by_key {A} (key : A → Z) : list A → list A :=
  sort_by (λ a b, key a <=? key b)%Z.

(** [Vec::pop] *)
Definition pop_last {A} (l : list A) : option (A * list A) :=
  match reverse l with
  | [] => None
  | x :: r => Some (x, reverse r)
  end.

Definition zsum (l : list Z) : Z := foldr Z.add 0%Z l.

(** [iter().sum::<i64>()]: additions wrap from the left. *)
Definition wsum (l : list Z) : Z := foldl (λ acc x, wi64 (acc + x)) 0%Z l.

(** [iter().position(p)] *)
Fixpoint position {A} (p : A → bool) (l : list A) : option nat :=
  match l with
  | [] => None
  | x :: l' => if p x then Some 0 else S <$> position p l'
  end.

(** [Vec::swap_remove(i)]: the last element takes the place of the removed one. *)
Definition swap_remove {A} (i : nat) (l : list A) : option (A * list A) :=
  match l !! i, pop_last l with
  | Some x, Some (y, l') => Some (x, <[i := y]> l')
  | _, _ => None
  end.

(** The order of the keys of an ordered map. *)
Class KeyOrder (K : Type) := key_le : K → K → bool.

#[export] Instance Z_key_order : KeyOrder Z := Z.leb.
#[export] Instance string_key_order : KeyOrder string := String.leb.
#[export] Instance pair_key_order {K L} `{KeyOrder K, KeyOrder L} : KeyOrder (K * L) :=
  λ a b, if key_le a.1 b.1 && key_le b.1 a.1 then key_le a.2 b.2 else key_le a.1 b.1.

(** The entries of a [BTreeMap] in iteration order: increasing keys. *)
Definition btree_list {K V} `{Countable K, KeyOrder K} (m : gmap K V) : list (K * V) :=
  sort_by (λ a b, key_le a.1 b.1) (map_to_list m).

(** [BTreeSet] iteration. *)
Definition btree_elements {K} `{Countable K, KeyOrder K} (s : gset K) : list K :=
  sort_by key_le (elements s).

(** ** Record updates

    [r <| p := v |>] is [r] with field [p] set to [v]; [r <| p ::= f |>] applies
    [f] to the field.  The records of the development have primitive projections,
    so the updated record is found by eta. *)
Class Setter {R T : Type} (proj : R → T) := set : (T → T) → R → R.
Arguments set {R T} proj {_} _ _.

Ltac solve_setter :=
  lazymatch goal with
  | |- @Setter ?R ?T ?proj =>
      let f := fresh "f" in let r := fresh "r" in
      intros f r;
      let t := open_constr:(ltac:(econstructor) : R) in
      unify t r;
      let u := eval pattern (proj r) in t in
      lazymatch u with ?g _ => let v := eval cbv beta in (g (f (proj r))) in exact v end
  end.
#[export] Hint Extern 0 (Setter _) => solve_setter : typeclass_instances.

Notation "r <| p := v |>" := (set p (λ _, v) r)
  (at level 1, left associativity, p at level 9, v at level 200,
   format "r  <| p  :=  v |>") : side_scope.
Notation "r <| p ::= f |>" := (set p f r)
  (at level 1, left associativity, p at level 9, f at level 200,
   format "r  <| p  ::=  f |>") : side_scope.

(** ** Weakest preconditions of state-passing computations *)
Definition wp {S A} (m : M S A) (s : S) (Q : outcome A → S → Prop) : Prop :=
  Q (m s).2 (m s).1.

(** [I] is kept by [m] whatever it ends in. *)
Definition keeps {S A} (I : S → Prop) (m : M S A) : Prop :=
  ∀ s, I s → I (m s).1.

(** From [I], [m] ends in [J]. *)
Definition triple {S A} (I : S → Prop) (m : M S A) (J : S → Prop) : Prop :=
  ∀ s, I s → J (m s).1.

(** What [m] yields when it succeeds satisfies [Q]. *)
Definition yields {S A} (m : M S A) (Q : A → Prop) : Prop :=
  ∀ s s' a, m s = (s', Ok a) → Q a.

(** The same for a relation between the state before and the state after. *)
Definition steps {S A} (R : S → S → Prop) (m : M S A) : Prop :=
  ∀ s, R s (m s).1.

(** From [I], [m] succeeds in [J] or fails in [K]; nothing is said of a panic,
    which ends the program. *)
Definition lands {S A} (I J K : S → Prop) (m : M S A) : Prop :=
  ∀ s, I s → match (m s).2 with
             | Ok _ => J (m s).1
             | Err _ => K (m s).1
             | Panic _ => True
             end.

(** From the states of [I], [m] ends in one of them, and its outcome satisfies [Q]. *)
Definition ends {S A} (I : S → Prop) (m : M S A) (Q : outcome A → Prop) : Prop :=
  ∀ s, I s → I (m s).1 ∧ Q (m s).2.

(** What is left for the outcome of a first step: [P] of its value, or already the
    final [Q]. *)
Definition so_far {A B} (P : A → Prop) (Q : outcome B → Prop) (o : outcome A) : Prop :=
  match o with Ok a => P a | Err e => Q (Err e) | Panic e => Q (Panic e) end.

(** From the states of [I], two computations do the same. *)
Definition same_on {S A} (I : S → Prop) (m m' : M S A) : Prop := ∀ s, I s → m s = m' s.

(** ** Lemmas: outcomes *)

Lemma oensure_Ok b e : oensure b e = Ok tt ↔ b = true.
Proof. by destruct b. Qed.

Lemma oassert_Ok b e : oassert b e = Ok tt ↔ b = true.
Proof. by destruct b. Qed.

Lemma obind_Ok {A B} (f : A → outcome B) x b :
  obind f x = Ok b ↔ ∃ a, x = Ok a ∧ f a = Ok b.
Proof. split; [destruct x; [eauto|done|done]|by intros (a & -> & ?)]. Qed.

Lemma oexpect_Ok {A} (o : option A) e a : oexpect o e = Ok a ↔ o = Some a.
Proof. destruct o; split; by intros [= ->]. Qed.

Lemma ook_or_Ok {A} (o : option A) e a : ook_or o e = Ok a ↔ o = Some a.
Proof. destruct o; split; by intros [= ->]. Qed.

(** ** Lemmas: machine integers *)

Lemma wrap_s_id w z : (0 < w)%Z → (- 2 ^ (w - 1) ≤ z < 2 ^ (w - 1))%Z → wrap_s w z = z.
Proof.
  intros Hw Hz. unfold wrap_s.
  assert (2 ^ w = 2 * 2 ^ (w - 1))%Z as E.
  { rewrite <- Z.pow_succ_r by lia. f_equal. lia. }
  rewrite Z.mod_small; lia.
Qed.

Lemma wi64_id z : in_i64 z → wi64 z = z.
Proof. unfold in_i64, i64_min, i64_max. intros. apply wrap_s_id; lia. Qed.

Lemma wu64_id z : in_u64 z → wu64 z = z.
Proof. unfold in_u64, u64_max, wu64, wrap_u. intros. apply Z.mod_small. lia. Qed.

Lemma wi64_range z : in_i64 (wi64 z).
Proof.
  unfold in_i64, wi64, wrap_s, i64_min, i64_max.
  pose proof (Z.mod_pos_bound (z + 2 ^ (64 - 1)) (2 ^ 64)). lia.
Qed.

(** [x as u64 as i64] *)
Lemma wi64_wu64 z : wi64 (wu64 z) = wi64 z.
Proof.
  unfold wi64, wu64, wrap_s, wrap_u. f_equal.
  by rewrite Z.add_mod_idemp_l by (apply Z.pow_nonzero; lia).
Qed.

Lemma wu64_add_l a b : wu64 (wu64 a + b) = wu64 (a + b).
Proof. unfold wu64, wrap_u. by rewrite Zplus_mod_idemp_l. Qed.

Lemma wu64_sub_l a b : wu64 (wu64 a - b) = wu64 (a - b).
Proof. unfold wu64, wrap_u. by rewrite Zminus_mod_idemp_l. Qed.

Lemma wu64_range z : in_u64 (wu64 z).
Proof.
  unfold in_u64, wu64, wrap_u, u64_max.
  pose proof (Z.mod_pos_bound z (2 ^ 64)). lia.
Qed.

Lemma sat_id lo hi z : (lo ≤ z ≤ hi)%Z → sat lo hi z = z.
Proof. unfold sat. lia. Qed.

(** ** Lemmas: lists *)

Lemma insert_by_perm {A} (le : A → A → bool) x l : insert_by le x l ≡ₚ x :: l.
Proof.
  induction l as [|y l IH]; simpl; [done|].
  destruct (le y x); [|done]. rewrite IH. apply perm_swap.
Qed.

Lemma sort_by_perm {A} (le : A → A → bool) l : sort_by le l ≡ₚ l.
Proof.
  unfold sort_by.
  cut (∀ acc, foldl (λ acc x, insert_by le x acc) acc l ≡ₚ acc ++ l).
  { intros H. apply (H []). }
  induction l as [|x l IH]; intros acc; simpl; [by rewrite app_nil_r|].
  rewrite IH, insert_by_perm. apply Permutation_middle.
Qed.

Lemma sort_by_key_perm {A} (key : A → Z) l : sort_by_key key l ≡ₚ l.
Proof. apply sort_by_perm. Qed.

Lemma insert_by_sorted {A} (key : A → Z) x l :
  StronglySorted (λ a b, key a ≤ key b)%Z l →
  StronglySorted (λ a b, key a ≤ key b)%Z (insert_by (λ a b, key a <=? key b)%Z x l).
Proof.
  induction 1 as [|y l Hl IH Hy]; simpl; [by repeat constructor|].
  destruct (Z.leb_spec (key y) (key x)) as [Hle|Hlt].
  - constructor; [done|]. rewrite insert_by_perm. constructor; [done|]. done.
  - constructor; [by constructor|]. constructor; [lia|].
    eapply Forall_impl; [exact Hy|]. simpl. lia.
Qed.

Lemma sort_by_key_sorted {A} (key : A → Z) l :
  StronglySorted (λ a b, key a ≤ key b)%Z (sort_by_key key l).
Proof.
  unfold sort_by_key, sort_by. set (ins := λ acc x, insert_by _ x acc).
  cut (∀ acc, StronglySorted (λ a b, key a ≤ key b)%Z acc →
         StronglySorted (λ a b, key a ≤ key b)%Z (foldl ins acc l)).
  { intros H. apply H. constructor. }
  induction l as [|x l IH]; intros acc Hacc; simpl; [done|].
  apply IH. by apply insert_by_sorted.
Qed.

Lemma StronglySorted_reverse {A} (R : relation A) l :
  StronglySorted R l → StronglySorted (flip R) (reverse l).
Proof.
  induction 1 as [|x l Hl IH Hx]; [constructor|].
  rewrite reverse_cons. apply StronglySorted_app_2; [|done|by repeat constructor].
  intros a b Ha Hb. apply list_elem_of_singleton in Hb as ->. unfold flip.
  rewrite Forall_forall in Hx. apply Hx. by apply elem_of_reverse.
Qed.

Lemma pop_last_Some {A} (l l' : list A) x : pop_last l = Some (x, l') ↔ l = l' ++ [x].
Proof.
  unfold pop_last. split.
  - destruct (reverse l) as [|y r] eqn:E; [done|]. intros [= -> <-].
    rewrite <- (reverse_involutive l), E. by rewrite reverse_cons.
  - intros ->. rewrite reverse_snoc. simpl. by rewrite reverse_involutive.
Qed.

Lemma pop_last_None {A} (l : list A) : pop_last l = None ↔ l = [].
Proof.
  unfold pop_last. split; [|by intros ->].
  destruct (reverse l) eqn:E; [|done]. intros _.
  apply (f_equal reverse) in E. by rewrite reverse_involutive in E.
Qed.

Lemma pop_last_is_Some {A} (l : list A) : l ≠ [] → is_Some (pop_last l).
Proof.
  intros H. destruct (pop_last l) eqn:E; [done|]. by apply pop_last_None in E.
Qed.

Lemma zsum_cons x l : zsum (x :: l) = (x + zsum l)%Z.
Proof. done. Qed.

Lemma zsum_app l k : zsum (l ++ k) = (zsum l + zsum k)%Z.
Proof. induction l; simpl in *; lia. Qed.

#[export] Instance zsum_perm : Proper ((≡ₚ) ==> (=)) zsum.
Proof. intros l k H. induction H; simpl in *; lia. Qed.

Lemma zsum_nonneg l : Forall (λ x, 0 ≤ x)%Z l → (0 ≤ zsum l)%Z.
Proof. induction 1; simpl in *; lia. Qed.

Lemma position_Some {A} (p : A → bool) l i :
  position p l = Some i → ∃ x, l !! i = Some x ∧ p x = true.
Proof.
  revert i. induction l as [|x l IH]; intros i; simpl; [done|].
  destruct (p x) eqn:E.
  - intros [= <-]. by exists x.
  - destruct (position p l); simpl; [|done]. intros [= <-]. simpl. by apply IH.
Qed.

Lemma position_is_Some {A} (p : A → bool) l x :
  x ∈ l → p x = true → is_Some (position p l).
Proof.
  intros Hin Hp. induction Hin as [x l|x y l Hin IH]; simpl.
  - by rewrite Hp.
  - destruct (p y); [done|]. destruct (IH Hp) as [i ->]. done.
Qed.

Lemma swap_remove_perm {A} i (l l' : list A) x :
  swap_remove i l = Some (x, l') → l ≡ₚ x :: l'.
Proof.
  unfold swap_remove. destruct (l !! i) as [y|] eqn:Hi; [|done].
  destruct (pop_last l) as [[z k]|] eqn:Hp; [|done]. intros [= <- <-].
  apply pop_last_Some in Hp. subst l.
  destruct (decide (i < length k)) as [Hlt|Hge].
  - rewrite lookup_app_l in Hi by done.
    apply list_elem_of_split_length in Hi as (k1 & k2 & -> & ->).
    rewrite insert_app_r_alt, Nat.sub_diag by lia. simpl. solve_Permutation.
  - rewrite list_insert_ge by lia.
    rewrite lookup_app_r in Hi by lia.
    destruct (i - length k); simpl in Hi; [|done]. injection Hi as ->.
    solve_Permutation.
Qed.

Lemma swap_remove_is_Some {A} i (l : list A) :
  is_Some (l !! i) → is_Some (swap_remove i l).
Proof.
  intros [x Hx]. unfold swap_remove. rewrite Hx.
  destruct (pop_last_is_Some l) as [[y k] ->]; [by intros ->|done].
Qed.

(** Taking out the first element that passes a test. *)
Lemma swap_remove_position {A} (p : A → bool) l x :
  x ∈ l → p x = true →
  ∃ i y rest, position p l = Some i ∧ swap_remove i l = Some (y, rest) ∧ p y = true ∧
    l ≡ₚ y :: rest.
Proof.
  intros Hin Hp. destruct (position_is_Some p l x Hin Hp) as [i Hi].
  pose proof Hi as (y & Hlk & Hy)%position_Some.
  destruct (swap_remove_is_Some i l) as [[z rest] Hsr]; [by eexists|].
  assert (z = y) as ->.
  { unfold swap_remove in Hsr. rewrite Hlk in Hsr. destruct (pop_last l) as [[]|]; congruence. }
  exists i, y, rest. split_and!; [done..|]. by eapply swap_remove_perm.
Qed.

Lemma elem_of_btree_list {K V} `{Countable K, KeyOrder K} (m : gmap K V) k v :
  (k, v) ∈ btree_list m ↔ m !! k = Some v.
Proof. unfold btree_list. by rewrite sort_by_perm, elem_of_map_to_list. Qed.

Lemma NoDup_btree_list {K V} `{Countable K, KeyOrder K} (m : gmap K V) :
  NoDup (btree_list m).*1.
Proof. unfold btree_list. rewrite sort_by_perm. apply NoDup_fst_map_to_list. Qed.

Lemma elem_of_btree_elements {K} `{Countable K, KeyOrder K} (s : gset K) k :
  k ∈ btree_elements s ↔ k ∈ s.
Proof. unfold btree_elements. by rewrite sort_by_perm, elem_of_elements. Qed.

(** ** Lemmas: computations *)

Section Wp.
Context {S : Type}.
Implicit Types (s : S) (I : S → Prop).

Lemma wp_bind {A B} (m : M S A) (k : A → M S B) s Q :
  wp m s (λ o s', match o with
                  | Ok a => wp (k a) s' Q
                  | Err e => Q (Err e) s'
                  | Panic e => Q (Panic e) s'
                  end) → wp (bind m k) s Q.
Proof. unfold wp, bind. destruct (m s) as [s' []]; done. Qed.

Lemma bind_gets {A B} (f : S → A) (k : A → M S B) s : bind (gets f) k s = k (f s) s.
Proof. done. Qed.

Lemma bind_modify {B} (f : S → S) (k : unit → M S B) s : bind (modify f) k s = k tt (f s).
Proof. done. Qed.

(** Running a computation forward. *)
Lemma bind_run {A B} (m : M S A) (k : A → M S B) s s' a : m s = (s', Ok a) → bind m k s = k a s'.
Proof. intros E. unfold bind. by rewrite E. Qed.
Lemma ok_or_run {A} (o : option A) e s a : o = Some a → ok_or o e s = (s, Ok a).
Proof. by intros ->. Qed.
Lemma expect_run {A} (o : option A) e s a : o = Some a → expect o e s = (s, Ok a).
Proof. by intros ->. Qed.
Lemma ensure_run b e s : b = true → ensure b e s = (s, Ok tt).
Proof. by intros ->. Qed.

Lemma wp_mono {A} (m : M S A) s (Q Q' : outcome A → S → Prop) :
  wp m s Q → (∀ o s', Q o s' → Q' o s') → wp m s Q'.
Proof. unfold wp. auto. Qed.

Lemma keeps_ret {A} I (a : A) : keeps I (ret a).
Proof. by intros s Hs. Qed.
Lemma keeps_fail {A} I e : keeps I (@fail S A e).
Proof. by intros s Hs. Qed.
Lemma keeps_panic {A} I e : keeps I (@panic S A e).
Proof. by intros s Hs. Qed.
Lemma keeps_gets {A} I (f : S → A) : keeps I (gets f).
Proof. by intros s Hs. Qed.
Lemma keeps_lift {A} I (x : outcome A) : keeps I (lift x).
Proof. by intros s Hs. Qed.
Lemma keeps_ensure I b e : keeps I (ensure b e).
Proof. by intros s Hs. Qed.
Lemma keeps_ok_or {A} I (o : option A) e : keeps I (ok_or o e).
Proof. by intros s Hs. Qed.
Lemma keeps_expect {A} I (o : option A) e : keeps I (expect o e).
Proof. by intros s Hs. Qed.

Lemma keeps_bind {A B} I (m : M S A) (k : A → M S B) :
  keeps I m → (∀ a, keeps I (k a)) → keeps I (bind m k).
Proof.
  intros Hm Hk s Hs. specialize (Hm s Hs). unfold bind.
  destruct (m s) as [s' []]; simpl in *; [by apply Hk|done|done].
Qed.

Lemma keeps_bind_yields {A B} I (m : M S A) (k : A → M S B) Q :
  keeps I m → yields m Q → (∀ a, Q a → keeps I (k a)) → keeps I (bind m k).
Proof.
  intros Hm HQ Hk s Hs. specialize (Hm s Hs). unfold bind.
  destruct (m s) as [s' [a| |]] eqn:E; simpl in *; [|done|done].
  apply Hk; [|done]. by eapply HQ.
Qed.

Lemma yields_ret {A} (a : A) Q : Q a → yields (@ret S A a) Q.
Proof. by intros HQ s s' b [= _ <-]. Qed.

Lemma yields_lift {A} (x : outcome A) (Q : A → Prop) :
  (∀ a, x = Ok a → Q a) → yields (@lift S A x) Q.
Proof. intros HQ s s' b [= _ H]. auto. Qed.

Lemma yields_attempt {A} (m : M S A) (Q : A → Prop) :
  yields m Q → yields (attempt m) (λ r, match r with inl a => Q a | inr _ => True end).
Proof.
  intros Hm s s' r. unfold attempt. destruct (m s) as [s1 [a| |]] eqn:E; [|by intros [= _ <-]|done].
  intros [= _ <-]. by eapply Hm.
Qed.

Lemma yields_bind {A B} (m : M S A) (k : A → M S B) P Q :
  yields m P → (∀ a, P a → yields (k a) Q) → yields (bind m k) Q.
Proof.
  intros Hm Hk s s' b. unfold bind. destruct (m s) as [s1 [a| |]] eqn:E; [|done|done].
  intros H. eapply Hk; [by eapply Hm|done].
Qed.

Lemma bind_Ok {A B} (m : M S A) (k : A → M S B) s s' b :
  bind m k s = (s', Ok b) ↔ ∃ s1 a, m s = (s1, Ok a) ∧ k a s1 = (s', Ok b).
Proof.
  unfold bind. destruct (m s) as [s1 [a| |]]; split; intros H; try done.
  - by exists s1, a.
  - by destruct H as (? & ? & [= -> ->] & ?).
  - by destruct H as (? & ? & [=] & ?).
  - by destruct H as (? & ? & [=] & ?).
Qed.

Lemma ret_Ok {A} (a b : A) s s' : ret a s = (s', Ok b) ↔ s' = s ∧ b = a.
Proof. split; [by intros [= -> ->]|by intros [-> ->]]. Qed.

Lemma lift_Ok {A} (x : outcome A) s s' a : lift x s = (s', Ok a) ↔ s' = s ∧ x = Ok a.
Proof. split; [by intros [= -> ->]|by intros [-> ->]]. Qed.

Lemma gets_Ok {A} (f : S → A) s s' a : gets f s = (s', Ok a) ↔ s' = s ∧ a = f s.
Proof. split; [by intros [= -> ->]|by intros [-> ->]]. Qed.

Lemma modify_Ok (f : S → S) s s' a : modify f s = (s', Ok a) ↔ s' = f s.
Proof. split; [by intros [= ->]|]. intros ->. by destruct a. Qed.

Lemma yields_True {A} (m : M S A) : yields m (λ _, True).
Proof. done. Qed.

(** Steps that keep [I], then one that ends in the weaker [J]. *)
Lemma triple_bind {A B} I J (m : M S A) (k : A → M S B) Q :
  (∀ s, I s → J s) → keeps I m → yields m Q → (∀ a, Q a → triple I (k a) J) →
  triple I (bind m k) J.
Proof.
  intros HIJ Hm HQ Hk s Hs. specialize (Hm s Hs). unfold bind.
  destruct (m s) as [s' [a| |]] eqn:E; simpl in *; [|by apply HIJ|by apply HIJ].
  apply Hk; [|done]. by eapply HQ.
Qed.

(** A step that ends in [J], then steps that keep [J]. *)
Lemma triple_then {A B} I J (m : M S A) (k : A → M S B) :
  triple I m J → (∀ a, keeps J (k a)) → triple I (bind m k) J.
Proof.
  intros Hm Hk s Hs. specialize (Hm s Hs). unfold bind.
  destruct (m s) as [s' []]; simpl in *; [by apply Hk|done|done].
Qed.

Lemma triple_keeps {A} I J (m : M S A) : (∀ s, I s → J s) → keeps I m → triple I m J.
Proof. intros HIJ Hm s Hs. by apply HIJ, Hm. Qed.

Lemma lands_keeps {A} I (m : M S A) : keeps I m → lands I I I m.
Proof. intros Hm s Hs. specialize (Hm s Hs). by destruct (m s) as [s' []]. Qed.

Lemma lands_weaken {A} I J K I' J' K' (m : M S A) :
  lands I J K m → (∀ s, I' s → I s) → (∀ s, J s → J' s) → (∀ s, K s → K' s) → lands I' J' K' m.
Proof. intros Hm HI HJ HK s Hs. specialize (Hm s (HI s Hs)). destruct (m s) as [s' []]; simpl in *; auto. Qed.

Lemma lands_bind {A B} I J K L (m : M S A) (k : A → M S B) :
  lands I J K m → (∀ a, lands J L K (k a)) → lands I L K (bind m k).
Proof.
  intros Hm Hk s Hs. specialize (Hm s Hs). unfold bind. destruct (m s) as [s' [a|e|e]]; simpl in *.
  - exact (Hk a s' Hm).
  - exact Hm.
  - done.
Qed.

Lemma lands_bind_yields {A B} I J K L (m : M S A) (k : A → M S B) Q :
  lands I J K m → yields m Q → (∀ a, Q a → lands J L K (k a)) → lands I L K (bind m k).
Proof.
  intros Hm HQ Hk s Hs. specialize (Hm s Hs). unfold bind.
  destruct (m s) as [s' [a|e|e]] eqn:E; simpl in *; [|done|done].
  exact (Hk a (HQ _ _ _ E) s' Hm).
Qed.

Lemma lands_attempt {A} I J (m : M S A) : lands I J J m → lands I J (λ _, False) (attempt m).
Proof. intros Hm s Hs. specialize (Hm s Hs). unfold attempt. by destruct (m s) as [s' []]. Qed.

(** A loop whose invariant speaks of the elements still to come. *)
Lemma lands_for_each {A} (P : list A → S → Prop) K l (f : A → M S unit) :
  (∀ x rest, x ∈ l → lands (P (x :: rest)) (P rest) K (f x)) →
  lands (P l) (P []) K (for_each l f).
Proof.
  induction l as [|x l IH]; intros Hf; [by intros s Hs|].
  eapply lands_bind; [apply Hf; left|]. intros _. apply IH. intros y rest Hy. apply Hf. by right.
Qed.

Lemma ends_bind {A B} I (m : M S A) (k : A → M S B) P (Q : outcome B → Prop) :
  ends I m (so_far P Q) → (∀ a, P a → ends I (k a) Q) → ends I (bind m k) Q.
Proof.
  intros Hm Hk s Hs. destruct (Hm s Hs) as [Hs' Hp]. unfold bind.
  destruct (m s) as [s' [a|e|e]]; simpl in *; [by apply Hk|done|done].
Qed.

Lemma ends_ret {A} I (a : A) (Q : outcome A → Prop) : Q (Ok a) → ends I (ret a) Q.
Proof. by intros HQ s Hs. Qed.

Lemma ends_mono {A} I (m : M S A) (P Q : outcome A → Prop) :
  ends I m P → (∀ o, P o → Q o) → ends I m Q.
Proof. intros Hm HQ s Hs. destruct (Hm s Hs). auto. Qed.

(** A loop whose rounds get closer to an end: after all its fuel the measure
    would be below zero. *)
Lemma ends_loop_fuel {A B} I (J : B → Prop) (μ : B → Z) (Q : outcome A → Prop) fuel
    (body : B → M S (A + B)) :
  let round n b (r : A + B) :=
    match r with inl a => Q (Ok a) | inr b' => J b' ∧ (μ b' + n ≤ μ b)%Z end in
  (∀ b, J b → ends I (body b) (so_far (round 1%Z b) Q)) →
  ∀ b, J b → ends I (loop_fuel fuel body b) (so_far (round (Z.pos fuel) b) Q).
Proof.
  intros round Hb.
  assert (∀ n b b' o, J b' → (μ b' + n ≤ μ b)%Z → ∀ n', so_far (round n' b') Q o →
            so_far (round (n' + n)%Z b) Q o) as Hround.
  { intros n b b' [[a|b'']|e|e] Jb' Hn n' H; simpl in *; try done. destruct H. split; [done|lia]. }
  induction fuel as [fuel IH|fuel IH|]; intros b Jb; simpl; [| |by apply Hb].
  - eapply ends_bind; [by apply Hb|]. intros [a|b1] H1; [by apply ends_ret|]. destruct H1 as [J1 H1].
    eapply ends_bind with (P := round (Z.pos fuel + 1)%Z b).
    { eapply ends_mono; [by apply IH|]. intros o. by apply (Hround 1%Z b b1). }
    intros [a|b2] H2; [by apply ends_ret|]. destruct H2 as [J2 H2].
    eapply ends_mono; [by apply IH|]. intros o Ho.
    replace (Z.pos fuel~1) with (Z.pos fuel + (Z.pos fuel + 1))%Z by lia.
    by apply (Hround _ b b2).
  - eapply ends_bind; [by apply IH|]. intros [a|b1] H1; [by apply ends_ret|]. destruct H1 as [J1 H1].
    eapply ends_mono; [by apply IH|]. intros o Ho.
    replace (Z.pos fuel~0) with (Z.pos fuel + Z.pos fuel)%Z by lia. by apply (Hround _ b b1).
Qed.

Lemma same_on_refl {A} I (m : M S A) : same_on I m m.
Proof. by intros s _. Qed.

Lemma same_on_bind {A B} I (m m' : M S A) (k k' : A → M S B) :
  keeps I m → same_on I m m' → (∀ a, same_on I (k a) (k' a)) → same_on I (bind m k) (bind m' k').
Proof.
  intros Hm E Hk s Hs. specialize (Hm s Hs). unfold bind. rewrite <- (E s Hs).
  destruct (m s) as [s' []]; simpl in *; [by apply Hk|done|done].
Qed.

Lemma same_on_attempt {A} I (m m' : M S A) : same_on I m m' → same_on I (attempt m) (attempt m').
Proof. intros E s Hs. unfold attempt. by rewrite (E s Hs). Qed.

Lemma keeps_attempt {A} I (m : M S A) : keeps I m → keeps I (attempt m).
Proof.
  intros Hm s Hs. specialize (Hm s Hs). unfold attempt.
  by destruct (m s) as [s' []].
Qed.

Lemma keeps_for_each {A} I (l : list A) (f : A → M S unit) :
  (∀ x, x ∈ l → keeps I (f x)) → keeps I (for_each l f).
Proof.
  induction l as [|x l IH]; intros H; simpl; [apply keeps_ret|].
  apply keeps_bind; [apply H; set_solver|]. intros _. apply IH.
  intros y Hy. apply H. set_solver.
Qed.

(** What a loop establishes of the elements it went through, all of them unless it failed. *)
Lemma for_each_run {A} (P : list A → S → Prop) (f : A → M S unit) l s done :
  (∀ done x s, P done s → P (done ++ [x]) (f x s).1) → P done s →
  ∃ n, ((for_each l f s).2 = Ok tt → n = length l) ∧ P (done ++ take n l) (for_each l f s).1.
Proof.
  intros Hf. revert s done. induction l as [|x l IH]; intros s done Hs; cbn [for_each].
  { exists 0. by rewrite app_nil_r. }
  apply (Hf done x) in Hs. unfold bind. destruct (f x s) as [s' [[]|e|e]]; cbn in Hs |- *.
  - destruct (IH s' _ Hs) as (n & Hn & Hl). exists (Datatypes.S n). rewrite <- app_assoc in Hl.
    split; [intros E; by rewrite Hn|done].
  - exists 1. by split.
  - exists 1. by split.
Qed.

Lemma for_each_app {A} (l1 l2 : list A) (f : A → M S unit) s :
  for_each (l1 ++ l2) f s = bind (for_each l1 f) (λ _, for_each l2 f) s.
Proof.
  revert s. induction l1 as [|x l1 IH]; intros s; [done|]. simpl. unfold bind at 1 2.
  unfold bind in IH. unfold bind. destruct (f x s) as [s' []]; [apply IH|done|done].
Qed.

Lemma keeps_loop_fuel {A B} I fuel (body : B → M S (A + B)) b :
  (∀ b, keeps I (body b)) → keeps I (loop_fuel fuel body b).
Proof.
  intros Hb. revert b. induction fuel as [fuel IH|fuel IH|]; intros b; simpl; [..|apply Hb].
  - apply keeps_bind; [apply Hb|]. intros [a|b']; [apply keeps_ret|].
    apply keeps_bind; [apply IH|]. intros [a|b'']; [apply keeps_ret|apply IH].
  - apply keeps_bind; [apply IH|]. intros [a|b']; [apply keeps_ret|apply IH].
Qed.

Lemma keeps_modify I (f : S → S) : (∀ s, I s → I (f s)) → keeps I (modify f).
Proof. intros H s. apply H. Qed.

(** A relation kept by every step of a computation is kept by the whole of
    it, when it is reflexive and transitive. *)
Lemma keeps_steps {A} (R : S → S → Prop) (m : M S A) s0 :
  (∀ I, (∀ s s', I s → R s s' → I s') → keeps I m) →
  R s0 s0 → (∀ a b c, R a b → R b c → R a c) → R s0 (m s0).1.
Proof.
  intros H Hrefl Htrans. apply (H (R s0)); [|done]. intros s s'. apply Htrans.
Qed.
End Wp.

Create HintDb keeps.
#[export] Hint Resolve keeps_ret keeps_fail keeps_panic keeps_gets keeps_lift
  keeps_ensure keeps_ok_or keeps_expect keeps_attempt : keeps.
#[export] Hint Resolve keeps_bind keeps_for_each : keeps.

(** Split a [keeps] goal along the structure of the computation. *)
Ltac keeps_step :=
  lazymatch goal with
  | |- keeps _ (bind _ _) => apply keeps_bind; [|intros ?]
  | |- keeps _ (for_each _ _) => apply keeps_for_each; intros ? ?
  | |- keeps _ (attempt _) => apply keeps_attempt
  | |- keeps _ (if ?b then _ else _) => destruct b
  | |- keeps _ (match ?x with _ => _ end) => destruct x
  | |- keeps _ (let _ := _ in _) => cbv zeta
  | |- keeps _ _ => solve [eauto with keeps nocore]
  end.
Ltac keeps := repeat keeps_step.

(** Take a successful computation apart: every step succeeded, every guard
    held. *)
Ltac ok_inv :=
  repeat (cbv beta in *; match goal with
  | H : obind _ _ = Ok _ |- _ => apply obind_Ok in H; destruct H as (? & ? & H)
  | H : oensure _ _ = Ok _ |- _ => apply oensure_Ok in H
  | H : oassert _ _ = Ok _ |- _ => apply oassert_Ok in H
  | H : ook_or _ _ = Ok _ |- _ => apply ook_or_Ok in H
  | H : oexpect _ _ = Ok _ |- _ => apply oexpect_Ok in H
  | H : bind _ _ _ = (_, Ok _) |- _ => apply bind_Ok in H; destruct H as (? & ? & ? & H)
  | H : ret _ _ = (_, Ok _) |- _ => apply ret_Ok in H; destruct H as [? ?]; subst
  | H : lift _ _ = (_, Ok _) |- _ => apply lift_Ok in H; destruct H as [? H]; subst
  | H : ensure _ _ _ = (_, Ok _) |- _ => apply lift_Ok in H; destruct H as [? H]; subst
  | H : ok_or _ _ _ = (_, Ok _) |- _ => apply lift_Ok in H; destruct H as [? H]; subst
  | H : expect _ _ _ = (_, Ok _) |- _ => apply lift_Ok in H; destruct H as [? H]; subst
  | H : gets _ _ = (_, Ok _) |- _ => apply gets_Ok in H; destruct H as [? ?]; subst
  | H : modify _ _ = (_, Ok _) |- _ => apply modify_Ok in H; subst
  | H : Ok _ = Ok _ |- _ => injection H as ?; subst
  | H : fail _ _ = (_, Ok _) |- _ => discriminate H
  | H : panic _ _ = (_, Ok _) |- _ => discriminate H
  | u : () |- _ => destruct u
  end).

(** Rewriting with an equation about a field: reduction can leave a primitive
    projection in its unfolded form, which the [change] folds back. *)
Ltac rewrite_field H :=
  lazymatch type of H with ?a = _ => change a with a; rewrite H end.
