(* ===== verification/F64.v ===== *)
(** * IEEE 754 binary64 as the program uses it

    [f64] is the Standard Library's [spec_float] at precision 53 and maximal
    exponent 1024, so every operation of this file evaluates.  The second half is
    a small rounding-error library: [fnorm x q] says that [x] is a positive normal
    number of value [q], and multiplication, division and rounding to an integer
    are shown to be within their half-unit of the exact result. *)
From stdpp Require Import numbers.
From Stdlib Require Import ZArith QArith Qabs Qpower Lqa Lia SpecFloat.
From S2P Require Import Prelude.

Definition f64 : Type := spec_float.

Definition fprec : Z := 53.
Definition femax : Z := 1024.

Definition fadd : f64 → f64 → f64 := SFadd fprec femax.
Definition fsub : f64 → f64 → f64 := SFsub fprec femax.
Definition fmul : f64 → f64 → f64 := SFmul fprec femax.
Definition fdiv : f64 → f64 → f64 := SFdiv fprec femax.
Definition fneg : f64 → f64 := SFopp.
Definition fabs : f64 → f64 := SFabs.
Definition feqb : f64 → f64 → bool := SFeqb.
Definition fltb : f64 → f64 → bool := SFltb.
Definition fleb : f64 → f64 → bool := SFleb.
Definition fgtb (x y : f64) : bool := SFltb y x.
Definition fgeb (x y : f64) : bool := SFleb y x.
(** [x != y] is true when either side is a NaN. *)
Definition fneb (x y : f64) : bool := negb (SFeqb x y).

Definition f0 : f64 := S754_zero false.
Definition f64_max : f64 := SFmax_float fprec femax.

Definition is_nan (x : f64) : bool :=
  match x with S754_nan => true | _ => false end.

(** [z as f64] (round to nearest, ties to even) *)
Definition f64_of_Z (z : Z) : f64 := binary_normalize fprec femax z 0 false.

(** A decimal literal [n / d]; exact numerator and denominator make this the
    correctly rounded literal. *)
Definition flit (n d : Z) : f64 := fdiv (f64_of_Z n) (f64_of_Z d).

Definition f1 : f64 := f64_of_Z 1.

(** Integer part of the magnitude, with the remainder scaled by [2 ^ -e]. *)
Definition mag_floor (m : positive) (e : Z) : Z :=
  if (0 <=? e)%Z then (Zpos m * 2 ^ e)%Z else (Zpos m / 2 ^ (- e))%Z.

(** Nearest integer of the magnitude, ties away from zero. *)
Definition mag_round (m : positive) (e : Z) : Z :=
  if (0 <=? e)%Z then (Zpos m * 2 ^ e)%Z
  else ((Zpos m + 2 ^ (- e - 1)) / 2 ^ (- e))%Z.

Definition mag_ceil (m : positive) (e : Z) : Z :=
  if (0 <=? e)%Z then (Zpos m * 2 ^ e)%Z
  else ((Zpos m + 2 ^ (- e) - 1) / 2 ^ (- e))%Z.

Definition signed_of_mag (s : bool) (k : Z) : f64 :=
  if (k =? 0)%Z then S754_zero s else f64_of_Z (if s then - k else k)%Z.

(** [f64::round] *)
Definition fround (x : f64) : f64 :=
  match x with
  | S754_finite s m e =>
      if (0 <=? e)%Z then x else signed_of_mag s (mag_round m e)
  | _ => x
  end.

(** [f64::ceil] *)
Definition fceil (x : f64) : f64 :=
  match x with
  | S754_finite s m e =>
      if (0 <=? e)%Z then x
      else signed_of_mag s (if s then mag_floor m e else mag_ceil m e)
  | _ => x
  end.

(** [x as iN], [x as uN]: truncation, saturation, NaN to zero. *)
Definition f_as_int (lo hi : Z) (x : f64) : Z :=
  match x with
  | S754_nan => 0
  | S754_zero _ => 0
  | S754_infinity s => if s then lo else hi
  | S754_finite s m e =>
      let k := mag_floor m e in sat lo hi (if s then - k else k)%Z
  end.
Definition f_as_i64 : f64 → Z := f_as_int i64_min i64_max.
Definition f_as_u64 : f64 → Z := f_as_int 0 u64_max.

(** [f64::min], [f64::max]: a NaN operand is ignored. *)
Definition fmin (x y : f64) : f64 :=
  if is_nan x then y else if is_nan y then x else if fltb y x then y else x.
Definition fmax (x y : f64) : f64 :=
  if is_nan x then y else if is_nan y then x else if fltb x y then y else x.

(** [x.round() as i64] *)
Definition round_i64 (x : f64) : Z := f_as_i64 (fround x).
(** [x.round() as u64], [x.ceil() as u64] *)
Definition round_u64 (x : f64) : Z := f_as_u64 (fround x).
Definition ceil_u64 (x : f64) : Z := f_as_u64 (fceil x).

#[export] Instance f64_eq_dec : EqDecision f64.
Proof. intros x y. unfold Decision. decide equality; apply (_ : EqDecision _). Defined.

(** ** Values *)

Definition pow2 (e : Z) : Q := Qpower 2 e.

(** [x] is a positive normal number of value [q]. *)
Definition fnorm (x : f64) (q : Q) : Prop :=
  ∃ m e, x = S754_finite false m e ∧ (2 ^ 52 ≤ Zpos m < 2 ^ 53)%Z ∧
         q == inject_Z (Zpos m) * pow2 e.

(** What the bits of a [shr_record] say of the exact value [X]. *)
Definition inloc (X : Q) (r : shr_record) : Prop :=
  let d := X - inject_Z (shr_m r) in
  match shr_r r, shr_s r with
  | false, false => d == 0
  | false, true => 0 < d /\ d < 1 # 2
  | true, false => d == 1 # 2
  | true, true => 1 # 2 < d /\ d < 1
  end.

(** Bound on the relative error of one rounding. *)
Definition ulp53 : Q := 1 # 9007199254740992.

(** The exponent range in which the lemmas below apply. *)
Definition mid_range (q : Q) : Prop := pow2 (-800) <= q /\ q <= pow2 800.

#[export] Instance Qeq_default : SetoidTactics.DefaultRelation Qeq := {}.

#[export] Instance Qle_preorder : PreOrder Qle.
Proof. split; [exact Qle_refl|exact Qle_trans]. Qed.

(** ** Powers of two *)

Lemma pow2_pos e : 0 < pow2 e.
Proof. unfold pow2. apply Qpower_0_lt. reflexivity. Qed.

Lemma pow2_add a b : pow2 (a + b) == pow2 a * pow2 b.
Proof. unfold pow2. apply Qpower_plus. discriminate. Qed.

Lemma pow2_Z n : (0 ≤ n)%Z → pow2 n == inject_Z (2 ^ n).
Proof. intros. unfold pow2. by rewrite Zpower_Qpower. Qed.

Lemma pow2_succ e : pow2 (e + 1) == 2 * pow2 e.
Proof. rewrite pow2_add. change (pow2 1) with 2. ring. Qed.

Lemma pow2_le a b : (a ≤ b)%Z → pow2 a <= pow2 b.
Proof.
  intros. unfold pow2. apply Qpower_le_compat_l; [done|]. discriminate.
Qed.

Lemma pow2_lt_inv a b : pow2 a < pow2 b → (a < b)%Z.
Proof.
  intros H. destruct (Z_lt_le_dec a b) as [|Hle]; [done|].
  apply pow2_le in Hle. lra.
Qed.

Lemma pow2_opp_mul n : (0 ≤ n)%Z → inject_Z (2 ^ n) * pow2 (- n) == 1.
Proof.
  intros. rewrite <- pow2_Z, <- pow2_add by done.
  by replace (n + - n)%Z with 0%Z by lia.
Qed.

(** ** Digits *)

Lemma digits2_pos_bounds p :
  (2 ^ (Zpos (digits2_pos p) - 1) ≤ Zpos p < 2 ^ Zpos (digits2_pos p))%Z.
Proof.
  induction p as [p IH|p IH|]; simpl digits2_pos.
  - rewrite Pos2Z.inj_succ.
    replace (Z.succ (Zpos (digits2_pos p)) - 1)%Z with (Z.succ (Zpos (digits2_pos p) - 1)) by lia.
    rewrite !Z.pow_succ_r by lia. lia.
  - rewrite Pos2Z.inj_succ.
    replace (Z.succ (Zpos (digits2_pos p)) - 1)%Z with (Z.succ (Zpos (digits2_pos p) - 1)) by lia.
    rewrite !Z.pow_succ_r by lia. lia.
  - by vm_compute.
Qed.

Lemma digits2_unique p d :
  (0 < d)%Z → (2 ^ (d - 1) ≤ Zpos p < 2 ^ d)%Z → Zpos (digits2_pos p) = d.
Proof.
  intros Hd [Hl Hu]. pose proof (digits2_pos_bounds p) as [Hl' Hu'].
  assert (2 ^ (d - 1) < 2 ^ Zpos (digits2_pos p))%Z as H1 by lia.
  assert (2 ^ (Zpos (digits2_pos p) - 1) < 2 ^ d)%Z as H2 by lia.
  apply Z.pow_lt_mono_r_iff in H1; [|lia..].
  apply Z.pow_lt_mono_r_iff in H2; lia.
Qed.

(** ** Shifting with a location *)

#[export] Instance inloc_proper : Proper (Qeq ==> eq ==> iff) inloc.
Proof.
  intros X Y E r _ <-. unfold inloc. destruct (shr_r r), (shr_s r); rewrite E; done.
Qed.

Lemma inloc_shr_1 X r :
  (0 ≤ shr_m r)%Z → inloc X r →
  inloc (X / 2) (shr_1 r) ∧ shr_m (shr_1 r) = (shr_m r / 2)%Z.
Proof.
  destruct r as [m rb sb]. simpl. intros Hm H. unfold inloc in *. simpl in *.
  assert (X / 2 == X * (1 # 2)) as EX by (unfold Qdiv; reflexivity).
  destruct m as [|[p|p|]|]; simpl; [| | | |lia];
    (split; [|try (rewrite <- Z.div2_div; reflexivity)]).
  - destruct rb, sb; simpl in *; rewrite EX; change (inject_Z 0) with 0 in *; lra.
  - assert (inject_Z (Zpos p~1) == 2 * inject_Z (Zpos p) + 1) as E.
    { rewrite Pos2Z.inj_xI, inject_Z_plus, inject_Z_mult. reflexivity. }
    destruct rb, sb; simpl in *; rewrite EX; rewrite E in H; lra.
  - assert (inject_Z (Zpos p~0) == 2 * inject_Z (Zpos p)) as E.
    { rewrite Pos2Z.inj_xO, inject_Z_mult. reflexivity. }
    destruct rb, sb; simpl in *; rewrite EX; rewrite E in H; lra.
  - change (inject_Z 1) with 1 in H. change (inject_Z 0) with 0.
    destruct rb, sb; simpl in *; rewrite EX; lra.
Qed.

Lemma iter_pos_nat {A} (f : A → A) p x : SpecFloat.iter_pos f p x = Nat.iter (Pos.to_nat p) f x.
Proof.
  revert x. induction p as [p IH|p IH|]; intros x; [| |done];
    cbn [SpecFloat.iter_pos]; rewrite !IH, <- Nat.iter_add.
  - replace (Pos.to_nat p~1) with ((Pos.to_nat p + Pos.to_nat p) + 1)%nat by lia.
    by rewrite (Nat.iter_add _ 1).
  - f_equal. lia.
Qed.

Lemma inloc_shr n X r :
  (0 ≤ shr_m r)%Z → inloc X r →
  inloc (X * pow2 (- Z.of_nat n)) (Nat.iter n shr_1 r) ∧
  shr_m (Nat.iter n shr_1 r) = (shr_m r / 2 ^ Z.of_nat n)%Z.
Proof.
  intros Hm H. induction n as [|n [IH IHm]].
  - simpl. split; [|by rewrite Z.div_1_r].
    change (pow2 0) with 1. by rewrite Qmult_1_r.
  - simpl Nat.iter.
    assert (0 ≤ shr_m (Nat.iter n shr_1 r))%Z as Hm' by (rewrite IHm; apply Z.div_pos; lia).
    destruct (inloc_shr_1 _ _ Hm' IH) as [H1 H2]. split.
    + assert (X * pow2 (- Z.of_nat n) / 2 == X * pow2 (- Z.of_nat (S n))) as E.
      { replace (- Z.of_nat n)%Z with (- Z.of_nat (S n) + 1)%Z by lia.
        rewrite pow2_succ. field. }
      by rewrite <- E.
    + rewrite H2, IHm, Z.div_div by lia. f_equal.
      rewrite Nat2Z.inj_succ, Z.pow_succ_r by lia. lia.
Qed.

(** Round to nearest even is within half a unit, and one of the neighbours. *)
Lemma round_nearest_even_spec X r :
  inloc X r →
  let k := round_nearest_even (shr_m r) (loc_of_shr_record r) in
  Qabs (inject_Z k - X) <= 1 # 2 ∧ (k = shr_m r ∨ k = shr_m r + 1)%Z.
Proof.
  destruct r as [m rb sb]. unfold inloc.
  cbv beta iota zeta delta [shr_m shr_r shr_s loc_of_shr_record round_nearest_even].
  intros H. assert (inject_Z (m + 1) == inject_Z m + 1) as E by (by rewrite inject_Z_plus).
  destruct rb, sb.
  - split; [|by right]. rewrite E. apply Qabs_Qle_condition. lra.
  - destruct (Z.even m); (split; [|by auto]); rewrite ?E; apply Qabs_Qle_condition; lra.
  - split; [|by left]. apply Qabs_Qle_condition. lra.
  - split; [|by left]. apply Qabs_Qle_condition. lra.
Qed.

(** ** Rounding a positive value *)

Lemma fexp_mid d e :
  (-1021 ≤ d + e)%Z → (fexp fprec femax (d + e) - e)%Z = (d - 53)%Z.
Proof. intros. unfold fexp, emin, fprec, femax. lia. Qed.

Lemma shr_fexp_nonpos m e l :
  (-1021 ≤ Zpos (digits2_pos m) + e)%Z → (Zpos (digits2_pos m) ≤ 53)%Z →
  shr_fexp fprec femax (Zpos m) e l = (shr_record_of_loc (Zpos m) l, e).
Proof.
  intros H1 H2. unfold shr_fexp. cbn [Zdigits2]. rewrite fexp_mid by done.
  destruct (Zpos (digits2_pos m) - 53)%Z eqn:E; simpl; [done|lia|done].
Qed.

Lemma shr_fexp_pos m e l n :
  (-1021 ≤ Zpos (digits2_pos m) + e)%Z → (Zpos (digits2_pos m) = 53 + Z.of_nat n)%Z →
  shr_fexp fprec femax (Zpos m) e l =
    (Nat.iter n shr_1 (shr_record_of_loc (Zpos m) l), e + Z.of_nat n)%Z.
Proof.
  intros H1 H2. unfold shr_fexp. cbn [Zdigits2]. rewrite fexp_mid by done.
  replace (Zpos (digits2_pos m) - 53)%Z with (Z.of_nat n) by lia.
  destruct n as [|n]; [simpl; f_equal; lia|].
  simpl shr. rewrite iter_pos_nat. rewrite SuccNat2Pos.id_succ. done.
Qed.

(** A 53-bit mantissa in range is already rounded. *)
Lemma binary_round_aux_exact s m e :
  (2 ^ 52 ≤ Zpos m < 2 ^ 53)%Z → (-1000 ≤ e ≤ 900)%Z →
  binary_round_aux fprec femax s (Zpos m) e loc_Exact = S754_finite s m e.
Proof.
  intros Hm He.
  assert (Zpos (digits2_pos m) = 53)%Z as Hd by (apply digits2_unique; lia).
  unfold binary_round_aux.
  rewrite shr_fexp_nonpos by lia. cbn.
  rewrite shr_fexp_nonpos by lia. cbn.
  unfold femax, fprec. destruct (Z.leb_spec e (1024 - 53)); [done|lia].
Qed.

(** The two possible mantissas after rounding: 53 bits, or the power [2 ^ 53]. *)
Lemma binary_round_finish s k e :
  (2 ^ 52 ≤ k ≤ 2 ^ 53)%Z → (-1000 ≤ e ≤ 960)%Z →
  ∃ m' e', (let '(mrs, e'') := shr_fexp fprec femax k e loc_Exact in
            match shr_m mrs with
            | Z0 => S754_zero s
            | Zpos m => if Z.leb e'' (femax - fprec) then S754_finite s m e''
                        else S754_infinity s
            | _ => S754_nan
            end) = S754_finite s m' e' ∧
    (2 ^ 52 ≤ Zpos m' < 2 ^ 53)%Z ∧
    inject_Z (Zpos m') * pow2 e' == inject_Z k * pow2 e.
Proof.
  intros Hk He. destruct k as [|p|p]; [lia| |lia].
  destruct (Z.eq_dec (Zpos p) (2 ^ 53)) as [E|NE].
  - exists (2 ^ 52)%positive, (e + 1)%Z.
    assert (Zpos (digits2_pos p) = 54)%Z as Hd by (apply digits2_unique; lia).
    assert (p = (2 ^ 53)%positive) as -> by lia.
    rewrite (shr_fexp_pos _ _ _ 1) by lia.
    change (2 ^ 53)%positive with ((2 ^ 52)~0)%positive.
    change (e + Z.of_nat 1)%Z with (e + 1)%Z. cbn -[Z.add Z.leb Pos.pow inject_Z].
    unfold femax, fprec. destruct (Z.leb_spec (e + 1) (1024 - 53)); [|lia].
    split; [done|]. split; [lia|]. rewrite pow2_succ.
    setoid_replace (inject_Z (Zpos (2 ^ 52)~0)) with (inject_Z (Zpos (2 ^ 52)) * 2)
      by reflexivity.
    ring.
  - exists p, e.
    assert (Zpos (digits2_pos p) = 53)%Z as Hd by (apply digits2_unique; lia).
    rewrite shr_fexp_nonpos by lia. cbn -[Z.leb].
    unfold femax, fprec. destruct (Z.leb_spec e (1024 - 53)); [|lia].
    split; [done|]. split; [lia|]. reflexivity.
Qed.

Lemma Qabs_scale a b c : 0 < c → Qabs (a * c - b * c) == Qabs (a - b) * c.
Proof.
  intros Hc. setoid_replace (a * c - b * c) with ((a - b) * c) by ring.
  rewrite Qabs_Qmult. rewrite (Qabs_pos c) by lra. reflexivity.
Qed.

(** One rounding of a positive value with at least 53 bits: a normal number
    within [ulp53] of the exact value. *)
Lemma binary_round_aux_spec m e l X :
  (2 ^ 52 ≤ Zpos m < 2 ^ 120)%Z → (-910 ≤ e ≤ 800)%Z →
  inloc X (shr_record_of_loc (Zpos m) l) →
  ∃ q, fnorm (binary_round_aux fprec femax false (Zpos m) e l) q ∧
       Qabs (q - X * pow2 e) <= X * pow2 e * ulp53.
Proof.
  intros Hm He HX.
  pose proof (digits2_pos_bounds m) as [Hl Hu].
  assert (52 < Zpos (digits2_pos m))%Z as Hd1.
  { apply (Z.pow_lt_mono_r_iff 2); lia. }
  assert (Zpos (digits2_pos m) - 1 < 120)%Z as Hd2.
  { apply (Z.pow_lt_mono_r_iff 2); lia. }
  set (n := Z.to_nat (Zpos (digits2_pos m) - 53)).
  assert (Zpos (digits2_pos m) = 53 + Z.of_nat n)%Z as Hn by lia.
  unfold binary_round_aux. rewrite (shr_fexp_pos m e l n) by lia.
  set (r0 := shr_record_of_loc (Zpos m) l) in *.
  assert (shr_m r0 = Zpos m) as Hr0 by (unfold r0; destruct l as [|[]]; done).
  destruct (inloc_shr n X r0 ltac:(lia) HX) as [Hloc Hsm].
  set (r1 := Nat.iter n shr_1 r0) in *.
  assert (2 ^ 52 ≤ shr_m r1 < 2 ^ 53)%Z as Hr1.
  { rewrite Hsm, Hr0. rewrite Hn in Hl, Hu.
    replace (53 + Z.of_nat n - 1)%Z with (52 + Z.of_nat n)%Z in Hl by lia.
    rewrite Z.pow_add_r in Hl, Hu by lia. split.
    - apply Z.div_le_lower_bound; lia.
    - apply Z.div_lt_upper_bound; lia. }
  destruct (round_nearest_even_spec _ _ Hloc) as [Hk1 Hk2].
  set (k := round_nearest_even _ _) in *.
  destruct (binary_round_finish false k (e + Z.of_nat n)) as (m' & e' & Eq & Hm' & Hv);
    [lia|lia|].
  rewrite Eq. exists (inject_Z (Zpos m') * pow2 e'). split; [by exists m', e'|].
  rewrite Hv.
  (* value of the rounded mantissa against [X], both scaled by [2 ^ (e + n)] *)
  assert (X * pow2 e == X * pow2 (- Z.of_nat n) * pow2 (e + Z.of_nat n)) as EX.
  { rewrite <- Qmult_assoc, <- pow2_add. f_equiv. f_equiv. lia. }
  rewrite EX. set (Y := X * pow2 (- Z.of_nat n)) in *.
  pose proof (pow2_pos (e + Z.of_nat n)) as Hp.
  set (p := pow2 (e + Z.of_nat n)) in *.
  rewrite Qabs_scale by done.
  assert (inject_Z (2 ^ 52) <= Y) as HY.
  { assert (inject_Z (2 ^ 52) <= inject_Z (shr_m r1)) as H1 by (rewrite <- Zle_Qle; lia).
    unfold inloc in Hloc. destruct (shr_r r1), (shr_s r1); lra. }
  change (inject_Z (2 ^ 52)) with (4503599627370496 # 1) in HY.
  setoid_replace (Y * p * ulp53) with (Y * ulp53 * p) by ring.
  apply Qmult_le_compat_r; [|lra]. unfold ulp53. lra.
Qed.

(** ** Arithmetic on positive normal numbers *)

(** A value in the middle range bounds the exponent of its representation. *)
Lemma mid_range_exponent m e q lo hi :
  (0 ≤ lo)%Z → (0 ≤ hi)%Z → (2 ^ lo ≤ Zpos m < 2 ^ hi)%Z →
  q == inject_Z (Zpos m) * pow2 e → mid_range q →
  (- 800 - hi < e ≤ 800 - lo)%Z.
Proof.
  intros Hlo Hhi [Hl Hu] Hq [H1 H2]. rewrite Hq in H1, H2. pose proof (pow2_pos e).
  assert (pow2 lo * pow2 e <= pow2 800) as Hle.
  { etransitivity; [|exact H2]. rewrite pow2_Z by done.
    apply Qmult_le_compat_r; [rewrite <- Zle_Qle; done|lra]. }
  assert (pow2 (-800) < pow2 hi * pow2 e) as Hlt.
  { eapply Qle_lt_trans; [exact H1|]. rewrite (pow2_Z hi) by done.
    apply Qmult_lt_r; [done|]. rewrite <- Zlt_Qlt. done. }
  rewrite <- pow2_add in Hlt, Hle. apply pow2_lt_inv in Hlt.
  assert (pow2 (lo + e) < pow2 801) as Hle'.
  { eapply Qle_lt_trans; [exact Hle|]. change 801%Z with (800 + 1)%Z.
    rewrite pow2_succ. pose proof (pow2_pos 800). lra. }
  apply pow2_lt_inv in Hle'. lia.
Qed.

Lemma inloc_exact m : inloc (inject_Z (Zpos m)) (shr_record_of_loc (Zpos m) loc_Exact).
Proof. unfold inloc. simpl. ring. Qed.

(** Products: one rounding. *)
Lemma fmul_spec x y p q :
  fnorm x p → fnorm y q → mid_range (p * q) →
  ∃ r, fnorm (fmul x y) r ∧ Qabs (r - p * q) <= p * q * ulp53.
Proof.
  intros (mx & ex & -> & Hmx & Hp) (my & ey & -> & Hmy & Hq) Hr.
  unfold fmul. cbn [SFmul xorb].
  assert (p * q == inject_Z (Zpos (mx * my)) * pow2 (ex + ey)) as Hpq.
  { rewrite Hp, Hq, pow2_add, Pos2Z.inj_mul, inject_Z_mult. ring. }
  assert (2 ^ 52 ≤ Zpos (mx * my) < 2 ^ 120)%Z as Hm by (rewrite Pos2Z.inj_mul; nia).
  assert (-910 ≤ ex + ey ≤ 800)%Z as He.
  { assert (2 ^ 52 ≤ Zpos (mx * my) < 2 ^ 106)%Z by (rewrite Pos2Z.inj_mul; nia).
    pose proof (mid_range_exponent _ _ _ 52 106 ltac:(lia) ltac:(lia) H Hpq Hr). lia. }
  destruct (binary_round_aux_spec (mx * my) (ex + ey) loc_Exact _ Hm He (inloc_exact _))
    as (r & Hn & Herr).
  exists r. split; [done|]. by rewrite Hpq.
Qed.

Lemma fnorm_inj x p q : fnorm x p → fnorm x q → p == q.
Proof. intros (m & e & -> & _ & Hp) (m' & e' & [= <- <-] & _ & Hq). by rewrite Hp, Hq. Qed.

(** A fraction [r / b] against one half. *)
Lemma frac_half r b :
  (0 < b)%Z →
  ((2 * r < b)%Z → inject_Z r / inject_Z b < 1 # 2) ∧
  ((b < 2 * r)%Z → 1 # 2 < inject_Z r / inject_Z b) ∧
  ((2 * r = b)%Z → inject_Z r / inject_Z b == 1 # 2).
Proof.
  intros Hb.
  assert (0 < inject_Z b) as HbQ by (change 0 with (inject_Z 0); by rewrite <- Zlt_Qlt).
  assert (inject_Z (2 * r) == 2 * inject_Z r) as E by (by rewrite inject_Z_mult).
  split; [|split]; intros H.
  - apply Qlt_shift_div_r; [done|].
    assert (inject_Z (2 * r) < inject_Z b) by (by rewrite <- Zlt_Qlt). lra.
  - apply Qlt_shift_div_l; [done|].
    assert (inject_Z b < inject_Z (2 * r)) by (by rewrite <- Zlt_Qlt). lra.
  - rewrite H in E. setoid_replace (inject_Z r) with ((1 # 2) * inject_Z b) by lra.
    field. lra.
Qed.

Lemma inloc_new_location (a b : Z) :
  (0 < b)%Z → (0 ≤ a)%Z →
  inloc (inject_Z a / inject_Z b) (shr_record_of_loc (a / b) (new_location b (a mod b))).
Proof.
  intros Hb Ha. pose proof (Z.mod_pos_bound a b Hb) as Hr.
  assert (a = b * (a / b) + a mod b)%Z as E by (apply Z.div_mod; lia).
  set (k := (a / b)%Z) in *. set (r := (a mod b)%Z) in *.
  assert (0 < inject_Z b) as HbQ by (change 0 with (inject_Z 0); by rewrite <- Zlt_Qlt).
  assert (inject_Z a / inject_Z b - inject_Z k == inject_Z r / inject_Z b) as Ed.
  { rewrite E, inject_Z_plus, inject_Z_mult. field. lra. }
  assert ((0 < r)%Z → 0 < inject_Z r / inject_Z b) as Hpos.
  { intros. apply Qlt_shift_div_l; [done|]. rewrite Qmult_0_l.
    change 0 with (inject_Z 0). by rewrite <- Zlt_Qlt. }
  assert (inject_Z r / inject_Z b < 1) as Hlt1.
  { apply Qlt_shift_div_r; [done|]. rewrite Qmult_1_l, <- Zlt_Qlt. lia. }
  destruct (frac_half r b Hb) as (Hl & Hg & He).
  assert (∀ l, (shr_m (shr_record_of_loc k l)) = k) as Hm by (by intros [|[]]).
  assert (r = 0%Z → inject_Z r / inject_Z b == 0) as Hz
    by (intros ->; unfold Qdiv; ring).
  unfold inloc. cbv zeta. rewrite Hm. unfold new_location. destruct (Z.even b) eqn:Ev.
  - unfold new_location_even. destruct (Z.eqb_spec r 0) as [Hr0|Hr0].
    { cbn [shr_record_of_loc shr_r shr_s]. rewrite Ed. auto. }
    destruct (Z.compare_spec (2 * r) b); cbn [shr_record_of_loc shr_r shr_s];
      rewrite Ed; [auto|split; [apply Hpos; lia|auto]|auto].
  - unfold new_location_odd. destruct (Z.eqb_spec r 0) as [Hr0|Hr0].
    { cbn [shr_record_of_loc shr_r shr_s]. rewrite Ed. auto. }
    assert (2 * r ≠ b)%Z as Hne by (intros Eb; rewrite <- Eb, Z.even_mul in Ev; done).
    destruct (Z.compare_spec (2 * r + 1) b); cbn [shr_record_of_loc shr_r shr_s];
      rewrite Ed; (split; [first [apply Hg; lia|apply Hpos; lia]|]);
      first [apply Hl; lia|done].
Qed.

(** Quotients: one rounding. *)
Lemma fdiv_spec x y p q :
  fnorm x p → fnorm y q → mid_range (p / q) →
  ∃ r, fnorm (fdiv x y) r ∧ Qabs (r - p / q) <= p / q * ulp53.
Proof.
  intros (mx & ex & -> & Hmx & Hp) (my & ey & -> & Hmy & Hq) Hr.
  assert (Zpos (digits2_pos mx) = 53)%Z as Hdx by (apply digits2_unique; lia).
  assert (Zpos (digits2_pos my) = 53)%Z as Hdy by (apply digits2_unique; lia).
  pose proof (pow2_pos ex). pose proof (pow2_pos ey).
  assert (0 < inject_Z (Zpos mx)) as Hmx0 by (change 0 with (inject_Z 0); rewrite <- Zlt_Qlt; lia).
  assert (0 < inject_Z (Zpos my)) as Hmy0 by (change 0 with (inject_Z 0); rewrite <- Zlt_Qlt; lia).
  set (a := (Zpos mx * 2 ^ 53)%Z). set (b := Zpos my).
  assert (p / q == inject_Z a / inject_Z b * pow2 (ex - ey - 53)) as Hpq.
  { rewrite Hp, Hq. unfold a, b. rewrite inject_Z_mult.
    replace (ex - ey - 53)%Z with (ex + (- ey + - 53))%Z by lia.
    rewrite !pow2_add. pose proof (pow2_opp_mul 53 ltac:(lia)) as H53.
    assert (pow2 ey * pow2 (- ey) == 1) as Hey
      by (rewrite <- pow2_add; by replace (ey + - ey)%Z with 0%Z by lia).
    assert (pow2 (- ey) == / pow2 ey) as -> .
    { apply (Qmult_inj_l _ _ (pow2 ey)); [lra|]. rewrite Hey. field. lra. }
    setoid_replace (pow2 (-53)) with (/ inject_Z (2 ^ 53)).
    - field. repeat split; lra || discriminate.
    - reflexivity. }
  assert (2 ^ 52 ≤ a / b < 2 ^ 54)%Z as Hab.
  { unfold a, b. split; [apply Z.div_le_lower_bound|apply Z.div_lt_upper_bound]; lia. }
  assert (-910 ≤ ex - ey - 53 ≤ 800)%Z as He.
  { destruct Hr as [H1 H2]. rewrite Hpq in H1, H2.
    assert (inject_Z (2 ^ 52) <= inject_Z a / inject_Z b) as Hlo.
    { apply Qle_shift_div_l; [done|]. rewrite <- inject_Z_mult, <- Zle_Qle. unfold a, b. lia. }
    assert (inject_Z a / inject_Z b < inject_Z (2 ^ 54)) as Hhi.
    { apply Qlt_shift_div_r; [done|]. rewrite <- inject_Z_mult, <- Zlt_Qlt. unfold a, b. lia. }
    set (e := (ex - ey - 53)%Z) in *. pose proof (pow2_pos e).
    assert (pow2 (-800) < pow2 (54 + e)) as G1.
    { rewrite pow2_add. eapply Qle_lt_trans; [exact H1|]. by apply Qmult_lt_r. }
    assert (pow2 (52 + e) < pow2 801) as G2.
    { rewrite pow2_add. apply Qle_lt_trans with (pow2 800).
      - etransitivity; [|exact H2]. apply Qmult_le_compat_r; [done|lra].
      - change 801%Z with (800 + 1)%Z. rewrite pow2_succ. pose proof (pow2_pos 800). lra. }
    apply pow2_lt_inv in G1, G2. lia. }
  unfold fdiv. cbn [SFdiv xorb]. unfold SFdiv_core_binary. cbn [Zdigits2].
  rewrite Hdx, Hdy. unfold fexp, emin, fprec, femax.
  replace (Z.min (Z.max (53 + ex - (53 + ey) - 53) (3 - 1024 - 53)) (ex - ey))
    with (ex - ey - 53)%Z by lia.
  replace (ex - ey - (ex - ey - 53))%Z with 53%Z by lia.
  rewrite Z.shiftl_mul_pow2 by lia. fold a b.
  destruct (Z.div_eucl a b) as [k r] eqn:Ede.
  assert (k = a / b)%Z as -> by (unfold Z.div; by rewrite Ede).
  assert (r = a mod b)%Z as -> by (unfold Z.modulo; by rewrite Ede).
  destruct (a / b)%Z as [|k|k] eqn:Ek; [lia| |lia].
  assert (inloc (inject_Z a / inject_Z b)
    (shr_record_of_loc (Zpos k) (new_location b (a mod b)))) as Hloc.
  { rewrite <- Ek. apply inloc_new_location; unfold a, b; lia. }
  destruct (binary_round_aux_spec k _ _ _ ltac:(lia) He Hloc) as (q' & Hn & Herr).
  exists q'. split; [done|]. by rewrite Hpq.
Qed.

(** ** Integers to floats and back *)

Lemma iter_xO p n : Zpos (Pos.iter xO p n) = (Zpos p * 2 ^ Zpos n)%Z.
Proof.
  rewrite <- (Pos2Nat.id n). generalize (Pos.to_nat n) (Pos2Nat.is_pos n). clear n.
  intros n Hn. induction n as [|n IH]; [lia|].
  destruct n as [|n]; [by rewrite Z.mul_comm|].
  rewrite Nat2Pos.inj_succ, Pos.iter_succ by done.
  rewrite Pos2Z.inj_xO, IH, Pos2Z.inj_succ, Z.pow_succ_r by lia. lia.
Qed.

(** Integers below [2 ^ 53] are represented exactly. *)
Lemma f64_of_Z_finite p :
  (Zpos p < 2 ^ 53)%Z →
  ∃ m e, f64_of_Z (Zpos p) = S754_finite false m e ∧ (2 ^ 52 ≤ Zpos m < 2 ^ 53)%Z ∧
    (-52 ≤ e ≤ 0)%Z ∧ (Zpos m = Zpos p * 2 ^ (- e))%Z.
Proof.
  intros Hp. pose proof (digits2_pos_bounds p) as [Hl Hu].
  assert (Zpos (digits2_pos p) ≤ 53)%Z as Hd.
  { assert (Zpos (digits2_pos p) - 1 < 53)%Z; [|lia].
    apply (Z.pow_lt_mono_r_iff 2); lia. }
  set (d := Zpos (digits2_pos p)) in *.
  assert (∃ m, shl_align p 0 (d - 53) = (m, d - 53)%Z ∧ (Zpos m = Zpos p * 2 ^ (53 - d))%Z)
    as (m & Es & Hm).
  { unfold shl_align. destruct (d - 53 - 0)%Z as [|n|n] eqn:E; [| lia |].
    - exists p. replace d with 53%Z by lia. split; [done|]. simpl. lia.
    - exists (Pos.iter xO p n). split; [done|]. rewrite iter_xO. f_equal. f_equal. lia. }
  assert (2 ^ 53 = 2 ^ (53 - d) * 2 ^ d)%Z as E1 by (rewrite <- Z.pow_add_r by lia; f_equal; lia).
  assert (2 ^ 52 = 2 ^ (53 - d) * 2 ^ (d - 1))%Z as E2
    by (rewrite <- Z.pow_add_r by lia; f_equal; lia).
  pose proof (Z.pow_pos_nonneg 2 (53 - d) ltac:(lia) ltac:(lia)).
  assert (2 ^ 52 ≤ Zpos m < 2 ^ 53)%Z as Hmb by nia.
  exists m, (d - 53)%Z. unfold f64_of_Z, binary_normalize, binary_round.
  fold d. replace (fexp fprec femax (d + 0)) with (d - 53)%Z
    by (unfold fexp, emin, fprec, femax; lia).
  rewrite Es. rewrite binary_round_aux_exact by lia.
  split; [done|]. split; [done|]. split; [lia|].
  rewrite Hm. f_equal. f_equal. lia.
Qed.

Lemma f64_of_Z_spec z :
  (0 < z < 2 ^ 53)%Z → fnorm (f64_of_Z z) (inject_Z z).
Proof.
  intros Hz. destruct z as [|p|p]; [lia| |lia].
  destruct (f64_of_Z_finite p) as (m & e & -> & Hm & He & E); [lia|].
  exists m, e. split; [done|]. split; [done|].
  rewrite E, inject_Z_mult. rewrite <- Qmult_assoc.
  assert (inject_Z (2 ^ (- e)) * pow2 e == 1) as ->; [|ring].
  rewrite <- (pow2_opp_mul (- e)) by lia. by rewrite Z.opp_involutive.
Qed.

(** Both bounds of the integer type leave room for a 53-bit value. *)
Definition wide (lo hi : Z) : Prop := (lo ≤ 0 ∧ 2 ^ 53 ≤ hi)%Z.

Lemma wide_i64 : wide i64_min i64_max.
Proof. unfold wide, i64_min, i64_max. lia. Qed.

Lemma wide_u64 : wide 0 u64_max.
Proof. unfold wide, u64_max. lia. Qed.

Lemma f_as_int_of_Z lo hi z :
  wide lo hi → (0 ≤ z < 2 ^ 53)%Z → f_as_int lo hi (signed_of_mag false z) = z.
Proof.
  intros [Hlo Hhi] Hz. unfold signed_of_mag. destruct (Z.eqb_spec z 0) as [->|Hz0]; [done|].
  destruct z as [|p|p]; [done| |lia].
  destruct (f64_of_Z_finite p) as (m & e & -> & Hm & He & E); [lia|].
  unfold f_as_int, mag_floor. destruct (Z.leb_spec 0 e).
  - assert (e = 0)%Z as -> by lia. rewrite sat_id; simpl in E; lia.
  - rewrite E, Z.div_mul by (apply Z.pow_nonzero; lia). rewrite sat_id; lia.
Qed.

(** A number with no fractional part, and below [2 ^ 52], is its mantissa. *)
Lemma fnorm_integral m e q :
  (0 ≤ e)%Z → (2 ^ 52 ≤ Zpos m < 2 ^ 53)%Z → q == inject_Z (Zpos m) * pow2 e →
  q <= inject_Z (2 ^ 52) → e = 0%Z ∧ q == inject_Z (Zpos m).
Proof.
  intros He Hm Hq Hle. assert (e = 0)%Z as ->.
  { destruct (Z.eq_dec e 0) as [|Hne]; [done|]. exfalso.
    assert (pow2 1 <= pow2 e) as H1 by (apply pow2_le; lia).
    assert (inject_Z (2 ^ 52) <= inject_Z (Zpos m)) as H2 by (rewrite <- Zle_Qle; lia).
    change (pow2 1) with 2 in H1. change (inject_Z (2 ^ 52)) with (4503599627370496 # 1) in *.
    nra. }
  split; [done|]. rewrite Hq. change (pow2 0) with 1. ring.
Qed.

(** Multiplying a bound on the integer [k] through by [2 ^ -e]. *)
Lemma mantissa_bounds k (m : positive) e q c d :
  (e < 0)%Z → q == inject_Z (Zpos m) * pow2 e →
  (k * 2 ^ (- e) ≤ Zpos m + c < k * 2 ^ (- e) + d)%Z →
  inject_Z k <= q + inject_Z c * pow2 e ∧
  q + inject_Z c * pow2 e < inject_Z k + inject_Z d * pow2 e.
Proof.
  intros He Hq [H1 H2]. pose proof (pow2_pos e) as Hp.
  assert (inject_Z (2 ^ (- e)) * pow2 e == 1) as Hone.
  { rewrite <- (pow2_opp_mul (- e)) by lia. by rewrite Z.opp_involutive. }
  rewrite Zle_Qle, inject_Z_plus, inject_Z_mult in H1.
  rewrite Zlt_Qlt, !inject_Z_plus, inject_Z_mult in H2.
  apply (Qmult_le_r _ _ (pow2 e)) in H1; [|done]. apply (Qmult_lt_r _ _ (pow2 e)) in H2; [|done].
  rewrite !Qmult_plus_distr_l in *. rewrite <- Qmult_assoc, Hone in H1, H2. rewrite Hq.
  rewrite Qmult_1_r in H1, H2. done.
Qed.

(** [x.round() as iN]: the nearest integer, ties away from zero. *)
Lemma fround_int lo hi x q :
  wide lo hi → fnorm x q → q <= inject_Z (2 ^ 52) →
  let k := f_as_int lo hi (fround x) in
  (0 ≤ k)%Z ∧ inject_Z k <= q + (1 # 2) ∧ q + (1 # 2) < inject_Z k + 1.
Proof.
  intros Hw (m & e & -> & Hm & Hq) Hle. unfold fround. destruct (Z.leb_spec 0 e) as [He|He].
  - destruct (fnorm_integral m e q) as [-> E]; [done..|]. unfold f_as_int, mag_floor.
    change (0 <=? 0)%Z with true. cbv beta iota zeta. rewrite Z.pow_0_r, Z.mul_1_r.
    destruct Hw. rewrite sat_id by lia. rewrite E. split; [lia|]. lra.
  - assert (0 < 2 ^ (- e))%Z as Hp by (apply Z.pow_pos_nonneg; lia).
    assert (2 ^ (- e) = 2 * 2 ^ (- e - 1))%Z as Hh
      by (rewrite <- Z.pow_succ_r by lia; f_equal; lia).
    assert (mag_round m e * 2 ^ (- e) ≤ Zpos m + 2 ^ (- e - 1)
              < mag_round m e * 2 ^ (- e) + 2 ^ (- e))%Z as Hk.
    { unfold mag_round. destruct (Z.leb_spec 0 e); [lia|].
      pose proof (Z.div_mod (Zpos m + 2 ^ (- e - 1)) (2 ^ (- e)) ltac:(lia)).
      pose proof (Z.mod_pos_bound (Zpos m + 2 ^ (- e - 1)) (2 ^ (- e)) Hp). lia. }
    assert (0 ≤ mag_round m e < 2 ^ 53)%Z as Hr by nia.
    rewrite f_as_int_of_Z by done. split; [lia|].
    apply (mantissa_bounds _ _ _ q) in Hk as [H1 H2]; [|done..].
    assert (inject_Z (2 ^ (- e)) * pow2 e == 1) as Hone.
    { rewrite <- (pow2_opp_mul (- e)) by lia. by rewrite Z.opp_involutive. }
    assert (inject_Z (2 ^ (- e - 1)) * pow2 e == 1 # 2) as Hhalf.
    { rewrite Hh, inject_Z_mult in Hone. change (inject_Z 2) with 2 in Hone. lra. }
    rewrite Hhalf, ?Hone in *. done.
Qed.

(** [x.ceil() as iN]: the least integer that is not below. *)
Lemma fceil_int lo hi x q :
  wide lo hi → fnorm x q → q <= inject_Z (2 ^ 52) →
  let k := f_as_int lo hi (fceil x) in
  (0 ≤ k)%Z ∧ q <= inject_Z k ∧ inject_Z k < q + 1.
Proof.
  intros Hw (m & e & -> & Hm & Hq) Hle. unfold fceil. destruct (Z.leb_spec 0 e) as [He|He].
  - destruct (fnorm_integral m e q) as [-> E]; [done..|]. unfold f_as_int, mag_floor.
    change (0 <=? 0)%Z with true. cbv beta iota zeta. rewrite Z.pow_0_r, Z.mul_1_r.
    destruct Hw. rewrite sat_id by lia. rewrite E. split; [lia|]. lra.
  - assert (0 < 2 ^ (- e))%Z as Hp by (apply Z.pow_pos_nonneg; lia).
    assert (mag_ceil m e * 2 ^ (- e) ≤ Zpos m + (2 ^ (- e) - 1)
              < mag_ceil m e * 2 ^ (- e) + 2 ^ (- e))%Z as Hk.
    { unfold mag_ceil. destruct (Z.leb_spec 0 e); [lia|].
      pose proof (Z.div_mod (Zpos m + 2 ^ (- e) - 1) (2 ^ (- e)) ltac:(lia)).
      pose proof (Z.mod_pos_bound (Zpos m + 2 ^ (- e) - 1) (2 ^ (- e)) Hp). lia. }
    assert (0 ≤ mag_ceil m e < 2 ^ 53)%Z as Hr.
    { assert (2 ≤ 2 ^ (- e))%Z by (change 2%Z with (2 ^ 1)%Z at 1; apply Z.pow_le_mono_r; lia).
      set (k := mag_ceil m e) in *. set (D := (2 ^ (- e))%Z) in *.
      assert (0 < k)%Z by (apply (Z.mul_pos_cancel_r k D); lia).
      assert ((k - 1) * 2 ≤ (k - 1) * D)%Z by (apply Z.mul_le_mono_nonneg_l; lia). lia. }
    rewrite f_as_int_of_Z by done. split; [lia|].
    apply (mantissa_bounds _ _ _ q) in Hk as Hb; [|done..]. destruct Hb as [H1 _].
    assert (inject_Z (2 ^ (- e)) * pow2 e == 1) as Hone.
    { rewrite <- (pow2_opp_mul (- e)) by lia. by rewrite Z.opp_involutive. }
    pose proof (pow2_pos e). unfold Z.sub in H1.
    rewrite inject_Z_plus, Qmult_plus_distr_l, Hone in H1.
    change (inject_Z (- (1))) with (-1) in *. split; [|lra].
    rewrite Hq, <- (Qmult_1_r (inject_Z (mag_ceil m e))), <- Hone, Qmult_assoc.
    apply Qmult_le_compat_r; [|lra]. rewrite <- inject_Z_mult, <- Zle_Qle. lia.
Qed.

(** [x.round() as i64] is within a half of the value. *)
Lemma round_i64_spec x q :
  fnorm x q → q <= inject_Z (2 ^ 52) →
  Qabs (inject_Z (round_i64 x) - q) <= 1 # 2.
Proof.
  intros Hx Hle. destruct (fround_int _ _ x q wide_i64 Hx Hle) as (_ & H1 & H2).
  change (f_as_int _ _ (fround x)) with (round_i64 x) in *.
  apply Qabs_Qle_condition. lra.
Qed.

(** Rounding to an integer is monotone. *)
Lemma fround_mono lo hi x y p q :
  wide lo hi → fnorm x p → fnorm y q → p <= q → q <= inject_Z (2 ^ 52) →
  (f_as_int lo hi (fround x) ≤ f_as_int lo hi (fround y))%Z.
Proof.
  intros Hw Hx Hy Hpq Hle.
  destruct (fround_int lo hi x p Hw Hx) as (_ & H1 & _); [lra|].
  destruct (fround_int lo hi y q Hw Hy Hle) as (_ & _ & H2).
  apply Z.lt_succ_r. rewrite Zlt_Qlt. unfold Z.succ. rewrite inject_Z_plus.
  change (inject_Z 1) with 1. lra.
Qed.

Lemma fceil_mono lo hi x y p q :
  wide lo hi → fnorm x p → fnorm y q → p <= q → q <= inject_Z (2 ^ 52) →
  (f_as_int lo hi (fceil x) ≤ f_as_int lo hi (fceil y))%Z.
Proof.
  intros Hw Hx Hy Hpq Hle.
  destruct (fceil_int lo hi x p Hw Hx) as (_ & _ & H1); [lra|].
  destruct (fceil_int lo hi y q Hw Hy Hle) as (_ & H2 & _).
  apply Z.lt_succ_r. rewrite Zlt_Qlt. unfold Z.succ. rewrite inject_Z_plus.
  change (inject_Z 1) with 1. lra.
Qed.

Lemma Qabs_bound a b : Qabs a <= b → - b <= a /\ a <= b.
Proof. apply Qabs_Qle_condition. Qed.
