(* ===== verification/Serial.v ===== *)
(** * The serial port of the Jade hardware wallet

    Models [rust/sideswap_jade/src/serial.rs] and [reader.rs]: the thread that owns
    the port.  It writes what the worker queues, collects what the device sends, cuts
    it into CBOR items and passes on those that are not log messages.  The CBOR
    decoder ([ciborium]) is a parameter, given as the calls of [read_exact] it makes. *)
From stdpp Require Import base numbers gmap strings list.
From Stdlib Require Import ZArith Lia Ascii.
From S2P Require Import Prelude F64.

Open Scope Z_scope.
#[local] Set Primitive Projections.
#[local] Set Warnings "-register-all".

Definition bytes : Type := list Z.

(** One byte per bit of the number of a value. *)
Fixpoint bits (p : positive) : bytes :=
  match p with xH => [] | xO p => 0 :: bits p | xI p => 1 :: bits p end.

Fixpoint unbits (data : bytes) : positive :=
  match data with
  | [] => xH
  | b :: data => if b =? 0 then xO (unbits data) else xI (unbits data)
  end.

Lemma unbits_bits p : unbits (bits p) = p.
Proof. induction p; cbn; congruence. Qed.

(** A text is its UTF-8 bytes.  Between two bytes there is a character boundary unless
    the second continues a character. *)
Definition continuation (c : Ascii.ascii) : bool :=
  Z.land (Z.of_N (Ascii.N_of_ascii c)) 0xC0 =? 0x80.

Definition is_char_boundary (text : string) (index : nat) : bool :=
  match String.get index text with
  | Some c => negb (continuation c)
  | None => Nat.eqb index (String.length text)
  end.

(** [&text[..len]] *)
Definition str_prefix (text : string) (len : nat) : outcome string :=
  if is_char_boundary text len then Ok (String.substring 0 len text)
  else Panic "byte index is not a char boundary".

(** [str::as_bytes] and [String::from_utf8] *)
Definition as_bytes (s : string) : bytes :=
  List.map (λ c, Z.of_N (Ascii.N_of_ascii c)) (String.list_ascii_of_string s).

Definition of_bytes (data : bytes) : string :=
  String.string_of_list_ascii (List.map (λ b, Ascii.ascii_of_N (Z.to_N b)) data).

Definition between (lo hi b : Z) : bool := (lo <=? b) && (b <=? hi).

Fixpoint utf8_valid (data : bytes) : bool :=
  match data with
  | [] => true
  | b0 :: data =>
      if b0 <? 0x80 then utf8_valid data
      else match data with
      | [] => false
      | b1 :: data =>
          if between 0xC2 0xDF b0 then between 0x80 0xBF b1 && utf8_valid data
          else match data with
          | [] => false
          | b2 :: data =>
              if between 0xE0 0xEF b0 then
                between (if b0 =? 0xE0 then 0xA0 else 0x80) (if b0 =? 0xED then 0x9F else 0xBF) b1 &&
                between 0x80 0xBF b2 && utf8_valid data
              else match data with
              | [] => false
              | b3 :: data =>
                  between 0xF0 0xF4 b0 &&
                  between (if b0 =? 0xF0 then 0x90 else 0x80) (if b0 =? 0xF4 then 0x8F else 0xBF) b1 &&
                  between 0x80 0xBF b2 && between 0x80 0xBF b3 && utf8_valid data
              end
          end
      end
  end.

Definition from_utf8 (data : bytes) : outcome string :=
  if utf8_valid data then Ok (of_bytes data) else Err "invalid utf-8 sequence".

(** [ciborium::value::Value] *)
Inductive CborValue : Type :=
  | CborInteger (v : Z)
  | CborBytes (v : bytes)
  | CborFloat (v : f64)
  | CborText (v : string)
  | CborBool (v : bool)
  | CborNull
  | CborTag (tag : Z) (v : CborValue)
  | CborArray (v : list CborValue)
  | CborMap (v : list (CborValue * CborValue)).

Definition as_text (v : CborValue) : option string :=
  match v with CborText s => Some s | _ => None end.

Definition as_map (v : CborValue) : option (list (CborValue * CborValue)) :=
  match v with CborMap l => Some l | _ => None end.

(** ** The buffer *)

Record Buf := { buf_data : bytes; buf_pos : nat }.

Definition read_exact (len : nat) (b : Buf) : option (bytes * Buf) :=
  if (buf_pos b + len <=? length (buf_data b))%nat then
    Some (take len (drop (buf_pos b) (buf_data b)), b <| buf_pos ::= λ pos, (pos + len)%nat |>)
  else None.

Definition reset_pos (b : Buf) : Buf := b <| buf_pos := 0%nat |>.

Definition remove_read (b : Buf) : bytes * Buf :=
  (take (buf_pos b) (buf_data b), {| buf_data := drop (buf_pos b) (buf_data b); buf_pos := 0 |}).

Definition append_data (data : bytes) (b : Buf) : Buf := b <| buf_data ::= λ d, d ++ data |>.

Definition buf_size (b : Buf) : nat := length (buf_data b).

(** A decoder is what it does with its reader: ask for some bytes and go on with
    them, or end with a value or an error. *)
Inductive Decoder (A : Type) : Type :=
  | Done (a : A)
  | Malformed
  | Read (len : nat) (k : bytes → Decoder A).
Arguments Done {_} _.
Arguments Malformed {_}.
Arguments Read {_} _ _.

(** [ciborium::de::from_reader] *)
Fixpoint from_reader {A} (d : Decoder A) (b : Buf) : option A * Buf :=
  match d with
  | Done a => (Some a, b)
  | Malformed => (None, b)
  | Read len k =>
      match read_exact len b with
      | Some (data, b') => from_reader (k data) b'
      | None => (None, b)
      end
  end.

(** ** Ports *)

Record UsbPortInfo := { usb_vid : Z; usb_pid : Z; usb_serial_number : option string }.

Inductive SerialPortType :=
  | UsbPort (info : UsbPortInfo)
  | OtherPort.

Record SerialPortInfo := { spi_port_name : string; spi_port_type : SerialPortType }.

Record SerialPort := { port_jade_id : string; port_port_name : string; port_serial_number : string }.

(** [{:#06x}] of a [u16] *)
Definition hex4 (z : Z) : string :=
  let digit i := default "0"%char (String.get (Z.to_nat (Z.land (Z.shiftr z (4 * i)) 15)) "0123456789abcdef") in
  "0x" +:+ String (digit 3) (String (digit 2) (String (digit 1) (String (digit 0) EmptyString))).

Definition get_jade_id (p : UsbPortInfo) : string :=
  hex4 (usb_vid p) +:+ "-" +:+ hex4 (usb_pid p) +:+ "-" +:+
  default "unknown" (usb_serial_number p).

Definition is_jade (p : UsbPortInfo) : bool :=
  (Z.eqb (usb_vid p) 0x10C4 && Z.eqb (usb_pid p) 0xEA60)
  || (Z.eqb (usb_vid p) 0x1A86 && Z.eqb (usb_pid p) 0x55D4)
  || (Z.eqb (usb_vid p) 0x0403 && Z.eqb (usb_pid p) 0x6001)
  || (Z.eqb (usb_vid p) 0x1A86 && Z.eqb (usb_pid p) 0x7523).

(** [Handle::ports], from what [serialport::available_ports] answers *)
Definition handle_ports (available : list SerialPortInfo + string) : list SerialPort + string :=
  match available with
  | inr e => inr e
  | inl l => inl (omap (λ port,
      match spi_port_type port with
      | UsbPort usb_port =>
          if is_jade usb_port then
            Some {| port_jade_id := get_jade_id usb_port;
                    port_port_name := spi_port_name port;
                    port_serial_number := default EmptyString (usb_serial_number usb_port) |}
          else None
      | OtherPort => None
      end) l)
  end.

(** ** The thread *)

Inductive FromPort :=
  | FromPort_Data (data : bytes)
  | FromPort_FatalError (e : string).

Inductive ReadResult :=
  | ReadBytes (data : bytes)
  | ReadTimedOut
  | ReadFailed (e : string).

Inductive TryRecv :=
  | Received (data : bytes)
  | RecvEmpty
  | RecvDisconnected.

(** What happened on the port, newest first. *)
Inductive SerialEvent :=
  | Serial_read (r : ReadResult)
  | Serial_recv (r : TryRecv)
  | Serial_write (data : bytes)
  | Serial_callback (msg : FromPort).

Class SerialEnv := {
  cbor_decoder : Decoder CborValue;
  port_read : list SerialEvent → ReadResult;
  queue_try_recv : list SerialEvent → TryRecv;
  (** [write_all] and [flush] *)
  port_write : list SerialEvent → option string;
  port_flush : list SerialEvent → option string
}.

(** Where the thread is: dropping old data, writing what is queued, reading, or
    gone. *)
Inductive SerialPhase := Discarding | Writing | Reading | Stopped.

Record SerialState := {
  ss_phase : SerialPhase;
  ss_buf : Buf;
  ss_log : list SerialEvent
}.

Definition serial_start : SerialState :=
  {| ss_phase := Discarding; ss_buf := {| buf_data := []; buf_pos := 0 |}; ss_log := [] |}.

Section Serial.
Context `{SerialEnv}.

Definition serial_emit (e : SerialEvent) : M SerialState unit :=
  modify (λ s, s <| ss_log ::= cons e |>).

Definition goto (p : SerialPhase) : M SerialState unit := modify (λ s, s <| ss_phase := p |>).

Definition serial_fatal (e : string) : M SerialState unit :=
  do! serial_emit (Serial_callback (FromPort_FatalError e)) in
  goto Stopped.

Definition read_port : M SerialState ReadResult :=
  let! r := gets (λ s, port_read (ss_log s)) in
  do! serial_emit (Serial_read r) in
  ret r.

(** One round of the loop that drops old data. *)
Definition discard_step : M SerialState unit :=
  let! r := read_port in
  match r with
  | ReadBytes _ => ret tt
  | ReadTimedOut => goto Writing
  | ReadFailed e => serial_fatal e
  end.

(** One round of the loop over the queue. *)
Definition write_step : M SerialState unit :=
  let! r := gets (λ s, queue_try_recv (ss_log s)) in
  do! serial_emit (Serial_recv r) in
  match r with
  | Received v =>
      do! serial_emit (Serial_write v) in
      let! result := gets (λ s, port_write (ss_log s)) in
      match result with
      | Some e => serial_fatal e
      | None =>
          let! result := gets (λ s, port_flush (ss_log s)) in
          match result with
          | Some e => serial_fatal e
          | None => ret tt
          end
      end
  | RecvEmpty => goto Reading
  | RecvDisconnected => goto Stopped
  end.

(** Jade mixes log messages with its answers. *)
Definition log_message (v : CborValue) : bool :=
  match as_map v with
  | Some map => existsb (λ kv, bool_decide (as_text kv.1 = Some "log")) map
  | None => false
  end.

(** The loop that cuts the buffer into items.  Every item is at least one byte long, so
    the size of the buffer is enough fuel. *)
Fixpoint parse_items (fuel : nat) : M SerialState unit :=
  match fuel with
  | O => ret tt
  | S fuel =>
      let! buf := gets (λ s, reset_pos (ss_buf s)) in
      let '(v, buf) := from_reader cbor_decoder buf in
      match v with
      | Some v =>
          let '(data, buf) := remove_read buf in
          do! modify (λ s, s <| ss_buf := buf |>) in
          do! (if log_message v then ret tt
               else serial_emit (Serial_callback (FromPort_Data data))) in
          if Nat.eqb (buf_size buf) 0 then ret tt else parse_items fuel
      | None => modify (λ s, s <| ss_buf := buf |>)
      end
  end.

(** One read, and what it completes. *)
Definition read_step : M SerialState unit :=
  let! r := read_port in
  match r with
  | ReadBytes data =>
      do! modify (λ s, s <| ss_buf ::= append_data data |>) in
      let! fuel := gets (λ s, S (buf_size (ss_buf s))) in
      do! parse_items fuel in
      goto Writing
  | ReadTimedOut => goto Writing
  | ReadFailed e => serial_fatal e
  end.

Definition serial_step : M SerialState unit :=
  let! phase := gets ss_phase in
  match phase with
  | Discarding => discard_step
  | Writing => write_step
  | Reading => read_step
  | Stopped => ret tt
  end.

(** The thread after [n] rounds. *)
Fixpoint serial_run (n : nat) : M SerialState unit :=
  match n with
  | O => ret tt
  | S n => do! serial_run n in serial_step
  end.
End Serial.

(** ** What was received and what was passed on *)

(** The bytes read since the old data was dropped. *)
Fixpoint received (log : list SerialEvent) : option bytes :=
  match log with
  | [] => None
  | e :: log =>
      match received log, e with
      | None, Serial_read ReadTimedOut => Some []
      | None, _ => None
      | Some d, Serial_read (ReadBytes data) => Some (d ++ data)
      | Some d, _ => Some d
      end
  end.

Definition delivered_of (e : SerialEvent) : list bytes :=
  match e with Serial_callback (FromPort_Data data) => [data] | _ => [] end.

(** What the worker was given, oldest first. *)
Definition delivered (log : list SerialEvent) : list bytes :=
  concat (delivered_of <$> reverse log).

Arguments delivered : simpl never.

Lemma delivered_cons e log : delivered (e :: log) = delivered log ++ delivered_of e.
Proof.
  unfold delivered. rewrite reverse_cons, fmap_app, concat_app. simpl. by rewrite app_nil_r.
Qed.

(** ** The decoder *)

Lemma read_exact_inv len b data b' :
  read_exact len b = Some (data, b') →
  buf_data b' = buf_data b ∧ (buf_pos b + len = buf_pos b')%nat ∧
  (buf_pos b' ≤ length (buf_data b))%nat ∧
  ∀ more, read_exact len (append_data more b) = Some (data, append_data more b').
Proof.
  unfold read_exact. case_match eqn:E; [|done]. intros [= <- <-]. apply Nat.leb_le in E. simpl.
  split_and!; [done..|lia|]. intros more. rewrite length_app.
  rewrite (proj2 (Nat.leb_le _ _)) by lia. do 2 f_equal.
  rewrite drop_app_le, take_app_le by (rewrite ?length_drop; lia). done.
Qed.

Lemma from_reader_data {A} (d : Decoder A) b : buf_data (from_reader d b).2 = buf_data b.
Proof.
  revert b. induction d as [a| |len k IH]; intros b; simpl; [done..|].
  destruct (read_exact len b) as [[data b1]|] eqn:E; [|done].
  apply read_exact_inv in E as (E & _). by rewrite IH.
Qed.

(** A decoded value depends on the bytes it was decoded from and on no later ones. *)
Lemma from_reader_inv {A} (d : Decoder A) b v b' :
  from_reader d b = (Some v, b') →
  buf_data b' = buf_data b ∧ (buf_pos b ≤ buf_pos b')%nat ∧
  (buf_pos b ≤ length (buf_data b) → buf_pos b' ≤ length (buf_data b))%nat ∧
  ∀ more, from_reader d (append_data more b) = (Some v, append_data more b').
Proof.
  revert b. induction d as [a| |len k IH]; intros b; simpl; [|done|].
  - intros [= -> ->]. done.
  - destruct (read_exact len b) as [[data b1]|] eqn:E; [|done]. intros Hd.
    apply read_exact_inv in E as (E1 & E2 & E3 & E4).
    apply IH in Hd as (H1 & H2 & H3 & H4). rewrite E1 in *.
    split_and!; [done|lia|lia|]. intros more. rewrite E4. done.
Qed.

Section Stream.
Context `{SerialEnv}.

(** The first item of some bytes, and its length. *)
Definition first_item (data : bytes) : option (CborValue * nat) :=
  match from_reader cbor_decoder {| buf_data := data; buf_pos := 0 |} with
  | (Some v, b) => Some (v, buf_pos b)
  | (None, _) => None
  end.

(** An item starts with a byte that tells its type. *)
Definition reads_header : Prop :=
  match cbor_decoder with Read (S _) _ => True | _ => False end.

(** [data] consists of [items], each with its value, and of [rest], which is no
    complete item yet. *)
Inductive cut : bytes → list (bytes * CborValue) → bytes → Prop :=
  | cut_end data : first_item data = None → cut data [] data
  | cut_item data v n items rest :
      first_item data = Some (v, n) → cut (drop n data) items rest →
      cut data ((take n data, v) :: items) rest.

Lemma first_item_app data more v n :
  first_item data = Some (v, n) → first_item (data ++ more) = Some (v, n).
Proof.
  unfold first_item. destruct (from_reader _ _) as [[v'|] b] eqn:E; [|done]. intros [= -> <-].
  apply from_reader_inv in E as (_ & _ & _ & E). specialize (E more).
  unfold append_data in E. simpl in E.
  match goal with |- context [from_reader ?d ?x] =>
    assert (from_reader d x = (Some v, append_data more b)) as -> by exact E end.
  done.
Qed.

Lemma first_item_length data v n :
  reads_header → first_item data = Some (v, n) → (0 < n ≤ length data)%nat.
Proof.
  unfold reads_header, first_item. destruct cbor_decoder as [|  |[|len] k]; try done. intros _.
  cbn [from_reader]. destruct (read_exact _ _) as [[d b1]|] eqn:E; [|done].
  apply read_exact_inv in E as (E1 & E2 & E3 & _). simpl in *.
  destruct (from_reader (k d) b1) as [[v'|] b] eqn:F; [|done]. intros [= -> <-].
  apply from_reader_inv in F as (_ & F1 & F2 & _). rewrite E1 in F2. lia.
Qed.

Lemma cut_app data more items items' rest rest' :
  cut data items rest → cut (rest ++ more) items' rest' →
  reads_header → cut (data ++ more) (items ++ items') rest'.
Proof.
  intros Hc Hm Hh. induction Hc as [data Hn|data v n items rest Hi Hc IH]; simpl; [done|].
  pose proof (first_item_length _ _ _ Hh Hi).
  rewrite <- (take_app_le data more n) by lia. eapply cut_item.
  - by apply first_item_app.
  - rewrite drop_app_le by lia. by apply IH.
Qed.

Lemma cut_unique data items rest items' rest' :
  cut data items rest → cut data items' rest' → items = items' ∧ rest = rest'.
Proof.
  intros Hc. revert items' rest'. induction Hc as [data Hn|data v n items rest Hi Hc IH];
    intros items' rest' Hc'; inversion Hc'; subst; try congruence; [done|].
  assert (v0 = v ∧ n0 = n) as [-> ->] by (split; congruence).
  edestruct IH as [-> ->]; done.
Qed.

(** Complete items, one after the other. *)
Lemma cut_concat (items : list (bytes * CborValue)) rest :
  reads_header → first_item rest = None →
  Forall (λ i, first_item i.1 = Some (i.2, length i.1)) items →
  cut (concat items.*1 ++ rest) items rest.
Proof.
  intros Hh Hr. induction 1 as [|[d v] items Hi _ IH]; simpl in *; [by apply cut_end|].
  rewrite <- app_assoc.
  pose proof (cut_item (d ++ concat items.*1 ++ rest) v (length d) items rest) as Hc.
  rewrite take_app_length, drop_app_length in Hc. apply Hc; [|done]. by apply first_item_app.
Qed.
End Stream.

(** ** Messages arrive whole *)

Section Delivery.
Context `{SerialEnv} (Hheader : reads_header).

(** The items that are passed on. *)
Definition answers (items : list (bytes * CborValue)) : list bytes :=
  (filter (λ i, log_message i.2 = false) items).*1.

Lemma answers_app items items' : answers (items ++ items') = answers items ++ answers items'.
Proof. unfold answers. by rewrite filter_app, fmap_app. Qed.

(** [s'] follows [s] after cutting the items [items] off the buffer. *)
Definition cut_off (items : list (bytes * CborValue)) (s s' : SerialState) : Prop :=
  cut (buf_data (ss_buf s)) items (buf_data (ss_buf s')) ∧
  delivered (ss_log s') = delivered (ss_log s) ++ answers items ∧
  received (ss_log s') = received (ss_log s) ∧
  ss_phase s' = ss_phase s.

Lemma cut_off_none s buf :
  first_item (buf_data (ss_buf s)) = None → buf_data buf = buf_data (ss_buf s) →
  cut_off [] s (s <| ss_buf := buf |>).
Proof.
  intros Hn Hb. split_and!; simpl; [|by rewrite app_nil_r|done..]. rewrite Hb. by apply cut_end.
Qed.

Definition passed_on (data : bytes) (v : CborValue) : list SerialEvent :=
  if log_message v then [] else [Serial_callback (FromPort_Data data)].

(** The state after one item was cut off. *)
Definition after_item (n : nat) (v : CborValue) (s : SerialState) : SerialState :=
  s <| ss_buf := {| buf_data := drop n (buf_data (ss_buf s)); buf_pos := 0 |} |>
    <| ss_log ::= app (passed_on (take n (buf_data (ss_buf s))) v) |>.

Lemma cut_off_item s s' v n items :
  first_item (buf_data (ss_buf s)) = Some (v, n) →
  cut_off items (after_item n v s) s' →
  cut_off ((take n (buf_data (ss_buf s)), v) :: items) s s'.
Proof.
  intros Hi (Hc & Hd & Hr & Hp). split_and!; [by eapply cut_item| |..].
  - rewrite Hd. unfold after_item, passed_on, answers. rewrite filter_cons. simpl.
    case_decide as Hl.
    + rewrite Hl. simpl. rewrite delivered_cons. simpl. by rewrite <- app_assoc.
    + apply not_false_is_true in Hl. by rewrite Hl.
  - rewrite Hr. unfold after_item, passed_on. simpl. destruct (log_message v); [done|].
    simpl. by case_match.
  - by rewrite Hp.
Qed.

Lemma parse_items_none fuel s :
  first_item (buf_data (ss_buf s)) = None →
  ∃ buf, parse_items (S fuel) s = (s <| ss_buf := buf |>, Ok tt) ∧
         buf_data buf = buf_data (ss_buf s).
Proof.
  unfold first_item. cbn [parse_items]. rewrite bind_gets.
  change (reset_pos (ss_buf s)) with {| buf_data := buf_data (ss_buf s); buf_pos := 0 |}.
  pose proof (from_reader_data cbor_decoder {| buf_data := buf_data (ss_buf s); buf_pos := 0 |}) as E.
  destruct (from_reader _ _) as [[v|] buf]; [done|]. intros _. by exists buf.
Qed.

Lemma parse_items_some fuel s v n :
  first_item (buf_data (ss_buf s)) = Some (v, n) →
  parse_items (S fuel) s =
    (if Nat.eqb (length (drop n (buf_data (ss_buf s)))) 0 then ret tt else parse_items fuel)
      (after_item n v s).
Proof.
  unfold first_item. cbn [parse_items]. rewrite bind_gets.
  change (reset_pos (ss_buf s)) with {| buf_data := buf_data (ss_buf s); buf_pos := 0 |}.
  destruct (from_reader _ _) as [[v'|] buf] eqn:E; [|done]. intros [= -> <-].
  apply from_reader_inv in E as (E & _). simpl in E. unfold remove_read. rewrite E, bind_modify.
  unfold after_item, passed_on, buf_size. by destruct (log_message v).
Qed.

Lemma parse_items_cut fuel s :
  (length (buf_data (ss_buf s)) < fuel)%nat →
  ∃ items s', parse_items fuel s = (s', Ok tt) ∧ cut_off items s s'.
Proof.
  revert s. induction fuel as [|fuel IH]; intros s Hlen; [lia|].
  destruct (first_item (buf_data (ss_buf s))) as [[v n]|] eqn:Hi.
  - rewrite (parse_items_some _ _ _ _ Hi). pose proof (first_item_length _ _ _ Hheader Hi).
    destruct (Nat.eqb_spec (length (drop n (buf_data (ss_buf s)))) 0) as [E|_].
    + eexists [_], _. split; [done|]. eapply cut_off_item; [done|].
      split_and!; [|by rewrite app_nil_r|done..].
      apply nil_length_inv in E. unfold after_item. simpl. rewrite E. apply cut_end.
      destruct (first_item []) as [[v' n']|] eqn:Hi'; [|done].
      apply first_item_length in Hi'; [simpl in Hi'; lia|done].
    + destruct (IH (after_item n v s)) as (items & s' & Hp & Hc).
      { unfold after_item. simpl. rewrite length_drop. lia. }
      eexists (_ :: items), s'. split; [done|]. by eapply cut_off_item.
  - destruct (parse_items_none fuel s Hi) as (buf & Hp & Hb).
    eexists [], _. split; [done|]. by apply cut_off_none.
Qed.

(** What was read is cut into items, of which the buffer holds the rest. *)
Definition delivery_inv (s : SerialState) : Prop :=
  match received (ss_log s) with
  | None => (ss_phase s = Discarding ∨ ss_phase s = Stopped) ∧
      delivered (ss_log s) = [] ∧ buf_data (ss_buf s) = []
  | Some d => ss_phase s ≠ Discarding ∧
      ∃ items, cut d items (buf_data (ss_buf s)) ∧ delivered (ss_log s) = answers items
  end.

Lemma first_item_nil : first_item [] = None.
Proof.
  destruct (first_item []) as [[v n]|] eqn:Hi; [|done].
  apply first_item_length in Hi; [simpl in Hi; lia|done].
Qed.

Lemma delivery_discard s : ss_phase s = Discarding → delivery_inv s → delivery_inv (discard_step s).1.
Proof.
  unfold delivery_inv. intros Hp Hs. destruct (received (ss_log s)) eqn:Hr; [by destruct Hs|].
  destruct Hs as (_ & Hd & Hb). unfold discard_step, read_port, bind, gets, serial_emit, modify. simpl.
  destruct (port_read (ss_log s)) as [data| |e]; cbn; rewrite ?delivered_cons, Hr, Hd.
  - auto.
  - split; [done|]. exists []. rewrite_field Hb. split; [apply cut_end, first_item_nil|done].
  - auto.
Qed.

(** An event that is neither a read nor an answer, and any phase but the first. *)
Lemma delivery_quiet s s' log :
  delivery_inv s → is_Some (received (ss_log s)) → ss_log s' = log ++ ss_log s →
  Forall (λ e, match e with
               | Serial_read (ReadBytes _) | Serial_callback (FromPort_Data _) => False
               | _ => True
               end) log →
  ss_buf s' = ss_buf s → ss_phase s' ≠ Discarding → delivery_inv s'.
Proof.
  intros Hs Hd Hl Hq Hb Hp.
  assert (received (ss_log s') = received (ss_log s) ∧ delivered (ss_log s') = delivered (ss_log s))
    as [E1 E2].
  { rewrite Hl. clear Hl. induction Hq as [|e log He Hq [IH1 IH2]]; [done|]. simpl.
    rewrite delivered_cons, IH1, IH2. destruct Hd as [d ->].
    destruct e as [[]| | |[]]; simpl; rewrite ?app_nil_r; done. }
  unfold delivery_inv in *. rewrite E1, E2. destruct (received (ss_log s)); [|by destruct Hd].
  destruct Hs as (_ & Hs). split; [done|].
  assert (buf_data (ss_buf s') = buf_data (ss_buf s)) as -> by by rewrite Hb. done.
Qed.

Lemma delivery_write s : ss_phase s = Writing → delivery_inv s → delivery_inv (write_step s).1.
Proof.
  intros Hp Hs.
  assert (is_Some (received (ss_log s))) as Hd.
  { unfold delivery_inv in Hs. destruct (received _); [done|]. rewrite Hp in Hs.
    by destruct Hs as [[] _]. }
  unfold write_step, bind, gets, serial_emit, modify. simpl.
  destruct (queue_try_recv (ss_log s)) as [v| |] eqn:Hq; simpl.
  - destruct (port_write _); [|destruct (port_flush _)]; simpl.
    + eapply (delivery_quiet s _ [_; _; _]); [done|done|reflexivity|by repeat constructor|done|done].
    + eapply (delivery_quiet s _ [_; _; _]); [done|done|reflexivity|by repeat constructor|done|done].
    + eapply (delivery_quiet s _ [_; _]); [done|done|reflexivity|by repeat constructor|done|].
      simpl. by rewrite_field Hp.
  - eapply (delivery_quiet s _ [_]); [done|done|reflexivity|by repeat constructor|done|done].
  - eapply (delivery_quiet s _ [_]); [done|done|reflexivity|by repeat constructor|done|done].
Qed.

Lemma read_port_run s :
  read_port s = (s <| ss_log ::= cons (Serial_read (port_read (ss_log s))) |>,
                 Ok (port_read (ss_log s))).
Proof. done. Qed.

Lemma delivery_read s : ss_phase s = Reading → delivery_inv s → delivery_inv (read_step s).1.
Proof.
  intros Hp Hs.
  assert (is_Some (received (ss_log s))) as [d Hd].
  { unfold delivery_inv in Hs. destruct (received _); [done|]. rewrite Hp in Hs.
    by destruct Hs as [[] _]. }
  unfold read_step. rewrite (bind_run _ _ _ _ _ (read_port_run s)).
  destruct (port_read (ss_log s)) as [data| |e] eqn:Hq.
  - set (s1 := s <| ss_log ::= cons (Serial_read (ReadBytes data)) |>
                 <| ss_buf ::= append_data data |>).
    destruct (parse_items_cut (S (buf_size (ss_buf s1))) s1) as (items & s2 & E & Hc & Hl & Hr & Hp2);
      [by unfold buf_size; lia|].
    change (delivery_inv (bind (parse_items (S (buf_size (ss_buf s1)))) (λ _, goto Writing) s1).1).
    rewrite (bind_run _ _ _ _ _ E). unfold delivery_inv in *. rewrite Hd in Hs.
    destruct Hs as (_ & items0 & Hc0 & Hl0).
    change (ss_log (goto Writing s2).1) with (ss_log s2).
    change (ss_buf (goto Writing s2).1) with (ss_buf s2).
    rewrite Hr, Hl. change (received (ss_log s1)) with (received (Serial_read (ReadBytes data) :: ss_log s)).
    change (delivered (ss_log s1)) with (delivered (Serial_read (ReadBytes data) :: ss_log s)).
    rewrite delivered_cons. simpl. rewrite Hd. split; [done|]. exists (items0 ++ items).
    split; [by eapply cut_app|]. by rewrite answers_app, Hl0, app_nil_r.
  - eapply (delivery_quiet s _ [_]); [done|by eexists|reflexivity|by repeat constructor|done|done].
  - eapply (delivery_quiet s _ [_; _]); [done|by eexists|reflexivity|by repeat constructor|done|done].
Qed.

Lemma serial_step_phase s p :
  ss_phase s = p →
  serial_step s =
    match p with
    | Discarding => discard_step
    | Writing => write_step
    | Reading => read_step
    | Stopped => ret tt
    end s.
Proof. by intros <-. Qed.

Lemma delivery_run n : delivery_inv (serial_run n serial_start).1.
Proof.
  cut (keeps delivery_inv (serial_run n)). { intros Hk. apply Hk. by cbn; auto. }
  induction n as [|n IH]; [apply keeps_ret|]. apply keeps_bind; [done|]. intros _ s Hs.
  destruct (ss_phase s) eqn:Hp; rewrite (serial_step_phase _ _ Hp).
  - by apply delivery_discard.
  - by apply delivery_write.
  - by apply delivery_read.
  - done.
Qed.
End Delivery.

(** C34: messages of the device arrive whole.  However the port cuts what the device
    sends into reads, and whatever is written in between: at any moment, when the
    bytes read so far are some complete CBOR items followed by an incomplete one, the
    worker was given exactly those items that are not log messages, each with all of
    its bytes, once, and in order; and the incomplete one waits in the buffer. *)
Theorem jade_messages_delivered `{SerialEnv} (items : list (bytes * CborValue)) (rest : bytes)
    (n : nat) (s : SerialState) :
  reads_header →
  Forall (λ i, first_item i.1 = Some (i.2, length i.1)) items →
  first_item rest = None →
  (serial_run n serial_start).1 = s →
  received (ss_log s) = Some (concat items.*1 ++ rest) →
  delivered (ss_log s) = (filter (λ i, log_message i.2 = false) items).*1 ∧
  buf_data (ss_buf s) = rest.
Proof.
  intros Hh Hi Hr <- Hd. pose proof (delivery_run Hh n) as Hinv. unfold delivery_inv in Hinv.
  rewrite Hd in Hinv. destruct Hinv as (_ & items' & Hc & ->).
  pose proof (cut_concat _ _ Hh Hr Hi) as Hc'.
  destruct (cut_unique _ _ _ _ _ Hc' Hc) as [<- <-]. done.
Qed.

(** ** A concrete port *)
Module SerialSample.
(** Items of a toy format: a length and as many bytes, or a zero, which is a log message. *)
Definition decoder : Decoder CborValue :=
  Read 1 (λ hd, match hd with
                | [0] => Done (CborMap [(CborText "log", CborNull)])
                | [n] => Read (Z.to_nat n) (λ d, Done (CborBytes d))
                | _ => Malformed
                end).

(** The device sends eight bytes, in three reads that end inside of items. *)
Definition env : SerialEnv := {|
  cbor_decoder := decoder;
  port_read log :=
    match length (List.filter (λ e, match e with Serial_read _ => true | _ => false end) log) with
    | 1%nat => ReadBytes [2; 7]
    | 2%nat => ReadBytes [8; 0; 1]
    | 3%nat => ReadBytes [9; 3; 1]
    | _ => ReadTimedOut
    end;
  queue_try_recv _ := RecvEmpty;
  port_write _ := None;
  port_flush _ := None
|}.

Definition items : list (bytes * CborValue) :=
  [([2; 7; 8], CborBytes [7; 8]); ([0], CborMap [(CborText "log", CborNull)]); ([1; 9], CborBytes [9])].
End SerialSample.

Lemma jade_messages_delivered_witness :
  delivered (ss_log (@serial_run SerialSample.env 7 serial_start).1) = [[2; 7; 8]; [1; 9]] ∧
  buf_data (ss_buf (@serial_run SerialSample.env 7 serial_start).1) = [3; 1].
Proof.
  apply (@jade_messages_delivered SerialSample.env SerialSample.items [3; 1] 7).
  - exact I.
  - repeat constructor.
  - reflexivity.
  - reflexivity.
  - vm_compute. reflexivity.
Defined.
