(* ===== verification/Api.v ===== *)
(** * The server protocol

    The data of [rust/sideswap_api/src/lib.rs]: identifiers with their textual
    form, and the requests, responses and notifications the clients and dealers
    exchange with the server.  A record field is the Rust field prefixed with the
    struct's name; a constructor is the variant prefixed with the enum's name.
    Foreign opaque values (scripts, blinding factors, proofs, addresses) are the
    strings they are serialised to, [Empty] is the unit type. *)
From Stdlib Require Import Ascii ZArith Lia.
From stdpp Require Import sorting base gmap numbers strings list.
From S2P Require Import Prelude F64.

Open Scope Z_scope.

(** ** Identifiers *)

(** Hexadecimal digits, as the [hex] encoding of bytes writes and reads them. *)
Definition hex_digit (n : Z) : ascii :=
  Ascii.ascii_of_N (Z.to_N (if n <? 10 then 48 + n else 87 + n)).

Definition hex_value (c : ascii) : option Z :=
  let n := Z.of_N (Ascii.N_of_ascii c) in
  if (48 <=? n) && (n <=? 57) then Some (n - 48)
  else if (97 <=? n) && (n <=? 102) then Some (n - 87)
  else if (65 <=? n) && (n <=? 70) then Some (n - 55)
  else None.

Fixpoint hex_encode (data : list Z) : string :=
  match data with
  | [] => EmptyString
  | b :: data =>
      String (hex_digit (b / 16)) (String (hex_digit (b `mod` 16)) (hex_encode data))
  end.

Fixpoint hex_decode (s : string) : option (list Z) :=
  match s with
  | EmptyString => Some []
  | String c (String d s) =>
      match hex_value c, hex_value d, hex_decode s with
      | Some hi, Some lo, Some data => Some (16 * hi + lo :: data)
      | _, _, _ => None
      end
  | String _ EmptyString => None
  end.

Definition is_byte (b : Z) : Prop := 0 ≤ b < 256.

(** A 32-byte identifier: its bytes in storage order. *)
Definition Hash32 : Type := list Z.

#[export] Instance Hash32_eq_dec : EqDecision Hash32.
Proof. unfold Hash32. apply _. Defined.
#[export] Instance Hash32_countable : Countable Hash32.
Proof. unfold Hash32. apply _. Defined.
#[export] Instance Hash32_inhabited : Inhabited Hash32 := populate [].

(** The derived order compares the bytes from the first. *)
Fixpoint bytes_le (a b : list Z) : bool :=
  match a, b with
  | [], _ => true
  | _ :: _, [] => false
  | x :: a, y :: b => if x =? y then bytes_le a b else x <? y
  end.
#[export] Instance Hash32_key_order : KeyOrder Hash32 := bytes_le.

(** [decode_to_slice] into 32 bytes fails on any other length. *)
Definition Hash32_from_str (s : string) : outcome Hash32 :=
  match hex_decode s with
  | Some data =>
      if bool_decide (length data = 32%nat) then Ok (reverse data)
      else Err "Invalid string length"
  | None => Err "Invalid character or odd number of digits"
  end.

Definition Hash32_to_string (h : Hash32) : string := hex_encode (reverse h).

Abbreviation AssetId := Hash32 (only parsing).
Abbreviation Txid := Hash32 (only parsing).
Abbreviation OrderId := Hash32 (only parsing).
Abbreviation SessionId := Hash32 (only parsing).
Abbreviation Address := string (only parsing).

Definition TICKER_BTC : string := "BTC".
Definition TICKER_LBTC : string := "L-BTC".
Definition TICKER_USDT : string := "USDt".
Definition TICKER_EURX : string := "EURx".
Definition TICKER_LCAD : string := "LCAD".
Definition TICKER_AUDL : string := "AUDL".

(** ** Messages *)

#[local] Set Primitive Projections.

Inductive MarketType :=
  | MarketType_Stablecoin
  | MarketType_Amp
  | MarketType_Token.

#[export] Instance MarketType_eq_dec : EqDecision MarketType.
Proof. solve_decision. Defined.

Record IssuancePrevout := {
  issuance_prevout_txid : Txid;
  issuance_prevout_vout : Z
}.

Record Asset := {
  asset_asset_id : AssetId;
  asset_name : string;
  asset_ticker : string;
  asset_icon : option string;
  asset_precision : Z;
  asset_icon_url : option string;
  asset_instant_swaps : option bool;
  asset_domain : option string;
  asset_domain_agent : option string;
  asset_always_show : option bool;
  asset_issuance_prevout : option IssuancePrevout;
  asset_issuer_pubkey : option string;
  asset_contract : option string
}.

Record AmpAsset := {
  amp_asset_asset_id : AssetId
}.

Record AssetsRequestParam := {
  assets_request_param_embedded_icons : bool
}.

Record AssetsResponse := {
  assets_resp_assets : list Asset
}.

Record AmpAssetsResponse := {
  amp_assets_resp_assets : list Asset
}.

Record PegFeeRequest := {
  peg_fee_send_amount : Z;
  peg_fee_peg_in : bool
}.

Record PegFeeResponse := {
  peg_fee_resp_recv_amount : Z
}.

Record PegOutAmounts := {
  peg_out_amounts_send_amount : Z;
  peg_out_amounts_recv_amount : Z;
  peg_out_amounts_is_send_entered : bool;
  peg_out_amounts_fee_rate : f64
}.

Record PegRequest := {
  peg_recv_addr : string;
  peg_send_amount : option Z;
  peg_peg_in : bool;
  peg_device_key : option string;
  peg_blocks : option Z;
  peg_peg_out_amounts : option PegOutAmounts
}.

Record PegResponse := {
  peg_resp_order_id : OrderId;
  peg_resp_peg_addr : string;
  peg_resp_created_at : Z;
  peg_resp_expires_at : Z;
  peg_resp_recv_amount : option Z
}.

Record PegStatusRequest := {
  peg_status_req_order_id : OrderId;
  peg_status_req_peg_in : option bool
}.

Record Swap := {
  swap_send_asset : AssetId;
  swap_send_amount : Z;
  swap_recv_asset : AssetId;
  swap_recv_amount : Z;
  swap_network_fee : Z
}.

Record MatchRfq := {
  match_rfq_send_asset : AssetId;
  match_rfq_send_amount : Z;
  match_rfq_recv_asset : AssetId;
  match_rfq_utxo_count : Z;
  match_rfq_with_change : bool
}.

Record MatchRfqRequest := {
  match_rfq_rfq : MatchRfq
}.

Record MatchRfqResponse := {
  match_rfq_resp_order_id : OrderId
}.

Record PricePair := {
  price_pair_bid : f64;
  price_pair_ask : f64
}.

Record PriceUpdateBroadcast := {
  price_update_broadcast_asset : AssetId;
  price_update_broadcast_price : PricePair
}.

Record PriceUpdateSubscribe := {
  price_update_subscribe_asset : AssetId
}.

Record PriceUpdateNotification := {
  price_update_asset : AssetId;
  price_update_price : PricePair
}.

Record LocalMessageNotification := {
  local_message_title : string;
  local_message_body : string
}.

Inductive PegTxState :=
  | PegTxState_InsufficientAmount
  | PegTxState_Detected
  | PegTxState_Processing
  | PegTxState_Done.

#[export] Instance PegTxState_eq_dec : EqDecision PegTxState.
Proof. solve_decision. Defined.

Inductive SwapStatus :=
  | SwapStatus_Pending
  | SwapStatus_Cancelled
  | SwapStatus_Timeout
  | SwapStatus_ServerError
  | SwapStatus_DealerError
  | SwapStatus_ClientError
  | SwapStatus_Broadcast
  | SwapStatus_Settled.

#[export] Instance SwapStatus_eq_dec : EqDecision SwapStatus.
Proof. solve_decision. Defined.

Record TxStatus := {
  tx_status_tx_hash : string;
  tx_status_vout : Z;
  tx_status_status : string;
  tx_status_amount : Z;
  tx_status_payout : option Z;
  tx_status_tx_state : PegTxState;
  tx_status_tx_state_code : Z;
  tx_status_detected_confs : option Z;
  tx_status_total_confs : option Z;
  tx_status_created_at : Z;
  tx_status_payout_txid : option string
}.

Record PegStatus := {
  peg_status_order_id : OrderId;
  peg_status_peg_in : bool;
  peg_status_addr : string;
  peg_status_addr_recv : string;
  peg_status_list : list TxStatus;
  peg_status_created_at : Z;
  peg_status_expires_at : Z
}.

Inductive RequestId :=
  | RequestId_String (a : string)
  | RequestId_Int (a : Z).

Record FeeRate := {
  fee_rate_blocks : Z;
  fee_rate_value : f64
}.

Record ServerStatus := {
  server_status_min_peg_in_amount : Z;
  server_status_min_peg_out_amount : Z;
  server_status_server_fee_percent_peg_in : f64;
  server_status_server_fee_percent_peg_out : f64;
  server_status_min_submit_amount : Z;
  server_status_price_band : f64;
  server_status_elements_fee_rate : f64;
  server_status_bitcoin_fee_rates : list FeeRate;
  server_status_upload_url : string;
  server_status_policy_asset : AssetId;
  server_status_peg_out_bitcoin_tx_vsize : Z
}.

Record LoginClientRequest := {
  login_client_api_key : string;
  login_client_cookie : option string;
  login_client_user_agent : string;
  login_client_version : string
}.

Record LoginClientResponse := {
  login_client_resp_cookie : string
}.

Record LoginDealerRequest := {
  login_dealer_api_key : string
}.

Inductive DeviceState :=
  | DeviceState_Unregistered
  | DeviceState_Registered.

#[export] Instance DeviceState_eq_dec : EqDecision DeviceState.
Proof. solve_decision. Defined.

Record VerifyDeviceRequest := {
  verify_device_device_key : string
}.

Record VerifyDeviceResponse := {
  verify_device_resp_device_state : DeviceState
}.

Record RegisterDeviceRequest := {
  register_device_os_type : Z
}.

Record RegisterDeviceResponse := {
  register_device_resp_device_key : string
}.

Record RegisterAddressesRequest := {
  register_addresses_device_key : string;
  register_addresses_addresses : list string
}.

Record UpdatePushTokenRequest := {
  update_push_token_device_key : string;
  update_push_token_push_token : string
}.

Record RegisterPhoneRequest := {
  register_phone_country_code : string;
  register_phone_phone_number : string
}.

Record RegisterPhoneResponse := {
  register_phone_resp_register_id : string
}.

Record VerifyPhoneRequest := {
  verify_phone_register_id : string;
  verify_phone_code : string
}.

Record VerifyPhoneResponse := {
  verify_phone_resp_phone_key : string
}.

Record UnregisterPhoneRequest := {
  unregister_phone_phone_key : string
}.

Record UploadAvatarRequest := {
  upload_avatar_phone_key : string;
  upload_avatar_image : string
}.

Record UploadContact := {
  upload_contact_identifier : string;
  upload_contact_name : string;
  upload_contact_phones : list string
}.

Record UploadContactsRequest := {
  upload_contacts_phone_key : string;
  upload_contacts_contacts : list UploadContact
}.

Record Contact := {
  contact_contact_key : string;
  contact_name : string;
  contact_phone : string;
  contact_avatar : option string
}.

Record ContactTransaction := {
  contact_transaction_contact_key : string;
  contact_transaction_txid : string
}.

Record DownloadContactsRequest := {
  download_contacts_phone_key : string
}.

Record DownloadContactsResponse := {
  download_contacts_resp_registered : bool;
  download_contacts_resp_contacts : list Contact;
  download_contacts_resp_transactions : list ContactTransaction
}.

Record ContactCreatedNotification := {
  contact_created_contact : Contact
}.

Record ContactRemovedNotification := {
  contact_removed_contact_key : string
}.

Record ContactTransactionCreatedNotification := {
  contact_transaction_created_tx : ContactTransaction
}.

Record AccountStatusNotification := {
  account_status_registered : bool
}.

Record ContactAddrRequest := {
  contact_addr_phone_key : string;
  contact_addr_contact_key : string
}.

Record ContactAddrResponse := {
  contact_addr_resp_addr : string
}.

Record ContactBroadcastRequest := {
  contact_broadcast_raw_tx : string;
  contact_broadcast_phone_key : string;
  contact_broadcast_contact_key : string
}.

Record ContactBroadcastResponse := {
  contact_broadcast_resp_txid : string
}.

Inductive OrderSide :=
  | OrderSide_Maker
  | OrderSide_Taker.

#[export] Instance OrderSide_eq_dec : EqDecision OrderSide.
Proof. solve_decision. Defined.

Inductive OrderType :=
  | OrderType_Bitcoin
  | OrderType_Asset.

#[export] Instance OrderType_eq_dec : EqDecision OrderType.
Proof. solve_decision. Defined.

Record Details := {
  details_asset : AssetId;
  details_bitcoin_amount : Z;
  details_asset_amount : Z;
  details_price : f64;
  details_server_fee : Z;
  details_side : OrderSide;
  details_send_bitcoins : bool;
  details_order_type : OrderType;
  details_market : MarketType;
  details_two_step : option bool
}.

Record PriceOrder := {
  price_order_asset : AssetId;
  price_order_bitcoin_amount : option f64;
  price_order_asset_amount : option f64;
  price_order_price : option f64;
  price_order_index_price : option f64;
  price_order_force_private : option bool;
  price_order_disable_price_edit : option bool
}.

Record LoadPricesRequest := {
  load_prices_asset : AssetId
}.

Record LoadPricesResponse := {
  load_prices_resp_asset : AssetId;
  load_prices_resp_ind : option f64;
  load_prices_resp_last : option f64
}.

Record PortfolioPricesResponse := {
  portfolio_prices_resp_prices_usd : gmap AssetId f64
}.

Record CancelPricesRequest := {
  cancel_prices_asset : AssetId
}.

Record SubmitRequest := {
  submit_order : PriceOrder
}.

Record SubmitResponse := {
  submit_resp_order_id : OrderId;
  submit_resp_details : Details
}.

Record EditRequest := {
  edit_order_id : OrderId;
  edit_price : option f64;
  edit_index_price : option f64
}.

Record CancelRequest := {
  cancel_order_id : OrderId
}.

Record LoginRequest := {
  login_session_id : option SessionId
}.

Record SubscribeRequest := {
  subscribe_asset : option AssetId
}.

Record UnsubscribeRequest := {
  unsubscribe_asset : option AssetId
}.

Record UnsubscribeResponse := {
  unsubscribe_resp_asset : option AssetId
}.

Record Own := {
  own_index_price : option f64;
  own_private : bool;
  own_two_step : bool
}.

Record OrderCreatedNotification := {
  order_created_order_id : OrderId;
  order_created_details : Details;
  order_created_created_at : Z;
  order_created_expires_at : option Z;
  order_created_two_step : bool;
  order_created_own : option Own
}.

Record OrderRemovedNotification := {
  order_removed_order_id : OrderId
}.

Record LinkRequest := {
  link_order_id : OrderId
}.

Record LinkResponse := {
  link_resp_order_id : OrderId;
  link_resp_details : Details;
  link_resp_index_price : bool
}.

Record PsetInput := {
  pset_input_txid : Txid;
  pset_input_vout : Z;
  pset_input_asset : AssetId;
  pset_input_asset_bf : string;
  pset_input_value : Z;
  pset_input_value_bf : string;
  pset_input_redeem_script : option string
}.

Record PsetTakerRequest := {
  pset_taker_order_id : OrderId;
  pset_taker_price : f64;
  pset_taker_inputs : list PsetInput;
  pset_taker_recv_addr : Address;
  pset_taker_change_addr : Address
}.

Record SignNotification := {
  sign_ntf_order_id : OrderId;
  sign_ntf_pset : string;
  sign_ntf_details : Details;
  sign_ntf_nonces : option (list string)
}.

Record SignRequest := {
  sign_order_id : OrderId;
  sign_signed_pset : string;
  sign_side : OrderSide
}.

Record GetSignRequest := {
  get_sign_order_id : OrderId
}.

Record GetSignResponse := {
  get_sign_resp_data : SignNotification
}.

Record ResolveGaidRequest := {
  resolve_gaid_order_id : OrderId;
  resolve_gaid_gaid : string
}.

Record ResolveGaidResponse := {
  resolve_gaid_resp_address : Address
}.

Record GaidStatusRequest := {
  gaid_status_gaid : string;
  gaid_status_asset_id : AssetId
}.

Record GaidStatusResponse := {
  gaid_status_resp_gaid : string;
  gaid_status_resp_asset_id : AssetId;
  gaid_status_resp_error : option string
}.

Record AssetDetailsRequest := {
  asset_details_asset_id : AssetId
}.

Record AssetStats := {
  asset_stats_issued_amount : Z;
  asset_stats_burned_amount : Z;
  asset_stats_offline_amount : option Z;
  asset_stats_has_blinded_issuances : bool
}.

Record ChartStats := {
  chart_stats_low : f64;
  chart_stats_high : f64;
  chart_stats_last : f64
}.

Record AssetDetailsResponse := {
  asset_details_resp_asset_id : AssetId;
  asset_details_resp_name : string;
  asset_details_resp_ticker : string;
  asset_details_resp_precision : Z;
  asset_details_resp_icon_url : string;
  asset_details_resp_domain : string;
  asset_details_resp_domain_agent : option string;
  asset_details_resp_chain_stats : option AssetStats;
  asset_details_resp_chart_url : option string;
  asset_details_resp_chart_stats : option ChartStats
}.

Record CompleteNotification := {
  complete_order_id : OrderId;
  complete_txid : option Txid
}.

Record PriceOffer := {
  price_offer_client_send_bitcoins : bool;
  price_offer_price : f64;
  price_offer_max_send_amount : Z
}.

Record BroadcastPriceStreamRequest := {
  broadcast_price_stream_asset : AssetId;
  broadcast_price_stream_list : list PriceOffer;
  broadcast_price_stream_balancing : bool
}.

Record SubscribePriceStreamRequest := {
  subscribe_price_stream_subscribe_id : option string;
  subscribe_price_stream_asset : AssetId;
  subscribe_price_stream_send_bitcoins : bool;
  subscribe_price_stream_send_amount : option Z;
  subscribe_price_stream_recv_amount : option Z
}.

Record SubscribePriceStreamResponse := {
  subscribe_price_stream_resp_subscribe_id : option string;
  subscribe_price_stream_resp_asset : AssetId;
  subscribe_price_stream_resp_send_bitcoins : bool;
  subscribe_price_stream_resp_send_amount : option Z;
  subscribe_price_stream_resp_recv_amount : option Z;
  subscribe_price_stream_resp_fixed_fee : option Z;
  subscribe_price_stream_resp_price : option f64;
  subscribe_price_stream_resp_error_msg : option string
}.

Record UnsubscribePriceStreamRequest := {
  unsubscribe_price_stream_subscribe_id : option string
}.

Record StartSwapWebRequest := {
  start_swap_web_price : f64;
  start_swap_web_asset : AssetId;
  start_swap_web_send_bitcoins : bool;
  start_swap_web_send_amount : Z;
  start_swap_web_recv_amount : Z
}.

Record StartSwapWebResponse := {
  start_swap_web_resp_order_id : OrderId;
  start_swap_web_resp_send_asset : AssetId;
  start_swap_web_resp_send_amount : Z;
  start_swap_web_resp_recv_asset : AssetId;
  start_swap_web_resp_recv_amount : Z;
  start_swap_web_resp_upload_url : string
}.

Record StartSwapClientRequest := {
  start_swap_client_price : f64;
  start_swap_client_asset : AssetId;
  start_swap_client_send_bitcoins : bool;
  start_swap_client_send_amount : Z;
  start_swap_client_recv_amount : Z;
  start_swap_client_inputs : list PsetInput;
  start_swap_client_recv_addr : Address;
  start_swap_client_change_addr : Address
}.

Record StartSwapClientResponse := {
  start_swap_client_resp_order_id : OrderId
}.

Record StartSwapDealerNotification := {
  start_swap_dealer_ntf_order_id : OrderId;
  start_swap_dealer_ntf_send_asset : AssetId
}.

Record StartSwapDealerRequest := {
  start_swap_dealer_order_id : OrderId;
  start_swap_dealer_inputs : list PsetInput;
  start_swap_dealer_recv_addr : Address;
  start_swap_dealer_change_addr : Address
}.

Record BlindedSwapClientNotification := {
  blinded_swap_client_order_id : OrderId;
  blinded_swap_client_pset : string
}.

Record SignedSwapClientRequest := {
  signed_swap_client_order_id : OrderId;
  signed_swap_client_pset : string
}.

Record BlindedSwapDealerNotification := {
  blinded_swap_dealer_order_id : OrderId;
  blinded_swap_dealer_pset : string
}.

Record SignedSwapDealerRequest := {
  signed_swap_dealer_order_id : OrderId;
  signed_swap_dealer_pset : string
}.

Inductive SwapDoneStatus :=
  | SwapDoneStatus_Success
  | SwapDoneStatus_ClientError
  | SwapDoneStatus_DealerError
  | SwapDoneStatus_ServerError.

#[export] Instance SwapDoneStatus_eq_dec : EqDecision SwapDoneStatus.
Proof. solve_decision. Defined.

Record SwapDoneNotification := {
  swap_done_order_id : OrderId;
  swap_done_status : SwapDoneStatus;
  swap_done_txid : option Txid;
  swap_done_send_asset : AssetId;
  swap_done_send_amount : Z;
  swap_done_recv_asset : AssetId;
  swap_done_recv_amount : Z;
  swap_done_network_fee : option Z;
  swap_done_price : f64
}.

Record ChartPoint := {
  chart_point_time : string;
  chart_point_open : f64;
  chart_point_close : f64;
  chart_point_high : f64;
  chart_point_low : f64;
  chart_point_volume : f64
}.

Record MarketDataSubscribeRequest := {
  market_data_subscribe_asset : AssetId
}.

Record MarketDataSubscribeResponse := {
  market_data_subscribe_resp_asset : AssetId;
  market_data_subscribe_resp_data : list ChartPoint
}.

Record MarketDataUnsubscribeRequest := {
  market_data_unsubscribe_asset : AssetId
}.

Record MarketDataUpdateNotification := {
  market_data_update_asset : AssetId;
  market_data_update_update : ChartPoint
}.

Record SwapPrice := {
  swap_price_asset_id : AssetId;
  swap_price_txid : Txid;
  swap_price_price : f64
}.

Record SwapPricesRequest := {
  swap_prices_token : string
}.

Record SwapPricesResponse := {
  swap_prices_resp_swap_prices : list SwapPrice
}.

Record NewSwapPriceNotification := {
  new_swap_price_swap_price : SwapPrice
}.

Record LiquidexInput := {
  liquidex_input_asset : AssetId;
  liquidex_input_satoshi : Z;
  liquidex_input_asset_blinder : string;
  liquidex_input_value_blind_proof : string;
  liquidex_input_script : option string
}.

Record LiquidexOutput := {
  liquidex_output_asset : AssetId;
  liquidex_output_satoshi : Z;
  liquidex_output_asset_blinder : string;
  liquidex_output_value_blind_proof : string;
  liquidex_output_blinding_nonce : option string
}.

Record LiquidexProposal := {
  liquidex_proposal_inputs : LiquidexInput;
  liquidex_proposal_outputs : LiquidexOutput;
  liquidex_proposal_scalars : string;
  liquidex_proposal_transaction : string;
  liquidex_proposal_version : Z
}.

Inductive Notification :=
  | Notification_ServerStatus (a : ServerStatus)
  | Notification_PegStatus (a : PegStatus)
  | Notification_PriceUpdate (a : PriceUpdateNotification)
  | Notification_LocalMessage (a : LocalMessageNotification)
  | Notification_UpdatePrices (a : LoadPricesResponse)
  | Notification_OrderCreated (a : OrderCreatedNotification)
  | Notification_OrderRemoved (a : OrderRemovedNotification)
  | Notification_Sign (a : SignNotification)
  | Notification_Complete (a : CompleteNotification)
  | Notification_ContactCreated (a : ContactCreatedNotification)
  | Notification_ContactRemoved (a : ContactRemovedNotification)
  | Notification_ContactTransaction (a : ContactTransactionCreatedNotification)
  | Notification_AccountStatus (a : AccountStatusNotification)
  | Notification_UpdatePriceStream (a : SubscribePriceStreamResponse)
  | Notification_StartSwapDealer (a : StartSwapDealerNotification)
  | Notification_BlindedSwapClient (a : BlindedSwapClientNotification)
  | Notification_BlindedSwapDealer (a : BlindedSwapDealerNotification)
  | Notification_SwapDone (a : SwapDoneNotification)
  | Notification_MarketDataUpdate (a : MarketDataUpdateNotification)
  | Notification_NewSwapPrice (a : NewSwapPriceNotification).

Inductive ErrorCode :=
  | ErrorCode_ParseError
  | ErrorCode_InvalidRequest
  | ErrorCode_MethodNotFound
  | ErrorCode_InvalidParams
  | ErrorCode_InternalError
  | ErrorCode_ServerError.

Record Error := {
  err_code : ErrorCode;
  err_message : string
}.

Record LoginResponse := {
  login_resp_session_id : SessionId;
  login_resp_orders : list OrderCreatedNotification
}.

Record SubscribeResponse := {
  subscribe_resp_asset : option AssetId;
  subscribe_resp_orders : list OrderCreatedNotification
}.

Record MakerSignedHalf := {
  maker_signed_half_chaining_tx : option string;
  maker_signed_half_proposal : LiquidexProposal
}.

Record PsetMakerRequest := {
  pset_maker_order_id : OrderId;
  pset_maker_price : f64;
  pset_maker_private : bool;
  pset_maker_ttl_seconds : option Z;
  pset_maker_inputs : list PsetInput;
  pset_maker_recv_addr : Address;
  pset_maker_change_addr : Address;
  pset_maker_signed_half : option MakerSignedHalf
}.

Inductive Request :=
  | Request_Ping (a : unit)
  | Request_ServerStatus (a : unit)
  | Request_Assets (a : option AssetsRequestParam)
  | Request_AmpAssets (a : option AssetsRequestParam)
  | Request_PegFee (a : PegFeeRequest)
  | Request_Peg (a : PegRequest)
  | Request_PegStatus (a : PegStatusRequest)
  | Request_MatchRfq (a : MatchRfqRequest)
  | Request_PriceUpdateBroadcast (a : PriceUpdateBroadcast)
  | Request_PriceUpdateSubscribe (a : PriceUpdateSubscribe)
  | Request_LoginClient (a : LoginClientRequest)
  | Request_LoginDealer (a : LoginDealerRequest)
  | Request_VerifyDevice (a : VerifyDeviceRequest)
  | Request_RegisterDevice (a : RegisterDeviceRequest)
  | Request_RegisterAddresses (a : RegisterAddressesRequest)
  | Request_UpdatePushToken (a : UpdatePushTokenRequest)
  | Request_RegisterPhone (a : RegisterPhoneRequest)
  | Request_VerifyPhone (a : VerifyPhoneRequest)
  | Request_UnregisterPhone (a : UnregisterPhoneRequest)
  | Request_UploadAvatar (a : UploadAvatarRequest)
  | Request_UploadContacts (a : UploadContactsRequest)
  | Request_DownloadContacts (a : DownloadContactsRequest)
  | Request_ContactAddr (a : ContactAddrRequest)
  | Request_ContactBroadcast (a : ContactBroadcastRequest)
  | Request_LoadPrices (a : LoadPricesRequest)
  | Request_CancelPrices (a : CancelPricesRequest)
  | Request_PortfolioPrices (a : unit)
  | Request_Submit (a : SubmitRequest)
  | Request_Edit (a : EditRequest)
  | Request_Cancel (a : CancelRequest)
  | Request_Login (a : LoginRequest)
  | Request_Subscribe (a : SubscribeRequest)
  | Request_Unsubscribe (a : UnsubscribeRequest)
  | Request_Link (a : LinkRequest)
  | Request_PsetMaker (a : PsetMakerRequest)
  | Request_PsetTaker (a : PsetTakerRequest)
  | Request_Sign (a : SignRequest)
  | Request_GetSign (a : GetSignRequest)
  | Request_ResolveGaid (a : ResolveGaidRequest)
  | Request_GaidStatus (a : GaidStatusRequest)
  | Request_AssetDetails (a : AssetDetailsRequest)
  | Request_BroadcastPriceStream (a : BroadcastPriceStreamRequest)
  | Request_SubscribePriceStream (a : SubscribePriceStreamRequest)
  | Request_UnsubscribePriceStream (a : UnsubscribePriceStreamRequest)
  | Request_StartSwapWeb (a : StartSwapWebRequest)
  | Request_StartSwapClient (a : StartSwapClientRequest)
  | Request_StartSwapDealer (a : StartSwapDealerRequest)
  | Request_SignedSwapClient (a : SignedSwapClientRequest)
  | Request_SignedSwapDealer (a : SignedSwapDealerRequest)
  | Request_MarketDataSubscribe (a : MarketDataSubscribeRequest)
  | Request_MarketDataUnsubscribe (a : MarketDataUnsubscribeRequest)
  | Request_SwapPrices (a : SwapPricesRequest).

Inductive Response :=
  | Response_Ping (a : unit)
  | Response_ServerStatus (a : ServerStatus)
  | Response_Assets (a : AssetsResponse)
  | Response_AmpAssets (a : AmpAssetsResponse)
  | Response_PegFee (a : PegFeeResponse)
  | Response_Peg (a : PegResponse)
  | Response_PegStatus (a : PegStatus)
  | Response_MatchRfq (a : MatchRfqResponse)
  | Response_MatchRfqCancel (a : unit)
  | Response_MatchRfqAccept (a : unit)
  | Response_MatchQuote (a : unit)
  | Response_PriceUpdateBroadcast (a : unit)
  | Response_PriceUpdateSubscribe (a : unit)
  | Response_Swap (a : unit)
  | Response_LoginClient (a : LoginClientResponse)
  | Response_LoginDealer (a : unit)
  | Response_VerifyDevice (a : VerifyDeviceResponse)
  | Response_RegisterDevice (a : RegisterDeviceResponse)
  | Response_RegisterAddresses (a : unit)
  | Response_UpdatePushToken (a : unit)
  | Response_RegisterPhone (a : RegisterPhoneResponse)
  | Response_VerifyPhone (a : VerifyPhoneResponse)
  | Response_UnregisterPhone (a : unit)
  | Response_UploadAvatar (a : unit)
  | Response_UploadContacts (a : unit)
  | Response_DownloadContacts (a : DownloadContactsResponse)
  | Response_ContactAddr (a : ContactAddrResponse)
  | Response_ContactBroadcast (a : ContactBroadcastResponse)
  | Response_LoadPrices (a : LoadPricesResponse)
  | Response_CancelPrices (a : unit)
  | Response_PortfolioPrices (a : PortfolioPricesResponse)
  | Response_Submit (a : SubmitResponse)
  | Response_Edit (a : unit)
  | Response_Cancel (a : unit)
  | Response_Login (a : LoginResponse)
  | Response_Subscribe (a : SubscribeResponse)
  | Response_Unsubscribe (a : UnsubscribeResponse)
  | Response_Link (a : LinkResponse)
  | Response_PsetMaker (a : unit)
  | Response_PsetTaker (a : unit)
  | Response_Sign (a : unit)
  | Response_GetSign (a : GetSignResponse)
  | Response_ResolveGaid (a : ResolveGaidResponse)
  | Response_GaidStatus (a : GaidStatusResponse)
  | Response_AssetDetails (a : AssetDetailsResponse)
  | Response_BroadcastPriceStream (a : unit)
  | Response_SubscribePriceStream (a : SubscribePriceStreamResponse)
  | Response_UnsubscribePriceStream (a : unit)
  | Response_StartSwapWeb (a : StartSwapWebResponse)
  | Response_StartSwapClient (a : StartSwapClientResponse)
  | Response_StartSwapDealer (a : unit)
  | Response_SignedSwapClient (a : unit)
  | Response_SignedSwapDealer (a : unit)
  | Response_MarketDataSubscribe (a : MarketDataSubscribeResponse)
  | Response_MarketDataUnsubscribe (a : unit)
  | Response_SwapPrices (a : SwapPricesResponse).

Inductive RequestMessage :=
  | RequestMessage_Request (a : RequestId) (b : Request).

Inductive ResponseMessage :=
  | ResponseMessage_Response (a : option RequestId) (b : Response + Error)
  | ResponseMessage_Notification (a : Notification).

Definition priced_in_bitcoins (market : MarketType) : bool :=
  bool_decide (market ≠ MarketType_Stablecoin).

(** The pattern [Ok(Response::V(value))] of the [send_request!] macros, per variant. *)
Definition as_ServerStatus (r : Response) := match r with Response_ServerStatus a => Some a | _ => None end.
Definition as_Assets (r : Response) := match r with Response_Assets a => Some a | _ => None end.
Definition as_AmpAssets (r : Response) := match r with Response_AmpAssets a => Some a | _ => None end.
Definition as_Peg (r : Response) := match r with Response_Peg a => Some a | _ => None end.
Definition as_PegStatus (r : Response) := match r with Response_PegStatus a => Some a | _ => None end.
Definition as_LoginClient (r : Response) := match r with Response_LoginClient a => Some a | _ => None end.
Definition as_LoginDealer (r : Response) := match r with Response_LoginDealer a => Some a | _ => None end.
Definition as_VerifyDevice (r : Response) := match r with Response_VerifyDevice a => Some a | _ => None end.
Definition as_RegisterDevice (r : Response) := match r with Response_RegisterDevice a => Some a | _ => None end.
Definition as_RegisterAddresses (r : Response) := match r with Response_RegisterAddresses a => Some a | _ => None end.
Definition as_UpdatePushToken (r : Response) := match r with Response_UpdatePushToken a => Some a | _ => None end.
Definition as_LoadPrices (r : Response) := match r with Response_LoadPrices a => Some a | _ => None end.
Definition as_CancelPrices (r : Response) := match r with Response_CancelPrices a => Some a | _ => None end.
Definition as_PortfolioPrices (r : Response) := match r with Response_PortfolioPrices a => Some a | _ => None end.
Definition as_Submit (r : Response) := match r with Response_Submit a => Some a | _ => None end.
Definition as_Edit (r : Response) := match r with Response_Edit a => Some a | _ => None end.
Definition as_Cancel (r : Response) := match r with Response_Cancel a => Some a | _ => None end.
Definition as_Login (r : Response) := match r with Response_Login a => Some a | _ => None end.
Definition as_Subscribe (r : Response) := match r with Response_Subscribe a => Some a | _ => None end.
Definition as_Unsubscribe (r : Response) := match r with Response_Unsubscribe a => Some a | _ => None end.
Definition as_Link (r : Response) := match r with Response_Link a => Some a | _ => None end.
Definition as_PsetMaker (r : Response) := match r with Response_PsetMaker a => Some a | _ => None end.
Definition as_PsetTaker (r : Response) := match r with Response_PsetTaker a => Some a | _ => None end.
Definition as_Sign (r : Response) := match r with Response_Sign a => Some a | _ => None end.
Definition as_GetSign (r : Response) := match r with Response_GetSign a => Some a | _ => None end.
Definition as_ResolveGaid (r : Response) := match r with Response_ResolveGaid a => Some a | _ => None end.
Definition as_GaidStatus (r : Response) := match r with Response_GaidStatus a => Some a | _ => None end.
Definition as_AssetDetails (r : Response) := match r with Response_AssetDetails a => Some a | _ => None end.
Definition as_BroadcastPriceStream (r : Response) := match r with Response_BroadcastPriceStream a => Some a | _ => None end.
Definition as_SubscribePriceStream (r : Response) := match r with Response_SubscribePriceStream a => Some a | _ => None end.
Definition as_UnsubscribePriceStream (r : Response) := match r with Response_UnsubscribePriceStream a => Some a | _ => None end.
Definition as_StartSwapWeb (r : Response) := match r with Response_StartSwapWeb a => Some a | _ => None end.
Definition as_StartSwapClient (r : Response) := match r with Response_StartSwapClient a => Some a | _ => None end.
Definition as_StartSwapDealer (r : Response) := match r with Response_StartSwapDealer a => Some a | _ => None end.
Definition as_SignedSwapClient (r : Response) := match r with Response_SignedSwapClient a => Some a | _ => None end.
Definition as_SignedSwapDealer (r : Response) := match r with Response_SignedSwapDealer a => Some a | _ => None end.
Definition as_MarketDataSubscribe (r : Response) := match r with Response_MarketDataSubscribe a => Some a | _ => None end.
Definition as_MarketDataUnsubscribe (r : Response) := match r with Response_MarketDataUnsubscribe a => Some a | _ => None end.
Definition as_SwapPrices (r : Response) := match r with Response_SwapPrices a => Some a | _ => None end.
Definition as_PriceUpdateBroadcast (r : Response) := match r with Response_PriceUpdateBroadcast a => Some a | _ => None end.

Definition peg_tx_state_code (state : PegTxState) : Z :=
  match state with
  | PegTxState_InsufficientAmount => 1
  | PegTxState_Detected => 2
  | PegTxState_Processing => 3
  | PegTxState_Done => 4
  end.

Definition error_code (code : ErrorCode) : Z :=
  match code with
  | ErrorCode_ParseError => -32700
  | ErrorCode_InvalidRequest => -32600
  | ErrorCode_MethodNotFound => -32601
  | ErrorCode_InvalidParams => -32602
  | ErrorCode_InternalError => -32603
  | ErrorCode_ServerError => -32000
  end.

(** ** Lemmas *)

Lemma hex_value_digit n : 0 ≤ n < 16 → hex_value (hex_digit n) = Some n.
Proof.
  intros Hn. assert (n ∈ seqZ 0 16) as Hin by (apply elem_of_seqZ; lia).
  revert n Hn Hin. cut (Forall (λ n, hex_value (hex_digit n) = Some n) (seqZ 0 16)).
  { intros H n _ Hin. by eapply Forall_forall in H. }
  vm_compute. repeat constructor.
Qed.

Lemma hex_decode_encode data : Forall is_byte data → hex_decode (hex_encode data) = Some data.
Proof.
  unfold is_byte. induction 1 as [|b data Hb _ IH]; [done|].
  simpl. pose proof (Z.mod_pos_bound b 16). pose proof (Z.div_mod b 16).
  assert (0 ≤ b / 16 < 16) by (split; [apply Z.div_pos|apply Z.div_lt_upper_bound]; lia).
  rewrite !hex_value_digit by lia. rewrite IH. f_equal. f_equal. lia.
Qed.

Lemma hex_value_range c n : hex_value c = Some n → 0 ≤ n < 16.
Proof. unfold hex_value. repeat case_match; intros [= <-]; lia. Qed.

Lemma hex_decode_bytes s data : hex_decode s = Some data → Forall is_byte data.
Proof.
  revert s. induction data as [|b data IH]; intros s H; [constructor|].
  destruct s as [|c [|d s]]; simpl in H; [done|done|].
  destruct (hex_value c) eqn:Hc; [|done]. destruct (hex_value d) eqn:Hd; [|done].
  destruct (hex_decode s) eqn:Hs; [|done]. injection H as <- <-.
  apply hex_value_range in Hc, Hd. constructor; [unfold is_byte; lia|]. by eapply IH.
Qed.

Lemma hex_decode_length s data : hex_decode s = Some data → String.length s = (2 * length data)%nat.
Proof.
  revert s. induction data as [|b data IH]; intros s H;
    destruct s as [|c [|d s]]; simpl in *; try done; repeat case_match; simplify_eq.
  erewrite IH by done. lia.
Qed.

(** ** Properties *)

(** Identifiers survive their textual form: printing the 32 bytes of an
    identifier and parsing the text gives the identifier back. *)
Theorem Hash32_roundtrip h :
  length h = 32%nat → Forall is_byte h → Hash32_from_str (Hash32_to_string h) = Ok h.
Proof.
  intros Hl Hb. unfold Hash32_from_str, Hash32_to_string.
  rewrite hex_decode_encode by (by apply Forall_reverse).
  rewrite bool_decide_true by (by rewrite length_reverse). by rewrite reverse_involutive.
Qed.

Lemma Hash32_roundtrip_witness :
  Hash32_from_str (Hash32_to_string (seqZ 100 32)) = Ok (seqZ 100 32).
Proof.
  apply (Hash32_roundtrip (seqZ 100 32)); [done|].
  apply Forall_forall. intros x Hx%elem_of_seqZ. unfold is_byte. lia.
Defined.

(** A successfully parsed identifier has exactly 32 bytes, and text that is not
    64 hexadecimal digits is refused without a panic. *)
Theorem Hash32_from_str_total s :
  (∃ h, Hash32_from_str s = Ok h ∧ length h = 32%nat ∧ Forall is_byte h ∧
        String.length s = 64%nat) ∨
  (∃ e, Hash32_from_str s = Err e ∧ ∀ h, hex_decode s = Some h → length h ≠ 32%nat).
Proof.
  unfold Hash32_from_str. destruct (hex_decode s) as [data|] eqn:E.
  - case_bool_decide as Hl.
    + left. exists (reverse data). rewrite length_reverse. split; [done|]. split; [done|].
      split; [by eapply Forall_reverse, hex_decode_bytes|].
      rewrite (hex_decode_length _ _ E). lia.
    + right. eexists. split; [done|]. intros h [= <-]. done.
  - right. eexists. split; [done|]. done.
Qed.
