(* ===== verification/Encoded.v ===== *)
(** * Values as they are written down

    rust/sideswap_types/src: values that are hex in JSON, times as milliseconds, amounts as
    bitcoins.  The encodings of the elements and bitcoin crates are parameters. *)
From stdpp Require Import base numbers strings list.
From Stdlib Require Import ZArith Lia.
From S2P Require Import Prelude Api.

Open Scope Z_scope.
#[local] Set Primitive Projections.

(** ** hex_encoded.rs *)

Record HexEncoded (T : Type) := { hex_inner : T }.
Arguments hex_inner {_} _.
Arguments Build_HexEncoded {_} _.

(** [Encodable] and [Decodable], with what they promise each other: the bytes of a value
    are those it is read from. *)
Class Consensus (T : Type) := {
  consensus_encode : T → list Z;
  consensus_decode : list Z → outcome T;
  consensus_bytes v : Forall is_byte (consensus_encode v);
  consensus_decode_encode v : consensus_decode (consensus_encode v) = Ok v;
  consensus_encode_decode data v : consensus_decode data = Ok v → consensus_encode v = data
}.

Section Hex.
Context `{Consensus T}.

Definition hex_serialize (v : HexEncoded T) : string := hex_encode (consensus_encode (hex_inner v)).

Definition hex_deserialize (hex : string) : outcome (HexEncoded T) :=
  let? vec := ook_or (hex_decode hex) "invalid hex" in
  let? value := consensus_decode vec in
  Ok (Build_HexEncoded value).

(** What is written is read. *)
Lemma hex_roundtrip v : hex_deserialize (hex_serialize v) = Ok v.
Proof.
  unfold hex_deserialize, hex_serialize. rewrite hex_decode_encode by apply consensus_bytes.
  cbn. by rewrite consensus_decode_encode.
Qed.

(** What is read is written the same, but for capital digits. *)
Lemma hex_canonical hex v :
  hex_deserialize hex = Ok v → hex_decode (hex_serialize v) = hex_decode hex.
Proof.
  unfold hex_deserialize, hex_serialize. destruct (hex_decode hex) as [vec|] eqn:E; [|done]. cbn.
  destruct (consensus_decode vec) as [value|e|e] eqn:Ev; [|done..]. intros [= <-]. cbn [hex_inner].
  rewrite (consensus_encode_decode _ _ Ev). apply hex_decode_encode. by apply hex_decode_bytes in E.
Qed.
End Hex.

(** ** timestamp.rs *)

(** A [SystemTime] is in nanoseconds from the epoch, before it negative. *)
Definition NANOS : Z := 1000000.

Record Timestamp := { timestamp_ms : Z }.

Definition from_time (time : Z) : option Timestamp :=
  if time <? 0 then None
  else
    let ms := time / NANOS in
    if ms <=? u64_max then Some {| timestamp_ms := ms |} else None.

Definition to_time (t : Timestamp) : Z := timestamp_ms t * NANOS.

Definition timestamp_now (system_now : Z) : outcome Timestamp :=
  oexpect (from_time system_now) "invalid SystemTime".

Lemma timestamp_roundtrip t : in_u64 (timestamp_ms t) → from_time (to_time t) = Some t.
Proof.
  intros [Hlo Hhi]. unfold from_time, to_time, NANOS.
  rewrite (proj2 (Z.ltb_ge _ _)) by lia. rewrite Z.div_mul by lia.
  by rewrite (proj2 (Z.leb_le _ _)) by lia.
Qed.

(** The time is cut to milliseconds, and there is one from the epoch on. *)
Lemma timestamp_bounds time t :
  from_time time = Some t → in_u64 (timestamp_ms t) ∧ to_time t ≤ time < to_time t + NANOS.
Proof.
  unfold from_time, to_time, in_u64, NANOS. destruct (Z.ltb_spec time 0); [done|].
  destruct (Z.leb_spec (time / 1000000) u64_max); [|done]. intros [= <-]. cbn.
  pose proof (Z.div_mod time 1000000). pose proof (Z.mod_pos_bound time 1000000).
  assert (0 ≤ time / 1000000) by (apply Z.div_pos; lia). lia.
Qed.

(** ** bitcoin_amount/mod.rs *)

(** [ser_btc] and [des_btc] of the bitcoin crate. *)
Class BtcFormat := {
  ser_btc : Z → string;
  des_btc : string → outcome Z;
  signed_ser_btc : Z → string;
  signed_des_btc : string → outcome Z
}.

Record SignedBtcAmount := { signed_to_sat : Z }.
Record BtcAmount := { btc_to_sat : Z }.

Section Btc.
Context `{BtcFormat}.

Definition signed_btc_serialize (a : SignedBtcAmount) : string := signed_ser_btc (signed_to_sat a).
Definition signed_btc_deserialize (text : string) : outcome SignedBtcAmount :=
  let? amount := signed_des_btc text in Ok {| signed_to_sat := amount |}.

Definition btc_serialize (a : BtcAmount) : string := ser_btc (btc_to_sat a).
Definition btc_deserialize (text : string) : outcome BtcAmount :=
  let? amount := des_btc text in Ok {| btc_to_sat := amount |}.
End Btc.
