(* ===== verification/Links.v ===== *)
(** * Connections to the servers

    The threads that keep a WebSocket connection: to the marketplace on request
    (sideswap_common/src/ws/manual.rs) or always (ws/auto.rs), with the constants of ws.rs,
    and to the exchange module (sideswap_dealer_bitfinex/src/module.rs).  A thread waits for
    several things at once; what happens first is not up to it, so a thread is its reaction
    to each event, run on a list of events.  [link_run] is what the rest of a program may
    rely on, and [Link] the interface under which all three promise it. *)
From stdpp Require Import base numbers strings list pretty.
From Stdlib Require Import ZArith Lia.
From S2P Require Import Prelude Serial Api.

Open Scope Z_scope.
#[local] Set Primitive Projections.

(** ** Messages *)

(** What a link tells its program. *)
Inductive WrappedResponse (A : Type) :=
  | Ws_Connected
  | Ws_Disconnected
  | Ws_Response (resp : A).
Arguments Ws_Connected {_}.
Arguments Ws_Disconnected {_}.
Arguments Ws_Response {_} _.

(** [manual::WrappedRequest]; of [auto::WrappedRequest] there is only [Ws_Request]. *)
Inductive WrappedRequest :=
  | Ws_Connect (host : string) (port : Z) (use_tls : bool)
  | Ws_Disconnect
  | Ws_Request (req : RequestMessage).

(** Messages of the WebSocket protocol. *)
Inductive Frame :=
  | Frame_Text (text : string)
  | Frame_Binary (data : bytes)
  | Frame_Ping (data : bytes)
  | Frame_Pong (data : bytes)
  | Frame_Close.

(** What a link does: tell its program, try to connect, wait before the next try, send. *)
Inductive LinkEvent (A : Type) :=
  | Link_resp (resp : WrappedResponse A)
  | Link_connect (url : string)
  | Link_sleep (seconds : Z)
  | Link_frame (frame : Frame).
Arguments Link_resp {_} _.
Arguments Link_connect {_} _.
Arguments Link_sleep {_} _.
Arguments Link_frame {_} _.

(** What happens to a link next: its program puts a request or a hint into a channel or
    drops the channel; the link takes what is there; a try to connect succeeds or fails, the
    wait after it is over; the server sends or ends the connection; the timer ticks; time
    passes.  What cannot happen in a state changes nothing. *)
Inductive LinkInput (R : Type) :=
  | In_request (req : R)
  | In_hint
  | In_drop
  | In_take_request
  | In_take_hint
  | In_connected
  | In_failed
  | In_awake
  | In_server (msg : option (Frame + string))
  | In_tick
  | In_time (ms : Z).
Arguments In_request {_} _.
Arguments In_hint {_}.
Arguments In_drop {_}.
Arguments In_take_request {_}.
Arguments In_take_hint {_}.
Arguments In_connected {_}.
Arguments In_failed {_}.
Arguments In_awake {_}.
Arguments In_server {_} _.
Arguments In_tick {_}.
Arguments In_time {_} _.

(** Where a link is in its loops.  A try that failed sleeps before its error is seen. *)
Inductive LinkPhase :=
  | Link_idle
  | Link_connecting (url : string) (reconnect_count : nat) (sleeping : bool)
  | Link_open (last_recv_timestamp : Z)
  | Link_stopped.

Record LinkState (R A : Type) := {
  ln_phase : LinkPhase;
  ln_requests : list R;
  ln_hints : nat;
  ln_dropped : bool;
  (** the clock, in milliseconds *)
  ln_now : Z;
  ln_log : list (LinkEvent A)
}.
Arguments ln_phase {_ _} _.
Arguments ln_requests {_ _} _.
Arguments ln_hints {_ _} _.
Arguments ln_dropped {_ _} _.
Arguments ln_now {_ _} _.
Arguments ln_log {_ _} _.

(** JSON texts of messages. *)
Class WsEnv := {
  request_text : RequestMessage → string;
  response_of_text : string → outcome ResponseMessage
}.

(** ** Constants of ws.rs, in milliseconds *)

Definition PATH_JSON_RUST_WS : string := "rust-rpc-ws".

Definition RECONNECT_WAIT_PERIODS : list Z := [0; 1000; 3000; 6000; 9000].
Definition RECONNECT_WAIT_MAX_PERIOD : Z := 12000.
Definition PING_PERIOD : Z := 30000.
Definition PONG_TIMEOUT : Z := 90000.

(** [RECONNECT_WAIT_PERIODS.get(n).unwrap_or(&RECONNECT_WAIT_MAX_PERIOD)] *)
Definition reconnect_wait (reconnect_count : nat) : Z :=
  default RECONNECT_WAIT_MAX_PERIOD (RECONNECT_WAIT_PERIODS !! reconnect_count).

Definition ws_url (host : string) (port : Z) (use_tls : bool) : string :=
  (if use_tls then "wss" else "ws") +:+ "://" +:+ host +:+ ":" +:+ pretty port +:+ "/" +:+
  PATH_JSON_RUST_WS.

Section Steps.
Context {R A : Type}.

Definition LinkM : Type → Type := M (LinkState R A).

Definition ln_emit (e : LinkEvent A) : LinkM unit := modify (λ s, s <| ln_log ::= cons e |>).
Definition ln_goto (phase : LinkPhase) : LinkM unit := modify (λ s, s <| ln_phase := phase |>).

(** The program is told only now that the connection is gone. *)
Definition disconnected (next : LinkM unit) : LinkM unit :=
  do! ln_emit (Link_resp Ws_Disconnected) in next.

Definition try_connect (url : string) (reconnect_count : nat) : LinkM unit :=
  do! ln_emit (Link_connect url) in
  ln_goto (Link_connecting url reconnect_count false).

(** A try to connect is over. *)
Definition connect_result (url : string) (reconnect_count : nat) (connected : bool) : LinkM unit :=
  if connected then
    do! ln_emit (Link_resp Ws_Connected) in
    let! now := gets ln_now in
    ln_goto (Link_open now)
  else
    do! ln_emit (Link_sleep (reconnect_wait reconnect_count)) in
    ln_goto (Link_connecting url reconnect_count true).

(** [recv().await]: the oldest request, or none when the channel is empty and dropped. *)
Definition take_request (on_request : R → LinkM unit) (on_end : LinkM unit) : LinkM unit :=
  let! requests := gets ln_requests in
  match requests with
  | req :: requests =>
      do! modify (λ s, s <| ln_requests := requests |>) in
      on_request req
  | [] =>
      let! dropped := gets ln_dropped in
      if dropped : bool then on_end else ret tt
  end.

Definition ln_stop : LinkM unit := ln_goto Link_stopped.

(** Channels and the clock, which do not depend on the loops of a link. *)
Definition common_step (i : LinkInput R) (step : LinkM unit) : LinkM unit :=
  match i with
  | In_request req => modify (λ s, s <| ln_requests ::= λ l, l ++ [req] |>)
  | In_hint => modify (λ s, s <| ln_hints ::= S |>)
  | In_drop => modify (λ s, s <| ln_dropped := true |>)
  | In_time ms => modify (λ s, s <| ln_now ::= Z.add (Z.max 0 ms) |>)
  | _ => step
  end.

(** A tick of the timer: a silent connection is given up, or asked for a sign of life. *)
Definition tick (last_recv_timestamp : Z) (on_lost : LinkM unit) : LinkM unit :=
  let! now := gets ln_now in
  let last_recv_duration := now - last_recv_timestamp in
  if PONG_TIMEOUT <? last_recv_duration then on_lost
  else if PING_PERIOD <? last_recv_duration then ln_emit (Link_frame (Frame_Ping []))
  else ret tt.

Definition ln_initial (phase : LinkPhase) : LinkState R A :=
  {| ln_phase := phase; ln_requests := []; ln_hints := 0; ln_dropped := false; ln_now := 0;
     ln_log := [] |}.
End Steps.
Arguments LinkM : clear implicits.

(** ** The link of the client ([ws::manual]) and of the dealers ([ws::auto]) *)

Section Ws.
Context `{WsEnv}.

Abbreviation WsM := (LinkM WrappedRequest ResponseMessage) (only parsing).

(** A message of the server; the end of the stream is a panic. *)
Definition server_msg (msg : option (Frame + string)) (on_lost : WsM unit) : WsM unit :=
  match msg with
  | None => panic "called `Option::unwrap()` on a `None` value"
  | Some (inr _) => on_lost
  | Some (inl frame) =>
      let! now := gets ln_now in
      do! ln_goto (Link_open now) in
      match frame with
      | Frame_Text text =>
          match response_of_text text with
          | Ok v => ln_emit (Link_resp (Ws_Response v))
          | _ => ret tt
          end
      | Frame_Ping data => ln_emit (Link_frame (Frame_Pong data))
      | _ => ret tt
      end
  end.

Definition send_text (req : RequestMessage) : WsM unit :=
  ln_emit (Link_frame (Frame_Text (request_text req))).

(** Back to waiting for a request to connect. *)
Definition manual_lost : WsM unit := disconnected (ln_goto Link_idle).

Definition idle_request (req : WrappedRequest) : WsM unit :=
  match req with
  | Ws_Connect host port use_tls => try_connect (ws_url host port use_tls) 0
  | _ => ret tt
  end.

Definition open_request (req : WrappedRequest) : WsM unit :=
  match req with
  | Ws_Request req => send_text req
  | Ws_Connect _ _ _ => ret tt
  | Ws_Disconnect => manual_lost
  end.

Definition take_hint (url : string) : WsM unit :=
  let! hints := gets ln_hints in
  match hints with
  | S hints =>
      do! modify (λ s, s <| ln_hints := hints |>) in
      try_connect url 0
  | O =>
      let! dropped := gets ln_dropped in
      if dropped : bool then ln_stop else ret tt
  end.

Definition manual_step (i : LinkInput WrappedRequest) : WsM unit :=
  common_step i (
    let! phase := gets ln_phase in
    match phase, i with
    | Link_idle, In_take_request => take_request idle_request ln_stop
    | Link_connecting url n false, In_connected => connect_result url n true
    | Link_connecting url n false, In_failed => connect_result url n false
    | Link_connecting url n true, In_awake => try_connect url (S n)
    | Link_connecting url _ _, In_take_hint => take_hint url
    | Link_open _, In_take_request => take_request open_request ln_stop
    | Link_open _, In_server msg => server_msg msg manual_lost
    | Link_open last, In_tick => tick last manual_lost
    | _, _ => ret tt
    end).

Definition run_manual (inputs : list (LinkInput WrappedRequest)) : WsM unit :=
  for_each inputs manual_step.

(** The dealers' link knows where to connect and starts over by itself. *)
Definition auto_lost (url : string) : WsM unit := disconnected (try_connect url 0).

Definition auto_request (req : WrappedRequest) : WsM unit :=
  match req with Ws_Request req => send_text req | _ => ret tt end.

Definition auto_step (server_url : string) (i : LinkInput WrappedRequest) : WsM unit :=
  common_step i (
    let! phase := gets ln_phase in
    match phase, i with
    | Link_connecting url n false, In_connected => connect_result url n true
    | Link_connecting url n false, In_failed => connect_result url n false
    | Link_connecting url n true, In_awake => try_connect url (S n)
    | Link_open _, In_take_request => take_request auto_request ln_stop
    | Link_open _, In_server msg => server_msg msg (auto_lost server_url)
    | Link_open last, In_tick => tick last (auto_lost server_url)
    | _, _ => ret tt
    end).

Definition run_auto (host : string) (port : Z) (use_tls : bool)
    (inputs : list (LinkInput WrappedRequest)) : WsM unit :=
  let url := ws_url host port use_tls in
  do! try_connect url 0 in
  for_each inputs (auto_step url).
End Ws.

(** ** The link to the exchange module *)

Abbreviation ModuleM := (LinkM bytes bytes) (only parsing).

Definition module_url (host : string) (port : Z) : string :=
  "ws://" +:+ host +:+ ":" +:+ pretty port +:+ "/binary".

(** Ten seconds pass before every try but the first; the end of the stream ends the thread. *)
Definition MODULE_WAIT : Z := 10000.

Definition module_wait (url : string) : ModuleM unit :=
  do! ln_emit (Link_sleep MODULE_WAIT) in
  ln_goto (Link_connecting url 0 true).

Definition module_msg (url : string) (msg : option (Frame + string)) : ModuleM unit :=
  match msg with
  | None => ln_stop
  | Some (inr _) => disconnected (module_wait url)
  | Some (inl (Frame_Binary data)) => ln_emit (Link_resp (Ws_Response data))
  | Some (inl (Frame_Ping data)) => ln_emit (Link_frame (Frame_Pong data))
  | Some (inl _) => ret tt
  end.

Definition module_step (server_url : string) (i : LinkInput bytes) : ModuleM unit :=
  common_step i (
    let! phase := gets ln_phase in
    match phase, i with
    | Link_connecting url n false, In_connected => connect_result url n true
    | Link_connecting url n false, In_failed => module_wait url
    | Link_connecting url n true, In_awake => try_connect url n
    | Link_open _, In_take_request =>
        take_request (λ data, ln_emit (Link_frame (Frame_Binary data))) ln_stop
    | Link_open _, In_server msg => module_msg server_url msg
    | _, _ => ret tt
    end).

Definition run_module (host : string) (port : Z) (inputs : list (LinkInput bytes)) : ModuleM unit :=
  let url := module_url host port in
  do! try_connect url 0 in
  for_each inputs (module_step url).

(** ** What a program may rely on

    It hears of a connection before it gets responses, and of the end of a connection
    before it hears of the next; [link_run up l up'] says so of what it is told, in order,
    from a state of the connection to another. *)
Inductive link_run {A} : bool → list (WrappedResponse A) → bool → Prop :=
  | link_nil up : link_run up [] up
  | link_connected l up : link_run true l up → link_run false (Ws_Connected :: l) up
  | link_response a l up : link_run true l up → link_run true (Ws_Response a :: l) up
  | link_disconnected l up : link_run false l up → link_run true (Ws_Disconnected :: l) up.
#[export] Hint Constructors link_run : core.

Lemma link_run_app {A} up1 up2 up3 (l1 l2 : list (WrappedResponse A)) :
  link_run up1 l1 up2 → link_run up2 l2 up3 → link_run up1 (l1 ++ l2) up3.
Proof. induction 1; simpl; auto. Qed.

(** A link of any kind: what it tells and what it sends on a list of events, when some of
    the events ask for something to be sent.  Nothing is sent that was not asked for, more
    than once, or out of order. *)
Class Link (I A D : Type) (asks : I → option D) (tells : list I → list (WrappedResponse A))
    (sends : list I → list D) := {
  link_alternates inputs : ∃ up, link_run false (tells inputs) up;
  link_in_order inputs : sends inputs `sublist_of` omap asks inputs
}.

Section Told.
Context {R A : Type}.
Implicit Types s : LinkState R A.

Definition told (log : list (LinkEvent A)) : list (WrappedResponse A) :=
  omap (λ e, match e with Link_resp r => Some r | _ => None end) (reverse log).
#[global] Arguments told : simpl never.

Definition is_open (phase : LinkPhase) : bool := match phase with Link_open _ => true | _ => false end.

(** A link that stopped tells nothing more. *)
Definition linked (s : LinkState R A) : Prop :=
  ∃ up, link_run false (told (ln_log s)) up ∧ (ln_phase s = Link_stopped ∨ up = is_open (ln_phase s)).

Lemma told_cons e log :
  told (e :: log) = told log ++ match e with Link_resp r => [r] | _ => [] end.
Proof. unfold told. rewrite reverse_cons, omap_app. by destruct e. Qed.

(** What was sent, and what was asked for: with what is still in the channel, nothing else
    is asked for. *)
Definition sent {D} (f : Frame → option D) (log : list (LinkEvent A)) : list D :=
  omap (λ e, match e with Link_frame frame => f frame | _ => None end) (reverse log).
#[global] Arguments sent : simpl never.

Definition in_order {D} (f : Frame → option D) (g : R → option D) (put : list R) s : Prop :=
  ∃ taken, put = taken ++ ln_requests s ∧ sent f (ln_log s) `sublist_of` omap g taken.

Definition put_in (inputs : list (LinkInput R)) : list R :=
  omap (λ i, match i with In_request req => Some req | _ => None end) inputs.
#[global] Arguments put_in : simpl never.

Lemma sent_cons {D} (f : Frame → option D) e log :
  sent f (e :: log) = sent f log ++ match e with Link_frame frame => option_list (f frame) | _ => [] end.
Proof.
  unfold sent. rewrite reverse_cons, omap_app. f_equal.
  destruct e as [| | |x]; simpl; [done..|by destruct (f x)].
Qed.

Lemma in_order_put {D} (f : Frame → option D) g put s :
  in_order f g put s → sent f (ln_log s) `sublist_of` omap g put.
Proof. intros (taken & -> & Hs). rewrite omap_app. by apply sublist_inserts_r. Qed.

Lemma put_in_cons i inputs : put_in (i :: inputs) = put_in [i] ++ put_in inputs.
Proof. by destruct i. Qed.

Lemma run_in_order {D} (f : Frame → option D) g (step : LinkInput R → LinkM R A unit) inputs put s :
  (∀ put i s, in_order f g put s → in_order f g (put ++ put_in [i]) (step i s).1) →
  in_order f g put s →
  sent f (ln_log (for_each inputs step s).1) `sublist_of` omap g (put ++ put_in inputs).
Proof.
  intros Hstep. revert put s. induction inputs as [|i inputs IH]; intros put s Hs.
  { rewrite app_nil_r. by apply in_order_put. }
  rewrite put_in_cons, app_assoc. apply (Hstep _ i) in Hs.
  simpl. unfold bind. destruct (step i s) as [s' [u|e|e]]; simpl in *; [by apply IH|..].
  all: rewrite omap_app; by apply sublist_inserts_r, in_order_put.
Qed.

(** Both laws of a link follow from what each step keeps. *)
Lemma link_of_steps {D} (f : Frame → option D) (g : R → option D) (step : LinkInput R → LinkM R A unit) s0 :
  linked s0 → in_order f g [] s0 → (∀ i, keeps linked (step i)) →
  (∀ put i s, in_order f g put s → in_order f g (put ++ put_in [i]) (step i s).1) →
  Link (LinkInput R) A D (λ i, match i with In_request req => g req | _ => None end)
    (λ inputs, told (ln_log (for_each inputs step s0).1))
    (λ inputs, sent f (ln_log (for_each inputs step s0).1)).
Proof.
  intros Hl0 Ho0 Hl Ho. split; intros inputs.
  - destruct (keeps_for_each linked inputs step (λ i _, Hl i) s0 Hl0) as (up & Hup & _). by exists up.
  - pose proof (run_in_order f g step inputs [] s0 Ho Ho0) as Hr.
    assert (omap (λ i, match i with In_request req => g req | _ => None end) inputs =
            omap g (put_in inputs)) as ->; [|exact Hr].
    clear. induction inputs as [|i inputs IH]; [done|].
    destruct i; simpl in *; try exact IH. destruct (g req); [by f_equal|exact IH].
Qed.
End Told.

(** Run a step on an explicit state, and look at what was told. *)
Ltac link_step :=
  match goal with s : LinkState _ _ |- _ => destruct s end;
  unfold common_step, take_request, connect_result, try_connect, disconnected, ln_stop, ln_emit, ln_goto,
    take_hint, idle_request, open_request, auto_request, send_text, manual_lost, auto_lost, server_msg,
    tick, module_msg, module_wait;
  repeat (cbn; unfold bind, gets, modify, ret, panic; case_match); cbn; subst.

Ltac link_told :=
  match goal with H : linked _ |- _ =>
    let up := fresh "up" in let Hup := fresh "Hup" in let Hp := fresh "Hp" in
    destruct H as (up & Hup & Hp); cbn in Hup, Hp;
    destruct Hp as [Hp|Hp]; [discriminate Hp|subst up]
  end; unfold linked; cbn; rewrite ?told_cons; cbn; rewrite ?app_nil_r;
  eexists; (split; [repeat (eapply link_run_app; [eassumption|]); eauto|]); auto.

Ltac link_sent :=
  match goal with H : in_order _ _ _ _ |- _ =>
    let taken := fresh "taken" in let E := fresh "E" in let Hs := fresh "Hs" in
    destruct H as (taken & E & Hs); cbn in E, Hs; subst;
    unfold in_order, put_in; cbn; rewrite ?sent_cons; cbn; rewrite ?app_nil_r;
    first
      [exists taken; split; [by rewrite <- ?app_assoc, ?app_nil_r|exact Hs]
      |lazymatch goal with |- context [taken ++ ?req :: _] => exists (taken ++ [req]) end;
       split; [by rewrite <- app_assoc|]; rewrite omap_app; cbn; rewrite ?app_nil_r;
       first [exact Hs|apply sublist_app; [exact Hs|reflexivity]|by apply sublist_inserts_r]]
  end.

Section Promises.
Context `{WsEnv}.

Definition frame_text (frame : Frame) : option string :=
  match frame with Frame_Text text => Some text | _ => None end.

Definition asked_text (req : WrappedRequest) : option string :=
  match req with Ws_Request req => Some (request_text req) | _ => None end.

Definition frame_data (frame : Frame) : option bytes :=
  match frame with Frame_Binary data => Some data | _ => None end.

Lemma manual_linked i : keeps linked (manual_step i).
Proof. intros s Hs. unfold manual_step. link_step; first [exact Hs|link_told]. Qed.

Lemma auto_linked url i : keeps linked (auto_step url i).
Proof. intros s Hs. unfold auto_step. link_step; first [exact Hs|link_told]. Qed.

Lemma module_linked url i : keeps linked (module_step url i).
Proof. intros s Hs. unfold module_step. link_step; first [exact Hs|link_told]. Qed.

Lemma manual_in_order put i s :
  in_order frame_text asked_text put s →
  in_order frame_text asked_text (put ++ put_in [i]) (manual_step i s).1.
Proof. intros Hs. unfold manual_step. link_step; link_sent. Qed.

Lemma auto_in_order url put i s :
  in_order frame_text asked_text put s →
  in_order frame_text asked_text (put ++ put_in [i]) (auto_step url i s).1.
Proof. intros Hs. unfold auto_step. link_step; link_sent. Qed.

Lemma module_in_order url put i s :
  in_order frame_data Some put s → in_order frame_data Some (put ++ put_in [i]) (module_step url i s).1.
Proof. intros Hs. unfold module_step. link_step; link_sent. Qed.

(** The events of a link, and what it did on them. *)
Definition manual_log (inputs : list (LinkInput WrappedRequest)) : list (LinkEvent ResponseMessage) :=
  ln_log (run_manual inputs (ln_initial Link_idle)).1.
Definition auto_log host port use_tls (inputs : list (LinkInput WrappedRequest))
    : list (LinkEvent ResponseMessage) :=
  ln_log (run_auto host port use_tls inputs (ln_initial Link_idle)).1.
Definition module_log host port (inputs : list (LinkInput bytes)) : list (LinkEvent bytes) :=
  ln_log (run_module host port inputs (ln_initial Link_idle)).1.

(** A request among the events, by what is to be sent for it. *)
Definition asks_for {R D} (f : R → option D) (i : LinkInput R) : option D :=
  match i with In_request req => f req | _ => None end.

#[export] Instance manual_link : Link (LinkInput WrappedRequest) ResponseMessage string
  (asks_for asked_text) (λ l, told (manual_log l)) (λ l, sent frame_text (manual_log l)).
Proof.
  apply (link_of_steps frame_text asked_text manual_step (ln_initial Link_idle)).
  - exists false. split; [constructor|by right].
  - by exists [].
  - apply manual_linked.
  - intros put i s. apply manual_in_order.
Qed.

#[export] Instance auto_link host port use_tls :
  Link (LinkInput WrappedRequest) ResponseMessage string (asks_for asked_text)
    (λ l, told (auto_log host port use_tls l)) (λ l, sent frame_text (auto_log host port use_tls l)).
Proof.
  apply (link_of_steps frame_text asked_text (auto_step _) (try_connect _ 0 (ln_initial Link_idle)).1).
  - exists false. split; [constructor|by right].
  - by exists [].
  - apply auto_linked.
  - intros put i s. apply auto_in_order.
Qed.

#[export] Instance module_link host port : Link (LinkInput bytes) bytes bytes (asks_for Some)
  (λ l, told (module_log host port l)) (λ l, sent frame_data (module_log host port l)).
Proof.
  apply (link_of_steps frame_data Some (module_step _) (try_connect _ 0 (ln_initial Link_idle)).1).
  - exists false. split; [constructor|by right].
  - by exists [].
  - apply module_linked.
  - intros put i s. apply module_in_order.
Qed.
End Promises.

(** ** A silent connection is given up *)

Section Silent.
Context `{WsEnv}.

(** Nothing comes from the server, and nobody drops the link. *)
Definition silent (i : LinkInput WrappedRequest) : bool :=
  match i with In_server _ | In_connected | In_drop => false | _ => true end.

Definition elapsed (inputs : list (LinkInput WrappedRequest)) : Z :=
  foldr Z.add 0 ((λ i, match i with In_time ms => Z.max 0 ms | _ => 0 end) <$> inputs).

(** Since a state [s0] with an open connection: it is still open and nothing was heard of
    it, or its end was told. *)
Definition given_up (s0 s : LinkState WrappedRequest ResponseMessage) : Prop :=
  is_open (ln_phase s) = false ∧ ln_phase s ≠ Link_stopped ∧
  ∃ new, ln_log s = new ++ ln_log s0 ∧ Link_resp Ws_Disconnected ∈ new.

Definition waiting (s0 s : LinkState WrappedRequest ResponseMessage) (time : Z) : Prop :=
  ln_dropped s = false ∧
  (ln_phase s = ln_phase s0 ∧ ln_now s = ln_now s0 + time ∧ (∃ new, ln_log s = new ++ ln_log s0) ∨
   given_up s0 s).

Lemma silent_step last s0 s i time :
  ln_phase s0 = Link_open last → silent i = true → waiting s0 s time →
  waiting s0 (manual_step i s).1 (time + elapsed [i]) ∧ is_ok (manual_step i s).2 = true.
Proof.
  intros H0 Hi Hw. unfold manual_step. link_step; try discriminate Hi.
  all: split; [|done].
  all: unfold waiting, elapsed, given_up in *; cbn in *.
  all: destruct Hw as (Hd & [(Hp & Hn & new & Hnew)|(Ho & Hs & new & Hnew & Hin)]);
       try congruence; rewrite H0 in *; simplify_eq.
  all: split; [done|].
  all: first
    [ left; split; [done|]; split; [lia|];
      first [by exists new|by eexists (_ :: new)]
    | right; split; [done|]; split; [done|];
      first [exists new; split; [done|exact Hin]
            |eexists (_ :: new); split; [reflexivity|right; exact Hin]
            |eexists (_ :: new); split; [reflexivity|left]]].
Qed.

Lemma elapsed_app l l' : elapsed (l ++ l') = elapsed l + elapsed l'.
Proof. unfold elapsed. rewrite fmap_app, foldr_app. induction l as [|i l IH]; cbn in *; lia. Qed.

Lemma silent_run last s0 inputs s time :
  ln_phase s0 = Link_open last → forallb silent inputs = true → waiting s0 s time →
  waiting s0 (run_manual inputs s).1 (time + elapsed inputs) ∧ is_ok (run_manual inputs s).2 = true.
Proof.
  intros H0. revert s time. induction inputs as [|i inputs IH]; intros s time Hi Hw.
  { split; [|done]. by replace (time + elapsed []) with time by (cbn; lia). }
  apply andb_true_iff in Hi as [Hi Hinputs].
  destruct (silent_step last s0 s i time H0 Hi Hw) as [Hw' Hok].
  change (i :: inputs) with ([i] ++ inputs). rewrite elapsed_app, Z.add_assoc.
  unfold run_manual. simpl. unfold bind. destruct (manual_step i s) as [s' [u|e|e]]; [|done..].
  by apply IH.
Qed.

Lemma tick_closed s : is_open (ln_phase s) = false → (manual_step In_tick s).1 = s.
Proof.
  destruct s as [phase requests hints dropped now log]. intros Hp.
  destruct phase as [|url n []|last|]; [reflexivity..|discriminate Hp|reflexivity].
Qed.

(** C10: a connection on which nothing comes is given up.  From an open connection, when
    more than ninety seconds passed since the server was last heard of, whatever requests
    and hints come meanwhile, the next tick of the timer finds the connection closed or
    closes it, and the program was told. *)
Theorem silent_link_given_up last s inputs :
  ln_phase s = Link_open last → ln_dropped s = false → forallb silent inputs = true →
  PONG_TIMEOUT < ln_now s + elapsed inputs - last →
  given_up s (run_manual (inputs ++ [In_tick]) s).1.
Proof.
  intros H0 Hd Hi Ht.
  destruct (silent_run last s inputs s 0 H0 Hi) as [Hw Hok].
  { split; [done|]. left. split; [done|]. split; [lia|]. by exists []. }
  assert ((run_manual (inputs ++ [In_tick]) s).1 = (manual_step In_tick (run_manual inputs s).1).1) as ->.
  { unfold run_manual in *. rewrite for_each_app. unfold bind.
    destruct (for_each inputs manual_step s) as [s' [[]|e|e]]; [|done..].
    cbn -[manual_step]. unfold bind. by destruct (manual_step In_tick s') as [s'' [[]|e|e]]. }
  destruct (silent_step last s _ In_tick _ H0 eq_refl Hw) as [Hw' _].
  destruct Hw' as (_ & [(Hp & _)|Hg]); [|exact Hg]. exfalso. revert Hp.
  destruct Hw as (Hd' & [(Hp & Hn & _)|(Ho & _)]).
  - unfold manual_step, common_step. unfold bind at 1, gets at 1. rewrite_field Hp. rewrite_field H0.
    unfold tick. rewrite bind_gets. cbv zeta.
    destruct (Z.ltb_spec PONG_TIMEOUT (ln_now (run_manual inputs s).1 - last)) as [Hlt|Hge];
      [|lia].
    intros [=].
  - rewrite (tick_closed _ Ho). intros Hp. assert (true = false) as [=].
    change (is_open (Link_open last) = false). by rewrite <- H0, <- Hp.
Qed.
End Silent.

(** C8: every link keeps its promises: that of the client, that of the dealers and that to
    the exchange module tell of connections and their ends in turn and of responses only in
    between, and send what they were asked to, at most once and in order, whatever the
    network does. *)
Theorem links_promise `{WsEnv} host port use_tls :
  Link (LinkInput WrappedRequest) ResponseMessage string (asks_for asked_text)
    (λ l, told (manual_log l)) (λ l, sent frame_text (manual_log l)) ∧
  Link (LinkInput WrappedRequest) ResponseMessage string (asks_for asked_text)
    (λ l, told (auto_log host port use_tls l)) (λ l, sent frame_text (auto_log host port use_tls l)) ∧
  Link (LinkInput bytes) bytes bytes (asks_for Some)
    (λ l, told (module_log host port l)) (λ l, sent frame_data (module_log host port l)).
Proof. split_and!; exact _. Qed.

(** *** A connection that falls silent *)
Module LinkSample.
#[export] Instance ws_env : WsEnv :=
  {| request_text _ := "request"; response_of_text _ := Err "no response" |}.

Definition request : WrappedRequest :=
  Ws_Request (RequestMessage_Request (RequestId_Int 1) (Request_Login {| login_session_id := None |})).

Definition opened : LinkState WrappedRequest ResponseMessage :=
  (run_manual [In_request (Ws_Connect "host" 443 true); In_take_request; In_failed; In_awake; In_connected]
     (ln_initial Link_idle)).1.

Definition silence : list (LinkInput WrappedRequest) :=
  [In_time 30000; In_tick; In_request request; In_take_request; In_time 30000; In_tick; In_time 31000].
End LinkSample.
#[local] Existing Instance LinkSample.ws_env.

Lemma silent_link_given_up_witness :
  given_up LinkSample.opened (run_manual (LinkSample.silence ++ [In_tick]) LinkSample.opened).1.
Proof. apply (silent_link_given_up 0); vm_compute; reflexivity. Defined.

Example silent_link_pinged :
  reverse (ln_log (run_manual (LinkSample.silence ++ [In_tick]) LinkSample.opened).1) =
  [Link_connect "wss://host:443/rust-rpc-ws"; Link_sleep 0; Link_connect "wss://host:443/rust-rpc-ws";
   Link_resp Ws_Connected; Link_frame (Frame_Text "request"); Link_frame (Frame_Ping []);
   Link_resp Ws_Disconnected].
Proof. vm_compute. reflexivity. Qed.
