(* ===== verification/Types.v ===== *)
(** * Amounts, fees and coin selection

    Models [rust/sideswap_common/src/types.rs] and the amount arithmetic of
    [rust/sideswap_common/src/pset.rs].  An [Amount] is its [i64]. *)
From stdpp Require Import numbers list sets strings sorting.
From Stdlib Require Import ZArith QArith Qabs Lqa Lia SpecFloat.
From S2P Require Import Prelude F64 Api.

Open Scope Z_scope.

(** ** Amounts *)

Definition COIN : Z := 100000000.

Definition from_bitcoin (value : f64) : Z := round_i64 (fmul value (f64_of_Z COIN)).

Definition to_bitcoin (amount : Z) : f64 := fdiv (f64_of_Z amount) (f64_of_Z COIN).

Definition MIN_BITCOIN_AMOUNT : Z := 2000.
Definition MIN_SERVER_FEE : Z := 500.
Definition SERVER_FEE_RATE : f64 := flit 1 1000.

Definition get_server_fee (bitcoin_amount : Z) : Z :=
  let server_fee := from_bitcoin (fmul (to_bitcoin bitcoin_amount) SERVER_FEE_RATE) in
  Z.max server_fee MIN_SERVER_FEE.

(** [1. - 1. / (1. + SERVER_FEE_RATE)] *)
Definition NETWORK_FEE_SHARE : f64 := fsub f1 (fdiv f1 (fadd f1 SERVER_FEE_RATE)).

Definition get_max_bitcoin_amount (bitcoin_balance : Z) : outcome Z :=
  do? oassert (0 <=? bitcoin_balance) "assertion failed" in
  do? oensure (wi64 (MIN_BITCOIN_AMOUNT + MIN_SERVER_FEE) <=? bitcoin_balance)
        "balance is too low" in
  let network_fee_scaled :=
    from_bitcoin (fmul (to_bitcoin bitcoin_balance) NETWORK_FEE_SHARE) in
  let network_fee := Z.max network_fee_scaled MIN_SERVER_FEE in
  let bitcoin_amount := wi64 (bitcoin_balance - network_fee) in
  let actual_server_fee := get_server_fee bitcoin_amount in
  if bitcoin_balance <? wi64 (bitcoin_amount + actual_server_fee)
  then Ok (wi64 (bitcoin_amount - 1))
  else Ok bitcoin_amount.

(** ** Asset amounts *)

(** [10i64.checked_pow(precision).unwrap() as f64] *)
Definition asset_scale (asset_precision : Z) : outcome f64 :=
  let scale := 10 ^ asset_precision in
  if scale <=? i64_max then Ok (f64_of_Z scale)
  else Panic "called `Option::unwrap()` on a `None` value".

Definition asset_amount (bitcoin_amount : Z) (price : f64) (asset_precision : Z)
    (market : MarketType) : outcome Z :=
  let? scale := asset_scale asset_precision in
  let bitcoin_amount := to_bitcoin bitcoin_amount in
  let asset_amount :=
    if priced_in_bitcoins market then fdiv bitcoin_amount price
    else fmul bitcoin_amount price in
  Ok (round_i64 (fmul asset_amount scale)).

Definition asset_float_amount (asset_amount asset_precision : Z) : outcome f64 :=
  let? scale := asset_scale asset_precision in
  Ok (fdiv (f64_of_Z asset_amount) scale).

Definition bitcoin_amount (asset_amount : Z) (price : f64) (asset_precision : Z)
    (market : MarketType) : outcome Z :=
  let? asset_amount := asset_float_amount asset_amount asset_precision in
  let bitcoin_amount :=
    if priced_in_bitcoins market then fmul asset_amount price
    else fdiv asset_amount price in
  Ok (from_bitcoin bitcoin_amount).

Definition asset_int_amount (asset_amount : f64) (asset_precision : Z) : outcome Z :=
  let? scale := asset_scale asset_precision in
  Ok (round_i64 (fmul asset_amount scale)).

(** ** Peg-out amounts *)

Record PegOutAmountReq := {
  por_amount : Z;
  por_is_send_entered : bool;
  por_fee_rate : f64;
  por_min_peg_out_amount : Z;
  por_server_fee_percent_peg_out : f64;
  por_peg_out_bitcoin_tx_vsize : Z
}.

Record PegOutAmountResp := { po_send_amount : Z; po_recv_amount : Z }.

Definition peg_out_amount (req : PegOutAmountReq) : outcome PegOutAmountResp :=
  do? oensure (0 <? por_amount req) "Condition failed: `req.amount > 0`" in
  let peg_out_rate :=
    fsub f1 (fdiv (por_server_fee_percent_peg_out req) (f64_of_Z 100)) in
  let fixed_fee :=
    round_i64 (fmul (f64_of_Z (por_peg_out_bitcoin_tx_vsize req)) (por_fee_rate req)) in
  let '(send_amount, recv_amount) :=
    if por_is_send_entered req then
      (por_amount req,
       wi64 (round_i64 (fmul (f64_of_Z (por_amount req)) peg_out_rate) - fixed_fee))
    else
      (round_i64 (fdiv (f64_of_Z (wi64 (por_amount req + fixed_fee))) peg_out_rate),
       por_amount req) in
  do? oensure (por_min_peg_out_amount req <=? send_amount) "Min" in
  do? oensure (0 <? recv_amount) "Amount to receive is negative" in
  Ok {| po_send_amount := send_amount; po_recv_amount := recv_amount |}.

(** ** Instant swap amounts ([sideswap_common/src/pset.rs]) *)

Definition SERVER_FEE_SHARE : f64 := flit 2 1000.
Definition SERVER_FEE_MIN : Z := 200.

Definition get_recv_amount (client_send_bitcoins : bool) (send_amount : Z)
    (raw_price : f64) (fixed_fee : Z) : Z :=
  if client_send_bitcoins
  then round_i64 (fmul (f64_of_Z (wi64 (send_amount - fixed_fee))) raw_price)
  else wi64 (round_i64 (fdiv (f64_of_Z send_amount) raw_price) - fixed_fee).

Definition get_send_amount (client_send_bitcoins : bool) (recv_amount : Z)
    (raw_price : f64) (fixed_fee : Z) : Z :=
  if client_send_bitcoins
  then wi64 (round_i64 (fdiv (f64_of_Z recv_amount) raw_price) + fixed_fee)
  else round_i64 (fmul (f64_of_Z (wi64 (recv_amount + fixed_fee))) raw_price).

Definition get_bitcoin_amount (client_send_bitcoins : bool) (send_amount : Z)
    (raw_price : f64) (fixed_fee : Z) : Z :=
  if client_send_bitcoins
  then wi64 (send_amount - fixed_fee)
  else wi64 (round_i64 (fdiv (f64_of_Z send_amount) raw_price) - fixed_fee).

Definition get_swap_server_fee (bitcoin_amount : Z) : option Z :=
  let server_fee := round_i64 (fmul (f64_of_Z bitcoin_amount) SERVER_FEE_SHARE) in
  if SERVER_FEE_MIN <=? server_fee then Some server_fee else None.

(** ** Coin selection *)

(** [-(value - amount_remain).abs()] *)
Definition utxo_key (amount_remain value : Z) : Z :=
  wi64 (- wi64 (Z.abs (wi64 (value - amount_remain)))).

(** The first loop; [fuel] bounds the iterations, each of which pops an input. *)
Fixpoint select_loop (fuel : nat) (inputs : list Z) (amount_remain : Z)
    (result : list Z) : outcome (list Z) :=
  if amount_remain <=? 0 then Ok result
  else
    match fuel with
    | O => Panic "out of fuel"
    | S fuel =>
        match pop_last (sort_by_key (utxo_key amount_remain) inputs) with
        | None => Panic "not enough available inputs"
        | Some (selected, inputs) =>
            select_loop fuel inputs (wi64 (amount_remain - selected))
              (result ++ [selected])
        end
    end.

(** The second loop drops the last (smallest) entries while the rest is more
    than enough; [fuel] is the number of entries. *)
Fixpoint trim_loop (fuel : nat) (result : list Z) (amount : Z) : outcome (list Z) :=
  match pop_last result with
  | None => Panic "called `Option::unwrap()` on a `None` value"
  | Some (last, rest) =>
      if amount <? wi64 (wsum result - last) then
        match fuel with
        | O => Panic "out of fuel"
        | S fuel => trim_loop fuel rest amount
        end
      else Ok result
  end.

Definition select_utxo (inputs : list Z) (amount : Z) : outcome (list Z) :=
  do? oassert (0 <? amount) "assertion failed: amount > 0" in
  let? result := select_loop (S (length inputs)) inputs amount [] in
  let result := reverse (sort_by_key id result) in
  trim_loop (length result) result amount.

(** The loop of [select_utxo_values]: each selected amount takes the first entry
    with that amount. *)
Fixpoint take_selected {T} (inputs : list (Z * T)) (selected : list Z) (result : list T)
    : outcome (list T) :=
  match selected with
  | [] => Ok result
  | selected_amount :: selected =>
      match position (λ i, i.1 =? selected_amount) inputs with
      | None => Panic "called `Option::unwrap()` on a `None` value"
      | Some index =>
          match swap_remove index inputs with
          | None => Panic "swap_remove index out of range"
          | Some (value, inputs) => take_selected inputs selected (result ++ [value.2])
          end
      end
  end.

Definition select_utxo_values {T} (inputs : list (Z * T)) (amount : Z) : outcome (list T) :=
  let? selected := select_utxo inputs.*1 amount in
  take_selected inputs selected [].

(** The repository's unit tests. *)
Example select_utxo_tests :
  select_utxo [15; 10] 25 = Ok [15; 10] ∧
  select_utxo [5000; 10; 5] 15 = Ok [10; 5] ∧
  select_utxo [5000; 10; 5] 16 = Ok [5000] ∧
  select_utxo [1000; 100; 10; 1] 102 = Ok [100; 10] ∧
  select_utxo [1000; 100; 10; 1] 1 = Ok [1].
Proof. repeat split; vm_compute; reflexivity. Qed.

(** ** Lemmas: coin selection *)

Lemma wsum_zsum l :
  Forall (λ x, 0 < x) l → zsum l ≤ i64_max → wsum l = zsum l.
Proof.
  intros Hl Hs. unfold wsum.
  cut (∀ acc, 0 ≤ acc → acc + zsum l ≤ i64_max →
         foldl (λ acc x, wi64 (acc + x)) acc l = acc + zsum l).
  { intros H. rewrite H; lia. }
  clear Hs. induction Hl as [|x l Hx Hl IH]; intros acc Ha Hb; simpl in *; [lia|].
  assert (0 ≤ zsum l) by (apply zsum_nonneg; eapply Forall_impl; [done|]; simpl; lia).
  rewrite wi64_id by (unfold in_i64, i64_min, i64_max in *; lia).
  rewrite IH by lia. lia.
Qed.

(** Enough money: the loop ends with a sub-multiset of the inputs that covers
    the remaining amount, and does not without its last element. *)
Lemma select_loop_spec fuel inputs remain acc :
  (length inputs < fuel)%nat →
  Forall (λ x, 0 < x) inputs → zsum inputs ≤ i64_max →
  in_i64 remain → remain ≤ zsum inputs →
  ∃ picked rest, select_loop fuel inputs remain acc = Ok (acc ++ picked) ∧
    inputs ≡ₚ picked ++ rest ∧ remain ≤ zsum picked ∧ (0 < remain → picked ≠ []).
Proof.
  revert inputs remain acc. induction fuel as [|fuel IH];
    intros inputs remain acc Hf Hpos Hmax Hr Hsum; [lia|].
  simpl. destruct (Z.leb_spec remain 0) as [Hle|Hgt].
  { exists [], inputs. rewrite app_nil_r. split; [done|]. split; [done|].
    split; [simpl; lia|lia]. }
  destruct (pop_last _) as [[x rest]|] eqn:Hp.
  - apply pop_last_Some in Hp. pose proof (sort_by_key_perm (utxo_key remain) inputs) as Hs.
    rewrite Hp in Hs. assert (inputs ≡ₚ x :: rest) as Hin.
    { by rewrite <- Hs, <- Permutation_cons_append. }
    rewrite Hin in Hpos, Hmax, Hsum. apply Forall_cons in Hpos as [Hx Hpos].
    simpl in Hmax, Hsum.
    assert (0 ≤ zsum rest)
      by (apply zsum_nonneg; eapply Forall_impl; [done|]; simpl; lia).
    apply Permutation_length in Hin as Hlen. simpl in Hlen.
    rewrite wi64_id by (unfold in_i64, i64_min, i64_max in *; lia).
    destruct (IH rest (remain - x) (acc ++ [x])) as (pk & rs & E & Hperm & Hge & _);
      [lia|done|lia|unfold in_i64, i64_min, i64_max in *; lia|lia|].
    exists (x :: pk), rs. rewrite E, <- app_assoc. split; [done|].
    split; [by rewrite Hin, Hperm|]. split; [simpl; lia|done].
  - apply pop_last_None in Hp. pose proof (sort_by_key_perm (utxo_key remain) inputs) as Hs.
    rewrite Hp in Hs. rewrite <- Hs in Hsum. simpl in Hsum. lia.
Qed.

(** Not enough money: the loop panics. *)
Lemma select_loop_panics fuel inputs remain acc :
  (length inputs < fuel)%nat →
  Forall (λ x, 0 < x) inputs → in_i64 remain → zsum inputs < remain →
  select_loop fuel inputs remain acc = Panic "not enough available inputs".
Proof.
  revert inputs remain acc. induction fuel as [|fuel IH];
    intros inputs remain acc Hf Hpos Hr Hsum; [lia|].
  assert (0 ≤ zsum inputs)
    by (apply zsum_nonneg; eapply Forall_impl; [done|]; simpl; lia).
  simpl. destruct (Z.leb_spec remain 0) as [Hle|Hgt]; [lia|].
  destruct (pop_last _) as [[x rest]|] eqn:Hp; [|done].
  apply pop_last_Some in Hp. pose proof (sort_by_key_perm (utxo_key remain) inputs) as Hs.
  rewrite Hp in Hs. assert (inputs ≡ₚ x :: rest) as Hin.
  { by rewrite <- Hs, <- Permutation_cons_append. }
  rewrite Hin in Hpos, Hsum. apply Forall_cons in Hpos as [Hx Hpos]. simpl in Hsum.
  assert (0 ≤ zsum rest)
    by (apply zsum_nonneg; eapply Forall_impl; [done|]; simpl; lia).
  apply Permutation_length in Hin. simpl in Hin.
  rewrite wi64_id by (unfold in_i64, i64_min, i64_max in *; lia).
  apply IH; [lia|done|unfold in_i64, i64_min, i64_max in *; lia|lia].
Qed.

(** The trimming loop keeps a prefix that still covers [amount], whose last
    element cannot be dropped without going to [amount] or below. *)
Lemma trim_loop_spec fuel l amount :
  (length l ≤ fuel)%nat → l ≠ [] → 0 < amount →
  Forall (λ x, 0 < x) l → amount ≤ zsum l ≤ i64_max →
  ∃ r k x, trim_loop fuel l amount = Ok (r ++ [x]) ∧ l = (r ++ [x]) ++ k ∧
    amount ≤ zsum (r ++ [x]) ∧ zsum r ≤ amount.
Proof.
  revert l. induction fuel as [|fuel IH]; intros l Hf Hne Ha Hpos Hsum.
  { destruct l; [done|simpl in Hf; lia]. }
  simpl. destruct (pop_last l) as [[x r]|] eqn:Hp; [|by apply pop_last_None in Hp].
  apply pop_last_Some in Hp. subst l. rewrite zsum_app in *. simpl in Hsum.
  apply Forall_app in Hpos as [Hr Hx]. apply Forall_cons in Hx as [Hx _].
  assert (0 ≤ zsum r)
    by (apply zsum_nonneg; eapply Forall_impl; [done|]; simpl; lia).
  rewrite wsum_zsum, zsum_app; simpl; [|apply Forall_app; split; [exact Hr|constructor; [exact Hx|constructor]]|rewrite zsum_app; simpl; lia].
  rewrite wi64_id by (unfold in_i64, i64_min, i64_max in *; lia).
  destruct (Z.ltb_spec amount (zsum r + (x + 0) - x)) as [Hlt|Hge].
  - rewrite length_app in Hf. simpl in Hf.
    assert (r ≠ []) by (intros ->; simpl in *; lia).
    destruct (IH r) as (r' & k & y & E & -> & H1 & H2); [lia|done|done|done|lia|].
    exists r', (k ++ [x]), y. rewrite E. split; [done|]. rewrite <- !app_assoc. done.
  - exists r, [], x. rewrite app_nil_r, zsum_app. simpl. split; [done|]. split; [done|]. lia.
Qed.

Lemma take_selected_spec {T} (inputs : list (Z * T)) selected acc :
  selected ⊆+ inputs.*1 →
  ∃ picked rest, take_selected inputs selected acc = Ok (acc ++ picked.*2) ∧
    inputs ≡ₚ picked ++ rest ∧ picked.*1 = selected.
Proof.
  revert inputs acc. induction selected as [|a sel IH]; intros inputs acc Hsub.
  { exists [], inputs. by rewrite app_nil_r. }
  simpl. assert (a ∈ inputs.*1) as Hin.
  { apply (elem_of_submseteq (a :: sel)); [set_solver|done]. }
  apply list_elem_of_fmap in Hin as ([a' v] & -> & Hin). simpl in *.
  destruct (position_is_Some (λ i, i.1 =? a') inputs _ Hin) as [i Hi]; [simpl; lia|].
  rewrite Hi. apply position_Some in Hi as ([b w] & Hlk & Hb). simpl in Hb.
  apply Z.eqb_eq in Hb as ->.
  destruct (swap_remove_is_Some i inputs) as [[[c u] rest] Hsr]; [by eexists|].
  rewrite Hsr. assert ((c, u) = (a', w)) as [= -> ->].
  { unfold swap_remove in Hsr. rewrite Hlk in Hsr. destruct (pop_last inputs) as [[]|]; congruence. }
  apply swap_remove_perm in Hsr.
  destruct (IH rest (acc ++ [w])) as (pk & rs & E & Hp & Hf).
  { apply (submseteq_app_inv_l _ _ [a']). simpl.
    by assert (inputs.*1 ≡ₚ a' :: rest.*1) as <- by (by rewrite Hsr). }
  exists ((a', w) :: pk), rs. cbn [snd] in *. rewrite E, <- app_assoc. split; [done|].
  split; [by rewrite Hsr, Hp|]. by rewrite fmap_cons, Hf.
Qed.

(** ** Lemmas: fees *)

Definition max_money : Z := 21 * 10 ^ 14.

Lemma mid_range_between (q : Q) :
  (1 # 10000000000000 <= q)%Q → (q <= inject_Z (10 ^ 30))%Q → mid_range q.
Proof.
  intros H1 H2. split.
  - etransitivity; [|exact H1]. etransitivity; [apply (pow2_le _ (-60)); lia|]. by vm_compute.
  - etransitivity; [exact H2|]. etransitivity; [|apply (pow2_le 100 _); lia]. by vm_compute.
Qed.

(** [COIN] as a float, exactly. *)
Lemma COIN_fnorm : fnorm (f64_of_Z COIN) (100000000 # 1).
Proof. apply (f64_of_Z_spec COIN). by vm_compute. Qed.

Lemma Qabs_mult_bound (a b c e : Q) :
  (0 <= c)%Q → (Qabs (a - b) <= e)%Q → (Qabs (a * c - b * c) <= e * c)%Q.
Proof.
  intros Hc H. apply Qabs_bound in H as [H1 H2]. apply Qabs_Qle_condition. split.
  - setoid_replace (a * c - b * c)%Q with ((a - b) * c)%Q by ring.
    setoid_replace (- (e * c))%Q with ((- e) * c)%Q by ring. by apply Qmult_le_compat_r.
  - setoid_replace (a * c - b * c)%Q with ((a - b) * c)%Q by ring. by apply Qmult_le_compat_r.
Qed.

(** An amount scaled by about a thousandth and back: three roundings, then the
    rounding to a satoshi. *)
Lemma from_bitcoin_scaled n c (qc : Q) :
  0 < n ≤ max_money → fnorm c qc → (1 # 2000 <= qc)%Q → (qc <= 1 # 500)%Q →
  (Qabs (inject_Z (from_bitcoin (fmul (to_bitcoin n) c)) - inject_Z n * qc)
     <= 51 # 100)%Q.
Proof.
  intros Hn Hc Hlo Hhi. unfold max_money in Hn.
  assert (1 <= inject_Z n)%Q as Hn1 by (change 1%Q with (inject_Z 1); rewrite <- Zle_Qle; lia).
  assert (inject_Z n <= 2100000000000000 # 1)%Q as Hn2
    by (change (2100000000000000 # 1)%Q with (inject_Z (21 * 10 ^ 14)); rewrite <- Zle_Qle; lia).
  assert (inject_Z (10 ^ 30) == 1000000000000000000000000000000 # 1)%Q as E30 by reflexivity.
  destruct (fdiv_spec (f64_of_Z n) (f64_of_Z COIN) (inject_Z n) (100000000 # 1))
    as (x1 & F1 & B1).
  { apply f64_of_Z_spec. lia. }
  { apply COIN_fnorm. }
  { unfold Qdiv; change (/ (100000000 # 1))%Q with (1 # 100000000)%Q.
    apply mid_range_between; lra. }
  unfold Qdiv in B1. change (/ (100000000 # 1))%Q with (1 # 100000000)%Q in B1.
  set (q := inject_Z n) in *.
  apply (Qabs_mult_bound _ _ qc) in B1 as B2; [|lra].
  assert (0 <= q * qc)%Q as P0 by (apply Qmult_le_0_compat; lra).
  assert (q * qc <= (2100000000000000 # 1) * (1 # 500))%Q as P1
    by (apply Qmult_le_compat_nonneg; lra).
  assert (1 * (1 # 2000) <= q * qc)%Q as P2 by (apply Qmult_le_compat_nonneg; lra).
  setoid_replace (q * (1 # 100000000) * qc)%Q with (q * qc * (1 # 100000000))%Q in B2 by ring.
  setoid_replace (q * (1 # 100000000) * ulp53 * qc)%Q
    with (q * qc * ((1 # 100000000) * ulp53))%Q in B2 by ring.
  unfold ulp53 in *. apply Qabs_bound in B2 as [B2l B2u]. set (t := (q * qc)%Q) in *.
  destruct (fmul_spec _ c x1 qc F1 Hc) as (x2 & F2 & B3).
  { apply mid_range_between; [lra|]. rewrite E30. lra. }
  set (t1 := (x1 * qc)%Q) in *. unfold ulp53 in *. apply Qabs_bound in B3 as [B3l B3u].
  destruct (fmul_spec _ _ x2 _ F2 COIN_fnorm) as (x3 & F3 & B4).
  { apply mid_range_between; [lra|]. rewrite E30. lra. }
  unfold ulp53 in *. apply Qabs_bound in B4 as [B4l B4u].
  pose proof (round_i64_spec _ _ F3) as HR. apply Qabs_bound in HR as [HRl HRu].
  - unfold from_bitcoin, to_bitcoin in *. apply Qabs_Qle_condition. split; lra.
  - change (inject_Z (2 ^ 52)) with (4503599627370496 # 1). lra.
Qed.

Lemma SERVER_FEE_RATE_fnorm : ∃ q, fnorm SERVER_FEE_RATE q ∧
  (q == 1152921504606847 # 1152921504606846976)%Q.
Proof.
  exists (inject_Z 4611686018427388 * pow2 (-62))%Q. split; [|by vm_compute].
  exists 4611686018427388%positive, (-62). split; [by vm_compute|]. split; [lia|reflexivity].
Qed.

Lemma NETWORK_FEE_SHARE_fnorm : ∃ q, fnorm NETWORK_FEE_SHARE q ∧
  (q == 4607078939487232 # 4611686018427387904)%Q.
Proof.
  exists (inject_Z 4607078939487232 * pow2 (-62))%Q. split; [|by vm_compute].
  exists 4607078939487232%positive, (-62). split; [by vm_compute|]. split; [lia|reflexivity].
Qed.

(** The server fee is a thousandth, to the nearest satoshi, but at least the
    minimum. *)
Lemma get_server_fee_near n :
  0 < n ≤ max_money →
  ∃ f, get_server_fee n = Z.max f MIN_SERVER_FEE ∧
    (Qabs (inject_Z f - inject_Z n * (1 # 1000)) <= 511 # 1000)%Q.
Proof.
  intros Hn. exists (from_bitcoin (fmul (to_bitcoin n) SERVER_FEE_RATE)). split; [done|].
  destruct SERVER_FEE_RATE_fnorm as (qc & F & E).
  pose proof (from_bitcoin_scaled n _ qc Hn F) as H.
  assert (1 <= inject_Z n)%Q as Hn1 by (change 1%Q with (inject_Z 1); rewrite <- Zle_Qle; lia).
  assert (inject_Z n <= 2100000000000000 # 1)%Q as Hn2.
  { change (2100000000000000 # 1)%Q with (inject_Z (21 * 10 ^ 14)).
    rewrite <- Zle_Qle. unfold max_money in Hn. lia. }
  specialize (H ltac:(rewrite E; by vm_compute) ltac:(rewrite E; by vm_compute)).
  rewrite E in H. apply Qabs_bound in H as [H1 H2]. apply Qabs_Qle_condition. split; lra.
Qed.

(** Neighbouring fees are close: what is needed of [get_max_bitcoin_amount]. *)
Lemma get_max_fee_diff b n :
  2500 ≤ b ≤ max_money →
  let N := Z.max (from_bitcoin (fmul (to_bitcoin b) NETWORK_FEE_SHARE)) MIN_SERVER_FEE in
  (n = b - N ∨ n = b - N - 1) →
  0 < n ∧ N - 1 ≤ get_server_fee n ≤ N + 1.
Proof.
  intros Hb N Hn. set (f := from_bitcoin (fmul (to_bitcoin b) NETWORK_FEE_SHARE)) in *.
  destruct NETWORK_FEE_SHARE_fnorm as (qc & F & E).
  pose proof (from_bitcoin_scaled b _ qc ltac:(lia) F) as H.
  specialize (H ltac:(rewrite E; by vm_compute) ltac:(rewrite E; by vm_compute)).
  rewrite E in H. fold f in H. apply Qabs_bound in H as [H1 H2].
  assert (2500 # 1 <= inject_Z b)%Q as Hq1
    by (change (2500 # 1)%Q with (inject_Z 2500); rewrite <- Zle_Qle; lia).
  assert (inject_Z b <= 2100000000000000 # 1)%Q as Hq2
    by (change (2100000000000000 # 1)%Q with (inject_Z (21 * 10 ^ 14)); rewrite <- Zle_Qle;
        unfold max_money in Hb; lia).
  assert (0 < n ≤ max_money) as Hnr.
  { assert (inject_Z f <= (inject_Z b) * (1 # 2))%Q as Hf by lra.
    assert (2 * f ≤ b).
    { rewrite Zle_Qle, inject_Z_mult. change (inject_Z 2) with 2%Q. lra. }
    unfold N, MIN_SERVER_FEE in Hn. lia. }
  split; [lia|].
  destruct (get_server_fee_near n Hnr) as (g & -> & Hg). apply Qabs_bound in Hg as [Hg1 Hg2].
  unfold N, MIN_SERVER_FEE in *.
  assert (500 ≤ f → f - 1 ≤ g ≤ f + 1) as Hbig.
  { intros Hf.
    assert (inject_Z n == inject_Z b - inject_Z f ∨ inject_Z n == inject_Z b - inject_Z f - 1)%Q
      as Hn'.
    { destruct Hn as [->| ->]; [left|right]; rewrite Z.max_l by lia;
        unfold Z.sub; rewrite !inject_Z_plus, !inject_Z_opp; reflexivity. }
    assert (f - 2 < g < f + 2); [|lia].
    rewrite !Zlt_Qlt. unfold Z.sub. rewrite !inject_Z_plus, !inject_Z_opp.
    change (inject_Z 2) with (2%Q). destruct Hn' as [Hn'|Hn']; lra. }
  assert (f < 500 → g ≤ 501) as Hsmall.
  { intros Hf.
    assert (inject_Z f <= 499 # 1)%Q by
      (change (499 # 1)%Q with (inject_Z 499); rewrite <- Zle_Qle; lia).
    assert (inject_Z n <= inject_Z b - (500 # 1))%Q as Hn'.
    { change (500 # 1)%Q with (inject_Z 500). unfold Qminus.
      rewrite <- inject_Z_opp, <- inject_Z_plus, <- Zle_Qle. lia. }
    assert (g < 502); [|lia]. rewrite Zlt_Qlt. change (inject_Z 502) with (502 # 1)%Q. lra. }
  destruct (Z_lt_le_dec f 500) as [Hlt|Hge]; [specialize (Hsmall Hlt)|specialize (Hbig Hge)]; lia.
Qed.

(** Coin selection as a whole; see [select_utxo_correct]. *)
Lemma select_utxo_spec inputs amount :
  Forall (λ x, 0 < x) inputs → 0 < amount → amount ≤ zsum inputs ≤ i64_max →
  ∃ r, select_utxo inputs amount = Ok r ∧ r ⊆+ inputs ∧ amount ≤ zsum r ∧
    StronglySorted (λ a b, b ≤ a) r ∧ (∀ x, x ∈ r → zsum r - x ≤ amount).
Proof.
  intros Hpos Ha Hs. unfold select_utxo. destruct (Z.ltb_spec 0 amount); [|lia]. cbn [oassert obind].
  destruct (select_loop_spec (S (length inputs)) inputs amount [])
    as (pk & rest & E & Hperm & Hge & Hne); try (done || lia).
  { unfold in_i64, i64_min. lia. }
  rewrite E. cbn [oassert obind]. set (l := reverse (sort_by_key id pk)).
  assert (l ≡ₚ pk) as Hl by (unfold l; by rewrite reverse_Permutation, sort_by_key_perm).
  rewrite Hperm in Hpos. apply Forall_app in Hpos as [Hp1 Hp2].
  assert (0 ≤ zsum rest)
    by (apply zsum_nonneg; eapply Forall_impl; [exact Hp2|]; simpl; lia).
  rewrite Hperm, zsum_app in Hs.
  destruct (trim_loop_spec (length l) l amount) as (r & k & x & Et & El & H1 & H2);
    [lia| |lia|by rewrite Hl|rewrite Hl; lia|].
  { intros E0. rewrite E0 in Hl. apply Permutation_nil_l in Hl. by apply Hne in Ha. }
  exists (r ++ [x]). split; [done|]. split; [|split; [done|]].
  { rewrite Hperm, <- Hl, El. by apply submseteq_inserts_r, submseteq_inserts_r. }
  assert (StronglySorted (λ a b, b ≤ a) ((r ++ [x]) ++ k)) as HS.
  { rewrite <- El. apply (StronglySorted_reverse (λ a b, a ≤ b)), (sort_by_key_sorted id). }
  apply StronglySorted_app_1_l in HS. split; [done|].
  intros y Hy. rewrite zsum_app in *. simpl in *.
  assert (x ≤ y); [|lia]. apply elem_of_app in Hy as [Hy|Hy%list_elem_of_singleton]; [|lia].
  apply (StronglySorted_app_1_elem_of _ _ _ y x HS); [done|]. by apply list_elem_of_singleton.
Qed.

(** ** Properties *)

(** C21: the largest amount offered for a balance never overdraws it - amount and
    server fee together fit in the balance - and wastes at most two satoshis, for
    every balance up to the whole supply of bitcoin. *)
Theorem get_max_bitcoin_amount_safe b :
  2500 ≤ b ≤ max_money →
  ∃ a, get_max_bitcoin_amount b = Ok a ∧ 0 < a ∧ b - 2 ≤ a + get_server_fee a ≤ b.
Proof.
  intros Hb. unfold get_max_bitcoin_amount.
  pose proof (get_max_fee_diff b) as HD. cbv zeta in HD.
  set (N := Z.max (from_bitcoin (fmul (to_bitcoin b) NETWORK_FEE_SHARE)) MIN_SERVER_FEE) in *.
  destruct (HD (b - N)) as [P1 D1]; [done|by left|].
  destruct (HD (b - N - 1)) as [P2 D2]; [done|by right|].
  assert (500 ≤ N) by (unfold N, MIN_SERVER_FEE; lia). unfold max_money in Hb.
  destruct (Z.leb_spec 0 b); [|lia]. simpl.
  destruct (Z.leb_spec (wi64 (MIN_BITCOIN_AMOUNT + MIN_SERVER_FEE)) b) as [_|Hc];
    [|change (wi64 (MIN_BITCOIN_AMOUNT + MIN_SERVER_FEE)) with 2500 in Hc; lia].
  simpl. fold N. rewrite (wi64_id (b - N)) by (unfold in_i64, i64_min, i64_max; lia).
  rewrite wi64_id by (unfold in_i64, i64_min, i64_max; lia).
  destruct (Z.ltb_spec b (b - N + get_server_fee (b - N))) as [Hlt|Hge].
  - rewrite wi64_id by (unfold in_i64, i64_min, i64_max; lia).
    exists (b - N - 1). split; [done|]. lia.
  - exists (b - N). split; [done|]. lia.
Qed.

Lemma get_max_bitcoin_amount_safe_witness :
  ∃ a, get_max_bitcoin_amount 1000000 = Ok a ∧ 0 < a ∧
       1000000 - 2 ≤ a + get_server_fee a ≤ 1000000.
Proof. apply (get_max_bitcoin_amount_safe 1000000). unfold max_money. lia. Defined.

(** C29: with positive inputs worth at least the amount, coin selection succeeds:
    it returns some of the inputs, in decreasing order, worth at least the amount,
    and no returned input can be dropped and still leave more than the amount. *)
Theorem select_utxo_correct inputs amount :
  Forall (λ x, 0 < x) inputs → 0 < amount → amount ≤ zsum inputs ≤ i64_max →
  ∃ r, select_utxo inputs amount = Ok r ∧ r ⊆+ inputs ∧ amount ≤ zsum r ∧
    StronglySorted (λ a b, b ≤ a) r ∧ (∀ x, x ∈ r → zsum r - x ≤ amount).
Proof. apply select_utxo_spec. Qed.

Lemma select_utxo_correct_witness :
  ∃ r, select_utxo [1000; 100; 10; 1] 102 = Ok r ∧ r ⊆+ [1000; 100; 10; 1] ∧ 102 ≤ zsum r ∧
    StronglySorted (λ a b, b ≤ a) r ∧ (∀ x, x ∈ r → zsum r - x ≤ 102).
Proof.
  apply (select_utxo_correct [1000; 100; 10; 1] 102).
  - repeat constructor.
  - lia.
  - vm_compute. split; discriminate.
Defined.

(** Asked for more than the inputs are worth, coin selection panics. *)
Theorem select_utxo_insufficient inputs amount :
  Forall (λ x, 0 < x) inputs → in_i64 amount → zsum inputs < amount →
  select_utxo inputs amount = Panic "not enough available inputs".
Proof.
  intros Hpos Hr Hs. unfold select_utxo.
  assert (0 ≤ zsum inputs)
    by (apply zsum_nonneg; eapply Forall_impl; [done|]; simpl; lia).
  destruct (Z.ltb_spec 0 amount); [|lia]. cbn [oassert obind].
  rewrite select_loop_panics by (done || lia). done.
Qed.

Lemma select_utxo_insufficient_witness :
  select_utxo [5; 7] 13 = Panic "not enough available inputs".
Proof.
  apply (select_utxo_insufficient [5; 7] 13).
  - repeat constructor.
  - unfold in_i64, i64_min, i64_max. lia.
  - by vm_compute.
Defined.

(** Selecting among tagged inputs returns the tags of distinct entries of the
    input list, worth exactly what [select_utxo] selected, hence at least the
    amount. *)
Theorem select_utxo_values_correct (inputs : list (Z * Z)) amount :
  Forall (λ x, 0 < x) inputs.*1 → 0 < amount → amount ≤ zsum inputs.*1 ≤ i64_max →
  ∃ picked rest, select_utxo_values inputs amount = Ok picked.*2 ∧
    inputs ≡ₚ picked ++ rest ∧ amount ≤ zsum picked.*1 ∧
    select_utxo inputs.*1 amount = Ok picked.*1.
Proof.
  intros Hpos Ha Hs.
  destruct (select_utxo_spec inputs.*1 amount Hpos Ha Hs) as (r & E & Hsub & Hge & _).
  unfold select_utxo_values. rewrite E. cbn [oassert obind].
  destruct (take_selected_spec inputs r [] Hsub) as (pk & rs & E2 & Hp & Hf).
  exists pk, rs. rewrite E2, Hf. done.
Qed.

Lemma select_utxo_values_correct_witness :
  ∃ picked rest, select_utxo_values [(5, 1); (7, 2); (5, 3)] 10 = Ok picked.*2 ∧
    [(5, 1); (7, 2); (5, 3)] ≡ₚ picked ++ rest ∧ 10 ≤ zsum picked.*1 ∧
    select_utxo [(5, 1); (7, 2); (5, 3)].*1 10 = Ok picked.*1.
Proof.
  apply (select_utxo_values_correct [(5, 1); (7, 2); (5, 3)] 10).
  - repeat constructor.
  - lia.
  - vm_compute. split; discriminate.
Defined.
