(* ===== verification/Env.v ===== *)
(** * Server environments

    The constants of [rust/sideswap_common/src/env.rs]: the servers a client can
    be built for and the networks behind them.  The [elements] crate reads identifiers
    ([ElementsIds], a parameter); its table of address parameters is left out. *)
From stdpp Require Import sorting base numbers strings list.
From Stdlib Require Import ZArith Lia.
From S2P Require Import Prelude F64 Api.

Open Scope Z_scope.
#[local] Set Primitive Projections.

Inductive Env :=
  | Env_Prod
  | Env_Staging
  | Env_Testnet
  | Env_Regtest
  | Env_Local
  | Env_LocalLiquid
  | Env_LocalTestnet.

#[export] Instance Env_eq_dec : EqDecision Env.
Proof. solve_decision. Defined.

Inductive Network :=
  | Network_Mainnet
  | Network_Testnet
  | Network_Regtest
  | Network_Local.

Definition usdt_asset_id (network : Network) : string :=
  match network with
  | Network_Mainnet => "ce091c998b83c78bb71a632313ba3760f1763d9cfcffae02258ffa9865a37bd2"
  | Network_Testnet => "b612eb46313a2cd6ebabd8b7a8eed5696e29898b87a43bff41c94f51acef9d73"
  | Network_Regtest => "a0682b2b1493596f93cea5f4582df6a900b5e1a491d5ac39dea4bb39d0a45bbf"
  | Network_Local => "ac1775bb717c60a9a4adc3587bd166350e016938b1e34f4b8e2e490dfd03817a"
  end.

Definition eurx_asset_id (network : Network) : string :=
  match network with
  | Network_Mainnet => "18729918ab4bca843656f08d4dd877bed6641fbd596a0a963abbf199cfeb3cec"
  | Network_Testnet => "58af36e1b529b42f3e4ccce812924380058cae18b2ad26c89805813a9db25980"
  | Network_Regtest => "6d15498e26ec311dc6e9962dd05f6e7024c7fe4989cc09d426822ea540f048a2"
  | Network_Local => "92e71c513e2d1b2e421200beb1dabb231c12b5d2c53438648e09859909c0f9b7"
  end.

Definition mex_asset_id (network : Network) : option string :=
  match network with
  | Network_Mainnet =>
      Some "26ac924263ba547b706251635550a8649545ee5c074fe5db8d7140557baaf32e"
  | Network_Testnet =>
      Some "485ff8a902ad063bd8886ef8cfc0d22a068d14dcbe6ae06cf3f904dc581fbd2b"
  | Network_Regtest | Network_Local => None
  end.

Definition single_sig_account_path (network : Network) : list Z :=
  match network with
  | Network_Mainnet => [0x80000031; 0x800006F0; 0x80000000]
  | Network_Testnet | Network_Regtest | Network_Local => [0x80000031; 0x80000001; 0x80000000]
  end.

Record EnvData := {
  env_data_host : string;
  env_data_port : Z;
  env_data_use_tls : bool;
  env_data_name : string;
  env_data_mainnet : bool;
  env_data_development : bool;
  env_data_policy_asset : string;
  env_data_electum_network : string;
  env_data_electrum_url : string;
  env_data_electrum_tls : bool;
  env_data_asset_registry_url : string;
  env_data_tx_explorer_url : string;
  env_data_address_explorer_url : string;
  env_data_network : Network
}.

Definition ENV_PROD : EnvData := {|
  env_data_host := "api.sideswap.io";
  env_data_port := 443;
  env_data_use_tls := true;
  env_data_name := "prod";
  env_data_mainnet := true;
  env_data_development := false;
  env_data_policy_asset := "6f0279e9ed041c3d710a9f57d0c02928416460c4b722ae3457a11eec381c526d";
  env_data_electum_network := "liquid-electrum-mainnet";
  env_data_electrum_url := "blockstream.info:995";
  env_data_electrum_tls := true;
  env_data_asset_registry_url := "https://assets.blockstream.info";
  env_data_tx_explorer_url := "https://blockstream.info/liquid/tx/";
  env_data_address_explorer_url := "https://blockstream.info/address/";
  env_data_network := Network_Mainnet
|}.

Definition ENV_STAGING : EnvData := {|
  env_data_host := "api-test.sideswap.io";
  env_data_port := 443;
  env_data_use_tls := true;
  env_data_name := "staging";
  env_data_mainnet := true;
  env_data_development := true;
  env_data_policy_asset := "6f0279e9ed041c3d710a9f57d0c02928416460c4b722ae3457a11eec381c526d";
  env_data_electum_network := "liquid-electrum-mainnet";
  env_data_electrum_url := "blockstream.info:995";
  env_data_electrum_tls := true;
  env_data_asset_registry_url := "https://assets.blockstream.info";
  env_data_tx_explorer_url := "https://blockstream.info/liquid/tx/";
  env_data_address_explorer_url := "https://blockstream.info/address/";
  env_data_network := Network_Mainnet
|}.

Definition ENV_TESTNET : EnvData := {|
  env_data_host := "api-testnet.sideswap.io";
  env_data_port := 443;
  env_data_use_tls := true;
  env_data_name := "testnet";
  env_data_mainnet := false;
  env_data_development := false;
  env_data_policy_asset := "144c654344aa716d6f3abcc1ca90e5641e4e2a7f633bc09fe3baf64585819a49";
  env_data_electum_network := "electrum-testnet-liquid";
  env_data_electrum_url := "blockstream.info:465";
  env_data_electrum_tls := true;
  env_data_asset_registry_url := "https://assets-testnet.blockstream.info";
  env_data_tx_explorer_url := "https://blockstream.info/liquidtestnet/liquidtestnet/tx/";
  env_data_address_explorer_url := "https://blockstream.info/liquidtestnet/address/";
  env_data_network := Network_Testnet
|}.

Definition ENV_REGTEST : EnvData := {|
  env_data_host := "api-regtest.sideswap.io";
  env_data_port := 443;
  env_data_use_tls := true;
  env_data_name := "regtest";
  env_data_mainnet := false;
  env_data_development := true;
  env_data_policy_asset := "2e16b12daf1244332a438e829ca7ce209195f8e1c54199770cd8b327710a8ab2";
  env_data_electum_network := "electrum-regtest-liquid";
  env_data_electrum_url := "api.sideswap.io:10402";
  env_data_electrum_tls := false;
  env_data_asset_registry_url := "https://staging.sideswap.io/assets";
  env_data_tx_explorer_url := EmptyString;
  env_data_address_explorer_url := EmptyString;
  env_data_network := Network_Regtest
|}.

Definition ENV_LOCAL : EnvData := {|
  env_data_host := "192.168.71.50";
  env_data_port := 4001;
  env_data_use_tls := false;
  env_data_name := "local";
  env_data_mainnet := false;
  env_data_development := true;
  env_data_policy_asset := "2684bbac0fa7ad544ec8eee43c35156346e5d641d24a4b9d5d8f183e3f2d8fb9";
  env_data_electum_network := "electrum-local-liquid";
  env_data_electrum_url := "192.168.71.50:51401";
  env_data_electrum_tls := false;
  env_data_asset_registry_url := "http://192.168.71.50/assets";
  env_data_tx_explorer_url := EmptyString;
  env_data_address_explorer_url := EmptyString;
  env_data_network := Network_Local
|}.

Definition ENV_LOCAL_LIQUID : EnvData := {|
  env_data_host := "192.168.71.50";
  env_data_port := 5001;
  env_data_use_tls := false;
  env_data_name := "local_liquid";
  env_data_mainnet := true;
  env_data_development := false;
  env_data_policy_asset := "6f0279e9ed041c3d710a9f57d0c02928416460c4b722ae3457a11eec381c526d";
  env_data_electum_network := "liquid-electrum-mainnet";
  env_data_electrum_url := "blockstream.info:995";
  env_data_electrum_tls := true;
  env_data_asset_registry_url := "https://assets.blockstream.info";
  env_data_tx_explorer_url := "https://blockstream.info/liquid/tx/";
  env_data_address_explorer_url := "https://blockstream.info/address/";
  env_data_network := Network_Mainnet
|}.

Definition ENV_LOCAL_TESTNET : EnvData := {|
  env_data_host := "192.168.71.50";
  env_data_port := 6001;
  env_data_use_tls := false;
  env_data_name := "local_testnet";
  env_data_mainnet := false;
  env_data_development := false;
  env_data_policy_asset := "144c654344aa716d6f3abcc1ca90e5641e4e2a7f633bc09fe3baf64585819a49";
  env_data_electum_network := "electrum-testnet-liquid";
  env_data_electrum_url := "blockstream.info:465";
  env_data_electrum_tls := true;
  env_data_asset_registry_url := "https://assets-testnet.blockstream.info";
  env_data_tx_explorer_url := "https://blockstream.info/liquidtestnet/liquidtestnet/tx/";
  env_data_address_explorer_url := "https://blockstream.info/liquidtestnet/address/";
  env_data_network := Network_Testnet
|}.

Definition env_data (env : Env) : EnvData :=
  match env with
  | Env_Prod => ENV_PROD
  | Env_Staging => ENV_STAGING
  | Env_Testnet => ENV_TESTNET
  | Env_Regtest => ENV_REGTEST
  | Env_Local => ENV_LOCAL
  | Env_LocalLiquid => ENV_LOCAL_LIQUID
  | Env_LocalTestnet => ENV_LOCAL_TESTNET
  end.

(** The identifiers of the [elements] crate and how it reads them: any 64 hexadecimal
    digits are an asset. *)
Definition is_hex64 (s : string) : bool :=
  (String.length s =? 64)%nat && match hex_decode s with Some _ => true | None => false end.

Class ElementsIds := {
  AssetId_from_str : string → outcome AssetId;
  Txid_from_str : string → outcome Txid;
  AssetId_from_hex s : is_hex64 s = true → is_ok (AssetId_from_str s) = true
}.

Section Ids.
Context `{ElementsIds}.

(** [AssetId::from_str(..).unwrap()] of a built-in identifier, which cannot fail
    ([builtin_ids_parse]). *)
Definition asset_id_of (s : string) : AssetId :=
  match AssetId_from_str s with Ok h => h | _ => [] end.

Definition policy_asset (env : Env) : AssetId :=
  asset_id_of (env_data_policy_asset (env_data env)).
Definition usdt_asset (env : Env) : AssetId :=
  asset_id_of (usdt_asset_id (env_data_network (env_data env))).
Definition eurx_asset (env : Env) : AssetId :=
  asset_id_of (eurx_asset_id (env_data_network (env_data env))).

Lemma asset_id_of_hex s : is_hex64 s = true → AssetId_from_str s = Ok (asset_id_of s).
Proof. intros Hs%AssetId_from_hex. unfold asset_id_of. by destruct (AssetId_from_str s). Qed.

Lemma builtin_ids_parse env :
  AssetId_from_str (env_data_policy_asset (env_data env)) = Ok (policy_asset env) ∧
  AssetId_from_str (usdt_asset_id (env_data_network (env_data env))) = Ok (usdt_asset env) ∧
  AssetId_from_str (eurx_asset_id (env_data_network (env_data env))) = Ok (eurx_asset env).
Proof. split_and!; apply asset_id_of_hex; by destruct env; vm_compute. Qed.
End Ids.

(** An instance: the bytes as they are shown, last one first. *)
Definition hex_ids : ElementsIds.
Proof.
  refine {| AssetId_from_str := Hash32_from_str; Txid_from_str := Hash32_from_str |}.
  intros s [Hl Hs]%andb_true_iff. apply Nat.eqb_eq in Hl. unfold Hash32_from_str.
  destruct (hex_decode s) as [data|] eqn:E; [|done]. apply hex_decode_length in E.
  by rewrite bool_decide_true by lia.
Defined.
