(* ===== verification/Dealer.v ===== *)
(** * The dealer

    Models [rust/sideswap_dealer/src/dealer.rs]: the market maker's worker, which
    keeps one order per ticker and direction on the server's book, takes orders of
    others when the price is good enough and signs its swaps.  The wallet (an
    Elements node behind [rpc.rs]) and the server answer through [DealerEnv]; an
    answer may depend on everything that happened before it ([dealer_log]), so the
    theorems hold for every behaviour of both. *)
From stdpp Require Import sorting base numbers gmap sets strings list.
From Stdlib Require Import ZArith QArith Qabs Lqa Lia SpecFloat.
From S2P Require Import Prelude F64 Api Env Types.

Open Scope Z_scope.
#[local] Set Primitive Projections.

(** ** Data *)

(** [DealerTicker(&'static str)] *)
Abbreviation DealerTicker := string (only parsing).
Definition DEALER_LBTC : DealerTicker := TICKER_LBTC.
Definition DEALER_USDT : DealerTicker := TICKER_USDT.
Definition DEALER_EURX : DealerTicker := TICKER_EURX.
Definition DEALER_LCAD : DealerTicker := TICKER_LCAD.
Definition DEALER_AUDL : DealerTicker := TICKER_AUDL.

Definition EXTRA_ASSET_UTXO_FRACTION : f64 := flit 3 100.
Definition RECREATE_ORDER_AMOUNT_FRACTION : f64 := flit 5 100.
Definition DEALER_MIN_BITCOIN_AMOUNT : f64 := flit 1 10000.
(** Durations in milliseconds. *)
Definition PRICE_EXPIRATON_TIME : Z := 60000.
Definition PRICE_EDIT_MIN_DELAY : Z := 5000.

Record Params := {
  par_env : Env;
  par_interest_submit_usdt : f64;
  par_interest_sign_usdt : f64;
  par_interest_submit_eurx : f64;
  par_interest_sign_eurx : f64;
  par_tickers : gset DealerTicker;
  par_bitcoin_amount_submit : Z;
  par_bitcoin_amount_min : Z;
  par_bitcoin_amount_max : Z
}.

(** A transaction output's identity, [TxOut] of [types.rs]. *)
Abbreviation TxOut := (Txid * Z)%type (only parsing).

(** [rpc::UnspentItem]; the amount is the JSON number as it is written. *)
Record UnspentItem := {
  ui_txid : Txid;
  ui_vout : Z;
  ui_address : string;
  ui_amount : string;
  ui_confirmations : Z;
  ui_asset : AssetId;
  ui_script_pub_key : string;
  ui_redeem_script : option string;
  ui_assetblinder : option string;
  ui_amountblinder : option string;
  ui_assetcommitment : option string;
  ui_amountcommitment : option string
}.

Definition tx_out (item : UnspentItem) : TxOut := (ui_txid item, ui_vout item).

Record Utxo := { utxo_item : UnspentItem; utxo_amount : Z }.

Record ToPrice := { to_price_ticker : DealerTicker; to_price_price : option PricePair }.
Record ToLimitBalance := {
  limit_ticker : DealerTicker;
  limit_recv_limit : bool;
  limit_balance : f64
}.

Inductive To :=
  | To_Price (a : ToPrice)
  | To_LimitBalance (a : ToLimitBalance)
  | To_ResetPrices.

Record SwapSucceed := {
  swap_succeed_txid : Txid;
  swap_succeed_ticker : DealerTicker;
  swap_succeed_bitcoin_amount : Z;
  swap_succeed_send_bitcoins : bool
}.

Inductive From :=
  | From_Swap (a : SwapSucceed)
  | From_WalletBalanceUpdated.

(** What the worker's channel carries. *)
Inductive DealerMsg :=
  | Msg_To (a : To)
  | Msg_Timer
  | Msg_Connected
  | Msg_Disconnected
  | Msg_Notification (a : Notification)
  | Msg_ReloadUtxo.

Abbreviation WalletBalances := (gmap DealerTicker f64) (only parsing).

Record PriceTimestamp := { pt_price : PricePair; pt_timestamp : Z }.

Record AllBalances := {
  ab_wallet : WalletBalances;
  ab_max_send : WalletBalances;
  ab_max_recv : WalletBalances
}.

Record OwnOrder := {
  own_order_id : OrderId;
  own_order_bitcoin_amount : Z;
  own_order_price : f64
}.

(** [OwnOrderKey]: ticker and direction ([send_bitcoins]). *)
Abbreviation OwnOrderKey := (DealerTicker * bool)%type (only parsing).
#[export] Instance bool_key_order : KeyOrder bool := implb.
#[export] Instance f64_inhabited : Inhabited f64 := populate f0.

(** [rpc::GetWalletInfo] *)
Record GetWalletInfo := {
  gwi_balance : gmap string f64;
  gwi_unconfirmed_balance : gmap string f64;
  gwi_immature_balance : gmap string f64;
  gwi_private_keys_enabled : bool
}.

(** [==] of maps of floats: same keys, equal values (a NaN is not equal to
    itself). *)
Definition f64_map_eqb (m1 m2 : gmap string f64) : bool :=
  bool_decide (dom m1 = dom m2) &&
  forallb (λ '(k, v), match m2 !! k with Some w => feqb v w | None => false end)
    (map_to_list m1).

Definition wallet_info_eqb (a b : GetWalletInfo) : bool :=
  f64_map_eqb (gwi_balance a) (gwi_balance b) &&
  f64_map_eqb (gwi_unconfirmed_balance a) (gwi_unconfirmed_balance b) &&
  f64_map_eqb (gwi_immature_balance a) (gwi_immature_balance b) &&
  eqb (gwi_private_keys_enabled a) (gwi_private_keys_enabled b).

(** ** Effects *)

(** What the worker did to the outside and what came back, newest first. *)
Inductive DealerEvent :=
  | Ev_Request (r : Request) (resp : option (Response + Error))
  | Ev_NewAddress (r : Address + string)
  | Ev_ListUnspent (r : list UnspentItem + string)
  | Ev_DumpPrivKey (addr : string) (r : string + string)
  | Ev_WalletInfo (r : GetWalletInfo + string)
  | Ev_Now (t : Z)
  | Ev_Self (m : DealerMsg)
  | Ev_From (m : From).

(** The foreign code the dealers call (JSON amounts, PSETs, keys). *)
Class Foreign := {
  #[global] foreign_ids :: ElementsIds;
  (** [SignedAmount::from_str_in(.., Bitcoin)] *)
  signed_amount_from_str : string → option Z;
  (** base64, the PSET parser and [extract_tx]: the inputs the PSET spends *)
  pset_inputs : string → outcome (list TxOut);
  (** [PrivateKey::from_str] *)
  private_key_from_str : string → outcome string;
  (** [hex::decode] and [deserialize::<confidential::Value>] *)
  value_commitment_from_str : string → option string;
  (** the PSET with the given inputs (index, key, commitment, redeem script)
      finalised and serialised *)
  pset_finalize : string → list (nat * string * string * option string) → string
}.

(** The wallet, the server and the clock.  [env_server] answers [None] when the
    answer does not come in time. *)
Class DealerEnv := {
  #[global] env_foreign :: Foreign;
  env_server : list DealerEvent → Request → option (Response + Error);
  env_new_address : list DealerEvent → Address + string;
  env_list_unspent : list DealerEvent → list UnspentItem + string;
  env_dumpprivkey : list DealerEvent → string → string + string;
  env_wallet_info : list DealerEvent → GetWalletInfo + string;
  env_now : list DealerEvent → Z
}.

Record DealerState := {
  ds_assets : list Asset;
  ds_server_connected : bool;
  ds_utxos : gmap TxOut Utxo;
  ds_orders : gmap OrderId OrderCreatedNotification;
  ds_taken_orders : gset OrderId;
  ds_all_balances : AllBalances;
  ds_index_prices : gmap DealerTicker PriceTimestamp;
  ds_pending_signs : gmap OrderId Details;
  ds_own_orders : gmap OwnOrderKey (option OwnOrder);
  ds_wallet_balance : option GetWalletInfo;
  ds_last_price_edit : Z;
  ds_log : list DealerEvent
}.

Definition DealerM : Type → Type := M DealerState.

Definition ticker_from_string (asset : string) : outcome DealerTicker :=
  if bool_decide (asset ∈ [TICKER_LBTC; TICKER_USDT; TICKER_EURX; TICKER_LCAD; TICKER_AUDL])
  then Ok asset
  else Err ("ticker not found").

Definition ticker_from_asset (asset : Asset) : outcome DealerTicker :=
  ticker_from_string (asset_ticker asset).

(** [assert!((1.0..=1.1).contains(&interest))] *)
Definition apply_interest (price : PricePair) (interest : f64) : outcome PricePair :=
  do? oassert (fleb f1 interest && fleb interest (flit 11 10))
        "assertion failed: (1.0..=1.1).contains(&interest)" in
  Ok {| price_pair_bid := fdiv (price_pair_bid price) interest;
        price_pair_ask := fmul (price_pair_ask price) interest |}.

Definition get_price_pair (price : PriceTimestamp) : PricePair := pt_price price.

Definition get_price (price : PricePair) (send_bitcoins : bool) (interest : f64) : f64 :=
  if send_bitcoins then fmul (price_pair_ask price) interest
  else fdiv (price_pair_bid price) interest.

Definition amount_change (new old : Z) : f64 :=
  fdiv (fsub (to_bitcoin new) (to_bitcoin old)) (to_bitcoin old).

Definition get_bitcoin_amount (all : AllBalances) (ticker : DealerTicker) (price : f64)
    (send_bitcoins max_amount : bool) : Z :=
  let wallet_asset := default f0 (ab_wallet all !! ticker) in
  let wallet_bitcoin :=
    fdiv (default f0 (ab_wallet all !! DEALER_LBTC)) (fadd f1 SERVER_FEE_RATE) in
  let bitcoin_max_send := default f64_max (ab_max_send all !! DEALER_LBTC) in
  let bitcoin_max_recv := default f64_max (ab_max_recv all !! DEALER_LBTC) in
  let asset_max_send := default f64_max (ab_max_send all !! ticker) in
  let asset_max_recv := default f64_max (ab_max_recv all !! ticker) in
  let extra_asset_downscale :=
    if max_amount then f1 else fdiv f1 (fadd f1 EXTRA_ASSET_UTXO_FRACTION) in
  if send_bitcoins then
    from_bitcoin (fmin (fmin wallet_bitcoin
                          (fdiv (fmul asset_max_recv extra_asset_downscale) price))
                       bitcoin_max_send)
  else
    from_bitcoin (fmin (fmin (fdiv (fmul wallet_asset extra_asset_downscale) price)
                             bitcoin_max_recv)
                       (fdiv (fmul asset_max_send extra_asset_downscale) price)).

(** [details.bitcoin_amount] with the server fee on the dealer's side. *)
Definition actual_bitcoin_amount (details : Details) : Z :=
  if details_send_bitcoins details
  then wi64 (details_bitcoin_amount details + details_server_fee details)
  else wi64 (details_bitcoin_amount details - details_server_fee details).

Definition find_asset (assets : list Asset) (id : AssetId) : option Asset :=
  find (λ asset, bool_decide (asset_asset_id asset = id)) assets.

Definition find_ticker (assets : list Asset) (ticker : string) : option Asset :=
  find (λ asset, bool_decide (asset_ticker asset = ticker)) assets.

Definition take_order (params : Params) (assets : list Asset) (details : Details)
    (all : AllBalances) (index_prices : gmap DealerTicker PriceTimestamp)
    (interest : f64) : outcome unit :=
  do? oensure (par_bitcoin_amount_min params <=? details_bitcoin_amount details) "min" in
  do? oensure (details_bitcoin_amount details <=? par_bitcoin_amount_max params) "max" in
  let? asset := oexpect (find_asset assets (details_asset details)) "asset" in
  let? ticker := ticker_from_asset asset in
  let? asset_amount :=
    asset_float_amount (details_asset_amount details) (asset_precision asset) in
  let actual_price := fdiv asset_amount (to_bitcoin (actual_bitcoin_amount details)) in
  do? oassert (fgtb actual_price f0) "assertion failed: actual_price > 0.0" in
  let? index_price := ook_or (index_prices !! ticker) "index price is not known" in
  let? dealer_price := apply_interest (get_price_pair index_price) interest in
  let bitcoin_amount_max :=
    get_bitcoin_amount all ticker actual_price (details_send_bitcoins details) true in
  do? (if details_send_bitcoins details
       then oensure (fgeb actual_price (price_pair_ask dealer_price)) "dealer_price.ask"
       else oensure (fleb actual_price (price_pair_bid dealer_price)) "dealer_price.bid") in
  oensure (details_bitcoin_amount details <=? bitcoin_amount_max) "max bitcoin amount".

(** ** Balances and outputs *)

Section Outputs.
Context `{Foreign}.

(** [Amount::from_rpc] *)
Definition from_rpc (value : string) : outcome Z :=
  oexpect (signed_amount_from_str value) "invalid bitcoin value".

(** [*map.entry(k).or_default() += v] *)
Definition add_amount {K} `{Countable K} (m : gmap K f64) (k : K) (v : f64) : gmap K f64 :=
  <[k := fadd (default f0 (m !! k)) v]> m.

Fixpoint sum_amounts (items : list UnspentItem) (m : gmap AssetId f64)
    : outcome (gmap AssetId f64) :=
  match items with
  | [] => Ok m
  | item :: items =>
      let? sat := from_rpc (ui_amount item) in
      sum_amounts items (add_amount m (ui_asset item) (to_bitcoin sat))
  end.

(** Amounts per asset as balances per ticker; unknown assets are dropped. *)
Definition convert_balances (assets : list Asset) (amounts : gmap AssetId f64)
    : gmap DealerTicker f64 :=
  foldl (λ m asset,
    match amounts !! asset_asset_id asset, ticker_from_asset asset with
    | Some balance, Ok ticker => <[ticker := balance]> m
    | _, _ => m
    end) ∅ assets.

(** New outputs are added, known ones kept as they are. *)
Fixpoint add_utxos (items : list UnspentItem) (utxos : gmap TxOut Utxo)
    : outcome (gmap TxOut Utxo) :=
  match items with
  | [] => Ok utxos
  | item :: items =>
      match utxos !! tx_out item with
      | Some _ => add_utxos items utxos
      | None =>
          let? amount := from_rpc (ui_amount item) in
          add_utxos items
            (<[tx_out item := {| utxo_item := item; utxo_amount := amount |}]> utxos)
      end
  end.

Definition update_utxos (items : list UnspentItem) (utxos : gmap TxOut Utxo)
    : outcome (gmap TxOut Utxo) :=
  let old_keys := dom utxos in
  let new_keys : gset TxOut := list_to_set (tx_out <$> items) in
  let? utxos := add_utxos items utxos in
  Ok (filter (λ '(k, _), k ∉ old_keys ∖ new_keys) utxos).
End Outputs.

(** ** The worker *)

Section Worker.
Context `{DealerEnv}.

Definition emit (e : DealerEvent) : DealerM unit := modify (λ s, s <| ds_log ::= cons e |>).

(** [msg_tx.send(..)]: the message is queued. *)
Definition send_self (m : DealerMsg) : DealerM unit := emit (Ev_Self m).

(** The [send_request!] macro over the [send_request] closure. *)
Definition send_request {A} (r : Request) (proj : Response → option A) : DealerM (A + Error) :=
  let! log := gets ds_log in
  let resp := env_server log r in
  do! emit (Ev_Request r resp) in
  match resp with
  | None => panic "request timeout"
  | Some (inr e) => ret (inr e)
  | Some (inl v) => lift (let? a := oexpect (proj v) "unexpected response type" in Ok (inl a))
  end.

(** [send_request!(..).expect(..)] *)
Definition send_request_expect {A} (r : Request) (proj : Response → option A) (e : string)
    : DealerM A :=
  let! resp := send_request r proj in
  match resp with inl a => ret a | inr _ => panic e end.

(** The RPC calls of [rpc::make_rpc_call]. *)
Definition rpc_new_address : DealerM (Address + string) :=
  let! log := gets ds_log in
  let r := env_new_address log in
  do! emit (Ev_NewAddress r) in ret r.

Definition rpc_list_unspent : DealerM (list UnspentItem + string) :=
  let! log := gets ds_log in
  let r := env_list_unspent log in
  do! emit (Ev_ListUnspent r) in ret r.

Definition rpc_dumpprivkey (addr : string) : DealerM (string + string) :=
  let! log := gets ds_log in
  let r := env_dumpprivkey log addr in
  do! emit (Ev_DumpPrivKey addr r) in ret r.

Definition rpc_wallet_info : DealerM (GetWalletInfo + string) :=
  let! log := gets ds_log in
  let r := env_wallet_info log in
  do! emit (Ev_WalletInfo r) in ret r.

Definition now : DealerM Z :=
  let! log := gets ds_log in
  let t := env_now log in
  do! emit (Ev_Now t) in ret t.

(** [r?] and [r.expect(e)] on such a result. *)
Definition try_result {A} (r : A + string) : DealerM A :=
  match r with inl a => ret a | inr e => fail e end.
Definition expect_result {A} (r : A + string) (e : string) : DealerM A :=
  match r with inl a => ret a | inr _ => panic e end.

(** The utxos [get_pset] may spend. *)
Definition asset_utxos (utxos : gmap TxOut Utxo) (send_asset : AssetId) : list Utxo :=
  filter (λ utxo, ui_asset (utxo_item utxo) = send_asset ∧
                  is_Some (ui_amountblinder (utxo_item utxo)) ∧
                  is_Some (ui_assetblinder (utxo_item utxo)))
    (btree_list utxos).*2.

Definition pset_input (send_asset : AssetId) (amount : Z) (utxo : Utxo) : outcome PsetInput :=
  let item := utxo_item utxo in
  let? asset_bf := oexpect (ui_assetblinder item) "called `Option::unwrap()`" in
  let? value_bf := oexpect (ui_amountblinder item) "called `Option::unwrap()`" in
  Ok {| pset_input_txid := ui_txid item;
        pset_input_vout := ui_vout item;
        pset_input_asset := send_asset;
        pset_input_asset_bf := asset_bf;
        pset_input_value := wu64 amount;
        pset_input_value_bf := value_bf;
        pset_input_redeem_script := ui_redeem_script item |}.

Fixpoint pset_inputs_loop (selected : list Z) (asset_utxos : list Utxo) (send_asset : AssetId)
    (inputs : list PsetInput) : outcome (list PsetInput) :=
  match selected with
  | [] => Ok inputs
  | amount :: selected =>
      let? index := oexpect (position (λ v, utxo_amount v =? amount) asset_utxos)
                      "utxo must exists" in
      let? ' (utxo, asset_utxos) :=
        oexpect (swap_remove index asset_utxos) "swap_remove index out of range" in
      let? input := pset_input send_asset amount utxo in
      pset_inputs_loop selected asset_utxos send_asset (inputs ++ [input])
  end.

(** Asset and amount the dealer sends in the swap. *)
Definition send_side (params : Params) (details : Details) : AssetId * Z :=
  if details_send_bitcoins details
  then (policy_asset (par_env params),
        wi64 (details_bitcoin_amount details + details_server_fee details))
  else (details_asset details, details_asset_amount details).

(** The value the selected inputs must reach: for orders of the dealer's own
    some extra, so that the price can be edited. *)
Definition utxo_target (details : Details) (send_amount total : Z) (extra_asset_utxo : bool) : Z :=
  if extra_asset_utxo && negb (details_send_bitcoins details)
  then Z.min total
         (round_i64 (fmul (f64_of_Z send_amount) (fadd f1 EXTRA_ASSET_UTXO_FRACTION)))
  else send_amount.

Definition select_inputs (params : Params) (details : Details) (utxos : gmap TxOut Utxo)
    (extra_asset_utxo : bool) : outcome (list PsetInput) :=
  let '(send_asset, send_amount) := send_side params details in
  let asset_utxos := asset_utxos utxos send_asset in
  let utxos_amounts := utxo_amount <$> asset_utxos in
  let total := wsum utxos_amounts in
  do? oensure (send_amount <=? total) "send_amount <= total" in
  let utxo_amount := utxo_target details send_amount total extra_asset_utxo in
  let? selected := select_utxo utxos_amounts utxo_amount in
  pset_inputs_loop selected asset_utxos send_asset [].

Definition get_pset (params : Params) (order_id : OrderId) (details : Details)
    (utxos : gmap TxOut Utxo) (extra_asset_utxo : bool) : DealerM PsetMakerRequest :=
  let! inputs := lift (select_inputs params details utxos extra_asset_utxo) in
  let! r := rpc_new_address in
  let! recv_addr := expect_result r "getting new address failed" in
  let! r := rpc_new_address in
  let! change_addr := expect_result r "getting new address failed" in
  ret {| pset_maker_order_id := order_id;
         pset_maker_price := details_price details;
         pset_maker_private := false;
         pset_maker_ttl_seconds := None;
         pset_maker_inputs := inputs;
         pset_maker_recv_addr := recv_addr;
         pset_maker_change_addr := change_addr;
         pset_maker_signed_half := None |}.

(** The keys for the inputs of the PSET that are the wallet's. *)
Fixpoint sign_inputs (utxos : gmap TxOut Utxo) (index : nat) (inputs : list TxOut)
    (sigs : list (nat * string * string * option string))
    : DealerM (list (nat * string * string * option string)) :=
  match inputs with
  | [] => ret sigs
  | input :: inputs =>
      match utxos !! input with
      | None => sign_inputs utxos (S index) inputs sigs
      | Some utxo =>
          let! r := rpc_dumpprivkey (ui_address (utxo_item utxo)) in
          let! priv_key := try_result r in
          let! private_key := lift (private_key_from_str priv_key) in
          let! commitment := expect (ui_amountcommitment (utxo_item utxo)) "amountcommitment" in
          let! value_commitment := expect (value_commitment_from_str commitment) "commitment" in
          sign_inputs utxos (S index) inputs
            (sigs ++ [(index, private_key, value_commitment, ui_redeem_script (utxo_item utxo))])
      end
  end.

Definition sign_pset (data : SignNotification) (utxos : gmap TxOut Utxo) : DealerM SignRequest :=
  let! inputs := lift (pset_inputs (sign_ntf_pset data)) in
  let! sigs := sign_inputs utxos 0 inputs [] in
  ret {| sign_order_id := sign_ntf_order_id data;
         sign_signed_pset := pset_finalize (sign_ntf_pset data) sigs;
         sign_side := details_side (sign_ntf_details data) |}.

Definition cancel_order (order_id : OrderId) : DealerM unit :=
  let! _r := send_request (Request_Cancel {| cancel_order_id := order_id |}) as_Cancel in
  ret tt.

(** *** Own orders *)

Definition set_own (key : OwnOrderKey) (own : option OwnOrder) : DealerM unit :=
  modify (λ s, s <| ds_own_orders ::= <[key := own]> |>).

Definition submit_interest (params : Params) (ticker : DealerTicker) : outcome f64 :=
  if bool_decide (ticker = DEALER_USDT) then Ok (par_interest_submit_usdt params)
  else if bool_decide (ticker = DEALER_EURX) then Ok (par_interest_submit_eurx params)
  else Panic "unexpected asset".

(** The price an own order is offered at: the interest covers the server fee. *)
Definition offer_price (params : Params) (interest_submit : f64) (send_bitcoins : bool)
    (price : PriceTimestamp) : f64 :=
  let submit := to_bitcoin (par_bitcoin_amount_submit params) in
  let expected_server_fee :=
    from_bitcoin (fmax (fmul SERVER_FEE_RATE submit) (to_bitcoin MIN_SERVER_FEE)) in
  let interest_take_ajusted :=
    fmul interest_submit (fadd f1 (fdiv (to_bitcoin expected_server_fee) submit)) in
  get_price (pt_price price) send_bitcoins interest_take_ajusted.

(** The order is no longer covered, or much more could be offered. *)
Definition must_recreate (data : OwnOrder) (amount_normal amount_max : Z) : bool :=
  (amount_max =? 0) || (amount_max <? own_order_bitcoin_amount data) ||
  fgeb (amount_change amount_normal (own_order_bitcoin_amount data))
    RECREATE_ORDER_AMOUNT_FRACTION.

Definition submit_own_order (params : Params) (key : OwnOrderKey) (asset : Asset)
    (price : f64) (new_bitcoin_amount_normal : Z) : DealerM unit :=
  let send_bitcoins := key.2 in
  let amount := to_bitcoin new_bitcoin_amount_normal in
  let! submit_result :=
    send_request
      (Request_Submit {| submit_order :=
         {| price_order_asset := asset_asset_id asset;
            price_order_bitcoin_amount :=
              Some (if send_bitcoins then fneg amount else amount);
            price_order_asset_amount := None;
            price_order_price := Some price;
            price_order_index_price := None;
            price_order_force_private := None;
            price_order_disable_price_edit := None |} |})
      as_Submit in
  match submit_result with
  | inr _ => ret tt
  | inl submit_resp =>
      let! utxos := gets ds_utxos in
      let! pset :=
        attempt (get_pset params (submit_resp_order_id submit_resp)
                   (submit_resp_details submit_resp) utxos true) in
      match pset with
      | inr _ => ret tt
      | inl pset_maker_req =>
          let! addr_result := send_request (Request_PsetMaker pset_maker_req) as_PsetMaker in
          match addr_result with
          | inr _ => ret tt
          | inl _ =>
              set_own key
                (Some {| own_order_id := submit_resp_order_id submit_resp;
                         own_order_bitcoin_amount := new_bitcoin_amount_normal;
                         own_order_price := price |})
          end
      end
  end.

Definition edit_own_order (key : OwnOrderKey) (data : OwnOrder) (price : f64) : DealerM unit :=
  if fneb (own_order_price data) price then
    let! edit_result :=
      send_request (Request_Edit {| edit_order_id := own_order_id data;
                                    edit_price := Some price;
                                    edit_index_price := None |}) as_Edit in
    match edit_result with
    | inl _ => set_own key (Some (data <| own_order_price := price |>))
    | inr _ =>
        do! cancel_order (own_order_id data) in
        set_own key None
    end
  else ret tt.

Definition update_price (params : Params) (key : OwnOrderKey) : DealerM unit :=
  let '(ticker, send_bitcoins) := key in
  let! own := gets (λ s, default None (ds_own_orders s !! key)) in
  let! assets := gets ds_assets in
  let! asset := expect (find_ticker assets ticker) "called `Option::unwrap()`" in
  let! index_prices := gets ds_index_prices in
  let! all := gets ds_all_balances in
  let! interest_submit := lift (submit_interest params ticker) in
  let price := offer_price params interest_submit send_bitcoins <$> index_prices !! ticker in
  let new_bitcoin_amount_normal :=
    from_option (λ price,
      Z.min (get_bitcoin_amount all ticker price send_bitcoins false)
            (par_bitcoin_amount_submit params)) 0 price in
  let new_bitcoin_amount_max :=
    from_option (λ price, get_bitcoin_amount all ticker price send_bitcoins true) 0 price in
  match own, price with
  | None, Some price =>
      if par_bitcoin_amount_min params <=? new_bitcoin_amount_normal
      then submit_own_order params key asset price new_bitcoin_amount_normal
      else ret tt
  | Some data, Some price =>
      if must_recreate data new_bitcoin_amount_normal new_bitcoin_amount_max
      then cancel_order (own_order_id data)
      else edit_own_order key data price
  | Some data, None => cancel_order (own_order_id data)
  | None, None => ret tt
  end.

(** *** Connection *)

Definition subscribe_asset (asset : Asset) : DealerM unit :=
  let! subscribe_resp :=
    send_request_expect
      (Request_Subscribe {| subscribe_asset := Some (asset_asset_id asset) |}) as_Subscribe
      "subscribing to order list failed" in
  for_each (subscribe_resp_orders subscribe_resp) (λ order,
    modify (λ s, s <| ds_orders ::= <[order_created_order_id order := order]> |>)).

Definition on_connected (params : Params) : DealerM unit :=
  let! resp :=
    send_request_expect
      (Request_Assets (Some {| assets_request_param_embedded_icons := false |})) as_Assets
      "loading assets failed" in
  do! modify (λ s, s <| ds_assets := assets_resp_assets resp |>) in
  let! login_resp :=
    send_request_expect (Request_Login {| login_session_id := None |}) as_Login
      "subscribing to order list failed" in
  do! lift (oassert (bool_decide (login_resp_orders login_resp = []))
              "assertion failed: login_resp.orders.is_empty()") in
  do! for_each
        (filter (λ asset, asset_ticker asset ∈ par_tickers params) (assets_resp_assets resp))
        subscribe_asset in
  do! modify (λ s, s <| ds_server_connected := true |>) in
  send_self Msg_ReloadUtxo.

Definition on_disconnected : DealerM unit :=
  modify (λ s, s <| ds_server_connected := false |> <| ds_orders := ∅ |>
                 <| ds_taken_orders := ∅ |> <| ds_own_orders ::= fmap (λ _, None) |>).

(** *** Notifications *)

Definition sign_interest (params : Params) (asset : AssetId) : outcome f64 :=
  if bool_decide (asset = usdt_asset (par_env params))
  then Ok (par_interest_sign_usdt params)
  else if bool_decide (asset = eurx_asset (par_env params))
  then Ok (par_interest_sign_eurx params)
  else Panic "unexpected asset".

Definition on_sign (params : Params) (order : SignNotification) : DealerM unit :=
  let details := sign_ntf_details order in
  let! interest_sign := lift (sign_interest params (details_asset details)) in
  let! assets := gets ds_assets in
  let! all := gets ds_all_balances in
  let! index_prices := gets ds_index_prices in
  let! result := attempt (lift (take_order params assets details all index_prices interest_sign)) in
  match result with
  | inl _ =>
      let! utxos := gets ds_utxos in
      let! r := attempt (sign_pset order utxos) in
      let! req := expect_result r "called `Result::unwrap()` on an `Err` value" in
      let! _r := send_request_expect (Request_Sign req) as_Sign "sending signed PSBT failed" in
      modify (λ s, s <| ds_pending_signs ::= <[sign_ntf_order_id order := details]> |>)
  | inr _ => ret tt
  end.

Definition forget_own (order_id : OrderId) (own : option OwnOrder) : option OwnOrder :=
  if bool_decide (own_order_id <$> own = Some order_id) then None else own.

Definition on_complete (msg : CompleteNotification) : DealerM unit :=
  let order_id := complete_order_id msg in
  do! modify (λ s, s <| ds_own_orders ::= fmap (forget_own order_id) |>) in
  let! details := gets (λ s, ds_pending_signs s !! order_id) in
  do! modify (λ s, s <| ds_pending_signs ::= delete order_id |>) in
  match complete_txid msg with
  | None => ret tt
  | Some txid =>
      let! details := expect details "details must exists" in
      let! assets := gets ds_assets in
      let! asset := expect (find_asset assets (details_asset details)) "called `Option::unwrap()`" in
      let! r := attempt (lift (ticker_from_asset asset)) in
      let! ticker := expect_result r "called `Result::unwrap()` on an `Err` value" in
      emit (Ev_From (From_Swap
        {| swap_succeed_txid := txid;
           swap_succeed_ticker := ticker;
           swap_succeed_bitcoin_amount := actual_bitcoin_amount details;
           swap_succeed_send_bitcoins := details_send_bitcoins details |}))
  end.

Definition on_notification (params : Params) (msg : Notification) : DealerM unit :=
  match msg with
  | Notification_OrderCreated order =>
      match order_created_own order with
      | None =>
          do! modify (λ s, s <| ds_orders ::= <[order_created_order_id order := order]> |>) in
          send_self Msg_Timer
      | Some _ => ret tt
      end
  | Notification_OrderRemoved order =>
      modify (λ s, s <| ds_orders ::= delete (order_removed_order_id order) |>)
  | Notification_Sign order => on_sign params order
  | Notification_Complete msg => on_complete msg
  | _ => ret tt
  end.

(** *** Balances *)

Definition on_reload_utxo : DealerM unit :=
  let! r := rpc_list_unspent in
  let! unspent_with_zc := expect_result r "list_unspent failed" in
  let! asset_amounts := lift (sum_amounts unspent_with_zc ∅) in
  let! assets := gets ds_assets in
  let wallet_balances_new := convert_balances assets asset_amounts in
  let! all := gets ds_all_balances in
  do! (if f64_map_eqb (ab_wallet all) wallet_balances_new then ret tt
       else modify (λ s, s <| ds_all_balances ::= λ all,
                              all <| ab_wallet := wallet_balances_new |> |>)) in
  let! utxos := gets ds_utxos in
  let! utxos := lift (update_utxos unspent_with_zc utxos) in
  modify (λ s, s <| ds_utxos := utxos |>).

(** *** Requests of the owner *)

Definition on_to (to : To) : DealerM unit :=
  match to with
  | To_Price m =>
      do! match to_price_price m with
          | Some v =>
              let! t := now in
              modify (λ s, s <| ds_index_prices ::=
                <[to_price_ticker m := {| pt_price := v; pt_timestamp := t |}]> |>)
          | None => modify (λ s, s <| ds_index_prices ::= delete (to_price_ticker m) |>)
          end in
      send_self Msg_Timer
  | To_LimitBalance m =>
      do! modify (λ s, s <| ds_all_balances ::= λ all,
            if limit_recv_limit m
            then all <| ab_max_recv ::= <[limit_ticker m := limit_balance m]> |>
            else all <| ab_max_send ::= <[limit_ticker m := limit_balance m]> |> |>) in
      send_self Msg_Timer
  | To_ResetPrices => modify (λ s, s <| ds_index_prices := ∅ |>)
  end.

(** *** The timer *)

(** One order of the book. *)
Definition try_take_order (params : Params) (order : OrderCreatedNotification) : DealerM unit :=
  let order_id := order_created_order_id order in
  let details := order_created_details order in
  let! taken := gets ds_taken_orders in
  if bool_decide (order_id ∈ taken) then ret tt
  else
    let! interest_submit :=
      lift (if bool_decide (details_asset details = usdt_asset (par_env params))
            then Ok (par_interest_submit_usdt params)
            else if bool_decide (details_asset details = eurx_asset (par_env params))
            then Ok (par_interest_submit_eurx params)
            else Panic "unexpected asset") in
    let! assets := gets ds_assets in
    let! all := gets ds_all_balances in
    let! index_prices := gets ds_index_prices in
    let! result :=
      attempt (lift (take_order params assets details all index_prices interest_submit)) in
    match result with
    | inr _ => ret tt
    | inl _ =>
        let! utxos := gets ds_utxos in
        let! result := attempt (get_pset params order_id details utxos false) in
        match result with
        | inr _ => ret tt
        | inl pset_req =>
            let! addr_result :=
              send_request (Request_PsetTaker
                {| pset_taker_order_id := pset_maker_order_id pset_req;
                   pset_taker_price := pset_maker_price pset_req;
                   pset_taker_inputs := pset_maker_inputs pset_req;
                   pset_taker_recv_addr := pset_maker_recv_addr pset_req;
                   pset_taker_change_addr := pset_maker_change_addr pset_req |}) as_PsetTaker in
            match addr_result with
            | inr _ => ret tt
            | inl _ => modify (λ s, s <| ds_taken_orders ::= union {[ order_id ]} |>)
            end
        end
    end.

(** [now.duration_since(t)], saturating at zero. *)
Definition duration_since (now t : Z) : Z := Z.max 0 (now - t).

Definition check_wallet : DealerM unit :=
  let! wallet_result := rpc_wallet_info in
  match wallet_result with
  | inr _ => ret tt
  | inl v =>
      let! old := gets ds_wallet_balance in
      if from_option (λ old, wallet_info_eqb old v) false old then ret tt
      else
        do! modify (λ s, s <| ds_wallet_balance := Some v |>) in
        do! send_self Msg_ReloadUtxo in
        emit (Ev_From From_WalletBalanceUpdated)
  end.

Definition update_own_orders (params : Params) (t : Z) : DealerM unit :=
  let! connected := gets ds_server_connected in
  let! last_price_edit := gets ds_last_price_edit in
  if connected && (PRICE_EDIT_MIN_DELAY <=? duration_since t last_price_edit) then
    let! own_orders := gets ds_own_orders in
    do! for_each (btree_list own_orders).*1 (update_price params) in
    modify (λ s, s <| ds_last_price_edit := t |>)
  else ret tt.

Definition on_timer (params : Params) : DealerM unit :=
  let! t := now in
  do! update_own_orders params t in
  let! orders := gets ds_orders in
  do! for_each (btree_list orders).*2 (try_take_order params) in
  do! check_wallet in
  let! t := now in
  modify (λ s, s <| ds_index_prices ::= filter (λ '(_, price),
    duration_since t (pt_timestamp price) ≤ PRICE_EXPIRATON_TIME) |>).

(** One iteration of the worker's loop. *)
Definition on_msg (params : Params) (msg : DealerMsg) : DealerM unit :=
  match msg with
  | Msg_Connected => on_connected params
  | Msg_Disconnected => on_disconnected
  | Msg_Notification msg => on_notification params msg
  | Msg_ReloadUtxo => on_reload_utxo
  | Msg_To to => on_to to
  | Msg_Timer => on_timer params
  end.

(** The assertions at the top of [worker]. *)
Definition check_params (params : Params) : outcome unit :=
  do? oassert (fgeb (to_bitcoin (par_bitcoin_amount_min params)) DEALER_MIN_BITCOIN_AMOUNT)
        "bitcoin_amount_min can't be less" in
  do? oassert (par_bitcoin_amount_min params <=? par_bitcoin_amount_submit params) "submit >= min" in
  do? oassert (par_bitcoin_amount_submit params <=? par_bitcoin_amount_max params) "submit <= max" in
  do? oassert (fgtb (par_interest_sign_usdt params) f1) "sign_usdt > 1.0" in
  do? oassert (fgtb (par_interest_submit_usdt params) (par_interest_sign_usdt params)) "submit > sign" in
  do? oassert (fltb (par_interest_submit_usdt params) (flit 11 10)) "submit_usdt < 1.1" in
  do? oassert (fgtb (par_interest_sign_eurx params) f1) "sign_eurx > 1.0" in
  do? oassert (fgtb (par_interest_submit_eurx params) (par_interest_sign_eurx params)) "submit > sign" in
  oassert (fltb (par_interest_submit_eurx params) (flit 11 10)) "submit_eurx < 1.1".

(** The state the loop starts in. *)
Definition init_state (params : Params) (t : Z) : DealerState :=
  {| ds_assets := [];
     ds_server_connected := false;
     ds_utxos := ∅;
     ds_orders := ∅;
     ds_taken_orders := ∅;
     ds_all_balances := {| ab_wallet := ∅; ab_max_send := ∅; ab_max_recv := ∅ |};
     ds_index_prices := ∅;
     ds_pending_signs := ∅;
     ds_own_orders :=
       list_to_map (ticker ← elements (par_tickers params);
                    send_bitcoins ← [false; true];
                    [((ticker, send_bitcoins), None)]);
     ds_wallet_balance := None;
     ds_last_price_edit := t;
     ds_log := [] |}.

(** The loop over a sequence of received messages; a panic ends the process. *)
Definition run_dealer (params : Params) (msgs : list DealerMsg) : DealerM unit :=
  for_each msgs (on_msg params).
End Worker.

(** ** Specifications *)

(** [ds_log] was only extended since it was [l0], by events that satisfy [P]. *)
Definition log_ext (P : DealerEvent → Prop) (l0 : list DealerEvent) (s : DealerState) : Prop :=
  ∃ evs, ds_log s = evs ++ l0 ∧ Forall P evs.

(** The order identifiers whose quotes the server accepted in a log. *)
Definition accepted_quote (e : DealerEvent) : option OrderId :=
  match e with
  | Ev_Request (Request_PsetTaker r) (Some (inl (Response_PsetTaker _))) =>
      Some (pset_taker_order_id r)
  | _ => None
  end.

Definition accepted_quotes (l : list DealerEvent) : list OrderId := omap accepted_quote l.

Definition is_sign_request (e : DealerEvent) : option SignRequest :=
  match e with Ev_Request (Request_Sign r) _ => Some r | _ => None end.

(** Every quote accepted since [l0] is recorded as taken, and none twice. *)
Definition quotes_once (l0 : list DealerEvent) (s : DealerState) : Prop :=
  ∃ evs, ds_log s = evs ++ l0 ∧ NoDup (accepted_quotes evs) ∧
         (∀ i, i ∈ accepted_quotes evs → i ∈ ds_taken_orders s).

(** ** Lemmas: the log *)

Section Log.
Context `{DealerEnv}.

Lemma log_ext_modify P l0 (f : DealerState → DealerState) :
  (∀ s, ds_log (f s) = ds_log s) → keeps (log_ext P l0) (modify f).
Proof. intros Hf. apply keeps_modify. intros s Hs. unfold log_ext. by rewrite Hf. Qed.

Lemma log_ext_emit (P : DealerEvent → Prop) l0 e : P e → keeps (log_ext P l0) (emit e).
Proof.
  intros He. apply keeps_modify. intros s (evs & E & HP).
  exists (e :: evs). simpl. rewrite E. split; [done|by constructor].
Qed.

Lemma quotes_once_modify l0 (f : DealerState → DealerState) :
  (∀ s, ds_log (f s) = ds_log s ∧ ds_taken_orders (f s) = ds_taken_orders s) →
  keeps (quotes_once l0) (modify f).
Proof.
  intros Hf. apply keeps_modify. intros s Hs. unfold quotes_once. destruct (Hf s) as [-> ->]. done.
Qed.

Lemma quotes_once_emit l0 e : accepted_quote e = None → keeps (quotes_once l0) (emit e).
Proof.
  intros He. apply keeps_modify. intros s (evs & E & HP).
  exists (e :: evs). simpl. rewrite E. unfold accepted_quotes. simpl. by rewrite He.
Qed.

(** A request is one event; what happens with the answer does not touch the
    state. *)
Lemma keeps_send_request {A} I r (proj : Response → option A) :
  (∀ resp, keeps I (emit (Ev_Request r resp))) → keeps I (send_request r proj).
Proof. intros He. unfold send_request. keeps; auto. Qed.

Lemma keeps_send_request_expect {A} I r (proj : Response → option A) e :
  (∀ resp, keeps I (emit (Ev_Request r resp))) → keeps I (send_request_expect r proj e).
Proof. intros He. unfold send_request_expect. keeps. by apply keeps_send_request. Qed.
End Log.

(** What most of the worker's steps do: no signature request, no quote, no change
    of the taken orders.  [I] is any invariant such steps keep. *)
Definition quiet (e : DealerEvent) : Prop :=
  is_sign_request e = None ∧ accepted_quote e = None.

Section Frame.
Context `{DealerEnv} (I : DealerState → Prop).
Hypothesis frame_emit : ∀ e, quiet e → keeps I (emit e).
Hypothesis frame_modify : ∀ f : DealerState → DealerState,
  (∀ s, ds_log (f s) = ds_log s ∧ ds_taken_orders (f s) = ds_taken_orders s) →
  keeps I (modify f).

Ltac frame_step :=
  first
    [ keeps_step
    | lazymatch goal with
      | |- keeps _ (emit _) => apply frame_emit; split; done
      | |- keeps _ (send_self _) => apply frame_emit; split; done
      | |- keeps _ (modify _) => apply frame_modify; intros; split; done
      | |- keeps _ (set_own _ _) => apply frame_modify; intros; split; done
      | |- keeps _ (send_request _ _) => apply keeps_send_request; intros ?
      | |- keeps _ (send_request_expect _ _ _) => apply keeps_send_request_expect; intros ?
      | |- keeps _ rpc_new_address => unfold rpc_new_address
      | |- keeps _ rpc_list_unspent => unfold rpc_list_unspent
      | |- keeps _ (rpc_dumpprivkey _) => unfold rpc_dumpprivkey
      | |- keeps _ rpc_wallet_info => unfold rpc_wallet_info
      | |- keeps _ now => unfold now
      | |- keeps _ (try_result ?r) => unfold try_result
      | |- keeps _ (expect_result ?r _) => unfold expect_result
      | |- keeps _ (cancel_order _) => unfold cancel_order
      end ].
Ltac frame := repeat frame_step.

Lemma frame_get_pset params id details utxos extra :
  keeps I (get_pset params id details utxos extra).
Proof. unfold get_pset. frame. Qed.

Lemma frame_sign_inputs utxos i inputs sigs : keeps I (sign_inputs utxos i inputs sigs).
Proof. revert i sigs. induction inputs as [|x l IH]; intros i sigs; simpl; frame; apply IH. Qed.

Lemma frame_sign_pset data utxos : keeps I (sign_pset data utxos).
Proof. unfold sign_pset. frame. apply frame_sign_inputs. Qed.

Lemma frame_submit_own_order params key asset price amount :
  keeps I (submit_own_order params key asset price amount).
Proof. unfold submit_own_order. frame; apply frame_get_pset. Qed.

Lemma frame_update_price params key : keeps I (update_price params key).
Proof.
  unfold update_price. frame; try apply frame_submit_own_order.
  unfold edit_own_order. frame.
Qed.

Lemma frame_update_own_orders params t : keeps I (update_own_orders params t).
Proof. unfold update_own_orders. frame. apply frame_update_price. Qed.

Lemma frame_on_connected params : keeps I (on_connected params).
Proof. unfold on_connected. frame. unfold subscribe_asset. frame. Qed.

Lemma frame_on_complete msg : keeps I (on_complete msg).
Proof. unfold on_complete. frame. Qed.

Lemma frame_on_reload_utxo : keeps I on_reload_utxo.
Proof. unfold on_reload_utxo. frame. Qed.

Lemma frame_on_to to : keeps I (on_to to).
Proof. unfold on_to. frame. Qed.

Lemma frame_check_wallet : keeps I check_wallet.
Proof. unfold check_wallet. frame. Qed.
End Frame.

(** ** Lemmas: decisions *)

(** What an accepted order fulfils. *)
Definition good_order (params : Params) (assets : list Asset) (details : Details)
    (all : AllBalances) (index_prices : gmap DealerTicker PriceTimestamp)
    (interest : f64) : Prop :=
  ∃ asset index_price amount,
    find_asset assets (details_asset details) = Some asset ∧
    index_prices !! asset_ticker asset = Some index_price ∧
    asset_float_amount (details_asset_amount details) (asset_precision asset) = Ok amount ∧
    let actual_price := fdiv amount (to_bitcoin (actual_bitcoin_amount details)) in
    par_bitcoin_amount_min params ≤ details_bitcoin_amount details
      ≤ par_bitcoin_amount_max params ∧
    fleb f1 interest = true ∧ fleb interest (flit 11 10) = true ∧
    (if details_send_bitcoins details
     then fgeb actual_price (fmul (price_pair_ask (pt_price index_price)) interest) = true
     else fleb actual_price (fdiv (price_pair_bid (pt_price index_price)) interest) = true) ∧
    details_bitcoin_amount details ≤
      get_bitcoin_amount all (asset_ticker asset) actual_price
        (details_send_bitcoins details) true.

Lemma take_order_good params assets details all index_prices interest u :
  take_order params assets details all index_prices interest = Ok u →
  good_order params assets details all index_prices interest.
Proof.
  unfold take_order. rewrite !obind_Ok.
  intros ([] & H1%oensure_Ok & ([] & H2%oensure_Ok & H)%obind_Ok).
  apply obind_Ok in H as (asset & Ha%oexpect_Ok & H).
  apply obind_Ok in H as (ticker & Ht & H).
  apply obind_Ok in H as (amount & Hm & H). cbv zeta in H.
  apply obind_Ok in H as ([] & _ & H).
  apply obind_Ok in H as (idx & Hi%ook_or_Ok & H).
  apply obind_Ok in H as (dp & Hd & H).
  apply obind_Ok in H as ([] & Hp & H). destruct u. apply oensure_Ok in H.
  unfold apply_interest in Hd. apply obind_Ok in Hd as ([] & Hr%oassert_Ok & [= <-]).
  apply andb_true_iff in Hr as [Hr1 Hr2].
  assert (ticker = asset_ticker asset) as ->.
  { unfold ticker_from_asset, ticker_from_string in Ht. by case_bool_decide; simplify_eq. }
  exists asset, idx, amount. apply Z.leb_le in H, H1, H2.
  do 3 (split; [done|]). cbv zeta. split_and!; [done|done|done|done| |done].
  simpl in Hp. unfold get_price_pair in Hp.
  destruct (details_send_bitcoins details); by apply oensure_Ok in Hp.
Qed.

Lemma update_utxos_spec `{Foreign} items utxos utxos' :
  update_utxos items utxos = Ok utxos' →
  (∀ k, is_Some (utxos' !! k) ↔ k ∈ (tx_out <$> items)) ∧
  (∀ k u, utxos !! k = Some u → k ∈ (tx_out <$> items) → utxos' !! k = Some u).
Proof.
  unfold update_utxos. intros (m & Hm & [= <-])%obind_Ok.
  assert (∀ k, m !! k = None ↔ utxos !! k = None ∧ k ∉ (tx_out <$> items)) as Hnone.
  { revert utxos Hm. induction items as [|item items IH]; intros utxos; simpl.
    { intros [= <-] k. set_solver. }
    destruct (utxos !! tx_out item) as [u|] eqn:E.
    - intros Hm k. rewrite (IH _ Hm). rewrite not_elem_of_cons. naive_solver.
    - intros (sat & _ & Hm)%obind_Ok k. rewrite (IH _ Hm), lookup_insert_None, not_elem_of_cons.
      naive_solver. }
  assert (∀ k u, utxos !! k = Some u → m !! k = Some u) as Hold.
  { clear Hnone. revert utxos Hm. induction items as [|item items IH]; intros utxos; simpl.
    { by intros [= <-]. }
    destruct (utxos !! tx_out item) as [u|] eqn:E.
    - intros Hm k v Hk. by eapply IH.
    - intros (sat & _ & Hm)%obind_Ok k v Hk. eapply IH; [done|].
      rewrite lookup_insert_ne by congruence. done. }
  assert (∀ k, k ∉ dom utxos ∖ list_to_set (C := gset TxOut) (tx_out <$> items) ↔
            (utxos !! k = None ∨ k ∈ (tx_out <$> items))) as Hk.
  { intros k. rewrite elem_of_difference, elem_of_list_to_set, <- not_elem_of_dom.
    destruct (decide (k ∈ dom utxos)), (decide (k ∈ tx_out <$> items)); naive_solver. }
  split.
  - intros k. split.
    + intros [u [Hu Hn]%map_lookup_filter_Some]. apply Hk in Hn as [Hn|Hn]; [|done].
      destruct (decide (k ∈ tx_out <$> items)) as [|Hni]; [done|].
      by rewrite (proj2 (Hnone k)) in Hu by done.
    + intros Hin. destruct (m !! k) as [u|] eqn:E; [|by apply Hnone in E as []].
      exists u. apply map_lookup_filter_Some. split; [done|]. apply Hk. by right.
  - intros k u Hu Hin. apply map_lookup_filter_Some. split; [by apply Hold|].
    apply Hk. by right.
Qed.

(** A step that only extends the log. *)
Lemma log_ext_run `{DealerEnv} {A} P (m : DealerM A) s s' o :
  keeps (log_ext P (ds_log s)) m → m s = (s', o) →
  ∃ evs, ds_log s' = evs ++ ds_log s ∧ Forall P evs.
Proof.
  intros Hm E. specialize (Hm s). rewrite E in Hm. apply Hm. by exists [].
Qed.

Section Sign.
Context `{DealerEnv} (params : Params).

(** Only [order_id] may be signed. *)
Definition signs_only (order_id : option OrderId) (e : DealerEvent) : Prop :=
  ∀ r, is_sign_request e = Some r → Some (sign_order_id r) = order_id.

Lemma quiet_signs_only id e : quiet e → signs_only id e.
Proof. intros [He _] r. by rewrite He. Qed.

Lemma signs_frame_emit id l0 e : quiet e → keeps (log_ext (signs_only id) l0) (emit e).
Proof. intros He. by apply log_ext_emit, quiet_signs_only. Qed.

Lemma signs_frame_modify id l0 (f : DealerState → DealerState) :
  (∀ s, ds_log (f s) = ds_log s ∧ ds_taken_orders (f s) = ds_taken_orders s) →
  keeps (log_ext (signs_only id) l0) (modify f).
Proof. intros Hf. apply log_ext_modify. apply Hf. Qed.

Lemma sign_pset_order_id data utxos :
  yields (sign_pset data utxos) (λ r, sign_order_id r = sign_ntf_order_id data).
Proof.
  unfold sign_pset. eapply yields_bind; [apply yields_True|]. intros inputs _.
  eapply yields_bind; [apply yields_True|]. intros sigs _. by apply yields_ret.
Qed.

Lemma sign_step_signs_only order utxos l0 :
  let details := sign_ntf_details order in
  keeps (log_ext (signs_only (Some (sign_ntf_order_id order))) l0)
    (let! r := attempt (sign_pset order utxos) in
     let! req := expect_result r "called `Result::unwrap()` on an `Err` value" in
     let! _r := send_request_expect (Request_Sign req) as_Sign "sending signed PSBT failed" in
     modify (λ s, s <| ds_pending_signs ::= <[sign_ntf_order_id order := details]> |>)).
Proof.
  intros details. eapply keeps_bind_yields.
  - apply keeps_attempt, frame_sign_pset; auto using signs_frame_emit, signs_frame_modify.
  - apply yields_attempt, sign_pset_order_id.
  - intros r Hr. eapply (keeps_bind_yields _ _ _
      (λ req, sign_order_id req = sign_ntf_order_id order)).
    + unfold expect_result. keeps.
    + destruct r as [req|e]; [by apply yields_ret|done].
    + intros req Hreq. keeps.
      * apply keeps_send_request_expect. intros resp. apply log_ext_emit.
        intros r' [= <-]. by rewrite Hreq.
      * by apply log_ext_modify.
Qed.

(** [on_sign] by cases on its two decisions. *)
Lemma on_sign_cases order s :
  let details := sign_ntf_details order in
  on_sign params order s =
    match sign_interest params (details_asset details) with
    | Ok interest =>
        match take_order params (ds_assets s) details (ds_all_balances s)
                (ds_index_prices s) interest with
        | Ok _ =>
            (let! r := attempt (sign_pset order (ds_utxos s)) in
             let! req := expect_result r "called `Result::unwrap()` on an `Err` value" in
             let! _r :=
               send_request_expect (Request_Sign req) as_Sign "sending signed PSBT failed" in
             modify (λ s, s <| ds_pending_signs ::= <[sign_ntf_order_id order := details]> |>)) s
        | Err _ => (s, Ok tt)
        | Panic e => (s, Panic e)
        end
    | Err e => (s, Err e)
    | Panic e => (s, Panic e)
    end.
Proof.
  intros details. unfold on_sign. unfold bind at 1, lift at 1. fold details.
  destruct (sign_interest _ _) as [interest| |]; [|done|done].
  unfold bind at 1 2 3, gets at 1 2 3. unfold bind at 1, attempt at 1, lift at 1.
  destruct (take_order _ _ _ _ _ _); done.
Qed.

Lemma on_msg_signs_only msg l0 :
  (∀ order, msg ≠ Msg_Notification (Notification_Sign order)) →
  keeps (log_ext (signs_only None) l0) (on_msg params msg).
Proof.
  pose proof (signs_frame_emit None l0) as F1. pose proof (signs_frame_modify None l0) as F2.
  intros Hne. destruct msg as [to| | | |n|]; simpl.
  - by apply frame_on_to.
  - unfold on_timer, now, try_take_order. keeps; try (by apply F1); try (by apply F2);
      auto using frame_update_own_orders, frame_get_pset, frame_check_wallet.
    + apply keeps_send_request. intros resp. by apply log_ext_emit.
    + by apply log_ext_modify.
  - by apply frame_on_connected.
  - by apply log_ext_modify.
  - destruct n; simpl; try apply keeps_ret; [| |by destruct (Hne a)|by apply frame_on_complete].
    + keeps; [by apply F2|by apply F1].
    + by apply F2.
  - by apply frame_on_reload_utxo.
Qed.
End Sign.

Section Quotes.
Context `{DealerEnv} (params : Params) (l0 : list DealerEvent).

Lemma quotes_frame_emit e : quiet e → keeps (quotes_once l0) (emit e).
Proof. intros [_ He]. by apply quotes_once_emit. Qed.

Lemma quotes_frame_modify (f : DealerState → DealerState) :
  (∀ s, ds_log (f s) = ds_log s ∧ ds_taken_orders (f s) = ds_taken_orders s) →
  keeps (quotes_once l0) (modify f).
Proof. apply quotes_once_modify. Qed.

(** The quote itself: an accepted one is recorded at once. *)
Lemma quote_once r s :
  quotes_once l0 s → pset_taker_order_id r ∉ ds_taken_orders s →
  quotes_once l0
    ((let! addr_result := send_request (Request_PsetTaker r) as_PsetTaker in
      match addr_result with
      | inr _ => ret tt
      | inl _ => modify (λ s, s <| ds_taken_orders ::= union {[ pset_taker_order_id r ]} |>)
      end) s).1.
Proof.
  intros (evs & E & Hnd & Hin) Hni.
  unfold send_request, bind, gets, emit, modify, lift, ret, panic. simpl.
  set (resp := env_server (ds_log s) (Request_PsetTaker r)).
  destruct resp as [[v|e]|]; simpl.
  - destruct (as_PsetTaker v) as [u|] eqn:Hv; simpl;
      exists (Ev_Request (Request_PsetTaker r) (Some (inl v)) :: evs);
      simpl; (split; [by rewrite E|]); destruct v; try done.
    unfold accepted_quotes in *. simpl. split.
    + constructor; [|done]. intros Hi. by apply Hni, Hin.
    + set_solver.
  - exists (Ev_Request (Request_PsetTaker r) (Some (inr e)) :: evs). simpl. by rewrite E.
  - exists (Ev_Request (Request_PsetTaker r) None :: evs). simpl. by rewrite E.
Qed.

Lemma get_pset_order_id id details utxos extra :
  yields (get_pset params id details utxos extra) (λ r, pset_maker_order_id r = id).
Proof.
  unfold get_pset. do 5 (eapply yields_bind; [apply yields_True|]; intros ? _).
  by apply yields_ret.
Qed.

Lemma try_take_order_once order : keeps (quotes_once l0) (try_take_order params order).
Proof.
  set (id := order_created_order_id order). set (details := order_created_details order).
  intros s Hs. unfold try_take_order. unfold bind at 1, gets at 1. cbn -[bind attempt].
  fold id. case_bool_decide as Hid; [done|].
  set (I := λ s, quotes_once l0 s ∧ id ∉ ds_taken_orders s).
  assert (∀ e, quiet e → keeps I (emit e)) as F1.
  { intros e He s1 [H1 H2]. split; [by apply quotes_frame_emit|done]. }
  assert (∀ f : DealerState → DealerState,
    (∀ s, ds_log (f s) = ds_log s ∧ ds_taken_orders (f s) = ds_taken_orders s) →
    keeps I (modify f)) as F2.
  { intros f Hf s1 [H1 H2]. split; [by apply quotes_frame_modify|]. simpl.
    by destruct (Hf s1) as [_ ->]. }
  assert (∀ s, I s → quotes_once l0 s) as HI by (by intros s1 []).
  assert (I s) as Hs' by done. clear Hs Hid. revert s Hs'.
  match goal with |- ∀ s, I s → quotes_once l0 (?m s).1 => change (triple I m (quotes_once l0)) end.
  eapply triple_bind; [done|keeps|apply yields_True|intros interest _].
  do 4 (eapply triple_bind; [done|keeps|apply yields_True|intros ? _]).
  destruct a2 as [u|e]; [|by apply triple_keeps; [|keeps]].
  eapply triple_bind; [done|keeps|apply yields_True|intros utxos _].
  eapply triple_bind;
    [done|by apply keeps_attempt, frame_get_pset|apply yields_attempt, get_pset_order_id|].
  intros [req|e] Hreq; [|by apply triple_keeps; [|keeps]].
  intros s [H1 H2]. fold id in Hreq. rewrite <- Hreq in H2 |- *.
  by apply (quote_once {| pset_taker_order_id := pset_maker_order_id req |}).
Qed.

Lemma on_msg_once msg :
  msg ≠ Msg_Disconnected → keeps (quotes_once l0) (on_msg params msg).
Proof.
  pose proof quotes_frame_emit as F1. pose proof quotes_frame_modify as F2.
  intros Hne. destruct msg as [to| | | |n|]; simpl; [| | |done| |].
  - by apply frame_on_to.
  - unfold on_timer, now. keeps; try (by apply F1); try (by apply F2);
      auto using frame_update_own_orders, frame_check_wallet, try_take_order_once.
  - by apply frame_on_connected.
  - destruct n; simpl; try apply keeps_ret.
    + keeps; [by apply F2|by apply F1].
    + by apply F2.
    + unfold on_sign, expect_result. keeps; try (by apply F2); try (by apply frame_sign_pset).
      apply keeps_send_request_expect. intros resp. by apply quotes_once_emit.
    + by apply frame_on_complete.
  - by apply frame_on_reload_utxo.
Qed.
End Quotes.

(** ** Lemmas: inputs *)

(** The input built from a utxo. *)
Definition input_of_utxo (send_asset : AssetId) (utxo : Utxo) (input : PsetInput) : Prop :=
  pset_input send_asset (utxo_amount utxo) utxo = Ok input.

Lemma pset_inputs_loop_spec send_asset selected (utxos : list Utxo) acc :
  selected ⊆+ utxo_amount <$> utxos →
  Forall (λ u, is_Some (ui_amountblinder (utxo_item u)) ∧
               is_Some (ui_assetblinder (utxo_item u))) utxos →
  ∃ picked rest inputs,
    pset_inputs_loop selected utxos send_asset acc = Ok (acc ++ inputs) ∧
    utxos ≡ₚ picked ++ rest ∧ utxo_amount <$> picked = selected ∧
    Forall2 (input_of_utxo send_asset) picked inputs.
Proof.
  revert utxos acc. induction selected as [|a sel IH]; intros utxos acc Hsub Hbl.
  { exists [], utxos, []. rewrite app_nil_r. by repeat split. }
  cbn [pset_inputs_loop]. assert (a ∈ utxo_amount <$> utxos) as Hin.
  { apply (elem_of_submseteq (a :: sel)); [set_solver|done]. }
  apply list_elem_of_fmap in Hin as (u & Ea & Hin).
  destruct (position_is_Some (λ v, utxo_amount v =? a) utxos _ Hin) as [i Hi];
    [by rewrite Ea; apply Z.eqb_refl|].
  rewrite Hi. cbn [oexpect obind]. apply position_Some in Hi as (w & Hlk & Hw%Z.eqb_eq).
  destruct (swap_remove_is_Some i utxos) as [[v rest] Hsr]; [by eexists|].
  rewrite Hsr. cbn [oexpect obind]. assert (v = w) as ->.
  { unfold swap_remove in Hsr. rewrite Hlk in Hsr. destruct (pop_last utxos) as [[]|]; congruence. }
  apply swap_remove_perm in Hsr. rewrite Hsr in Hbl. clear Ea. subst a.
  apply Forall_cons in Hbl as [[[vbf Hv] [abf Ha]] Hbl].
  destruct (pset_input send_asset (utxo_amount w) w) as [input| |] eqn:Hp;
    [|unfold pset_input in Hp; by rewrite Ha, Hv in Hp..].
  cbn [obind]. destruct (IH rest (acc ++ [input])) as (pk & rs & ins & E & Hpk & Hf & H2); [|done|].
  { apply (submseteq_app_inv_l _ _ [utxo_amount w]). cbn [app].
    assert (utxo_amount <$> utxos ≡ₚ utxo_amount w :: (utxo_amount <$> rest)) as <-;
      [by rewrite Hsr|done]. }
  rewrite E. exists (w :: pk), rs, (input :: ins). split; [by rewrite <- app_assoc|].
  split; [by rewrite Hsr, Hpk|]. split; [by rewrite fmap_cons, Hf|].
  constructor; [done|done].
Qed.

Lemma asset_utxos_blinders utxos a :
  Forall (λ u, is_Some (ui_amountblinder (utxo_item u)) ∧
               is_Some (ui_assetblinder (utxo_item u))) (asset_utxos utxos a).
Proof.
  apply Forall_forall. intros u Hu. unfold asset_utxos in Hu.
  apply list_elem_of_filter in Hu as ((_ & H1 & H2) & _). done.
Qed.

(** Three per cent more is more, also after rounding. *)
Lemma utxo_target_bounds details send_amount total extra :
  0 < send_amount ≤ max_money → send_amount ≤ total →
  send_amount ≤ utxo_target details send_amount total extra ≤ total.
Proof.
  intros Hs Ht. unfold utxo_target. destruct (_ && _); [|lia].
  set (c := fadd f1 EXTRA_ASSET_UTXO_FRACTION).
  assert (∃ q, fnorm c q ∧ (102 # 100 <= q)%Q ∧ (q <= 104 # 100)%Q) as (q & Hc & Hq1 & Hq2).
  { exists (QArith_base.inject_Z 4638707616191611 * pow2 (-52))%Q. split; [|by vm_compute].
    exists 4638707616191611%positive, (-52). by vm_compute. }
  pose proof (f64_of_Z_spec send_amount ltac:(unfold max_money in Hs; lia)) as Hn.
  unfold max_money in Hs. set (n := inject_Z send_amount) in *.
  assert (1 <= n)%Q as Hn1 by (change 1%Q with (inject_Z 1); unfold n; rewrite <- Zle_Qle; lia).
  assert (n <= 2100000000000000 # 1)%Q as Hn2
    by (change (2100000000000000 # 1)%Q with (inject_Z (21 * 10 ^ 14)); unfold n;
        rewrite <- Zle_Qle; lia).
  assert (n * (102 # 100) <= n * q)%Q as P1 by (apply Qmult_le_compat_nonneg; lra).
  assert (n * q <= n * (104 # 100))%Q as P2 by (apply Qmult_le_compat_nonneg; lra).
  destruct (fmul_spec _ _ _ _ Hn Hc) as (r & Hr & Hb).
  { apply mid_range_between; [lra|].
    assert (inject_Z (10 ^ 30) == 1000000000000000000000000000000 # 1)%Q as -> by reflexivity. lra. }
  apply Qabs_bound in Hb as [Hb1 Hb2]. unfold ulp53 in *. set (t := (n * q)%Q) in *.
  pose proof (round_i64_spec _ _ Hr) as HR. apply Qabs_bound in HR as [HR1 HR2].
  2:{ change (inject_Z (2 ^ 52)) with (4503599627370496 # 1). lra. }
  set (k := round_i64 (fmul (f64_of_Z send_amount) c)) in *.
  assert (send_amount - 1 < k); [|lia].
  rewrite Zlt_Qlt. unfold Z.sub. rewrite inject_Z_plus, inject_Z_opp. change (inject_Z 1) with 1%Q. fold n.
  lra.
Qed.

(** ** A concrete environment and state *)

Module Sample.
#[local] Existing Instance hex_ids.

(** A server that accepts everything it is asked, and a wallet without
    surprises. *)
Definition server (log : list DealerEvent) (r : Request) : option (Response + Error) :=
  match r with
  | Request_PsetTaker _ => Some (inl (Response_PsetTaker tt))
  | Request_Sign _ => Some (inl (Response_Sign tt))
  | Request_Cancel _ => Some (inl (Response_Cancel tt))
  | _ => None
  end.

Definition foreign : Foreign := {|
  foreign_ids := hex_ids;
  signed_amount_from_str s := Some 0;
  pset_inputs s := Ok [];
  private_key_from_str s := Ok s;
  value_commitment_from_str s := Some s;
  pset_finalize s sigs := s
|}.

Definition env : DealerEnv := {|
  env_foreign := foreign;
  env_server := server;
  env_new_address log := inl "address";
  env_list_unspent log := inl [];
  env_dumpprivkey log addr := inl "key";
  env_wallet_info log := inr "unavailable";
  env_now log := 0
|}.

Definition params : Params := {|
  par_env := Env_Testnet;
  par_interest_submit_usdt := flit 10075 10000;
  par_interest_sign_usdt := flit 10050 10000;
  par_interest_submit_eurx := flit 10040 10000;
  par_interest_sign_eurx := flit 10025 10000;
  par_tickers := {[ DEALER_USDT ]};
  par_bitcoin_amount_submit := 1000000;
  par_bitcoin_amount_min := 100000;
  par_bitcoin_amount_max := 10000000
|}.

Definition usdt : Asset := {|
  asset_asset_id := usdt_asset Env_Testnet;
  asset_name := "Tether USD";
  asset_ticker := TICKER_USDT;
  asset_icon := None;
  asset_precision := 8;
  asset_icon_url := None;
  asset_instant_swaps := None;
  asset_domain := None;
  asset_domain_agent := None;
  asset_always_show := None;
  asset_issuance_prevout := None;
  asset_issuer_pubkey := None;
  asset_contract := None
|}.

(** 0.01 bitcoin for 520 USDt when the index is 50000 / 50100. *)
Definition details : Details := {|
  details_asset := usdt_asset Env_Testnet;
  details_bitcoin_amount := 1000000;
  details_asset_amount := 52000000000;
  details_price := f64_of_Z 52000;
  details_server_fee := 1000;
  details_side := OrderSide_Maker;
  details_send_bitcoins := true;
  details_order_type := OrderType_Bitcoin;
  details_market := MarketType_Stablecoin;
  details_two_step := None
|}.

Definition utxo : Utxo := {|
  utxo_item := {|
    ui_txid := [1]; ui_vout := 0; ui_address := "a"; ui_amount := "0.05";
    ui_confirmations := 1; ui_asset := policy_asset Env_Testnet; ui_script_pub_key := "s";
    ui_redeem_script := None; ui_assetblinder := Some "ab"; ui_amountblinder := Some "vb";
    ui_assetcommitment := None; ui_amountcommitment := Some "vc" |};
  utxo_amount := 5000000
|}.

Definition order : OrderCreatedNotification := {|
  order_created_order_id := [7];
  order_created_details := details;
  order_created_created_at := 0;
  order_created_expires_at := None;
  order_created_two_step := false;
  order_created_own := None
|}.

Definition state : DealerState :=
  (init_state params 0)
    <| ds_assets := [usdt] |>
    <| ds_utxos := {[ ([1], 0) := utxo ]} |>
    <| ds_orders := {[ [7] := order ]} |>
    <| ds_all_balances := {| ab_wallet := {[ DEALER_LBTC := flit 5 100 ]};
                             ab_max_send := ∅; ab_max_recv := ∅ |} |>
    <| ds_index_prices := {[ DEALER_USDT :=
         {| pt_price := {| price_pair_bid := f64_of_Z 50000; price_pair_ask := f64_of_Z 50100 |};
            pt_timestamp := 0 |} ]} |>.

Definition sign_ntf : SignNotification := {|
  sign_ntf_order_id := [7];
  sign_ntf_pset := "pset";
  sign_ntf_details := details;
  sign_ntf_nonces := None
|}.

Definition sign_req : SignRequest := {|
  sign_order_id := [7];
  sign_signed_pset := "pset";
  sign_side := OrderSide_Maker
|}.
End Sample.

#[local] Existing Instance Sample.env.

(** ** Properties *)

(** C18: the dealer signs nothing but good deals.  If handling a message sends a
    signature to the server, the message is the server's request to sign that very
    order, the order's amount lies between the configured bounds and within the
    balances, and its price is at least as good for the dealer as the index price
    with the sign interest. *)
Theorem dealer_signs_only_good_orders `{DealerEnv} params msg s evs r resp :
  ds_log (on_msg params msg s).1 = evs ++ ds_log s →
  Ev_Request (Request_Sign r) resp ∈ evs →
  ∃ order interest,
    msg = Msg_Notification (Notification_Sign order) ∧
    sign_order_id r = sign_ntf_order_id order ∧
    sign_interest params (details_asset (sign_ntf_details order)) = Ok interest ∧
    good_order params (ds_assets s) (sign_ntf_details order) (ds_all_balances s)
      (ds_index_prices s) interest.
Proof.
  intros Hlog Hin.
  assert (∀ id, log_ext (signs_only id) (ds_log s) (on_msg params msg s).1 →
            Some (sign_order_id r) = id) as Honly.
  { intros id (evs' & E & HP). rewrite Hlog in E. apply app_inv_tail in E as <-.
    eapply Forall_forall in HP; [|done]. by apply HP. }
  assert (∀ id, log_ext (signs_only id) (ds_log s) s) as Hrefl by (intros id; by exists []).
  assert ((∃ order, msg = Msg_Notification (Notification_Sign order)) ∨
          (∀ order, msg ≠ Msg_Notification (Notification_Sign order))) as [[order ->]|Hn].
  { destruct msg as [| | | |[]|]; try (by right); left; by eexists. }
  2:{ exfalso. enough (Some (sign_order_id r) = None) by done. apply Honly.
      by apply on_msg_signs_only. }
  cbn [on_msg on_notification] in *. rewrite (on_sign_cases params order s) in Honly.
  destruct (sign_interest params (details_asset (sign_ntf_details order))) as [interest| |] eqn:Hi;
    [|by specialize (Honly None (Hrefl None))..].
  destruct (take_order params (ds_assets s) (sign_ntf_details order) (ds_all_balances s)
              (ds_index_prices s) interest) as [u| |] eqn:Ht;
    [|by specialize (Honly None (Hrefl None))..].
  exists order, interest. split; [done|]. split; [|split; [done|by eapply take_order_good]].
  apply (inj Some), Honly. by apply (sign_step_signs_only order).
Qed.

Lemma dealer_signs_only_good_orders_witness :
  ∃ order interest,
    Msg_Notification (Notification_Sign Sample.sign_ntf)
      = Msg_Notification (Notification_Sign order) ∧
    sign_order_id Sample.sign_req = sign_ntf_order_id order ∧
    sign_interest Sample.params (details_asset (sign_ntf_details order)) = Ok interest ∧
    good_order Sample.params (ds_assets Sample.state) (sign_ntf_details order)
      (ds_all_balances Sample.state) (ds_index_prices Sample.state) interest.
Proof.
  apply (dealer_signs_only_good_orders Sample.params
    (Msg_Notification (Notification_Sign Sample.sign_ntf)) Sample.state
    [Ev_Request (Request_Sign Sample.sign_req) (Some (inl (Response_Sign tt)))]
    Sample.sign_req (Some (inl (Response_Sign tt)))).
  - vm_compute. reflexivity.
  - by apply list_elem_of_singleton.
Defined.

(** C27: the dealer quotes an order at most once: while the connection lasts, the
    server never accepts two quotes of the dealer for the same order, whatever
    messages arrive and whatever wallet and server answer. *)
Theorem dealer_quotes_once `{DealerEnv} params msgs s :
  Msg_Disconnected ∉ msgs →
  ∃ evs, ds_log (run_dealer params msgs s).1 = evs ++ ds_log s ∧ NoDup (accepted_quotes evs).
Proof.
  intros Hmsgs. cut (quotes_once (ds_log s) (run_dealer params msgs s).1).
  { intros (evs & E & Hnd & _). by exists evs. }
  apply (keeps_for_each (quotes_once (ds_log s)) msgs (on_msg params)).
  - intros msg Hin. apply on_msg_once. by intros ->.
  - exists []. split; [done|]. split; [constructor|set_solver].
Qed.

Lemma dealer_quotes_once_witness :
  ∃ evs, ds_log (run_dealer Sample.params [Msg_Timer; Msg_Timer] Sample.state).1
           = evs ++ ds_log Sample.state ∧ NoDup (accepted_quotes evs).
Proof.
  apply (dealer_quotes_once Sample.params [Msg_Timer; Msg_Timer] Sample.state).
  set_solver.
Defined.

(** For an order the wallet can pay, input selection succeeds: it takes distinct
    outputs of the asset to be sent, whose blinding factors are known, passes each
    with its own value and factors, and together they are worth at least what is
    sent. *)
Theorem dealer_inputs_cover params details utxos extra :
  let asset := (send_side params details).1 in
  let amount := (send_side params details).2 in
  Forall (λ u, 0 < utxo_amount u) (asset_utxos utxos asset) →
  0 < amount ≤ max_money →
  amount ≤ zsum (utxo_amount <$> asset_utxos utxos asset) ≤ i64_max →
  ∃ picked rest inputs,
    select_inputs params details utxos extra = Ok inputs ∧
    asset_utxos utxos asset ≡ₚ picked ++ rest ∧
    Forall2 (input_of_utxo asset) picked inputs ∧
    amount ≤ zsum (utxo_amount <$> picked).
Proof.
  intros asset amount Hpos Ham Hsum. unfold select_inputs.
  rewrite (surjective_pairing (send_side params details)). fold asset amount.
  set (us := asset_utxos utxos asset) in *.
  assert (Forall (λ x, 0 < x) (utxo_amount <$> us)) as Hpos' by (by apply Forall_fmap).
  rewrite wsum_zsum by (done || lia).
  destruct (Z.leb_spec amount (zsum (utxo_amount <$> us))); [|lia]. cbn [oensure obind].
  pose proof (utxo_target_bounds details amount _ extra Ham ltac:(exact H)) as Ht.
  set (target := utxo_target _ _ _ _) in *.
  destruct (select_utxo_spec (utxo_amount <$> us) target) as (r & E & Hsub & Hge & _);
    [done|lia|lia|].
  rewrite E. cbn [obind].
  destruct (pset_inputs_loop_spec asset r us [] Hsub (asset_utxos_blinders _ _))
    as (pk & rest & inputs & E2 & Hp & Hf & H2).
  exists pk, rest, inputs. rewrite E2, Hf. split_and!; [done|done|done|lia].
Qed.

Lemma dealer_inputs_cover_witness :
  ∃ picked rest inputs,
    select_inputs Sample.params Sample.details (ds_utxos Sample.state) false = Ok inputs ∧
    asset_utxos (ds_utxos Sample.state) (@policy_asset hex_ids Env_Testnet) ≡ₚ picked ++ rest ∧
    Forall2 (input_of_utxo (@policy_asset hex_ids Env_Testnet)) picked inputs ∧
    1001000 ≤ zsum (utxo_amount <$> picked).
Proof.
  apply (dealer_inputs_cover Sample.params Sample.details (ds_utxos Sample.state) false).
  - vm_compute. repeat constructor.
  - vm_compute. split; [reflexivity|discriminate].
  - vm_compute. split; discriminate.
Defined.

(** Reloading the wallet's outputs makes the dealer's table exactly the outputs
    the node reported: consumed ones are dropped, new ones added, and entries that
    stay are untouched. *)
Theorem dealer_utxos_track_wallet `{Foreign} items utxos utxos' :
  update_utxos items utxos = Ok utxos' →
  (∀ k, is_Some (utxos' !! k) ↔ k ∈ (tx_out <$> items)) ∧
  (∀ k u, utxos !! k = Some u → k ∈ (tx_out <$> items) → utxos' !! k = Some u).
Proof. apply update_utxos_spec. Qed.

Lemma dealer_utxos_track_wallet_witness :
  let items := [utxo_item Sample.utxo] in
  let utxos' := {[ ([1], 0) := {| utxo_item := utxo_item Sample.utxo; utxo_amount := 0 |} ]} in
  (∀ k, is_Some ((utxos' : gmap TxOut Utxo) !! k) ↔ k ∈ (tx_out <$> items)) ∧
  (∀ k u, ({[ ([2], 0) := Sample.utxo ]} : gmap TxOut Utxo) !! k = Some u →
          k ∈ (tx_out <$> items) → (utxos' : gmap TxOut Utxo) !! k = Some u).
Proof.
  apply (dealer_utxos_track_wallet [utxo_item Sample.utxo] {[ ([2], 0) := Sample.utxo ]}).
  vm_compute. reflexivity.
Defined.

(** When a signed swap completes with a transaction, the dealer reports it
    exactly once for hedging, with the bitcoin amount the dealer really sent or
    received (server fee included) and the direction; when it fails nothing is
    reported.  Either way the order is no longer pending. *)
Theorem dealer_complete_reports `{DealerEnv} msg details asset s :
  let id := complete_order_id msg in
  ds_pending_signs s !! id = Some details →
  find_asset (ds_assets s) (details_asset details) = Some asset →
  ticker_from_asset asset = Ok (asset_ticker asset) →
  ∃ s', on_complete msg s = (s', Ok tt) ∧ ds_pending_signs s' = delete id (ds_pending_signs s) ∧
    (∀ key own, ds_own_orders s' !! key = Some (Some own) → own_order_id own ≠ id) ∧
    ds_log s' =
      match complete_txid msg with
      | None => []
      | Some txid =>
          [Ev_From (From_Swap
            {| swap_succeed_txid := txid;
               swap_succeed_ticker := asset_ticker asset;
               swap_succeed_bitcoin_amount := actual_bitcoin_amount details;
               swap_succeed_send_bitcoins := details_send_bitcoins details |})]
      end ++ ds_log s.
Proof.
  intros id Hp Ha Ht. unfold on_complete. cbv zeta. fold id.
  assert (∀ key own, (forget_own id <$> ds_own_orders s) !! key = Some (Some own) →
            own_order_id own ≠ id) as Hown.
  { intros key own. rewrite lookup_fmap_Some. intros (o & Ho & _). unfold forget_own in Ho.
    case_bool_decide as Hb; [done|]. intros <-. apply Hb. by rewrite Ho. }
  unfold bind, modify, gets, expect, lift, attempt. cbn.
  destruct (complete_txid msg) as [txid|]; cbn.
  - rewrite_field Hp. cbn. unfold find_asset in Ha. rewrite_field Ha. cbn. rewrite Ht. eexists. split; [reflexivity|]. done.
  - eexists. split; [reflexivity|]. done.
Qed.

Lemma dealer_complete_reports_witness :
  let s := Sample.state <| ds_pending_signs := {[ [7] := Sample.details ]} |> in
  let msg := {| complete_order_id := [7]; complete_txid := Some [9] |} in
  ∃ s', on_complete msg s = (s', Ok tt) ∧ ds_pending_signs s' = delete [7] (ds_pending_signs s) ∧
    (∀ key own, ds_own_orders s' !! key = Some (Some own) → own_order_id own ≠ [7]) ∧
    ds_log s' =
      [Ev_From (From_Swap
        {| swap_succeed_txid := [9];
           swap_succeed_ticker := TICKER_USDT;
           swap_succeed_bitcoin_amount := 1001000;
           swap_succeed_send_bitcoins := true |})] ++ ds_log s.
Proof.
  intros s msg. apply (dealer_complete_reports msg Sample.details Sample.usdt s).
  - reflexivity.
  - reflexivity.
  - reflexivity.
Defined.
