(* ===== verification/DealerWs.v ===== *)
(** * Dealers that get their prices from elsewhere

    Two programs around the dealer worker: rust/sideswap_dealer_ws/src/main.rs, where
    clients of a WebSocket server set the prices, and rust/sideswap_dealer_example/src,
    which downloads them.  The tasks of the server run on one thread and are interleaved
    where they wait; the worker has a thread of its own.  So the whole program is run on a
    list of what happens next: a client connects or sends, a task goes on, the worker
    takes a message, the main thread hands on what the worker said. *)
From stdpp Require Import base numbers gmap strings list sets.
From Stdlib Require Import ZArith Lia SpecFloat.
From S2P Require Import Prelude F64 Api Links Types Env Dealer.

Open Scope Z_scope.
#[local] Set Primitive Projections.

(** ** Settings *)

(** Of both programs; the example has no server. *)
Record DealerSettings := {
  set_env : Env;
  set_ws_secret : string;
  set_bitcoin_amount_submit : f64;
  set_bitcoin_amount_max : f64;
  set_bitcoin_amount_min : f64;
  set_interest_submit : f64;
  set_interest_sign : f64
}.

Definition dealer_params (settings : DealerSettings) : Params := {|
  par_env := set_env settings;
  par_interest_submit_usdt := set_interest_submit settings;
  par_interest_sign_usdt := set_interest_sign settings;
  par_interest_submit_eurx := set_interest_submit settings;
  par_interest_sign_eurx := set_interest_sign settings;
  par_tickers := {[DEALER_USDT]};
  par_bitcoin_amount_submit := from_bitcoin (set_bitcoin_amount_submit settings);
  par_bitcoin_amount_min := from_bitcoin (set_bitcoin_amount_min settings);
  par_bitcoin_amount_max := from_bitcoin (set_bitcoin_amount_max settings)
|}.

(** The limits of the balances, sent before anything else. *)
Definition initial_limits (settings : DealerSettings) : list To :=
  (λ recv_limit, To_LimitBalance {| limit_ticker := DEALER_LBTC; limit_recv_limit := recv_limit;
                                    limit_balance := set_bitcoin_amount_max settings |}) <$> [true; false].

(** ** The server *)

(** The first message of a client. *)
Inductive StartRequest := Authorize (secret : string).

(** A client of the server, by its connection. *)
Abbreviation Peer := nat (only parsing).

(** A connection waits for the first message, reads, or is over. *)
Inductive ConnPhase := Conn_starting | Conn_reading | Conn_over.

Inductive BridgeEvent :=
  | Bridge_authorized (peer : Peer)
  | Bridge_to_dealer (peer : Peer) (msg : To)
  | Bridge_to_client (peer : Peer) (text : string).

(** [sinks] are the clients the worker's messages go to; a client's writer stops when it
    cannot send. *)
Record Bridge := {
  br_conns : gmap Peer ConnPhase;
  br_writers : gset Peer;
  br_sinks : list Peer;
  br_log : list BridgeEvent
}.

(** What happens next to a task of the server. *)
Inductive BridgeInput :=
  | Br_accept (peer : Peer)
  | Br_message (peer : Peer) (msg : option (Frame + string))
  | Br_writer_failed (peer : Peer).

Class BridgeEnv := {
  (** JSON *)
  parse_start : Frame → outcome StartRequest;
  parse_to : Frame → To + string;
  error_text : string → string;
  from_text : From → string
}.

(** The whole program: the channels to the worker and from it, of which the main thread
    handed on so many messages. *)
Record WsDealer := {
  wd_bridge : Bridge;
  wd_to : list To;
  wd_dealer : DealerState;
  wd_forwarded : nat
}.

Inductive WsDealerInput :=
  | Wd_bridge (i : BridgeInput)
  | Wd_take
  | Wd_dealer (msg : DealerMsg)
  | Wd_forward.

Section DealerWs.
Context `{DealerEnv} `{BridgeEnv} (settings : DealerSettings).

Definition WdM : Type → Type := M WsDealer.

Definition on_bridge (f : Bridge → Bridge) : WdM unit := modify (λ s, s <| wd_bridge ::= f |>).
Definition br_emit (e : BridgeEvent) : WdM unit := on_bridge (λ b, b <| br_log ::= cons e |>).
Definition set_conn (peer : Peer) (phase : ConnPhase) : WdM unit :=
  on_bridge (λ b, b <| br_conns ::= <[peer := phase]> |>).

(** [dealer_tx.send(msg).unwrap()] *)
Definition dealer_send (peer : Peer) (msg : To) : WdM unit :=
  do! br_emit (Bridge_to_dealer peer msg) in
  modify (λ s, s <| wd_to ::= λ l, l ++ [msg] |>).

(** [send_tx.send(text)], which fails when the writer is gone. *)
Definition client_send (peer : Peer) (text : string) : WdM bool :=
  let! writers := gets (λ s, br_writers (wd_bridge s)) in
  if bool_decide (peer ∈ writers) then
    do! br_emit (Bridge_to_client peer text) in ret true
  else ret false.

(** The end of [handle_connection], after [read_loop]. *)
Definition end_connection (peer : Peer) : WdM unit :=
  do! on_bridge (λ b, b <| br_sinks ::= List.filter (λ v, negb (Nat.eqb v peer)) |>) in
  do! dealer_send peer To_ResetPrices in
  set_conn peer Conn_over.

(** The start of [handle_connection]: with anything but the secret the connection is over. *)
Definition start_connection (peer : Peer) (msg : option (Frame + string)) : WdM unit :=
  let start :=
    match msg with
    | Some (inl ((Frame_Text _ | Frame_Binary _) as frame)) => parse_start frame
    | Some (inl _) => Err "expecting authorize request"
    | Some (inr e) => Err e
    | None => Err "no login request received"
    end in
  match start with
  | Ok (Authorize secret_user) =>
      if String.eqb (set_ws_secret settings) secret_user then
        do! br_emit (Bridge_authorized peer) in
        do! on_bridge (λ b, b <| br_writers ::= union {[peer]} |> <| br_sinks ::= λ l, l ++ [peer] |>) in
        set_conn peer Conn_reading
      else set_conn peer Conn_over
  | _ => set_conn peer Conn_over
  end.

(** A round of [read_loop]. *)
Definition read_message (peer : Peer) (msg : option (Frame + string)) : WdM unit :=
  match msg with
  | None | Some (inr _) => end_connection peer
  | Some (inl ((Frame_Text _ | Frame_Binary _) as frame)) =>
      match parse_to frame with
      | inl v => dealer_send peer v
      | inr e =>
          let! sent := client_send peer (error_text e) in
          if sent : bool then ret tt else end_connection peer
      end
  | Some (inl _) => ret tt
  end.

Definition bridge_step (i : BridgeInput) : WdM unit :=
  match i with
  | Br_accept peer =>
      let! conns := gets (λ s, br_conns (wd_bridge s)) in
      match conns !! peer with None => set_conn peer Conn_starting | Some _ => ret tt end
  | Br_message peer msg =>
      let! conns := gets (λ s, br_conns (wd_bridge s)) in
      match conns !! peer with
      | Some Conn_starting => start_connection peer msg
      | Some Conn_reading => read_message peer msg
      | _ => ret tt
      end
  | Br_writer_failed peer => on_bridge (λ b, b <| br_writers ::= λ w, w ∖ {[peer]} |>)
  end.

(** ** The program *)

(** What the worker said so far, oldest first. *)
Definition said (log : list DealerEvent) : list From :=
  omap (λ e, match e with Ev_From m => Some m | _ => None end) (reverse log).

(** [sinks.retain(|sink| sink.send(msg.clone()).is_ok())] *)
Definition broadcast (text : string) : WdM unit :=
  modify (λ s,
    let b := wd_bridge s in
    let sinks := List.filter (λ peer, bool_decide (peer ∈ br_writers b)) (br_sinks b) in
    s <| wd_bridge := b <| br_sinks := sinks |>
                        <| br_log ::= λ log, reverse ((λ peer, Bridge_to_client peer text) <$> sinks) ++ log |> |>).

Definition on_dealer (m : DealerM unit) : WdM unit := λ s,
  let '(d, r) := m (wd_dealer s) in (s <| wd_dealer := d |>, r).

(** A message of the clients is taken from their channel; the others come from the
    worker's own threads. *)
Definition wd_step (i : WsDealerInput) : WdM unit :=
  match i with
  | Wd_bridge i => bridge_step i
  | Wd_take =>
      let! to := gets wd_to in
      match to with
      | [] => ret tt
      | msg :: to =>
          do! modify (λ s, s <| wd_to := to |>) in
          on_dealer (on_msg (dealer_params settings) (Msg_To msg))
      end
  | Wd_dealer (Msg_To _) => ret tt
  | Wd_dealer msg => on_dealer (on_msg (dealer_params settings) msg)
  | Wd_forward =>
      let! n := gets wd_forwarded in
      let! msgs := gets (λ s, said (ds_log (wd_dealer s))) in
      match msgs !! n with
      | None => ret tt
      | Some msg =>
          do! modify (λ s, s <| wd_forwarded := S n |>) in
          broadcast (from_text msg)
      end
  end.

Definition wd_initial (t : Z) : WsDealer := {|
  wd_bridge := {| br_conns := ∅; br_writers := ∅; br_sinks := []; br_log := [] |};
  wd_to := initial_limits settings;
  wd_dealer := init_state (dealer_params settings) t;
  wd_forwarded := 0
|}.

Definition run_dealer_ws (inputs : list WsDealerInput) : WdM unit := for_each inputs wd_step.
End DealerWs.

(** ** The example *)

Class PriceEnv := {
  (** the body of the answer of [TICKER_ENDPOINT], and its JSON *)
  ticker_body : nat → string + string;
  parse_price_items : string → gmap string f64 + string
}.

Section Example.
Context `{PriceEnv}.

Definition TICKER_ENDPOINT : string := "https://blockchain.info/ticker".

Definition get_bitcoin_last_usd_price (msg : string) : f64 + string :=
  match parse_price_items msg with
  | inr e => inr e
  | inl items =>
      match items !! "USD" with
      | Some v => inl v
      | None => inr "can't find USD price"
      end
  end.

Definition download_bitcoin_last_usd_price (turn : nat) : f64 + string :=
  match ticker_body turn with
  | inr e => inr e
  | inl body => get_bitcoin_last_usd_price body
  end.

(** What a turn of the thread sends to the worker. *)
Definition price_turn (turn : nat) : option To :=
  match download_bitcoin_last_usd_price turn with
  | inl v =>
      Some (To_Price {| to_price_ticker := DEALER_USDT;
                        to_price_price := Some {| price_pair_bid := v; price_pair_ask := v |} |})
  | inr _ => None
  end.

(** All it sends in so many turns, after the limits. *)
Definition example_messages (settings : DealerSettings) (turns : nat) : list To :=
  initial_limits settings ++ omap price_turn (seq 0 turns).
End Example.

(** ** Who speaks, and to whom *)

Section Authorized.
Context `{DealerEnv} `{BridgeEnv} (settings : DealerSettings).
Implicit Types s : WsDealer.

(** Those whose authorization is in a log. *)
Definition authorized (peer : Peer) (log : list BridgeEvent) : Prop := Bridge_authorized peer ∈ log.

(** Nothing was taken from a client or given to one before it was authorized. *)
Fixpoint trusted (log : list BridgeEvent) : Prop :=
  match log with
  | [] => True
  | (Bridge_to_dealer peer _ | Bridge_to_client peer _) :: log => authorized peer log ∧ trusted log
  | Bridge_authorized _ :: log => trusted log
  end.

(** The messages of the clients, oldest first. *)
Definition client_messages (log : list BridgeEvent) : list To :=
  omap (λ e, match e with Bridge_to_dealer _ msg => Some msg | _ => None end) (reverse log).

Definition reading (peer : Peer) s : Prop := br_conns (wd_bridge s) !! peer = Some Conn_reading.

#[global] Arguments client_messages : simpl never.
#[global] Arguments initial_limits : simpl never.

(** What a connection that is accepted sends first. *)
Fixpoint first_message (peer : Peer) (accepted : bool) (inputs : list WsDealerInput)
    : option (option (Frame + string)) :=
  match inputs with
  | [] => None
  | Wd_bridge (Br_accept p) :: inputs => first_message peer (accepted || Nat.eqb p peer) inputs
  | Wd_bridge (Br_message p msg) :: inputs =>
      if accepted && Nat.eqb p peer then Some msg else first_message peer accepted inputs
  | _ :: inputs => first_message peer accepted inputs
  end.

(** A text or binary message with the secret. *)
Definition greets (msg : option (Frame + string)) : Prop :=
  match msg with
  | Some (inl ((Frame_Text _ | Frame_Binary _) as frame)) =>
      parse_start frame = Ok (Authorize (set_ws_secret settings))
  | _ => False
  end.

(** A client whose first message was the secret. *)
Definition presented (inputs : list WsDealerInput) (peer : Peer) : Prop :=
  ∃ msg, first_message peer false inputs = Some msg ∧ greets msg.

(** Clients that read and those that are written to were authorized, and the worker's
    channel holds the last of what it was sent. *)
Definition secured (let_in : Peer → Prop) s : Prop :=
  let b := wd_bridge s in
  trusted (br_log b) ∧
  (∀ peer, reading peer s → authorized peer (br_log b)) ∧
  (∀ peer, peer ∈ br_writers b → authorized peer (br_log b)) ∧
  (∀ peer, authorized peer (br_log b) ↔ let_in peer) ∧
  wd_to s `suffix_of` (initial_limits settings ++ client_messages (br_log b)).

Lemma client_messages_cons e log :
  client_messages (e :: log) =
  client_messages log ++ match e with Bridge_to_dealer _ msg => [msg] | _ => [] end.
Proof. unfold client_messages. rewrite reverse_cons, omap_app. by destruct e. Qed.

Lemma client_messages_to_clients (sinks : list Peer) text log :
  client_messages (reverse ((λ peer, Bridge_to_client peer text) <$> sinks) ++ log) = client_messages log.
Proof.
  rewrite <- fmap_reverse. induction (reverse sinks) as [|peer l IH]; [done|].
  cbn -[client_messages]. by rewrite client_messages_cons, app_nil_r.
Qed.

Lemma authorized_cons peer e log : authorized peer log → authorized peer (e :: log).
Proof. by right. Qed.

Lemma secured_on_dealer let_in m : keeps (secured let_in) (on_dealer m).
Proof. intros s Hs. unfold on_dealer. by destruct (m (wd_dealer s)) as [d r]. Qed.

(** A message of a client that reads. *)
Lemma secured_dealer_send let_in peer msg s :
  secured let_in s → authorized peer (br_log (wd_bridge s)) → secured let_in (dealer_send peer msg s).1.
Proof.
  intros (Ht & Hr & Hw & Hp & Hto) Ha. split_and!; cbn.
  - by split.
  - intros p Hrp. by apply authorized_cons, Hr.
  - intros p Hwp. by apply authorized_cons, Hw.
  - intros p. rewrite <- Hp. unfold authorized. set_solver.
  - rewrite client_messages_cons, (assoc_L (++)). destruct Hto as [k Hk]. exists k.
    etrans; [exact (f_equal (λ l, l ++ [msg]) Hk)|]. symmetry. apply app_assoc.
Qed.

Lemma secured_client_send let_in peer text : keeps (secured let_in) (client_send peer text).
Proof.
  intros s Hs. unfold client_send. rewrite bind_gets. case_bool_decide as Hin; [|exact Hs].
  destruct Hs as (Ht & Hr & Hw & Hp & Hto). split_and!; cbn.
  - split; [by apply Hw|done].
  - intros p Hrp. by apply authorized_cons, Hr.
  - intros p Hwp. by apply authorized_cons, Hw.
  - intros p. rewrite <- Hp. unfold authorized. set_solver.
  - rewrite client_messages_cons, app_nil_r. exact Hto.
Qed.

(** A phase other than reading. *)
Lemma secured_set_conn let_in peer phase :
  phase ≠ Conn_reading → keeps (secured let_in) (set_conn peer phase).
Proof.
  intros Hne s (Ht & Hr & Hw & Hp & Hto). split_and!; cbn; try done.
  intros p. unfold reading. cbn. destruct (decide (p = peer)) as [->|Hn].
  - rewrite lookup_insert_eq. congruence.
  - rewrite lookup_insert_ne by done. apply Hr.
Qed.

Lemma secured_on_bridge let_in f :
  (∀ b, br_conns (f b) = br_conns b ∧ br_log (f b) = br_log b ∧ br_writers (f b) ⊆ br_writers b) →
  keeps (secured let_in) (on_bridge f).
Proof.
  intros Hf s (Ht & Hr & Hw & Hp & Hto). destruct (Hf (wd_bridge s)) as (E1 & E2 & E3).
  unfold secured, reading. cbn. rewrite E1, E2. split_and!; try done. intros p Hwp. apply Hw, E3, Hwp.
Qed.

Lemma secured_end_connection let_in peer s :
  secured let_in s → authorized peer (br_log (wd_bridge s)) → secured let_in (end_connection peer s).1.
Proof.
  intros Hs Ha. unfold end_connection, bind at 1.
  apply (secured_on_bridge let_in (λ b, b <| br_sinks ::= List.filter (λ v, negb (Nat.eqb v peer)) |>)) in Hs;
    [|by intros []]. cbn in Hs |- *.
  apply (secured_dealer_send _ peer To_ResetPrices) in Hs; [|done].
  by apply (secured_set_conn _ peer Conn_over) in Hs.
Qed.

(** The secret lets a client in, and nothing else does. *)
Lemma secured_iff let_in let_in' s :
  (∀ p, let_in' p ↔ let_in p) → secured let_in s → secured let_in' s.
Proof.
  intros E (Ht & Hr & Hw & Hp & Hto). split_and!; try done. intros p. by rewrite E.
Qed.

Lemma secured_let_in let_in let_in' peer s :
  (∀ p, let_in' p ↔ let_in p ∨ p = peer) → secured let_in s →
  secured let_in'
    ((do! br_emit (Bridge_authorized peer) in
      do! on_bridge (λ b, b <| br_writers ::= union {[peer]} |> <| br_sinks ::= λ l, l ++ [peer] |>) in
      set_conn peer Conn_reading) s).1.
Proof.
  intros HE (Ht & Hr & Hw & Hp & Hto).
  assert (authorized peer (Bridge_authorized peer :: br_log (wd_bridge s))) as Ha by left.
  split_and!; cbn; [done|..].
  - intros p. unfold reading. cbn. destruct (decide (p = peer)) as [->|Hn]; [done|].
    rewrite lookup_insert_ne by done. intros Hrp. by apply authorized_cons, Hr.
  - intros p [->%elem_of_singleton|Hwp]%elem_of_union; [done|]. by apply authorized_cons, Hw.
  - intros p. rewrite HE, <- Hp. unfold authorized. rewrite elem_of_cons. split; [|by intuition subst; auto].
    intros [[= ->]|Hin]; auto.
  - rewrite client_messages_cons, app_nil_r. exact Hto.
Qed.

Lemma secured_start_connection let_in let_in' peer msg s :
  (∀ p, let_in' p ↔ let_in p ∨ p = peer ∧ greets msg) → secured let_in s →
  secured let_in' (start_connection settings peer msg s).1.
Proof.
  intros HE Hs. unfold start_connection.
  assert (¬ greets msg → secured let_in' (set_conn peer Conn_over s).1) as Hover.
  { intros Hg. apply secured_set_conn; [done|]. apply (secured_iff let_in); [|done]. intros p. rewrite HE. tauto. }
  destruct msg as [[frame|e]|]; [|by apply Hover; intros []..].
  destruct frame; try by apply Hover; intros [].
  all: simpl in HE, Hover; destruct (parse_start _) as [[secret]|e|e]; try by apply Hover; intros [=].
  all: destruct (String.eqb_spec (set_ws_secret settings) secret) as [<-|]; [|by apply Hover; intros [=]].
  all: apply (secured_let_in let_in); [|done]; intros p; rewrite HE; tauto.
Qed.

Lemma secured_read_message let_in peer msg s :
  secured let_in s → authorized peer (br_log (wd_bridge s)) →
  secured let_in (read_message peer msg s).1.
Proof.
  intros Hs Ha. unfold read_message.
  destruct msg as [[frame|e]|]; [|by apply secured_end_connection..].
  destruct frame; try exact Hs.
  all: destruct (parse_to _) as [v|e]; [by apply secured_dealer_send|].
  all: pose proof (secured_client_send let_in peer (error_text e) s Hs) as Hc.
  all: assert (authorized peer (br_log (wd_bridge (client_send peer (error_text e) s).1))) as Ha'
    by (unfold client_send; rewrite bind_gets; case_bool_decide; [by right|done]).
  all: unfold bind; destruct (client_send _ _ _) as [s' [[]|e'|e']]; cbn in *; try exact Hc.
  all: by apply secured_end_connection.
Qed.

Lemma secured_broadcast let_in text : keeps (secured let_in) (broadcast text).
Proof.
  intros s (Ht & Hr & Hw & Hp & Hto). unfold broadcast, modify. cbn [fst].
  set (sinks := List.filter _ _).
  assert (∀ peer, peer ∈ sinks → authorized peer (br_log (wd_bridge s))) as Hsinks.
  { intros peer [_ Hw']%list_elem_of_In%filter_In. apply bool_decide_eq_true in Hw'. by apply Hw. }
  clearbody sinks. split_and!; cbn.
  - clear -Ht Hsinks. rewrite <- fmap_reverse.
    assert (∀ peer, peer ∈ reverse sinks → authorized peer (br_log (wd_bridge s))) as Hr
      by (intros peer; rewrite elem_of_reverse; apply Hsinks).
    induction (reverse sinks) as [|peer l IH]; [done|]. cbn. split; [|apply IH; set_solver].
    unfold authorized. apply elem_of_app. right. apply Hr. left.
  - intros p Hrp. apply elem_of_app. right. by apply Hr.
  - intros p Hwp. apply elem_of_app. right. by apply Hw.
  - intros p. rewrite <- Hp. unfold authorized. rewrite elem_of_app, elem_of_reverse, list_elem_of_fmap.
    naive_solver.
  - rewrite client_messages_to_clients. exact Hto.
Qed.

(** *** First messages *)

Definition accepted (peer : Peer) (inputs : list WsDealerInput) : bool :=
  existsb (λ i, match i with Wd_bridge (Br_accept p) => Nat.eqb p peer | _ => false end) inputs.

Lemma first_message_snoc peer a inputs i :
  first_message peer a (inputs ++ [i]) =
  match first_message peer a inputs with
  | Some msg => Some msg
  | None => first_message peer (a || accepted peer inputs) [i]
  end.
Proof.
  revert a. induction inputs as [|j inputs IH]; intros a; [by rewrite orb_false_r|].
  destruct j as [[p|p msg|p]| |msg|]; cbn [app first_message]; rewrite IH; try done.
  - unfold accepted. simpl. by rewrite orb_assoc.
  - destruct (a && Nat.eqb p peer); [done|]. unfold accepted. simpl. done.
Qed.

Lemma first_after peer inputs i :
  first_message peer false (inputs ++ [i]) =
  match first_message peer false inputs with
  | Some msg => Some msg
  | None => first_message peer (accepted peer inputs) [i]
  end.
Proof. apply first_message_snoc. Qed.

Lemma accepted_snoc peer inputs i : accepted peer (inputs ++ [i]) = accepted peer inputs || accepted peer [i].
Proof. apply existsb_app. Qed.

(** A connection starts when it is accepted, and its first message ends that. *)
Definition in_phase (inputs : list WsDealerInput) (peer : Peer) (phase : option ConnPhase) : Prop :=
  match phase with
  | None => accepted peer inputs = false ∧ first_message peer false inputs = None
  | Some Conn_starting => accepted peer inputs = true ∧ first_message peer false inputs = None
  | Some _ => is_Some (first_message peer false inputs)
  end.

Definition phased (inputs : list WsDealerInput) s : Prop :=
  ∀ peer, in_phase inputs peer (br_conns (wd_bridge s) !! peer).

(** Other inputs. *)
Lemma in_phase_other inputs i peer phase :
  match i with Wd_bridge (Br_accept p | Br_message p _) => p ≠ peer | _ => True end →
  in_phase inputs peer phase → in_phase (inputs ++ [i]) peer phase.
Proof.
  intros Hi. unfold in_phase. rewrite first_after, accepted_snoc.
  assert (first_message peer (accepted peer inputs) [i] = None ∧ accepted peer [i] = false) as [-> ->].
  { unfold accepted at 2. destruct i as [[p|p msg|p]| |msg|]; simpl; try done.
    - by apply Nat.eqb_neq in Hi as ->.
    - by apply Nat.eqb_neq in Hi as ->; rewrite andb_false_r. }
  rewrite orb_false_r. destruct (first_message peer false inputs); [|by destruct phase as [[]|]].
  destruct phase as [[]|]; naive_solver.
Qed.

(** What a step does to the connections. *)
Definition conns_kept (C : gmap Peer ConnPhase) s : Prop := br_conns (wd_bridge s) = C.

Lemma conns_on_dealer m s : br_conns (wd_bridge (on_dealer m s).1) = br_conns (wd_bridge s).
Proof. unfold on_dealer. by destruct (m (wd_dealer s)). Qed.

Lemma conns_client_send C peer text : keeps (conns_kept C) (client_send peer text).
Proof. intros s Hs. unfold client_send. rewrite bind_gets. by case_bool_decide. Qed.

Lemma end_connection_conns peer s :
  br_conns (wd_bridge (end_connection peer s).1) = <[peer := Conn_over]> (br_conns (wd_bridge s)).
Proof. done. Qed.

(** A message that is read leaves the connection or ends it. *)
Lemma read_message_conns peer msg s :
  reading peer s → ∃ phase, phase ≠ Conn_starting ∧
    br_conns (wd_bridge (read_message peer msg s).1) = <[peer := phase]> (br_conns (wd_bridge s)).
Proof.
  intros Hr. assert (∀ s', conns_kept (br_conns (wd_bridge s)) s' →
    ∃ phase, phase ≠ Conn_starting ∧ br_conns (wd_bridge s') = <[peer := phase]> (br_conns (wd_bridge s))) as Hsame.
  { intros s' ->. exists Conn_reading. split; [done|]. by rewrite insert_id. }
  unfold read_message. destruct msg as [[frame|e]|]; [|by exists Conn_over..].
  destruct frame; try by apply Hsame.
  all: destruct (parse_to _) as [v|e]; [by apply Hsame|].
  all: pose proof (conns_client_send (br_conns (wd_bridge s)) peer (error_text e) s eq_refl) as Hc.
  all: unfold bind; destruct (client_send _ _ _) as [s' [[]|e'|e']]; cbn in Hc |- *; try by apply Hsame.
  all: exists Conn_over; split; [done|]; exact (f_equal (insert peer Conn_over) Hc).
Qed.

(** The first message leaves none that starts. *)
Lemma start_connection_conns peer msg s :
  ∃ phase, phase ≠ Conn_starting ∧
    br_conns (wd_bridge (start_connection settings peer msg s).1) = <[peer := phase]> (br_conns (wd_bridge s)).
Proof.
  unfold start_connection. destruct msg as [[frame|e]|]; [|by exists Conn_over..].
  destruct frame; try by exists Conn_over.
  all: destruct (parse_start _) as [[secret]|e|e]; try by exists Conn_over.
  all: destruct (String.eqb _ _); [by exists Conn_reading|by exists Conn_over].
Qed.

Lemma phased_message inputs peer msg s s' phase :
  phased inputs s → is_Some (br_conns (wd_bridge s) !! peer) → phase ≠ Conn_starting →
  br_conns (wd_bridge s') = <[peer := phase]> (br_conns (wd_bridge s)) →
  phased (inputs ++ [Wd_bridge (Br_message peer msg)]) s'.
Proof.
  intros Hs [ph Hph] Hne E p. rewrite E. destruct (decide (p = peer)) as [->|Hp].
  - rewrite lookup_insert_eq. specialize (Hs peer). rewrite Hph in Hs.
    assert (is_Some (first_message peer false (inputs ++ [Wd_bridge (Br_message peer msg)]))) as Hsome.
    { rewrite first_after. destruct (first_message peer false inputs) eqn:Ef; [done|].
      unfold in_phase in Hs. rewrite Ef in Hs. destruct ph; [|by destruct Hs as [? Hs]..].
      destruct Hs as [-> _]. simpl. by rewrite Nat.eqb_refl. }
    by destruct phase.
  - rewrite lookup_insert_ne by done. by apply in_phase_other.
Qed.

Lemma phased_same inputs i s s' :
  phased inputs s → br_conns (wd_bridge s') = br_conns (wd_bridge s) →
  match i with Wd_bridge (Br_accept _ | Br_message _ _) => False | _ => True end →
  phased (inputs ++ [i]) s'.
Proof. intros Hs E Hi p. rewrite E. apply in_phase_other; [|done]. by destruct i as [[]| | |]. Qed.

(** The messages of a client before it is accepted or after it is gone change nothing. *)
Lemma phased_ignored inputs peer msg s :
  phased inputs s →
  br_conns (wd_bridge s) !! peer = None ∨ br_conns (wd_bridge s) !! peer = Some Conn_over →
  phased (inputs ++ [Wd_bridge (Br_message peer msg)]) s ∧
  first_message peer false (inputs ++ [Wd_bridge (Br_message peer msg)]) = first_message peer false inputs.
Proof.
  intros Hs Hc. assert (first_message peer false (inputs ++ [Wd_bridge (Br_message peer msg)]) =
    first_message peer false inputs) as E.
  { rewrite first_after. pose proof (Hs peer) as Hp.
    destruct Hc as [Ec|Ec]; rewrite Ec in Hp; simpl in Hp; [|by destruct Hp as [? ->]].
    destruct Hp as [Ha ->]. by rewrite Ha. }
  split; [|done]. intros p. destruct (decide (p = peer)) as [->|Hp]; [|by apply in_phase_other].
  specialize (Hs peer). unfold in_phase in *. rewrite E, accepted_snoc.
  change (accepted peer [Wd_bridge (Br_message peer msg)]) with false. by rewrite orb_false_r.
Qed.

Lemma presented_snoc inputs i p :
  presented (inputs ++ [i]) p ↔
  presented inputs p ∨
  first_message p false inputs = None ∧
  ∃ msg, first_message p (accepted p inputs) [i] = Some msg ∧ greets msg.
Proof. unfold presented. rewrite first_after. destruct (first_message p false inputs); naive_solver. Qed.

(** *** The server *)

(** The state after [inputs]. *)
Definition served (inputs : list WsDealerInput) s : Prop :=
  secured (presented inputs) s ∧ phased inputs s.

Lemma served_other inputs i s s' :
  served inputs s → secured (presented inputs) s' → br_conns (wd_bridge s') = br_conns (wd_bridge s) →
  match i with Wd_bridge (Br_accept _ | Br_message _ _) => False | _ => True end →
  served (inputs ++ [i]) s'.
Proof.
  intros [_ Hph] Hs' Ec Hi. split; [|by eapply phased_same].
  eapply secured_iff, Hs'. intros p. rewrite presented_snoc. split; [|by left]. intros [Hp|(_ & msg & Hm & _)]; [done|].
  by destruct i as [[]| | |].
Qed.

Lemma served_accept inputs peer s :
  served inputs s → served (inputs ++ [Wd_bridge (Br_accept peer)]) (bridge_step settings (Br_accept peer) s).1.
Proof.
  intros [Hs Hph]. cbn [bridge_step]. rewrite bind_gets.
  assert (∀ p, presented (inputs ++ [Wd_bridge (Br_accept peer)]) p ↔ presented inputs p) as Hpres.
  { intros p. rewrite presented_snoc. simpl. naive_solver. }
  assert (∀ p, first_message p false (inputs ++ [Wd_bridge (Br_accept peer)]) = first_message p false inputs) as Ef.
  { intros p. rewrite first_after. by destruct (first_message p false inputs). }
  pose proof (Hph peer) as Hp. destruct (br_conns (wd_bridge s) !! peer) as [phase|] eqn:E.
  - split; [by eapply secured_iff|]. intros p. destruct (decide (peer = p)) as [<-|Hne];
      [|by apply in_phase_other]. cbn. rewrite E. unfold in_phase in *. rewrite Ef, accepted_snoc.
    destruct phase; try done. destruct Hp as [-> ->]. done.
  - split; [eapply secured_iff, secured_set_conn; done|]. intros p. cbn.
    destruct (decide (peer = p)) as [<-|Hne]; [|rewrite lookup_insert_ne by done; by apply in_phase_other].
    rewrite lookup_insert_eq. unfold in_phase in *. rewrite Ef, accepted_snoc. destruct Hp as [-> ->].
    split; [|done]. unfold accepted. simpl. by rewrite Nat.eqb_refl.
Qed.

Lemma served_message inputs peer msg s :
  served inputs s →
  served (inputs ++ [Wd_bridge (Br_message peer msg)]) (bridge_step settings (Br_message peer msg) s).1.
Proof.
  intros [Hs Hph]. cbn [bridge_step]. rewrite bind_gets. pose proof (Hph peer) as Hp.
  assert (first_message peer false (inputs ++ [Wd_bridge (Br_message peer msg)]) = first_message peer false inputs →
    ∀ p, presented (inputs ++ [Wd_bridge (Br_message peer msg)]) p ↔ presented inputs p) as Hsame.
  { intros Ef p. destruct (decide (p = peer)) as [->|Hne]; [unfold presented; by rewrite Ef|].
    rewrite presented_snoc. simpl. rewrite (proj2 (Nat.eqb_neq peer p)) by done.
    rewrite andb_false_r. naive_solver. }
  destruct (br_conns (wd_bridge s) !! peer) as [[| |]|] eqn:E.
  - destruct Hp as [Ha Hf]. destruct (start_connection_conns peer msg s) as (phase & Hne & Ec).
    split; [|by eapply phased_message]. apply (secured_start_connection (presented inputs)); [|done].
    intros p. rewrite presented_snoc. simpl. destruct (decide (p = peer)) as [->|Hnp].
    + rewrite Ha, Nat.eqb_refl, Hf. simpl. naive_solver.
    + rewrite (proj2 (Nat.eqb_neq peer p)) by done. rewrite andb_false_r. naive_solver.
  - destruct (read_message_conns peer msg s E) as (phase & Hne & Ec).
    split; [|by eapply phased_message]. eapply secured_iff, secured_read_message; [|done|].
    + apply Hsame. rewrite first_after. by destruct Hp as [? ->].
    + destruct Hs as (_ & Hr & _). by apply Hr.
  - destruct (phased_ignored inputs peer msg s Hph) as [Hph' Ef]; [by right|]. split; [|done].
    eapply secured_iff, Hs. by apply Hsame.
  - destruct (phased_ignored inputs peer msg s Hph) as [Hph' Ef]; [by left|]. split; [|done].
    eapply secured_iff, Hs. by apply Hsame.
Qed.

Lemma served_step inputs i s : served inputs s → served (inputs ++ [i]) (wd_step settings i s).1.
Proof.
  intros Hs. destruct i as [[peer|peer msg|peer]| |msg|]; cbn [wd_step].
  - by apply served_accept.
  - by apply served_message.
  - eapply served_other; [done| |done..]. apply secured_on_bridge; [|apply Hs].
    intros b. split_and!; [done..|]. cbn. set_solver.
  - rewrite bind_gets. destruct (wd_to s) as [|msg to] eqn:E; rewrite_field E.
    { eapply served_other; [done|apply Hs|done..]. }
    unfold bind, modify. cbn -[on_dealer].
    eapply served_other; [done|apply secured_on_dealer| |done].
    + destruct Hs as [(Ht & Hr & Hw & Hp & Hto) _]. split_and!; try done.
      cbn. etrans; [|exact Hto]. rewrite_field E. by exists [msg].
    + by rewrite conns_on_dealer.
  - destruct msg; (eapply served_other; [done| | |done]; [first [apply secured_on_dealer, Hs|apply Hs]|]);
      try done; by rewrite conns_on_dealer.
  - rewrite !bind_gets. destruct (_ !! _) as [msg|]; [|eapply served_other; [done|apply Hs|done..]].
    unfold bind, modify at 1. cbn -[broadcast].
    eapply served_other; [done| |done..]. by apply secured_broadcast, Hs.
Qed.

(** C14: only those who know the secret are served, and they have one guess.  Whatever
    clients connect to the server and send, in whatever order its tasks, the worker and the
    main thread go on: a client is let in exactly when the first message of its connection
    was the secret (of the [n] steps until the run ended or failed); nothing is passed to the
    worker from a client and nothing it says is given to one before that; and the worker's
    channel holds, after the limits of the settings, the messages of such clients in the
    order they were read. *)
Theorem clients_authorized inputs t :
  let r := run_dealer_ws settings inputs (wd_initial settings t) in
  let log := br_log (wd_bridge r.1) in
  (∃ n, (r.2 = Ok tt → n = length inputs) ∧
    ∀ peer, authorized peer log ↔ presented (take n inputs) peer) ∧
  trusted log ∧
  wd_to r.1 `suffix_of` (initial_limits settings ++ client_messages log).
Proof.
  intros r log.
  destruct (for_each_run served (wd_step settings) inputs (wd_initial settings t) [])
    as (n & Hn & (Ht & _ & _ & Hp & Hto) & _); [by apply served_step| |split; [by exists n|done]].
  split; [|intros p; by split]. split_and!; [done|..]; cbn.
  - intros peer. unfold reading. cbn. by rewrite lookup_empty.
  - set_solver.
  - intros p. unfold authorized, presented. simpl. set_solver.
  - change (client_messages []) with (@nil To). by rewrite app_nil_r.
Qed.
End Authorized.

(** ** Nobody sets prices *)

Section Unpriced.
Context `{DealerEnv} (params : Params) (l0 : list DealerEvent).

(** Requests by which a swap is offered, taken up or agreed to. *)
Definition offers (e : DealerEvent) : bool :=
  match e with
  | Ev_Request (Request_Submit _ | Request_Edit _ | Request_PsetMaker _ | Request_PsetTaker _
               | Request_Sign _) _ => true
  | _ => false
  end.

(** The worker knows no price, and offered nothing since [l0]. *)
Definition unpriced (s : DealerState) : Prop :=
  ds_index_prices s = ∅ ∧ log_ext (λ e, offers e = false) l0 s.

Lemma unpriced_emit e : offers e = false → keeps unpriced (emit e).
Proof. intros He s [Hp Hl]. split; [done|]. by apply (log_ext_emit (λ e, offers e = false)). Qed.

Lemma unpriced_modify (f : DealerState → DealerState) :
  (∀ s, ds_log (f s) = ds_log s) → (∀ s, ds_index_prices s = ∅ → ds_index_prices (f s) = ∅) →
  keeps unpriced (modify f).
Proof. intros Hl Hp s [Hs Hlog]. split; [by apply Hp|]. by apply (log_ext_modify (λ e, offers e = false)). Qed.

(** The prices are read. *)
Lemma unpriced_read {B} (k : gmap DealerTicker PriceTimestamp → DealerM B) :
  keeps unpriced (k ∅) → keeps unpriced (bind (gets ds_index_prices) k).
Proof. intros Hk s Hs. rewrite bind_gets. destruct Hs as [Hp Hl] eqn:E. rewrite_field Hp. by apply Hk. Qed.

Lemma take_order_unpriced assets details all interest :
  yields (attempt (lift (take_order params assets details all ∅ interest) : DealerM unit))
    (λ r, match r with inl _ => False | inr _ => True end).
Proof.
  apply yields_attempt, yields_lift. intros u Hu. apply take_order_good in Hu.
  destruct Hu as (asset & price & amount & _ & Hp & _). by rewrite lookup_empty in Hp.
Qed.

Ltac unpriced_step :=
  first
    [ lazymatch goal with
      | |- keeps _ (bind (gets ds_index_prices) _) => apply unpriced_read
      | |- keeps _ (bind (attempt (lift (take_order _ _ _ _ ∅ _))) _) =>
          eapply keeps_bind_yields; [apply keeps_attempt, keeps_lift|apply take_order_unpriced|intros [?|?] ?]
      end
    | contradiction
    | keeps_step
    | lazymatch goal with
      | |- keeps _ (emit _) => apply unpriced_emit; reflexivity
      | |- keeps _ (send_self _) => apply unpriced_emit; reflexivity
      | |- keeps _ (modify _) => apply unpriced_modify; [done|try done]
      | |- keeps _ (send_request _ _) => apply keeps_send_request; intros ?
      | |- keeps _ (send_request_expect _ _ _) => apply keeps_send_request_expect; intros ?
      | |- keeps _ rpc_list_unspent => unfold rpc_list_unspent
      | |- keeps _ rpc_wallet_info => unfold rpc_wallet_info
      | |- keeps _ now => unfold now
      | |- keeps _ (expect_result ?r _) => unfold expect_result
      | |- keeps _ (cancel_order _) => unfold cancel_order
      end ].

Lemma unpriced_update_price key : keeps unpriced (update_price params key).
Proof.
  unfold update_price. destruct key as [ticker send_bitcoins].
  do 4 (unpriced_step; try solve [repeat unpriced_step]).
  cbv zeta. rewrite lookup_empty. cbn [fmap option_fmap option_map from_option]. repeat unpriced_step.
Qed.

Lemma unpriced_try_take_order order : keeps unpriced (try_take_order params order).
Proof. unfold try_take_order. repeat unpriced_step. Qed.

Lemma unpriced_on_sign order : keeps unpriced (on_sign params order).
Proof. unfold on_sign. repeat unpriced_step. Qed.

Lemma unpriced_on_msg msg :
  (∀ m, msg ≠ Msg_To (To_Price m)) → keeps unpriced (on_msg params msg).
Proof.
  intros Hne. destruct msg as [to| | | |n|]; simpl.
  - destruct to as [m|m|]; [by destruct (Hne m)|..]; simpl; repeat unpriced_step.
  - unfold on_timer, update_own_orders, check_wallet. repeat unpriced_step.
    + apply unpriced_update_price.
    + apply unpriced_try_take_order.
    + intros s Hs. cbn. rewrite_field Hs. apply map_filter_empty.
  - unfold on_connected, subscribe_asset. repeat unpriced_step.
  - apply unpriced_modify; done.
  - destruct n; simpl; try apply keeps_ret; [| |apply unpriced_on_sign|].
    + repeat unpriced_step.
    + repeat unpriced_step.
    + unfold on_complete. repeat unpriced_step.
  - unfold on_reload_utxo. repeat unpriced_step.
Qed.
End Unpriced.

Section Unattended.
Context `{DealerEnv} `{BridgeEnv} (settings : DealerSettings).
Implicit Types s : WsDealer.

Definition is_price (to : To) : bool := match to with To_Price _ => true | _ => false end.
Definition is_limit (to : To) : bool := match to with To_LimitBalance _ => true | _ => false end.

(** When the worker has taken what waits in its channel it knows no price. *)
Definition cleared (to : list To) (prices : gmap DealerTicker PriceTimestamp) : Prop :=
  (∃ before after, to = before ++ To_ResetPrices :: after ∧ Forall (λ m, is_price m = false) after) ∨
  (Forall (λ m, is_price m = false) to ∧ prices = ∅).

Definition nobody_reads s : Prop := ∀ peer, ¬ reading peer s.

(** Somebody sets the prices, or nobody does and there are none. *)
Definition attended s : Prop := nobody_reads s → cleared (wd_to s) (ds_index_prices (wd_dealer s)).

Lemma attended_modify (f : WsDealer → WsDealer) :
  (∀ s, wd_to (f s) = wd_to s ∧ wd_dealer (f s) = wd_dealer s ∧ (nobody_reads (f s) → nobody_reads s)) →
  keeps attended (modify f).
Proof. intros Hf s Hs Hn. destruct (Hf s) as (E1 & E2 & Hr). cbn in *. rewrite E1, E2. by apply Hs, Hr. Qed.

Lemma nobody_reads_conn peer phase s :
  ¬ reading peer s → nobody_reads (set_conn peer phase s).1 → nobody_reads s.
Proof.
  intros Hp Hn p Hr. destruct (decide (p = peer)) as [->|Hne]; [done|]. apply (Hn p).
  unfold reading. cbn. by rewrite lookup_insert_ne.
Qed.

Lemma attended_set_conn peer phase s :
  ¬ reading peer s → attended s → attended (set_conn peer phase s).1.
Proof. intros Hp Hs Hn. by apply Hs, (nobody_reads_conn peer phase). Qed.

(** The end of a connection takes back the prices. *)
Lemma attended_end_connection peer s : attended (end_connection peer s).1.
Proof. intros _. left. by exists (wd_to s), []. Qed.

Lemma reading_client_send peer p text s :
  reading peer s → reading peer (client_send p text s).1.
Proof. intros Hr. unfold client_send. rewrite bind_gets. by case_bool_decide. Qed.

Lemma attended_reading peer s : reading peer s → attended s.
Proof. intros Hr Hn. by destruct (Hn peer). Qed.

Lemma attended_start_connection peer msg s :
  ¬ reading peer s → attended s → attended (start_connection settings peer msg s).1.
Proof.
  intros Hp Hs. unfold start_connection. pose proof (attended_set_conn peer Conn_over s Hp Hs) as Ho.
  repeat case_match; try exact Ho; apply (attended_reading peer); unfold reading; cbn; apply lookup_insert_eq.
Qed.

Lemma attended_read_message peer msg s :
  reading peer s → attended (read_message peer msg s).1.
Proof.
  intros Hr. unfold read_message.
  destruct msg as [[frame|e]|]; [|apply attended_end_connection..].
  destruct frame; try exact (attended_reading peer s Hr).
  all: destruct (parse_to _) as [v|e]; [by apply (attended_reading peer)|].
  all: unfold bind; pose proof (reading_client_send peer peer (error_text e) s Hr) as Hc.
  all: destruct (client_send _ _ _) as [s' [[]|e'|e']]; cbn in *;
       first [apply attended_end_connection|by apply (attended_reading peer)].
Qed.

Lemma attended_bridge_step i : keeps attended (bridge_step settings i).
Proof.
  intros s Hs. destruct i as [peer|peer msg|peer]; cbn [bridge_step].
  - rewrite bind_gets. destruct (_ !! peer) eqn:E; [exact Hs|]. apply attended_set_conn; [|exact Hs].
    unfold reading. by rewrite E.
  - rewrite bind_gets. destruct (_ !! peer) as [[| |]|] eqn:E; try exact Hs.
    + apply attended_start_connection; [|exact Hs]. unfold reading. by rewrite E.
    + by apply attended_read_message.
  - revert s Hs. apply attended_modify. intros s. split_and!; [done..|]. intros Hn p. apply Hn.
Qed.

(** The worker: prices only come from the clients. *)
Lemma no_prices_on_msg msg d :
  (∀ m, msg ≠ Msg_To (To_Price m)) → ds_index_prices d = ∅ →
  ds_index_prices (on_msg (dealer_params settings) msg d).1 = ∅.
Proof.
  intros Hne Hd. apply (unpriced_on_msg (dealer_params settings) (ds_log d) msg Hne d).
  split; [done|]. by exists [].
Qed.

Lemma attended_dealer msg :
  (∀ m, msg ≠ Msg_To m) → keeps attended (on_dealer (on_msg (dealer_params settings) msg)).
Proof.
  intros Hne s Hs. unfold on_dealer, attended.
  pose proof (no_prices_on_msg msg (wd_dealer s)) as Hp.
  destruct (on_msg _ _ _) as [d r]. cbn in *. intros Hn.
  destruct (Hs Hn) as [Hc|[Hf He]]; [by left|right]. split; [done|]. apply Hp; [|done].
  intros m. apply Hne.
Qed.

Lemma cleared_take msg to prices prices' :
  cleared (msg :: to) prices → (msg = To_ResetPrices → prices' = ∅) →
  (is_price msg = false → prices = ∅ → prices' = ∅) → cleared to prices'.
Proof.
  intros [([|m before] & after & [= -> ->] & Hf)|[Hf ->]] Hreset Hp.
  - right. split; [done|by apply Hreset].
  - left. by exists before, after.
  - apply Forall_cons in Hf as [Hm Hf]. right. split; [done|]. by apply Hp.
Qed.

Lemma attended_take s : attended s → attended (wd_step settings Wd_take s).1.
Proof.
  intros Hs. cbn [wd_step]. rewrite bind_gets. destruct (wd_to s) as [|msg to] eqn:E; rewrite_field E; [exact Hs|].
  unfold bind, modify, on_dealer. cbn -[on_msg].
  pose proof (no_prices_on_msg (Msg_To msg) (wd_dealer s)) as Hp.
  assert (msg = To_ResetPrices → ds_index_prices (on_msg (dealer_params settings) (Msg_To msg) (wd_dealer s)).1 = ∅)
    as Hreset by by intros ->.
  destruct (on_msg _ _ _) as [d r]. cbn in *. intros Hn.
  apply (cleared_take msg to (ds_index_prices (wd_dealer s))); [|exact Hreset|].
  - specialize (Hs Hn). revert Hs. by rewrite_field E.
  - intros Hm He. apply Hp; [|exact He]. intros m [= ->]. discriminate Hm.
Qed.

Lemma attended_step i : keeps attended (wd_step settings i).
Proof.
  destruct i as [i| |msg|].
  - apply attended_bridge_step.
  - intros s. apply attended_take.
  - destruct msg; cbn [wd_step]; first [by apply attended_dealer|apply keeps_ret].
  - cbn [wd_step]. intros s Hs. rewrite !bind_gets. destruct (_ !! _) as [msg|]; [|exact Hs].
    unfold bind, modify. cbn -[broadcast]. intros Hn. apply Hs. intros p. apply Hn.
Qed.

(** ** Nobody authorized *)

(** Nobody reads, no price is on its way, and nothing was offered since [l0]. *)
Definition unattended (l0 : list DealerEvent) s : Prop :=
  nobody_reads s ∧ Forall (λ m, is_price m = false) (wd_to s) ∧ unpriced l0 (wd_dealer s).

Definition no_secret (i : WsDealerInput) : Prop :=
  match i with
  | Wd_bridge (Br_message _ (Some (inl frame))) => parse_start frame ≠ Ok (Authorize (set_ws_secret settings))
  | _ => True
  end.

Lemma unattended_set_conn l0 peer phase :
  phase ≠ Conn_reading → keeps (unattended l0) (set_conn peer phase).
Proof.
  intros Hne s (Hn & Hf & Hd). split; [|done]. intros p. unfold reading. cbn.
  destruct (decide (p = peer)) as [->|Hp]; [rewrite lookup_insert_eq; congruence|].
  rewrite lookup_insert_ne by done. apply Hn.
Qed.

Lemma unattended_dealer l0 msg :
  (∀ m, msg ≠ Msg_To (To_Price m)) →
  keeps (unattended l0) (on_dealer (on_msg (dealer_params settings) msg)).
Proof.
  intros Hne s (Hn & Hf & Hd). unfold on_dealer.
  pose proof (unpriced_on_msg (dealer_params settings) l0 msg Hne _ Hd) as Hd'.
  by destruct (on_msg _ _ _) as [d r].
Qed.

Lemma unattended_step l0 i : no_secret i → keeps (unattended l0) (wd_step settings i).
Proof.
  intros Hi s Hs. pose proof Hs as (Hn & Hf & Hd). destruct i as [[peer|peer msg|peer]| |msg|]; cbn [wd_step bridge_step].
  - rewrite bind_gets. destruct (_ !! peer); [exact Hs|]. by apply unattended_set_conn.
  - rewrite bind_gets. destruct (_ !! peer) as [[| |]|] eqn:E; try exact Hs; [|by destruct (Hn peer)].
    assert (unattended l0 (set_conn peer Conn_over s).1) as Ho by by apply unattended_set_conn.
    unfold start_connection. repeat case_match; try exact Ho; exfalso; subst; cbn in Hi; try discriminate.
    all: apply Hi; match goal with H : String.eqb _ _ = true |- _ => apply String.eqb_eq in H end; congruence.
  - exact Hs.
  - rewrite bind_gets. destruct (wd_to s) as [|msg to] eqn:E; rewrite_field E; [exact Hs|].
    apply Forall_cons in Hf as [Hm Hto].
    unfold bind, modify. cbn -[on_dealer on_msg]. apply (unattended_dealer l0 (Msg_To msg)); [|done].
    intros m [= ->]. discriminate Hm.
  - destruct msg; first [by apply unattended_dealer|exact Hs].
  - rewrite !bind_gets. destruct (_ !! _) as [msg|]; exact Hs.
Qed.

(** C11: a dealer that nobody attends offers nothing.  However a run came to a state in
    which no client reads and only limits wait in the worker's channel, a run at the
    beginning among them: as long as no client begins with the secret, the worker never
    asks the server to place, price or take an order and never signs one, whatever
    the server, the wallet, the clock and the clients do. *)
Theorem unattended_offers_nothing inputs1 inputs2 t :
  let s1 := (run_dealer_ws settings inputs1 (wd_initial settings t)).1 in
  nobody_reads s1 → Forall (λ m, is_limit m = true) (wd_to s1) → Forall no_secret inputs2 →
  ∃ events, ds_log (wd_dealer (run_dealer_ws settings inputs2 s1).1) = events ++ ds_log (wd_dealer s1) ∧
            Forall (λ e, offers e = false) events.
Proof.
  intros s1 Hn Hlim Hi.
  assert (attended s1) as Ha.
  { apply (keeps_for_each attended inputs1 (wd_step settings)); [intros i _; apply attended_step|].
    intros _. right. split; [|done]. by repeat constructor. }
  assert (unattended (ds_log (wd_dealer s1)) s1) as Hu.
  { split; [done|]. split; [eapply Forall_impl; [exact Hlim|by intros []]|]. split; [|by exists []].
    destruct (Ha Hn) as [(before & after & E & _)|[_ He]]; [|done]. exfalso. clearbody s1.
    assert (is_limit To_ResetPrices = true) as [=]. revert Hlim. rewrite_field E.
    intros [_ [Hx _]%Forall_cons]%Forall_app. exact Hx. }
  assert (unattended (ds_log (wd_dealer s1)) (run_dealer_ws settings inputs2 s1).1) as (_ & _ & _ & Hl);
    [|exact Hl].
  apply (keeps_for_each (unattended _) inputs2 (wd_step settings)); [|exact Hu].
  intros i Hin. apply unattended_step. by eapply Forall_forall in Hi.
Qed.
End Unattended.

(** *** A client that sets a price and leaves *)
Module DealerWsSample.
#[export] Instance bridge_env : BridgeEnv := {|
  parse_start frame := match frame with Frame_Text secret => Ok (Authorize secret) | _ => Err "no text" end;
  parse_to frame :=
    match frame with
    | Frame_Text "price" =>
        inl (To_Price {| to_price_ticker := DEALER_USDT;
          to_price_price := Some {| price_pair_bid := f64_of_Z 50000; price_pair_ask := f64_of_Z 50100 |} |})
    | _ => inr "no message"
    end;
  error_text e := e; from_text _ := "from" |}.

Definition settings : DealerSettings := {|
  set_env := Env_Testnet; set_ws_secret := "secret"; set_bitcoin_amount_submit := flit 1 100;
  set_bitcoin_amount_max := flit 1 10; set_bitcoin_amount_min := flit 1 1000;
  set_interest_submit := flit 10075 10000; set_interest_sign := flit 10050 10000 |}.

Definition says (peer : nat) (text : string) : WsDealerInput :=
  Wd_bridge (Br_message peer (Some (inl (Frame_Text text)))).

(** Somebody else tries the worker meanwhile. *)
Definition visit : list WsDealerInput :=
  [Wd_bridge (Br_accept 1); Wd_bridge (Br_accept 2); says 2 "price"; says 1 "secret"; says 1 "price";
   Wd_take; Wd_take; Wd_bridge (Br_message 1 None); Wd_take; Wd_dealer Msg_Timer; Wd_take].

Definition afterwards : list WsDealerInput :=
  [Wd_dealer Msg_Timer; Wd_bridge (Br_accept 3); says 3 "Secret"; says 3 "price"; Wd_take; Wd_dealer Msg_Timer].

#[export] Instance dealer_env : DealerEnv := Dealer.Sample.env.
End DealerWsSample.
#[local] Existing Instances DealerWsSample.bridge_env DealerWsSample.dealer_env.

Example dealer_priced :
  let s := (run_dealer_ws DealerWsSample.settings (take 9 DealerWsSample.visit)
              (wd_initial DealerWsSample.settings 0)).1 in
  dom (ds_index_prices (wd_dealer s)) = {[DEALER_USDT]} ∧ wd_to s = [To_ResetPrices].
Proof. vm_compute. done. Qed.

(** After a wrong secret the right one is not heard. *)
Example one_guess :
  let log inputs := br_log (wd_bridge (run_dealer_ws DealerWsSample.settings inputs
                                         (wd_initial DealerWsSample.settings 0)).1) in
  log [Wd_bridge (Br_accept 2); DealerWsSample.says 2 "Secret"; DealerWsSample.says 2 "secret"] = [] ∧
  log [Wd_bridge (Br_accept 2); DealerWsSample.says 2 "secret"] = [Bridge_authorized 2].
Proof. vm_compute. done. Qed.

Lemma unattended_offers_nothing_witness :
  let s1 := (run_dealer_ws DealerWsSample.settings DealerWsSample.visit
               (wd_initial DealerWsSample.settings 0)).1 in
  ∃ events, ds_log (wd_dealer (run_dealer_ws DealerWsSample.settings DealerWsSample.afterwards s1).1) =
              events ++ ds_log (wd_dealer s1) ∧
            Forall (λ e, offers e = false) events.
Proof.
  apply unattended_offers_nothing.
  - intros peer Hr%elem_of_map_to_list. vm_compute in Hr. set_solver.
  - vm_compute. constructor.
  - repeat constructor; vm_compute; discriminate.
Defined.
