(* ===== verification/DealerLink.v ===== *)
(** * A dealer and its connection

    The threads of [worker] in rust/sideswap_dealer/src/dealer.rs that pass on what the
    connection tells, and what the worker does while there is none, over any [Link]. *)
From stdpp Require Import base numbers gmap strings list sets.
From Stdlib Require Import ZArith Lia SpecFloat.
From S2P Require Import Prelude F64 Api Links Types Env Dealer.

Open Scope Z_scope.
#[local] Set Primitive Projections.

(** What the connection tells becomes a message of the worker, or the answer its request
    waits for. *)
Definition link_msg (msg : WrappedResponse ResponseMessage) : DealerMsg + (Response + Error) :=
  match msg with
  | Ws_Connected => inl Msg_Connected
  | Ws_Disconnected => inl Msg_Disconnected
  | Ws_Response (ResponseMessage_Response _ response) => inr response
  | Ws_Response (ResponseMessage_Notification msg) => inl (Msg_Notification msg)
  end.

Definition to_worker (told : list (WrappedResponse ResponseMessage)) : list DealerMsg :=
  omap (λ msg, match link_msg msg with inl m => Some m | inr _ => None end) told.

(** The messages of a run that come from the connection. *)
Definition from_link (msg : DealerMsg) : bool :=
  match msg with Msg_Connected | Msg_Disconnected | Msg_Notification _ => true | _ => false end.

Definition is_server_request (e : DealerEvent) : bool :=
  match e with Ev_Request _ _ => true | _ => false end.

Section Offline.
Context `{DealerEnv} (params : Params).

(** Without a connection the worker knows no order, of its own or of others. *)
Definition offline (s : DealerState) : Prop :=
  ds_server_connected s = false ∧ ds_orders s = ∅ ∧ map_Forall (λ _ own, own = None) (ds_own_orders s).

(** Nothing was asked of the server since [l0]. *)
Definition silent_since (l0 : list DealerEvent) : DealerState → Prop :=
  log_ext (λ e, is_server_request e = false) l0.

Definition still (l0 : list DealerEvent) (s : DealerState) : Prop := offline s ∧ silent_since l0 s.

Lemma still_emit l0 e : is_server_request e = false → keeps (still l0) (emit e).
Proof. intros He s [Ho Hl]. split; [exact Ho|]. by apply (log_ext_emit (λ e, is_server_request e = false)). Qed.

Lemma still_modify l0 (f : DealerState → DealerState) :
  (∀ s, ds_log (f s) = ds_log s ∧ ds_server_connected (f s) = ds_server_connected s ∧ ds_orders (f s) = ds_orders s ∧
        ds_own_orders (f s) = ds_own_orders s) →
  keeps (still l0) (modify f).
Proof.
  intros Hf s [(Hc & Ho & Hn) Hl]. destruct (Hf s) as (E1 & E2 & E3 & E4). split.
  - unfold offline. cbn. by rewrite E2, E3, E4.
  - apply (log_ext_modify (λ e, is_server_request e = false)); [|exact Hl]. intros s'. by destruct (Hf s').
Qed.

Ltac still_step :=
  first
    [ keeps_step
    | lazymatch goal with
      | |- keeps _ (emit _) => apply still_emit; reflexivity
      | |- keeps _ (send_self _) => apply still_emit; reflexivity
      | |- keeps _ (modify _) => apply still_modify; intros; split_and!; reflexivity
      | |- keeps _ rpc_list_unspent => unfold rpc_list_unspent
      | |- keeps _ rpc_wallet_info => unfold rpc_wallet_info
      | |- keeps _ now => unfold now
      | |- keeps _ (expect_result ?r _) => unfold expect_result
      end ].
Ltac still := repeat still_step.

(** The timer finds neither a connection nor an order. *)
Lemma still_on_timer l0 : keeps (still l0) (on_timer params).
Proof.
  unfold on_timer. still_step; [still|]. still_step.
  - intros s Hs. unfold update_own_orders. rewrite !bind_gets. destruct Hs as [(Hc & Ho & Hn) Hl].
    rewrite_field Hc. by split.
  - intros s Hs. rewrite bind_gets. pose proof Hs as [(_ & Ho & _) _]. rewrite_field Ho.
    change ((btree_list (∅ : gmap OrderId OrderCreatedNotification)).*2) with (@nil OrderCreatedNotification).
    revert s Hs Ho. intros s Hs _. revert s Hs.
    match goal with |- ∀ s, still l0 s → still l0 (?m s).1 => change (keeps (still l0) m) end.
    unfold check_wallet. still. set_solver.
Qed.

Lemma still_on_msg l0 msg :
  from_link msg = false → keeps (still l0) (on_msg params msg).
Proof.
  intros Hm. destruct msg as [to| | | |n|]; try discriminate Hm; simpl.
  - unfold on_to. still.
  - apply still_on_timer.
  - unfold on_reload_utxo. still.
Qed.

(** Whether there is a connection changes with the messages that say so, and no others. *)
Ltac same_step :=
  first
    [ keeps_step
    | lazymatch goal with
      | |- keeps _ (emit _) => by apply keeps_modify
      | |- keeps _ (send_self _) => by apply keeps_modify
      | |- keeps _ (set_own _ _) => by apply keeps_modify
      | |- keeps _ (modify _) => by apply keeps_modify
      | |- keeps _ (send_request _ _) => apply keeps_send_request; intros ?
      | |- keeps _ (send_request_expect _ _ _) => apply keeps_send_request_expect; intros ?
      end
    | progress unfold rpc_new_address, rpc_list_unspent, rpc_dumpprivkey, rpc_wallet_info, now, try_result,
        expect_result, cancel_order, get_pset, sign_pset, submit_own_order, edit_own_order ].

Lemma connected_update_price b key : keeps (λ s, ds_server_connected s = b) (update_price params key).
Proof. unfold update_price. repeat same_step. Qed.

Lemma connected_sign_inputs b utxos i inputs sigs :
  keeps (λ s, ds_server_connected s = b) (sign_inputs utxos i inputs sigs).
Proof.
  revert i sigs. induction inputs as [|x l IH]; intros i sigs; simpl; repeat same_step; apply IH.
Qed.

Lemma connected_on_msg b msg :
  msg ≠ Msg_Connected → msg ≠ Msg_Disconnected →
  keeps (λ s, ds_server_connected s = b) (on_msg params msg).
Proof.
  intros Hc Hd. destruct msg as [to| | | |n|]; try done; simpl.
  - unfold on_to. repeat same_step.
  - unfold on_timer, update_own_orders, check_wallet, try_take_order. repeat same_step. apply connected_update_price.
  - destruct n; simpl; unfold on_sign, on_complete; repeat same_step. apply connected_sign_inputs.
  - unfold on_reload_utxo. repeat same_step.
Qed.

Lemma on_connected_Ok s s' : on_connected params s = (s', Ok tt) → ds_server_connected s' = true.
Proof. unfold on_connected, send_self, emit. intros Hr. ok_inv. reflexivity. Qed.

(** The worker's view of the connection is what it was told. *)
Definition follows (up : bool) (s : DealerState) : Prop :=
  ds_server_connected s = up ∧ (up = false → offline s).

Lemma follows_own up msg s s' :
  from_link msg = false → follows up s → on_msg params msg s = (s', Ok tt) → follows up s'.
Proof.
  intros Hm [Hc Ho] Hr. split.
  - pose proof (connected_on_msg up msg) as Hk. specialize (Hk ltac:(by intros ->) ltac:(by intros ->) s Hc).
    by rewrite Hr in Hk.
  - intros Hup. pose proof (still_on_msg (ds_log s) msg Hm s) as Hk. rewrite Hr in Hk.
    apply Hk. split; [by apply Ho|]. by exists [].
Qed.

Lemma follows_told up up' r msg s s' :
  link_msg r = inl msg → link_run up [r] up' → follows up s → on_msg params msg s = (s', Ok tt) →
  follows up' s'.
Proof.
  intros Hmsg Hl Hs Hr. inversion Hl as [|? ? Hl'|a ? ? Hl'|? ? Hl']; subst; inversion Hl'; subst; destruct Hs as [Hc _].
  - injection Hmsg as <-. split; [|done]. by apply on_connected_Ok in Hr.
  - destruct a as [id resp|n]; [done|]. injection Hmsg as <-.
    split; [|done]. pose proof (connected_on_msg true (Msg_Notification n)) as Hk.
    specialize (Hk ltac:(done) ltac:(done) s Hc). by rewrite Hr in Hk.
  - injection Hmsg as <-. cbn in Hr. injection Hr as <-. split; [done|]. intros _.
    split_and!; [done..|]. intros k own. cbn. rewrite lookup_fmap. destruct (ds_own_orders s !! k); by intros [=].
Qed.

(** Answers to requests are no messages of the worker. *)
Lemma told_answers up told up' : link_run up told up' → to_worker told = [] → up' = up.
Proof. induction 1 as [|l up' Hl IH|a l up' Hl IH|l up' Hl IH]; [done|done| |done]. destruct a; [exact IH|done]. Qed.

Lemma told_next up told up' msg msgs :
  link_run up told up' → to_worker told = msg :: msgs →
  ∃ r up1 rest, link_msg r = inl msg ∧ link_run up [r] up1 ∧ link_run up1 rest up' ∧ to_worker rest = msgs.
Proof.
  induction 1 as [|l up' Hl IH|a l up' Hl IH|l up' Hl IH]; [done|..].
  - intros [= <- <-]. exists Ws_Connected, true, l. by auto.
  - destruct a as [id resp|n]; [exact IH|]. intros [= <- <-].
    exists (Ws_Response (ResponseMessage_Notification n)), true, l. by auto.
  - intros [= <- <-]. exists Ws_Disconnected, false, l. by auto.
Qed.

Lemma dealer_follows_run msgs told up up' s s' :
  link_run up told up' → List.filter from_link msgs = to_worker told → follows up s →
  run_dealer params msgs s = (s', Ok tt) → follows up' s'.
Proof.
  revert told up s. induction msgs as [|msg msgs IH]; intros told up s Hl Hf Hs Hr.
  { injection Hr as <-. by rewrite (told_answers _ _ _ Hl). }
  unfold run_dealer in Hr. simpl in Hr. apply bind_Ok in Hr as (s1 & [] & Hm & Hr).
  simpl in Hf. destruct (from_link msg) eqn:E.
  - destruct (told_next _ _ _ _ _ Hl (eq_sym Hf)) as (r & up1 & rest & Hmsg & Hl1 & Hl2 & Hrest).
    apply (IH rest up1 s1); [done|done| |done]. by eapply follows_told.
  - apply (IH told up s1); [done|done| |done]. by eapply follows_own.
Qed.

Lemma follows_initial t : follows false (init_state params t).
Proof.
  split; [done|]. intros _. split_and!; [done..|]. intros k own Hk. cbn in Hk.
  apply elem_of_list_to_map_2 in Hk. set_solver.
Qed.

(** C13: without a connection the dealer asks nothing.  Over any connection that keeps the
    promises of a link, with prices, limits and ticks of the timer at any time in between:
    the worker's view of the connection is the one it was told; and when it was told that
    the connection is gone it has no order, of its own or of others, and until it hears
    from the connection again it makes no request of the server, which nobody would
    answer. *)
Theorem offline_silent {I D} asks tells sends `{!Link I ResponseMessage D asks tells sends} inputs t msgs s :
  List.filter from_link msgs = to_worker (tells inputs) →
  run_dealer params msgs (init_state params t) = (s, Ok tt) →
  ∃ up, link_run false (tells inputs) up ∧ ds_server_connected s = up ∧
    (up = false →
     offline s ∧
     ∀ own, Forall (λ m, from_link m = false) own →
       silent_since (ds_log s) (run_dealer params own s).1).
Proof.
  intros Hf Hr. destruct (link_alternates inputs) as [up Hup]. exists up. split; [exact Hup|].
  destruct (dealer_follows_run _ _ _ _ _ _ Hup Hf (follows_initial t) Hr) as [Hc Ho].
  split; [exact Hc|]. intros Hdown. split; [by apply Ho|]. intros own Hown.
  assert (still (ds_log s) (run_dealer params own s).1) as [_ Hl]; [|exact Hl].
  apply (keeps_for_each (still (ds_log s)) own (on_msg params)).
  - intros m Hm. apply still_on_msg. by eapply Forall_forall in Hown.
  - split; [by apply Ho|]. by exists [].
Qed.
End Offline.

(** *** A connection that is lost *)
Module OfflineSample.
Definition server (log : list DealerEvent) (r : Request) : option (Response + Error) :=
  match r with
  | Request_Assets _ => Some (inl (Response_Assets {| assets_resp_assets := [] |}))
  | Request_Login _ => Some (inl (Response_Login {| login_resp_session_id := []; login_resp_orders := [] |}))
  | r => Dealer.Sample.server log r
  end.

#[export] Instance env : DealerEnv := {|
  env_foreign := Dealer.Sample.foreign; env_server := server; env_new_address log := inl "address";
  env_list_unspent log := inl []; env_dumpprivkey log addr := inl "key";
  env_wallet_info log := inr "unavailable"; env_now log := 0 |}.

Definition events : list (LinkInput WrappedRequest) := [In_connected; In_server (Some (inr "lost"))].
Definition msgs : list DealerMsg := [Msg_Timer; Msg_Connected; Msg_ReloadUtxo; Msg_Timer; Msg_Disconnected].
End OfflineSample.
#[local] Existing Instances OfflineSample.env LinkSample.ws_env.

Lemma offline_silent_witness :
  let s := (run_dealer Dealer.Sample.params OfflineSample.msgs (init_state Dealer.Sample.params 0)).1 in
  silent_since (ds_log s) (run_dealer Dealer.Sample.params [Msg_Timer; Msg_To To_ResetPrices] s).1.
Proof.
  intros s.
  destruct (offline_silent Dealer.Sample.params (asks_for asked_text)
    (λ l, told (auto_log "host" 443 true l)) (λ l, sent frame_text (auto_log "host" 443 true l))
    OfflineSample.events 0 OfflineSample.msgs s) as (up & Hup & Hc & Hd).
  - vm_compute. reflexivity.
  - vm_compute. reflexivity.
  - assert (ds_server_connected s = false) as Hf by (vm_compute; reflexivity).
    apply Hd; [by rewrite <- Hc|by repeat constructor].
Defined.
