(* ===== verification/Balancing.v ===== *)
(** * Balancing wallet and exchange

    Models [balancing.rs] and [storage.rs] of [rust/sideswap_dealer_bitfinex/src]:
    when the dealer's bitcoin or USDt is unevenly split between its own wallet and
    its Bitfinex account, it decides on a transfer and drives it, state by state,
    to completion.  The state record holds all variables of the main loop (see
    Bitfinex.v); the functions here change the stored transfer and send messages.
    The protobuf messages are those of
    [go/sideswap.io/proxy_bitfinex/proto/bitfinex.proto]. *)
From stdpp Require Import sorting base numbers gmap sets strings list.
From Stdlib Require Import ZArith Lia SpecFloat.
From S2P Require Import Prelude F64 Api Env Types Dealer.

Open Scope Z_scope.
#[local] Set Primitive Projections.

(** ** Data *)

Inductive TransferState :=
  | SendUsdtNew
  | SendUsdtWaitConfirm
  | RecvUsdtNew
  | RecvUsdtWaitWithdrawId
  | RecvUsdtWaitConfirm
  | SendBtcNew
  | SendBtcWaitLbtcBalance
  | SendBtcWaitConfirm
  | RecvBtcNew
  | RecvBtcWaitLbtcBalance
  | RecvBtcWaitWithdrawId
  | RecvBtcWaitConfirm
  | Complete
  | Failed.

#[export] Instance TransferState_eq_dec : EqDecision TransferState.
Proof. solve_decision. Defined.

Record Transfer := {
  tr_withdraw_id : option Z;
  tr_state : TransferState;
  tr_amount : Z;
  tr_created_at : Z;
  tr_updated_at : Z;
  tr_txid : option string
}.

(** [Storage] has this one field. *)
Abbreviation Storage := (option Transfer) (only parsing).

Abbreviation ExchangeTicker := string (only parsing).

(** The [Args] the loop reads. *)
Record Args := {
  args_env : Env;
  args_api_key : option string;
  args_bitfinex_key : string;
  args_bitfinex_secret : string;
  args_bitfinex_bookname_usdt : string;
  args_bitfinex_bookname_eurx : string;
  args_bitfinex_withdraw_address : string;
  args_bitfinex_fund_address : string;
  args_bitfinex_currency_btc : ExchangeTicker;
  args_bitfinex_currency_lbtc : ExchangeTicker;
  args_bitfinex_currency_usdt : ExchangeTicker;
  args_bitfinex_currency_eur : ExchangeTicker;
  args_balancing_enabled : bool
}.

Definition BITFINEX_WALLET_EXCHANGE : string := "exchange".
Definition BITFINEX_METHOD_USDT : string := "tetherusl".
Definition BITFINEX_METHOD_LBTC : string := "LBT".
Definition BITFINEX_STATUS_COMPLETED : string := "COMPLETED".

(** *** Messages to and from the exchange module *)

Record ToWithdraw := {
  wd_key : string; wd_secret : string; wd_wallet : string; wd_method : string;
  wd_amount : f64; wd_address : string
}.

Record ToTransfer := {
  xf_key : string; xf_secret : string; xf_from : string; xf_to : string;
  xf_currency : string; xf_currency_to : string; xf_amount : f64
}.

Record ToMovements := {
  mv_key : string; mv_secret : string; mv_start : option Z; mv_end : option Z;
  mv_limit : option Z
}.

Record ToOrderSubmit := { os_book_name : string; os_cid : Z; os_amount : f64 }.

Inductive ToModule :=
  | ToModule_Login (key secret : string)
  | ToModule_Subscribe (book_name : string)
  | ToModule_OrderSubmit (a : ToOrderSubmit)
  | ToModule_Withdraw (a : ToWithdraw)
  | ToModule_Transfer (a : ToTransfer)
  | ToModule_Movements (a : ToMovements).

Record Movement := {
  mov_id : Z;
  mov_currency : string;
  mov_currency_name : string;
  mov_mts_started : Z;
  mov_mts_updated : Z;
  mov_status : string;
  mov_amount : f64;
  mov_fees : f64;
  mov_destination_address : string;
  mov_transaction_id : string;
  mov_withdraw_transaction_note : string
}.

Record FromMovements := {
  movements_success : bool;
  movements_key : string;
  movements_list : list Movement
}.

(** The derived [==]: floats compare as floats. *)
Definition movement_eqb (a b : Movement) : bool :=
  (mov_id a =? mov_id b) &&
  bool_decide (mov_currency a = mov_currency b) &&
  bool_decide (mov_currency_name a = mov_currency_name b) &&
  (mov_mts_started a =? mov_mts_started b) &&
  (mov_mts_updated a =? mov_mts_updated b) &&
  bool_decide (mov_status a = mov_status b) &&
  feqb (mov_amount a) (mov_amount b) &&
  feqb (mov_fees a) (mov_fees b) &&
  bool_decide (mov_destination_address a = mov_destination_address b) &&
  bool_decide (mov_transaction_id a = mov_transaction_id b) &&
  bool_decide (mov_withdraw_transaction_note a = mov_withdraw_transaction_note b).

Fixpoint list_eqb {A} (eqb : A → A → bool) (l k : list A) : bool :=
  match l, k with
  | [], [] => true
  | x :: l, y :: k => eqb x y && list_eqb eqb l k
  | _, _ => false
  end.

Definition movements_eqb (a b : FromMovements) : bool :=
  eqb (movements_success a) (movements_success b) &&
  bool_decide (movements_key a = movements_key b) &&
  list_eqb movement_eqb (movements_list a) (movements_list b).

Record FromOrderConfirm := {
  oc_book_name : string; oc_cid : Z; oc_id : Z; oc_amount : f64; oc_price : f64
}.

Inductive FromModule :=
  | FromModule_BookUpdate (book_name : string) (bid ask : f64)
  | FromModule_OrderConfirm (a : FromOrderConfirm)
  | FromModule_WalletUpdate (currency : string) (balance : f64)
  | FromModule_Withdraw (withdraw_id : Z)
  | FromModule_Transfer (success : bool)
  | FromModule_Movements (a : FromMovements)
  | FromModule_Error (error : string).

(** *** The main loop *)

Inductive CliRequest :=
  | TestSendUsdt (amount : f64)
  | TestRecvUsdt (amount : f64)
  | TestSendBtc (amount : f64)
  | TestRecvBtc (amount : f64).

Inductive CliResponse :=
  | CliResponse_Success (a : string)
  | CliResponse_Error (a : string).

Record CliRequestData := { cli_req : CliRequest; cli_resp_tx : bool }.

Inductive BfMsg :=
  | Bf_Timer
  | Bf_Connected
  | Bf_Disconnected
  | Bf_Notification (a : Notification)
  | Bf_ModuleConnected
  | Bf_ModuleDisconnected
  | Bf_ModuleMessage (a : FromModule)
  | Bf_ReloadUtxo
  | Bf_Cli (a : CliRequestData)
  | Bf_Exit
  | Bf_CheckExchange
  | Bf_Dealer (a : From).

(** [Price]; the timestamp is in milliseconds. *)
Record Price := { price_bid : f64; price_ask : f64; price_timestamp : Z }.

Record ProfitsReport := {
  pr_wallet_balances : WalletBalances;
  pr_exchange_balances : gmap ExchangeTicker f64;
  pr_created_at : Z
}.

(** What the loop did to the outside, newest first.  Notifications are identified
    by the constant part of their text; [Bf_save] is the storage file rewritten. *)
Inductive BfEvent :=
  | Bf_module (m : ToModule)
  | Bf_dealer (t : To)
  | Bf_notify (text : string)
  | Bf_self (m : BfMsg)
  | Bf_save (s : Storage)
  | Bf_sendtoaddress (addr : string) (amount : f64) (asset : option AssetId)
      (r : string + string)
  | Bf_request (r : Request) (resp : option (Response + Error))
  | Bf_list_unspent (r : list UnspentItem + string)
  | Bf_new_address (r : Address + string)
  | Bf_dumpprivkey (addr : string) (r : string + string)
  | Bf_now (t : Z)
  | Bf_cli_resp (r : CliResponse).

Record BfState := {
  bs_storage : Storage;
  bs_movements : option FromMovements;
  bs_balancing_blocked : Z;
  bs_assets : list Asset;
  bs_utxos : gmap TxOut Utxo;
  bs_server_status : option ServerStatus;
  bs_instant_swaps : gmap OrderId AssetId;
  bs_server_connected : bool;
  bs_module_connected : bool;
  bs_wallet_balances : WalletBalances;
  bs_wallet_balances_confirmed : WalletBalances;
  bs_exchange_balances : gmap ExchangeTicker f64;
  bs_exchange_balances_reported : gmap ExchangeTicker f64;
  bs_profit_reports : option ProfitsReport;
  bs_bitcoin_ratio_old : option f64;
  bs_module_prices : gmap DealerTicker Price;
  bs_broadcast_timestamps : gmap DealerTicker Z;
  bs_latest_check_exchange : Z;
  bs_health_text : option (list string);
  bs_orders : gmap OrderId OrderCreatedNotification;
  bs_pending_orders : gmap Z Z;
  bs_log : list BfEvent
}.

Definition BfM : Type → Type := M BfState.

(** Wallet, server, clocks: as in Dealer.v, any function of the past. *)
Class BfEnv := {
  #[global] bf_foreign :: Foreign;
  bf_server : list BfEvent → Request → option (Response + Error);
  bf_sendtoaddress : list BfEvent → string → f64 → option AssetId → string + string;
  bf_list_unspent : list BfEvent → list UnspentItem + string;
  bf_new_address : list BfEvent → Address + string;
  bf_dumpprivkey : list BfEvent → string → string + string;
  (** [SystemTime::now()] and [Instant::now()], in milliseconds *)
  bf_system_now : list BfEvent → Z;
  bf_instant_now : list BfEvent → Z;
  (** an [f64] formatted with [{}] and with [{:.8}] *)
  bf_text : f64 → string;
  bf_text_8 : f64 → string
}.

(** ** When to balance *)

Record Ratio := { ratio_min : f64; ratio_norm : f64; ratio_max : f64 }.

Inductive BalancingKind :=
  | Balancing_None
  | Balancing_Recv (a : f64)
  | Balancing_Send (a : f64).

Inductive AssetBalancing :=
  | AssetBalancing_None
  | AssetBalancing_RecvBtc (a : f64)
  | AssetBalancing_SendBtc (a : f64)
  | AssetBalancing_RecvUsdt (a : f64)
  | AssetBalancing_SendUsdt (a : f64).

Definition RATIO_BTC : Ratio :=
  {| ratio_min := flit 1 4; ratio_norm := flit 1 2; ratio_max := flit 3 4 |}.
Definition RATIO_USDT : Ratio :=
  {| ratio_min := flit 1 4; ratio_norm := flit 1 2; ratio_max := flit 3 4 |}.
Definition MIN_BALANCING_AMOUNT_USDT : f64 := f64_of_Z 1000.

Definition get_balancing_smaller (wallet_balance exchange_balance : f64) (expected : Ratio)
    : outcome BalancingKind :=
  if feqb wallet_balance f0 || feqb exchange_balance f0 then Ok Balancing_None
  else
    let total := fadd wallet_balance exchange_balance in
    let ratio := fdiv wallet_balance total in
    do? oassert (fgtb (ratio_min expected) f0) "expected.min > 0.0" in
    do? oassert (fltb (ratio_min expected) (ratio_norm expected)) "expected.min < expected.norm" in
    do? oassert (fltb (ratio_norm expected) (ratio_max expected)) "expected.norm < expected.max" in
    do? oassert (fltb (ratio_max expected) f1) "expected.max < 1.0" in
    let diff :=
      to_bitcoin (from_bitcoin (fabs (fmul (fsub (ratio_norm expected) ratio) total))) in
    Ok (if fltb ratio (ratio_min expected) then Balancing_Recv diff
        else if fgtb ratio (ratio_max expected) then Balancing_Send diff
        else Balancing_None).

Definition get_balancing_bigger (asset_wallet_balance asset_exchange_balance
    other_wallet_balance other_exchange_balance from_other_to_asset_scale : f64)
    : BalancingKind :=
  let recv_amount :=
    fsub (fmul other_exchange_balance from_other_to_asset_scale) asset_wallet_balance in
  let send_amount :=
    fsub (fmul other_wallet_balance from_other_to_asset_scale) asset_exchange_balance in
  if fgtb recv_amount f0 then Balancing_Recv recv_amount
  else if fgtb send_amount f0 then Balancing_Send send_amount
  else Balancing_None.

Definition get_balancing (balance_wallet_bitcoin balance_exchange_bitcoin
    balance_wallet_usdt balance_exchange_usdt bitcoin_usdt_price : f64)
    : outcome AssetBalancing :=
  if feqb bitcoin_usdt_price f0 || feqb balance_wallet_bitcoin f0 ||
     feqb balance_exchange_bitcoin f0 || feqb balance_wallet_usdt f0 ||
     feqb balance_exchange_usdt f0
  then Ok AssetBalancing_None
  else
    let bitcoin_total := fadd balance_wallet_bitcoin balance_exchange_bitcoin in
    let usdt_total := fadd balance_wallet_usdt balance_exchange_usdt in
    let bitcoin_total_as_usdt := fmul bitcoin_total bitcoin_usdt_price in
    let bitcoin_smaller := fltb bitcoin_total_as_usdt usdt_total in
    let? smaller_balancing :=
      if bitcoin_smaller
      then get_balancing_smaller balance_wallet_bitcoin balance_exchange_bitcoin RATIO_BTC
      else get_balancing_smaller balance_wallet_usdt balance_exchange_usdt RATIO_USDT in
    let balancing :=
      match smaller_balancing with
      | Balancing_Recv amount =>
          if bitcoin_smaller then AssetBalancing_RecvBtc amount else AssetBalancing_RecvUsdt amount
      | Balancing_Send amount =>
          if bitcoin_smaller then AssetBalancing_SendBtc amount else AssetBalancing_SendUsdt amount
      | Balancing_None =>
          let bigger_balancing :=
            if bitcoin_smaller
            then get_balancing_bigger balance_wallet_usdt balance_exchange_usdt
                   balance_wallet_bitcoin balance_exchange_bitcoin bitcoin_usdt_price
            else get_balancing_bigger balance_wallet_bitcoin balance_exchange_bitcoin
                   balance_wallet_usdt balance_exchange_usdt (fdiv f1 bitcoin_usdt_price) in
          match bigger_balancing with
          | Balancing_Recv amount =>
              if bitcoin_smaller then AssetBalancing_RecvUsdt amount
              else AssetBalancing_RecvBtc amount
          | Balancing_Send amount =>
              if bitcoin_smaller then AssetBalancing_SendUsdt amount
              else AssetBalancing_SendBtc amount
          | Balancing_None => AssetBalancing_None
          end
      end in
    let balancing_amount_usdt :=
      match balancing with
      | AssetBalancing_None => f0
      | AssetBalancing_RecvBtc v | AssetBalancing_SendBtc v => fmul v bitcoin_usdt_price
      | AssetBalancing_RecvUsdt v | AssetBalancing_SendUsdt v => v
      end in
    Ok (if fltb balancing_amount_usdt MIN_BALANCING_AMOUNT_USDT then AssetBalancing_None
        else balancing).

(** ** Driving a transfer *)

Section Transfers.
Context `{BfEnv} (args : Args).

Definition bf_emit (e : BfEvent) : BfM unit := modify (λ s, s <| bs_log ::= cons e |>).
Definition send_msg (m : ToModule) : BfM unit := bf_emit (Bf_module m).
Definition send_notification (text : string) : BfM unit := bf_emit (Bf_notify text).

Definition save_storage : BfM unit :=
  let! storage := gets bs_storage in bf_emit (Bf_save storage).

Definition system_now : BfM Z :=
  let! log := gets bs_log in
  let t := bf_system_now log in
  do! bf_emit (Bf_now t) in ret t.

Definition instant_now : BfM Z :=
  let! log := gets bs_log in
  let t := bf_instant_now log in
  do! bf_emit (Bf_now t) in ret t.

Definition sendtoaddress (addr : string) (amount : f64) (asset : option AssetId)
    : BfM (string + string) :=
  let! log := gets bs_log in
  let r := bf_sendtoaddress log addr amount asset in
  do! bf_emit (Bf_sendtoaddress addr amount asset r) in ret r.

(** [storage.balancing.as_mut()] *)
Definition update_transfer (f : Transfer → Transfer) : BfM unit :=
  modify (λ s, s <| bs_storage ::= fmap f |>).

Definition update_balancing_state (new_state : TransferState) : BfM unit :=
  let! storage := gets bs_storage in
  let! _balancing := expect storage "balancing must be active" in
  let! t := system_now in
  do! update_transfer (λ b, b <| tr_updated_at := t |> <| tr_state := new_state |>) in
  do! (if decide (new_state = Failed) then send_notification ":fire: balancing failed"
       else if decide (new_state = Complete) then send_notification "balancing complete"
       else ret tt) in
  save_storage.

(** The answer of the wallet to a payment. *)
Definition payment_sent (result : string + string) (next : TransferState) : BfM unit :=
  match result with
  | inl txid =>
      do! update_transfer (λ b, b <| tr_txid := Some txid |>) in
      update_balancing_state next
  | inr _ => update_balancing_state Failed
  end.

Definition withdraw_msg (method : string) (amount : f64) : ToModule :=
  ToModule_Withdraw {|
    wd_key := args_bitfinex_key args;
    wd_secret := args_bitfinex_secret args;
    wd_wallet := BITFINEX_WALLET_EXCHANGE;
    wd_method := method;
    wd_amount := amount;
    wd_address := args_bitfinex_withdraw_address args |}.

Definition transfer_msg (currency currency_to : string) (amount : f64) : ToModule :=
  ToModule_Transfer {|
    xf_key := args_bitfinex_key args;
    xf_secret := args_bitfinex_secret args;
    xf_from := BITFINEX_WALLET_EXCHANGE;
    xf_to := BITFINEX_WALLET_EXCHANGE;
    xf_currency := currency;
    xf_currency_to := currency_to;
    xf_amount := amount |}.

Definition mainnet : bool := env_data_mainnet (env_data (args_env args)).

Definition process_balancing : BfM unit :=
  let! storage := gets bs_storage in
  match storage with
  | None => ret tt
  | Some balancing =>
      let amount := to_bitcoin (tr_amount balancing) in
      let! wallet := gets bs_wallet_balances_confirmed in
      let! exchange := gets bs_exchange_balances in
      let! module_connected := gets bs_module_connected in
      match tr_state balancing with
      | SendUsdtNew =>
          let usdt_balance := default f0 (wallet !! DEALER_USDT) in
          let bitcoin_balance := default f0 (wallet !! DEALER_LBTC) in
          if fgeb usdt_balance amount && fgtb bitcoin_balance f0 && module_connected then
            let! assets := gets bs_assets in
            let! asset := expect (find_ticker assets TICKER_USDT) "must be known" in
            let! result :=
              sendtoaddress (args_bitfinex_fund_address args) amount
                (Some (asset_asset_id asset)) in
            payment_sent result SendUsdtWaitConfirm
          else ret tt
      | RecvUsdtNew =>
          let usdt_balance := default f0 (exchange !! args_bitfinex_currency_usdt args) in
          if (fgeb usdt_balance amount || negb mainnet) && module_connected then
            do! send_msg (withdraw_msg BITFINEX_METHOD_USDT amount) in
            update_balancing_state RecvUsdtWaitWithdrawId
          else ret tt
      | SendBtcNew =>
          let bitcoin_balance := default f0 (wallet !! DEALER_LBTC) in
          if fgeb bitcoin_balance amount && module_connected then
            let! result := sendtoaddress (args_bitfinex_fund_address args) amount None in
            payment_sent result SendBtcWaitLbtcBalance
          else ret tt
      | SendBtcWaitLbtcBalance =>
          let lbtc_balance := default f0 (exchange !! args_bitfinex_currency_lbtc args) in
          if feqb lbtc_balance amount && module_connected then
            do! send_msg (transfer_msg (args_bitfinex_currency_lbtc args)
                            (args_bitfinex_currency_btc args) amount) in
            update_balancing_state SendBtcWaitConfirm
          else ret tt
      | SendBtcWaitConfirm =>
          if from_option (λ b, feqb b f0) false (exchange !! args_bitfinex_currency_lbtc args)
          then update_balancing_state Complete
          else ret tt
      | RecvBtcNew =>
          let btc_balance := default f0 (exchange !! args_bitfinex_currency_btc args) in
          if (fgeb btc_balance amount || negb mainnet) && module_connected then
            do! send_msg (transfer_msg (args_bitfinex_currency_btc args)
                            (args_bitfinex_currency_lbtc args) amount) in
            update_balancing_state RecvBtcWaitLbtcBalance
          else ret tt
      | RecvBtcWaitLbtcBalance =>
          let lbtc_balance := default f0 (exchange !! args_bitfinex_currency_lbtc args) in
          if feqb lbtc_balance amount && module_connected then
            do! send_msg (withdraw_msg BITFINEX_METHOD_LBTC amount) in
            update_balancing_state RecvBtcWaitWithdrawId
          else ret tt
      | Complete =>
          do! modify (λ s, s <| bs_storage := None |>) in
          save_storage
      | _ => ret tt
      end
  end.

(** A confirmed withdrawal identifier, or a failure. *)
Definition process_withdraw (withdraw_id : Z) : BfM unit :=
  let! storage := gets bs_storage in
  match storage with
  | None => ret tt
  | Some balancing =>
      let accept := (0 <? withdraw_id) && bool_decide (tr_withdraw_id balancing = None) in
      let accepted next :=
        do! update_transfer (λ b, b <| tr_withdraw_id := Some withdraw_id |>) in
        update_balancing_state next in
      match tr_state balancing with
      | RecvUsdtWaitWithdrawId =>
          if accept then accepted RecvUsdtWaitConfirm else update_balancing_state Failed
      | RecvBtcWaitWithdrawId =>
          if accept then accepted RecvBtcWaitConfirm else update_balancing_state Failed
      | _ => update_balancing_state Failed
      end
  end.

Definition completed (item : Movement) : bool :=
  bool_decide (mov_status item = BITFINEX_STATUS_COMPLETED).

Definition process_movements (msg : FromMovements) : BfM unit :=
  if negb (movements_success msg) then ret tt
  else
    let! movements := gets bs_movements in
    if negb (from_option (λ old, movements_eqb msg old) false movements)
    then modify (λ s, s <| bs_movements := Some msg |>)
    else
      let! storage := gets bs_storage in
      match storage with
      | None => ret tt
      | Some balancing =>
          let found_id :=
            existsb (λ item,
              bool_decide (Some (mov_id item) = tr_withdraw_id balancing) && completed item)
              (movements_list msg) in
          match tr_state balancing with
          | SendUsdtWaitConfirm =>
              let! txid := expect (tr_txid balancing) "txid must be known" in
              if existsb (λ item,
                   bool_decide (mov_transaction_id item = txid) && completed item)
                   (movements_list msg)
              then update_balancing_state Complete
              else ret tt
          | RecvUsdtWaitConfirm | RecvBtcWaitConfirm =>
              if found_id then update_balancing_state Complete else ret tt
          | _ => ret tt
          end
      end.

Definition process_transfer (success : bool) : BfM unit :=
  let! storage := gets bs_storage in
  match storage with
  | None => ret tt
  | Some _ => if negb success then update_balancing_state Failed else ret tt
  end.

Definition cli_name (req : CliRequest) : string :=
  match req with
  | TestSendUsdt _ => "send usdt"
  | TestRecvUsdt _ => "recv usdt"
  | TestSendBtc _ => "send btc"
  | TestRecvBtc _ => "recv btc"
  end.

(** The [Msg::Cli] arm: start a transfer unless one is active. *)
Definition cli_request (req : CliRequest) : TransferState * f64 :=
  match req with
  | TestSendUsdt amount => (SendUsdtNew, amount)
  | TestRecvUsdt amount => (RecvUsdtNew, amount)
  | TestSendBtc amount => (SendBtcNew, amount)
  | TestRecvBtc amount => (RecvBtcNew, amount)
  end.

Definition on_cli (data : CliRequestData) : BfM unit :=
  let '(new_state, amount) := cli_request (cli_req data) in
  let! storage := gets bs_storage in
  let! resp :=
    match storage with
    | Some _ => ret (CliResponse_Error "already started")
    | None =>
        do! modify (λ s, s <| bs_movements := None |>) in
        let! created_at := system_now in
        let! updated_at := system_now in
        do! modify (λ s, s <| bs_storage := Some {|
              tr_withdraw_id := None;
              tr_state := new_state;
              tr_amount := from_bitcoin amount;
              tr_created_at := created_at;
              tr_updated_at := updated_at;
              tr_txid := None |} |>) in
        do! save_storage in
        do! send_notification ("start balancing, " +:+ cli_name (cli_req data) +:+
                               ", amount: " +:+ bf_text amount) in
        ret (CliResponse_Success "success")
    end in
  if cli_resp_tx data then bf_emit (Bf_cli_resp resp) else ret tt.
End Transfers.

(** The repository's unit tests. *)
Example get_balancing_tests :
  let g wb eb wu eu := get_balancing (flit wb 10) (flit eb 10) (f64_of_Z wu) (f64_of_Z eu)
                         (f64_of_Z 50000) in
  g 5 5 27500 27500 = Ok AssetBalancing_None ∧
  g 2 8 27500 27500 = Ok (AssetBalancing_RecvBtc (flit 3 10)) ∧
  g 8 2 27500 27500 = Ok (AssetBalancing_SendBtc (flit 3 10)) ∧
  g 3 7 10000 45000 = Ok (AssetBalancing_RecvUsdt (f64_of_Z 25000)) ∧
  g 7 3 10000 45000 = Ok (AssetBalancing_RecvUsdt (f64_of_Z 5000)) ∧
  g 3 7 34500 15500 = Ok AssetBalancing_None ∧
  g 7 3 15000 35000 = Ok AssetBalancing_None ∧
  g 5 5 22500 22500 = Ok AssetBalancing_None ∧
  g 5 5 5000 40000 = Ok (AssetBalancing_RecvUsdt (f64_of_Z 17500)) ∧
  g 5 5 40000 5000 = Ok (AssetBalancing_SendUsdt (f64_of_Z 17500)) ∧
  g 2 8 13500 31500 = Ok (AssetBalancing_RecvBtc (flit 43 100)) ∧
  g 8 2 13500 31500 = Ok (AssetBalancing_SendBtc (flit 7 100)) ∧
  g 7 3 13500 31500 = Ok AssetBalancing_None ∧
  g 3 7 31500 13500 = Ok AssetBalancing_None.
Proof. repeat split; vm_compute; reflexivity. Qed.

(** ** Specifications *)

(** The state machine of a transfer. *)
Inductive transfer_step : TransferState → TransferState → Prop :=
  | step_send_usdt : transfer_step SendUsdtNew SendUsdtWaitConfirm
  | step_send_usdt_done : transfer_step SendUsdtWaitConfirm Complete
  | step_recv_usdt : transfer_step RecvUsdtNew RecvUsdtWaitWithdrawId
  | step_recv_usdt_id : transfer_step RecvUsdtWaitWithdrawId RecvUsdtWaitConfirm
  | step_recv_usdt_done : transfer_step RecvUsdtWaitConfirm Complete
  | step_send_btc : transfer_step SendBtcNew SendBtcWaitLbtcBalance
  | step_send_btc_balance : transfer_step SendBtcWaitLbtcBalance SendBtcWaitConfirm
  | step_send_btc_done : transfer_step SendBtcWaitConfirm Complete
  | step_recv_btc : transfer_step RecvBtcNew RecvBtcWaitLbtcBalance
  | step_recv_btc_balance : transfer_step RecvBtcWaitLbtcBalance RecvBtcWaitWithdrawId
  | step_recv_btc_id : transfer_step RecvBtcWaitWithdrawId RecvBtcWaitConfirm
  | step_recv_btc_done : transfer_step RecvBtcWaitConfirm Complete
  | step_fail st : transfer_step st Failed.

(** What one message may do to the stored transfer: nothing, one step of the state
    machine that keeps the amount, the removal of a completed transfer, or the start
    of one when there is none. *)
Definition storage_step (old new : Storage) : Prop :=
  old = new ∨
  match old, new with
  | Some b, Some b' =>
      transfer_step (tr_state b) (tr_state b') ∧ tr_amount b' = tr_amount b ∧
      tr_created_at b' = tr_created_at b
  | Some b, None => tr_state b = Complete
  | None, Some b' =>
      tr_state b' ∈ [SendUsdtNew; RecvUsdtNew; SendBtcNew; RecvBtcNew] ∧
      tr_withdraw_id b' = None ∧ tr_txid b' = None
  | None, None => True
  end.

(** Money leaves wallet or exchange account. *)
Definition is_payout (e : BfEvent) : bool :=
  match e with
  | Bf_module (ToModule_Withdraw _) => true
  | Bf_sendtoaddress _ _ _ _ => true
  | _ => false
  end.
Definition is_start (e : BfEvent) : bool :=
  match e with
  | Bf_notify text => String.prefix "start balancing, " text
  | _ => false
  end.
Fixpoint count (p : BfEvent → bool) (l : list BfEvent) : Z :=
  match l with [] => 0 | e :: l => count p l + Z.b2z (p e) end.

(** A transfer in one of these states has not paid yet. *)
Definition unpaid (st : TransferState) : bool :=
  match st with
  | SendUsdtNew | RecvUsdtNew | SendBtcNew | RecvBtcNew | RecvBtcWaitLbtcBalance => true
  | _ => false
  end.
Definition pending (storage : Storage) : Z :=
  match storage with Some b => Z.b2z (unpaid (tr_state b)) | None => 0 end.

(** The storage file's content according to the log. *)
Definition is_save (e : BfEvent) : option Storage :=
  match e with Bf_save s => Some s | _ => None end.
Fixpoint saved (l : list BfEvent) : option Storage :=
  match l with
  | [] => None
  | e :: l => match is_save e with Some s => Some s | None => saved l end
  end.

Definition transfer_wf (b : Transfer) : Prop :=
  (tr_state b ∈ [SendUsdtWaitConfirm; SendBtcWaitLbtcBalance; SendBtcWaitConfirm] →
   is_Some (tr_txid b)) ∧
  (tr_state b ∈ [RecvUsdtNew; RecvUsdtWaitWithdrawId; RecvBtcNew; RecvBtcWaitLbtcBalance;
                 RecvBtcWaitWithdrawId] → tr_withdraw_id b = None) ∧
  (tr_state b ∈ [RecvUsdtWaitConfirm; RecvBtcWaitConfirm] →
   ∃ id, tr_withdraw_id b = Some id ∧ 0 < id).

Definition stored_wf (storage : Storage) : Prop := ∀ b, storage = Some b → transfer_wf b.

(** The invariant of the transfer: one payout per start, the file on disk is the transfer in
    memory, and the identifiers each state relies on are there, in every version of the file
    too.  [base] is for a dealer that starts with a transfer that has not paid. *)
Record balancing_from (base : Z) (s : BfState) : Prop := {
  inv_paid : count is_payout (bs_log s) + pending (bs_storage s) ≤ count is_start (bs_log s) + base;
  inv_saved : saved (bs_log s) = Some (bs_storage s);
  inv_wf : stored_wf (bs_storage s);
  inv_saves : ∀ storage, Bf_save storage ∈ bs_log s → stored_wf storage
}.

(** Events without meaning for the transfer. *)
Definition bf_quiet (e : BfEvent) : Prop :=
  is_payout e = false ∧ is_start e = false ∧ is_save e = None.

(** ** Lemmas *)

Lemma count_app p l k : count p (l ++ k) = count p l + count p k.
Proof. induction l; simpl in *; lia. Qed.

Lemma count_quiet p l :
  Forall (λ e, p e = false) l → count p l = 0.
Proof. induction 1 as [|e l He _ IH]; simpl; [done|]. rewrite He, IH. done. Qed.

Lemma saved_quiet l k : Forall bf_quiet l → saved (l ++ k) = saved k.
Proof. induction 1 as [|e l (_ & _ & He) _ IH]; simpl; [done|]. by rewrite He. Qed.

Section Inv.
Context `{BfEnv} (base : Z) (args : Args).

Lemma inv_emit e : bf_quiet e → keeps (balancing_from base) (bf_emit e).
Proof.
  intros (H1 & H2 & H3). apply keeps_modify. intros s [I1 I2 I3 I4]. split; simpl.
  - rewrite H1, H2. simpl. lia.
  - by rewrite H3.
  - done.
  - intros storage [<-|Hin]%elem_of_cons; [done|by apply I4].
Qed.

Lemma inv_modify (f : BfState → BfState) :
  (∀ s, bs_log (f s) = bs_log s ∧ bs_storage (f s) = bs_storage s) →
  keeps (balancing_from base) (modify f).
Proof.
  intros Hf. apply keeps_modify. intros s [I1 I2 I3 I4]. destruct (Hf s) as [H1 H2].
  split; rewrite ?H1, ?H2; done.
Qed.

(** A state change: the time is read, perhaps a notice sent, the file written. *)
Lemma update_balancing_state_spec new s b :
  bs_storage s = Some b →
  ∃ s' t notices,
    update_balancing_state new s = (s', Ok tt) ∧
    bs_storage s' = Some (b <| tr_updated_at := t |> <| tr_state := new |>) ∧
    bs_log s' = Bf_save (bs_storage s') :: notices ++ bs_log s ∧
    Forall bf_quiet notices.
Proof.
  intros Hb. unfold update_balancing_state, system_now, save_storage, update_transfer,
    send_notification, bf_emit, bind, gets, modify, expect, lift, ret.
  cbn. rewrite_field Hb. cbn.
  set (t := bf_system_now (bs_log s)).
  destruct (decide (new = Failed)); [|destruct (decide (new = Complete))].
  - eexists _, t, [Bf_notify _; Bf_now t]. split; [reflexivity|]. cbn. rewrite_field Hb.
    split; [done|]. split; [done|]. by repeat constructor.
  - eexists _, t, [Bf_notify _; Bf_now t]. split; [reflexivity|]. cbn. rewrite_field Hb.
    split; [done|]. split; [done|]. by repeat constructor.
  - eexists _, t, [Bf_now t]. split; [reflexivity|]. cbn. rewrite_field Hb.
    split; [done|]. split; [done|]. by repeat constructor.
Qed.

(** What every message keeps: the invariant, and the storage moves by a step. *)
Definition good (s s' : BfState) : Prop :=
  balancing_from base s' ∧ storage_step (bs_storage s) (bs_storage s').

Lemma good_refl s : balancing_from base s → good s s.
Proof. intros Hs. split; [done|by left]. Qed.

Lemma pending_bounds st : 0 ≤ pending st ≤ 1.
Proof. destruct st as [b|]; simpl; [|lia]. destruct (unpaid _); simpl; lia. Qed.

(** Events and a change of the transfer's identifiers before a state change. *)
Lemma good_change s s1 b b1 new evs :
  balancing_from base s → bs_storage s = Some b → bs_storage s1 = Some b1 →
  bs_log s1 = evs ++ bs_log s →
  count is_payout evs + Z.b2z (unpaid new) ≤ pending (Some b) →
  Forall (λ e, is_start e = false ∧ is_save e = None) evs →
  (∀ t, transfer_wf (b1 <| tr_updated_at := t |> <| tr_state := new |>)) →
  transfer_step (tr_state b) new → tr_amount b1 = tr_amount b →
  tr_created_at b1 = tr_created_at b →
  good s (update_balancing_state new s1).1.
Proof.
  intros [I1 I2 I3 I4] Hb Hb1 Hlog Hpay Hevs Hwf Hstep Ham Hcr.
  destruct (update_balancing_state_spec new s1 b1 Hb1) as (s' & t & ns & E & Hst & Hl & Hns).
  rewrite E. simpl. rewrite Hlog in Hl. rewrite Hb in I1.
  assert (count is_payout ns = 0 ∧ count is_start ns = 0) as [N1 N2].
  { split; apply count_quiet; (eapply Forall_impl; [exact Hns|]); by intros e (?&?&?). }
  assert (count is_start evs = 0) as N3.
  { apply count_quiet. eapply Forall_impl; [exact Hevs|]. by intros e []. }
  split; [split|].
  - rewrite Hl, Hst. simpl. rewrite !count_app. cbn [pending tr_state] in *. lia.
  - rewrite Hl. done.
  - rewrite Hst. intros b' [= <-]. apply Hwf.
  - rewrite Hl. intros storage [[= ->]|[Hin|[Hin|Hin]%elem_of_app]%elem_of_app]%elem_of_cons; [| | |by apply I4].
    + rewrite Hst. intros b' [= <-]. apply Hwf.
    + rewrite Forall_forall in Hns. by destruct (Hns _ Hin) as (_ & _ & ?).
    + rewrite Forall_forall in Hevs. by destruct (Hevs _ Hin).
  - right. rewrite Hb, Hst. cbn. done.
Qed.

Lemma good_fail s b :
  balancing_from base s → bs_storage s = Some b → good s (update_balancing_state Failed s).1.
Proof.
  intros Hs Hb. pose proof (pending_bounds (Some b)).
  apply (good_change s s b b Failed []); try done; [cbn in *; lia| |constructor].
  intros t. split_and!; cbn; set_solver.
Qed.

Lemma good_process_transfer success s :
  balancing_from base s → good s (process_transfer success s).1.
Proof.
  intros Hs. unfold process_transfer, bind, gets, ret.
  change (bs_storage s) with (bs_storage s).
  destruct (bs_storage s) as [b|] eqn:Hb; [|by apply good_refl].
  destruct success; simpl; [by apply good_refl|by eapply good_fail].
Qed.

(** An accepted withdrawal identifier. *)
Lemma good_withdraw_id s b id new :
  balancing_from base s → bs_storage s = Some b → 0 < id →
  transfer_step (tr_state b) new → unpaid new = false →
  new ∈ [RecvUsdtWaitConfirm; RecvBtcWaitConfirm] →
  good s ((do! update_transfer (λ b, b <| tr_withdraw_id := Some id |>) in
           update_balancing_state new) s).1.
Proof.
  intros Hs Hb Hid Hstep Hun Hnew. unfold update_transfer, bind, modify.
  pose proof (pending_bounds (Some b)).
  apply (good_change s _ b (b <| tr_withdraw_id := Some id |>) new []);
    try done; [cbn; by rewrite_field Hb|cbn in *; rewrite Hun; cbn; lia| ].
  intros t. split_and!; cbn.
  - set_solver.
  - set_solver.
  - intros _. by exists id.
Qed.

Lemma good_process_withdraw id s : balancing_from base s → good s (process_withdraw id s).1.
Proof.
  intros Hs. unfold process_withdraw. unfold bind at 1, gets at 1. cbv beta iota.
  change (bs_storage s) with (bs_storage s).
  destruct (bs_storage s) as [b|] eqn:Hb; [|by apply good_refl]. cbv zeta.
  destruct (tr_state b) eqn:Hst; try (by eapply good_fail);
    destruct (0 <? id) eqn:Hid; try (by eapply good_fail);
    destruct (bool_decide (tr_withdraw_id b = None)); try (by eapply good_fail);
    (apply (good_withdraw_id s b); [done|done|lia|rewrite Hst; constructor|done|set_solver]).
Qed.

(** A payment of the wallet. *)
Lemma good_payment s s1 b result next ev :
  balancing_from base s → bs_storage s = Some b →
  unpaid (tr_state b) = true → unpaid next = false → transfer_step (tr_state b) next →
  next ∈ [SendUsdtWaitConfirm; SendBtcWaitLbtcBalance] →
  bs_storage s1 = Some b → bs_log s1 = ev :: bs_log s → is_start ev = false →
  is_save ev = None →
  good s (payment_sent result next s1).1.
Proof.
  intros Hs Hb Hup Hun Hstep Hnext Hb1 Hl He1 He2.
  assert (count is_payout [ev] ≤ 1) as Hc by (simpl; destruct (is_payout ev); simpl; lia).
  unfold payment_sent. destruct result as [txid|e].
  - unfold update_transfer, bind, modify.
    apply (good_change s _ b (b <| tr_txid := Some txid |>) next [ev]); try done.
    + cbn. by rewrite_field Hb1.
    + cbn [pending]. rewrite Hup, Hun. cbn [Z.b2z]. lia.
    + by repeat constructor.
    + intros t. split_and!; cbn; [by eexists|set_solver|set_solver].
  - apply (good_change s _ b b Failed [ev]); try done.
    + cbn [pending]. rewrite Hup. cbn [Z.b2z unpaid]. lia.
    + by repeat constructor.
    + intros t. split_and!; cbn; set_solver.
    + constructor.
Qed.

(** An order to the exchange. *)
Lemma good_order s b m new :
  balancing_from base s → bs_storage s = Some b →
  Z.b2z (is_payout (Bf_module m)) + Z.b2z (unpaid new) ≤ Z.b2z (unpaid (tr_state b)) →
  transfer_step (tr_state b) new → transfer_wf (b <| tr_state := new |>) →
  good s ((do! send_msg m in update_balancing_state new) s).1.
Proof.
  intros Hs Hb Hpay Hstep Hwf. unfold send_msg, bf_emit, bind, modify.
  apply (good_change s _ b b new [Bf_module m]); try done.
  by repeat constructor.
Qed.

Lemma good_process_balancing s :
  balancing_from base s → good s (process_balancing args s).1.
Proof.
  intros Hs. pose proof (good_refl s Hs) as Hrefl.
  unfold process_balancing. unfold bind at 1, gets at 1. cbv beta iota.
  change (bs_storage s) with (bs_storage s).
  destruct (bs_storage s) as [b|] eqn:Hb; [|done]. cbv zeta.
  pose proof (inv_wf _ _ Hs b Hb) as (W1 & W2 & W3).
  unfold bind at 1 2 3, gets at 1 2 3. cbv beta iota.
  destruct (tr_state b) eqn:Hst; try done.
  - destruct (_ && _); [|done].
    unfold bind at 1 2, gets, expect, lift. cbv beta iota.
    destruct (oexpect _ _); [|done..]. unfold sendtoaddress, bind, gets, bf_emit, modify, ret.
    eapply (good_payment s _ b); try done; [by rewrite Hst|rewrite Hst; constructor|set_solver].
  - destruct (_ && _); [|done].
    apply (good_order s b); try done; [by rewrite Hst|rewrite Hst; constructor|].
    split_and!; cbn; [set_solver|intros _; apply W2; set_solver|set_solver].
  - destruct (_ && _); [|done].
    unfold sendtoaddress, bind, gets, bf_emit, modify, ret.
    eapply (good_payment s _ b); try done; [by rewrite Hst|rewrite Hst; constructor|set_solver].
  - destruct (_ && _); [|done].
    apply (good_order s b); try done; [by rewrite Hst|rewrite Hst; constructor|].
    split_and!; cbn; [intros _; apply W1; set_solver|set_solver|set_solver].
  - destruct (from_option _ _ _); [|done].
    pose proof (pending_bounds (Some b)).
    apply (good_change s s b b Complete []); try done; [cbn in *; lia| |rewrite Hst; constructor].
    intros t. split_and!; cbn; set_solver.
  - destruct (_ && _); [|done].
    apply (good_order s b); try done; [by rewrite Hst|rewrite Hst; constructor|].
    split_and!; cbn; [set_solver|intros _; apply W2; set_solver|set_solver].
  - destruct (_ && _); [|done].
    apply (good_order s b); try done; [by rewrite Hst|rewrite Hst; constructor|].
    split_and!; cbn; [set_solver|intros _; apply W2; set_solver|set_solver].
  - destruct Hs as [I1 I2 I3 I4]. unfold save_storage, bf_emit, bind, modify, gets. cbn.
    rewrite Hb in I1. cbn in I1. rewrite Hst in I1. cbn in I1.
    split; [split; cbn; [|done|done|]|right; rewrite Hb; by cbn].
    + change (bs_log s) with (bs_log s). lia.
    + intros storage [[= ->]|Hin]%elem_of_cons; [done|by apply I4].
Qed.

Lemma good_process_movements msg s :
  balancing_from base s → good s (process_movements msg s).1.
Proof.
  intros Hs. pose proof (good_refl s Hs) as Hrefl. unfold process_movements.
  destruct (negb (movements_success msg)); [done|].
  unfold bind at 1, gets at 1. cbv beta iota.
  destruct (negb _).
  { split; [|by left]. apply (inv_modify (λ s, s <| bs_movements := Some msg |>)); done. }
  unfold bind at 1, gets at 1. cbv beta iota. change (bs_storage s) with (bs_storage s).
  destruct (bs_storage s) as [b|] eqn:Hb; [|done]. cbv zeta.
  assert (tr_state b ∈ [SendUsdtWaitConfirm; RecvUsdtWaitConfirm; RecvBtcWaitConfirm] →
          good s (update_balancing_state Complete s).1) as Hdone.
  { intros Hin. apply (good_change s s b b Complete []); try done.
    - pose proof (pending_bounds (Some b)). cbn in *. lia.
    - intros t. split_and!; cbn; set_solver.
    - set_unfold in Hin. destruct Hin as [->|[->|[->|[]]]]; constructor. }
  destruct (tr_state b); try done.
  - unfold bind, expect, lift. destruct (oexpect _ _); [|done..].
    destruct (existsb _ _); [|done]. apply Hdone. set_solver.
  - destruct (existsb _ _); [|done]. apply Hdone. set_solver.
  - destruct (existsb _ _); [|done]. apply Hdone. set_solver.
Qed.

Lemma started_text rest : String.prefix "start balancing, " ("start balancing, " +:+ rest) = true.
Proof. by destruct rest. Qed.

Lemma good_on_cli data s : balancing_from base s → good s (on_cli data s).1.
Proof.
  intros Hs. unfold on_cli.
  destruct (cli_request (cli_req data)) as [st amount] eqn:Hreq.
  assert (st ∈ [SendUsdtNew; RecvUsdtNew; SendBtcNew; RecvBtcNew]) as Hst.
  { destruct (cli_req data); simpl in Hreq; injection Hreq as <- _; set_solver. }
  unfold bind at 1, gets at 1. cbv beta iota. change (bs_storage s) with (bs_storage s).
  destruct (bs_storage s) as [b|] eqn:Hb.
  - destruct (cli_resp_tx data); [|by apply good_refl].
    split; [by apply inv_emit|by left].
  - destruct Hs as [I1 I2 I3 I4]. rewrite Hb in I1. cbn [pending] in I1.
    set (resp := CliResponse_Success "success").
    assert (∀ b, tr_state b = st → tr_withdraw_id b = None → transfer_wf b) as Hwf.
    { intros b Hbs Hbw. unfold transfer_wf. rewrite Hbs. split_and!; [|done|]; intros Hin; exfalso;
        clear -Hst Hin; rewrite !elem_of_cons in Hst; destruct Hst as [->|[->|[->|[->|Hst]]]]; set_solver. }
    match goal with |- good s (bind ?m ?k s).1 => set (m' := m); set (k' := k) end.
    assert (good s (m' s).1 ∧ (m' s).2 = Ok resp) as [Hg Hr].
    { unfold m', system_now, save_storage, send_notification, bf_emit, bind, gets, modify, ret.
      cbn. split; [|done]. split; [split|]; cbn.
      - change (bs_log s) with (bs_log s). rewrite started_text.
        destruct (unpaid st); cbn [Z.b2z]; lia.
      - done.
      - intros b [= <-]. by apply Hwf.
      - intros storage [[=]|[[= ->]|[[=]|[[=]|Hin]%elem_of_cons]%elem_of_cons]%elem_of_cons]%elem_of_cons;
          [|by apply I4]. intros b [= <-]. by apply Hwf.
      - right. rewrite Hb. cbn. done. }
    unfold bind. destruct (m' s) as [s1 o]. cbn in Hr, Hg. subst o. unfold k'.
    destruct (cli_resp_tx data); [|done]. destruct Hg as [Hg1 Hg2]. split; [|done].
    by apply inv_emit.
Qed.
End Inv.

(** ** Properties *)

(** Deciding whether to balance never panics and never proposes a transfer when
    one of the five inputs is zero; a proposed transfer is not worth less than the
    minimum of 1000 USDt. *)
Theorem get_balancing_sound wb eb wu eu price :
  ∃ r, get_balancing wb eb wu eu price = Ok r ∧
    (feqb price f0 || feqb wb f0 || feqb eb f0 || feqb wu f0 || feqb eu f0 = true →
     r = AssetBalancing_None) ∧
    match r with
    | AssetBalancing_None => True
    | AssetBalancing_RecvBtc v | AssetBalancing_SendBtc v =>
        fltb (fmul v price) MIN_BALANCING_AMOUNT_USDT = false
    | AssetBalancing_RecvUsdt v | AssetBalancing_SendUsdt v =>
        fltb v MIN_BALANCING_AMOUNT_USDT = false
    end.
Proof.
  assert (∀ x y, ∃ k, get_balancing_smaller x y RATIO_BTC = Ok k) as Hbtc.
  { intros x y. unfold get_balancing_smaller. destruct (_ || _); [by eexists|]. cbv zeta.
    do 4 (match goal with |- context [oassert ?b ?e] =>
      replace (oassert b e) with (@Ok unit tt) by (by vm_compute) end; cbn [obind]).
    by eexists. }
  assert (∀ x y, ∃ k, get_balancing_smaller x y RATIO_USDT = Ok k) as Husdt by exact Hbtc.
  unfold get_balancing. destruct (_ || _ || _ || _ || _).
  { eexists. split; [done|]. done. }
  cbv zeta. set (small := fltb _ _).
  match goal with |- context [obind _ ?x] => assert (∃ k, x = Ok k) as [k ->] end.
  { destruct small; auto. }
  cbn [obind]. eexists. split; [reflexivity|]. split; [done|].
  match goal with |- match (if fltb ?v _ then _ else ?r) with _ => _ end =>
    destruct (fltb v MIN_BALANCING_AMOUNT_USDT) eqn:E; [done|destruct r; done] end.
Qed.
