(* ===== verification/Bitfinex.v ===== *)
(** * The Bitfinex dealer's main loop

    Models [rust/sideswap_dealer_bitfinex/src/main.rs]: the loop that connects the
    swap server, the exchange module, the wallet and the dealer's worker.  One
    Definition per arm of the loop's [match]; the messages the loop sends to itself
    are events of the log. *)
From stdpp Require Import sorting base numbers gmap sets strings list pretty.
From Stdlib Require Import ZArith QArith Qabs Lqa Lia SpecFloat.
From S2P Require Import Prelude F64 Api Env Types Dealer Balancing.

Open Scope Z_scope.
#[local] Set Primitive Projections.

(** ** Constants *)

Definition DEALER_TICKERS : list DealerTicker := [DEALER_USDT; DEALER_EURX].
Definition MIN_BALANCE_BITCOIN : f64 := flit 5 100.
Definition MIN_BALANCE_TETHER : f64 := f64_of_Z 2500.
Definition BF_RESERVE : f64 := flit 99 100.
Definition MAX_RATIO_UPDATE_NOTIFICATION : f64 := flit 5 100.
Definition PRICE_EXPIRED : Z := 300000.
Definition INTEREST_DEFAULT_USDT : f64 := flit 10075 10000.
Definition INTEREST_DEFAULT_EURX : f64 := flit 10040 10000.
Definition MIN_HEDGE_AMOUNT : f64 := flit 2 10000.
Definition BITFINEX_FEE_PROD : f64 := flit 17 10000.
Definition BITFINEX_FEE_TEST : f64 := flit 2 1000.
Definition INSTANT_SWAP_WORK_AMOUNT : f64 := flit 995 1000.

Definition get_exchange_balance (exchange_balances : gmap ExchangeTicker f64)
    (name : ExchangeTicker) : Z :=
  from_bitcoin (fmul (default f0 (exchange_balances !! name)) BF_RESERVE).

(** [utxos.values().filter(asset).map(amount).sum()] *)
Definition wallet_amount (utxos : gmap TxOut Utxo) (asset : AssetId) : Z :=
  wsum (utxo_amount <$> filter (λ u, ui_asset (utxo_item u) = asset) (btree_list utxos).*2).

Definition get_prices (args : Args) (ticker : DealerTicker) (prices : PricePair)
    (assets : list Asset) (utxos : gmap TxOut Utxo)
    (exchange_balances : gmap ExchangeTicker f64) : outcome (list PriceOffer) :=
  let exchange_btc_amount :=
    get_exchange_balance exchange_balances (args_bitfinex_currency_btc args) in
  let exchange_asset_currency :=
    if decide (ticker = DEALER_USDT) then Some (args_bitfinex_currency_usdt args)
    else if decide (ticker = DEALER_EURX) then Some (args_bitfinex_currency_eur args)
    else None in
  match exchange_asset_currency with
  | None => Ok []
  | Some exchange_asset_currency =>
      let exchange_asset_amount :=
        if decide (ticker = DEALER_EURX)
        then wi64 (wi64 (10 * COIN) * f_as_i64 (price_pair_ask prices))
        else get_exchange_balance exchange_balances exchange_asset_currency in
      let? btc_asset := oexpect (find_ticker assets TICKER_LBTC) "called `Option::unwrap()`" in
      let? asset := oexpect (find_ticker assets ticker) "called `Option::unwrap()`" in
      let wallet_btc_amount := wallet_amount utxos (asset_asset_id btc_asset) in
      let wallet_asset_amount := wallet_amount utxos (asset_asset_id asset) in
      let max_send_asset_amount :=
        f_as_i64 (fmul (fmin (fmul (f64_of_Z wallet_btc_amount) (price_pair_ask prices))
                             (f64_of_Z exchange_asset_amount))
                       INSTANT_SWAP_WORK_AMOUNT) in
      let max_send_bitcoin_amount :=
        f_as_i64 (fmul (fmin (f64_of_Z exchange_btc_amount)
                             (fdiv (f64_of_Z wallet_asset_amount) (price_pair_bid prices)))
                       INSTANT_SWAP_WORK_AMOUNT) in
      Ok ((if 0 <? max_send_asset_amount
           then [{| price_offer_client_send_bitcoins := false;
                    price_offer_price := price_pair_ask prices;
                    price_offer_max_send_amount := max_send_asset_amount |}]
           else []) ++
          (if 0 <? max_send_bitcoin_amount
           then [{| price_offer_client_send_bitcoins := true;
                    price_offer_price := price_pair_bid prices;
                    price_offer_max_send_amount := max_send_bitcoin_amount |}]
           else []))
  end.

Definition get_exchange_ticker (ticker : ExchangeTicker) (args : Args) : option DealerTicker :=
  if decide (ticker = args_bitfinex_currency_btc args) then Some DEALER_LBTC
  else if decide (ticker = args_bitfinex_currency_usdt args) then Some DEALER_USDT
  else if decide (ticker = args_bitfinex_currency_eur args) then Some DEALER_EURX
  else None.

(** The size of the hedging order: what is bought back covers the exchange's fee. *)
Definition hedge_amount (args : Args) (bitcoin_amount : Z) (send_bitcoins : bool) : f64 :=
  let bf_fee := if mainnet args then BITFINEX_FEE_PROD else BITFINEX_FEE_TEST in
  if send_bitcoins
  then to_bitcoin (from_bitcoin (fdiv (to_bitcoin bitcoin_amount) (fsub f1 bf_fee)))
  else fneg (to_bitcoin bitcoin_amount).

Section Loop.
Context `{BfEnv} (args : Args).

Definition book_names : gmap DealerTicker string :=
  {[ DEALER_USDT := args_bitfinex_bookname_usdt args;
     DEALER_EURX := args_bitfinex_bookname_eurx args ]}.

(** The inverse of [book_names]; of two equal names the later ticker wins. *)
Definition book_tickers : gmap string DealerTicker :=
  foldl (λ m '(ticker, book), <[book := ticker]> m) ∅ (btree_list book_names).

Definition bf_send_request {A} (r : Request) (proj : Response → option A) : BfM (A + Error) :=
  let! log := gets bs_log in
  let resp := bf_server log r in
  do! bf_emit (Bf_request r resp) in
  match resp with
  | None => panic "request timeout"
  | Some (inr e) => ret (inr e)
  | Some (inl v) => lift (let? a := oexpect (proj v) "unexpected response type" in Ok (inl a))
  end.

Definition bf_send_request_expect {A} (r : Request) (proj : Response → option A) (e : string)
    : BfM A :=
  let! resp := bf_send_request r proj in
  match resp with inl a => ret a | inr _ => panic e end.

(** [.expect(e)] on the result of an RPC call, which is logged. *)
Definition rpc_expect {A} (call : list BfEvent → A + string) (ev : A + string → BfEvent)
    (e : string) : BfM A :=
  let! log := gets bs_log in
  let r := call log in
  do! bf_emit (ev r) in
  match r with inl a => ret a | inr _ => panic e end.

(** The balances of a message, joined. *)
Definition balances_text (balances : gmap string f64) : string :=
  String.concat ", " ((λ '(name, balance), name +:+ ": " +:+ bf_text_8 balance) <$> btree_list balances).

(** *** Broadcasting prices, before each message *)

Definition broadcast_interest (asset : AssetId) : outcome f64 :=
  if bool_decide (asset = usdt_asset (args_env args)) then Ok INTEREST_DEFAULT_USDT
  else if bool_decide (asset = eurx_asset (args_env args)) then Ok INTEREST_DEFAULT_EURX
  else Panic "unexpected asset".

Definition broadcast_price (now : Z) (entry : DealerTicker * Price) : BfM unit :=
  let '(ticker, module_price) := entry in
  let! broadcast_timestamps := gets bs_broadcast_timestamps in
  let! server_connected := gets bs_server_connected in
  let expired :=
    from_option (λ timestamp, 1000 <? duration_since now timestamp) true
      (broadcast_timestamps !! ticker) in
  if expired && server_connected then
    let! assets := gets bs_assets in
    let! asset := expect (find_ticker assets ticker) "asset must be known" in
    let! interest := lift (broadcast_interest (asset_asset_id asset)) in
    let price_new :=
      {| price_pair_bid := fdiv (price_bid module_price) interest;
         price_pair_ask := fmul (price_ask module_price) interest |} in
    let! server_status := gets bs_server_status in
    do! (if bool_decide (is_Some (args_api_key args)) && bool_decide (is_Some server_status) then
           let! _r :=
             bf_send_request (Request_PriceUpdateBroadcast
               {| price_update_broadcast_asset := asset_asset_id asset;
                  price_update_broadcast_price := price_new |}) as_PriceUpdateBroadcast in
           let! utxos := gets bs_utxos in
           let! exchange_balances := gets bs_exchange_balances in
           let! list := lift (get_prices args ticker price_new assets utxos exchange_balances) in
           let! storage := gets bs_storage in
           let! _r :=
             bf_send_request (Request_BroadcastPriceStream
               {| broadcast_price_stream_asset := asset_asset_id asset;
                  broadcast_price_stream_list := list;
                  broadcast_price_stream_balancing := bool_decide (is_Some storage) |})
               as_BroadcastPriceStream in
           ret tt
         else ret tt) in
    modify (λ s, s <| bs_broadcast_timestamps ::= <[ticker := now]> |>)
  else ret tt.

Definition broadcast_prices (now : Z) : BfM unit :=
  let! module_prices := gets bs_module_prices in
  for_each (btree_list module_prices) (broadcast_price now).

(** *** Hedging *)

Definition hedge_order (dealer_ticker : DealerTicker) (bitcoin_amount : Z)
    (send_bitcoins : bool) : BfM unit :=
  let! t := instant_now in
  do! modify (λ s, s <| bs_balancing_blocked := t |>) in
  let signed_bitcoin_amount := hedge_amount args bitcoin_amount send_bitcoins in
  if fgeb (to_bitcoin bitcoin_amount) MIN_HEDGE_AMOUNT then
    let! t := instant_now in
    do! modify (λ s, s <| bs_profit_reports := Some
          {| pr_wallet_balances := bs_wallet_balances s;
             pr_exchange_balances := bs_exchange_balances s;
             pr_created_at := t |} |>) in
    let! cid := system_now in
    let! bookname := expect (book_names !! dealer_ticker) "bookname must be know" in
    do! send_msg (ToModule_OrderSubmit {| os_book_name := bookname; os_cid := cid;
                                          os_amount := signed_bitcoin_amount |}) in
    let! t := instant_now in
    modify (λ s, s <| bs_pending_orders ::= <[cid := t]> |>)
  else ret tt.

(** *** Server connection *)

Definition bf_on_connected : BfM unit :=
  do! send_notification "connected to the server" in
  do! match args_api_key args with
      | Some api_key =>
          bf_send_request_expect
            (Request_LoginDealer {| login_dealer_api_key := api_key |}) as_LoginDealer
            "dealer login failed"
      | None => ret tt
      end in
  let! resp :=
    bf_send_request_expect
      (Request_Assets (Some {| assets_request_param_embedded_icons := false |})) as_Assets
      "loading assets failed" in
  do! modify (λ s, s <| bs_assets := assets_resp_assets resp |>) in
  let! login_resp :=
    bf_send_request_expect (Request_Login {| login_session_id := None |}) as_Login
      "subscribing to order list failed" in
  do! for_each (login_resp_orders login_resp) (λ order,
        modify (λ s, s <| bs_orders ::= <[order_created_order_id order := order]> |>)) in
  let! status :=
    bf_send_request_expect (Request_ServerStatus tt) as_ServerStatus
      "loading server status failed" in
  do! modify (λ s, s <| bs_server_status := Some status |>) in
  do! modify (λ s, s <| bs_server_connected := true |>) in
  bf_emit (Bf_self Bf_ReloadUtxo).

Definition bf_on_disconnected : BfM unit :=
  do! send_notification "disconnected from the server" in
  modify (λ s, s <| bs_server_connected := false |>).

(** *** Instant swaps *)

(** The wallet's spendable outputs of an asset, with their blinding factors. *)
Definition swap_input (utxo : Utxo) : outcome PsetInput :=
  let item := utxo_item utxo in
  let? asset_bf := oexpect (ui_assetblinder item) "called `Option::unwrap()`" in
  let? value := from_rpc (ui_amount item) in
  let? value_bf := oexpect (ui_amountblinder item) "called `Option::unwrap()`" in
  Ok {| pset_input_txid := ui_txid item;
        pset_input_vout := ui_vout item;
        pset_input_asset := ui_asset item;
        pset_input_asset_bf := asset_bf;
        pset_input_value := wu64 value;
        pset_input_value_bf := value_bf;
        pset_input_redeem_script := ui_redeem_script item |}.

Fixpoint swap_inputs (utxos : list Utxo) : outcome (list PsetInput) :=
  match utxos with
  | [] => Ok []
  | utxo :: utxos =>
      let? input := swap_input utxo in
      let? inputs := swap_inputs utxos in
      Ok (input :: inputs)
  end.

Definition on_start_swap (data : StartSwapDealerNotification) : BfM unit :=
  let send_asset := start_swap_dealer_ntf_send_asset data in
  let order_id := start_swap_dealer_ntf_order_id data in
  let! utxos := gets bs_utxos in
  let! inputs := lift (swap_inputs (asset_utxos utxos send_asset)) in
  let! recv_addr := rpc_expect bf_new_address Bf_new_address "getting new address failed" in
  let! change_addr := rpc_expect bf_new_address Bf_new_address "getting new address failed" in
  let! _r :=
    bf_send_request (Request_StartSwapDealer
      {| start_swap_dealer_order_id := order_id;
         start_swap_dealer_inputs := inputs;
         start_swap_dealer_recv_addr := recv_addr;
         start_swap_dealer_change_addr := change_addr |}) as_StartSwapDealer in
  modify (λ s, s <| bs_instant_swaps ::= <[order_id := send_asset]> |>).

(** The keys for the inputs of the PSET that are outputs of the sent asset. *)
Fixpoint swap_sign_inputs (own_inputs : list Utxo) (index : nat) (inputs : list TxOut)
    (sigs : list (nat * string * string * option string))
    : BfM (list (nat * string * string * option string)) :=
  match inputs with
  | [] => ret sigs
  | input :: inputs =>
      match find (λ u, bool_decide (tx_out (utxo_item u) = input)) own_inputs with
      | None => swap_sign_inputs own_inputs (S index) inputs sigs
      | Some utxo =>
          let item := utxo_item utxo in
          let! priv_key :=
            rpc_expect (λ log, bf_dumpprivkey log (ui_address item))
              (Bf_dumpprivkey (ui_address item)) "loading priv key failed" in
          let! private_key :=
            lift (match private_key_from_str priv_key with
                  | Err e => Panic e | x => x end) in
          let! commitment := expect (ui_amountcommitment item) "amountcommitment" in
          let! value_commitment := expect (value_commitment_from_str commitment) "commitment" in
          swap_sign_inputs own_inputs (S index) inputs
            (sigs ++ [(index, private_key, value_commitment, ui_redeem_script item)])
      end
  end.

Definition on_blinded_swap (data : BlindedSwapDealerNotification) : BfM unit :=
  let order_id := blinded_swap_dealer_order_id data in
  let pset := blinded_swap_dealer_pset data in
  let! inputs :=
    lift (match pset_inputs pset with Err e => Panic "parsing pset failed" | x => x end) in
  let! swaps := gets bs_instant_swaps in
  let! send_asset := expect (swaps !! order_id) "order not found" in
  let! utxos := gets bs_utxos in
  let! sigs := swap_sign_inputs (asset_utxos utxos send_asset) 0 inputs [] in
  let! _r :=
    bf_send_request (Request_SignedSwapDealer
      {| signed_swap_dealer_order_id := order_id;
         signed_swap_dealer_pset := pset_finalize pset sigs |}) as_SignedSwapDealer in
  ret tt.

Definition on_swap_done (swap : SwapDoneNotification) : BfM unit :=
  let order_id := swap_done_order_id swap in
  let! swaps := gets bs_instant_swaps in
  let! _active := expect (swaps !! order_id) "order not found" in
  do! modify (λ s, s <| bs_instant_swaps ::= delete order_id |>) in
  if decide (swap_done_status swap = SwapDoneStatus_Success) then
    let! _txid := expect (swap_done_txid swap) "called `Option::unwrap()`" in
    let dealer_send_bitcoins :=
      bool_decide (swap_done_recv_asset swap = policy_asset (args_env args)) in
    let '(asset_id, bitcoin_amount) :=
      if dealer_send_bitcoins
      then (swap_done_send_asset swap, swap_done_recv_amount swap)
      else (swap_done_recv_asset swap, swap_done_send_amount swap) in
    let! assets := gets bs_assets in
    let! asset := expect (find_asset assets asset_id) "asset must be known" in
    let! dealer_ticker :=
      expect (find (λ ticker, bool_decide (ticker = asset_ticker asset)) DEALER_TICKERS)
        "dealer ticker must known" in
    hedge_order dealer_ticker bitcoin_amount dealer_send_bitcoins
  else ret tt.

Definition bf_on_notification (notification : Notification) : BfM unit :=
  match notification with
  | Notification_ServerStatus status =>
      modify (λ s, s <| bs_server_status := Some status |>)
  | Notification_OrderCreated order =>
      match order_created_own order with
      | None =>
          do! modify (λ s, s <| bs_orders ::= <[order_created_order_id order := order]> |>) in
          bf_emit (Bf_self Bf_Timer)
      | Some _ => ret tt
      end
  | Notification_OrderRemoved order =>
      modify (λ s, s <| bs_orders ::= delete (order_removed_order_id order) |>)
  | Notification_StartSwapDealer data => on_start_swap data
  | Notification_BlindedSwapDealer data => on_blinded_swap data
  | Notification_SwapDone swap => on_swap_done swap
  | _ => ret tt
  end.

(** *** Wallet *)

Fixpoint sum_confirmed (items : list UnspentItem) (m : gmap AssetId f64)
    : outcome (gmap AssetId f64) :=
  match items with
  | [] => Ok m
  | item :: items =>
      let? sat := from_rpc (ui_amount item) in
      let v := default f0 (m !! ui_asset item) in
      sum_confirmed items
        (<[ui_asset item := if 0 <? ui_confirmations item then fadd v (to_bitcoin sat) else v]> m)
  end.

(** Bitcoin's share of the wallet's value in satoshis. *)
Fixpoint ratio_amounts (items : list UnspentItem) (assets : list Asset) (bitcoin tether : Z)
    : outcome (Z * Z) :=
  match items with
  | [] => Ok (bitcoin, tether)
  | utxo :: items =>
      match find_asset assets (ui_asset utxo) with
      | None => ratio_amounts items assets bitcoin tether
      | Some asset =>
          let? utxo_amount := from_rpc (ui_amount utxo) in
          if decide (asset_ticker asset = TICKER_LBTC)
          then ratio_amounts items assets (wi64 (bitcoin + utxo_amount)) tether
          else if decide (asset_ticker asset = TICKER_USDT)
          then ratio_amounts items assets bitcoin (wi64 (tether + utxo_amount))
          else ratio_amounts items assets bitcoin tether
      end
  end.

Definition bitcoin_ratio (unspent_with_zc : list UnspentItem) (price : Price)
    (assets : list Asset) : outcome f64 :=
  let? ' (bitcoin_amount, tether_amount) := ratio_amounts unspent_with_zc assets 0 0 in
  let expected_tether_price := fdiv (fadd (price_ask price) (price_bid price)) (f64_of_Z 2) in
  let bitcoin_amount_from_tether :=
    from_bitcoin (fdiv (to_bitcoin tether_amount) expected_tether_price) in
  let total_bitcoin_amount := wi64 (bitcoin_amount + bitcoin_amount_from_tether) in
  Ok (if total_bitcoin_amount =? 0 then f0
      else fdiv (to_bitcoin bitcoin_amount) (to_bitcoin total_bitcoin_amount)).

Definition update_ratio (unspent_with_zc : list UnspentItem) : BfM unit :=
  let! module_prices := gets bs_module_prices in
  let! assets := gets bs_assets in
  match module_prices !! DEALER_USDT with
  | Some price =>
      if bool_decide (assets ≠ []) then
        let! ratio := lift (bitcoin_ratio unspent_with_zc price assets) in
        let! old := gets bs_bitcoin_ratio_old in
        if from_option (λ v, fgeb (fabs (fsub v ratio)) MAX_RATIO_UPDATE_NOTIFICATION) true old
        then modify (λ s, s <| bs_bitcoin_ratio_old := Some ratio |>)
        else ret tt
      else ret tt
  | None => ret tt
  end.

Definition bf_on_reload_utxo : BfM unit :=
  let! unspent_with_zc := rpc_expect bf_list_unspent Bf_list_unspent "list_unspent failed" in
  let! asset_amounts := lift (sum_amounts unspent_with_zc ∅) in
  let! asset_amounts_confirmed := lift (sum_confirmed unspent_with_zc ∅) in
  let! assets := gets bs_assets in
  let wallet_balances_new := convert_balances assets asset_amounts in
  do! modify (λ s, s <| bs_wallet_balances_confirmed :=
                        convert_balances assets asset_amounts_confirmed |>) in
  let! wallet_balances := gets bs_wallet_balances in
  do! (if f64_map_eqb wallet_balances wallet_balances_new then ret tt
       else
         do! modify (λ s, s <| bs_wallet_balances := wallet_balances_new |>) in
         send_notification ("ss: " +:+ balances_text wallet_balances_new)) in
  do! update_ratio unspent_with_zc in
  let! utxos := gets bs_utxos in
  let! utxos := lift (update_utxos unspent_with_zc utxos) in
  modify (λ s, s <| bs_utxos := utxos |>).

(** *** Exchange module *)

(** The [params.tickers] of [main]. *)
Definition params_tickers : gset DealerTicker := {[ DEALER_USDT; DEALER_EURX ]}.

Definition on_module_connected : BfM unit :=
  do! modify (λ s, s <| bs_module_connected := true |>) in
  do! send_notification "module connection online" in
  do! send_msg (ToModule_Login (args_bitfinex_key args) (args_bitfinex_secret args)) in
  do! for_each (btree_list book_names).*2 (λ book_name,
        send_msg (ToModule_Subscribe book_name)) in
  bf_emit (Bf_self Bf_CheckExchange).

Definition send_price (ticker : DealerTicker) (price : option PricePair) : BfM unit :=
  bf_emit (Bf_dealer (To_Price {| to_price_ticker := ticker; to_price_price := price |})).

Definition on_module_disconnected : BfM unit :=
  do! modify (λ s, s <| bs_module_connected := false |>) in
  do! send_notification "module connection offline" in
  do! modify (λ s, s <| bs_module_prices := ∅ |>) in
  for_each (btree_elements params_tickers) (λ ticker, send_price ticker None).

Definition on_book_update (now : Z) (book_name : string) (bid ask : f64) : BfM unit :=
  let! ticker := expect (book_tickers !! book_name) "book ticker must be known" in
  let! module_prices := gets bs_module_prices in
  do! modify (λ s, s <| bs_module_prices ::=
        <[ticker := {| price_bid := bid; price_ask := ask; price_timestamp := now |}]> |>) in
  do! send_price ticker (Some {| price_pair_bid := bid; price_pair_ask := ask |}) in
  if bool_decide (module_prices !! ticker = None)
  then send_notification ("module price refreshed: " +:+ bf_text ask +:+ "/" +:+ bf_text bid +:+
                          " for " +:+ ticker)
  else ret tt.

Definition on_wallet_update (currency : ExchangeTicker) (balance : f64) : BfM unit :=
  let! exchange_balances := gets bs_exchange_balances in
  let old_balance := exchange_balances !! currency in
  if from_option (λ old, feqb old balance) false old_balance then ret tt
  else
    do! match get_exchange_ticker currency args with
        | Some ticker =>
            bf_emit (Bf_dealer (To_LimitBalance
              {| limit_ticker := ticker;
                 limit_recv_limit := true;
                 limit_balance := fmul balance BF_RESERVE |}))
        | None => ret tt
        end in
    do! modify (λ s, s <| bs_exchange_balances ::= <[currency := balance]> |>) in
    if bool_decide (is_Some old_balance) then bf_emit (Bf_self Bf_CheckExchange) else ret tt.

Definition on_module_message (now : Z) (msg : FromModule) : BfM unit :=
  match msg with
  | FromModule_BookUpdate book_name bid ask => on_book_update now book_name bid ask
  | FromModule_OrderConfirm msg =>
      modify (λ s, s <| bs_pending_orders ::= delete (oc_cid msg) |>)
  | FromModule_WalletUpdate currency balance => on_wallet_update currency balance
  | FromModule_Withdraw withdraw_id => process_withdraw withdraw_id
  | FromModule_Movements msg => process_movements msg
  | FromModule_Transfer success => process_transfer success
  | FromModule_Error error => send_notification ("module failed: " +:+ error)
  end.

Definition on_check_exchange : BfM unit :=
  let! storage := gets bs_storage in
  let! module_connected := gets bs_module_connected in
  match storage with
  | Some balancing =>
      if module_connected then
        send_msg (ToModule_Movements {|
          mv_key := args_bitfinex_key args;
          mv_secret := args_bitfinex_secret args;
          mv_start := Some (wi64 (tr_created_at balancing - 10000));
          mv_end := None;
          mv_limit := None |})
      else ret tt
  | None => ret tt
  end.

(** *** The timer *)

Definition wallet_balance (s : BfState) (ticker : DealerTicker) : f64 :=
  default f0 (bs_wallet_balances s !! ticker).
Definition exchange_balance (s : BfState) (currency : ExchangeTicker) : f64 :=
  default f0 (bs_exchange_balances s !! currency).

(** The problems the health endpoint reports, in the order of the source. *)
Definition health_status (s : BfState) (balancing_expired : bool) : list string :=
  omap (λ '(b, label), if (b : bool) then Some label else None)
    [ (negb (bs_module_connected s), "ServerOffline");
      (negb (bs_server_connected s), "ModuleOffline");
      (negb (bool_decide (size (bs_module_prices s) = length DEALER_TICKERS)), "PriceExpired");
      (fltb (wallet_balance s DEALER_LBTC) MIN_BALANCE_BITCOIN, "WalletBitcoinLow");
      (fltb (exchange_balance s (args_bitfinex_currency_btc args)) MIN_BALANCE_BITCOIN,
       "ExchangeBitcoinLow");
      (fltb (wallet_balance s DEALER_USDT) MIN_BALANCE_TETHER, "WalletTetherLow");
      (fltb (exchange_balance s (args_bitfinex_currency_usdt args)) MIN_BALANCE_TETHER,
       "ExchangeTetherLow");
      (balancing_expired, "BalancingStuck") ].

Definition update_health : BfM unit :=
  let! storage := gets bs_storage in
  let! balancing_expired :=
    match storage with
    | None => ret false
    | Some balancing =>
        let! t := system_now in
        do! lift (oassert (tr_created_at balancing <=? t) "must succeed") in
        ret (30 * 60 * 1000 <? t - tr_created_at balancing)
    end in
  modify (λ s, s <| bs_health_text :=
    match health_status s balancing_expired with [] => None | l => Some l end |>).

Definition send_cli_request (req : CliRequest) : BfM unit :=
  bf_emit (Bf_self (Bf_Cli {| cli_req := req; cli_resp_tx := false |})).

(** Start a transfer when the balances ask for one. *)
Definition auto_balance (now : Z) : BfM unit :=
  let! s := gets id in
  match bs_storage s, bs_module_prices s !! DEALER_USDT with
  | None, Some price =>
      if mainnet args && (60000 <? duration_since now (bs_balancing_blocked s)) &&
         args_balancing_enabled args
      then
        let usdt_price := fdiv (fadd (price_bid price) (price_ask price)) (f64_of_Z 2) in
        let! balancing :=
          lift (get_balancing
            (wallet_balance s DEALER_LBTC)
            (exchange_balance s (args_bitfinex_currency_btc args))
            (wallet_balance s DEALER_USDT)
            (exchange_balance s (args_bitfinex_currency_usdt args))
            usdt_price) in
        match balancing with
        | AssetBalancing_None => ret tt
        | AssetBalancing_RecvBtc amount => send_cli_request (TestRecvBtc amount)
        | AssetBalancing_SendBtc amount => send_cli_request (TestSendBtc amount)
        | AssetBalancing_RecvUsdt amount => send_cli_request (TestRecvUsdt amount)
        | AssetBalancing_SendUsdt amount => send_cli_request (TestSendUsdt amount)
        end
      else ret tt
  | _, _ => ret tt
  end.

Definition expire_price (now : Z) (ticker : DealerTicker) : BfM unit :=
  let! module_prices := gets bs_module_prices in
  match module_prices !! ticker with
  | Some module_price =>
      if (PRICE_EXPIRED <? duration_since now (price_timestamp module_price)) && mainnet args then
        do! send_notification ("module price expired for " +:+ ticker) in
        do! modify (λ s, s <| bs_module_prices ::= delete ticker |>) in
        send_price ticker None
      else ret tt
  | None => ret tt
  end.

Definition report_balances : BfM unit :=
  let! s := gets id in
  if f64_map_eqb (bs_exchange_balances_reported s) (bs_exchange_balances s) then ret tt
  else
    do! modify (λ s, s <| bs_exchange_balances_reported := bs_exchange_balances s |>) in
    send_notification ("bf: " +:+ balances_text (bs_exchange_balances s)).

Definition check_exchange_timer (now : Z) : BfM unit :=
  let! latest_check_exchange := gets bs_latest_check_exchange in
  if 60000 <? duration_since now latest_check_exchange then
    do! bf_emit (Bf_self Bf_CheckExchange) in
    modify (λ s, s <| bs_latest_check_exchange := now |>)
  else ret tt.

(** The balances changed on both sides since the hedged swap. *)
Definition profit_complete (s : BfState) (data : ProfitsReport) : bool :=
  let wallet_changed ticker :=
    fneb (wallet_balance s ticker) (default f0 (pr_wallet_balances data !! ticker)) in
  let exchange_changed currency :=
    fneb (exchange_balance s currency) (default f0 (pr_exchange_balances data !! currency)) in
  let bitcoins_updated :=
    wallet_changed DEALER_LBTC && exchange_changed (args_bitfinex_currency_btc args) in
  let usdt_updated :=
    wallet_changed DEALER_USDT && exchange_changed (args_bitfinex_currency_usdt args) in
  let eur_updated :=
    wallet_changed DEALER_EURX && exchange_changed (args_bitfinex_currency_eur args) in
  bitcoins_updated && (usdt_updated || eur_updated).

Definition report_profit : BfM unit :=
  let! profit_reports := gets bs_profit_reports in
  do! match profit_reports with
      | Some data =>
          let! t := instant_now in
          if 60000 <? duration_since t (pr_created_at data)
          then modify (λ s, s <| bs_profit_reports := None |>)
          else ret tt
      | None => ret tt
      end in
  let! s := gets id in
  match bs_profit_reports s with
  | Some data =>
      if profit_complete s data then
        let change ticker currency :=
          fsub (fsub (fadd (wallet_balance s ticker) (exchange_balance s currency))
                     (default f0 (pr_wallet_balances data !! ticker)))
               (default f0 (pr_exchange_balances data !! currency)) in
        do! send_notification
              ("swap complete, balance change: bitcoin: " +:+
               bf_text_8 (change DEALER_LBTC (args_bitfinex_currency_btc args)) +:+
               ", usdt: " +:+ bf_text_8 (change DEALER_USDT (args_bitfinex_currency_usdt args)) +:+
               ", eurx: " +:+ bf_text_8 (change DEALER_EURX (args_bitfinex_currency_eur args))) in
        modify (λ s, s <| bs_profit_reports := None |>)
      else ret tt
  | None => ret tt
  end.

Definition expire_orders (now : Z) : BfM unit :=
  let! pending_orders := gets bs_pending_orders in
  for_each
    (filter (λ e : Z * Z, 30000 < duration_since now e.2) (btree_list pending_orders)).*1
    (λ cid,
      do! send_notification (":fire: bf order " +:+ pretty cid +:+ " timeout") in
      modify (λ s, s <| bs_pending_orders ::= delete cid |>)).

Definition bf_on_timer (now : Z) : BfM unit :=
  do! update_health in
  do! auto_balance now in
  do! for_each DEALER_TICKERS (expire_price now) in
  do! report_balances in
  do! process_balancing args in
  do! check_exchange_timer now in
  do! report_profit in
  expire_orders now.

(** *** The loop *)

Definition bf_on_dealer (msg : From) : BfM unit :=
  match msg with
  | From_Swap swap =>
      hedge_order (swap_succeed_ticker swap) (swap_succeed_bitcoin_amount swap)
        (swap_succeed_send_bitcoins swap)
  | From_WalletBalanceUpdated => bf_emit (Bf_self Bf_ReloadUtxo)
  end.

(** One iteration; [Bf_Exit] returns from [main] and does nothing else. *)
Definition bf_on_msg (msg : BfMsg) : BfM unit :=
  let! now := instant_now in
  do! broadcast_prices now in
  match msg with
  | Bf_Connected => bf_on_connected
  | Bf_Disconnected => bf_on_disconnected
  | Bf_Notification notification => bf_on_notification notification
  | Bf_ReloadUtxo => bf_on_reload_utxo
  | Bf_ModuleConnected => on_module_connected
  | Bf_ModuleDisconnected => on_module_disconnected
  | Bf_ModuleMessage msg => on_module_message now msg
  | Bf_Timer => bf_on_timer now
  | Bf_Cli data => on_cli data
  | Bf_CheckExchange => on_check_exchange
  | Bf_Dealer msg => bf_on_dealer msg
  | Bf_Exit => ret tt
  end.

Definition run_bf (msgs : list BfMsg) : BfM unit := for_each msgs bf_on_msg.

(** The state before the first message, from the stored transfer and the time. *)
Definition bf_init (storage : Storage) (now : Z) : BfState := {|
  bs_storage := storage;
  bs_movements := None;
  bs_balancing_blocked := now;
  bs_assets := [];
  bs_utxos := ∅;
  bs_server_status := None;
  bs_instant_swaps := ∅;
  bs_server_connected := false;
  bs_module_connected := false;
  bs_wallet_balances := ∅;
  bs_wallet_balances_confirmed := ∅;
  bs_exchange_balances := ∅;
  bs_exchange_balances_reported := ∅;
  bs_profit_reports := None;
  bs_bitcoin_ratio_old := None;
  bs_module_prices := ∅;
  bs_broadcast_timestamps := ∅;
  bs_latest_check_exchange := now;
  bs_health_text := None;
  bs_orders := ∅;
  bs_pending_orders := ∅;
  bs_log := [Bf_notify "dealer started"; Bf_save storage] |}.
End Loop.

(** ** Lemmas: what the loop does to the transfer *)

(** An invariant that events without meaning for the transfer and changes of other
    variables keep. *)
Record framed (I : BfState → Prop) : Prop := {
  framed_emit e : bf_quiet e → keeps I (bf_emit e);
  framed_modify (f : BfState → BfState) :
    (∀ s, bs_log (f s) = bs_log s ∧ bs_storage (f s) = bs_storage s) → keeps I (modify f)
}.

Section Frame.
Context `{BfEnv} (args : Args) (I : BfState → Prop) (HI : framed I).

Lemma framed_request {A} r (proj : Response → option A) : keeps I (bf_send_request r proj).
Proof.
  unfold bf_send_request. keeps. apply (framed_emit _ HI). by repeat split.
Qed.

Lemma framed_request_expect {A} r (proj : Response → option A) e :
  keeps I (bf_send_request_expect r proj e).
Proof. unfold bf_send_request_expect. keeps. apply framed_request. Qed.

Lemma framed_rpc {A} (call : list BfEvent → A + string) ev e :
  (∀ r, bf_quiet (ev r)) → keeps I (rpc_expect call ev e).
Proof. intros Hev. unfold rpc_expect. keeps. apply (framed_emit _ HI), Hev. Qed.

Lemma framed_notification text :
  String.prefix "start balancing, " text = false → keeps I (send_notification text).
Proof. intros Ht. apply (framed_emit _ HI). by split_and!. Qed.

Ltac frame_step :=
  first
    [ keeps_step
    | lazymatch goal with
      | |- keeps _ (bf_emit _) => apply (framed_emit _ HI); by repeat split
      | |- keeps _ (send_msg _) => apply (framed_emit _ HI); by repeat split
      | |- keeps _ (send_price _ _) => apply (framed_emit _ HI); by repeat split
      | |- keeps _ (send_cli_request _) => apply (framed_emit _ HI); by repeat split
      | |- keeps _ (send_notification _) => by apply framed_notification
      | |- keeps _ (modify _) => apply (framed_modify _ HI); intros; split; done
      | |- keeps _ (bf_send_request _ _) => apply framed_request
      | |- keeps _ (bf_send_request_expect _ _ _) => apply framed_request_expect
      | |- keeps _ (rpc_expect _ _ _) => apply framed_rpc; by repeat split
      | |- keeps _ system_now => unfold system_now
      | |- keeps _ instant_now => unfold instant_now
      end ].
Ltac frame := repeat frame_step.

Lemma framed_instant_now : keeps I instant_now.
Proof. frame. Qed.

Lemma framed_broadcast_prices now : keeps I (broadcast_prices args now).
Proof. unfold broadcast_prices, broadcast_price. frame. Qed.

Lemma framed_hedge_order ticker amount send : keeps I (hedge_order args ticker amount send).
Proof. unfold hedge_order. frame. Qed.

Lemma framed_on_connected : keeps I (bf_on_connected args).
Proof. unfold bf_on_connected. frame. Qed.

Lemma framed_on_disconnected : keeps I bf_on_disconnected.
Proof. unfold bf_on_disconnected. frame. Qed.

Lemma framed_swap_sign_inputs own i inputs sigs :
  keeps I (swap_sign_inputs own i inputs sigs).
Proof. revert i sigs. induction inputs as [|x l IH]; intros i sigs; simpl; frame; apply IH. Qed.

Lemma framed_on_notification n : keeps I (bf_on_notification args n).
Proof.
  unfold bf_on_notification, on_start_swap, on_blinded_swap, on_swap_done. frame.
  - apply framed_swap_sign_inputs.
  - apply framed_hedge_order.
Qed.

Lemma framed_on_reload_utxo : keeps I bf_on_reload_utxo.
Proof. unfold bf_on_reload_utxo, update_ratio. frame. Qed.

Lemma framed_on_module_connected : keeps I (on_module_connected args).
Proof. unfold on_module_connected. frame. Qed.

Lemma framed_on_module_disconnected : keeps I on_module_disconnected.
Proof. unfold on_module_disconnected. frame. Qed.

Lemma framed_on_book_update now name bid ask : keeps I (on_book_update args now name bid ask).
Proof. unfold on_book_update. frame. Qed.

Lemma framed_on_wallet_update currency balance : keeps I (on_wallet_update args currency balance).
Proof. unfold on_wallet_update. frame. Qed.

Lemma framed_on_check_exchange : keeps I (on_check_exchange args).
Proof. unfold on_check_exchange. frame. Qed.

Lemma framed_update_health : keeps I (update_health args).
Proof. unfold update_health. frame. Qed.

Lemma framed_auto_balance now : keeps I (auto_balance args now).
Proof. unfold auto_balance. frame. Qed.

Lemma framed_expire_price now ticker : keeps I (expire_price args now ticker).
Proof. unfold expire_price. frame. Qed.

Lemma framed_report_balances : keeps I report_balances.
Proof. unfold report_balances. frame. Qed.

Lemma framed_check_exchange_timer now : keeps I (check_exchange_timer now).
Proof. unfold check_exchange_timer. frame. Qed.

Lemma framed_report_profit : keeps I (report_profit args).
Proof. unfold report_profit. frame. Qed.

Lemma framed_expire_orders now : keeps I (expire_orders now).
Proof. unfold expire_orders. frame. Qed.

Lemma framed_on_dealer msg : keeps I (bf_on_dealer args msg).
Proof. unfold bf_on_dealer. frame. apply framed_hedge_order. Qed.
End Frame.

Section Good.
Context `{BfEnv} (base : Z) (args : Args).
#[local] Abbreviation good := (Balancing.good base).

(** Before and after the one step that may change the transfer. *)
Definition before (s0 s : BfState) : Prop :=
  balancing_from base s ∧ bs_storage s = bs_storage s0.

Lemma before_framed s0 : framed (before s0).
Proof.
  split.
  - intros e He s [H1 H2]. split; [by apply inv_emit|done].
  - intros f Hf s [H1 H2]. split; [by apply inv_modify|]. simpl. by rewrite (proj2 (Hf s)).
Qed.

Lemma good_framed s0 : framed (good s0).
Proof.
  split.
  - intros e He s [H1 H2]. split; [by apply inv_emit|done].
  - intros f Hf s [H1 H2]. split; [by apply inv_modify|]. simpl. by rewrite (proj2 (Hf s)).
Qed.

Lemma before_good s0 s : before s0 s → good s0 s.
Proof. intros [H1 H2]. split; [done|]. by left. Qed.

Lemma good_before {A} s0 (m : BfM A) :
  (∀ s, balancing_from base s → good s (m s).1) → triple (before s0) m (good s0).
Proof. intros Hm s [H1 H2]. unfold good. rewrite <- H2. by apply Hm. Qed.

Lemma triple_seq {A B} s0 (m : BfM A) (k : A → BfM B) :
  keeps (before s0) m → (∀ a, triple (before s0) (k a) (good s0)) →
  triple (before s0) (bind m k) (good s0).
Proof.
  intros Hm Hk. eapply triple_bind; [apply before_good|done|apply yields_True|]. intros a _. auto.
Qed.

Lemma triple_good {A} s0 (m : BfM A) :
  (∀ I, framed I → keeps I m) → triple (before s0) m (good s0).
Proof.
  intros Hm. apply triple_keeps; [apply before_good|]. apply Hm, before_framed.
Qed.

Lemma on_module_message_good now msg s0 :
  triple (before s0) (on_module_message args now msg) (good s0).
Proof.
  destruct msg; simpl.
  - apply triple_good. intros I HI. by apply framed_on_book_update.
  - apply triple_good. intros I HI. apply (framed_modify _ HI). done.
  - apply triple_good. intros I HI. by apply framed_on_wallet_update.
  - apply good_before. intros s. apply good_process_withdraw.
  - apply good_before. intros s. apply good_process_transfer.
  - apply good_before. intros s. apply good_process_movements.
  - apply triple_good. intros I HI. by apply framed_notification.
Qed.

Lemma on_timer_good now s0 : triple (before s0) (bf_on_timer args now) (good s0).
Proof.
  pose proof (before_framed s0) as F1. pose proof (good_framed s0) as F2.
  unfold bf_on_timer.
  apply triple_seq; [by apply framed_update_health|intros _].
  apply triple_seq; [by apply framed_auto_balance|intros _].
  apply triple_seq; [apply keeps_for_each; intros; by apply framed_expire_price|intros _].
  apply triple_seq; [by apply framed_report_balances|intros _].
  apply triple_then; [apply good_before; intros s; apply good_process_balancing|intros _].
  apply keeps_bind; [by apply framed_check_exchange_timer|intros _].
  apply keeps_bind; [by apply framed_report_profit|intros _].
  by apply framed_expire_orders.
Qed.

(** Whatever the message: the invariant is kept and the stored transfer makes at
    most one step. *)
Lemma on_msg_good msg s : balancing_from base s → good s (bf_on_msg args msg s).1.
Proof.
  intros Hs. assert (before s s) as Hb by done. revert Hb. generalize s at 2 4.
  change (triple (before s) (bf_on_msg args msg) (good s)).
  pose proof (before_framed s) as F1. unfold bf_on_msg.
  apply triple_seq; [by apply framed_instant_now|intros now].
  apply triple_seq; [by apply framed_broadcast_prices|intros _].
  destruct msg;
    [ apply on_timer_good | | | | | | apply on_module_message_good | |
      apply good_before; intros s'; apply good_on_cli | | | ];
    apply triple_good; intros I HI; auto using keeps_ret, framed_on_connected,
      framed_on_disconnected, framed_on_notification, framed_on_module_connected,
      framed_on_module_disconnected, framed_on_reload_utxo, framed_on_check_exchange,
      framed_on_dealer.
Qed.
End Good.

(** ** Lemmas: hedging *)

(** Products with the exact factor. *)
Lemma hedge_factor (q r : Q) :
  (0 <= q)%Q → (1001 # 1000 <= r)%Q → (r <= 1004 # 1000)%Q →
  (q * (1001 # 1000) <= q * r)%Q ∧ (q * r <= q * (1004 # 1000))%Q.
Proof. intros. split; nra. Qed.

Lemma hedge_scaled (x q r : Q) :
  (0 <= r)%Q → (- (q * (1 # 100000000) * ulp53) <= x - q * (1 # 100000000))%Q →
  (x - q * (1 # 100000000) <= q * (1 # 100000000) * ulp53)%Q →
  (- (q * r * (1 # 100000000) * ulp53) <= x * r - q * r * (1 # 100000000))%Q ∧
  (x * r - q * r * (1 # 100000000) <= q * r * (1 # 100000000) * ulp53)%Q.
Proof. unfold ulp53. intros Hr Hl Hu. split; nra. Qed.

(** The quotient is the product, but for the rounding of [c]. *)
Lemma hedge_quotient (x c r : Q) :
  (0 <= x)%Q → (0 < c)%Q → (r * c * (1 - (13 # 100000000000000000)) <= 1)%Q →
  (1 <= r * c * (1 + (13 # 100000000000000000)))%Q →
  (x * r * (1 - (13 # 100000000000000000)) <= x / c)%Q ∧
  (x / c <= x * r * (1 + (13 # 100000000000000000)))%Q.
Proof.
  intros Hx Hc H1 H2. split.
  - apply Qle_shift_div_l; [done|]. nra.
  - apply Qle_shift_div_r; [done|]. nra.
Qed.

(** Dividing a satoshi amount by one minus the fee, which [c] is up to rounding, and back: two
    roundings, then the rounding to a satoshi.  [r] is the exact factor. *)
Lemma hedge_div n c (qc r : Q) :
  20000 ≤ n ≤ max_money → fnorm c qc → (997 # 1000 <= qc)%Q → (qc <= 999 # 1000)%Q →
  (1001 # 1000 <= r)%Q → (r <= 1004 # 1000)%Q →
  (r * qc * (1 - (13 # 100000000000000000)) <= 1)%Q → (1 <= r * qc * (1 + (13 # 100000000000000000)))%Q →
  (inject_Z n * r - 2 <= inject_Z (from_bitcoin (fdiv (to_bitcoin n) c)))%Q ∧
  (inject_Z (from_bitcoin (fdiv (to_bitcoin n) c)) <= inject_Z n * r + 2)%Q.
Proof.
  intros Hn Hc Hlo Hhi Hr1 Hr2 Hrc1 Hrc2. unfold max_money in Hn.
  assert (20000 # 1 <= inject_Z n)%Q as Hn1
    by (change (20000 # 1)%Q with (inject_Z 20000); rewrite <- Zle_Qle; lia).
  assert (inject_Z n <= 2100000000000000 # 1)%Q as Hn2
    by (change (2100000000000000 # 1)%Q with (inject_Z (21 * 10 ^ 14)); rewrite <- Zle_Qle; lia).
  assert (inject_Z (10 ^ 30) == 1000000000000000000000000000000 # 1)%Q as E30 by reflexivity.
  destruct (fdiv_spec (f64_of_Z n) (f64_of_Z COIN) (inject_Z n) (100000000 # 1)) as (x1 & F1 & B1).
  { apply f64_of_Z_spec. lia. }
  { apply COIN_fnorm. }
  { unfold Qdiv; change (/ (100000000 # 1))%Q with (1 # 100000000)%Q.
    apply mid_range_between; lra. }
  unfold Qdiv in B1. change (/ (100000000 # 1))%Q with (1 # 100000000)%Q in B1.
  set (q := inject_Z n) in *. unfold ulp53 in B1. apply Qabs_bound in B1 as [B1l B1u].
  destruct (hedge_factor q r) as [V1 V2]; [lra..|].
  destruct (hedge_scaled x1 q r) as [U1 U2]; [lra|exact B1l|exact B1u|]. unfold ulp53 in U1, U2.
  destruct (hedge_quotient x1 qc r) as [D1 D2]; [lra..|].
  set (d := (x1 / qc)%Q) in *. set (u := (x1 * r)%Q) in *. set (v := (q * r)%Q) in *.
  destruct (fdiv_spec _ c x1 qc F1 Hc) as (x2 & F2 & B2).
  { fold d. apply mid_range_between; [lra|]. rewrite E30. lra. }
  fold d in B2. unfold ulp53 in B2. apply Qabs_bound in B2 as [B2l B2u].
  destruct (fmul_spec _ _ x2 _ F2 COIN_fnorm) as (x3 & F3 & B3).
  { apply mid_range_between; [lra|]. rewrite E30. lra. }
  unfold ulp53 in B3. apply Qabs_bound in B3 as [B3l B3u].
  pose proof (round_i64_spec _ _ F3) as HR. apply Qabs_bound in HR as [HRl HRu].
  2:{ change (inject_Z (2 ^ 52)) with (4503599627370496 # 1). lra. }
  unfold from_bitcoin, to_bitcoin in *. set (k := round_i64 _) in *. split; lra.
Qed.

Lemma hedge_fee_prod : ∃ q, fnorm (fsub f1 BITFINEX_FEE_PROD) q ∧
  (997 # 1000 <= q)%Q ∧ (q <= 999 # 1000)%Q ∧
  ((10000 # 9983) * q * (1 - (13 # 100000000000000000)) <= 1)%Q ∧
  (1 <= (10000 # 9983) * q * (1 + (13 # 100000000000000000)))%Q.
Proof.
  exists (inject_Z 8991887016007932 * pow2 (-53))%Q. split; [|by vm_compute; intuition discriminate].
  exists 8991887016007932%positive, (-53). split; [by vm_compute|]. split; [lia|reflexivity].
Qed.

Lemma hedge_fee_test : ∃ q, fnorm (fsub f1 BITFINEX_FEE_TEST) q ∧
  (997 # 1000 <= q)%Q ∧ (q <= 999 # 1000)%Q ∧
  ((10000 # 9980) * q * (1 - (13 # 100000000000000000)) <= 1)%Q ∧
  (1 <= (10000 # 9980) * q * (1 + (13 # 100000000000000000)))%Q.
Proof.
  exists (inject_Z 8989184856231510 * pow2 (-53))%Q. split; [|by vm_compute; intuition discriminate].
  exists 8989184856231510%positive, (-53). split; [by vm_compute|]. split; [lia|reflexivity].
Qed.

(** ** Lemmas: runs *)

Lemma init_inv storage t : stored_wf storage → balancing_from (pending storage) (bf_init storage t).
Proof.
  intros Hwf. split; cbn; [lia|done|done|].
  by intros st [[=]|[[= ->]|[]%elem_of_nil]%elem_of_cons]%elem_of_cons.
Qed.

Lemma new_inv t : balancing_from 0 (bf_init None t).
Proof. by apply (init_inv None). Qed.

Lemma run_inv `{BfEnv} base args msgs s : balancing_from base s → balancing_from base (run_bf args msgs s).1.
Proof.
  apply (keeps_for_each (balancing_from base) msgs (bf_on_msg args)).
  intros msg _ s' Hs'. by apply on_msg_good.
Qed.

(** A message that leaves a failed transfer leaves it failed. *)
Definition is_failed (s : BfState) : Prop :=
  (∃ base, balancing_from base s) ∧ ∃ b, bs_storage s = Some b ∧ tr_state b = Failed.

Lemma failed_step old new :
  storage_step old new → (∃ b, old = Some b ∧ tr_state b = Failed) →
  ∃ b, new = Some b ∧ tr_state b = Failed.
Proof.
  intros [<-|Hs] [b [-> Hb]]; [by eexists|].
  destruct new as [b'|]; [|by rewrite Hb in Hs]. exists b'. split; [done|].
  destruct Hs as [Hs _]. rewrite Hb in Hs. by inversion Hs.
Qed.

(** ** A concrete environment and state *)

Module Sample.
(** The wallet pays and the clocks stand still; the server does not answer. *)
Definition env : BfEnv := {|
  bf_foreign := Dealer.Sample.foreign;
  bf_server log r := None;
  bf_sendtoaddress log addr amount asset := inl "txid";
  bf_list_unspent log := inl [];
  bf_new_address log := inl "address";
  bf_dumpprivkey log addr := inl "key";
  bf_system_now log := 0;
  bf_instant_now log := 0;
  bf_text x := "x";
  bf_text_8 x := "x"
|}.

Definition args : Args := {|
  args_env := Env_Prod;
  args_api_key := None;
  args_bitfinex_key := "key";
  args_bitfinex_secret := "secret";
  args_bitfinex_bookname_usdt := "BTCUST";
  args_bitfinex_bookname_eurx := "BTCEUR";
  args_bitfinex_withdraw_address := "withdraw";
  args_bitfinex_fund_address := "fund";
  args_bitfinex_currency_btc := "BTC";
  args_bitfinex_currency_lbtc := "LBT";
  args_bitfinex_currency_usdt := "UST";
  args_bitfinex_currency_eur := "EUR";
  args_balancing_enabled := true
|}.

(** A receive transfer from start to the confirmed withdrawal identifier. *)
Definition msgs : list BfMsg :=
  [ Bf_ModuleConnected;
    Bf_ModuleMessage (FromModule_WalletUpdate "UST" (f64_of_Z 5000));
    Bf_Cli {| cli_req := TestRecvUsdt (f64_of_Z 1000); cli_resp_tx := false |};
    Bf_Timer;
    Bf_ModuleMessage (FromModule_Withdraw 77);
    Bf_Timer ].

Definition failed : BfState :=
  let storage := Some {|
    tr_withdraw_id := None; tr_state := Failed; tr_amount := 100; tr_created_at := 0;
    tr_updated_at := 0; tr_txid := None |} in
  (bf_init None 0)
    <| bs_storage := storage |> <| bs_log := [Bf_save storage] |>.

Lemma failed_ok : is_failed failed.
Proof.
  assert (stored_wf (bs_storage failed)) as Hwf by (intros b [= <-]; split_and!; cbn; set_solver).
  split; [|by eexists]. exists 0. split; cbn; [lia|done|exact Hwf|].
  by intros st [[= ->]|[]%elem_of_nil]%elem_of_cons.
Defined.
End Sample.

#[local] Existing Instance Sample.env.

(** The sample run does reach the payout. *)
Example sample_run :
  count is_payout (bs_log (run_bf Sample.args Sample.msgs (bf_init None 0)).1) = 1.
Proof. vm_compute. reflexivity. Qed.

(** ** Properties *)

(** Balancing never pays twice.  From an empty storage, whatever messages arrive
    and whatever wallet, exchange, server and clock answer, the number of payments
    and withdrawals sent is at most the number of transfers started; a transfer
    that has not paid yet still has its payment free. *)
Theorem balancing_pays_at_most_once `{BfEnv} args t msgs :
  let s := (run_bf args msgs (bf_init None t)).1 in
  count is_payout (bs_log s) + pending (bs_storage s) ≤ count is_start (bs_log s).
Proof. intros s. rewrite <- (Z.add_0_r (count is_start _)). apply inv_paid. apply run_inv, new_inv. Qed.

(** The storage file never lags behind: after every message the last version
    written to disk is the transfer in memory, so a restart resumes where the
    dealer stopped. *)
Theorem balancing_storage_saved `{BfEnv} args t msgs :
  let s := (run_bf args msgs (bf_init None t)).1 in
  saved (bs_log s) = Some (bs_storage s).
Proof. intros s. apply (inv_saved 0). apply run_inv, new_inv. Qed.

(** C20: the transfer follows its state machine: handling one message leaves it alone,
    moves it by one [transfer_step] with amount and start time unchanged, removes it
    once complete, or starts a new one when there is none.  In every reachable state
    the identifiers its state needs are known, so the [expect] on the transaction
    identifier cannot fail. *)
Theorem balancing_state_machine `{BfEnv} args t msgs msg :
  let s := (run_bf args msgs (bf_init None t)).1 in
  let s' := (bf_on_msg args msg s).1 in
  storage_step (bs_storage s) (bs_storage s') ∧
  (∀ b, bs_storage s' = Some b → transfer_wf b).
Proof.
  intros s s'. assert (balancing_from 0 s) as Hs by (apply run_inv, new_inv).
  destruct (on_msg_good 0 args msg s Hs) as [Hi Hstep]. split; [done|]. apply (inv_wf _ _ Hi).
Qed.

(** A failed transfer stays: no message makes the dealer forget or retry it, so
    automatic balancing stops until somebody looks at it. *)
Theorem balancing_failed_is_final `{BfEnv} args msgs s :
  is_failed s → is_failed (run_bf args msgs s).1.
Proof.
  apply (keeps_for_each is_failed msgs (bf_on_msg args)).
  intros msg _ s' [[base Hi] Hf]. destruct (on_msg_good base args msg s' Hi) as [Hi' Hstep].
  split; [by exists base|]. by eapply failed_step.
Qed.

Lemma balancing_failed_is_final_witness :
  is_failed (run_bf Sample.args Sample.msgs Sample.failed).1.
Proof. apply (balancing_failed_is_final Sample.args Sample.msgs Sample.failed), Sample.failed_ok. Defined.

(** What the exchange keeps of what is bought, in units of a ten-thousandth. *)
Definition exchange_fee (env : Env) : Z :=
  match env with Env_Prod | Env_Staging | Env_LocalLiquid => 17 | _ => 20 end.

(** C32: hedging covers the sale.  For a swap above the hedging minimum in which the dealer
    sent bitcoin, the order submitted to the exchange buys so much that what is left of it,
    after the exchange took its fee of 0.17 per cent, or 0.2 per cent on the test networks, is
    the amount sent: the amount bought is the exact quotient up to two satoshis, floating
    point and rounding included, for any amount of bitcoin there can be, and it is more than
    was sent. *)
Theorem hedge_amount_covers args n :
  20000 ≤ n ≤ max_money →
  ∃ k, hedge_amount args n true = to_bitcoin k ∧ n < k ∧
    let left := 10000 - exchange_fee (args_env args) in
    Z.abs (left * k - 10000 * n) ≤ 2 * left.
Proof.
  intros Hn. unfold hedge_amount. eexists. split; [reflexivity|].
  assert (mainnet args = true ∧ exchange_fee (args_env args) = 17 ∨
          mainnet args = false ∧ exchange_fee (args_env args) = 20) as [[-> ->]|[-> ->]]
    by (unfold mainnet; destruct (args_env args); auto).
  - destruct hedge_fee_prod as (q & Hq & H1 & H2 & H3 & H4).
    destruct (hedge_div n _ q (10000 # 9983) Hn Hq) as [K1 K2]; [done..|].
    set (k := from_bitcoin _) in *. clearbody k. unfold Qle in K1, K2. simpl in K1, K2. lia.
  - destruct hedge_fee_test as (q & Hq & H1 & H2 & H3 & H4).
    destruct (hedge_div n _ q (10000 # 9980) Hn Hq) as [K1 K2]; [done..|].
    set (k := from_bitcoin _) in *. clearbody k. unfold Qle in K1, K2. simpl in K1, K2. lia.
Qed.

Lemma hedge_amount_covers_witness :
  ∃ k, hedge_amount Sample.args 1000000 true = to_bitcoin k ∧ 1000000 < k ∧
    Z.abs (9983 * k - 10000 * 1000000) ≤ 2 * 9983.
Proof. apply (hedge_amount_covers Sample.args 1000000). unfold max_money. lia. Defined.

(** The health text mixes up the two connections: a lost exchange module is
    reported as [ServerOffline] and a lost server as [ModuleOffline]. *)
Theorem health_labels_swapped args s expired :
  ("ServerOffline" ∈ health_status args s expired ↔ bs_module_connected s = false) ∧
  ("ModuleOffline" ∈ health_status args s expired ↔ bs_server_connected s = false).
Proof.
  assert (∀ (b b' : bool) (y x : string),
    (let '(b, label) := (b, y) in if b then Some label else None) = Some x → b = true ∧ y = x) as Hf.
  { intros [] b' y x; by intros [= ->]. }
  unfold health_status. rewrite !list_elem_of_omap. split; split.
  - intros ([b y] & Hin & E). apply (Hf b b) in E as [-> ->].
    repeat (apply elem_of_cons in Hin as [Hin|Hin]; [simplify_eq|]); [|by apply not_elem_of_nil in Hin].
    by destruct (bs_module_connected s).
  - intros ->. eexists (true, _). split; [by left|done].
  - intros ([b y] & Hin & E). apply (Hf b b) in E as [-> ->].
    repeat (apply elem_of_cons in Hin as [Hin|Hin]; [simplify_eq|]); [|by apply not_elem_of_nil in Hin].
    by destruct (bs_server_connected s).
  - intros ->. eexists (true, _). split; [right; by left|done].
Qed.
