(* ===== verification/Ledger.v ===== *)
(** * The log of the hedging dealer

    What the loop of the hedging dealer (rust/sideswap_dealer_bitfinex/src/main.rs) adds to
    its log while it handles a message: nothing is taken back, and every payment of its
    wallet goes to the dealer's address at the exchange. *)
From stdpp Require Import base numbers gmap strings list.
From Stdlib Require Import ZArith Lia.
From S2P Require Import Prelude Api Types Env Dealer Balancing Bitfinex.

Open Scope Z_scope.

Definition ledger (P : BfEvent → Prop) (l0 : list BfEvent) (s : BfState) : Prop :=
  ∃ new, bs_log s = new ++ l0 ∧ Forall P new.

Definition to_exchange (args : Args) (e : BfEvent) : Prop :=
  match e with
  | Bf_sendtoaddress addr _ _ _ => addr = args_bitfinex_fund_address args
  | _ => True
  end.

Section Ledger.
Context `{BfEnv} (P : BfEvent → Prop) (args : Args).
Context (l0 : list BfEvent) (HP : ∀ e, to_exchange args e → P e).

Lemma ledger_emit e : to_exchange args e → keeps (ledger P l0) (bf_emit e).
Proof.
  intros He s (new & E & Hnew). exists (e :: new). split; [|constructor; [by apply HP|done]].
  simpl. by rewrite_field E.
Qed.

Lemma ledger_framed : framed (ledger P l0).
Proof.
  split.
  - intros e (Hp & _ & _). apply ledger_emit. by destruct e.
  - intros f Hf s (new & E & Hnew). exists new. split; [|done].
    rewrite <- E. exact (proj1 (Hf s)).
Qed.

Ltac ledger_step :=
  first
    [ keeps_step
    | lazymatch goal with
      | |- keeps _ (bf_emit _) => apply ledger_emit; done
      | |- keeps _ (modify _) => apply keeps_modify; intros ? Hs; exact Hs
      | |- keeps _ (rpc_expect _ _ _) => unfold rpc_expect
      end
    | progress unfold system_now, send_notification, send_msg, save_storage, update_transfer,
        update_balancing_state, payment_sent, sendtoaddress ].

Lemma ledger_on_msg msg : keeps (ledger P l0) (bf_on_msg args msg).
Proof.
  pose proof (ledger_framed) as HI. unfold bf_on_msg.
  keeps_step; [by apply framed_instant_now|]. keeps_step; [by apply framed_broadcast_prices|].
  destruct msg; auto using keeps_ret, framed_on_connected, framed_on_disconnected, framed_on_notification,
    framed_on_module_connected, framed_on_module_disconnected, framed_on_reload_utxo,
    framed_on_check_exchange, framed_on_dealer.
  - unfold bf_on_timer. keeps_step; [by apply framed_update_health|].
    keeps_step; [by apply framed_auto_balance|].
    keeps_step; [apply keeps_for_each; intros; by apply framed_expire_price|].
    keeps_step; [by apply framed_report_balances|].
    keeps_step; [unfold process_balancing; repeat ledger_step|].
    keeps_step; [by apply framed_check_exchange_timer|]. keeps_step; [by apply framed_report_profit|].
    by apply framed_expire_orders.
  - unfold on_module_message.
    match goal with m : FromModule |- _ => destruct m end;
      [by apply framed_on_book_update|idtac|by apply framed_on_wallet_update|unfold process_withdraw|unfold process_transfer|unfold process_movements
      |by apply framed_notification]; repeat ledger_step.
  - unfold on_cli. repeat ledger_step.
Qed.

Lemma ledger_run msgs : keeps (ledger P l0) (run_bf args msgs).
Proof. apply keeps_for_each. intros msg _. apply ledger_on_msg. Qed.
End Ledger.
