(* ===== verification/Operator.v ===== *)
(** * The operator of the hedging dealer

    What is around the loop of rust/sideswap_dealer_bitfinex/src/main.rs: the threads that
    pass on what the connections tell, the clock and the signals; the operator's clients on
    a local WebSocket; the page with the health of the program; the messages to Slack
    (slack.rs).  The threads share nothing but channels, so the program is a list of their
    turns, in any order. *)
From stdpp Require Import base numbers gmap strings list.
From Stdlib Require Import ZArith Lia.
From S2P Require Import Prelude F64 Serial Api Links Types Env Dealer Balancing Bitfinex Ledger.

Open Scope Z_scope.
#[local] Set Primitive Projections.

(** ** Slack *)

(** A message and the address it is posted to, and the wait before the next try. *)
Inductive SlackEvent :=
  | Slack_post (text url : string)
  | Slack_sleep (milliseconds : Z).

(** The HTTP client: the text of the answer. *)
Class SlackEnv := { slack_response : list SlackEvent → string → string → outcome string }.

Definition SlackM : Type → Type := M (list SlackEvent).

Section Slack.
Context `{SlackEnv}.

Definition send_slack_once (text url : string) : SlackM unit :=
  let! log := gets id in
  do! modify (cons (Slack_post text url)) in
  let! resp := lift (slack_response log text url) in
  ensure (String.eqb resp "ok") ("sending message failed: " +:+ resp).

(** [retries] is [retry_count - count]. *)
Fixpoint send_slack_loop (retries : nat) (text url : string) (retry_delay : Z) : SlackM unit :=
  let! result := attempt (send_slack_once text url) in
  match result, retries with
  | inl tt, _ => ret tt
  | inr e, O => fail e
  | inr _, S retries =>
      do! modify (cons (Slack_sleep retry_delay)) in
      send_slack_loop retries text url retry_delay
  end.

Definition send_slack (text url : string) (retry_count : nat) (retry_delay : Z) : SlackM unit :=
  send_slack_loop retry_count text url retry_delay.

(** The thread of [send_notification], whose error is only logged. *)
Definition notify_slack (slack_url : option string) (text : string) : SlackM unit :=
  match slack_url with
  | Some url => let! _result := attempt (send_slack text url 3 15000) in ret tt
  | None => ret tt
  end.
End Slack.

(** ** The health page *)

(** [Some(status.join(","))], of which the page shows what is there. *)
Definition health (status : option (list string)) : string :=
  default "NoError" (String.concat "," <$> status).

(** ** The operator's clients *)

(** The JSON of requests and answers, and [proto::From::decode] with its [msg]. *)
Class OpEnv := {
  parse_cli_request : string → CliRequest + string;
  cli_response_text : CliResponse → string;
  decode_from : bytes → outcome (option FromModule)
}.

(** A client's thread waits for a message, or for the loop, or has an answer to write. *)
Inductive CliPhase :=
  | Cli_reading
  | Cli_waiting
  | Cli_answered (resp : CliResponse)
  | Cli_over.

(** An answer is written to the WebSocket; nothing in the code flushes it. *)
Inductive CliEvent :=
  | Cli_asked (text : string)
  | Cli_written (frame : Frame).

Record CliClient := {
  cc_phase : CliPhase;
  cc_inbox : list (Frame + string);
  cc_log : list CliEvent
}.

(** The messages in the channel to the loop, each with the client that waits for it. *)
Record Operator := {
  op_loop : BfState;
  op_queue : list (BfMsg * option Z);
  op_clients : gmap Z CliClient;
  op_over : bool
}.

Definition OpM : Type → Type := M Operator.

(** What happens next: a client connects, a message of it arrives or fails to, its thread
    has a turn, in which it can write or not; a connection tells something; a second is
    over; a signal arrives; the loop has a turn. *)
Inductive OpInput :=
  | Op_accept (client : Z)
  | Op_frame (client : Z) (frame : Frame + string)
  | Op_client (client : Z) (writable : bool)
  | Op_server (msg : WrappedResponse ResponseMessage)
  | Op_module (msg : WrappedResponse bytes)
  | Op_dealer (msg : From)
  | Op_tick
  | Op_signal
  | Op_loop.

Definition op_send (msg : BfMsg) (client : option Z) : OpM unit :=
  modify (λ s, s <| op_queue ::= λ queue, queue ++ [(msg, client)] |>).

Definition set_client (client : Z) (c : CliClient) : OpM unit :=
  modify (λ s, s <| op_clients ::= <[client := c]> |>).

Section Operator.
Context `{BfEnv, OpEnv} (args : Args).

(** An answer to the request the loop waits for goes to it directly ([bf_server]). *)
Definition forward_server (msg : WrappedResponse ResponseMessage) : OpM unit :=
  match msg with
  | Ws_Connected => op_send Bf_Connected None
  | Ws_Disconnected => op_send Bf_Disconnected None
  | Ws_Response (ResponseMessage_Response _ _) => ret tt
  | Ws_Response (ResponseMessage_Notification notification) =>
      op_send (Bf_Notification notification) None
  end.

Definition forward_module (msg : WrappedResponse bytes) : OpM unit :=
  match msg with
  | Ws_Connected => op_send Bf_ModuleConnected None
  | Ws_Disconnected => op_send Bf_ModuleDisconnected None
  | Ws_Response data =>
      match decode_from data with
      | Ok (Some msg) => op_send (Bf_ModuleMessage msg) None
      | Ok None => panic "called `Option::unwrap()` on a `None` value"
      | Err e | Panic e => panic ("message decode failed: " +:+ e)
      end
  end.

(** A request goes to the loop, and what is none is answered by the thread itself. *)
Definition cli_ask (client : Z) (c : CliClient) (text : string) : OpM unit :=
  let c := c <| cc_log ::= cons (Cli_asked text) |> in
  match parse_cli_request text with
  | inl req =>
      do! op_send (Bf_Cli {| cli_req := req; cli_resp_tx := true |}) (Some client) in
      set_client client (c <| cc_phase := Cli_waiting |>)
  | inr e => set_client client (c <| cc_phase := Cli_answered (CliResponse_Error e) |>)
  end.

Definition cli_read (client : Z) (c : CliClient) (msg : Frame + string) : OpM unit :=
  match msg with
  | inl (Frame_Text text) => cli_ask client c text
  | inl (Frame_Binary data) =>
      match from_utf8 data with
      | Ok text => cli_ask client c text
      | _ => set_client client (c <| cc_phase := Cli_over |>)
      end
  | inl _ => set_client client c
  | inr _ => set_client client (c <| cc_phase := Cli_over |>)
  end.

Definition process_cli_client (client : Z) (writable : bool) : OpM unit :=
  let! clients := gets op_clients in
  match clients !! client with
  | None => ret tt
  | Some c =>
      match cc_phase c, cc_inbox c with
      | Cli_reading, msg :: inbox => cli_read client (c <| cc_inbox := inbox |>) msg
      | Cli_answered resp, _ =>
          let written := Cli_written (Frame_Text (cli_response_text resp)) in
          set_client client
            (if writable then c <| cc_phase := Cli_reading |> <| cc_log ::= cons written |>
             else c <| cc_phase := Cli_over |>)
      | _, _ => ret tt
      end
  end.

(** What the loop logs in an iteration, oldest first. *)
Definition logged (s s' : BfState) : list BfEvent :=
  reverse (take (length (bs_log s') - length (bs_log s)) (bs_log s')).

(** [msg_tx.send(msg)] in the loop, and [resp_tx.send(resp)] to the client that waits. *)
Definition loop_event (client : option Z) (e : BfEvent) : OpM unit :=
  match e, client with
  | Bf_self msg, _ => op_send msg None
  | Bf_cli_resp resp, Some client =>
      modify (λ s, s <| op_clients ::= alter (λ c, c <| cc_phase := Cli_answered resp |>) client |>)
  | _, _ => ret tt
  end.

(** A panic of the loop aborts the program. *)
Definition on_loop (m : BfM unit) : OpM (list BfEvent) := λ s,
  match m (op_loop s) with
  | (t, Ok _) => (s <| op_loop := t |>, Ok (logged (op_loop s) t))
  | (t, Err e) | (t, Panic e) => (s <| op_loop := t |>, Panic e)
  end.

Definition loop_turn : OpM unit :=
  let! queue := gets op_queue in
  match queue with
  | [] => ret tt
  | (msg, client) :: queue =>
      do! modify (λ s, s <| op_queue := queue |>) in
      let! events := on_loop (bf_on_msg args msg) in
      do! for_each events (loop_event client) in
      match msg with
      | Bf_Exit => modify (λ s, s <| op_over := true |>)
      | _ => ret tt
      end
  end.

Definition op_turn (i : OpInput) : OpM unit :=
  match i with
  | Op_accept client =>
      let! clients := gets op_clients in
      match clients !! client with
      | None => set_client client {| cc_phase := Cli_reading; cc_inbox := []; cc_log := [] |}
      | Some _ => ret tt
      end
  | Op_frame client frame =>
      modify (λ s, s <| op_clients ::= alter (λ c, c <| cc_inbox ::= λ l, l ++ [frame] |>) client |>)
  | Op_client client writable => process_cli_client client writable
  | Op_server msg => forward_server msg
  | Op_module msg => forward_module msg
  | Op_dealer msg => op_send (Bf_Dealer msg) None
  | Op_tick => op_send Bf_Timer None
  | Op_signal => op_send Bf_Exit None
  | Op_loop => loop_turn
  end.

(** When [main] has returned nothing happens any more. *)
Definition op_step (i : OpInput) : OpM unit :=
  let! over := gets op_over in
  if over : bool then ret tt else op_turn i.

Definition run_operator (inputs : list OpInput) : OpM unit := for_each inputs op_step.

Definition op_initial (storage : Storage) (now : Z) : Operator := {|
  op_loop := bf_init storage now; op_queue := []; op_clients := ∅; op_over := false |}.
End Operator.

(** ** Specifications *)

Section Specifications.
Context `{BfEnv, OpEnv}.

(** What a request of a client may be answered. *)
Definition answers (text : string) (resp : CliResponse) : Prop :=
  match parse_cli_request text with
  | inl _ => resp = CliResponse_Success "success" ∨ resp = CliResponse_Error "already started"
  | inr e => resp = CliResponse_Error e
  end.

(** Every request was answered before the next was read. *)
Fixpoint dialogue (log : list CliEvent) : Prop :=
  match log with
  | [] => True
  | Cli_written frame :: Cli_asked text :: log =>
      (∃ resp, frame = Frame_Text (cli_response_text resp) ∧ answers text resp) ∧ dialogue log
  | _ => False
  end.

Definition conversation (c : CliClient) : Prop :=
  match cc_phase c, cc_log c with
  | Cli_reading, log => dialogue log
  | Cli_waiting, Cli_asked text :: log => dialogue log ∧ ∃ req, parse_cli_request text = inl req
  | Cli_answered resp, Cli_asked text :: log => dialogue log ∧ answers text resp
  | Cli_over, Cli_asked _ :: log | Cli_over, log => dialogue log
  | _, _ => False
  end.

(** The requests of a client in the channel to the loop, and those it should have there. *)
Definition queued (client : Z) (queue : list (BfMsg * option Z)) : list BfMsg :=
  (filter (λ e, e.2 = Some client) queue).*1.

Definition expected (c : option CliClient) : list BfMsg :=
  match c with
  | Some c =>
      match cc_phase c, cc_log c with
      | Cli_waiting, Cli_asked text :: _ =>
          match parse_cli_request text with
          | inl req => [Bf_Cli {| cli_req := req; cli_resp_tx := true |}]
          | inr _ => []
          end
      | _, _ => []
      end
  | None => []
  end.

Record op_ok (args : Args) (storage : Storage) (now : Z) (s : Operator) : Prop := {
  ok_loop : ∃ msgs, run_bf args msgs (bf_init storage now) = (op_loop s, Ok tt);
  ok_queue client : queued client (op_queue s) = expected (op_clients s !! client);
  ok_client client c : op_clients s !! client = Some c → conversation c
}.
End Specifications.

(** ** Lemmas: Slack *)

Lemma slack_once_run `{SlackEnv} text url log :
  attempt (send_slack_once text url) log =
    (Slack_post text url :: log,
     match slack_response log text url with
     | Ok resp => Ok (if String.eqb resp "ok" then inl tt else inr ("sending message failed: " +:+ resp))
     | Err e => Ok (inr e)
     | Panic e => Panic e
     end).
Proof.
  unfold attempt, send_slack_once, bind, gets, modify, lift, ensure, oensure, id. cbv beta iota.
  destruct (slack_response log text url) as [resp|e|e]; cbv beta iota; [by destruct (String.eqb resp "ok")|done..].
Qed.

(** A message is posted until Slack takes it, at most once more than it is to be retried,
    and with a wait before each retry. *)
Definition slack_posted `{SlackEnv} (text url : string) (retry_delay : Z) (retries : nat)
    (log : list SlackEvent) (p : list SlackEvent * outcome unit) : Prop :=
  ∃ k, (k ≤ retries)%nat ∧
    p.1 = Slack_post text url ::
      concat (replicate k [Slack_sleep retry_delay; Slack_post text url]) ++ log ∧
    (p.2 = Ok tt → slack_response (tail p.1) text url = Ok "ok") ∧
    (∀ e, p.2 = Err e → k = retries ∧ slack_response (tail p.1) text url ≠ Ok "ok").

Lemma slack_retry `{SlackEnv} text url retry_delay retries log p :
  slack_posted text url retry_delay retries (Slack_sleep retry_delay :: Slack_post text url :: log) p →
  slack_posted text url retry_delay (S retries) log p.
Proof.
  intros (k & Hk & Hlog & Hok & Herr). exists (S k). split_and!; [lia| |done|].
  - rewrite Hlog, replicate_S_end, concat_app, <- app_assoc. done.
  - intros e He. destruct (Herr e He) as [-> Hresp]. done.
Qed.

Lemma slack_tries `{SlackEnv} text url retry_delay retries : ∀ log,
  slack_posted text url retry_delay retries log (send_slack text url retries retry_delay log).
Proof.
  unfold send_slack. induction retries as [|retries IH]; intros log; cbn [send_slack_loop];
    unfold bind; rewrite slack_once_run; destruct (slack_response log text url) as [resp|e|e] eqn:E;
    [destruct (String.eqb_spec resp "ok") as [->|Hresp]| | |destruct (String.eqb_spec resp "ok") as [->|Hresp]| |];
    try (apply slack_retry, IH); exists 0%nat; cbn; rewrite ?E; split_and!; try done; try lia; intros; split; congruence.
Qed.

(** The page says that there is no error when there is none, and only then. *)
Lemma health_no_error `{BfEnv} (args : Args) s expired :
  health (match health_status args s expired with [] => None | l => Some l end) = "NoError" ↔
  health_status args s expired = [].
Proof.
  unfold health_status. cbn [omap list_omap].
  repeat match goal with |- context [if ?b then Some _ else None] => destruct b end;
    split; intros E; first [reflexivity|discriminate E].
Qed.

(** ** Lemmas: the loop and its answers *)

(** Events that are neither a message to the loop nor an answer. *)
Definition aside (e : BfEvent) : Prop :=
  match e with Bf_self _ | Bf_cli_resp _ => False | _ => True end.

Lemma aside_emit l0 st e :
  aside e → keeps (λ s, ledger aside l0 s ∧ bs_storage s = st) (bf_emit e).
Proof.
  intros He s [(new & E & Hnew) Hst]. split; [|exact Hst]. exists (e :: new). split; [|by constructor].
  cbn. by rewrite_field E.
Qed.

(** Rewriting a field of a state in a hypothesis. *)
Ltac rewrite_field_at E H :=
  lazymatch type of E with ?a = _ => change a with a in H; rewrite E in H end.

Section Loop.
Context `{BfEnv, OpEnv} (args : Args).

Lemma aside_before l0 st now : keeps (λ s, ledger aside l0 s ∧ bs_storage s = st) (broadcast_prices args now).
Proof.
  unfold broadcast_prices, broadcast_price, bf_send_request.
  repeat first [keeps_step|by apply aside_emit|apply keeps_modify; intros ? Hs; exact Hs].
Qed.

Lemma logged_app s s' new : bs_log s' = new ++ bs_log s → logged s s' = reverse new.
Proof.
  intros E. unfold logged. rewrite E, length_app, Nat.add_sub, take_app_length. done.
Qed.

(** A request of a client is answered once; it starts a transfer when there is none. *)
Lemma cli_loop data s s' :
  cli_resp_tx data = true → bf_on_msg args (Bf_Cli data) s = (s', Ok tt) →
  ∃ new resp, bs_log s' = Bf_cli_resp resp :: new ++ bs_log s ∧ Forall aside new ∧
    match bs_storage s with
    | Some _ => resp = CliResponse_Error "already started" ∧ bs_storage s' = bs_storage s
    | None => resp = CliResponse_Success "success" ∧
        ∃ b, bs_storage s' = Some b ∧ (tr_state b, tr_amount b) =
          (let '(state, amount) := cli_request (cli_req data) in (state, from_bitcoin amount))
    end.
Proof.
  intros Htx Hr. unfold bf_on_msg in Hr.
  apply bind_Ok in Hr as (s1 & now & Hnow & Hr). apply bind_Ok in Hr as (s2 & [] & Hprices & Hr).
  assert (ledger aside (bs_log s) s1 ∧ bs_storage s1 = bs_storage s) as Hs1.
  { unfold instant_now, bf_emit, bind, gets, modify, ret in Hnow. injection Hnow as <- _.
    split; [|done]. eexists [_]. by split; [|repeat constructor]. }
  pose proof (aside_before (bs_log s) (bs_storage s) now s1 Hs1) as [(new & Hlog & Hnew) Hst].
  rewrite Hprices in Hlog, Hst. cbn [fst] in Hlog, Hst.
  unfold on_cli in Hr. destruct (cli_request (cli_req data)) as [state amount].
  set (text := "start balancing, " +:+ _) in Hr.
  rewrite bind_gets, Htx in Hr. change (bs_storage s2) with (bs_storage s2) in Hr. rewrite Hst in Hr.
  destruct (bs_storage s) as [b|].
  - injection Hr as <-. exists new. eexists. split; [|split; [exact Hnew|done]]. cbn. by rewrite_field Hlog.
  - unfold system_now, save_storage, send_notification, bf_emit, bind, gets, modify, ret in Hr.
    injection Hr as <-.
    exists (Bf_notify text :: Bf_save (Some {| tr_withdraw_id := None; tr_state := state;
      tr_amount := from_bitcoin amount; tr_created_at := bf_system_now (bs_log s2);
      tr_updated_at := bf_system_now (Bf_now (bf_system_now (bs_log s2)) :: bs_log s2); tr_txid := None |}) ::
      Bf_now (bf_system_now (Bf_now (bf_system_now (bs_log s2)) :: bs_log s2)) ::
      Bf_now (bf_system_now (bs_log s2)) :: new), (CliResponse_Success "success").
    split; [cbn; by rewrite_field Hlog|]. split; [by repeat constructor|]. split; [done|]. by eexists.
Qed.

(** *** The channel to the loop *)

Lemma queued_app client queue msg c :
  queued client (queue ++ [(msg, c)]) =
    queued client queue ++ (if decide (c = Some client) then [msg] else []).
Proof.
  unfold queued. rewrite filter_app, fmap_app. f_equal. unfold filter, list_filter. cbn.
  by destruct (decide (c = Some client)).
Qed.

Lemma queued_cons client queue msg c :
  queued client ((msg, c) :: queue) = (if decide (c = Some client) then [msg] else []) ++ queued client queue.
Proof. unfold queued, filter, list_filter. cbn. by destruct (decide (c = Some client)). Qed.

Context (storage : Storage) (now : Z).

Lemma ok_send_none msg : keeps (op_ok args storage now) (op_send msg None).
Proof.
  intros s [Hloop Hqueue Hclient]. split; [exact Hloop| |exact Hclient]. intros client.
  change (queued client (op_queue s ++ [(msg, None)]) = expected (op_clients s !! client)).
  rewrite queued_app, Hqueue, decide_False by done. by rewrite app_nil_r.
Qed.

(** A client that changed, and what it has in the channel. *)
Lemma ok_set s client c queue :
  op_ok args storage now s → conversation c →
  queued client queue = expected (Some c) →
  (∀ other, other ≠ client → queued other queue = queued other (op_queue s)) →
  op_ok args storage now (s <| op_queue := queue |> <| op_clients ::= <[client := c]> |>).
Proof.
  intros [Hloop Hqueue Hclient] Hc Hq Hothers. split; [exact Hloop|..].
  - intros other. change (queued other queue = expected (<[client := c]> (op_clients s) !! other)).
    destruct (decide (other = client)) as [->|Hne]; [by rewrite lookup_insert_eq|].
    rewrite lookup_insert_ne by done. by rewrite Hothers, Hqueue.
  - intros other c' Hc'. change (<[client := c]> (op_clients s) !! other = Some c') in Hc'.
    destruct (decide (other = client)) as [->|Hne].
    + rewrite lookup_insert_eq in Hc'. by injection Hc' as <-.
    + rewrite lookup_insert_ne in Hc' by done. by apply (Hclient other).
Qed.

(** A client of which nothing is in the channel, before and after. *)
Lemma ok_set_client s client c :
  op_ok args storage now s → conversation c → expected (op_clients s !! client) = [] →
  expected (Some c) = [] → op_ok args storage now (set_client client c s).1.
Proof.
  intros Hs Hc Hold Hnew. apply (ok_set s client c (op_queue s)); [done|done| |done].
  by rewrite (ok_queue _ _ _ _ Hs), Hold, Hnew.
Qed.

Lemma ok_ask s client c text :
  op_ok args storage now s → op_clients s !! client = Some c → cc_phase c = Cli_reading →
  ∀ inbox, op_ok args storage now (cli_ask client (c <| cc_inbox := inbox |>) text s).1.
Proof.
  intros Hs Hc Hphase inbox. pose proof (ok_client _ _ _ _ Hs client c Hc) as Hlog.
  unfold conversation in Hlog. rewrite Hphase in Hlog.
  assert (queued client (op_queue s) = []) as Hq.
  { rewrite (ok_queue _ _ _ _ Hs), Hc. unfold expected. by rewrite Hphase. }
  unfold cli_ask. destruct (parse_cli_request text) as [req|e] eqn:Hparse.
  - set (c' := (c <| cc_inbox := inbox |> <| cc_log ::= cons (Cli_asked text) |> <| cc_phase := Cli_waiting |>)).
    apply (ok_set s client c' (op_queue s ++ [(Bf_Cli {| cli_req := req; cli_resp_tx := true |}, Some client)])).
    + done.
    + split; [exact Hlog|by eexists].
    + rewrite queued_app, Hq, decide_True by done. unfold expected, c'. cbn. by rewrite Hparse.
    + intros other Hne. rewrite queued_app, decide_False by congruence. by rewrite app_nil_r.
  - apply ok_set_client; [done| |by rewrite Hc; unfold expected; rewrite Hphase|done].
    split; [exact Hlog|]. unfold answers. by rewrite Hparse.
Qed.

Lemma ok_process_client client writable : keeps (op_ok args storage now) (process_cli_client client writable).
Proof.
  intros s Hs. unfold process_cli_client. rewrite bind_gets.
  destruct (op_clients s !! client) as [c|] eqn:Hc; [|done].
  pose proof (ok_client _ _ _ _ Hs client c Hc) as Hlog. unfold conversation in Hlog.
  assert (cc_phase c ≠ Cli_waiting → expected (op_clients s !! client) = []) as Hidle.
  { intros Hphase. rewrite Hc. unfold expected. by destruct (cc_phase c). }
  assert (∀ resp, cc_phase c = Cli_answered resp →
    op_ok args storage now (set_client client
      (if writable then c <| cc_phase := Cli_reading |> <| cc_log ::= cons (Cli_written (Frame_Text (cli_response_text resp))) |>
       else c <| cc_phase := Cli_over |>) s).1) as Hwrite.
  { intros resp Hphase. rewrite Hphase in Hlog, Hidle. destruct (cc_log c) as [|[text|frame] log] eqn:Elog; [done| |done].
    destruct Hlog as [Hlog Hresp]. apply ok_set_client; [done| |by apply Hidle|by destruct writable].
    unfold conversation. destruct writable; cbn; rewrite_field Elog; [|done]. split; [by exists resp|done]. }
  destruct (cc_phase c) as [| |resp|] eqn:Hphase; [| |destruct (cc_inbox c)|].
  - destruct (cc_inbox c) as [|msg inbox]; [done|].
    assert (∀ c', cc_log c' = cc_log c → cc_phase c' = Cli_reading ∨ cc_phase c' = Cli_over →
      op_ok args storage now (set_client client c' s).1) as Hset.
    { intros c' El Hp. apply ok_set_client; [done| |by apply Hidle|]; unfold conversation, expected.
      - destruct Hp as [-> | ->]; rewrite El; [done|]. by destruct (cc_log c) as [|[|] ?].
      - by destruct Hp as [-> | ->]. }
    destruct msg as [[text|data|data|data|]|e]; cbn [cli_read]; try (apply Hset; [done|by left]);
      [by apply ok_ask|destruct (from_utf8 data); [by apply ok_ask|..]|]; apply Hset; (done || by right).
  - done.
  - by apply Hwrite.
  - by apply Hwrite.
  - done.
Qed.

(** *** A turn of the loop *)

(** A turn adds to the channel, and touches no client but the one whose message it takes. *)
Lemma loop_turn_others s s' msg who rest :
  op_queue s = (msg, who) :: rest → loop_turn args s = (s', Ok tt) →
  (∃ sent, op_queue s' = rest ++ sent) ∧
  ∀ client, who ≠ Some client → op_clients s' !! client = op_clients s !! client.
Proof.
  intros Hqueue Hr. unfold loop_turn in Hr. rewrite bind_gets in Hr.
  change (op_queue s) with (op_queue s) in Hr. rewrite Hqueue, bind_modify in Hr.
  apply bind_Ok in Hr as (s1 & events & Hon & Hr). apply bind_Ok in Hr as (s2 & [] & Hevents & Hr).
  set (I := λ t : Operator, (∃ sent, op_queue t = rest ++ sent) ∧
    ∀ client, who ≠ Some client → op_clients t !! client = op_clients s !! client).
  assert (I s1) as H1.
  { unfold on_loop in Hon. destruct (bf_on_msg args msg _) as [t [[]|e|e]]; [|discriminate Hon..].
    injection Hon as <- _. split; [exists []; by rewrite app_nil_r|done]. }
  assert (keeps I (for_each events (loop_event who))) as Hk.
  { apply keeps_for_each. intros e _ t [[sent Hq] Hc]. unfold loop_event.
    assert (∀ m, I (op_send m None t).1) as Hsend.
    { intros m. split; [|exact Hc]. exists (sent ++ [(m, None)]). cbn. rewrite_field Hq. by rewrite <- app_assoc. }
    destruct e; try exact (conj (ex_intro _ sent Hq) Hc); [by apply Hsend|].
    destruct who as [who|]; [|exact (conj (ex_intro _ sent Hq) Hc)]. split; [by exists sent|].
    intros client Hne. cbn. rewrite lookup_alter_ne by congruence. by apply Hc. }
  specialize (Hk s1 H1). rewrite Hevents in Hk. cbn [fst] in Hk.
  destruct msg; injection Hr as <-; exact Hk.
Qed.

Lemma for_each_aside client events s :
  Forall aside events → for_each events (loop_event client) s = (s, Ok tt).
Proof.
  induction 1 as [|e events He _ IH]; [done|]. cbn [for_each].
  rewrite (bind_run _ _ s s tt); [exact IH|]. by destruct e.
Qed.

Lemma expected_cons o msg l :
  expected o = msg :: l →
  ∃ c text log req, o = Some c ∧ cc_phase c = Cli_waiting ∧ cc_log c = Cli_asked text :: log ∧
    parse_cli_request text = inl req ∧ msg = Bf_Cli {| cli_req := req; cli_resp_tx := true |} ∧ l = [].
Proof.
  unfold expected. destruct o as [c|]; [|done].
  destruct (cc_phase c) eqn:Hphase; try done. destruct (cc_log c) as [|[text|frame] log] eqn:Hlog; try done.
  destruct (parse_cli_request text) as [req|e] eqn:E; [|done]. intros [= <- <-]. by exists c, text, log, req.
Qed.

(** A message more for the loop. *)
Lemma ok_turn s msg t :
  op_ok args storage now s → bf_on_msg args msg (op_loop s) = (t, Ok tt) →
  op_ok args storage now (s <| op_loop := t |>).
Proof.
  intros [[msgs Hloop] Hqueue Hclient] Ht. split; [|exact Hqueue|exact Hclient].
  exists (msgs ++ [msg]). unfold run_bf. rewrite for_each_app, (bind_run _ _ _ _ _ Hloop).
  cbn [for_each]. by rewrite (bind_run _ _ _ _ _ Ht).
Qed.

(** The message of a client is answered. *)
Lemma loop_turn_answers s s' msg client rest :
  op_ok args storage now s → op_queue s = (msg, Some client) :: rest → loop_turn args s = (s', Ok tt) →
  ∃ c resp, op_clients s !! client = Some c ∧ op_clients s' !! client = Some (c <| cc_phase := Cli_answered resp |>) ∧
    op_ok args storage now s'.
Proof.
  intros Hs Hqueue Hr. pose proof (ok_queue _ _ _ _ Hs client) as Hq.
  rewrite_field_at Hqueue Hq. rewrite queued_cons, decide_True in Hq by done. symmetry in Hq.
  apply expected_cons in Hq as (c & text & log & req & Hc & Hphase & Hlog & Hparse & -> & Hrest).
  pose proof (ok_client _ _ _ _ Hs client c Hc) as Hconv. unfold conversation in Hconv.
  rewrite Hphase, Hlog in Hconv. destruct Hconv as [Hdialogue _].
  unfold loop_turn in Hr. rewrite bind_gets in Hr. rewrite_field_at Hqueue Hr. rewrite bind_modify in Hr.
  apply bind_Ok in Hr as (s1 & events & Hon & Hr). apply bind_Ok in Hr as (s2 & [] & Hevents & Hr).
  injection Hr as <-. unfold on_loop in Hon. change (op_loop (s <| op_queue := rest |>)) with (op_loop s) in Hon.
  destruct (bf_on_msg args _ (op_loop s)) as [t [[]|e|e]] eqn:Hloop; [|discriminate Hon..].
  injection Hon as <- <-. pose proof (cli_loop {| cli_req := req; cli_resp_tx := true |} _ _ eq_refl Hloop) as (new & resp & Elog & Hnew & Hresp).
  rewrite (logged_app _ _ (Bf_cli_resp resp :: new)) in Hevents by exact Elog.
  rewrite reverse_cons, for_each_app in Hevents.
  rewrite (bind_run _ _ _ _ _ (for_each_aside _ _ _ (proj2 (Forall_reverse _ _) Hnew))) in Hevents.
  injection Hevents as <-. exists c, resp. split; [exact Hc|].
  set (c' := c <| cc_phase := Cli_answered resp |>).
  assert (alter (λ c, c <| cc_phase := Cli_answered resp |>) client (op_clients s) = <[client := c']> (op_clients s)) as Ealter.
  { apply map_eq. intros other. destruct (decide (other = client)) as [->|Hne].
    - rewrite lookup_alter_eq, lookup_insert_eq, Hc. done.
    - by rewrite lookup_alter_ne, lookup_insert_ne. }
  assert (answers text resp) as Hanswers.
  { unfold answers. rewrite Hparse.
    destruct (bs_storage (op_loop s)); destruct Hresp as [-> _]; [by right|by left]. }
  split.
  - change (alter (λ c, c <| cc_phase := Cli_answered resp |>) client (op_clients s) !! client = Some c').
    rewrite Ealter. apply lookup_insert_eq.
  - pose proof (ok_set (s <| op_loop := t |>) client c' rest (ok_turn _ _ _ Hs Hloop)) as Hok.
    change (op_clients (s <| op_loop := t |> <| op_queue := rest |>)) with (op_clients s) in Hok.
    change (op_ok args storage now (s <| op_loop := t |> <| op_queue := rest |>
      <| op_clients := alter (λ c, c <| cc_phase := Cli_answered resp |>) client (op_clients s) |>)).
    rewrite Ealter. apply Hok; [|by rewrite Hrest|].
    + unfold conversation, c'. cbn. rewrite_field Hlog. by split.
    + intros other Hne. change (queued other rest = queued other (op_queue s)).
      rewrite Hqueue, queued_cons, decide_False by congruence. done.
Qed.

Lemma loop_turn_ok s s' :
  op_ok args storage now s → loop_turn args s = (s', Ok tt) → op_ok args storage now s'.
Proof.
  intros Hs Hr. destruct (op_queue s) as [|[msg [client|]] rest] eqn:Hqueue.
  - unfold loop_turn in Hr. rewrite bind_gets in Hr. rewrite_field_at Hqueue Hr. by injection Hr as <-.
  - by destruct (loop_turn_answers _ _ _ _ _ Hs Hqueue Hr) as (c & resp & _ & _ & ?).
  - unfold loop_turn in Hr. rewrite bind_gets in Hr. rewrite_field_at Hqueue Hr. rewrite bind_modify in Hr.
    apply bind_Ok in Hr as (s1 & events & Hon & Hr). apply bind_Ok in Hr as (s2 & [] & Hevents & Hr).
    unfold on_loop in Hon. change (op_loop (s <| op_queue := rest |>)) with (op_loop s) in Hon.
    destruct (bf_on_msg args msg (op_loop s)) as [t [[]|e|e]] eqn:Hloop; [|discriminate Hon..].
    injection Hon as <- _. pose proof (ok_turn _ _ _ Hs Hloop) as [H1 H2 H3].
    assert (op_ok args storage now (s <| op_queue := rest |> <| op_loop := t |>)) as Ht.
    { split; [exact H1| |exact H3]. intros client. specialize (H2 client).
      change (queued client (op_queue s) = expected (op_clients s !! client)) in H2.
      rewrite Hqueue in H2. by rewrite queued_cons, decide_False in H2 by done. }
    assert (keeps (op_ok args storage now) (for_each events (loop_event None))) as Hk.
    { apply keeps_for_each. intros e _. destruct e; try apply keeps_ret. apply ok_send_none. }
    specialize (Hk _ Ht). rewrite Hevents in Hk. cbn [fst] in Hk. destruct msg; injection Hr as <-; try exact Hk.
    by destruct Hk as [K1 K2 K3].
Qed.

Lemma op_step_ok i s s' :
  op_ok args storage now s → op_step args i s = (s', Ok tt) → op_ok args storage now s'.
Proof.
  intros Hs Hr. unfold op_step in Hr. rewrite bind_gets in Hr. change (op_over s) with (op_over s) in Hr.
  destruct (op_over s); [by injection Hr as <-|].
  assert (∀ m, keeps (op_ok args storage now) m → m s = (s', Ok tt) → op_ok args storage now s') as Hkeeps.
  { intros m Hm E. specialize (Hm s Hs). by rewrite E in Hm. }
  destruct i as [client|client frame|client writable|msg|msg|msg| | |]; cbn [op_turn] in Hr;
    try (revert Hr; apply Hkeeps, ok_send_none).
  - revert Hr. apply Hkeeps. intros t Ht. rewrite bind_gets.
    destruct (op_clients t !! client) eqn:E; [done|]. by apply ok_set_client; rewrite ?E.
  - revert Hr. apply Hkeeps. intros t [T1 T2 T3]. split; [exact T1|..].
    + intros other. change (queued other (op_queue t) =
        expected (alter (λ c, c <| cc_inbox ::= λ l, l ++ [frame] |>) client (op_clients t) !! other)).
      rewrite T2. destruct (decide (other = client)) as [->|Hne]; [|by rewrite lookup_alter_ne].
      rewrite lookup_alter_eq. by destruct (op_clients t !! client).
    + intros other c Hc. change (alter (λ c, c <| cc_inbox ::= λ l, l ++ [frame] |>) client (op_clients t) !! other = Some c) in Hc.
      destruct (decide (other = client)) as [->|Hne].
      * rewrite lookup_alter_eq in Hc. destruct (op_clients t !! client) as [c0|] eqn:E; [|done].
        injection Hc as <-. exact (T3 client c0 E).
      * rewrite lookup_alter_ne in Hc by done. exact (T3 other c Hc).
  - revert Hr. apply Hkeeps, ok_process_client.
  - revert Hr. apply Hkeeps. unfold forward_server.
    destruct msg as [| |[]]; first [apply ok_send_none|apply keeps_ret].
  - revert Hr. apply Hkeeps. unfold forward_module.
    destruct msg as [| |data]; [apply ok_send_none..|].
    destruct (decode_from data) as [[m|]|e|e]; [apply ok_send_none|apply keeps_panic..].
  - by apply (loop_turn_ok s).
Qed.
End Loop.

Section Runs.
Context `{BfEnv, OpEnv} (args : Args) (storage : Storage) (now : Z).

Lemma run_ok inputs : ∀ s s',
  op_ok args storage now s → run_operator args inputs s = (s', Ok tt) → op_ok args storage now s'.
Proof.
  induction inputs as [|i inputs IH]; intros s s' Hs Hr; [by injection Hr as <-|].
  apply bind_Ok in Hr as (s1 & [] & Hi & Hr). apply (IH s1); [|exact Hr]. by apply (op_step_ok args storage now i s).
Qed.

Lemma initial_ok : op_ok args storage now (op_initial storage now).
Proof. split; [by exists []|done|done]. Qed.

Lemma run_over inputs s : op_over s = true → run_operator args inputs s = (s, Ok tt).
Proof.
  intros Hover. induction inputs as [|i inputs IH]; [done|]. unfold run_operator. cbn [for_each].
  rewrite (bind_run _ _ s s tt); [exact IH|]. unfold op_step. rewrite bind_gets. by rewrite_field Hover.
Qed.

(** The loop comes to what is in the channel. *)
Lemma waiting_answered client c before : ∀ s s' msg after,
  op_ok args storage now s → op_queue s = before ++ (msg, Some client) :: after →
  Forall (λ e, e.2 ≠ Some client) before → op_clients s !! client = Some c →
  run_operator args (replicate (S (length before)) Op_loop) s = (s', Ok tt) →
  op_over s' = true ∨ ∃ resp, op_clients s' !! client = Some (c <| cc_phase := Cli_answered resp |>).
Proof.
  induction before as [|[msg0 who] before IH]; intros s s' msg after Hs Hqueue Hbefore Hc Hr;
    (destruct (op_over s) eqn:Hover;
      [left; rewrite run_over in Hr by done; by injection Hr as <-|]);
    apply bind_Ok in Hr as (s1 & [] & Hturn & Hr);
    unfold op_step in Hturn; rewrite bind_gets in Hturn; rewrite_field_at Hover Hturn; cbn [op_turn] in Hturn.
  - right. injection Hr as <-.
    destruct (loop_turn_answers _ _ _ _ _ _ _ _ Hs Hqueue Hturn) as (c' & resp & Hc' & Hresp & _).
    exists resp. congruence.
  - destruct (loop_turn_others _ _ _ _ _ _ Hqueue Hturn) as [[sent Hq] Hothers].
    apply (IH s1 s' msg (after ++ sent)); [by apply (loop_turn_ok args storage now s)| | | |exact Hr].
    + by rewrite Hq, <- app_assoc.
    + by inversion Hbefore.
    + rewrite Hothers; [done|]. by inversion Hbefore.
Qed.

Lemma queued_split client msg l : ∀ queue,
  queued client queue = msg :: l →
  ∃ before after, queue = before ++ (msg, Some client) :: after ∧ Forall (λ e, e.2 ≠ Some client) before.
Proof.
  induction queue as [|[msg0 who] queue IH]; [done|]. rewrite queued_cons. destruct (decide (who = Some client)) as [->|Hne].
  - intros [= <- _]. by exists [], queue.
  - intros Hq. destruct (IH Hq) as (before & after & -> & Hbefore). exists ((msg0, who) :: before), after.
    split; [done|by constructor].
Qed.
End Runs.

(** ** Theorems *)

(** However the turns of the threads fall, what the loop does is a run of [run_bf]: all
    that is proved of those holds of the program, and so its wallet pays no more often
    than transfers were started. *)
Theorem operator_pays_once `{BfEnv, OpEnv} args now inputs s :
  run_operator args inputs (op_initial None now) = (s, Ok tt) →
  (∃ msgs, run_bf args msgs (bf_init None now) = (op_loop s, Ok tt)) ∧
  count is_payout (bs_log (op_loop s)) ≤ count is_start (bs_log (op_loop s)).
Proof.
  intros Hr. pose proof (run_ok args None now inputs _ _ (initial_ok args None now) Hr) as [[msgs Hloop] _ _].
  split; [by exists msgs|]. pose proof (run_inv 0 args msgs _ (new_inv now)) as Hinv. rewrite Hloop in Hinv.
  pose proof (inv_paid _ _ Hinv). pose proof (pending_bounds (bs_storage (op_loop s))). cbn [fst] in *. lia.
Qed.


(** ** A run with two clients *)

Module OperatorSample.
(** A request is its amount written out, Slack is down for the first post. *)
Definition env : OpEnv := {|
  parse_cli_request text := if String.eqb text "send" then inl (TestSendUsdt f1) else inr "expected value";
  cli_response_text resp := match resp with CliResponse_Success text | CliResponse_Error text => text end;
  decode_from data := Ok None |}.

Definition slack : SlackEnv := {|
  slack_response log text url := match log with [] => Err "timeout" | _ => Ok "ok" end |}.

Definition inputs : list OpInput :=
  [ Op_accept 1; Op_accept 2; Op_frame 1 (inl (Frame_Text "send")); Op_frame 2 (inl (Frame_Text "hello"));
    Op_frame 2 (inl (Frame_Binary (as_bytes "send"))); Op_client 2 true; Op_client 1 true; Op_client 2 true;
    Op_tick; Op_client 2 true; Op_loop; Op_client 1 true; Op_loop; Op_loop; Op_client 2 true ].

Definition written (s : Operator) (client : Z) : list Frame :=
  omap (λ e, match e with Cli_written frame => Some frame | Cli_asked _ => None end)
    (default [] ((λ c, reverse (cc_log c)) <$> op_clients s !! client)).
End OperatorSample.

Section OperatorExamples.
Import OperatorSample.
#[local] Existing Instances Bitfinex.Sample.env OperatorSample.env OperatorSample.slack.

Example two_clients :
  let '(s, r) := run_operator Bitfinex.Sample.args inputs (op_initial None 0) in
  r = Ok tt ∧ written s 1 = [Frame_Text "success"] ∧
  written s 2 = [Frame_Text "expected value"; Frame_Text "already started"].
Proof. vm_compute. by split_and!. Qed.

Example slack_retried :
  send_slack "dealer started" "url" 3 15000 [] =
    ([Slack_post "dealer started" "url"; Slack_sleep 15000; Slack_post "dealer started" "url"], Ok tt).
Proof. reflexivity. Qed.

End OperatorExamples.
