(* ===== verification/Payjoin.v ===== *)
(** * Payjoin

    Models [rust/sideswap_payjoin]: a payment of an asset in which the server adds
    the L-BTC inputs for the network fee and is paid for it in the asset.  The
    client assembles and blinds the transaction, the server signs it, and only the
    server's signatures are taken over.  The HTTP server and the [elements] crate
    (addresses, PSET encoding, proofs, blinding) are parameters ([PjEnv]). *)
From stdpp Require Import base numbers gmap strings list sorting.
From Stdlib Require Import ZArith QArith Qabs Lqa Lia SpecFloat.
From S2P Require Import Prelude F64 Api Types.

Open Scope Z_scope.
#[local] Set Primitive Projections.

(** ** Data *)

(** Scripts, addresses, blinding factors, commitments and serialised bytes are
    opaque texts. *)
Record PjUtxo := {
  pu_txid : Txid;
  pu_vout : Z;
  pu_script_pub_key : string;
  pu_asset_id : AssetId;
  pu_value : Z;
  pu_asset_bf : string;
  pu_value_bf : string;
  pu_asset_commitment : string;
  pu_value_commitment : string
}.

Record StartResponse := {
  sr_order_id : string;
  sr_expires_at : Z;
  sr_fee : Z;
  sr_price : f64;
  sr_fixed_fee : Z;
  sr_fee_address : string;
  sr_change_address : string;
  sr_utxos : list PjUtxo
}.

(** [server_api::Request] and [Response]. *)
Inductive PjRequest :=
  | Pj_AcceptedAssets
  | Pj_Start (asset_id : AssetId) (user_agent : string)
  | Pj_Sign (order_id : string) (pset : string).

Inductive PjResponse :=
  | Pj_AcceptedAssetsResp (accepted : list (AssetId * Z))
  | Pj_StartResp (r : StartResponse)
  | Pj_SignResp (pset : string).

(** [elements::TxOut] and its confidential fields. *)
Inductive confidential (A : Type) : Type :=
  | Null
  | Explicit (a : A)
  | Confidential (c : string).
Arguments Null {_}.
Arguments Explicit {_} _.
Arguments Confidential {_} _.

Record ETxOut := {
  to_asset : confidential AssetId;
  to_value : confidential Z;
  to_nonce : confidential string;
  to_script_pubkey : string
}.

Record TxOutSecrets := {
  ts_asset : AssetId;
  ts_asset_bf : string;
  ts_value : Z;
  ts_value_bf : string
}.

(** The fields of [elements::pset::Input] and [Output] the crate touches.
    [pi_proprietary] holds the entries with the PSET prefix and an empty key, by
    subtype. *)
Record PInput := {
  pi_prevout : Txid * Z;
  pi_witness_utxo : option ETxOut;
  pi_proprietary : gmap Z string;
  pi_final_script_sig : option string;
  pi_final_script_witness : option (list string)
}.

Record POutput := {
  po_txout : ETxOut;
  po_blinding_key : option string;
  po_blinder_index : option Z
}.

Record Pset := { ps_inputs : list PInput; ps_outputs : list POutput }.

Definition new_v2 : Pset := {| ps_inputs := []; ps_outputs := [] |}.
Definition add_input (p : Pset) (i : PInput) : Pset := p <| ps_inputs ::= (λ l, l ++ [i]) |>.
Definition add_output (p : Pset) (o : POutput) : Pset := p <| ps_outputs ::= (λ l, l ++ [o]) |>.

Definition PSET_IN_EXPLICIT_VALUE : Z := 17.
Definition PSET_IN_VALUE_PROOF : Z := 18.
Definition PSET_IN_EXPLICIT_ASSET : Z := 19.
Definition PSET_IN_ASSET_PROOF : Z := 20.

Record CreatePayjoin := {
  cp_base_url : string;
  cp_user_agent : string;
  cp_asset_id : AssetId;
  cp_amount : Z;
  cp_address : string;
  cp_subtract_fee_from_amount : bool;
  cp_change_address : string;
  cp_utxos : list PjUtxo
}.

Record CreatedPayjoin := { created_pset : Pset; created_asset_fee : Z }.

(** What the client sent to the server and what it had blinded, newest first. *)
Inductive PjEvent :=
  | Pj_request (r : PjRequest)
  | Pj_blind (p : Pset) (secrets : list (nat * TxOutSecrets)).

(** Result of one HTTP request: a decoded (or undecodable) body, a transport
    error, or an HTTP status with its decoded error or text. *)
Inductive HttpResult :=
  | Http_body (r : PjResponse + string)
  | Http_transport (e : string)
  | Http_status (status : Z) (body : string + string).

(** The crates the code calls, and the server. *)
Class PjEnv := {
  addr_blinding_pubkey : string → option string;
  addr_params : string → string;
  addr_script_pubkey : string → string;
  serialize_value : Z → string;
  serialize_asset : AssetId → string;
  (** [SurjectionProof::new(..)] and [RangeProof::new(..)], serialised *)
  asset_proof : TxOutSecrets → ETxOut → outcome string;
  value_proof : TxOutSecrets → ETxOut → outcome string;
  (** consensus encoding and base64 *)
  encode_pset : Pset → string;
  decode_pset : string → outcome Pset;
  shuffle_inputs : list (PInput * TxOutSecrets) → list (PInput * TxOutSecrets);
  shuffle_outputs : list POutput → list POutput;
  blind_last : Pset → list (nat * TxOutSecrets) → outcome Pset;
  pj_server : list PjEvent → PjRequest → HttpResult
}.

(** [SliceRandom::shuffle] permutes. *)
Class PjShuffle `{PjEnv} : Prop := {
  shuffle_inputs_perm : ∀ l, shuffle_inputs l ≡ₚ l;
  shuffle_outputs_perm : ∀ l, shuffle_outputs l ≡ₚ l
}.

(** ** Network fee ([network_fee.rs]) *)

Definition FEE_RATE : f64 := flit 1 10.
Definition WEIGHT_FIXED : Z := 44.
Definition WEIGHT_VIN_SINGLE_SIG : Z := 367.
Definition WEIGHT_VIN_MULTI_SIG : Z := 526.
Definition WEIGHT_VOUT : Z := 4810.
Definition WEIGHT_FEE : Z := 178.

Definition expected_network_fee (single_sig_inputs multi_sig_inputs blinded_outputs : Z) : Z :=
  let weight :=
    wu64 (WEIGHT_FIXED + WEIGHT_VIN_SINGLE_SIG * single_sig_inputs
          + WEIGHT_VIN_MULTI_SIG * multi_sig_inputs
          + WEIGHT_VOUT * blinded_outputs + WEIGHT_FEE) in
  let vsize := wu64 (weight + 3) / 4 in
  ceil_u64 (fmul (f64_of_Z vsize) FEE_RATE).

(** [fixed_fee + (price * network_fee as f64).round() as u64] *)
Definition asset_fee (fixed_fee : Z) (price : f64) (network_fee : Z) : Z :=
  wu64 (fixed_fee + round_u64 (fmul price (f64_of_Z network_fee))).

(** ** PSET handling ([pset.rs]) *)

Section Psets.
Context `{PjEnv}.

(** [Address::is_blinded] *)
Definition is_blinded (address : string) : bool :=
  match addr_blinding_pubkey address with Some _ => true | None => false end.

Definition pset_input (utxo : PjUtxo) : PInput := {|
  pi_prevout := (pu_txid utxo, pu_vout utxo);
  pi_witness_utxo := Some {|
    to_asset := Confidential (pu_asset_commitment utxo);
    to_value := Confidential (pu_value_commitment utxo);
    to_nonce := Null;
    to_script_pubkey := pu_script_pub_key utxo |};
  pi_proprietary := ∅;
  pi_final_script_sig := None;
  pi_final_script_witness := None
|}.

Definition input_secret (utxo : PjUtxo) : TxOutSecrets := {|
  ts_asset := pu_asset_id utxo;
  ts_asset_bf := pu_asset_bf utxo;
  ts_value := pu_value utxo;
  ts_value_bf := pu_value_bf utxo
|}.

Definition pset_output (address : string) (asset : AssetId) (amount : Z) : outcome POutput :=
  let? blinding_pubkey :=
    ook_or (addr_blinding_pubkey address) "only blinded addresses allowed" in
  do? oensure (0 <? amount) "Condition failed: `amount > 0`" in
  Ok {| po_txout := {| to_asset := Explicit asset;
                       to_value := Explicit amount;
                       to_nonce := Confidential blinding_pubkey;
                       to_script_pubkey := addr_script_pubkey address |};
        po_blinding_key := Some blinding_pubkey;
        po_blinder_index := Some 0 |}.

Definition pset_network_fee (asset : AssetId) (amount : Z) : POutput := {|
  po_txout := {| to_asset := Explicit asset; to_value := Explicit amount;
                 to_nonce := Null; to_script_pubkey := EmptyString |};
  po_blinding_key := None;
  po_blinder_index := None
|}.

(** [vec.remove(0)] *)
Definition remove_first (bytes : string) : outcome string :=
  match bytes with
  | EmptyString => Panic "removal index (is 0) should be < len (is 0)"
  | String _ bytes => Ok bytes
  end.

(** [.unwrap()] on a [Result] *)
Definition ounwrap {A} (r : outcome A) : outcome A :=
  match r with Ok a => Ok a | _ => Panic "called `Result::unwrap()` on an `Err` value" end.

Definition add_input_explicit_proofs (input : PInput) (secret : TxOutSecrets) : outcome PInput :=
  let? witness_utxo :=
    oexpect (pi_witness_utxo input) "called `Option::unwrap()` on a `None` value" in
  let? blind_asset_proof := ounwrap (asset_proof secret witness_utxo) in
  let? blind_value_proof := value_proof secret witness_utxo in
  let? blind_value_proof := remove_first blind_value_proof in
  let? blind_asset_proof := remove_first blind_asset_proof in
  Ok (input <| pi_proprietary ::= (λ m,
        <[PSET_IN_ASSET_PROOF := blind_asset_proof]>
        (<[PSET_IN_VALUE_PROOF := blind_value_proof]>
        (<[PSET_IN_EXPLICIT_ASSET := serialize_asset (ts_asset secret)]>
        (<[PSET_IN_EXPLICIT_VALUE := serialize_value (ts_value secret)]> m)))) |>).

Definition remove_explicit_values (pset : Pset) : Pset :=
  pset <| ps_inputs ::= fmap (λ input, input <| pi_proprietary ::= (λ m,
    delete PSET_IN_ASSET_PROOF
    (delete PSET_IN_VALUE_PROOF
    (delete PSET_IN_EXPLICIT_ASSET
    (delete PSET_IN_EXPLICIT_VALUE m)))) |>) |>.

Definition copy_input_signature (dst src : PInput) : PInput :=
  match pi_final_script_witness src with
  | Some _ => dst <| pi_final_script_sig := pi_final_script_sig src |>
                  <| pi_final_script_witness := pi_final_script_witness src |>
  | None => dst
  end.

Definition copy_signatures (dst src : Pset) : outcome Pset :=
  do? oensure (length (ps_inputs dst) =? length (ps_inputs src))%nat
        "Condition failed: `dst.inputs().len() == src.inputs().len()`" in
  do? oensure (length (ps_outputs dst) =? length (ps_outputs src))%nat
        "Condition failed: `dst.outputs().len() == src.outputs().len()`" in
  Ok (dst <| ps_inputs := zip_with copy_input_signature (ps_inputs dst) (ps_inputs src) |>).

(** [slice.swap(i, j)] *)
Definition swap {A} (i j : nat) (l : list A) : outcome (list A) :=
  match l !! i, l !! j with
  | Some x, Some y => Ok (<[i := y]> (<[j := x]> l))
  | _, _ => Panic "index out of bounds"
  end.

Fixpoint add_proofs (inputs : list (PInput * TxOutSecrets)) : outcome (list PInput) :=
  match inputs with
  | [] => Ok []
  | (input, secret) :: inputs =>
      let? input := add_input_explicit_proofs input secret in
      let? inputs := add_proofs inputs in
      Ok (input :: inputs)
  end.

(** The transaction as it is handed to [blind_last]. *)
Definition randomize_pset (pset : Pset) (input_secrets : list TxOutSecrets)
    : outcome (Pset * list (nat * TxOutSecrets)) :=
  do? oensure (length (ps_inputs pset) =? length input_secrets)%nat
        "Condition failed: `pset.inputs().len() == input_secrets.len()`" in
  let inputs := shuffle_inputs (zip (ps_inputs pset) input_secrets) in
  let outputs := shuffle_outputs (ps_outputs pset) in
  let? fee_output :=
    ook_or (position (λ o, bool_decide (po_blinding_key o = None)) outputs)
      "can't find network fee output" in
  let? outputs := swap fee_output (length outputs - 1) outputs in
  let? pset_inputs := add_proofs inputs in
  Ok ({| ps_inputs := pset_inputs; ps_outputs := outputs |}, imap pair inputs.*2).

Definition PjM : Type → Type := M (list PjEvent).

Definition randomize_and_blind_pset (pset : Pset) (input_secrets : list TxOutSecrets) : PjM Pset :=
  let! '(pset, inp_txout_sec) := lift (randomize_pset pset input_secrets) in
  do! modify (cons (Pj_blind pset inp_txout_sec)) in
  lift (blind_last pset inp_txout_sec).

(** ** Assembling the transaction ([lib.rs]) *)

Definition make_server_request (req : PjRequest) : PjM PjResponse :=
  let! log := gets id in
  let res := pj_server log req in
  do! modify (cons (Pj_request req)) in
  match res with
  | Http_body (inl resp) => ret resp
  | Http_body (inr e) => fail e
  | Http_transport e => fail "unexpected HTTP transport error"
  | Http_status status body =>
      if status =? 400 then fail "unexpected server error" else fail "unexpected HTTP status"
  end.

Record ConstructPsetArgs := {
  ca_selected_utxos : list PjUtxo;
  ca_send_address : string;
  ca_send_asset_id : AssetId;
  ca_send_amount : Z;
  ca_fee_address : string;
  ca_fixed_fee : Z;
  ca_price : f64;
  ca_client_change_address : string;
  ca_utxo_asset_amount : Z;
  ca_utxo_lbtc_amount : Z;
  ca_server_change_address : string;
  ca_lbtc_asset_id : AssetId
}.

(** The transaction before blinding, with the secrets of its inputs. *)
Definition assemble_pset (args : ConstructPsetArgs) : outcome (Pset * list TxOutSecrets) :=
  let pset := foldl (λ p utxo, add_input p (pset_input utxo)) new_v2 (ca_selected_utxos args) in
  let input_secrets := input_secret <$> ca_selected_utxos args in
  let send_asset_id := ca_send_asset_id args in
  let send_amount := ca_send_amount args in
  let? send := pset_output (ca_send_address args) send_asset_id send_amount in
  let pset := add_output pset send in
  let network_fee := expected_network_fee (Z.of_nat (length (ps_inputs pset))) 0 4 in
  let asset_fee := asset_fee (ca_fixed_fee args) (ca_price args) network_fee in
  let? fee := pset_output (ca_fee_address args) send_asset_id asset_fee in
  let pset := add_output pset fee in
  let asset_change_amount := wu64 (wu64 (ca_utxo_asset_amount args - send_amount) - asset_fee) in
  let? pset :=
    if 0 <? asset_change_amount then
      let? change :=
        pset_output (ca_client_change_address args) send_asset_id asset_change_amount in
      Ok (add_output pset change)
    else Ok pset in
  let lbtc_change_amount := wu64 (ca_utxo_lbtc_amount args - network_fee) in
  let? pset :=
    if 0 <? lbtc_change_amount then
      let? change :=
        pset_output (ca_server_change_address args) (ca_lbtc_asset_id args) lbtc_change_amount in
      Ok (add_output pset change)
    else Ok pset in
  Ok (add_output pset (pset_network_fee (ca_lbtc_asset_id args) network_fee), input_secrets).

Definition construct_pset (args : ConstructPsetArgs) : PjM Pset :=
  let! '(pset, input_secrets) := lift (assemble_pset args) in
  randomize_and_blind_pset pset input_secrets.

(** The selection loops: outputs in order until the target is reached. *)
Fixpoint select_until (target : Z) (utxos : list PjUtxo) (amount : Z) (selected : list PjUtxo)
    : list PjUtxo * Z :=
  match utxos with
  | [] => (selected, amount)
  | utxo :: utxos =>
      let amount := wu64 (amount + pu_value utxo) in
      let selected := selected ++ [utxo] in
      if target <=? amount then (selected, amount)
      else select_until target utxos amount selected
  end.

Definition check_request (req : CreatePayjoin) : outcome unit :=
  do? oensure (negb (bool_decide (cp_utxos req = []))) "client_utxos.is_empty()" in
  do? oensure (forallb (λ utxo, bool_decide (pu_asset_id utxo = cp_asset_id req)) (cp_utxos req))
        "client_utxos.asset_id" in
  do? oensure (is_blinded (cp_address req)) "send_address.is_blinded()" in
  do? oensure (is_blinded (cp_change_address req)) "client_change_address.is_blinded()" in
  do? oensure (String.eqb (addr_params (cp_address req)) (addr_params (cp_change_address req)))
        "send_address.params == client_change_address.params" in
  oensure (0 <? cp_amount req) "send_amount > 0".

Definition check_response (req : CreatePayjoin) (resp : StartResponse) : outcome unit :=
  let params := addr_params (cp_address req) in
  do? oensure (String.eqb params (addr_params (sr_fee_address resp))) "fee_address.params" in
  do? oensure (String.eqb params (addr_params (sr_change_address resp)))
        "server_change_address.params" in
  do? oensure (is_blinded (sr_fee_address resp)) "fee_address.is_blinded()" in
  do? oensure (is_blinded (sr_change_address resp)) "server_change_address.is_blinded()" in
  oensure (negb (bool_decide (sr_utxos resp = []))) "server_utxos.is_empty()".

(** The largest fees: all inputs of both sides and four blinded outputs. *)
Definition max_network_fee (req : CreatePayjoin) (resp : StartResponse) : Z :=
  expected_network_fee (Z.of_nat (length (cp_utxos req) + length (sr_utxos resp))) 0 4.

Definition max_asset_fee (req : CreatePayjoin) (resp : StartResponse) : Z :=
  asset_fee (sr_fixed_fee resp) (sr_price resp) (max_network_fee req resp).

(** From the server's offer to the arguments of [construct_pset]. *)
Definition payjoin_args (req : CreatePayjoin) (resp : StartResponse) : outcome ConstructPsetArgs :=
  do? check_response req resp in
  let max_network_fee := max_network_fee req resp in
  let max_asset_fee := max_asset_fee req resp in
  let? send_amount :=
    if cp_subtract_fee_from_amount req then
      do? oensure (max_asset_fee <? cp_amount req) "send_amount > max_asset_fee" in
      Ok (wu64 (cp_amount req - max_asset_fee))
    else Ok (cp_amount req) in
  let? first := oexpect (head (sr_utxos resp)) "called `Option::unwrap()` on a `None` value" in
  let lbtc_asset_id := pu_asset_id first in
  let asset_target := wu64 (send_amount + max_asset_fee) in
  let '(selected_utxos, utxo_asset_amount) := select_until asset_target (cp_utxos req) 0 [] in
  let '(selected_utxos, utxo_lbtc_amount) :=
    select_until max_network_fee (sr_utxos resp) 0 selected_utxos in
  do? oensure (asset_target <=? utxo_asset_amount) "utxo_asset_amount" in
  do? oensure (max_network_fee <=? utxo_lbtc_amount) "utxo_lbtc_amount" in
  Ok {| ca_selected_utxos := selected_utxos;
        ca_send_address := cp_address req;
        ca_send_asset_id := cp_asset_id req;
        ca_send_amount := send_amount;
        ca_fee_address := sr_fee_address resp;
        ca_fixed_fee := sr_fixed_fee resp;
        ca_price := sr_price resp;
        ca_client_change_address := cp_change_address req;
        ca_utxo_asset_amount := utxo_asset_amount;
        ca_utxo_lbtc_amount := utxo_lbtc_amount;
        ca_server_change_address := sr_change_address resp;
        ca_lbtc_asset_id := lbtc_asset_id |}.

Definition create_payjoin (req : CreatePayjoin) : PjM CreatedPayjoin :=
  do! lift (check_request req) in
  let! resp := make_server_request (Pj_Start (cp_asset_id req) (cp_user_agent req)) in
  let! resp := lift (match resp with
                     | Pj_StartResp resp => Ok resp
                     | _ => Err "unexpected response"
                     end) in
  let! args := lift (payjoin_args req resp) in
  let! blinded_pset := construct_pset args in
  let server_pset := encode_pset (remove_explicit_values blinded_pset) in
  let! resp' := make_server_request (Pj_Sign (sr_order_id resp) server_pset) in
  let! server_signed_pset := lift (match resp' with
                                   | Pj_SignResp pset => decode_pset pset
                                   | _ => Err "unexpected response"
                                   end) in
  let! pset := lift (copy_signatures blinded_pset server_signed_pset) in
  ret {| created_pset := pset; created_asset_fee := max_asset_fee req resp |}.

(** [final_tx]; [extract_tx] is of the [elements] crate. *)
Definition final_tx {Tx} (extract_tx : Pset → outcome Tx) (pset_client pset_server : Pset)
    : outcome Tx :=
  let? pset := copy_signatures pset_client pset_server in
  extract_tx pset.
End Psets.

(** ** Lemmas: fees *)

Lemma FEE_RATE_fnorm : ∃ q, fnorm FEE_RATE q ∧ (1 # 11 <= q)%Q ∧ (q <= 1 # 9)%Q.
Proof.
  exists (inject_Z 7205759403792794 * pow2 (-56))%Q. split; [|by vm_compute].
  exists 7205759403792794%positive, (-56). by vm_compute.
Qed.

Lemma inject_le a b : a ≤ b → (inject_Z a <= inject_Z b)%Q.
Proof. by rewrite <- Zle_Qle. Qed.

Lemma inject_lt a b : a < b → (inject_Z a < inject_Z b)%Q.
Proof. by rewrite <- Zlt_Qlt. Qed.

(** The product of a moderate factor with an integer. *)
Lemma fmul_int (c : f64) (qc : Q) z :
  fnorm c qc → (1 # 1000000 <= qc)%Q → (qc <= 1000000 # 1)%Q → 0 < z ≤ 10 ^ 6 →
  ∃ r, fnorm (fmul c (f64_of_Z z)) r ∧
    (Qabs (r - qc * inject_Z z) <= qc * (1 # 1000000000))%Q.
Proof.
  intros Hc Hlo Hhi Hz.
  pose proof (inject_le 1 z ltac:(lia)) as Hz1. pose proof (inject_le z (10 ^ 6) ltac:(lia)) as Hz2.
  change (inject_Z 1) with 1%Q in *. change (inject_Z (10 ^ 6)) with (1000000 # 1)%Q in *.
  assert (inject_Z (10 ^ 30) == 1000000000000000000000000000000 # 1)%Q as E30 by reflexivity.
  assert (qc * 1 <= qc * inject_Z z)%Q as L1 by (apply Qmult_le_compat_nonneg; lra).
  assert (qc * inject_Z z <= qc * (1000000 # 1))%Q as L2 by (apply Qmult_le_compat_nonneg; lra).
  destruct (fmul_spec c (f64_of_Z z) qc (inject_Z z) Hc) as (r & Hr & He).
  { apply f64_of_Z_spec. lia. }
  { apply mid_range_between; [lra|]. rewrite E30. lra. }
  exists r. split; [done|]. etransitivity; [exact He|]. unfold ulp53. lra.
Qed.

(** Products of the same factor: the rounding errors stay below the distance of
    the exact values. *)
Lemma fmul_int_mono (qc : Q) a b (p q : Q) :
  (0 < qc)%Q → a < b →
  (Qabs (p - qc * inject_Z a) <= qc * (1 # 1000000000))%Q →
  (Qabs (q - qc * inject_Z b) <= qc * (1 # 1000000000))%Q → (p <= q)%Q.
Proof.
  intros Hqc Hab Hp Hq.
  pose proof (inject_le (a + 1) b ltac:(lia)) as H. rewrite inject_Z_plus in H.
  change (inject_Z 1) with 1%Q in H.
  apply Qabs_bound in Hp as [Hp1 Hp2]. apply Qabs_bound in Hq as [Hq1 Hq2].
  assert (qc * (inject_Z a + 1) <= qc * inject_Z b)%Q as L
    by (apply (Qmult_le_l _ _ qc); lra).
  lra.
Qed.

Definition vsize (inputs : Z) : Z := (44 + 367 * inputs + 4810 * 4 + 178 + 3) / 4.

Lemma expected_network_fee_vsize n :
  0 ≤ n ≤ 10000 →
  expected_network_fee n 0 4 = ceil_u64 (fmul (f64_of_Z (vsize n)) FEE_RATE) ∧
  4866 ≤ vsize n ≤ 10 ^ 6.
Proof.
  intros Hn. unfold expected_network_fee, WEIGHT_FIXED, WEIGHT_VIN_SINGLE_SIG,
    WEIGHT_VIN_MULTI_SIG, WEIGHT_VOUT, WEIGHT_FEE, vsize.
  rewrite (wu64_id (44 + 367 * n + 526 * 0 + 4810 * 4 + 178))
    by (unfold in_u64, u64_max; lia).
  rewrite wu64_id by (unfold in_u64, u64_max; lia).
  replace (44 + 367 * n + 526 * 0 + 4810 * 4 + 178 + 3) with (44 + 367 * n + 4810 * 4 + 178 + 3)
    by lia.
  split; [done|]. split; [apply Z.div_le_lower_bound|apply Z.div_le_upper_bound]; lia.
Qed.

Lemma fmul_comm x y : fmul x y = fmul y x.
Proof.
  unfold fmul. destruct x as [sx|sx| |sx mx ex], y as [sy|sy| |sy my ey]; cbn [SFmul];
    try done; try (by destruct sx, sy).
  rewrite (Pos.mul_comm mx), (Z.add_comm ex). by destruct sx, sy.
Qed.

(** More inputs, more network fee; and the fee is at least the one of no inputs. *)
Lemma expected_network_fee_mono n m :
  0 ≤ n ≤ m → m ≤ 10000 →
  400 ≤ expected_network_fee n 0 4 ≤ expected_network_fee m 0 4 ∧
  expected_network_fee m 0 4 ≤ 200000.
Proof.
  intros Hnm Hm.
  destruct (expected_network_fee_vsize n) as [-> Hvn]; [lia|].
  destruct (expected_network_fee_vsize m) as [-> Hvm]; [lia|].
  destruct FEE_RATE_fnorm as (qc & Hc & Hlo & Hhi).
  destruct (fmul_int FEE_RATE qc (vsize n)) as (p & Hp & Ep); [done|lra|lra|lia|].
  destruct (fmul_int FEE_RATE qc (vsize m)) as (q & Hq & Eq); [done|lra|lra|lia|].
  rewrite !(fmul_comm _ FEE_RATE).
  assert (p <= q)%Q as Hpq.
  { destruct (Z.eq_dec (vsize n) (vsize m)) as [E|Hne].
    - rewrite E in Hp. by rewrite (fnorm_inj _ _ _ Hp Hq).
    - apply (fmul_int_mono qc (vsize n) (vsize m)); [lra| |done|done].
      assert (vsize n ≤ vsize m) by (apply Z.div_le_mono; lia). lia. }
  apply Qabs_bound in Ep as [Ep1 Ep2]. apply Qabs_bound in Eq as [Eq1 Eq2].
  pose proof (inject_le 4866 (vsize n) ltac:(lia)) as Hn1.
  pose proof (inject_le (vsize m) (10 ^ 6) ltac:(lia)) as Hm1.
  pose proof (inject_le 4866 (vsize m) ltac:(lia)) as Hm0.
  change (inject_Z 4866) with (4866 # 1)%Q in *. change (inject_Z (10 ^ 6)) with (1000000 # 1)%Q in *.
  assert ((1 # 11) * (4866 # 1) <= qc * inject_Z (vsize n))%Q
    by (apply Qmult_le_compat_nonneg; lra).
  assert (qc * inject_Z (vsize m) <= (1 # 9) * (1000000 # 1))%Q
    by (apply Qmult_le_compat_nonneg; lra).
  assert (q <= inject_Z (2 ^ 52))%Q as Hq52
    by (change (inject_Z (2 ^ 52)) with (4503599627370496 # 1)%Q; lra).
  pose proof (fceil_mono _ _ _ _ p q wide_u64 Hp Hq Hpq Hq52) as Hmono.
  destruct (fceil_int _ _ _ p wide_u64 Hp ltac:(by etransitivity)) as (_ & Hlow & _).
  destruct (fceil_int _ _ _ q wide_u64 Hq Hq52) as (_ & _ & Hhigh).
  change (f_as_int 0 u64_max (fceil ?x)) with (ceil_u64 x) in *.
  split; [split; [|done]|].
  - apply Z.lt_le_incl. rewrite Zlt_Qlt. change (inject_Z 400) with (400 # 1)%Q. lra.
  - apply Z.lt_le_incl. rewrite Zlt_Qlt. change (inject_Z 200000) with (200000 # 1)%Q. lra.
Qed.

(** A dearer transaction costs no less in the asset. *)
Lemma round_fee_mono price (pq : Q) a b :
  fnorm price pq → (1 # 1000000 <= pq)%Q → (pq <= 1000000 # 1)%Q →
  0 < a ≤ b → b ≤ 10 ^ 6 →
  0 ≤ round_u64 (fmul price (f64_of_Z a)) ≤ round_u64 (fmul price (f64_of_Z b)) ∧
  round_u64 (fmul price (f64_of_Z b)) ≤ 2 ^ 50.
Proof.
  intros Hc Hlo Hhi Hab Hb.
  destruct (fmul_int price pq a) as (p & Hp & Ep); [done|lra|lra|lia|].
  destruct (fmul_int price pq b) as (q & Hq & Eq); [done|lra|lra|lia|].
  assert (p <= q)%Q as Hpq.
  { destruct (Z.eq_dec a b) as [->|Hne].
    - by rewrite (fnorm_inj _ _ _ Hp Hq).
    - apply (fmul_int_mono pq a b); [lra|lia|done|done]. }
  pose proof (inject_le b (10 ^ 6) ltac:(lia)) as Hb1. pose proof (inject_le 0 b ltac:(lia)).
  change (inject_Z (10 ^ 6)) with (1000000 # 1)%Q in *. change (inject_Z 0) with 0%Q in *.
  assert (pq * inject_Z b <= (1000000 # 1) * (1000000 # 1))%Q
    by (apply Qmult_le_compat_nonneg; lra).
  apply Qabs_bound in Eq as [Eq1 Eq2].
  assert (q <= inject_Z (2 ^ 52))%Q as Hq52
    by (change (inject_Z (2 ^ 52)) with (4503599627370496 # 1)%Q; lra).
  pose proof (fround_mono _ _ _ _ p q wide_u64 Hp Hq Hpq Hq52) as Hmono.
  destruct (fround_int _ _ _ p wide_u64 Hp ltac:(by etransitivity)) as (Hpos & _ & _).
  destruct (fround_int _ _ _ q wide_u64 Hq Hq52) as (_ & Hhigh & _).
  change (f_as_int 0 u64_max (fround ?x)) with (round_u64 x) in *.
  split; [done|]. apply Z.lt_le_incl. rewrite Zlt_Qlt.
  change (inject_Z (2 ^ 50)) with (1125899906842624 # 1)%Q. lra.
Qed.

(** ** Lemmas: the transaction *)

Section Lemmas.
Context `{PjEnv}.

(** Where an output pays what. *)
Definition payment (o : POutput) : string * confidential AssetId * confidential Z :=
  (to_script_pubkey (po_txout o), to_asset (po_txout o), to_value (po_txout o)).

Definition pay (address : string) (asset : AssetId) (amount : Z)
    : string * confidential AssetId * confidential Z :=
  (addr_script_pubkey address, Explicit asset, Explicit amount).

(** A change output is there only when there is change. *)
Definition pay_change (address : string) (asset : AssetId) (amount : Z)
    : list (string * confidential AssetId * confidential Z) :=
  if 0 <? amount then [pay address asset amount] else [].

Definition prevout (utxo : PjUtxo) : Txid * Z := (pu_txid utxo, pu_vout utxo).

(** Outputs in order, and their value as the machine adds it up. *)
Lemma select_until_spec target utxos amount selected :
  in_u64 amount →
  ∃ picked rest, utxos = picked ++ rest ∧
    select_until target utxos amount selected
      = (selected ++ picked, wu64 (amount + zsum (pu_value <$> picked))).
Proof.
  revert amount selected. induction utxos as [|u utxos IH]; intros amount selected Ha; csimpl.
  { exists [], []. csimpl. by rewrite app_nil_r, Z.add_0_r, wu64_id. }
  destruct (Z.leb_spec target (wu64 (amount + pu_value u))).
  - exists [u], utxos. csimpl. by rewrite Z.add_0_r.
  - destruct (IH (wu64 (amount + pu_value u)) (selected ++ [u]) (wu64_range _))
      as (pk & rest & -> & E).
    exists (u :: pk), rest. rewrite E, <- app_assoc, wu64_add_l. csimpl. split; [done|].
    do 2 f_equal. lia.
Qed.

Lemma foldl_add_input utxos p :
  foldl (λ p utxo, add_input p (pset_input utxo)) p utxos
    = p <| ps_inputs ::= (λ l, l ++ (pset_input <$> utxos)) |>.
Proof.
  revert p. induction utxos as [|u utxos IH]; intros p; simpl.
  - by unfold set; rewrite app_nil_r.
  - rewrite IH. unfold add_input, set. cbn. by rewrite <- app_assoc.
Qed.

Lemma pset_output_Ok address asset amount o :
  pset_output address asset amount = Ok o →
  payment o = pay address asset amount ∧ po_blinding_key o ≠ None ∧ 0 < amount.
Proof. intros E. unfold pset_output in E. ok_inv. split_and!; [done|done|lia]. Qed.

(** The transaction before blinding: the inputs as selected, then the payments,
    then the network fee. *)
Lemma assemble_pset_Ok args p secrets :
  assemble_pset args = Ok (p, secrets) →
  let network_fee := expected_network_fee (Z.of_nat (length (ca_selected_utxos args))) 0 4 in
  let fee := asset_fee (ca_fixed_fee args) (ca_price args) network_fee in
  ps_inputs p = pset_input <$> ca_selected_utxos args ∧
  secrets = input_secret <$> ca_selected_utxos args ∧
  ∃ outs, ps_outputs p = outs ++ [pset_network_fee (ca_lbtc_asset_id args) network_fee] ∧
    Forall (λ o, po_blinding_key o ≠ None) outs ∧
    payment <$> outs =
      [pay (ca_send_address args) (ca_send_asset_id args) (ca_send_amount args);
       pay (ca_fee_address args) (ca_send_asset_id args) fee] ++
      pay_change (ca_client_change_address args) (ca_send_asset_id args)
        (wu64 (wu64 (ca_utxo_asset_amount args - ca_send_amount args) - fee)) ++
      pay_change (ca_server_change_address args) (ca_lbtc_asset_id args)
        (wu64 (ca_utxo_lbtc_amount args - network_fee)).
Proof.
  intros E. cbv zeta. unfold assemble_pset in E. rewrite foldl_add_input in E. cbn in E.
  rewrite length_fmap in E.
  set (nf := expected_network_fee _ 0 4) in *. set (fee := asset_fee _ _ nf) in *.
  ok_inv. cbn in *.
  apply pset_output_Ok in H0 as (P1 & B1 & _). apply pset_output_Ok in H1 as (P2 & B2 & _).
  unfold pay_change.
  destruct (0 <? wu64 (wu64 _ - fee)); destruct (0 <? wu64 (_ - nf)); ok_inv;
    repeat match goal with
    | Hx : pset_output _ _ _ = Ok _ |- _ =>
        let P := fresh "P" in let B := fresh "B" in apply pset_output_Ok in Hx as (P & B & _)
    end; cbn;
    (split; [done|]); (split; [done|]);
    (lazymatch goal with |- ∃ _, ?l = _ ∧ _ => exists (removelast l) end); cbn;
    (split; [done|]); (split; [by repeat constructor|]); congruence.
Qed.

Lemma swap_last {A} i (l l' : list A) x :
  l !! i = Some x → swap i (length l - 1) l = Ok l' → ∃ k, l' = k ++ [x] ∧ l' ≡ₚ l.
Proof.
  intros Hi. unfold swap. rewrite Hi.
  destruct (pop_last_is_Some l) as [[y k] Hk]; [by intros ->|].
  apply pop_last_Some in Hk. subst l. rewrite length_app. simpl.
  replace (length k + 1 - 1)%nat with (length k + 0)%nat by lia.
  rewrite lookup_app_r, insert_app_r by lia. replace (length k + 0 - length k)%nat with 0%nat by lia.
  cbn. intros [= <-]. destruct (decide (i < length k)%nat) as [Hlt|Hge].
  - rewrite lookup_app_l in Hi by done. rewrite insert_app_l by done.
    eexists. split; [reflexivity|].
    apply list_elem_of_split_length in Hi as (k1 & k2 & -> & ->).
    rewrite insert_app_r_alt, Nat.sub_diag by lia. simpl. solve_Permutation.
  - rewrite lookup_app_r in Hi by lia.
    destruct (i - length k)%nat eqn:E; simpl in Hi; [|done]. injection Hi as ->.
    exists k. rewrite insert_app_r_alt, E by lia. done.
Qed.

(** Adding the proofs keeps the outputs an input spends. *)
Lemma add_proofs_Ok inputs l :
  add_proofs inputs = Ok l → pi_prevout <$> l = pi_prevout <$> inputs.*1.
Proof.
  revert l. induction inputs as [|[i s] inputs IH]; intros l E; cbn [add_proofs] in E; ok_inv.
  - done.
  - csimpl. rewrite (IH _ H1). unfold add_input_explicit_proofs in H0. ok_inv. done.
Qed.

(** Shuffling keeps every input with its secrets and puts the fee output last. *)
Lemma randomize_pset_Ok `{!PjShuffle} p secrets outs fee p' s' :
  ps_outputs p = outs ++ [fee] → Forall (λ o, po_blinding_key o ≠ None) outs →
  randomize_pset p secrets = Ok (p', s') →
  (∃ outs', ps_outputs p' = outs' ++ [fee] ∧ outs' ≡ₚ outs) ∧
  s'.*1 = seq 0 (length secrets) ∧
  zip (pi_prevout <$> ps_inputs p') s'.*2 ≡ₚ zip (pi_prevout <$> ps_inputs p) secrets.
Proof.
  intros Ho Hb E. unfold randomize_pset in E. ok_inv.
  rename select (position _ _ = _) into Hpos. rename select (swap _ _ _ = _) into Hsw.
  rename select (add_proofs _ = _) into Hpr. rename select (Nat.eqb _ _ = _) into Hlen.
  apply Nat.eqb_eq in Hlen.
  cbn [ps_inputs ps_outputs].
  pose proof (shuffle_inputs_perm (zip (ps_inputs p) secrets)) as Hi.
  pose proof (shuffle_outputs_perm (ps_outputs p)) as Hs.
  set (ins := shuffle_inputs _) in *. set (os := shuffle_outputs _) in *. split; [|split].
  - apply position_Some in Hpos as (x' & Hx & Hn). apply bool_decide_eq_true in Hn.
    destruct (swap_last _ _ _ _ Hx Hsw) as (k & -> & Hp).
    rewrite Hs, Ho in Hp.
    assert (x' ∈ outs ++ [fee]) as Hin by (rewrite <- Hp; set_solver).
    apply elem_of_app in Hin as [Hin| ->%list_elem_of_singleton].
    + rewrite Forall_forall in Hb. by apply Hb in Hin.
    + exists k. split; [done|]. by apply Permutation_app_inv_r in Hp.
  - rewrite fmap_imap. unfold compose. cbn [fst].
    rewrite (imap_seq_0 _ (λ n, n)), list_fmap_id, length_fmap, Hi, length_zip_with.
    f_equal. lia.
  - rewrite fmap_imap. unfold compose. cbn [snd]. rewrite (imap_const (λ x, x)), list_fmap_id.
    rewrite (add_proofs_Ok _ _ Hpr).
    assert (∀ l : list (PInput * TxOutSecrets),
      zip (pi_prevout <$> l.*1) l.*2 = prod_map pi_prevout id <$> l) as Hz.
    { induction l as [|[] l IH]; csimpl; [done|]. by rewrite <- IH. }
    rewrite Hz, Hi. clear -Hlen. revert secrets Hlen.
    induction (ps_inputs p) as [|i l IH]; intros [|s secrets] Hlen; simplify_eq/=; [done|].
    csimpl. unfold prod_map at 1. cbn. f_equiv. by apply IH.
Qed.

(** An ordinary offer: no number of either side comes near the width of the integers,
    and the price is a number between a millionth and a million.  The code does not
    check the server's numbers ([Sample.overcharged]). *)
Record fair_offer (req : CreatePayjoin) (resp : StartResponse) : Prop := {
  fair_inputs : Z.of_nat (length (cp_utxos req) + length (sr_utxos resp)) ≤ 10000;
  fair_price : ∃ q, fnorm (sr_price resp) q ∧ (1 # 1000000 <= q)%Q ∧ (q <= 1000000 # 1)%Q;
  fair_fixed_fee : 0 ≤ sr_fixed_fee resp ≤ 2 ^ 60;
  fair_amount : cp_amount req ≤ 2 ^ 62;
  fair_client : Forall (λ u, 0 ≤ pu_value u) (cp_utxos req);
  fair_client_sum : zsum (pu_value <$> cp_utxos req) ≤ u64_max;
  fair_server : Forall (λ u, 0 ≤ pu_value u) (sr_utxos resp);
  fair_server_sum : zsum (pu_value <$> sr_utxos resp) ≤ u64_max
}.

(** What the recipient is to get. *)
Definition sent_amount (req : CreatePayjoin) (resp : StartResponse) : Z :=
  if cp_subtract_fee_from_amount req then cp_amount req - max_asset_fee req resp
  else cp_amount req.

(** The fees of [n] of the inputs against the maximum. *)
Lemma fees_below_max req resp n :
  fair_offer req resp → (n ≤ length (cp_utxos req) + length (sr_utxos resp))%nat →
  let network_fee := expected_network_fee (Z.of_nat n) 0 4 in
  0 ≤ network_fee ≤ max_network_fee req resp ∧
  0 ≤ asset_fee (sr_fixed_fee resp) (sr_price resp) network_fee ≤ max_asset_fee req resp ∧
  max_asset_fee req resp ≤ 2 ^ 61.
Proof.
  intros Hf Hn. cbv zeta. pose proof (fair_inputs _ _ Hf) as Hi.
  destruct (fair_price _ _ Hf) as (q & Hq & Hlo & Hhi). pose proof (fair_fixed_fee _ _ Hf).
  unfold max_asset_fee, max_network_fee.
  pose proof (expected_network_fee_mono (Z.of_nat n)
    (Z.of_nat (length (cp_utxos req) + length (sr_utxos resp))) ltac:(lia) ltac:(lia)) as [N1 N2].
  set (mx := expected_network_fee (Z.of_nat (_ + _)) 0 4) in *.
  set (nf := expected_network_fee (Z.of_nat n) 0 4) in *.
  destruct (round_fee_mono (sr_price resp) q nf mx) as [R1 R2]; [done|done|done|lia|lia|].
  unfold asset_fee. rewrite !wu64_id by (unfold in_u64, u64_max; lia). lia.
Qed.

Lemma sent_amount_Ok req resp amt :
  in_u64 (cp_amount req) →
  (if cp_subtract_fee_from_amount req then
     do? oensure (max_asset_fee req resp <? cp_amount req) "send_amount > max_asset_fee" in
     Ok (wu64 (cp_amount req - max_asset_fee req resp))
   else Ok (cp_amount req)) = Ok amt →
  amt = sent_amount req resp ∧ in_u64 amt.
Proof.
  intros Ha E. pose proof (wu64_range (sr_fixed_fee resp + round_u64 (fmul (sr_price resp)
    (f64_of_Z (max_network_fee req resp))))) as Hm.
  fold (asset_fee (sr_fixed_fee resp) (sr_price resp) (max_network_fee req resp)) in Hm.
  fold (max_asset_fee req resp) in Hm. unfold sent_amount, in_u64 in *.
  destruct (cp_subtract_fee_from_amount req); ok_inv; [|done].
  rewrite wu64_id by (unfold in_u64; lia). lia.
Qed.

(** What is made of an offer, whatever its numbers are. *)
Lemma payjoin_args_Ok req resp args :
  in_u64 (cp_amount req) → payjoin_args req resp = Ok args →
  ∃ client rest server rest',
    cp_utxos req = client ++ rest ∧ sr_utxos resp = server ++ rest' ∧
    wu64 (sent_amount req resp + max_asset_fee req resp) ≤ wu64 (zsum (pu_value <$> client)) ∧
    max_network_fee req resp ≤ wu64 (zsum (pu_value <$> server)) ∧
    0 ≤ sent_amount req resp ∧
    args = {| ca_selected_utxos := client ++ server;
              ca_send_address := cp_address req;
              ca_send_asset_id := cp_asset_id req;
              ca_send_amount := sent_amount req resp;
              ca_fee_address := sr_fee_address resp;
              ca_fixed_fee := sr_fixed_fee resp;
              ca_price := sr_price resp;
              ca_client_change_address := cp_change_address req;
              ca_utxo_asset_amount := wu64 (zsum (pu_value <$> client));
              ca_utxo_lbtc_amount := wu64 (zsum (pu_value <$> server));
              ca_server_change_address := sr_change_address resp;
              ca_lbtc_asset_id := ca_lbtc_asset_id args |}.
Proof.
  intros Ha E. unfold payjoin_args in E.
  destruct (select_until_spec (wu64 (sent_amount req resp + max_asset_fee req resp))
    (cp_utxos req) 0 []) as (cl & rest & Ec & Esc); [done|].
  destruct (select_until_spec (max_network_fee req resp) (sr_utxos resp) 0 cl)
    as (sv & rest' & Es & Ess); [done|].
  rewrite !Z.add_0_l in Esc, Ess. ok_inv. rename select (_ = Ok (_ : Z)) into Ea.
  apply sent_amount_Ok in Ea as [-> Hamt]; [|done].
  rewrite Esc in E. cbn [app] in E. rewrite Ess in E. ok_inv.
  exists cl, rest, sv, rest'. unfold in_u64 in Hamt. split_and!; try done; lia.
Qed.

Lemma zsum_prefix (l rest : list PjUtxo) :
  Forall (λ u, 0 ≤ pu_value u) (l ++ rest) → zsum (pu_value <$> l ++ rest) ≤ u64_max →
  0 ≤ zsum (pu_value <$> l) ≤ u64_max.
Proof.
  rewrite fmap_app, zsum_app. intros [Hl Hr]%Forall_app Hs.
  assert (0 ≤ zsum (pu_value <$> l)) by (apply zsum_nonneg; by apply Forall_fmap).
  assert (0 ≤ zsum (pu_value <$> rest)) by (apply zsum_nonneg; by apply Forall_fmap). lia.
Qed.

(** With an ordinary offer nothing wraps around. *)
Lemma fair_balances req resp client rest server rest' :
  fair_offer req resp →
  cp_utxos req = client ++ rest → sr_utxos resp = server ++ rest' →
  wu64 (sent_amount req resp + max_asset_fee req resp) ≤ wu64 (zsum (pu_value <$> client)) →
  max_network_fee req resp ≤ wu64 (zsum (pu_value <$> server)) →
  0 ≤ sent_amount req resp →
  let network_fee := expected_network_fee (Z.of_nat (length (client ++ server))) 0 4 in
  let fee := asset_fee (sr_fixed_fee resp) (sr_price resp) network_fee in
  let client_change := wu64 (zsum (pu_value <$> client) - sent_amount req resp - fee) in
  let server_change := wu64 (zsum (pu_value <$> server) - network_fee) in
  zsum (pu_value <$> client) = sent_amount req resp + fee + client_change ∧
  zsum (pu_value <$> server) = network_fee + server_change ∧
  0 ≤ fee ≤ max_asset_fee req resp ∧ 0 ≤ client_change ∧ 0 ≤ server_change.
Proof.
  intros Hf Ec Es Hcl Hsv Hsent. cbv zeta.
  destruct (fees_below_max req resp (length (client ++ server)) Hf) as (HN & HA & HM).
  { rewrite Ec, Es, !length_app. lia. }
  set (nf := expected_network_fee _ 0 4) in *. set (fee := asset_fee _ _ nf) in *.
  pose proof (fair_client _ _ Hf) as Hc0. pose proof (fair_client_sum _ _ Hf) as Hcs.
  pose proof (fair_server _ _ Hf) as Hs0. pose proof (fair_server_sum _ _ Hf) as Hss.
  rewrite Ec in Hc0, Hcs. rewrite Es in Hs0, Hss.
  pose proof (zsum_prefix _ _ Hc0 Hcs) as Hc. pose proof (zsum_prefix _ _ Hs0 Hss) as Hs.
  pose proof (fair_amount _ _ Hf) as Ha.
  assert (sent_amount req resp ≤ 2 ^ 62).
  { unfold sent_amount. destruct (cp_subtract_fee_from_amount req); lia. }
  rewrite (wu64_id (zsum (pu_value <$> client))) in Hcl by done.
  rewrite (wu64_id (zsum (pu_value <$> server))) in Hsv by done.
  rewrite wu64_id in Hcl by (unfold in_u64, u64_max; lia).
  rewrite !wu64_id by (unfold in_u64, u64_max in *; lia). lia.
Qed.

(** No input carries its value, its asset or a proof of them. *)
Definition proofs_removed (p : Pset) : Prop :=
  Forall (λ i, Forall (λ k, pi_proprietary i !! k = None)
    [PSET_IN_EXPLICIT_VALUE; PSET_IN_VALUE_PROOF; PSET_IN_EXPLICIT_ASSET; PSET_IN_ASSET_PROOF])
    (ps_inputs p).

Lemma remove_explicit_values_removed p : proofs_removed (remove_explicit_values p).
Proof.
  unfold proofs_removed, remove_explicit_values. cbn. apply Forall_fmap, Forall_true.
  intros i. unfold compose, PSET_IN_EXPLICIT_VALUE, PSET_IN_VALUE_PROOF,
    PSET_IN_EXPLICIT_ASSET, PSET_IN_ASSET_PROOF.
  repeat constructor; cbn; by simplify_map_eq.
Qed.

(** What may be sent to the server. *)
Definition sends_no_secrets (e : PjEvent) : Prop :=
  match e with
  | Pj_request (Pj_Sign _ pset) => ∃ p, pset = encode_pset p ∧ proofs_removed p
  | _ => True
  end.

Definition pj_ext (log0 log : list PjEvent) : Prop :=
  ∃ evs, log = evs ++ log0 ∧ Forall sends_no_secrets evs.

Lemma pj_ext_event log0 e : sends_no_secrets e → keeps (pj_ext log0) (modify (cons e)).
Proof.
  intros He. apply keeps_modify. intros log (evs & -> & Hev). exists (e :: evs).
  split; [done|by constructor].
Qed.

Lemma pj_ext_request log0 r :
  sends_no_secrets (Pj_request r) → keeps (pj_ext log0) (make_server_request r).
Proof.
  intros Hr. unfold make_server_request. keeps_step; [keeps|]. keeps_step; [by apply pj_ext_event|].
  keeps.
Qed.

Lemma pj_ext_create log0 req : keeps (pj_ext log0) (create_payjoin req).
Proof.
  assert (∀ p s, keeps (pj_ext log0) (randomize_and_blind_pset p s)) as Hb.
  { intros p s. unfold randomize_and_blind_pset. apply keeps_bind; [keeps|intros [p' s']].
    keeps_step; [by apply pj_ext_event|keeps]. }
  unfold create_payjoin, construct_pset. keeps_step; [keeps|].
  keeps_step; [by apply pj_ext_request|]. keeps_step; [keeps|]. keeps_step; [keeps|].
  keeps_step; [apply keeps_bind; [keeps|intros [p s]; apply Hb]|].
  keeps_step; [|keeps]. apply pj_ext_request. eexists. split; [done|].
  apply remove_explicit_values_removed.
Qed.

(** An input without its final scripts. *)
Definition erase_signature (i : PInput) : PInput :=
  i <| pi_final_script_sig := None |> <| pi_final_script_witness := None |>.

Lemma copy_signatures_Ok dst src p :
  copy_signatures dst src = Ok p →
  ps_outputs p = ps_outputs dst ∧
  erase_signature <$> ps_inputs p = erase_signature <$> ps_inputs dst.
Proof.
  intros E. unfold copy_signatures in E. ok_inv.
  rename select (Nat.eqb (length (ps_inputs _)) _ = _) into Hl. apply Nat.eqb_eq in Hl.
  split; [done|]. cbn. revert Hl. generalize (ps_inputs src).
  induction (ps_inputs dst) as [|i l IH]; intros [|j k] Hl; simplify_eq/=; [done|].
  csimpl. f_equal; [|by apply IH].
  unfold copy_input_signature. by destruct (pi_final_script_witness j).
Qed.

Lemma make_server_request_Ok r log log' resp :
  make_server_request r log = (log', Ok resp) →
  pj_server log r = Http_body (inl resp) ∧ log' = Pj_request r :: log.
Proof.
  intros E. unfold make_server_request in E. ok_inv. unfold id in *.
  destruct (pj_server log r) as [[]| |status]; ok_inv; [done|].
  destruct (status =? 400); ok_inv.
Qed.

(** The steps of a successful run. *)
Lemma create_payjoin_Ok req resp log log' created :
  pj_server log (Pj_Start (cp_asset_id req) (cp_user_agent req))
    = Http_body (inl (Pj_StartResp resp)) →
  create_payjoin req log = (log', Ok created) →
  ∃ args unblinded input_secrets pset secrets blinded signed server_pset,
    0 < cp_amount req ∧ payjoin_args req resp = Ok args ∧
    assemble_pset args = Ok (unblinded, input_secrets) ∧
    randomize_pset unblinded input_secrets = Ok (pset, secrets) ∧
    blind_last pset secrets = Ok blinded ∧
    copy_signatures blinded server_pset = Ok (created_pset created) ∧
    created_asset_fee created = max_asset_fee req resp ∧
    log' = [Pj_request (Pj_Sign (sr_order_id resp) signed); Pj_blind pset secrets;
            Pj_request (Pj_Start (cp_asset_id req) (cp_user_agent req))] ++ log.
Proof.
  intros Hs E. unfold create_payjoin in E. ok_inv.
  apply make_server_request_Ok in H1 as [Hr ->], H5 as [_ ->].
  rewrite Hs in Hr. injection Hr as <-. injection H2 as <-.
  unfold construct_pset in H4. ok_inv. destruct select (Pset * _)%type.
  unfold randomize_and_blind_pset in H4. ok_inv. destruct select (Pset * _)%type. ok_inv.
  unfold check_request in H0. ok_inv.
  do 8 eexists. split_and!; try done; lia.
Qed.
End Lemmas.

(** ** A concrete payment *)

Module Sample.
Definition server_utxo : PjUtxo := {|
  pu_txid := [2]; pu_vout := 1; pu_script_pub_key := "s"; pu_asset_id := [8];
  pu_value := 100000; pu_asset_bf := "ab"; pu_value_bf := "vb";
  pu_asset_commitment := "ac"; pu_value_commitment := "vc" |}.

Definition resp : StartResponse := {|
  sr_order_id := "id"; sr_expires_at := 0; sr_fee := 0; sr_price := f64_of_Z 30000;
  sr_fixed_fee := 1000; sr_fee_address := "fee"; sr_change_address := "lbtc change";
  sr_utxos := [server_utxo] |}.

Definition env_of (offer : StartResponse) : PjEnv := {|
  addr_blinding_pubkey a := Some a;
  addr_params a := "liquid";
  addr_script_pubkey a := a;
  serialize_value v := "v";
  serialize_asset a := "a";
  asset_proof s o := Ok "pa";
  value_proof s o := Ok "pv";
  encode_pset p := "pset";
  decode_pset s := Ok {|
    ps_inputs := replicate 2 {| pi_prevout := ([], 0); pi_witness_utxo := None;
                                pi_proprietary := ∅; pi_final_script_sig := Some "sig";
                                pi_final_script_witness := Some ["w"] |};
    ps_outputs := replicate 5 {| po_txout := {| to_asset := Null; to_value := Null;
                                                to_nonce := Null; to_script_pubkey := "x" |};
                                 po_blinding_key := None; po_blinder_index := None |} |};
  shuffle_inputs l := l;
  shuffle_outputs l := l;
  blind_last p s := Ok p;
  pj_server log r :=
    match r with
    | Pj_Start _ _ => Http_body (inl (Pj_StartResp offer))
    | _ => Http_body (inl (Pj_SignResp "signed"))
    end
|}.

Definition env : PjEnv := env_of resp.

#[export] Instance shuffle : @PjShuffle env.
Proof. split; done. Qed.

Definition utxo : PjUtxo := {|
  pu_txid := [1]; pu_vout := 0; pu_script_pub_key := "s"; pu_asset_id := [7];
  pu_value := 500000000; pu_asset_bf := "ab"; pu_value_bf := "vb";
  pu_asset_commitment := "ac"; pu_value_commitment := "vc" |}.

Definition req : CreatePayjoin := {|
  cp_base_url := "url"; cp_user_agent := "ua"; cp_asset_id := [7]; cp_amount := 400000000;
  cp_address := "to"; cp_subtract_fee_from_amount := false; cp_change_address := "change";
  cp_utxos := [utxo]
|}.

Definition result : list PjEvent * outcome CreatedPayjoin := @create_payjoin env req [].

(** An offer out of the ordinary: a thousand outputs, of which one is spent, and a price
    at which the fee for all of them overflows to nothing. *)
Definition dear : StartResponse := {|
  sr_order_id := "id"; sr_expires_at := 0; sr_fee := 0; sr_price := f64_of_Z (2 * 10 ^ 15);
  sr_fixed_fee := 1; sr_fee_address := "fee"; sr_change_address := "lbtc change";
  sr_utxos := replicate 1000 server_utxo |}.

Definition rich : CreatePayjoin := {|
  cp_base_url := "url"; cp_user_agent := "ua"; cp_asset_id := [7]; cp_amount := 10;
  cp_address := "to"; cp_subtract_fee_from_amount := false; cp_change_address := "change";
  cp_utxos := [{| pu_txid := [1]; pu_vout := 0; pu_script_pub_key := "s"; pu_asset_id := [7];
                  pu_value := 2 ^ 62; pu_asset_bf := "ab"; pu_value_bf := "vb";
                  pu_asset_commitment := "ac"; pu_value_commitment := "vc" |}] |}.

(** The fee the application is told of, and the payments in the asset that are blinded. *)
Definition told_and_paid (offer : StartResponse) (req : CreatePayjoin) : Z * list (string * Z) :=
  match @create_payjoin (env_of offer) req [] with
  | ([_; Pj_blind pset _; _], Ok created) =>
      (created_asset_fee created,
       omap (λ o, match to_asset (po_txout o), to_value (po_txout o) with
                  | Explicit a, Explicit v =>
                      if decide (a = cp_asset_id req)
                      then Some (to_script_pubkey (po_txout o), v) else None
                  | _, _ => None
                  end) (ps_outputs pset))
  | _ => (0, [])
  end.

(** A fee of nothing is reported, and a quintillion is paid. *)
Example overcharged :
  told_and_paid dear rich =
    (0, [("to", 10); ("fee", 1010000000000000001);
         ("change", 2 ^ 62 - 10 - 1010000000000000001)]).
Proof. by vm_compute. Qed.
End Sample.

(** ** Properties *)

(** The transaction spends a prefix of the client's outputs and a prefix of the
    server's, each input with its own secrets; the recipient gets what was asked
    for, the server its fee for so many inputs, and what is left of each side's
    inputs, as the machine subtracts, returns to that side's change address.  When the
    server's numbers are ordinary ones, nothing wraps around: each side's inputs are
    paid out to the last unit, and the fee is at most the reported one. *)
Definition pays_as_asked `{PjEnv} (req : CreatePayjoin) (resp : StartResponse) (pset : Pset)
    (secrets : list (nat * TxOutSecrets)) (max_fee : Z) : Prop :=
  ∃ client rest server rest' network_fee fee lbtc client_change server_change,
    cp_utxos req = client ++ rest ∧ sr_utxos resp = server ++ rest' ∧
    secrets.*1 = seq 0 (length client + length server) ∧
    zip (pi_prevout <$> ps_inputs pset) secrets.*2
      ≡ₚ (λ u, (prevout u, input_secret u)) <$> client ++ server ∧
    payment <$> ps_outputs pset ≡ₚ
      [pay (cp_address req) (cp_asset_id req) (sent_amount req resp);
       pay (sr_fee_address resp) (cp_asset_id req) fee;
       (EmptyString, Explicit lbtc, Explicit network_fee)] ++
      pay_change (cp_change_address req) (cp_asset_id req) client_change ++
      pay_change (sr_change_address resp) lbtc server_change ∧
    network_fee = expected_network_fee (Z.of_nat (length client + length server)) 0 4 ∧
    fee = asset_fee (sr_fixed_fee resp) (sr_price resp) network_fee ∧
    client_change = wu64 (zsum (pu_value <$> client) - sent_amount req resp - fee) ∧
    server_change = wu64 (zsum (pu_value <$> server) - network_fee) ∧
    (fair_offer req resp →
     zsum (pu_value <$> client) = sent_amount req resp + fee + client_change ∧
     zsum (pu_value <$> server) = network_fee + server_change ∧
     0 ≤ fee ≤ max_fee ∧ 0 ≤ client_change ∧ 0 ≤ server_change).


Lemma sample_fair : @fair_offer Sample.req Sample.resp.
Proof.
  split; cbn; try (unfold u64_max; lia).
  - exists (30000 # 1)%Q. split; [|by vm_compute].
    apply (f64_of_Z_spec 30000). lia.
  - by repeat constructor.
  - by repeat constructor.
Qed.


(** C36: the server cannot change the transaction: the result differs from what the
    client had blinded in nothing but the final scripts of its inputs. *)
Theorem payjoin_only_signatures_added `{PjEnv} req resp log log' created :
  pj_server log (Pj_Start (cp_asset_id req) (cp_user_agent req))
    = Http_body (inl (Pj_StartResp resp)) →
  create_payjoin req log = (log', Ok created) →
  ∃ pset secrets blinded,
    Pj_blind pset secrets ∈ log' ∧ blind_last pset secrets = Ok blinded ∧
    ps_outputs (created_pset created) = ps_outputs blinded ∧
    erase_signature <$> ps_inputs (created_pset created) = erase_signature <$> ps_inputs blinded.
Proof.
  intros Hs E. destruct (create_payjoin_Ok req resp log log' created Hs E)
    as (args & un & ins & pset & secrets & blinded & sg & sp & _ & _ & _ & _ & Hb & Hc & _ & ->).
  exists pset, secrets, blinded. split; [set_solver|]. split; [done|].
  by eapply copy_signatures_Ok.
Qed.

Lemma payjoin_only_signatures_added_witness :
  ∃ log' created pset secrets blinded,
    @create_payjoin Sample.env Sample.req [] = (log', Ok created) ∧
    Pj_blind pset secrets ∈ log' ∧ @blind_last Sample.env pset secrets = Ok blinded ∧
    ps_outputs (created_pset created) = ps_outputs blinded ∧
    erase_signature <$> ps_inputs (created_pset created) = erase_signature <$> ps_inputs blinded.
Proof.
  destruct (@create_payjoin Sample.env Sample.req []) as [log' [created| |]] eqn:E;
    [|by vm_compute in E..].
  destruct (@payjoin_only_signatures_added Sample.env Sample.req Sample.resp [] log' created)
    as (pset & secrets & blinded & H); [reflexivity|exact E|].
  exists log', created, pset, secrets, blinded. split; [reflexivity|exact H].
Defined.

(** whatever the server answers, a transaction sent to it for signing carries
    none of the inputs' values and assets and no proofs of them. *)
Theorem payjoin_keeps_secrets `{PjEnv} req log :
  ∃ evs, (create_payjoin req log).1 = evs ++ log ∧
    ∀ order_id pset, Pj_request (Pj_Sign order_id pset) ∈ evs →
      ∃ p, pset = encode_pset p ∧ proofs_removed p.
Proof.
  destruct (pj_ext_create log req log) as (evs & E & Hev); [by exists []|].
  exists evs. split; [done|]. intros id p Hin.
  rewrite Forall_forall in Hev. exact (Hev _ Hin).
Qed.
