(* ===== verification/ClientApi.v ===== *)
(** * Data of the client

    The messages between the worker and the user interface
    ([ffi/sideswap.proto], from which the Rust types are generated), the wallet
    data of [gdk_json.rs], [models.rs] and [swaps.rs] the worker reads, and the
    settings of [settings.rs].  A message whose fields are not used by name is a
    constructor with the fields as arguments. *)
From stdpp Require Import base numbers gmap strings list sorting.
From Stdlib Require Import ZArith Lia SpecFloat.
From S2P Require Import Prelude F64 Api Types.

Open Scope Z_scope.
#[local] Set Primitive Projections.

(** [AccountId = i32] *)
Abbreviation AccountId := Z (only parsing).
Definition ACCOUNT_ID_REG : AccountId := 0.
Definition ACCOUNT_ID_AMP : AccountId := 1.

(** ** The user interface protocol *)

Record Balance := { bal_asset_id : string; bal_amount : Z }.

Record Tx := {
  tx_balances : list Balance;
  tx_txid : string;
  tx_network_fee : Z;
  tx_size : Z;
  tx_vsize : Z;
  tx_memo : string;
  tx_balances_all : list Balance
}.

Record Peg := {
  peg_is_peg_in : bool;
  peg_amount_send : Z;
  peg_amount_recv : Z;
  peg_addr_send : string;
  peg_addr_recv : string;
  peg_txid_send : string;
  peg_txid_recv : option string
}.

Record Confs := { confs_count : Z; confs_total : Z }.

Inductive Item := Item_Tx (a : Tx) | Item_Peg (a : Peg).

Record TransItem := {
  ti_id : string;
  ti_created_at : Z;
  ti_confs : option Confs;
  ti_account : AccountId;
  ti_item : option Item
}.

Record ProtoAsset := {
  pa_asset_id : string;
  pa_name : string;
  pa_ticker : string;
  pa_icon : string;
  pa_precision : Z;
  pa_instant_swaps : bool;
  pa_swap_market : bool;
  pa_amp_market : bool;
  pa_unregistered : bool;
  pa_domain : option string;
  pa_domain_agent : option string;
  pa_always_show : option bool
}.

Record Order := {
  or_order_id : string;
  or_asset_id : string;
  or_bitcoin_amount : Z;
  or_send_bitcoins : bool;
  or_server_fee : Z;
  or_asset_amount : Z;
  or_price : f64;
  or_created_at : Z;
  or_expires_at : option Z;
  or_private : bool;
  or_two_step : bool;
  or_auto_sign : bool;
  or_own : bool;
  or_token_market : bool;
  or_from_notification : bool;
  or_index_price : option f64
}.

Record SwapDetails := {
  sd_order_id : string;
  sd_send_asset : string;
  sd_recv_asset : string;
  sd_send_amount : Z;
  sd_recv_amount : Z;
  sd_upload_url : string
}.

Inductive NetworkSettings :=
  | Blockstream
  | Sideswap
  | SideswapCn
  | Custom (host : string) (port : Z) (use_tls : bool).

Record CreateTx := {
  ct_addr : string;
  ct_balance : Balance;
  ct_is_contact : bool;
  ct_account : AccountId
}.

Record AddressAmount := { aa_address : string; aa_amount : Z; aa_asset_id : string }.

Record CreatedTx := {
  cd_req : CreateTx;
  cd_input_count : Z;
  cd_output_count : Z;
  cd_size : Z;
  cd_vsize : Z;
  cd_network_fee : Z;
  cd_fee_per_byte : f64;
  cd_addressees : list AddressAmount
}.

Record ProtoCreatePayjoin := { pj_account : AccountId; pj_addr : string; pj_balance : Balance }.
Record ProtoCreatedPayjoin := { pj_req : ProtoCreatePayjoin; pj_pset : string; pj_asset_fee : Z }.

(** *** To the worker *)

Inductive LoginWallet := Mnemonic (mnemonic : string) | JadeId (jade_id : string).

Record Login := {
  login_wallet : option LoginWallet;
  login_network : option NetworkSettings;
  login_send_utxo_updates : option bool;
  login_force_auto_sign_maker : option bool
}.

Record SwapRequest := {
  swr_send_bitcoins : bool;
  swr_asset : string;
  swr_send_amount : Z;
  swr_recv_amount : Z;
  swr_price : f64
}.

Record PegOutAmount := {
  poa_amount : Z;
  poa_is_send_entered : bool;
  poa_fee_rate : f64;
  poa_account : AccountId
}.

Record PegOutRequest := {
  pr_send_amount : Z;
  pr_recv_amount : Z;
  pr_is_send_entered : bool;
  pr_fee_rate : f64;
  pr_recv_addr : string;
  pr_blocks : Z;
  pr_account : AccountId
}.

Record SubmitOrder := {
  so_account : AccountId;
  so_asset_id : string;
  so_bitcoin_amount : option f64;
  so_asset_amount : option f64;
  so_price : f64;
  so_index_price : option f64
}.

Record SubmitDecision := {
  sdn_order_id : string;
  sdn_accept : bool;
  sdn_auto_sign : option bool;
  sdn_private : option bool;
  sdn_two_step : option bool;
  sdn_ttl_seconds : option Z;
  sdn_tx_chaining_allowed : option bool;
  sdn_only_unused_utxos : option bool
}.

Inductive EditData :=
  | Data_Price (price : f64)
  | Data_IndexPrice (price : f64)
  | Data_AutoSign (auto_sign : bool).

Record SubscribePriceStream := {
  sps_asset_id : string;
  sps_send_bitcoins : bool;
  sps_send_amount : option Z;
  sps_recv_amount : option Z
}.

Inductive ToMsg :=
  | To_Login (a : Login)
  | To_Logout
  | To_ChangeNetwork (network : option NetworkSettings)
  | To_UpdatePushToken (token : string)
  | To_EncryptPin (pin mnemonic : string)
  | To_DecryptPin (pin salt encrypted_data pin_identifier : string)
  | To_PushMessage (msg : string)
  | To_AppState (active : bool)
  | To_SetMemo (account : AccountId) (txid memo : string)
  | To_GetRecvAddress (account : AccountId)
  | To_CreateTx (a : CreateTx)
  | To_SendTx (account : AccountId)
  | To_CreatePayjoin (a : ProtoCreatePayjoin)
  | To_SendPayjoin (a : ProtoCreatedPayjoin)
  | To_BlindedValues (txid : string)
  | To_SwapRequest (a : SwapRequest)
  | To_PegInRequest
  | To_PegOutAmount (a : PegOutAmount)
  | To_PegOutRequest (a : PegOutRequest)
  | To_SwapAccept (a : SwapDetails)
  | To_RegisterPhone (number : string)
  | To_VerifyPhone (phone_key code : string)
  | To_UnregisterPhone (phone_key : string)
  | To_UploadAvatar (phone_key image : string)
  | To_UploadContacts (phone_key : string)
  | To_SubmitOrder (a : SubmitOrder)
  | To_LinkOrder (order_id : string)
  | To_SubmitDecision (a : SubmitDecision)
  | To_EditOrder (order_id : string) (data : option EditData)
  | To_CancelOrder (order_id : string)
  | To_Subscribe (markets : list (option string))
  | To_AssetDetails (asset_id : string)
  | To_SubscribePrice (asset_id : string)
  | To_UnsubscribePrice (asset_id : string)
  | To_SubscribePriceStream (a : SubscribePriceStream)
  | To_UnsubscribePriceStream
  | To_MarketDataSubscribe (asset_id : string)
  | To_MarketDataUnsubscribe
  | To_PortfolioPrices
  | To_JadeRescan
  | To_GaidStatus (gaid asset_id : string).

(** *** From the worker *)

Record PinData := {
  pin_salt : string;
  pin_encrypted_data : string;
  pin_identifier : string
}.

Inductive Step := Step_Submit | Step_Quote | Step_Sign.

Record SubmitReview := {
  rev_order_id : string;
  rev_asset : string;
  rev_bitcoin_amount : Z;
  rev_server_fee : Z;
  rev_asset_amount : Z;
  rev_price : f64;
  rev_sell_bitcoin : bool;
  rev_step : Step;
  rev_index_price : bool;
  rev_auto_sign : bool;
  rev_two_step : option bool;
  rev_tx_chaining_required : option bool
}.

Inductive SubmitResult :=
  | SubmitSucceed
  | SwapSucceeded (item : TransItem)
  | SubmitError (e : string)
  | UnregisteredGaid (domain_agent : string).

Record Amounts := {
  am_send_amount : Z;
  am_recv_amount : Z;
  am_is_send_entered : bool;
  am_fee_rate : f64;
  am_account : AccountId
}.

Record ProtoUtxo := { ut_txid : string; ut_vout : Z; ut_asset_id : string; ut_amount : Z }.

Record Stats := {
  st_issued_amount : Z;
  st_burned_amount : Z;
  st_offline_amount : Z;
  st_has_blinded_issuances : bool
}.

Record Port := {
  port_jade_id : string;
  port_port : string;
  port_serial : string;
  port_version : string;
  port_state : Z
}.

Inductive ProtoJadeStatus :=
  | JadeStatus_Idle
  | JadeStatus_ReadStatus
  | JadeStatus_AuthUser
  | JadeStatus_MasterBlindingKey
  | JadeStatus_SignTx
  | JadeStatus_SignSwap
  | JadeStatus_SignSwapOutput
  | JadeStatus_SignOfflineSwap.

Inductive FromMsg :=
  | From_Login (result : unit + string)
  | From_Logout
  | From_EnvSettings (policy_asset_id usdt_asset_id eurx_asset_id : string)
  | From_RegisterAmp (amp_id : string)
  | From_UpdatedTxs (items : list TransItem)
  | From_RemovedTxs (txids : list string)
  | From_UpdatedPegs (order_id : string) (items : list TransItem)
  | From_NewAsset (a : ProtoAsset)
  | From_AmpAssets (assets : list string)
  | From_BalanceUpdate (account : AccountId) (balances : list Balance)
  | From_UtxoUpdate (account : AccountId) (utxos : list ProtoUtxo)
  | From_ServerStatus (min_peg_in_amount min_peg_out_amount : Z)
      (server_fee_percent_peg_in server_fee_percent_peg_out : f64) (fee_rates : list FeeRate)
  | From_PriceUpdate (asset : string) (bid ask : f64)
  | From_WalletLoaded
  | From_SyncComplete
  | From_EncryptPin (result : PinData + string)
  | From_DecryptPin (result : string + string)
  | From_PeginWaitTx (peg_addr recv_addr : string)
  | From_PegOutAmount (result : Amounts + string)
  | From_SwapSucceed (item : TransItem)
  | From_SwapFailed (e : string)
  | From_RecvAddress (addr : string) (account : AccountId)
  | From_CreateTxResult (result : CreatedTx + string)
  | From_CreatePayjoinResult (result : ProtoCreatedPayjoin + string)
  | From_SendResult (result : TransItem + string)
  | From_BlindedValues (txid : string) (values : string)
  | From_ShowMessage (text : string)
  | From_InsufficientFunds (asset_id : string) (available required : Z)
  | From_SubmitReview (a : SubmitReview)
  | From_SubmitResult (a : SubmitResult)
  | From_EditOrder (success : bool) (error_msg : option string)
  | From_CancelOrder (success : bool) (error_msg : option string)
  | From_StartTimer (order_id : string)
  | From_ServerConnected
  | From_ServerDisconnected
  | From_OrderCreated (order : Order) (new : bool)
  | From_OrderRemoved (order_id : string)
  | From_OrderComplete (order_id : string) (txid : option string)
  | From_IndexPrice (asset_id : string) (ind last : option f64)
  | From_AssetDetails (asset_id : string) (stats : option Stats) (chart_url : option string)
      (chart_stats : option ChartStats)
  | From_UpdatePriceStream (asset_id : string) (send_bitcoins : bool)
      (send_amount recv_amount : option Z) (price : option f64) (error_msg : option string)
  | From_LocalMessage (title body : string)
  | From_MarketDataSubscribe (asset_id : string) (data : list ChartPoint)
  | From_MarketDataUpdate (asset_id : string) (update : ChartPoint)
  | From_PortfolioPrices (prices_usd : list (string * f64))
  | From_JadePorts (ports : list Port)
  | From_JadeStatus (status : ProtoJadeStatus)
  | From_GaidStatus (gaid asset_id : string) (error : option string).

(** ** Wallet data *)

(** The fields of [gdk_json::UnspentOutput] the worker reads. *)
Record UnspentOutput := {
  uo_txhash : Txid;
  uo_vout : Z;
  uo_asset_id : AssetId;
  uo_satoshi : Z;
  uo_amountblinder : string;
  uo_assetblinder : string;
  uo_prevout_script : string;
  uo_public_key : option string
}.

(** [UnspentOutputsResult::unspent_outputs] *)
Abbreviation UnspentOutputs := (gmap AssetId (list UnspentOutput)) (only parsing).

Record AddressInfo := {
  ai_address : Address;
  ai_pointer : Z;
  ai_user_path : list Z;
  ai_is_internal : option bool;
  ai_service_xpub : option string
}.

Record PreviousAddresses := {
  pv_last_pointer : option Z;
  pv_list : list AddressInfo
}.

(** [models::Balance] and [models::Transaction] *)
Record WBalance := { wb_asset : AssetId; wb_value : Z }.

Record Transaction := {
  mt_txid : Txid;
  mt_network_fee : Z;
  mt_size : Z;
  mt_vsize : Z;
  mt_memo : string;
  mt_balances : list WBalance;
  mt_created_at : Z;
  mt_block_height : Z;
  mt_balances_all : list WBalance;
  mt_max_pointer_external : Z;
  mt_max_pointer_internal : Z
}.

Inductive ConnectionState := Disconnected | Connected | Exited.
#[export] Instance ConnectionState_eq_dec : EqDecision ConnectionState.
Proof. solve_decision. Defined.

(** [gdk_json::Notification]: the block's height, the network's current state,
    the subaccount's event type. *)
Record GdkNotification := {
  gn_event : string;
  gn_block : option Z;
  gn_network : option ConnectionState;
  gn_subaccount : option string
}.

(** [gdk_json::CreateTransactionResult] *)
Record TxAddressee := { ta_address : string; ta_satoshi : Z; ta_asset_id : AssetId }.
Record TxOutputInfo := { to_address : option string; to_satoshi : Z }.
Record CreateTransactionResult := {
  cr_transaction : option (Z * Z * Z);
  cr_fee : option Z;
  cr_fee_rate : option Z;
  cr_transaction_vsize : option Z;
  cr_addressees : list TxAddressee;
  cr_transaction_outputs : list TxOutputInfo
}.

(** [swaps.rs] *)
Record SwapAmounts := {
  sa_send_asset : AssetId;
  sa_send_amount : Z;
  sa_recv_asset : AssetId;
  sa_recv_amount : Z
}.

Record SigSingleInput := { ssi_asset : AssetId; ssi_value : Z }.
Record SigSingleOutput := {
  sso_asset : AssetId;
  sso_value : Z;
  sso_address_info : AddressInfo
}.
Record SigSingleMaker := {
  ssm_proposal : LiquidexProposal;
  ssm_chaining_tx : option string;
  ssm_unspent_output : UnspentOutput
}.

(** ** Settings ([settings.rs]) *)

Inductive PegDir := PegDir_In | PegDir_Out.
Record SPeg := { speg_order_id : OrderId; speg_dir : PegDir }.

Record AmpPrevAddrs := { apa_last_pointer : Z; apa_list : list AddressInfo }.

Record WatchOnly := {
  wo_master_blinding_key : string;
  wo_root_xpub : string;
  wo_password_xpub : string;
  wo_single_sig_account_xpub : string;
  wo_multi_sig_user_xpub : string;
  wo_username : string;
  wo_password : string
}.

Record RegInfo := {
  ri_jade_watch_only : option WatchOnly;
  ri_multi_sig_service_xpub : string;
  ri_multi_sig_user_path : list Z
}.

(** [single_sig_registered] is the pair of the external and internal counters. *)
Record Settings := {
  st_pegs : option (list SPeg);
  st_device_key : option string;
  st_single_sig_registered : Z * Z;
  st_multi_sig_registered : Z;
  st_session_id : option SessionId;
  st_amp_prev_addrs_v2 : option AmpPrevAddrs;
  st_master_pub_key : option string;
  st_reg_info_v3 : option RegInfo
}.

Definition settings_default : Settings := {|
  st_pegs := None;
  st_device_key := None;
  st_single_sig_registered := (0, 0);
  st_multi_sig_registered := 0;
  st_session_id := None;
  st_amp_prev_addrs_v2 := None;
  st_master_pub_key := None;
  st_reg_info_v3 := None
|}.

(** ** Push and REST messages ([fcm_models.rs], [http_rpc.rs]) *)

Inductive FcmTxType := FcmTx_Send | FcmTx_Recv | FcmTx_Swap | FcmTx_Redeposit | FcmTx_Unknown.

Record FcmMessagePeg := {
  fp_order_id : OrderId;
  fp_peg_in : bool;
  fp_tx_hash : string;
  fp_vout : Z;
  fp_created_at : Z;
  fp_payout_txid : option string;
  fp_payout : Z
}.

Inductive FcmMessage :=
  | Fcm_Tx (txid : string) (tx_type : FcmTxType)
  | Fcm_PegDetected (a : FcmMessagePeg)
  | Fcm_PegPayout (a : FcmMessagePeg)
  | Fcm_Sign (order_id : OrderId)
  | Fcm_OrderCancelled (order_id : OrderId).

Record SwapStartRequest := {
  ssr_order_id : OrderId;
  ssr_inputs : list PsetInput;
  ssr_recv_addr : Address;
  ssr_change_addr : Address;
  ssr_send_asset : AssetId;
  ssr_send_amount : Z;
  ssr_recv_asset : AssetId;
  ssr_recv_amount : Z
}.

Inductive RestRequest :=
  | Rest_SwapStart (a : SwapStartRequest)
  | Rest_SwapSign (order_id : OrderId) (submit_id pset : string).

Inductive RestResponse :=
  | RestResp_SwapStart (submit_id pset : string)
  | RestResp_SwapSign (txid : Txid).
