(* ===== verification/Client.v ===== *)
(** * The client worker: state, services, wallet view

    The state of [rust/sideswap_client/src/worker.rs] ([Data]), what surrounds it,
    and the parts every flow uses: requests to the server, assets, the order list
    and the transaction list shown by the user interface.  The server, the wallet
    sessions (the trait [GdkSes]), the asset registry, the file system and the clock
    answer through [WorkerEnv]; an answer may depend on everything that happened
    before it ([wk_log]). *)
From stdpp Require Import base numbers gmap strings list sets sorting pretty.
From Stdlib Require Import ZArith Lia SpecFloat.
From S2P Require Import Prelude F64 Api Types Env ClientApi.

Open Scope Z_scope.
#[local] Set Primitive Projections.

(** ** Constants *)

Definition CLIENT_API_KEY : string :=
  "f8b7a12ee96aa68ee2b12ebfc51d804a4a404c9732652c298d24099a3d922a84".
Definition USER_AGENT : string := "SideSwapApp".
(** Milliseconds. *)
Definition IDLE_TIMER : Z := 60000.
Definition AMP_CONNECTION_CHECK_PERIOD : Z := 2400000 - IDLE_TIMER.
Definition TX_CONF_COUNT_LIQUID : Z := 2.
Definition AUTO_SIGN_ALLOWED_INDEX_PRICE_CHANGE : f64 := flit 1 10.

(** ** Data *)

(** [TxOut] of [types.rs] *)
Abbreviation TxOut := (Txid * Z)%type (only parsing).

Record SubmitData := {
  sub_order_id : OrderId;
  sub_side : OrderSide;
  sub_asset : AssetId;
  sub_asset_precision : Z;
  sub_order_type : OrderType;
  sub_bitcoin_amount : Z;
  sub_asset_amount : Z;
  sub_price : f64;
  sub_server_fee : Z;
  sub_sell_bitcoin : bool;
  sub_txouts : gset TxOut;
  sub_auto_sign : bool;
  sub_txid : option Txid;
  sub_index_price : bool;
  sub_market : MarketType;
  sub_signed : bool
}.

Record UsedAddresses := { ua_single_sig : Z * Z; ua_multi_sig : Z }.
Definition used_addresses_default : UsedAddresses :=
  {| ua_single_sig := (0, 0); ua_multi_sig := 0 |}.

(** [XPubInfo]; extended keys are their texts. *)
Record XPubInfo := {
  xp_single_sig_account : string;
  xp_multi_sig_service_xpub : string;
  xp_multi_sig_user_xpub : string
}.

Record ActiveSwap := {
  as_order_id : OrderId;
  as_send_asset : AssetId;
  as_recv_asset : AssetId;
  as_send_amount : Z;
  as_recv_amount : Z
}.

Record JadeData := {
  jd_jade_id : string;
  jd_port_name : string;
  jd_serial : string;
  jd_version : string;
  jd_state : Z
}.

(** The closures given to [make_async_request]. *)
Inductive Callback :=
  | Cb_CancelOrder
  | Cb_PortfolioPrices
  | Cb_PushToken
  | Cb_RegisterSingle (is_internal : bool) (last : Z)
  | Cb_RegisterMulti (last : Z)
  | Cb_GaidStatus (gaid asset_id : string).

(** [LoginInfo] without the fields that are constant. *)
Inductive WalletInfo := WI_Mnemonic (mnemonic : string) | WI_Hw (jade_id : string).
Record LoginInfo := {
  li_account_id : AccountId;
  li_wallet_info : WalletInfo;
  li_single_sig : bool;
  li_network : option NetworkSettings
}.

Record Wallet := { wl_login_info : LoginInfo; wl_xpubs : XPubInfo }.

(** ** Effects *)

(** The calls of the wallet session trait. *)
Inductive WalletOp :=
  | W_login
  | W_connect
  | W_disconnect
  | W_get_gaid
  | W_unlock_hww
  | W_update_sync_interval (t : Z)
  | W_get_balances
  | W_get_transactions
  | W_get_receive_address
  | W_get_change_address
  | W_create_tx (tx : CreateTx)
  | W_send_tx (tx : string)
  | W_create_payjoin (req : ProtoCreatePayjoin)
  | W_send_payjoin (req : ProtoCreatedPayjoin)
  | W_get_utxos
  | W_get_tx_fee (asset : AssetId) (amount : Z) (addr : string)
  | W_make_pegout_payment (send_amount : Z) (peg_addr : string) (send_amount_exact : Z)
  | W_get_blinded_values (txid : string)
  | W_get_previous_addresses (last_pointer : option Z) (is_internal : bool)
  | W_sig_single_maker_tx (input : SigSingleInput) (output : SigSingleOutput)
  | W_verify_and_sign_pset (amounts : SwapAmounts) (pset : string) (nonces : list string)
  | W_set_memo (txid memo : string).

(** What the worker did to the outside, newest first in [wk_log]. *)
Inductive WEvent :=
  | Ev_ui (m : FromMsg)
  | Ev_request (id : RequestId) (r : Request)
  | Ev_ws_connect (host : string) (port : Z) (use_tls : bool)
  | Ev_ws_disconnect
  | Ev_ws_hint
  | Ev_wallet (account : AccountId) (op : WalletOp)
  | Ev_start_session (info : LoginInfo) (watch_only : option WatchOnly)
  | Ev_register (req : Login)
  | Ev_registry (assets : list AssetId)
  | Ev_rest (url : string) (r : RestRequest)
  | Ev_pin
  | Ev_jade_ports
  | Ev_save_settings (s : Settings)
  | Ev_save_cookie (cookie : string)
  | Ev_save_assets (assets : list Asset)
  | Ev_random
  | Ev_now
  | Ev_background (sender : nat).

(** ** The environment *)

Class WorkerEnv := {
  #[global] worker_ids :: ElementsIds;
  worker_env : Env;
  params_version : string;
  params_disable_device_key : option bool;
  (** what arrives on the response channel before the time-out, in order *)
  env_responses : list WEvent → RequestId → list (option RequestId * (Response + Error));
  env_cookie : list WEvent → option string;
  env_registry : list WEvent → list AssetId → list Asset + string;
  env_random_xpub : list WEvent → string;
  env_instant : list WEvent → Z;
  os_type : Z;
  default_icon : string;
  fake_p2sh_address : string;
  (** the HTTP agent: status and body, and what the body parses to *)
  rest_server : list WEvent → string → RestRequest → (Z * string) + string;
  parse_rest_error : string → string + string;
  parse_rest_response : string → RestResponse + string;
  parse_fcm : string → option FcmMessage;
  (** the text of a number in a message *)
  display_f64 : f64 → string;
  (** files and embedded data *)
  settings_file : option Settings;
  assets_file : option string;
  builtin_assets : Env → string;
  parse_assets_json : string → list Asset + string;
  parse_created_tx : string → CreateTransactionResult + string;
  encrypt_pin : list WEvent → string → string → PinData + string;
  decrypt_pin : list WEvent → PinData → string → string + string;
  jade_ports : list WEvent → list JadeData + string;
  (** bip32 derivation and address encoding *)
  single_sig_address : string → bool → Z → string;
  multi_sig_address : string → string → Z → string;
  redeem_script : UnspentOutput → string;
  (** logging in: [try_register], the derived keys, opening a session *)
  ses_register : list WEvent → Login → RegInfo + string;
  valid_xpub : string → bool;
  derive_xpubs : string → list Z → (string * string) + string;
  start_session : list WEvent → LoginInfo → option WatchOnly → unit + string;
  (** the trait [GdkSes] *)
  ses_login : list WEvent → AccountId → unit + string;
  ses_get_gaid : list WEvent → AccountId → string + string;
  ses_unlock_hww : list WEvent → AccountId → unit + string;
  ses_get_balances : list WEvent → AccountId → gmap AssetId Z + string;
  ses_get_transactions : list WEvent → AccountId → list Transaction + string;
  ses_get_receive_address : list WEvent → AccountId → AddressInfo + string;
  ses_get_change_address : list WEvent → AccountId → AddressInfo + string;
  ses_create_tx : list WEvent → AccountId → CreateTx → string + string;
  ses_send_tx : list WEvent → AccountId → string → Txid + string;
  ses_create_payjoin : list WEvent → AccountId → ProtoCreatePayjoin → ProtoCreatedPayjoin + string;
  ses_send_payjoin : list WEvent → AccountId → ProtoCreatedPayjoin → Txid + string;
  ses_get_utxos : list WEvent → AccountId → UnspentOutputs + string;
  ses_get_tx_fee : list WEvent → AccountId → AssetId → Z → string → Z + string;
  ses_make_pegout_payment : list WEvent → AccountId → Z → string → Z → unit + string;
  ses_get_blinded_values : list WEvent → AccountId → string → list string + string;
  ses_get_previous_addresses :
    list WEvent → AccountId → option Z → bool → PreviousAddresses + string;
  ses_sig_single_maker_tx :
    list WEvent → AccountId → SigSingleInput → SigSingleOutput → SigSingleMaker + string;
  ses_verify_and_sign_pset :
    list WEvent → AccountId → SwapAmounts → string → list string → string + string;
  ses_set_memo : list WEvent → AccountId → string → string → unit + string
}.

(** ** State *)

Record Data := {
  wk_app_active : bool;
  wk_amp_active : bool;
  wk_amp_connected : bool;
  wk_connected : bool;
  wk_server_status : option ServerStatus;
  wk_assets : gmap AssetId Asset;
  wk_amp_assets : gset AssetId;
  wk_assets_old : list Asset;
  wk_unsigned_tx : option string;
  wk_sync_complete : bool;
  wk_wallet_loaded_sent : bool;
  wk_confirmed_txids : gmap AccountId (gset Txid);
  wk_unconfirmed_txids : gmap AccountId (gset Txid);
  wk_orders_last : gmap OrderId Order;
  wk_orders_sent : gmap OrderId Order;
  wk_send_utxo_updates : bool;
  wk_force_auto_sign_maker : bool;
  wk_wallets : gmap AccountId Wallet;
  wk_subscribes : gset (option AssetId);
  wk_active_swap : option ActiveSwap;
  wk_succeed_swap : option Txid;
  wk_active_extern_peg : option OrderId;
  wk_sent_txhash : option Txid;
  wk_peg_out_server_amounts : option PegOutAmounts;
  wk_active_submits : gmap OrderId LinkResponse;
  wk_active_sign : option SignNotification;
  wk_settings : Settings;
  wk_push_token : option string;
  wk_submit_data : gmap OrderId SubmitData;
  wk_pending_signs : gmap OrderId (option nat);
  wk_visible_submit : option OrderId;
  wk_waiting_submit : option OrderId;
  wk_processed_signs : gset OrderId;
  wk_pending_sign_requests : list SignNotification;
  wk_pending_sign_prompts : list SignNotification;
  wk_pending_submits : list SubmitOrder;
  wk_pending_links : list string;
  wk_downloaded_links : list LinkResponse;
  wk_shown_succeed : gset OrderId;
  wk_pending_succeed : list TransItem;
  wk_subscribed_price_stream : option SubscribePriceStreamRequest;
  wk_subscribed_market_data : option AssetId;
  wk_last_connection_check : Z;
  wk_last_blocks : gmap AccountId Z;
  wk_used_addresses : UsedAddresses;
  wk_jades : list JadeData;
  wk_async_requests : gmap string Callback;
  wk_network_settings : option NetworkSettings;
  (** the process-wide [GLOBAL_REQUEST_ID] *)
  wk_next_id : Z;
  wk_log : list WEvent
}.

Definition DataM : Type → Type := M Data.

(** ** Pure helpers *)

(** [iter().sum::<u64>()] *)
Definition usum (l : list Z) : Z := foldl (λ acc x, wu64 (acc + x)) 0 l.

Definition confirmed_tx (tx_block top_block : Z) : bool :=
  negb (tx_block =? 0) && negb (top_block =? 0) && (tx_block <=? top_block) &&
  (TX_CONF_COUNT_LIQUID <=? wu32 (wu32 (top_block + 1) - tx_block)).

Definition get_tx_item_confs (tx_block top_block : Z) : option Confs :=
  let tx_block := if top_block <? tx_block then 0 else tx_block in
  if confirmed_tx tx_block top_block then None
  else
    let count := if tx_block =? 0 then 0 else wu32 (wu32 (top_block + 1) - tx_block) in
    Some {| confs_count := count; confs_total := TX_CONF_COUNT_LIQUID |}.

(** [elements::Txid] and the other identifiers print as reversed hex. *)
Definition tx_txitem_id (account_id : AccountId) (txid : Txid) : string :=
  pretty account_id +:+ "/" +:+ Hash32_to_string txid.

Definition peg_txitem_id (send_txid : string) (send_vout : Z) : string :=
  send_txid +:+ "/" +:+ pretty send_vout.

Definition get_peg_item (peg : PegStatus) (tx : TxStatus) : TransItem := {|
  ti_id := peg_txitem_id (tx_status_tx_hash tx) (tx_status_vout tx);
  ti_created_at := tx_status_created_at tx;
  ti_confs := match tx_status_detected_confs tx, tx_status_total_confs tx with
              | Some count, Some total =>
                  Some {| confs_count := wu32 count; confs_total := wu32 total |}
              | _, _ => None
              end;
  ti_account := ACCOUNT_ID_REG;
  ti_item := Some (Item_Peg {|
    peg_is_peg_in := peg_status_peg_in peg;
    peg_amount_send := tx_status_amount tx;
    peg_amount_recv := default 0 (tx_status_payout tx);
    peg_addr_send := peg_status_addr peg;
    peg_addr_recv := peg_status_addr_recv peg;
    peg_txid_send := tx_status_tx_hash tx;
    peg_txid_recv := tx_status_payout_txid tx |})
|}.

Definition select_swap_inputs (inputs : list UnspentOutput) (amount : Z)
    : outcome (list UnspentOutput) :=
  let total := wi64 (usum (uo_satoshi <$> inputs)) in
  do? oensure (amount <=? total) "not enough UTXOs total amount" in
  select_utxo_values ((λ input, (wi64 (uo_satoshi input), input)) <$> inputs) amount.

Definition convert_to_proto_utxo (utxo : UnspentOutput) : ProtoUtxo := {|
  ut_txid := Hash32_to_string (uo_txhash utxo);
  ut_vout := uo_vout utxo;
  ut_asset_id := Hash32_to_string (uo_asset_id utxo);
  ut_amount := uo_satoshi utxo
|}.

Definition convert_balance (b : WBalance) : Balance :=
  {| bal_asset_id := Hash32_to_string (wb_asset b); bal_amount := wb_value b |}.

(** The closure of [send_new_transactions] that renders a transaction. *)
Definition trans_item (account_id : AccountId) (top_block : Z) (item : Transaction) : TransItem := {|
  ti_id := tx_txitem_id account_id (mt_txid item);
  ti_created_at := mt_created_at item;
  ti_confs := get_tx_item_confs (mt_block_height item) top_block;
  ti_account := account_id;
  ti_item := Some (Item_Tx {|
    tx_balances := convert_balance <$> filter (λ b, wb_value b ≠ 0) (mt_balances item);
    tx_txid := Hash32_to_string (mt_txid item);
    tx_network_fee := mt_network_fee item;
    tx_size := mt_size item;
    tx_vsize := mt_vsize item;
    tx_memo := mt_memo item;
    tx_balances_all := convert_balance <$> mt_balances_all item |})
|}.

Definition liquid_asset_id `{WorkerEnv} : AssetId := policy_asset worker_env.

Definition convert_to_swap_utxo `{WorkerEnv} (utxo : UnspentOutput) : PsetInput := {|
  pset_input_txid := uo_txhash utxo;
  pset_input_vout := uo_vout utxo;
  pset_input_asset := uo_asset_id utxo;
  pset_input_asset_bf := uo_assetblinder utxo;
  pset_input_value := uo_satoshi utxo;
  pset_input_value_bf := uo_amountblinder utxo;
  pset_input_redeem_script := Some (redeem_script utxo)
|}.

(** [==] of the proto orders, whose prices are floats. *)
Definition opt_eqb {A} (eqb : A → A → bool) (x y : option A) : bool :=
  match x, y with
  | Some a, Some b => eqb a b
  | None, None => true
  | _, _ => false
  end.

Definition order_eqb (a b : Order) : bool :=
  String.eqb (or_order_id a) (or_order_id b) &&
  String.eqb (or_asset_id a) (or_asset_id b) &&
  (or_bitcoin_amount a =? or_bitcoin_amount b) &&
  eqb (or_send_bitcoins a) (or_send_bitcoins b) &&
  (or_server_fee a =? or_server_fee b) &&
  (or_asset_amount a =? or_asset_amount b) &&
  feqb (or_price a) (or_price b) &&
  (or_created_at a =? or_created_at b) &&
  bool_decide (or_expires_at a = or_expires_at b) &&
  eqb (or_private a) (or_private b) &&
  eqb (or_two_step a) (or_two_step b) &&
  eqb (or_auto_sign a) (or_auto_sign b) &&
  eqb (or_own a) (or_own b) &&
  eqb (or_token_market a) (or_token_market b) &&
  eqb (or_from_notification a) (or_from_notification b) &&
  opt_eqb feqb (or_index_price a) (or_index_price b).

(** ** Primitives *)

Section Client.
Context `{WorkerEnv}.

(** The state [start_processing] begins with. *)
Definition initial_data : Data := {|
  wk_app_active := true;
  wk_amp_active := true;
  wk_amp_connected := false;
  wk_connected := false;
  wk_server_status := None;
  wk_assets := ∅;
  wk_amp_assets := ∅;
  wk_assets_old := [];
  wk_unsigned_tx := None;
  wk_sync_complete := false;
  wk_wallet_loaded_sent := false;
  wk_confirmed_txids := ∅;
  wk_unconfirmed_txids := ∅;
  wk_orders_last := ∅;
  wk_orders_sent := ∅;
  wk_send_utxo_updates := false;
  wk_force_auto_sign_maker := false;
  wk_wallets := ∅;
  wk_subscribes := ∅;
  wk_active_swap := None;
  wk_succeed_swap := None;
  wk_active_extern_peg := None;
  wk_sent_txhash := None;
  wk_peg_out_server_amounts := None;
  wk_active_submits := ∅;
  wk_active_sign := None;
  wk_settings := default settings_default settings_file;
  wk_push_token := None;
  wk_submit_data := ∅;
  wk_pending_signs := ∅;
  wk_visible_submit := None;
  wk_waiting_submit := None;
  wk_processed_signs := ∅;
  wk_pending_sign_requests := [];
  wk_pending_sign_prompts := [];
  wk_pending_submits := [];
  wk_pending_links := [];
  wk_downloaded_links := [];
  wk_shown_succeed := ∅;
  wk_pending_succeed := [];
  wk_subscribed_price_stream := None;
  wk_subscribed_market_data := None;
  wk_last_connection_check := env_instant [];
  wk_last_blocks := ∅;
  wk_used_addresses := used_addresses_default;
  wk_jades := [];
  wk_async_requests := ∅;
  wk_network_settings := None;
  wk_next_id := 1;
  wk_log := []
|}.

Definition wk_emit (e : WEvent) : DataM unit := modify (λ s, s <| wk_log ::= cons e |>).

Definition ui_send (m : FromMsg) : DataM unit := wk_emit (Ev_ui m).

Definition show_message (text : string) : DataM unit := ui_send (From_ShowMessage text).

(** A query of the environment: the answer given the past, and a trace of it. *)
Definition wk_query {A} (ev : WEvent) (f : list WEvent → A) : DataM A :=
  let! log := gets wk_log in
  do! wk_emit ev in
  ret (f log).

(** [r?] of a [Result] *)
Definition try_res {A} (r : A + string) : DataM A :=
  match r with inl a => ret a | inr e => fail e end.

(** [get_wallet_ref(account_id)?], [get_wallet_mut(..)?] *)
Definition get_wallet (account_id : AccountId) : DataM unit :=
  let! wallets := gets wk_wallets in
  match wallets !! account_id with
  | Some _ => ret tt
  | None => fail "wallet not found"
  end.

(** A call on the session of an account, [get_wallet(..)?.call(..)] without the
    final [?]. *)
Definition ses_call {A} (account : AccountId) (op : WalletOp)
    (f : list WEvent → AccountId → A + string) : DataM (A + string) :=
  wk_query (Ev_wallet account op) (λ log, f log account).

Definition ses_call_try {A} (account : AccountId) (op : WalletOp)
    (f : list WEvent → AccountId → A + string) : DataM A :=
  do! get_wallet account in
  let! r := ses_call account op f in
  try_res r.

Definition save_settings : DataM unit :=
  let! s := gets wk_settings in
  wk_emit (Ev_save_settings s).

Definition set_settings (f : Settings → Settings) : DataM unit :=
  modify (λ s, s <| wk_settings ::= f |>).

(** ** Requests ([next_request_id], [send_request], [make_async_request]) *)

Definition next_id : DataM Z :=
  let! id := gets wk_next_id in
  do! modify (λ s, s <| wk_next_id ::= (λ n, wi64 (n + 1)) |>) in
  ret id.

Definition send_request_msg (r : Request) : DataM RequestId :=
  let! n := next_id in
  let id := RequestId_Int n in
  do! wk_emit (Ev_request id r) in
  ret id.

#[export] Instance RequestId_eq_dec : EqDecision RequestId.
Proof. solve_decision. Defined.

(** The loop of [send_request]: responses to other requests are discarded. *)
Fixpoint await_response (id : RequestId) (arrived : list (option RequestId * (Response + Error)))
    : Response + string :=
  match arrived with
  | [] => inr "request timeout"
  | (Some request_id, result) :: arrived =>
      if bool_decide (request_id = id) then
        match result with inl r => inl r | inr e => inr (err_message e) end
      else await_response id arrived
  | (None, _) :: arrived => await_response id arrived
  end.

Definition send_request (r : Request) : DataM (Response + string) :=
  let! id := send_request_msg r in
  let! log := gets wk_log in
  ret (await_response id (env_responses log id)).

(** [send_request!(..)?] *)
Definition request {A} (r : Request) (proj : Response → option A) : DataM A :=
  let! resp := send_request r in
  let! resp := try_res resp in
  ok_or (proj resp) "unexpected response type".

(** ** Assets *)

Definition master_xpub : DataM string :=
  let! settings := gets wk_settings in
  match st_master_pub_key settings with
  | Some k => ret k
  | None =>
      let! k := wk_query Ev_random env_random_xpub in
      do! set_settings (λ s, s <| st_master_pub_key := Some k |>) in
      do! save_settings in
      ret k
  end.

Definition load_gdk_asset (asset_ids : list AssetId) : DataM (list Asset + string) :=
  let! _xpub := master_xpub in
  wk_query (Ev_registry asset_ids) (λ log, env_registry log asset_ids).

Definition proto_asset (asset : Asset) (icon : string) (swap_market amp_market unregistered : bool)
    : ProtoAsset := {|
  pa_asset_id := Hash32_to_string (asset_asset_id asset);
  pa_name := asset_name asset;
  pa_ticker := asset_ticker asset;
  pa_icon := icon;
  pa_precision := asset_precision asset;
  pa_instant_swaps := default false (asset_instant_swaps asset);
  pa_swap_market := swap_market;
  pa_amp_market := amp_market;
  pa_unregistered := unregistered;
  pa_domain := asset_domain asset;
  pa_domain_agent := asset_domain_agent asset;
  pa_always_show := asset_always_show asset
|}.

Definition register_asset (asset : Asset) (swap_market amp_market unregistered : bool)
    : DataM unit :=
  let! icon := expect (asset_icon asset) "asset icon must be embedded" in
  do! modify (λ s, s <| wk_assets ::= <[asset_asset_id asset := asset]> |>) in
  ui_send (From_NewAsset (proto_asset asset icon swap_market amp_market unregistered)).

Definition register_assets (assets : list Asset) (amp_market : bool) : DataM unit :=
  for_each assets (λ asset,
    let swap_market :=
      negb amp_market && negb (bool_decide (asset_asset_id asset = liquid_asset_id)) in
    register_asset asset swap_market amp_market false).

Definition try_add_asset (asset_id : AssetId) : DataM unit :=
  let! assets := gets wk_assets in
  match assets !! asset_id with
  | Some _ => ret tt
  | None =>
      let! r := load_gdk_asset [asset_id] in
      let! l := try_res r in
      let! asset := ok_or (head l) "asset not found in gdk registry" in
      register_asset asset false false false
  end.

(** ** The order list *)

Definition sync_order_list : DataM unit :=
  let! sent := gets wk_orders_sent in
  let! last := gets wk_orders_last in
  let removed := filter (λ id, last !! id = None) (btree_list sent).*1 in
  do! for_each removed (λ order_id,
    do! modify (λ s, s <| wk_orders_sent ::= delete order_id |>) in
    ui_send (From_OrderRemoved (Hash32_to_string order_id))) in
  for_each (btree_list last) (λ '(order_id, order),
    let! order_sent := gets (λ s, wk_orders_sent s !! order_id) in
    if negb (opt_eqb order_eqb order_sent (Some order)) then
      let new := match order_sent with None => or_from_notification order | Some _ => false end in
      do! modify (λ s, s <| wk_orders_sent ::= <[order_id := order]> |>) in
      ui_send (From_OrderCreated order new)
    else ret tt).

(** ** Transactions *)

Definition update_sync_interval : DataM unit :=
  let! s := gets id in
  let pending_tx :=
    match wk_sent_txhash s, wk_succeed_swap s with None, None => false | _, _ => true end in
  let interval := if pending_tx then 1 else 7 in
  for_each (btree_list (wk_wallets s)).*1 (λ account,
    wk_emit (Ev_wallet account (W_update_sync_interval interval))).

Definition process_pending_succeed : DataM unit :=
  let! visible_submit := gets wk_visible_submit in
  match visible_submit with
  | Some _ => ret tt
  | None =>
      let! items := gets wk_pending_succeed in
      do! modify (λ s, s <| wk_pending_succeed := [] |>) in
      for_each items (λ item, ui_send (From_SubmitResult (SwapSucceeded item)))
  end.

(** The last item with a transaction id wins in the map. *)
Definition collect_items (account_id : AccountId) (top_block : Z) (items : list Transaction)
    : gmap Txid TransItem :=
  foldl (λ m item, <[mt_txid item := trans_item account_id top_block item]> m) ∅ items.

(** Items of the client's own swaps are queued for the submit dialog, once each. *)
Definition note_succeed (entry : Txid * TransItem) : DataM unit :=
  let '(txid, item) := entry in
  let! submits := gets wk_submit_data in
  match find (λ e : OrderId * SubmitData, bool_decide (sub_txid e.2 = Some txid))
          (btree_list submits) with
  | None => ret tt
  | Some (_, submit_data) =>
      let! shown := gets wk_shown_succeed in
      if bool_decide (sub_order_id submit_data ∈ shown) then ret tt
      else modify (λ s, s <| wk_pending_succeed ::= (λ l, l ++ [item]) |>
                          <| wk_shown_succeed ::= union {[ sub_order_id submit_data ]} |>)
  end.

(** The sent transaction and the awaited swap, when they appear. *)
Definition note_sent (updated : gmap Txid TransItem) : DataM (list FromMsg) :=
  let! sent := gets wk_sent_txhash in
  match sent ≫= (updated !!.) with
  | None => ret []
  | Some tx =>
      do! modify (λ s, s <| wk_sent_txhash := None |>) in
      do! update_sync_interval in
      ret [From_SendResult (inl tx)]
  end.

Definition note_swap (updated : gmap Txid TransItem) : DataM (list FromMsg) :=
  let! succeed := gets wk_succeed_swap in
  match succeed ≫= (updated !!.) with
  | None => ret []
  | Some tx =>
      do! modify (λ s, s <| wk_succeed_swap := None |>) in
      do! update_sync_interval in
      ret [From_SwapSucceed tx]
  end.

(** An asset the registry does not know. *)
Definition unknown_asset (asset_id : AssetId) : Asset := {|
  asset_asset_id := asset_id;
  asset_name := String.substring 0 8 (Hash32_to_string asset_id) +:+ "...";
  asset_ticker := String.substring 0 4 (Hash32_to_string asset_id);
  asset_icon := Some default_icon;
  asset_precision := 8;
  asset_icon_url := None;
  asset_instant_swaps := Some false;
  asset_domain := None;
  asset_domain_agent := None;
  asset_always_show := None;
  asset_issuance_prevout := None;
  asset_issuer_pubkey := None;
  asset_contract := None
|}.

(** The assets of the shown balances, parsed back from their texts. *)
Fixpoint parse_assets (ids : list string) : outcome (list AssetId) :=
  match ids with
  | [] => Ok []
  | id :: ids =>
      match AssetId_from_str id with
      | Ok a => let? l := parse_assets ids in Ok (a :: l)
      | _ => Panic "called `Result::unwrap()` on an `Err` value"
      end
  end.

Definition item_assets (item : TransItem) : outcome (list string) :=
  let? i := oexpect (ti_item item) "called `Option::unwrap()` on a `None` value" in
  Ok (match i with Item_Tx tx => bal_asset_id <$> tx_balances tx | Item_Peg _ => [] end).

Fixpoint items_assets (items : list TransItem) : outcome (list string) :=
  match items with
  | [] => Ok []
  | item :: items =>
      let? l := item_assets item in
      let? l' := items_assets items in
      Ok (l ++ l')
  end.

Definition register_new_assets (items : list TransItem) : DataM unit :=
  let! ids := lift (let? l := items_assets items in parse_assets l) in
  let! assets := gets wk_assets in
  let new_asset_ids :=
    filter (λ id, assets !! id = None) (btree_elements (list_to_set ids : gset AssetId)) in
  if bool_decide (new_asset_ids = []) then ret tt
  else
    let! r := load_gdk_asset new_asset_ids in
    let new_assets := match r with inl l => l | inr _ => [] end in
    for_each new_asset_ids (λ asset_id,
      match find (λ asset, bool_decide (asset_asset_id asset = asset_id)) new_assets with
      | Some asset => register_asset asset false false false
      | None => register_asset (unknown_asset asset_id) false false true
      end).

Definition is_unconfirmed (item : TransItem) : bool :=
  match ti_confs item with Some _ => true | None => false end.

Definition txids_of (p : TransItem → bool) (updated : gmap Txid TransItem) : gset Txid :=
  dom (filter (λ e : Txid * TransItem, p e.2 = true) updated).

Definition send_new_transactions (items : list Transaction) (account_id : AccountId)
    (top_block : Z) : DataM unit :=
  do! modify (λ s, s <| wk_confirmed_txids ::= partial_alter (λ o, Some (default ∅ o)) account_id |>
                     <| wk_unconfirmed_txids ::= partial_alter (λ o, Some (default ∅ o)) account_id |>) in
  let! confirmed := gets (λ s, default ∅ (wk_confirmed_txids s !! account_id)) in
  let! unconfirmed := gets (λ s, default ∅ (wk_unconfirmed_txids s !! account_id)) in
  let items := filter (λ tx, mt_txid tx ∉ confirmed) items in
  let updated := collect_items account_id top_block items in
  let removed := filter (λ txid, updated !! txid = None) (elements unconfirmed) in
  do! for_each (map_to_list updated) note_succeed in
  let! msgs := note_sent updated in
  let! msgs' := note_swap updated in
  do! register_new_assets (map_to_list updated).*2 in
  do! modify (λ s,
    s <| wk_unconfirmed_txids ::= <[account_id := txids_of is_unconfirmed updated]> |>
      <| wk_confirmed_txids ::=
           <[account_id := confirmed ∪ txids_of (λ i, negb (is_unconfirmed i)) updated]> |>) in
  do! (if bool_decide (updated = ∅) then ret tt
       else ui_send (From_UpdatedTxs (map_to_list updated).*2)) in
  do! (if bool_decide (removed = []) then ret tt
       else ui_send (From_RemovedTxs (Hash32_to_string <$> removed))) in
  do! for_each (msgs ++ msgs') ui_send in
  process_pending_succeed.

(** ** Websocket *)

Definition send_ws_connect : DataM unit :=
  let! network_settings := gets wk_network_settings in
  let data := env_data worker_env in
  match network_settings with
  | Some SideswapCn => wk_emit (Ev_ws_connect "cn.sideswap.io" 443 true)
  | _ => wk_emit (Ev_ws_connect (env_data_host data) (env_data_port data) (env_data_use_tls data))
  end.

Definition restart_websocket : DataM unit :=
  do! modify (λ s, s <| wk_connected := false |>) in
  wk_emit Ev_ws_disconnect.

Definition check_ws_connection : DataM unit :=
  let! connected := gets wk_connected in
  if negb connected then wk_emit Ev_ws_hint
  else
    let! ping := attempt (request (Request_Ping tt) (λ r, match r with Response_Ping _ => Some tt | _ => None end)) in
    match ping with inl _ => ret tt | inr _ => restart_websocket end.
End Client.

(** ** Lemmas: sums *)

Lemma usum_zsum l : Forall (λ x, 0 ≤ x) l → zsum l ≤ u64_max → usum l = zsum l.
Proof.
  intros Hl Hs. unfold usum.
  cut (∀ acc, 0 ≤ acc → acc + zsum l ≤ u64_max →
         foldl (λ acc x, wu64 (acc + x)) acc l = acc + zsum l).
  { intros H. rewrite H; lia. }
  clear Hs. induction Hl as [|x l Hx Hl IH]; intros acc Ha Hb; simpl in *; [lia|].
  assert (0 ≤ zsum l) by (apply zsum_nonneg; done).
  rewrite wu64_id by (unfold in_u64; lia). rewrite IH by lia. lia.
Qed.

(** ** Frames

    Most of the worker leaves alone what the signing of orders and the order list
    are about.  [core] collects that part of the state, with the events about it;
    a computation is [quiet] when it leaves the core as it was, and a quiet
    computation keeps every property of the core. *)

Definition sign_event (e : WEvent) : bool :=
  match e with Ev_request _ (Request_Sign _) => true | _ => false end.

Definition order_event (e : WEvent) : bool :=
  match e with
  | Ev_ui (From_OrderCreated _ _) | Ev_ui (From_OrderRemoved _) => true
  | _ => false
  end.

Definition quiet_event (e : WEvent) : bool := negb (sign_event e) && negb (order_event e).

Definition sign_core (s : Data) :=
  (List.filter sign_event (wk_log s), wk_processed_signs s, wk_pending_sign_prompts s,
   wk_active_sign s, wk_pending_signs s, wk_pending_sign_requests s).
Definition order_core (s : Data) :=
  (List.filter order_event (wk_log s), wk_orders_last s, wk_orders_sent s).
Definition core (s : Data) := (sign_core s, order_core s).

Definition quiet {A} (m : DataM A) : Prop := ∀ s, core (m s).1 = core s.
Definition stable (I : Data → Prop) : Prop := ∀ s s', core s' = core s → I s → I s'.

Lemma keeps_quiet {A} (m : DataM A) I : quiet m → stable I → keeps I m.
Proof. intros Hm HI s Hs. exact (HI s _ (Hm s) Hs). Qed.

Lemma quiet_intro {A} (m : DataM A) : (∀ c, keeps (λ s, core s = c) m) → quiet m.
Proof. intros Hm s. by apply (Hm (core s) s). Qed.

Lemma stable_core c : stable (λ s, core s = c).
Proof. by intros s s' -> ->. Qed.
Lemma stable_sign_core c : stable (λ s, sign_core s = c).
Proof. intros s s' E <-. exact (f_equal fst E). Qed.
Lemma stable_order_core c : stable (λ s, order_core s = c).
Proof. intros s s' E <-. exact (f_equal snd E). Qed.
Create HintDb quiet.
#[export] Hint Resolve stable_core stable_sign_core stable_order_core : quiet.

Lemma quiet_modify f : (∀ s, core (f s) = core s) → quiet (modify f).
Proof. done. Qed.

Lemma quiet_emit e : quiet_event e = true → quiet (wk_emit e).
Proof.
  intros He s. unfold quiet_event in He. apply andb_true_iff in He as [Hs Ho].
  unfold core, sign_core, order_core. simpl.
  apply negb_true_iff in Hs as ->. by apply negb_true_iff in Ho as ->.
Qed.

Lemma quiet_query {A} e (f : list WEvent → A) : quiet_event e = true → quiet (wk_query e f).
Proof.
  intros He s. unfold wk_query, bind, gets. pose proof (quiet_emit e He s) as H.
  unfold wk_emit, modify in *. simpl in *. done.
Qed.

(** Split a [keeps] goal along the computation; quiet parts are known, and an
    update of the state is kept when it does not show in the invariant. *)
Ltac frame_leaf :=
  first
    [ apply keeps_quiet; [solve [auto with quiet nocore]|solve [auto with quiet nocore]]
    | solve [eauto with keeps nocore]
    | apply keeps_loop_fuel; intros ?
    | apply keeps_modify; let s := fresh "s" in let Hs := fresh "Hs" in
      intros s Hs; exact Hs ].
Ltac frame_step :=
  lazymatch goal with
  | |- ∀ _, _ => intros ?
  | |- keeps _ (bind _ _) => apply keeps_bind; [|intros ?]
  | |- keeps _ (for_each _ _) => apply keeps_for_each; intros ? ?
  | |- keeps _ (attempt _) => apply keeps_attempt
  | |- keeps _ (if ?b then _ else _) => destruct b
  | |- keeps _ (match ?x with _ => _ end) => destruct x
  | |- keeps _ (let _ := _ in _) => cbv zeta
  | |- keeps _ _ => frame_leaf
  end.
Ltac frame := repeat (cbv beta; frame_step).
Ltac quiet := apply quiet_intro; intros ?; frame.

#[export] Hint Extern 1 (quiet (wk_emit _)) => apply quiet_emit; reflexivity : quiet.
#[export] Hint Extern 1 (quiet (wk_query _ _)) => apply quiet_query; reflexivity : quiet.
#[export] Hint Extern 1 (quiet (modify _)) => apply quiet_modify; intros ?; reflexivity : quiet.

Lemma keeps_try_res {A} I (r : A + string) : keeps I (try_res r).
Proof. destruct r; intros st Hst; exact Hst. Qed.
#[export] Hint Resolve keeps_try_res : keeps.

Section Quiet.
Context `{WorkerEnv}.

Lemma quiet_ui_send m : quiet_event (Ev_ui m) = true → quiet (ui_send m).
Proof. apply quiet_emit. Qed.
Lemma quiet_show_message text : quiet (show_message text).
Proof. by apply quiet_emit. Qed.
Lemma quiet_try_res {A} (r : A + string) : quiet (try_res r).
Proof. by destruct r. Qed.
Lemma quiet_get_wallet account : quiet (get_wallet account).
Proof. unfold get_wallet. quiet. Qed.
Lemma quiet_ses_call {A} account op (f : list WEvent → AccountId → A + string) :
  quiet (ses_call account op f).
Proof. unfold ses_call. quiet. Qed.
#[local] Hint Resolve quiet_show_message quiet_try_res quiet_get_wallet quiet_ses_call : quiet.
#[local] Hint Extern 1 (quiet (ui_send _)) => apply quiet_ui_send; reflexivity : quiet.
Lemma quiet_ses_call_try {A} account op (f : list WEvent → AccountId → A + string) :
  quiet (ses_call_try account op f).
Proof. unfold ses_call_try. quiet. Qed.
Lemma quiet_save_settings : quiet save_settings.
Proof. unfold save_settings. quiet. Qed.
Lemma quiet_set_settings f : quiet (set_settings f).
Proof. unfold set_settings. quiet. Qed.
Lemma quiet_next_id : quiet next_id.
Proof. unfold next_id. quiet. Qed.
#[local] Hint Resolve quiet_ses_call_try quiet_save_settings quiet_set_settings quiet_next_id : quiet.
Lemma quiet_send_request_msg r :
  (∀ id, sign_event (Ev_request id r) = false) → quiet (send_request_msg r).
Proof.
  intros Hr. unfold send_request_msg. apply quiet_intro. intros c.
  apply keeps_bind; [frame|]. intros n. apply keeps_bind; [|intros _; frame].
  apply keeps_quiet; [|apply stable_core]. apply quiet_emit. unfold quiet_event. by rewrite Hr.
Qed.
Lemma quiet_request {A} r (proj : Response → option A) :
  (∀ id, sign_event (Ev_request id r) = false) → quiet (request r proj).
Proof.
  intros Hr. unfold request, send_request. pose proof (quiet_send_request_msg r Hr). quiet.
Qed.
#[local] Hint Extern 1 (quiet (send_request_msg _)) =>
  apply quiet_send_request_msg; intros ?; reflexivity : quiet.
#[local] Hint Extern 1 (quiet (request _ _)) =>
  apply quiet_request; intros ?; reflexivity : quiet.
Lemma quiet_master_xpub : quiet master_xpub.
Proof. unfold master_xpub. quiet. Qed.
#[local] Hint Resolve quiet_master_xpub : quiet.
Lemma quiet_load_gdk_asset ids : quiet (load_gdk_asset ids).
Proof. unfold load_gdk_asset. quiet. Qed.
Lemma quiet_register_asset asset a b c : quiet (register_asset asset a b c).
Proof. unfold register_asset. quiet. Qed.
#[local] Hint Resolve quiet_load_gdk_asset quiet_register_asset : quiet.
Lemma quiet_register_assets assets amp : quiet (register_assets assets amp).
Proof. unfold register_assets. quiet. Qed.
Lemma quiet_try_add_asset id : quiet (try_add_asset id).
Proof. unfold try_add_asset. quiet. Qed.
Lemma quiet_update_sync_interval : quiet update_sync_interval.
Proof. unfold update_sync_interval. quiet. Qed.
Lemma quiet_process_pending_succeed : quiet process_pending_succeed.
Proof. unfold process_pending_succeed. quiet. Qed.
#[local] Hint Resolve quiet_register_assets quiet_try_add_asset quiet_update_sync_interval
  quiet_process_pending_succeed : quiet.
Lemma quiet_note_succeed e : quiet (note_succeed e).
Proof. unfold note_succeed. quiet. Qed.
Lemma quiet_register_new_assets items : quiet (register_new_assets items).
Proof. unfold register_new_assets. quiet. Qed.
Lemma quiet_send_ws_connect : quiet send_ws_connect.
Proof. unfold send_ws_connect. quiet. Qed.
Lemma quiet_restart_websocket : quiet restart_websocket.
Proof. unfold restart_websocket. quiet. Qed.
#[local] Hint Resolve quiet_note_succeed quiet_register_new_assets quiet_send_ws_connect
  quiet_restart_websocket : quiet.
Lemma quiet_check_ws_connection : quiet check_ws_connection.
Proof. unfold check_ws_connection. quiet. Qed.
#[local] Hint Resolve quiet_check_ws_connection : quiet.

(** No request is about the order list. *)
Lemma order_core_request {A} c r (proj : Response → option A) :
  keeps (λ s, order_core s = c) (request r proj).
Proof. unfold request, send_request, send_request_msg, wk_emit. frame. Qed.

(** The messages [send_new_transactions] sends at its end are not about orders. *)
Definition quiet_msgs (msgs : list FromMsg) : Prop :=
  ∀ m, m ∈ msgs → quiet_event (Ev_ui m) = true.

Lemma note_sent_msgs updated : yields (note_sent updated) quiet_msgs.
Proof.
  unfold note_sent. eapply yields_bind; [apply yields_True|]. intros o _.
  destruct (o ≫= _); [|by apply yields_ret; intros m Hm%elem_of_nil].
  do 2 (eapply yields_bind; [apply yields_True|]; intros _ _).
  apply yields_ret. by intros m ->%list_elem_of_singleton.
Qed.

Lemma note_swap_msgs updated : yields (note_swap updated) quiet_msgs.
Proof.
  unfold note_swap. eapply yields_bind; [apply yields_True|]. intros o _.
  destruct (o ≫= _); [|by apply yields_ret; intros m Hm%elem_of_nil].
  do 2 (eapply yields_bind; [apply yields_True|]; intros _ _).
  apply yields_ret. by intros m ->%list_elem_of_singleton.
Qed.

Lemma quiet_send_new_transactions items account top_block :
  quiet (send_new_transactions items account top_block).
Proof.
  assert (∀ u, quiet (note_sent u)) as Hsent by (intros u; unfold note_sent; quiet).
  assert (∀ u, quiet (note_swap u)) as Hswap by (intros u; unfold note_swap; quiet).
  unfold send_new_transactions. apply quiet_intro. intros c.
  do 4 (apply keeps_bind; [frame|intros ?]).
  eapply keeps_bind_yields; [by apply keeps_quiet; auto with quiet|apply note_sent_msgs|].
  intros msgs Hmsgs.
  eapply keeps_bind_yields; [by apply keeps_quiet; auto with quiet|apply note_swap_msgs|].
  intros msgs' Hmsgs'. do 4 (apply keeps_bind; [frame|intros ?]).
  apply keeps_bind; [|intros _; frame]. apply keeps_for_each. intros m [Hm|Hm]%elem_of_app;
    (apply keeps_quiet; [apply quiet_ui_send; by auto|apply stable_core]).
Qed.
End Quiet.

#[export] Hint Resolve quiet_show_message quiet_try_res quiet_get_wallet quiet_ses_call
  quiet_ses_call_try quiet_save_settings quiet_set_settings quiet_next_id quiet_master_xpub
  quiet_load_gdk_asset quiet_register_asset quiet_register_assets quiet_try_add_asset
  quiet_update_sync_interval quiet_process_pending_succeed quiet_note_succeed
  quiet_register_new_assets quiet_send_ws_connect quiet_restart_websocket
  quiet_check_ws_connection quiet_send_new_transactions : quiet.
#[export] Hint Resolve order_core_request : keeps.
#[export] Hint Extern 1 (quiet (ui_send _)) => apply quiet_ui_send; reflexivity : quiet.
#[export] Hint Extern 1 (quiet (send_request_msg _)) =>
  apply quiet_send_request_msg; intros ?; reflexivity : quiet.
#[export] Hint Extern 1 (quiet (request _ _)) =>
  apply quiet_request; intros ?; reflexivity : quiet.

(** ** New events

    What a computation adds to the log.  [emits P m]: every event [m] adds
    satisfies [P], whatever [m] ends in. *)

Definition new_events (s s' : Data) : list WEvent :=
  take (length (wk_log s') - length (wk_log s)) (wk_log s').

Definition grows (P : WEvent → Prop) (s s' : Data) : Prop :=
  ∃ new, wk_log s' = new ++ wk_log s ∧ Forall P new.

Definition emits {A} (P : WEvent → Prop) (m : DataM A) : Prop := ∀ s0, keeps (grows P s0) m.

Lemma grows_new_events P s s' : grows P s s' → Forall P (new_events s s').
Proof.
  intros (new & E & HP). unfold new_events. rewrite E, length_app, Nat.add_sub, take_app_length. done.
Qed.

Lemma grows_refl P s : grows P s s.
Proof. by exists []. Qed.

Lemma grows_cons P s s' e : P e → grows P s s' → grows P s (s' <| wk_log ::= cons e |>).
Proof.
  intros He (new & E & HP). exists (e :: new). split; [|by constructor].
  simpl. by rewrite_field E.
Qed.

Lemma grows_mono (P Q : WEvent → Prop) s s' : (∀ e, P e → Q e) → grows P s s' → grows Q s s'.
Proof. intros HPQ (new & E & HP). exists new. split; [done|]. by eapply Forall_impl. Qed.

Lemma emits_new {A} P (m : DataM A) s : emits P m → Forall P (new_events s (m s).1).
Proof. intros Hm. apply grows_new_events, Hm, grows_refl. Qed.

Lemma emits_grows {A} P (m : DataM A) s : emits P m → grows P s (m s).1.
Proof. intros Hm. apply Hm, grows_refl. Qed.

Lemma emits_emit P e s0 : P e → keeps (grows P s0) (wk_emit e).
Proof. intros He s. by apply grows_cons. Qed.

Lemma emits_query {A} P e (f : list WEvent → A) s0 : P e → keeps (grows P s0) (wk_query e f).
Proof. intros He. unfold wk_query. pose proof (emits_emit P e s0 He). frame. Qed.

(** *** Signatures of the wallet *)

(** Every signature asked of a wallet satisfies [Q]. *)
Definition signs_only (Q : AccountId → SwapAmounts → string → Prop) (e : WEvent) : Prop :=
  match e with
  | Ev_wallet account (W_verify_and_sign_pset amounts pset _) => Q account amounts pset
  | _ => True
  end.

(** The steps before an event matters: each leaves the log alone, or succeeds. *)
Lemma grows_bind {A B} P s0 (m : DataM A) (k : A → DataM B) s :
  grows P s0 (m s).1 → (∀ s1 a, m s = (s1, Ok a) → grows P s0 (k a s1).1) →
  grows P s0 (bind m k s).1.
Proof.
  intros Hm Hk. unfold bind. destruct (m s) as [s1 [a| |]] eqn:E; [|done|done]. by apply Hk.
Qed.

Lemma grows_then {A B} P s0 (m : DataM A) (k : A → DataM B) s :
  grows P s0 (m s).1 → (∀ a, keeps (grows P s0) (k a)) → grows P s0 (bind m k s).1.
Proof.
  intros Hm Hk. unfold bind. destruct (m s) as [s1 [a| |]] eqn:E; [|done|done]. by apply Hk.
Qed.

Lemma grows_same P s s' : wk_log s' = wk_log s → grows P s s'.
Proof. intros E. exists []. by rewrite E. Qed.

Lemma grows_keeps {A} P s0 (m : DataM A) s :
  wk_log s = wk_log s0 → keeps (grows P s0) m → grows P s0 (m s).1.
Proof. intros E Hm. apply Hm. by apply grows_same. Qed.

Lemma grows_signs Q s s' account amounts pset nonces :
  grows (signs_only Q) s s' →
  Ev_wallet account (W_verify_and_sign_pset amounts pset nonces) ∈ new_events s s' →
  Q account amounts pset.
Proof.
  intros HQ%grows_new_events Hin. rewrite Forall_forall in HQ. exact (HQ _ Hin).
Qed.

Section Unsigned.
Context `{WorkerEnv}.

Lemma signs_only_ui_send Q s0 m : keeps (grows (signs_only Q) s0) (ui_send m).
Proof. by apply emits_emit. Qed.
Lemma signs_only_request {A} Q s0 r (proj : Response → option A) :
  keeps (grows (signs_only Q) s0) (request r proj).
Proof.
  assert (∀ e : RequestId, keeps (grows (signs_only Q) s0) (wk_emit (Ev_request e r))) as He
    by (intros; by apply emits_emit).
  unfold request, send_request, send_request_msg, next_id. frame.
Qed.
Lemma signs_only_ses_call {A} Q s0 account op (f : list WEvent → AccountId → A + string) :
  signs_only Q (Ev_wallet account op) → keeps (grows (signs_only Q) s0) (ses_call account op f).
Proof. apply emits_query. Qed.
Lemma signs_only_ses_call_try {A} Q s0 account op (f : list WEvent → AccountId → A + string) :
  signs_only Q (Ev_wallet account op) → keeps (grows (signs_only Q) s0) (ses_call_try account op f).
Proof.
  intros HQ. pose proof (signs_only_ses_call Q s0 account op f HQ).
  unfold ses_call_try, get_wallet. frame.
Qed.
End Unsigned.

#[export] Hint Resolve signs_only_ui_send signs_only_request : keeps.
#[export] Hint Extern 1 (keeps (grows (signs_only _) _) (ses_call _ _ _)) =>
  apply signs_only_ses_call; first [exact I|done] : keeps.
#[export] Hint Extern 1 (keeps (grows (signs_only _) _) (ses_call_try _ _ _)) =>
  apply signs_only_ses_call_try; first [exact I|done] : keeps.

(** Go through a step that leaves the log alone, keeping what its success tells. *)
Ltac grow_step :=
  cbv zeta; apply grows_bind;
  [apply grows_same; first [reflexivity|match goal with E : wk_log _ = _ |- _ => exact E end]
  |intros ? ? ?; ok_inv].

(** ** A small environment for examples

    The server answers every request at once, the wallet signs what it is given. *)
Module Sample.

Definition none {A} : A + string := inr "unavailable".

Definition address (text : string) (pointer : Z) : AddressInfo := {|
  ai_address := text; ai_pointer := pointer; ai_user_path := []; ai_is_internal := None;
  ai_service_xpub := None
|}.

Definition env_with (answer : Request → Response + Error) (utxos : UnspentOutputs)
    (pages : option Z → PreviousAddresses + string) : WorkerEnv := {|
  worker_ids := hex_ids;
  worker_env := Env_Prod;
  params_version := "1.0";
  params_disable_device_key := None;
  env_responses log id :=
    match log with Ev_request id' r :: _ => [(Some id', answer r)] | _ => [] end;
  env_cookie _ := None;
  env_registry _ _ := none;
  env_random_xpub _ := "xpub";
  env_instant _ := 0;
  os_type := 0;
  default_icon := "icon";
  fake_p2sh_address := "fake";
  rest_server _ _ _ := none;
  parse_rest_error _ := none;
  parse_rest_response _ := none;
  parse_fcm _ := None;
  display_f64 _ := "number";
  settings_file := None;
  assets_file := None;
  builtin_assets _ := EmptyString;
  parse_assets_json _ := none;
  parse_created_tx _ := none;
  encrypt_pin _ _ _ := none;
  decrypt_pin _ _ _ := none;
  jade_ports _ := none;
  single_sig_address _ _ _ := "single";
  multi_sig_address _ _ _ := "multi";
  redeem_script _ := "script";
  ses_register _ _ := none;
  valid_xpub _ := true;
  derive_xpubs _ _ := none;
  start_session _ _ _ := none;
  ses_login _ _ := inl tt;
  ses_get_gaid _ _ := inl "gaid";
  ses_unlock_hww _ _ := inl tt;
  ses_get_balances _ _ := inl ∅;
  ses_get_transactions _ _ := inl [];
  ses_get_receive_address _ _ := inl (address "receive" 1);
  ses_get_change_address _ _ := inl (address "change" 2);
  ses_create_tx _ _ _ := none;
  ses_send_tx _ _ _ := none;
  ses_create_payjoin _ _ _ := none;
  ses_send_payjoin _ _ _ := none;
  ses_get_utxos _ _ := inl utxos;
  ses_get_tx_fee _ _ _ _ _ := none;
  ses_make_pegout_payment _ _ _ _ _ := none;
  ses_get_blinded_values _ _ _ := none;
  ses_get_previous_addresses _ _ last_pointer _ := pages last_pointer;
  ses_sig_single_maker_tx _ _ _ _ := none;
  ses_verify_and_sign_pset _ _ _ pset _ := inl ("signed " +:+ pset);
  ses_set_memo _ _ _ _ := none
|}.

Definition env (answer : Request → Response + Error) (utxos : UnspentOutputs) : WorkerEnv :=
  env_with answer utxos (λ _, none).

(** A wallet that is logged in. *)
Definition wallet (account : AccountId) : Wallet := {|
  wl_login_info := {| li_account_id := account; li_wallet_info := WI_Mnemonic "words";
                      li_single_sig := account =? ACCOUNT_ID_REG; li_network := None |};
  wl_xpubs := {| xp_single_sig_account := "a"; xp_multi_sig_service_xpub := "b";
                 xp_multi_sig_user_xpub := "c" |}
|}.

Definition order_id : OrderId := seqZ 1 32.
Definition asset_id : AssetId := seqZ 101 32.

Definition asset : Asset := {|
  asset_asset_id := asset_id; asset_name := "Token"; asset_ticker := "TKN";
  asset_icon := Some "icon"; asset_precision := 8; asset_icon_url := None;
  asset_instant_swaps := None; asset_domain := None; asset_domain_agent := None;
  asset_always_show := None; asset_issuance_prevout := None; asset_issuer_pubkey := None;
  asset_contract := None
|}.

(** An offer of 0.1 L-BTC at the price 2. *)
Definition details (side : OrderSide) : Details := {|
  details_asset := asset_id; details_bitcoin_amount := 10000000;
  details_asset_amount := 20000000; details_price := f64_of_Z 2; details_server_fee := 10000;
  details_side := side; details_send_bitcoins := true; details_order_type := OrderType_Bitcoin;
  details_market := MarketType_Stablecoin; details_two_step := None
|}.

Definition sign_msg (side : OrderSide) : SignNotification := {|
  sign_ntf_order_id := order_id; sign_ntf_pset := "pset"; sign_ntf_details := details side;
  sign_ntf_nonces := None
|}.
End Sample.
