(* ===== verification/Orders.v ===== *)
(** * The client's orders: submitting, reviewing, signing

    The order flow of [rust/sideswap_client/src/worker.rs]: an order is submitted
    and linked, reviewed by the user, funded with inputs, and later signed - at
    once when the user allowed it, or after another review. *)
From stdpp Require Import base numbers gmap strings list sets sorting pretty.
From Stdlib Require Import ZArith Lia SpecFloat.
From S2P Require Import Prelude F64 Api Types Env ClientApi Client.

Open Scope Z_scope.
#[local] Set Primitive Projections.

Section Orders.
Context `{WorkerEnv}.

(** ** Checking amounts *)

Definition verify_amounts (assets : gmap AssetId Asset) (details : Details) : outcome unit :=
  do? oensure (negb (bool_decide (details_asset details = liquid_asset_id)))
        "details.asset != self.liquid_asset_id" in
  do? oensure (fgtb (details_price details) f0) "details.price > 0.0" in
  do? oensure (MIN_BITCOIN_AMOUNT <=? details_bitcoin_amount details) "MIN_BITCOIN_AMOUNT" in
  do? oensure (MIN_SERVER_FEE <=? details_server_fee details) "MIN_SERVER_FEE" in
  do? oensure (0 <? details_asset_amount details) "details.asset_amount > 0" in
  do? oensure (details_server_fee details <? details_bitcoin_amount details)
        "details.server_fee < details.bitcoin_amount" in
  let? asset := ook_or (assets !! details_asset details) "unknown asset" in
  do? oensure (asset_precision asset <=? 8) "asset.precision <= 8" in
  do? match details_order_type details with
      | OrderType_Bitcoin =>
          do? oensure (asset_precision asset =? 8) "asset.precision == 8" in
          let? expected :=
            Types.asset_amount (details_bitcoin_amount details) (details_price details)
              (asset_precision asset) (details_market details) in
          oensure (expected =? details_asset_amount details) "unexpected asset amount"
      | OrderType_Asset =>
          let? expected :=
            Types.bitcoin_amount (details_asset_amount details) (details_price details)
              (asset_precision asset) (details_market details) in
          oensure (expected =? details_bitcoin_amount details) "unexpected bitcoin amount"
      end in
  oensure (details_server_fee details =? get_server_fee (details_bitcoin_amount details))
    "details.server_fee == server_fee".

(** What the wallet pays and receives in a swap of these terms. *)
Definition swap_amounts (sell_bitcoin : bool) (asset : AssetId)
    (bitcoin_amount asset_amount server_fee : Z) : SwapAmounts :=
  if sell_bitcoin then
    {| sa_send_asset := liquid_asset_id;
       sa_send_amount := wu64 (wi64 (bitcoin_amount + server_fee));
       sa_recv_asset := asset;
       sa_recv_amount := wu64 asset_amount |}
  else
    {| sa_send_asset := asset;
       sa_send_amount := wu64 asset_amount;
       sa_recv_asset := liquid_asset_id;
       sa_recv_amount := wu64 (wi64 (bitcoin_amount - server_fee)) |}.

Definition submit_amounts (d : SubmitData) : SwapAmounts :=
  swap_amounts (sub_sell_bitcoin d) (sub_asset d) (sub_bitcoin_amount d) (sub_asset_amount d)
    (sub_server_fee d).

Definition account_of (amp : bool) : AccountId := if amp then ACCOUNT_ID_AMP else ACCOUNT_ID_REG.

(** ** Signing ([try_sign]) *)

Definition try_sign (msg : SignNotification) : DataM bool :=
  let order_id := sign_ntf_order_id msg in
  let! submits := gets wk_submit_data in
  let! submit_data := ok_or (submits !! order_id) "submit_data not found" in
  let side := sub_side submit_data in
  do! ensure (bool_decide (sub_order_id submit_data = order_id)) "unexpected order_id" in
  let amounts := submit_amounts submit_data in
  let! amp_assets := gets wk_amp_assets in
  let is_amp := bool_decide (sub_asset submit_data ∈ amp_assets) in
  let account_id := account_of is_amp in
  let! nonces :=
    if is_amp then ok_or (sign_ntf_nonces msg) "blinding keys should be known" else ret [] in
  let! signed_pset :=
    ses_call_try account_id (W_verify_and_sign_pset amounts (sign_ntf_pset msg) nonces)
      (λ log a, ses_verify_and_sign_pset log a amounts (sign_ntf_pset msg) nonces) in
  let! _r := request (Request_Sign {| sign_order_id := order_id; sign_signed_pset := signed_pset;
                                      sign_side := side |}) as_Sign in
  let! submit_data := gets (λ s, wk_submit_data s !! order_id) in
  let! submit_data := expect submit_data "called `Option::unwrap()` on a `None` value" in
  do! modify (λ s, s <| wk_submit_data ::= <[order_id := submit_data <| sub_signed := true |>]> |>) in
  do! (if bool_decide (sub_side submit_data = OrderSide_Taker) &&
          negb (default false (details_two_step (sign_ntf_details msg)))
       then ui_send (From_StartTimer (Hash32_to_string (sub_order_id submit_data)))
       else ret tt) in
  ret false.

(** ** Prompts *)

Definition sign_review (msg : SignNotification) (d : SubmitData) : SubmitReview := {|
  rev_order_id := Hash32_to_string (sign_ntf_order_id msg);
  rev_asset := Hash32_to_string (sub_asset d);
  rev_bitcoin_amount := sub_bitcoin_amount d;
  rev_server_fee := sub_server_fee d;
  rev_asset_amount := sub_asset_amount d;
  rev_price := sub_price d;
  rev_sell_bitcoin := sub_sell_bitcoin d;
  rev_step := Step_Sign;
  rev_index_price := sub_index_price d;
  rev_auto_sign := sub_auto_sign d;
  rev_two_step := None;
  rev_tx_chaining_required := None
|}.

Fixpoint next_sign_prompt (prompts : list SignNotification) : DataM unit :=
  match prompts with
  | [] => modify (λ s, s <| wk_pending_sign_prompts := [] |>)
  | msg :: prompts =>
      let! submit_data := gets (λ s, wk_submit_data s !! sign_ntf_order_id msg) in
      match submit_data with
      | None => next_sign_prompt prompts
      | Some d =>
          do! modify (λ s, s <| wk_pending_sign_prompts := prompts |>) in
          do! ui_send (From_SubmitReview (sign_review msg d)) in
          modify (λ s, s <| wk_visible_submit := Some (sign_ntf_order_id msg) |>
                         <| wk_active_sign := Some msg |>)
      end
  end.

Definition process_pending_sign_prompts : DataM unit :=
  let! visible_submit := gets wk_visible_submit in
  match visible_submit with
  | Some _ => ret tt
  | None =>
      let! prompts := gets wk_pending_sign_prompts in
      next_sign_prompt prompts
  end.

(** ** Sign requests ([try_process_sign]) *)

(** [f64::abs(new - old) / old] *)
Definition price_change_of (new old : f64) : f64 := fdiv (fabs (fsub new old)) old.

(** The terms asked for are those of the order: only the price and what follows
    from it may differ. *)
Definition check_terms (d : SubmitData) (details : Details) : outcome unit :=
  do? oensure (eqb (sub_sell_bitcoin d) (details_send_bitcoins details)) "sell_bitcoin" in
  do? oensure (bool_decide (sub_order_type d = details_order_type details)) "order_type" in
  do? oensure (bool_decide (sub_asset d = details_asset details)) "asset" in
  do? match sub_order_type d with
      | OrderType_Bitcoin =>
          do? oensure (sub_server_fee d =? details_server_fee details) "server_fee" in
          oensure (sub_bitcoin_amount d =? details_bitcoin_amount details) "bitcoin_amount"
      | OrderType_Asset =>
          oensure (sub_asset_amount d =? details_asset_amount details) "asset_amount"
      end in
  do? oensure (bool_decide (sub_side d = details_side details)) "side" in
  oensure (feqb (price_change_of (details_price details) (sub_price d)) f0 ||
           negb (bool_decide (sub_side d = OrderSide_Taker))) "price_change".

Definition auto_sign_allowed (force : bool) (d : SubmitData) (details : Details) : bool :=
  let price_change := price_change_of (details_price details) (sub_price d) in
  let allowed_price_change :=
    if sub_index_price d then AUTO_SIGN_ALLOWED_INDEX_PRICE_CHANGE else f0 in
  match sub_side d with
  | OrderSide_Maker => (sub_auto_sign d && fleb price_change allowed_price_change) || force
  | OrderSide_Taker => true
  end.

Definition accept_terms (details : Details) (d : SubmitData) : SubmitData :=
  d <| sub_price := details_price details |>
    <| sub_asset_amount := details_asset_amount details |>
    <| sub_bitcoin_amount := details_bitcoin_amount details |>
    <| sub_server_fee := details_server_fee details |>.

Definition try_process_sign (msg : SignNotification) : DataM unit :=
  let order_id := sign_ntf_order_id msg in
  let details := sign_ntf_details msg in
  let! processed := gets wk_processed_signs in
  if bool_decide (order_id ∈ processed) then ret tt
  else
    do! modify (λ s, s <| wk_processed_signs ::= union {[ order_id ]} |>) in
    let! assets := gets wk_assets in
    do! lift (verify_amounts assets details) in
    let! submits := gets wk_submit_data in
    let! d := ok_or (submits !! order_id) "no keys found" in
    do! ensure (bool_decide (order_id = sub_order_id d)) "order_id" in
    do! lift (check_terms d details) in
    let! force := gets wk_force_auto_sign_maker in
    let allowed := auto_sign_allowed force d details in
    do! modify (λ s, s <| wk_submit_data ::= <[order_id := accept_terms details d]> |>) in
    if negb allowed then
      do! modify (λ s, s <| wk_pending_sign_prompts ::= (λ l, l ++ [msg]) |>) in
      process_pending_sign_prompts
    else
      let! _done := try_sign msg in
      ret tt.

(** ** Submitting *)

Definition try_process_link_order (order_id : OrderId) : DataM unit :=
  let! resp := request (Request_Link {| link_order_id := order_id |}) as_Link in
  modify (λ s, s <| wk_downloaded_links ::= (λ l, l ++ [resp]) |>).

(** [GdkSes::get_balance], the trait's default method. *)
Definition get_balance (account_id : AccountId) (asset_id : AssetId) : DataM Z :=
  let! r := ses_call account_id W_get_balances ses_get_balances in
  ret (match r with inl balances => default 0 (balances !! asset_id) | inr _ => 0 end).

(** [AssetId::from_str(..).unwrap()] *)
Definition parse_id (text : string) : DataM Hash32 :=
  match AssetId_from_str text with
  | Ok id => ret id
  | _ => panic "called `Result::unwrap()` on an `Err` value"
  end.

Definition submit_bitcoin_amount (account_id : AccountId) (amount : option f64)
    : DataM (option f64) :=
  match amount with
  | None => ret None
  | Some v =>
      do! get_wallet account_id in
      let! bitcoin_balance := get_balance account_id liquid_asset_id in
      if feqb (to_bitcoin bitcoin_balance) (fneg v) then
        let! bitcoin_amount := lift (get_max_bitcoin_amount bitcoin_balance) in
        ret (Some (fneg (to_bitcoin bitcoin_amount)))
      else ret (Some v)
  end.

Definition try_process_submit_order (req : SubmitOrder) : DataM unit :=
  let! asset := parse_id (so_asset_id req) in
  let! amp_assets := gets wk_amp_assets in
  let is_amp := bool_decide (asset ∈ amp_assets) in
  do! (if is_amp
       then ensure (so_account req =? ACCOUNT_ID_AMP)
              "AMP asset order is expected to be from AMP account"
       else ensure (so_account req =? ACCOUNT_ID_REG)
              "Non AMP asset order is expected to be from non-AMP account") in
  let! bitcoin_amount := submit_bitcoin_amount (so_account req) (so_bitcoin_amount req) in
  let order := {|
    price_order_asset := asset;
    price_order_bitcoin_amount := bitcoin_amount;
    price_order_asset_amount := so_asset_amount req;
    price_order_price := Some (so_price req);
    price_order_index_price := so_index_price req;
    price_order_force_private := None;
    price_order_disable_price_edit := None |} in
  let! resp := request (Request_Submit {| submit_order := order |}) as_Submit in
  try_process_link_order (submit_resp_order_id resp).

(** What the user would send in an order under review. *)
Definition review_send (details : Details) : Z * AssetId :=
  if details_send_bitcoins details
  then (wi64 (details_bitcoin_amount details + details_server_fee details), liquid_asset_id)
  else (details_asset_amount details, details_asset details).

Definition link_review (resp : LinkResponse) (auto_sign : bool) (chaining : option bool)
    : SubmitReview :=
  let details := link_resp_details resp in {|
  rev_order_id := Hash32_to_string (link_resp_order_id resp);
  rev_asset := Hash32_to_string (details_asset details);
  rev_bitcoin_amount := details_bitcoin_amount details;
  rev_server_fee := details_server_fee details;
  rev_asset_amount := details_asset_amount details;
  rev_price := details_price details;
  rev_sell_bitcoin := details_send_bitcoins details;
  rev_step := match details_side details with
              | OrderSide_Maker => Step_Submit
              | OrderSide_Taker => Step_Quote
              end;
  rev_index_price := link_resp_index_price resp;
  rev_auto_sign := auto_sign;
  rev_two_step := details_two_step details;
  rev_tx_chaining_required := chaining
|}.

Definition try_process_downloaded_link (resp : LinkResponse) : DataM (option FromMsg) :=
  let order_id := link_resp_order_id resp in
  let details := link_resp_details resp in
  do! try_add_asset (details_asset details) in
  let '(send_amount, send_asset) := review_send details in
  let! amp_assets := gets wk_amp_assets in
  let account_id := account_of (bool_decide (details_asset details ∈ amp_assets)) in
  do! get_wallet account_id in
  let! available_balance := get_balance account_id send_asset in
  if available_balance <? send_amount then
    ret (Some (From_InsufficientFunds (Hash32_to_string send_asset) available_balance send_amount))
  else
    let! chaining :=
      match details_side details with
      | OrderSide_Maker =>
          let! r := ses_call account_id W_get_utxos ses_get_utxos in
          let! utxos := try_res r in
          let inputs := default [] (utxos !! send_asset) in
          ret (Some (negb (existsb (λ utxo,
            bool_decide (uo_asset_id utxo = send_asset) && (wi64 (uo_satoshi utxo) =? send_amount))
            inputs)))
      | OrderSide_Taker => ret None
      end in
    let! auto_sign :=
      gets (λ s, from_option sub_auto_sign false (wk_submit_data s !! order_id)) in
    do! ui_send (From_SubmitReview (link_review resp auto_sign chaining)) in
    do! modify (λ s, s <| wk_visible_submit := Some order_id |>
                       <| wk_active_submits ::= <[order_id := resp]> |>) in
    ret None.

(** ** Own addresses *)

(** One round of the loop: the state is the pointer to continue from, the
    addresses found and the largest pointer seen. *)
Definition load_addresses_page (account_id : AccountId) (is_internal : bool)
    (last_known_pointer : option Z) (st : option Z * list AddressInfo * Z)
    : DataM ((Z * list AddressInfo) + (option Z * list AddressInfo * Z)) :=
  let '(last_pointer, result, result_pointer) := st in
  let! r := ses_call account_id (W_get_previous_addresses last_pointer is_internal)
    (λ log a, ses_get_previous_addresses log a last_pointer is_internal) in
  let! page := try_res r in
  let max_pointer := foldl Z.max 0 (ai_pointer <$> pv_list page) in
  let result_pointer := Z.max result_pointer max_pointer in
  let new_list :=
    List.filter (λ addr, from_option (λ known, known <? ai_pointer addr) true last_known_pointer)
      (pv_list page) in
  let result := result ++ new_list in
  if bool_decide (new_list = []) || bool_decide (pv_last_pointer page = None) then
    do! ensure (negb (bool_decide (result = []))) "!result.is_empty()" in
    ret (inl (result_pointer, result))
  else ret (inr (pv_last_pointer page, result, result_pointer)).

(** Pages are requested at ever smaller pointers, which are [u32]. *)
Definition ADDRESS_PAGES : positive := 4294967297.

Definition load_all_addresses (account_id : AccountId) (is_internal : bool)
    (last_known_pointer : option Z) : DataM (Z * list AddressInfo) :=
  let! r := loop_fuel ADDRESS_PAGES
    (load_addresses_page account_id is_internal last_known_pointer) (None, [], 0) in
  match r with inl a => ret a | inr _ => panic "out of fuel" end.

Definition find_address (settings : Settings) (addr : Address) : option AddressInfo :=
  data ← st_amp_prev_addrs_v2 settings;
  find (λ info, String.eqb (ai_address info) addr) (apa_list data).

Definition find_own_address_info (addr : Address) : DataM AddressInfo :=
  let! settings := gets wk_settings in
  match find_address settings addr with
  | Some info => ret info
  | None =>
      let last_old_pointer := apa_last_pointer <$> st_amp_prev_addrs_v2 settings in
      do! get_wallet ACCOUNT_ID_AMP in
      let! '(last_new_pointer, new_list) :=
        load_all_addresses ACCOUNT_ID_AMP false last_old_pointer in
      do! set_settings (λ s, s <| st_amp_prev_addrs_v2 ::= (λ o, Some
            {| apa_last_pointer := last_new_pointer;
               apa_list := from_option apa_list [] o ++ new_list |}) |>) in
      do! save_settings in
      let! settings := gets wk_settings in
      ok_or (find_address settings addr) "Not found"
  end.

(** ** Funding an accepted order ([try_process_submit_decision]) *)

(** The inputs no other order of the client has been given. *)
Definition free_utxos (submits : gmap OrderId SubmitData) (inputs : list UnspentOutput)
    : list UnspentOutput :=
  let reserved : gset TxOut := ⋃ ((λ e : OrderId * SubmitData, sub_txouts e.2) <$> map_to_list submits) in
  filter (λ utxo, (uo_txhash utxo, uo_vout utxo) ∉ reserved) inputs.

(** Free inputs when they suffice, otherwise all - if the user does not mind. *)
Definition choose_utxos (submits : gmap OrderId SubmitData) (inputs : list UnspentOutput)
    (send_amount : Z) (only_unused_utxos : bool) : outcome (list UnspentOutput) :=
  let filtered := free_utxos submits inputs in
  if send_amount <=? wi64 (usum (uo_satoshi <$> filtered)) then Ok filtered
  else if only_unused_utxos then Err "not enough free UTXOs"
  else Ok inputs.

(** Each selected amount takes the first remaining output of that amount. *)
Fixpoint take_utxos (selected : list Z) (utxos : list UnspentOutput) (inputs : list UnspentOutput)
    : outcome (list UnspentOutput) :=
  match selected with
  | [] => Ok inputs
  | amount :: selected =>
      let? index :=
        oexpect (position (λ v, wi64 (uo_satoshi v) =? amount) utxos) "utxo must exists" in
      match swap_remove index utxos with
      | None => Panic "swap_remove index out of range"
      | Some (utxo, utxos) => take_utxos selected utxos (inputs ++ [utxo])
      end
  end.

Definition fund_order (submits : gmap OrderId SubmitData) (inputs : list UnspentOutput)
    (send_amount : Z) (only_unused_utxos : bool) : outcome (list UnspentOutput) :=
  let? asset_utxos := choose_utxos submits inputs send_amount only_unused_utxos in
  let utxo_amounts := (λ v, wi64 (uo_satoshi v)) <$> asset_utxos in
  do? oensure (send_amount <=? wsum utxo_amounts) "Insufficient funds" in
  let? selected := select_utxo utxo_amounts send_amount in
  do? oassert (send_amount <=? wsum selected)
        "assertion failed: selected_amount >= send_amount" in
  take_utxos selected asset_utxos [].

Definition txouts_of (inputs : list PsetInput) : gset TxOut :=
  list_to_set ((λ i, (pset_input_txid i, pset_input_vout i)) <$> inputs).

(** The signed half of a two-step swap, with the inputs it uses. *)
Definition signed_half_of (req : SubmitDecision) (auto_sign : bool) (account_id : AccountId)
    (amounts : AssetId * Z * AssetId * Z) (recv_addr_info : AddressInfo)
    : DataM (MakerSignedHalf * list PsetInput) :=
  let '(send_asset, send_amount, recv_asset, recv_amount) := amounts in
  do! ensure auto_sign "Auto-sign must be enabled for two-step swap" in
  let maker_input := {| ssi_asset := send_asset; ssi_value := wu64 send_amount |} in
  let maker_output := {| sso_asset := recv_asset; sso_value := wu64 recv_amount;
                         sso_address_info := recv_addr_info |} in
  let! maker_tx :=
    ses_call_try account_id (W_sig_single_maker_tx maker_input maker_output)
      (λ log a, ses_sig_single_maker_tx log a maker_input maker_output) in
  do! match ssm_chaining_tx maker_tx with
      | Some _ =>
          ensure (default false (sdn_tx_chaining_allowed req))
            "Please allow tx chaining and try again"
      | None => ret tt
      end in
  ret ({| maker_signed_half_chaining_tx := ssm_chaining_tx maker_tx;
          maker_signed_half_proposal := ssm_proposal maker_tx |},
       [convert_to_swap_utxo (ssm_unspent_output maker_tx)]).

Definition submit_data_of (resp : LinkResponse) (asset : Asset) (txouts : gset TxOut)
    (auto_sign : bool) : SubmitData :=
  let details := link_resp_details resp in {|
  sub_order_id := link_resp_order_id resp;
  sub_side := details_side details;
  sub_asset := details_asset details;
  sub_asset_precision := asset_precision asset;
  sub_order_type := details_order_type details;
  sub_bitcoin_amount := details_bitcoin_amount details;
  sub_asset_amount := details_asset_amount details;
  sub_price := details_price details;
  sub_server_fee := details_server_fee details;
  sub_sell_bitcoin := details_send_bitcoins details;
  sub_txouts := txouts;
  sub_auto_sign := auto_sign;
  sub_txid := None;
  sub_index_price := link_resp_index_price resp;
  sub_market := details_market details;
  sub_signed := false
|}.

(** Send and receive sides of an order the user accepted. *)
Definition decision_amounts (details : Details) : AssetId * Z * AssetId * Z :=
  if details_send_bitcoins details then
    (liquid_asset_id, wi64 (details_bitcoin_amount details + details_server_fee details),
     details_asset details, details_asset_amount details)
  else
    (details_asset details, details_asset_amount details, liquid_asset_id,
     wi64 (details_bitcoin_amount details - details_server_fee details)).

(** The request that quotes the order, and the side's preparations. *)
Definition send_pset_request (req : SubmitDecision) (resp : LinkResponse)
    (auto_sign two_step : bool) (account_id : AccountId)
    (amounts : AssetId * Z * AssetId * Z) (inputs : list PsetInput) (recv_addr : AddressInfo)
    (change_addr : Address) : DataM unit :=
  let order_id := link_resp_order_id resp in
  let details := link_resp_details resp in
  match details_side details with
  | OrderSide_Maker =>
      let! '(signed_half, inputs) :=
        if two_step then
          let! '(half, inputs) := signed_half_of req auto_sign account_id amounts recv_addr in
          ret (Some half, inputs)
        else ret (None, inputs) in
      request (Request_PsetMaker
        {| pset_maker_order_id := order_id;
           pset_maker_price := details_price details;
           pset_maker_private := default false (sdn_private req);
           pset_maker_ttl_seconds := sdn_ttl_seconds req;
           pset_maker_inputs := inputs;
           pset_maker_recv_addr := ai_address recv_addr;
           pset_maker_change_addr := change_addr;
           pset_maker_signed_half := signed_half |}) as_PsetMaker
  | OrderSide_Taker =>
      let! _r := ses_call_try account_id W_unlock_hww ses_unlock_hww in
      request (Request_PsetTaker
        {| pset_taker_order_id := order_id;
           pset_taker_price := details_price details;
           pset_taker_inputs := inputs;
           pset_taker_recv_addr := ai_address recv_addr;
           pset_taker_change_addr := change_addr |}) as_PsetTaker
  end.

Definition receive_address (order_id : OrderId) (account_id : AccountId) (own_gaid : bool)
    : DataM AddressInfo :=
  if own_gaid then
    let! r := ses_call account_id W_get_gaid ses_get_gaid in
    let! gaid := try_res r in
    let! resolved :=
      request (Request_ResolveGaid {| resolve_gaid_order_id := order_id;
                                      resolve_gaid_gaid := gaid |}) as_ResolveGaid in
    find_own_address_info (resolve_gaid_resp_address resolved)
  else
    let! r := ses_call account_id W_get_receive_address ses_get_receive_address in
    try_res r.

(** The rest of [try_process_submit_decision], for an order under review. *)
Definition accept_order (req : SubmitDecision) (resp : LinkResponse) : DataM bool :=
  let order_id := link_resp_order_id resp in
  let details := link_resp_details resp in
  let! amp_assets := gets wk_amp_assets in
  let is_amp := bool_decide (details_asset details ∈ amp_assets) in
  let side := details_side details in
  let maker := bool_decide (side = OrderSide_Maker) in
  let auto_sign := default false (sdn_auto_sign req) && maker in
  let two_step := default false (sdn_two_step req) && maker in
  let! assets := gets wk_assets in
  let! _asset := ok_or (assets !! details_asset details) "unknown asset" in
  do! lift (verify_amounts assets details) in
  let amounts := decision_amounts details in
  let '(send_asset, send_amount, recv_asset, recv_amount) := amounts in
  let account_id := account_of is_amp in
  let! change := ses_call_try account_id W_get_change_address ses_get_change_address in
  let! r := ses_call account_id W_get_utxos ses_get_utxos in
  let! utxos := try_res r in
  let all_inputs := default [] (utxos !! send_asset) in
  let! recv_addr :=
    receive_address order_id account_id (details_send_bitcoins details && is_amp) in
  let! submits := gets wk_submit_data in
  let! inputs :=
    lift (fund_order submits all_inputs send_amount (default false (sdn_only_unused_utxos req))) in
  let inputs := convert_to_swap_utxo <$> inputs in
  let txouts := txouts_of inputs in
  do! send_pset_request req resp auto_sign two_step account_id amounts inputs recv_addr
        (ai_address change) in
  let! assets := gets wk_assets in
  let! asset := ok_or (assets !! details_asset details) "unknown asset" in
  do! modify (λ s, s <| wk_submit_data ::= <[order_id := submit_data_of resp asset txouts auto_sign]> |>) in
  ret maker.

Definition is_active_sign (s : Data) (order_id : string) : bool :=
  match wk_active_sign s with
  | Some sign => String.eqb (Hash32_to_string (sign_ntf_order_id sign)) order_id
  | None => false
  end.

Definition try_process_submit_decision (req : SubmitDecision) : DataM bool :=
  if negb (sdn_accept req) then ret true
  else
    let! is_sign := gets (λ s, is_active_sign s (sdn_order_id req)) in
    if is_sign then
      let! sign := gets wk_active_sign in
      do! modify (λ s, s <| wk_active_sign := None |>) in
      let! sign_msg := expect sign "called `Option::unwrap()` on a `None` value" in
      try_sign sign_msg
    else
      let! order_id := lift (Hash32_from_str (sdn_order_id req)) in
      let! resp := gets (λ s, wk_active_submits s !! order_id) in
      do! modify (λ s, s <| wk_active_submits ::= delete order_id |>) in
      let! resp := ok_or resp "data not found" in
      accept_order req resp.

Definition UNREGISTERED_ERR : string :=
  "Your AMP ID must be registered with the issuer to trade this product. Please consult product details for further information.".

Definition process_submit_decision (req : SubmitDecision) : DataM unit :=
  let! domain_agent := gets (λ s,
    match Hash32_from_str (sdn_order_id req) with
    | Ok order_id =>
        order ← wk_active_submits s !! order_id;
        asset ← wk_assets s !! details_asset (link_resp_details order);
        asset_domain_agent asset
    | _ => None
    end) in
  let finish (result : SubmitResult) : DataM unit :=
    do! ui_send (From_SubmitResult result) in
    do! modify (λ s, s <| wk_visible_submit := None |>) in
    do! process_pending_sign_prompts in
    process_pending_succeed in
  let! result := attempt (try_process_submit_decision req) in
  match result with
  | inl true => finish SubmitSucceed
  | inl false =>
      do! modify (λ s, s <| wk_waiting_submit := wk_visible_submit s |>
                         <| wk_visible_submit := None |>) in
      do! process_pending_sign_prompts in
      process_pending_succeed
  | inr e =>
      finish (match domain_agent with
              | Some agent =>
                  if String.eqb e UNREGISTERED_ERR then UnregisteredGaid agent else SubmitError e
              | None => SubmitError e
              end)
  end.
End Orders.

(** ** Funding an order *)

(** No order of the client has been given this output. *)
Definition unreserved (submits : gmap OrderId SubmitData) (utxo : UnspentOutput) : Prop :=
  ∀ order_id d, submits !! order_id = Some d → (uo_txhash utxo, uo_vout utxo) ∉ sub_txouts d.

Lemma elem_of_free_utxos submits utxos u :
  u ∈ free_utxos submits utxos ↔ u ∈ utxos ∧ unreserved submits u.
Proof.
  unfold free_utxos. rewrite list_elem_of_filter. unfold unreserved.
  split; intros [H1 H2]; [split; [done|]|split; [|done]].
  - intros id d Hd Hin. apply H1. apply elem_of_union_list. exists (sub_txouts d).
    split; [|done]. apply list_elem_of_fmap. exists (id, d). split; [done|].
    by apply elem_of_map_to_list.
  - intros (X & HX & Hin)%elem_of_union_list.
    apply list_elem_of_fmap in HX as ([id d] & -> & Hd%elem_of_map_to_list). by apply (H2 id d).
Qed.

Lemma take_utxos_spec selected utxos acc :
  selected ⊆+ (λ v, wi64 (uo_satoshi v)) <$> utxos →
  ∃ picked, take_utxos selected utxos acc = Ok (acc ++ picked) ∧ picked ⊆+ utxos ∧
    (λ v, wi64 (uo_satoshi v)) <$> picked = selected.
Proof.
  revert utxos acc. induction selected as [|a sel IH]; intros utxos acc Hsub.
  { exists []. rewrite app_nil_r. split_and!; [done|apply submseteq_nil_l|done]. }
  cbn [take_utxos]. assert (a ∈ (λ v, wi64 (uo_satoshi v)) <$> utxos) as Hin.
  { apply (elem_of_submseteq (a :: sel)); [set_solver|done]. }
  apply list_elem_of_fmap in Hin as (u & Ea & Hin).
  destruct (swap_remove_position (λ v, wi64 (uo_satoshi v) =? a) utxos u)
    as (i & w & rest & -> & E & Hw%Z.eqb_eq & Hperm); [done|by apply Z.eqb_eq|].
  cbn [oexpect obind]. rewrite E. clear Ea. subst a.
  destruct (IH rest (acc ++ [w])) as (pk & -> & Hpk & Hf).
  { apply (submseteq_app_inv_l _ _ [wi64 (uo_satoshi w)]). cbn [app].
    assert ((λ v, wi64 (uo_satoshi v)) <$> utxos ≡ₚ
              wi64 (uo_satoshi w) :: ((λ v, wi64 (uo_satoshi v)) <$> rest)) as <-;
      [by rewrite Hperm|done]. }
  exists (w :: pk). rewrite <- app_assoc. split; [done|].
  split; [rewrite Hperm; by apply submseteq_skip|]. by rewrite fmap_cons, Hf.
Qed.

(** Amounts of the wallet's outputs: positive, and no sum overflows. *)
Definition sane_utxos (utxos : list UnspentOutput) : Prop :=
  Forall (λ u, 0 < uo_satoshi u) utxos ∧ zsum (uo_satoshi <$> utxos) ≤ i64_max.

Lemma sane_submseteq l utxos : l ⊆+ utxos → sane_utxos utxos → sane_utxos l.
Proof.
  intros (k & Hk)%submseteq_Permutation [Hpos Hmax]. unfold sane_utxos in *.
  rewrite Hk in Hpos, Hmax. rewrite fmap_app, zsum_app in Hmax. apply Forall_app in Hpos as [H1 H2].
  split; [done|]. assert (0 ≤ zsum (uo_satoshi <$> k)); [|lia].
  apply zsum_nonneg, Forall_fmap. eapply Forall_impl; [exact H2|]. simpl. lia.
Qed.

Lemma sane_amounts l : sane_utxos l → (λ v, wi64 (uo_satoshi v)) <$> l = uo_satoshi <$> l.
Proof.
  intros [Hpos Hmax]. apply list_fmap_ext. intros i u Hu. apply wi64_id.
  assert (0 < uo_satoshi u) as Hu0 by (rewrite Forall_forall in Hpos; by eapply Hpos, list_elem_of_lookup_2).
  apply list_elem_of_lookup_2, elem_of_Permutation in Hu as [k Hk].
  rewrite Hk in Hpos, Hmax. apply Forall_cons in Hpos as [_ Hpos].
  assert (0 ≤ zsum (uo_satoshi <$> k)).
  { apply zsum_nonneg, Forall_fmap. eapply Forall_impl; [exact Hpos|]. simpl. lia. }
  unfold in_i64, i64_min. rewrite fmap_cons, zsum_cons in Hmax. lia.
Qed.

Lemma sane_total l : sane_utxos l → wi64 (usum (uo_satoshi <$> l)) = zsum (uo_satoshi <$> l).
Proof.
  intros [Hpos Hmax].
  assert (Forall (λ x, 0 ≤ x) (uo_satoshi <$> l)) as Hnn.
  { apply Forall_fmap. eapply Forall_impl; [exact Hpos|]. simpl. lia. }
  pose proof (zsum_nonneg _ Hnn). rewrite usum_zsum by (done || unfold i64_max, u64_max in *; lia).
  apply wi64_id. unfold in_i64, i64_min. lia.
Qed.

(** Funding from a list of outputs. *)
Lemma fund_from l amount :
  sane_utxos l → 0 < amount →
  let utxo_amounts := (λ v, wi64 (uo_satoshi v)) <$> l in
  let result :=
    do? oensure (amount <=? wsum utxo_amounts) "Insufficient funds" in
    let? selected := select_utxo utxo_amounts amount in
    do? oassert (amount <=? wsum selected) "assertion failed: selected_amount >= send_amount" in
    take_utxos selected l [] in
  if amount <=? zsum (uo_satoshi <$> l) then
    ∃ inputs, result = Ok inputs ∧ inputs ⊆+ l ∧ amount ≤ zsum (uo_satoshi <$> inputs) ∧
      ∀ u, u ∈ inputs → zsum (uo_satoshi <$> inputs) - uo_satoshi u ≤ amount
  else result = Err "Insufficient funds".
Proof.
  intros Hl Ha. cbv zeta. pose proof (sane_amounts l Hl) as Hsat. pose proof Hl as [Hpos Hmax].
  assert (Forall (λ x, 0 < x) (uo_satoshi <$> l)) as Hpos' by (by apply Forall_fmap).
  rewrite Hsat, wsum_zsum by done.
  destruct (Z.leb_spec amount (zsum (uo_satoshi <$> l))) as [Hle|Hgt]; [|done].
  cbn [oensure obind]. destruct (select_utxo_spec (uo_satoshi <$> l) amount)
    as (r & -> & Hsub & Hge & _ & Hmin); [done..|]. cbn [obind].
  destruct (take_utxos_spec r l []) as (inputs & Etake & Hin & Hr); [by rewrite Hsat|].
  rewrite (sane_amounts inputs) in Hr by (by eapply sane_submseteq).
  destruct (sane_submseteq inputs l Hin Hl) as [Hpi Hmi].
  rewrite wsum_zsum; [|by rewrite <- Hr; apply Forall_fmap|by rewrite <- Hr].
  destruct (Z.leb_spec amount (zsum r)); [|lia]. cbn [oassert obind].
  exists inputs. rewrite Etake, Hr. split_and!; [done..|].
  intros u Hu. apply Hmin. rewrite <- Hr. by apply list_elem_of_fmap_2.
Qed.

(** C30: the inputs chosen to fund an order.  Funding succeeds exactly when the
    outputs it may use are worth the amount, and never panics; it takes some of the
    wallet's outputs, each once, worth at least the amount, with none to spare; as
    long as outputs no other order was given suffice, only such outputs are taken,
    and if the user asked for them no others ever are. *)
Theorem fund_order_covers submits utxos amount only_unused :
  Forall (λ u, 0 < uo_satoshi u) utxos → zsum (uo_satoshi <$> utxos) ≤ i64_max → 0 < amount →
  let worth l := zsum (uo_satoshi <$> l) in
  let free := free_utxos submits utxos in
  match fund_order submits utxos amount only_unused with
  | Ok inputs =>
      inputs ⊆+ utxos ∧ amount ≤ worth inputs ∧
      (∀ u, u ∈ inputs → worth inputs - uo_satoshi u ≤ amount) ∧
      (amount ≤ worth free ∨ only_unused = true → Forall (unreserved submits) inputs)
  | Err _ => worth (if only_unused then free else utxos) < amount
  | Panic _ => False
  end.
Proof.
  intros Hpos Hmax Ha worth free. assert (sane_utxos utxos) as Hu by done.
  assert (free ⊆+ utxos) as Hsub by apply sublist_submseteq, sublist_filter.
  assert (sane_utxos free) as Hf by (by eapply sane_submseteq).
  assert (∀ l, l ⊆+ free → Forall (unreserved submits) l) as Hfree.
  { intros l Hl. apply Forall_forall. intros u Hul. by eapply elem_of_free_utxos, elem_of_submseteq. }
  unfold fund_order, choose_utxos. fold free. rewrite (sane_total free Hf). fold (worth free).
  pose proof (fund_from free amount Hf Ha) as HF. pose proof (fund_from utxos amount Hu Ha) as HU.
  cbv zeta in HF, HU. fold (worth free) in HF. fold (worth utxos) in HU.
  destruct (Z.leb_spec amount (worth free)) as [Hle|Hgt]; cbn [obind].
  - destruct HF as (inputs & -> & Hi & Hge & Hmin). split_and!; [by etrans|done..|auto].
  - destruct only_unused; cbn [obind]; [done|].
    destruct (Z.leb_spec amount (worth utxos)); [|by rewrite HU].
    destruct HU as (inputs & -> & Hi & Hge & Hmin). split_and!; [done..|].
    intros [?|?]; [lia|done].
Qed.

(** Three outputs, the first of which an order of the client already uses. *)
Module FundSample.
Definition utxo (n satoshi : Z) : UnspentOutput := {|
  uo_txhash := repeat n 32; uo_vout := 0; uo_asset_id := Sample.asset_id; uo_satoshi := satoshi;
  uo_amountblinder := "amount"; uo_assetblinder := "asset"; uo_prevout_script := "script";
  uo_public_key := None
|}.
Definition utxos : list UnspentOutput := [utxo 1 40; utxo 2 30; utxo 3 20].

Definition submits : gmap OrderId SubmitData :=
  {[Sample.order_id :=
      submit_data_of {| link_resp_order_id := Sample.order_id;
                        link_resp_details := Sample.details OrderSide_Maker;
                        link_resp_index_price := false |}
        Sample.asset {[(repeat 1 32, 0)]} true]}.
End FundSample.

Lemma fund_order_covers_witness :
  let inputs := [FundSample.utxo 2 30; FundSample.utxo 3 20] in
  fund_order FundSample.submits FundSample.utxos 45 false = Ok inputs ∧
  Forall (unreserved FundSample.submits) inputs.
Proof.
  intros inputs.
  assert (fund_order FundSample.submits FundSample.utxos 45 false = Ok inputs) as E
    by (vm_compute; reflexivity).
  pose proof (fund_order_covers FundSample.submits FundSample.utxos 45 false) as H.
  cbv zeta in H. rewrite E in H. split; [reflexivity|].
  apply H; [|vm_compute; congruence|lia|left; vm_compute; congruence].
  by repeat constructor.
Defined.

(** ** Frames *)

Section Quiet.
Context `{WorkerEnv}.

Lemma quiet_get_balance account asset : quiet (get_balance account asset).
Proof. unfold get_balance. quiet. Qed.
Lemma quiet_parse_id text : quiet (parse_id text).
Proof. unfold parse_id. quiet. Qed.
Lemma quiet_try_process_link_order id : quiet (try_process_link_order id).
Proof. unfold try_process_link_order. quiet. Qed.
#[local] Hint Resolve quiet_get_balance quiet_parse_id quiet_try_process_link_order : quiet.
Lemma quiet_submit_bitcoin_amount account amount : quiet (submit_bitcoin_amount account amount).
Proof. unfold submit_bitcoin_amount. quiet. Qed.
#[local] Hint Resolve quiet_submit_bitcoin_amount : quiet.
Lemma quiet_try_process_submit_order req : quiet (try_process_submit_order req).
Proof. unfold try_process_submit_order. quiet. Qed.
Lemma quiet_try_process_downloaded_link resp : quiet (try_process_downloaded_link resp).
Proof. unfold try_process_downloaded_link. quiet. Qed.
Lemma quiet_load_all_addresses account is_internal pointer :
  quiet (load_all_addresses account is_internal pointer).
Proof.
  assert (∀ st, quiet (load_addresses_page account is_internal pointer st)) as Hp.
  { intros st. unfold load_addresses_page. quiet. }
  unfold load_all_addresses. quiet.
Qed.
#[local] Hint Resolve quiet_load_all_addresses : quiet.
Lemma quiet_find_own_address_info addr : quiet (find_own_address_info addr).
Proof. unfold find_own_address_info. quiet. Qed.
#[local] Hint Resolve quiet_find_own_address_info : quiet.
Lemma quiet_receive_address id account own_gaid : quiet (receive_address id account own_gaid).
Proof. unfold receive_address. quiet. Qed.
Lemma quiet_signed_half_of req auto_sign account amounts addr :
  quiet (signed_half_of req auto_sign account amounts addr).
Proof. unfold signed_half_of. quiet. Qed.
#[local] Hint Resolve quiet_receive_address quiet_signed_half_of : quiet.
Lemma quiet_send_pset_request req resp auto_sign two_step account amounts inputs addr change :
  quiet (send_pset_request req resp auto_sign two_step account amounts inputs addr change).
Proof. unfold send_pset_request. quiet. Qed.
#[local] Hint Resolve quiet_send_pset_request : quiet.
Lemma quiet_accept_order req resp : quiet (accept_order req resp).
Proof. unfold accept_order. quiet. Qed.
End Quiet.

#[export] Hint Resolve quiet_get_balance quiet_parse_id quiet_try_process_link_order
  quiet_submit_bitcoin_amount quiet_try_process_submit_order quiet_try_process_downloaded_link
  quiet_load_all_addresses quiet_find_own_address_info quiet_receive_address
  quiet_signed_half_of quiet_send_pset_request quiet_accept_order : quiet.

(** ** An order is signed once

    What the client has spent on an order: the signatures it sent, the prompts that
    may still lead to one, the review the user is looking at.  An order is in
    [processed_signs] before any of these, and then at most one of them exists. *)

Fixpoint signs_for (order_id : OrderId) (log : list WEvent) : nat :=
  match log with
  | [] => 0
  | Ev_request _ (Request_Sign r) :: log =>
      (if bool_decide (sign_order_id r = order_id) then 1 else 0) + signs_for order_id log
  | _ :: log => signs_for order_id log
  end.

Definition asked_for (order_id : OrderId) (msg : SignNotification) : nat :=
  if bool_decide (sign_ntf_order_id msg = order_id) then 1 else 0.

Fixpoint prompts_for (order_id : OrderId) (prompts : list SignNotification) : nat :=
  match prompts with
  | [] => 0
  | msg :: prompts => asked_for order_id msg + prompts_for order_id prompts
  end.

Definition spent (s : Data) (order_id : OrderId) : nat :=
  signs_for order_id (wk_log s) + prompts_for order_id (wk_pending_sign_prompts s) +
  from_option (asked_for order_id) 0%nat (wk_active_sign s).

Definition budget (s : Data) (order_id : OrderId) : nat :=
  if bool_decide (order_id ∈ wk_processed_signs s) then 1 else 0.

Definition sign_once (s : Data) : Prop := ∀ order_id, (spent s order_id ≤ budget s order_id)%nat.

(** Room for one more use of the order of [msg]. *)
Definition sign_room (msg : SignNotification) (s : Data) : Prop :=
  ∀ order_id, (spent s order_id + asked_for order_id msg ≤ budget s order_id)%nat.

Lemma signs_for_filter id log : signs_for id (List.filter sign_event log) = signs_for id log.
Proof.
  induction log as [|e log IH]; [done|]. destruct e; simpl; try done.
  match goal with r : Request |- _ => destruct r end; simpl; try done. by rewrite IH.
Qed.

Lemma signs_for_app id l k : signs_for id (l ++ k) = (signs_for id l + signs_for id k)%nat.
Proof.
  induction l as [|e l IH]; [done|]. destruct e; simpl; try done.
  match goal with r : Request |- _ => destruct r end; simpl; try done. lia.
Qed.

Lemma signs_for_reverse id l : signs_for id (reverse l) = signs_for id l.
Proof.
  induction l as [|e l IH]; [done|]. rewrite reverse_cons, signs_for_app, IH.
  change (e :: l) with ([e] ++ l). rewrite signs_for_app. lia.
Qed.

Lemma prompts_for_app id l k :
  prompts_for id (l ++ k) = (prompts_for id l + prompts_for id k)%nat.
Proof. induction l; simpl; lia. Qed.

Lemma spent_core s s' id : core s' = core s → spent s' id = spent s id ∧ budget s' id = budget s id.
Proof.
  intros E. injection E. intros _ _ _ _ _ Ha Hp Hb Hl. unfold spent, budget.
  rewrite <- (signs_for_filter id (wk_log s')), <- (signs_for_filter id (wk_log s)).
  by rewrite Ha, Hp, Hb, Hl.
Qed.

Lemma stable_sign_once : stable sign_once.
Proof. intros s s' E Hs id. destruct (spent_core s s' id E) as [-> ->]. apply Hs. Qed.
Lemma stable_sign_room msg : stable (sign_room msg).
Proof. intros s s' E Hs id. destruct (spent_core s s' id E) as [-> ->]. apply Hs. Qed.
#[export] Hint Resolve stable_sign_once stable_sign_room : quiet.

Lemma sign_room_once msg s : sign_room msg s → sign_once s.
Proof. intros Hs id. specialize (Hs id). lia. Qed.

Section Once.
Context `{WorkerEnv}.

(** The request with the signature uses the room. *)
Lemma request_sign_once {A} msg r (proj : Response → option A) :
  sign_order_id r = sign_ntf_order_id msg →
  triple (sign_room msg) (request (Request_Sign r) proj) sign_once.
Proof.
  intros Hr. unfold request, send_request.
  assert (triple (sign_room msg) (send_request_msg (Request_Sign r)) sign_once) as Hsend.
  { unfold send_request_msg. eapply triple_bind; [apply sign_room_once| | apply yields_True|].
    { apply keeps_quiet; auto with quiet. }
    intros n _. apply triple_then; [|frame].
    intros s Hs id. specialize (Hs id). unfold spent, budget, asked_for in *. simpl.
    rewrite Hr. revert Hs. unfold asked_for. lia. }
  apply triple_then; [|intros ?; frame]. apply triple_then; [exact Hsend|]. intros id. frame.
Qed.

Lemma try_sign_once msg : triple (sign_room msg) (try_sign msg) sign_once.
Proof.
  unfold try_sign.
  do 6 (eapply triple_bind; [apply sign_room_once|frame|apply yields_True|intros ? _]).
  apply triple_then; [by apply request_sign_once|]. intros ?. frame.
Qed.

Lemma next_sign_prompt_once prompts s :
  sign_once s → (∀ id, prompts_for id prompts ≤ prompts_for id (wk_pending_sign_prompts s))%nat →
  sign_once (next_sign_prompt prompts s).1.
Proof.
  intros Hs. induction prompts as [|msg prompts IH]; intros Hp.
  - intros id. specialize (Hs id). unfold spent, budget in *. simpl. lia.
  - cbn [next_sign_prompt]. unfold bind at 1, gets at 1. cbv beta iota.
    destruct (wk_submit_data s !! sign_ntf_order_id msg) as [d|].
    + intros id. specialize (Hs id). specialize (Hp id). unfold spent, budget in *. simpl in *. lia.
    + apply IH. intros id. specialize (Hp id). simpl in Hp. lia.
Qed.

Lemma process_pending_sign_prompts_once : keeps sign_once process_pending_sign_prompts.
Proof.
  intros s Hs. unfold process_pending_sign_prompts, bind, gets. cbv beta iota.
  case_match; [exact Hs|]. apply next_sign_prompt_once; [done|]. intros id. lia.
Qed.
#[local] Hint Resolve process_pending_sign_prompts_once : keeps.

Lemma try_process_sign_once msg : keeps sign_once (try_process_sign msg).
Proof.
  intros s Hs. unfold try_process_sign. unfold bind at 1, gets at 1. cbv beta iota.
  case_bool_decide as Hp; [exact Hs|].
  unfold bind at 1, modify at 1. cbv beta iota.
  set (s1 := s <| wk_processed_signs ::= _ |>).
  assert (sign_room msg s1) as Hroom.
  { intros id. specialize (Hs id). unfold spent, budget, asked_for in *. subst s1. simpl.
    destruct (decide (sign_ntf_order_id msg = id)) as [E|Hne].
    - subst id. rewrite bool_decide_false in Hs by exact Hp. rewrite !bool_decide_true by set_solver.
      lia.
    - rewrite (bool_decide_false (_ = id)) by exact Hne. case_bool_decide; [|lia].
      rewrite bool_decide_true by set_solver. lia. }
  clearbody s1. clear Hs Hp. revert s1 Hroom.
  match goal with |- ∀ s, _ → sign_once (?m s).1 => change (triple (sign_room msg) m sign_once) end.
  do 8 (eapply triple_bind; [apply sign_room_once|frame|apply yields_True|intros ? _]).
  match goal with |- triple _ (if ?b then _ else _) _ => destruct b end.
  - apply triple_then; [|frame].
    intros s' Hs id. specialize (Hs id). unfold spent, budget in *. simpl.
    rewrite prompts_for_app. simpl. lia.
  - apply triple_then; [apply try_sign_once|frame].
Qed.

(** The review under the user's eyes is signed once it is taken off. *)
Lemma try_process_submit_decision_once req :
  keeps sign_once (try_process_submit_decision req).
Proof.
  unfold try_process_submit_decision. destruct (negb _); [frame|].
  apply keeps_bind; [frame|]. intros is_sign. destruct is_sign.
  - intros s Hs. unfold bind at 1, gets at 1. cbv beta iota.
    unfold bind at 1, modify at 1. cbv beta iota.
    unfold bind at 1, expect, lift, oexpect. cbv beta iota.
    match goal with
    | |- context [match ?o with Some _ => Ok _ | None => _ end] => destruct o as [a|] eqn:Ha
    end; cbv beta iota.
    + apply (try_sign_once a). intros id. specialize (Hs id).
      assert (from_option (asked_for id) 0%nat (wk_active_sign s) = asked_for id a) as E
        by (rewrite_field Ha; done).
      unfold spent, budget in *. rewrite E in Hs. simpl. lia.
    + intros id. specialize (Hs id). unfold spent, budget in *. simpl. lia.
  - frame.
Qed.
#[local] Hint Resolve try_process_submit_decision_once : keeps.

Lemma process_submit_decision_once req : keeps sign_once (process_submit_decision req).
Proof. unfold process_submit_decision. frame. Qed.
End Once.

#[export] Hint Resolve process_pending_sign_prompts_once try_process_sign_once
  process_submit_decision_once : keeps.

(** Signing does not touch the order list. *)
Section OrderList.
Context `{WorkerEnv}.

Lemma order_core_try_sign c msg : keeps (λ s, order_core s = c) (try_sign msg).
Proof. unfold try_sign. frame. Qed.
Lemma order_core_next_sign_prompt c prompts :
  keeps (λ s, order_core s = c) (next_sign_prompt prompts).
Proof. induction prompts as [|msg prompts IH]; simpl; frame. Qed.
#[local] Hint Resolve order_core_try_sign order_core_next_sign_prompt : keeps.
Lemma order_core_process_pending_sign_prompts c :
  keeps (λ s, order_core s = c) process_pending_sign_prompts.
Proof. unfold process_pending_sign_prompts. frame. Qed.
#[local] Hint Resolve order_core_process_pending_sign_prompts : keeps.
Lemma order_core_try_process_sign c msg : keeps (λ s, order_core s = c) (try_process_sign msg).
Proof. unfold try_process_sign. frame. Qed.
Lemma order_core_process_submit_decision c req :
  keeps (λ s, order_core s = c) (process_submit_decision req).
Proof.
  assert (keeps (λ s, order_core s = c) (try_process_submit_decision req)) as Ht
    by (unfold try_process_submit_decision; frame).
  unfold process_submit_decision. frame.
Qed.
End OrderList.

#[export] Hint Resolve order_core_process_pending_sign_prompts order_core_try_process_sign
  order_core_process_submit_decision : keeps.

(** ** What the wallet is asked to sign *)
Section Agreed.
Context `{WorkerEnv}.

(** A signature for an order: the account, amounts and PSET it must have. *)
Definition order_signature (s : Data) (msg : SignNotification) (d : SubmitData)
    (account : AccountId) (amounts : SwapAmounts) (pset : string) : Prop :=
  account = account_of (bool_decide (sub_asset d ∈ wk_amp_assets s)) ∧
  amounts = submit_amounts d ∧ pset = sign_ntf_pset msg.

Lemma signs_only_try_sign s0 s msg Q :
  wk_log s = wk_log s0 →
  (∀ d account amounts pset,
     wk_submit_data s !! sign_ntf_order_id msg = Some d → sub_order_id d = sign_ntf_order_id msg →
     order_signature s msg d account amounts pset → Q account amounts pset) →
  grows (signs_only Q) s0 (try_sign msg s).1.
Proof.
  intros E HQ. unfold try_sign.
  do 4 grow_step. rename select (_ !! _ = Some _) into Hd.
  rename select (bool_decide _ = true) into Hid. apply bool_decide_eq_true in Hid.
  apply grows_keeps; [exact E|]. apply keeps_bind; [frame|intros nonces].
  apply keeps_bind; [|frame]. apply signs_only_ses_call_try.
  eapply HQ; [exact Hd|exact Hid|]. split; [reflexivity|split; reflexivity].
Qed.

Lemma signs_only_prompts Q s0 : keeps (grows (signs_only Q) s0) process_pending_sign_prompts.
Proof.
  assert (∀ prompts, keeps (grows (signs_only Q) s0) (next_sign_prompt prompts)) as Hn
    by (intros prompts; induction prompts; simpl; frame).
  unfold process_pending_sign_prompts. frame.
Qed.

(** The terms of a sign request an order can be signed on without asking the user
    again: what the user accepted, but for the price of an own offer. *)
Definition agreed_terms (force : bool) (d : SubmitData) (details : Details) : Prop :=
  let change := price_change_of (details_price details) (sub_price d) in
  sub_asset d = details_asset details ∧ sub_side d = details_side details ∧
  sub_sell_bitcoin d = details_send_bitcoins details ∧
  sub_order_type d = details_order_type details ∧
  match sub_order_type d with
  | OrderType_Bitcoin =>
      sub_bitcoin_amount d = details_bitcoin_amount details ∧
      sub_server_fee d = details_server_fee details
  | OrderType_Asset => sub_asset_amount d = details_asset_amount details
  end ∧
  match sub_side d with
  | OrderSide_Taker => feqb change f0 = true
  | OrderSide_Maker =>
      force = true ∨
      (sub_auto_sign d = true) ∧
      (fleb change (if sub_index_price d then AUTO_SIGN_ALLOWED_INDEX_PRICE_CHANGE else f0)) = true
  end.

Lemma check_terms_agreed force d details :
  check_terms d details = Ok tt → auto_sign_allowed force d details = true →
  agreed_terms force d details.
Proof.
  unfold check_terms, auto_sign_allowed, agreed_terms. cbv zeta. intros Hc Ha. ok_inv.
  repeat match goal with
  | H : bool_decide _ = true |- _ => apply bool_decide_eq_true in H
  | H : eqb _ _ = true |- _ => apply eqb_prop in H
  | H : orb _ _ = true |- _ => apply orb_true_iff in H
  end.
  repeat (split; [done|]). split.
  - destruct (sub_order_type d); ok_inv; lia.
  - destruct (sub_side d) eqn:Hside.
    + apply orb_true_iff in Ha as [[? ?]%andb_true_iff|?]; auto.
    + destruct Hc as [?|Hn]; [done|]. by rewrite bool_decide_true in Hn.
Qed.

Lemma accepted_amounts d details :
  sub_asset d = details_asset details → sub_sell_bitcoin d = details_send_bitcoins details →
  submit_amounts (accept_terms details d) =
    swap_amounts (details_send_bitcoins details) (details_asset details)
      (details_bitcoin_amount details) (details_asset_amount details) (details_server_fee details).
Proof. intros <- <-. reflexivity. Qed.

(** The signature of the order of [msg] is one the user agreed to: the order is known
    and was not handled before, the request's amounts are consistent with its price
    and fee, and the wallet signs its PSET for exactly its amounts. *)
Definition sign_agreed (s : Data) (msg : SignNotification) (account : AccountId)
    (amounts : SwapAmounts) (pset : string) : Prop :=
  let order_id := sign_ntf_order_id msg in
  let details := sign_ntf_details msg in
  ∃ d, wk_submit_data s !! order_id = Some d ∧ sub_order_id d = order_id ∧
       (order_id ∉ wk_processed_signs s) ∧
       verify_amounts (wk_assets s) details = Ok tt ∧
       agreed_terms (wk_force_auto_sign_maker s) d details ∧
       account = account_of (bool_decide (details_asset details ∈ wk_amp_assets s)) ∧
       pset = sign_ntf_pset msg ∧
       amounts = swap_amounts (details_send_bitcoins details) (details_asset details)
                   (details_bitcoin_amount details) (details_asset_amount details)
                   (details_server_fee details).

(** The part of [try_process_sign] after the checks. *)
Lemma signs_only_try_process_sign msg s :
  grows (signs_only (sign_agreed s msg)) s (try_process_sign msg s).1.
Proof.
  unfold try_process_sign. grow_step.
  case_bool_decide as Hp; [apply grows_refl|]. do 8 grow_step.
  rename select (verify_amounts _ _ = _) into Hv. rename select (check_terms _ _ = _) into Hc.
  rename select (_ !! _ = Some _) into Hd. rename select (bool_decide _ = true) into Hid.
  apply bool_decide_eq_true in Hid. rename select SubmitData into d.
  match goal with |- context [negb ?b] => destruct b eqn:Hallowed end.
  - grow_step. apply grows_then; [|frame].
    apply signs_only_try_sign; [reflexivity|]. intros d' account amounts pset Hd' _ (-> & -> & ->).
      simpl in Hd'. rewrite lookup_insert_eq in Hd'. injection Hd' as <-.
      pose proof (check_terms_agreed _ _ _ Hc Hallowed) as (Ha & _ & Hb & _).
      exists d. split; [exact Hd|]. split; [by symmetry|]. split; [exact Hp|]. split; [exact Hv|].
      split; [exact (check_terms_agreed _ _ _ Hc Hallowed)|].
      split; [simpl; by rewrite <- Ha|]. split; [done|by apply accepted_amounts].
  - grow_step. apply grows_keeps; [reflexivity|]. cbn [negb].
    pose proof (signs_only_prompts (sign_agreed s msg) s). frame.
Qed.

(** C2: the client signs an order at once only on the terms agreed: when a sign
    request leads to a signature, the order is one the client knows and has not
    handled before, the request's amounts are consistent with its price and fee, it
    asks for the same asset, side, direction and fixed amount as the order accepted,
    a taker's price has not moved and a maker's only as far as automatic signing
    allows; and what the wallet is asked to sign is the PSET of the request, for
    exactly the amounts of the request. *)
Theorem sign_request_agreed msg s account amounts pset nonces :
  Ev_wallet account (W_verify_and_sign_pset amounts pset nonces)
    ∈ new_events s (try_process_sign msg s).1 →
  sign_agreed s msg account amounts pset.
Proof. apply (grows_signs (sign_agreed s msg)), signs_only_try_process_sign. Qed.
End Agreed.

(** *** An order in the making *)
Module OrderSample.
Import Sample.

#[export] Instance sample_env : WorkerEnv := env (λ _, inl (Response_Sign tt)) ∅.

Definition link (side : OrderSide) : LinkResponse := {|
  link_resp_order_id := order_id; link_resp_details := details side;
  link_resp_index_price := false
|}.

(** The order was accepted with automatic signing. *)
Definition accepted (side : OrderSide) : Data := initial_data
  <| wk_assets := {[asset_id := asset]} |>
  <| wk_wallets := {[ACCOUNT_ID_REG := wallet ACCOUNT_ID_REG]} |>
  <| wk_submit_data := {[order_id := submit_data_of (link side) asset ∅ true]} |>.
End OrderSample.
Import OrderSample.

Lemma sign_request_agreed_witness :
  sign_agreed (accepted OrderSide_Maker) (Sample.sign_msg OrderSide_Maker)
    ACCOUNT_ID_REG
    {| sa_send_asset := liquid_asset_id; sa_send_amount := 10010000;
       sa_recv_asset := Sample.asset_id; sa_recv_amount := 20000000 |} "pset".
Proof.
  apply (sign_request_agreed _ _ _ _ _ []).
  apply (list_elem_of_lookup_2 _ 1). vm_compute. reflexivity.
Defined.
