(* ===== verification/Addresses.v ===== *)
(** * The addresses of the AMP account

    The worker asks the AMP wallet for its addresses page by page, newest first
    ([load_all_addresses] in src/rust/sideswap_client/src/worker.rs), and stops at the
    first page without an address it does not know.  This file states what the wallet
    promises about its pages and shows that the loop ends and finds exactly the
    addresses that are new. *)
From stdpp Require Import base numbers gmap strings list sets sorting pretty.
From Stdlib Require Import ZArith Lia SpecFloat.
From S2P Require Import Prelude F64 Api Types Env ClientApi Client Orders.

Open Scope Z_scope.

(** ** What the wallet promises *)

(** Addresses of a page that starts below a pointer. *)
Definition below (last_pointer : option Z) (a : AddressInfo) : bool :=
  match last_pointer with Some p => ai_pointer a <? p | None => true end.

(** A page is the first part of the addresses below its pointer; it names the
    pointer of its last address unless it is the last page. *)
Definition page_of (all : list AddressInfo) (last_pointer : option Z)
    (page : PreviousAddresses) : Prop :=
  ∃ rest, List.filter (below last_pointer) all = pv_list page ++ rest ∧
    match pv_last_pointer page with
    | None => rest = []
    | Some p => ∃ a, last (pv_list page) = Some a ∧ ai_pointer a = p
    end.

Definition newest_first : list AddressInfo → Prop :=
  StronglySorted (λ a b, ai_pointer b < ai_pointer a).

(** ** What the worker wants of it *)

Definition newer (known : option Z) (a : AddressInfo) : bool :=
  from_option (λ known, known <? ai_pointer a) true known.

Definition max_pointer (l : list AddressInfo) : Z := foldl Z.max 0 (ai_pointer <$> l).

(** The addresses above a known pointer and the highest pointer of all. *)
Definition addresses_after (known : option Z) (all : list AddressInfo)
    : outcome (Z * list AddressInfo) :=
  let list := List.filter (newer known) all in
  if bool_decide (list = []) then Err "!result.is_empty()" else Ok (max_pointer all, list).

(** ** Lists in descending order *)

Lemma newest_first_app l k a b :
  newest_first (l ++ k) → a ∈ l → b ∈ k → ai_pointer b < ai_pointer a.
Proof.
  unfold newest_first. induction l as [|x l IH]; [by intros _ ?%elem_of_nil|].
  simpl. intros [Hs Hx]%StronglySorted_inv [->|Ha]%elem_of_cons Hb; [|by apply IH].
  rewrite Forall_forall in Hx. apply Hx. apply elem_of_app. by right.
Qed.

Lemma filter_all {A} (p : A → bool) l : (∀ x, x ∈ l → p x = true) → List.filter p l = l.
Proof.
  induction l as [|x l IH]; intros Hp; simpl; [done|].
  rewrite Hp by (by left). f_equal. apply IH. intros y Hy. apply Hp. by right.
Qed.
Lemma filter_none {A} (p : A → bool) l : (∀ x, x ∈ l → p x = false) → List.filter p l = [].
Proof.
  induction l as [|x l IH]; intros Hp; simpl; [done|].
  rewrite Hp by (by left). apply IH. intros y Hy. apply Hp. by right.
Qed.
Lemma filter_nil_inv {A} (p : A → bool) l x : List.filter p l = [] → x ∈ l → p x = false.
Proof.
  intros Hf Hx. destruct (p x) eqn:E; [|done].
  assert (In x (List.filter p l)) as Hin by (apply List.filter_In; split; [by apply list_elem_of_In|done]).
  by rewrite Hf in Hin.
Qed.

(** What remains below the last address of the first part. *)
Lemma below_last all l k a :
  newest_first all → all = l ++ k → last l = Some a → List.filter (below (Some (ai_pointer a))) all = k.
Proof.
  intros Hs -> Hl. apply last_Some in Hl as [l' ->]. rewrite List.filter_app.
  rewrite filter_none, filter_all; [done| |].
  - intros b Hb. simpl. apply Z.ltb_lt. eapply newest_first_app; [done| |done].
    apply elem_of_app. right. by apply list_elem_of_singleton.
  - intros b [Hb| ->%list_elem_of_singleton]%elem_of_app; simpl; apply Z.ltb_ge; [|lia].
    rewrite <- app_assoc in Hs. apply Z.lt_le_incl. eapply (newest_first_app l'); [done|done|by left].
Qed.

Lemma max_pointer_app l k : max_pointer (l ++ k) = Z.max (max_pointer l) (max_pointer k).
Proof.
  unfold max_pointer. rewrite fmap_app, foldl_app.
  assert (∀ m n l, foldl Z.max (Z.max m n) l = Z.max m (foldl Z.max n l)) as Hm.
  { clear. intros m n l. revert n. induction l as [|x l IH]; intros n; simpl; [done|].
    by rewrite <- Z.max_assoc, IH. }
  assert (0 ≤ foldl Z.max 0 (ai_pointer <$> l)) as Hnn.
  { clear -Hm. induction l as [|x l IH]; simpl; [done|]. rewrite Hm. lia. }
  by rewrite <- Hm, Z.max_l by done.
Qed.

(** ** The loop *)

Section Load.
Context `{WorkerEnv} (account : AccountId) (is_internal : bool) (all : list AddressInfo).
Hypothesis all_newest_first : newest_first all.
Hypothesis all_u32 : Forall (λ a, 0 ≤ ai_pointer a < 4294967296) all.
Hypothesis wallet_pages : ∀ log last_pointer, ∃ page,
  ses_get_previous_addresses log account last_pointer is_internal = inl page ∧
  page_of all last_pointer page.

Section Known.
Variable known : option Z.

(** Before a round: the addresses from [last_pointer] on are in the result. *)
Definition loaded (st : option Z * list AddressInfo * Z) : Prop :=
  let '(last_pointer, result, result_pointer) := st in
  0 ≤ from_option id 4294967296 last_pointer ∧
  ∃ pages, all = pages ++ List.filter (below last_pointer) all ∧
    result = List.filter (newer known) pages ∧ result_pointer = max_pointer pages.

Definition rounds_left (st : option Z * list AddressInfo * Z) : Z :=
  from_option id 4294967296 st.1.1.

Lemma loaded_page last_pointer page rest pages :
  all = pages ++ pv_list page ++ rest → List.filter (below last_pointer) all = pv_list page ++ rest →
  ∀ p a, last (pv_list page) = Some a → ai_pointer a = p →
  loaded (Some p, List.filter (newer known) (pages ++ pv_list page),
          Z.max (max_pointer pages) (max_pointer (pv_list page))) ∧
  p + 1 ≤ from_option id 4294967296 last_pointer.
Proof.
  intros E Ef p a Hl <-. assert (a ∈ List.filter (below last_pointer) all) as Ha.
  { rewrite Ef. apply elem_of_app. left. apply last_Some in Hl as [l' ->]. set_solver. }
  apply list_elem_of_In, List.filter_In in Ha as [Ha%list_elem_of_In Hb].
  pose proof (proj1 (Forall_forall _ _) all_u32 a Ha) as Hu. cbv beta in Hu. split.
  - split; [simpl; lia|]. exists (pages ++ pv_list page). rewrite max_pointer_app.
    rewrite (below_last all (pages ++ pv_list page) rest a); [|done|by rewrite <- app_assoc|].
    + by rewrite <- app_assoc.
    + apply last_Some in Hl as [l' ->]. apply last_Some. exists (pages ++ l'). by rewrite app_assoc.
  - destruct last_pointer; simpl in *; [apply Z.ltb_lt in Hb|]; lia.
Qed.

(** The last round: the addresses that remain are not new. *)
Lemma loaded_end page rest pages :
  all = pages ++ pv_list page ++ rest →
  (match pv_last_pointer page with
   | None => rest = []
   | Some p => ∃ a, last (pv_list page) = Some a ∧ ai_pointer a = p
   end) →
  List.filter (newer known) (pv_list page) = [] ∨ pv_last_pointer page = None →
  List.filter (newer known) (pages ++ pv_list page) = List.filter (newer known) all ∧
  Z.max (max_pointer pages) (max_pointer (pv_list page)) = max_pointer all.
Proof.
  intros E Hp Hend. rewrite <- max_pointer_app.
  destruct (pv_last_pointer page) as [p|]; [|subst rest; by rewrite app_nil_r in E; rewrite E].
  destruct Hend as [Hnone|]; [|done]. destruct Hp as (a & Hl & <-).
  apply last_Some in Hl as [l' Hl].
  assert (∀ b, b ∈ rest → ai_pointer b < ai_pointer a) as Hlow.
  { intros b Hb. eapply newest_first_app; [rewrite E in all_newest_first; rewrite app_assoc in all_newest_first; done| |done].
    rewrite Hl. set_solver. }
  assert (newer known a = false) as Ha by (eapply filter_nil_inv; [done|rewrite Hl; set_solver]).
  rewrite app_assoc in E. rewrite E. split.
  - rewrite (List.filter_app _ (pages ++ _) rest), (filter_none _ rest); [by rewrite app_nil_r|].
    intros b Hb. specialize (Hlow b Hb). destruct known as [k|]; simpl in *; [|done].
    apply Z.ltb_ge in Ha. apply Z.ltb_ge. lia.
  - rewrite (max_pointer_app (pages ++ _) rest). symmetry. apply Z.max_l.
    assert (∀ l m, (∀ b, b ∈ l → ai_pointer b ≤ m) → 0 ≤ m → max_pointer l ≤ m) as Hbound.
    { clear. intros l m Hl Hm. unfold max_pointer. revert Hm. generalize 0.
      induction l as [|x l IH]; intros n Hn; simpl; [done|]. apply IH; [intros b Hb; apply Hl; by right|].
      specialize (Hl x ltac:(left)). lia. }
    assert (a ∈ all) as Hin by (rewrite E, Hl; set_solver).
    pose proof (proj1 (Forall_forall _ _) all_u32 a Hin) as Hu. cbv beta in Hu.
    transitivity (ai_pointer a); [apply Hbound; [|lia]; intros b Hb; specialize (Hlow b Hb); lia|].
    rewrite Hl, max_pointer_app, max_pointer_app. unfold max_pointer at 3. simpl. lia.
Qed.

Lemma ends_load_addresses_page st :
  loaded st →
  ends (λ _, True) (load_addresses_page account is_internal known st)
    (so_far (λ r, match r with
                  | inl a => Ok a = addresses_after known all
                  | inr st' => loaded st' ∧ rounds_left st' + 1 ≤ rounds_left st
                  end) (λ o, o = addresses_after known all)).
Proof.
  destruct st as [[last_pointer result] result_pointer].
  intros (Hlp & pages & E & -> & ->) s _. split; [done|].
  unfold load_addresses_page, ses_call, wk_query, wk_emit. unfold bind at 1 2 3, gets, modify at 1. simpl.
  destruct (wallet_pages (wk_log s) last_pointer) as (page & Epage & rest & Ef & Hp).
  match goal with |- context [try_res ?r] => assert (r = inl page) as -> by exact Epage end.
  unfold try_res, bind, ret. cbv beta iota.
  rewrite Ef in E. pose proof (loaded_page last_pointer page rest pages E Ef) as Hnext.
  pose proof (loaded_end page rest pages E Hp) as Hend.
  fold (newer known). rewrite <- !List.filter_app.
  change (foldl Z.max 0 (ai_pointer <$> pv_list page)) with (max_pointer (pv_list page)).
  case_bool_decide as Hn; [|case_bool_decide as Hl]; simpl.
  - destruct (Hend (or_introl Hn)) as [-> ->]. unfold addresses_after, ensure, bind, lift, oensure.
    by case_bool_decide.
  - destruct (Hend (or_intror Hl)) as [-> ->]. unfold addresses_after, ensure, bind, lift, oensure.
    by case_bool_decide.
  - destruct (pv_last_pointer page) as [p|]; [|done]. destruct Hp as (a & Ha & Hpa).
    by apply (Hnext p a).
Qed.
End Known.

(** C24: finding the addresses of the AMP account.  When the wallet hands out its
    addresses newest first, in pages of any size, the loop over the pages ends within
    its fuel and never panics, and it finds exactly the addresses above the pointer
    that is already known, in the wallet's order, with the highest pointer of the
    wallet; when there are none it reports an error. *)
Theorem load_all_addresses_complete known s :
  (load_all_addresses account is_internal known s).2 = addresses_after known all.
Proof.
  revert s. enough (ends (λ _, True) (load_all_addresses account is_internal known)
    (λ o, o = addresses_after known all)) as He by (intros s; by apply He).
  unfold load_all_addresses. eapply ends_bind.
  - apply (ends_loop_fuel _ (loaded known) rounds_left (λ o, o = addresses_after known all)).
    + intros st. apply ends_load_addresses_page.
    + split; [simpl; lia|]. exists []. split; [|done]. simpl. symmetry. by apply filter_all.
  - intros [a|st]; [intros Ha; by apply ends_ret|]. intros [Hst Hr]. exfalso.
    destruct st as [[last_pointer result] result_pointer]. destruct Hst as [Hst _].
    unfold rounds_left, ADDRESS_PAGES in Hr. simpl in Hr. lia.
Qed.
End Load.

(** A wallet with three addresses, two on a page. *)
Module PageSample.
Definition all : list AddressInfo :=
  [Sample.address "c" 3; Sample.address "b" 2; Sample.address "a" 1].

Definition page (last_pointer : option Z) : PreviousAddresses :=
  match List.filter (below last_pointer) all with
  | a :: b :: _ :: _ => {| pv_last_pointer := Some (ai_pointer b); pv_list := [a; b] |}
  | l => {| pv_last_pointer := None; pv_list := l |}
  end.

#[export] Instance page_env : WorkerEnv :=
  Sample.env_with (λ _, inl (Response_Sign tt)) ∅ (λ last_pointer, inl (page last_pointer)).
End PageSample.
Import PageSample.

Lemma load_all_addresses_complete_witness :
  (load_all_addresses ACCOUNT_ID_AMP false (Some 1) initial_data).2
  = Ok (3, [Sample.address "c" 3; Sample.address "b" 2]).
Proof.
  rewrite (load_all_addresses_complete ACCOUNT_ID_AMP false PageSample.all).
  - vm_compute. reflexivity.
  - repeat constructor.
  - repeat constructor; vm_compute; congruence.
  - intros log last_pointer. exists (PageSample.page last_pointer). split; [reflexivity|].
    unfold page_of, PageSample.page. destruct last_pointer as [p|]; simpl.
    + destruct (3 <? p), (2 <? p), (1 <? p); simpl; eexists;
        (split; [rewrite app_nil_r; reflexivity|reflexivity])
        || (split; [reflexivity|eexists; split; reflexivity]).
    + exists [Sample.address "a" 1]. split; [reflexivity|]. eexists. split; reflexivity.
Defined.
