(* ===== verification/Market.v ===== *)
(** * The client's order book and its sign requests

    The part of [rust/sideswap_client/src/worker.rs] that follows the orders of the
    markets the user looks at, changes the user's own orders, and works through what
    waits for the connection: sign requests, submits, links.  [process_sign] and
    [process_pending_requests] call each other; the calls nest at most twice
    ([Pending.pending_requests_terminate]). *)
From stdpp Require Import base numbers gmap strings list sets sorting pretty.
From Stdlib Require Import ZArith Lia SpecFloat.
From S2P Require Import Prelude F64 Api Types Env ClientApi Client Orders.

Open Scope Z_scope.
#[local] Set Primitive Projections.

(** [Option<K>]: [None] first. *)
#[export] Instance option_key_order {K} `{KeyOrder K} : KeyOrder (option K) :=
  λ a b, match a, b with
         | None, _ => true
         | Some _, None => false
         | Some x, Some y => key_le x y
         end.

Definition error_code_name (c : ErrorCode) : string :=
  match c with
  | ErrorCode_ParseError => "ParseError"
  | ErrorCode_InvalidRequest => "InvalidRequest"
  | ErrorCode_MethodNotFound => "MethodNotFound"
  | ErrorCode_InvalidParams => "InvalidParams"
  | ErrorCode_InternalError => "InternalError"
  | ErrorCode_ServerError => "ServerError"
  end.

Definition error_to_string (e : Error) : string :=
  error_code_name (err_code e) +:+ ": " +:+ err_message e.

Section Market.
Context `{WorkerEnv}.

(** ** Asynchronous requests *)

(** The closures given to [make_async_request]. *)
Definition cancel_order_done (res : Response + Error) : DataM unit :=
  ui_send match res with
          | inl _ => From_CancelOrder true None
          | inr e => From_CancelOrder false (Some (error_to_string e))
          end.

Definition portfolio_prices_done (res : Response + Error) : DataM unit :=
  match res with
  | inl (Response_PortfolioPrices resp) =>
      ui_send (From_PortfolioPrices
        ((λ e : AssetId * f64, (Hash32_to_string e.1, e.2)) <$>
           btree_list (portfolio_prices_resp_prices_usd resp)))
  | _ => ret tt
  end.

Definition single_registered (is_internal : bool) (last : Z) (res : Response + Error) : DataM unit :=
  match res with
  | inl _ =>
      do! set_settings (λ s, s <| st_single_sig_registered ::= (λ r : Z * Z,
            if is_internal then (r.1, last) else (last, r.2)) |>) in
      save_settings
  | inr _ => ret tt
  end.

Definition multi_registered (last : Z) (res : Response + Error) : DataM unit :=
  match res with
  | inl _ =>
      do! set_settings (λ s, s <| st_multi_sig_registered := last |>) in
      save_settings
  | inr _ => ret tt
  end.

Definition gaid_status_done (gaid asset_id : string) (res : Response + Error) : DataM unit :=
  ui_send (From_GaidStatus gaid asset_id
    match res with
    | inl (Response_GaidStatus resp) => gaid_status_resp_error resp
    | inl _ => Some "Unexpected response"
    | inr e => Some (error_to_string e)
    end).

Definition run_callback (cb : Callback) (res : Response + Error) : DataM unit :=
  match cb with
  | Cb_CancelOrder => cancel_order_done res
  | Cb_PortfolioPrices => portfolio_prices_done res
  | Cb_PushToken => ret tt
  | Cb_RegisterSingle is_internal last => single_registered is_internal last res
  | Cb_RegisterMulti last => multi_registered last res
  | Cb_GaidStatus gaid asset_id => gaid_status_done gaid asset_id res
  end.

Definition make_async_request (req : Request) (cb : Callback) : DataM unit :=
  let! connected := gets wk_connected in
  if negb connected then
    run_callback cb (inr {| err_code := ErrorCode_ServerError; err_message := "Not connected" |})
  else
    let! n := next_id in
    let request_id := pretty n in
    do! wk_emit (Ev_request (RequestId_String request_id) req) in
    modify (λ s, s <| wk_async_requests ::= <[request_id := cb]> |>).

Definition process_async_resp (request_id : string) (res : Response + Error) : DataM unit :=
  let! callbacks := gets wk_async_requests in
  match callbacks !! request_id with
  | None => ret tt
  | Some cb =>
      do! modify (λ s, s <| wk_async_requests ::= delete request_id |>) in
      run_callback cb res
  end.

(** ** The AMP connection *)

Definition is_amp_submit (s : Data) (order_id : OrderId) : bool :=
  from_option (λ submit, bool_decide (sub_market submit = MarketType_Amp)) false
    (wk_submit_data s !! order_id).

Definition pending_amp_sign_requests (s : Data) : bool :=
  existsb (λ sign, bool_decide (details_asset (sign_ntf_details sign) ∈ wk_amp_assets s))
    (wk_pending_sign_requests s) ||
  forallb (is_amp_submit s) (btree_list (wk_pending_signs s)).*1.

Definition update_amp_connection : DataM unit :=
  let! amp_active := gets (λ s, wk_app_active s || pending_amp_sign_requests s) in
  let! old := gets wk_amp_active in
  if eqb old amp_active then ret tt
  else
    do! modify (λ s, s <| wk_amp_active := amp_active |>) in
    let! wallets := gets wk_wallets in
    match wallets !! ACCOUNT_ID_AMP with
    | None => ret tt
    | Some _ => wk_emit (Ev_wallet ACCOUNT_ID_AMP (if amp_active then W_connect else W_disconnect))
    end.

Definition check_amp_connection : DataM unit :=
  let! amp_connected := gets wk_amp_connected in
  let! wallets := gets wk_wallets in
  if negb amp_connected then ret tt
  else
    match wallets !! ACCOUNT_ID_AMP with
    | None => ret tt
    | Some _ =>
        let! r := ses_call ACCOUNT_ID_AMP (W_get_previous_addresses None false)
          (λ log a, ses_get_previous_addresses log a None false) in
        match r with
        | inl _ => ret tt
        | inr _ =>
            do! wk_emit (Ev_wallet ACCOUNT_ID_AMP W_disconnect) in
            do! wk_emit (Ev_wallet ACCOUNT_ID_AMP W_connect) in
            modify (λ s, s <| wk_amp_connected := false |>)
        end
    end.

Definition check_connections : DataM unit :=
  do! check_ws_connection in
  check_amp_connection.

(** ** Sign requests *)

(** What is known of an own order the client did not submit in this run. *)
Definition missing_submit_data (order_id : OrderId) (details : Details) (two_step : bool)
    (asset : Asset) : SubmitData := {|
  sub_order_id := order_id;
  sub_side := OrderSide_Maker;
  sub_asset := details_asset details;
  sub_asset_precision := asset_precision asset;
  sub_order_type := details_order_type details;
  sub_bitcoin_amount := details_bitcoin_amount details;
  sub_asset_amount := details_asset_amount details;
  sub_price := details_price details;
  sub_server_fee := details_server_fee details;
  sub_sell_bitcoin :=
    eqb (details_send_bitcoins details) (bool_decide (details_side details = OrderSide_Maker));
  sub_txouts := ∅;
  sub_auto_sign := two_step;
  sub_txid := None;
  sub_index_price := false;
  sub_market := details_market details;
  sub_signed := false
|}.

Definition add_missing_submit_data (order_id : OrderId) (details : Details) (two_step : bool)
    : DataM unit :=
  let! submits := gets wk_submit_data in
  match submits !! order_id with
  | Some _ => ret tt
  | None =>
      let! assets := gets wk_assets in
      let! asset := ok_or (assets !! details_asset details) "unknown asset" in
      do! lift (verify_amounts assets details) in
      modify (λ s, s <| wk_submit_data ::=
                <[order_id := missing_submit_data order_id details two_step asset]> |>)
  end.

Definition show_error {A} (prefix : string) (r : A + string) : DataM unit :=
  match r with inl _ => ret tt | inr e => show_message (prefix +:+ e) end.

(** [process_sign], with [pending] for [process_pending_requests]. *)
Definition process_sign_with (pending : DataM unit) (msg : SignNotification) : DataM unit :=
  if bool_decide (details_side (sign_ntf_details msg) = OrderSide_Taker) then
    let! result := attempt (try_process_sign msg) in
    show_error "sign failed: " result
  else
    do! modify (λ s, s <| wk_pending_sign_requests ::= (λ l, l ++ [msg]) |>) in
    pending.

Definition download_sign_request (pending : DataM unit) (order_id : OrderId) : DataM unit :=
  let! sign := request (Request_GetSign {| get_sign_order_id := order_id |}) as_GetSign in
  let msg := get_sign_resp_data sign in
  do! try_add_asset (details_asset (sign_ntf_details msg)) in
  do! add_missing_submit_data order_id (sign_ntf_details msg) false in
  process_sign_with pending msg.

(** The loop over the taken [pending_signs]; yields the background requests to
    be answered at the end. *)
Fixpoint download_signs (pending : DataM unit) (signs : list (OrderId * option nat))
    : DataM (list nat) :=
  match signs with
  | [] => ret []
  | (order_id, pending_sign) :: signs =>
      let! processed := gets wk_processed_signs in
      let! senders :=
        if bool_decide (order_id ∈ processed) then ret []
        else
          let! result := attempt (download_sign_request pending order_id) in
          do! show_error "sign failed: " result in
          ret (option_list pending_sign) in
      let! rest := download_signs pending signs in
      ret (senders ++ rest)
  end.

Definition run_submit (req : SubmitOrder) : DataM unit :=
  let! result := attempt (try_process_submit_order req) in
  match result with
  | inl _ => ret tt
  | inr e => ui_send (From_SubmitResult (SubmitError e))
  end.

Definition run_link (order_id : string) : DataM unit :=
  let! order_id := parse_id order_id in
  let! result := attempt (try_process_link_order order_id) in
  show_error EmptyString result.

Definition run_downloaded_link (resp : LinkResponse) : DataM unit :=
  let! result := attempt (try_process_downloaded_link resp) in
  match result with
  | inl (Some msg) => ui_send msg
  | inl None => ret tt
  | inr e => show_message e
  end.

(** [while let Some(msg) = self.pending_sign_requests.pop_front()]; [out] stands for
    the rounds beyond [fuel]. *)
Fixpoint run_sign_requests_from (out : DataM unit) (fuel : nat) : DataM unit :=
  let! queue := gets wk_pending_sign_requests in
  match queue with
  | [] => ret tt
  | msg :: queue =>
      match fuel with
      | O => out
      | S fuel =>
          do! modify (λ s, s <| wk_pending_sign_requests := queue |>) in
          let! processed := gets wk_processed_signs in
          if bool_decide (sign_ntf_order_id msg ∈ processed) then run_sign_requests_from out fuel
          else
            let! result := attempt (try_process_sign msg) in
            do! show_error "sign failed: " result in
            run_sign_requests_from out fuel
      end
  end.

Definition run_sign_requests : DataM unit :=
  let! fuel := gets (λ s, length (wk_pending_sign_requests s)) in
  run_sign_requests_from (panic "out of fuel") fuel.

(** What [process_pending_requests] does once the connections it needs are up. *)
Definition run_pending (pending : DataM unit) : DataM unit :=
  let! signs := gets wk_pending_signs in
  do! modify (λ s, s <| wk_pending_signs := ∅ |>) in
  let! background_requests := download_signs pending (btree_list signs) in
  let! submits := gets wk_pending_submits in
  do! modify (λ s, s <| wk_pending_submits := [] |>) in
  do! for_each submits run_submit in
  let! links := gets wk_pending_links in
  do! modify (λ s, s <| wk_pending_links := [] |>) in
  do! for_each links run_link in
  let! downloaded := gets wk_downloaded_links in
  do! modify (λ s, s <| wk_downloaded_links := [] |>) in
  do! for_each downloaded run_downloaded_link in
  do! process_pending_sign_prompts in
  do! run_sign_requests in
  do! update_amp_connection in
  for_each background_requests (λ sender, wk_emit (Ev_background sender)).

Definition waits_for_amp (s : Data) : bool :=
  negb (wk_amp_connected s) && pending_amp_sign_requests s &&
  match wk_wallets s !! ACCOUNT_ID_AMP with Some _ => true | None => false end.

(** [process_pending_requests], given what its nested calls do. *)
Definition pending_step (pending : DataM unit) : DataM unit :=
  let! connected := gets wk_connected in
  let! waits := gets waits_for_amp in
  if negb connected then ret tt
  else if waits then update_amp_connection
  else run_pending pending.

Fixpoint process_pending_requests_fuel (fuel : nat) : DataM unit :=
  match fuel with
  | O => panic "out of fuel"
  | S fuel => pending_step (process_pending_requests_fuel fuel)
  end.

Definition process_pending_requests : DataM unit := process_pending_requests_fuel 2.

Definition process_sign : SignNotification → DataM unit :=
  process_sign_with process_pending_requests.

Definition process_submit_order (req : SubmitOrder) : DataM unit :=
  do! modify (λ s, s <| wk_pending_submits ::= (λ l, l ++ [req]) |>) in
  process_pending_requests.

Definition process_link_order (order_id : string) : DataM unit :=
  do! modify (λ s, s <| wk_pending_links ::= (λ l, l ++ [order_id]) |>) in
  process_pending_requests.

Definition skip_wallet_sync (s : Data) : bool :=
  bool_decide (wk_pending_submits s = []) && bool_decide (wk_pending_links s = []).

Definition process_push_message (req : string) (pending_sign : option nat) : DataM unit :=
  match parse_fcm req with
  | Some (Fcm_Sign order_id) =>
      do! modify (λ s, s <| wk_pending_signs ::= (λ m,
            <[order_id := default pending_sign (m !! order_id)]> m) |>) in
      do! check_connections in
      process_pending_requests
  | _ => ret tt
  end.

(** ** Changing own orders *)

(** The new terms of an order whose price is changed, so that a sign request at
    that price is signed automatically. *)
Definition reprice (d : SubmitData) (price : f64) : outcome SubmitData :=
  match sub_order_type d with
  | OrderType_Bitcoin =>
      let? amount :=
        asset_amount (sub_bitcoin_amount d) price (sub_asset_precision d) (sub_market d) in
      Ok (d <| sub_price := price |> <| sub_asset_amount := amount |>)
  | OrderType_Asset =>
      let? amount :=
        bitcoin_amount (sub_asset_amount d) price (sub_asset_precision d) (sub_market d) in
      Ok (d <| sub_price := price |> <| sub_bitcoin_amount := amount |>
            <| sub_server_fee := get_server_fee amount |>)
  end.

Definition try_edit_order_price (order_id : OrderId) (price index_price : option f64)
    : DataM unit :=
  let! _r := request (Request_Edit {| edit_order_id := order_id; edit_price := price;
                                      edit_index_price := index_price |}) as_Edit in
  match price with
  | None => ret tt
  | Some price =>
      let! submits := gets wk_submit_data in
      match submits !! order_id with
      | None => ret tt
      | Some d =>
          let! d := lift (reprice d price) in
          modify (λ s, s <| wk_submit_data ::= <[order_id := d]> |>)
      end
  end.

Definition try_edit_order_auto_sign (order_id : OrderId) (auto_sign : bool) : DataM unit :=
  let! submits := gets wk_submit_data in
  let! submit := ok_or (submits !! order_id) "submit data not found" in
  let! orders := gets wk_orders_last in
  let! order := ok_or (orders !! order_id) "order not found" in
  modify (λ s, s <| wk_submit_data ::= <[order_id := submit <| sub_auto_sign := auto_sign |>]> |>
                 <| wk_orders_last ::= <[order_id := order <| or_auto_sign := auto_sign |>]> |>).

Definition process_edit_order (order_id : string) (data : option EditData) : DataM unit :=
  let! order_id := parse_id order_id in
  let! data := expect data "called `Option::unwrap()` on a `None` value" in
  let! edit_result := attempt
    match data with
    | Data_Price v => try_edit_order_price order_id (Some v) None
    | Data_IndexPrice v => try_edit_order_price order_id None (Some v)
    | Data_AutoSign v => try_edit_order_auto_sign order_id v
    end in
  do! ui_send match edit_result with
              | inl _ => From_EditOrder true None
              | inr e => From_EditOrder false (Some e)
              end in
  sync_order_list.

Definition process_cancel_order (order_id : string) : DataM unit :=
  let! order_id := parse_id order_id in
  make_async_request (Request_Cancel {| cancel_order_id := order_id |}) Cb_CancelOrder.

(** ** The end of an order *)

Definition removed_message (submit : option SubmitData) : string :=
  let is_maker := from_option (λ v, bool_decide (sub_side v = OrderSide_Maker)) false submit in
  let signed := from_option sub_signed false submit in
  if is_maker then "Failed to sign"
  else if negb signed then "Order removed"
  else "Counterparty failed to sign".

Definition process_complete (msg : CompleteNotification) : DataM unit :=
  let order_id := complete_order_id msg in
  do! ui_send (From_OrderComplete (Hash32_to_string order_id)
                 (Hash32_to_string <$> complete_txid msg)) in
  let! submits := gets wk_submit_data in
  match complete_txid msg with
  | Some txid =>
      match submits !! order_id with
      | None => ret tt
      | Some d =>
          modify (λ s, s <| wk_submit_data ::= <[order_id := d <| sub_txid := Some txid |>]> |>)
      end
  | None =>
      do! modify (λ s, s <| wk_submit_data ::= delete order_id |>) in
      let! shown := gets (λ s,
        bool_decide (wk_visible_submit s = Some order_id) ||
        bool_decide (wk_visible_submit s = None) && bool_decide (wk_waiting_submit s = Some order_id)) in
      if shown then
        do! ui_send (From_SubmitResult (SubmitError (removed_message (submits !! order_id)))) in
        do! modify (λ s, s <| wk_visible_submit := None |>) in
        do! process_pending_sign_prompts in
        process_pending_succeed
      else ret tt
  end.

(** ** The order book *)

Definition order_of (s : Data) (msg : OrderCreatedNotification) (from_notification : bool)
    : Order :=
  let details := order_created_details msg in
  let own := order_created_own msg in
  let swap_market := match wk_assets s !! details_asset details with Some _ => true | None => false end in
  let amp_market := bool_decide (details_asset details ∈ wk_amp_assets s) in {|
  or_order_id := Hash32_to_string (order_created_order_id msg);
  or_asset_id := Hash32_to_string (details_asset details);
  or_bitcoin_amount := details_bitcoin_amount details;
  or_send_bitcoins := details_send_bitcoins details;
  or_server_fee := details_server_fee details;
  or_asset_amount := details_asset_amount details;
  or_price := details_price details;
  or_created_at := order_created_created_at msg;
  or_expires_at := order_created_expires_at msg;
  or_private := from_option own_private false own;
  or_two_step := order_created_two_step msg;
  or_auto_sign :=
    from_option sub_auto_sign false (wk_submit_data s !! order_created_order_id msg);
  or_own := match own with Some _ => true | None => false end;
  or_token_market := negb swap_market && negb amp_market;
  or_from_notification := from_notification;
  or_index_price := own ≫= own_index_price
|}.

Definition add_order (msg : OrderCreatedNotification) (from_notification : bool) : DataM unit :=
  let details := order_created_details msg in
  let! _r := attempt (try_add_asset (details_asset details)) in
  do! match order_created_own msg with
      | None => ret tt
      | Some _ =>
          let! _r := attempt (add_missing_submit_data (order_created_order_id msg) details
                                (order_created_two_step msg)) in
          ret tt
      end in
  let! order := gets (λ s, order_of s msg from_notification) in
  modify (λ s, s <| wk_orders_last ::= <[order_created_order_id msg := order]> |>).

Definition remove_order (order_id : OrderId) : DataM unit :=
  modify (λ s, s <| wk_orders_last ::= delete order_id |>).

Definition process_order_created (msg : OrderCreatedNotification) : DataM unit :=
  do! add_order msg true in
  sync_order_list.

Definition process_order_removed (msg : OrderRemovedNotification) : DataM unit :=
  do! remove_order (order_removed_order_id msg) in
  sync_order_list.

Definition process_subscribe_response (msg : SubscribeResponse) : DataM unit :=
  do! for_each (subscribe_resp_orders msg) (λ order, add_order order false) in
  sync_order_list.

(** Own orders, and the orders of other markets. *)
Definition kept_order (asset : option AssetId) (order : Order) : bool :=
  or_own order ||
  match asset with
  | Some asset_id => negb (String.eqb (or_asset_id order) (Hash32_to_string asset_id))
  | None => negb (or_token_market order)
  end.

Definition process_unsubscribe_response (msg : UnsubscribeResponse) : DataM unit :=
  do! modify (λ s, s <| wk_orders_last ::=
        filter (λ e : OrderId * Order, kept_order (unsubscribe_resp_asset msg) e.2 = true) |>) in
  sync_order_list.

(** ** Subscriptions *)

Fixpoint parse_markets (markets : list (option string)) : DataM (gset (option AssetId)) :=
  match markets with
  | [] => ret ∅
  | None :: markets =>
      let! rest := parse_markets markets in
      ret ({[ None ]} ∪ rest)
  | Some text :: markets =>
      let! id := parse_id text in
      let! rest := parse_markets markets in
      ret ({[ Some id ]} ∪ rest)
  end.

Definition send_msg (r : Request) : DataM unit :=
  let! _id := send_request_msg r in
  ret tt.

Definition process_subscribe (markets : list (option string)) : DataM unit :=
  let! new_subscribes := parse_markets markets in
  let! old := gets wk_subscribes in
  do! for_each (btree_elements (old ∖ new_subscribes)) (λ a,
    send_msg (Request_Unsubscribe {| unsubscribe_asset := a |})) in
  do! for_each (btree_elements (new_subscribes ∖ old)) (λ a,
    send_msg (Request_Subscribe {| subscribe_asset := a |})) in
  modify (λ s, s <| wk_subscribes := new_subscribes |>).

Definition send_subscribe_request : DataM unit :=
  let! subscribes := gets wk_subscribes in
  for_each (btree_elements subscribes) (λ a,
    send_msg (Request_Subscribe {| subscribe_asset := a |})).

Definition process_asset_details (asset_id : string) : DataM unit :=
  let! id := parse_id asset_id in
  send_msg (Request_AssetDetails {| asset_details_asset_id := id |}).

Definition process_subscribe_price (asset_id : string) : DataM unit :=
  let! id := parse_id asset_id in
  send_msg (Request_LoadPrices {| load_prices_asset := id |}).

Definition process_unsubscribe_price (asset_id : string) : DataM unit :=
  let! id := parse_id asset_id in
  send_msg (Request_CancelPrices {| cancel_prices_asset := id |}).

#[export] Instance SubscribePriceStreamRequest_eq_dec : EqDecision SubscribePriceStreamRequest.
Proof. solve_decision. Defined.

Definition process_subscribe_price_stream (req : SubscribePriceStream) : DataM unit :=
  let! id := parse_id (sps_asset_id req) in
  let req := {| subscribe_price_stream_subscribe_id := None;
                subscribe_price_stream_asset := id;
                subscribe_price_stream_send_bitcoins := sps_send_bitcoins req;
                subscribe_price_stream_send_amount := sps_send_amount req;
                subscribe_price_stream_recv_amount := sps_recv_amount req |} in
  let! old := gets wk_subscribed_price_stream in
  if bool_decide (old = Some req) then ret tt
  else
    do! modify (λ s, s <| wk_subscribed_price_stream := Some req |>) in
    send_msg (Request_SubscribePriceStream req).

Definition process_unsubscribe_price_stream : DataM unit :=
  let! old := gets wk_subscribed_price_stream in
  match old with
  | None => ret tt
  | Some _ =>
      do! modify (λ s, s <| wk_subscribed_price_stream := None |>) in
      send_msg (Request_UnsubscribePriceStream {| unsubscribe_price_stream_subscribe_id := None |})
  end.

Definition process_market_data_unsubscribe : DataM unit :=
  let! connected := gets wk_connected in
  let! old := gets wk_subscribed_market_data in
  do! match connected, old with
      | true, Some asset_id =>
          send_msg (Request_MarketDataUnsubscribe {| market_data_unsubscribe_asset := asset_id |})
      | _, _ => ret tt
      end in
  modify (λ s, s <| wk_subscribed_market_data := None |>).

Definition process_market_data_subscribe (asset_id : string) : DataM unit :=
  let! id := parse_id asset_id in
  do! process_market_data_unsubscribe in
  let! connected := gets wk_connected in
  do! (if connected
       then send_msg (Request_MarketDataSubscribe {| market_data_subscribe_asset := id |})
       else ret tt) in
  modify (λ s, s <| wk_subscribed_market_data := Some id |>).

Definition process_portfolio_prices : DataM unit :=
  make_async_request (Request_PortfolioPrices tt) Cb_PortfolioPrices.

Definition process_gaid_status_req (gaid asset_id : string) : DataM unit :=
  let! id := parse_id asset_id in
  make_async_request (Request_GaidStatus {| gaid_status_gaid := gaid; gaid_status_asset_id := id |})
    (Cb_GaidStatus gaid asset_id).
End Market.

(** ** Frames *)

Section Quiet.
Context `{WorkerEnv}.

Lemma quiet_run_callback cb res : quiet (run_callback cb res).
Proof. 
  unfold run_callback, cancel_order_done, portfolio_prices_done, single_registered,
    multi_registered, gaid_status_done.
  destruct res; quiet.
Qed.
#[local] Hint Resolve quiet_run_callback : quiet.
Lemma quiet_make_async_request req cb :
  (∀ id, sign_event (Ev_request id req) = false) → quiet (make_async_request req cb).
Proof.
  intros Hr. assert (∀ id, quiet (wk_emit (Ev_request id req))) as He.
  { intros id. apply quiet_emit. unfold quiet_event. by rewrite Hr. }
  unfold make_async_request. quiet.
Qed.
#[local] Hint Extern 1 (quiet (make_async_request _ _)) =>
  apply quiet_make_async_request; intros ?; reflexivity : quiet.
Lemma quiet_process_async_resp id res : quiet (process_async_resp id res).
Proof. unfold process_async_resp. quiet. Qed.
Lemma quiet_update_amp_connection : quiet update_amp_connection.
Proof.
  assert (∀ b : bool, quiet (wk_emit (Ev_wallet ACCOUNT_ID_AMP (if b then W_connect else W_disconnect))))
    by (intros; by apply quiet_emit).
  unfold update_amp_connection. quiet.
Qed.
Lemma quiet_check_amp_connection : quiet check_amp_connection.
Proof. unfold check_amp_connection. quiet. Qed.
#[local] Hint Resolve quiet_check_amp_connection : quiet.
Lemma quiet_check_connections : quiet check_connections.
Proof. unfold check_connections. quiet. Qed.
Lemma quiet_add_missing_submit_data id details two_step :
  quiet (add_missing_submit_data id details two_step).
Proof. unfold add_missing_submit_data. quiet. Qed.
Lemma quiet_show_error {A} prefix (r : A + string) : quiet (show_error prefix r).
Proof. unfold show_error. quiet. Qed.
#[local] Hint Resolve quiet_show_error : quiet.
Lemma quiet_run_submit req : quiet (run_submit req).
Proof. unfold run_submit. quiet. Qed.
Lemma quiet_run_link id : quiet (run_link id).
Proof. unfold run_link. quiet. Qed.
Lemma quiet_try_edit_order_price id price index_price :
  quiet (try_edit_order_price id price index_price).
Proof. unfold try_edit_order_price. quiet. Qed.
Lemma quiet_process_cancel_order id : quiet (process_cancel_order id).
Proof. unfold process_cancel_order. quiet. Qed.
Lemma quiet_parse_markets markets : quiet (parse_markets markets).
Proof. induction markets as [|[text|] markets IH]; simpl; quiet. Qed.
#[local] Hint Resolve quiet_parse_markets : quiet.
Lemma quiet_send_msg r : (∀ id, sign_event (Ev_request id r) = false) → quiet (send_msg r).
Proof. intros Hr. pose proof (quiet_send_request_msg r Hr). unfold send_msg. quiet. Qed.
#[local] Hint Extern 1 (quiet (send_msg _)) =>
  apply quiet_send_msg; intros ?; reflexivity : quiet.
Lemma quiet_process_subscribe markets : quiet (process_subscribe markets).
Proof. unfold process_subscribe. quiet. Qed.
Lemma quiet_send_subscribe_request : quiet send_subscribe_request.
Proof. unfold send_subscribe_request. quiet. Qed.
Lemma quiet_process_asset_details id : quiet (process_asset_details id).
Proof. unfold process_asset_details. quiet. Qed.
Lemma quiet_process_subscribe_price id : quiet (process_subscribe_price id).
Proof. unfold process_subscribe_price. quiet. Qed.
Lemma quiet_process_unsubscribe_price id : quiet (process_unsubscribe_price id).
Proof. unfold process_unsubscribe_price. quiet. Qed.
Lemma quiet_process_subscribe_price_stream req : quiet (process_subscribe_price_stream req).
Proof. unfold process_subscribe_price_stream. quiet. Qed.
Lemma quiet_process_unsubscribe_price_stream : quiet process_unsubscribe_price_stream.
Proof. unfold process_unsubscribe_price_stream. quiet. Qed.
Lemma quiet_process_market_data_unsubscribe : quiet process_market_data_unsubscribe.
Proof. unfold process_market_data_unsubscribe. quiet. Qed.
#[local] Hint Resolve quiet_process_market_data_unsubscribe : quiet.
Lemma quiet_process_market_data_subscribe id : quiet (process_market_data_subscribe id).
Proof. unfold process_market_data_subscribe. quiet. Qed.
Lemma quiet_process_portfolio_prices : quiet process_portfolio_prices.
Proof. unfold process_portfolio_prices. quiet. Qed.
Lemma quiet_process_gaid_status_req gaid id : quiet (process_gaid_status_req gaid id).
Proof. unfold process_gaid_status_req. quiet. Qed.
End Quiet.

#[export] Hint Resolve quiet_run_callback quiet_process_async_resp quiet_update_amp_connection
  quiet_check_amp_connection quiet_check_connections quiet_add_missing_submit_data
  quiet_show_error quiet_run_submit quiet_run_link quiet_try_edit_order_price
  quiet_process_cancel_order quiet_process_subscribe quiet_send_subscribe_request
  quiet_process_asset_details quiet_process_subscribe_price quiet_process_unsubscribe_price
  quiet_process_subscribe_price_stream quiet_process_unsubscribe_price_stream
  quiet_process_market_data_unsubscribe quiet_process_market_data_subscribe
  quiet_process_portfolio_prices quiet_process_gaid_status_req : quiet.
#[export] Hint Extern 1 (quiet (make_async_request _ _)) =>
  apply quiet_make_async_request; intros ?; reflexivity : quiet.
#[export] Hint Extern 1 (quiet (send_msg _)) =>
  apply quiet_send_msg; intros ?; reflexivity : quiet.

(** A downloaded link can only yield the message that funds are missing. *)
Lemma downloaded_link_msgs `{WorkerEnv} resp :
  yields (try_process_downloaded_link resp)
    (λ o, ∀ m, o = Some m → quiet_event (Ev_ui m) = true).
Proof.
  unfold try_process_downloaded_link. eapply yields_bind; [apply yields_True|intros _ _].
  destruct (review_send _) as [send_amount send_asset].
  do 3 (eapply yields_bind; [apply yields_True|intros ? _]).
  case_match; [by apply yields_ret; intros m [= <-]|].
  do 4 (eapply yields_bind; [apply yields_True|intros ? _]). by apply yields_ret.
Qed.

Lemma quiet_run_downloaded_link `{WorkerEnv} resp : quiet (run_downloaded_link resp).
Proof.
  unfold run_downloaded_link. apply quiet_intro. intros c.
  eapply keeps_bind_yields; [frame|apply yields_attempt, downloaded_link_msgs|].
  intros [[m|]|e] Hm; [|frame..]. apply keeps_quiet; [|apply stable_core].
  by apply quiet_ui_send, Hm.
Qed.
#[export] Hint Resolve quiet_run_downloaded_link : quiet.

(** ** Pending requests keep what signing keeps *)

(** What a property of the core needs for the whole machinery of pending requests
    to keep it. *)
Class SignFrame `{WorkerEnv} (I : Data → Prop) : Prop := {
  sf_stable : stable I;
  sf_sign msg : keeps I (try_process_sign msg);
  sf_prompts : keeps I process_pending_sign_prompts;
  sf_queue f : keeps I (modify (λ s, s <| wk_pending_sign_requests ::= f |>));
  sf_signs f : keeps I (modify (λ s, s <| wk_pending_signs ::= f |>))
}.
#[export] Hint Extern 1 (SignFrame _) => typeclasses eauto : keeps.
#[export] Hint Extern 1 (stable _) => apply sf_stable : quiet.
#[export] Hint Resolve sf_sign sf_prompts sf_queue sf_signs : keeps.

#[export] Instance sign_once_frame `{WorkerEnv} : SignFrame sign_once.
Proof. split; auto with quiet keeps; intros f s Hs; exact Hs. Qed.

#[export] Instance order_core_frame `{WorkerEnv} c : SignFrame (λ s, order_core s = c).
Proof. split; auto with quiet keeps; intros f s Hs; exact Hs. Qed.

Section Pending.
Context `{WorkerEnv} (I : Data → Prop) `{!SignFrame I}.

Lemma keeps_process_sign_with pending msg :
  keeps I pending → keeps I (process_sign_with pending msg).
Proof. intros Hp. unfold process_sign_with. frame. Qed.
#[local] Hint Resolve keeps_process_sign_with : keeps.

Lemma keeps_download_signs pending signs :
  keeps I pending → keeps I (download_signs pending signs).
Proof.
  intros Hp. assert (∀ id, keeps I (download_sign_request pending id)) as Hd.
  { intros id. unfold download_sign_request. frame. }
  induction signs as [|[id sender] signs IH]; simpl; frame.
Qed.

Lemma keeps_run_sign_requests : keeps I run_sign_requests.
Proof.
  assert (∀ fuel, keeps I (run_sign_requests_from (panic "out of fuel") fuel)) as Hf
    by (induction fuel as [|fuel IH]; simpl; frame).
  unfold run_sign_requests. frame.
Qed.
#[local] Hint Resolve keeps_download_signs keeps_run_sign_requests : keeps.

Lemma keeps_run_pending pending : keeps I pending → keeps I (run_pending pending).
Proof. intros Hp. unfold run_pending. frame. Qed.
#[local] Hint Resolve keeps_run_pending : keeps.

Lemma keeps_pending_step pending : keeps I pending → keeps I (pending_step pending).
Proof. intros Hp. unfold pending_step. frame. Qed.
#[local] Hint Resolve keeps_pending_step : keeps.

Lemma keeps_pending_fuel fuel : keeps I (process_pending_requests_fuel fuel).
Proof. induction fuel as [|fuel IH]; simpl; frame. Qed.

Lemma keeps_process_pending_requests : keeps I process_pending_requests.
Proof. apply keeps_pending_fuel. Qed.
#[local] Hint Resolve keeps_process_pending_requests : keeps.

Lemma keeps_process_sign msg : keeps I (process_sign msg).
Proof. apply keeps_process_sign_with. frame. Qed.

Lemma keeps_process_submit_order req : keeps I (process_submit_order req).
Proof. unfold process_submit_order. frame. Qed.

Lemma keeps_process_link_order id : keeps I (process_link_order id).
Proof. unfold process_link_order. frame. Qed.

Lemma keeps_process_push_message req sender : keeps I (process_push_message req sender).
Proof. unfold process_push_message. frame. Qed.

Lemma keeps_process_complete msg : keeps I (process_complete msg).
Proof. unfold process_complete. frame. Qed.
End Pending.

#[export] Hint Resolve keeps_process_pending_requests keeps_process_sign
  keeps_process_submit_order keeps_process_link_order keeps_process_push_message
  keeps_process_complete : keeps.

(** ** Signing and the order book *)
Section Book.
Context `{WorkerEnv}.

Lemma sync_order_list_once : keeps sign_once sync_order_list.
Proof. unfold sync_order_list. frame. Qed.
#[local] Hint Resolve sync_order_list_once : keeps.
Lemma add_order_once msg from_notification : keeps sign_once (add_order msg from_notification).
Proof. unfold add_order. frame. Qed.
#[local] Hint Resolve add_order_once : keeps.
Lemma process_order_created_once msg : keeps sign_once (process_order_created msg).
Proof. unfold process_order_created. frame. Qed.
Lemma process_order_removed_once msg : keeps sign_once (process_order_removed msg).
Proof. unfold process_order_removed, remove_order. frame. Qed.
Lemma process_subscribe_response_once msg : keeps sign_once (process_subscribe_response msg).
Proof. unfold process_subscribe_response. frame. Qed.
Lemma process_unsubscribe_response_once msg : keeps sign_once (process_unsubscribe_response msg).
Proof. unfold process_unsubscribe_response. frame. Qed.
Lemma process_edit_order_once id data : keeps sign_once (process_edit_order id data).
Proof.
  assert (∀ id auto_sign, keeps sign_once (try_edit_order_auto_sign id auto_sign)) as He
    by (intros; unfold try_edit_order_auto_sign; frame).
  unfold process_edit_order. frame.
Qed.
End Book.

#[export] Hint Resolve sync_order_list_once add_order_once process_order_created_once
  process_order_removed_once process_subscribe_response_once process_unsubscribe_response_once
  process_edit_order_once : keeps.
