(* ===== verification/Signing.v ===== *)
(** * Sign requests are answered

    [Orders] shows what the client never signs.  This file shows the other side: when
    the server asks for a signature on agreed terms, the wallet signs and the server
    listens, then the client signs and sends the signature at once
    ([try_process_sign], [try_sign] in src/rust/sideswap_client/src/worker.rs); and
    that a change of price by the user ([try_edit_order_price]) leads to agreed terms. *)
From stdpp Require Import base numbers gmap strings list sets sorting pretty.
From Stdlib Require Import ZArith Lia SpecFloat.
From S2P Require Import Prelude F64 Api Types Env ClientApi Client Orders Market.

Open Scope Z_scope.

Section Signing.
Context `{WorkerEnv}.

(** ** What the outside does *)

(** The wallet signs a PSET for these amounts. *)
Definition wallet_signs (account : AccountId) (amounts : SwapAmounts) (pset : string)
    (nonces : list string) (signed : string) : Prop :=
  ∀ log, ses_verify_and_sign_pset log account amounts pset nonces = inl signed.

(** The server answers a request in time. *)
Definition server_answers (r : Request) (resp : Response) : Prop :=
  ∀ log id, await_response id (env_responses (Ev_request id r :: log) id) = inl resp.

(** The nonces that go with a signature of an account. *)
Definition signing_nonces (amp : bool) (msg : SignNotification) : option (list string) :=
  if amp then sign_ntf_nonces msg else Some [].

(** ** One step at a time *)

(** The state once a request is out. *)
Definition requested (r : Request) (s : Data) : Data :=
  s <| wk_next_id ::= (λ n, wi64 (n + 1)) |>
    <| wk_log ::= cons (Ev_request (RequestId_Int (wk_next_id s)) r) |>.

Lemma request_answered {A} r (proj : Response → option A) resp a s :
  server_answers r resp → proj resp = Some a → request r proj s = (requested r s, Ok a).
Proof.
  intros Hans Hproj.
  unfold request, send_request, send_request_msg, next_id, wk_emit, try_res, ok_or, lift, ook_or.
  unfold bind, gets, modify, ret. cbv beta iota.
  match goal with
  | |- context [await_response ?i ?l] =>
      assert (await_response i l = inl resp) as -> by exact (Hans _ _)
  end.
  cbv beta iota. by rewrite Hproj.
Qed.

(** The state once the wallet was asked for a signature. *)
Definition asked_wallet (account : AccountId) (op : WalletOp) (s : Data) : Data :=
  s <| wk_log ::= cons (Ev_wallet account op) |>.

Lemma wallet_answered {A} account op (f : list WEvent → AccountId → A + string) a s :
  is_Some (wk_wallets s !! account) → (∀ log, f log account = inl a) →
  ses_call_try account op f s = (asked_wallet account op s, Ok a).
Proof.
  intros [w Hw] Hf. unfold ses_call_try, get_wallet, ses_call, wk_query, wk_emit, try_res.
  unfold bind, gets, modify, ret. cbv beta iota. rewrite_field Hw. by rewrite Hf.
Qed.

Definition sign_side_request (order_id : OrderId) (signed : string) (d : SubmitData) : Request :=
  Request_Sign {| sign_order_id := order_id; sign_signed_pset := signed; sign_side := sub_side d |}.

Lemma try_sign_signs s msg d nonces signed :
  let order_id := sign_ntf_order_id msg in
  let amp := bool_decide (sub_asset d ∈ wk_amp_assets s) in
  let r := sign_side_request order_id signed d in
  wk_submit_data s !! order_id = Some d → sub_order_id d = order_id →
  signing_nonces amp msg = Some nonces →
  is_Some (wk_wallets s !! account_of amp) →
  wallet_signs (account_of amp) (submit_amounts d) (sign_ntf_pset msg) nonces signed →
  server_answers r (Response_Sign tt) →
  (try_sign msg s).2 = Ok false ∧ (∃ id, Ev_request id r ∈ new_events s (try_sign msg s).1) ∧
  wk_submit_data (try_sign msg s).1 !! order_id = Some (d <| sub_signed := true |>).
Proof.
  intros order_id amp r Hd Hid Hn Hw Hsig Hans. unfold try_sign. rewrite bind_gets. fold order_id.
  rewrite (bind_run _ _ _ _ _ (ok_or_run _ _ s d Hd)).
  rewrite (bind_run _ _ _ _ _ (ensure_run _ _ s (bool_decide_eq_true_2 _ Hid))). rewrite bind_gets.
  fold amp.
  assert ((if amp then ok_or (sign_ntf_nonces msg) "blinding keys should be known" else ret []) s
          = (s, Ok nonces)) as En.
  { unfold signing_nonces in Hn. destruct amp; [by apply ok_or_run|]. by injection Hn as <-. }
  rewrite (bind_run _ _ _ _ _ En).
  rewrite (bind_run _ _ _ _ _ (wallet_answered _ _ _ signed s Hw Hsig)).
  set (s1 := asked_wallet _ _ s).
  rewrite (bind_run _ _ _ _ _ (request_answered r as_Sign _ tt s1 Hans eq_refl)).
  set (s2 := requested r s1). rewrite bind_gets.
  rewrite (bind_run _ _ _ _ _ (expect_run _ _ s2 d Hd)). rewrite bind_modify.
  set (s3 := s2 <| wk_submit_data ::= _ |>).
  assert (∃ e, wk_log s3 = Ev_request (RequestId_Int (wk_next_id s1)) r :: e :: wk_log s) as [e El]
    by (by eexists).
  assert (wk_submit_data s3 !! order_id = Some (d <| sub_signed := true |>)) as Ed
    by (by apply lookup_insert_eq).
  assert (∀ s', (∃ new, wk_log s' = new ++ wk_log s3) → ∃ id, Ev_request id r ∈ new_events s s') as Hev.
  { intros s' [new E]. exists (RequestId_Int (wk_next_id s1)). unfold new_events. rewrite E, El.
    change (new ++ ?a :: ?b :: ?l) with (new ++ [a; b] ++ l). rewrite app_assoc, length_app.
    rewrite Nat.add_sub, take_app_length. set_solver. }
  destruct (bool_decide _ && _); simpl.
  - split; [done|]. split; [apply Hev; by eexists [_]|exact Ed].
  - split; [done|]. split; [apply Hev; by exists []|exact Ed].
Qed.

(** ** A request on agreed terms *)

Lemma agreed_check force d details :
  agreed_terms force d details →
  check_terms d details = Ok tt ∧ auto_sign_allowed force d details = true.
Proof.
  intros (Ha & Hs & Hb & Ho & Hamt & Hside). unfold check_terms, auto_sign_allowed.
  rewrite Ho in Hamt. rewrite Hs in Hside. rewrite Ha, Hs, Hb, Ho, eqb_reflx.
  rewrite (bool_decide_eq_true_2 (details_order_type details = _) eq_refl),
    (bool_decide_eq_true_2 (details_asset details = _) eq_refl),
    (bool_decide_eq_true_2 (details_side details = details_side details) eq_refl).
  cbn [oensure obind].
  assert (match details_order_type details with
          | OrderType_Bitcoin =>
              do? oensure (sub_server_fee d =? details_server_fee details) "server_fee" in
              oensure (sub_bitcoin_amount d =? details_bitcoin_amount details) "bitcoin_amount"
          | OrderType_Asset =>
              oensure (sub_asset_amount d =? details_asset_amount details) "asset_amount"
          end = Ok tt) as ->.
  { destruct (details_order_type details).
    - destruct Hamt as [-> ->]. by rewrite !Z.eqb_refl.
    - by rewrite Hamt, Z.eqb_refl. }
  cbn [obind]. destruct (details_side details).
  - rewrite orb_true_r. split; [done|]. destruct Hside as [->|[-> Hc]]; [apply orb_true_r|].
    by rewrite Hc.
  - by rewrite Hside.
Qed.

(** C17: a sign request on agreed terms is answered at once.  When the server asks for
    the signature of an order the client has not handled yet, the amounts are
    consistent with the price, the terms are those of the order - automatic signing
    is on and the price has moved no further than it allows, if the offer is the
    client's own - and the wallet signs and the server listens, then the client sends
    the signature. *)
Theorem agreed_request_signed s msg d nonces signed :
  let order_id := sign_ntf_order_id msg in
  let details := sign_ntf_details msg in
  let amp := bool_decide (details_asset details ∈ wk_amp_assets s) in
  let amounts := swap_amounts (details_send_bitcoins details) (details_asset details)
                   (details_bitcoin_amount details) (details_asset_amount details)
                   (details_server_fee details) in
  let r := Request_Sign {| sign_order_id := order_id; sign_signed_pset := signed;
                           sign_side := details_side details |} in
  order_id ∉ wk_processed_signs s → verify_amounts (wk_assets s) details = Ok tt →
  wk_submit_data s !! order_id = Some d → sub_order_id d = order_id →
  agreed_terms (wk_force_auto_sign_maker s) d details →
  signing_nonces amp msg = Some nonces → is_Some (wk_wallets s !! account_of amp) →
  wallet_signs (account_of amp) amounts (sign_ntf_pset msg) nonces signed →
  server_answers r (Response_Sign tt) →
  (try_process_sign msg s).2 = Ok tt ∧ ∃ id, Ev_request id r ∈ new_events s (try_process_sign msg s).1.
Proof.
  intros order_id details amp amounts r Hnew Hv Hd Hid Hagreed Hn Hw Hsig Hans.
  destruct (agreed_check _ _ _ Hagreed) as [Hcheck Hauto].
  unfold try_process_sign. fold order_id details. rewrite bind_gets, bool_decide_false by done.
  rewrite bind_modify, bind_gets.
  set (s1 := s <| wk_processed_signs ::= _ |>).
  assert (lift (verify_amounts (wk_assets s1) details) s1 = (s1, Ok tt)) as Ev
    by exact (f_equal (pair s1) Hv).
  rewrite (bind_run _ _ _ _ _ Ev), bind_gets.
  rewrite (bind_run _ _ _ _ _ (ok_or_run _ _ s1 d Hd)).
  rewrite (bind_run _ _ _ _ _ (ensure_run _ _ s1 (bool_decide_eq_true_2 _ (eq_sym Hid)))).
  assert (lift (check_terms d details) s1 = (s1, Ok tt)) as Ec by (unfold lift; by rewrite Hcheck).
  rewrite (bind_run _ _ _ _ _ Ec), bind_gets.
  match goal with
  | |- context [auto_sign_allowed ?f d details] =>
      assert (auto_sign_allowed f d details = true) as -> by exact Hauto
  end.
  rewrite bind_modify. cbn [negb].
  set (s2 := s1 <| wk_submit_data ::= _ |>).
  destruct Hagreed as (Ha & Hs & Hb & _). set (d2 := accept_terms details d).
  assert (sub_asset d2 = details_asset details) as Ea by exact Ha.
  destruct (try_sign_signs s2 msg d2 nonces signed) as (Hok & (id & Hsent) & _).
  - apply lookup_insert_eq.
  - exact Hid.
  - rewrite Ea. exact Hn.
  - rewrite Ea. exact Hw.
  - rewrite Ea. unfold d2. rewrite accepted_amounts by done. exact Hsig.
  - unfold sign_side_request. change (sub_side d2) with (sub_side d). rewrite Hs. exact Hans.
  - assert (try_sign msg s2 = ((try_sign msg s2).1, Ok false)) as Erun
      by (rewrite <- Hok; apply surjective_pairing).
    rewrite (bind_run _ _ _ _ _ Erun). split; [done|]. exists id.
    unfold sign_side_request in Hsent. change (sub_side d2) with (sub_side d) in Hsent.
    rewrite Hs in Hsent. exact Hsent.
Qed.
End Signing.

(** ** After the user edits the price *)

Definition finite_price (price : f64) : Prop := ∃ m e, price = S754_finite false m e.

Lemma price_change_none price : finite_price price → price_change_of price price = f0.
Proof.
  intros (m & e & ->). unfold price_change_of, fsub, SFsub. rewrite Z.sub_diag.
  cbn [binary_normalize]. unfold fdiv, SFdiv, fabs, SFabs. reflexivity.
Qed.

(** An own offer with automatic signing, and a sign request for it after the price was
    edited. *)
Record edited_request `{WorkerEnv} (d : SubmitData) (price : f64) (assets : gmap AssetId Asset)
    (details : Details) : Prop := {
  er_price : finite_price price;
  er_details_price : details_price details = price;
  er_verified : verify_amounts assets details = Ok tt;
  er_maker : sub_side d = OrderSide_Maker ∧ details_side details = OrderSide_Maker;
  er_auto_sign : sub_auto_sign d = true;
  er_asset : sub_asset d = details_asset details;
  er_precision : asset_precision <$> assets !! details_asset details = Some (sub_asset_precision d);
  er_direction : sub_sell_bitcoin d = details_send_bitcoins details;
  er_type : sub_order_type d = details_order_type details;
  er_market : sub_market d = details_market details;
  er_fixed : match sub_order_type d with
             | OrderType_Bitcoin =>
                 sub_bitcoin_amount d = details_bitcoin_amount details ∧
                 sub_server_fee d = get_server_fee (sub_bitcoin_amount d)
             | OrderType_Asset => sub_asset_amount d = details_asset_amount details
             end
}.

Lemma verified_amounts `{WorkerEnv} assets details :
  verify_amounts assets details = Ok tt →
  ∃ asset, assets !! details_asset details = Some asset ∧
    details_server_fee details = get_server_fee (details_bitcoin_amount details) ∧
    match details_order_type details with
    | OrderType_Bitcoin =>
        Types.asset_amount (details_bitcoin_amount details) (details_price details)
          (asset_precision asset) (details_market details) = Ok (details_asset_amount details)
    | OrderType_Asset =>
        Types.bitcoin_amount (details_asset_amount details) (details_price details)
          (asset_precision asset) (details_market details) = Ok (details_bitcoin_amount details)
    end.
Proof.
  unfold verify_amounts. intros Hv. ok_inv. eexists. split; [eassumption|]. split; [by apply Z.eqb_eq|].
  destruct (details_order_type details); ok_inv;
    match goal with E : (_ =? _) = true |- _ => apply Z.eqb_eq in E; subst; done end.
Qed.

(** C26: an edit of the price does not stop automatic signing.  When the user changes
    the price of an own offer and the server then asks for a signature at that price
    with consistent amounts, the request is on agreed terms, and the amounts the
    client worked out for the new price are those of the request to the last
    satoshi. *)
Theorem edited_price_agreed `{WorkerEnv} force d price d' assets details :
  reprice d price = Ok d' → edited_request d price assets details →
  agreed_terms force d' details ∧ accept_terms details d' = d'.
Proof.
  intros Hr [Hp Hdp Hv [Hs Hds] Hauto Ha Hprec Hb Ho Hm Hfix].
  destruct (verified_amounts _ _ Hv) as (asset & Hasset & Hfee & Hamt).
  rewrite Hasset in Hprec. injection Hprec as Hprec.
  change (asset_precision asset = sub_asset_precision d) in Hprec. rewrite Hdp, Hprec, <- Hm in Hamt.
  assert (fleb (price_change_of price price) (if sub_index_price d
            then AUTO_SIGN_ALLOWED_INDEX_PRICE_CHANGE else f0) = true) as Hc.
  { rewrite price_change_none by done. destruct (sub_index_price d); vm_compute; reflexivity. }
  unfold reprice in Hr. unfold agreed_terms. rewrite <- Ho in Hamt.
  destruct (sub_order_type d) eqn:Htype.
  - destruct Hfix as [Hfb Hff]. rewrite Hfb, Hamt in Hr. injection Hr as <-.
    destruct d; simpl in *. subst. split; [repeat (split; [congruence|])|].
    + split; [split; congruence|]. right. split; [reflexivity|exact Hc].
    + unfold accept_terms. rewrite Hfee. reflexivity.
  - rewrite Hfix, Hamt in Hr. injection Hr as <-.
    destruct d; simpl in *. subst. split; [repeat (split; [congruence|])|].
    + right. split; [reflexivity|exact Hc].
    + unfold accept_terms. rewrite Hfee. reflexivity.
Qed.

Import OrderSample.

Lemma agreed_request_signed_witness :
  let s := accepted OrderSide_Maker in
  let msg := Sample.sign_msg OrderSide_Maker in
  let r := Request_Sign {| sign_order_id := Sample.order_id; sign_signed_pset := "signed pset";
                           sign_side := OrderSide_Maker |} in
  (try_process_sign msg s).2 = Ok tt ∧ ∃ id, Ev_request id r ∈ new_events s (try_process_sign msg s).1.
Proof.
  intros s msg r.
  apply (agreed_request_signed s msg
           (submit_data_of (link OrderSide_Maker) Sample.asset ∅ true) [] "signed pset").
  - intros Hin. exact (not_elem_of_empty _ Hin).
  - vm_compute. reflexivity.
  - vm_compute. reflexivity.
  - reflexivity.
  - repeat split. right. split; [reflexivity|vm_compute; reflexivity].
  - reflexivity.
  - exists (Sample.wallet ACCOUNT_ID_REG). vm_compute. reflexivity.
  - intros log. reflexivity.
  - intros log id. unfold env_responses. simpl. rewrite bool_decide_eq_true_2; reflexivity.
Defined.

(** The offer of the examples, moved from the price 2 to the price 3. *)
Module EditSample.
Definition offer : SubmitData := submit_data_of (link OrderSide_Maker) Sample.asset ∅ true.

Definition details : Details :=
  (Sample.details OrderSide_Maker) <| details_price := f64_of_Z 3 |> <| details_asset_amount := 30000000 |>.
End EditSample.

Lemma edited_price_agreed_witness :
  let d' := EditSample.offer <| sub_price := f64_of_Z 3 |> <| sub_asset_amount := 30000000 |> in
  agreed_terms false d' EditSample.details ∧ accept_terms EditSample.details d' = d'.
Proof.
  intros d'.
  apply (edited_price_agreed false EditSample.offer (f64_of_Z 3) d' {[Sample.asset_id := Sample.asset]}).
  - vm_compute. reflexivity.
  - split; try reflexivity.
    + eexists _, _. vm_compute. reflexivity.
    + split; reflexivity.
    + split; vm_compute; reflexivity.
Defined.
