(* ===== verification/Pending.v ===== *)
(** * Working through what waits terminates

    [process_sign] and [process_pending_requests] (in
    src/rust/sideswap_client/src/worker.rs) call each other, and the loop over the
    queued sign requests runs until the queue is empty.  This file shows that the
    calls nest at most twice and that the loop runs once for every queued request, so
    that the fuel of [process_pending_requests] in [Market] is never used up. *)
From stdpp Require Import base numbers gmap strings list sets sorting pretty.
From Stdlib Require Import ZArith Lia SpecFloat.
From S2P Require Import Prelude F64 Api Types Env ClientApi Client Orders Market.

Open Scope Z_scope.

Section Pending.
Context `{WorkerEnv}.

(** ** What signing leaves alone *)

Definition queues (s : Data) := (wk_pending_signs s, wk_pending_sign_requests s).

Lemma stable_queues c : stable (λ s, queues s = c).
Proof. intros s s' E <-. injection E. unfold queues. by intros _ _ _ -> -> _ _ _ _. Qed.
#[local] Hint Resolve stable_queues : quiet.

Lemma queues_request {A} c r (proj : Response → option A) :
  keeps (λ s, queues s = c) (request r proj).
Proof. unfold request, send_request, send_request_msg, wk_emit. frame. Qed.
#[local] Hint Resolve queues_request : keeps.
Lemma queues_try_sign c msg : keeps (λ s, queues s = c) (try_sign msg).
Proof. unfold try_sign. frame. Qed.
Lemma queues_next_sign_prompt c prompts : keeps (λ s, queues s = c) (next_sign_prompt prompts).
Proof. induction prompts as [|msg prompts IH]; simpl; frame. Qed.
#[local] Hint Resolve queues_try_sign queues_next_sign_prompt : keeps.
Lemma queues_process_pending_sign_prompts c : keeps (λ s, queues s = c) process_pending_sign_prompts.
Proof. unfold process_pending_sign_prompts. frame. Qed.
#[local] Hint Resolve queues_process_pending_sign_prompts : keeps.
Lemma queues_try_process_sign c msg : keeps (λ s, queues s = c) (try_process_sign msg).
Proof. unfold try_process_sign. frame. Qed.

(** ** The queue of sign requests *)

Lemma keeps_queues_show_error {A} c prefix (r : A + string) :
  keeps (λ s, queues s = c) (show_error prefix r).
Proof. apply keeps_quiet; auto with quiet. Qed.

(** With fuel for every queued request the loop never gets to [out]. *)
Lemma run_sign_requests_fuel out n s :
  (length (wk_pending_sign_requests s) ≤ n)%nat →
  run_sign_requests_from out n s = run_sign_requests s.
Proof.
  assert (∀ out out' n n' q, (length q ≤ n)%nat → (length q ≤ n')%nat →
    same_on (λ s, wk_pending_sign_requests s = q)
      (run_sign_requests_from out n) (run_sign_requests_from out' n')) as Hsame.
  { clear. intros out out' n n' q. revert n n'.
    induction q as [|msg q IH]; intros n n' Hn Hn' s Hs.
    - destruct n, n'; cbn [run_sign_requests_from]; rewrite !bind_gets; by rewrite_field Hs.
    - destruct n as [|n], n' as [|n']; simpl in Hn, Hn'; try lia.
      cbn [run_sign_requests_from]. rewrite !bind_gets. rewrite_field Hs.
      rewrite !bind_modify, !bind_gets.
      assert (wk_pending_sign_requests (s <| wk_pending_sign_requests := q |>) = q) as Hq by done.
      revert Hq. generalize (s <| wk_pending_sign_requests := q |>). clear s Hs. intros s Hs.
      specialize (IH n n' ltac:(lia) ltac:(lia)).
      case_bool_decide as Hnew; [by apply IH|clear Hnew].
      assert (∀ A (m : DataM A), (∀ c, keeps (λ s, queues s = c) m) →
                keeps (λ s, wk_pending_sign_requests s = q) m) as Hk.
      { intros A m Hm s' Hs'. pose proof (Hm _ s' eq_refl) as E. injection E as _ E. by rewrite E. }
      revert s Hs. apply same_on_bind; [|apply same_on_refl|intros r].
      { apply Hk. intros c. apply keeps_attempt, queues_try_process_sign. }
      apply same_on_bind; [|apply same_on_refl|done].
      apply Hk. intros c. apply keeps_queues_show_error. }
  intros Hn. unfold run_sign_requests. rewrite bind_gets. by eapply Hsame.
Qed.

(** ** Nested calls *)

Definition no_signs (s : Data) : Prop := wk_pending_signs s = ∅.

Lemma stable_no_signs : stable no_signs.
Proof. intros s s' E Hs. unfold no_signs. injection E. by intros _ _ _ _ -> _ _ _ _. Qed.
#[local] Hint Resolve stable_no_signs : quiet.

Lemma keeps_no_signs {A} (m : DataM A) : (∀ c, keeps (λ s, queues s = c) m) → keeps no_signs m.
Proof.
  intros Hm s Hs. pose proof (Hm _ s eq_refl) as E. injection E as E _. unfold no_signs. by rewrite E.
Qed.

(** With nothing to download the nested call is not reached. *)
Lemma run_pending_no_signs p q : same_on no_signs (run_pending p) (run_pending q).
Proof.
  intros s Hs. unfold no_signs in Hs. unfold run_pending. rewrite !bind_gets, !bind_modify.
  by rewrite_field Hs.
Qed.

Lemma pending_step_no_signs p q : same_on no_signs (pending_step p) (pending_step q).
Proof.
  intros s Hs. unfold pending_step. rewrite !bind_gets.
  destruct (negb _); [done|]. destruct (waits_for_amp s); [done|]. by apply run_pending_no_signs.
Qed.

Lemma keeps_no_signs_run_sign_requests : keeps no_signs run_sign_requests.
Proof.
  assert (∀ out n, keeps no_signs out → keeps no_signs (run_sign_requests_from out n)) as Hf.
  { intros out n Hout. pose proof (λ msg, keeps_no_signs _ (λ c, queues_try_process_sign c msg)).
    induction n as [|n IH]; simpl; frame. }
  unfold run_sign_requests. frame.
Qed.

Lemma keeps_no_signs_process_sign_with p msg :
  keeps no_signs p → keeps no_signs (process_sign_with p msg).
Proof.
  intros Hp. pose proof (keeps_no_signs _ (λ c, queues_try_process_sign c msg)).
  unfold process_sign_with. frame.
Qed.
#[local] Hint Resolve keeps_no_signs_process_sign_with : keeps.

Lemma keeps_no_signs_download_sign_request p id :
  keeps no_signs p → keeps no_signs (download_sign_request p id).
Proof. intros Hp. unfold download_sign_request. frame. Qed.
#[local] Hint Resolve keeps_no_signs_download_sign_request : keeps.

Lemma keeps_no_signs_step p : keeps no_signs (pending_step p).
Proof.
  pose proof (keeps_no_signs _ queues_process_pending_sign_prompts).
  pose proof keeps_no_signs_run_sign_requests.
  assert (∀ signs, keeps no_signs (download_signs (ret tt) signs)) as Hd.
  { induction signs as [|[id sender] signs IH]; simpl; frame. }
  assert (keeps no_signs (pending_step (ret tt))) as Hstep.
  { unfold pending_step, run_pending. frame; by apply keeps_modify. }
  intros s Hs. rewrite (pending_step_no_signs p (ret tt) s Hs). by apply Hstep.
Qed.
#[local] Hint Resolve keeps_no_signs_step : keeps.

Lemma same_process_sign_with p q msg :
  same_on no_signs (process_sign_with (pending_step p) msg) (process_sign_with (pending_step q) msg).
Proof.
  unfold process_sign_with. destruct (bool_decide _); [apply same_on_refl|].
  apply same_on_bind; [|apply same_on_refl|intros _; apply pending_step_no_signs].
  by apply keeps_modify.
Qed.

Lemma same_download_sign_request p q id :
  same_on no_signs (download_sign_request (pending_step p) id)
    (download_sign_request (pending_step q) id).
Proof.
  unfold download_sign_request.
  do 3 (apply same_on_bind; [frame|apply same_on_refl|intros ?]). apply same_process_sign_with.
Qed.

(** The calls made while downloading sign requests have none to download. *)
Lemma same_download_signs p q signs :
  same_on no_signs (download_signs (pending_step p) signs) (download_signs (pending_step q) signs).
Proof.
  induction signs as [|[id sender] signs IH]; simpl; [apply same_on_refl|].
  apply same_on_bind; [frame|apply same_on_refl|intros processed].
  apply same_on_bind; [frame| |intros senders].
  - destruct (bool_decide _); [apply same_on_refl|].
    apply same_on_bind; [frame|apply same_on_attempt, same_download_sign_request|].
    intros r. apply same_on_refl.
  - assert (∀ signs, keeps no_signs (download_signs (pending_step p) signs)) as Hd
      by (clear; induction signs as [|[id sender] signs IH]; simpl; frame).
    apply same_on_bind; [apply Hd|exact IH|intros rest; apply same_on_refl].
Qed.

(** Calls of [process_pending_requests] nest at most twice. *)
Lemma pending_step_twice p q s :
  pending_step (pending_step p) s = pending_step (pending_step q) s.
Proof.
  unfold pending_step at 1 3. rewrite !bind_gets.
  destruct (negb _); [done|]. destruct (waits_for_amp s); [done|].
  unfold run_pending. rewrite !bind_gets, !bind_modify. set (s' := set wk_pending_signs _ s).
  unfold bind at 1 10. rewrite (same_download_signs p q _ s'); [|done]. done.
Qed.

(** Fuel that suffices: with more of it nothing changes. *)
Definition enough_fuel (need : nat) (run : nat → DataM unit) (result : DataM unit) (s : Data) : Prop :=
  ∀ fuel, (need ≤ fuel)%nat → run fuel s = result s.

(** C23: what waits for the connection is worked through in finitely many steps.  The
    calls of [process_pending_requests] and [process_sign] to each other nest at most
    twice, whatever a deeper call would do; more fuel than two changes nothing; and
    the loop over the queued sign requests goes round once for each of them. *)
Theorem pending_requests_terminate s :
  (∀ deeper, pending_step (pending_step deeper) s = process_pending_requests s) ∧
  enough_fuel 2 process_pending_requests_fuel process_pending_requests s ∧
  (∀ out, enough_fuel (length (wk_pending_sign_requests s)) (run_sign_requests_from out)
     run_sign_requests s).
Proof.
  split_and!.
  - intros deeper. apply pending_step_twice.
  - intros [|[|fuel]] Hf; [lia..|]. apply pending_step_twice.
  - intros out fuel. apply run_sign_requests_fuel.
Qed.
End Pending.
