(* ===== verification/Flows.v ===== *)
(** * The client's wallets and payments

    The part of [rust/sideswap_client/src/worker.rs] that follows the wallets
    (balances, transactions, addresses, notifications), moves money on the user's
    request (payments, payjoin, pegs, instant swaps), and logs in and out. *)
From stdpp Require Import base numbers gmap strings list sets sorting pretty.
From Stdlib Require Import ZArith Lia SpecFloat.
From S2P Require Import Prelude F64 Api Types Env ClientApi Client Orders Market.

Open Scope Z_scope.
#[local] Set Primitive Projections.

(** ** Pure helpers *)

(** [convert_chart_point] copies the fields one by one. *)
Definition convert_chart_point (point : ChartPoint) : ChartPoint := point.

Definition addressee_amount (account : AccountId) (tx : CreateTransactionResult) (addr : TxAddressee)
    : outcome Z :=
  if account =? ACCOUNT_ID_REG then Ok (ta_satoshi addr)
  else if account =? ACCOUNT_ID_AMP then
    let output := filter (λ o, to_address o = Some (ta_address addr)) (cr_transaction_outputs tx) in
    match output with
    | [o] => Ok (to_satoshi o)
    | _ => Err "Condition failed: `output.len() == 1`"
    end
  else Err "unknown account id".

Fixpoint created_addressees (account : AccountId) (tx : CreateTransactionResult)
    (l : list TxAddressee) : outcome (list AddressAmount) :=
  match l with
  | [] => Ok []
  | addr :: l =>
      let? amount := addressee_amount account tx addr in
      let? rest := created_addressees account tx l in
      Ok ({| aa_address := ta_address addr; aa_amount := wi64 amount;
             aa_asset_id := Hash32_to_string (ta_asset_id addr) |} :: rest)
  end.

Definition get_created_tx (req : CreateTx) (unsigned_tx : CreateTransactionResult)
    : outcome CreatedTx :=
  let? tx := ook_or (cr_transaction unsigned_tx) "no transaction" in
  let '(input_len, output_len, size) := tx in
  let? addressees :=
    created_addressees (ct_account req) unsigned_tx (cr_addressees unsigned_tx) in
  Ok {| cd_req := req;
        cd_input_count := wrap_s 32 input_len;
        cd_output_count := wrap_s 32 output_len;
        cd_size := wi64 size;
        cd_vsize := wi64 (default 0 (cr_transaction_vsize unsigned_tx));
        cd_network_fee := wi64 (default 0 (cr_fee unsigned_tx));
        cd_fee_per_byte :=
          fdiv (f64_of_Z (default 0 (cr_fee_rate unsigned_tx))) (f64_of_Z 1000);
        cd_addressees := addressees |}.

Section Flows.
Context `{WorkerEnv}.

(** ** Following the wallets *)

Definition send_gaid : DataM unit :=
  let! r := attempt (ses_call_try ACCOUNT_ID_AMP W_get_gaid ses_get_gaid) in
  match r with
  | inl gaid => ui_send (From_RegisterAmp gaid)
  | inr _ => ret tt
  end.

Definition ADDRESS_COUNT : Z := 100.

Definition register_addresses (device_key : string) (addresses : list string) (cb : Callback)
    : DataM unit :=
  make_async_request (Request_RegisterAddresses
    {| register_addresses_device_key := device_key;
       register_addresses_addresses := addresses |}) cb.

Definition register_single (is_internal : bool) : DataM unit :=
  let! s := gets id in
  match wk_connected s, st_device_key (wk_settings s), wk_wallets s !! ACCOUNT_ID_REG with
  | true, Some device_key, Some wallet =>
      let pick (p : Z * Z) := if is_internal then p.2 else p.1 in
      let first := pick (st_single_sig_registered (wk_settings s)) in
      let last := wu32 (pick (ua_single_sig (wk_used_addresses s)) + ADDRESS_COUNT) in
      let addresses :=
        single_sig_address (xp_single_sig_account (wl_xpubs wallet)) is_internal <$>
          seqZ first (last - first) in
      register_addresses device_key addresses (Cb_RegisterSingle is_internal last)
  | _, _, _ => ret tt
  end.

Definition register_multi : DataM unit :=
  let! s := gets id in
  match wk_connected s, st_device_key (wk_settings s), wk_wallets s !! ACCOUNT_ID_AMP with
  | true, Some device_key, Some wallet =>
      let first := st_multi_sig_registered (wk_settings s) in
      let last := wu32 (ua_multi_sig (wk_used_addresses s) + ADDRESS_COUNT) in
      let addresses :=
        multi_sig_address (xp_multi_sig_service_xpub (wl_xpubs wallet))
          (xp_multi_sig_user_xpub (wl_xpubs wallet)) <$> seqZ first (last - first) in
      register_addresses device_key addresses (Cb_RegisterMulti last)
  | _, _, _ => ret tt
  end.

Definition update_address_registrations : DataM unit :=
  do! for_each [false; true] register_single in
  register_multi.

Definition update_used_addresses (account_id : AccountId) (transactions : list Transaction)
    : DataM unit :=
  let pointer_external := foldr Z.max 0 (mt_max_pointer_external <$> transactions) in
  let pointer_internal := foldr Z.max 0 (mt_max_pointer_internal <$> transactions) in
  do! (if account_id =? ACCOUNT_ID_REG then
         modify (λ s, s <| wk_used_addresses ::= (λ u,
           {| ua_single_sig := (pointer_external, pointer_internal);
              ua_multi_sig := ua_multi_sig u |}) |>)
       else if account_id =? ACCOUNT_ID_AMP then
         modify (λ s, s <| wk_used_addresses ::= (λ u,
           {| ua_single_sig := ua_single_sig u; ua_multi_sig := pointer_external |}) |>)
       else ret tt) in
  update_address_registrations.

Definition resync_balances (account_id : AccountId) : DataM unit :=
  let! r := attempt (ses_call_try account_id W_get_balances ses_get_balances) in
  match r with
  | inl balances =>
      ui_send (From_BalanceUpdate account_id
        ((λ e : AssetId * Z, {| bal_asset_id := Hash32_to_string e.1; bal_amount := e.2 |}) <$>
           btree_list balances))
  | inr _ => ret tt
  end.

Definition resync_utxos (account_id : AccountId) : DataM unit :=
  let! send_utxo_updates := gets wk_send_utxo_updates in
  if negb send_utxo_updates then ret tt
  else
    let! r := attempt (ses_call_try account_id W_get_utxos ses_get_utxos) in
    match r with
    | inl utxos =>
        ui_send (From_UtxoUpdate account_id
          (convert_to_proto_utxo <$> concat (btree_list utxos).*2))
    | inr _ => ret tt
    end.

Definition resync_transactions (account_id : AccountId) : DataM unit :=
  let! last_block := gets (λ s, wk_last_blocks s !! account_id) in
  match last_block with
  | None => ret tt
  | Some top_block =>
      let! r := attempt (ses_call_try account_id W_get_transactions ses_get_transactions) in
      match r with
      | inl items =>
          do! update_used_addresses account_id items in
          send_new_transactions items account_id top_block
      | inr _ => ret tt
      end
  end.

Definition resync_wallet (account_id : AccountId) : DataM unit :=
  do! resync_balances account_id in
  do! resync_utxos account_id in
  resync_transactions account_id.

Definition send_wallet_loaded : DataM unit :=
  let! sent := gets wk_wallet_loaded_sent in
  if sent then ret tt
  else
    do! modify (λ s, s <| wk_wallet_loaded_sent := true |>) in
    ui_send From_WalletLoaded.

Definition sync_complete (account_id : AccountId) : DataM unit :=
  let! complete := gets wk_sync_complete in
  do! (if complete then ret tt
       else
         do! modify (λ s, s <| wk_sync_complete := true |>) in
         do! send_wallet_loaded in
         do! process_pending_requests in
         ui_send From_SyncComplete) in
  resync_wallet account_id.

Definition sync_failed : DataM unit := show_message "electrs connection failed".

(** A new block: the transactions are read again while some are unconfirmed. *)
Definition on_block (account_id : AccountId) (block : option Z) : DataM unit :=
  let! unconfirmed_txs := gets (λ s,
    from_option (λ txids : gset Txid, negb (bool_decide (txids = ∅))) false (wk_unconfirmed_txids s !! account_id)) in
  let! height := expect block "called `Option::unwrap()` on a `None` value" in
  let! old_value := gets (λ s, wk_last_blocks s !! account_id) in
  do! modify (λ s, s <| wk_last_blocks ::= <[account_id := height]> |>) in
  if unconfirmed_txs || bool_decide (old_value = None) then resync_wallet account_id else ret tt.

Definition on_wallet_connected (account_id : AccountId) : DataM unit :=
  let! connect_result := ses_call account_id W_login ses_login in
  match connect_result with
  | inl _ =>
      do! (if account_id =? ACCOUNT_ID_AMP then
             do! send_gaid in
             do! modify (λ s, s <| wk_amp_connected := true |>) in
             process_pending_requests
           else ret tt) in
      resync_wallet account_id
  | inr e => show_message ("connection failed: " +:+ e)
  end.

Definition process_wallet_notif (account_id : AccountId) (notification : GdkNotification)
    : DataM unit :=
  let! wallets := gets wk_wallets in
  match wallets !! account_id with
  | None => ret tt
  | Some _ =>
      let event := gn_event notification in
      do! (if String.eqb event "transaction" then resync_wallet account_id
           else if String.eqb event "block" then on_block account_id (gn_block notification)
           else if String.eqb event "subaccount" then
             if bool_decide (gn_subaccount notification = Some "synced")
             then sync_complete account_id else ret tt
           else if String.eqb event "sync_failed" then sync_failed
           else ret tt) in
      let! wallets := gets wk_wallets in
      do! match gn_network notification, wallets !! account_id with
          | Some Connected, Some _ => on_wallet_connected account_id
          | _, _ => ret tt
          end in
      if bool_decide (gn_network notification = Some Disconnected) && (account_id =? ACCOUNT_ID_AMP)
      then modify (λ s, s <| wk_amp_connected := false |>)
      else ret tt
  end.

Definition process_get_recv_address (account : AccountId) : DataM unit :=
  let! result := attempt (ses_call_try account W_get_receive_address ses_get_receive_address) in
  match result with
  | inl addr_info => ui_send (From_RecvAddress (ai_address addr_info) account)
  | inr e => show_message e
  end.

Definition process_set_memo (account : AccountId) (txid memo : string) : DataM unit :=
  let! _r := attempt (ses_call_try account (W_set_memo txid memo)
                        (λ log a, ses_set_memo log a txid memo)) in
  ret tt.

Fixpoint join (sep : string) (l : list string) : string :=
  match l with
  | [] => EmptyString
  | [x] => x
  | x :: l => x +:+ sep +:+ join sep l
  end.

Fixpoint collect_blinded_values (txid : string) (accounts : list AccountId) : DataM (list string) :=
  match accounts with
  | [] => ret []
  | account :: accounts =>
      let! r := ses_call account (W_get_blinded_values txid)
                  (λ log a, ses_get_blinded_values log a txid) in
      let! rest := collect_blinded_values txid accounts in
      ret (match r with inl values => values | inr _ => [] end ++ rest)
  end.

Definition process_blinded_values (txid : string) : DataM unit :=
  let! wallets := gets wk_wallets in
  let! values := collect_blinded_values txid (btree_list wallets).*1 in
  ui_send (From_BlindedValues txid (join "," values)).

(** ** Payments *)

Definition try_process_create_tx (req : CreateTx) : DataM (string * CreatedTx) :=
  let! unsigned_tx :=
    ses_call_try (ct_account req) (W_create_tx req) (λ log a, ses_create_tx log a req) in
  let! parsed := try_res (parse_created_tx unsigned_tx) in
  let! info := lift (get_created_tx req parsed) in
  ret (unsigned_tx, info).

Definition process_create_tx (req : CreateTx) : DataM unit :=
  let! result := attempt (try_process_create_tx req) in
  match result with
  | inl (unsigned_tx, info) =>
      do! modify (λ s, s <| wk_unsigned_tx := Some unsigned_tx |>) in
      ui_send (From_CreateTxResult (inl info))
  | inr e => ui_send (From_CreateTxResult (inr e))
  end.

Definition try_process_send_tx (account : AccountId) : DataM Txid :=
  let! unsigned_tx := gets wk_unsigned_tx in
  do! modify (λ s, s <| wk_unsigned_tx := None |>) in
  let! unsigned_tx := ok_or unsigned_tx "transaction not found" in
  do! get_wallet account in
  let! result := ses_call account (W_send_tx unsigned_tx) (λ log a, ses_send_tx log a unsigned_tx) in
  do! match result with
      | inr _ => modify (λ s, s <| wk_unsigned_tx := Some unsigned_tx |>)
      | inl _ => ret tt
      end in
  try_res result.

(** What [process_send_tx] and [process_send_payjoin] do with the result. *)
Definition finish_send (result : Txid + string) : DataM unit :=
  match result with
  | inl txid =>
      do! modify (λ s, s <| wk_sent_txhash := Some txid |>) in
      update_sync_interval
  | inr e => ui_send (From_SendResult (inr e))
  end.

Definition process_send_tx (account : AccountId) : DataM unit :=
  let! result := attempt (try_process_send_tx account) in
  finish_send result.

Definition process_create_payjoin (req : ProtoCreatePayjoin) : DataM unit :=
  let! result := attempt (ses_call_try (pj_account req) (W_create_payjoin req)
                            (λ log a, ses_create_payjoin log a req)) in
  ui_send (From_CreatePayjoinResult result).

Definition process_send_payjoin (req : ProtoCreatedPayjoin) : DataM unit :=
  let! result := attempt (ses_call_try (pj_account (pj_req req)) (W_send_payjoin req)
                            (λ log a, ses_send_payjoin log a req)) in
  finish_send result.

(** ** Pegs *)

Definition start_peg_monitoring (peg : SPeg) : DataM unit :=
  send_msg (Request_PegStatus {| peg_status_req_order_id := speg_order_id peg;
                                 peg_status_req_peg_in := None |}).

Definition add_peg_monitoring (order_id : OrderId) (dir : PegDir) : DataM unit :=
  let peg := {| speg_order_id := order_id; speg_dir := dir |} in
  let! connected := gets wk_connected in
  do! (if connected then start_peg_monitoring peg else ret tt) in
  do! set_settings (λ s, s <| st_pegs ::= (λ o, Some (default [] o ++ [peg])) |>) in
  save_settings.

Definition resume_peg_monitoring : DataM unit :=
  let! s := gets id in
  if bool_decide (wk_assets s = ∅) || negb (wk_connected s) then ret tt
  else for_each (default [] (st_pegs (wk_settings s))) start_peg_monitoring.

(** Sending everything: the network fee comes out of the amount. *)
Definition pegout_send_amount (req : PegOutAmount) (balance : Z) : DataM Z :=
  if poa_is_send_entered req && (balance =? poa_amount req) then
    do! get_wallet (poa_account req) in
    let! r := ses_call (poa_account req)
      (W_get_tx_fee liquid_asset_id (poa_amount req) fake_p2sh_address)
      (λ log a, ses_get_tx_fee log a liquid_asset_id (poa_amount req) fake_p2sh_address) in
    let! network_fee := try_res r in
    ret (wi64 (poa_amount req - wi64 network_fee))
  else ret (poa_amount req).

Definition try_process_pegout_amount (req : PegOutAmount) : DataM Amounts :=
  let! connected := gets wk_connected in
  do! ensure connected "not connected" in
  let! utxos := ses_call_try (poa_account req) W_get_utxos ses_get_utxos in
  let utxos := filter (λ utxo, uo_asset_id utxo = liquid_asset_id)
                 (default [] (utxos !! liquid_asset_id)) in
  let balance := wi64 (usum (uo_satoshi <$> utxos)) in
  let! amount := pegout_send_amount req balance in
  let! server_status := gets wk_server_status in
  let! server_status := ok_or server_status "server_status is not known" in
  let! amounts := lift (peg_out_amount
    {| por_amount := amount;
       por_is_send_entered := poa_is_send_entered req;
       por_fee_rate := poa_fee_rate req;
       por_min_peg_out_amount := server_status_min_peg_out_amount server_status;
       por_server_fee_percent_peg_out := server_status_server_fee_percent_peg_out server_status;
       por_peg_out_bitcoin_tx_vsize := server_status_peg_out_bitcoin_tx_vsize server_status |}) in
  do! modify (λ s, s <| wk_peg_out_server_amounts := Some
        {| peg_out_amounts_send_amount := po_send_amount amounts;
           peg_out_amounts_recv_amount := po_recv_amount amounts;
           peg_out_amounts_is_send_entered := poa_is_send_entered req;
           peg_out_amounts_fee_rate := poa_fee_rate req |} |>) in
  ret {| am_send_amount := po_send_amount amounts;
         am_recv_amount := po_recv_amount amounts;
         am_fee_rate := poa_fee_rate req;
         am_account := poa_account req;
         am_is_send_entered := poa_is_send_entered req |}.

Definition process_pegout_amount (req : PegOutAmount) : DataM unit :=
  let! result := attempt (try_process_pegout_amount req) in
  ui_send (From_PegOutAmount result).

Definition request_peg (recv_addr : string) (peg_in : bool) (device_key : string)
    (blocks : option Z) (amounts : option PegOutAmounts) : DataM PegResponse :=
  request (Request_Peg {| peg_recv_addr := recv_addr; peg_send_amount := None;
                          peg_peg_in := peg_in; peg_device_key := Some device_key;
                          peg_blocks := blocks; peg_peg_out_amounts := amounts |}) as_Peg.

Definition device_key : DataM string :=
  let! settings := gets wk_settings in
  expect (st_device_key settings) "device_key must exists".

Definition try_process_pegout_request (req : PegOutRequest) : DataM OrderId :=
  let! connected := gets wk_connected in
  do! ensure connected "not connected" in
  let! server_status := gets wk_server_status in
  let! server_status := ok_or server_status "server_status is not known" in
  let min_amount := server_status_min_peg_out_amount server_status in
  do! ensure (min_amount <=? pr_send_amount req) ("min " +:+ display_f64 (to_bitcoin min_amount)) in
  let! amounts := gets wk_peg_out_server_amounts in
  do! modify (λ s, s <| wk_peg_out_server_amounts := None |>) in
  let! amounts := ok_or amounts "peg_out_server_amounts is None" in
  let! device_key := device_key in
  let! resp :=
    request_peg (pr_recv_addr req) false device_key (Some (pr_blocks req)) (Some amounts) in
  do! add_peg_monitoring (peg_resp_order_id resp) PegDir_Out in
  let exact := peg_out_amounts_send_amount amounts in
  let! _r := ses_call_try (pr_account req)
    (W_make_pegout_payment (pr_send_amount req) (peg_resp_peg_addr resp) exact)
    (λ log a, ses_make_pegout_payment log a (pr_send_amount req) (peg_resp_peg_addr resp) exact) in
  ret (peg_resp_order_id resp).

Definition process_pegout_request (req : PegOutRequest) : DataM unit :=
  let! result := attempt (try_process_pegout_request req) in
  match result with
  | inl order_id => modify (λ s, s <| wk_active_extern_peg := Some order_id |>)
  | inr e => ui_send (From_SwapFailed e)
  end.

Definition try_process_pegin_request : DataM FromMsg :=
  let! connected := gets wk_connected in
  do! ensure connected "not connected" in
  let! device_key := device_key in
  let! addr := ses_call_try ACCOUNT_ID_REG W_get_receive_address ses_get_receive_address in
  let recv_addr := ai_address addr in
  let! resp := request_peg recv_addr true device_key None None in
  do! add_peg_monitoring (peg_resp_order_id resp) PegDir_In in
  do! modify (λ s, s <| wk_active_extern_peg := Some (peg_resp_order_id resp) |>) in
  ret (From_PeginWaitTx (peg_resp_peg_addr resp) recv_addr).

Definition process_pegin_request : DataM unit :=
  let! result := attempt try_process_pegin_request in
  match result with
  | inl v => ui_send v
  | inr e => ui_send (From_SwapFailed e)
  end.

Definition process_peg_status (status : PegStatus) : DataM unit :=
  let pegs := get_peg_item status <$> peg_status_list status in
  let! active := gets wk_active_extern_peg in
  let! queue_msgs :=
    match active, peg_status_list status with
    | Some order_id, first_peg :: _ =>
        if bool_decide (order_id = peg_status_order_id status) then
          do! modify (λ s, s <| wk_active_extern_peg := None |>) in
          ret [From_SwapSucceed (get_peg_item status first_peg)]
        else ret []
    | _, _ => ret []
    end in
  do! ui_send (From_UpdatedPegs (Hash32_to_string (peg_status_order_id status)) pegs) in
  for_each queue_msgs ui_send.

(** ** Instant swaps *)

Definition parse_asset (text : string) : DataM AssetId :=
  match AssetId_from_str text with
  | Ok id => ret id
  | _ => fail ("invalid asset id: " +:+ text)
  end.

Definition swap_wallet_inputs (send_asset : AssetId) (send_amount : Z) : DataM (list PsetInput) :=
  let! r := ses_call ACCOUNT_ID_REG W_get_utxos ses_get_utxos in
  let! utxos := try_res r in
  let! inputs := lift (select_swap_inputs (default [] (utxos !! send_asset)) send_amount) in
  ret (convert_to_swap_utxo <$> inputs).

(** The change and receive addresses of an instant swap. *)
Definition swap_addresses : DataM (Address * Address) :=
  do! get_wallet ACCOUNT_ID_REG in
  let! r := ses_call ACCOUNT_ID_REG W_get_change_address ses_get_change_address in
  let! change := try_res r in
  let! r := ses_call ACCOUNT_ID_REG W_get_receive_address ses_get_receive_address in
  let! recv := try_res r in
  ret (ai_address change, ai_address recv).

Definition try_process_swap_request (req : SwapRequest) : DataM unit :=
  let! connected := gets wk_connected in
  do! ensure connected "not connected" in
  let! asset := parse_asset (swr_asset req) in
  let '(send_asset, recv_asset) :=
    if swr_send_bitcoins req then (liquid_asset_id, asset) else (asset, liquid_asset_id) in
  do! get_wallet ACCOUNT_ID_REG in
  let! inputs := swap_wallet_inputs send_asset (swr_send_amount req) in
  let! '(change_addr, recv_addr) := swap_addresses in
  let! resp := request (Request_StartSwapClient
    {| start_swap_client_price := swr_price req;
       start_swap_client_asset := asset;
       start_swap_client_send_bitcoins := swr_send_bitcoins req;
       start_swap_client_send_amount := swr_send_amount req;
       start_swap_client_recv_amount := swr_recv_amount req;
       start_swap_client_inputs := inputs;
       start_swap_client_recv_addr := recv_addr;
       start_swap_client_change_addr := change_addr |}) as_StartSwapClient in
  modify (λ s, s <| wk_active_swap := Some
    {| as_order_id := start_swap_client_resp_order_id resp;
       as_send_asset := send_asset;
       as_recv_asset := recv_asset;
       as_send_amount := wu64 (swr_send_amount req);
       as_recv_amount := wu64 (swr_recv_amount req) |} |>).

Definition swap_failed (result : unit + string) : DataM unit :=
  match result with
  | inl _ => ret tt
  | inr e => ui_send (From_SwapFailed e)
  end.

Definition process_swap_request (req : SwapRequest) : DataM unit :=
  let! result := attempt (try_process_swap_request req) in
  swap_failed result.

Definition send_rest_request (req : RestRequest) (url : string) : DataM RestResponse :=
  let! r := wk_query (Ev_rest url req) (λ log, rest_server log url req) in
  let! '(status, body) := try_res r in
  do! (if (400 <=? status) && (status <? 500) then
         let! msg := try_res (parse_rest_error body) in fail msg
       else ret tt) in
  do! ensure (status =? 200) ("unexpected status: " +:+ pretty status) in
  try_res (parse_rest_response body).

(** Signing for an instant swap: never with AMP assets, always in the regular
    account. *)
Definition sign_swap (amounts : SwapAmounts) (pset : string) : DataM string :=
  let! amp_assets := gets wk_amp_assets in
  let send_amp := bool_decide (sa_send_asset amounts ∈ amp_assets) in
  let recv_amp := bool_decide (sa_recv_asset amounts ∈ amp_assets) in
  do! ensure (negb send_amp && negb recv_amp) "AMP assets are not allowed" in
  ses_call_try ACCOUNT_ID_REG (W_verify_and_sign_pset amounts pset [])
    (λ log a, ses_verify_and_sign_pset log a amounts pset []).

Definition try_process_swap_accept (req : SwapDetails) : DataM unit :=
  let! order_id := parse_id (sd_order_id req) in
  let! send_asset := parse_asset (sd_send_asset req) in
  let! recv_asset := parse_asset (sd_recv_asset req) in
  let send_amount := sd_send_amount req in
  let recv_amount := sd_recv_amount req in
  let url := sd_upload_url req in
  let! _r := ses_call_try ACCOUNT_ID_REG W_unlock_hww ses_unlock_hww in
  let! inputs := swap_wallet_inputs send_asset send_amount in
  let! '(change_addr, recv_addr) := swap_addresses in
  let! response := send_rest_request (Rest_SwapStart
    {| ssr_order_id := order_id;
       ssr_inputs := inputs;
       ssr_recv_addr := recv_addr;
       ssr_change_addr := change_addr;
       ssr_send_asset := send_asset;
       ssr_send_amount := send_amount;
       ssr_recv_asset := recv_asset;
       ssr_recv_amount := recv_amount |}) url in
  let! '(submit_id, pset) :=
    match response with
    | RestResp_SwapStart submit_id pset => ret (submit_id, pset)
    | _ => fail "unexpected start response"
    end in
  let! signed_pset := sign_swap
    {| sa_send_asset := send_asset; sa_recv_asset := recv_asset;
       sa_send_amount := wu64 send_amount; sa_recv_amount := wu64 recv_amount |} pset in
  let! response := send_rest_request (Rest_SwapSign order_id submit_id signed_pset) url in
  let! txid :=
    match response with
    | RestResp_SwapSign txid => ret txid
    | _ => fail "unexpected start response"
    end in
  do! modify (λ s, s <| wk_succeed_swap := Some txid |>) in
  update_sync_interval.

Definition process_swap_accept (req : SwapDetails) : DataM unit :=
  let! result := attempt (try_process_swap_accept req) in
  swap_failed result.

Definition try_process_blinded_swap_client (msg : BlindedSwapClientNotification) : DataM unit :=
  let! active_swap := gets wk_active_swap in
  let! active_swap := ok_or active_swap "unexpected swap request" in
  do! ensure (bool_decide (as_order_id active_swap = blinded_swap_client_order_id msg))
        "active_swap.order_id == msg.order_id" in
  let! signed_pset := sign_swap
    {| sa_send_asset := as_send_asset active_swap; sa_recv_asset := as_recv_asset active_swap;
       sa_send_amount := as_send_amount active_swap; sa_recv_amount := as_recv_amount active_swap |}
    (blinded_swap_client_pset msg) in
  request (Request_SignedSwapClient
    {| signed_swap_client_order_id := blinded_swap_client_order_id msg;
       signed_swap_client_pset := signed_pset |}) as_SignedSwapClient.

Definition process_blinded_swap_client (msg : BlindedSwapClientNotification) : DataM unit :=
  let! result := attempt (try_process_blinded_swap_client msg) in
  swap_failed result.

Definition swap_done_error (status : SwapDoneStatus) : option string :=
  match status with
  | SwapDoneStatus_Success => None
  | SwapDoneStatus_ClientError => Some "Transaction not signed in time"
  | SwapDoneStatus_DealerError => Some "Unexpected dealer error"
  | SwapDoneStatus_ServerError => Some "Unexpected server error"
  end.

Definition process_swap_done (msg : SwapDoneNotification) : DataM unit :=
  let! active := gets wk_active_swap in
  if negb (bool_decide (as_order_id <$> active = Some (swap_done_order_id msg))) then ret tt
  else
    do! modify (λ s, s <| wk_active_swap := None |>) in
    match swap_done_error (swap_done_status msg), swap_done_txid msg with
    | None, Some txid =>
        do! modify (λ s, s <| wk_succeed_swap := Some txid |>) in
        update_sync_interval
    | Some e, None => ui_send (From_SwapFailed e)
    | _, _ => ui_send (From_SwapFailed "server error")
    end.

(** ** Logging in and out *)

Definition WI_mnemonic (w : WalletInfo) : option string :=
  match w with WI_Mnemonic m => Some m | WI_Hw _ => None end.

(** [try_register]: the sessions it opens are the environment's. *)
Definition try_register (req : Login) : DataM RegInfo :=
  let! _wallet := expect (login_wallet req) "called `Option::unwrap()` on a `None` value" in
  let! r := wk_query (Ev_register req) (λ log, ses_register log req) in
  try_res r.

Definition get_reg_info (req : Login) : DataM RegInfo :=
  let! settings := gets wk_settings in
  match st_reg_info_v3 settings with
  | Some reg_info => ret reg_info
  | None =>
      let! reg_info := try_register req in
      do! set_settings (λ s, s <| st_reg_info_v3 := Some reg_info |>) in
      do! save_settings in
      ret reg_info
  end.

Definition start_processing (info : LoginInfo) (watch_only : option WatchOnly)
    : DataM (unit + string) :=
  wk_query (Ev_start_session info watch_only) (λ log, start_session log info watch_only).

(** The keys addresses are derived from. *)
Definition session_xpubs (reg_info : RegInfo) (wallet_info : WalletInfo) : DataM XPubInfo :=
  let service := ri_multi_sig_service_xpub reg_info in
  do! lift (oassert (valid_xpub service) "must be valid") in
  let! '(single_sig_account, multi_sig_user_xpub) :=
    match ri_jade_watch_only reg_info with
    | Some watch_only =>
        ret (wo_single_sig_account_xpub watch_only, wo_multi_sig_user_xpub watch_only)
    | None =>
        let! mnemonic := expect (WI_mnemonic wallet_info) "mnemonic must be set" in
        try_res (derive_xpubs mnemonic (ri_multi_sig_user_path reg_info))
    end in
  ret {| xp_single_sig_account := single_sig_account;
         xp_multi_sig_service_xpub := service;
         xp_multi_sig_user_xpub := multi_sig_user_xpub |}.

Definition add_wallet (info : LoginInfo) (xpubs : XPubInfo) : DataM unit :=
  modify (λ s, s <| wk_wallets ::=
    <[li_account_id info := {| wl_login_info := info; wl_xpubs := xpubs |}]> |>).

Definition login_info (account : AccountId) (wallet_info : WalletInfo) (single_sig : bool)
    (network : option NetworkSettings) : LoginInfo :=
  {| li_account_id := account; li_wallet_info := wallet_info; li_single_sig := single_sig;
     li_network := network |}.

Definition login_wallet_info (req : Login) (reg_info : RegInfo) : DataM WalletInfo :=
  let! wallet := expect (login_wallet req) "called `Option::unwrap()` on a `None` value" in
  match wallet with
  | Mnemonic mnemonic => ret (WI_Mnemonic mnemonic)
  | JadeId jade_id =>
      let! _watch_only := ok_or (ri_jade_watch_only reg_info) "jade_watch_only is not set" in
      ret (WI_Hw jade_id)
  end.

Definition try_process_login_request (req : Login) : DataM unit :=
  let network := login_network req in
  do! modify (λ s, s <| wk_send_utxo_updates := default false (login_send_utxo_updates req) |>
                     <| wk_force_auto_sign_maker := default false (login_force_auto_sign_maker req) |>
                     <| wk_network_settings := network |>) in
  let! reg_info := get_reg_info req in
  let! wallet_info := login_wallet_info req reg_info in
  let info_reg := login_info ACCOUNT_ID_REG wallet_info true network in
  let! r := start_processing info_reg None in
  let! _session := try_res r in
  let info_amp := login_info ACCOUNT_ID_AMP wallet_info false network in
  let! wallet_amp_res := start_processing info_amp (ri_jade_watch_only reg_info) in
  let! xpubs := session_xpubs reg_info wallet_info in
  do! add_wallet info_reg xpubs in
  do! match wallet_amp_res with
      | inl _ => add_wallet info_amp xpubs
      | inr err => show_message ("AMP connection failed: " +:+ err)
      end in
  let! skip := gets skip_wallet_sync in
  do! (if skip then send_wallet_loaded else ret tt) in
  send_ws_connect.

Definition process_login_request (req : Login) : DataM unit :=
  let! res := attempt (try_process_login_request req) in
  ui_send (From_Login res).

Definition process_logout_request : DataM unit :=
  do! modify (λ s, s
    <| wk_wallets := ∅ |>
    <| wk_sync_complete := false |>
    <| wk_wallet_loaded_sent := false |>
    <| wk_confirmed_txids := ∅ |>
    <| wk_unconfirmed_txids := ∅ |>
    <| wk_active_swap := None |>
    <| wk_succeed_swap := None |>
    <| wk_active_extern_peg := None |>
    <| wk_sent_txhash := None |>
    <| wk_peg_out_server_amounts := None |>
    <| wk_active_submits := ∅ |>
    <| wk_active_sign := None |>
    <| wk_used_addresses := used_addresses_default |>
    <| wk_settings := settings_default |>) in
  do! save_settings in
  do! ui_send From_Logout in
  restart_websocket.

Definition try_change_network (network : option NetworkSettings) : DataM unit :=
  let! wallets := gets wk_wallets in
  do! modify (λ s, s <| wk_wallets ::= delete ACCOUNT_ID_REG |>) in
  let! wallet := ok_or (wallets !! ACCOUNT_ID_REG) "no wallet" in
  let old := wl_login_info wallet in
  let info := login_info (li_account_id old) (li_wallet_info old) (li_single_sig old) network in
  let! r := start_processing info None in
  let! _session := try_res r in
  add_wallet info (wl_xpubs wallet).

Definition process_change_network (network : option NetworkSettings) : DataM unit :=
  let! result := attempt (try_change_network network) in
  show_error "changing network failed: " result.

Definition process_encrypt_pin (pin mnemonic : string) : DataM unit :=
  let! result := wk_query Ev_pin (λ log, encrypt_pin log mnemonic pin) in
  ui_send (From_EncryptPin result).

Definition process_decrypt_pin (pin salt encrypted_data identifier : string) : DataM unit :=
  let details := {| pin_salt := salt; pin_encrypted_data := encrypted_data;
                    pin_identifier := identifier |} in
  let! result := wk_query Ev_pin (λ log, decrypt_pin log details pin) in
  ui_send (From_DecryptPin result).

Definition process_app_state (active : bool) : DataM unit :=
  do! modify (λ s, s <| wk_app_active := active |>) in
  do! (if active then check_connections else ret tt) in
  update_amp_connection.
End Flows.

(** ** Frames *)

Section Quiet.
Context `{WorkerEnv}.

Lemma quiet_send_gaid : quiet send_gaid.
Proof. unfold send_gaid. quiet. Qed.
Lemma quiet_register_addresses key addresses cb : quiet (register_addresses key addresses cb).
Proof. unfold register_addresses. quiet. Qed.
#[local] Hint Resolve quiet_send_gaid quiet_register_addresses : quiet.
Lemma quiet_register_single is_internal : quiet (register_single is_internal).
Proof. unfold register_single. quiet. Qed.
Lemma quiet_register_multi : quiet register_multi.
Proof. unfold register_multi. quiet. Qed.
#[local] Hint Resolve quiet_register_single quiet_register_multi : quiet.
Lemma quiet_update_address_registrations : quiet update_address_registrations.
Proof. unfold update_address_registrations. quiet. Qed.
#[local] Hint Resolve quiet_update_address_registrations : quiet.
Lemma quiet_update_used_addresses account txs : quiet (update_used_addresses account txs).
Proof. unfold update_used_addresses. quiet. Qed.
#[local] Hint Resolve quiet_update_used_addresses : quiet.
Lemma quiet_resync_wallet account : quiet (resync_wallet account).
Proof. unfold resync_wallet, resync_balances, resync_utxos, resync_transactions. quiet. Qed.
Lemma quiet_send_wallet_loaded : quiet send_wallet_loaded.
Proof. unfold send_wallet_loaded. quiet. Qed.
#[local] Hint Resolve quiet_resync_wallet quiet_send_wallet_loaded : quiet.
Lemma quiet_on_block account block : quiet (on_block account block).
Proof. unfold on_block. quiet. Qed.
Lemma quiet_process_get_recv_address account : quiet (process_get_recv_address account).
Proof. unfold process_get_recv_address. quiet. Qed.
Lemma quiet_process_set_memo account txid memo : quiet (process_set_memo account txid memo).
Proof. unfold process_set_memo. quiet. Qed.
Lemma quiet_process_blinded_values txid : quiet (process_blinded_values txid).
Proof.
  assert (∀ l, quiet (collect_blinded_values txid l)) as Hl
    by (intros l; induction l; simpl; quiet).
  unfold process_blinded_values. quiet.
Qed.
Lemma quiet_process_create_tx req : quiet (process_create_tx req).
Proof. unfold process_create_tx, try_process_create_tx. quiet. Qed.
Lemma quiet_finish_send result : quiet (finish_send result).
Proof. unfold finish_send. quiet. Qed.
#[local] Hint Resolve quiet_finish_send : quiet.
Lemma quiet_process_send_tx account : quiet (process_send_tx account).
Proof. unfold process_send_tx, try_process_send_tx. quiet. Qed.
Lemma quiet_process_create_payjoin req : quiet (process_create_payjoin req).
Proof. unfold process_create_payjoin. quiet. Qed.
Lemma quiet_process_send_payjoin req : quiet (process_send_payjoin req).
Proof. unfold process_send_payjoin. quiet. Qed.
Lemma quiet_add_peg_monitoring id dir : quiet (add_peg_monitoring id dir).
Proof. unfold add_peg_monitoring, start_peg_monitoring. quiet. Qed.
Lemma quiet_resume_peg_monitoring : quiet resume_peg_monitoring.
Proof. unfold resume_peg_monitoring, start_peg_monitoring. quiet. Qed.
Lemma quiet_process_pegout_amount req : quiet (process_pegout_amount req).
Proof.
  unfold process_pegout_amount, try_process_pegout_amount, pegout_send_amount. quiet.
Qed.
Lemma quiet_request_peg addr peg_in key blocks amounts :
  quiet (request_peg addr peg_in key blocks amounts).
Proof. unfold request_peg. quiet. Qed.
Lemma quiet_device_key : quiet device_key.
Proof. unfold device_key. quiet. Qed.
#[local] Hint Resolve quiet_add_peg_monitoring quiet_request_peg quiet_device_key : quiet.
Lemma quiet_process_pegout_request req : quiet (process_pegout_request req).
Proof. unfold process_pegout_request, try_process_pegout_request. quiet. Qed.

Lemma pegin_msg : yields try_process_pegin_request (λ m, quiet_event (Ev_ui m) = true).
Proof.
  unfold try_process_pegin_request.
  do 7 (eapply yields_bind; [apply yields_True|intros ? _]). by apply yields_ret.
Qed.

Lemma quiet_process_pegin_request : quiet process_pegin_request.
Proof.
  unfold process_pegin_request. apply quiet_intro. intros c.
  eapply keeps_bind_yields; [unfold try_process_pegin_request; frame
                            |apply yields_attempt, pegin_msg|].
  intros [m|e] Hm; [|frame]. apply keeps_quiet; [by apply quiet_ui_send|apply stable_core].
Qed.

Lemma quiet_process_peg_status status : quiet (process_peg_status status).
Proof.
  unfold process_peg_status. apply quiet_intro. intros c. apply keeps_bind; [frame|intros active].
  apply keeps_bind_yields with (Q := quiet_msgs); [frame| |].
  - repeat case_match; try (apply yields_ret; by intros m Hm%elem_of_nil).
    eapply yields_bind; [apply yields_True|intros ? _]. apply yields_ret.
    by intros m ->%list_elem_of_singleton.
  - intros msgs Hmsgs. apply keeps_bind; [frame|intros _]. apply keeps_for_each. intros m Hm.
    apply keeps_quiet; [apply quiet_ui_send; by auto|apply stable_core].
Qed.

Lemma quiet_swap_wallet_inputs asset amount : quiet (swap_wallet_inputs asset amount).
Proof. unfold swap_wallet_inputs. quiet. Qed.
Lemma quiet_swap_addresses : quiet swap_addresses.
Proof. unfold swap_addresses. quiet. Qed.
Lemma quiet_parse_asset text : quiet (parse_asset text).
Proof. unfold parse_asset. quiet. Qed.
Lemma quiet_sign_swap amounts pset : quiet (sign_swap amounts pset).
Proof. unfold sign_swap. quiet. Qed.
Lemma quiet_send_rest_request req url : quiet (send_rest_request req url).
Proof. unfold send_rest_request. quiet. Qed.
Lemma quiet_swap_failed result : quiet (swap_failed result).
Proof. unfold swap_failed. quiet. Qed.
#[local] Hint Resolve quiet_swap_wallet_inputs quiet_swap_addresses quiet_parse_asset
  quiet_sign_swap quiet_send_rest_request quiet_swap_failed : quiet.
Lemma quiet_process_swap_request req : quiet (process_swap_request req).
Proof. unfold process_swap_request, try_process_swap_request. quiet. Qed.
Lemma quiet_process_swap_accept req : quiet (process_swap_accept req).
Proof. unfold process_swap_accept, try_process_swap_accept. quiet. Qed.
Lemma quiet_process_blinded_swap_client msg : quiet (process_blinded_swap_client msg).
Proof. unfold process_blinded_swap_client, try_process_blinded_swap_client. quiet. Qed.
Lemma quiet_process_swap_done msg : quiet (process_swap_done msg).
Proof. unfold process_swap_done. quiet. Qed.
Lemma quiet_get_reg_info req : quiet (get_reg_info req).
Proof. unfold get_reg_info, try_register. quiet. Qed.
Lemma quiet_session_xpubs reg_info wallet_info : quiet (session_xpubs reg_info wallet_info).
Proof. unfold session_xpubs. quiet. Qed.
Lemma quiet_login_wallet_info req reg_info : quiet (login_wallet_info req reg_info).
Proof. unfold login_wallet_info. quiet. Qed.
#[local] Hint Resolve quiet_get_reg_info quiet_session_xpubs quiet_login_wallet_info : quiet.
Lemma quiet_process_login_request req : quiet (process_login_request req).
Proof.
  unfold process_login_request, try_process_login_request, start_processing, add_wallet. quiet.
Qed.
Lemma quiet_process_change_network network : quiet (process_change_network network).
Proof.
  unfold process_change_network, try_change_network, start_processing, add_wallet. quiet.
Qed.
Lemma quiet_process_encrypt_pin pin mnemonic : quiet (process_encrypt_pin pin mnemonic).
Proof. unfold process_encrypt_pin. quiet. Qed.
Lemma quiet_process_decrypt_pin pin salt data identifier :
  quiet (process_decrypt_pin pin salt data identifier).
Proof. unfold process_decrypt_pin. quiet. Qed.
Lemma quiet_process_app_state active : quiet (process_app_state active).
Proof. unfold process_app_state. quiet. Qed.
End Quiet.

#[export] Hint Resolve quiet_send_gaid quiet_update_address_registrations quiet_resync_wallet
  quiet_send_wallet_loaded quiet_on_block quiet_process_get_recv_address quiet_process_set_memo
  quiet_process_blinded_values quiet_process_create_tx quiet_process_send_tx
  quiet_process_create_payjoin quiet_process_send_payjoin quiet_resume_peg_monitoring
  quiet_process_pegout_amount quiet_process_pegout_request quiet_process_pegin_request
  quiet_process_peg_status quiet_process_swap_request quiet_process_swap_accept
  quiet_process_blinded_swap_client quiet_process_swap_done quiet_process_login_request
  quiet_process_change_network quiet_process_encrypt_pin quiet_process_decrypt_pin
  quiet_process_app_state : quiet.

Section WalletNotifications.
Context `{WorkerEnv} (I : Data → Prop) `{!SignFrame I}.

Lemma keeps_process_wallet_notif account notification :
  keeps I (process_wallet_notif account notification).
Proof.
  assert (keeps I (sync_complete account)) as Hs by (unfold sync_complete; frame).
  assert (keeps I (on_wallet_connected account)) as Hw by (unfold on_wallet_connected; frame).
  unfold process_wallet_notif, sync_failed. frame.
Qed.
End WalletNotifications.
#[export] Hint Resolve keeps_process_wallet_notif : keeps.

Lemma process_logout_request_once `{WorkerEnv} : keeps sign_once process_logout_request.
Proof.
  unfold process_logout_request. apply keeps_bind; [|frame].
  intros s Hs id. specialize (Hs id). unfold spent, budget in *. simpl. lia.
Qed.
Lemma order_core_process_logout_request `{WorkerEnv} c :
  keeps (λ s, order_core s = c) process_logout_request.
Proof. unfold process_logout_request. frame. Qed.
#[export] Hint Resolve process_logout_request_once order_core_process_logout_request : keeps.
