(* ===== verification/Worker.v ===== *)
(** * The client worker: connection, messages, the loop

    The rest of [rust/sideswap_client/src/worker.rs]: what happens when the
    connection to the server comes up or goes down, the routing of responses, the
    handlers of plain notifications, and the loop of [start_processing] that handles
    one message at a time. *)
From stdpp Require Import base numbers gmap strings list sets sorting pretty.
From Stdlib Require Import ZArith Lia SpecFloat.
From S2P Require Import Prelude F64 Serial Api Links Types Env ClientApi Client Orders Market Flows.

Open Scope Z_scope.
#[local] Set Primitive Projections.

(** [Message]; a background message carries the channel to answer on, the
    identifier of an asynchronous request is the text it was made with. *)
Inductive Message :=
  | Msg_Ui (msg : ToMsg)
  | Msg_ServerConnected
  | Msg_ServerDisconnected
  | Msg_ServerNotification (msg : Notification)
  | Msg_AsyncResp (request_id : string) (res : Response + Error)
  | Msg_Notif (account_id : AccountId) (msg : GdkNotification)
  | Msg_PegStatus (msg : PegStatus)
  | Msg_Subscribe (msg : SubscribeResponse)
  | Msg_Unsubscribe (msg : UnsubscribeResponse)
  | Msg_MarketDataResponse (msg : MarketDataSubscribeResponse)
  | Msg_AssetDetails (msg : AssetDetailsResponse)
  | Msg_BackgroundMessage (data : string) (sender : nat)
  | Msg_IdleTimer.

(** Where the websocket thread sends what arrives: to the worker's queue, to the
    channel [send_request] reads, or nowhere. *)
Inductive Route :=
  | To_queue (msg : Message)
  | To_waiting (id : option RequestId) (res : Response + Error)
  | Dropped.

Definition route (r : WrappedResponse ResponseMessage) : Route :=
  match r with
  | Ws_Connected => To_queue Msg_ServerConnected
  | Ws_Disconnected => To_queue Msg_ServerDisconnected
  | Ws_Response (ResponseMessage_Notification notif) => To_queue (Msg_ServerNotification notif)
  | Ws_Response (ResponseMessage_Response (Some (RequestId_String request_id)) res) =>
      To_queue (Msg_AsyncResp request_id res)
  | Ws_Response (ResponseMessage_Response req_id res) =>
      match res with
      | inl (Response_UnsubscribePriceStream _) | inl (Response_MarketDataUnsubscribe _) => Dropped
      | inl (Response_PegStatus msg) => To_queue (Msg_PegStatus msg)
      | inl (Response_Subscribe msg) => To_queue (Msg_Subscribe msg)
      | inl (Response_Unsubscribe msg) => To_queue (Msg_Unsubscribe msg)
      | inl (Response_MarketDataSubscribe msg) => To_queue (Msg_MarketDataResponse msg)
      | inl (Response_LoadPrices msg) =>
          To_queue (Msg_ServerNotification (Notification_UpdatePrices msg))
      | inl (Response_AssetDetails msg) => To_queue (Msg_AssetDetails msg)
      | inl (Response_SubscribePriceStream msg) =>
          To_queue (Msg_ServerNotification (Notification_UpdatePriceStream msg))
      | _ => To_waiting req_id res
      end
  end.

#[export] Instance Asset_eq_dec : EqDecision Asset.
Proof.
  assert (EqDecision IssuancePrevout) by solve_decision. solve_decision.
Defined.

Section Worker.
Context `{WorkerEnv}.

(** ** Plain notifications *)

Definition process_server_status (resp : ServerStatus) : DataM unit :=
  do! ui_send (From_ServerStatus (server_status_min_peg_in_amount resp)
        (server_status_min_peg_out_amount resp) (server_status_server_fee_percent_peg_in resp)
        (server_status_server_fee_percent_peg_out resp) (server_status_bitcoin_fee_rates resp)) in
  modify (λ s, s <| wk_server_status := Some resp |>).

Definition process_price_update (msg : PriceUpdateNotification) : DataM unit :=
  let! assets := gets wk_assets in
  match assets !! price_update_asset msg with
  | None => ret tt
  | Some asset =>
      ui_send (From_PriceUpdate (Hash32_to_string (asset_asset_id asset))
                 (price_pair_bid (price_update_price msg)) (price_pair_ask (price_update_price msg)))
  end.

Definition process_update_prices (msg : LoadPricesResponse) : DataM unit :=
  ui_send (From_IndexPrice (Hash32_to_string (load_prices_resp_asset msg))
             (load_prices_resp_ind msg) (load_prices_resp_last msg)).

Definition process_update_price_stream (msg : SubscribePriceStreamResponse) : DataM unit :=
  ui_send (From_UpdatePriceStream (Hash32_to_string (subscribe_price_stream_resp_asset msg))
             (subscribe_price_stream_resp_send_bitcoins msg)
             (subscribe_price_stream_resp_send_amount msg)
             (subscribe_price_stream_resp_recv_amount msg)
             (subscribe_price_stream_resp_price msg)
             (subscribe_price_stream_resp_error_msg msg)).

Definition process_local_message (msg : LocalMessageNotification) : DataM unit :=
  ui_send (From_LocalMessage (local_message_title msg) (local_message_body msg)).

Definition process_market_data_update (msg : MarketDataUpdateNotification) : DataM unit :=
  ui_send (From_MarketDataUpdate (Hash32_to_string (market_data_update_asset msg))
             (convert_chart_point (market_data_update_update msg))).

Definition process_market_data_response (msg : MarketDataSubscribeResponse) : DataM unit :=
  ui_send (From_MarketDataSubscribe (Hash32_to_string (market_data_subscribe_resp_asset msg))
             (convert_chart_point <$> market_data_subscribe_resp_data msg)).

Definition process_asset_details_response (msg : AssetDetailsResponse) : DataM unit :=
  let stats := (λ v, {|
      st_burned_amount := asset_stats_burned_amount v;
      st_issued_amount := asset_stats_issued_amount v;
      st_offline_amount := default 0 (asset_stats_offline_amount v);
      st_has_blinded_issuances := asset_stats_has_blinded_issuances v |})
    <$> asset_details_resp_chain_stats msg in
  ui_send (From_AssetDetails (Hash32_to_string (asset_details_resp_asset_id msg)) stats
             (asset_details_resp_chart_url msg) (asset_details_resp_chart_stats msg)).

(** ** The push token *)

Definition update_push_token : DataM unit :=
  let! s := gets id in
  match wk_push_token s, wk_connected s, st_device_key (wk_settings s) with
  | Some push_token, true, Some device_key =>
      make_async_request (Request_UpdatePushToken
        {| update_push_token_device_key := device_key;
           update_push_token_push_token := push_token |}) Cb_PushToken
  | _, _, _ => ret tt
  end.

Definition process_update_push_token (token : string) : DataM unit :=
  do! modify (λ s, s <| wk_push_token := Some token |>) in
  update_push_token.

(** ** Connecting *)

Definition save_assets (assets : list Asset) : DataM unit := wk_emit (Ev_save_assets assets).

(** The assets of the server, and their prices. *)
Definition connect_assets : DataM unit :=
  let! resp := request (Request_Assets None) as_Assets in
  let assets := assets_resp_assets resp in
  do! for_each (filter (λ asset, asset_asset_id asset ≠ liquid_asset_id) assets) (λ asset,
    send_msg (Request_PriceUpdateSubscribe
      {| price_update_subscribe_asset := asset_asset_id asset |})) in
  let! assets_old := gets wk_assets_old in
  do! (if bool_decide (assets = assets_old) then ret tt
       else
         do! save_assets assets in
         register_assets assets false) in
  let! resp := request (Request_AmpAssets None) as_AmpAssets in
  let amp_assets := amp_assets_resp_assets resp in
  do! ui_send (From_AmpAssets ((λ v, Hash32_to_string (asset_asset_id v)) <$> amp_assets)) in
  do! modify (λ s, s <| wk_amp_assets := list_to_set (asset_asset_id <$> amp_assets) |>) in
  register_assets amp_assets true.

Definition verify_device (device_key : string) : DataM unit :=
  let! resp :=
    request (Request_VerifyDevice {| verify_device_device_key := device_key |}) as_VerifyDevice in
  match verify_device_resp_device_state resp with
  | DeviceState_Unregistered =>
      do! set_settings (λ s, s <| st_device_key := None |>) in
      save_settings
  | DeviceState_Registered => ret tt
  end.

Definition register_device : DataM unit :=
  let! resp :=
    request (Request_RegisterDevice {| register_device_os_type := os_type |}) as_RegisterDevice in
  do! set_settings (λ s, s
    <| st_device_key := Some (register_device_resp_device_key resp) |>
    <| st_single_sig_registered := (0, 0) |>
    <| st_multi_sig_registered := 0 |>) in
  save_settings.

Definition connect_device : DataM unit :=
  if default false params_disable_device_key then
    do! set_settings (λ s, s <| st_device_key := None |>) in
    save_settings
  else
    let! settings := gets wk_settings in
    do! match st_device_key settings with
        | Some device_key => verify_device device_key
        | None => ret tt
        end in
    let! settings := gets wk_settings in
    match st_device_key settings with
    | None => register_device
    | Some _ => ret tt
    end.

Definition connect_session : DataM unit :=
  let! settings := gets wk_settings in
  let! resp := request (Request_Login {| login_session_id := st_session_id settings |}) as_Login in
  do! for_each (login_resp_orders resp) (λ order, add_order order false) in
  do! sync_order_list in
  if bool_decide (Some (login_resp_session_id resp) = st_session_id settings) then ret tt
  else
    do! set_settings (λ s, s <| st_session_id := Some (login_resp_session_id resp) |>) in
    save_settings.

Definition try_process_ws_connected : DataM unit :=
  let! cookie := gets (λ s, env_cookie (wk_log s)) in
  let! resp := request (Request_LoginClient
    {| login_client_api_key := CLIENT_API_KEY; login_client_cookie := cookie;
       login_client_user_agent := USER_AGENT; login_client_version := params_version |})
    as_LoginClient in
  do! wk_emit (Ev_save_cookie (login_client_resp_cookie resp)) in
  do! connect_assets in
  let! server_status := request (Request_ServerStatus tt) as_ServerStatus in
  do! process_server_status server_status in
  do! connect_device in
  do! connect_session in
  let! price_stream := gets wk_subscribed_price_stream in
  do! match price_stream with
      | Some req => send_msg (Request_SubscribePriceStream req)
      | None => ret tt
      end in
  let! market_data := gets wk_subscribed_market_data in
  match market_data with
  | Some asset_id =>
      send_msg (Request_MarketDataSubscribe {| market_data_subscribe_asset := asset_id |})
  | None => ret tt
  end.

Definition process_ws_connected : DataM unit :=
  let! r := attempt try_process_ws_connected in
  match r with
  | inr _ => restart_websocket
  | inl _ =>
      do! modify (λ s, s <| wk_connected := true |>) in
      do! process_pending_requests in
      do! resume_peg_monitoring in
      do! update_push_token in
      do! send_subscribe_request in
      do! update_address_registrations in
      ui_send From_ServerConnected
  end.

Definition logged_in (s : Data) : bool := negb (bool_decide (wk_wallets s = ∅)).

Definition process_ws_disconnected : DataM unit :=
  do! modify (λ s, s <| wk_connected := false |> <| wk_orders_last := ∅ |>) in
  do! sync_order_list in
  do! ui_send From_ServerDisconnected in
  let! async_requests := gets wk_async_requests in
  do! modify (λ s, s <| wk_async_requests := ∅ |>) in
  do! for_each (btree_list async_requests) (λ e : string * Callback,
    run_callback e.2
      (inr {| err_code := ErrorCode_ServerError; err_message := "Server disconnected" |})) in
  let! logged_in := gets logged_in in
  if logged_in then send_ws_connect else ret tt.

Definition process_idle_timer : DataM unit :=
  let! now := wk_query Ev_now env_instant in
  let! last := gets wk_last_connection_check in
  if AMP_CONNECTION_CHECK_PERIOD <? now - last then
    do! modify (λ s, s <| wk_last_connection_check := now |>) in
    check_connections
  else ret tt.

(** ** Jade devices *)

Definition sync_jade : DataM unit :=
  let! jades := gets wk_jades in
  ui_send (From_JadePorts ((λ data,
    {| port_jade_id := jd_jade_id data; port_port := jd_port_name data;
       port_serial := jd_serial data; port_version := jd_version data;
       port_state := jd_state data |}) <$> jades)).

Definition same_jade (a b : JadeData) : bool := String.eqb (jd_jade_id a) (jd_jade_id b).

Definition add_jades (ports jades : list JadeData) : list JadeData :=
  foldl (λ jades port, if existsb (same_jade port) jades then jades else jades ++ [port]) jades ports.

(** Each round of the loop removes the first device without a port; the devices
    that are left have one. *)
Definition remove_jades (ports jades : list JadeData) : list JadeData :=
  List.filter (λ data, existsb (same_jade data) ports) jades.

Definition process_scan_jade (ports : list JadeData) : DataM unit :=
  let! old := gets wk_jades in
  let added := add_jades ports old in
  let kept := remove_jades ports added in
  do! modify (λ s, s <| wk_jades := kept |>) in
  if bool_decide (length added ≠ length old) || bool_decide (length kept ≠ length added)
  then sync_jade else ret tt.

Definition process_jade_rescan_request : DataM unit :=
  let! r := wk_query Ev_jade_ports jade_ports in
  process_scan_jade match r with inl ports => ports | inr _ => [] end.

(** ** Dispatch *)

Definition process_ui (msg : ToMsg) : DataM unit :=
  match msg with
  | To_Login req => process_login_request req
  | To_Logout => process_logout_request
  | To_ChangeNetwork network => process_change_network network
  | To_EncryptPin pin mnemonic => process_encrypt_pin pin mnemonic
  | To_DecryptPin pin salt encrypted_data pin_identifier =>
      process_decrypt_pin pin salt encrypted_data pin_identifier
  | To_AppState active => process_app_state active
  | To_PushMessage req => process_push_message req None
  | To_PegInRequest => process_pegin_request
  | To_PegOutAmount req => process_pegout_amount req
  | To_PegOutRequest req => process_pegout_request req
  | To_SwapRequest req => process_swap_request req
  | To_SwapAccept req => process_swap_accept req
  | To_GetRecvAddress req => process_get_recv_address req
  | To_CreateTx req => process_create_tx req
  | To_SendTx account => process_send_tx account
  | To_CreatePayjoin req => process_create_payjoin req
  | To_SendPayjoin req => process_send_payjoin req
  | To_BlindedValues txid => process_blinded_values txid
  | To_SetMemo account txid memo => process_set_memo account txid memo
  | To_UpdatePushToken token => process_update_push_token token
  | To_RegisterPhone _ | To_VerifyPhone _ _ | To_UnregisterPhone _
  | To_UploadAvatar _ _ | To_UploadContacts _ => ret tt
  | To_SubmitOrder req => process_submit_order req
  | To_LinkOrder order_id => process_link_order order_id
  | To_SubmitDecision req => process_submit_decision req
  | To_EditOrder order_id data => process_edit_order order_id data
  | To_CancelOrder order_id => process_cancel_order order_id
  | To_Subscribe markets => process_subscribe markets
  | To_AssetDetails asset_id => process_asset_details asset_id
  | To_SubscribePrice asset_id => process_subscribe_price asset_id
  | To_UnsubscribePrice asset_id => process_unsubscribe_price asset_id
  | To_SubscribePriceStream req => process_subscribe_price_stream req
  | To_UnsubscribePriceStream => process_unsubscribe_price_stream
  | To_MarketDataSubscribe asset_id => process_market_data_subscribe asset_id
  | To_MarketDataUnsubscribe => process_market_data_unsubscribe
  | To_PortfolioPrices => process_portfolio_prices
  | To_JadeRescan => process_jade_rescan_request
  | To_GaidStatus gaid asset_id => process_gaid_status_req gaid asset_id
  end.

Definition process_ws_notification (notification : Notification) : DataM unit :=
  match notification with
  | Notification_PegStatus status => process_peg_status status
  | Notification_ServerStatus resp => process_server_status resp
  | Notification_PriceUpdate msg => process_price_update msg
  | Notification_Sign msg => process_sign msg
  | Notification_Complete msg => process_complete msg
  | Notification_OrderCreated msg => process_order_created msg
  | Notification_OrderRemoved msg => process_order_removed msg
  | Notification_UpdatePrices msg => process_update_prices msg
  | Notification_UpdatePriceStream msg => process_update_price_stream msg
  | Notification_BlindedSwapClient msg => process_blinded_swap_client msg
  | Notification_SwapDone msg => process_swap_done msg
  | Notification_LocalMessage msg => process_local_message msg
  | Notification_MarketDataUpdate msg => process_market_data_update msg
  | _ => ret tt
  end.

Definition process_message (msg : Message) : DataM unit :=
  match msg with
  | Msg_Ui msg => process_ui msg
  | Msg_ServerConnected => process_ws_connected
  | Msg_ServerDisconnected => process_ws_disconnected
  | Msg_ServerNotification msg => process_ws_notification msg
  | Msg_AsyncResp request_id res => process_async_resp request_id res
  | Msg_Notif account_id msg => process_wallet_notif account_id msg
  | Msg_PegStatus msg => process_peg_status msg
  | Msg_Subscribe msg => process_subscribe_response msg
  | Msg_Unsubscribe msg => process_unsubscribe_response msg
  | Msg_MarketDataResponse msg => process_market_data_response msg
  | Msg_AssetDetails msg => process_asset_details_response msg
  | Msg_BackgroundMessage data sender => process_push_message data (Some sender)
  | Msg_IdleTimer => process_idle_timer
  end.

(** ** Start *)

Definition load_assets : DataM unit :=
  let! text :=
    match assets_file with
    | Some text => ret text
    | None =>
        match worker_env with
        | Env_Prod => ret (builtin_assets Env_Prod)
        | Env_Testnet => ret (builtin_assets Env_Testnet)
        | _ => fail "can't load assets: "
        end
    end in
  let! assets := try_res (parse_assets_json text) in
  do! modify (λ s, s <| wk_assets_old := assets |>) in
  register_assets assets false.

Definition start : DataM unit :=
  let net := env_data_network (env_data worker_env) in
  do! ui_send (From_EnvSettings (env_data_policy_asset (env_data worker_env))
                 (usdt_asset_id net) (eurx_asset_id net)) in
  let! _xpub := master_xpub in
  let! _r := attempt load_assets in
  ret tt.

(** The loop: messages are handled one by one. *)
Definition run_worker (msgs : list Message) : DataM unit :=
  do! start in
  for_each msgs process_message.

(** The state after a run, and what it did to the outside, oldest first. *)
Definition worker_after (msgs : list Message) : Data := (run_worker msgs initial_data).1.
Definition worker_events (msgs : list Message) : list WEvent := reverse (wk_log (worker_after msgs)).
End Worker.

(** ** Every order is signed once *)

Section Quiet.
Context `{WorkerEnv}.

Lemma quiet_process_server_status resp : quiet (process_server_status resp).
Proof. unfold process_server_status. quiet. Qed.
Lemma quiet_process_price_update msg : quiet (process_price_update msg).
Proof. unfold process_price_update. quiet. Qed.
Lemma quiet_update_push_token : quiet update_push_token.
Proof. unfold update_push_token. quiet. Qed.
#[local] Hint Resolve quiet_process_server_status quiet_update_push_token : quiet.
Lemma quiet_process_update_push_token token : quiet (process_update_push_token token).
Proof. unfold process_update_push_token. quiet. Qed.
Lemma quiet_connect_assets : quiet connect_assets.
Proof. unfold connect_assets, save_assets. quiet. Qed.
Lemma quiet_connect_device : quiet connect_device.
Proof. unfold connect_device, verify_device, register_device. quiet. Qed.
Lemma quiet_process_idle_timer : quiet process_idle_timer.
Proof. unfold process_idle_timer. quiet. Qed.
Lemma quiet_process_jade_rescan_request : quiet process_jade_rescan_request.
Proof. unfold process_jade_rescan_request, process_scan_jade, sync_jade. quiet. Qed.
Lemma quiet_start : quiet start.
Proof. unfold start, load_assets. quiet. Qed.
End Quiet.

#[export] Hint Resolve quiet_process_server_status quiet_process_price_update
  quiet_update_push_token quiet_process_update_push_token quiet_connect_assets
  quiet_connect_device quiet_process_idle_timer quiet_process_jade_rescan_request
  quiet_start : quiet.

Section Dispatch.
Context `{WorkerEnv}.

Lemma process_ws_connected_once : keeps sign_once process_ws_connected.
Proof.
  assert (keeps sign_once connect_session) as Hs by (unfold connect_session; frame).
  assert (keeps sign_once try_process_ws_connected) as Ht
    by (unfold try_process_ws_connected; frame).
  unfold process_ws_connected. frame.
Qed.

Lemma process_ws_disconnected_once : keeps sign_once process_ws_disconnected.
Proof. unfold process_ws_disconnected. frame. Qed.
#[local] Hint Resolve process_ws_connected_once process_ws_disconnected_once : keeps.

Lemma process_message_once msg : keeps sign_once (process_message msg).
Proof.
  destruct msg as [m| | |n| | | | | | | | |]; simpl; [destruct m|..];
    try (destruct n); simpl; unfold process_update_prices, process_update_price_stream,
    process_local_message, process_market_data_update, process_market_data_response,
    process_asset_details_response; frame.
Qed.

Lemma worker_once msgs : sign_once (worker_after msgs).
Proof.
  apply (keeps_bind sign_once).
  - apply keeps_quiet; auto with quiet.
  - intros _. apply keeps_for_each. intros msg _. apply process_message_once.
  - intros id. unfold spent. simpl. lia.
Qed.

(** C1: whatever the user, the server and the wallets do, and in whatever order, the
    client sends at most one signature for an order in its whole run; and while a
    review of it is on the screen or waits to be shown, it has sent none. *)
Theorem orders_signed_once msgs order_id :
  (signs_for order_id (worker_events msgs) +
   prompts_for order_id (wk_pending_sign_prompts (worker_after msgs)) +
   from_option (asked_for order_id) 0 (wk_active_sign (worker_after msgs)) ≤ 1)%nat.
Proof.
  unfold worker_events. rewrite signs_for_reverse.
  pose proof (worker_once msgs order_id) as Hs. unfold spent, budget in Hs.
  destruct (bool_decide _); lia.
Qed.
End Dispatch.
