(* ===== verification/Shown.v ===== *)
(** * What the application is shown

    The messages of the worker (rust/sideswap_client/src/worker.rs) to the application, in
    order: whatever the worker handles, it never takes one back. *)
From stdpp Require Import base gmap strings list.
From Stdlib Require Import ZArith Lia.
From S2P Require Import Prelude Api Types Env ClientApi Client Orders Addresses Market Signing Pending Flows Worker.

Definition ui_message (e : WEvent) : option FromMsg :=
  match e with Ev_ui m => Some m | _ => None end.

Definition shown (log : list WEvent) : list FromMsg := omap ui_message (reverse log).

(** ** The log of the worker only grows *)

Definition any (_ : WEvent) : Prop := True.

Section Grow.
Context `{WorkerEnv}.

Ltac head t := lazymatch t with ?f _ => head f | _ => t end.

Ltac grow_any_step :=
  lazymatch goal with
  | |- ∀ _, _ => intros ?
  | |- keeps _ (bind _ _) => apply keeps_bind; [|intros ?]
  | |- keeps _ (for_each _ _) => apply keeps_for_each; intros ? ?
  | |- keeps _ (attempt _) => apply keeps_attempt
  | |- keeps _ (if ?b then _ else _) => destruct b
  | |- keeps _ (match ?x with _ => _ end) => destruct x
  | |- keeps _ (let _ := _ in _) => cbv zeta
  | |- keeps _ (wk_emit _) => apply emits_emit; exact I
  | |- keeps _ (wk_query _ _) => apply emits_query; exact I
  | |- keeps _ (try_res _) => apply keeps_try_res
  | |- keeps _ (loop_fuel _ _ _) => apply keeps_loop_fuel; intros ?
  | |- keeps _ (modify _) => apply keeps_modify; let s := fresh "s" in let Hs := fresh "Hs" in
      intros s Hs; exact Hs
  | |- keeps _ ?m => first [solve [eauto with keeps nocore] | let h := head m in progress unfold h]
  end.
Ltac grow_any := repeat (cbv beta; grow_any_step).


Lemma grow_next_sign_prompt s0 prompts : keeps (grows any s0) (next_sign_prompt prompts).
Proof. induction prompts; simpl; grow_any. Qed.
Lemma grow_prompts s0 : keeps (grows any s0) process_pending_sign_prompts.
Proof. pose proof (grow_next_sign_prompt s0). grow_any. Qed.
#[local] Hint Resolve grow_prompts : keeps.
Lemma grow_process_sign_with s0 pending msg :
  keeps (grows any s0) pending → keeps (grows any s0) (process_sign_with pending msg).
Proof. intros ?. grow_any. Qed.
#[local] Hint Resolve grow_process_sign_with : keeps.
Lemma grow_download_signs s0 pending signs :
  keeps (grows any s0) pending → keeps (grows any s0) (download_signs pending signs).
Proof.
  intros Hp. assert (∀ id, keeps (grows any s0) (download_sign_request pending id)) as Hd by grow_any.
  induction signs as [|[id sender] signs IH]; simpl; grow_any.
Qed.
Lemma grow_run_sign_requests s0 : keeps (grows any s0) run_sign_requests.
Proof.
  assert (∀ fuel, keeps (grows any s0) (run_sign_requests_from (panic "out of fuel") fuel)) as Hf
    by (induction fuel as [|fuel IH]; simpl; grow_any).
  grow_any.
Qed.
#[local] Hint Resolve grow_download_signs grow_run_sign_requests : keeps.
Lemma grow_pending_step s0 pending : keeps (grows any s0) pending → keeps (grows any s0) (pending_step pending).
Proof. intros Hp. grow_any. Qed.
#[local] Hint Resolve grow_pending_step : keeps.
Lemma grow_pending s0 : keeps (grows any s0) process_pending_requests.
Proof.
  unfold process_pending_requests. generalize 2%nat. induction n as [|fuel IH]; simpl; grow_any.
Qed.
#[local] Hint Resolve grow_pending : keeps.
Lemma grow_blinded_values s0 txid accounts : keeps (grows any s0) (collect_blinded_values txid accounts).
Proof. induction accounts; simpl; grow_any. Qed.
Lemma grow_parse_markets s0 markets : keeps (grows any s0) (parse_markets markets).
Proof. induction markets as [|[text|] markets IH]; simpl; grow_any. Qed.
#[local] Hint Resolve grow_blinded_values grow_parse_markets : keeps.

Lemma grow_process_message msg : emits any (process_message msg).
Proof.
  intros s0. destruct msg as [m| | |n| | | | | | | | |]; simpl; [destruct m; simpl|..]; grow_any.
Qed.
Lemma grow_start : emits any start.
Proof. intros s0. grow_any. Qed.
End Grow.

(** What the application is shown is what it was shown before, and what is new. *)
Lemma shown_grows s s' :
  grows any s s' →
  shown (wk_log s') = shown (wk_log s) ++ shown (new_events s s').
Proof.
  intros (new & E & _). unfold shown, new_events. rewrite E, length_app, Nat.add_sub, take_app_length.
  by rewrite reverse_app, omap_app.
Qed.

Lemma shown_step {A} (m : DataM A) w w' r :
  emits any m → m w = (w', r) → shown (wk_log w') = shown (wk_log w) ++ shown (new_events w w').
Proof. intros Hm E. apply shown_grows. pose proof (emits_grows any m w Hm) as Hg. by rewrite E in Hg. Qed.

Lemma run_worker_start `{WorkerEnv} s w : start s = (w, Ok tt) → run_worker [] s = (w, Ok tt).
Proof. intros E. unfold run_worker. by rewrite (bind_run start _ s w tt). Qed.

Lemma run_worker_snoc `{WorkerEnv} msgs m s w w' :
  run_worker msgs s = (w, Ok tt) → process_message m w = (w', Ok tt) →
  run_worker (msgs ++ [m]) s = (w', Ok tt).
Proof.
  unfold run_worker. intros (s1 & [] & Hs & E)%bind_Ok Hm. rewrite (bind_run start _ s s1 tt) by done.
  rewrite for_each_app. rewrite (bind_run _ _ s1 w tt) by done. simpl. by rewrite (bind_run _ _ w w' tt).
Qed.
