(* ===== verification/Files.v ===== *)
(** * Files that survive a crash

    The client keeps its settings (rust/sideswap_client/src/settings.rs) and the hedging
    dealer its transfers (save_storage and load_storage of
    rust/sideswap_dealer_bitfinex/src/main.rs) in a file, which each replaces by renaming
    a new one.  Here a save is the steps of the file system it takes; the program can stop
    after any of them. *)
From stdpp Require Import base numbers gmap strings list.
From Stdlib Require Import ZArith Lia.
From S2P Require Import Prelude Api Types Env Serial ClientApi Client Dealer Balancing Bitfinex Ledger.

Open Scope Z_scope.
#[local] Set Primitive Projections.

(** ** The file system *)

Abbreviation Files := (gmap string bytes) (only parsing).

(** [File::create], one byte of [write_all], [rename]. *)
Inductive FileStep :=
  | File_create (path : string)
  | File_append (path : string) (byte : Z)
  | File_rename (from to : string).

Definition file_step (fs : Files) (step : FileStep) : Files :=
  match step with
  | File_create path => <[path := []]> fs
  | File_append path byte => <[path := default [] (fs !! path) ++ [byte]]> fs
  | File_rename from to =>
      match fs !! from with
      | Some data => <[to := data]> (delete from fs)
      | None => fs
      end
  end.

Definition file_steps (steps : list FileStep) (fs : Files) : Files := foldl file_step fs steps.

(** [std::fs::write(path, data)] *)
Definition fs_write (path : string) (data : bytes) : list FileStep :=
  File_create path :: (File_append path <$> data).

(** ** Saving and loading *)

(** What [serde_json] promises for a type whose encoding it derives: what is read is
    what was written. *)
Class Json (A : Type) := {
  to_json : A → bytes;
  from_json : bytes → A + string;
  from_to_json a : from_json (to_json a) = inl a
}.

Section Files.
Context `{Json Settings, Json Storage}.

Definition SETTINGS_NAME : string := "settings.json".
Definition SETTINGS_NAME_TMP : string := "settings.json.tmp".

Definition path_join (dir name : string) : string := dir +:+ "/" +:+ name.

Definition settings_save_steps (dir : string) (settings : Settings) : list FileStep :=
  let data := to_json settings in
  let file_path := path_join dir SETTINGS_NAME in
  let file_path_tmp := path_join dir SETTINGS_NAME_TMP in
  fs_write file_path_tmp data ++ [File_rename file_path_tmp file_path].

Definition load_settings (dir : string) (fs : Files) : Settings + string :=
  match fs !! path_join dir SETTINGS_NAME with
  | None => inr "No such file or directory"
  | Some data => from_json data
  end.

(** The settings a client starts with ([unwrap_or_default]). *)
Definition start_settings (dir : string) (fs : Files) : Settings :=
  match load_settings dir fs with inl s => s | inr _ => settings_default end.

Definition storage_save_steps (path : string) (storage : Storage) : list FileStep :=
  let path_tmp := path +:+ ".tmp" in
  fs_write path_tmp (to_json storage) ++ [File_rename path_tmp path].

Definition load_storage (path : string) (fs : Files) : outcome (option Storage) :=
  match fs !! path with
  | None => Ok None
  | Some data =>
      match from_json data with
      | inl storage => Ok (Some storage)
      | inr _ => Panic "parsing storage failed"
      end
  end.

(** [load_storage(..).unwrap_or_default()] *)
Definition start_storage (path : string) (fs : Files) : outcome Storage :=
  let? storage := load_storage path fs in Ok (default None storage).
End Files.

(** ** A save is all or nothing *)

Definition save_steps (tmp path : string) (data : bytes) : list FileStep :=
  fs_write tmp data ++ [File_rename tmp path].

Lemma write_elsewhere steps tmp path fs :
  tmp ≠ path →
  (∀ step, step ∈ steps → step = File_create tmp ∨ ∃ byte, step = File_append tmp byte) →
  file_steps steps fs !! path = fs !! path.
Proof.
  intros Hne. revert fs. induction steps as [|step steps IH]; intros fs Hs; [done|].
  change (file_steps (step :: steps) fs) with (file_steps steps (file_step fs step)).
  rewrite IH by (intros; apply Hs; by right).
  destruct (Hs step) as [->|[byte ->]]; [by left|..]; cbn; by rewrite lookup_insert_ne.
Qed.

Lemma write_content tmp data fs : file_steps (fs_write tmp data) fs !! tmp = Some data.
Proof.
  unfold fs_write, file_steps. cbn.
  assert (∀ before fs, fs !! tmp = Some before →
    foldl file_step fs (File_append tmp <$> data) !! tmp = Some (before ++ data)) as Hw.
  { induction data as [|byte data IH]; intros before f Hf; cbn; [by rewrite app_nil_r|].
    rewrite (IH (before ++ [byte])); [by rewrite <- app_assoc|]. by rewrite lookup_insert_eq, Hf. }
  by rewrite (Hw []) by apply lookup_insert_eq.
Qed.

Lemma fs_write_steps tmp data step :
  step ∈ fs_write tmp data → step = File_create tmp ∨ ∃ byte, step = File_append tmp byte.
Proof. intros [->|(byte & -> & _)%list_elem_of_fmap]%elem_of_cons; eauto. Qed.

(** Before the rename the file is the old one, whatever was left in the other. *)
Lemma save_interrupted tmp path data n fs :
  tmp ≠ path → (n < length (save_steps tmp path data))%nat →
  file_steps (take n (save_steps tmp path data)) fs !! path = fs !! path.
Proof.
  intros Hne Hn. unfold save_steps in *. rewrite length_app in Hn. cbn in Hn.
  rewrite take_app_le by (cbn; lia). apply (write_elsewhere _ tmp); [done|].
  intros step Hs. apply (fs_write_steps tmp data). by eapply elem_of_take in Hs as (i & Hs & _);
    apply list_elem_of_lookup_2 in Hs.
Qed.

Lemma save_finished tmp path data fs :
  file_steps (save_steps tmp path data) fs !! path = Some data.
Proof.
  unfold save_steps, file_steps. rewrite foldl_app. cbn [foldl file_step].
  pose proof (write_content tmp data fs) as Hw. unfold file_steps in Hw. rewrite Hw.
  apply lookup_insert_eq.
Qed.

(** Saves one after the other, the last of them perhaps not to its end. *)
Lemma saves_interrupted {A} tmp path (encode : A → bytes) (saves : list A) n fs :
  tmp ≠ path →
  ∃ k, file_steps (take n (concat ((λ a, save_steps tmp path (encode a)) <$> saves))) fs !! path =
       match last (take k saves) with Some a => Some (encode a) | None => fs !! path end.
Proof.
  intros Hne. revert n fs. induction saves as [|a saves IH]; intros n fs; [exists 0%nat; by destruct n|].
  rewrite fmap_cons. cbn [concat].
  destruct (decide (n < length (save_steps tmp path (encode a)))%nat) as [Hn|Hn].
  - exists 0%nat. rewrite take_app_le by lia. by apply save_interrupted.
  - rewrite take_app_ge by lia. unfold file_steps. rewrite foldl_app.
    destruct (IH (n - length (save_steps tmp path (encode a)))%nat
      (foldl file_step fs (save_steps tmp path (encode a)))) as [k Hk]. unfold file_steps in Hk.
    exists (S k). rewrite Hk. cbn [take]. rewrite last_cons.
    destruct (last (take k saves)); [done|]. apply (save_finished tmp path (encode a) fs).
Qed.

Lemma saves_finished {A} tmp path (encode : A → bytes) (saves : list A) fs :
  file_steps (concat ((λ a, save_steps tmp path (encode a)) <$> saves)) fs !! path =
  match last saves with Some a => Some (encode a) | None => fs !! path end.
Proof.
  induction saves as [|a saves _] using rev_ind; [done|].
  rewrite last_snoc, fmap_app, concat_app. unfold file_steps. rewrite foldl_app. cbn [fmap list_fmap concat].
  rewrite app_nil_r. apply save_finished.
Qed.

Lemma append_ne (a b : string) : b ≠ EmptyString → a +:+ b ≠ a.
Proof.
  intros Hb. induction a as [|c a IH]; [exact Hb|].
  change (String c (a +:+ b) ≠ String c a). congruence.
Qed.

(** ** Restarts *)

(** What a run of the client and one of the hedging dealer saved, in order. *)
Definition saved_settings (log : list WEvent) : list Settings :=
  omap (λ e, match e with Ev_save_settings s => Some s | _ => None end) (reverse log).

Definition saved_storages (log : list BfEvent) : list Storage := omap is_save (reverse log).

Lemma saved_last log : last (saved_storages log) = saved log.
Proof.
  unfold saved_storages. induction log as [|e log IH]; [done|]. rewrite reverse_cons, omap_app.
  cbn -[is_save]. destruct (is_save e) as [s|]; [by rewrite last_snoc|by rewrite app_nil_r].
Qed.

Section Restart.
Context `{Json Settings, Json Storage}.

(** The settings: what was saved last, at any point of a run. *)
Lemma settings_survive_crash dir settings n fs :
  ∃ k, start_settings dir (file_steps (take n (concat (settings_save_steps dir <$> settings))) fs) =
       default (start_settings dir fs) (last (take k settings)).
Proof.
  destruct (saves_interrupted (path_join dir SETTINGS_NAME_TMP) (path_join dir SETTINGS_NAME)
    to_json settings n fs) as [k Hk].
  { unfold path_join. intros E. by apply (inj (String.append dir)) in E. }
  exists k. unfold start_settings, load_settings.
  change (settings_save_steps dir <$> settings) with
    ((λ a, save_steps (path_join dir SETTINGS_NAME_TMP) (path_join dir SETTINGS_NAME) (to_json a)) <$> settings).
  rewrite Hk. destruct (last (take k settings)) as [s|]; [|done]. cbn. by rewrite from_to_json.
Qed.

Lemma storage_survives_crash path storages n fs :
  ∃ k, start_storage path (file_steps (take n (concat (storage_save_steps path <$> storages))) fs) =
       match last (take k storages) with Some s => Ok s | None => start_storage path fs end.
Proof.
  destruct (saves_interrupted (path +:+ ".tmp") path to_json storages n fs (append_ne path ".tmp" ltac:(done)))
    as [k Hk].
  exists k. unfold start_storage, load_storage.
  change (storage_save_steps path <$> storages) with
    ((λ a, save_steps (path +:+ ".tmp") path (to_json a)) <$> storages).
  rewrite Hk. destruct (last (take k storages)) as [s|]; [|done]. by rewrite from_to_json.
Qed.

Lemma storage_resumes path storages fs :
  start_storage path (file_steps (concat (storage_save_steps path <$> storages)) fs) =
  match last storages with Some s => Ok s | None => start_storage path fs end.
Proof.
  unfold start_storage, load_storage.
  change (storage_save_steps path <$> storages) with
    ((λ a, save_steps (path +:+ ".tmp") path (to_json a)) <$> storages).
  rewrite (saves_finished (path +:+ ".tmp") path to_json storages fs).
  destruct (last storages) as [s|]; [|done]. by rewrite from_to_json.
Qed.

(** The directory of a dealer: there was no transfer in it at first, and since then dealers
    were started in it and stopped, each at any step of writing its file. *)
Inductive dealer_dir (path : string) : Files → Prop :=
  | dir_first fs : start_storage path fs = Ok None → dealer_dir path fs
  | dir_stopped fs storage env args t msgs n :
      dealer_dir path fs → start_storage path fs = Ok storage →
      dealer_dir path (file_steps (take n (concat (storage_save_steps path <$>
        saved_storages (bs_log (@run_bf env args msgs (bf_init storage t)).1)))) fs).

Lemma saved_storages_in storage log : storage ∈ saved_storages log → Bf_save storage ∈ log.
Proof.
  unfold saved_storages. intros (e & He & E)%list_elem_of_omap. rewrite elem_of_reverse in He.
  destruct e; simplify_eq/=. done.
Qed.

(** A dealer can always start, with a transfer that has the identifiers its state needs. *)
Lemma dealer_dir_starts path fs :
  dealer_dir path fs → ∃ storage, start_storage path fs = Ok storage ∧ stored_wf storage.
Proof.
  induction 1 as [fs Hs|fs storage env args t msgs n _ (storage' & E & Hwf) Hs]; [by exists None|].
  rewrite Hs in E. injection E as <-.
  pose proof (run_inv _ args msgs _ (init_inv storage t Hwf)) as Hinv.
  set (log := bs_log _) in *. destruct (storage_survives_crash path (saved_storages log) n fs) as [k ->].
  destruct (last (take k _)) as [storage'|] eqn:El; [|by exists storage].
  exists storage'. split; [done|]. apply (inv_saves _ _ Hinv). fold log. apply saved_storages_in.
  apply last_Some in El as [l El]. rewrite <- (take_drop k (saved_storages log)), El. set_solver.
Qed.

(** A dealer that is stopped between two messages, or by a panic. *)
Lemma stopped_resumes `{BfEnv} args t msgs path fs storage :
  stored_wf storage → let s := (run_bf args msgs (bf_init storage t)).1 in
  start_storage path (file_steps (concat (storage_save_steps path <$> saved_storages (bs_log s))) fs) =
  Ok (bs_storage s).
Proof.
  intros Hwf s. subst s. rewrite storage_resumes, saved_last.
  by rewrite (inv_saved _ _ (run_inv _ args msgs _ (init_inv storage t Hwf))).
Qed.

(** C31: the hedging dealer resumes where it was.  In a directory in which dealers were
    started and stopped before, however often and at whatever step of writing the file, a
    dealer starts, with the transfer in its file if there is one.  Whatever then happens to
    it, when it is stopped between two messages it starts again with the transfer it had in
    memory; and when it is stopped while it handles a message, at any step of writing its
    file, with that transfer or one it saved since, never with anything else. *)
Theorem dealer_resumes `{BfEnv} args t msgs msg path fs :
  dealer_dir path fs →
  ∃ storage, start_storage path fs = Ok storage ∧
  let s := (run_bf args msgs (bf_init storage t)).1 in
  let s' := (bf_on_msg args msg s).1 in
  let fs1 := file_steps (concat (storage_save_steps path <$> saved_storages (bs_log s))) fs in
  start_storage path fs1 = Ok (bs_storage s) ∧
  ∃ since, saved_storages (bs_log s') = saved_storages (bs_log s) ++ since ∧
    ∀ n, ∃ storage', storage' ∈ bs_storage s :: since ∧
      start_storage path (file_steps (take n (concat (storage_save_steps path <$> since))) fs1) = Ok storage'.
Proof.
  intros (storage & Hfs & Hwf)%dealer_dir_starts. exists storage. split; [done|]. intros s s' fs1.
  assert (start_storage path fs1 = Ok (bs_storage s)) as Hstart by by apply stopped_resumes.
  split; [exact Hstart|].
  destruct (ledger_on_msg (λ _, True) args (bs_log s) ltac:(done) msg s) as (new & Hnew & _); [by exists []|].
  exists (saved_storages new). change (bs_log s' = new ++ bs_log s) in Hnew. split.
  { unfold saved_storages. by rewrite Hnew, reverse_app, omap_app. }
  intros n. destruct (storage_survives_crash path (saved_storages new) n fs1) as [k Hk].
  rewrite Hk, Hstart. destruct (last (take k (saved_storages new))) as [storage'|] eqn:El.
  - exists storage'. split; [|done]. right. apply last_Some in El as [l El].
    rewrite <- (take_drop k (saved_storages new)), El. set_solver.
  - exists (bs_storage s). split; [left|done].
Qed.
End Restart.

(** *** A file with a transfer *)

Module FilesSample.
Definition TransferState_countable : Countable TransferState.
Proof.
  refine (inj_countable
    (λ s, match s with
     | SendUsdtNew => 0 | SendUsdtWaitConfirm => 1 | RecvUsdtNew => 2
     | RecvUsdtWaitWithdrawId => 3 | RecvUsdtWaitConfirm => 4 | SendBtcNew => 5
     | SendBtcWaitLbtcBalance => 6 | SendBtcWaitConfirm => 7 | RecvBtcNew => 8
     | RecvBtcWaitLbtcBalance => 9 | RecvBtcWaitWithdrawId => 10 | RecvBtcWaitConfirm => 11
     | Complete => 12 | Failed => 13 end)
    (λ n, [SendUsdtNew; SendUsdtWaitConfirm; RecvUsdtNew; RecvUsdtWaitWithdrawId;
           RecvUsdtWaitConfirm; SendBtcNew; SendBtcWaitLbtcBalance; SendBtcWaitConfirm;
           RecvBtcNew; RecvBtcWaitLbtcBalance; RecvBtcWaitWithdrawId; RecvBtcWaitConfirm;
           Complete; Failed] !! Z.to_nat n) _).
  by intros [].
Defined.

#[local] Existing Instance TransferState_countable.

#[local] Instance Transfer_eq_dec : EqDecision Transfer.
Proof. solve_decision. Defined.

#[local] Instance Transfer_countable : Countable Transfer.
Proof.
  refine (inj_countable'
    (λ t, (tr_withdraw_id t, tr_state t, tr_amount t, tr_created_at t, tr_updated_at t, tr_txid t))
    (λ '(a, b, c, d, e, f), {| tr_withdraw_id := a; tr_state := b; tr_amount := c;
       tr_created_at := d; tr_updated_at := e; tr_txid := f |}) _).
  by intros [].
Defined.

#[local, program] Instance json_bits {A} `{Countable A} : Json A := {
  to_json a := bits (encode a);
  from_json data := match decode (unbits data) with Some a => inl a | None => inr "no value" end
}.
Next Obligation. intros A ?? a. cbn. rewrite unbits_bits. by rewrite decode_encode. Qed.


#[export] Instance json_storage : Json Storage := json_bits.

Definition path : string := "storage.json".

(** The directory after the dealer of [Bitfinex.Sample] took so many steps of writing: its
    withdrawal was asked for. *)
Definition dir (n : nat) : Files :=
  file_steps (take n (concat (storage_save_steps path <$>
    saved_storages (bs_log (@run_bf Bitfinex.Sample.env Bitfinex.Sample.args Bitfinex.Sample.msgs
                              (bf_init None 0)).1)))) ∅.

(** The next dealer hears that the withdrawal was accepted. *)
Definition more : list BfMsg := [Bf_ModuleMessage (FromModule_Withdraw 77)].

Lemma dir_ok n : dealer_dir path (dir n).
Proof. apply dir_stopped; [by apply dir_first|done]. Qed.
End FilesSample.

#[local] Existing Instances FilesSample.json_storage Bitfinex.Sample.env.

Lemma dealer_resumes_witness :
  ∃ storage b, start_storage FilesSample.path (FilesSample.dir 1400) = Ok storage ∧
    start_storage FilesSample.path (file_steps (concat (storage_save_steps FilesSample.path <$>
      saved_storages (bs_log (run_bf Bitfinex.Sample.args FilesSample.more (bf_init storage 0)).1)))
      (FilesSample.dir 1400)) = Ok (Some b) ∧ tr_state b = RecvUsdtWaitConfirm.
Proof.
  destruct (dealer_resumes Bitfinex.Sample.args 0 FilesSample.more Bf_Timer _ _ (FilesSample.dir_ok 1400))
    as (storage & Hs & Hr & _).
  exists storage. eexists. split; [exact Hs|]. rewrite Hr. clear Hr.
  assert (Ok storage = start_storage FilesSample.path (FilesSample.dir 1400)) as E by by rewrite Hs.
  vm_compute in E. injection E as ->. split; vm_compute; reflexivity.
Defined.

(** What the file does not protect from: the payment comes before the save that
    says so.  Here the dealer asked for its withdrawal and is stopped; the file still has
    the transfer that waits to do so, and the next dealer asks for it again. *)
Example paid_not_saved :
  let log := reverse (bs_log (run_bf Bitfinex.Sample.args Bitfinex.Sample.msgs (bf_init None 0)).1) in
  ∃ n, let stopped := reverse (take n log) in
    count is_payout stopped = 1 ∧
    ∃ storage, start_storage FilesSample.path (file_steps (concat (storage_save_steps FilesSample.path <$>
                 saved_storages stopped)) ∅) = Ok storage ∧
      tr_state <$> storage = Some RecvUsdtNew ∧
      count is_payout (bs_log (run_bf Bitfinex.Sample.args
        (take 2 Bitfinex.Sample.msgs ++ [Bf_Timer]) (bf_init storage 0)).1) = 1.
Proof. exists 20%nat. split; [vm_compute; done|]. eexists. split; [vm_compute; reflexivity|]. by vm_compute. Qed.
