(* ===== verification/Ffi.v ===== *)
(** * The interface to the application

    The C functions through which an application drives the client
    (rust/sideswap_client/src/ffi.rs), with what the worker's thread does behind them, and
    the headless driver that puts a WebSocket in front of them
    (rust/sideswap_headless/src/main.rs).  A pointer handed out is an address of a heap of
    boxes; using one that is not there, or is a box of another kind, is undefined behaviour,
    which sets a flag.  The application, the worker and the threads that send to the worker
    take turns in any order. *)
From stdpp Require Import base numbers gmap strings list.
From Stdlib Require Import ZArith Lia.
From S2P Require Import Prelude Serial Api Links Types Env ClientApi Client Orders Market Flows Worker Shown Files.

Open Scope Z_scope.
#[local] Set Primitive Projections.

(** ** Environments, addresses, mnemonics *)

Definition SIDESWAP_DART_PORT_DISABLED : Z := -1.
Definition SIDESWAP_BITCOIN : Z := 1.
Definition SIDESWAP_ELEMENTS : Z := 2.
Definition SIDESWAP_ENV_PROD : Z := 0.
Definition SIDESWAP_ENV_STAGING : Z := 1.
Definition SIDESWAP_ENV_REGTEST : Z := 2.
Definition SIDESWAP_ENV_LOCAL : Z := 3.
Definition SIDESWAP_ENV_LOCAL_LIQUID : Z := 4.
Definition SIDESWAP_ENV_TESTNET : Z := 5.
Definition SIDESWAP_ENV_LOCAL_TESTNET : Z := 6.

Definition get_ffi_from_env (env : Z) : option Env :=
  if env =? SIDESWAP_ENV_PROD then Some Env_Prod
  else if env =? SIDESWAP_ENV_STAGING then Some Env_Staging
  else if env =? SIDESWAP_ENV_REGTEST then Some Env_Regtest
  else if env =? SIDESWAP_ENV_LOCAL then Some Env_Local
  else if env =? SIDESWAP_ENV_LOCAL_LIQUID then Some Env_LocalLiquid
  else if env =? SIDESWAP_ENV_TESTNET then Some Env_Testnet
  else if env =? SIDESWAP_ENV_LOCAL_TESTNET then Some Env_LocalTestnet
  else None.

(** What the bitcoin crate says of an address; what the elements crate says: whether it is
    blinded, under the parameters of a network. *)
Inductive BitcoinNetwork := Net_Bitcoin | Net_Testnet | Net_Signet | Net_Regtest.
#[export] Instance BitcoinNetwork_eq_dec : EqDecision BitcoinNetwork.
Proof. solve_decision. Defined.
Inductive Payload := Pay_PubkeyHash | Pay_ScriptHash | Pay_WitnessProgram.
#[export] Instance Payload_eq_dec : EqDecision Payload.
Proof. solve_decision. Defined.
Record BitcoinAddress := { ba_network : BitcoinNetwork; ba_payload : Payload }.
Inductive ElementsParams := Params_liquid | Params_liquid_testnet | Params_elements.

Definition elements_params (env : Env) : ElementsParams :=
  match env with
  | Env_Prod | Env_Staging | Env_LocalLiquid => Params_liquid
  | Env_Testnet | Env_LocalTestnet => Params_liquid_testnet
  | Env_Regtest | Env_Local => Params_elements
  end.

(** ** The boxes behind the pointers *)

Record StartParams := {
  sp_work_dir : string;
  sp_version : string;
  sp_disable_device_key : option bool
}.

(** [Client], with the contents of its two channels, the state of its worker ([None]
    before the thread runs) and of the thread that posts to Dart. *)
Record Client := {
  fc_env : Env;
  fc_params : StartParams;
  fc_to_worker : list Message;
  fc_from_worker : list FromMsg;
  fc_receiver_ffi : bool;
  fc_dart : option Z;
  fc_worker : option Data;
  fc_ended : bool
}.

Inductive Box :=
  | Box_client (client : Client)
  | Box_message (data : bytes)
  | Box_string (text : string).

(** What can be seen from outside. *)
Inductive FfiEvent :=
  | Ffi_sent (m : Message)
  | Ffi_handled (m : Message)
  | Ffi_given (pointer : Z) (box : Box)
  | Ffi_posted (port pointer : Z) (data : bytes) (taken : bool)
  | Ffi_read (pointer : Z) (data : bytes)
  | Ffi_length (pointer len : Z)
  | Ffi_freed (pointer : Z)
  | Ffi_frame (frame : Frame)
  | Ffi_error_frame (frame : Frame).

Record FfiState := {
  ff_heap : gmap Z Box;
  ff_global_client : Z;
  ff_logger : bool;
  ff_senders : nat;
  ff_undefined : bool;
  ff_log : list FfiEvent
}.

Abbreviation FfiM := (M FfiState).

(** The allocator, the encodings of prost, the libraries that read addresses and
    mnemonics, the services of the worker a client starts, and the JSON of the driver. *)
Class FfiEnv := {
  box_alloc : gmap Z Box → Z;
  to_encode : option ToMsg → bytes;
  to_decode : bytes → option (option ToMsg);
  from_encode : option FromMsg → bytes;
  from_decode : bytes → option (option FromMsg);
  to_from_json : string → option ToMsg + string;
  from_to_json : option FromMsg → string;
  bitcoin_address : string → option BitcoinAddress;
  elements_address : ElementsParams → string → option bool;
  mnemonic_words : string → option Z;
  mnemonic_of_entropy : bytes → string;
  services : Env → StartParams → WorkerEnv
}.

(** What [Box] promises: a box gets an address of its own, which is not null. *)
Class FfiLaws `{FfiEnv} := {
  alloc_fresh h : h !! box_alloc h = None;
  alloc_not_null h : box_alloc h ≠ 0
}.

Section Ffi.
Context `{FfiEnv}.

Definition check_bitcoin_address (env : Env) (addr : string) : bool :=
  match bitcoin_address addr with
  | None => false
  | Some addr =>
      match env with
      | Env_Prod | Env_Staging | Env_LocalLiquid => bool_decide (ba_network addr = Net_Bitcoin)
      | Env_Local | Env_Regtest | Env_Testnet | Env_LocalTestnet =>
          let script_hash := bool_decide (ba_payload addr = Pay_ScriptHash) in
          bool_decide (ba_network addr = Net_Regtest) ||
          bool_decide (ba_network addr = Net_Testnet) && script_hash
      end
  end.

Definition check_elements_address (env : Env) (addr : string) : bool :=
  default false (elements_address (elements_params env) addr).

Definition sideswap_verify_mnemonic (mnemonic : string) : bool :=
  from_option (λ words, (words =? 12) || (words =? 24)) false (mnemonic_words mnemonic).

(** *** Pointers *)

Definition ffi_emit (e : FfiEvent) : FfiM unit := modify (λ s, s <| ff_log ::= cons e |>).

(** [unsafe] code used against its contract. *)
Definition undefined {A} : FfiM A :=
  do! modify (λ s, s <| ff_undefined := true |>) in
  panic "undefined behaviour".

(** [Box::into_raw(Box::new(..))] and [Box::from_raw(..)] *)
Definition into_raw (box : Box) : FfiM Z :=
  let! heap := gets ff_heap in
  let p := box_alloc heap in
  do! modify (λ s, s <| ff_heap ::= <[p := box]> |>) in
  ret p.

Definition drop_raw (p : Z) : FfiM unit := modify (λ s, s <| ff_heap ::= delete p |>).

Definition client_at (p : Z) : FfiM Client :=
  let! heap := gets ff_heap in
  match heap !! p with Some (Box_client client) => ret client | _ => undefined end.

Definition message_at (p : Z) : FfiM bytes :=
  let! heap := gets ff_heap in
  match heap !! p with Some (Box_message data) => ret data | _ => undefined end.

Definition update_client (p : Z) (f : Client → Client) : FfiM unit :=
  let! client := client_at p in
  modify (λ s, s <| ff_heap ::= <[p := Box_client (f client)]> |>).

Definition assert (b : bool) (e : string) : FfiM unit := lift (oassert b e).

(** *** Messages to the application *)

Definition convert_from_msg (msg : FromMsg) : FfiM Z :=
  into_raw (Box_message (from_encode (Some msg))).

Definition sideswap_msg_ptr (msg : Z) : FfiM bytes :=
  do! assert (negb (msg =? 0)) "msg != 0" in message_at msg.

Definition sideswap_msg_len (msg : Z) : FfiM Z :=
  do! assert (negb (msg =? 0)) "msg != 0" in
  let! data := message_at msg in
  ret (Z.of_nat (length data)).

Definition sideswap_msg_free (msg : Z) : FfiM unit :=
  do! assert (negb (msg =? 0)) "msg != 0" in
  do! (let! _data := message_at msg in ret tt) in
  drop_raw msg.

(** An error is a call that waits. *)
Definition sideswap_recv_request (client : Z) : FfiM Z :=
  do! assert (negb (client =? 0)) "client != 0" in
  let! c := client_at client in
  do! expect (if fc_receiver_ffi c then Some tt else None)
        "sideswap_recv_request can't be used with dart" in
  match fc_from_worker c with
  | msg :: rest =>
      do! update_client client (λ c, c <| fc_from_worker := rest |>) in
      convert_from_msg msg
  | [] => if fc_ended c then panic "RecvError" else fail "waits"
  end.

(** *** Messages to the worker *)

Definition send_to_worker (client : Z) (m : Message) : FfiM unit :=
  let! c := client_at client in
  do! expect (if fc_ended c then None else Some tt) "sending to message failed" in
  do! update_client client (λ c, c <| fc_to_worker ::= λ l, l ++ [m] |>) in
  ffi_emit (Ffi_sent m).

(** [data] is what the pointer and the length given describe; [None] is null. *)
Definition sideswap_send_request (client : Z) (data : option bytes) : FfiM unit :=
  do! assert (negb (client =? 0)) "client != 0" in
  let! slice := expect data "data != null" in
  do! (let! _client := client_at client in ret tt) in
  let! to := expect (to_decode slice) "message decode failed" in
  let! msg := expect to "empty message" in
  send_to_worker client (Msg_Ui msg).

(** The push message a background task of the phone got; the wait of 25 seconds for its
    processing changes nothing. *)
Definition sideswap_process_background (data : string) : FfiM unit :=
  let! client := gets ff_global_client in
  if client =? 0 then ret tt
  else
    let! sender := gets ff_senders in
    do! modify (λ s, s <| ff_senders ::= S |>) in
    send_to_worker client (Msg_BackgroundMessage data sender).

Definition send_msg (client : Z) (msg : ToMsg) : FfiM unit :=
  sideswap_send_request client (Some (to_encode (Some msg))).

(** Take the next message, copy it out of its box and free the box. *)
Definition recv_copy (client : Z) : FfiM bytes :=
  let! msg := sideswap_recv_request client in
  let! ptr := sideswap_msg_ptr msg in
  let! size := sideswap_msg_len msg in
  let msg_copy := take (Z.to_nat size) ptr in
  do! sideswap_msg_free msg in
  ret msg_copy.

Definition blocking_recv_msg (client : Z) : FfiM FromMsg :=
  let! msg_copy := recv_copy client in
  let! msg := expect (from_decode msg_copy) "message decode failed" in
  expect msg "None".

(** *** Starting a client *)

(** The logger is initialized once per process; the threads take their turns below. *)
Definition sideswap_client_start_impl (env : Env) (start_params : StartParams) (dart_port : Z)
    : FfiM Z :=
  let enable_dart := negb (dart_port =? SIDESWAP_DART_PORT_DISABLED) in
  do! modify (λ s, s <| ff_logger := true |>) in
  let! client := into_raw (Box_client {|
    fc_env := env;
    fc_params := start_params;
    fc_to_worker := [];
    fc_from_worker := [];
    fc_receiver_ffi := negb enable_dart;
    fc_dart := if enable_dart then Some dart_port else None;
    fc_worker := None;
    fc_ended := false |}) in
  do! modify (λ s, s <| ff_global_client := client |>) in
  ret client.

Definition sideswap_client_start (env : Z) (work_dir version : string) (dart_port : Z) : FfiM Z :=
  let! env := expect (get_ffi_from_env env) "unknown env" in
  sideswap_client_start_impl env
    {| sp_work_dir := work_dir; sp_version := version; sp_disable_device_key := None |} dart_port.

Definition sideswap_check_addr (client : Z) (addr : option string) (addr_type : Z) : FfiM bool :=
  do! assert (negb (client =? 0)) "client != 0" in
  let! addr := expect addr "addr != null" in
  let! client := client_at client in
  if addr_type =? SIDESWAP_BITCOIN then ret (check_bitcoin_address (fc_env client) addr)
  else if addr_type =? SIDESWAP_ELEMENTS then ret (check_elements_address (fc_env client) addr)
  else panic "unexpected type".

Definition sideswap_generate_mnemonic12 (key : bytes) : FfiM Z :=
  into_raw (Box_string (mnemonic_of_entropy key)).

Definition sideswap_string_free (str : Z) : FfiM unit :=
  let! heap := gets ff_heap in
  match heap !! str with Some (Box_string _) => drop_raw str | _ => undefined end.

(** *** The threads *)

(** [UiData::send] for all a handler sends: while somebody can receive, into the channel;
    otherwise the flag is set that ends the worker's loop after the handler. *)
Definition ui_deliver (new : list FromMsg) (c : Client) : Client :=
  if fc_receiver_ffi c || bool_decide (is_Some (fc_dart c))
  then c <| fc_from_worker ::= λ l, l ++ new |>
  else c <| fc_ended := bool_decide (new ≠ []) |>.

(** A handler runs on the worker's state.  A panic in it ends the process (the hook
    aborts it). *)
Definition worker_handle (client : Z) (handler : DataM unit) (w : Data) (rest : list Message)
    (message : option Message) : FfiM unit :=
  match handler w with
  | (w', Ok _) =>
      do! update_client client (λ c, ui_deliver (shown (new_events w w'))
            (c <| fc_worker := Some w' |> <| fc_to_worker := rest |>)) in
      for_each (option_list message) (λ m, ffi_emit (Ffi_handled m))
  | (_, Err e) | (_, Panic e) => panic e
  end.

(** The worker's thread: it starts, or takes the next message. *)
Definition worker_turn (client : Z) : FfiM unit :=
  let! c := client_at client in
  let env := services (fc_env c) (fc_params c) in
  if fc_ended c then ret tt
  else
    match fc_worker c, fc_to_worker c with
    | None, queue => worker_handle client (@start env) (@initial_data env) queue None
    | Some w, [] => ret tt
    | Some w, m :: rest => worker_handle client (@process_message env m) w rest (Some m)
    end.

(** The thread that posts the messages to Dart, which takes them or not; when it does not,
    the thread ends, and with it its end of the channel. *)
Definition dart_turn (client : Z) (result : bool) : FfiM unit :=
  let! c := client_at client in
  match fc_dart c, fc_from_worker c with
  | Some port, msg :: rest =>
      do! update_client client (λ c, c <| fc_from_worker := rest |>) in
      let! msg_ptr := convert_from_msg msg in
      do! ffi_emit (Ffi_posted port msg_ptr (from_encode (Some msg)) result) in
      if result then ret tt
      else update_client client (λ c, c <| fc_dart := None |> <| fc_from_worker := [] |>)
  | _, _ => ret tt
  end.

(** Another thread of the client sends to the worker; it does not mind when that fails. *)
Definition thread_send (client : Z) (m : Message) : FfiM unit :=
  let! c := client_at client in
  if fc_ended c then ret tt else send_to_worker client m.

(** *** A program and its client *)

(** One call of a C function, with any pointer, or one turn of a thread of the client. *)
Inductive FfiAct :=
  | Act_send_request (client : Z) (data : option bytes)
  | Act_recv_request (client : Z)
  | Act_msg_ptr (msg : Z)
  | Act_msg_len (msg : Z)
  | Act_msg_free (msg : Z)
  | Act_process_background (data : string)
  | Act_check_addr (client : Z) (addr : option string) (addr_type : Z)
  | Act_generate_mnemonic12 (key : bytes)
  | Act_verify_mnemonic (mnemonic : string)
  | Act_string_free (str : Z)
  | Act_arrives (m : Message)
  | Act_worker
  | Act_dart (result : bool).

(** The box whose pointer a call returned. *)
Definition given (p : Z) : FfiM unit :=
  let! heap := gets ff_heap in
  for_each (option_list (heap !! p)) (λ box, ffi_emit (Ffi_given p box)).

(** [client] is the client whose threads take turns.  A call that waits is made again
    later. *)
Definition ffi_step (client : Z) (act : FfiAct) : FfiM unit :=
  match act with
  | Act_send_request c data => sideswap_send_request c data
  | Act_recv_request c =>
      let! r := attempt (sideswap_recv_request c) in
      match r with inl msg => given msg | inr _ => ret tt end
  | Act_msg_ptr msg => let! data := sideswap_msg_ptr msg in ffi_emit (Ffi_read msg data)
  | Act_msg_len msg => let! len := sideswap_msg_len msg in ffi_emit (Ffi_length msg len)
  | Act_msg_free msg => do! sideswap_msg_free msg in ffi_emit (Ffi_freed msg)
  | Act_process_background data => sideswap_process_background data
  | Act_check_addr c addr addr_type =>
      let! _valid := sideswap_check_addr c addr addr_type in ret tt
  | Act_generate_mnemonic12 key => let! str := sideswap_generate_mnemonic12 key in given str
  | Act_verify_mnemonic mnemonic =>
      let _valid := sideswap_verify_mnemonic mnemonic in ret tt
  | Act_string_free str => do! sideswap_string_free str in ffi_emit (Ffi_freed str)
  | Act_arrives m => thread_send client m
  | Act_worker => worker_turn client
  | Act_dart result => dart_turn client result
  end.

Definition run_ffi (env : Env) (params : StartParams) (port : Z) (acts : list FfiAct) : FfiM unit :=
  let! client := sideswap_client_start_impl env params port in
  for_each acts (ffi_step client).

(** What the program was given and has not freed. *)
Fixpoint held (log : list FfiEvent) : gmap Z Box :=
  match log with
  | [] => ∅
  | Ffi_given p box :: log => <[p := box]> (held log)
  | Ffi_posted _ p data true :: log => <[p := Box_message data]> (held log)
  | Ffi_freed p :: log => delete p (held log)
  | _ :: log => held log
  end.

Definition holds_message (p : Z) (log : list FfiEvent) : bool :=
  match held log !! p with Some (Box_message _) => true | _ => false end.

Definition holds_string (p : Z) (log : list FfiEvent) : bool :=
  match held log !! p with Some (Box_string _) => true | _ => false end.

(** The rules of the interface, which the code does not check or panics about: the client
    is the one that was started, no argument is null, a message or string is used only while
    it is held, messages are asked for only without Dart, and addresses are of one of the
    two kinds. *)
Definition may_call (client : Z) (dart : bool) (log : list FfiEvent) (act : FfiAct) : bool :=
  match act with
  | Act_send_request c data => (c =? client) && bool_decide (is_Some data)
  | Act_recv_request c => (c =? client) && negb dart
  | Act_msg_ptr msg | Act_msg_len msg | Act_msg_free msg => holds_message msg log
  | Act_check_addr c addr addr_type =>
      (c =? client) && bool_decide (is_Some addr) &&
      ((addr_type =? SIDESWAP_BITCOIN) || (addr_type =? SIDESWAP_ELEMENTS))
  | Act_string_free str => holds_string str log
  | _ => true
  end.

Fixpoint keeps_rules (client : Z) (dart : bool) (acts : list FfiAct) (s : FfiState) : bool :=
  match acts with
  | [] => true
  | act :: acts =>
      may_call client dart (ff_log s) act &&
      match ffi_step client act s with
      | (s', Ok _) => keeps_rules client dart acts s'
      | _ => true
      end
  end.

(** A program that keeps the rules for as long as it runs. *)
Definition well_behaved (env : Env) (params : StartParams) (port : Z) (acts : list FfiAct)
    (s : FfiState) : bool :=
  match sideswap_client_start_impl env params port s with
  | (s', Ok client) => keeps_rules client (negb (port =? SIDESWAP_DART_PORT_DISABLED)) acts s'
  | _ => true
  end.

(** *** The headless driver *)

Definition on_request (path : string) : bool + string :=
  if String.eqb path "/protobuf" then inl false
  else if String.eqb path "/json" then inl true
  else inr "not found".

Definition headless_env (env_name : string) : outcome Env :=
  if String.eqb env_name "prod" then Ok Env_Prod
  else if String.eqb env_name "testnet" then Ok Env_Testnet
  else if String.eqb env_name "local" then Ok Env_LocalTestnet
  else Panic "unknown env".

(** The thread that writes to the peer, one message at a time. *)
Definition headless_write (use_json : bool) (client : Z) : FfiM unit :=
  let! msg := recv_copy client in
  let! msg :=
    if use_json then
      let! msg := expect (from_decode msg) "message decode failed" in
      ret (Frame_Text (from_to_json msg))
    else ret (Frame_Binary msg) in
  ffi_emit (Ffi_frame msg).

(** One message of the peer; whether the loop goes on. *)
Definition headless_read (client : Z) (msg : Frame) : FfiM bool :=
  match msg with
  | Frame_Text v =>
      match to_from_json v with
      | inl msg => do! sideswap_send_request client (Some (to_encode msg)) in ret true
      | inr e => do! ffi_emit (Ffi_error_frame (Frame_Text ("parsing failed: " +:+ e))) in ret true
      end
  | Frame_Binary data => do! sideswap_send_request client (Some data) in ret true
  | Frame_Ping _ | Frame_Pong _ => ret true
  | Frame_Close => ret false
  end.

(** What happens next: the peer sends, or is gone; the writing thread can run; the client's
    threads. *)
Inductive HeadlessInput :=
  | Hl_frame (msg : Frame)
  | Hl_end
  | Hl_write
  | Hl_arrives (m : Message)
  | Hl_worker.

Definition headless_step (use_json : bool) (client : Z) (i : HeadlessInput) : FfiM bool :=
  match i with
  | Hl_frame msg => headless_read client msg
  | Hl_end => ret false
  | Hl_write => do! (let! _r := attempt (headless_write use_json client) in ret tt) in ret true
  | Hl_arrives m => do! thread_send client m in ret true
  | Hl_worker => do! worker_turn client in ret true
  end.

Fixpoint headless_loop (use_json : bool) (client : Z) (inputs : list HeadlessInput) : FfiM unit :=
  match inputs with
  | [] => ret tt
  | i :: inputs =>
      let! more := headless_step use_json client i in
      if more then headless_loop use_json client inputs else ret tt
  end.

Definition headless_main (env_name work_dir path : string) (inputs : list HeadlessInput) : FfiM unit :=
  let! env := lift (headless_env env_name) in
  let! client_ptr := sideswap_client_start_impl env
    {| sp_work_dir := work_dir; sp_version := "1.0.0"; sp_disable_device_key := None |}
    SIDESWAP_DART_PORT_DISABLED in
  do! assert (negb (client_ptr =? 0)) "client_ptr != 0" in
  match on_request path with
  | inl use_json => headless_loop use_json client_ptr inputs
  | inr e => panic e
  end.
End Ffi.

Definition ffi_init : FfiState := {|
  ff_heap := ∅;
  ff_global_client := 0;
  ff_logger := false;
  ff_senders := 0;
  ff_undefined := false;
  ff_log := []
|}.

(** ** The log *)

(** [redact_to_msg] and [redact_from_msg] of worker.rs *)
Definition REDACTED : string := "<redacted>".

Definition redact_to_msg (msg : ToMsg) : ToMsg :=
  match msg with
  | To_Login v => To_Login {|
      login_wallet := None;
      login_network := login_network v;
      login_send_utxo_updates := login_send_utxo_updates v;
      login_force_auto_sign_maker := login_force_auto_sign_maker v |}
  | To_EncryptPin pin _ => To_EncryptPin pin REDACTED
  | To_DecryptPin _ _ _ _ => To_DecryptPin REDACTED REDACTED REDACTED REDACTED
  | _ => msg
  end.

Definition redact_from_msg (msg : FromMsg) : FromMsg :=
  match msg with
  | From_DecryptPin (inl _) => From_DecryptPin (inl REDACTED)
  | From_NewAsset v => From_NewAsset {|
      pa_asset_id := pa_asset_id v;
      pa_name := pa_name v;
      pa_ticker := pa_ticker v;
      pa_icon := REDACTED;
      pa_precision := pa_precision v;
      pa_instant_swaps := pa_instant_swaps v;
      pa_swap_market := pa_swap_market v;
      pa_amp_market := pa_amp_market v;
      pa_unregistered := pa_unregistered v;
      pa_domain := pa_domain v;
      pa_domain_agent := pa_domain_agent v;
      pa_always_show := pa_always_show v |}
  | _ => msg
  end.

(** The release build's limit. *)
Definition LINE_LIMIT : nat := 2 * 1024.

Definition log_format (now level module_path args : string) : outcome string :=
  let text := "[" +:+ now +:+ "] " +:+ level +:+ " " +:+ module_path +:+ " " +:+ args in
  let len := Nat.min (String.length text) LINE_LIMIT in
  str_prefix text len.

(** What [init_log] does to the files: a log of more than 50 MB is put aside. *)
Definition init_log (work_dir : string) (fs : Files) : list FileStep :=
  let path := path_join work_dir "sideswap.log" in
  let file_size := Z.of_nat (from_option length 0%nat (fs !! path)) in
  if 50 * 1024 * 1024 <? file_size
  then [File_rename path (path_join work_dir "sideswap_prev.log")]
  else [].

(** ** Delivery *)

(** What was sent to the worker, what it handled, what the program received or Dart was
    posted, what the driver wrote to its peer; oldest first. *)
Definition sent (log : list FfiEvent) : list Message :=
  omap (λ e, match e with Ffi_sent m => Some m | _ => None end) (reverse log).
Definition handled (log : list FfiEvent) : list Message :=
  omap (λ e, match e with Ffi_handled m => Some m | _ => None end) (reverse log).
Definition received_of (e : FfiEvent) : option bytes :=
  match e with
  | Ffi_given _ (Box_message data) | Ffi_posted _ _ data _ => Some data
  | _ => None
  end.
Definition received (log : list FfiEvent) : list bytes := omap received_of (reverse log).
Definition frames (log : list FfiEvent) : list Frame :=
  omap (λ e, match e with Ffi_frame f => Some f | _ => None end) (reverse log).

Lemma omap_log {A} (f : FfiEvent → option A) e log :
  omap f (reverse (e :: log)) = omap f (reverse log) ++ option_list (f e).
Proof. rewrite reverse_cons, omap_app. simpl. by destruct (f e). Qed.

Lemma sent_log_cons e log :
  sent (e :: log) = sent log ++ match e with Ffi_sent m => [m] | _ => [] end.
Proof. unfold sent. rewrite omap_log. by destruct e. Qed.
Lemma handled_cons e log :
  handled (e :: log) = handled log ++ match e with Ffi_handled m => [m] | _ => [] end.
Proof. unfold handled. rewrite omap_log. by destruct e. Qed.
Lemma received_cons e log : received (e :: log) = received log ++ option_list (received_of e).
Proof. apply omap_log. Qed.
Lemma frames_cons e log :
  frames (e :: log) = frames log ++ match e with Ffi_frame f => [f] | _ => [] end.
Proof. unfold frames. rewrite omap_log. by destruct e. Qed.

(** The box of a message that Dart did not take: nobody has its pointer. *)
Fixpoint lost (log : list FfiEvent) : gmap Z Box :=
  match log with
  | [] => ∅
  | Ffi_posted _ p data false :: log => <[p := Box_message data]> (lost log)
  | _ :: log => lost log
  end.

(** Whether Dart has refused a message. *)
Definition refused (log : list FfiEvent) : bool :=
  existsb (λ e, match e with Ffi_posted _ _ _ false => true | _ => false end) log.

(** What was read behind a pointer is what the box held when the pointer was given. *)
Fixpoint reads_ok (log : list FfiEvent) : Prop :=
  match log with
  | [] => True
  | Ffi_read p data :: log => held log !! p = Some (Box_message data) ∧ reads_ok log
  | Ffi_length p len :: log =>
      (∃ data, held log !! p = Some (Box_message data) ∧ len = Z.of_nat (length data)) ∧ reads_ok log
  | _ :: log => reads_ok log
  end.

(** The start of the client, the turns of its threads and the calls reach one box of the
    client; all others are [boxes]. *)
Section Delivery.
Context `{FfiLaws} (env : Env) (params : StartParams) (port : Z).

Definition client_ptr : Z := box_alloc ∅.
Definition enable_dart : bool := negb (port =? SIDESWAP_DART_PORT_DISABLED).

(** The client after [sent] were sent, [handled] handled and [taken] taken out of it:
    nothing is doubled or out of order, nothing is lost unless Dart is [gone], and its
    worker is [run_worker]. *)
Record client_ok (taken : list FromMsg) (gone : bool) (sent handled : list Message) (c : Client)
    : Prop := {
  co_start : fc_env c = env ∧ fc_params c = params;
  co_ffi : fc_receiver_ffi c = negb enable_dart;
  co_dart : fc_dart c = if enable_dart && negb gone then Some port else None;
  co_gone : gone = true → enable_dart = true;
  co_open : gone = false → fc_ended c = false;
  co_in : sent = handled ++ fc_to_worker c;
  co_out :
    match fc_worker c with
    | None => handled = [] ∧ taken = [] ∧ fc_from_worker c = []
    | Some w =>
        @run_worker (services env params) handled (@initial_data (services env params)) = (w, Ok tt) ∧
        taken ++ fc_from_worker c `prefix_of` shown (wk_log w) ∧
        (gone = false → taken ++ fc_from_worker c = shown (wk_log w))
    end
}.

Record delivers (taken : list FromMsg) (boxes : gmap Z Box) (gone : bool) (s : FfiState) : Prop := {
  dl_defined : ff_undefined s = false;
  dl_global : ff_global_client s = client_ptr;
  dl_null : boxes !! 0 = None;
  dl_own : boxes !! client_ptr = None;
  dl_client : ∃ c, ff_heap s = <[client_ptr := Box_client c]> boxes ∧
    client_ok taken gone (sent (ff_log s)) (handled (ff_log s)) c
}.

Lemma client_ptr_not_null : (client_ptr =? 0) = false.
Proof using All. apply Z.eqb_neq, alloc_not_null. Qed.

Lemma client_on_heap c boxes s :
  ff_heap s = <[client_ptr := Box_client c]> boxes → ff_heap s !! client_ptr = Some (Box_client c).
Proof. intros E. rewrite_field E. apply lookup_insert_eq. Qed.

Lemma run_client_at {B} c s (k : Client → FfiM B) :
  ff_heap s !! client_ptr = Some (Box_client c) → bind (client_at client_ptr) k s = k c s.
Proof.
  intros E. apply bind_run. unfold client_at. rewrite bind_gets. by rewrite_field E.
Qed.

Lemma run_update_client {B} f c s (k : unit → FfiM B) :
  ff_heap s !! client_ptr = Some (Box_client c) →
  bind (update_client client_ptr f) k s = k tt (s <| ff_heap ::= <[client_ptr := Box_client (f c)]> |>).
Proof. intros E. apply bind_run. unfold update_client. by rewrite (run_client_at c). Qed.

Lemma heap_update c c' boxes s :
  ff_heap s = <[client_ptr := Box_client c]> boxes →
  <[client_ptr := Box_client c']> (ff_heap s) = <[client_ptr := Box_client c']> boxes.
Proof. intros E. rewrite_field E. apply insert_insert_eq. Qed.

Lemma heap_box taken boxes gone s p box :
  delivers taken boxes gone s → boxes !! p = Some box → ff_heap s !! p = Some box.
Proof.
  intros [_ _ _ Ho (c & Hh & _)] Hp. rewrite_field Hh. rewrite lookup_insert_ne; [done|]. congruence.
Qed.

(** Only the client changes. *)
Lemma delivers_client taken taken' boxes gone gone' s c c' :
  delivers taken boxes gone s → ff_heap s = <[client_ptr := Box_client c]> boxes →
  client_ok taken' gone' (sent (ff_log s)) (handled (ff_log s)) c' →
  delivers taken' boxes gone' (s <| ff_heap ::= <[client_ptr := Box_client c']> |>).
Proof.
  intros [Hu Hg Hn Ho _] Hh Hc. split; [exact Hu|exact Hg|exact Hn|exact Ho|].
  exists c'. split; [exact (heap_update _ _ _ _ Hh)|exact Hc].
Qed.

(** What is logged without a message sent or handled. *)
Lemma delivers_emit taken boxes gone s e :
  match e with Ffi_sent _ | Ffi_handled _ => False | _ => True end →
  delivers taken boxes gone s → delivers taken boxes gone (s <| ff_log ::= cons e |>).
Proof.
  intros He [Hu Hg Hn Ho (c & Hh & Hc)]. split; [exact Hu|exact Hg|exact Hn|exact Ho|]. exists c.
  split; [exact Hh|]. simpl. rewrite sent_log_cons, handled_cons. destruct e; try done; by rewrite !app_nil_r.
Qed.

(** A new box. *)
Lemma run_into_raw taken boxes gone s box :
  delivers taken boxes gone s →
  ∃ q s', into_raw box s = (s', Ok q) ∧ boxes !! q = None ∧ ff_log s' = ff_log s ∧
    ff_heap s' !! q = Some box ∧ delivers taken (<[q := box]> boxes) gone s'.
Proof.
  intros [Hu Hg Hn Ho (c & Hh & Hc)]. exists (box_alloc (ff_heap s)). unfold into_raw.
  rewrite bind_gets. cbv zeta. rewrite bind_modify. eexists. split; [reflexivity|].
  pose proof (alloc_fresh (ff_heap s)) as Hq. pose proof (alloc_not_null (ff_heap s)) as Hnull.
  set (q := box_alloc (ff_heap s)) in *. rewrite Hh in Hq.
  apply lookup_insert_None in Hq as [Hq Hne]. split; [done|]. split; [done|].
  split; [apply lookup_insert_eq|].
  split; [exact Hu|exact Hg|by rewrite lookup_insert_ne by done|by rewrite lookup_insert_ne by done|].
  exists c. split; [|exact Hc]. simpl. rewrite_field Hh. by apply insert_insert_ne.
Qed.

Lemma delivers_drop taken boxes gone s q box :
  delivers taken boxes gone s → boxes !! q = Some box →
  delivers taken (delete q boxes) gone (s <| ff_heap ::= delete q |>).
Proof.
  intros [Hu Hg Hn Ho (c & Hh & Hc)] Hq.
  split; [exact Hu|exact Hg|by apply lookup_delete_None; right|by apply lookup_delete_None; right|].
  exists c. split; [|exact Hc]. simpl. rewrite_field Hh. apply delete_insert_ne. congruence.
Qed.

(** *** Sending *)

(** One more message for the worker. *)
Lemma delivers_sent taken boxes gone m s c :
  delivers taken boxes gone s → ff_heap s = <[client_ptr := Box_client c]> boxes →
  client_ok taken gone (sent (ff_log s)) (handled (ff_log s)) c →
  delivers taken boxes gone
    (s <| ff_heap ::= <[client_ptr := Box_client (c <| fc_to_worker ::= λ l, l ++ [m] |>)]> |>
       <| ff_log ::= cons (Ffi_sent m) |>).
Proof.
  intros [Hu Hg Hn Ho _] Hh [Hst Hf Hd Hgo Hop Hi Hw].
  split; [exact Hu|exact Hg|exact Hn|exact Ho|].
  eexists. split; [exact (heap_update _ _ _ _ Hh)|].
  change (client_ok taken gone (sent (Ffi_sent m :: ff_log s)) (handled (Ffi_sent m :: ff_log s))
    (c <| fc_to_worker ::= λ l, l ++ [m] |>)).
  rewrite sent_log_cons, handled_cons. simpl. rewrite app_nil_r.
  split; [exact Hst|exact Hf|exact Hd|exact Hgo|exact Hop| |exact Hw].
  simpl. rewrite app_assoc. f_equal. exact Hi.
Qed.

(** A message is queued, unless the worker has ended: it does when Dart is gone. *)
Definition sends (taken : list FromMsg) (boxes : gmap Z Box) (gone : bool) (m : Message) (call : FfiM unit)
    (s : FfiState) : Prop :=
  (∃ s', call s = (s', Ok tt) ∧ delivers taken boxes gone s' ∧ ff_log s' = Ffi_sent m :: ff_log s) ∨
  gone = true ∧ ∃ s' e, call s = (s', Panic e) ∧ delivers taken boxes gone s' ∧ ff_log s' = ff_log s.

Lemma run_send taken boxes gone m s :
  delivers taken boxes gone s → sends taken boxes gone m (send_to_worker client_ptr m) s.
Proof.
  intros Hs. destruct (dl_client _ _ _ _ Hs) as (c & Hh & Hc). unfold sends, send_to_worker.
  pose proof (client_on_heap _ _ _ Hh) as Hp. rewrite (run_client_at c) by done.
  destruct (fc_ended c) eqn:He.
  - right. split; [|by exists s; eexists]. destruct gone; [done|].
    by rewrite (co_open _ _ _ _ _ Hc eq_refl) in He.
  - left. rewrite (bind_run (expect _ _) _ s s tt) by done. rewrite (run_update_client _ c) by done.
    eexists. split; [done|]. split; [by apply delivers_sent|done].
Qed.

Lemma run_request taken boxes gone data s :
  delivers taken boxes gone s →
  match to_decode data with
  | Some (Some m) => sends taken boxes gone (Msg_Ui m) (sideswap_send_request client_ptr (Some data)) s
  | _ => ∃ e, sideswap_send_request client_ptr (Some data) s = (s, Panic e)
  end.
Proof.
  intros Hs. destruct (dl_client _ _ _ _ Hs) as (c & Hh & _). pose proof (client_on_heap _ _ _ Hh) as Hp.
  assert (∀ k : unit → FfiM unit,
    bind (let! _client := client_at client_ptr in ret tt) k s = k tt s) as Hk.
  { intros k. apply bind_run. by rewrite (run_client_at c). }
  unfold sends, sideswap_send_request, assert. rewrite client_ptr_not_null.
  rewrite !(bind_run (lift _) _ s s tt) by done. rewrite !(bind_run (expect _ _) _ s s data) by done.
  rewrite Hk. destruct (to_decode data) as [[m|]|]; [|by eexists..].
  destruct (run_send taken boxes gone (Msg_Ui m) s Hs) as [(s' & E & Hs')|(Hg & s' & e & E & Hs')].
  - left. exists s'. by rewrite (bind_run (expect _ _) _ s s (Some m)), (bind_run (expect _ _) _ s s m).
  - right. split; [done|]. exists s', e.
    by rewrite (bind_run (expect _ _) _ s s (Some m)), (bind_run (expect _ _) _ s s m).
Qed.

Lemma run_background taken boxes gone data s :
  delivers taken boxes gone s →
  ∃ sender, sends taken boxes gone (Msg_BackgroundMessage data sender) (sideswap_process_background data) s.
Proof.
  intros Hs. exists (ff_senders s). unfold sends, sideswap_process_background. rewrite bind_gets.
  rewrite_field (dl_global _ _ _ _ Hs). rewrite client_ptr_not_null, bind_gets, bind_modify.
  destruct (run_send taken boxes gone (Msg_BackgroundMessage data (ff_senders s)) (s <| ff_senders ::= S |>))
    as [(s' & E & Hs' & El)|(Hg & s' & e & E & Hs' & El)].
  - destruct Hs as [Hu Hg Hn Ho Hc]. split; [exact Hu|exact Hg|exact Hn|exact Ho|exact Hc].
  - left. by exists s'.
  - right. split; [done|]. by exists s', e.
Qed.

(** Another thread of the client is told of nothing when the worker has ended. *)
Lemma run_thread_send taken boxes gone m s :
  delivers taken boxes gone s →
  (∃ s', thread_send client_ptr m s = (s', Ok tt) ∧ delivers taken boxes gone s' ∧
    ff_log s' = Ffi_sent m :: ff_log s) ∨
  gone = true ∧ thread_send client_ptr m s = (s, Ok tt).
Proof.
  intros Hs. destruct (dl_client _ _ _ _ Hs) as (c & Hh & Hc). pose proof (client_on_heap _ _ _ Hh) as Hp.
  unfold thread_send. rewrite (run_client_at c) by done. destruct (fc_ended c) eqn:He.
  - right. split; [|done]. destruct gone; [done|]. by rewrite (co_open _ _ _ _ _ Hc eq_refl) in He.
  - destruct (run_send taken boxes gone m s Hs) as [Hok|(_ & s' & e & E & _)]; [by left|].
    revert E. unfold send_to_worker. rewrite (run_client_at c) by done. rewrite_field He.
    rewrite (bind_run (expect _ _) _ s s tt) by done. by rewrite (run_update_client _ c) by done.
Qed.

(** *** The worker *)

Lemma delivers_handle taken boxes gone s c handler w rest message :
  delivers taken boxes gone s → ff_heap s = <[client_ptr := Box_client c]> boxes →
  (∀ w', handler w = (w', Ok tt) →
    client_ok taken gone (sent (ff_log s)) (handled (ff_log s) ++ option_list message)
      (ui_deliver (shown (new_events w w')) (c <| fc_worker := Some w' |> <| fc_to_worker := rest |>))) →
  delivers taken boxes gone (worker_handle client_ptr handler w rest message s).1.
Proof.
  intros Hs Hh Hc. unfold worker_handle. pose proof (client_on_heap _ _ _ Hh) as Hp.
  destruct (handler w) as [w' [[]|e|e]] eqn:E; [|exact Hs|exact Hs].
  rewrite (run_update_client _ c) by done. specialize (Hc w' eq_refl).
  set (c' := ui_deliver _ _) in *. destruct Hs as [Hu Hg Hn Ho _]. destruct message as [m|].
  - split; [exact Hu|exact Hg|exact Hn|exact Ho|]. exists c'. split; [exact (heap_update _ _ _ _ Hh)|].
    change (client_ok taken gone (sent (Ffi_handled m :: ff_log s)) (handled (Ffi_handled m :: ff_log s)) c').
    rewrite sent_log_cons, handled_cons, app_nil_r. exact Hc.
  - split; [exact Hu|exact Hg|exact Hn|exact Ho|]. exists c'. split; [exact (heap_update _ _ _ _ Hh)|].
    rewrite app_nil_r in Hc. exact Hc.
Qed.

(** What a handler shows goes into the channel while somebody can receive it. *)
Lemma client_ok_handled taken gone sent handled message c w w' rest :
  client_ok taken gone sent handled c →
  sent = (handled ++ option_list message) ++ rest →
  @run_worker (services env params) (handled ++ option_list message) (@initial_data (services env params))
    = (w', Ok tt) →
  taken ++ fc_from_worker c `prefix_of` shown (wk_log w) →
  (gone = false → taken ++ fc_from_worker c = shown (wk_log w)) →
  shown (wk_log w') = shown (wk_log w) ++ shown (new_events w w') →
  client_ok taken gone sent (handled ++ option_list message)
    (ui_deliver (shown (new_events w w')) (c <| fc_worker := Some w' |> <| fc_to_worker := rest |>)).
Proof.
  intros [Hst Hf Hd Hgo Hop Hi _] Hin Hrun Hpre Heq Hs. unfold ui_deliver. simpl.
  rewrite_field Hf. rewrite_field Hd. destruct gone.
  - rewrite (Hgo eq_refl). cbn.
    split; [exact Hst|exact Hf|exact Hd|exact Hgo|done|exact Hin|]. simpl. split; [done|].
    split; [|done]. rewrite Hs. by apply prefix_app_r.
  - rewrite andb_true_r.
    replace (negb enable_dart || bool_decide (is_Some (if enable_dart then Some port else None))) with true
      by by destruct enable_dart.
    split; [exact Hst|exact Hf|exact Hd|exact Hgo|exact Hop|exact Hin|]. simpl. split; [done|].
    assert (taken ++ fc_from_worker c ++ shown (new_events w w') = shown (wk_log w')) as E
      by (rewrite app_assoc, Hs; f_equal; by apply Heq).
    by rewrite_field E.
Qed.

Lemma delivers_worker_turn taken boxes gone s :
  delivers taken boxes gone s → delivers taken boxes gone (worker_turn client_ptr s).1.
Proof.
  intros Hs. destruct (dl_client _ _ _ _ Hs) as (c & Hh & Hc). unfold worker_turn.
  rewrite (run_client_at c) by by eapply client_on_heap. destruct (co_start _ _ _ _ _ Hc) as [He Hp].
  rewrite_field He. rewrite_field Hp. destruct (fc_ended c); [exact Hs|].
  pose proof (co_in _ _ _ _ _ Hc) as Hin. pose proof (co_out _ _ _ _ _ Hc) as Hout.
  destruct (fc_worker c) as [w|] eqn:Ew.
  - destruct Hout as (Hrun & Hpre & Heq). destruct (fc_to_worker c) as [|m rest] eqn:Eq; [exact Hs|].
    apply (delivers_handle _ _ _ _ c); [done..|]. intros w' Hm.
    apply client_ok_handled; [done|by rewrite <- app_assoc|by eapply run_worker_snoc|done..|].
    eapply shown_step; [apply (@grow_process_message (services env params))|done].
  - destruct Hout as (Eh & -> & Eq). apply (delivers_handle _ _ _ _ c); [done..|]. intros w' Hm.
    pose proof (shown_step _ (@initial_data (services env params)) _ _
      (@grow_start (services env params)) Hm) as Hs'.
    apply client_ok_handled; [done|by rewrite app_nil_r| | | |exact Hs'];
      rewrite Eh || rewrite_field Eq; [by apply run_worker_start|apply prefix_nil|done].
Qed.

(** *** Receiving *)

Definition wire (m : FromMsg) : bytes := from_encode (Some m).

(** A box is read and freed by who was given it. *)
Lemma run_message_at q data s :
  ff_heap s !! q = Some (Box_message data) → message_at q s = (s, Ok data).
Proof. intros E. unfold message_at. rewrite bind_gets. by rewrite_field E. Qed.

Lemma run_msg_ptr q data s :
  q ≠ 0 → ff_heap s !! q = Some (Box_message data) → sideswap_msg_ptr q s = (s, Ok data).
Proof.
  intros Hq%Z.eqb_neq E. unfold sideswap_msg_ptr, assert. rewrite Hq.
  rewrite (bind_run (lift _) _ s s tt) by done. by apply run_message_at.
Qed.

Lemma run_msg_len q data s :
  q ≠ 0 → ff_heap s !! q = Some (Box_message data) →
  sideswap_msg_len q s = (s, Ok (Z.of_nat (length data))).
Proof.
  intros Hq%Z.eqb_neq E. unfold sideswap_msg_len, assert. rewrite Hq.
  rewrite (bind_run (lift _) _ s s tt) by done. by rewrite (bind_run _ _ _ _ _ (run_message_at q data s E)).
Qed.

Lemma run_msg_free q data s :
  q ≠ 0 → ff_heap s !! q = Some (Box_message data) →
  sideswap_msg_free q s = (s <| ff_heap ::= delete q |>, Ok tt).
Proof.
  intros Hq%Z.eqb_neq E. unfold sideswap_msg_free, assert. rewrite Hq.
  rewrite (bind_run (lift _) _ s s tt) by done.
  rewrite (bind_run _ _ s s tt) by by rewrite (bind_run _ _ _ _ _ (run_message_at q data s E)).
  done.
Qed.

(** The oldest message is taken out of the client. *)
Lemma client_ok_take taken gone sent handled c m rest :
  client_ok taken gone sent handled c → fc_from_worker c = m :: rest →
  client_ok (taken ++ [m]) gone sent handled (c <| fc_from_worker := rest |>).
Proof.
  intros [Hst Hf Hd Hgo Hop Hi Hw] Eq.
  split; [exact Hst|exact Hf|exact Hd|exact Hgo|exact Hop|exact Hi|].
  change (fc_worker (c <| fc_from_worker := rest |>)) with (fc_worker c).
  destruct (fc_worker c); [|by destruct Hw as (_ & _ & Hw); rewrite Hw in Eq].
  rewrite Eq in Hw. simpl. by rewrite <- app_assoc.
Qed.

Lemma run_recv_request taken boxes gone s :
  enable_dart = false → delivers taken boxes gone s →
  sideswap_recv_request client_ptr s = (s, Err "waits") ∨
  ∃ m q s', sideswap_recv_request client_ptr s = (s', Ok q) ∧ ff_log s' = ff_log s ∧
    boxes !! q = None ∧ ff_heap s' !! q = Some (Box_message (wire m)) ∧
    delivers (taken ++ [m]) (<[q := Box_message (wire m)]> boxes) gone s'.
Proof.
  intros Hdart Hs. destruct (dl_client _ _ _ _ Hs) as (c & Hh & Hc).
  pose proof (client_on_heap _ _ _ Hh) as Hp. pose proof (co_ffi _ _ _ _ _ Hc) as Hf. rewrite Hdart in Hf.
  assert (fc_ended c = false) as He.
  { apply (co_open _ _ _ _ _ Hc). destruct gone; [|done]. by rewrite (co_gone _ _ _ _ _ Hc) in Hdart. }
  unfold sideswap_recv_request, assert. rewrite client_ptr_not_null.
  rewrite !(bind_run (lift _) _ s s tt) by done. rewrite !(run_client_at c) by done. rewrite_field Hf.
  rewrite !(bind_run (expect _ _) _ s s tt) by done. rewrite_field He.
  destruct (fc_from_worker c) as [|m rest] eqn:Eq; [by left|right].
  rewrite (run_update_client _ c) by done.
  pose proof (delivers_client _ _ _ _ _ _ _ _ Hs Hh (client_ok_take _ _ _ _ _ _ _ Hc Eq)) as Hs1.
  destruct (run_into_raw _ _ _ _ (Box_message (wire m)) Hs1) as (q & s' & E & Hq & El & Eh & Hs').
  exists m, q, s'. by rewrite El.
Qed.

(** A message that is copied and freed at once leaves no box. *)
Lemma run_recv_copy taken boxes gone s :
  enable_dart = false → delivers taken boxes gone s →
  recv_copy client_ptr s = (s, Err "waits") ∨
  ∃ m s', recv_copy client_ptr s = (s', Ok (wire m)) ∧
    delivers (taken ++ [m]) boxes gone s' ∧ ff_log s' = ff_log s.
Proof.
  intros Hdart Hs. unfold recv_copy.
  destruct (run_recv_request _ _ _ _ Hdart Hs) as [E|(m & q & s1 & E & El & Hq & Eh & Hs1)];
    [left; unfold bind at 1; by rewrite E|right].
  assert (q ≠ 0) as Hnull by (intros ->; pose proof (dl_null _ _ _ _ Hs1) as Hn; by rewrite lookup_insert_eq in Hn).
  rewrite (bind_run _ _ s s1 q E), (bind_run _ _ _ _ _ (run_msg_ptr q _ s1 Hnull Eh)).
  rewrite (bind_run _ _ _ _ _ (run_msg_len q _ s1 Hnull Eh)). cbv zeta.
  rewrite (bind_run _ _ _ _ _ (run_msg_free q _ s1 Hnull Eh)). rewrite Nat2Z.id, take_ge by done.
  exists m. eexists. split; [reflexivity|]. split; [|exact El].
  rewrite <- (delete_insert_id boxes q (Box_message (wire m))) by done.
  eapply delivers_drop; [done|apply lookup_insert_eq].
Qed.

(** What is posted to Dart; a message that is refused is the last. *)
Lemma run_dart taken boxes gone result s :
  delivers taken boxes gone s →
  dart_turn client_ptr result s = (s, Ok tt) ∨
  gone = false ∧
  ∃ m q s', dart_turn client_ptr result s = (s', Ok tt) ∧
    ff_log s' = Ffi_posted port q (wire m) result :: ff_log s ∧ boxes !! q = None ∧
    delivers (taken ++ [m]) (<[q := Box_message (wire m)]> boxes) (negb result) s'.
Proof.
  intros Hs. destruct (dl_client _ _ _ _ Hs) as (c & Hh & Hc).
  pose proof (client_on_heap _ _ _ Hh) as Hp. pose proof (co_dart _ _ _ _ _ Hc) as Hd.
  unfold dart_turn. rewrite !(run_client_at c) by done. rewrite_field Hd.
  destruct enable_dart eqn:Edart; [|by left]. destruct gone; [by left|]. cbn [andb negb].
  destruct (fc_from_worker c) as [|m rest] eqn:Eq; [by left|right]. split; [done|].
  rewrite (run_update_client _ c) by done.
  pose proof (client_ok_take _ _ _ _ _ _ _ Hc Eq) as Hc1.
  pose proof (delivers_client _ _ _ _ _ _ _ _ Hs Hh Hc1) as Hs1.
  destruct (run_into_raw _ _ _ _ (Box_message (wire m)) Hs1) as (q & s2 & E & Hq & El & Eh & Hs2).
  unfold convert_from_msg. rewrite (bind_run _ _ _ _ _ E). unfold ffi_emit. rewrite bind_modify.
  pose proof (delivers_emit _ _ _ _ (Ffi_posted port q (wire m) result) I Hs2) as Hs3.
  exists m, q. destruct result.
  { eexists. split; [reflexivity|]. split; [exact (f_equal (cons _) El)|]. done. }
  destruct (dl_client _ _ _ _ Hs3) as (c3 & Hh3 & Hc3). pose proof (client_on_heap _ _ _ Hh3) as Hp3.
  unfold update_client. rewrite (run_client_at c3) by done. eexists. split; [reflexivity|].
  split; [exact (f_equal (cons _) El)|]. split; [done|]. apply (delivers_client _ _ _ _ _ _ _ _ Hs3 Hh3).
  destruct Hc3 as [Hst3 Hf3 Hd3 Hgo3 Hop3 Hi3 Hw3].
  split; [exact Hst3|exact Hf3|by rewrite Edart|done|done|exact Hi3|].
  change (fc_worker (c3 <| fc_dart := None |> <| fc_from_worker := [] |>)) with (fc_worker c3).
  destruct (fc_worker c3); [|by destruct Hw3 as (_ & [_ Hb]%app_eq_nil & _)]. destruct Hw3 as (Hrun & Hpre & _).
  split; [exact Hrun|]. split; [|done]. cbn. rewrite app_nil_r. etrans; [|exact Hpre]. by apply prefix_app_r.
Qed.

Lemma run_check_addr taken boxes gone addr addr_type s :
  delivers taken boxes gone s →
  (addr_type =? SIDESWAP_BITCOIN) || (addr_type =? SIDESWAP_ELEMENTS) = true →
  ∃ valid, sideswap_check_addr client_ptr (Some addr) addr_type s = (s, Ok valid).
Proof.
  intros Hs Ht. destruct (dl_client _ _ _ _ Hs) as (c & Hh & Hc). unfold sideswap_check_addr, assert.
  rewrite client_ptr_not_null. rewrite (bind_run (lift _) _ s s tt) by done.
  rewrite (bind_run (expect _ _) _ s s addr) by done.
  rewrite (run_client_at c) by by eapply client_on_heap.
  destruct (addr_type =? SIDESWAP_BITCOIN); [by eexists|]. simpl in Ht. rewrite Ht. by eexists.
Qed.

(** The messages of [send_msg] and [blocking_recv_msg], when prost reads back what it
    wrote. *)
Lemma run_send_msg taken boxes gone m s :
  to_decode (to_encode (Some m)) = Some (Some m) → delivers taken boxes gone s →
  sends taken boxes gone (Msg_Ui m) (send_msg client_ptr m) s.
Proof. intros Hm Hs. pose proof (run_request taken boxes gone (to_encode (Some m)) s Hs) as E. by rewrite Hm in E. Qed.

Lemma run_blocking_recv taken boxes gone s :
  (∀ m, from_decode (from_encode (Some m)) = Some (Some m)) → enable_dart = false →
  delivers taken boxes gone s →
  blocking_recv_msg client_ptr s = (s, Err "waits") ∨
  ∃ m s', blocking_recv_msg client_ptr s = (s', Ok m) ∧ delivers (taken ++ [m]) boxes gone s' ∧
    ff_log s' = ff_log s.
Proof.
  intros Hm Hdart Hs. unfold blocking_recv_msg.
  destruct (run_recv_copy _ _ _ _ Hdart Hs) as [E|(m & s' & E & Hs' & El)];
    [left; unfold bind at 1; by rewrite E|].
  right. exists m, s'. split; [|done]. rewrite (bind_run _ _ s s' _ E). unfold wire. rewrite Hm.
  by rewrite (bind_run (expect _ _) _ s' s' (Some m)).
Qed.

Lemma run_start :
  ∃ s, sideswap_client_start_impl env params port ffi_init = (s, Ok client_ptr) ∧
    delivers [] ∅ false s ∧ ff_log s = [].
Proof.
  eexists. split; [reflexivity|]. split; [|done]. split; [done..|]. eexists. split; [reflexivity|].
  split; try done; simpl. unfold enable_dart. by rewrite andb_true_r.
Qed.

(** *** A program *)

Definition ui_request (m : Message) : option ToMsg :=
  match m with Msg_Ui msg => Some msg | _ => None end.

(** What is in the bytes a program sends. *)
Definition request_of (data : bytes) : option ToMsg := default None (to_decode data).

Definition act_request (act : FfiAct) : option ToMsg :=
  match act with
  | Act_send_request _ (Some data) => request_of data
  | Act_arrives m => ui_request m
  | _ => None
  end.

(** What can end the process, when the rules are kept: a panic of the worker, bytes that are
    no request, and asking something of the client after Dart refused a message. *)
Definition may_end (log : list FfiEvent) (act : FfiAct) : Prop :=
  match act with
  | Act_worker => True
  | Act_send_request _ (Some data) => request_of data = None ∨ refused log = true
  | Act_process_background _ => refused log = true
  | _ => False
  end.

(** The application's requests, as they were sent. *)
Definition requests (log : list FfiEvent) : list ToMsg := omap ui_request (sent log).

Lemma requests_cons e log :
  requests (e :: log) = requests log ++ match e with Ffi_sent m => option_list (ui_request m) | _ => [] end.
Proof.
  unfold requests. rewrite sent_log_cons, omap_app. destruct e; simpl; try done.
Qed.

(** What was received is what was taken out, and the boxes there are are the client's, those
    the program holds and the one that Dart refused. *)
Record delivered (taken : list FromMsg) (s : FfiState) : Prop := {
  dv_received : received (ff_log s) = wire <$> taken;
  dv_delivers : delivers taken (held (ff_log s) ∪ lost (ff_log s)) (refused (ff_log s)) s;
  dv_disjoint : held (ff_log s) ##ₘ lost (ff_log s);
  dv_none_lost : refused (ff_log s) = false → lost (ff_log s) = ∅;
  dv_one_lost : (size (lost (ff_log s)) <= 1)%nat;
  dv_reads : reads_ok (ff_log s)
}.

Lemma delivered_extend taken new e s s' :
  delivered taken s → ff_log s' = e :: ff_log s → option_list (received_of e) = wire <$> new →
  match e with Ffi_posted _ _ _ false => False | _ => True end →
  held (e :: ff_log s) ##ₘ lost (ff_log s) →
  delivers (taken ++ new) (held (e :: ff_log s) ∪ lost (ff_log s)) (refused (ff_log s)) s' →
  reads_ok (e :: ff_log s) → delivered (taken ++ new) s'.
Proof.
  intros [Hr Hs Hd Hn Ho Hok] El He Hf Hd' Hs' Hok'.
  assert (lost (e :: ff_log s) = lost (ff_log s) ∧ refused (e :: ff_log s) = refused (ff_log s)) as [E1 E2]
    by by destruct e as [| | |? ? ? []| | | | |].
  split; rewrite El, ?E1, ?E2; [|done..]. rewrite received_cons, fmap_app, Hr. by f_equal.
Qed.

(** An event that moves no box. *)
Lemma delivered_event taken e s s' :
  delivered taken s → ff_log s' = e :: ff_log s → received_of e = None →
  held (e :: ff_log s) = held (ff_log s) → reads_ok (e :: ff_log s) →
  delivers taken (held (ff_log s) ∪ lost (ff_log s)) (refused (ff_log s)) s' → delivered taken s'.
Proof.
  intros Hd El He Eh Hok Hs'. rewrite <- (app_nil_r taken).
  eapply delivered_extend; [done..|by rewrite He| | | |done].
  - by destruct e as [| | |? ? ? []| | | | |].
  - rewrite Eh. by apply (dv_disjoint taken).
  - by rewrite Eh, app_nil_r.
Qed.

(** A box that is given to the program. *)
Lemma delivered_box taken new e q box s s' :
  delivered taken s → ff_log s' = e :: ff_log s → option_list (received_of e) = wire <$> new →
  match e with Ffi_posted _ _ _ false => False | _ => True end →
  held (e :: ff_log s) = <[q := box]> (held (ff_log s)) → reads_ok (e :: ff_log s) →
  (held (ff_log s) ∪ lost (ff_log s)) !! q = None →
  delivers (taken ++ new) (<[q := box]> (held (ff_log s) ∪ lost (ff_log s))) (refused (ff_log s)) s' →
  delivered (taken ++ new) s'.
Proof.
  intros Hd El He Hf Eh Hok [Hq1 Hq2]%lookup_union_None Hs'.
  eapply delivered_extend; [done..| | |done]; rewrite Eh.
  - apply map_disjoint_insert_l_2; [done|]. by apply (dv_disjoint taken).
  - by rewrite <- insert_union_l.
Qed.

(** A message that Dart refuses. *)
Lemma delivered_refused taken p q m s s' :
  delivered taken s → refused (ff_log s) = false → ff_log s' = Ffi_posted p q (wire m) false :: ff_log s →
  (held (ff_log s) ∪ lost (ff_log s)) !! q = None →
  delivers (taken ++ [m]) (<[q := Box_message (wire m)]> (held (ff_log s) ∪ lost (ff_log s))) true s' →
  delivered (taken ++ [m]) s'.
Proof.
  intros [Hr Hs Hd Hn Ho Hok] Hf El [Hq1 Hq2]%lookup_union_None Hs'. specialize (Hn Hf).
  split; rewrite El; simpl; [| |by apply map_disjoint_insert_r_2|done| |done].
  - rewrite received_cons, fmap_app, Hr. done.
  - by rewrite <- insert_union_r.
  - rewrite Hn. by rewrite map_size_insert_None by done.
Qed.

Lemma held_on_heap taken s q box :
  delivered taken s → held (ff_log s) !! q = Some box → ff_heap s !! q = Some box ∧ q ≠ 0.
Proof.
  intros Hd Hq. pose proof (dv_delivers _ _ Hd) as Hs.
  assert ((held (ff_log s) ∪ lost (ff_log s)) !! q = Some box) as Hb by by apply lookup_union_Some_l.
  split; [by eapply heap_box|]. intros ->. by rewrite (dl_null _ _ _ _ Hs) in Hb.
Qed.

Lemma delivered_free taken s q box :
  delivered taken s → held (ff_log s) !! q = Some box →
  delivered taken (s <| ff_heap ::= delete q |> <| ff_log ::= cons (Ffi_freed q) |>).
Proof.
  intros Hd Hq. pose proof (dv_delivers _ _ Hd) as Hs. rewrite <- (app_nil_r taken).
  assert (lost (ff_log s) !! q = None) as Hl by (eapply map_disjoint_Some_l; [by apply (dv_disjoint taken)|done]).
  eapply (delivered_extend _ [] (Ffi_freed q)); [done..| | |exact (dv_reads _ _ Hd)]; simpl.
  - by apply map_disjoint_delete_l, (dv_disjoint taken).
  - rewrite app_nil_r. apply delivers_emit; [done|].
    replace (delete q (held (ff_log s)) ∪ lost (ff_log s)) with (delete q (held (ff_log s) ∪ lost (ff_log s)))
      by by rewrite delete_union, (delete_id (lost _)).
    eapply delivers_drop; [done|by apply lookup_union_Some_l].
Qed.

(** What one step of the program does. *)
Record step_ok (act : FfiAct) (s : FfiState) (r : FfiState * outcome unit) : Prop := {
  so_delivered : ∃ taken, delivered taken r.1;
  so_requests :
    requests (ff_log r.1) = requests (ff_log s) ++ option_list (act_request act) ∨
    refused (ff_log s) = true ∧ requests (ff_log r.1) = requests (ff_log s);
  so_refused : refused (ff_log s) = true → refused (ff_log r.1) = true;
  so_end : r.2 = Ok tt ∨ may_end (ff_log s) act
}.

Lemma step_event act taken e s s' :
  delivered taken s' → ff_log s' = e :: ff_log s → act_request act = None →
  match e with Ffi_sent _ => False | _ => True end → step_ok act s (s', Ok tt).
Proof.
  intros Hd El Ha He. split; simpl; [by eexists| | |by left]; rewrite El.
  - left. rewrite requests_cons, Ha. by destruct e.
  - intros Hf. simpl. rewrite Hf. apply orb_true_r.
Qed.

Lemma step_same act taken s r :
  delivered taken s → act_request act = None → r = Ok tt ∨ may_end (ff_log s) act → step_ok act s (s, r).
Proof. intros Hd Ha Hr. split; simpl; [by eexists|left; by rewrite Ha, app_nil_r|done|done]. Qed.

Lemma delivered_sent taken m s s' :
  delivered taken s → ff_log s' = Ffi_sent m :: ff_log s →
  delivers taken (held (ff_log s) ∪ lost (ff_log s)) (refused (ff_log s)) s' → delivered taken s'.
Proof. intros Hd El Hs'. by eapply delivered_event; [done..|exact (dv_reads _ _ Hd)|]. Qed.

Lemma step_sends act taken m call s :
  delivered taken s → ui_request m = act_request act →
  (refused (ff_log s) = true → may_end (ff_log s) act) →
  sends taken (held (ff_log s) ∪ lost (ff_log s)) (refused (ff_log s)) m call s → step_ok act s (call s).
Proof.
  intros Hd Em He [(s' & -> & Hs' & El)|(Hf & s' & e & -> & Hs' & El)].
  - split; simpl; [exists taken; by eapply delivered_sent| | |by left]; rewrite El.
    + left. by rewrite requests_cons, Em.
    + intros Hf. simpl. by rewrite Hf.
  - split; simpl; [|right; by rewrite El|by rewrite El|right; by apply He].
    destruct Hd as [Hr _ Hd Hn Ho Hok]. exists taken. split; by rewrite El.
Qed.

(** What the worker's turn leaves alone. *)
Lemma worker_turn_quiet (I : list FfiEvent → Prop) :
  (∀ m log, I log → I (Ffi_handled m :: log)) → keeps (λ s, I (ff_log s)) (worker_turn client_ptr).
Proof.
  intros HI.
  assert (keeps (λ s, I (ff_log s)) (client_at client_ptr)) as Hc.
  { unfold client_at, undefined. keeps; by apply keeps_modify. }
  unfold worker_turn, worker_handle, update_client, ffi_emit. keeps.
  all: apply keeps_modify; intros s Hs; first [exact Hs|by apply HI].
Qed.

Definition log_view (log : list FfiEvent) :=
  (received log, requests log, held log, lost log, refused log, reads_ok log).

Lemma step_worker taken s :
  delivered taken s → step_ok Act_worker s (worker_turn client_ptr s).
Proof.
  intros Hd. pose proof (delivers_worker_turn _ _ _ _ (dv_delivers _ _ Hd)) as Hs.
  assert (log_view (ff_log (worker_turn client_ptr s).1) = log_view (ff_log s)) as E.
  { apply (worker_turn_quiet (λ log, log_view log = log_view (ff_log s))); [|done]. intros m log <-.
    unfold log_view. by rewrite received_cons, requests_cons, !app_nil_r. }
  injection E as E1 E2 E3 E4 E5 E6. destruct Hd as [Hr _ Hdis Hn Ho Hok].
  split; [exists taken|left; simpl; by rewrite E2, app_nil_r|by rewrite E5|by right].
  split; rewrite ?E1, ?E3, ?E4, ?E5, ?E6; done.
Qed.

(** A pointer that a call returned. *)
Lemma step_given act taken new q box call s s' :
  delivered taken s → call s = (s', Ok q) → ff_log s' = ff_log s → ff_heap s' !! q = Some box →
  option_list (received_of (Ffi_given q box)) = wire <$> new → act_request act = None →
  (held (ff_log s) ∪ lost (ff_log s)) !! q = None →
  delivers (taken ++ new) (<[q := box]> (held (ff_log s) ∪ lost (ff_log s))) (refused (ff_log s)) s' →
  step_ok act s (given q s').
Proof.
  intros Hd E El Eh Hr Ha Hq Hs'. unfold given. rewrite bind_gets. rewrite_field Eh. simpl.
  unfold ffi_emit. rewrite bind_modify.
  assert (ff_log (s' <| ff_log ::= cons (Ffi_given q box) |>) = Ffi_given q box :: ff_log s) as El'
    by exact (f_equal (cons _) El).
  eapply step_event; [|exact El'|done|done].
  eapply (delivered_box _ new _ q box s); [done..|exact (dv_reads _ _ Hd)|done|by apply delivers_emit].
Qed.

(** Reading what a pointer held points to. *)
Lemma step_read act taken e s :
  delivered taken s → reads_ok (e :: ff_log s) → received_of e = None → act_request act = None →
  held (e :: ff_log s) = held (ff_log s) →
  match e with Ffi_sent _ | Ffi_handled _ => False | _ => True end →
  step_ok act s (ffi_emit e s).
Proof.
  intros Hd Hok Hr Ha Hh He. apply (step_event _ taken e); [|done..|by destruct e].
  eapply (delivered_event _ e s); [done..|]. by apply delivers_emit, dv_delivers.
Qed.

(** The calls of a program that keeps the rules. *)
Lemma step_message act taken s msg :
  delivered taken s → holds_message msg (ff_log s) = true →
  act = Act_msg_ptr msg ∨ act = Act_msg_len msg ∨ act = Act_msg_free msg →
  step_ok act s (ffi_step client_ptr act s).
Proof.
  unfold holds_message. intros Hd Hm Hact.
  destruct (held (ff_log s) !! msg) as [[|data|]|] eqn:Eh; try done. clear Hm.
  destruct (held_on_heap _ _ _ _ Hd Eh) as [Hp Hnull]. pose proof (dv_reads _ _ Hd) as Hok.
  destruct Hact as [->|[->| ->]]; cbn [ffi_step].
  - rewrite (bind_run _ _ _ _ _ (run_msg_ptr _ _ _ Hnull Hp)). by apply (step_read _ taken).
  - rewrite (bind_run _ _ _ _ _ (run_msg_len _ _ _ Hnull Hp)). apply (step_read _ taken); try done.
    split; [by exists data|done].
  - rewrite (bind_run _ _ _ _ _ (run_msg_free _ _ _ Hnull Hp)).
    eapply step_event; [by eapply delivered_free|done..].
Qed.

Lemma step_string taken s str :
  delivered taken s → holds_string str (ff_log s) = true →
  step_ok (Act_string_free str) s (ffi_step client_ptr (Act_string_free str) s).
Proof.
  unfold holds_string. intros Hd Hm. destruct (held (ff_log s) !! str) as [[| |text]|] eqn:Eh; try done.
  destruct (held_on_heap _ _ _ _ Hd Eh) as [Hp _]. cbn [ffi_step].
  rewrite (bind_run _ _ s (s <| ff_heap ::= delete str |>) tt);
    [|unfold sideswap_string_free; rewrite bind_gets; by rewrite_field Hp].
  eapply step_event; [by eapply delivered_free|done..].
Qed.

Lemma step_generate taken s key :
  delivered taken s →
  step_ok (Act_generate_mnemonic12 key) s (ffi_step client_ptr (Act_generate_mnemonic12 key) s).
Proof.
  intros Hd. cbn [ffi_step]. unfold sideswap_generate_mnemonic12.
  destruct (run_into_raw _ _ _ _ (Box_string (mnemonic_of_entropy key)) (dv_delivers _ _ Hd))
    as (q & s' & E & Hq & El & Eh & Hs').
  rewrite (bind_run _ _ _ _ _ E). eapply (step_given _ taken []); [done..|]. by rewrite app_nil_r.
Qed.

Lemma step_recv taken s :
  enable_dart = false → delivered taken s →
  step_ok (Act_recv_request client_ptr) s (ffi_step client_ptr (Act_recv_request client_ptr) s).
Proof.
  intros Hdart Hd. cbn [ffi_step].
  destruct (run_recv_request _ _ _ _ Hdart (dv_delivers _ _ Hd)) as [E|(m & q & s' & E & El & Hq & Eh & Hs')].
  - rewrite (bind_run (attempt _) _ s s (inr "waits")) by (unfold attempt; by rewrite E).
    by eapply step_same; [done..|left].
  - rewrite (bind_run (attempt _) _ s s' (inl q)) by (unfold attempt; by rewrite E).
    by eapply (step_given _ taken [m]).
Qed.

Lemma step_dart taken s result :
  delivered taken s → step_ok (Act_dart result) s (ffi_step client_ptr (Act_dart result) s).
Proof.
  intros Hd. cbn [ffi_step].
  destruct (run_dart _ _ _ result _ (dv_delivers _ _ Hd)) as [->|(Hf & m & q & s' & -> & El & Hq & Hs')].
  { by eapply step_same; [done..|left]. }
  eapply (step_event _ (taken ++ [m])); [|done..]. destruct result.
  - eapply (delivered_box _ [m]); [done..|exact (dv_reads _ _ Hd)|done|].
    by rewrite Hf.
  - by eapply delivered_refused.
Qed.

Lemma step_check_addr taken s addr addr_type :
  delivered taken s → (addr_type =? SIDESWAP_BITCOIN) || (addr_type =? SIDESWAP_ELEMENTS) = true →
  let act := Act_check_addr client_ptr (Some addr) addr_type in step_ok act s (ffi_step client_ptr act s).
Proof.
  intros Hd Ht. destruct (run_check_addr _ _ _ addr addr_type _ (dv_delivers _ _ Hd) Ht) as [valid E].
  cbn [ffi_step]. rewrite (bind_run _ _ _ _ _ E). by eapply step_same; [done..|left].
Qed.

Lemma step_request taken s data :
  delivered taken s →
  let act := Act_send_request client_ptr (Some data) in step_ok act s (ffi_step client_ptr act s).
Proof.
  intros Hd. cbn [ffi_step]. pose proof (run_request _ _ _ data _ (dv_delivers _ _ Hd)) as E.
  destruct (to_decode data) as [[m|]|] eqn:Em.
  - eapply step_sends; [done| | |done]; cbn; unfold request_of; by rewrite Em; auto.
  - destruct E as [e ->]. eapply step_same; [done|..]; cbn; unfold request_of; rewrite Em; auto.
  - destruct E as [e ->]. eapply step_same; [done|..]; cbn; unfold request_of; rewrite Em; auto.
Qed.

Lemma step_arrives taken s m :
  delivered taken s → step_ok (Act_arrives m) s (ffi_step client_ptr (Act_arrives m) s).
Proof.
  intros Hd. cbn [ffi_step].
  destruct (run_thread_send _ _ _ m _ (dv_delivers _ _ Hd)) as [(s' & -> & Hs' & El)|[Hf ->]].
  - split; simpl; [exists taken; by eapply delivered_sent| | |by left]; rewrite El.
    + left. by rewrite requests_cons.
    + intros Hf. simpl. by rewrite Hf.
  - split; simpl; [by exists taken|by right|done|by left].
Qed.

Lemma step_delivers act taken s :
  delivered taken s → may_call client_ptr enable_dart (ff_log s) act = true →
  step_ok act s (ffi_step client_ptr act s).
Proof.
  intros Hd Hc. destruct act as [c data|c|msg|msg|msg|data|c addr ty|key|mnemonic|str|m| |result]; simpl in Hc.
  - apply andb_prop in Hc as [->%Z.eqb_eq [d ->]%bool_decide_eq_true]. by eapply step_request.
  - apply andb_prop in Hc as [->%Z.eqb_eq Hdart%negb_true_iff]. by eapply step_recv.
  - eapply step_message; eauto.
  - eapply step_message; eauto.
  - eapply step_message; eauto.
  - destruct (run_background _ _ _ data _ (dv_delivers _ _ Hd)) as [sender E].
    exact (step_sends (Act_process_background data) taken (Msg_BackgroundMessage data sender) _ _ Hd eq_refl id E).
  - apply andb_prop in Hc as [[->%Z.eqb_eq [a ->]%bool_decide_eq_true]%andb_prop Ht]. by eapply step_check_addr.
  - by eapply step_generate.
  - by eapply step_same; [done..|left].
  - by eapply step_string.
  - by eapply step_arrives.
  - by eapply step_worker.
  - by eapply step_dart.
Qed.

(** What the whole program asked for, and where it ended. *)
Definition asked (acts : list FfiAct) (log : list FfiEvent) (r : outcome unit) (before after : list ToMsg)
    : Prop :=
  ∃ n, after `sublist_of` before ++ omap act_request (take n acts) ∧
    (refused log = false → after = before ++ omap act_request (take n acts)) ∧
    (r = Ok tt ∧ n = length acts ∨ ∃ k act, n = S k ∧ acts !! k = Some act ∧ may_end log act).

Lemma may_end_later log log' act :
  (refused log = true → refused log' = true) → may_end log act → may_end log' act.
Proof. intros Hf. destruct act as [? []| | | | | | | | | | | |]; simpl; naive_solver. Qed.

Lemma run_delivers acts taken s :
  delivered taken s → keeps_rules client_ptr enable_dart acts s = true →
  let r := for_each acts (ffi_step client_ptr) s in
  (∃ taken', delivered taken' r.1) ∧ (refused (ff_log s) = true → refused (ff_log r.1) = true) ∧
  asked acts (ff_log r.1) r.2 (requests (ff_log s)) (requests (ff_log r.1)).
Proof.
  revert taken s. induction acts as [|act acts IH]; intros taken s Hs Hk; cbn [for_each].
  { split; [by exists taken|]. split; [done|]. exists 0%nat. rewrite app_nil_r. auto. }
  simpl in Hk. apply andb_prop in Hk as [Hc Hk].
  destruct (step_delivers act taken s Hs Hc) as [Hs' Hr Hf He].
  destruct (ffi_step client_ptr act s) as [s' r] eqn:E. simpl in Hs', Hr, Hf, He.
  assert (∀ e, e = r → e ≠ Ok tt → asked (act :: acts) (ff_log s') e (requests (ff_log s)) (requests (ff_log s'))) as Hend.
  { intros e -> Hne. destruct He as [He|He]; [done|]. exists 1%nat. split; [|split].
    - destruct Hr as [-> |[_ ->]]; simpl; destruct (act_request act); simpl; rewrite ?app_nil_r;
        try done; by apply sublist_inserts_r.
    - intros Hf'. destruct Hr as [-> |[Hr _]]; [simpl; by destruct (act_request act)|].
      by rewrite Hf in Hf'.
    - right. exists 0%nat, act. split; [done|]. split; [done|]. by eapply may_end_later. }
  unfold bind. rewrite E. destruct r as [[]|e|e]; [|split; [done|]; split; [done|]; by apply Hend..].
  destruct Hs' as [taken' Hs']. destruct (IH taken' s' Hs' Hk) as (Hd & Hf' & n & Hsub & Heq & Hn).
  split; [done|]. split; [auto|]. exists (S n). split; [|split].
  - etrans; [done|]. destruct Hr as [-> |[_ ->]]; simpl; destruct (act_request act); simpl;
      rewrite <- ?app_assoc, ?app_nil_r; try done. apply sublist_app; [done|by apply sublist_cons].
  - intros Hfin. rewrite Heq by done. destruct Hr as [-> |[Hr _]].
    + rewrite <- app_assoc. simpl. by destruct (act_request act).
    + by rewrite Hf' in Hfin by auto.
  - destruct Hn as [[Hok ->]|(k & a & -> & Hk')]; [by left|right; by exists (S k), a].
Qed.


(** *** The headless driver *)

Section Driver.
Hypothesis Hport : port = SIDESWAP_DART_PORT_DISABLED.

Definition frame_of (use_json : bool) (m : FromMsg) : Frame :=
  if use_json then Frame_Text (from_to_json (Some m)) else Frame_Binary (wire m).

(** The peer was shown what was taken out. *)
Definition peer_shown (use_json : bool) (s : FfiState) : Prop :=
  ∃ taken, frames (ff_log s) = frame_of use_json <$> taken ∧ delivers taken ∅ false s.

Lemma no_dart : enable_dart = false.
Proof. unfold enable_dart. by rewrite Hport. Qed.

Lemma peer_sent use_json taken m s s' :
  frames (ff_log s) = frame_of use_json <$> taken → delivers taken ∅ false s' →
  ff_log s' = Ffi_sent m :: ff_log s → peer_shown use_json s'.
Proof. intros Hf Hs' El. exists taken. split; [|done]. rewrite_field El. by rewrite frames_cons, app_nil_r. Qed.

Lemma peer_request use_json data : keeps (peer_shown use_json) (sideswap_send_request client_ptr (Some data)).
Proof.
  intros s (taken & Hf & Hs). pose proof (run_request taken ∅ false data s Hs) as E.
  destruct (to_decode data) as [[m|]|]; [|by destruct E as [e ->]; exists taken..].
  destruct E as [(s' & -> & Hs' & El)|[? _]]; [|done]. by eapply peer_sent.
Qed.

Lemma peer_event use_json taken s e :
  frames (e :: ff_log s) = frame_of use_json <$> taken →
  match e with Ffi_sent _ | Ffi_handled _ => False | _ => True end →
  delivers taken ∅ false s → peer_shown use_json (s <| ff_log ::= cons e |>).
Proof. intros Hf He Hs. exists taken. split; [exact Hf|]. by apply delivers_emit. Qed.

Lemma peer_write use_json :
  (∀ m, use_json = true → from_decode (from_encode (Some m)) = Some (Some m)) →
  keeps (peer_shown use_json) (headless_write use_json client_ptr).
Proof.
  intros Hm s (taken & Hf & Hs). unfold headless_write.
  destruct (run_recv_copy taken ∅ false s no_dart Hs) as [E|(m & s' & E & Hs' & El)].
  { unfold bind at 1. rewrite E. by exists taken. }
  rewrite (bind_run _ _ s s' _ E). rewrite (bind_run _ _ s' s' (frame_of use_json m)).
  - apply (peer_event _ (taken ++ [m])); [|done|done].
    rewrite frames_cons, fmap_app. f_equal. by rewrite_field El.
  - destruct use_json; [|done]. unfold wire. rewrite Hm by done.
    by rewrite (bind_run (expect _ _) _ s' s' (Some m)).
Qed.

Lemma peer_step use_json i :
  (∀ m, use_json = true → from_decode (from_encode (Some m)) = Some (Some m)) →
  keeps (peer_shown use_json) (headless_step use_json client_ptr i).
Proof.
  intros Hm. destruct i as [[v|data| | |]| | |m|]; simpl; unfold ffi_emit; keeps;
    auto using peer_request, peer_write.
  - intros st (taken & Hf & Hs). apply (peer_event _ taken); [|done|done].
    by rewrite frames_cons, app_nil_r.
  - intros s (taken & Hf & Hs).
    destruct (run_thread_send taken ∅ false m s Hs) as [(s' & -> & Hs' & El)|[? _]]; [|done].
    by eapply peer_sent.
  - intros s (taken & Hf & Hs). exists taken. split; [|by apply delivers_worker_turn].
    apply (worker_turn_quiet (λ log, frames log = frame_of use_json <$> taken)); [|done].
    intros m log <-. by rewrite frames_cons, app_nil_r.
Qed.

Lemma peer_loop use_json inputs :
  (∀ m, use_json = true → from_decode (from_encode (Some m)) = Some (Some m)) →
  keeps (peer_shown use_json) (headless_loop use_json client_ptr inputs).
Proof.
  intros Hm. induction inputs as [|i inputs IH]; simpl; [apply keeps_ret|].
  apply keeps_bind; [by apply peer_step|]. intros []; [done|apply keeps_ret].
Qed.

(** The driver adds nothing: what it writes to its peer is a first part of what the worker
    shows, each message in the form the peer asked for. *)
Lemma headless_transparent env_name work_dir path inputs use_json :
  headless_env env_name = Ok env → on_request path = inl use_json →
  params = {| sp_work_dir := work_dir; sp_version := "1.0.0"; sp_disable_device_key := None |} →
  (∀ m, use_json = true → from_decode (from_encode (Some m)) = Some (Some m)) →
  peer_shown use_json (headless_main env_name work_dir path inputs ffi_init).1.
Proof.
  intros He Hp Hparams Hm. unfold headless_main. rewrite He, <- Hparams.
  rewrite (bind_run (lift _) _ ffi_init ffi_init env) by done.
  destruct run_start as (s & E & Hs & El). rewrite Hport in E. rewrite (bind_run _ _ ffi_init s _ E).
  rewrite client_ptr_not_null, (bind_run (assert _ _) _ s s tt) by done. rewrite Hp.
  apply peer_loop; [done|]. exists []. by rewrite El.
Qed.
End Driver.
End Delivery.


(** ** Log lines *)

Lemma str_split n text :
  (n <= String.length text)%nat →
  ∃ rest, text = String.substring 0 n text +:+ rest ∧ String.length (String.substring 0 n text) = n.
Proof.
  revert n. induction text as [|c text IH]; intros [|n] Hn; simpl in *; try (by eexists); [lia|].
  destruct (IH n) as (rest & E & El); [lia|]. exists rest. split; [|by rewrite El].
  by rewrite E at 1.
Qed.

(** A line is the beginning of the text, at most 2048 bytes of it. *)
Lemma log_line now level module_path args line :
  log_format now level module_path args = Ok line →
  (String.length line <= LINE_LIMIT)%nat ∧
  ∃ rest, "[" +:+ now +:+ "] " +:+ level +:+ " " +:+ module_path +:+ " " +:+ args = line +:+ rest.
Proof.
  unfold log_format, str_prefix. set (text := _ +:+ _ +:+ _). clearbody text. cbv zeta.
  destruct (is_char_boundary _ _); [|done]. intros [= <-].
  destruct (str_split (Nat.min (String.length text) LINE_LIMIT) text) as (rest & E & El); [lia|].
  split; [rewrite El; lia|by exists rest].
Qed.

(** A text of one-byte characters is always written. *)
Definition ascii_text (text : string) : Prop := ∀ i c, String.get i text = Some c → continuation c = false.

Lemma ascii_line_written text : ascii_text text → is_ok (str_prefix text (Nat.min (String.length text) LINE_LIMIT)).
Proof.
  intros Ha. unfold str_prefix, is_char_boundary.
  destruct (String.get _ text) as [c|] eqn:E; [by rewrite (Ha _ _ E)|].
  assert (∀ t n, String.get n t = None → (String.length t <= n)%nat) as Hn.
  { induction t as [|c t IH]; intros [|n]; simpl; [lia..|done|]. intros Ht%IH. lia. }
  apply Hn in E. by rewrite (proj2 (Nat.eqb_eq _ _)) by lia.
Qed.

(** A text that has a character of two bytes where the limit falls ends the process. *)
Example log_line_cut :
  log_format "2023-09-01 00:00:00.000" "DEBUG" "sideswap_client::worker"
    (String.concat EmptyString (replicate 1991 "a") +:+ "é") = Panic "byte index is not a char boundary".
Proof. vm_compute. reflexivity. Qed.

(** ** Secrets in the log *)

(** The request that encrypts a mnemonic leaves its PIN in the log, and the answer the
    data: what is asked for to get the mnemonic back. *)
Definition request_from_log (to : ToMsg) (from : FromMsg) : option ToMsg :=
  match to, from with
  | To_EncryptPin pin _, From_EncryptPin (inl data) =>
      Some (To_DecryptPin pin (pin_salt data) (pin_encrypted_data data) (pin_identifier data))
  | _, _ => None
  end.

Lemma pin_in_log pin mnemonic data :
  request_from_log (redact_to_msg (To_EncryptPin pin mnemonic)) (redact_from_msg (From_EncryptPin (inl data))) =
  Some (To_DecryptPin pin (pin_salt data) (pin_encrypted_data data) (pin_identifier data)).
Proof. done. Qed.

(** ** A concrete environment *)

Module FfiSample.
Definition env : FfiEnv := {|
  box_alloc h := fresh ({[0]} ∪ dom h);
  to_encode m := [];
  to_decode data := match data with [] => Some (Some To_Logout) | _ => None end;
  from_encode m := [1];
  from_decode data := None;
  to_from_json text := inr "no JSON";
  from_to_json m := "{}";
  bitcoin_address addr := None;
  elements_address params addr := Some true;
  mnemonic_words mnemonic := Some 12;
  mnemonic_of_entropy data := "words";
  services env params := Client.Sample.env (λ _, inl (Response_Sign tt)) ∅
|}.

Lemma ffi_laws : @FfiLaws env.
Proof.
  split; intros h; cbn.
  - pose proof (is_fresh ({[0]} ∪ dom h)) as Hf. apply not_elem_of_dom. set_solver.
  - pose proof (is_fresh ({[0]} ∪ dom h : gset Z)) as Hf. set_solver.
Qed.

Definition params : StartParams :=
  {| sp_work_dir := "/tmp"; sp_version := "1.0"; sp_disable_device_key := None |}.

(** The program checks an address, sends a request, takes a message and a mnemonic, reads
    the message and frees both; it starts the client with Dart or without. *)
Definition client : Z := @client_ptr env.

(** The address of the first box of the program. *)
Definition first_box : Z := @box_alloc env ({[client := Box_string EmptyString]} : gmap Z Box).

Definition acts : list FfiAct :=
  [Act_check_addr client (Some "lq1") SIDESWAP_ELEMENTS; Act_send_request client (Some []); Act_worker;
   Act_recv_request client; Act_msg_len first_box; Act_msg_ptr first_box; Act_msg_free first_box;
   Act_generate_mnemonic12 []; Act_string_free first_box; Act_arrives Msg_IdleTimer; Act_worker;
   Act_process_background "{}"].

Definition dart_acts : list FfiAct :=
  [Act_worker; Act_dart true; Act_msg_ptr first_box; Act_msg_free first_box; Act_send_request client (Some []);
   Act_worker; Act_dart false; Act_arrives Msg_IdleTimer; Act_worker].

Definition log_after (port : Z) (acts : list FfiAct) : list FfiEvent :=
  ff_log (@run_ffi env Env_Prod params port acts ffi_init).1.
Definition undefined_after (acts : list FfiAct) : bool :=
  ff_undefined (@run_ffi env Env_Prod params SIDESWAP_DART_PORT_DISABLED acts ffi_init).1.
End FfiSample.

#[local] Existing Instances FfiSample.env FfiSample.ffi_laws.

(** The rules matter: a message freed twice or read after it was freed is undefined
    behaviour, and other arguments outside the rules end the process. *)
Example double_free_undefined :
  FfiSample.undefined_after [Act_worker; Act_recv_request FfiSample.client;
    Act_msg_free FfiSample.first_box; Act_msg_free FfiSample.first_box] = true ∧
  FfiSample.undefined_after [Act_worker; Act_recv_request FfiSample.client;
    Act_msg_free FfiSample.first_box; Act_msg_ptr FfiSample.first_box] = true ∧
  FfiSample.undefined_after [Act_worker; Act_recv_request FfiSample.client;
    Act_string_free FfiSample.first_box] = true.
Proof. vm_compute. auto. Qed.

Example bad_argument_panics :
  (run_ffi Env_Prod FfiSample.params SIDESWAP_DART_PORT_DISABLED
     [Act_check_addr FfiSample.client (Some "lq1") 3] ffi_init).2 = Panic "unexpected type" ∧
  (run_ffi Env_Prod FfiSample.params SIDESWAP_DART_PORT_DISABLED [Act_msg_free 0] ffi_init).2 =
    Panic "msg != 0" ∧
  (run_ffi Env_Prod FfiSample.params 7 [Act_recv_request FfiSample.client] ffi_init).2 =
    Panic "sideswap_recv_request can't be used with dart".
Proof. vm_compute. auto. Qed.

