(* ===== verification/Book.v ===== *)
(** * The order book of the application

    The application keeps its own copy of the order book, which it updates from the
    messages [OrderCreated] and [OrderRemoved] of the worker ([sync_order_list] in
    src/rust/sideswap_client/src/worker.rs sends the differences).  This file
    defines that copy, and shows that it is the book of the worker after every
    message the worker handles. *)
From stdpp Require Import base numbers gmap strings list sets sorting pretty.
From Stdlib Require Import ZArith Lia SpecFloat.
From S2P Require Import Prelude F64 Api Types Env ClientApi Client Orders Market Flows Worker.

Open Scope Z_scope.

(** ** The copy of the application *)

(** Its orders by their printed identifier. *)
Definition show_event (e : WEvent) (shown : gmap string Order) : gmap string Order :=
  match e with
  | Ev_ui (From_OrderCreated order _) => <[or_order_id order := order]> shown
  | Ev_ui (From_OrderRemoved order_id) => delete order_id shown
  | _ => shown
  end.

(** The copy after the events of a run, the oldest first. *)
Definition application_book (events : list WEvent) : gmap string Order :=
  foldl (λ shown e, show_event e shown) ∅ events.

(** Orders the worker does not tell apart (numbers that are equal). *)
Definition same_order (o o' : Order) : Prop := o = o' ∨ order_eqb o o' = true.

(** The application's copy has the orders of the book, under their printed
    identifiers, and no others. *)
Definition shows (shown : gmap string Order) (book : gmap OrderId Order) : Prop :=
  (∀ text o, shown !! text = Some o →
     ∃ id o', text = Hash32_to_string id ∧ book !! id = Some o' ∧ same_order o o') ∧
  (∀ id o', book !! id = Some o' →
     ∃ o, shown !! Hash32_to_string id = Some o ∧ same_order o o').

(** ** What the server sends *)

Definition valid_id (id : Hash32) : Prop := length id = 32%nat ∧ Forall is_byte id.

Definition valid_message (msg : Message) : Prop :=
  match msg with
  | Msg_ServerNotification (Notification_OrderCreated m) => valid_id (order_created_order_id m)
  | Msg_Subscribe resp => Forall (λ m, valid_id (order_created_order_id m)) (subscribe_resp_orders resp)
  | _ => True
  end.

Definition valid_response (r : option RequestId * (Response + Error)) : Prop :=
  match r.2 with
  | inl (Response_Login l) => Forall (λ m, valid_id (order_created_order_id m)) (login_resp_orders l)
  | _ => True
  end.

Lemma printed_inj id id' :
  valid_id id → valid_id id' → Hash32_to_string id = Hash32_to_string id' → id = id'.
Proof.
  intros [L B] [L' B'] E. pose proof (f_equal hex_decode E) as H. unfold Hash32_to_string in H.
  rewrite !hex_decode_encode in H by (by apply Forall_reverse).
  injection H as H. by apply (inj reverse) in H.
Qed.

(** ** The states between two messages *)

(** The identifiers are well-formed, and the application shows what was sent. *)
Record draft_core (events : list WEvent) (last sent : gmap OrderId Order) : Prop := {
  draft_last id o : last !! id = Some o → valid_id id ∧ or_order_id o = Hash32_to_string id;
  draft_sent id o : sent !! id = Some o → valid_id id;
  draft_shown text o : foldr show_event ∅ events !! text = Some o ↔
    ∃ id, sent !! id = Some o ∧ Hash32_to_string id = text
}.

Definition draft (s : Data) : Prop :=
  draft_core (List.filter order_event (wk_log s)) (wk_orders_last s) (wk_orders_sent s).

(** What was sent is the book. *)
Definition sent_all (s : Data) : Prop :=
  (∀ id, is_Some (wk_orders_sent s !! id) → is_Some (wk_orders_last s !! id)) ∧
  (∀ id o, wk_orders_last s !! id = Some o →
     ∃ o', wk_orders_sent s !! id = Some o' ∧ same_order o' o).

Definition synced (s : Data) : Prop := draft s ∧ sent_all s.

Lemma show_filter log :
  foldr show_event ∅ (List.filter order_event log) = foldr show_event ∅ log.
Proof.
  induction log as [|e log IH]; [done|]. simpl. destruct (order_event e) eqn:E; simpl; rewrite IH; [done|].
  destruct e; try done. by match goal with m : FromMsg |- _ => destruct m end.
Qed.

Lemma application_book_reverse log : application_book (reverse log) = foldr show_event ∅ log.
Proof.
  unfold application_book. induction log as [|e log IH]; [done|].
  rewrite reverse_cons, foldl_app. simpl. by rewrite IH.
Qed.

Lemma order_core_inv s s' : order_core s' = order_core s →
  List.filter order_event (wk_log s') = List.filter order_event (wk_log s) ∧
  wk_orders_last s' = wk_orders_last s ∧ wk_orders_sent s' = wk_orders_sent s.
Proof. intros E. injection E. auto. Qed.

Lemma synced_order_core s s' : order_core s' = order_core s → synced s → synced s'.
Proof.
  intros (El & Ea & Es)%order_core_inv. unfold synced, draft, sent_all. by rewrite El, Ea, Es.
Qed.
Lemma draft_order_core s s' : order_core s' = order_core s → draft s → draft s'.
Proof. intros (El & Ea & Es)%order_core_inv. unfold draft. by rewrite El, Ea, Es. Qed.

(** ** Sending the differences *)

Section Sync.
Context `{WorkerEnv}.

(** The state with the events about orders before and after an event is added. *)
Lemma draft_removed s id :
  draft s → is_Some (wk_orders_sent s !! id) →
  draft (s <| wk_orders_sent ::= delete id |> <| wk_log ::= cons (Ev_ui (From_OrderRemoved (Hash32_to_string id))) |>).
Proof.
  intros [Hl Hs Hsh] [o Ho]. split; simpl; [exact Hl| |].
  - intros id' o'. rewrite lookup_delete_Some. intros [_ Ho']. by eapply Hs.
  - intros text o'. rewrite lookup_delete_Some, Hsh. split.
    + intros [Hne (id' & Hid & <-)]. exists id'. rewrite lookup_delete_Some.
      split_and!; [|done..]. by intros ->.
    + intros (id' & [Hne Hid]%lookup_delete_Some & <-). split; [|by exists id'].
      intros E. by apply Hne, printed_inj; [eapply Hs..|].
Qed.

Lemma draft_created s id o new :
  draft s → wk_orders_last s !! id = Some o →
  draft (s <| wk_orders_sent ::= <[id := o]> |> <| wk_log ::= cons (Ev_ui (From_OrderCreated o new)) |>).
Proof.
  intros [Hl Hs Hsh] Ho. destruct (Hl id o Ho) as [Hv Hprint]. split; simpl; [exact Hl| |].
  - intros id' o' [[<- _]|[_ Ho']]%lookup_insert_Some; [done|]. by eapply Hs.
  - intros text o'. rewrite lookup_insert_Some, Hsh, Hprint. split.
    + intros [[<- <-]|[Hne (id' & Hid & <-)]]; [exists id; by rewrite lookup_insert_eq|].
      exists id'. split; [|done]. rewrite lookup_insert_ne; [done|]. by intros ->.
    + intros (id' & [[<- <-]|[Hne Hid]]%lookup_insert_Some & <-); [by left|]. right.
      split; [|by exists id']. intros E. by apply Hne, printed_inj; [|eapply Hs|].
Qed.

(** In the first loop, with orders [k] still to be withdrawn. *)
Definition withdrawing (last : gmap OrderId Order) (k : list OrderId) (s : Data) : Prop :=
  draft s ∧ wk_orders_last s = last ∧ NoDup k ∧
  (∀ id, id ∈ k → is_Some (wk_orders_sent s !! id)) ∧
  (∀ id, is_Some (wk_orders_sent s !! id) → last !! id = None → id ∈ k).

(** In the second, with orders [k] still to be compared. *)
Definition announcing (last : gmap OrderId Order) (k : list (OrderId * Order)) (s : Data) : Prop :=
  draft s ∧ wk_orders_last s = last ∧
  (∀ id, is_Some (wk_orders_sent s !! id) → is_Some (last !! id)) ∧
  (∀ id o, last !! id = Some o →
     (id, o) ∈ k ∨ ∃ o', wk_orders_sent s !! id = Some o' ∧ same_order o' o).

Lemma lands_withdraw last removed :
  lands (withdrawing last removed) (withdrawing last []) (λ _, False)
    (for_each removed (λ order_id,
       do! modify (λ s, s <| wk_orders_sent ::= delete order_id |>) in
       ui_send (From_OrderRemoved (Hash32_to_string order_id)))).
Proof.
  apply (lands_for_each (withdrawing last)). intros id rest _ s (Hd & El & Hnd & Hin & Hout).
  apply NoDup_cons in Hnd as [Hnot Hnd]. simpl.
  split; [apply draft_removed; [done|apply Hin; left]|]. simpl. split_and!; [done..| |].
  - intros id' Hid'. rewrite lookup_delete_ne by (by intros ->). apply Hin. by right.
  - intros id' [o Ho] Hn. apply lookup_delete_Some in Ho as [Hne Ho].
    assert (id' ∈ id :: rest) as [?|?]%elem_of_cons by (by apply Hout); congruence.
Qed.

Lemma lands_announce (last : gmap OrderId Order) :
  lands (announcing last (btree_list last)) (announcing last []) (λ _, False)
    (for_each (btree_list last) (λ '(order_id, order),
       let! order_sent := gets (λ s, wk_orders_sent s !! order_id) in
       if negb (opt_eqb order_eqb order_sent (Some order)) then
         let new := match order_sent with None => or_from_notification order | Some _ => false end in
         do! modify (λ s, s <| wk_orders_sent ::= <[order_id := order]> |>) in
         ui_send (From_OrderCreated order new)
       else ret tt)).
Proof.
  apply (lands_for_each (announcing last)).
  intros [id o] rest Hin%elem_of_btree_list s (Hd & El & Hsub & Hall).
  rewrite bind_gets. destruct (opt_eqb order_eqb (wk_orders_sent s !! id) (Some o)) eqn:Heq; simpl.
  - split_and!; [done..|]. intros id' o' Ho'.
    destruct (Hall id' o' Ho') as [[[= -> ->]|Hr]%elem_of_cons|Hsame]; [|by left|by right].
    right. destruct (wk_orders_sent s !! id) as [o''|] eqn:E; [|done]. exists o''.
    split; [done|by right].
  - split; [by apply draft_created; [|rewrite_field El]|]. simpl. split_and!; [done|..].
    + intros id' [o' [[<- _]|[_ Ho']]%lookup_insert_Some]; [by eexists|]. by eapply Hsub.
    + intros id' o' Ho'. destruct (decide (id' = id)) as [->|Hne].
      { right. exists o. rewrite lookup_insert_eq. split; [done|]. left. congruence. }
      rewrite lookup_insert_ne by done.
      destruct (Hall id' o' Ho') as [[?|?]%elem_of_cons|?]; [congruence|by left|by right].
Qed.

Lemma lands_sync_order_list : lands draft synced (λ _, False) sync_order_list.
Proof.
  intros s Hs. unfold sync_order_list. rewrite !bind_gets.
  set (last := wk_orders_last s). set (removed := filter _ _).
  refine (lands_bind (withdrawing last removed) (announcing last (btree_list last))
            (λ _, False) synced _ _ _ _ s _).
  - apply (lands_weaken _ _ _ _ _ _ _ (lands_withdraw last removed)); [done| |done].
    intros s' (Hd & El & _ & _ & Hout). split_and!; [done..| |].
    + intros id Hid. destruct (last !! id) eqn:E; [done|]. by apply Hout, elem_of_nil in Hid.
    + intros id o Ho. left. by apply elem_of_btree_list.
  - intros _. apply (lands_weaken _ _ _ _ _ _ _ (lands_announce last)); [done| |done].
    intros s' (Hd & El & Hsub & Hall). split; [done|]. unfold sent_all. rewrite El.
    split; [done|]. intros id o Ho. by destruct (Hall id o Ho) as [?%elem_of_nil|?].
  - split_and!; [done..| | |].
    + apply NoDup_filter, NoDup_btree_list.
    + intros id [_ Hid]%list_elem_of_filter. apply list_elem_of_fmap in Hid as ([i o] & -> & Hio).
      apply elem_of_btree_list in Hio. by eexists.
    + intros id [o Ho] Hn. apply list_elem_of_filter. split; [done|].
      apply list_elem_of_fmap. exists (id, o). split; [done|]. by apply elem_of_btree_list.
Qed.
End Sync.

(** ** Every handler leaves the application with the whole book *)

Section Handlers.
Context `{WorkerEnv}.

Lemma synced_draft s : synced s → draft s.
Proof. by intros [? _]. Qed.

(** Computations that have nothing to do with orders. *)
Lemma lands_core {A} I (m : DataM A) :
  (∀ c, keeps (λ s, order_core s = c) m) →
  (∀ s s', order_core s' = order_core s → I s → I s') → lands I I I m.
Proof. intros Hm HI. apply lands_keeps. intros s. by apply HI, (Hm (order_core s) s). Qed.

Lemma lands_synced {A} (m : DataM A) :
  (∀ c, keeps (λ s, order_core s = c) m) → lands synced synced synced m.
Proof. intros Hm. by apply lands_core; [|apply synced_order_core]. Qed.

Lemma lands_draft {A} (m : DataM A) :
  (∀ c, keeps (λ s, order_core s = c) m) → lands draft draft draft m.
Proof. intros Hm. by apply lands_core; [|apply draft_order_core]. Qed.

(** Changes of the book, before they are sent. *)
Lemma lands_book f :
  (∀ s, draft s → draft (s <| wk_orders_last ::= f |>)) →
  lands draft draft (λ _, False) (modify (λ s, s <| wk_orders_last ::= f |>)).
Proof. intros Hf s Hs. by apply Hf. Qed.

Lemma draft_book s f :
  draft s → (∀ id o, f (wk_orders_last s) !! id = Some o → valid_id id ∧ or_order_id o = Hash32_to_string id) →
  draft (s <| wk_orders_last ::= f |>).
Proof. intros [Hl Hs Hsh] Hf. by split. Qed.

Lemma lands_add_order msg from_notification :
  valid_id (order_created_order_id msg) →
  lands draft draft (λ _, False) (add_order msg from_notification).
Proof.
  intros Hv. unfold add_order.
  eapply lands_bind; [apply lands_attempt, lands_draft; intros c; frame|intros _].
  eapply (lands_bind draft draft).
  { destruct (order_created_own msg); [|by intros s Hs].
    eapply lands_bind; [apply lands_attempt, lands_draft; intros c; frame|intros _; by intros s Hs]. }
  intros _ s Hs. rewrite bind_gets. simpl. apply draft_book; [done|].
  intros id o [[<- <-]|[_ Ho]]%lookup_insert_Some; [done|]. by eapply (draft_last _ _ _ Hs).
Qed.

Lemma lands_add_orders msgs :
  Forall (λ m, valid_id (order_created_order_id m)) msgs →
  lands draft draft (λ _, False) (for_each msgs (λ m, add_order m false)).
Proof.
  intros Hv. apply (lands_for_each (λ _, draft)). intros m _ Hm. apply lands_add_order.
  rewrite Forall_forall in Hv. by apply Hv.
Qed.

(** A handler that changes the book and then sends the differences. *)
Lemma lands_then_sync (m : DataM unit) :
  lands draft draft (λ _, False) m → lands synced synced synced (do! m in sync_order_list).
Proof.
  intros Hm. eapply lands_bind.
  - apply (lands_weaken _ _ _ _ _ _ _ Hm); [apply synced_draft|done|done].
  - intros _. apply (lands_weaken _ _ _ _ _ _ _ lands_sync_order_list); done.
Qed.

Lemma lands_process_order_created msg :
  valid_id (order_created_order_id msg) → lands synced synced synced (process_order_created msg).
Proof. intros Hv. by apply lands_then_sync, lands_add_order. Qed.

Lemma lands_process_order_removed msg : lands synced synced synced (process_order_removed msg).
Proof.
  apply lands_then_sync. intros s Hs. apply draft_book; [done|].
  intros id o [_ Ho]%lookup_delete_Some. by eapply (draft_last _ _ _ Hs).
Qed.

Lemma lands_process_unsubscribe_response msg :
  lands synced synced synced (process_unsubscribe_response msg).
Proof.
  apply lands_then_sync. intros s Hs. apply draft_book; [done|].
  intros id o [Ho _]%map_lookup_filter_Some. by eapply (draft_last _ _ _ Hs).
Qed.

Lemma lands_try_edit_order_auto_sign id auto_sign :
  lands draft draft draft (try_edit_order_auto_sign id auto_sign).
Proof.
  intros s Hs. unfold try_edit_order_auto_sign. rewrite bind_gets. unfold bind, ok_or, lift, ook_or.
  destruct (wk_submit_data s !! id) as [d|]; [|exact Hs]. simpl.
  destruct (wk_orders_last s !! id) as [o|] eqn:Ho; [|exact Hs]. simpl.
  apply (draft_order_core (s <| wk_orders_last ::= <[id := o <| or_auto_sign := auto_sign |>]> |>)).
  { done. }
  apply draft_book; [done|].
  intros id' o' [[<- <-]|[_ Ho']]%lookup_insert_Some;
    [exact (draft_last _ _ _ Hs _ _ Ho)|exact (draft_last _ _ _ Hs _ _ Ho')].
Qed.

Lemma lands_process_subscribe_response msg :
  Forall (λ m, valid_id (order_created_order_id m)) (subscribe_resp_orders msg) →
  lands synced synced synced (process_subscribe_response msg).
Proof. intros Hv. by apply lands_then_sync, lands_add_orders. Qed.

Lemma lands_process_edit_order id data : lands synced synced synced (process_edit_order id data).
Proof.
  unfold process_edit_order.
  eapply lands_bind; [apply lands_synced; intros c; frame|intros order_id].
  eapply lands_bind; [apply lands_synced; intros c; frame|intros edit].
  eapply (lands_bind synced draft).
  - eapply (lands_weaken synced draft (λ _, False)); [|done|done|done]. apply lands_attempt.
    destruct edit as [v|v|v].
    + apply (lands_weaken draft draft draft); [|apply synced_draft|done|done].
      apply lands_draft. intros c. frame.
    + apply (lands_weaken draft draft draft); [|apply synced_draft|done|done].
      apply lands_draft. intros c. frame.
    + apply (lands_weaken draft draft draft); [|apply synced_draft|done|done].
      apply lands_try_edit_order_auto_sign.
  - intros r. eapply (lands_bind draft draft).
    + intros s Hs. apply (draft_order_core s); [|done]. by destruct r.
    + intros _. apply (lands_weaken _ _ _ _ _ _ _ lands_sync_order_list); done.
Qed.

Lemma lands_process_ws_disconnected : lands synced synced synced process_ws_disconnected.
Proof.
  unfold process_ws_disconnected. eapply (lands_bind synced draft).
  { intros s Hs. simpl.
    apply (draft_order_core (s <| wk_orders_last ::= λ _, ∅ |>)); [done|].
    apply draft_book; [by apply synced_draft|]. intros id o Ho. cbv beta in Ho. by rewrite lookup_empty in Ho. }
  intros _. eapply lands_bind.
  { apply (lands_weaken _ _ _ _ _ _ _ lands_sync_order_list); done. }
  intros _. apply lands_synced. intros c. frame.
Qed.

Context (valid_server : ∀ log id, Forall valid_response (env_responses log id)).

Lemma await_valid id arrived resp :
  Forall valid_response arrived → await_response id arrived = inl resp →
  valid_response (Some id, inl resp).
Proof.
  induction 1 as [|[[id'|] result] arrived Hr _ IH]; simpl; [done| |done].
  case_bool_decide; [|done]. by destruct result; intros [= ->].
Qed.

Lemma login_valid r : yields (request r as_Login) (λ resp, valid_response (None, inl (Response_Login resp))).
Proof using All.
  unfold request, send_request. eapply yields_bind with (P := λ resp, ∀ r, resp = inl r → valid_response (None, inl r)).
  - eapply yields_bind; [apply yields_True|intros id _].
    eapply yields_bind; [apply yields_True|intros log _].
    apply yields_ret. intros resp E. by apply (await_valid id (env_responses log id)).
  - intros [resp|e] Hr; [|by intros s s' a ?]. 
    eapply yields_bind with (P := λ r, r = resp); [by apply yields_ret|].
    intros ? ->. apply yields_lift. intros a Ha. destruct resp; simplify_eq/=. by apply Hr.
Qed.

Lemma lands_connect_session : lands synced synced synced connect_session.
Proof using All.
  unfold connect_session. eapply lands_bind; [apply lands_synced; intros c; frame|intros settings].
  eapply lands_bind_yields; [apply lands_synced; intros c; apply order_core_request|apply login_valid|].
  intros resp Hv. eapply (lands_bind synced draft).
  { apply (lands_weaken _ _ _ _ _ _ _ (lands_add_orders _ Hv)); [apply synced_draft|done..]. }
  intros _. eapply (lands_bind draft synced).
  { apply (lands_weaken _ _ _ _ _ _ _ lands_sync_order_list); done. }
  intros _. apply lands_synced. intros c. frame.
Qed.

Lemma lands_try_process_ws_connected : lands synced synced synced try_process_ws_connected.
Proof using All.
  unfold try_process_ws_connected.
  do 8 (eapply lands_bind;
    [first [apply lands_connect_session|apply lands_synced; intros c; frame]|intros ?]).
  apply lands_synced. intros c. frame.
Qed.

Lemma lands_process_ws_connected : lands synced synced synced process_ws_connected.
Proof using All.
  unfold process_ws_connected. eapply lands_bind.
  { eapply (lands_weaken synced synced (λ _, False)); [|done|done|done].
    apply lands_attempt, lands_try_process_ws_connected. }
  intros r. apply lands_synced. intros c. destruct r; frame.
Qed.

Lemma lands_process_message msg :
  valid_message msg → lands synced synced synced (process_message msg).
Proof using All.
  intros Hv. destruct msg as [m| | |n| | | | | | | | |]; simpl in Hv |- *; [destruct m|..];
    try (destruct n); simpl in Hv |- *;
    first [ by auto using lands_process_edit_order, lands_process_ws_connected,
              lands_process_ws_disconnected, lands_process_order_created,
              lands_process_order_removed, lands_process_subscribe_response,
              lands_process_unsubscribe_response
          | apply lands_synced; intros c; unfold process_update_prices, process_update_price_stream,
              process_local_message, process_market_data_update, process_market_data_response,
              process_asset_details_response; frame ].
Qed.
End Handlers.

(** ** The worker *)

Lemma synced_initial `{WorkerEnv} : synced initial_data.
Proof.
  split; [split|split].
  - intros id o Ho. discriminate Ho.
  - intros id o Ho. discriminate Ho.
  - intros text o. split; [intros Ho; discriminate Ho|]. intros (id & Ho & _). discriminate Ho.
  - intros id [o Ho]. discriminate Ho.
  - intros id o Ho. discriminate Ho.
Qed.

Lemma lands_run_worker `{WorkerEnv} msgs :
  (∀ log id, Forall valid_response (env_responses log id)) → Forall valid_message msgs →
  lands synced synced synced (run_worker msgs).
Proof.
  intros Hserver Hmsgs. unfold run_worker. eapply lands_bind.
  - apply lands_synced. intros c. apply keeps_quiet; auto with quiet.
  - intros _. apply (lands_for_each (λ _, synced)). intros msg _ Hin.
    apply lands_process_message; [done|]. rewrite Forall_forall in Hmsgs. by apply Hmsgs.
Qed.

Lemma synced_shows s :
  synced s → shows (application_book (reverse (wk_log s))) (wk_orders_last s).
Proof.
  intros [[_ _ Hsh] [Hsub Hall]]. rewrite show_filter in Hsh. rewrite application_book_reverse. split.
  - intros text o (id & Ho & <-)%Hsh. destruct (Hsub id) as [o' Ho']; [by eexists|].
    exists id, o'. split_and!; [done..|]. destruct (Hall id o' Ho') as (o'' & Ho'' & Hsame). congruence.
  - intros id o' Ho'. destruct (Hall id o' Ho') as (o & Ho & Hsame). exists o.
    split; [|done]. apply Hsh. by exists id.
Qed.

(** C3: the application's copy of the order book, which it keeps from the messages
    about orders alone, is the book of the worker: after every message the worker has
    handled - orders appear, change and disappear, the connection is lost and
    restored, the user edits orders or leaves a market - the copy holds the orders of
    the book under their printed identifiers, and no others. *)
Theorem application_book_refines `{WorkerEnv} msgs :
  (∀ log id, Forall valid_response (env_responses log id)) → Forall valid_message msgs →
  (run_worker msgs initial_data).2 = Ok tt →
  shows (application_book (worker_events msgs)) (wk_orders_last (worker_after msgs)).
Proof.
  intros Hserver Hmsgs Hok. apply synced_shows.
  pose proof (lands_run_worker msgs Hserver Hmsgs initial_data synced_initial) as Hl.
  by rewrite Hok in Hl.
Qed.

(** An order appears and the connection is lost. *)
Module BookSample.
Definition created : OrderCreatedNotification := {|
  order_created_order_id := Sample.order_id; order_created_details := Sample.details OrderSide_Taker;
  order_created_created_at := 5; order_created_expires_at := None;
  order_created_two_step := false; order_created_own := None
|}.
End BookSample.
Import OrderSample.

Lemma application_book_refines_witness :
  let msgs := [Msg_ServerNotification (Notification_OrderCreated BookSample.created)] in
  shows (application_book (worker_events msgs)) (wk_orders_last (worker_after msgs)) ∧
  is_Some (application_book (worker_events msgs) !! Hash32_to_string Sample.order_id).
Proof.
  intros msgs. split; [apply application_book_refines|].
  - intros log id. destruct log as [|[] log]; repeat constructor.
  - constructor; [split; [reflexivity|]|constructor].
    repeat constructor; lia.
  - vm_compute. reflexivity.
  - exists (order_of initial_data BookSample.created true). vm_compute. reflexivity.
Defined.
