(* ===== verification/Jade.v ===== *)
(** * The Jade hardware wallet

    Models [rust/sideswap_jade/src/lib.rs] and [models.rs]: the worker that turns
    requests into CBOR messages and matches the device's answers with them by a
    running [i32], and [rust/sideswap_client/src/jade_mng.rs]: the devices that are
    plugged in.  The serial port is that of Serial.v.  CBOR and JSON codecs, the HTTP
    agent and the ports of the operating system are parameters ([JadeEnv]). *)
From stdpp Require Import base numbers gmap strings list.
From Stdlib Require Import ZArith Lia Ascii Decimal DecimalString DecimalZ.
From S2P Require Import Prelude F64 Api Serial.

Open Scope Z_scope.
#[local] Set Primitive Projections.
#[local] Set Warnings "-register-all".

(** ** Data *)

(** An asset identifier in the device's byte order. *)
Definition JadeAssetId : Type := bytes.

Definition asset_to_jade (asset : AssetId) : JadeAssetId := reverse asset.

Inductive StatusNetwork := StatusNetwork_All | StatusNetwork_Main | StatusNetwork_Test.

Inductive JadeDeviceState :=
  | Device_Ready
  | Device_Temp
  | Device_Unsaved
  | Device_Locked
  | Device_Uninit.

Inductive JadeNetwork := Jade_Liquid | Jade_TestnetLiquid.

Definition jade_network_name (n : JadeNetwork) : string :=
  match n with
  | Jade_Liquid => "liquid"
  | Jade_TestnetLiquid => "testnet-liquid"
  end.

Record JadeError := { jade_error_code : Z; jade_error_message : string }.

(** [models::Resp] *)
Record RespOf (T : Type) := {
  resp_id : string;
  resp_result : option T;
  resp_error : option JadeError
}.
Arguments resp_id {_} _.
Arguments resp_result {_} _.
Arguments resp_error {_} _.

Inductive BlindingFactorType := Factor_Asset | Factor_Value.

Record ResolveXpubReq := { rx_network : JadeNetwork; rx_path : list Z }.
Record SignMessageReq := {
  sm_path : list Z;
  sm_message : string;
  sm_ae_host_commitment : bytes
}.
Record GetSharedNonceReq := { sn_script : bytes; sn_their_pubkey : bytes }.
Record GetBlindingFactorReq := {
  bf_hash_prevouts : bytes;
  bf_output_index : Z;
  bf_factor_type : BlindingFactorType
}.
Record GetCommitmentsReq := {
  gc_asset_id : JadeAssetId;
  gc_value : Z;
  gc_hash_prevouts : bytes;
  gc_output_index : Z;
  gc_vbf : option bytes
}.

Record RespVersionInfo := {
  jade_version : string;
  jade_state : JadeDeviceState;
  jade_networks : StatusNetwork;
  jade_has_pin : bool;
  efusemac : string
}.

Record RespHttpRequestParams := {
  hp_urls : list string;
  hp_method : string;
  hp_accept : string;
  hp_data : CborValue
}.
Record RespHttpReq := { hr_params : RespHttpRequestParams; hr_on_reply : string }.
Record RespAuthUser := { au_http_request : RespHttpReq }.

Record RespGetCommitments := {
  com_abf : bytes;
  com_vbf : bytes;
  com_asset_generator : bytes;
  com_value_commitment : bytes;
  com_asset_id : JadeAssetId;
  com_value : Z
}.

Record ReqAuthUser := { rau_network : string }.
Record ReqGetXPub := { rgx_network : string; rgx_path : list Z }.
Record ReqSignMessage := {
  rsm_path : list Z;
  rsm_message : string;
  rsm_ae_host_commitment : bytes
}.
Record ReqGetSignature := { rgs_ae_host_entropy : option bytes }.
Record ReqGetSharedNonce := { rsn_script : bytes; rsn_their_pubkey : bytes }.
Record ReqGetBlindingKey := { rbk_script : bytes }.
Record ReqGetBlindingFactor := {
  rbf_hash_prevouts : bytes;
  rbf_output_index : Z;
  rbf_type : string
}.
Record ReqGetCommitments := {
  rgc_asset_id : JadeAssetId;
  rgc_value : Z;
  rgc_hash_prevouts : bytes;
  rgc_output_index : Z;
  rgc_vbf : option bytes
}.

Record AdditionalInfoSummary := { sum_asset_id : JadeAssetId; sum_satoshi : Z }.

Inductive JadeTxType := TxType_Swap.

Record ReqSignTxAdditionalInfo := {
  ai_is_partial : bool;
  ai_tx_type : JadeTxType;
  ai_wallet_input_summary : list AdditionalInfoSummary;
  ai_wallet_output_summary : list AdditionalInfoSummary
}.

Record JadePrevout := { jp_txid : string; jp_vout : Z }.

Record JadeAssetInfo := {
  ja_asset_id : string;
  ja_contract : CborValue;
  ja_issuance_prevout : JadePrevout
}.

Record TrustedCommitment := {
  tc_asset_id : JadeAssetId;
  tc_value : Z;
  tc_asset_generator : bytes;
  tc_value_commitment : bytes;
  tc_blinding_key : bytes;
  tc_abf : string;
  tc_vbf : string
}.

Inductive OutputVariant :=
  | Out_P2pkh
  | Out_P2wpkh
  | Out_P2wpkhP2sh
  | Out_MultiP2wsh
  | Out_MultiP2sh
  | Out_MultiP2wshP2sh.

Record JadeOutput := {
  jo_variant : option OutputVariant;
  jo_path : list Z;
  jo_recovery_xpub : option string;
  jo_is_change : bool
}.

Record ReqSignTx := {
  rst_network : string;
  rst_use_ae_signatures : bool;
  rst_txn : bytes;
  rst_num_inputs : Z;
  rst_trusted_commitments : list (option TrustedCommitment);
  rst_change : list (option JadeOutput);
  rst_asset_info : list JadeAssetInfo;
  rst_additional_info : option ReqSignTxAdditionalInfo
}.

Record ReqTxInput := {
  rti_is_witness : bool;
  rti_path : list Z;
  rti_script : bytes;
  rti_sighash : option Z;
  rti_value_commitment : bytes;
  rti_ae_host_commitment : bytes;
  rti_ae_host_entropy : bytes;
  rti_value : Z;
  rti_abf : string;
  rti_vbf : string;
  rti_asset_id : JadeAssetId;
  rti_asset_generator : bytes
}.

(** The parameters of a message to the device: the type argument of [models::Req]. *)
Inductive JadeParams :=
  | Params_Cbor (p : CborValue)
  | Params_AuthUser (p : ReqAuthUser)
  | Params_GetXPub (p : ReqGetXPub)
  | Params_SignMessage (p : ReqSignMessage)
  | Params_GetSignature (p : ReqGetSignature)
  | Params_GetSharedNonce (p : ReqGetSharedNonce)
  | Params_GetBlindingKey (p : ReqGetBlindingKey)
  | Params_GetBlindingFactor (p : ReqGetBlindingFactor)
  | Params_GetCommitments (p : ReqGetCommitments)
  | Params_SignTx (p : ReqSignTx)
  | Params_TxInput (p : ReqTxInput)
  | Params_TxInputEmpty.

(** [models::Req] *)
Record JadeMessage := {
  req_id : string;
  req_method : string;
  req_params : option JadeParams
}.

Inductive Req :=
  | Req_ReadStatus
  | Req_AuthUser (network : JadeNetwork)
  | Req_ResolveXpub (req : ResolveXpubReq)
  | Req_GetMasterBlindingKey
  | Req_SignMessage (req : SignMessageReq)
  | Req_GetSignature (ae_host_entropy : option bytes)
  | Req_GetSharedNonce (req : GetSharedNonceReq)
  | Req_GetBlindingKey (script : bytes)
  | Req_GetBlindingFactor (req : GetBlindingFactorReq)
  | Req_GetCommitments (req : GetCommitmentsReq)
  | Req_SignTx (msg : ReqSignTx)
  | Req_TxInput (msg : option ReqTxInput).

Inductive Resp :=
  | Resp_ReadStatus (v : RespVersionInfo)
  | Resp_AuthUser (v : bool)
  | Resp_ResolveXpub (v : string)
  | Resp_GetMasterBlindingKey (v : bytes)
  | Resp_SignMessage (v : bytes)
  | Resp_GetSignature (v : option bytes)
  | Resp_GetSharedNonce (v : bytes)
  | Resp_GetBlindingKey (v : bytes)
  | Resp_GetBlindingFactor (v : bytes)
  | Resp_GetCommitments (v : RespGetCommitments)
  | Resp_SignTx (v : bool)
  | Resp_TxInput (v : bytes).

Inductive WorkerReq :=
  | WorkerReq_Req (req : Req)
  | WorkerReq_Quit
  | WorkerReq_FromPort (msg : FromPort).

Inductive WorkerResp :=
  | WorkerResp_Resp (r : Resp + string)
  | WorkerResp_FatalError (e : string).

Inductive PendingRequest :=
  | Pending_ReadStatus
  | Pending_HttpRequest
  | Pending_AuthComplete
  | Pending_GetXPub
  | Pending_GetMasterBlindingKey
  | Pending_SignMessage
  | Pending_GetSignature
  | Pending_GetSharedNonce
  | Pending_GetBlindingKey
  | Pending_GetBlindingFactor
  | Pending_GetCommitments
  | Pending_SignTx
  | Pending_TxInput.

#[export] Instance PendingRequest_eq_dec : EqDecision PendingRequest.
Proof. solve_decision. Defined.

(** What the result of an answer is decoded to. *)
Definition resp_type (p : PendingRequest) : Type :=
  match p with
  | Pending_ReadStatus => RespVersionInfo
  | Pending_HttpRequest => RespAuthUser
  | Pending_AuthComplete | Pending_SignTx => bool
  | Pending_GetXPub => string
  | Pending_GetSignature => CborValue
  | Pending_GetCommitments => RespGetCommitments
  | _ => bytes
  end.

(** ** JSON and CBOR *)

(** [serde_json::Value].  A number is kept as its text ([arbitrary_precision]), the
    entries of an object are in key order. *)
Inductive JsonValue : Type :=
  | JsonNull
  | JsonBool (v : bool)
  | JsonNumber (v : string)
  | JsonString (v : string)
  | JsonArray (v : list JsonValue)
  | JsonObject (v : list (string * JsonValue)).

(** [collect::<Result<Vec<_>, _>>()] *)
Definition collect {A B} (f : A → outcome B) : list A → outcome (list B) :=
  fix go l :=
    match l with
    | [] => Ok []
    | x :: l => let? y := f x in let? l := go l in Ok (y :: l)
    end.

(** [collect::<serde_json::Map<_, _>>()]: a later entry replaces an earlier one. *)
Definition to_json_map (l : list (string * JsonValue)) : list (string * JsonValue) :=
  btree_list (list_to_map (reverse l) : gmap string JsonValue).

(** ** Text of an [i32] *)

Definition i32_to_string (z : Z) : string := NilZero.string_of_int (Z.to_int z).

Definition in_i32 (z : Z) : bool := (- 2 ^ 31 <=? z) && (z <=? 2 ^ 31 - 1).

(** [str::parse::<i32>()]: a sign, then at least one digit, and no overflow. *)
Definition parse_i32 (s : string) : option Z :=
  let digits (sign : Z) (s : string) :=
    match NilZero.uint_of_string s with
    | Some u =>
        let z := sign * Z.of_uint u in
        if in_i32 z then Some z else None
    | None => None
    end in
  match s with
  | String "+"%char s => digits 1 s
  | String "-"%char s => digits (-1) s
  | s => digits 1 s
  end.

Definition wi32 (z : Z) : Z := wrap_s 32 z.

(** ** The worker *)

(** What the worker did, newest first. *)
Inductive JadeEvent :=
  | Jade_sent (msg : JadeMessage)
  | Jade_http (url : string) (data : string)
  | Jade_callback (r : WorkerResp).

Record JadeState := {
  pending_requests : gmap Z PendingRequest;
  last_request_id : Z;
  jade_log : list JadeEvent
}.

Class JadeEnv := {
  (** [ciborium::de::from_reader::<Resp<T>, _>], for the [Value] every answer is
      first read as, and for the type of each kind of answer *)
  de_resp_value : bytes → outcome (RespOf CborValue);
  de_resp : ∀ p : PendingRequest, bytes → outcome (RespOf (resp_type p));
  base64_decode : string → option bytes;
  (** [handle.send]: fails once the thread of the port has ended *)
  handle_send : list JadeEvent → JadeMessage → outcome unit;
  (** the HTTP agent's [post] and [into_string] *)
  jade_http_post : list JadeEvent → string → string → outcome string;
  json_to_string : JsonValue → outcome string;
  json_from_str : string → outcome JsonValue;
  (** [serde_json::Number] *)
  number_is_f64 : string → bool;
  number_as_f64 : string → option f64;
  number_from_f64 : f64 → option string
}.

Definition jade_start : JadeState :=
  {| pending_requests := ∅; last_request_id := 25000; jade_log := [] |}.

Section Jade.
Context `{JadeEnv}.

Fixpoint json_to_cbor (value : JsonValue) : outcome CborValue :=
  match value with
  | JsonNull => Ok CborNull
  | JsonBool v => Ok (CborBool v)
  | JsonString v => Ok (CborText v)
  | JsonNumber v =>
      if number_is_f64 v then
        let? x := oexpect (number_as_f64 v) "called `Option::unwrap()` on a `None` value" in
        Ok (CborFloat x)
      else Err ("unsupported number: " +:+ v)
  | JsonArray v => let? l := collect json_to_cbor v in Ok (CborArray l)
  | JsonObject v =>
      let? l := collect (λ kv : string * JsonValue,
        let? value := json_to_cbor kv.2 in Ok (CborText kv.1, value)) v in
      Ok (CborMap l)
  end.

Fixpoint cbor_to_json (value : CborValue) : outcome JsonValue :=
  match value with
  | CborInteger v =>
      let? n := ook_or (number_from_f64 (f64_of_Z v)) "integer number conversion failed" in
      Ok (JsonNumber n)
  | CborFloat v =>
      let? n := ook_or (number_from_f64 v) "float number conversion failed" in
      Ok (JsonNumber n)
  | CborText v => Ok (JsonString v)
  | CborBool v => Ok (JsonBool v)
  | CborNull => Ok JsonNull
  | CborArray v => let? l := collect cbor_to_json v in Ok (JsonArray l)
  | CborMap v =>
      let? l := collect (λ kv : CborValue * CborValue,
        let? value := cbor_to_json kv.2 in Ok (default EmptyString (as_text kv.1), value)) v in
      Ok (JsonObject (to_json_map l))
  | _ => Err "unsupported CBOR value"
  end.

Definition jade_emit (e : JadeEvent) : M JadeState unit :=
  modify (λ s, s <| jade_log ::= cons e |>).

Definition callback (r : WorkerResp) : M JadeState unit := jade_emit (Jade_callback r).

Definition handle_http_request (details : RespAuthUser) : M JadeState CborValue :=
  let params := hr_params (au_http_request details) in
  let! url := ok_or (head (hp_urls params)) "empty urls array" in
  let! data := lift (cbor_to_json (hp_data params)) in
  let! data := lift (json_to_string data) in
  do! jade_emit (Jade_http url data) in
  let! response := gets (λ s, jade_http_post (jade_log s) url data) in
  let! response := lift response in
  let! response := lift (json_from_str response) in
  lift (json_to_cbor response).

(** The common end of every request: a new number, the message, and what is waited
    for once it is sent. *)
Definition send_to_device (method : string) (params : option JadeParams) (next : PendingRequest) :
    M JadeState unit :=
  do! modify (λ s, s <| last_request_id ::= λ i, wi32 (i + 1) |>) in
  let! id := gets last_request_id in
  let req := {| req_id := i32_to_string id; req_method := method; req_params := params |} in
  let! result := gets (λ s, handle_send (jade_log s) req) in
  match result with
  | Ok _ =>
      do! jade_emit (Jade_sent req) in
      modify (λ s, s <| pending_requests ::= <[id := next]> |>)
  | Err e => callback (WorkerResp_FatalError e)
  | Panic e => panic e
  end.

(** The common outer matches of every answer: an unreadable one, an error, a result,
    neither. *)
Definition on_resp {T} (resp : outcome (RespOf T)) (parsing : string)
    (on_result : T → M JadeState unit) : M JadeState unit :=
  match resp with
  | Ok v =>
      match resp_error v, resp_result v with
      | Some e, _ => callback (WorkerResp_Resp (inr ("request failed: " +:+ jade_error_message e)))
      | None, Some v => on_result v
      | None, None => callback (WorkerResp_Resp (inr "unexpected response"))
      end
  | Err e => callback (WorkerResp_FatalError ("parsing " +:+ parsing +:+ " response failed: " +:+ e))
  | Panic e => panic e
  end.

Definition answer (r : Resp) : M JadeState unit := callback (WorkerResp_Resp (inl r)).

Definition on_read_status (data : bytes) : M JadeState unit :=
  on_resp (de_resp Pending_ReadStatus data) "ReadStatus" (λ v, answer (Resp_ReadStatus v)).

(** Unlocking: the device asks for a web request, and is sent its result. *)
Definition on_http_request (data : bytes) : M JadeState unit :=
  on_resp (de_resp Pending_HttpRequest data) "AuthUser" (λ v,
    let! result := attempt (handle_http_request v) in
    match result with
    | inl pin =>
        let on_reply := hr_on_reply (au_http_request v) in
        send_to_device on_reply (Some (Params_Cbor pin))
          (if String.eqb on_reply "handshake_complete" then Pending_AuthComplete
           else Pending_HttpRequest)
    | inr e => callback (WorkerResp_Resp (inr ("auth request failed: " +:+ e)))
    end).

Definition on_auth_complete (data : bytes) : M JadeState unit :=
  on_resp (de_resp Pending_AuthComplete data) "AuthComplete" (λ v, answer (Resp_AuthUser v)).

Definition on_get_xpub (data : bytes) : M JadeState unit :=
  on_resp (de_resp Pending_GetXPub data) "ReadStatus" (λ v, answer (Resp_ResolveXpub v)).

Definition on_get_master_blinding_key (data : bytes) : M JadeState unit :=
  on_resp (de_resp Pending_GetMasterBlindingKey data) "ReadStatus"
    (λ v, answer (Resp_GetMasterBlindingKey v)).

Definition on_sign_message (data : bytes) : M JadeState unit :=
  on_resp (de_resp Pending_SignMessage data) "SignMessage" (λ v, answer (Resp_SignMessage v)).

(** An answer that is neither text, bytes nor null is refused; its debug print is cut
    off the message here. *)
Definition on_get_signature (data : bytes) : M JadeState unit :=
  match de_resp Pending_GetSignature data with
  | Ok v =>
      match resp_error v, resp_result v with
      | Some e, _ => callback (WorkerResp_Resp (inr ("request failed: " +:+ jade_error_message e)))
      | None, Some (CborText v) =>
          let! v := expect (base64_decode v) "called `Result::unwrap()` on an `Err` value" in
          answer (Resp_GetSignature (Some v))
      | None, Some (CborBytes v) => answer (Resp_GetSignature (Some v))
      | None, Some CborNull => answer (Resp_GetSignature None)
      | None, _ => callback (WorkerResp_Resp (inr "unexpected response: "))
      end
  | Err e => callback (WorkerResp_FatalError ("parsing GetSignature response failed: " +:+ e))
  | Panic e => panic e
  end.

Definition on_get_shared_nonce (data : bytes) : M JadeState unit :=
  on_resp (de_resp Pending_GetSharedNonce data) "GetSharedNonce"
    (λ v, answer (Resp_GetSharedNonce v)).

Definition on_get_blinding_key (data : bytes) : M JadeState unit :=
  on_resp (de_resp Pending_GetBlindingKey data) "GetBlindingKey"
    (λ v, answer (Resp_GetBlindingKey v)).

Definition on_get_blinding_factor (data : bytes) : M JadeState unit :=
  on_resp (de_resp Pending_GetBlindingFactor data) "GetBlindingFactor"
    (λ v, answer (Resp_GetBlindingFactor v)).

Definition on_get_commitments (data : bytes) : M JadeState unit :=
  on_resp (de_resp Pending_GetCommitments data) "GetCommitments"
    (λ v, answer (Resp_GetCommitments v)).

Definition on_sign_tx (data : bytes) : M JadeState unit :=
  on_resp (de_resp Pending_SignTx data) "SignTx" (λ v, answer (Resp_SignTx v)).

Definition on_tx_input (data : bytes) : M JadeState unit :=
  on_resp (de_resp Pending_TxInput data) "TxInput" (λ v, answer (Resp_TxInput v)).

Definition on_answer (p : PendingRequest) (data : bytes) : M JadeState unit :=
  match p with
  | Pending_ReadStatus => on_read_status data
  | Pending_HttpRequest => on_http_request data
  | Pending_AuthComplete => on_auth_complete data
  | Pending_GetXPub => on_get_xpub data
  | Pending_GetMasterBlindingKey => on_get_master_blinding_key data
  | Pending_SignMessage => on_sign_message data
  | Pending_GetSignature => on_get_signature data
  | Pending_GetSharedNonce => on_get_shared_nonce data
  | Pending_GetBlindingKey => on_get_blinding_key data
  | Pending_GetBlindingFactor => on_get_blinding_factor data
  | Pending_GetCommitments => on_get_commitments data
  | Pending_SignTx => on_sign_tx data
  | Pending_TxInput => on_tx_input data
  end.

Definition handle_port_msg (data : bytes) : M JadeState unit :=
  match de_resp_value data with
  | Err e => callback (WorkerResp_FatalError ("unexpected response from Jade: " +:+ e))
  | Panic e => panic e
  | Ok jade_resp =>
      let request_id := default 0 (parse_i32 (resp_id jade_resp)) in
      let! pending_request := gets (λ s, pending_requests s !! request_id) in
      do! modify (λ s, s <| pending_requests ::= delete request_id |>) in
      match pending_request with
      | Some p => on_answer p data
      | None => ret tt
      end
  end.

(** Old status requests are forgotten; a new one is sent when nothing else is waited
    for, because it would make unlocking fail. *)
Definition req_read_status : M JadeState unit :=
  do! modify (λ s, s <| pending_requests ::= filter (λ kv, kv.2 ≠ Pending_ReadStatus) |>) in
  let! pending := gets pending_requests in
  if decide (pending = ∅) then send_to_device "get_version_info" None Pending_ReadStatus
  else ret tt.

Definition req_auth_user (network : JadeNetwork) : M JadeState unit :=
  send_to_device "auth_user"
    (Some (Params_AuthUser {| rau_network := jade_network_name network |})) Pending_HttpRequest.

Definition req_resolve_xpub (req : ResolveXpubReq) : M JadeState unit :=
  send_to_device "get_xpub"
    (Some (Params_GetXPub {| rgx_network := jade_network_name (rx_network req);
                             rgx_path := rx_path req |})) Pending_GetXPub.

Definition req_get_master_blinding_key : M JadeState unit :=
  send_to_device "get_master_blinding_key" None Pending_GetMasterBlindingKey.

Definition req_sign_message (req : SignMessageReq) : M JadeState unit :=
  send_to_device "sign_message"
    (Some (Params_SignMessage {| rsm_path := sm_path req; rsm_message := sm_message req;
                                 rsm_ae_host_commitment := sm_ae_host_commitment req |}))
    Pending_SignMessage.

Definition req_get_signature (ae_host_entropy : option bytes) : M JadeState unit :=
  send_to_device "get_signature"
    (Some (Params_GetSignature {| rgs_ae_host_entropy := ae_host_entropy |})) Pending_GetSignature.

Definition req_get_shared_nonce (req : GetSharedNonceReq) : M JadeState unit :=
  send_to_device "get_shared_nonce"
    (Some (Params_GetSharedNonce {| rsn_script := sn_script req;
                                    rsn_their_pubkey := sn_their_pubkey req |}))
    Pending_GetSharedNonce.

Definition req_get_blinding_key (script : bytes) : M JadeState unit :=
  send_to_device "get_blinding_key"
    (Some (Params_GetBlindingKey {| rbk_script := script |})) Pending_GetBlindingKey.

Definition req_get_blinding_factor (req : GetBlindingFactorReq) : M JadeState unit :=
  let type_ :=
    match bf_factor_type req with Factor_Asset => "ASSET" | Factor_Value => "VALUE" end in
  send_to_device "get_blinding_factor"
    (Some (Params_GetBlindingFactor {| rbf_hash_prevouts := bf_hash_prevouts req;
                                       rbf_output_index := bf_output_index req;
                                       rbf_type := type_ |})) Pending_GetBlindingFactor.

Definition req_get_commitments (req : GetCommitmentsReq) : M JadeState unit :=
  send_to_device "get_commitments"
    (Some (Params_GetCommitments {| rgc_asset_id := gc_asset_id req; rgc_value := gc_value req;
                                    rgc_hash_prevouts := gc_hash_prevouts req;
                                    rgc_output_index := gc_output_index req;
                                    rgc_vbf := gc_vbf req |})) Pending_GetCommitments.

Definition req_sign_tx (msg : ReqSignTx) : M JadeState unit :=
  send_to_device "sign_liquid_tx" (Some (Params_SignTx msg)) Pending_SignTx.

Definition req_tx_input (msg : ReqTxInput) : M JadeState unit :=
  send_to_device "tx_input" (Some (Params_TxInput msg)) Pending_TxInput.

Definition req_tx_input_empty : M JadeState unit :=
  send_to_device "tx_input" (Some Params_TxInputEmpty) Pending_TxInput.

Definition on_req (req : Req) : M JadeState unit :=
  match req with
  | Req_ReadStatus => req_read_status
  | Req_AuthUser network => req_auth_user network
  | Req_ResolveXpub req => req_resolve_xpub req
  | Req_GetMasterBlindingKey => req_get_master_blinding_key
  | Req_SignMessage req => req_sign_message req
  | Req_GetSignature ae_host_entropy => req_get_signature ae_host_entropy
  | Req_GetSharedNonce req => req_get_shared_nonce req
  | Req_GetBlindingKey script => req_get_blinding_key script
  | Req_GetBlindingFactor req => req_get_blinding_factor req
  | Req_GetCommitments req => req_get_commitments req
  | Req_SignTx msg => req_sign_tx msg
  | Req_TxInput (Some msg) => req_tx_input msg
  | Req_TxInput None => req_tx_input_empty
  end.

Definition on_from_port (msg : FromPort) : M JadeState unit :=
  match msg with
  | FromPort_Data data => handle_port_msg data
  | FromPort_FatalError e => callback (WorkerResp_FatalError e)
  end.

(** The loop over the worker's channel. *)
Fixpoint run_jade (msgs : list WorkerReq) : M JadeState unit :=
  match msgs with
  | [] => ret tt
  | WorkerReq_Quit :: _ => ret tt
  | WorkerReq_FromPort msg :: msgs => do! on_from_port msg in run_jade msgs
  | WorkerReq_Req req :: msgs => do! on_req req in run_jade msgs
  end.
End Jade.

(** ** Request numbers *)

Lemma wi32_range z : in_i32 (wi32 z) = true.
Proof.
  unfold in_i32, wi32, wrap_s. pose proof (Z.mod_pos_bound (z + 2 ^ (32 - 1)) (2 ^ 32)).
  apply andb_true_iff. rewrite !Z.leb_le. lia.
Qed.

(** Numbers repeat after 2^32 requests and no earlier. *)
Lemma wi32_fresh i k : in_i32 i = true → (0 < k < 2 ^ 32) → wi32 (i + k) ≠ i.
Proof.
  unfold in_i32, wi32, wrap_s. rewrite andb_true_iff, !Z.leb_le. intros Hi Hk E.
  assert ((i + k + 2 ^ (32 - 1)) `mod` 2 ^ 32 = i + 2 ^ (32 - 1)) as E' by lia.
  pose proof (Z.div_mod (i + k + 2 ^ (32 - 1)) (2 ^ 32)). nia.
Qed.

Lemma wi32_add i j : wi32 (wi32 i + j) = wi32 (i + j).
Proof.
  unfold wi32, wrap_s. f_equal.
  replace ((i + 2 ^ (32 - 1)) `mod` 2 ^ 32 - 2 ^ (32 - 1) + j + 2 ^ (32 - 1))
    with ((i + 2 ^ (32 - 1)) `mod` 2 ^ 32 + j) by lia.
  rewrite Zplus_mod_idemp_l. f_equal. lia.
Qed.

Lemma string_of_uint_digit u c s :
  NilEmpty.string_of_uint u = String c s → c ≠ "+"%char ∧ c ≠ "-"%char.
Proof. by destruct u; intros [= <- _]. Qed.

(** The number of a request survives its way through the device. *)
Lemma parse_i32_to_string z : in_i32 z = true → parse_i32 (i32_to_string z) = Some z.
Proof.
  intros Hz. unfold i32_to_string.
  assert (∀ p, NilZero.string_of_uint (Pos.to_uint p) = NilEmpty.string_of_uint (Pos.to_uint p) ∧
    NilZero.uint_of_string (NilZero.string_of_uint (Pos.to_uint p)) = Some (Pos.to_uint p)) as Hp.
  { intros p. pose proof (DecimalPos.Unsigned.to_uint_nonnil p) as Hn. split.
    - by destruct (Pos.to_uint p).
    - by apply NilZero.usu. }
  assert (∀ p, Z.of_uint (Pos.to_uint p) = Z.pos p) as Hv.
  { intros p. pose proof (DecimalZ.of_to (Z.pos p)) as E. exact E. }
  destruct z as [|p|p]; [done| |]; destruct (Hp p) as [E1 E2]; simpl.
  - destruct (NilZero.string_of_uint (Pos.to_uint p)) as [|c s] eqn:E; [done|].
    symmetry in E1. destruct (string_of_uint_digit _ _ _ E1) as [Hc1 Hc2].
    assert (parse_i32 (String c s) =
      match NilZero.uint_of_string (String c s) with
      | Some u => if in_i32 (1 * Z.of_uint u) then Some (1 * Z.of_uint u) else None
      | None => None
      end) as ->.
    { unfold parse_i32. destruct c as [[] [] [] [] [] [] [] []]; done. }
    rewrite E2, Hv, Z.mul_1_l, Hz. done.
  - rewrite E2, Hv. change (-1 * Z.pos p) with (Z.neg p). by rewrite Hz.
Qed.

(** ** What a request waits for *)

Definition kind_of (req : Req) : PendingRequest :=
  match req with
  | Req_ReadStatus => Pending_ReadStatus
  | Req_AuthUser _ => Pending_HttpRequest
  | Req_ResolveXpub _ => Pending_GetXPub
  | Req_GetMasterBlindingKey => Pending_GetMasterBlindingKey
  | Req_SignMessage _ => Pending_SignMessage
  | Req_GetSignature _ => Pending_GetSignature
  | Req_GetSharedNonce _ => Pending_GetSharedNonce
  | Req_GetBlindingKey _ => Pending_GetBlindingKey
  | Req_GetBlindingFactor _ => Pending_GetBlindingFactor
  | Req_GetCommitments _ => Pending_GetCommitments
  | Req_SignTx _ => Pending_SignTx
  | Req_TxInput _ => Pending_TxInput
  end.

(** The method of the device that serves a kind of request. *)
Definition device_method (p : PendingRequest) : string :=
  match p with
  | Pending_ReadStatus => "get_version_info"
  | Pending_HttpRequest | Pending_AuthComplete => "auth_user"
  | Pending_GetXPub => "get_xpub"
  | Pending_GetMasterBlindingKey => "get_master_blinding_key"
  | Pending_SignMessage => "sign_message"
  | Pending_GetSignature => "get_signature"
  | Pending_GetSharedNonce => "get_shared_nonce"
  | Pending_GetBlindingKey => "get_blinding_key"
  | Pending_GetBlindingFactor => "get_blinding_factor"
  | Pending_GetCommitments => "get_commitments"
  | Pending_SignTx => "sign_liquid_tx"
  | Pending_TxInput => "tx_input"
  end.

(** The data of a request, as the device takes it. *)
Definition device_params (req : Req) : option JadeParams :=
  match req with
  | Req_ReadStatus | Req_GetMasterBlindingKey => None
  | Req_AuthUser network => Some (Params_AuthUser (Build_ReqAuthUser (jade_network_name network)))
  | Req_ResolveXpub req =>
      Some (Params_GetXPub (Build_ReqGetXPub (jade_network_name (rx_network req)) (rx_path req)))
  | Req_SignMessage req =>
      Some (Params_SignMessage
        (Build_ReqSignMessage (sm_path req) (sm_message req) (sm_ae_host_commitment req)))
  | Req_GetSignature entropy => Some (Params_GetSignature (Build_ReqGetSignature entropy))
  | Req_GetSharedNonce req =>
      Some (Params_GetSharedNonce (Build_ReqGetSharedNonce (sn_script req) (sn_their_pubkey req)))
  | Req_GetBlindingKey script => Some (Params_GetBlindingKey (Build_ReqGetBlindingKey script))
  | Req_GetBlindingFactor (Build_GetBlindingFactorReq prevouts index Factor_Asset) =>
      Some (Params_GetBlindingFactor (Build_ReqGetBlindingFactor prevouts index "ASSET"))
  | Req_GetBlindingFactor (Build_GetBlindingFactorReq prevouts index Factor_Value) =>
      Some (Params_GetBlindingFactor (Build_ReqGetBlindingFactor prevouts index "VALUE"))
  | Req_GetCommitments req =>
      Some (Params_GetCommitments (Build_ReqGetCommitments (gc_asset_id req) (gc_value req)
        (gc_hash_prevouts req) (gc_output_index req) (gc_vbf req)))
  | Req_SignTx msg => Some (Params_SignTx msg)
  | Req_TxInput (Some msg) => Some (Params_TxInput msg)
  | Req_TxInput None => Some Params_TxInputEmpty
  end.

(** The answer that hands over a result of the device; web requests on the way to
    unlocking have none. *)
Definition answer_of (p : PendingRequest) : resp_type p → option Resp :=
  match p with
  | Pending_ReadStatus => λ v, Some (Resp_ReadStatus v)
  | Pending_HttpRequest => λ _, None
  | Pending_AuthComplete => λ v, Some (Resp_AuthUser v)
  | Pending_GetXPub => λ v, Some (Resp_ResolveXpub v)
  | Pending_GetMasterBlindingKey => λ v, Some (Resp_GetMasterBlindingKey v)
  | Pending_SignMessage => λ v, Some (Resp_SignMessage v)
  | Pending_GetSignature => λ v,
      match v with
      | CborBytes v => Some (Resp_GetSignature (Some v))
      | CborNull => Some (Resp_GetSignature None)
      | _ => None
      end
  | Pending_GetSharedNonce => λ v, Some (Resp_GetSharedNonce v)
  | Pending_GetBlindingKey => λ v, Some (Resp_GetBlindingKey v)
  | Pending_GetBlindingFactor => λ v, Some (Resp_GetBlindingFactor v)
  | Pending_GetCommitments => λ v, Some (Resp_GetCommitments v)
  | Pending_SignTx => λ v, Some (Resp_SignTx v)
  | Pending_TxInput => λ v, Some (Resp_TxInput v)
  end.

(** Unlocking is one request, however many messages it takes. *)
Definition class (p : PendingRequest) : PendingRequest :=
  match p with Pending_AuthComplete => Pending_HttpRequest | p => p end.

Definition class_of (r : Resp) : PendingRequest :=
  match r with
  | Resp_ReadStatus _ => Pending_ReadStatus
  | Resp_AuthUser _ => Pending_HttpRequest
  | Resp_ResolveXpub _ => Pending_GetXPub
  | Resp_GetMasterBlindingKey _ => Pending_GetMasterBlindingKey
  | Resp_SignMessage _ => Pending_SignMessage
  | Resp_GetSignature _ => Pending_GetSignature
  | Resp_GetSharedNonce _ => Pending_GetSharedNonce
  | Resp_GetBlindingKey _ => Pending_GetBlindingKey
  | Resp_GetBlindingFactor _ => Pending_GetBlindingFactor
  | Resp_GetCommitments _ => Pending_GetCommitments
  | Resp_SignTx _ => Pending_SignTx
  | Resp_TxInput _ => Pending_TxInput
  end.

(** What the answer to a request of kind [p] can be reported as. *)
Definition reports (p : PendingRequest) (r : WorkerResp) : Prop :=
  match r with WorkerResp_Resp (inl v) => class_of v = class p | _ => True end.

Section Frames.
Context `{JadeEnv}.

Lemma keeps_handle_http_request (I : JadeState → Prop) details :
  (∀ url data s, I s → I (s <| jade_log ::= cons (Jade_http url data) |>)) →
  keeps I (handle_http_request details).
Proof. intros Hlog. unfold handle_http_request. keeps. intros s. apply Hlog. Qed.

Lemma on_resp_triple {T} I J p (resp : outcome (RespOf T)) parsing f :
  (∀ s, I s → J s) → (∀ r, reports p r → triple I (callback r) J) →
  (∀ v, triple I (f v) J) → triple I (on_resp resp parsing f) J.
Proof.
  intros HIJ Hc Hf. unfold on_resp.
  destruct resp as [v|e|e]; [|by apply Hc|by intros s; apply HIJ].
  destruct (resp_error v); [by apply Hc|]. destruct (resp_result v); [apply Hf|by apply Hc].
Qed.

(** The handler of an answer reports once, or sends one message on the way to
    unlocking, and it does so last. *)
Lemma on_answer_triple I J p data :
  (∀ s, I s → J s) →
  (∀ url data s, I s → I (s <| jade_log ::= cons (Jade_http url data) |>)) →
  (∀ r, reports p r → triple I (callback r) J) →
  (∀ method params next, p = Pending_HttpRequest → class next = Pending_HttpRequest →
     triple I (send_to_device method (Some params) next) J) →
  triple I (on_answer p data) J.
Proof.
  intros HIJ Hlog Hc Hs.
  destruct p; try (apply (on_resp_triple _ _ _ _ _ _ HIJ Hc); intros v; by apply Hc); simpl.
  - apply (on_resp_triple _ _ _ _ _ _ HIJ Hc). intros v.
    eapply (triple_bind _ _ _ _ (λ _, True)); [done|by apply keeps_attempt, keeps_handle_http_request|done|].
    intros [pin|e] _; [|by apply Hc]. apply Hs; [done|]. by case_match.
  - unfold on_get_signature. destruct (de_resp _ _) as [v|e|e]; [|by apply Hc|by intros s; apply HIJ].
    destruct (resp_error v); [by apply Hc|].
    destruct (resp_result v) as [[]|]; try by apply Hc.
    eapply (triple_bind _ _ _ _ (λ _, True)); [done|apply keeps_expect|done|]. intros b _. by apply Hc.
Qed.
End Frames.

(** ** No answer without a request *)

(** How many answers [f] counts. *)
Definition reported (f : WorkerResp → bool) (log : list JadeEvent) : nat :=
  length (List.filter (λ e, match e with Jade_callback r => f r | _ => false end) log).

Definition pending_of (g : PendingRequest → bool) (m : gmap Z PendingRequest) : nat :=
  size (filter (λ kv, g kv.2 = true) m).

Definition requests_of (g : PendingRequest → bool) (msgs : list WorkerReq) : nat :=
  length (List.filter (λ m, match m with WorkerReq_Req r => g (kind_of r) | _ => false end) msgs).

Lemma pending_of_delete g i m :
  (pending_of g (delete i m) + (if m !! i is Some p then Nat.b2n (g p) else 0) = pending_of g m)%nat.
Proof.
  unfold pending_of. destruct (m !! i) as [p|] eqn:Hi.
  - rewrite map_filter_delete. destruct (g p) eqn:Hg; simpl.
    + assert (filter (λ kv, g kv.2 = true) m !! i = Some p) as E.
      { by apply map_lookup_filter_Some. }
      rewrite <- (insert_delete_id _ _ _ E) at 2.
      rewrite map_size_insert_None by apply lookup_delete_eq. lia.
    + rewrite map_size_delete_None; [lia|]. rewrite map_lookup_filter, Hi. simpl.
      by rewrite option_guard_False by congruence.
  - rewrite delete_id by done. lia.
Qed.

Lemma pending_of_insert g i p m :
  (pending_of g (<[i := p]> m) ≤ pending_of g m + Nat.b2n (g p))%nat.
Proof.
  pose proof (pending_of_delete g i (<[i := p]> m)) as E. rewrite lookup_insert_eq in E.
  rewrite delete_insert_eq in E. pose proof (pending_of_delete g i m). lia.
Qed.

Lemma pending_of_filter g (P : Z * PendingRequest → Prop) `{∀ kv, Decision (P kv)} m :
  (pending_of g (filter P m) ≤ pending_of g m)%nat.
Proof.
  unfold pending_of. apply map_subseteq_size.
  apply map_subseteq_spec. intros i p. rewrite !map_lookup_filter_Some. naive_solver.
Qed.

Section Count.
Context `{JadeEnv} (f : WorkerResp → bool) (g : PendingRequest → bool).
Hypothesis Hfatal : ∀ e, f (WorkerResp_FatalError e) = false.
Hypothesis Hfg : ∀ p r, reports p r → f r = true → g p = true.
Hypothesis Hclass : ∀ p, g p = g (class p).

Definition counted (n : nat) (s : JadeState) : Prop :=
  (reported f (jade_log s) + pending_of g (pending_requests s) ≤ n)%nat.

Lemma counted_mono n n' s : (n ≤ n')%nat → counted n s → counted n' s.
Proof. unfold counted. lia. Qed.

Lemma counted_callback n r : triple (counted n) (callback r) (counted (n + Nat.b2n (f r))).
Proof.
  intros s. unfold counted, callback, jade_emit, reported. simpl.
  destruct (f r); simpl; lia.
Qed.

Lemma counted_send n method params next :
  triple (counted n) (send_to_device method params next) (counted (n + Nat.b2n (g next))).
Proof.
  intros s Hs. unfold send_to_device. rewrite bind_modify, bind_gets, bind_gets.
  destruct (handle_send _ _) as [u|e|e].
  - pose proof (pending_of_insert g (wi32 (last_request_id s + 1)) next (pending_requests s)).
    unfold counted, reported in *. simpl in *. lia.
  - pose proof (counted_callback n (WorkerResp_FatalError e)
      (s <| last_request_id ::= λ i, wi32 (i + 1) |>) Hs) as Hc.
    rewrite Hfatal in Hc. eapply counted_mono; [|exact Hc]. simpl. lia.
  - eapply counted_mono; [|exact Hs]. lia.
Qed.

Lemma counted_answer n p data :
  triple (counted n) (on_answer p data) (counted (n + Nat.b2n (g p))).
Proof.
  apply on_answer_triple.
  - intros s. apply counted_mono. lia.
  - done.
  - intros r Hr s Hs. eapply counted_mono; [|apply counted_callback, Hs].
    specialize (Hfg p r Hr). destruct (f r); simpl; [rewrite Hfg by done; simpl|]; lia.
  - intros method params next -> Hn s Hs. eapply counted_mono; [|apply counted_send, Hs].
    rewrite (Hclass next), Hn. done.
Qed.

Lemma counted_port n msg : keeps (counted n) (on_from_port msg).
Proof.
  destruct msg as [data|e]; simpl.
  - unfold handle_port_msg. destruct (de_resp_value data) as [v|e|e].
    + set (id := default 0 (parse_i32 (resp_id v))). intros s Hs. rewrite bind_gets, bind_modify.
      pose proof (pending_of_delete g id (pending_requests s)) as E.
      destruct (pending_requests s !! id) as [p|].
      * eapply (counted_mono (n - Nat.b2n (g p) + Nat.b2n (g p))); [unfold counted in Hs; lia|].
        apply counted_answer. unfold counted in *. simpl. lia.
      * unfold counted in *. simpl. lia.
    + intros s Hs. eapply counted_mono; [|by apply counted_callback]. rewrite Hfatal. simpl. lia.
    + apply keeps_panic.
  - intros s Hs. eapply counted_mono; [|by apply counted_callback]. rewrite Hfatal. simpl. lia.
Qed.

Lemma counted_req n req : triple (counted n) (on_req req) (counted (n + Nat.b2n (g (kind_of req)))).
Proof.
  destruct req as [| | | | | | | | | | |[]]; try apply counted_send.
  simpl. unfold req_read_status. intros s Hs. rewrite bind_modify, bind_gets. case_decide.
  - apply counted_send. unfold counted in *. simpl.
    pose proof (pending_of_filter g (λ kv, kv.2 ≠ Pending_ReadStatus) (pending_requests s)). lia.
  - unfold counted in *. simpl.
    pose proof (pending_of_filter g (λ kv, kv.2 ≠ Pending_ReadStatus) (pending_requests s)). lia.
Qed.

Lemma counted_run msgs n : triple (counted n) (run_jade msgs) (counted (n + requests_of g msgs)).
Proof.
  revert n. induction msgs as [|m msgs IH]; intros n s Hs; [by eapply counted_mono; [|done]; lia|].
  destruct m as [req| |msg].
  - pose proof (counted_req n req s Hs) as Hr. unfold requests_of in *. cbn [run_jade]. unfold bind.
    destruct (on_req req s) as [s' [[]|e|e]]; simpl in *.
    + eapply counted_mono; [|by apply IH]. destruct (g (kind_of req)); simpl; lia.
    + eapply counted_mono; [|done]. destruct (g (kind_of req)); simpl; lia.
    + eapply counted_mono; [|done]. destruct (g (kind_of req)); simpl; lia.
  - eapply counted_mono; [|done]. lia.
  - pose proof (counted_port n msg s Hs) as Hr. unfold requests_of in *. cbn [run_jade]. unfold bind.
    destruct (on_from_port msg s) as [s' [[]|e|e]]; simpl in *.
    + by apply IH.
    + eapply counted_mono; [|done]. lia.
    + eapply counted_mono; [|done]. lia.
Qed.
End Count.

Definition reported_result (c : PendingRequest) (r : WorkerResp) : bool :=
  match r with WorkerResp_Resp (inl v) => bool_decide (class_of v = c) | _ => false end.

Definition reported_any (r : WorkerResp) : bool :=
  match r with WorkerResp_Resp _ => true | WorkerResp_FatalError _ => false end.

(** Nothing is reported that was not asked for.  Whatever the device and the port
    send, and in whatever order: the worker never reports more answers than it was
    given requests, and never more results of a kind (a signature, a key, an unlocking)
    than requests of that kind, in however many messages an unlocking takes. *)
Theorem jade_answers_requested `{JadeEnv} (msgs : list WorkerReq) :
  let log := jade_log (run_jade msgs jade_start).1 in
  (reported reported_any log ≤ requests_of (λ _, true) msgs)%nat ∧
  ∀ c, (reported (reported_result c) log ≤
        requests_of (λ p, bool_decide (class p = c)) msgs)%nat.
Proof.
  cbv zeta. split; [|intros c].
  - pose proof (counted_run reported_any (λ _, true)) as Hc. unfold triple, counted in Hc.
    specialize (Hc ltac:(done) ltac:(done) ltac:(done) msgs 0%nat jade_start (Nat.le_0_l _)). lia.
  - pose proof (counted_run (reported_result c) (λ p, bool_decide (class p = c))) as Hc.
    unfold triple, counted in Hc.
    assert (∀ p r, reports p r → reported_result c r = true → bool_decide (class p = c) = true) as Hfg.
    { intros p [[v|]|]; simpl; [|done..]. by intros ->. }
    assert (∀ p, bool_decide (class p = c) = bool_decide (class (class p) = c)) as Hcl
      by by intros [].
    specialize (Hc ltac:(done) Hfg Hcl msgs 0%nat jade_start (Nat.le_0_l _)). lia.
Qed.

(** ** Requests are answered *)

Section Answered.
Context `{JadeEnv} (id : Z) (p : PendingRequest).
Hypothesis Hid : in_i32 id = true.
Hypothesis Hp : p ≠ Pending_ReadStatus.

(** The request [id] is waited for, and at most [k] numbers were given since. *)
Definition waiting (k : nat) (s : JadeState) : Prop :=
  pending_requests s !! id = Some p ∧
  ∃ j : Z, 0 ≤ j ≤ Z.of_nat k ∧ last_request_id s = wi32 (id + j).

Lemma waiting_mono k k' s : (k ≤ k')%nat → waiting k s → waiting k' s.
Proof. intros Hk [Hl (j & Hj & E)]. split; [done|]. exists j. split; [lia|done]. Qed.

Lemma waiting_callback k r : keeps (waiting k) (callback r).
Proof. by intros s Hs. Qed.

Lemma waiting_send k method params next :
  Z.of_nat (S k) < 2 ^ 32 →
  triple (waiting k) (send_to_device method params next) (waiting (S k)).
Proof.
  intros Hk s [Hl (j & Hj & E)]. unfold send_to_device. rewrite bind_modify, !bind_gets.
  set (s1 := s <| last_request_id ::= λ i, wi32 (i + 1) |>).
  assert (last_request_id s1 = wi32 (id + (j + 1))) as E1.
  { unfold s1. simpl. rewrite E, wi32_add. f_equal. lia. }
  assert (∃ j, 0 ≤ j ≤ Z.of_nat (S k) ∧ last_request_id s1 = wi32 (id + j)) as Hj1.
  { exists (j + 1). split; [lia|done]. }
  destruct (handle_send _ _) as [u|e|e]; [|done..].
  split; [|exact Hj1]. simpl. rewrite lookup_insert_ne; [done|].
  intros E2. apply (wi32_fresh id (j + 1) Hid); [lia|]. rewrite <- E1. exact E2.
Qed.

(** A message that does not answer the request. *)
Definition other (m : WorkerReq) : Prop :=
  match m with
  | WorkerReq_Quit => False
  | WorkerReq_FromPort (FromPort_Data data) =>
      ∀ v, de_resp_value data = Ok v → default 0 (parse_i32 (resp_id v)) ≠ id
  | _ => True
  end.

Lemma waiting_port k msg :
  Z.of_nat (S k) < 2 ^ 32 → other (WorkerReq_FromPort msg) →
  triple (waiting k) (on_from_port msg) (waiting (S k)).
Proof.
  intros Hk Ho. destruct msg as [data|e]; simpl.
  2: { intros s Hs. eapply waiting_mono; [|by apply (waiting_callback k)]. lia. }
  unfold handle_port_msg. destruct (de_resp_value data) as [v|e|e] eqn:Hv.
  - intros s [Hl Hs]. rewrite bind_gets, bind_modify. specialize (Ho v Hv).
    set (s1 := s <| pending_requests ::= delete (default 0 (parse_i32 (resp_id v))) |>).
    assert (waiting k s1) as Hs1.
    { split; [|exact Hs]. unfold s1. simpl. by rewrite lookup_delete_ne. }
    destruct (_ !! default 0 _) as [q|]; [|by eapply waiting_mono; [|exact Hs1]; lia].
    revert Hs1. apply on_answer_triple.
    + intros s2. apply waiting_mono. lia.
    + done.
    + intros r _ s2 Hs2. eapply waiting_mono; [|by apply (waiting_callback k)]. lia.
    + intros. by apply waiting_send.
  - intros s Hs. eapply waiting_mono; [|by apply (waiting_callback k)]. lia.
  - intros s Hs. eapply waiting_mono; [|exact Hs]. lia.
Qed.

Lemma waiting_req k req :
  Z.of_nat (S k) < 2 ^ 32 → triple (waiting k) (on_req req) (waiting (S k)).
Proof.
  intros Hk. destruct req as [| | | | | | | | | | |[]]; try by apply waiting_send.
  simpl. unfold req_read_status. intros s [Hl Hs]. rewrite bind_modify, bind_gets.
  set (s1 := set pending_requests _ s).
  assert (waiting k s1) as Hs1.
  { split; [|exact Hs]. unfold s1. simpl. by apply map_lookup_filter_Some. }
  case_decide; [by apply waiting_send|]. eapply waiting_mono; [|exact Hs1]. lia.
Qed.

Lemma waiting_run k msgs s s' :
  Z.of_nat (length msgs + k) < 2 ^ 32 → Forall other msgs → waiting k s →
  run_jade msgs s = (s', Ok tt) → waiting (length msgs + k) s'.
Proof.
  intros Hk Ho. revert k s Hk. induction Ho as [|m msgs Hm Ho IH]; intros k s Hk Hs Hr.
  - apply ret_Ok in Hr as [-> _]. done.
  - cbn [length] in *. replace (S (length msgs) + k)%nat with (length msgs + S k)%nat in * by lia.
    destruct m as [req| |msg]; [|done|]; cbn [run_jade] in Hr;
      apply bind_Ok in Hr as (s1 & [] & H1 & Hr); (eapply IH; [done| |exact Hr]).
    + pose proof (waiting_req k req ltac:(lia) s Hs) as Hw. by rewrite H1 in Hw.
    + pose proof (waiting_port k msg ltac:(lia) Hm s Hs) as Hw. by rewrite H1 in Hw.
Qed.
End Answered.

Section Run.
Context `{JadeEnv}.

Lemma send_to_device_run method params next s :
  let id := wi32 (last_request_id s + 1) in
  let m := {| req_id := i32_to_string id; req_method := method; req_params := params |} in
  handle_send (jade_log s) m = Ok tt →
  send_to_device method params next s =
    (s <| last_request_id := id |> <| jade_log ::= cons (Jade_sent m) |>
       <| pending_requests ::= <[id := next]> |>, Ok tt).
Proof.
  intros id m E. unfold send_to_device. rewrite bind_modify, !bind_gets.
  match goal with |- context [handle_send ?l ?x] =>
    change (handle_send l x) with (handle_send (jade_log s) m) end.
  by rewrite E.
Qed.

Lemma on_req_sends req :
  kind_of req ≠ Pending_ReadStatus →
  on_req req = send_to_device (device_method (kind_of req)) (device_params req) (kind_of req).
Proof. by destruct req as [| | | | | | | | [? ? []] | | |[]]. Qed.

Lemma on_answer_result p data id x r s :
  de_resp p data = Ok {| resp_id := id; resp_result := Some x; resp_error := None |} →
  answer_of p x = Some r →
  (on_answer p data s).1 = s <| jade_log ::= cons (Jade_callback (WorkerResp_Resp (inl r))) |>.
Proof.
  intros E Hr. destruct p; simpl in *;
    unfold on_read_status, on_http_request, on_auth_complete, on_get_xpub,
      on_get_master_blinding_key, on_sign_message, on_get_signature, on_get_shared_nonce,
      on_get_blinding_key, on_get_blinding_factor, on_get_commitments, on_sign_tx, on_tx_input;
    rewrite E; simpl; try by injection Hr as <-.
  - done.
  - destruct x; try done; by injection Hr as <-.
Qed.

Lemma run_jade_app id msgs msgs' s s' :
  Forall (other id) msgs → run_jade msgs s = (s', Ok tt) →
  run_jade (msgs ++ msgs') s = run_jade msgs' s'.
Proof.
  intros Ho. revert s. induction Ho as [|m msgs Hm Ho IH]; intros s Hr.
  - by apply ret_Ok in Hr as [-> _].
  - destruct m as [req| |msg]; [|done|]; cbn [run_jade Datatypes.app] in *;
      apply bind_Ok in Hr as (s1 & [] & H1 & Hr); rewrite (bind_run _ _ _ _ _ H1); by apply IH.
Qed.
End Run.

(** C33: every request is answered.  A request other than a status query or an unlocking
    is sent at once, when the port takes it: one message, with a number of its own, the
    method of its kind and exactly the data it was made with.  And when the device later
    answers with the request's number and a result of the right kind, the result is
    reported to whoever asked - however many other requests and messages (up to the 2^32
    after which numbers repeat) come in between. *)
Theorem jade_request_answered `{JadeEnv} (s s1 s2 : JadeState) (req : Req) (msgs : list WorkerReq)
    (data : bytes) (v : RespOf CborValue) (x : resp_type (kind_of req)) (r : Resp) :
  let p := kind_of req in
  let id := wi32 (last_request_id s + 1) in
  p ≠ Pending_ReadStatus → p ≠ Pending_HttpRequest →
  (∀ m, handle_send (jade_log s) m = Ok tt) →
  on_req req s = (s1, Ok tt) →
  Z.of_nat (length msgs) < 2 ^ 32 →
  Forall (other id) msgs →
  run_jade msgs s1 = (s2, Ok tt) →
  de_resp_value data = Ok v → resp_id v = i32_to_string id →
  de_resp p data = Ok {| resp_id := resp_id v; resp_result := Some x; resp_error := None |} →
  answer_of p x = Some r →
  jade_log s1 = Jade_sent {| req_id := i32_to_string id; req_method := device_method p;
                             req_params := device_params req |} :: jade_log s ∧
  jade_log (run_jade (msgs ++ [WorkerReq_FromPort (FromPort_Data data)]) s1).1 =
    Jade_callback (WorkerResp_Resp (inl r)) :: jade_log s2.
Proof.
  intros p id Hp1 Hp2 Hsend Hreq Hlen Ho Hrun Hv Hid Hde Hr.
  assert (in_i32 id = true) as Hi by apply wi32_range.
  rewrite on_req_sends, send_to_device_run in Hreq by auto. injection Hreq as <-.
  split; [reflexivity|].
  assert (waiting id p (length msgs + 0) s2) as [Hl _].
  { eapply waiting_run; [done..|lia|done| |exact Hrun]. split; [apply lookup_insert_eq|].
    exists 0. split; [lia|]. simpl. by rewrite Z.add_0_r, <- (Z.add_0_r (_ + 1)), <- wi32_add, Z.add_0_r. }
  rewrite (run_jade_app id _ _ _ s2) by done. cbn [run_jade].
  assert ((on_from_port (FromPort_Data data) s2).1 =
    s2 <| pending_requests ::= delete id |>
       <| jade_log ::= cons (Jade_callback (WorkerResp_Resp (inl r))) |>) as Ef.
  { simpl. unfold handle_port_msg. rewrite Hv, Hid, parse_i32_to_string by done. simpl.
    rewrite bind_gets, bind_modify, Hl. eapply on_answer_result; [exact Hde|exact Hr]. }
  unfold bind. destruct (on_from_port _ s2) as [s3 [[]|e|e]]; simpl in *; by subst.
Qed.

(** ** Status queries *)

(** One message of the worker's loop. *)
Definition on_worker_req `{JadeEnv} (m : WorkerReq) : M JadeState unit :=
  match m with
  | WorkerReq_Quit => ret tt
  | WorkerReq_FromPort msg => on_from_port msg
  | WorkerReq_Req req => on_req req
  end.

Definition status_query (m : JadeMessage) : Prop :=
  req_method m = "get_version_info" ∧ req_params m = None.

Section Status.
Context `{JadeEnv} (log : list JadeEvent).

(** Since [log], no status query was sent. *)
Definition no_query (s : JadeState) : Prop :=
  ∃ new, jade_log s = new ++ log ∧ ∀ m, Jade_sent m ∈ new → ¬ status_query m.

Lemma no_query_emit e s :
  (∀ m, e = Jade_sent m → ¬ status_query m) →
  no_query s → no_query (s <| jade_log ::= cons e |>).
Proof.
  intros He (new & E & Hn). exists (e :: new). split; [simpl; by rewrite E|].
  intros m [<-|Hm]%elem_of_cons; [by apply He|by apply Hn].
Qed.

Lemma no_query_callback r : keeps no_query (callback r).
Proof. intros s. by apply no_query_emit. Qed.

Lemma no_query_send method params next :
  ¬ (method = "get_version_info" ∧ params = None) → keeps no_query (send_to_device method params next).
Proof.
  intros Hm s Hs. unfold send_to_device. rewrite bind_modify, !bind_gets.
  destruct (handle_send _ _); [|by apply no_query_callback|exact Hs].
  match goal with |- no_query (bind (jade_emit ?e) _ ?s1).1 =>
    apply (no_query_emit e s1); [|exact Hs] end.
  by intros m [= <-].
Qed.

Lemma no_query_answer p data : keeps no_query (on_answer p data).
Proof.
  apply on_answer_triple; [done| | |].
  - intros url data' s. by apply no_query_emit.
  - intros r _. apply no_query_callback.
  - intros method params next _ _. apply no_query_send. naive_solver.
Qed.

Lemma no_query_port msg : keeps no_query (on_from_port msg).
Proof.
  destruct msg as [data|e]; simpl; [|apply no_query_callback]. unfold handle_port_msg.
  destruct (de_resp_value data) as [v|e|e]; [|apply no_query_callback|apply keeps_panic].
  apply keeps_bind; [apply keeps_gets|]. intros o. apply keeps_bind; [by apply keeps_modify|].
  intros _. destruct o; [apply no_query_answer|apply keeps_ret].
Qed.

Lemma no_query_req req : req ≠ Req_ReadStatus → keeps no_query (on_req req).
Proof.
  intros Hr. destruct req as [| | | | | | | | | | |[]]; [done|..]; apply no_query_send;
    intros [? ?]; discriminate.
Qed.
End Status.

(** Status queries do not disturb.  The worker asks the device for its status only
    when the application asked for it and nothing but older status queries is waited
    for - in particular not while the device is being unlocked or signs -, and then
    the new query is all that is waited for. *)
Theorem jade_status_undisturbed `{JadeEnv} (s : JadeState) (m : WorkerReq) (new : list JadeEvent)
    (query : JadeMessage) :
  jade_log (on_worker_req m s).1 = new ++ jade_log s →
  Jade_sent query ∈ new → status_query query →
  m = WorkerReq_Req Req_ReadStatus ∧
  (∀ id p, pending_requests s !! id = Some p → p = Pending_ReadStatus) ∧
  pending_requests (on_worker_req m s).1 =
    {[wi32 (last_request_id s + 1) := Pending_ReadStatus]}.
Proof.
  intros Hnew Hq Hs.
  assert (¬ no_query (jade_log s) (on_worker_req m s).1) as Hno.
  { intros (new' & E & Hn). rewrite Hnew in E. apply app_inv_tail in E as <-. by apply (Hn query). }
  assert (no_query (jade_log s) s) as H0 by (exists []; set_solver).
  destruct m as [req| |msg]; [|by destruct Hno|by destruct Hno; apply no_query_port].
  assert (req = Req_ReadStatus ∨ req ≠ Req_ReadStatus) as [->|Hr]
    by (destruct req; by (left + right)); [|by destruct Hno; apply no_query_req].
  split; [done|]. revert Hno. clear Hnew Hq. simpl. unfold req_read_status.
  rewrite bind_modify, bind_gets.
  set (s1 := set pending_requests _ s). case_decide as He.
  2: { intros Hno. by destruct Hno. }
  assert (∀ id p, pending_requests s !! id = Some p → p = Pending_ReadStatus) as Hall.
  { intros id p Hl. destruct (decide (p = Pending_ReadStatus)); [done|].
    assert (pending_requests s1 !! id = Some p) as Hl1 by by apply map_lookup_filter_Some.
    pose proof (eq_trans (eq_sym Hl1) (f_equal (lookup id) He)). done. }
  unfold send_to_device. rewrite bind_modify, !bind_gets.
  destruct (handle_send _ _); intros Hno.
  - split; [done|]. exact (f_equal (insert _ Pending_ReadStatus) He).
  - destruct Hno. by apply no_query_callback.
  - by destruct Hno.
Qed.

(** ** The devices that are plugged in *)

Inductive JadeStateKind := JadeState_Uninit | JadeState_Main | JadeState_Test.

Record ManagedPort := {
  mp_jade_id : string;
  mp_serial : string;
  mp_version : string;
  mp_port_name : string;
  mp_state : JadeStateKind
}.

Record JadeStatus := {
  js_port_name : string;
  js_version : string;
  js_serial : string;
  js_state : JadeStateKind
}.

(** [ManagedJade]: whether the port is open. *)
Record ManagedJade := { mj_jade_id : string; mj_connected : bool }.

Inductive MngEvent :=
  | Mng_ports (r : list SerialPort + string)
  | Mng_open (port : SerialPort) (r : unit + string)
  | Mng_send (jade_id : string) (req : Req)
  | Mng_recv (jade_id : string) (r : option WorkerResp).

Record JadeMng := { known_ports : gmap string JadeStatus; mng_log : list MngEvent }.

Class MngEnv := {
  available_ports : list MngEvent → list SerialPortInfo + string;
  (** [Jade::new] *)
  jade_new : list MngEvent → SerialPort → unit + string;
  (** what arrives within the time-out *)
  recv_timeout : list MngEvent → option WorkerResp
}.

(** [&s[n..]]: panics beyond the end and inside of a character. *)
Definition str_from (n : nat) (s : string) : outcome string :=
  let continuation c := (128 <=? Z.of_nat (nat_of_ascii c)) && (Z.of_nat (nat_of_ascii c) <? 192) in
  if (String.length s <? n)%nat then Panic "byte index out of bounds"
  else match String.get n s with
       | Some c =>
           if continuation c then Panic "byte index is not a char boundary"
           else Ok (String.substring n (String.length s - n) s)
       | None => Ok EmptyString
       end.

Definition serial (efusemac : string) : outcome string := str_from 6 efusemac.

Definition device_state (status : RespVersionInfo) : JadeStateKind :=
  match jade_state status with
  | Device_Locked | Device_Ready =>
      match jade_networks status with
      | StatusNetwork_All => JadeState_Main
      | StatusNetwork_Main => JadeState_Main
      | StatusNetwork_Test => JadeState_Test
      end
  | Device_Uninit | Device_Unsaved | Device_Temp => JadeState_Uninit
  end.

Section Mng.
Context `{MngEnv}.

Definition mng_emit (e : MngEvent) : M JadeMng unit := modify (λ s, s <| mng_log ::= cons e |>).

Definition list_ports : M JadeMng (list SerialPort) :=
  let! r := gets (λ s, handle_ports (available_ports (mng_log s))) in
  do! mng_emit (Mng_ports r) in
  match r with inl l => ret l | inr e => fail e end.

Definition try_send (data : ManagedJade) (req : Req) : M JadeMng ManagedJade :=
  let! data :=
    if mj_connected data then ret data
    else
      let! ports := list_ports in
      let! port := ok_or (List.find (λ p, String.eqb (port_jade_id p) (mj_jade_id data)) ports)
                     "jade device not found" in
      let! r := gets (λ s, jade_new (mng_log s) port) in
      do! mng_emit (Mng_open port r) in
      match r with
      | inl _ => ret (data <| mj_connected := true |>)
      | inr e => fail e
      end in
  do! mng_emit (Mng_send (mj_jade_id data) req) in
  ret data.

(** Fatal errors close the port. *)
Definition try_recv (data : ManagedJade) : M JadeMng (ManagedJade * (Resp + string)) :=
  if negb (mj_connected data) then ret (data, inr "jade is not connected")
  else
    let! r := gets (λ s, recv_timeout (mng_log s)) in
    do! mng_emit (Mng_recv (mj_jade_id data) r) in
    match r with
    | None => ret (data, inr "jade response timeout")
    | Some (WorkerResp_Resp v) => ret (data, v)
    | Some (WorkerResp_FatalError e) =>
        ret (data <| mj_connected := false |>, inr ("unexpected fatal Jade error: " +:+ e))
    end.

(** A request that cannot be sent is only logged. *)
Definition managed_send (data : ManagedJade) (req : Req) : M JadeMng ManagedJade :=
  let! r := attempt (try_send data req) in
  match r with inl data => ret data | inr _ => ret data end.

Definition managed_open (jade_id : string) : ManagedJade :=
  {| mj_jade_id := jade_id; mj_connected := false |}.

(** A device seen for the first time is asked for its status. *)
Definition add_device (jade_id : string) (jade : SerialPort) : M JadeMng unit :=
  let! known := gets (λ s, known_ports s !! port_jade_id jade) in
  match known with
  | Some _ => ret tt
  | None =>
      let! jade_dev := managed_send (managed_open jade_id) Req_ReadStatus in
      let! '(_, res) := try_recv jade_dev in
      match res with
      | inl (Resp_ReadStatus status) =>
          let! serial := lift (serial (efusemac status)) in
          modify (λ s, s <| known_ports ::= <[jade_id :=
            {| js_port_name := port_port_name jade; js_version := jade_version status;
               js_serial := serial; js_state := device_state status |}]> |>)
      | _ => ret tt
      end
  end.

Definition managed_port (e : string * JadeStatus) : ManagedPort :=
  {| mp_jade_id := e.1; mp_serial := js_serial e.2; mp_version := js_version e.2;
     mp_port_name := js_port_name e.2; mp_state := js_state e.2 |}.

(** The devices by their identifiers: a later port replaces an earlier one. *)
Definition ports_by_id (l : list SerialPort) : gmap string SerialPort :=
  list_to_map (reverse ((λ p, (port_jade_id p, p)) <$> l)).

Definition mng_ports : M JadeMng (list ManagedPort) :=
  let! l := list_ports in
  let ports := ports_by_id l in
  do! modify (λ s, s <| known_ports ::= filter (λ kv, is_Some (ports !! kv.1)) |>) in
  do! for_each (btree_list ports) (λ e, add_device e.1 e.2) in
  let! known := gets known_ports in
  ret (managed_port <$> btree_list known).
End Mng.

Section MngFrame.
Context `{MngEnv} (I : JadeMng → Prop).
Hypothesis Hlog : ∀ e s, I s → I (s <| mng_log ::= cons e |>).

Lemma keeps_mng_emit e : keeps I (mng_emit e).
Proof. intros s. apply Hlog. Qed.

Lemma keeps_list_ports : keeps I list_ports.
Proof. unfold list_ports. keeps. apply keeps_mng_emit. Qed.

Lemma keeps_managed_send data req : keeps I (managed_send data req).
Proof.
  unfold managed_send, try_send. keeps; first [apply keeps_mng_emit | apply keeps_list_ports].
Qed.

Lemma keeps_try_recv data : keeps I (try_recv data).
Proof. unfold try_recv. keeps. apply keeps_mng_emit. Qed.
End MngFrame.

Section Plugged.
Context `{MngEnv} (kept : gmap string JadeStatus) (ports : gmap string SerialPort).

(** The devices of [kept] are known as they were, and every known one is plugged in. *)
Definition follows (s : JadeMng) : Prop :=
  kept ⊆ known_ports s ∧ ∀ id, is_Some (known_ports s !! id) → is_Some (ports !! id).

Lemma follows_add_device id jade :
  is_Some (ports !! id) → port_jade_id jade = id → keeps follows (add_device id jade).
Proof.
  intros Hp Hid s Hs. unfold add_device. rewrite bind_gets, Hid.
  destruct (known_ports s !! id) as [st|] eqn:Hk; [done|].
  assert (kept !! id = None) as Hn by (eapply lookup_weaken_None; [exact Hk|apply Hs]).
  clear Hk. revert s Hs. apply keeps_bind; [by apply keeps_managed_send|]. intros d.
  apply keeps_bind; [by apply keeps_try_recv|]. intros [d' [[]|e]]; try apply keeps_ret.
  apply keeps_bind; [apply keeps_lift|]. intros ser. apply keeps_modify. intros s [Hs1 Hs2].
  split; simpl.
  - by apply insert_subseteq_r.
  - intros id' [st Hl]. apply lookup_insert_Some in Hl as [[<- _]|[_ Hl]]; [done|]. apply Hs2. by eexists.
Qed.
End Plugged.

Lemma ports_by_id_id l id p : ports_by_id l !! id = Some p → port_jade_id p = id ∧ p ∈ l.
Proof.
  intros Hl. apply elem_of_list_to_map_2 in Hl. rewrite elem_of_reverse in Hl.
  apply list_elem_of_fmap in Hl as (q & [= -> ->] & Hq). done.
Qed.

Lemma ports_by_id_is_Some l id :
  is_Some (ports_by_id l !! id) ↔ id ∈ port_jade_id <$> l.
Proof.
  split.
  - intros [p Hp]. apply ports_by_id_id in Hp as [<- Hp]. by apply list_elem_of_fmap_2.
  - intros (p & -> & Hp)%list_elem_of_fmap. apply not_eq_None_Some. intros Hn.
    apply not_elem_of_list_to_map_2 in Hn. apply Hn.
    rewrite fmap_reverse, elem_of_reverse, <- list_fmap_compose. by apply list_elem_of_fmap_2.
Qed.

(** The list of hardware wallets follows the devices.  It shows a device once, shows
    only devices that are plugged in when it is asked for, keeps what it knows of those
    that stayed in, and forgets those that were pulled out. *)
Theorem jade_ports_follow_devices `{MngEnv} (s s' : JadeMng) (devices : list SerialPort)
    (l : list ManagedPort) :
  handle_ports (available_ports (mng_log s)) = inl devices →
  mng_ports s = (s', Ok l) →
  NoDup (mp_jade_id <$> l) ∧
  (∀ mp, mp ∈ l → mp_jade_id mp ∈ port_jade_id <$> devices) ∧
  (∀ id st, known_ports s !! id = Some st → id ∈ port_jade_id <$> devices →
     managed_port (id, st) ∈ l) ∧
  (∀ id, is_Some (known_ports s' !! id) ↔ id ∈ mp_jade_id <$> l).
Proof.
  intros Hd Hr. unfold mng_ports in Hr.
  assert (list_ports s = (s <| mng_log ::= cons (Mng_ports (inl devices)) |>, Ok devices)) as Hl.
  { unfold list_ports. rewrite bind_gets, Hd. done. }
  rewrite (bind_run _ _ _ _ _ Hl), bind_modify in Hr.
  set (ports := ports_by_id devices) in *.
  set (kept := filter (λ kv, is_Some (ports !! kv.1)) (known_ports s)).
  apply bind_Ok in Hr as (s1 & [] & H1 & Hr). rewrite bind_gets in Hr.
  apply ret_Ok in Hr as [-> ->].
  assert (follows kept ports s1) as [Hk Hp].
  { match type of H1 with for_each ?l ?f ?s0 = _ =>
      assert (s1 = (for_each l f s0).1) as -> by (by rewrite H1);
      assert (follows kept ports s0) as Hs0 end.
    { split; [done|]. intros id [st Hst]. simpl in Hst. by apply map_lookup_filter_Some in Hst as [_ ?]. }
    revert Hs0. apply keeps_for_each. intros [id p] Hin. apply elem_of_btree_list in Hin.
    apply follows_add_device; [by eexists|]. by apply ports_by_id_id in Hin as [? _]. }
  assert (mp_jade_id <$> (managed_port <$> btree_list (known_ports s1)) =
          (btree_list (known_ports s1)).*1) as Eids by by rewrite <- list_fmap_compose.
  assert (∀ id, id ∈ (btree_list (known_ports s1)).*1 ↔ is_Some (known_ports s1 !! id)) as Hids.
  { intros id. rewrite list_elem_of_fmap. split.
    - intros ([i st] & -> & Hin). apply elem_of_btree_list in Hin. by eexists.
    - intros [st Hst]. exists (id, st). by rewrite elem_of_btree_list. }
  split_and!.
  - change (NoDup (mp_jade_id <$> (managed_port <$> btree_list (known_ports s1)))).
    rewrite Eids. apply NoDup_btree_list.
  - intros mp Hmp. apply ports_by_id_is_Some, Hp, Hids. rewrite <- Eids. by apply list_elem_of_fmap_2.
  - intros id st Hst Hid. apply list_elem_of_fmap_2, elem_of_btree_list.
    eapply lookup_weaken; [|exact Hk]. apply map_lookup_filter_Some. split; [done|].
    by apply ports_by_id_is_Some.
  - intros id. change (is_Some (known_ports s1 !! id) ↔
      id ∈ mp_jade_id <$> (managed_port <$> btree_list (known_ports s1))).
    by rewrite Eids, Hids.
Qed.

(** ** A concrete device *)
Module JadeSample.
Definition req : Req := Req_GetSharedNonce {| sn_script := [1]; sn_their_pubkey := [2] |}.

(** The port takes everything; the message [[7]] answers the first request with a nonce,
    other messages are unreadable. *)
Definition env : JadeEnv := {|
  de_resp_value data :=
    match data with
    | [7] => Ok {| resp_id := "25001"; resp_result := Some (CborBytes [9]); resp_error := None |}
    | _ => Err "not CBOR"
    end;
  de_resp p _ :=
    match p return outcome (RespOf (resp_type p)) with
    | Pending_GetSharedNonce =>
        Ok {| resp_id := "25001"; resp_result := Some [9]; resp_error := None |}
    | _ => Err "unexpected"
    end;
  base64_decode _ := None;
  handle_send _ _ := Ok tt;
  jade_http_post _ _ _ := Err "offline";
  json_to_string _ := Err "unused";
  json_from_str _ := Err "unused";
  number_is_f64 _ := true;
  number_as_f64 _ := Some f1;
  number_from_f64 _ := None
|}.

Definition device : SerialPortInfo :=
  {| spi_port_name := "COM1";
     spi_port_type := UsbPort {| usb_vid := 0x1A86; usb_pid := 0x55D4; usb_serial_number := Some "5" |} |}.

(** A Jade and an unrelated port; the Jade does not answer. *)
Definition mng_env : MngEnv := {|
  available_ports _ := inl [device; {| spi_port_name := "COM2"; spi_port_type := OtherPort |}];
  jade_new _ _ := inl tt;
  recv_timeout _ := None
|}.

Definition known : JadeStatus :=
  {| js_port_name := "COM1"; js_version := "1.0"; js_serial := "ABCDEF"; js_state := JadeState_Main |}.

Definition mng : JadeMng :=
  {| known_ports := {["0x1a86-0x55d4-5" := known; "0x1a86-0x55d4-6" := known]}; mng_log := [] |}.
End JadeSample.

Lemma jade_request_answered_witness :
  ∃ s1 s2 : JadeState,
    jade_log s1 = [Jade_sent {| req_id := "25001"; req_method := "get_shared_nonce";
                                req_params := device_params JadeSample.req |}] ∧
    jade_log (@run_jade JadeSample.env
      [WorkerReq_Req Req_ReadStatus; WorkerReq_FromPort (FromPort_Data [7])] s1).1 =
      Jade_callback (WorkerResp_Resp (inl (Resp_GetSharedNonce [9]))) :: jade_log s2.
Proof.
  eexists _, _.
  apply (@jade_request_answered JadeSample.env jade_start _ _ JadeSample.req
    [WorkerReq_Req Req_ReadStatus] [7]
    {| resp_id := "25001"; resp_result := Some (CborBytes [9]); resp_error := None |} [9]);
    [discriminate|discriminate|intros; reflexivity|vm_compute; reflexivity|reflexivity
    |repeat constructor|vm_compute; reflexivity|reflexivity..].
Defined.

Lemma jade_status_undisturbed_witness :
  let s := (@on_worker_req JadeSample.env (WorkerReq_Req Req_ReadStatus) jade_start).1 in
  (∀ id p, pending_requests jade_start !! id = Some p → p = Pending_ReadStatus) ∧
  pending_requests s = {[25001 := Pending_ReadStatus]}.
Proof.
  apply (@jade_status_undisturbed JadeSample.env jade_start (WorkerReq_Req Req_ReadStatus)
    [Jade_sent {| req_id := "25001"; req_method := "get_version_info"; req_params := None |}]
    {| req_id := "25001"; req_method := "get_version_info"; req_params := None |});
    [reflexivity|by left|by split].
Defined.

Lemma jade_ports_follow_devices_witness :
  ∃ s', @mng_ports JadeSample.mng_env JadeSample.mng =
    (s', Ok [managed_port ("0x1a86-0x55d4-5", JadeSample.known)]) ∧
  (∀ id, is_Some (known_ports s' !! id) ↔
     id ∈ mp_jade_id <$> [managed_port ("0x1a86-0x55d4-5", JadeSample.known)]).
Proof.
  eexists. split; [vm_compute; reflexivity|].
  eapply (@jade_ports_follow_devices JadeSample.mng_env JadeSample.mng);
    [reflexivity|vm_compute; reflexivity].
Defined.
