(* ===== verification/GdkApi.v ===== *)
(** * Data of the wallet library

    The data of [rust/sideswap_client/src/gdk_json.rs]: what a wallet session sends to
    the library GDK and what it gets back, in full.  (ClientApi.v has the parts of it
    the client worker reads.)  Scripts, keys, addresses and blinding factors are the
    strings they are serialised to; a [serde_json::Value] the session only passes on is
    a [Json]. *)
From stdpp Require Import base numbers gmap strings list.
From Stdlib Require Import ZArith Lia.
From S2P Require Import Prelude Api Jade.

Open Scope Z_scope.
#[local] Set Primitive Projections.

Abbreviation Json := string (only parsing).

(** [elements::Transaction], as far as it is read; outputs are asset, value and nonce. *)
Record GdkElementsTx := {
  gtx_txid : Txid;
  gtx_input_count : Z;
  gtx_outputs : list (string * string * string);
  gtx_hex : string
}.

(** ** Arguments *)

Record LoginUser := {
  lu_mnemonic : option string;
  lu_username : option string;
  lu_password : option string
}.

Record HwDeviceDetails := {
  hd_name : string;
  hd_supports_ae_protocol : Z;
  hd_supports_arbitrary_scripts : bool;
  hd_supports_host_unblinding : bool;
  hd_supports_liquid : Z;
  hd_supports_low_r : bool
}.
Record HwDevice := { hw_device : option HwDeviceDetails }.

Record GetSubaccountsOpts := { gso_refresh : option bool }.
Record CreateSubaccount := { csa_name : string; csa_type : string }.
Record ListTransactions := { lt_subaccount : Z; lt_first : Z; lt_count : Z }.
Record UnspentOutputsArgs := { uoa_subaccount : Z; uoa_num_confs : Z }.
Record RecvAddrOpt := { rao_subaccount : Z; rao_is_internal : option bool }.
Record PreviousAddressesOpts := { pao_subaccount : Z; pao_last_pointer : option Z }.

Inductive AddressType := AddressType_P2shP2wpkh | AddressType_P2wsh.

Record GdkUtxo := {
  gu_subaccount : Z;
  gu_address_type : AddressType;
  gu_block_height : option Z;
  gu_txhash : Txid;
  gu_vout : Z;
  gu_pointer : Z;
  gu_prevout_script : string;
  gu_asset_id : AssetId;
  gu_satoshi : Z;
  gu_is_internal : bool;
  gu_is_blinded : bool;
  gu_is_confidential : option bool;
  gu_asset_tag : string;
  gu_commitment : string;
  gu_amountblinder : string;
  gu_assetblinder : string;
  gu_nonce_commitment : string;
  gu_script : option string;
  gu_script_type : option Z;
  gu_subtype : option Z;
  gu_user_status : option Z;
  gu_public_key : option string;
  gu_user_path : option (list Z);
  gu_user_sighash : option Z
}.

(** [UnspentOutputsResult::unspent_outputs] *)
Abbreviation GdkUtxos := (gmap AssetId (list GdkUtxo)) (only parsing).

Record GdkAddress := {
  ga_address : string;
  ga_subaccount : Z;
  ga_address_type : AddressType;
  ga_pointer : Z;
  ga_user_path : list Z;
  ga_unconfidential_address : string;
  ga_blinding_key : string;
  ga_is_confidential : bool;
  ga_scriptpubkey : string;
  ga_is_internal : option bool;
  ga_public_key : option string;
  ga_script : option string;
  ga_branch : option Z;
  ga_script_type : option Z;
  ga_service_xpub : option string;
  ga_subtype : option Z;
  ga_tx_count : option Z
}.

Record GdkPreviousAddresses := { gpa_last_pointer : option Z; gpa_list : list GdkAddress }.

Record GdkAddressee := {
  gad_address : string;
  gad_satoshi : Z;
  gad_asset_id : AssetId;
  gad_is_greedy : option bool
}.
Record TxInternalAddressee := {
  tia_address_info : GdkAddress;
  tia_satoshi : Z;
  tia_asset_id : AssetId;
  tia_is_greedy : option bool
}.
Record CreateTransactionOpt := {
  cto_subaccount : Z;
  cto_addressees : list GdkAddressee;
  cto_utxos : GdkUtxos;
  cto_is_partial : bool;
  cto_used_utxos : option (list GdkUtxo)
}.
Record CreateInternalTransactionOpt := {
  cit_subaccount : Z;
  cit_addressees : list TxInternalAddressee;
  cit_utxos : GdkUtxos
}.
Record PsetDetailsOpt := { pdo_psbt : string; pdo_utxos : list GdkUtxo }.
Record SignPsetOpt := {
  spo_psbt : string;
  spo_utxos : list GdkUtxo;
  spo_blinding_nonces : list string
}.
Record LiquidexReceive := { lr_asset_id : AssetId; lr_satoshi : Z }.
Record LiquidexOpts := { lo_receive : list LiquidexReceive; lo_send : list GdkUtxo }.

Inductive CreateSwapType := SwapType_Liquidex.
Inductive CreateSwapInputType := SwapInputType_LiquidexV1.

Record CreateSwapOpts := {
  cso_swap_type : CreateSwapType;
  cso_input_type : CreateSwapInputType;
  cso_output_type : CreateSwapInputType;
  cso_liquidex_v1 : LiquidexOpts;
  cso_receive_address : option GdkAddress
}.

Inductive ReconnectHint := Hint_Connect | Hint_Disconnect.

(** ** Results *)

Record Subaccount := {
  suba_hidden : bool;
  suba_name : string;
  suba_pointer : Z;
  suba_receiving_id : string;
  suba_type : string
}.

Record GdkTxInput := {
  gti_asset_id : option AssetId;
  gti_satoshi : option Z;
  gti_assetblinder : option string;
  gti_amountblinder : option string;
  gti_is_relevant : bool
}.
Record GdkTxOutput := {
  gto_asset_id : option AssetId;
  gto_satoshi : option Z;
  gto_assetblinder : option string;
  gto_amountblinder : option string;
  gto_is_relevant : bool;
  gto_is_internal : bool;
  gto_pointer : option Z
}.
Record GdkTransaction := {
  gt_txhash : Txid;
  gt_block_height : Z;
  gt_created_at_ts : Z;
  gt_fee : Z;
  gt_transaction_vsize : Z;
  gt_transaction_weight : Z;
  gt_memo : string;
  gt_inputs : list GdkTxInput;
  gt_outputs : list GdkTxOutput
}.

Record CreatedTransactionOutput := {
  cro_address : option string;
  cro_asset_id : option AssetId;
  cro_satoshi : Z;
  cro_is_change : option bool;
  cro_amountblinder : option string;
  cro_assetblinder : option string;
  cro_eph_private_key : option string;
  cro_scriptpubkey : string
}.
Record GdkCreatedTx := {
  gct_addressees : list GdkAddressee;
  gct_transaction_outputs : list CreatedTransactionOutput;
  gct_transaction : option GdkElementsTx;
  gct_fee : option Z;
  gct_fee_rate : option Z;
  gct_transaction_vsize : option Z;
  gct_transaction_weight : option Z;
  gct_error : string
}.
Record SignTransactionResult := {
  str_transaction_inputs : list GdkUtxo;
  str_transaction_outputs : list CreatedTransactionOutput;
  str_transaction : option GdkElementsTx;
  str_fee : option Z;
  str_error : string
}.

Record PsetInputOutput := {
  pio_asset_id : AssetId;
  pio_satoshi : Z;
  pio_subaccount : option Z
}.
Record PsetDetailsResult := {
  pdr_satoshi : gmap AssetId Z;
  pdr_transaction_inputs : list PsetInputOutput;
  pdr_transaction_outputs : list PsetInputOutput;
  pdr_fee : option Z
}.

(** ** Questions to a hardware wallet *)

Inductive Status := Status_Done | Status_Error | Status_RequestCode | Status_ResolveCode | Status_Call.

#[export] Instance Status_eq_dec : EqDecision Status.
Proof. solve_decision. Defined.

Inductive HwAction :=
  | Hw_GetXpubs
  | Hw_GetBlindingPublicKeys
  | Hw_GetBlindingNonces
  | Hw_SignTx
  | Hw_SignMessage
  | Hw_GetMasterBlindingKey.

Record SignTxSigningInput := {
  sti_txhash : string;
  sti_pt_idx : Z;
  sti_asset_id : AssetId;
  sti_satoshi : Z;
  sti_redeem_script : option string;
  sti_address_type : option AddressType;
  sti_ae_host_commitment : option string;
  sti_ae_host_entropy : option string;
  sti_assetblinder : option string;
  sti_amountblinder : option string;
  sti_asset_tag : option string;
  sti_user_path : option (list Z);
  sti_public_key : option string;
  sti_prevout_script : option string;
  sti_commitment : option string;
  sti_user_sighash : option Z;
  sti_skip_signing : option bool;
  sti_value_blind_proof : option string;
  sti_asset_blind_proof : option string
}.

Record SignTxOutput := {
  sto_scriptpubkey : string;
  sto_address : option string;
  sto_address_type : option AddressType;
  sto_is_change : option bool;
  sto_is_internal : option bool;
  sto_asset_id : AssetId;
  sto_satoshi : Z;
  sto_blinding_key : option string;
  sto_assetblinder : option string;
  sto_amountblinder : option string;
  sto_user_path : option (list Z)
}.

Record RequiredData := {
  rd_action : HwAction;
  rd_device : HwDeviceDetails;
  rd_paths : option (list (list Z));
  rd_path : option (list Z);
  rd_message : option string;
  rd_use_ae_protocol : option bool;
  rd_ae_host_commitment : option string;
  rd_ae_host_entropy : option string;
  rd_blinding_keys_required : option bool;
  rd_scripts : option (list string);
  rd_public_keys : option (list string);
  rd_is_partial : option bool;
  rd_transaction : option string;
  rd_transaction_inputs : option (list SignTxSigningInput);
  rd_transaction_outputs : option (list SignTxOutput)
}.

Record AuthHandler (T : Type) := {
  auth_result : option T;
  auth_error : option string;
  auth_required_data : option RequiredData;
  auth_status : Status
}.
Arguments auth_result {_} _.
Arguments auth_error {_} _.
Arguments auth_required_data {_} _.
Arguments auth_status {_} _.

Record GdkSignTx := {
  gst_signatures : list (option string);
  gst_signer_commitments : list string;
  gst_asset_commitments : list (option string);
  gst_value_commitments : list (option string);
  gst_assetblinders : list (option string);
  gst_amountblinders : list (option string)
}.

(** The answers, by the type that is serialised. *)
Inductive ResolveCode :=
  | GetXPubsRes (xpubs : list string)
  | GetBlindingPublicKeys (public_keys : list string)
  | GetBlindingNonces (nonces : list string) (public_keys : list string)
  | SignTx (r : GdkSignTx)
  | SignMessage (signature : string) (signer_commitment : string)
  | MasterBlindingKeyRes (master_blinding_key : string).

(** ** The functions of the library *)

Inductive GdkCall :=
  | GA_register_user (device : HwDevice) (user : LoginUser)
  | GA_login_user (device : HwDevice) (user : LoginUser)
  | GA_get_subaccounts (opts : GetSubaccountsOpts)
  | GA_create_subaccount (opts : CreateSubaccount)
  | GA_get_transactions (opts : ListTransactions)
  | GA_get_receive_address (opts : RecvAddrOpt)
  | GA_get_previous_addresses (opts : PreviousAddressesOpts)
  | GA_get_unspent_outputs (opts : UnspentOutputsArgs)
  | GA_get_balance (opts : UnspentOutputsArgs)
  | GA_create_transaction (opts : CreateTransactionOpt)
  | GA_create_internal_transaction (opts : CreateInternalTransactionOpt)
  | GA_blind_transaction (tx : Json)
  | GA_sign_transaction (tx : Json)
  | GA_send_transaction (tx : Json)
  | GA_psbt_get_details (opts : PsetDetailsOpt)
  | GA_psbt_sign (opts : SignPsetOpt)
  | GA_create_swap_transaction (opts : CreateSwapOpts).

(** The types the results of calls are parsed to. *)
Inductive GdkType :=
  | T_Json
  | T_LoginUserResult
  | T_Subaccounts
  | T_Subaccount
  | T_TransactionList
  | T_Address
  | T_PreviousAddresses
  | T_UnspentOutputs
  | T_BalanceList
  | T_CreatedTx
  | T_SignedTx
  | T_SendTransactionResult
  | T_PsetDetails
  | T_SignPsetResult
  | T_CreateSwap.

Definition gdk_type (t : GdkType) : Type :=
  match t with
  | T_Json => Json
  | T_LoginUserResult => string
  | T_Subaccounts => list Subaccount
  | T_Subaccount => Subaccount
  | T_TransactionList => list GdkTransaction
  | T_Address => GdkAddress
  | T_PreviousAddresses => GdkPreviousAddresses
  | T_UnspentOutputs => GdkUtxos
  | T_BalanceList => gmap AssetId Z
  | T_CreatedTx => GdkCreatedTx
  | T_SignedTx => SignTransactionResult
  | T_SendTransactionResult => Txid
  | T_PsetDetails => PsetDetailsResult
  | T_SignPsetResult => string
  | T_CreateSwap => LiquidexProposal
  end.
