(* ===== verification/Session.v ===== *)
(** * A wallet session and its hardware wallet

    The lower half of [rust/sideswap_client/src/gdk_ses_impl.rs]: calling a function of
    the library GDK, and answering the questions it asks a hardware wallet on the way
    ([run_auth_handler_impl]), with the data of [gdk_ses.rs].  GDK, the curve
    operations and the Jade's answers are parameters ([GdkEnv]); what the Jade driver
    does with a request is in Jade.v. *)
From stdpp Require Import base numbers gmap strings list.
From Stdlib Require Import ZArith Lia.
From S2P Require Import Prelude F64 Api Env Payjoin ClientApi Serial Jade GdkApi.

Open Scope Z_scope.
#[local] Set Primitive Projections.
#[local] Set Warnings "-register-all".

(** ** Data *)

Inductive TxType := Tx_Normal | Tx_Swap | Tx_OfflineSwapOutput | Tx_OfflineSwap.

Inductive HwStatus :=
  | Hw_Idle
  | Hw_ReadStatus
  | Hw_AuthUser
  | Hw_MasterBlindingKey
  | Hw_SignTxStatus (tx_type : TxType).

Record HwData := {
  hw_env : Env;
  hw_name : string;
  hw_jade_id : string;
  hw_master_blinding_key : string;
  hw_xpubs : gmap (list Z) string
}.

(** [gdk_ses::WalletInfo] and [LoginInfo], in full. *)
Inductive SesWalletInfo :=
  | Ses_Mnemonic (mnemonic : string)
  | Ses_HwData (hw : HwData)
  | Ses_WatchOnly (w : WatchOnly).

Definition ses_mnemonic (w : SesWalletInfo) : option string :=
  match w with Ses_Mnemonic mnemonic => Some mnemonic | Ses_HwData _ | Ses_WatchOnly _ => None end.

Definition ses_hw_data (w : SesWalletInfo) : option HwData :=
  match w with Ses_HwData hw_data => Some hw_data | Ses_Mnemonic _ | Ses_WatchOnly _ => None end.

Definition ses_watch_only (w : SesWalletInfo) : option WatchOnly :=
  match w with Ses_WatchOnly w => Some w | Ses_Mnemonic _ | Ses_HwData _ => None end.

Record SesLoginInfo := {
  sl_account_id : AccountId;
  sl_env : Env;
  sl_cache_dir : string;
  sl_wallet_info : SesWalletInfo;
  sl_single_sig : bool;
  sl_network : option NetworkSettings;
  sl_proxy : option string
}.

Record HandlerParams := { hp_assets : option (gmap AssetId Asset); hp_tx_type : TxType }.

Definition handler_params : HandlerParams := {| hp_assets := None; hp_tx_type := Tx_Normal |}.
Definition with_assets (assets : gmap AssetId Asset) (p : HandlerParams) : HandlerParams :=
  p <| hp_assets := Some assets |>.
Definition with_tx_status (t : TxType) (p : HandlerParams) : HandlerParams :=
  p <| hp_tx_type := t |>.

(** What a session did, newest first. *)
Inductive GdkEvent :=
  | Gdk_call (c : GdkCall)
  | Gdk_status (h : AuthHandler Json)
  | Gdk_resolve (code : ResolveCode)
  | Gdk_jade_send (req : Req)
  | Gdk_jade_recv (seconds : Z) (r : Resp + string)
  | Gdk_jade_clear (ignored : list Resp)
  | Gdk_hw_status (s : HwStatus)
  | Gdk_set_memo (txid memo : string)
  | Gdk_set_watch_only (username password : string)
  | Gdk_reconnect_hint (hint : ReconnectHint)
  | Gdk_payjoin (events : list PjEvent)
  | Gdk_register_network (base name electrum_url : string) (electrum_tls : bool)
  | Gdk_connect (name : string) (proxy : option string) (use_tor : option bool).

(** The course of a call: its state as a decoded JSON text, and how it goes on with an
    answer to its question, when it takes one.  A call asks finitely many questions. *)
Inductive AuthProc :=
  | AuthFailed
  | AuthStatus (status : outcome (AuthHandler Json)) (resolve_code : ResolveCode → option AuthProc).

Record GdkSes := {
  gs_login_info : SesLoginInfo;
  gs_hw_data : option HwData;
  gs_subaccount : option Z;
  gs_receiving_id : option string;
  gs_policy_asset : AssetId;
  gs_log : list GdkEvent
}.

Definition GdkM : Type → Type := M GdkSes.

Class GdkEnv := {
  #[global] gdk_ids :: ElementsIds;
  (** starting a call: the error details when it fails *)
  gdk_start : list GdkEvent → GdkCall → option string;
  gdk_handler : list GdkEvent → GdkCall → AuthProc;
  gdk_parse : ∀ t : GdkType, Json → outcome (gdk_type t);
  gdk_set_memo : list GdkEvent → string → string → option string;
  gdk_set_watch_only : list GdkEvent → string → string → option string;
  (** the Jade: what is still queued, and what comes within some seconds *)
  jade_queued : list GdkEvent → list Resp;
  jade_recv : list GdkEvent → Z → Resp + string;
  (** [Asset::new_confidential], [Value::new_confidential] and their commitments *)
  asset_generator : AssetId → string → bytes;
  value_commitment_of : Z → bytes → string → bytes;
  (** a compact signature in DER form *)
  der_signature : bytes → outcome bytes;
  parse_xpub : string → outcome string;
  (** a contract, kept as its text in [Asset], as JSON *)
  contract_json : string → JsonValue;
  number_is_i64 : string → bool;
  number_as_i64 : string → option Z;
  contract_is_f64 : string → bool;
  contract_as_f64 : string → option f64;
  (** setting fields of a JSON object that is passed on *)
  json_insert_sign_with : Json → list string → Json;
  json_insert_transaction : Json → string → Json;
  (** [elements]: addresses, commitments, scripts of a key or of a witness script *)
  address_from_str : string → outcome string;
  is_confidential : string → bool;
  p2pkh_script : string → string;
  p2shwpkh_redeem_script : string → string;
  p2wsh_redeem_script : string → string;
  (** opening a session *)
  gdk_network_known : string → bool;
  gdk_connect : list GdkEvent → string → option string → option string
}.

Section Session.
Context `{GdkEnv}.

Definition gdk_emit (e : GdkEvent) : GdkM unit := modify (λ s, s <| gs_log ::= cons e |>).

(** [hex::decode(..).unwrap()] *)
Definition unhex (s : string) : GdkM bytes :=
  expect (hex_decode s) "called `Result::unwrap()` on an `Err` value".

Definition unwrap {A} (o : option A) : GdkM A :=
  expect o "called `Option::unwrap()` on a `None` value".

(** [for x in l { v.push(f(x)?) }] *)
Fixpoint collect_m {A B} (f : A → GdkM B) (l : list A) : GdkM (list B) :=
  match l with
  | [] => ret []
  | x :: l => let! y := f x in let! l := collect_m f l in ret (y :: l)
  end.

(** ** The hardware wallet ([gdk_ses::HwData]) *)

Definition jade_send (req : Req) : GdkM unit := gdk_emit (Gdk_jade_send req).

Definition clear_queue : GdkM unit :=
  let! ignored := gets (λ s, jade_queued (gs_log s)) in
  gdk_emit (Gdk_jade_clear ignored).

Definition get_resp_with_timeout (seconds : Z) : GdkM (Resp + string) :=
  let! r := gets (λ s, jade_recv (gs_log s) seconds) in
  do! gdk_emit (Gdk_jade_recv seconds r) in
  ret r.

Definition get_resp : GdkM (Resp + string) := get_resp_with_timeout 10.

Definition get_hw_device (hw : option HwData) : HwDevice :=
  {| hw_device := (λ hw, {| hd_name := hw_name hw; hd_supports_ae_protocol := 1;
                            hd_supports_arbitrary_scripts := true;
                            hd_supports_host_unblinding := true; hd_supports_liquid := 1;
                            hd_supports_low_r := true |}) <$> hw |}.

Definition unexpected_jade {A} : GdkM A := fail "unexpected Jade response: ".

(** [match resp { Ok(Resp::X(v)) => v, resp => bail!(..) }] *)
Definition expect_resp {A} (f : Resp → option A) (r : Resp + string) : GdkM A :=
  match r with
  | inl r => match f r with Some v => ret v | None => unexpected_jade end
  | inr _ => unexpected_jade
  end.

Definition resolve_xpub (network : JadeNetwork) (path : list Z) : GdkM string :=
  do! jade_send (Req_ResolveXpub {| rx_network := network; rx_path := path |}) in
  let! resp := get_resp_with_timeout 20 in
  let! xpub := expect_resp (λ r, match r with Resp_ResolveXpub v => Some v | _ => None end) resp in
  lift (parse_xpub xpub).

Definition set_hw_status (s : HwStatus) : GdkM unit := gdk_emit (Gdk_hw_status s).

Definition jade_network (env : Env) : JadeNetwork :=
  if env_data_mainnet (env_data env) then Jade_Liquid else Jade_TestnetLiquid.

Definition unlock_hw (env : Env) : GdkM unit :=
  do! clear_queue in
  do! jade_send Req_ReadStatus in
  let! resp := get_resp_with_timeout 1 in
  let! resp :=
    match resp with
    | inl r => ret (inl r)
    | inr _ =>
        do! set_hw_status Hw_ReadStatus in
        let! resp := get_resp_with_timeout 10 in
        do! set_hw_status Hw_Idle in
        ret resp
    end in
  let! status := expect_resp (λ r, match r with Resp_ReadStatus v => Some v | _ => None end) resp in
  match jade_state status with
  | Device_Ready => ret tt
  | Device_Locked =>
      do! jade_send (Req_AuthUser (jade_network env)) in
      do! set_hw_status Hw_AuthUser in
      let! resp := get_resp_with_timeout 120 in
      do! set_hw_status Hw_Idle in
      let! res := expect_resp (λ r, match r with Resp_AuthUser v => Some v | _ => None end) resp in
      ensure res "unlock failed"
  | Device_Uninit => fail "please initialize Jade first"
  | Device_Unsaved | Device_Temp => fail "unexpected jade state: "
  end.

(** Numbers other than [i64] and [f64] become text. *)
Fixpoint convert_value (value : JsonValue) : outcome CborValue :=
  match value with
  | JsonNull => Ok CborNull
  | JsonBool v => Ok (CborBool v)
  | JsonNumber v =>
      if number_is_i64 v then
        let? z := oexpect (number_as_i64 v) "must be set" in Ok (CborInteger z)
      else if contract_is_f64 v then
        let? x := oexpect (contract_as_f64 v) "must be set" in Ok (CborFloat x)
      else Ok (CborText v)
  | JsonString v => Ok (CborText v)
  | JsonArray l => let? l := collect convert_value l in Ok (CborArray l)
  | JsonObject l =>
      let? l := collect (λ kv : string * JsonValue,
        let? v := convert_value kv.2 in Ok (CborText kv.1, v)) l in
      Ok (CborMap l)
  end.

Definition get_jade_asset_info (asset_id : AssetId) (assets : gmap AssetId Asset)
    : outcome (option JadeAssetInfo) :=
  match assets !! asset_id with
  | None => Ok None
  | Some asset =>
      match asset_issuance_prevout asset, asset_contract asset with
      | Some issuance_prevout, Some contract =>
          let? contract := convert_value (contract_json contract) in
          match contract with
          | CborNull => Ok None
          | contract =>
              Ok (Some {| ja_asset_id := Hash32_to_string asset_id; ja_contract := contract;
                          ja_issuance_prevout :=
                            {| jp_txid := Hash32_to_string (issuance_prevout_txid issuance_prevout);
                               jp_vout := issuance_prevout_vout issuance_prevout |} |})
          end
      | _, _ => Ok None
      end
  end.

(** ** Answering GDK *)

Definition resolve_get_xpubs (hw : HwData) (rd : RequiredData) : GdkM ResolveCode :=
  let! paths := unwrap (rd_paths rd) in
  let! xpubs := collect_m (λ path,
    match hw_xpubs hw !! path with
    | Some xpub => ret xpub
    | None =>
        do! clear_queue in
        resolve_xpub (jade_network (hw_env hw)) path
    end) paths in
  ret (GetXPubsRes xpubs).

Definition as_blinding_key (r : Resp) : option bytes :=
  match r with Resp_GetBlindingKey v => Some v | _ => None end.
Definition as_shared_nonce (r : Resp) : option bytes :=
  match r with Resp_GetSharedNonce v => Some v | _ => None end.
Definition as_tx_input (r : Resp) : option bytes :=
  match r with Resp_TxInput v => Some v | _ => None end.
Definition as_signature (r : Resp) : option (option bytes) :=
  match r with Resp_GetSignature v => Some v | _ => None end.

Definition resolve_blinding_public_keys (rd : RequiredData) : GdkM ResolveCode :=
  let! scripts := unwrap (rd_scripts rd) in
  do! clear_queue in
  do! for_each scripts (λ script,
    let! script := unhex script in jade_send (Req_GetBlindingKey script)) in
  let! blinding_keys := collect_m (λ _,
    let! resp := get_resp in
    let! resp := expect_resp as_blinding_key resp in
    ret (hex_encode resp)) scripts in
  ret (GetBlindingPublicKeys blinding_keys).

Definition resolve_blinding_nonces (rd : RequiredData) : GdkM ResolveCode :=
  let! blinding_keys_required := unwrap (rd_blinding_keys_required rd) in
  let! scripts := unwrap (rd_scripts rd) in
  let! public_keys := unwrap (rd_public_keys rd) in
  do! ensure (Nat.eqb (length scripts) (length public_keys)) "scripts.len() == public_keys.len()" in
  do! clear_queue in
  do! for_each (zip scripts public_keys) (λ '(script, public_key),
    let! script := unhex script in
    let! public_key := unhex public_key in
    do! jade_send (Req_GetSharedNonce {| sn_script := script; sn_their_pubkey := public_key |}) in
    if blinding_keys_required : bool then jade_send (Req_GetBlindingKey script) else ret tt) in
  let! r := collect_m (λ _,
    let! resp := get_resp in
    let! nonce := expect_resp as_shared_nonce resp in
    let! key :=
      if blinding_keys_required : bool then
        let! resp := get_resp in
        let! key := expect_resp as_blinding_key resp in
        ret [hex_encode key]
      else ret [] in
    ret (hex_encode nonce, key)) scripts in
  ret (GetBlindingNonces r.*1 (concat r.*2)).

(** *** Signing a transaction *)

(** The commitments of an output the wallet blinded. *)
Definition trusted_commitment (output : SignTxOutput) : GdkM (option TrustedCommitment) :=
  match sto_amountblinder output, sto_assetblinder output with
  | Some vbf, Some abf =>
      let generator := asset_generator (sto_asset_id output) abf in
      let! blinding_key := unwrap (sto_blinding_key output) in
      let! blinding_key := unhex blinding_key in
      ret (Some {| tc_asset_id := asset_to_jade (sto_asset_id output);
                   tc_value := sto_satoshi output;
                   tc_asset_generator := generator;
                   tc_value_commitment := value_commitment_of (sto_satoshi output) generator vbf;
                   tc_blinding_key := blinding_key; tc_abf := abf; tc_vbf := vbf |})
  | _, _ => ret None
  end.

Definition change_output (output : SignTxOutput) : GdkM (option JadeOutput) :=
  match sto_user_path output with
  | Some user_path =>
      let! address_type := unwrap (sto_address_type output) in
      ret (Some {| jo_variant := match address_type with
                                 | AddressType_P2shP2wpkh => Some Out_P2wpkhP2sh
                                 | AddressType_P2wsh => None
                                 end;
                   jo_path := user_path; jo_recovery_xpub := None;
                   jo_is_change := default false (sto_is_change output) ||
                                   default false (sto_is_internal output) |})
  | None => ret None
  end.

(** [*m.entry(k).or_default() += v] on a map of [u64] *)
Definition add_entry (k : AssetId) (v : Z) (m : gmap AssetId Z) : gmap AssetId Z :=
  <[k := wu64 (default 0 (m !! k) + v)]> m.

(** The wallet's own inputs by asset. *)
Definition own_inputs (inputs : list SignTxSigningInput) : gmap AssetId Z :=
  foldl (λ m input,
    match sti_user_path input with
    | Some _ => add_entry (sti_asset_id input) (sti_satoshi input) m
    | None => m
    end) ∅ inputs.

(** The wallet's own outputs: change is taken off the inputs, the rest is summed up. *)
Definition own_outputs (send_asset : AssetId) (input_sum : gmap AssetId Z)
    (outputs : list SignTxOutput) : gmap AssetId Z * gmap AssetId Z :=
  foldl (λ '(input_sum, output_sum) output,
    match sto_user_path output with
    | Some _ =>
        if bool_decide (sto_asset_id output = send_asset) then
          (add_entry (sto_asset_id output) (- sto_satoshi output) input_sum, output_sum)
        else (input_sum, add_entry (sto_asset_id output) (sto_satoshi output) output_sum)
    | None => (input_sum, output_sum)
    end) (input_sum, ∅) outputs.

Definition summary (m : gmap AssetId Z) : list AdditionalInfoSummary :=
  (λ e, {| sum_asset_id := asset_to_jade e.1; sum_satoshi := e.2 |}) <$> btree_list m.

(** What the device shows of a swap. *)
Definition swap_summary (inputs : list SignTxSigningInput) (outputs : list SignTxOutput)
    : outcome ReqSignTxAdditionalInfo :=
  let input_sum := own_inputs inputs in
  match btree_list input_sum with
  | [(send_asset, _)] =>
      let '(input_sum, output_sum) := own_outputs send_asset input_sum outputs in
      do? oensure (Nat.eqb (size output_sum) 1) "output_sum.len() == 1" in
      Ok {| ai_is_partial := Nat.eqb (length inputs) 1 && Nat.eqb (length outputs) 1;
            ai_tx_type := TxType_Swap;
            ai_wallet_input_summary := summary input_sum;
            ai_wallet_output_summary := summary output_sum |}
  | _ => Err "input_sum.len() == 1"
  end.

(** What the device is told of the assets in a transaction. *)
Definition asset_infos (params : HandlerParams) (inputs : list SignTxSigningInput)
    (outputs : list SignTxOutput) : outcome (list JadeAssetInfo) :=
  let asset_ids : gset AssetId :=
    list_to_set ((sti_asset_id <$> inputs) ++ (sto_asset_id <$> outputs)) in
  match hp_assets params with
  | Some assets =>
      let? l := collect (λ asset_id, get_jade_asset_info asset_id assets)
                  (btree_elements asset_ids) in
      Ok (omap id l)
  | None => Ok []
  end.

Definition tx_input_req (input : SignTxSigningInput) : GdkM (option ReqTxInput) :=
  if default false (sti_skip_signing input) then ret None
  else
    let! path := unwrap (sti_user_path input) in
    let! script := unwrap (sti_prevout_script input) in
    let! script := unhex script in
    let! commitment := unwrap (sti_commitment input) in
    let! commitment := unhex commitment in
    let! host_commitment := unwrap (sti_ae_host_commitment input) in
    let! host_commitment := unhex host_commitment in
    let! host_entropy := unwrap (sti_ae_host_entropy input) in
    let! host_entropy := unhex host_entropy in
    let! abf := unwrap (sti_assetblinder input) in
    let! vbf := unwrap (sti_amountblinder input) in
    let! generator := unwrap (sti_asset_tag input) in
    let! generator := unhex generator in
    ret (Some {| rti_is_witness := true; rti_path := path; rti_script := script;
                 rti_sighash := sti_user_sighash input; rti_value_commitment := commitment;
                 rti_ae_host_commitment := host_commitment; rti_ae_host_entropy := host_entropy;
                 rti_value := sti_satoshi input; rti_abf := abf; rti_vbf := vbf;
                 rti_asset_id := asset_to_jade (sti_asset_id input);
                 rti_asset_generator := generator |}).

(** The inputs go to the device one by one, and it commits to its signatures. *)
Definition signer_commitment (input : SignTxSigningInput) : GdkM string :=
  let! req := tx_input_req input in
  do! jade_send (Req_TxInput req) in
  let! resp := get_resp in
  let! tx_input := expect_resp as_tx_input resp in
  ret (hex_encode tx_input).

(** Then it is asked for them. *)
Definition input_signature (input : SignTxSigningInput) : GdkM (option string) :=
  let! req :=
    if default false (sti_skip_signing input) then ret None
    else
      let! entropy := unwrap (sti_ae_host_entropy input) in
      let! entropy := unhex entropy in
      ret (Some entropy) in
  do! jade_send (Req_GetSignature req) in
  let! resp := get_resp in
  let! signature := expect_resp as_signature resp in
  ret (hex_encode <$> signature).

Definition of_commitments {A} (f : TrustedCommitment → A) (l : list (option TrustedCommitment))
    : list (option A) := (λ c : option TrustedCommitment, f <$> c) <$> l.

Definition resolve_sign_tx (hw : HwData) (params : HandlerParams) (rd : RequiredData)
    : GdkM ResolveCode :=
  do! set_hw_status (Hw_SignTxStatus (hp_tx_type params)) in
  let! transaction := unwrap (rd_transaction rd) in
  let! inputs := unwrap (rd_transaction_inputs rd) in
  let! outputs := unwrap (rd_transaction_outputs rd) in
  do! ensure (default false (rd_use_ae_protocol rd)) "use_ae_protocol" in
  do! clear_queue in
  do! for_each inputs (λ input, match Txid_from_str (sti_txhash input) with
                                | Ok _ => ret tt
                                | _ => panic "called `Result::unwrap()` on an `Err` value"
                                end) in
  do! ensure (existsb (λ output, negb (bool_decide (sto_scriptpubkey output = EmptyString))) outputs)
    "can't find non-fee output" in
  let! r := collect_m (λ output,
    let! commitment := trusted_commitment output in
    let! change := change_output output in
    ret (commitment, change)) outputs in
  let commitments := r.*1 in
  let! additional_info :=
    if bool_decide (rd_is_partial rd = Some true) then
      let! info := lift (swap_summary inputs outputs) in ret (Some info)
    else ret None in
  let! asset_info := lift (asset_infos params inputs outputs) in
  let! txn := unhex transaction in
  do! jade_send (Req_SignTx {|
    rst_network := jade_network_name (jade_network (hw_env hw)); rst_use_ae_signatures := true;
    rst_txn := txn; rst_num_inputs := wu32 (Z.of_nat (length inputs));
    rst_trusted_commitments := commitments; rst_change := r.*2; rst_asset_info := asset_info;
    rst_additional_info := additional_info |}) in
  let! resp := get_resp_with_timeout 120 in
  let! sign_tx_result :=
    expect_resp (λ r, match r with Resp_SignTx v => Some v | _ => None end) resp in
  do! ensure sign_tx_result "sign tx request failed" in
  let! signer_commitments := collect_m signer_commitment inputs in
  let! signatures := collect_m input_signature inputs in
  ret (SignTx {|
    gst_signatures := signatures; gst_signer_commitments := signer_commitments;
    gst_asset_commitments := of_commitments (λ v, hex_encode (tc_asset_generator v)) commitments;
    gst_value_commitments := of_commitments (λ v, hex_encode (tc_value_commitment v)) commitments;
    gst_assetblinders := of_commitments tc_abf commitments;
    gst_amountblinders := of_commitments tc_vbf commitments |}).

Definition resolve_sign_message (rd : RequiredData) : GdkM ResolveCode :=
  let! path := unwrap (rd_path rd) in
  let! message := unwrap (rd_message rd) in
  do! ensure (default false (rd_use_ae_protocol rd)) "use_ae_protocol" in
  let! host_commitment := unwrap (rd_ae_host_commitment rd) in
  let! host_commitment := unhex host_commitment in
  let! host_entropy := unwrap (rd_ae_host_entropy rd) in
  let! host_entropy := unhex host_entropy in
  do! clear_queue in
  do! jade_send (Req_SignMessage {| sm_path := path; sm_message := message;
                                    sm_ae_host_commitment := host_commitment |}) in
  let! resp := get_resp in
  let! signer_commitment :=
    expect_resp (λ r, match r with Resp_SignMessage v => Some v | _ => None end) resp in
  do! jade_send (Req_GetSignature (Some host_entropy)) in
  let! resp := get_resp in
  let! signature := expect_resp as_signature resp in
  let! signature := unwrap signature in
  let! signature :=
    match length signature with
    | 64%nat => ret signature
    | 65%nat => ret (drop 1 signature)
    | _ => fail "unexpected signature size: "
    end in
  let! signature := lift (der_signature signature) in
  ret (SignMessage (hex_encode signature) (hex_encode signer_commitment)).

Definition resolve (hw : HwData) (params : HandlerParams) (rd : RequiredData) : GdkM ResolveCode :=
  match rd_action rd with
  | Hw_GetXpubs => resolve_get_xpubs hw rd
  | Hw_GetBlindingPublicKeys => resolve_blinding_public_keys rd
  | Hw_GetBlindingNonces => resolve_blinding_nonces rd
  | Hw_SignTx => resolve_sign_tx hw params rd
  | Hw_SignMessage => resolve_sign_message rd
  | Hw_GetMasterBlindingKey => ret (MasterBlindingKeyRes (hw_master_blinding_key hw))
  end.

(** Whether the device has to be online and unlocked. *)
Definition required_hw (hw : HwData) (rd : RequiredData) : bool :=
  match rd_action rd with
  | Hw_GetXpubs =>
      existsb (λ path, bool_decide (hw_xpubs hw !! path = None)) (default [] (rd_paths rd))
  | Hw_GetMasterBlindingKey => false
  | _ => true
  end.

Fixpoint auth_loop (hw : option HwData) (params : HandlerParams) (p : AuthProc)
    : GdkM (AuthHandler Json) :=
  match p with
  | AuthFailed => fail "GA_auth_handler_get_status failed"
  | AuthStatus status resolve_code =>
      let! result := lift status in
      do! gdk_emit (Gdk_status result) in
      if bool_decide (auth_status result ≠ Status_ResolveCode) then ret result
      else
        let! hw_data := ok_or hw "can't resolve auth handler without hw_data" in
        let! rd := ok_or (auth_required_data result) "required_data is empty" in
        do! (if required_hw hw_data rd then unlock_hw (hw_env hw_data) else ret tt) in
        let! code := resolve hw_data params rd in
        do! gdk_emit (Gdk_resolve code) in
        match resolve_code code with
        | Some p => auth_loop hw params p
        | None => fail "GA_auth_handler_resolve_code failed"
        end
  end.

(** The whole status is parsed again at the type of the result. *)
Definition parse_result (t : GdkType) (h : AuthHandler Json) : outcome (option (gdk_type t)) :=
  match auth_result h with
  | None => Ok None
  | Some json => let? v := gdk_parse t json in Ok (Some v)
  end.

Definition run_auth_handler_impl (t : GdkType) (hw : option HwData) (p : AuthProc)
    (params : HandlerParams) : GdkM (gdk_type t) :=
  let! h := auth_loop hw params p in
  let! result := lift (parse_result t h) in
  do! (if decide (auth_status h = Status_Error) then
         match auth_error h with
         | Some error => fail error
         | None => fail "unknown auth handler error"
         end
       else ret tt) in
  do! ensure (bool_decide (auth_status h = Status_Done)) "unexpected auth handler status" in
  ok_or result "auth handler error: no result field".

Definition run_auth_handler (t : GdkType) (hw : option HwData) (p : AuthProc)
    (params : HandlerParams) : GdkM (gdk_type t) := λ s,
  let '(s, r) := run_auth_handler_impl t hw p params s in
  match r, hw with
  | Panic e, _ => (s, Panic e)
  | r, Some _ => ((set_hw_status Hw_Idle s).1, r)
  | r, None => (s, r)
  end.

End Session.

(** ** Answering GDK starts no call *)

Definition is_call (e : GdkEvent) : bool := match e with Gdk_call _ => true | _ => false end.

Section Quiet.
Context `{GdkEnv} (I : GdkSes → Prop).
Hypothesis Hquiet : ∀ e s, is_call e = false → I s → I (s <| gs_log ::= cons e |>).

Lemma keeps_gdk_emit e : is_call e = false → keeps I (gdk_emit e).
Proof. intros He s. by apply Hquiet. Qed.

#[local] Hint Extern 1 (keeps _ (gdk_emit _)) => apply keeps_gdk_emit; reflexivity : keeps.

Lemma keeps_collect_m {A B} (f : A → GdkM B) l : (∀ x, keeps I (f x)) → keeps I (collect_m f l).
Proof.
  intros Hf. induction l as [|x l IH]; simpl; [apply keeps_ret|].
  apply keeps_bind; [apply Hf|]. intros y. apply keeps_bind; [done|]. intros k. apply keeps_ret.
Qed.

Ltac quiet :=
  repeat first
    [ apply keeps_collect_m; intros ?
    | progress unfold unhex, unwrap, jade_send, get_resp, clear_queue, set_hw_status,
        get_resp_with_timeout, expect_resp, unexpected_jade
    | keeps_step ].

Lemma keeps_unlock_hw env : keeps I (unlock_hw env).
Proof. unfold unlock_hw. quiet. Qed.

Lemma keeps_resolve hw params rd : keeps I (resolve hw params rd).
Proof.
  unfold resolve, resolve_get_xpubs, resolve_xpub, resolve_blinding_public_keys,
    resolve_blinding_nonces, resolve_sign_message, resolve_sign_tx, trusted_commitment,
    change_output, signer_commitment, tx_input_req, input_signature.
  quiet.
Qed.

Lemma keeps_auth_loop hw params p : keeps I (auth_loop hw params p).
Proof.
  revert p. fix IH 1. intros [|status k]; simpl; [apply keeps_fail|].
  apply keeps_bind; [apply keeps_lift|]. intros result.
  apply keeps_bind; [by apply keeps_gdk_emit|]. intros _.
  case_bool_decide; [apply keeps_ret|].
  apply keeps_bind; [apply keeps_ok_or|]. intros hw_data.
  apply keeps_bind; [apply keeps_ok_or|]. intros rd.
  apply keeps_bind; [destruct (required_hw _ _); [apply keeps_unlock_hw|apply keeps_ret]|]. intros _.
  apply keeps_bind; [apply keeps_resolve|]. intros code.
  apply keeps_bind; [by apply keeps_gdk_emit|]. intros _.
  destruct (k code) as [p|]; [apply IH|apply keeps_fail].
Qed.

Lemma keeps_run_auth_handler t hw p params : keeps I (run_auth_handler t hw p params).
Proof.
  intros s Hs. unfold run_auth_handler.
  assert (keeps I (run_auth_handler_impl t hw p params)) as Hk.
  { unfold run_auth_handler_impl. apply keeps_bind; [apply keeps_auth_loop|]. intros h. quiet. }
  specialize (Hk s Hs). destruct (run_auth_handler_impl t hw p params s) as [s' r]. simpl in *.
  destruct r, hw; simpl; try done; by apply Hquiet.
Qed.
End Quiet.

(** ** What the device shows of a swap *)

(** The wallet's own entries of a transaction, and what they add up to for an asset. *)
Definition own_input_entries (inputs : list SignTxSigningInput) : list (AssetId * Z) :=
  omap (λ i, match sti_user_path i with
             | Some _ => Some (sti_asset_id i, sti_satoshi i)
             | None => None
             end) inputs.

Definition own_output_entries (outputs : list SignTxOutput) : list (AssetId * Z) :=
  omap (λ o, match sto_user_path o with
             | Some _ => Some (sto_asset_id o, sto_satoshi o)
             | None => None
             end) outputs.

Definition total (asset : AssetId) (l : list (AssetId * Z)) : Z :=
  zsum (filter (λ e, e.1 = asset) l).*2.

Lemma total_cons a k v l : total a ((k, v) :: l) = (if decide (k = a) then v else 0) + total a l.
Proof. unfold total. rewrite filter_cons. simpl. by destruct (decide (k = a)). Qed.

Lemma total_absent a l : a ∉ l.*1 → total a l = 0.
Proof.
  induction l as [|[k v] l IH]; intros Ha; [done|]. rewrite total_cons, decide_False, IH; set_solver.
Qed.

Definition add_all (l : list (AssetId * Z)) (m : gmap AssetId Z) : gmap AssetId Z :=
  foldl (λ m e, add_entry e.1 e.2 m) m l.

Lemma lookup_add_all l m a :
  add_all l m !! a =
    if bool_decide (a ∈ l.*1) then Some (wu64 (default 0 (m !! a) + total a l)) else m !! a.
Proof.
  revert m. induction l as [|[k v] l IH]; intros m; [done|].
  unfold add_all in *. simpl. rewrite IH, total_cons. unfold add_entry.
  destruct (decide (k = a)) as [->|Hne].
  - rewrite lookup_insert_eq. simpl. rewrite (bool_decide_eq_true_2 (a ∈ a :: _)) by set_solver.
    case_bool_decide as Ha; [by rewrite wu64_add_l, <- Z.add_assoc|].
    rewrite (total_absent a l) by done. do 2 f_equal. lia.
  - rewrite lookup_insert_ne by done.
    rewrite (bool_decide_ext (a ∈ l.*1) (a ∈ k :: l.*1)) by set_solver. done.
Qed.

Lemma own_inputs_add_all inputs : own_inputs inputs = add_all (own_input_entries inputs) ∅.
Proof.
  unfold own_inputs. generalize (∅ : gmap AssetId Z). induction inputs as [|i l IH]; intros m; [done|].
  simpl. rewrite IH. by destruct (sti_user_path i).
Qed.

Definition negated (l : list (AssetId * Z)) : list (AssetId * Z) := (λ e, (e.1, - e.2)) <$> l.

Lemma total_negated a l : total a (negated l) = - total a l.
Proof.
  induction l as [|[k v] l IH]; [done|].
  change (negated ((k, v) :: l)) with ((k, - v) :: negated l).
  rewrite !total_cons, IH. destruct (decide (k = a)); lia.
Qed.

Lemma own_outputs_add_all send m outputs :
  own_outputs send m outputs =
    (add_all (negated (filter (λ e, e.1 = send) (own_output_entries outputs))) m,
     add_all (filter (λ e, e.1 ≠ send) (own_output_entries outputs)) ∅).
Proof.
  unfold own_outputs. generalize (∅ : gmap AssetId Z). revert m.
  induction outputs as [|o l IH]; intros m m'; [done|]. simpl.
  destruct (sto_user_path o); [|apply IH]. case_bool_decide as Ha; rewrite IH.
  - rewrite (filter_cons_True (λ e, e.1 = send)), (filter_cons_False (λ e, e.1 ≠ send)); naive_solver.
  - rewrite (filter_cons_False (λ e, e.1 = send)), (filter_cons_True (λ e, e.1 ≠ send)); naive_solver.
Qed.

Lemma negated_keys l : (negated l).*1 = l.*1.
Proof. unfold negated. rewrite <- list_fmap_compose. done. Qed.

Lemma total_filter (P : AssetId → Prop) `{∀ a, Decision (P a)} a l :
  P a → total a (filter (λ e, P e.1) l) = total a l.
Proof.
  intros Ha. induction l as [|[k v] l IH]; [done|]. rewrite filter_cons. case_decide as Hk; simpl in Hk.
  - by rewrite !total_cons, IH.
  - rewrite total_cons, IH, decide_False by naive_solver. lia.
Qed.

Lemma btree_list_singleton {V} (m : gmap AssetId V) k v :
  btree_list m = [(k, v)] ↔ m = {[k := v]}.
Proof.
  split.
  - intros E. apply map_eq. intros a. apply option_eq. intros x.
    rewrite <- elem_of_btree_list, E, list_elem_of_singleton, lookup_singleton_Some. naive_solver.
  - intros ->. unfold btree_list. by rewrite map_to_list_singleton.
Qed.

Lemma size_1_singleton {V} (m : gmap AssetId V) : size m = 1%nat → ∃ k v, m = {[k := v]}.
Proof.
  intros Hs. assert (length (btree_list m) = 1%nat) as Hl.
  { unfold btree_list. by rewrite (Permutation_length (sort_by_perm _ _)), length_map_to_list. }
  destruct (btree_list m) as [|[k v] [|]] eqn:E; try done. exists k, v. by apply btree_list_singleton.
Qed.

(** A map with one key that sums up entries. *)
Lemma add_all_singleton l k v :
  add_all l ∅ = {[k := v]} →
  k ∈ l.*1 ∧ v = wu64 (total k l) ∧ ∀ a, a ≠ k → total a l = 0.
Proof.
  intros E. split_and!.
  - pose proof (lookup_add_all l ∅ k) as Hk. rewrite E, lookup_singleton_eq in Hk.
    by case_bool_decide.
  - pose proof (lookup_add_all l ∅ k) as Hk. rewrite E, lookup_singleton_eq in Hk.
    case_bool_decide; [|done]. by injection Hk as ->.
  - intros a Ha. pose proof (lookup_add_all l ∅ a) as Hk. rewrite E, lookup_singleton_ne in Hk by done.
    case_bool_decide; [done|]. by apply total_absent.
Qed.

Lemma add_all_one l k x :
  (∀ a, a ∈ l.*1 → a = k) → add_all l {[k := wu64 x]} = {[k := wu64 (x + total k l)]}.
Proof.
  intros Hl. apply map_eq. intros a. rewrite lookup_add_all. destruct (decide (a = k)) as [->|Ha].
  - rewrite !lookup_singleton_eq. simpl. case_bool_decide as Hk; [by rewrite wu64_add_l|].
    rewrite total_absent by done. do 2 f_equal. lia.
  - rewrite !lookup_singleton_ne by done. by rewrite bool_decide_eq_false_2 by naive_solver.
Qed.

(** What the Jade shows of a swap is what the swap does.  When a swap goes to the
    device for signing, the summary it is given names one asset that is sent and one
    other that is received: the sent amount is what the wallet's own inputs are worth
    less its own change, the received amount is what its own outputs of the other asset
    are worth (as [u64]), and no other asset of the wallet is touched. *)
Theorem jade_swap_summary_net (inputs : list SignTxSigningInput) (outputs : list SignTxOutput)
    (info : ReqSignTxAdditionalInfo) :
  swap_summary inputs outputs = Ok info →
  let spent a := total a (own_input_entries inputs) in
  let returned a := total a (own_output_entries outputs) in
  ∃ send recv,
    send ≠ recv ∧
    ai_wallet_input_summary info =
      [{| sum_asset_id := asset_to_jade send; sum_satoshi := wu64 (spent send - returned send) |}] ∧
    ai_wallet_output_summary info =
      [{| sum_asset_id := asset_to_jade recv; sum_satoshi := wu64 (returned recv) |}] ∧
    ∀ a, a ≠ send → spent a = 0 ∧ (a ≠ recv → returned a = 0).
Proof.
  unfold swap_summary. intros Hs.
  destruct (btree_list (own_inputs inputs)) as [|[send v] [|]] eqn:Hin; [done| |done].
  apply btree_list_singleton in Hin. rewrite own_outputs_add_all, Hin in Hs.
  rewrite own_inputs_add_all in Hin.
  set (change := filter (λ e, e.1 = send) (own_output_entries outputs)) in *.
  set (others := filter (λ e, e.1 ≠ send) (own_output_entries outputs)) in *.
  apply obind_Ok in Hs as ([] & Hsize & [= <-]). apply oensure_Ok, Nat.eqb_eq in Hsize.
  apply size_1_singleton in Hsize as (recv & w & Hout).
  apply add_all_singleton in Hin as (_ & -> & Hspent).
  pose proof Hout as (Hrecv & -> & Hret)%add_all_singleton.
  assert (recv ≠ send) as Hne.
  { apply list_elem_of_fmap in Hrecv as ([k x] & -> & Hk). by apply list_elem_of_filter in Hk as [? _]. }
  assert (∀ a, a ≠ send → total a others = total a (own_output_entries outputs)) as Hoth.
  { intros a. exact (total_filter (λ k, k ≠ send) a _). }
  assert (add_all (negated change) {[send := wu64 (total send (own_input_entries inputs))]} =
    {[send := wu64 (total send (own_input_entries inputs) - total send (own_output_entries outputs))]})
    as Hchange.
  { rewrite add_all_one, total_negated.
    - do 2 f_equal. pose proof (total_filter (λ k, k = send) send (own_output_entries outputs) eq_refl)
        as Hc. change (total send change = total send (own_output_entries outputs)) in Hc. lia.
    - intros a. rewrite negated_keys. intros ([k x] & -> & Hk)%list_elem_of_fmap.
      by apply list_elem_of_filter in Hk as [? _]. }
  exists send, recv. unfold summary. cbn [ai_wallet_input_summary ai_wallet_output_summary].
  rewrite Hchange, Hout, !(proj2 (btree_list_singleton _ _ _) eq_refl). simpl.
  rewrite Hoth by done. split_and!; [done..|]. intros a Ha. split; [by apply Hspent|].
  intros Ha'. rewrite <- Hoth by done. by apply Hret.
Qed.


(** *** A swap on the device *)
Module SummarySample.
Definition send : AssetId := [1].
Definition recv : AssetId := [2].

Definition input (own : bool) (asset : AssetId) (satoshi : Z) : SignTxSigningInput := {|
  sti_txhash := "aa"; sti_pt_idx := 0; sti_asset_id := asset; sti_satoshi := satoshi;
  sti_redeem_script := None; sti_address_type := None; sti_ae_host_commitment := None;
  sti_ae_host_entropy := None; sti_assetblinder := None; sti_amountblinder := None;
  sti_asset_tag := None; sti_user_path := (if own then Some [0] else None);
  sti_public_key := None; sti_prevout_script := None; sti_commitment := None;
  sti_user_sighash := None; sti_skip_signing := None; sti_value_blind_proof := None;
  sti_asset_blind_proof := None |}.

Definition output (own : bool) (asset : AssetId) (satoshi : Z) : SignTxOutput := {|
  sto_scriptpubkey := "51"; sto_address := None; sto_address_type := None; sto_is_change := None;
  sto_is_internal := None; sto_asset_id := asset; sto_satoshi := satoshi;
  sto_blinding_key := None; sto_assetblinder := None; sto_amountblinder := None;
  sto_user_path := (if own then Some [0] else None) |}.

(** 100 of an asset go in, 30 come back, 70 are paid for 9 of the other. *)
Definition inputs : list SignTxSigningInput := [input true send 100; input false recv 50].
Definition outputs : list SignTxOutput :=
  [output true recv 9; output true send 30; output false send 70; output false recv 41].
Definition info : ReqSignTxAdditionalInfo := {|
  ai_is_partial := false; ai_tx_type := TxType_Swap;
  ai_wallet_input_summary := [{| sum_asset_id := [1]; sum_satoshi := 70 |}];
  ai_wallet_output_summary := [{| sum_asset_id := [2]; sum_satoshi := 9 |}] |}.
End SummarySample.

Lemma jade_swap_summary_net_witness :
  swap_summary SummarySample.inputs SummarySample.outputs = Ok SummarySample.info ∧
  ∃ send recv, send ≠ recv ∧
    ai_wallet_input_summary SummarySample.info =
      [{| sum_asset_id := asset_to_jade send;
          sum_satoshi := wu64 (total send (own_input_entries SummarySample.inputs) -
                               total send (own_output_entries SummarySample.outputs)) |}].
Proof.
  split; [vm_compute; reflexivity|].
  destruct (jade_swap_summary_net SummarySample.inputs SummarySample.outputs SummarySample.info
    ltac:(vm_compute; reflexivity)) as (send & recv & Hne & Hin & _).
  exists send, recv. split; [exact Hne|exact Hin].
Defined.
