(* ===== verification/Wallet.v ===== *)
(** * The wallet session

    The upper half of [rust/sideswap_client/src/gdk_ses_impl.rs]: the operations of the
    trait [GdkSes] over the library GDK.  A payment, a swap or a pegout is several
    calls of the library; what the session checks between them decides what is signed. *)
From stdpp Require Import base numbers gmap strings list sorting pretty.
From Stdlib Require Import ZArith Lia.
From S2P Require Import Prelude F64 Api Types Env Payjoin ClientApi Client Serial Jade GdkApi Session.

Open Scope Z_scope.
#[local] Set Primitive Projections.

(** ** Results of the session *)

(** [models::Balance] and [models::Transaction] are those of ClientApi.v. *)
Record SesPegPayment := {
  spp_sent_amount : Z;
  spp_sent_txid : Txid;
  spp_signed_tx : string
}.
Record TxFeeInfo := { tf_input_count : Z; tf_fee : Z }.

(** [swaps.rs] *)
Record SesSigSingleOutput := {
  sgo_asset : AssetId;
  sgo_value : Z;
  sgo_address_info : GdkAddress
}.
Record MakerChainingTx := { mct_input : PsetInput; mct_tx : GdkElementsTx }.
Record SesSigSingleMaker := {
  sgm_proposal : LiquidexProposal;
  sgm_chaining_tx : option MakerChainingTx;
  sgm_unspent_output : GdkUtxo
}.

Definition SUBACCOUNT_NAME_REG : string := "Main account".
Definition SUBACCOUNT_TYPE_REG : string := "p2sh-p2wpkh".
Definition SUBACCOUNT_NAME_AMP : string := "AMP".
Definition SUBACCOUNT_TYPE_AMP : string := "2of2_no_recovery".

(** ** Transactions of the wallet *)

Definition convert_input (input : GdkTxInput) : option WBalance :=
  match gti_is_relevant input, gti_asset_id input, gti_satoshi input with
  | true, Some asset_id, Some satoshi =>
      if negb (satoshi =? 0) then
        Some {| wb_asset := asset_id; wb_value := wi64 (- wi64 satoshi) |}
      else None
  | _, _, _ => None
  end.

Definition convert_output (output : GdkTxOutput) : option WBalance :=
  match gto_is_relevant output, gto_asset_id output, gto_satoshi output with
  | true, Some asset_id, Some satoshi =>
      if negb (satoshi =? 0) then Some {| wb_asset := asset_id; wb_value := wi64 satoshi |}
      else None
  | _, _, _ => None
  end.

(** [*balances.entry(asset_id).or_default() += value] on [i64] *)
Definition add_balance (asset_id : AssetId) (value : Z) (m : gmap AssetId Z) : gmap AssetId Z :=
  <[asset_id := wi64 (default 0 (m !! asset_id) + value)]> m.

Definition tx_balances_of (tx : GdkTransaction) : gmap AssetId Z :=
  let m := foldl (λ m input,
    match gti_asset_id input, gti_satoshi input with
    | Some asset_id, Some amount => add_balance asset_id (- wi64 amount) m
    | _, _ => m
    end) ∅ (gt_inputs tx) in
  foldl (λ m output,
    match gto_asset_id output, gto_satoshi output with
    | Some asset_id, Some amount => add_balance asset_id (wi64 amount) m
    | _, _ => m
    end) m (gt_outputs tx).

Definition max_pointer (internal : bool) (tx : GdkTransaction) : Z :=
  let pointers := omap gto_pointer (List.filter (λ output,
    gto_is_relevant output && Bool.eqb (gto_is_internal output) internal) (gt_outputs tx)) in
  foldr Z.max 0 pointers.

Definition convert_tx (tx : GdkTransaction) : Transaction := {|
  mt_txid := gt_txhash tx;
  mt_network_fee := gt_fee tx;
  mt_size := 0;
  mt_vsize := gt_transaction_vsize tx;
  mt_memo := gt_memo tx;
  mt_balances := (λ e, {| wb_asset := e.1; wb_value := e.2 |}) <$> btree_list (tx_balances_of tx);
  mt_created_at := Z.quot (gt_created_at_ts tx) 1000;
  mt_block_height := gt_block_height tx;
  mt_balances_all := omap convert_input (gt_inputs tx) ++ omap convert_output (gt_outputs tx);
  mt_max_pointer_external := max_pointer false tx;
  mt_max_pointer_internal := max_pointer true tx
|}.

(** At most this many transactions are given out at once. *)
Definition TX_PAGE : Z := 900.

(** As many pages as there are [i32] transaction counts, and more. *)
Definition TX_PAGES : positive := 4194304.

Section Wallet.
Context `{GdkEnv}.

Definition get_redeem_script (utxo : GdkUtxo) : string :=
  match gu_public_key utxo with
  | Some public_key => p2shwpkh_redeem_script public_key
  | None => p2wsh_redeem_script (gu_prevout_script utxo)
  end.

Definition map_err {A} (f : string → string) (m : GdkM A) : GdkM A := λ s,
  match m s with (s', Err e) => (s', Err (f e)) | r => r end.

(** Start a call of the library, and drive it to its result; the errors of starting it and
    of the handler are rendered by [failed] and [what]. *)
Definition call_gdk_err (t : GdkType) (hw : option HwData) (c : GdkCall) (params : HandlerParams)
    (failed what : string → string) : GdkM (gdk_type t) :=
  let! rc := gets (λ s, gdk_start (gs_log s) c) in
  do! gdk_emit (Gdk_call c) in
  match rc with
  | Some details => fail (failed details)
  | None =>
      let! p := gets (λ s, gdk_handler (gs_log s) c) in
      map_err what (run_auth_handler t hw p params)
  end.

Definition call_gdk (t : GdkType) (hw : option HwData) (c : GdkCall) (params : HandlerParams)
    (name what : string) : GdkM (gdk_type t) :=
  call_gdk_err t hw c params (λ details, name +:+ " failed: " +:+ details) (λ e, what +:+ e).

(** With the session's own hardware wallet. *)
Definition ses_gdk (t : GdkType) (c : GdkCall) (params : HandlerParams) (name what : string)
    : GdkM (gdk_type t) :=
  let! hw := gets gs_hw_data in call_gdk t hw c params name what.

Definition get_subaccount : GdkM Z :=
  let! subaccount := gets gs_subaccount in
  ok_or subaccount "not connected, subaccount is not set".

Definition load_transactions_page (subaccount : Z) (st : gmap Txid GdkTransaction * Z)
    : GdkM (gmap Txid GdkTransaction + gmap Txid GdkTransaction * Z) :=
  let '(result, first) := st in
  let! hw := gets gs_hw_data in
  let! transactions := call_gdk_err T_TransactionList hw
    (GA_get_transactions {| lt_subaccount := subaccount; lt_first := first; lt_count := TX_PAGE |})
    handler_params (λ _, "GA_get_transactions failed") id in
  let len := wi32 (Z.of_nat (length transactions)) in
  let result := foldl (λ m tx, <[gt_txhash tx := tx]> m) result transactions in
  ret (if len =? TX_PAGE then inr (result, wi32 (first + len)) else inl result).

(** The transactions come out in the order of a [HashMap], which is left open here by
    any fixed one. *)
Definition load_transactions : GdkM (list GdkTransaction) :=
  let! subaccount := get_subaccount in
  let! r := loop_fuel TX_PAGES (load_transactions_page subaccount) (∅, 0) in
  match r with
  | inl result => ret (map_to_list result).*2
  | inr _ => panic "out of fuel"
  end.

Definition try_get_gaid : GdkM string :=
  let! receiving_id := gets gs_receiving_id in
  ok_or receiving_id "not connected, receiving_id is not set".

Definition get_transactions : GdkM (list Transaction) :=
  let! l := load_transactions in ret (convert_tx <$> l).

Definition try_get_addr_info (is_internal : bool) : GdkM GdkAddress :=
  let! subaccount := get_subaccount in
  ses_gdk T_Address
    (GA_get_receive_address {| rao_subaccount := subaccount; rao_is_internal := Some is_internal |})
    handler_params "GA_get_receive_address" "receiving new address failed: ".

Definition try_get_unspent_outputs : GdkM GdkUtxos :=
  let! subaccount := get_subaccount in
  ses_gdk T_UnspentOutputs
    (GA_get_unspent_outputs {| uoa_subaccount := subaccount; uoa_num_confs := 0 |})
    handler_params "GA_get_unspent_outputs" "loading unspent outputs failed: ".

Definition get_balances : GdkM (gmap AssetId Z) :=
  let! subaccount := get_subaccount in
  ses_gdk T_BalanceList (GA_get_balance {| uoa_subaccount := subaccount; uoa_num_confs := 0 |})
    handler_params "GA_get_balance" "loading balances failed: ".

(** ** Payments *)

(** What the wallet has of an asset: a sum of [u64]. *)
Definition utxo_total (asset : AssetId) (utxos : GdkUtxos) : Z :=
  usum (gu_satoshi <$> default [] (utxos !! asset)).

Definition payment_opts (subaccount : Z) (addr : string) (amount : Z) (asset : AssetId)
    (send_all : bool) (utxos : GdkUtxos) : CreateTransactionOpt := {|
  cto_subaccount := subaccount;
  cto_addressees := [{| gad_address := addr; gad_satoshi := wu64 amount; gad_asset_id := asset;
                        gad_is_greedy := Some send_all |}];
  cto_utxos := utxos;
  cto_is_partial := false;
  cto_used_utxos := None
|}.

Definition check_created (tx : GdkCreatedTx) : GdkM unit :=
  do! ensure (bool_decide (gct_error tx = EmptyString)) (gct_error tx) in
  ensure (0 <? default 0 (gct_fee tx)) "network fee is 0".

(** Create a transaction: its JSON and what was parsed of it. *)
Definition create_transaction (c : GdkCall) : GdkM (Json * GdkCreatedTx) :=
  let! json := ses_gdk T_Json c handler_params "GA_create_transaction"
    "creating transaction failed: " in
  let! created := map_err (λ e, "parsing created transaction JSON failed: " +:+ e)
    (lift (gdk_parse T_CreatedTx json)) in
  do! check_created created in
  ret (json, created).

Definition blind_transaction (json : Json) : GdkM Json :=
  ses_gdk T_Json (GA_blind_transaction json) handler_params "GA_blind_transaction"
    "blinding transaction failed: ".

Definition send_transaction (json : Json) : GdkM Txid :=
  ses_gdk T_SendTransactionResult (GA_send_transaction json) handler_params "GA_send_transaction"
    "sending tx failed: ".

Definition unwrap_asset (s : string) : GdkM AssetId :=
  match AssetId_from_str s with
  | Ok asset => ret asset
  | _ => panic "called `Result::unwrap()` on an `Err` value"
  end.

Definition try_create_tx (tx : CreateTx) : GdkM Json :=
  let! subaccount := get_subaccount in
  let amount := bal_amount (ct_balance tx) in
  let! send_asset := unwrap_asset (bal_asset_id (ct_balance tx)) in
  let! utxos := try_get_unspent_outputs in
  let! policy_asset := gets gs_policy_asset in
  let bitcoin_balance := utxo_total policy_asset utxos in
  let total := wi64 (utxo_total send_asset utxos) in
  do! ensure (amount <=? total) "Insufficient funds" in
  do! ensure (0 <? bitcoin_balance) "Insufficient L-BTC to pay network fee" in
  let send_all := (amount =? total) && bool_decide (send_asset = policy_asset) in
  let! '(json, _) := create_transaction (GA_create_transaction
    (payment_opts subaccount (ct_addr tx) amount send_asset send_all utxos)) in
  blind_transaction json.

Definition try_send_tx (tx : Json) (assets : gmap AssetId Asset) : GdkM Txid :=
  let! json := ses_gdk T_Json (GA_sign_transaction tx) (with_assets assets handler_params)
    "GA_sign_transaction" "signing tx failed: " in
  let! signed := map_err (λ e, "parsing signed transaction JSON failed: " +:+ e)
    (lift (gdk_parse T_SignedTx json)) in
  do! ensure (bool_decide (str_error signed = EmptyString)) (str_error signed) in
  do! ensure (forallb (λ v, Bool.eqb (bool_decide (cro_address v = None))
                                     (bool_decide (cro_scriptpubkey v = EmptyString)))
                (str_transaction_outputs signed)) "outputs" in
  send_transaction json.

(** A pegout is sent only when the amount is exactly the announced one. *)
Definition make_pegout_payment (send_amount : Z) (peg_addr : string) (send_amount_exact : Z)
    : GdkM SesPegPayment :=
  let! subaccount := get_subaccount in
  let! send_asset := gets gs_policy_asset in
  let! utxos := try_get_unspent_outputs in
  let total := wi64 (utxo_total send_asset utxos) in
  do! ensure (send_amount <=? total) "Insufficient funds" in
  let send_all := send_amount =? total in
  let! '(json, created) := create_transaction (GA_create_transaction
    (payment_opts subaccount peg_addr send_amount send_asset send_all utxos)) in
  let! fee := unwrap (gct_fee created) in
  let sent_amount := if send_all then wi64 (send_amount - wi64 fee) else send_amount in
  do! ensure (send_amount_exact =? sent_amount) "send_amount_exact == sent_amount" in
  let! json := blind_transaction json in
  let! json := ses_gdk T_Json (GA_sign_transaction json) handler_params "GA_sign_transaction"
    "signing tx failed: " in
  let! signed := lift (gdk_parse T_SignedTx json) in
  do! ensure (bool_decide (str_error signed = EmptyString)) (str_error signed) in
  let! txid := send_transaction json in
  let! transaction := ok_or (str_transaction signed) "transaction is empty" in
  ret {| spp_sent_amount := sent_amount; spp_sent_txid := txid;
         spp_signed_tx := gtx_hex transaction |}.

Definition get_tx_fee (asset_id : AssetId) (send_amount : Z) (addr : string) : GdkM TxFeeInfo :=
  let! subaccount := get_subaccount in
  let! utxos := try_get_unspent_outputs in
  let total := wi64 (utxo_total asset_id utxos) in
  do! ensure (send_amount <=? total) "Insufficient funds" in
  let! policy_asset := gets gs_policy_asset in
  let send_all := (send_amount =? total) && bool_decide (asset_id = policy_asset) in
  let! created := ses_gdk T_CreatedTx (GA_create_transaction
      (payment_opts subaccount addr send_amount asset_id send_all utxos))
    handler_params "GA_create_transaction" "creating transaction failed: " in
  do! check_created created in
  let! transaction := ok_or (gct_transaction created) "transaction is empty" in
  let fee := default 0 (gct_fee created) in
  do! ensure (0 <? fee) "fee > 0" in
  ret {| tf_input_count := gtx_input_count transaction; tf_fee := fee |}.

(** ** Swaps *)

(** What a PSET does to the wallet, as GDK tells it; for L-BTC it includes the network fee. *)
Definition pset_send_amount (policy_asset : AssetId) (details : PsetDetailsResult)
    (send_asset : AssetId) : Z :=
  let send_amount := wi64 (- default 0 (pdr_satoshi details !! send_asset)) in
  if bool_decide (send_asset = policy_asset) && negb (send_amount =? 0) then
    wi64 (send_amount + default 0 (pdr_fee details))
  else send_amount.

Definition check_pset (policy_asset : AssetId) (amounts : SwapAmounts)
    (details : PsetDetailsResult) : outcome unit :=
  do? oensure (forallb (λ asset, bool_decide (asset = sa_send_asset amounts) ||
                                 bool_decide (asset = sa_recv_asset amounts))
                 (btree_list (pdr_satoshi details)).*1) "asset" in
  let recv_amount := default 0 (pdr_satoshi details !! sa_recv_asset amounts) in
  do? oensure (pset_send_amount policy_asset details (sa_send_asset amounts) =?
               wi64 (sa_send_amount amounts)) "send_amount" in
  oensure (recv_amount =? wi64 (sa_recv_amount amounts)) "recv_amount".

Definition verify_and_sign_pset (amounts : SwapAmounts) (pset : string) (nonces : list string)
    (assets : gmap AssetId Asset) : GdkM string :=
  let! unspent_outputs := try_get_unspent_outputs in
  let utxos := concat (btree_list unspent_outputs).*2 in
  let! details := ses_gdk T_PsetDetails (GA_psbt_get_details {| pdo_psbt := pset; pdo_utxos := utxos |})
    handler_params "GA_psbt_get_details" "loading PSET details failed: " in
  let! policy_asset := gets gs_policy_asset in
  do! lift (check_pset policy_asset amounts details) in
  if sa_send_amount amounts =? 0 then ret pset
  else
    ses_gdk T_SignPsetResult
      (GA_psbt_sign {| spo_psbt := pset; spo_utxos := utxos; spo_blinding_nonces := nonces |})
      (with_tx_status Tx_Swap (with_assets assets handler_params))
      "GA_sign_psbt" "signing pset failed: ".

(** An output of exactly the amount, found or made by a transaction to oneself. *)
Definition chained_utxo (input : SigSingleInput) (address_info : GdkAddress) (tx : GdkElementsTx)
    (pt_idx : nat) (output : CreatedTransactionOutput) : GdkM (GdkUtxo * MakerChainingTx) :=
  let! asset_bf := ok_or (cro_assetblinder output) "assetblinder is not set" in
  let! value_bf := ok_or (cro_amountblinder output) "amountblinder is not set" in
  let! '(asset_commitment, value_commitment, nonce_commitment) :=
    expect (gtx_outputs tx !! pt_idx) "index out of bounds" in
  let! single_sig := gets (λ s, sl_single_sig (gs_login_info s)) in
  let! prevout_script :=
    match ga_script address_info, ga_public_key address_info with
    | Some script, _ => ret script
    | None, Some public_key =>
        do! ensure single_sig "single_sig" in
        ret (p2pkh_script public_key)
    | None, None => fail "script or public_key must be known"
    end in
  let! asset_id := unwrap (cro_asset_id output) in
  let utxo := {|
    gu_subaccount := ga_subaccount address_info; gu_address_type := ga_address_type address_info;
    gu_block_height := None; gu_txhash := gtx_txid tx; gu_vout := wu32 (Z.of_nat pt_idx);
    gu_pointer := ga_pointer address_info; gu_prevout_script := prevout_script;
    gu_asset_id := asset_id; gu_satoshi := cro_satoshi output; gu_is_internal := false;
    gu_is_blinded := true; gu_is_confidential := Some true; gu_asset_tag := asset_commitment;
    gu_commitment := value_commitment; gu_amountblinder := value_bf; gu_assetblinder := asset_bf;
    gu_nonce_commitment := nonce_commitment; gu_script := ga_script address_info;
    gu_script_type := ga_script_type address_info; gu_subtype := ga_subtype address_info;
    gu_user_status := None; gu_public_key := ga_public_key address_info;
    gu_user_path := Some (ga_user_path address_info); gu_user_sighash := None |} in
  ret (utxo, {| mct_input := {| pset_input_txid := gtx_txid tx;
                                pset_input_vout := wu32 (Z.of_nat pt_idx);
                                pset_input_asset := ssi_asset input; pset_input_asset_bf := asset_bf;
                                pset_input_value := cro_satoshi output;
                                pset_input_value_bf := value_bf;
                                pset_input_redeem_script := Some (get_redeem_script utxo) |};
                mct_tx := tx |}).

(** Which output of the transaction is the wanted one. *)
Definition is_wanted_output (input : SigSingleInput) (address_info : GdkAddress) (send_all : bool)
    (output : CreatedTransactionOutput) : bool :=
  bool_decide (cro_address output = Some (ga_address address_info)) &&
  ((cro_satoshi output =? ssi_value input) || send_all) &&
  bool_decide (cro_asset_id output = Some (ssi_asset input)).

Definition make_utxo (input : SigSingleInput) (utxos : GdkUtxos) (assets : gmap AssetId Asset)
    : GdkM (GdkUtxo * MakerChainingTx) :=
  let! subaccount := get_subaccount in
  let! address_info := try_get_addr_info false in
  let! policy_asset := gets gs_policy_asset in
  let bitcoin_balance := utxo_total policy_asset utxos in
  let send_all := (ssi_value input =? bitcoin_balance) && bool_decide (ssi_asset input = policy_asset) in
  let! '(json, _) := create_transaction (GA_create_internal_transaction {|
    cit_subaccount := subaccount;
    cit_addressees := [{| tia_address_info := address_info; tia_satoshi := ssi_value input;
                          tia_asset_id := ssi_asset input; tia_is_greedy := Some send_all |}];
    cit_utxos := utxos |}) in
  let! single_sig := gets (λ s, sl_single_sig (gs_login_info s)) in
  let json := if single_sig : bool then json
              else json_insert_sign_with json ["user"; "green-backend"] in
  let! json := blind_transaction json in
  let! signed := ses_gdk T_SignedTx (GA_sign_transaction json)
    (with_tx_status Tx_OfflineSwapOutput (with_assets assets handler_params))
    "GA_sign_transaction" "signing tx failed: " in
  do! ensure (bool_decide (str_error signed = EmptyString)) (str_error signed) in
  let! tx := ok_or (str_transaction signed) "transaction is empty" in
  let outputs := str_transaction_outputs signed in
  do! ensure (negb send_all || Nat.eqb (length outputs) 2) "outputs.len() == 2" in
  match position (is_wanted_output input address_info send_all) outputs with
  | None => fail "constructed UTXO not found"
  | Some pt_idx =>
      let! output := expect (outputs !! pt_idx) "index out of bounds" in
      chained_utxo input address_info tx pt_idx output
  end.

Definition sig_single_maker_utxo (input : SigSingleInput) (assets : gmap AssetId Asset)
    : GdkM (GdkUtxo * option MakerChainingTx) :=
  let! utxos := try_get_unspent_outputs in
  match List.find (λ utxo, gu_satoshi utxo =? ssi_value input)
          (default [] (utxos !! ssi_asset input)) with
  | Some utxo => ret (utxo, None)
  | None =>
      let! '(utxo, chaining_tx) := make_utxo input utxos assets in
      ret (utxo, Some chaining_tx)
  end.

Definition sig_single_maker_tx (input : SigSingleInput) (output : SesSigSingleOutput)
    (assets : gmap AssetId Asset) : GdkM SesSigSingleMaker :=
  let! '(unspent_output, chaining_tx) := sig_single_maker_utxo input assets in
  let! proposal := ses_gdk T_CreateSwap (GA_create_swap_transaction {|
      cso_swap_type := SwapType_Liquidex;
      cso_input_type := SwapInputType_LiquidexV1;
      cso_output_type := SwapInputType_LiquidexV1;
      cso_liquidex_v1 :=
        {| lo_receive := [{| lr_asset_id := sgo_asset output; lr_satoshi := sgo_value output |}];
           lo_send := [unspent_output] |};
      cso_receive_address := Some (sgo_address_info output) |})
    (with_tx_status Tx_OfflineSwap (with_assets assets handler_params))
    "GA_create_swap_transaction" "creating swap failed: " in
  ret {| sgm_proposal := proposal; sgm_chaining_tx := chaining_tx;
         sgm_unspent_output := unspent_output |}.

(** ** Payjoin *)

Definition payjoin_utxo (utxo : GdkUtxo) : GdkM PjUtxo :=
  let! script_pub_key :=
    match gu_script utxo with
    | Some script => ret script
    | None => let! public_key := unwrap (gu_public_key utxo) in ret (p2pkh_script public_key)
    end in
  do! (if is_confidential (gu_asset_tag utxo) && is_confidential (gu_commitment utxo) then ret tt
       else panic "only confidential inputs expected here") in
  ret {| pu_txid := gu_txhash utxo; pu_vout := gu_vout utxo; pu_script_pub_key := script_pub_key;
         pu_asset_id := gu_asset_id utxo; pu_value := gu_satoshi utxo;
         pu_asset_bf := gu_assetblinder utxo; pu_value_bf := gu_amountblinder utxo;
         pu_asset_commitment := gu_asset_tag utxo; pu_value_commitment := gu_commitment utxo |}.

(** A blinding factor of zero belongs to an explicit value. *)
Definition ZERO_BLINDER : string :=
  "0000000000000000000000000000000000000000000000000000000000000000".

Definition is_blinded_utxo (utxo : GdkUtxo) : bool :=
  is_confidential (gu_asset_tag utxo) && is_confidential (gu_commitment utxo) &&
  negb (String.eqb (gu_amountblinder utxo) ZERO_BLINDER) &&
  negb (String.eqb (gu_assetblinder utxo) ZERO_BLINDER).

Definition has_script (utxo : GdkUtxo) : bool :=
  bool_decide (is_Some (gu_public_key utxo)) || bool_decide (is_Some (gu_script utxo)).

Definition base_server_url (data : EnvData) : string :=
  (if env_data_use_tls data then "https" else "http") +:+ "://" +:+ env_data_host data +:+ ":" +:+
  pretty (env_data_port data).

Definition try_create_payjoin `{PjEnv} (req : ProtoCreatePayjoin) : GdkM ProtoCreatedPayjoin :=
  do! ensure (0 <? bal_amount (pj_balance req)) "req.balance.amount > 0" in
  let send_amount := bal_amount (pj_balance req) in
  let! send_asset := unwrap_asset (bal_asset_id (pj_balance req)) in
  let! address := lift (address_from_str (pj_addr req)) in
  let! utxos := try_get_unspent_outputs in
  let unspent_outputs := default [] (utxos !! send_asset) in
  let balance := utxo_total send_asset utxos in
  do! ensure (send_amount <=? balance) "Insufficient funds" in
  do! ensure (forallb is_blinded_utxo unspent_outputs) "confidential" in
  do! ensure (forallb has_script unspent_outputs) "script" in
  let! change_address := try_get_addr_info true in
  let! utxos := collect_m payjoin_utxo unspent_outputs in
  let! env := gets (λ s, sl_env (gs_login_info s)) in
  let '(events, resp) := create_payjoin {|
    cp_base_url := base_server_url (env_data env); cp_user_agent := USER_AGENT;
    cp_asset_id := send_asset; cp_amount := send_amount; cp_address := address;
    cp_subtract_fee_from_amount := balance =? send_amount;
    cp_change_address := ga_address change_address; cp_utxos := utxos |} [] in
  do! gdk_emit (Gdk_payjoin events) in
  let! resp := lift resp in
  ret {| pj_req := req; pj_pset := encode_pset (created_pset resp);
         pj_asset_fee := wi64 (created_asset_fee resp) |}.

(** Only the final scripts of the server's inputs are added to the client's PSET. *)
Definition try_send_payjoin `{PjEnv} (extract_tx : Pset → outcome string)
    (req : ProtoCreatedPayjoin) (assets : gmap AssetId Asset) : GdkM Txid :=
  let! send_asset := unwrap_asset (bal_asset_id (pj_balance (pj_req req))) in
  let! utxos := try_get_unspent_outputs in
  let! json := ses_gdk T_Json (GA_psbt_sign {| spo_psbt := pj_pset req;
                                               spo_utxos := default [] (utxos !! send_asset);
                                               spo_blinding_nonces := [] |})
    (with_assets assets handler_params) "GA_sign_psbt" "signing pset failed: " in
  let! psbt := lift (gdk_parse T_SignPsetResult json) in
  let! pset_server := lift (decode_pset (pj_pset req)) in
  let! pset_client := lift (decode_pset psbt) in
  let! tx := lift (final_tx extract_tx pset_client pset_server) in
  send_transaction (json_insert_transaction json tx).

(** ** Other operations *)

Definition get_blinded_value (value : Z) (asset : AssetId) (value_bf asset_bf : string) : string :=
  pretty value +:+ "," +:+ Hash32_to_string asset +:+ "," +:+ value_bf +:+ "," +:+ asset_bf.

Definition blinded_value_of (satoshi : option Z) (asset_id : option AssetId)
    (value_bf asset_bf : option string) : option string :=
  match satoshi, asset_id, value_bf, asset_bf with
  | Some value, Some asset_id, Some value_bf, Some asset_bf =>
      Some (get_blinded_value value asset_id value_bf asset_bf)
  | _, _, _, _ => None
  end.

Definition get_blinded_values (txid : string) : GdkM (list string) :=
  let! txid := lift (Txid_from_str txid) in
  let! transactions := load_transactions in
  let! tx := ok_or (List.find (λ tx, bool_decide (gt_txhash tx = txid)) transactions)
               "tx not found" in
  ret (omap (λ i, blinded_value_of (gti_satoshi i) (gti_asset_id i) (gti_amountblinder i)
                    (gti_assetblinder i)) (gt_inputs tx) ++
       omap (λ o, blinded_value_of (gto_satoshi o) (gto_asset_id o) (gto_amountblinder o)
                    (gto_assetblinder o)) (gt_outputs tx)).

Definition get_previous_addresses (last_pointer : option Z) (is_internal : bool)
    : GdkM GdkPreviousAddresses :=
  let! subaccount := get_subaccount in
  if is_internal then ret {| gpa_last_pointer := Some 0; gpa_list := [] |}
  else
    ses_gdk T_PreviousAddresses
      (GA_get_previous_addresses {| pao_subaccount := subaccount; pao_last_pointer := last_pointer |})
      handler_params "GA_get_previous_addresses" "loading previous addresses failed: ".

Definition set_memo (txid memo : string) : GdkM unit :=
  let! rc := gets (λ s, gdk_set_memo (gs_log s) txid memo) in
  do! gdk_emit (Gdk_set_memo txid memo) in
  match rc with
  | Some details => fail ("GA_set_transaction_memo failed: " +:+ details)
  | None => ret tt
  end.

Definition set_watch_only (username password : string) : GdkM unit :=
  let! rc := gets (λ s, gdk_set_watch_only (gs_log s) username password) in
  do! gdk_emit (Gdk_set_watch_only username password) in
  match rc with
  | Some details => fail ("GA_set_watch_only failed: " +:+ details)
  | None => ret tt
  end.

Definition reconnect_hint (hint : ReconnectHint) : GdkM unit := gdk_emit (Gdk_reconnect_hint hint).

Definition connect : GdkM unit := reconnect_hint Hint_Connect.
Definition disconnect : GdkM unit := reconnect_hint Hint_Disconnect.

Definition get_receive_address : GdkM GdkAddress := try_get_addr_info false.
Definition get_change_address : GdkM GdkAddress := try_get_addr_info true.

Definition unlock_hww : GdkM unit :=
  let! hw := gets gs_hw_data in
  match hw with
  | Some hw_data => unlock_hw (hw_env hw_data)
  | None => ret tt
  end.

(** ** Logging in *)

Definition login_user (w : SesWalletInfo) : LoginUser :=
  {| lu_mnemonic := ses_mnemonic w; lu_username := wo_username <$> ses_watch_only w;
     lu_password := wo_password <$> ses_watch_only w |}.

Definition register : GdkM unit :=
  let! w := gets (λ s, sl_wallet_info (gs_login_info s)) in
  let hw := ses_hw_data w in
  let! _r := call_gdk T_Json hw
    (GA_register_user (get_hw_device hw)
       {| lu_mnemonic := ses_mnemonic w; lu_username := None; lu_password := None |})
    handler_params "GA_register_user" "registration failed: " in
  ret tt.

(** The AMP account, which is created when there is none. *)
Definition amp_subaccount (hw : option HwData) : GdkM Subaccount :=
  let! subaccounts := call_gdk T_Subaccounts hw (GA_get_subaccounts {| gso_refresh := Some false |})
    handler_params "GA_get_subaccounts" "loading subaccounts failed: " in
  let! single_sig := gets (λ s, sl_single_sig (gs_login_info s)) in
  let '(subaccount_name, subaccount_type) :=
    if single_sig : bool then (SUBACCOUNT_NAME_REG, SUBACCOUNT_TYPE_REG)
    else (SUBACCOUNT_NAME_AMP, SUBACCOUNT_TYPE_AMP) in
  match List.find (λ account, String.eqb (suba_type account) subaccount_type) subaccounts with
  | Some account => ret account
  | None =>
      call_gdk T_Subaccount hw
        (GA_create_subaccount {| csa_name := subaccount_name; csa_type := subaccount_type |})
        handler_params "GA_create_subaccount" "creating AMP subaccount failed: "
  end.

Definition login : GdkM unit :=
  let! info := gets gs_login_info in
  let w := sl_wallet_info info in
  let hw := ses_hw_data w in
  let! _hash := call_gdk T_LoginUserResult hw (GA_login_user (get_hw_device hw) (login_user w))
    handler_params "GA_login_user" "login failed: " in
  if negb (sl_single_sig info) then
    let! account := amp_subaccount hw in
    modify (λ s, s <| gs_subaccount := Some (suba_pointer account) |>
                   <| gs_receiving_id := Some (suba_receiving_id account) |>)
  else modify (λ s, s <| gs_subaccount := Some 0 |>).

(** The network to connect to, which is registered with GDK when it is a custom one. *)
Definition network_name (info : SesLoginInfo) : outcome string :=
  match env_data_network (env_data (sl_env info)), sl_single_sig info with
  | Network_Mainnet, false => Ok "liquid"
  | Network_Testnet, false => Ok "testnet-liquid"
  | Network_Mainnet, true => Ok "electrum-liquid"
  | Network_Testnet, true => Ok "electrum-testnet-liquid"
  | _, _ => Panic "Unknown network"
  end.

Definition custom_electrum (info : SesLoginInfo) : outcome (option (string * Z * bool)) :=
  match sl_network info with
  | None | Some Blockstream => Ok None
  | Some Sideswap =>
      match sl_env info with
      | Env_Prod | Env_Staging | Env_LocalLiquid => Ok (Some ("electrs.sideswap.io", 12001, true))
      | Env_Testnet | Env_LocalTestnet => Ok (Some ("electrs.sideswap.io", 12002, true))
      | Env_Regtest | Env_Local => Panic "Unsupported network"
      end
  | Some SideswapCn =>
      match sl_env info with
      | Env_Prod | Env_Staging | Env_LocalLiquid => Ok (Some ("cn.sideswap.io", 12001, true))
      | Env_Testnet | Env_LocalTestnet | Env_Regtest | Env_Local => Ok None
      end
  | Some (Custom host port use_tls) => Ok (Some (host, port, use_tls))
  end.

Definition LogM : Type → Type := M (list GdkEvent).

Definition select_network (info : SesLoginInfo) : LogM string :=
  let! network := lift (network_name info) in
  let! custom := lift (custom_electrum info) in
  match custom, sl_single_sig info with
  | Some (host, port, use_tls), true =>
      do! (if gdk_network_known network then ret tt
           else panic "called `Option::unwrap()` on a `None` value") in
      let custom_name := network +:+ "-custom" in
      do! modify (cons (Gdk_register_network network custom_name
                          (host +:+ ":" +:+ pretty port) use_tls)) in
      ret custom_name
  | _, _ => ret network
  end.

(** A new session; [log] is what its library did before. *)
Definition start_processing_impl (info : SesLoginInfo) : LogM GdkSes :=
  let! name := select_network info in
  let! policy_asset :=
    match AssetId_from_str (env_data_policy_asset (env_data (sl_env info))) with
    | Ok asset => ret asset
    | _ => panic "called `Result::unwrap()` on an `Err` value"
    end in
  let! rc := gets (λ log, gdk_connect log name (sl_proxy info)) in
  do! modify (cons (Gdk_connect name (sl_proxy info)
                      (Some (bool_decide (is_Some (sl_proxy info)))))) in
  match rc with
  | Some details => fail ("GA_connect failed: " +:+ details)
  | None =>
      let! log := gets id in
      ret {| gs_login_info := info; gs_hw_data := ses_hw_data (sl_wallet_info info);
             gs_subaccount := None; gs_receiving_id := None; gs_policy_asset := policy_asset;
             gs_log := log |}
  end.
End Wallet.

(** ** What a session asks of the library *)

(** The calls made so far, newest first, and those made from one state to a later one. *)
Definition gdk_calls (s : GdkSes) : list GdkCall :=
  omap (λ e, match e with Gdk_call c => Some c | _ => None end) (gs_log s).

Definition new_calls (s s' : GdkSes) : list GdkCall :=
  take (length (gdk_calls s') - length (gdk_calls s)) (gdk_calls s').

Definition looks_up (c : GdkCall) : Prop := ∃ opts, c = GA_get_unspent_outputs opts.

Section Asked.
Context `{GdkEnv} (s0 : GdkSes).

(** Since [s0] the calls [cs] were made, after unspent outputs were looked up, and the
    session is the same. *)
Definition asked (cs : list GdkCall) (s : GdkSes) : Prop :=
  (∃ looked, gdk_calls s = cs ++ looked ++ gdk_calls s0 ∧ ∀ c, c ∈ looked → looks_up c) ∧
  gs_policy_asset s = gs_policy_asset s0 ∧ gs_subaccount s = gs_subaccount s0.

Lemma asked_refl : asked [] s0.
Proof. split; [|done]. exists []. split; [done|]. intros c Hc. by apply elem_of_nil in Hc. Qed.

Lemma asked_new cs s c : asked cs s → c ∈ new_calls s0 s ↔ c ∈ cs ∨ c ∈ new_calls s0 s ∧ looks_up c.
Proof.
  intros [(looked & E & Hl) _]. unfold new_calls.
  rewrite E, app_assoc, length_app, Nat.add_sub, take_app_length, elem_of_app. naive_solver.
Qed.

Lemma asked_quiet cs e s : is_call e = false → asked cs s → asked cs (s <| gs_log ::= cons e |>).
Proof. intros He [E Hs]. split; [|exact Hs]. by destruct e. Qed.

Lemma gdk_calls_call c s : gdk_calls (s <| gs_log ::= cons (Gdk_call c) |>) = c :: gdk_calls s.
Proof. done. Qed.

Lemma asked_call cs c s : asked cs s → asked (c :: cs) (s <| gs_log ::= cons (Gdk_call c) |>).
Proof.
  intros [(looked & E & Hl) Hs]. split; [|exact Hs]. exists looked.
  split; [|exact Hl]. rewrite gdk_calls_call, E. done.
Qed.

Lemma asked_look_up opts s :
  asked [] s → asked [] (s <| gs_log ::= cons (Gdk_call (GA_get_unspent_outputs opts)) |>).
Proof.
  intros [(looked & E & Hl) Hs]. split; [|exact Hs]. exists (GA_get_unspent_outputs opts :: looked).
  split; [by rewrite gdk_calls_call, E|]. intros c [->|Hc]%elem_of_cons; [by exists opts|auto].
Qed.

Lemma keeps_map_err {A} I f (m : GdkM A) : keeps I m → keeps I (map_err f m).
Proof.
  intros Hm s Hs. specialize (Hm s Hs). unfold map_err. by destruct (m s) as [s' []].
Qed.

(** A call of the library is one call, whatever is asked on the way and whatever comes out. *)
Lemma asked_ses_gdk_from cs cs' t c params name what :
  (∀ s, asked cs s → asked cs' (s <| gs_log ::= cons (Gdk_call c) |>)) →
  triple (asked cs) (ses_gdk t c params name what) (asked cs').
Proof.
  intros Hc s Hs%Hc. unfold ses_gdk, call_gdk, call_gdk_err. unfold bind at 1 2. cbn -[run_auth_handler map_err].
  destruct (gdk_start _ _); [exact Hs|]. unfold bind, gets. cbn -[run_auth_handler map_err].
  by apply keeps_map_err; [apply keeps_run_auth_handler, asked_quiet|].
Qed.

Lemma asked_ses_gdk cs t c params name what :
  triple (asked cs) (ses_gdk t c params name what) (asked (c :: cs)).
Proof. apply asked_ses_gdk_from. intros s. apply asked_call. Qed.

Lemma keeps_subaccount I : keeps I get_subaccount.
Proof. unfold get_subaccount. apply keeps_bind; [apply keeps_gets|]. intros o. apply keeps_ok_or. Qed.

Lemma asked_unspent_outputs : triple (asked []) try_get_unspent_outputs (asked []).
Proof.
  unfold try_get_unspent_outputs. apply keeps_bind; [apply keeps_subaccount|]. intros a.
  apply (asked_ses_gdk_from [] [] T_UnspentOutputs). intros s. apply asked_look_up.
Qed.

Lemma asked_create_transaction cs c :
  triple (asked cs) (create_transaction c) (asked (c :: cs)).
Proof.
  unfold create_transaction, check_created. eapply triple_then; [apply asked_ses_gdk|]. intros json.
  apply keeps_bind; [apply keeps_map_err, keeps_lift|]. intros created. keeps.
Qed.

(** One step of a computation: it fails here, or goes on. *)
Lemma asked_bind {A B} (Q : outcome B → GdkSes → Prop) cs cs' (m : GdkM A) k s :
  asked cs s → triple (asked cs) m (asked cs') →
  (∀ r s1, is_ok r = false → asked cs' s1 → Q r s1) →
  (∀ a s1, m s = (s1, Ok a) → asked cs' s1 → wp (k a) s1 Q) →
  wp (bind m k) s Q.
Proof.
  intros Hs Hm Hfail Hk. specialize (Hm s Hs). unfold wp, bind in *.
  destruct (m s) as [s1 [a|e|e]] eqn:E; simpl in *; [by apply Hk|by apply Hfail..].
Qed.
End Asked.

Lemma map_err_Ok `{GdkEnv} {A} f (m : GdkM A) s s' a : map_err f m s = (s', Ok a) → m s = (s', Ok a).
Proof. unfold map_err. by destruct (m s) as [s1 []]. Qed.

(** A result is what the library's answer parses to. *)
Lemma ses_gdk_parsed `{GdkEnv} t c params name what s s' a :
  ses_gdk t c params name what s = (s', Ok a) → ∃ json, gdk_parse t json = Ok a.
Proof.
  unfold ses_gdk, call_gdk, call_gdk_err. intros Hr. ok_inv.
  match goal with H : match ?rc with _ => _ end _ = _ |- _ => destruct rc; [done|] end. ok_inv.
  match goal with H : map_err _ _ _ = _ |- _ => apply map_err_Ok in H; rename H into Hrun end.
  unfold run_auth_handler in Hrun.
  destruct (run_auth_handler_impl _ _ _ _ _) as [s1 r] eqn:E.
  assert (r = Ok a) as -> by (repeat case_match; by simplify_eq).
  unfold run_auth_handler_impl in E. ok_inv.
  match goal with H : parse_result _ _ = _ |- _ => rename H into Hp end. unfold parse_result in Hp.
  destruct (auth_result _) as [json|]; ok_inv; simplify_eq. by exists json.
Qed.

(** From [s] to [s'] GDK was asked [c] and answered [json]. *)
Definition answered `{GdkEnv} (c : GdkCall) (s s' : GdkSes) (json : Json) : Prop :=
  ∃ name what, ses_gdk T_Json c handler_params name what s = (s', Ok json).

(** What was parsed of a created transaction was checked. *)
Lemma created_checked `{GdkEnv} c s s' r :
  create_transaction c s = (s', Ok r) →
  answered c s s' r.1 ∧
  gdk_parse T_CreatedTx r.1 = Ok r.2 ∧ gct_error r.2 = EmptyString ∧ 0 < default 0 (gct_fee r.2).
Proof.
  unfold create_transaction, check_created. intros Hr. ok_inv.
  match goal with H : map_err _ _ _ = _ |- _ => apply map_err_Ok, lift_Ok in H as [-> ?] end.
  simpl. rewrite <- (bool_decide_eq_true (gct_error _ = _)), <- Z.ltb_lt.
  split; [by do 2 eexists|done].
Qed.

(** Something is signed or sent. *)
Definition signs (c : GdkCall) : Prop :=
  match c with
  | GA_sign_transaction _ | GA_send_transaction _ | GA_psbt_sign _ | GA_create_swap_transaction _ => True
  | _ => False
  end.

(** Nothing was signed when only calls that do not sign were made. *)
Lemma unsigned `{GdkEnv} s0 cs s c :
  asked s0 cs s → (∀ c, c ∈ cs → ¬ signs c) → c ∈ new_calls s0 s → ¬ signs c.
Proof. intros Hs Hcs [Hc|[_ [opts ->]]]%(asked_new _ _ _ _ Hs); [by apply Hcs|by intros []]. Qed.

(** One step of a computation that signed nothing so far: when it fails, nothing is
    signed, else the computation goes on. *)
Lemma unsigned_bind `{GdkEnv} {A B} (Q : outcome B → GdkSes → Prop) s0 cs cs' (m : GdkM A) k s :
  asked s0 cs s → triple (asked s0 cs) m (asked s0 cs') → Forall (λ c, ¬ signs c) cs' →
  (∀ r s1, is_ok r = false → (∀ c, c ∈ new_calls s0 s1 → ¬ signs c) → Q r s1) →
  (∀ a s1, m s = (s1, Ok a) → asked s0 cs' s1 → wp (k a) s1 Q) →
  wp (bind m k) s Q.
Proof.
  intros Hs Hm Hcs Hfail Hk. eapply asked_bind; [done..| |done]. intros r s1 Hr Hs1.
  apply Hfail; [done|]. intros c. rewrite Forall_forall in Hcs. by apply (unsigned s0 cs' s1 c).
Qed.

Lemma ensure_Ok b e (s s' : GdkSes) u : ensure b e s = (s', Ok u) → s' = s ∧ b = true.
Proof. destruct u. by intros [-> ->%oensure_Ok]%lift_Ok. Qed.

(** Pure steps ask nothing. *)
Ltac ask_pure :=
  apply triple_keeps; [done|];
  first [apply keeps_subaccount|apply keeps_gets|apply keeps_ensure|apply keeps_ok_or
        |apply keeps_expect|apply keeps_lift].

(** Claims about what was signed, or about a success, hold where nothing was. *)
Ltac unsigned_fail :=
  intros ? ? Hr Hno;
  first [intros [(? & Hc & Hsigns)|Hok]; [by destruct (Hno _ Hc)|by rewrite Hr in Hok]
        |intros Hc; by destruct (Hno _ Hc)].

(** Walk over a step that signs nothing. *)
Ltac unsigned_step Hs :=
  eapply unsigned_bind;
  [exact Hs
  |first [ask_pure|apply asked_unspent_outputs|apply asked_create_transaction
         |apply (asked_ses_gdk _ _ T_Json)|apply (asked_ses_gdk _ _ T_PsetDetails)]
  |by repeat constructor; intros []|by unsigned_fail|];
  let Hold := fresh "Hold" in rename Hs into Hold; intros ? ? ? Hs.

(** ** Pegouts *)

(** The outputs of the wallet, as GDK gave them. *)
Definition looked_up `{GdkEnv} (s s' : GdkSes) (subaccount : Z) (utxos : GdkUtxos) : Prop :=
  gs_subaccount s = Some subaccount ∧
  ∃ name what, ses_gdk T_UnspentOutputs
    (GA_get_unspent_outputs {| uoa_subaccount := subaccount; uoa_num_confs := 0 |})
    handler_params name what s = (s', Ok utxos).

Lemma unspent_looked_up `{GdkEnv} s s' utxos :
  try_get_unspent_outputs s = (s', Ok utxos) → ∃ subaccount, looked_up s s' subaccount utxos.
Proof.
  unfold try_get_unspent_outputs, get_subaccount. intros (s1 & subaccount & E & Hr)%bind_Ok.
  rewrite bind_gets in E. apply lift_Ok in E as [-> E]. exists subaccount.
  split; [by apply ook_or_Ok in E|]. by do 2 eexists.
Qed.

(** From [s] to [s'] GDK created and blinded the transaction of a pegout of [amount] to
    [addr]: it was asked to pay from the outputs it gave, to pay the fee out of the amount
    exactly when the amount is all the wallet has, and what is paid is [announced]. *)
Definition pegout_created `{GdkEnv} (s s' : GdkSes) (amount : Z) (addr : string) (announced : Z)
    (blinded : Json) : Prop :=
  ∃ subaccount utxos json created fee s1 s2,
    looked_up s s1 subaccount utxos ∧
    let total := wi64 (utxo_total (gs_policy_asset s) utxos) in
    let send_all := amount =? total in
    amount ≤ total ∧
    answered (GA_create_transaction (payment_opts subaccount addr amount (gs_policy_asset s) send_all utxos))
      s1 s2 json ∧
    gdk_parse T_CreatedTx json = Ok created ∧ gct_error created = EmptyString ∧
    gct_fee created = Some fee ∧ 0 < fee ∧
    announced = (if send_all then wi64 (amount - wi64 fee) else amount) ∧
    answered (GA_blind_transaction json) s2 s' blinded.

(** What GDK made of a blinded transaction when it signed it. *)
Definition signed_of `{GdkEnv} (s : GdkSes) (blinded signed : Json) (tx : SignTransactionResult) : Prop :=
  (∃ s', answered (GA_sign_transaction blinded) s s' signed) ∧
  gdk_parse T_SignedTx signed = Ok tx ∧ str_error tx = EmptyString.

(** The one transaction that is signed, and sent once it is. *)
Definition signs_blinded `{GdkEnv} (s : GdkSes) (blinded : Json) (c : GdkCall) : Prop :=
  c = GA_sign_transaction blinded ∨
  ∃ signed tx, c = GA_send_transaction signed ∧ signed_of s blinded signed tx.

Lemma asked_signs `{GdkEnv} s0 cs s c : asked s0 cs s → c ∈ new_calls s0 s → signs c → c ∈ cs.
Proof. by intros Hs [Hc|[_ [opts ->]]]%(asked_new _ _ _ _ Hs). Qed.

(** Signing and sending after nothing was signed. *)
Lemma sign_and_send `{GdkEnv} s0 cs s blinded amount :
  asked s0 cs s → (∀ c, c ∈ cs → ¬ signs c) →
  wp (let! json := ses_gdk T_Json (GA_sign_transaction blinded) handler_params "GA_sign_transaction"
        "signing tx failed: " in
      let! signed := lift (gdk_parse T_SignedTx json) in
      do! ensure (bool_decide (str_error signed = EmptyString)) (str_error signed) in
      let! txid := send_transaction json in
      let! transaction := ok_or (str_transaction signed) "transaction is empty" in
      ret {| spp_sent_amount := amount; spp_sent_txid := txid; spp_signed_tx := gtx_hex transaction |}) s
    (λ r s', (∀ c, c ∈ new_calls s0 s' → signs c → signs_blinded s blinded c) ∧
      ∀ payment, r = Ok payment → spp_sent_amount payment = amount ∧
        ∃ signed tx transaction, signed_of s blinded signed tx ∧ str_transaction tx = Some transaction ∧
          spp_signed_tx payment = gtx_hex transaction).
Proof.
  intros Hs Hno.
  assert (∀ s' c, asked s0 (GA_sign_transaction blinded :: cs) s' → c ∈ new_calls s0 s' → signs c →
    signs_blinded s blinded c) as Hsigned.
  { intros s' c Hs' Hc Hsg. apply (asked_signs _ _ _ _ Hs' Hc) in Hsg as Hin.
    apply elem_of_cons in Hin as [->|Hin]; [by left|by destruct (Hno c)]. }
  eapply asked_bind; [exact Hs|apply (asked_ses_gdk _ _ T_Json)| |].
  { intros r s1 Hr Hs1. split; [eauto|]. by intros p ->. }
  intros json s1 E1 Hs1.
  eapply asked_bind; [exact Hs1|ask_pure| |].
  { intros r s2 Hr Hs2. split; [eauto|]. by intros p ->. }
  intros tx s2 [-> Hparse]%lift_Ok Hs2.
  eapply asked_bind; [exact Hs2|ask_pure| |].
  { intros r s3 Hr Hs3. split; [eauto|]. by intros p ->. }
  intros u s3 [-> Herr%bool_decide_eq_true]%ensure_Ok Hs3.
  assert (signed_of s blinded json tx) as Hof by (split; [by do 3 eexists|done]).
  assert (∀ s' c, asked s0 (GA_send_transaction json :: GA_sign_transaction blinded :: cs) s' →
    c ∈ new_calls s0 s' → signs c → signs_blinded s blinded c) as Hsent.
  { intros s' c Hs' Hc Hsg. apply (asked_signs _ _ _ _ Hs' Hc) in Hsg as Hin.
    apply elem_of_cons in Hin as [->|[->|Hin]%elem_of_cons]; [right; by exists json, tx|by left|by destruct (Hno c)]. }
  eapply asked_bind; [exact Hs3|apply (asked_ses_gdk _ _ T_SendTransactionResult)| |].
  { intros r s4 Hr Hs4. split; [eauto|]. by intros p ->. }
  intros txid s4 E4 Hs4.
  eapply asked_bind; [exact Hs4|ask_pure| |].
  { intros r s5 Hr Hs5. split; [eauto|]. by intros p ->. }
  intros transaction s5 E5 Hs5. split; [eauto|]. intros payment [= <-]. split; [done|].
  exists json, tx, transaction. split; [done|]. split; [|done].
  unfold ok_or in E5. apply lift_Ok in E5 as [_ E5]. by destruct (str_transaction tx); simplify_eq/=.
Qed.

(** ** Swaps *)

(** What GDK answered when it was asked about a PSET. *)
Definition told_details `{GdkEnv} (opts : PsetDetailsOpt) (details : PsetDetailsResult) : Prop :=
  ∃ name what g g', ses_gdk T_PsetDetails (GA_psbt_get_details opts) handler_params name what g =
                    (g', Ok details).

Lemma told_parsed `{GdkEnv} opts details :
  told_details opts details → ∃ json, gdk_parse T_PsetDetails json = Ok details.
Proof. intros (? & ? & ? & ? & Hr). by apply ses_gdk_parsed in Hr. Qed.

(** A PSET is signed only after a look at what it does. *)
Lemma pset_checked `{GdkEnv} amounts pset nonces assets g o :
  GA_psbt_sign o ∈ new_calls g (verify_and_sign_pset amounts pset nonces assets g).1 →
  spo_psbt o = pset ∧ spo_blinding_nonces o = nonces ∧
  ∃ details, told_details {| pdo_psbt := pset; pdo_utxos := spo_utxos o |} details ∧
             check_pset (gs_policy_asset g) amounts details = Ok tt.
Proof.
  change (wp (verify_and_sign_pset amounts pset nonces assets) g (λ _ s',
    GA_psbt_sign o ∈ new_calls g s' →
    spo_psbt o = pset ∧ spo_blinding_nonces o = nonces ∧
    ∃ details, told_details {| pdo_psbt := pset; pdo_utxos := spo_utxos o |} details ∧
               check_pset (gs_policy_asset g) amounts details = Ok tt)).
  pose proof (asked_refl g) as Hs. unfold verify_and_sign_pset.
  do 4 unsigned_step Hs. destruct (_ =? 0).
  { intros Hc. eapply unsigned in Hc; [by destruct Hc|exact Hs|].
    apply Forall_forall. by repeat constructor; intros []. }
  match goal with H : gets gs_policy_asset _ = _ |- _ => injection H as <- <- end.
  match goal with H : lift _ _ = _ |- _ => apply lift_Ok in H as [-> Hcheck] end.
  pose proof Hs as (_ & Hpol & _).
  match goal with |- wp ?m ?s1 _ =>
    assert (asked g _ (m s1).1) as Hs' by exact (asked_ses_gdk _ _ T_SignPsetResult _ _ _ _ _ Hs) end.
  intros Ho. apply (asked_new _ _ _ _ Hs') in Ho as [Ho|[_ [? ?]]]; [|done].
  apply elem_of_cons in Ho as [[= ->]|Ho]; [|by apply list_elem_of_singleton in Ho].
  split_and!; [done..|]. eexists. split; [by do 4 eexists|]. rewrite <- Hpol.
  match goal with u : unit |- _ => destruct u end. exact Hcheck.
Qed.
(** *** A wallet with one output, and a library that answers at once *)
Module WalletSample.
Definition policy_asset : AssetId := [1].
Definition token : AssetId := [2].

Definition utxo : GdkUtxo := {|
  gu_subaccount := 0; gu_address_type := AddressType_P2wsh; gu_block_height := None;
  gu_txhash := [9]; gu_vout := 0; gu_pointer := 1; gu_prevout_script := "script";
  gu_asset_id := policy_asset; gu_satoshi := 1000; gu_is_internal := false; gu_is_blinded := true;
  gu_is_confidential := Some true; gu_asset_tag := "0a"; gu_commitment := "08";
  gu_amountblinder := "11"; gu_assetblinder := "22"; gu_nonce_commitment := "02"; gu_script := None;
  gu_script_type := None; gu_subtype := None; gu_user_status := None; gu_public_key := None;
  gu_user_path := None; gu_user_sighash := None |}.

Definition created : GdkCreatedTx := {|
  gct_addressees := []; gct_transaction_outputs := []; gct_transaction := None;
  gct_fee := Some 40; gct_fee_rate := None; gct_transaction_vsize := None;
  gct_transaction_weight := None; gct_error := EmptyString |}.

Definition signed : SignTransactionResult := {|
  str_transaction_inputs := []; str_transaction_outputs := [];
  str_transaction := Some {| gtx_hex := "0200"; gtx_txid := [7]; gtx_input_count := 1; gtx_outputs := [] |};
  str_fee := None; str_error := EmptyString |}.

(** A swap of 100 of L-BTC, which costs a fee of 5, for 7 of the token. *)
Definition details : PsetDetailsResult := {|
  pdr_satoshi := {[policy_asset := -95; token := 7]}; pdr_transaction_inputs := [];
  pdr_transaction_outputs := []; pdr_fee := Some 5 |}.

Definition none {A} : outcome A := Err "no".

Definition parse (t : GdkType) (json : Json) : outcome (gdk_type t) :=
  match t with
  | T_Json => Ok json
  | T_UnspentOutputs => Ok {[policy_asset := [utxo]]}
  | T_CreatedTx => Ok created
  | T_SignedTx => Ok signed
  | T_SendTransactionResult => Ok [7]
  | T_PsetDetails => Ok details
  | T_SignPsetResult => Ok "signed"
  | _ => none
  end.

Definition env (answer : GdkCall → Json) (parse : ∀ t : GdkType, Json → outcome (gdk_type t))
    : GdkEnv := {|
  gdk_ids := hex_ids;
  gdk_start _ _ := None;
  gdk_handler _ c := AuthStatus (Ok {| auth_result := Some (answer c); auth_error := None;
    auth_required_data := None; auth_status := Status_Done |}) (λ _, None);
  gdk_parse := parse;
  gdk_set_memo _ _ _ := None; gdk_set_watch_only _ _ _ := None;
  jade_queued _ := []; jade_recv _ _ := inr "timeout";
  asset_generator _ _ := []; value_commitment_of _ _ _ := []; der_signature _ := none;
  parse_xpub _ := none; contract_json _ := JsonNull; number_is_i64 _ := false;
  number_as_i64 _ := None; contract_is_f64 _ := false; contract_as_f64 _ := None;
  json_insert_sign_with json _ := json; json_insert_transaction json _ := json;
  address_from_str _ := none; is_confidential _ := true; p2pkh_script _ := "script";
  p2shwpkh_redeem_script _ := "script"; p2wsh_redeem_script _ := "script";
  gdk_network_known _ := true; gdk_connect _ _ _ := None |}.

Definition session : GdkSes := {|
  gs_login_info := {| sl_account_id := 0; sl_env := Env_Prod; sl_cache_dir := "dir";
    sl_wallet_info := Ses_Mnemonic "words"; sl_single_sig := true; sl_network := None;
    sl_proxy := None |};
  gs_hw_data := None; gs_subaccount := Some 0; gs_receiving_id := None;
  gs_policy_asset := policy_asset; gs_log := [] |}.

#[export] Instance sample_env : GdkEnv := env (λ _, "json") parse.
End WalletSample.
#[local] Existing Instance WalletSample.sample_env.

