(* ===== verification/Handles.v ===== *)
(** * What GDK is given back

    GDK is a C library: values, strings, calls and sessions are pointers that it makes and
    that rust/sideswap_client/src/gdk_ses_impl.rs has to destroy.  [Session] and [Wallet]
    model the calls by what they say; here they are modelled with their pointers.  Using a
    pointer that was destroyed, or destroying it twice, is undefined. *)
From stdpp Require Import base numbers gmap strings list.
From Stdlib Require Import ZArith Lia.
From S2P Require Import Prelude Api Types Env ClientApi Serial Jade GdkApi Session Wallet.

Open Scope Z_scope.
#[local] Set Primitive Projections.

(** ** The library's side *)

(** What a [GA_json] holds. *)
Inductive GdkValue :=
  | Value_params (c : GdkCall)
  | Value_hint (h : ReconnectHint)
  | Value_config
  | Value_status (status : outcome (AuthHandler Json))
  | Value_details (details : outcome string)
  | Value_notification (n : outcome GdkNotification).

(** Everything that was made and not yet destroyed; [h_str] has the field [str] of every
    [GdkJson] that filled it. *)
Record Handles := {
  h_session : GdkSes;
  h_next : Z;
  h_json : gmap Z GdkValue;
  h_strings : gmap Z GdkValue;
  h_str : gmap Z Z;
  h_calls : gmap Z AuthProc;
  h_sessions : gmap Z bool;
  h_error : outcome string;
  h_notified : list (AccountId * GdkNotification)
}.

Definition HM : Type → Type := M Handles.

Definition undefined {A} : HM A := panic "undefined behaviour".

Definition alloc : HM Z :=
  let! p := gets h_next in
  do! modify (λ s, s <| h_next ::= Z.succ |>) in
  ret p.

Definition at_ptr {A} (heap : Handles → gmap Z A) (p : Z) : HM A :=
  let! m := gets heap in
  match m !! p with Some a => ret a | None => undefined end.

Definition make_json (v : GdkValue) : HM Z :=
  let! p := alloc in
  do! modify (λ s, s <| h_json ::= <[p := v]> |>) in
  ret p.

Definition GA_convert_json_to_string (json : Z) : HM Z :=
  let! v := at_ptr h_json json in
  let! p := alloc in
  do! modify (λ s, s <| h_strings ::= <[p := v]> |>) in
  ret p.

Definition GA_destroy_json (json : Z) : HM unit :=
  let! _v := at_ptr h_json json in
  modify (λ s, s <| h_json ::= delete json |>).

Definition GA_destroy_string (str : Z) : HM unit :=
  let! _v := at_ptr h_strings str in
  modify (λ s, s <| h_strings ::= delete str |>).

Section Handles.
Context `{GdkEnv}.

(** What runs on the Rust side only. *)
Definition on_session {A} (m : GdkM A) : HM A := λ s,
  let '(t, r) := m (h_session s) in (s <| h_session := t |>, r).

(** [None] is a return code that is not 0. *)
Definition GA_auth_handler_get_status (call : Z) : HM (option Z) :=
  let! p := at_ptr h_calls call in
  match p with
  | AuthFailed => ret None
  | AuthStatus status _ => let! json := make_json (Value_status status) in ret (Some json)
  end.

Definition GA_auth_handler_resolve_code (call : Z) (code : ResolveCode) : HM bool :=
  let! p := at_ptr h_calls call in
  match p with
  | AuthFailed => ret false
  | AuthStatus _ resolve_code =>
      match resolve_code code with
      | Some p => do! modify (λ s, s <| h_calls ::= <[call := p]> |>) in ret true
      | None => ret false
      end
  end.

Definition GA_destroy_auth_handler (call : Z) : HM unit :=
  let! _p := at_ptr h_calls call in
  modify (λ s, s <| h_calls ::= delete call |>).

Definition GA_get_thread_error_details : HM Z :=
  let! error := gets h_error in make_json (Value_details error).

(** Starting a call with its parameters. *)
Definition GA_start (c : GdkCall) (params : list Z) : HM (option Z) :=
  do! for_each params (λ p, let! _v := at_ptr h_json p in ret tt) in
  let! log := gets (λ s, gs_log (h_session s)) in
  do! on_session (gdk_emit (Gdk_call c)) in
  match gdk_start log c with
  | Some details => do! modify (λ s, s <| h_error := Ok details |>) in ret None
  | None =>
      let! call := alloc in
      let! log := gets (λ s, gs_log (h_session s)) in
      do! modify (λ s, s <| h_calls ::= <[call := gdk_handler log c]> |>) in
      ret (Some call)
  end.

(** ** Owners *)

(** What goes out of scope is dropped, however the scope is left. *)
Definition scoped {A} (drop : HM unit) (m : HM A) : HM A := λ s,
  let '(s, r) := m s in
  match drop s with
  | (s, Ok _) => (s, r)
  | (s, Err e) | (s, Panic e) => (s, Panic e)
  end.

(** Unless it is moved out of it. *)
Definition scoped_unless_moved {A B} (drop : HM unit) (m : HM (A + B)) : HM (A + B) := λ s,
  match m s with
  | (s, Ok (inl a)) => (s, Ok (inl a))
  | (s, r) => scoped drop (lift r) s
  end.

(** [GdkJson::new] and [GdkJson::owned] *)
Definition json_new (v : GdkValue) : HM Z := make_json v.
Definition json_owned (ptr : Z) : HM Z :=
  do! lift (oassert (negb (ptr =? 0)) "assertion failed: ptr != std::ptr::null_mut()") in
  ret ptr.

Definition to_str (json : Z) : HM GdkValue :=
  let! strs := gets h_str in
  let! str :=
    match strs !! json with
    | Some str => ret str
    | None =>
        let! str := GA_convert_json_to_string json in
        do! modify (λ s, s <| h_str ::= <[json := str]> |>) in
        ret str
    end in
  at_ptr h_strings str.

Definition to_json {A} (parse : GdkValue → outcome A) (json : Z) : HM A :=
  let! text := to_str json in
  lift (parse text).

Definition drop_json (json : Z) : HM unit :=
  do! GA_destroy_json json in
  let! strs := gets h_str in
  match strs !! json with
  | Some str => do! GA_destroy_string str in modify (λ s, s <| h_str ::= delete json |>)
  | None => ret tt
  end.

(** Owners of the values of a list, which live as long as the continuation. *)
Fixpoint with_jsons {A} (values : list GdkValue) (k : list Z → HM A) : HM A :=
  match values with
  | [] => k []
  | v :: values =>
      let! json := json_new v in
      scoped (drop_json json) (with_jsons values (λ jsons, k (json :: jsons)))
  end.

(** ** Calls *)

Definition as_status (v : GdkValue) : outcome (AuthHandler Json) :=
  match v with Value_status status => status | _ => Err "parsing failed" end.
Definition as_details (v : GdkValue) : outcome string :=
  match v with Value_details details => details | _ => Err "parsing failed" end.
Definition as_notification (v : GdkValue) : outcome GdkNotification :=
  match v with Value_notification n => n | _ => Err "parsing failed" end.

Definition last_gdk_error_details : HM string :=
  let! ptr := GA_get_thread_error_details in
  let! json := json_owned ptr in
  scoped (drop_json json) (to_json as_details json).

(** [last_gdk_error_details().unwrap_or_default()] *)
Definition error_details : HM string :=
  let! r := attempt last_gdk_error_details in
  ret (match r with inl details => details | inr _ => EmptyString end).

(** The question of a status is answered; a status that asks nothing ends the loop. *)
Definition answer_status (hw : option HwData) (params : HandlerParams) (call json : Z)
    (result : AuthHandler Json) : HM (Z + unit) :=
  do! on_session (gdk_emit (Gdk_status result)) in
  if bool_decide (auth_status result ≠ Status_ResolveCode) then ret (inl json)
  else
    let! hw_data := ok_or hw "can't resolve auth handler without hw_data" in
    let! rd := ok_or (auth_required_data result) "required_data is empty" in
    do! on_session (if required_hw hw_data rd then unlock_hw (hw_env hw_data) else ret tt) in
    let! code := on_session (resolve hw_data params rd) in
    do! on_session (gdk_emit (Gdk_resolve code)) in
    let! rc := GA_auth_handler_resolve_code call code in
    do! ensure rc "GA_auth_handler_resolve_code failed" in
    ret (inr tt).

(** One round of the loop: the status with which it ends is moved out of it. *)
Definition status_step (hw : option HwData) (params : HandlerParams) (call : Z) : HM (Z + unit) :=
  let! status := GA_auth_handler_get_status call in
  let! ptr := ok_or status "GA_auth_handler_get_status failed" in
  let! json := json_owned ptr in
  scoped_unless_moved (drop_json json) (
    let! _text := to_str json in
    let! result := to_json as_status json in
    answer_status hw params call json result).

Fixpoint status_loop (fuel : nat) (hw : option HwData) (params : HandlerParams) (call : Z) : HM Z :=
  match fuel with
  | O => panic "out of fuel"
  | S fuel =>
      let! r := status_step hw params call in
      match r with inl json => ret json | inr tt => status_loop fuel hw params call end
  end.

Definition call_result (t : GdkType) (json : Z) : HM (gdk_type t) :=
  let! h := to_json as_status json in
  let! result := lift (parse_result t h) in
  do! (if decide (auth_status h = Status_Error) then
         match auth_error h with
         | Some error => fail error
         | None => fail "unknown auth handler error"
         end
       else ret tt) in
  do! ensure (bool_decide (auth_status h = Status_Done)) "unexpected auth handler status" in
  ok_or result "auth handler error: no result field".

Definition handles_auth_handler_impl (fuel : nat) (t : GdkType) (hw : option HwData) (call : Z)
    (params : HandlerParams) : HM (gdk_type t) :=
  scoped (GA_destroy_auth_handler call) (
    let! json := status_loop fuel hw params call in
    scoped (drop_json json) (call_result t json)).

Definition handles_auth_handler (fuel : nat) (t : GdkType) (hw : option HwData) (call : Z)
    (params : HandlerParams) : HM (gdk_type t) := λ s,
  let '(s, r) := handles_auth_handler_impl fuel t hw call params s in
  match r, hw with
  | Panic e, _ => (s, Panic e)
  | r, Some _ => ((on_session (set_hw_status Hw_Idle) s).1, r)
  | r, None => (s, r)
  end.

(** The values a call is given; the device and the user are two. *)
Definition params_of (c : GdkCall) : list GdkValue :=
  match c with
  | GA_register_user _ _ | GA_login_user _ _ => [Value_params c; Value_params c]
  | _ => [Value_params c]
  end.

(** A call of the session, from its parameters to its result; [failed] is the message, with
    or without what GDK says, when it does not start, and [what] the context of its errors. *)
Definition handles_call (fuel : nat) (t : GdkType) (hw : option HwData) (c : GdkCall)
    (params : HandlerParams) (failed : string + (string → string)) (what : string → string)
    : HM (gdk_type t) :=
  let! rc := with_jsons (params_of c) (GA_start c) in
  match rc, failed with
  | None, inl message => fail message
  | None, inr message => let! details := error_details in fail (message details)
  | Some call, _ => λ s,
      match handles_auth_handler fuel t hw call params s with
      | (s, Err e) => (s, Err (what e))
      | r => r
      end
  end.

(** A hint is passed on whether or not GDK takes it. *)
Definition handles_reconnect_hint (hint : ReconnectHint) (taken : bool) : HM unit :=
  do! with_jsons [Value_hint hint] (λ _, on_session (reconnect_hint hint)) in
  if taken then ret tt else let! _details := error_details in ret tt.

(** ** Sessions *)

(** The log before there is a session. *)
Definition on_log {A} (m : LogM A) : HM A := λ s,
  let '(log, r) := m (gs_log (h_session s)) in
  (s <| h_session := (h_session s) <| gs_log := log |> |>, r).

Definition GA_create_session : HM Z :=
  let! p := alloc in
  do! modify (λ s, s <| h_sessions ::= <[p := true]> |>) in
  ret p.

Definition GA_destroy_session (session : Z) : HM unit :=
  let! _s := at_ptr h_sessions session in
  modify (λ s, s <| h_sessions ::= delete session |>).

(** A custom network is read off the list of networks, changed and registered. *)
Definition handles_select_network (info : SesLoginInfo) : HM string :=
  let! custom := lift (let? network := network_name info in
                       let? custom := custom_electrum info in
                       Ok (bool_decide (is_Some custom) && sl_single_sig info)) in
  if custom then
    let! ptr := make_json Value_config in
    let! networks := json_owned ptr in
    scoped (drop_json networks) (
      let! _networks := to_str networks in
      let! network := json_new Value_config in
      scoped (drop_json network) (on_log (select_network info)))
  else on_log (select_network info).

(** The session is its pointer once it is connected; before, nobody owns it. *)
Definition handles_start_processing (info : SesLoginInfo) : HM Z :=
  let! session := GA_create_session in
  let! name := handles_select_network info in
  let! policy_asset :=
    match AssetId_from_str (env_data_policy_asset (env_data (sl_env info))) with
    | Ok asset => ret asset
    | _ => panic "called `Result::unwrap()` on an `Err` value"
    end in
  let! rc := with_jsons [Value_config] (λ _,
    on_log (let! rc := gets (λ log, gdk_connect log name (sl_proxy info)) in
            do! modify (cons (Gdk_connect name (sl_proxy info)
                               (Some (bool_decide (is_Some (sl_proxy info)))))) in
            ret rc)) in
  match rc with
  | Some details =>
      do! modify (λ s, s <| h_error := Ok details |>) in
      let! details := error_details in
      fail ("GA_connect failed: " +:+ details)
  | None =>
      do! modify (λ s, s <| h_session := {| gs_login_info := info;
        gs_hw_data := ses_hw_data (sl_wallet_info info); gs_subaccount := None;
        gs_receiving_id := None; gs_policy_asset := policy_asset;
        gs_log := gs_log (h_session s) |} |>) in
      ret session
  end.

(** A thread of the library calls this with a value that is then the callback's. *)
Definition notification_callback_cpp (account_id : AccountId) (ptr : Z) : HM unit :=
  let! json := json_owned ptr in
  scoped (drop_json json) (
    let! _text := to_str json in
    let! details := to_json (λ v, match as_notification v with
      | Err _ => Panic "called `Result::unwrap()` on an `Err` value" | r => r end) json in
    modify (λ s, s <| h_notified ::= cons (account_id, details) |>)).
End Handles.

(** ** Lemmas: pointers *)

(** Pointers from [h_next] on were never given out. *)
Record fresh (s : Handles) : Prop := {
  fr_next : 0 < h_next s;
  fr_json p : h_next s ≤ p → h_json s !! p = None;
  fr_strings p : h_next s ≤ p → h_strings s !! p = None;
  fr_str p : h_next s ≤ p → h_str s !! p = None;
  fr_calls p : h_next s ≤ p → h_calls s !! p = None
}.

(** All that GDK made and was not given back. *)
Definition held (s : Handles) :
    gmap Z GdkValue * gmap Z GdkValue * gmap Z Z * gmap Z AuthProc * gmap Z bool :=
  (h_json s, h_strings s, h_str s, h_calls s, h_sessions s).

Definition bump (n : Z) (s : Handles) : Handles := s <| h_next := h_next s + n |>.

(** [s], and a value that was read. *)
Definition hold (p q : Z) (v : GdkValue) (s : Handles) : Handles :=
  s <| h_json ::= <[p := v]> |> <| h_strings ::= <[q := v]> |> <| h_str ::= <[p := q]> |>.

Lemma fresh_bump n s : 0 ≤ n → fresh s → fresh (bump n s).
Proof.
  intros Hn [Hnext Hj Hs Hstr Hc]. split; unfold bump; cbn; [lia|..]; intros p Hp;
    [apply Hj|apply Hs|apply Hstr|apply Hc]; lia.
Qed.

Lemma scoped_run {A} drop (m : HM A) s s1 s2 r :
  m s = (s1, r) → drop s1 = (s2, Ok tt) → scoped drop m s = (s2, r).
Proof. intros Hm Hd. unfold scoped. by rewrite Hm, Hd. Qed.

Lemma drop_unread p v s :
  h_json s !! p = None → h_str s !! p = None →
  drop_json p (s <| h_json ::= <[p := v]> |>) = (s, Ok tt).
Proof.
  intros Hj Hstr. unfold drop_json, GA_destroy_json, at_ptr.
  unfold bind, gets, modify, ret. cbn. rewrite lookup_insert_eq. cbn. rewrite_field Hstr.
  unfold set. cbn. by rewrite (delete_insert_id _ _ _ Hj).
Qed.

Lemma drop_held p q v s :
  h_json s !! p = None → h_strings s !! q = None → h_str s !! p = None →
  drop_json p (hold p q v s) = (s, Ok tt).
Proof.
  intros Hj Hq Hstr. unfold drop_json, GA_destroy_json, GA_destroy_string, at_ptr, hold.
  unfold bind, gets, modify, ret. cbn. rewrite lookup_insert_eq. cbn. rewrite lookup_insert_eq. cbn.
  rewrite lookup_insert_eq. unfold set. cbn.
  by rewrite (delete_insert_id _ _ _ Hj), (delete_insert_id _ _ _ Hq), (delete_insert_id _ _ _ Hstr).
Qed.

(** Making a value and reading it. *)
Lemma to_str_first v s :
  fresh s →
  to_str (h_next s) (s <| h_next ::= Z.succ |> <| h_json ::= <[h_next s := v]> |>) =
    (hold (h_next s) (h_next s + 1) v (bump 2 s), Ok v).
Proof.
  intros Hs. pose proof (fr_str s Hs (h_next s) ltac:(lia)) as Hstr.
  unfold to_str, GA_convert_json_to_string, at_ptr, alloc.
  unfold bind, gets, modify, ret, set. cbn. rewrite_field Hstr. cbn. rewrite lookup_insert_eq. cbn.
  rewrite lookup_insert_eq. unfold hold, bump, set. cbn.
  replace (Z.succ (h_next s)) with (h_next s + 1) by lia.
  by replace (Z.succ (h_next s + 1)) with (h_next s + 2) by lia.
Qed.

Lemma to_str_again p q v s :
  h_str s !! p = Some q → h_strings s !! q = Some v → to_str p s = (s, Ok v).
Proof.
  intros Hp Hq. unfold to_str, at_ptr. unfold bind, gets, ret. cbn. rewrite_field Hp. cbn. by rewrite_field Hq.
Qed.

Lemma to_json_hold {A} (parse : GdkValue → outcome A) p q v s :
  to_json parse p (hold p q v s) = (hold p q v s, parse v).
Proof.
  unfold to_json. rewrite (bind_run _ _ (hold p q v s) (hold p q v s) v); [done|].
  apply (to_str_again p q); apply lookup_insert_eq.
Qed.

(** Whatever is free stays free, and what is not a pointer is not asked. *)
Definition free (p q : Z) (s : Handles) : Prop :=
  h_json s !! p = None ∧ h_strings s !! q = None ∧ h_str s !! p = None.

Lemma fresh_free n s : fresh s → free (h_next s) (h_next s + 1) (bump n s).
Proof.
  intros Hs. split_and!; [apply (fr_json s Hs)|apply (fr_strings s Hs)|apply (fr_str s Hs)]; lia.
Qed.

Lemma drop_hold p q v s : free p q s → drop_json p (hold p q v s) = (s, Ok tt).
Proof. intros (? & ? & ?). by apply drop_held. Qed.

Lemma json_owned_run p s : 0 < p → json_owned p s = (s, Ok p).
Proof.
  intros Hp. unfold json_owned. replace (p =? 0) with false by (symmetry; apply Z.eqb_neq; lia). done.
Qed.

(** What GDK says about an error is read and given back. *)
Lemma error_details_run s details :
  fresh s → h_error s = Ok details → error_details s = (bump 2 s, Ok details).
Proof.
  intros Hs Herror. unfold error_details.
  cut (last_gdk_error_details s = (bump 2 s, Ok details)).
  { intros E. unfold bind, attempt. by rewrite E. }
  set (s1 := s <| h_next ::= Z.succ |> <| h_json ::= <[h_next s := Value_details (Ok details)]> |>).
  unfold last_gdk_error_details. rewrite (bind_run _ _ s s1 (h_next s)).
  2:{ unfold GA_get_thread_error_details. rewrite bind_gets. rewrite_field Herror. done. }
  rewrite (bind_run _ _ s1 s1 (h_next s)) by by apply json_owned_run, fr_next.
  eapply scoped_run; [|by apply drop_hold, fresh_free].
  unfold to_json. rewrite (bind_run _ _ _ _ _ (to_str_first (Value_details (Ok details)) s Hs)). done.
Qed.

(** ** Lemmas: calls *)

Section Calls.
Context `{GdkEnv}.

Lemma bind_assoc {S A B C} (m : M S A) (k : A → M S B) (f : B → M S C) s :
  bind (bind m k) f s = bind m (λ a, bind (k a) f) s.
Proof. unfold bind. by destruct (m s) as [s' []]. Qed.

Lemma bind_ext {S A B} (m : M S A) (k k' : A → M S B) s :
  (∀ a s', k a s' = k' a s') → bind m k s = bind m k' s.
Proof. intros Hk. unfold bind. destruct (m s) as [s' []]; [apply Hk|done|done]. Qed.

Lemma bind_at {S A B} (m : M S A) (k : A → M S B) s :
  bind m k s = match m s with
               | (s', Ok a) => k a s'
               | (s', Err e) => (s', Err e)
               | (s', Panic e) => (s', Panic e)
               end.
Proof. done. Qed.

Lemma bind_on_session {A B} (m : GdkM A) (k : A → HM B) s :
  bind (on_session m) k s =
  match m (h_session s) with
  | (t, Ok a) => k a (s <| h_session := t |>)
  | (t, Err e) => (s <| h_session := t |>, Err e)
  | (t, Panic e) => (s <| h_session := t |>, Panic e)
  end.
Proof. unfold bind, on_session. by destruct (m (h_session s)) as [t []]. Qed.

(** One turn of [Session.auth_loop]: the status it ends with, or how the call goes on. *)
Definition answer_spec (hw : option HwData) (params : HandlerParams)
    (resolve_code : ResolveCode → option AuthProc) (result : AuthHandler Json)
    : GdkM (AuthHandler Json + AuthProc) :=
  do! gdk_emit (Gdk_status result) in
  if bool_decide (auth_status result ≠ Status_ResolveCode) then ret (inl result)
  else
    let! hw_data := ok_or hw "can't resolve auth handler without hw_data" in
    let! rd := ok_or (auth_required_data result) "required_data is empty" in
    do! (if required_hw hw_data rd then unlock_hw (hw_env hw_data) else ret tt) in
    let! code := resolve hw_data params rd in
    do! gdk_emit (Gdk_resolve code) in
    match resolve_code code with
    | Some p => ret (inr p)
    | None => fail "GA_auth_handler_resolve_code failed"
    end.

Lemma auth_loop_unfold hw params status resolve_code t :
  auth_loop hw params (AuthStatus status resolve_code) t =
  (let! result := lift status in
   let! r := answer_spec hw params resolve_code result in
   match r with inl h => ret h | inr p => auth_loop hw params p end) t.
Proof.
  destruct status as [result|e|e]; [|done|done]. unfold answer_spec. cbn [auth_loop].
  rewrite !(bind_run (lift _) _ _ _ _ eq_refl), bind_assoc. apply bind_ext. intros [] s.
  destruct (bool_decide _); [done|]. rewrite bind_assoc. apply bind_ext. intros hw_data s1.
  rewrite bind_assoc. apply bind_ext. intros rd s2.
  rewrite bind_assoc. apply bind_ext. intros [] s3.
  rewrite bind_assoc. apply bind_ext. intros code s4.
  rewrite bind_assoc. apply bind_ext. intros [] s5.
  by destruct (resolve_code code).
Qed.

Definition goes_on (call json : Z) (t' : GdkSes) (s : Handles)
    (r : outcome (AuthHandler Json + AuthProc)) : Handles * outcome (Z + unit) :=
  match r with
  | Ok (inl _) => (s <| h_session := t' |>, Ok (inl json))
  | Ok (inr p) => (s <| h_session := t' |> <| h_calls ::= <[call := p]> |>, Ok (inr tt))
  | Err e => (s <| h_session := t' |>, Err e)
  | Panic e => (s <| h_session := t' |>, Panic e)
  end.

Lemma answer_run hw params call json status resolve_code result s :
  h_calls s !! call = Some (AuthStatus status resolve_code) →
  answer_status hw params call json result s =
    (let '(t', r) := answer_spec hw params resolve_code result (h_session s) in goes_on call json t' s r).
Proof.
  intros Hcall. unfold answer_status, answer_spec.
  rewrite bind_on_session. unfold gdk_emit. rewrite bind_modify. cbn [modify].
  set (t := (h_session s) <| gs_log ::= cons (Gdk_status result) |>).
  destruct (bool_decide _); [done|]. destruct hw as [hw|]; [|done].
  destruct (auth_required_data result) as [rd|]; [|done].
  rewrite !(bind_run (ok_or _ _) _ _ _ _ (ok_or_run _ _ _ _ eq_refl)).
  rewrite bind_on_session. change (h_session (s <| h_session := t |>)) with t.
  set (unlock := if required_hw hw rd then _ else _). rewrite (bind_at unlock).
  destruct (unlock t) as [t1 [[]|e|e]]; [|done|done].
  rewrite bind_on_session. change (h_session (_ <| h_session := t1 |>)) with t1.
  rewrite (bind_at (resolve hw params rd)).
  destruct (resolve hw params rd t1) as [t2 [code|e|e]]; [|done|done].
  rewrite bind_on_session, bind_modify. cbn [modify].
  set (t3 := _ <| gs_log ::= cons (Gdk_resolve code) |>).
  unfold GA_auth_handler_resolve_code, at_ptr. rewrite !bind_assoc, bind_gets.
  change (h_calls _ !! call) with (h_calls s !! call). rewrite Hcall.
  unfold bind, ret. by destruct (resolve_code code).
Qed.

Lemma hold_session p q v t s : (hold p q v s) <| h_session := t |> = hold p q v (s <| h_session := t |>).
Proof. reflexivity. Qed.
Lemma hold_calls p q v call ap s :
  (hold p q v s) <| h_calls ::= <[call := ap]> |> = hold p q v (s <| h_calls ::= <[call := ap]> |>).
Proof. reflexivity. Qed.

Lemma hold_notified p q v n s :
  (hold p q v s) <| h_notified ::= cons n |> = hold p q v (s <| h_notified ::= cons n |>).
Proof. reflexivity. Qed.

(** A round of the loop, with the status that GDK has for the call. *)
Lemma status_step_run hw params call status resolve_code s :
  fresh s → h_calls s !! call = Some (AuthStatus status resolve_code) →
  let p := h_next s in let q := h_next s + 1 in
  status_step hw params call s =
    (let '(t', r) := (let! result := lift status in answer_spec hw params resolve_code result) (h_session s) in
     match r with
     | Ok (inl _) => (hold p q (Value_status status) ((bump 2 s) <| h_session := t' |>), Ok (inl p))
     | r => goes_on call p t' (bump 2 s) r
     end).
Proof.
  intros Hs Hcall p q. unfold status_step.
  set (s1 := s <| h_next ::= Z.succ |> <| h_json ::= <[p := Value_status status]> |>).
  rewrite (bind_run _ _ s s1 (Some p)).
  2:{ unfold GA_auth_handler_get_status, at_ptr. rewrite bind_assoc, bind_gets. rewrite_field Hcall. done. }
  rewrite (bind_run (ok_or _ _) _ _ _ _ (ok_or_run _ _ _ _ eq_refl)).
  rewrite (bind_run _ _ s1 s1 p) by by apply json_owned_run, fr_next.
  unfold scoped_unless_moved.
  rewrite (bind_run _ _ _ _ _ (to_str_first (Value_status status) s Hs)).
  rewrite (bind_at (to_json as_status p)), to_json_hold. cbn [as_status].
  pose proof (fresh_free 2 s Hs) as Hfree. fold p q in Hfree |- *.
  destruct status as [result|e|e].
  - rewrite (answer_run hw params call p (Ok result) resolve_code result) by exact Hcall.
    rewrite (bind_run (lift (Ok result)) _ _ _ _ eq_refl).
    change (h_session (hold _ _ _ (bump 2 s))) with (h_session s).
    destruct (answer_spec hw params resolve_code result (h_session s)) as [t' [[h|ap]|e|e]]; cbn [goes_on].
    + reflexivity.
    + eapply scoped_run; [reflexivity|]. rewrite hold_session, hold_calls. by apply drop_hold.
    + eapply scoped_run; [reflexivity|]. rewrite hold_session. by apply drop_hold.
    + eapply scoped_run; [reflexivity|]. rewrite hold_session. by apply drop_hold.
  - eapply scoped_run; [reflexivity|]. exact (drop_hold p q _ _ Hfree).
  - eapply scoped_run; [reflexivity|]. exact (drop_hold p q _ _ Hfree).
Qed.

Lemma AuthProc_induction (P : AuthProc → Prop) :
  P AuthFailed →
  (∀ status resolve_code, (∀ code p, resolve_code code = Some p → P p) → P (AuthStatus status resolve_code)) →
  ∀ p, P p.
Proof.
  intros Hfailed Hstatus. fix IH 1. intros [|status resolve_code]; [exact Hfailed|].
  apply Hstatus. intros code p E. destruct (resolve_code code) as [p'|]; [|discriminate E].
  injection E as <-. apply IH.
Qed.

Lemma yields_answer hw params resolve_code result :
  yields (answer_spec hw params resolve_code result) (λ r, match r with
    | inl h => h = result
    | inr p => ∃ code, resolve_code code = Some p
    end).
Proof.
  unfold answer_spec. eapply yields_bind; [apply yields_True|]. intros [] _.
  destruct (bool_decide _); [by apply yields_ret|].
  do 3 (eapply yields_bind; [apply yields_True|]; intros ? _).
  eapply yields_bind; [apply yields_True|]. intros code _.
  eapply yields_bind; [apply yields_True|]. intros [] _.
  destruct (resolve_code code) as [p|] eqn:E; [apply yields_ret; by exists code|done].
Qed.

(** From [s] to [s'], nothing was kept but [call], which is still open. *)
Record back (call : Z) (s s' : Handles) (t' : GdkSes) : Prop := {
  bk_session : h_session s' = t';
  bk_json : h_json s' = h_json s;
  bk_strings : h_strings s' = h_strings s;
  bk_str : h_str s' = h_str s;
  bk_sessions : h_sessions s' = h_sessions s;
  bk_calls : delete call (h_calls s') = delete call (h_calls s);
  bk_live : is_Some (h_calls s' !! call);
  bk_fresh : fresh s'
}.

Lemma fresh_step call s t' p :
  fresh s → is_Some (h_calls s !! call) →
  fresh ((bump 2 s) <| h_session := t' |> <| h_calls ::= <[call := p]> |>).
Proof.
  intros Hs [p0 Hcall]. pose proof (fresh_bump 2 s ltac:(lia) Hs) as [Hnext Hj Hst Hstr Hc].
  split; [exact Hnext|exact Hj|exact Hst|exact Hstr|]. intros q Hq.
  change (<[call := p]> (h_calls s) !! q = None). rewrite lookup_insert_ne; [by apply Hc|].
  intros ->. specialize (Hc q Hq). change (h_calls s !! q = None) in Hc. congruence.
Qed.

Lemma back_done call s t' :
  fresh s → is_Some (h_calls s !! call) → back call s ((bump 2 s) <| h_session := t' |>) t'.
Proof.
  intros Hs Hcall. split; try done.
  destruct (fresh_bump 2 s ltac:(lia) Hs) as [Hnext Hj Hst Hstr Hc]. by split.
Qed.

Lemma status_loop_run hw params call p : ∀ s,
  fresh s → h_calls s !! call = Some p →
  let '(t', r) := auth_loop hw params p (h_session s) in
  ∃ n s' j q, back call s s' t' ∧ free j q s' ∧ ∀ fuel, (n ≤ fuel)%nat →
    status_loop fuel hw params call s =
    match r with
    | Ok h => (hold j q (Value_status (Ok h)) s', Ok j)
    | Err e => (s', Err e)
    | Panic e => (s', Panic e)
    end.
Proof.
  induction p as [|status resolve_code IH] using AuthProc_induction; intros s Hs Hcall.
  { exists 1%nat, s, (h_next s), (h_next s + 1). split_and!.
    - by split.
    - exact (fresh_free 0 s Hs).
    - intros [|fuel] Hfuel; [lia|]. simpl.
      rewrite (bind_at (status_step _ _ _)). unfold status_step.
      rewrite (bind_run (GA_auth_handler_get_status call) _ s s None); [done|].
      unfold GA_auth_handler_get_status, at_ptr. rewrite bind_assoc, bind_gets. by rewrite_field Hcall. }
  rewrite auth_loop_unfold, <- bind_assoc, bind_at.
  pose proof (status_step_run hw params call status resolve_code s Hs Hcall) as Hstep. cbv zeta in Hstep.
  destruct ((let! result := lift status in answer_spec hw params resolve_code result) (h_session s))
    as [t1 r1] eqn:Eanswer.
  assert (is_Some (h_calls s !! call)) as Hlive by by rewrite Hcall.
  destruct r1 as [[h|p]|e|e]; cbn [goes_on] in Hstep.
  - assert (status = Ok h) as ->.
    { apply bind_Ok in Eanswer as (t0 & result & [-> ->]%lift_Ok & Hanswer).
      apply yields_answer in Hanswer. by subst. }
    exists 1%nat, ((bump 2 s) <| h_session := t1 |>), (h_next s), (h_next s + 1). split_and!.
    + by apply back_done.
    + exact (fresh_free 2 s Hs).
    + intros [|fuel] Hfuel; [lia|]. simpl. by rewrite (bind_run _ _ _ _ _ Hstep).
  - apply bind_Ok in Eanswer as (t0 & result & [-> ->]%lift_Ok & Hanswer).
    apply yields_answer in Hanswer as [code Hcode].
    set (s1 := (bump 2 s) <| h_session := t1 |> <| h_calls ::= <[call := p]> |>) in *.
    specialize (IH code p Hcode s1 (fresh_step call s t1 p Hs Hlive) (lookup_insert_eq _ _ _)).
    change (h_session s1) with t1 in IH.
    destruct (auth_loop hw params p t1) as [t' r].
    destruct IH as (n & s' & j & q & Hback & Hfree & Hloop).
    exists (S n), s', j, q. split_and!; [|done|].
    + destruct Hback as [Hb1 Hb2 Hb3 Hb4 Hb5 Hb6 Hb7 Hb8]. split; try done.
      rewrite Hb6. apply delete_insert_eq.
    + intros [|fuel] Hfuel; [lia|]. simpl. rewrite (bind_run _ _ _ _ _ Hstep). apply Hloop. lia.
  - exists 1%nat, ((bump 2 s) <| h_session := t1 |>), (h_next s), (h_next s + 1). split_and!.
    + by apply back_done.
    + exact (fresh_free 2 s Hs).
    + intros [|fuel] Hfuel; [lia|]. simpl. by rewrite (bind_at (status_step _ _ _)), Hstep.
  - exists 1%nat, ((bump 2 s) <| h_session := t1 |>), (h_next s), (h_next s + 1). split_and!.
    + by apply back_done.
    + exact (fresh_free 2 s Hs).
    + intros [|fuel] Hfuel; [lia|]. simpl. by rewrite (bind_at (status_step _ _ _)), Hstep.
Qed.

(** What a status that ends the loop comes to. *)
Definition result_of (t : GdkType) (h : AuthHandler Json) : outcome (gdk_type t) :=
  let? result := parse_result t h in
  if decide (auth_status h = Status_Error) then
    Err (default "unknown auth handler error" (auth_error h))
  else
    do? oensure (bool_decide (auth_status h = Status_Done)) "unexpected auth handler status" in
    ook_or result "auth handler error: no result field".

Lemma impl_unfold t hw p params :
  ∀ ses, run_auth_handler_impl t hw p params ses = (let! h := auth_loop hw params p in lift (result_of t h)) ses.
Proof.
  intros ses. unfold run_auth_handler_impl. apply bind_ext. intros h ses'. unfold result_of, bind, lift.
  destruct (parse_result t h) as [result|e|e]; [|done|done]. simpl.
  destruct (decide _); [by destruct (auth_error h)|].
  unfold ensure, lift. by destruct (oensure _ _).
Qed.

Lemma call_result_run t h j q s :
  call_result t j (hold j q (Value_status (Ok h)) s) = (hold j q (Value_status (Ok h)) s, result_of t h).
Proof.
  unfold call_result. rewrite bind_at, to_json_hold. cbn [as_status].
  unfold result_of, bind, lift. destruct (parse_result t h) as [result|e|e]; [|done|done]. simpl.
  destruct (decide _); [by destruct (auth_error h)|].
  unfold ensure, lift. by destruct (oensure _ _).
Qed.

(** From [s] to [s'], whose session is [t'], everything was given back, [call] included. *)
Record released (call : Z) (s s' : Handles) (t' : GdkSes) : Prop := {
  re_session : h_session s' = t';
  re_json : h_json s' = h_json s;
  re_strings : h_strings s' = h_strings s;
  re_str : h_str s' = h_str s;
  re_sessions : h_sessions s' = h_sessions s;
  re_calls : h_calls s' = delete call (h_calls s);
  re_fresh : fresh s'
}.

Lemma destroy_run call s s1 t' :
  back call s s1 t' →
  GA_destroy_auth_handler call s1 = (s1 <| h_calls ::= delete call |>, Ok tt) ∧
  released call s (s1 <| h_calls ::= delete call |>) t'.
Proof.
  intros [H1 H2 H3 H4 H5 H6 [p H7] H8]. split.
  - unfold GA_destroy_auth_handler, at_ptr. rewrite bind_assoc, bind_gets. by rewrite_field H7.
  - split; try done. destruct H8 as [Hn Hj Hs Hst Hc]. split; [exact Hn|exact Hj|exact Hs|exact Hst|].
    intros q Hq. apply lookup_delete_None. right. by apply Hc.
Qed.

Lemma auth_handler_impl_run t hw params call p s :
  fresh s → h_calls s !! call = Some p →
  let '(t', r) := run_auth_handler_impl t hw p params (h_session s) in
  ∃ n s', released call s s' t' ∧ ∀ fuel, (n ≤ fuel)%nat →
    handles_auth_handler_impl fuel t hw call params s = (s', r).
Proof.
  intros Hs Hcall. pose proof (status_loop_run hw params call p s Hs Hcall) as Hloop.
  rewrite impl_unfold, bind_at.
  destruct (auth_loop hw params p (h_session s)) as [t' r].
  destruct Hloop as (n & s1 & j & q & Hback & Hfree & Hloop).
  pose proof (destroy_run call s s1 t' Hback) as [Hdestroy Hreleased].
  set (s' := s1 <| h_calls ::= delete call |>) in *.
  destruct r as [h|e|e]; cbv beta iota; unfold lift; exists n, s'; (split; [done|]); intros fuel Hfuel;
    specialize (Hloop fuel Hfuel); unfold handles_auth_handler_impl;
    (eapply scoped_run; [|exact Hdestroy]); rewrite bind_at, Hloop; [|done|done].
  eapply scoped_run; [apply call_result_run|]. by apply drop_hold.
Qed.

Lemma auth_handler_run t hw params call p s :
  fresh s → h_calls s !! call = Some p →
  let '(t', r) := run_auth_handler t hw p params (h_session s) in
  ∃ n s', released call s s' t' ∧ ∀ fuel, (n ≤ fuel)%nat →
    handles_auth_handler fuel t hw call params s = (s', r).
Proof.
  intros Hs Hcall. pose proof (auth_handler_impl_run t hw params call p s Hs Hcall) as Himpl.
  unfold run_auth_handler, handles_auth_handler.
  destruct (run_auth_handler_impl t hw p params (h_session s)) as [t' r].
  destruct Himpl as (n & s' & Hreleased & Hrun).
  assert (released call s (on_session (set_hw_status Hw_Idle) s').1 (set_hw_status Hw_Idle t').1) as Hidle.
  { destruct Hreleased as [<- H2 H3 H4 H5 H6 [Hn Hj Hst Hstr Hc]]. by split. }
  destruct r as [a|e|e], hw as [hw|]; eexists n, _; (split; [done|]); intros fuel Hfuel;
    by rewrite (Hrun fuel Hfuel).
Qed.

(** A computation that neither looks at values nor makes or reads any. *)
Record valueless {A} (core : HM A) : Prop := {
  vl_commutes f s : core (s <| h_json ::= f |>) = (((core s).1 <| h_json ::= f |>), (core s).2);
  vl_json s : h_json (core s).1 = h_json s;
  vl_str s : h_str (core s).1 = h_str s
}.

(** The values of the parameters are there during the call, and are then given back. *)
Lemma with_jsons_run {A} (core : HM A) values : ∀ (k : list Z → HM A) s,
  valueless core → fresh s →
  (∀ jsons s1, (∀ j, is_Some (h_json s !! j) → is_Some (h_json s1 !! j)) →
    Forall (λ j, is_Some (h_json s1 !! j)) jsons → k jsons s1 = core s1) →
  with_jsons values k s = core (bump (Z.of_nat (length values)) s).
Proof.
  induction values as [|v values IH]; intros k s Hcore Hs Hk.
  { simpl. rewrite (Hk [] s) by done. f_equal. unfold bump. unfold set. by rewrite Z.add_0_r. }
  cbn [with_jsons]. set (p := h_next s).
  set (s1 := s <| h_next ::= Z.succ |> <| h_json ::= <[p := v]> |>).
  rewrite (bind_run (json_new v) _ s s1 p) by done.
  assert (fresh s1) as Hs1.
  { destruct Hs as [Hn Hj Hst Hstr Hc]. split; [cbn; lia|..]; intros q Hq;
      change (Z.succ p ≤ q) in Hq; [|apply Hst; unfold p in *; lia|apply Hstr; unfold p in *; lia|apply Hc; unfold p in *; lia].
    change (<[p := v]> (h_json s) !! q = None). rewrite lookup_insert_ne by lia. apply Hj. unfold p in *. lia. }
  assert (∀ jsons s2, (∀ j, is_Some (h_json s1 !! j) → is_Some (h_json s2 !! j)) →
    Forall (λ j, is_Some (h_json s2 !! j)) jsons → k (p :: jsons) s2 = core s2) as Hk'.
  { intros jsons s2 Hext Hlive. apply Hk.
    - intros j Hj. apply Hext. change (is_Some (<[p := v]> (h_json s) !! j)).
      destruct (decide (j = p)) as [->|]; [rewrite lookup_insert_eq; by eexists|by rewrite lookup_insert_ne].
    - constructor; [|done]. apply Hext. change (is_Some (<[p := v]> (h_json s) !! p)).
      rewrite lookup_insert_eq. by eexists. }
  pose proof (IH (λ jsons, k (p :: jsons)) s1 Hcore Hs1 Hk') as Hrun.
  set (s2 := bump (Z.of_nat (length (v :: values))) s).
  assert (bump (Z.of_nat (length values)) s1 = s2 <| h_json ::= <[p := v]> |>) as E.
  { unfold s2, s1, bump, set. cbn -[Z.of_nat]. f_equal. rewrite Nat2Z.inj_succ. lia. }
  rewrite E, (vl_commutes core Hcore) in Hrun.
  replace (core s2) with ((core s2).1, (core s2).2) by by destruct (core s2).
  eapply scoped_run; [exact Hrun|]. apply drop_unread.
  - rewrite (vl_json core Hcore). apply (fr_json s Hs). unfold p. lia.
  - rewrite (vl_str core Hcore). apply (fr_str s Hs). unfold p. lia.
Qed.

(** What starting a call does besides. *)
Definition start_core (c : GdkCall) : HM (option Z) :=
  let! log := gets (λ s, gs_log (h_session s)) in
  do! on_session (gdk_emit (Gdk_call c)) in
  match gdk_start log c with
  | Some details => do! modify (λ s, s <| h_error := Ok details |>) in ret None
  | None =>
      let! call := alloc in
      let! log := gets (λ s, gs_log (h_session s)) in
      do! modify (λ s, s <| h_calls ::= <[call := gdk_handler log c]> |>) in
      ret (Some call)
  end.

Lemma valueless_start c : valueless (start_core c).
Proof.
  split; intros; unfold start_core, bind, gets; cbn; by destruct (gdk_start _ _).
Qed.

Lemma for_each_live jsons s :
  Forall (λ j, is_Some (h_json s !! j)) jsons →
  for_each jsons (λ p, let! _v := at_ptr h_json p in ret tt) s = (s, Ok tt).
Proof.
  induction 1 as [|j jsons [v Hv] _ IH]; [done|]. cbn [for_each].
  rewrite (bind_run _ _ s s tt); [exact IH|].
  unfold at_ptr. rewrite bind_assoc, bind_gets. by rewrite_field Hv.
Qed.

Lemma start_run c s :
  fresh s → with_jsons (params_of c) (GA_start c) s =
    start_core c (bump (Z.of_nat (length (params_of c))) s).
Proof.
  intros Hs. apply with_jsons_run; [apply valueless_start|done|].
  intros jsons s1 _ Hlive. unfold GA_start. by rewrite (bind_run _ _ _ _ _ (for_each_live jsons s1 Hlive)).
Qed.

Definition message (failed : string + (string → string)) (details : string) : string :=
  match failed with inl message => message | inr message => message details end.

Lemma start_core_run c s :
  fresh s →
  let ses := (h_session s) <| gs_log ::= cons (Gdk_call c) |> in
  match gdk_start (gs_log (h_session s)) c with
  | Some details =>
      ∃ s1, start_core c s = (s1, Ok None) ∧ h_session s1 = ses ∧ h_error s1 = Ok details ∧
        held s1 = held s ∧ fresh s1
  | None =>
      let call := h_next s in
      ∃ s1, start_core c s = (s1, Ok (Some call)) ∧ h_session s1 = ses ∧
        h_json s1 = h_json s ∧ h_strings s1 = h_strings s ∧ h_str s1 = h_str s ∧
        h_sessions s1 = h_sessions s ∧
        h_calls s1 = <[call := gdk_handler (gs_log ses) c]> (h_calls s) ∧ fresh s1
  end.
Proof.
  intros Hs ses. unfold start_core. rewrite bind_gets, bind_on_session. cbn [gdk_emit modify].
  destruct (gdk_start (gs_log (h_session s)) c) as [details|].
  - eexists. split; [reflexivity|]. split_and!; [done..|].
    destruct Hs as [Hn Hj Hst Hstr Hc]. by split.
  - eexists. split; [reflexivity|]. split_and!; [done..|].
    destruct Hs as [Hn Hj Hst Hstr Hc]. split; [cbn; lia|..]; intros q Hq; change (Z.succ (h_next s) ≤ q) in Hq;
      [apply Hj; lia|apply Hst; lia|apply Hstr; lia|].
    change (<[h_next s := gdk_handler (gs_log ses) c]> (h_calls s) !! q = None).
    rewrite lookup_insert_ne by lia. apply Hc. lia.
Qed.

(** C37: A call of the library does with pointers what the session says it does, and gives
    back every pointer.  Whatever GDK and the device answer, and however the call ends -
    with a result, an error of any of its steps, or a panic -, from enough rounds of its
    loop on the code that handles the pointers ends as the call without them does, uses no
    pointer that was destroyed and destroys none twice, and leaves of all values, strings
    and calls exactly those that there were before. *)
Theorem gdk_calls_refined t hw c params failed what s :
  fresh s →
  let '(t', r) := call_gdk_err t hw c params (message failed) what (h_session s) in
  ∃ n s', (∀ fuel, (n ≤ fuel)%nat → handles_call fuel t hw c params failed what s = (s', r)) ∧
    h_session s' = t' ∧ held s' = held s ∧ fresh s'.
Proof.
  intros Hs. set (s0 := bump (Z.of_nat (length (params_of c))) s).
  assert (fresh s0) as Hs0 by (apply fresh_bump; [lia|done]).
  pose proof (start_run c s Hs) as Hrun. fold s0 in Hrun.
  pose proof (start_core_run c s0 Hs0) as Hcore. cbv zeta in Hcore.
  change (h_session s0) with (h_session s) in Hcore.
  unfold call_gdk_err. rewrite bind_gets. unfold gdk_emit. rewrite bind_modify.
  destruct (gdk_start (gs_log (h_session s)) c) as [details|].
  - destruct Hcore as (s1 & Hstart & Hses & Herror & Hheld & Hs1). rewrite Hstart in Hrun.
    pose proof (error_details_run s1 details Hs1 Herror) as Hdetails.
    destruct failed as [m|m].
    + exists 0%nat, s1. split; [|done]. intros fuel _. unfold handles_call. by rewrite (bind_run _ _ _ _ _ Hrun).
    + exists 0%nat, (bump 2 s1). split; [|split_and!; [done|done|by apply fresh_bump]].
      intros fuel _. unfold handles_call. rewrite (bind_run _ _ _ _ _ Hrun).
      by rewrite (bind_run _ _ _ _ _ Hdetails).
  - destruct Hcore as (s1 & Hstart & Hses & Hj & Hst & Hstr & Hss & Hcalls & Hs1). rewrite Hstart in Hrun.
    rewrite bind_gets. set (ses := (h_session s) <| gs_log ::= cons (Gdk_call c) |>) in *.
    assert (h_calls s1 !! h_next s0 = Some (gdk_handler (gs_log ses) c)) as Hcall.
    { rewrite Hcalls. apply lookup_insert_eq. }
    pose proof (auth_handler_run t hw params (h_next s0) _ s1 Hs1 Hcall) as Hauth. rewrite Hses in Hauth.
    unfold map_err. destruct (run_auth_handler t hw (gdk_handler (gs_log ses) c) params ses) as [t' r].
    destruct Hauth as (n & s' & [R1 R2 R3 R4 R5 R6 R7] & Hauth).
    assert (held s' = held s) as Hheld.
    { unfold held. rewrite R2, R3, R4, R5, R6, Hj, Hst, Hstr, Hss, Hcalls.
      rewrite delete_insert_id; [done|]. apply (fr_calls s0 Hs0). lia. }
    destruct r as [a|e|e]; exists n, s'; (split; [|done]); intros fuel Hfuel; unfold handles_call;
      rewrite (bind_run _ _ _ _ _ Hrun), (Hauth fuel Hfuel); by destruct failed.
Qed.
End Calls.

(** A notification is read, passed on and given back. *)
Lemma notification_run account_id n s :
  fresh s →
  (let! ptr := make_json (Value_notification (Ok n)) in notification_callback_cpp account_id ptr) s =
    ((bump 2 s) <| h_notified ::= cons (account_id, n) |>, Ok tt).
Proof.
  intros Hs. set (v := Value_notification (Ok n)).
  set (s1 := s <| h_next ::= Z.succ |> <| h_json ::= <[h_next s := v]> |>).
  rewrite (bind_run _ _ s s1 (h_next s)) by done. unfold notification_callback_cpp.
  rewrite (bind_run _ _ s1 s1 (h_next s)) by by apply json_owned_run, fr_next.
  eapply scoped_run.
  - rewrite (bind_run _ _ _ _ _ (to_str_first v s Hs)), bind_at, to_json_hold. reflexivity.
  - rewrite hold_notified. apply drop_hold. exact (fresh_free 2 s Hs).
Qed.

(** ** Sessions *)

Module HandlesSample.
Definition no_handles : Handles := {|
  h_session := WalletSample.session; h_next := 1; h_json := ∅; h_strings := ∅; h_str := ∅;
  h_calls := ∅; h_sessions := ∅; h_error := Err "no error"; h_notified := [] |}.

Lemma no_handles_fresh : fresh no_handles.
Proof. by split. Qed.

Definition info : SesLoginInfo :=
  (gs_login_info WalletSample.session) <| sl_network := Some (Custom "localhost" 50001 false) |>.

(** GDK when it cannot be connected. *)
Definition offline : GdkEnv := WalletSample.sample_env <| (@gdk_connect) := λ _ _ _, Some "refused" |>.
End HandlesSample.

Section HandlesExamples.
Import HandlesSample.
#[local] Existing Instance WalletSample.sample_env.

Lemma gdk_calls_refined_witness :
  ∃ n s', (∀ fuel, (n ≤ fuel)%nat →
      handles_call fuel T_UnspentOutputs None (GA_get_unspent_outputs {| uoa_subaccount := 0; uoa_num_confs := 0 |})
        handler_params (inl "failed") id no_handles = (s', Ok {[WalletSample.policy_asset := [WalletSample.utxo]]})) ∧
    h_session s' = (call_gdk_err T_UnspentOutputs None
      (GA_get_unspent_outputs {| uoa_subaccount := 0; uoa_num_confs := 0 |}) handler_params (λ _, "failed") id
      WalletSample.session).1 ∧
    held s' = held no_handles ∧ fresh s'.
Proof.
  exact (gdk_calls_refined T_UnspentOutputs None
    (GA_get_unspent_outputs {| uoa_subaccount := 0; uoa_num_confs := 0 |}) handler_params (inl "failed") id
    no_handles no_handles_fresh).
Defined.

(** A session that was opened is what is left, and dropping it leaves nothing, ... *)
Example session_dropped :
  let '(s, r) := handles_start_processing info no_handles in
  ∃ session, r = Ok session ∧ held s = (∅, ∅, ∅, ∅, {[ session := true ]}) ∧
    held (GA_destroy_session session s).1 = (∅, ∅, ∅, ∅, ∅).
Proof. vm_compute. eexists. by split_and!. Qed.

(** ... but one that could not be connected has no owner, and stays. *)
Example failed_session_leaks :
  let '(s, r) := @handles_start_processing offline info no_handles in
  r = Err "GA_connect failed: refused" ∧ held s = (∅, ∅, ∅, ∅, {[ 1 := true ]}).
Proof. vm_compute. by split. Qed.
End HandlesExamples.
