(* ===== verification/JadeSession.v ===== *)
(** * The session of a hardware wallet

    An AMP wallet on a Jade has two sessions ([GdkSesMng] in
    rust/sideswap_client/src/gdk_ses_jade.rs): a watch-only session for all that needs no
    keys, and one that signs with the device.  GDK tells on a thread of its own when the
    second one is connected; it is logged in when it is first needed. *)
From stdpp Require Import base numbers gmap strings list.
From Stdlib Require Import ZArith Lia.
From S2P Require Import Prelude F64 Api Types Env Payjoin ClientApi Client Serial Jade GdkApi Session Wallet.

Open Scope Z_scope.
#[local] Set Primitive Projections.

Inductive GdkState := Gdk_Disconnected | Gdk_Connected | Gdk_LoggedIn.

#[export] Instance GdkState_eq_dec : EqDecision GdkState.
Proof. solve_decision. Defined.

Record GdkSesMng := {
  gm_watch_only : GdkSes;
  gm_jade : GdkSes;
  gm_jade_state : GdkState
}.

Definition MngM : Type → Type := M GdkSesMng.

(** The notification callback of the second session. *)
Definition callback_jade (current_state : ConnectionState) (state : GdkState) : GdkState :=
  match current_state with
  | Connected => Gdk_Connected
  | Disconnected => Gdk_Disconnected
  | Exited => state
  end.

(** The library under either session, and what it told of the connection of the second
    one while one of them was busy, oldest first. *)
Class JadeSesEnv := {
  watch_env : GdkEnv;
  jade_env : GdkEnv;
  jade_notifs : GdkSes → GdkSes → list ConnectionState
}.

Section JadeSession.
Context `{JadeSesEnv}.

Definition deliver : MngM unit :=
  modify (λ s, s <| gm_jade_state ::= λ state,
    foldl (λ state n, callback_jade n state) state (jade_notifs (gm_watch_only s) (gm_jade s)) |>).

Definition on_watch {A} (m : GdkM A) : MngM A := λ s,
  let '(w, r) := m (gm_watch_only s) in ((deliver (s <| gm_watch_only := w |>)).1, r).

Definition on_jade {A} (m : GdkM A) : MngM A := λ s,
  let '(j, r) := m (gm_jade s) in ((deliver (s <| gm_jade := j |>)).1, r).

Definition get_jade_state : MngM GdkState := gets gm_jade_state.
Definition set_jade_state (state : GdkState) : MngM unit := modify (λ s, s <| gm_jade_state := state |>).

Definition check_jade : MngM unit :=
  let! state := get_jade_state in
  match state with
  | Gdk_Disconnected => fail "GDK jade is disconnected"
  | Gdk_Connected =>
      do! on_jade (@login jade_env) in
      set_jade_state Gdk_LoggedIn
  | Gdk_LoggedIn => ret tt
  end.

(** ** The operations of the session *)

Definition mng_login : MngM unit := on_watch (@login watch_env).
Definition mng_register : MngM unit := fail "not implemented".
Definition mng_set_watch_only (username password : string) : MngM unit := fail "not implemented".
Definition mng_connect : MngM unit := on_watch connect.
Definition mng_disconnect : MngM unit := on_watch disconnect.
Definition mng_get_gaid : MngM string := on_watch try_get_gaid.
Definition mng_unlock_hww : MngM unit := on_jade (@unlock_hww jade_env).
Definition mng_get_balances : MngM (gmap AssetId Z) := on_watch (@get_balances watch_env).
Definition mng_get_transactions : MngM (list Transaction) := on_watch (@get_transactions watch_env).
Definition mng_get_receive_address : MngM GdkAddress := on_watch (@get_receive_address watch_env).
Definition mng_get_change_address : MngM GdkAddress := on_watch (@get_change_address watch_env).
Definition mng_create_tx (tx : CreateTx) : MngM Json := on_watch (@try_create_tx watch_env tx).

Definition mng_send_tx (tx : Json) (assets : gmap AssetId Asset) : MngM Txid :=
  do! check_jade in on_jade (@try_send_tx jade_env tx assets).

Definition mng_create_payjoin `{PjEnv} (req : ProtoCreatePayjoin) : MngM ProtoCreatedPayjoin :=
  on_watch (@try_create_payjoin watch_env _ req).

Definition mng_send_payjoin `{PjEnv} (extract_tx : Pset → outcome string)
    (req : ProtoCreatedPayjoin) (assets : gmap AssetId Asset) : MngM Txid :=
  do! check_jade in on_jade (@try_send_payjoin jade_env _ extract_tx req assets).

Definition mng_get_utxos : MngM GdkUtxos := on_watch (@try_get_unspent_outputs watch_env).

Definition mng_get_tx_fee (asset_id : AssetId) (send_amount : Z) (addr : string) : MngM TxFeeInfo :=
  on_watch (@get_tx_fee watch_env asset_id send_amount addr).

Definition mng_make_pegout_payment (send_amount : Z) (peg_addr : string) (send_amount_exact : Z)
    : MngM SesPegPayment :=
  do! check_jade in on_jade (@make_pegout_payment jade_env send_amount peg_addr send_amount_exact).

Definition mng_get_blinded_values (txid : string) : MngM (list string) :=
  on_watch (@get_blinded_values watch_env txid).

(** When the addresses are asked for from the start, the second session is tried. *)
Definition check_jade_alive (last_pointer : option Z) (is_internal : bool) : MngM unit :=
  let! state := get_jade_state in
  if bool_decide (last_pointer = None) && bool_decide (state = Gdk_LoggedIn) then
    let! check_result := attempt (on_jade (@get_previous_addresses jade_env None is_internal)) in
    match check_result with
    | inr _ =>
        do! on_jade disconnect in
        do! on_jade connect in
        set_jade_state Gdk_Disconnected
    | inl _ => ret tt
    end
  else ret tt.

Definition mng_get_previous_addresses (last_pointer : option Z) (is_internal : bool)
    : MngM GdkPreviousAddresses :=
  do! check_jade_alive last_pointer is_internal in
  on_watch (@get_previous_addresses watch_env last_pointer is_internal).

Definition mng_sig_single_maker_tx (input : SigSingleInput) (output : SesSigSingleOutput)
    (assets : gmap AssetId Asset) : MngM SesSigSingleMaker :=
  do! check_jade in on_jade (@sig_single_maker_tx jade_env input output assets).

Definition mng_verify_and_sign_pset (amounts : SwapAmounts) (pset : string) (nonces : list string)
    (assets : gmap AssetId Asset) : MngM string :=
  do! check_jade in on_jade (@verify_and_sign_pset jade_env amounts pset nonces assets).

Definition mng_set_memo (txid memo : string) : MngM unit := on_watch (@set_memo watch_env txid memo).

(** Both sessions are opened. *)
Definition jade_session (info_jade : SesLoginInfo) (watch_only : WatchOnly) : outcome GdkSesMng :=
  let info_watch_only := info_jade <| sl_wallet_info := Ses_WatchOnly watch_only |> in
  let? watch_only := (@start_processing_impl watch_env info_watch_only []).2 in
  let? jade := (@start_processing_impl jade_env info_jade []).2 in
  Ok {| gm_watch_only := watch_only; gm_jade := jade; gm_jade_state := Gdk_Disconnected |}.

(** ** Any use of the session *)

Inductive SesOp :=
  | Op_login
  | Op_register
  | Op_set_watch_only (username password : string)
  | Op_connect
  | Op_disconnect
  | Op_get_gaid
  | Op_unlock_hww
  | Op_get_balances
  | Op_get_transactions
  | Op_get_receive_address
  | Op_get_change_address
  | Op_create_tx (tx : CreateTx)
  | Op_send_tx (tx : Json) (assets : gmap AssetId Asset)
  | Op_create_payjoin (req : ProtoCreatePayjoin)
  | Op_send_payjoin (req : ProtoCreatedPayjoin) (assets : gmap AssetId Asset)
  | Op_get_utxos
  | Op_get_tx_fee (asset_id : AssetId) (send_amount : Z) (addr : string)
  | Op_make_pegout_payment (send_amount : Z) (peg_addr : string) (send_amount_exact : Z)
  | Op_get_blinded_values (txid : string)
  | Op_get_previous_addresses (last_pointer : option Z) (is_internal : bool)
  | Op_sig_single_maker_tx (input : SigSingleInput) (output : SesSigSingleOutput)
      (assets : gmap AssetId Asset)
  | Op_verify_and_sign_pset (amounts : SwapAmounts) (pset : string) (nonces : list string)
      (assets : gmap AssetId Asset)
  | Op_set_memo (txid memo : string).

Definition ignored {A} (m : MngM A) : MngM unit := let! _ := attempt m in ret tt.

(** The worker goes on after an error; a panic ends the program. *)
Definition run_op `{PjEnv} (extract_tx : Pset → outcome string) (op : SesOp) : MngM unit :=
  match op with
  | Op_login => ignored mng_login
  | Op_register => ignored mng_register
  | Op_set_watch_only username password => ignored (mng_set_watch_only username password)
  | Op_connect => mng_connect
  | Op_disconnect => mng_disconnect
  | Op_get_gaid => ignored mng_get_gaid
  | Op_unlock_hww => ignored mng_unlock_hww
  | Op_get_balances => ignored mng_get_balances
  | Op_get_transactions => ignored mng_get_transactions
  | Op_get_receive_address => ignored mng_get_receive_address
  | Op_get_change_address => ignored mng_get_change_address
  | Op_create_tx tx => ignored (mng_create_tx tx)
  | Op_send_tx tx assets => ignored (mng_send_tx tx assets)
  | Op_create_payjoin req => ignored (mng_create_payjoin req)
  | Op_send_payjoin req assets => ignored (mng_send_payjoin extract_tx req assets)
  | Op_get_utxos => ignored mng_get_utxos
  | Op_get_tx_fee asset_id send_amount addr => ignored (mng_get_tx_fee asset_id send_amount addr)
  | Op_make_pegout_payment send_amount peg_addr exact =>
      ignored (mng_make_pegout_payment send_amount peg_addr exact)
  | Op_get_blinded_values txid => ignored (mng_get_blinded_values txid)
  | Op_get_previous_addresses last_pointer is_internal =>
      ignored (mng_get_previous_addresses last_pointer is_internal)
  | Op_sig_single_maker_tx input output assets => ignored (mng_sig_single_maker_tx input output assets)
  | Op_verify_and_sign_pset amounts pset nonces assets =>
      ignored (mng_verify_and_sign_pset amounts pset nonces assets)
  | Op_set_memo txid memo => ignored (mng_set_memo txid memo)
  end.

(** Operations of the worker and notifications of the library, in any order. *)
Definition run_jade_session `{PjEnv} (extract_tx : Pset → outcome string)
    (steps : list (ConnectionState + SesOp)) : MngM unit :=
  for_each steps (λ step,
    match step with
    | inl current_state => modify (λ s, s <| gm_jade_state ::= callback_jade current_state |>)
    | inr op => run_op extract_tx op
    end).
End JadeSession.

(** ** What a session asks of the library, whatever it does *)

Section Calls.
Context `{GdkEnv} (J : list GdkCall → Prop) (P : GdkCall → Prop).
Hypothesis Hcall : ∀ c l, P c → J l → J (c :: l).

Definition kept (s : GdkSes) : Prop := J (gdk_calls s).

Lemma kept_quiet e s : is_call e = false → kept s → kept (s <| gs_log ::= cons e |>).
Proof. by destruct e. Qed.

Lemma kept_call_gdk_err t hw c params failed what :
  P c → keeps kept (call_gdk_err t hw c params failed what).
Proof.
  intros Hc. unfold call_gdk_err. apply keeps_bind; [apply keeps_gets|]. intros rc.
  apply keeps_bind; [intros s; by apply Hcall|]. intros _.
  destruct rc; [apply keeps_fail|]. apply keeps_bind; [apply keeps_gets|]. intros p.
  apply keeps_map_err, keeps_run_auth_handler, kept_quiet.
Qed.

Lemma kept_ses_gdk t c params name what : P c → keeps kept (ses_gdk t c params name what).
Proof.
  intros Hc. unfold ses_gdk, call_gdk. apply keeps_bind; [apply keeps_gets|]. intros hw.
  by apply kept_call_gdk_err.
Qed.

Lemma kept_emit e : is_call e = false → keeps kept (gdk_emit e).
Proof. intros He s. by apply kept_quiet. Qed.

(** Everything else leaves the calls alone. *)
Ltac kept HP :=
  repeat first
    [ progress unfold get_subaccount, unwrap, unwrap_asset, blind_transaction, send_transaction,
        try_get_gaid, reconnect_hint, payjoin_utxo
    | lazymatch goal with
      | |- keeps _ (ses_gdk ?t ?c _ _ _) => apply (kept_ses_gdk t c), HP
      | |- keeps _ (call_gdk_err ?t _ ?c _ _ _) => apply (kept_call_gdk_err t _ c), HP
      | |- keeps _ (call_gdk ?t _ ?c _ _ _) => unfold call_gdk
      | |- keeps _ (map_err _ _) => apply keeps_map_err
      | |- keeps _ (gdk_emit _) => apply kept_emit; reflexivity
      | |- keeps _ (modify _) => apply keeps_modify; intros ? Hs; exact Hs
      | |- keeps _ (collect_m _ _) => apply keeps_collect_m; intros ?
      | |- keeps _ (loop_fuel _ _ _) => apply keeps_loop_fuel; intros ?
      | |- keeps _ (let '(_, _) := ?x in _) => destruct x
      end
    | keeps_step ].

Section Reading.
Hypothesis Hread : ∀ c, ¬ signs c → P c.

Ltac reads := kept Hread; try (intros []).

Lemma kept_unspent_outputs : keeps kept try_get_unspent_outputs.
Proof. unfold try_get_unspent_outputs. reads. Qed.
Lemma kept_create_transaction c : ¬ signs c → keeps kept (create_transaction c).
Proof. intros Hc. unfold create_transaction, check_created. kept Hread. done. Qed.
Lemma kept_load_transactions : keeps kept load_transactions.
Proof. unfold load_transactions, load_transactions_page. reads. Qed.
Lemma kept_addr_info is_internal : keeps kept (try_get_addr_info is_internal).
Proof. unfold try_get_addr_info. reads. Qed.
#[local] Hint Resolve kept_unspent_outputs kept_load_transactions kept_addr_info : keeps.
#[local] Hint Extern 1 (keeps _ (create_transaction _)) =>
  apply kept_create_transaction; intros [] : keeps.

Lemma kept_get_transactions : keeps kept get_transactions.
Proof. unfold get_transactions. reads. Qed.
Lemma kept_get_balances : keeps kept get_balances.
Proof. unfold get_balances. reads. Qed.
Lemma kept_try_create_tx tx : keeps kept (try_create_tx tx).
Proof. unfold try_create_tx. reads. Qed.
Lemma kept_get_tx_fee asset_id amount addr : keeps kept (get_tx_fee asset_id amount addr).
Proof. unfold get_tx_fee, check_created. reads. Qed.
Lemma kept_get_blinded_values txid : keeps kept (get_blinded_values txid).
Proof. unfold get_blinded_values. reads. Qed.
Lemma kept_get_previous_addresses p i : keeps kept (get_previous_addresses p i).
Proof. unfold get_previous_addresses. reads. Qed.
Lemma kept_set_memo txid memo : keeps kept (set_memo txid memo).
Proof. unfold set_memo. reads. Qed.
Lemma kept_unlock_hww : keeps kept unlock_hww.
Proof. unfold unlock_hww. reads; apply keeps_unlock_hw, kept_quiet. Qed.
Lemma kept_amp_subaccount hw : keeps kept (amp_subaccount hw).
Proof. unfold amp_subaccount. reads. Qed.
Lemma kept_login : keeps kept login.
Proof. unfold login. pose proof kept_amp_subaccount. reads. Qed.
Lemma kept_try_create_payjoin `{PjEnv} req : keeps kept (try_create_payjoin req).
Proof. unfold try_create_payjoin. reads. Qed.
End Reading.

Section Signing.
Hypothesis Hany : ∀ c, P c.

#[local] Hint Extern 1 (keeps _ try_get_unspent_outputs) =>
  apply kept_unspent_outputs; intros ? _; apply Hany : keeps.
#[local] Hint Extern 1 (keeps _ (try_get_addr_info _)) =>
  apply kept_addr_info; intros ? _; apply Hany : keeps.
#[local] Hint Extern 1 (keeps _ (create_transaction _)) =>
  apply kept_create_transaction; [intros ? _; apply Hany|intros []] : keeps.

Lemma kept_try_send_tx tx assets : keeps kept (try_send_tx tx assets).
Proof. unfold try_send_tx. kept Hany. Qed.
Lemma kept_try_send_payjoin `{PjEnv} extract_tx req assets :
  keeps kept (try_send_payjoin extract_tx req assets).
Proof. unfold try_send_payjoin. kept Hany. Qed.
Lemma kept_make_pegout_payment amount addr exact : keeps kept (make_pegout_payment amount addr exact).
Proof. unfold make_pegout_payment. kept Hany. Qed.
Lemma kept_verify_and_sign_pset amounts pset nonces assets :
  keeps kept (verify_and_sign_pset amounts pset nonces assets).
Proof. unfold verify_and_sign_pset. kept Hany. Qed.
Lemma kept_sig_single_maker_tx input output assets :
  keeps kept (sig_single_maker_tx input output assets).
Proof.
  unfold sig_single_maker_tx, sig_single_maker_utxo, make_utxo, chained_utxo. kept Hany.
Qed.
End Signing.
End Calls.

(** ** Who signs, and when *)

Definition is_login (c : GdkCall) : Prop := match c with GA_login_user _ _ => True | _ => False end.

(** Everything signed came after a login; calls are newest first. *)
Fixpoint signs_after_login (calls : list GdkCall) : Prop :=
  match calls with
  | [] => True
  | c :: calls => (signs c → Exists is_login calls) ∧ signs_after_login calls
  end.

(** Logged in at some time. *)
Definition logged_in_once (calls : list GdkCall) : Prop :=
  Exists is_login calls ∧ signs_after_login calls.

Definition signs_nothing (calls : list GdkCall) : Prop := Forall (λ c, ¬ signs c) calls.

Section Manager.
Context `{JadeSesEnv}.

(** The watch-only session signs nothing; the other one nothing before a login, and it
    has logged in when it is taken to be. *)
Definition guarded (s : GdkSesMng) : Prop :=
  signs_nothing (gdk_calls (gm_watch_only s)) ∧ signs_after_login (gdk_calls (gm_jade s)) ∧
  (gm_jade_state s = Gdk_LoggedIn → Exists is_login (gdk_calls (gm_jade s))).

Lemma guarded_callback s n :
  guarded s → guarded (s <| gm_jade_state ::= callback_jade n |>).
Proof.
  intros (Hw & Hj & Hl). split; [exact Hw|]. split; [exact Hj|]. destruct n; simpl; [done|done|exact Hl].
Qed.

Lemma guarded_deliver : keeps guarded deliver.
Proof.
  intros s. unfold deliver. simpl. generalize (jade_notifs (gm_watch_only s) (gm_jade s)) as l.
  intros l (Hw & Hj & Hl). split; [exact Hw|]. split; [exact Hj|]. simpl. revert Hl.
  generalize (gm_jade_state s). induction l as [|n l IH]; intros state Hl; simpl; [exact Hl|].
  apply IH. destruct n; simpl; [done|done|exact Hl].
Qed.

Lemma guarded_watch {A} (m : GdkM A) : keeps (kept signs_nothing) m → keeps guarded (on_watch m).
Proof.
  intros Hm s (Hw & Hs). unfold on_watch. specialize (Hm (gm_watch_only s) Hw).
  destruct (m _) as [w r]. apply guarded_deliver. by split.
Qed.

(** Signing needs a login before; other calls do not. *)
Lemma guarded_jade {A} (m : GdkM A) :
  keeps (kept signs_after_login) m → keeps (kept logged_in_once) m → keeps guarded (on_jade m).
Proof.
  intros Hm Hm' s (Hw & Hj & Hl). unfold on_jade. specialize (Hm (gm_jade s) Hj).
  specialize (Hm' (gm_jade s)). destruct (m _) as [j r]. apply guarded_deliver.
  split; [exact Hw|]. split; [exact Hm|]. intros Hstate. apply Hm'. by split; [apply Hl|].
Qed.
Lemma logged_in_once_cons c l : True → logged_in_once l → logged_in_once (c :: l).
Proof. intros _ [Hl Hs]. split; [by apply Exists_cons_tl|]. split; [by intros _|exact Hs]. Qed.

Lemma signs_after_login_cons c l : ¬ signs c → signs_after_login l → signs_after_login (c :: l).
Proof. intros Hc Hl. split; [|exact Hl]. by intros ?. Qed.

Lemma signs_nothing_cons c l : ¬ signs c → signs_nothing l → signs_nothing (c :: l).
Proof. intros Hc Hl. by constructor. Qed.

Lemma triple_gets {A B} (I J : GdkSes → Prop) (f : GdkSes → A) (k : A → GdkM B) :
  (∀ a, triple I (k a) J) → triple I (bind (gets f) k) J.
Proof. intros Hk s Hs. rewrite bind_gets. by apply Hk. Qed.

(** Logging in is a call of its own. *)
Lemma login_logs_in `{GdkEnv} : triple (kept signs_after_login) login (kept logged_in_once).
Proof.
  unfold login. apply triple_gets. intros info. eapply triple_then.
  - unfold call_gdk, call_gdk_err. apply triple_gets. intros rc s Hs.
    unfold bind at 1. cbn -[run_auth_handler map_err bind gets].
    set (s1 := set gs_log _ s).
    assert (kept logged_in_once s1) as Hs1 by (split; [by apply Exists_cons_hd|by split]).
    clearbody s1. destruct rc; [exact Hs1|]. rewrite bind_gets.
    apply keeps_map_err; [|exact Hs1].
    apply (keeps_run_auth_handler _ (kept_quiet _) T_LoginUserResult).
  - intros _. destruct (negb _); [|by apply keeps_modify].
    apply keeps_bind; [|intros a; by apply keeps_modify].
    apply (kept_amp_subaccount _ (λ _, True)); [apply logged_in_once_cons|done].
Qed.

(** After the check the second session has logged in. *)
Lemma check_jade_guarded s :
  guarded s →
  guarded (check_jade s).1 ∧
  ((check_jade s).2 = Ok tt → Exists is_login (gdk_calls (gm_jade (check_jade s).1))).
Proof.
  intros Hs. pose proof Hs as (Hw & Hj & Hl). unfold check_jade, get_jade_state. rewrite bind_gets.
  destruct (gm_jade_state s) eqn:Estate; rewrite_field Estate.
  - split; [exact Hs|]. by intros [=].
  - pose proof (@login_logs_in jade_env (gm_jade s) Hj) as Hlogin. unfold on_jade, bind.
    destruct (@login jade_env (gm_jade s)) as [j r]. simpl in Hlogin. destruct Hlogin as [Hin Hj'].
    assert (guarded (deliver (s <| gm_jade := j |>)).1) as Hd.
    { apply guarded_deliver. split; [exact Hw|]. by split. }
    destruct r; [|by split; [exact Hd|intros [=]]..]. split; [|by intros _]. by split.
  - split; [exact Hs|]. intros _. by apply Hl.
Qed.

(** An operation that signs, after the check. *)
Lemma guarded_signing {A} (m : GdkM A) :
  keeps (kept logged_in_once) m → keeps guarded (do! check_jade in on_jade m).
Proof.
  intros Hm s Hs. destruct (check_jade_guarded s Hs) as [Hc Hin]. unfold bind.
  destruct (check_jade s) as [s1 [[]| |]]; simpl in *; [|exact Hc..].
  destruct Hc as (Hw & Hj & _). specialize (Hin eq_refl).
  unfold on_jade. specialize (Hm (gm_jade s1)). destruct (m _) as [j r]. apply guarded_deliver.
  destruct Hm as [Hin' Hj']; [by split|]. split; [exact Hw|]. by split.
Qed.

Lemma guarded_ignored {A} (m : MngM A) : keeps guarded m → keeps guarded (ignored m).
Proof. intros Hm. unfold ignored. by apply keeps_bind; [apply keeps_attempt|intros r; apply keeps_ret]. Qed.

Lemma guarded_check_jade_alive p i : keeps guarded (check_jade_alive p i).
Proof.
  unfold check_jade_alive, get_jade_state, set_jade_state. apply keeps_bind; [apply keeps_gets|].
  intros state. destruct (_ && _); [|apply keeps_ret]. apply keeps_bind.
  - apply keeps_attempt, guarded_jade.
    + by apply (kept_get_previous_addresses _ _ signs_after_login_cons).
    + by apply (kept_get_previous_addresses _ _ logged_in_once_cons).
  - intros [_|_]; [apply keeps_ret|].
    apply keeps_bind; [by apply guarded_jade; apply keeps_modify|]. intros _.
    apply keeps_bind; [by apply guarded_jade; apply keeps_modify|]. intros _.
    apply keeps_modify. intros s (Hw & Hj & _). by split.
Qed.

Lemma guarded_run_op `{PjEnv} extract_tx op : keeps guarded (run_op extract_tx op).
Proof.
  pose proof signs_nothing_cons as Hw. pose proof logged_in_once_cons as Hj.
  destruct op; simpl; try apply guarded_ignored; try apply guarded_signing; try apply guarded_watch.
  - by apply (kept_login _ _ Hw).
  - apply keeps_fail.
  - apply keeps_fail.
  - by apply keeps_modify.
  - by apply keeps_modify.
  - unfold try_get_gaid. keeps.
  - apply guarded_jade; apply (kept_unlock_hww _).
  - by apply (kept_get_balances _ _ Hw).
  - by apply (kept_get_transactions _ _ Hw).
  - by apply (kept_addr_info _ _ Hw).
  - by apply (kept_addr_info _ _ Hw).
  - by apply (kept_try_create_tx _ _ Hw).
  - by apply (kept_try_send_tx _ _ Hj).
  - by apply (kept_try_create_payjoin _ _ Hw).
  - by apply (kept_try_send_payjoin _ _ Hj).
  - by apply (kept_unspent_outputs _ _ Hw).
  - by apply (kept_get_tx_fee _ _ Hw).
  - by apply (kept_make_pegout_payment _ _ Hj).
  - by apply (kept_get_blinded_values _ _ Hw).
  - unfold mng_get_previous_addresses. apply keeps_bind; [apply guarded_check_jade_alive|]. intros _.
    apply guarded_watch. by apply (kept_get_previous_addresses _ _ Hw).
  - by apply (kept_sig_single_maker_tx _ _ Hj).
  - by apply (kept_verify_and_sign_pset _ _ Hj).
  - by apply (kept_set_memo _).
Qed.

(** A new session has asked nothing. *)
Lemma select_network_quiet `{GdkEnv} info :
  keeps (Forall (λ e, is_call e = false)) (select_network info).
Proof.
  unfold select_network. keeps; apply keeps_modify; intros log Hlog; by constructor.
Qed.

Lemma quiet_no_calls s : Forall (λ e, is_call e = false) (gs_log s) → gdk_calls s = [].
Proof.
  unfold gdk_calls. induction (gs_log s) as [|e l IH]; [done|]. intros [He Hl]%Forall_cons.
  specialize (IH Hl). by destruct e.
Qed.

Lemma start_asks_nothing `{GdkEnv} info s :
  (start_processing_impl info []).2 = Ok s → gdk_calls s = [].
Proof.
  intros Hs. destruct (start_processing_impl info []) as [log r] eqn:E. simpl in Hs. subst r.
  unfold start_processing_impl in E. ok_inv.
  match goal with H : select_network _ _ = _ |- _ =>
    pose proof (select_network_quiet info [] ltac:(constructor)) as Hq; rewrite H in Hq end.
  destruct (AssetId_from_str _); [|done..]. destruct (gdk_connect _ _ _); [done|]. ok_inv.
  apply quiet_no_calls. by constructor.
Qed.

Lemma guarded_start info watch_only s : jade_session info watch_only = Ok s → guarded s.
Proof.
  unfold jade_session. intros Hs. ok_inv.
  repeat match goal with H : _.2 = Ok _ |- _ => apply start_asks_nothing in H end.
  unfold guarded. cbn [gm_watch_only gm_jade gm_jade_state].
  repeat match goal with H : gdk_calls _ = [] |- _ => rewrite H; clear H end.
  split; [by constructor|]. by split.
Qed.

Lemma signs_after_login_split l c l' :
  signs_after_login (l ++ c :: l') → signs c → ∃ login, login ∈ l' ∧ is_login login.
Proof.
  induction l as [|d l IH]; simpl; [|by intros [_ Hl]; apply IH].
  intros [Hin _] Hc. specialize (Hin Hc). apply Exists_exists in Hin as (login & Hin & Hl). by exists login.
Qed.
End Manager.

(** C5: who signs for a wallet on a Jade, and when.  Whatever the worker asks of the
    session of such a wallet, and whatever GDK tells of its connection in between or
    meanwhile, the watch-only session never signs or sends anything, and the session of
    the device signs or sends only after it asked GDK to log in. *)
Theorem jade_session_signs `{JadeSesEnv} `{PjEnv} info watch_only s extract_tx steps :
  jade_session info watch_only = Ok s →
  let s' := (run_jade_session extract_tx steps s).1 in
  (∀ c, c ∈ gdk_calls (gm_watch_only s') → ¬ signs c) ∧
  ∀ later c earlier, gdk_calls (gm_jade s') = later ++ c :: earlier → signs c →
    ∃ login, login ∈ earlier ∧ is_login login.
Proof.
  intros Hs%guarded_start. assert (guarded (run_jade_session extract_tx steps s).1) as Hrun.
  { revert s Hs. apply keeps_for_each. intros [n|op] _; [|apply guarded_run_op].
    apply keeps_modify. intros s. apply guarded_callback. }
  destruct Hrun as (Hw & Hj & _). split.
  - intros c Hc. revert c Hc. by apply Forall_forall.
  - intros later c earlier E Hc. rewrite E in Hj. by apply (signs_after_login_split later c).
Qed.

(** *** A transaction sent after the device connected *)
Module JadeSessionSample.
Definition account : Subaccount := {|
  suba_hidden := false; suba_name := "AMP"; suba_pointer := 1; suba_receiving_id := "GA1";
  suba_type := SUBACCOUNT_TYPE_AMP |}.

Definition parse (t : GdkType) (json : Json) : outcome (gdk_type t) :=
  match t with
  | T_LoginUserResult => Ok "hash"
  | T_Subaccounts => Ok [account]
  | t => WalletSample.parse t json
  end.

#[export] Instance session_env : JadeSesEnv := {|
  watch_env := WalletSample.env (λ _, "json") parse;
  jade_env := WalletSample.env (λ _, "json") parse;
  jade_notifs _ _ := []
|}.

Definition info : SesLoginInfo := {|
  sl_account_id := 1; sl_env := Env_Prod; sl_cache_dir := "dir";
  sl_wallet_info := Ses_Mnemonic "words"; sl_single_sig := false; sl_network := None;
  sl_proxy := None |}.
Definition watch_only : WatchOnly := {|
  wo_master_blinding_key := "key"; wo_root_xpub := "a"; wo_password_xpub := "b";
  wo_single_sig_account_xpub := "c"; wo_multi_sig_user_xpub := "d"; wo_username := "name";
  wo_password := "word" |}.

Definition steps : list (ConnectionState + SesOp) :=
  [inr (Op_send_tx "tx" ∅); inl Connected; inr (Op_send_tx "tx" ∅)].
End JadeSessionSample.
#[local] Existing Instances JadeSessionSample.session_env Payjoin.Sample.env.

Lemma jade_session_signs_witness :
  ∃ s, jade_session JadeSessionSample.info JadeSessionSample.watch_only = Ok s ∧
    ∃ c earlier,
      gdk_calls (gm_jade (run_jade_session (λ _, Ok "tx") JadeSessionSample.steps s).1) = c :: earlier ∧
      signs c ∧ ∃ login, login ∈ earlier ∧ is_login login.
Proof.
  eexists. split; [vm_compute; reflexivity|]. do 2 eexists. split; [vm_compute; reflexivity|].
  split; [exact I|].
  refine (proj2 (jade_session_signs JadeSessionSample.info JadeSessionSample.watch_only _
    (λ _, Ok "tx") JadeSessionSample.steps _) [] _ _ _ _); [vm_compute; reflexivity..|exact I].
Defined.

(** *** A connection that is made during the check is forgotten *)
Module RaceSample.
(** The library connects as soon as it is asked to, and tells so once. *)
Definition notifs (watch_only jade : GdkSes) : list ConnectionState :=
  match gs_log jade, gs_log watch_only with
  | Gdk_reconnect_hint Hint_Connect :: _, [] => [Connected]
  | _, _ => []
  end.

#[export] Instance race_env : JadeSesEnv := {|
  watch_env := WalletSample.sample_env; jade_env := WalletSample.sample_env; jade_notifs := notifs
|}.

(** The device's session is logged in, and the check fails. *)
Definition logged_in : GdkSesMng := {|
  gm_watch_only := WalletSample.session; gm_jade := WalletSample.session;
  gm_jade_state := Gdk_LoggedIn |}.
End RaceSample.

(** [check_jade_alive] in [get_previous_addresses] first reconnects and then notes that
    the session is disconnected: when GDK connects meanwhile, that is overwritten, and
    signing is refused until the connection is lost and made again. *)
Lemma reconnection_overwritten :
  let s := (@mng_get_previous_addresses RaceSample.race_env None false RaceSample.logged_in).1 in
  RaceSample.notifs (gm_watch_only RaceSample.logged_in) (gm_jade s) = [Connected] ∧
  gm_jade_state s = Gdk_Disconnected ∧
  ∀ tx assets, (@mng_send_tx RaceSample.race_env tx assets s).2 = Err "GDK jade is disconnected".
Proof. vm_compute. done. Qed.
