(* ===== verification/Register.v ===== *)
(** * Registering a wallet

    The first login of a wallet in rust/sideswap_client/src/worker.rs ([try_register]): a
    session of its own registers with the server, and a Jade gives the keys that later
    logins use instead of it ([login_hw_data]).  With [jade_status_callback]: what the
    application is told of a device, and that no prompt is left on its screen. *)
From stdpp Require Import base numbers gmap strings list sets.
From Stdlib Require Import ZArith Lia.
From S2P Require Import Prelude Api Env Payjoin ClientApi Serial Jade GdkApi Session Wallet JadeSession.

Open Scope Z_scope.
#[local] Set Primitive Projections.

(** ** [try_register] *)

Definition XPUB_PATH_ROOT : list Z := [].
Definition XPUB_PATH_PASS : list Z := [0xF0617373].

Class RegEnv := {
  (** [rand::thread_rng().gen::<[u8; n]>()] *)
  random_bytes : list GdkEvent → nat → bytes;
  (** [Data::proxy()] *)
  reg_proxy : option string
}.

(** Before there is a session: what only speaks to the Jade needs none. *)
Definition no_session (log : list GdkEvent) : GdkSes := {|
  gs_login_info := {| sl_account_id := 0; sl_env := Env_Prod; sl_cache_dir := EmptyString;
    sl_wallet_info := Ses_Mnemonic EmptyString; sl_single_sig := false; sl_network := None;
    sl_proxy := None |};
  gs_hw_data := None; gs_subaccount := None; gs_receiving_id := None; gs_policy_asset := [];
  gs_log := log |}.

Definition in_session {A} (ses : GdkSes) (m : GdkM A) : LogM A := λ log,
  let '(s, r) := m (ses <| gs_log := log |>) in (gs_log s, r).

Definition only_jade {A} (m : GdkM A) : LogM A := λ log, in_session (no_session log) m log.

Section Register.
Context `{GdkEnv} `{RegEnv}.

Definition get_master_blinding_key : GdkM bytes :=
  do! set_hw_status Hw_MasterBlindingKey in
  do! jade_send Req_GetMasterBlindingKey in
  let! resp := get_resp_with_timeout 120 in
  do! set_hw_status Hw_Idle in
  expect_resp (λ r, match r with Resp_GetMasterBlindingKey v => Some v | _ => None end) resp.

Definition register_wallet_info (env : Env) (wallet : LoginWallet) : GdkM SesWalletInfo :=
  match wallet with
  | Mnemonic mnemonic => ret (Ses_Mnemonic mnemonic)
  | JadeId jade_id =>
      do! unlock_hw env in
      let! resp := get_master_blinding_key in
      ret (Ses_HwData {| hw_env := env; hw_name := "Jade " +:+ jade_id; hw_jade_id := jade_id;
                         hw_master_blinding_key := hex_encode resp; hw_xpubs := ∅ |})
  end.

Definition account_path (env : Env) : list Z := single_sig_account_path (env_data_network (env_data env)).

(** The credentials and keys that replace the device when its wallet is only watched. *)
Definition make_watch_only (env : Env) (hw_data : HwData) (multi_sig_user_path : list Z) : GdkM WatchOnly :=
  let! username := gets (λ s, "sswp_" +:+ hex_encode (random_bytes (gs_log s) 10)) in
  let! password := gets (λ s, hex_encode (random_bytes (gs_log s) 16)) in
  do! set_watch_only username password in
  let network := jade_network env in
  let! root_xpub := resolve_xpub network XPUB_PATH_ROOT in
  let! password_xpub := resolve_xpub network XPUB_PATH_PASS in
  let! single_sig_account_xpub := resolve_xpub network (account_path env) in
  let! multi_sig_user_xpub := resolve_xpub network multi_sig_user_path in
  ret {| wo_master_blinding_key := hw_master_blinding_key hw_data; wo_root_xpub := root_xpub;
         wo_password_xpub := password_xpub; wo_single_sig_account_xpub := single_sig_account_xpub;
         wo_multi_sig_user_xpub := multi_sig_user_xpub; wo_username := username;
         wo_password := password |}.

(** [&path[0..3]], which panics when the path is shorter. *)
Definition first_three (path : list Z) : GdkM (list Z) :=
  if (length path <? 3)%nat then panic "range end index 3 out of range for slice" else ret (take 3 path).

(** With the session [wallet_amp]. *)
Definition register_wallet (env : Env) (wallet_info : SesWalletInfo) : GdkM RegInfo :=
  do! register in
  do! login in
  let! new_address := get_receive_address in
  let! multi_sig_service_xpub := expect (ga_service_xpub new_address) "must be set" in
  let! multi_sig_user_path := first_three (ga_user_path new_address) in
  let! jade_watch_only :=
    match ses_hw_data wallet_info with
    | Some hw_data => let! w := make_watch_only env hw_data multi_sig_user_path in ret (Some w)
    | None => ret None
    end in
  ret {| ri_jade_watch_only := jade_watch_only; ri_multi_sig_service_xpub := multi_sig_service_xpub;
         ri_multi_sig_user_path := multi_sig_user_path |}.

Definition try_register (env : Env) (req : Login) (cache_dir : string) : LogM RegInfo :=
  let! wallet := expect (login_wallet req) "called `Option::unwrap()` on a `None` value" in
  let! wallet_info := only_jade (register_wallet_info env wallet) in
  let! wallet_amp := start_processing_impl
    {| sl_account_id := ACCOUNT_ID_AMP; sl_env := env; sl_cache_dir := cache_dir;
       sl_wallet_info := wallet_info; sl_single_sig := false; sl_network := None;
       sl_proxy := reg_proxy |} in
  in_session wallet_amp (register_wallet env wallet_info).

(** The device in later logins, with the keys of the registration; the last of the keys
    for a path counts. *)
Definition login_hw_data (env : Env) (reg_info : RegInfo) (jade_id : string) : outcome HwData :=
  match ri_jade_watch_only reg_info with
  | None => Err "jade_watch_only is not set"
  | Some jade_watch_only =>
      Ok {| hw_env := env; hw_name := "Jade " +:+ jade_id; hw_jade_id := jade_id;
            hw_master_blinding_key := wo_master_blinding_key jade_watch_only;
            hw_xpubs :=
              <[ri_multi_sig_user_path reg_info := wo_multi_sig_user_xpub jade_watch_only]>
              (<[account_path env := wo_single_sig_account_xpub jade_watch_only]>
              (<[XPUB_PATH_PASS := wo_password_xpub jade_watch_only]>
              (<[XPUB_PATH_ROOT := wo_root_xpub jade_watch_only]> ∅))) |}
  end.
End Register.

(** ** The keys of a registration *)

(** The device answered [req] with [resp] within [seconds]. *)
Definition answered (log : list GdkEvent) (req : Req) (seconds : Z) (resp : Resp) : Prop :=
  ∃ later earlier, log = later ++ Gdk_jade_recv seconds (inl resp) :: Gdk_jade_send req :: earlier.

(** The device gave the key [xpub] for a path. *)
Definition gave_xpub `{GdkEnv} (log : list GdkEvent) (network : JadeNetwork) (path : list Z)
    (xpub : string) : Prop :=
  ∃ raw, answered log (Req_ResolveXpub {| rx_network := network; rx_path := path |}) 20
           (Resp_ResolveXpub raw) ∧ parse_xpub raw = Ok xpub.

(** The log of a session was only added to. *)
Definition grown (log : list GdkEvent) (s : GdkSes) : Prop := log `suffix_of` gs_log s.

Lemma answered_grown log s req seconds resp :
  answered log req seconds resp → grown log s → answered (gs_log s) req seconds resp.
Proof.
  intros (later & earlier & ->) [k Hk]. exists (k ++ later), earlier. by rewrite <- app_assoc.
Qed.

Lemma gave_xpub_grown `{GdkEnv} log s network path xpub :
  gave_xpub log network path xpub → grown log s → gave_xpub (gs_log s) network path xpub.
Proof. intros (raw & Ha & Hp) Hg. exists raw. split; [by apply (answered_grown log)|done]. Qed.

Section Keys.
Context `{GdkEnv} `{RegEnv}.
Implicit Types s : GdkSes.

Lemma grown_emit log e s : grown log s → grown log (s <| gs_log ::= cons e |>).
Proof. intros Hg. by apply suffix_cons_r. Qed.

Lemma keeps_grown_emit log e : keeps (grown log) (gdk_emit e).
Proof. intros s. apply grown_emit. Qed.

#[local] Hint Resolve keeps_grown_emit : keeps.

Lemma grown_call_gdk log t hw c params name what : keeps (grown log) (call_gdk t hw c params name what).
Proof.
  unfold call_gdk, call_gdk_err. keeps_step; [keeps|]. keeps_step; [keeps|].
  destruct a; [keeps|]. keeps_step; [keeps|].
  apply keeps_map_err, keeps_run_auth_handler. intros e s _. apply grown_emit.
Qed.

Lemma keeps_grown_modify log f : (∀ s, gs_log (f s) = gs_log s) → keeps (grown log) (modify f).
Proof. intros E s [k Hk]. exists k. change (gs_log (f s) = k ++ log). by rewrite E. Qed.

#[local] Hint Extern 1 (keeps _ (call_gdk ?t _ _ _ _ _)) => apply (grown_call_gdk _ t) : keeps.
#[local] Hint Extern 1 (keeps _ (modify _)) => apply keeps_grown_modify; reflexivity : keeps.

Lemma grown_register log : keeps (grown log) register.
Proof. unfold register. keeps. Qed.

Lemma grown_login log : keeps (grown log) login.
Proof. unfold login, amp_subaccount. keeps. Qed.

Lemma grown_get_receive_address log : keeps (grown log) get_receive_address.
Proof. unfold get_receive_address, try_get_addr_info, get_subaccount, ses_gdk. keeps. Qed.

Lemma grown_resolve_xpub log network path : keeps (grown log) (resolve_xpub network path).
Proof. unfold resolve_xpub, jade_send, get_resp_with_timeout, expect_resp, unexpected_jade. keeps. Qed.

Lemma grown_set_watch_only log username password : keeps (grown log) (set_watch_only username password).
Proof. unfold set_watch_only. keeps. Qed.

Lemma grown_get_master_blinding_key log : keeps (grown log) get_master_blinding_key.
Proof.
  unfold get_master_blinding_key, set_hw_status, jade_send, get_resp_with_timeout, expect_resp,
    unexpected_jade. keeps.
Qed.

Lemma grown_refl s : grown (gs_log s) s.
Proof. by exists []. Qed.

Lemma grown_trans s s' s'' : grown (gs_log s) s' → grown (gs_log s') s'' → grown (gs_log s) s''.
Proof. unfold grown. apply transitivity. Qed.

Lemma elem_of_grown log s e : e ∈ log → grown log s → e ∈ gs_log s.
Proof. intros He [k ->]. set_solver. Qed.

(** From the steps between two states. *)
Ltac grow := first [apply grown_refl|eassumption|eapply grown_trans; [eassumption|grow]].

Lemma grown_run {A} (m : GdkM A) s s' a :
  keeps (grown (gs_log s)) m → m s = (s', Ok a) → grown (gs_log s) s'.
Proof. intros Hm Hr. specialize (Hm s (grown_refl s)). by rewrite Hr in Hm. Qed.

Lemma resolve_xpub_gave network path s s' xpub :
  resolve_xpub network path s = (s', Ok xpub) → gave_xpub (gs_log s') network path xpub.
Proof.
  unfold resolve_xpub, jade_send, get_resp_with_timeout, expect_resp, gdk_emit. intros Hr. ok_inv.
  repeat case_match; try done; ok_inv; simplify_eq.
  all: eexists; split; [|eassumption]; eexists [], _; cbn; repeat f_equal; by eauto.
Qed.

Lemma set_watch_only_Ok username password s s' :
  set_watch_only username password s = (s', Ok tt) → Gdk_set_watch_only username password ∈ gs_log s'.
Proof.
  unfold set_watch_only, gdk_emit. intros Hr. ok_inv. case_match; [done|]. ok_inv. by left.
Qed.

(** All a watched wallet needs comes from the device and the library. *)
Definition recorded (log : list GdkEvent) (env : Env) (multi_sig_user_path : list Z) (w : WatchOnly) : Prop :=
  Gdk_set_watch_only (wo_username w) (wo_password w) ∈ log ∧
  gave_xpub log (jade_network env) XPUB_PATH_ROOT (wo_root_xpub w) ∧
  gave_xpub log (jade_network env) XPUB_PATH_PASS (wo_password_xpub w) ∧
  gave_xpub log (jade_network env) (account_path env) (wo_single_sig_account_xpub w) ∧
  gave_xpub log (jade_network env) multi_sig_user_path (wo_multi_sig_user_xpub w).

Lemma watch_only_recorded env hw_data path s s' w :
  make_watch_only env hw_data path s = (s', Ok w) →
  recorded (gs_log s') env path w ∧ wo_master_blinding_key w = hw_master_blinding_key hw_data ∧
  grown (gs_log s) s'.
Proof.
  unfold make_watch_only. intros Hr. ok_inv.
  repeat match goal with
  | H : set_watch_only _ _ _ = _ |- _ =>
      pose proof (grown_run _ _ _ _ (grown_set_watch_only _ _ _) H);
      apply set_watch_only_Ok in H
  | H : resolve_xpub _ _ _ = _ |- _ =>
      pose proof (grown_run _ _ _ _ (grown_resolve_xpub _ _ _) H);
      apply resolve_xpub_gave in H
  end.
  unfold recorded. cbn. split_and!; [|eapply gave_xpub_grown; [eassumption|grow]..|done|grow].
  eapply elem_of_grown; [eassumption|grow].
Qed.

(** The keys of a later login. *)
Definition login_paths (env : Env) (reg_info : RegInfo) : list (list Z) :=
  [XPUB_PATH_ROOT; XPUB_PATH_PASS; account_path env; ri_multi_sig_user_path reg_info].

Lemma login_keys log env reg_info w jade_id :
  ri_jade_watch_only reg_info = Some w → recorded log env (ri_multi_sig_user_path reg_info) w →
  ∃ hw, login_hw_data env reg_info jade_id = Ok hw ∧
    hw_env hw = env ∧ hw_master_blinding_key hw = wo_master_blinding_key w ∧
    ∀ path, path ∈ login_paths env reg_info →
      ∃ xpub, hw_xpubs hw !! path = Some xpub ∧ gave_xpub log (jade_network env) path xpub.
Proof.
  intros Hw (_ & Hroot & Hpass & Hsingle & Hmulti). unfold login_hw_data. rewrite_field Hw.
  eexists. split; [reflexivity|]. split; [done|]. split; [done|]. cbn. intros path Hpath.
  destruct (decide (path = ri_multi_sig_user_path reg_info)) as [->|Hn1]; [by simplify_map_eq; eauto|].
  destruct (decide (path = account_path env)) as [->|Hn2]; [simplify_map_eq; eauto|].
  destruct (decide (path = XPUB_PATH_PASS)) as [->|Hn3]; [simplify_map_eq; eauto|].
  destruct (decide (path = XPUB_PATH_ROOT)) as [->|Hn4]; [simplify_map_eq; eauto|].
  unfold login_paths in Hpath. set_solver.
Qed.

(** Questions for known keys are answered from the table. *)
Lemma known_xpubs (Q : list Z → string → Prop) hw rd paths :
  rd_paths rd = Some paths →
  (∀ path, path ∈ paths → ∃ xpub, hw_xpubs hw !! path = Some xpub ∧ Q path xpub) →
  ∃ xpubs, Forall2 Q paths xpubs ∧ ∀ s, resolve_get_xpubs hw rd s = (s, Ok (GetXPubsRes xpubs)).
Proof.
  intros Hrd Hk. unfold resolve_get_xpubs. rewrite_field Hrd. clear Hrd.
  assert (∃ xpubs, Forall2 (λ path xpub, hw_xpubs hw !! path = Some xpub ∧ Q path xpub) paths xpubs) as [xpubs Hx].
  { induction paths as [|path paths IH]; [by exists []|].
    destruct (Hk path) as (xpub & Hxpub); [left|]. destruct IH as [xpubs Hxs]; [intros; apply Hk; by right|].
    exists (xpub :: xpubs). by constructor. }
  exists xpubs. split; [by eapply Forall2_impl; [exact Hx|intros ?? []]|]. intros s.
  rewrite (bind_run _ _ s s paths) by done. clear Hk.
  rewrite (bind_run _ _ s s xpubs); [done|]. revert s.
  induction Hx as [|path xpub paths xpubs [Hxpub _] Hx IH]; intros s; [done|]. simpl.
  rewrite_field Hxpub. rewrite (bind_run _ _ s s xpub) by done. by rewrite (bind_run _ _ s s xpubs) by apply IH.
Qed.

Lemma master_key_gave s s' key :
  get_master_blinding_key s = (s', Ok key) →
  answered (gs_log s') Req_GetMasterBlindingKey 120 (Resp_GetMasterBlindingKey key).
Proof.
  unfold get_master_blinding_key, jade_send, get_resp_with_timeout, expect_resp, set_hw_status, gdk_emit.
  intros Hr. ok_inv. repeat case_match; try done; ok_inv; simplify_eq.
  all: eexists [_], _; cbn; repeat f_equal; by eauto.
Qed.

Lemma start_grown info log log' ses : start_processing_impl info log = (log', Ok ses) → log `suffix_of` log'.
Proof.
  intros Hr.
  assert (∀ (m : LogM GdkSes), keeps (suffix log) m → m log = (log', Ok ses) → log `suffix_of` log') as Hm.
  { intros m Hm E. specialize (Hm log (reflexivity _)). by rewrite E in Hm. }
  apply (Hm (start_processing_impl info)); [|exact Hr].
  assert (∀ e, keeps (suffix log) (modify (cons e))) as He by (intros e l ?; by apply suffix_cons_r).
  unfold start_processing_impl, select_network. keeps.
Qed.

(** What a session is given does not forget the log. *)
Lemma in_session_grown {A} ses (m : GdkM A) log log' a :
  (∀ l, keeps (grown l) m) → in_session ses m log = (log', Ok a) → log `suffix_of` log'.
Proof.
  unfold in_session. intros Hm Hr. specialize (Hm log (ses <| gs_log := log |>) (grown_refl _)).
  destruct (m _) as [s [b|e|e]]; simplify_eq. exact Hm.
Qed.

Lemma jade_wallet_info env jade_id s s' wallet_info :
  register_wallet_info env (JadeId jade_id) s = (s', Ok wallet_info) →
  ∃ hw key, wallet_info = Ses_HwData hw ∧ hw_master_blinding_key hw = hex_encode key ∧
    answered (gs_log s') Req_GetMasterBlindingKey 120 (Resp_GetMasterBlindingKey key).
Proof.
  unfold register_wallet_info. intros Hr. ok_inv. eexists _, _. split; [done|]. split; [done|].
  by eapply master_key_gave.
Qed.

Lemma wallet_recorded env hw s s' reg_info :
  register_wallet env (Ses_HwData hw) s = (s', Ok reg_info) →
  grown (gs_log s) s' ∧
  ∃ w, ri_jade_watch_only reg_info = Some w ∧
    recorded (gs_log s') env (ri_multi_sig_user_path reg_info) w ∧
    wo_master_blinding_key w = hw_master_blinding_key hw.
Proof.
  unfold register_wallet. intros Hr. cbn [ses_hw_data] in Hr. ok_inv.
  repeat match goal with
  | H : register _ = _ |- _ => apply (grown_run _ _ _ _ (grown_register _)) in H
  | H : login _ = _ |- _ => apply (grown_run _ _ _ _ (grown_login _)) in H
  | H : get_receive_address _ = _ |- _ => apply (grown_run _ _ _ _ (grown_get_receive_address _)) in H
  | H : make_watch_only _ _ _ _ = _ |- _ => apply watch_only_recorded in H as (? & ? & ?)
  | H : first_three _ _ = _ |- _ => unfold first_three in H; case_match; [done|]; ok_inv
  end.
  split; [grow|]. cbn. eauto.
Qed.

(** C12: the keys of a Jade are learnt once.  When a Jade was registered, its later logins
    have the keys the device gave then, for its master blinding key and for the four paths
    the wallet uses: GDK's questions for them are answered without the device, by those
    keys; and the server knows the credentials under which the wallet is watched. *)
Theorem registration_keys env req cache_dir jade_id log log' reg_info :
  login_wallet req = Some (JadeId jade_id) →
  try_register env req cache_dir log = (log', Ok reg_info) →
  ∃ hw w key, login_hw_data env reg_info jade_id = Ok hw ∧ ri_jade_watch_only reg_info = Some w ∧
    Gdk_set_watch_only (wo_username w) (wo_password w) ∈ log' ∧
    answered log' Req_GetMasterBlindingKey 120 (Resp_GetMasterBlindingKey key) ∧
    hw_master_blinding_key hw = hex_encode key ∧
    ∀ rd paths, rd_paths rd = Some paths → paths ⊆ login_paths env reg_info →
      (rd_action rd = Hw_GetXpubs → required_hw hw rd = false) ∧
      ∃ xpubs, Forall2 (gave_xpub log' (jade_network env)) paths xpubs ∧
        ∀ s, resolve_get_xpubs hw rd s = (s, Ok (GetXPubsRes xpubs)).
Proof.
  intros Hreq Hr. unfold try_register in Hr. ok_inv. simplify_eq.
  unfold only_jade, in_session in Hr, H2.
  destruct (register_wallet_info _ _ _) as [s1 r1] eqn:E1. simplify_eq.
  destruct (register_wallet _ _ _) as [s3 r3] eqn:E3. simplify_eq.
  apply jade_wallet_info in E1 as (hw0 & key & -> & Hkey0 & Hkey).
  apply wallet_recorded in E3 as (Hg & w & Hw & Hrec & Hmaster).
  apply start_grown in H3.
  destruct (login_keys (gs_log s3) env reg_info w jade_id Hw Hrec) as (hw & Hhw & Henv & Hmb & Hkeys).
  exists hw, w, key. split; [done|]. split; [done|]. split; [apply Hrec|].
  split; [eapply answered_grown; [exact Hkey|]; exact (transitivity H3 Hg)|]. split; [congruence|].
  intros rd paths Hrd Hpaths. split.
  - unfold required_hw. intros Ha. rewrite_field Ha. rewrite_field Hrd. simpl.
    apply not_true_is_false. intros (path & Hin & Hn)%existsb_exists.
    apply bool_decide_eq_true in Hn. destruct (Hkeys path) as (xpub & Hx & _); [|by rewrite Hx in Hn].
    by apply Hpaths, list_elem_of_In.
  - apply known_xpubs; [done|]. intros path Hin. by apply Hkeys, Hpaths.
Qed.
End Keys.

(** *** A Jade that is registered *)
Module RegisterSample.
Definition address : GdkAddress := {|
  ga_address := "address"; ga_subaccount := 1; ga_address_type := AddressType_P2wsh; ga_pointer := 1;
  ga_user_path := [3; 1; 1; 1]; ga_unconfidential_address := "a"; ga_blinding_key := "b";
  ga_is_confidential := true; ga_scriptpubkey := "00"; ga_is_internal := None; ga_public_key := None;
  ga_script := None; ga_branch := None; ga_script_type := None; ga_service_xpub := Some "service";
  ga_subtype := None; ga_tx_count := None |}.

Definition parse (t : GdkType) (json : Json) : outcome (gdk_type t) :=
  match t with
  | T_Address => Ok address
  | t => JadeSessionSample.parse t json
  end.

Definition version : RespVersionInfo := {|
  jade_version := "1"; jade_state := Device_Ready; jade_networks := StatusNetwork_All; jade_has_pin := true;
  efusemac := "mac" |}.

(** The device answers the last request. *)
Fixpoint jade (log : list GdkEvent) : Resp + string :=
  match log with
  | Gdk_jade_send Req_ReadStatus :: _ => inl (Resp_ReadStatus version)
  | Gdk_jade_send Req_GetMasterBlindingKey :: _ => inl (Resp_GetMasterBlindingKey [1; 2])
  | Gdk_jade_send (Req_ResolveXpub req) :: _ =>
      inl (Resp_ResolveXpub (match rx_path req with [] => "root" | _ => "key" end))
  | _ :: log => jade log
  | [] => inr "timeout"
  end.

Definition env_with (jade : list GdkEvent → Resp + string) : GdkEnv := {|
  gdk_ids := hex_ids;
  gdk_start _ _ := None;
  gdk_handler _ c := AuthStatus (Ok {| auth_result := Some "json"; auth_error := None;
    auth_required_data := None; auth_status := Status_Done |}) (λ _, None);
  gdk_parse := parse;
  gdk_set_memo _ _ _ := None; gdk_set_watch_only _ _ _ := None;
  jade_queued _ := []; jade_recv log _ := jade log;
  asset_generator _ _ := []; value_commitment_of _ _ _ := []; der_signature _ := WalletSample.none;
  parse_xpub x := Ok x; contract_json _ := JsonNull; number_is_i64 _ := false;
  number_as_i64 _ := None; contract_is_f64 _ := false; contract_as_f64 _ := None;
  json_insert_sign_with json _ := json; json_insert_transaction json _ := json;
  address_from_str _ := WalletSample.none; is_confidential _ := true; p2pkh_script _ := "script";
  p2shwpkh_redeem_script _ := "script"; p2wsh_redeem_script _ := "script";
  gdk_network_known _ := true; gdk_connect _ _ _ := None |}.

#[export] Instance gdk_env : GdkEnv := env_with jade.
#[export] Instance reg_env : RegEnv := {| random_bytes _ n := repeat 7 n; reg_proxy := None |}.

Definition request : Login := {|
  login_wallet := Some (JadeId "1"); login_network := None; login_send_utxo_updates := None;
  login_force_auto_sign_maker := None |}.

Definition question : RequiredData := {|
  rd_action := Hw_GetXpubs;
  rd_device := {| hd_name := "Jade"; hd_supports_ae_protocol := 1; hd_supports_arbitrary_scripts := true;
    hd_supports_host_unblinding := true; hd_supports_liquid := 1; hd_supports_low_r := true |};
  rd_paths := Some [[3; 1; 1]; []]; rd_path := None; rd_message := None; rd_use_ae_protocol := None;
  rd_ae_host_commitment := None; rd_ae_host_entropy := None; rd_blinding_keys_required := None;
  rd_scripts := None; rd_public_keys := None; rd_is_partial := None; rd_transaction := None;
  rd_transaction_inputs := None; rd_transaction_outputs := None |}.
End RegisterSample.
#[local] Existing Instances RegisterSample.gdk_env RegisterSample.reg_env.

Lemma registration_keys_witness :
  ∃ log reg_info hw, try_register Env_Prod RegisterSample.request "dir" [] = (log, Ok reg_info) ∧
    login_hw_data Env_Prod reg_info "1" = Ok hw ∧
    resolve_get_xpubs hw RegisterSample.question WalletSample.session =
      (WalletSample.session, Ok (GetXPubsRes ["key"; "root"])).
Proof.
  destruct (try_register Env_Prod RegisterSample.request "dir" []) as [log r] eqn:E.
  pose proof E as E'. vm_compute in E'. destruct r as [reg_info|e|e]; [|discriminate E'..].
  destruct (registration_keys Env_Prod RegisterSample.request "dir" "1" [] log reg_info eq_refl E)
    as (hw & w & key & Hhw & _ & _ & _ & _ & Hk).
  exists log, reg_info, hw. split; [done|]. split; [done|].
  destruct (Hk RegisterSample.question [[3; 1; 1]; []] eq_refl) as [_ (xpubs & _ & Hx)].
  - injection E' as _ <-. intros path Hp. vm_compute. vm_compute in Hp. set_solver.
  - injection E' as _ <-. vm_compute in Hhw. injection Hhw as <-. vm_compute. reflexivity.
Defined.
