(* ===== verification/Prompt.v ===== *)
(** * What the application shows of a Jade

    While a device is asked to unlock, to give its key or to sign, the application shows a
    prompt.  [jade_status_callback] of rust/sideswap_client/src/worker.rs tells it of each
    change; this file shows that no operation of a session leaves a prompt behind. *)
From stdpp Require Import base numbers gmap strings list.
From Stdlib Require Import ZArith Lia.
From S2P Require Import Prelude Api Env Payjoin ClientApi Serial Jade GdkApi Session Wallet JadeSession Register.

Open Scope Z_scope.
#[local] Set Primitive Projections.

(** ** [jade_status_callback] *)

Definition jade_status_of (status : HwStatus) : ProtoJadeStatus :=
  match status with
  | Hw_Idle => JadeStatus_Idle
  | Hw_ReadStatus => JadeStatus_ReadStatus
  | Hw_AuthUser => JadeStatus_AuthUser
  | Hw_MasterBlindingKey => JadeStatus_MasterBlindingKey
  | Hw_SignTxStatus Tx_Normal => JadeStatus_SignTx
  | Hw_SignTxStatus Tx_Swap => JadeStatus_SignSwap
  | Hw_SignTxStatus Tx_OfflineSwapOutput => JadeStatus_SignSwapOutput
  | Hw_SignTxStatus Tx_OfflineSwap => JadeStatus_SignOfflineSwap
  end.

#[export] Instance jade_status_eq_dec : EqDecision ProtoJadeStatus.
Proof. solve_decision. Defined.

(** [last_jade_status], and what was sent to the application, newest first. *)
Record StatusState := { last_jade_status : ProtoJadeStatus; status_sent : list FromMsg }.

Definition jade_status_callback (status : HwStatus) : M StatusState unit :=
  let status := jade_status_of status in
  let! last_status := gets last_jade_status in
  if bool_decide (last_status = status) then ret tt
  else
    do! modify (λ s, s <| status_sent ::= cons (From_JadeStatus status) |>) in
    modify (λ s, s <| last_jade_status := status |>).

(** The statuses a session sets, in order, each of which is a call of the callback. *)
Definition hw_statuses (log : list GdkEvent) : list HwStatus :=
  omap (λ e, match e with Gdk_hw_status status => Some status | _ => None end) (reverse log).

Definition tell_statuses (statuses : list HwStatus) : StatusState :=
  (for_each statuses jade_status_callback {| last_jade_status := JadeStatus_Idle; status_sent := [] |}).1.

(** What the application shows after the messages it got. *)
Definition shown (sent : list FromMsg) : ProtoJadeStatus :=
  match sent with From_JadeStatus status :: _ => status | _ => JadeStatus_Idle end.

(** The status a session set last. *)
Definition last_hw (log : list GdkEvent) : HwStatus := default Hw_Idle (last (hw_statuses log)).

(** The application shows the last status, and is told of each change once. *)
Definition told_once (sent : list FromMsg) : Prop :=
  ∀ before status rest, sent = before ++ From_JadeStatus status :: rest → shown rest ≠ status.

Definition in_step (s : StatusState) : Prop :=
  shown (status_sent s) = last_jade_status s ∧ told_once (status_sent s).

Lemma callback_in_step status : keeps in_step (jade_status_callback status).
Proof.
  intros [last sent] [Hs Ho]. unfold jade_status_callback, bind, gets. cbn.
  case_bool_decide as E; [done|]. split; [done|].
  intros [|m before] st rest [= Hm Hr]; cbn in *; subst; [congruence|]. by eapply Ho.
Qed.

Lemma tell_last statuses s :
  in_step s →
  let s' := (for_each statuses jade_status_callback s).1 in
  in_step s' ∧ shown (status_sent s') = default (shown (status_sent s)) (jade_status_of <$> last statuses).
Proof.
  revert s. induction statuses as [|status statuses IH]; intros s Hs; [done|].
  simpl. unfold bind.
  assert (∃ s1, jade_status_callback status s = (s1, Ok tt) ∧ shown (status_sent s1) = jade_status_of status)
    as (s1 & E & Hs1).
  { destruct s as [last sent]. destruct Hs as [Hs _]. unfold jade_status_callback, bind, gets. cbn in *.
    case_bool_decide; eexists; split; try reflexivity; cbn; congruence. }
  pose proof (callback_in_step status s Hs) as Hk. rewrite E in Hk |- *.
  destruct (IH s1 Hk) as [Hi Hl]. split; [exact Hi|]. rewrite Hl, Hs1, last_cons. by destruct (last statuses).
Qed.

Lemma shown_last log : shown (status_sent (tell_statuses (hw_statuses log))) = jade_status_of (last_hw log).
Proof.
  unfold tell_statuses, last_hw.
  destruct (tell_last (hw_statuses log) {| last_jade_status := JadeStatus_Idle; status_sent := [] |}) as [_ ->].
  { split; [done|]. by intros [] ? ?. }
  by destruct (last (hw_statuses log)).
Qed.

(** ** No prompt is left *)

Create HintDb settles.

Section Prompt.
Context `{GdkEnv}.
Implicit Types s : GdkSes.

Definition idle s : Prop := last_hw (gs_log s) = Hw_Idle.

(** From an idle device to an idle device, with success or an error. *)
Abbreviation settles := (lands idle idle idle) (only parsing).

Lemma last_hw_cons e log :
  last_hw (e :: log) = match e with Gdk_hw_status status => status | _ => last_hw log end.
Proof.
  unfold last_hw, hw_statuses. rewrite reverse_cons, omap_app.
  destruct e; simpl; rewrite ?app_nil_r; try done. by rewrite last_snoc.
Qed.

Definition sets_status (e : GdkEvent) : bool := match e with Gdk_hw_status _ => true | _ => false end.

Lemma idle_emit e s : sets_status e = false → idle s → idle (s <| gs_log ::= cons e |>).
Proof. unfold idle. intros He Hs. change (last_hw (e :: gs_log s) = Hw_Idle). rewrite last_hw_cons. by destruct e. Qed.

Lemma keeps_idle_emit e : sets_status e = false → keeps idle (gdk_emit e).
Proof. intros He s. by apply idle_emit. Qed.

#[local] Hint Extern 1 (keeps _ (gdk_emit _)) => apply keeps_idle_emit; reflexivity : keeps.

Lemma idle_set s : idle (s <| gs_log ::= cons (Gdk_hw_status Hw_Idle) |>).
Proof. change (last_hw (Gdk_hw_status Hw_Idle :: gs_log s) = Hw_Idle). by rewrite last_hw_cons. Qed.

(** A prompt while the device is waited for. *)
Lemma settles_prompt {B} (I : GdkSes → Prop) seconds (k : Resp + string → GdkM B) :
  (∀ resp, settles (k resp)) →
  lands I idle idle (let! resp := get_resp_with_timeout seconds in do! set_hw_status Hw_Idle in k resp).
Proof. intros Hk s _. apply (Hk _ _ (idle_set _)). Qed.

Lemma lands_set (I : GdkSes → Prop) status : lands I (λ _, True) idle (set_hw_status status).
Proof. by intros s _. Qed.

Ltac settles :=
  repeat first
    [ progress unfold unhex, unwrap, jade_send, get_resp, clear_queue, expect_resp, unexpected_jade
    | lazymatch goal with
      | |- lands _ _ _ (bind (get_resp_with_timeout _) (λ resp, bind (set_hw_status Hw_Idle) _)) =>
          apply settles_prompt; intros ?
      | |- lands _ _ _ (bind (set_hw_status _) _) => eapply lands_bind; [apply lands_set|intros ?]
      | |- lands _ _ _ (bind _ _) => eapply lands_bind; [|intros ?]
      | |- lands _ _ _ (if ?b then _ else _) => destruct b
      | |- lands _ _ _ (match ?x with _ => _ end) => destruct x
      | |- lands _ _ _ _ => apply lands_keeps; first [by auto with keeps|progress unfold get_resp_with_timeout; keeps]
      end ].

Lemma settles_unlock_hw env : settles (unlock_hw env).
Proof. unfold unlock_hw. settles. Qed.

Lemma settles_get_master_blinding_key : settles get_master_blinding_key.
Proof.
  unfold get_master_blinding_key. eapply lands_bind; [apply lands_set|]. intros _.
  eapply (lands_bind _ (λ _, True)); [by intros s _|]. intros _. settles.
Qed.

Lemma settles_map_err {A} f (m : GdkM A) : settles m → settles (map_err f m).
Proof. intros Hm s Hs. specialize (Hm s Hs). unfold map_err. by destruct (m s) as [s' []]. Qed.

Lemma settles_collect_m {A B} (f : A → GdkM B) l : (∀ x, settles (f x)) → settles (collect_m f l).
Proof. intros Hf. induction l as [|x l IH]; simpl; settles; [apply Hf|exact IH]. Qed.

Lemma settles_loop_fuel {A B} fuel (body : B → GdkM (A + B)) b :
  (∀ b, settles (body b)) → settles (loop_fuel fuel body b).
Proof.
  intros Hb. revert b. induction fuel as [fuel IH|fuel IH|]; intros b; simpl; [..|apply Hb].
  all: eapply lands_bind; [first [apply Hb|apply IH]|]; intros [a|b']; [by apply lands_keeps, keeps_ret|].
  - eapply lands_bind; [apply IH|]. intros [a|b2]; [by apply lands_keeps, keeps_ret|apply IH].
  - apply IH.
Qed.

(** Without a device no question of GDK is answered. *)
Lemma auth_loop_idle params p : keeps idle (auth_loop None params p).
Proof.
  destruct p as [|status k]; simpl; [keeps|]. keeps_step; [keeps|]. keeps_step; [keeps|].
  case_bool_decide; [keeps|]. by intros s Hs.
Qed.

Lemma settles_run_auth_handler t hw p params : settles (run_auth_handler t hw p params).
Proof.
  intros s Hs. unfold run_auth_handler. destruct hw as [hw|].
  - destruct (run_auth_handler_impl _ _ _ _ _) as [s' [a|e|e]]; [apply idle_set..|done].
  - assert (keeps idle (run_auth_handler_impl t None p params)) as Hk.
    { unfold run_auth_handler_impl. keeps_step; [apply auth_loop_idle|]. keeps. }
    specialize (Hk s Hs). by destruct (run_auth_handler_impl _ _ _ _ _) as [s' []].
Qed.

Lemma settles_call_gdk_err t hw c params failed what : settles (call_gdk_err t hw c params failed what).
Proof.
  unfold call_gdk_err. settles. apply settles_map_err. apply settles_run_auth_handler.
Qed.

Lemma settles_ses_gdk t c params name what : settles (ses_gdk t c params name what).
Proof. unfold ses_gdk, call_gdk. eapply lands_bind; [apply lands_keeps, keeps_gets|]. intros hw. apply settles_call_gdk_err. Qed.

(** Every operation of a session settles. *)
Ltac op :=
  repeat first
    [ progress unfold get_subaccount, unwrap, unwrap_asset, blind_transaction, send_transaction,
        try_get_gaid, reconnect_hint, payjoin_utxo
    | lazymatch goal with
      | |- lands _ _ _ (ses_gdk ?t ?c _ _ _) => apply (settles_ses_gdk t c)
      | |- lands _ _ _ (call_gdk_err ?t _ ?c _ _ _) => apply (settles_call_gdk_err t _ c)
      | |- lands _ _ _ (call_gdk _ _ _ _ _ _) => unfold call_gdk
      | |- lands _ _ _ (map_err _ _) => apply settles_map_err
      | |- lands _ _ _ (collect_m _ _) => apply settles_collect_m; intros ?
      | |- lands _ _ _ (loop_fuel _ _ _) => apply settles_loop_fuel; intros ?
      | |- lands _ _ _ (modify _) => apply lands_keeps, keeps_modify; intros ? Hs; exact Hs
      | |- lands _ _ _ (let '(_, _) := ?x in _) => destruct x
      | |- lands _ _ _ (let _ := _ in _) => cbv zeta
      end
    | solve [eauto with settles nocore]
    | settles ].

Lemma settles_unspent_outputs : settles try_get_unspent_outputs.
Proof. unfold try_get_unspent_outputs. op. Qed.
Lemma settles_create_transaction c : settles (create_transaction c).
Proof. unfold create_transaction, check_created. op. Qed.
Lemma settles_load_transactions : settles load_transactions.
Proof. unfold load_transactions, load_transactions_page. op. Qed.
Lemma settles_addr_info is_internal : settles (try_get_addr_info is_internal).
Proof. unfold try_get_addr_info. op. Qed.
#[local] Hint Resolve settles_unspent_outputs settles_create_transaction settles_load_transactions
  settles_addr_info settles_unlock_hw : settles.

Lemma settles_get_transactions : settles get_transactions.
Proof. unfold get_transactions. op. Qed.
Lemma settles_get_balances : settles get_balances.
Proof. unfold get_balances. op. Qed.
Lemma settles_try_create_tx tx : settles (try_create_tx tx).
Proof. unfold try_create_tx. op. Qed.
Lemma settles_get_tx_fee asset_id amount addr : settles (get_tx_fee asset_id amount addr).
Proof. unfold get_tx_fee, check_created. op. Qed.
Lemma settles_get_blinded_values txid : settles (get_blinded_values txid).
Proof. unfold get_blinded_values. op. Qed.
Lemma settles_get_previous_addresses p i : settles (get_previous_addresses p i).
Proof. unfold get_previous_addresses. op. Qed.
Lemma settles_set_memo txid memo : settles (set_memo txid memo).
Proof. unfold set_memo. op. Qed.
Lemma settles_unlock_hww : settles unlock_hww.
Proof. unfold unlock_hww. op. Qed.
Lemma settles_amp_subaccount hw : settles (amp_subaccount hw).
Proof. unfold amp_subaccount. op. Qed.
#[local] Hint Resolve settles_amp_subaccount : settles.
Lemma settles_login : settles login.
Proof. unfold login. op. Qed.
Lemma settles_try_create_payjoin `{PjEnv} req : settles (try_create_payjoin req).
Proof. unfold try_create_payjoin. op. Qed.
Lemma settles_try_send_tx tx assets : settles (try_send_tx tx assets).
Proof. unfold try_send_tx. op. Qed.
Lemma settles_try_send_payjoin `{PjEnv} extract_tx req assets :
  settles (try_send_payjoin extract_tx req assets).
Proof. unfold try_send_payjoin. op. Qed.
Lemma settles_make_pegout_payment amount addr exact : settles (make_pegout_payment amount addr exact).
Proof. unfold make_pegout_payment. op. Qed.
Lemma settles_verify_and_sign_pset amounts pset nonces assets :
  settles (verify_and_sign_pset amounts pset nonces assets).
Proof. unfold verify_and_sign_pset. op. Qed.
Lemma settles_sig_single_maker_tx input output assets :
  settles (sig_single_maker_tx input output assets).
Proof. unfold sig_single_maker_tx, sig_single_maker_utxo, make_utxo, chained_utxo. op. Qed.
Lemma settles_reconnect_hint hint : settles (reconnect_hint hint).
Proof. op. Qed.
Lemma settles_register : settles register.
Proof. unfold register. op. Qed.
Lemma settles_set_watch_only username password : settles (set_watch_only username password).
Proof. unfold set_watch_only. op. Qed.
Lemma settles_resolve_xpub network path : settles (resolve_xpub network path).
Proof. unfold resolve_xpub. op. Qed.
#[local] Hint Resolve settles_register settles_set_watch_only settles_login settles_resolve_xpub
  settles_get_master_blinding_key : settles.

Lemma settles_make_watch_only `{RegEnv} env hw_data path : settles (make_watch_only env hw_data path).
Proof. unfold make_watch_only. op. Qed.
#[local] Hint Resolve settles_make_watch_only : settles.

Lemma settles_register_wallet_info env wallet : settles (register_wallet_info env wallet).
Proof. unfold register_wallet_info. op. Qed.

Lemma settles_register_wallet `{RegEnv} env wallet_info : settles (register_wallet env wallet_info).
Proof. unfold register_wallet, first_three, get_receive_address. op. Qed.

(** Of a log alone. *)
Definition log_idle (log : list GdkEvent) : Prop := last_hw log = Hw_Idle.

Lemma settles_in_session {A} ses (m : GdkM A) :
  settles m → lands log_idle log_idle log_idle (in_session ses m).
Proof.
  intros Hm log Hlog. specialize (Hm (ses <| gs_log := log |>) Hlog). unfold in_session.
  by destruct (m _) as [s' []].
Qed.

Lemma settles_start info : keeps log_idle (start_processing_impl info).
Proof.
  assert (∀ e, sets_status e = false → keeps log_idle (modify (cons e))) as He.
  { intros e He log Hlog. unfold log_idle. cbn [modify fst]. rewrite last_hw_cons. by destruct e. }
  unfold start_processing_impl, select_network. keeps; by apply He.
Qed.

Lemma settles_try_register `{RegEnv} env req cache_dir :
  lands log_idle log_idle log_idle (try_register env req cache_dir).
Proof.
  unfold try_register. eapply lands_bind; [by apply lands_keeps, keeps_expect|]. intros wallet.
  eapply lands_bind.
  { intros log. apply (settles_in_session (no_session log)). apply settles_register_wallet_info. }
  intros wallet_info. eapply lands_bind; [apply lands_keeps, settles_start|]. intros ses.
  apply settles_in_session, settles_register_wallet.
Qed.
End Prompt.

(** The callback is called by both sessions of a wallet, in any order in time. *)
Inductive merged {A} : list A → list A → list A → Prop :=
  | merged_nil : merged [] [] []
  | merged_left x l k lk : merged l k lk → merged (x :: l) k (x :: lk)
  | merged_right x l k lk : merged l k lk → merged l (x :: k) (x :: lk).

Lemma merged_last {A} (l k lk : list A) x :
  merged l k lk → last lk = Some x → last l = Some x ∨ last k = Some x.
Proof.
  intros Hm. revert x. induction Hm as [|y l k lk Hm IH|y l k lk Hm IH]; intros x; [done|..].
  all: rewrite !last_cons; destruct (last lk) as [z|] eqn:E; intros [= ->].
  all: try (destruct (IH x eq_refl) as [Hx|Hx]; rewrite Hx; by auto).
  all: assert (lk = []) as -> by (by apply last_None); inversion Hm; subst; by auto.
Qed.

Section Both.
Context `{JadeSesEnv}.
Implicit Types s : GdkSesMng.

Definition both_idle s : Prop := idle (gm_watch_only s) ∧ idle (gm_jade s).

Abbreviation both_settle := (lands both_idle both_idle both_idle) (only parsing).

Lemma on_watch_settles {A} (m : GdkM A) : lands idle idle idle m → both_settle (on_watch m).
Proof.
  intros Hm s [Hw Hj]. specialize (Hm _ Hw). unfold on_watch. destruct (m (gm_watch_only s)) as [w []]; by split.
Qed.

Lemma on_jade_settles {A} (m : GdkM A) : lands idle idle idle m → both_settle (on_jade m).
Proof.
  intros Hm s [Hw Hj]. specialize (Hm _ Hj). unfold on_jade. destruct (m (gm_jade s)) as [w []]; by split.
Qed.

Lemma ignored_settles {A} (m : MngM A) : both_settle m → both_settle (ignored m).
Proof.
  intros Hm. unfold ignored. eapply lands_bind; [|intros r; apply lands_keeps, keeps_ret].
  eapply lands_weaken; [by apply lands_attempt|done..].
Qed.

Lemma set_jade_state_settles state : both_settle (set_jade_state state).
Proof. by intros s Hs. Qed.

Lemma check_jade_settles : both_settle check_jade.
Proof.
  unfold check_jade, get_jade_state. eapply lands_bind; [apply lands_keeps, keeps_gets|].
  intros []; [apply lands_keeps, keeps_fail| |apply lands_keeps, keeps_ret].
  eapply lands_bind; [apply on_jade_settles, settles_login|]. intros _. apply set_jade_state_settles.
Qed.

Lemma check_jade_alive_settles p i : both_settle (check_jade_alive p i).
Proof.
  unfold check_jade_alive, get_jade_state. eapply lands_bind; [apply lands_keeps, keeps_gets|].
  intros state. destruct (_ && _); [|apply lands_keeps, keeps_ret]. eapply lands_bind.
  - eapply lands_weaken; [apply lands_attempt, on_jade_settles, settles_get_previous_addresses|done..].
  - intros [_|_]; [apply lands_keeps, keeps_ret|].
    eapply lands_bind; [apply on_jade_settles, settles_reconnect_hint|]. intros _.
    eapply lands_bind; [apply on_jade_settles, settles_reconnect_hint|]. intros _.
    apply set_jade_state_settles.
Qed.

(** After the check, with the session of the device. *)
Lemma signing_settles {A} (m : GdkM A) :
  lands idle idle idle m → both_settle (do! check_jade in on_jade m).
Proof. intros Hm. eapply lands_bind; [apply check_jade_settles|]. intros _. by apply on_jade_settles. Qed.

#[local] Hint Resolve on_watch_settles on_jade_settles signing_settles : settles.
#[local] Hint Resolve settles_unspent_outputs settles_addr_info settles_get_transactions settles_get_balances
  settles_try_create_tx settles_get_tx_fee settles_get_blinded_values settles_get_previous_addresses
  settles_set_memo settles_unlock_hww settles_login settles_try_create_payjoin settles_try_send_tx
  settles_try_send_payjoin settles_make_pegout_payment settles_verify_and_sign_pset
  settles_sig_single_maker_tx settles_reconnect_hint : settles.

Lemma run_op_settles `{PjEnv} extract_tx op : both_settle (run_op extract_tx op).
Proof.
  destruct op; simpl; try apply ignored_settles;
    try (apply lands_keeps, keeps_fail); try solve [eauto with settles nocore].
  - apply on_watch_settles, lands_keeps. unfold try_get_gaid. keeps.
  - unfold mng_get_previous_addresses. eapply lands_bind; [apply check_jade_alive_settles|]. intros _.
    auto with settles.
Qed.

Lemma started_idle `{GdkEnv} info ses : (start_processing_impl info []).2 = Ok ses → idle ses.
Proof.
  pose proof (settles_start info [] eq_refl) as Hl.
  destruct (start_processing_impl info []) as [log r] eqn:E. cbn [snd] in *. intros Hr. subst r.
  assert (gs_log ses = log) as <-; [|exact Hl].
  unfold start_processing_impl in E. ok_inv. case_match; [done|]. by ok_inv.
Qed.

Lemma tell_idle statuses :
  default Hw_Idle (last statuses) = Hw_Idle →
  shown (status_sent (tell_statuses statuses)) = JadeStatus_Idle ∧
  told_once (status_sent (tell_statuses statuses)).
Proof.
  intros Hl. unfold tell_statuses.
  destruct (tell_last statuses {| last_jade_status := JadeStatus_Idle; status_sent := [] |}) as [[_ Ho] ->].
  { split; [done|]. by intros [] ? ?. }
  split; [|exact Ho]. destruct (last statuses); cbn in *; by subst.
Qed.

Lemma idle_last (s : GdkSes) status : idle s → last (hw_statuses (gs_log s)) = Some status → status = Hw_Idle.
Proof. unfold idle, last_hw. intros Hs E. by rewrite E in Hs. Qed.

(** C15: no prompt is left on the screen.  After any operations of a wallet on a Jade and
    notifications of its connection, in any order, with every error on the way, and after
    a registration, whatever it ends in, the application shows that the device is idle,
    unless the program panicked; and it was told of every change once. *)
Theorem no_prompt_left `{PjEnv} `{GdkEnv} `{RegEnv} info watch_only s extract_tx steps env req cache_dir :
  jade_session info watch_only = Ok s →
  (let '(s', r) := run_jade_session extract_tx steps s in
   is_ok r = true → ∀ statuses,
     merged (hw_statuses (gs_log (gm_watch_only s'))) (hw_statuses (gs_log (gm_jade s'))) statuses →
     shown (status_sent (tell_statuses statuses)) = JadeStatus_Idle ∧
     told_once (status_sent (tell_statuses statuses))) ∧
  (let '(log, r) := try_register env req cache_dir [] in
   is_panic r = false → shown (status_sent (tell_statuses (hw_statuses log))) = JadeStatus_Idle).
Proof.
  intros Hs. split.
  - assert (both_idle s) as Hidle.
    { unfold jade_session in Hs. ok_inv. split; [by eapply (@started_idle watch_env)|by eapply (@started_idle jade_env)]. }
    pose proof (lands_for_each (λ _, both_idle) both_idle steps (λ step, match step with
      | inl current_state => modify (λ s, s <| gm_jade_state ::= callback_jade current_state |>)
      | inr op => run_op extract_tx op end)) as Hrun.
    specialize (Hrun (λ step _ _, match step with inl _ => λ s H, H | inr op => run_op_settles extract_tx op end) s Hidle).
    unfold run_jade_session. destruct (for_each steps _ s) as [s' [[]|e|e]]; [|done..].
    intros _ statuses Hm. destruct Hrun as [Hw Hj]. apply tell_idle.
    destruct (last statuses) as [status|] eqn:El; [|done].
    destruct (merged_last _ _ _ _ Hm El) as [Hx|Hx]; [exact (idle_last _ _ Hw Hx)|exact (idle_last _ _ Hj Hx)].
  - pose proof (settles_try_register env req cache_dir [] eq_refl) as Hr.
    destruct (try_register env req cache_dir []) as [log [a|e|e]]; [..|done].
    all: intros _; by apply tell_idle.
Qed.
End Both.

(** *** A Jade that is unlocked to register and to sign *)
Module PromptSample.
(** The device is locked when it is asked first. *)
Definition jade (log : list GdkEvent) : Resp + string :=
  match log with
  | Gdk_jade_send Req_ReadStatus :: _ => inl (Resp_ReadStatus (RegisterSample.version <| jade_state := Device_Locked |>))
  | Gdk_hw_status Hw_AuthUser :: _ => inl (Resp_AuthUser true)
  | log => RegisterSample.jade log
  end.

#[export] Instance gdk_env : GdkEnv := RegisterSample.env_with jade.
#[export] Instance session_env : JadeSesEnv := {|
  watch_env := gdk_env; jade_env := gdk_env; jade_notifs _ _ := [] |}.

Definition hw_data : HwData := {|
  hw_env := Env_Prod; hw_name := "Jade 1"; hw_jade_id := "1"; hw_master_blinding_key := "key";
  hw_xpubs := ∅ |}.
Definition info : SesLoginInfo := JadeSessionSample.info <| sl_wallet_info := Ses_HwData hw_data |>.
Definition steps : list (ConnectionState + SesOp) := [inr Op_unlock_hww; inl Connected; inr (Op_send_tx "tx" ∅)].
End PromptSample.
#[local] Existing Instances PromptSample.session_env PromptSample.gdk_env RegisterSample.reg_env
  Payjoin.Sample.env.

Lemma no_prompt_left_witness :
  ∃ s sent, jade_session PromptSample.info JadeSessionSample.watch_only = Ok s ∧
    (let s' := (run_jade_session (λ _, Ok "tx") PromptSample.steps s).1 in
     sent = status_sent (tell_statuses (hw_statuses (gs_log (gm_jade s'))))) ∧
    From_JadeStatus JadeStatus_AuthUser ∈ sent ∧ shown sent = JadeStatus_Idle ∧
    shown (status_sent (tell_statuses (hw_statuses
      (try_register Env_Prod RegisterSample.request "dir" []).1))) = JadeStatus_Idle.
Proof.
  destruct (jade_session PromptSample.info JadeSessionSample.watch_only) as [s|e|e] eqn:E;
    [|vm_compute in E; discriminate E..].
  pose proof (no_prompt_left PromptSample.info JadeSessionSample.watch_only s (λ _, Ok "tx")
    PromptSample.steps Env_Prod RegisterSample.request "dir" E) as [Hp Hreg].
  exists s, (status_sent (tell_statuses (hw_statuses (gs_log (gm_jade
    (run_jade_session (λ _, Ok "tx") PromptSample.steps s).1))))).
  split; [done|]. split; [done|]. vm_compute in E. injection E as <-. split.
  - vm_compute. right. left.
  - split; [|destruct (try_register _ _ _ _) as [log r] eqn:Er; apply Hreg;
             vm_compute in Er; by injection Er as _ <-].
    match type of Hp with context [run_jade_session ?x ?steps ?s] =>
      destruct (run_jade_session x steps s) as [s' r] eqn:Er end.
    apply Hp; [by vm_compute in Er; injection Er as _ <-|].
    vm_compute in Er. injection Er as <- _. vm_compute. repeat constructor.
Defined.
