(* ===== verification/Rpc.v ===== *)
(** * The node behind the dealers

    The requests to the wallet of an Elements node (rust/sideswap_dealer/src/rpc.rs), and the
    hedging dealer over such a node: the environment of [Bitfinex] whose answers about the
    wallet are those of [make_rpc_call].  A node may carry a request out and still fail to
    answer it; what it pays for is what it pays. *)
From stdpp Require Import base numbers gmap strings list.
From Stdlib Require Import ZArith Lia SpecFloat.
From S2P Require Import Prelude F64 Serial Api Types Env Dealer Balancing Bitfinex Ledger Jade Files.

Open Scope Z_scope.
#[local] Set Primitive Projections.

(** ** Data *)

Record RpcServer := {
  rpc_host : string;
  rpc_port : Z;
  rpc_login : string;
  rpc_password : string
}.

Record RpcRequest := { rpc_method : string; rpc_params : list JsonValue }.

(** [RpcError] has one field, the message. *)
Record RpcResult := { rr_result : option JsonValue; rr_error : option string }.

Inductive AddressType := Legacy | P2SH | Bech32.

(** ** Requests *)

Section Requests.
(** The text of a number. *)
Context (show_f64 : f64 → string).

Definition json_f64 (x : f64) : JsonValue :=
  match x with
  | S754_zero _ | S754_finite _ _ _ => JsonNumber (show_f64 x)
  | S754_infinity _ | S754_nan => JsonNull
  end.
Definition json_i32 (x : Z) : JsonValue := JsonNumber (i32_to_string x).
Definition json_option {A} (f : A → JsonValue) (x : option A) : JsonValue := from_option f JsonNull x.

Definition get_wallet_info : RpcRequest := {| rpc_method := "getwalletinfo"; rpc_params := [] |}.

Definition address_type_str (addr_type : AddressType) : string :=
  match addr_type with Legacy => "legacy" | P2SH => "p2sh-segwit" | Bech32 => "bech32" end.

Definition get_new_address_with_type (addr_type : option AddressType) : RpcRequest :=
  let addr_type := json_option (λ t, JsonString (address_type_str t)) addr_type in
  {| rpc_method := "getnewaddress"; rpc_params := [JsonString EmptyString; addr_type] |}.

Definition get_new_address : RpcRequest := get_new_address_with_type (Some P2SH).

(** The inputs and outputs are JSON already. *)
Definition create_raw_tx (inputs outputs_amounts : JsonValue) (locktime : Z) (replaceable : bool)
    (output_assets : JsonValue) : RpcRequest :=
  {| rpc_method := "createrawtransaction";
     rpc_params := [inputs; outputs_amounts; json_i32 locktime; JsonBool replaceable; output_assets] |}.

Definition convert_to_psbt (tx : string) : RpcRequest :=
  {| rpc_method := "converttopsbt"; rpc_params := [JsonString tx] |}.
Definition fill_psbt_data (converted_tx : string) : RpcRequest :=
  {| rpc_method := "walletfillpsbtdata"; rpc_params := [JsonString converted_tx] |}.
Definition wallet_sign_psbt (tx : string) : RpcRequest :=
  {| rpc_method := "walletsignpsbt"; rpc_params := [JsonString tx] |}.
Definition listunspent (minconf : Z) : RpcRequest :=
  {| rpc_method := "listunspent"; rpc_params := [json_i32 minconf] |}.

Definition sendtoaddress_generic (addr : string) (amount : f64) (comment comment_to : option string)
    (subtractfeefromamount replaceable : option bool) (conf_target : option Z)
    (estimate_mode : option string) (avoid_reuse : option bool) (assetlabel : option string)
    : RpcRequest :=
  {| rpc_method := "sendtoaddress";
     rpc_params :=
       [ JsonString addr;
         json_f64 amount;
         json_option JsonString comment;
         json_option JsonString comment_to;
         json_option JsonBool subtractfeefromamount;
         json_option JsonBool replaceable;
         json_option json_i32 conf_target;
         json_option JsonString estimate_mode;
         json_option JsonBool avoid_reuse;
         json_option JsonString assetlabel ] |}.

Definition sendtoaddress_asset (addr : string) (amount : f64) (assetlabel : string) : RpcRequest :=
  sendtoaddress_generic addr amount None None None None None None None (Some assetlabel).
Definition sendtoaddress_bitcoin (addr : string) (amount : f64) : RpcRequest :=
  sendtoaddress_generic addr amount None None None None None None None None.

Definition get_address_info (addr : string) : RpcRequest :=
  {| rpc_method := "getaddressinfo"; rpc_params := [JsonString addr] |}.
Definition get_raw_transaction (txid : Txid) : RpcRequest :=
  {| rpc_method := "getrawtransaction"; rpc_params := [JsonString (hex_encode txid)] |}.
Definition dumpprivkey (addr : string) : RpcRequest :=
  {| rpc_method := "dumpprivkey"; rpc_params := [JsonString addr] |}.
Definition dumpblindingkey (addr : string) : RpcRequest :=
  {| rpc_method := "dumpblindingkey"; rpc_params := [JsonString addr] |}.
End Requests.

(** ** Calls *)

(** A payment as [sendtoaddress] is documented to make it: the address, the amount as it
    is written, and the tenth parameter, the asset; without one, bitcoin. *)
Record Payment := { pay_address : string; pay_amount : string; pay_asset : option string }.

Definition payment_of (req : RpcRequest) : option Payment :=
  match rpc_params req with
  | JsonString addr :: JsonNumber amount :: rest =>
      if String.eqb (rpc_method req) "sendtoaddress" then
        Some {| pay_address := addr;
                pay_amount := amount;
                pay_asset := match rest !! 7%nat with Some (JsonString asset) => Some asset | _ => None end |}
      else None
  | _ => None
  end.

(** A node and the HTTP agent in front of it; [time] is when.  The agent fails, or gives
    the body and the status.  [payments] are the payments the node has made. *)
Class RpcEnv := {
  node : Type;
  http_post : nat → string → string * string → RpcRequest → node → node * ((string * Z) + string);
  payments : node → list Payment;
  parse_rpc_result : string → RpcResult + string;
  show_f64 : f64 → string;
  json_address : JsonValue → option Address;
  json_unspent : JsonValue → option (list UnspentItem);
  show_asset : AssetId → string
}.

(** A request makes no payment but the one it asks for, and that once. *)
Class RpcLaws `{RpcEnv} := {
  node_pays time endpoint auth req n :
    ∃ paid, payments (http_post time endpoint auth req n).1 = payments n ++ paid ∧
      (paid = [] ∨ ∃ p, payment_of req = Some p ∧ paid = [p])
}.

Section Calls.
Context `{RpcEnv}.

Abbreviation NodeM := (M node).

Definition make_rpc_impl (time : nat) (server : RpcServer) (req : RpcRequest) : NodeM (string * Z) := λ n,
  let endpoint := "http://" +:+ rpc_host server +:+ ":" +:+ i32_to_string (rpc_port server) in
  match http_post time endpoint (rpc_login server, rpc_password server) req n with
  | (n', inl res) => (n', Ok res)
  | (n', inr e) => (n', Err e)
  end.

(** [json_string] and its like read the type the caller expects. *)
Definition make_rpc_call {A} (read : JsonValue → option A) (time : nat) (server : RpcServer)
    (req : RpcRequest) : NodeM A :=
  let! response := make_rpc_impl time server req in
  let! response := match parse_rpc_result (fst response) with inl r => ret r | inr e => fail e end in
  let! result :=
    match rr_result response with
    | Some v => let! a := ok_or (read v) "invalid type" in ret (Some a)
    | None => ret None
    end in
  match rr_error response, result with
  | Some message, _ => fail ("RPC failed: " +:+ message)
  | None, Some result => ret result
  | None, None => fail "empty RPC response"
  end.

Definition json_string (v : JsonValue) : option string :=
  match v with JsonString s => Some s | _ => None end.

(** ** The dealer's calls *)

Context (server : RpcServer).

Definition sendtoaddress_request (addr : string) (amount : f64) (asset : option AssetId) : RpcRequest :=
  match asset with
  | Some asset => sendtoaddress_asset show_f64 addr amount (show_asset asset)
  | None => sendtoaddress_bitcoin show_f64 addr amount
  end.

(** The node after the calls in the log, newest first. *)
Fixpoint node_of (n0 : node) (log : list BfEvent) : node :=
  match log with
  | [] => n0
  | e :: log =>
      let n := node_of n0 log in
      let time := length log in
      match e with
      | Bf_sendtoaddress addr amount asset _ =>
          (make_rpc_call json_string time server (sendtoaddress_request addr amount asset) n).1
      | Bf_list_unspent _ => (make_rpc_call json_unspent time server (listunspent 0) n).1
      | Bf_new_address _ => (make_rpc_call json_address time server get_new_address n).1
      | Bf_dumpprivkey addr _ => (make_rpc_call json_string time server (dumpprivkey addr) n).1
      | _ => n
      end
  end.

(** What a call returns after a log. *)
Definition call {A} (n0 : node) (read : JsonValue → option A) (req : RpcRequest) (log : list BfEvent)
    : A + string :=
  match (make_rpc_call read (length log) server req (node_of n0 log)).2 with
  | Ok a => inl a
  | Err e | Panic e => inr e
  end.

(** The environment of the dealer: its wallet is the node, the rest is as in [other]. *)
Definition rpc_env (n0 : node) (other : BfEnv) : BfEnv := {|
  bf_foreign := @bf_foreign other;
  bf_server := @bf_server other;
  bf_sendtoaddress log addr amount asset :=
    call n0 json_string (sendtoaddress_request addr amount asset) log;
  bf_list_unspent log := call n0 json_unspent (listunspent 0) log;
  bf_new_address log := call n0 json_address get_new_address log;
  bf_dumpprivkey log addr := call n0 json_string (dumpprivkey addr) log;
  bf_system_now := @bf_system_now other;
  bf_instant_now := @bf_instant_now other;
  bf_text := @bf_text other;
  bf_text_8 := @bf_text_8 other
|}.
End Calls.

(** ** What the node has paid *)

Definition is_withdraw (e : BfEvent) : bool :=
  match e with Bf_module (ToModule_Withdraw _) => true | _ => false end.
Definition is_send (e : BfEvent) : bool :=
  match e with Bf_sendtoaddress _ _ _ _ => true | _ => false end.

Lemma count_payouts log : count is_payout log = count is_send log + count is_withdraw log.
Proof.
  induction log as [|e log IH]; [done|]. cbn [count]. rewrite IH.
  assert (Z.b2z (is_payout e) = Z.b2z (is_send e) + Z.b2z (is_withdraw e)) as ->; [|lia].
  destruct e as [[]| | | | | | | | | | |]; done.
Qed.

Section Payments.
Context `{RpcLaws} (server : RpcServer).

Lemma call_pays {A} (read : JsonValue → option A) time req n :
  ∃ paid, payments (make_rpc_call read time server req n).1 = payments n ++ paid ∧
    (paid = [] ∨ ∃ p, payment_of req = Some p ∧ paid = [p]).
Proof.
  destruct (node_pays time ("http://" +:+ rpc_host server +:+ ":" +:+ i32_to_string (rpc_port server))
    (rpc_login server, rpc_password server) req n) as (paid & E & Hp).
  exists paid. split; [|exact Hp]. rewrite <- E. unfold make_rpc_call, make_rpc_impl, bind at 1.
  destruct (http_post _ _ _ _ _) as [n' [res|e]]; [|done]. simpl.
  assert (∀ m : M node A, keeps (λ n, payments n = payments n') m → payments (m n').1 = payments n') as Hk
    by (intros m Hm; by apply Hm).
  apply Hk. keeps.
Qed.

(** A payment some call of the log asked for. *)
Definition asked (log : list BfEvent) (p : Payment) : Prop :=
  ∃ addr amount asset r, Bf_sendtoaddress addr amount asset r ∈ log ∧
    payment_of (sendtoaddress_request addr amount asset) = Some p.

(** The payments a log made the node make. *)
Definition paid_for (n0 : node) (log : list BfEvent) (paid : list Payment) : Prop :=
  payments (node_of server n0 log) = payments n0 ++ paid ∧
  Z.of_nat (length paid) ≤ count is_send log ∧ Forall (asked log) paid.

Lemma node_of_paid n0 log : ∃ paid, paid_for n0 log paid.
Proof.
  induction log as [|e log (paid & E & Hn & Hp)]; [exists []; by split_and!; [rewrite app_nil_r| |]|].
  assert (∀ more : list Payment, Z.of_nat (length more) ≤ Z.b2z (is_send e) → Forall (asked (e :: log)) more →
    payments (node_of server n0 (e :: log)) = payments (node_of server n0 log) ++ more →
    ∃ paid, paid_for n0 (e :: log) paid) as Hgo.
  { intros more Hl Hmore Em. exists (paid ++ more). split; [by rewrite Em, E, app_assoc|].
    rewrite length_app, Forall_app. cbn [count]. split; [lia|]. split; [|done].
    eapply Forall_impl; [exact Hp|]. intros p (addr & amount & asset & r & Hin & Ep).
    exists addr, amount, asset, r. split; [by right|done]. }
  destruct e; try (apply (Hgo []); [simpl; lia|done|by rewrite app_nil_r]); simpl in Hgo |- *.
  all: match goal with |- context [paid_for _ (?e :: _)] =>
         match eval simpl in (node_of server n0 (e :: log)) with
         | context [make_rpc_call ?read ?time server ?req ?n] =>
             destruct (call_pays read time req n) as (more & Em & [->|(p & Ep & ->)])
         end end; [by apply (Hgo []); [simpl; lia|..]|try discriminate Ep].
  apply (Hgo [p]); [simpl; lia| |exact Em]. constructor; [|done]. eexists _, _, _, _. split; [left|exact Ep].
Qed.
End Payments.

(** The request of a payment asks for just that. *)
Lemma payment_asked `{RpcEnv} addr amount asset p :
  payment_of (sendtoaddress_request addr amount asset) = Some p →
  p = {| pay_address := addr; pay_amount := show_f64 amount; pay_asset := show_asset <$> asset |}.
Proof. destruct asset, amount; simpl; by intros [= <-]. Qed.

(** ** One dealer after the other *)

(** A dealer from its start until it is stopped: what is around it besides its node, when
    it starts, the messages it handles. *)
Record Life := { life_other : BfEnv; life_start : Z; life_msgs : list BfMsg }.

Section Lives.
Context `{RpcLaws} `{Json Storage} (server : RpcServer) (args : Args) (path : string).

Definition life_state (n : node) (life : Life) (storage : Storage) : BfState :=
  (@run_bf (rpc_env server n (life_other life)) args (life_msgs life) (bf_init storage (life_start life))).1.

(** The dealers start in one directory, over one node.  Each is stopped between two
    messages, or by a panic; one that cannot read its file does nothing.  The result is the
    node, the transfer in the file and the logs. *)
Fixpoint run_lives (n : node) (fs : gmap string bytes) (lives : list Life)
    : node * gmap string bytes * list (list BfEvent) :=
  match lives with
  | [] => (n, fs, [])
  | life :: lives =>
      match start_storage path fs with
      | Ok storage =>
          let log := bs_log (life_state n life storage) in
          let fs' := file_steps (concat (storage_save_steps path <$> saved_storages log)) fs in
          let '(n', fs', logs) := run_lives (node_of server n log) fs' lives in (n', fs', log :: logs)
      | _ => run_lives n fs lives
      end
  end.

(** What one dealer does. *)
Lemma life_pays n life storage :
  stored_wf storage →
  let s := life_state n life storage in
  stored_wf (bs_storage s) ∧
  ∃ paid, paid_for server n (bs_log s) paid ∧
    Z.of_nat (length paid) + count is_withdraw (bs_log s) + pending (bs_storage s) ≤
      count is_start (bs_log s) + pending storage ∧
    Forall (λ e, to_exchange args e) (bs_log s).
Proof.
  intros Hwf s.
  assert (balancing_from (pending storage) s) as Hinv.
  { apply (run_inv (H := rpc_env server n (life_other life))). by apply init_inv. }
  split; [apply (inv_wf _ _ Hinv)|]. destruct (node_of_paid server n (bs_log s)) as [paid Hp].
  exists paid. split; [done|]. split.
  - pose proof (inv_paid _ _ Hinv) as Hi. rewrite count_payouts in Hi. destruct Hp as (_ & Hl & _). lia.
  - destruct (@ledger_run (rpc_env server n (life_other life)) (to_exchange args) args [] ltac:(done)
      (life_msgs life) (bf_init storage (life_start life))) as (new & E & Hnew).
    { exists (bs_log (bf_init storage (life_start life))). split; [by rewrite app_nil_r|]. by repeat constructor. }
    rewrite app_nil_r in E. by rewrite <- E in Hnew.
Qed.

Definition total (p : BfEvent → bool) (logs : list (list BfEvent)) : Z := zsum (count p <$> logs).

(** A payment that some dealer asked for, to its address at the exchange. *)
Definition dealer_payment (logs : list (list BfEvent)) (p : Payment) : Prop :=
  ∃ log amount asset result, log ∈ logs ∧
    Bf_sendtoaddress (args_bitfinex_fund_address args) amount asset result ∈ log ∧
    p = {| pay_address := args_bitfinex_fund_address args;
           pay_amount := show_f64 amount;
           pay_asset := show_asset <$> asset |}.

Lemma asked_payment log p : Forall (λ e, to_exchange args e) log → asked log p → dealer_payment [log] p.
Proof.
  intros Hl (addr & amount & asset & r & Hin & Ep%payment_asked).
  rewrite Forall_forall in Hl. pose proof (Hl _ Hin) as Ha. simpl in Ha. subst addr.
  exists log, amount, asset, r. split; [by left|done].
Qed.

Lemma dealer_payment_more logs logs' p : logs ⊆ logs' → dealer_payment logs p → dealer_payment logs' p.
Proof. intros Hs (log & amount & asset & r & Hin & Hp). exists log, amount, asset, r. split; [by apply Hs|done]. Qed.

Lemma lives_pay lives n fs storage :
  start_storage path fs = Ok storage → stored_wf storage →
  let '(n', fs', logs) := run_lives n fs lives in
  ∃ storage' paid, start_storage path fs' = Ok storage' ∧ payments n' = payments n ++ paid ∧
    Z.of_nat (length paid) + total is_withdraw logs + pending storage' ≤ total is_start logs + pending storage ∧
    Forall (dealer_payment logs) paid.
Proof.
  revert n fs storage. induction lives as [|life lives IH]; intros n fs storage Hfs Hwf; simpl.
  { exists storage, []. split; [done|]. split; [by rewrite app_nil_r|]. split; [cbn; lia|done]. }
  rewrite Hfs. destruct (life_pays n life storage Hwf) as (Hwf' & paid & (Ep & _ & Hask) & Hc & Hto).
  set (s := life_state n life storage) in *.
  specialize (IH (node_of server n (bs_log s)) _ (bs_storage s)
    (stopped_resumes (H1 := rpc_env server n (life_other life)) args (life_start life) (life_msgs life) path fs
       storage Hwf) Hwf').
  change (file_steps (concat (storage_save_steps path <$> saved_storages (bs_log s))) fs) with
    (file_steps (concat (storage_save_steps path <$> saved_storages (bs_log (life_state n life storage)))) fs).
  destruct (run_lives _ _ lives) as [[n' fs'] logs]. destruct IH as (storage' & paid' & Hfs' & Ep' & Hc' & Hp').
  exists storage', (paid ++ paid'). split; [done|]. split; [by rewrite Ep', Ep, app_assoc|]. split.
  - rewrite length_app. unfold total, zsum in *. cbn [fmap list_fmap foldr]. lia.
  - apply Forall_app. split; (eapply Forall_impl; [eassumption|]).
    + intros p Hp. eapply dealer_payment_more; [|by apply asked_payment]. set_solver.
    + intros p. apply dealer_payment_more. set_solver.
Qed.
End Lives.

(** C19: the wallet pays at most once for a transfer, to the exchange, also when the dealer
    is started again.  One hedging dealer after the other runs in a directory, each until it
    is stopped between two messages or panics, over an Elements node that can fail or answer
    anything, also after it has paid; the server, the exchange and the clocks do what they
    like.  Then the payments the node has made meanwhile, with the withdrawals asked of the
    exchange, are at most as many as the transfers started, with one that was in the file at
    first and not paid; and each payment is one that a dealer asked for, of that amount and
    asset, to its address at the exchange.  (A dealer that is stopped while it handles a
    message can be stopped between a payment and the save that says so; see
    [Files.paid_not_saved].) *)
Theorem wallet_pays_once `{RpcLaws} `{Json Storage} (server : RpcServer) args path n0 fs storage lives :
  dealer_dir path fs → start_storage path fs = Ok storage →
  let '(n, _, logs) := run_lives server args path n0 fs lives in
  ∃ paid, payments n = payments n0 ++ paid ∧
    Z.of_nat (length paid) + total is_withdraw logs ≤ total is_start logs + pending storage ∧
    Forall (dealer_payment args logs) paid.
Proof.
  intros (storage' & E & Hwf)%dealer_dir_starts Hfs. rewrite Hfs in E. injection E as <-.
  pose proof (lives_pay server args path lives n0 fs storage Hfs Hwf) as Hl.
  destruct (run_lives _ _ _ _ _ _) as [[n fs'] logs]. destruct Hl as (storage' & paid & _ & Ep & Hc & Hp).
  exists paid. split; [done|]. split; [|done]. pose proof (pending_bounds storage'). lia.
Qed.

(** ** A concrete node *)

Module RpcSample.
(** It pays, and then does not answer. *)
Definition env : RpcEnv := {|
  node := list Payment;
  http_post time endpoint auth req n := (n ++ option_list (payment_of req), inr "timed out");
  payments n := n;
  parse_rpc_result text := inr "no JSON";
  show_f64 x := "1000.0";
  json_address v := None;
  json_unspent v := None;
  show_asset asset := hex_encode asset
|}.

Lemma rpc_laws : @RpcLaws env.
Proof.
  split. intros time endpoint auth req n. exists (option_list (payment_of req)). split; [done|].
  destruct (payment_of req) as [p|]; [right; by exists p|by left].
Qed.

Definition node0 : @node env := ([] : list Payment).

Definition server : RpcServer :=
  {| rpc_host := "127.0.0.1"; rpc_port := 7041; rpc_login := "login"; rpc_password := "password" |}.
End RpcSample.

#[local] Existing Instances RpcSample.env RpcSample.rpc_laws FilesSample.json_storage.

Module RpcLives.
(** A withdrawal that is asked for, and the dealer that hears it was accepted. *)
Definition lives : list Life :=
  [ {| life_other := Bitfinex.Sample.env; life_start := 0; life_msgs := take 4 Bitfinex.Sample.msgs |};
    {| life_other := Bitfinex.Sample.env; life_start := 9; life_msgs := FilesSample.more |} ].
End RpcLives.

Lemma wallet_pays_once_witness :
  let '(n, _, logs) := run_lives RpcSample.server Bitfinex.Sample.args FilesSample.path RpcSample.node0 ∅
                         RpcLives.lives in
  total is_withdraw logs = 1 ∧ total is_start logs = 1 ∧
  ∃ paid, payments n = payments RpcSample.node0 ++ paid ∧
    Z.of_nat (length paid) + total is_withdraw logs ≤ total is_start logs + pending None ∧
    Forall (dealer_payment Bitfinex.Sample.args logs) paid.
Proof.
  pose proof (wallet_pays_once RpcSample.server Bitfinex.Sample.args FilesSample.path RpcSample.node0 ∅ None
    RpcLives.lives (dir_first FilesSample.path ∅ eq_refl) eq_refl) as Hw.
  assert (total is_withdraw (run_lives RpcSample.server Bitfinex.Sample.args FilesSample.path RpcSample.node0 ∅
            RpcLives.lives).2 = 1) as H1 by (vm_compute; reflexivity).
  assert (total is_start (run_lives RpcSample.server Bitfinex.Sample.args FilesSample.path RpcSample.node0 ∅
            RpcLives.lives).2 = 1) as H2 by (vm_compute; reflexivity).
  revert H1 H2 Hw. generalize (run_lives RpcSample.server Bitfinex.Sample.args FilesSample.path RpcSample.node0 ∅
    RpcLives.lives). intros [[n fs] logs] H1 H2 Hw. split; [exact H1|]. split; [exact H2|exact Hw].
Defined.
