(* ===== verification/Registry.v ===== *)
(** * The registry of assets

    Names, tickers and precisions of assets (rust/gdk_rust/gdk_registry/src, and store.rs of
    gdk_common for the encryption of a wallet's cache), and what the client makes of them
    (rust/sideswap_client/src/worker/assets_registry.rs): the registry file of a network
    with the assets built in, a cache per wallet, queries, refreshing over HTTP.  Through
    queries and orderly refreshes the cache stays in step with the registry ([synced]).  The
    directory of the registry is a map; its files are taken to be writable, and locks are
    not poisoned. *)
From stdpp Require Import base numbers gmap strings list.
From Stdlib Require Import ZArith Lia.
From S2P Require Import Prelude Serial Api Types Env Jade.

Open Scope Z_scope.
#[local] Set Primitive Projections.

(** ** Data *)

Inductive ElementsNetwork := Liquid | LiquidTestnet | ElementsRegtest.
#[export] Instance ElementsNetwork_eq_dec : EqDecision ElementsNetwork.
Proof. solve_decision. Defined.
#[export] Instance ElementsNetwork_countable : Countable ElementsNetwork.
Proof.
  refine (inj_countable (λ n, match n with Liquid => 0 | LiquidTestnet => 1 | ElementsRegtest => 2 end)
    (λ z, [Liquid; LiquidTestnet; ElementsRegtest] !! Z.to_nat z) _).
  by intros [].
Defined.

Inductive AssetsOrIcons := Assets | Icons.
#[export] Instance AssetsOrIcons_eq_dec : EqDecision AssetsOrIcons.
Proof. solve_decision. Defined.
#[export] Instance AssetsOrIcons_countable : Countable AssetsOrIcons.
Proof.
  refine (inj_countable' (λ w, match w with Assets => true | Icons => false end)
    (λ b : bool, if b then Assets else Icons) _).
  by intros [].
Defined.

Definition endpoint (what : AssetsOrIcons) : string :=
  match what with Assets => "/index.json" | Icons => "/icons.json" end.

Definition networks : list ElementsNetwork := [Liquid; LiquidTestnet; ElementsRegtest].

Definition network_to_string (n : ElementsNetwork) : string :=
  match n with
  | Liquid => "liquid"
  | LiquidTestnet => "liquid-testnet"
  | ElementsRegtest => "elements-regtest"
  end.

Record Prevout := { po_txid : Txid; po_vout : Z }.
Record Txin := { txin_txid : Txid; txin_vin : Z }.

Record AssetEntry := {
  ae_asset_id : AssetId;
  ae_contract : JsonValue;
  ae_entity : JsonValue;
  ae_issuance_prevout : Prevout;
  ae_issuance_txin : Txin;
  ae_issuer_pubkey : string;
  ae_name : string;
  ae_precision : Z;
  ae_ticker : option string;
  ae_version : Z
}.

Abbreviation RegistryAssets := (gmap AssetId AssetEntry) (only parsing).
Abbreviation RegistryIcons := (gmap AssetId string) (only parsing).

Inductive RegistrySource := Source_Cache | Source_Downloaded | Source_LocalRegistry | Source_NotModified.

Definition merge (a b : RegistrySource) : RegistrySource :=
  match a, b with
  | Source_Cache, source | source, Source_Cache => source
  | Source_Downloaded, _ | _, Source_Downloaded => Source_Downloaded
  | Source_LocalRegistry, source | source, Source_LocalRegistry => source
  | Source_NotModified, Source_NotModified => Source_NotModified
  end.

Record RegistryInfos := {
  ri_assets : RegistryAssets;
  ri_icons : RegistryIcons;
  ri_source : option RegistrySource
}.

Record LastModified := { lm_assets : string; lm_icons : string }.

Definition last_modified_of (what : AssetsOrIcons) (l : LastModified) : string :=
  match what with Assets => lm_assets l | Icons => lm_icons l end.
Definition with_last_modified (what : AssetsOrIcons) (new : string) (l : LastModified) : LastModified :=
  match what with Assets => l <| lm_assets := new |> | Icons => l <| lm_icons := new |> end.

(** The cache of a wallet; its key is not written. *)
Record Cache := {
  ca_assets : RegistryAssets;
  ca_icons : RegistryIcons;
  ca_missing_assets : list AssetId;
  ca_missing_icons : list AssetId
}.

Definition cache_default : Cache :=
  {| ca_assets := ∅; ca_icons := ∅; ca_missing_assets := []; ca_missing_icons := [] |}.

(** *** Parameters *)

Record RegistryConfig := {
  cfg_network : ElementsNetwork;
  cfg_proxy : option string;
  cfg_url : string;
  cfg_custom_headers : gmap string string
}.

Inductive AssetCategory := Category_All | Category_HardCoded | Category_WithIcons.
#[export] Instance AssetCategory_eq_dec : EqDecision AssetCategory.
Proof. solve_decision. Defined.

Record GetAssetsParams := {
  gp_assets_id : option (list AssetId);
  gp_xpub : option string;
  gp_names : option (list string);
  gp_tickers : option (list string);
  gp_category : option AssetCategory;
  gp_config : RegistryConfig
}.

Inductive GetAssetsQuery :=
  | FromCache (assets_id : list AssetId) (xpub : string)
  | FromRegistry (matcher : AssetEntry → option string → bool)
  | FromHardCoded (matcher : AssetEntry → option string → bool)
  | WholeRegistry.

Record RefreshAssetsParams := {
  rp_assets : bool;
  rp_icons : bool;
  rp_config : RegistryConfig;
  rp_xpub : option string
}.

(** *** State: the directory, and whether [init] was called *)

Inductive RegFile :=
  | File_last_modified (n : ElementsNetwork)
  | File_registry (n : ElementsNetwork) (what : AssetsOrIcons).
#[export] Instance RegFile_eq_dec : EqDecision RegFile.
Proof. solve_decision. Defined.
#[export] Instance RegFile_countable : Countable RegFile.
Proof.
  refine (inj_countable' (λ f, match f with File_last_modified n => inl n | File_registry n w => inr (n, w) end)
    (λ x, match x with inl n => File_last_modified n | inr (n, w) => File_registry n w end) _).
  by intros [].
Defined.

Record RegState := {
  rs_files : gmap RegFile bytes;
  rs_caches : gmap string bytes;
  rs_registry_ready : bool;
  rs_cache_ready : bool;
  rs_time : nat
}.

Abbreviation RegM := (M RegState).

(** *** Equality of JSON values *)

Fixpoint json_eqb (a b : JsonValue) : bool :=
  let list_eqb := fix go (l k : list JsonValue) : bool :=
    match l, k with
    | [], [] => true
    | x :: l, y :: k => json_eqb x y && go l k
    | _, _ => false
    end in
  let entries_eqb := fix go (l k : list (string * JsonValue)) : bool :=
    match l, k with
    | [], [] => true
    | (i, x) :: l, (j, y) :: k => String.eqb i j && json_eqb x y && go l k
    | _, _ => false
    end in
  match a, b with
  | JsonNull, JsonNull => true
  | JsonBool v, JsonBool w => Bool.eqb v w
  | JsonNumber v, JsonNumber w => String.eqb v w
  | JsonString v, JsonString w => String.eqb v w
  | JsonArray l, JsonArray k => list_eqb l k
  | JsonObject l, JsonObject k => entries_eqb l k
  | _, _ => false
  end.

Lemma json_eqb_eq : ∀ a b, json_eqb a b = true ↔ a = b.
Proof.
  fix IH 1. intros [|v|v|v|l|l] [|w|w|w|k|k]; simpl; try (split; [discriminate|congruence]).
  - done.
  - rewrite Bool.eqb_true_iff. split; congruence.
  - rewrite String.eqb_eq. split; congruence.
  - rewrite String.eqb_eq. split; congruence.
  - transitivity (l = k); [|split; congruence]. revert k.
    induction l as [|x l IHl]; intros [|y k]; try (split; [discriminate|congruence]); [done|].
    rewrite andb_true_iff, (IH x y), IHl. split; [by intros [-> ->]|by intros [= -> ->]].
  - transitivity (l = k); [|split; congruence]. revert k.
    induction l as [|[i x] l IHl]; intros [|[j y] k]; try (split; [discriminate|congruence]); [done|].
    rewrite !andb_true_iff, String.eqb_eq, (IH x y), IHl.
    split; [by intros [[-> ->] ->]|by intros [= -> -> ->]].
Qed.

#[export] Instance JsonValue_eq_dec : EqDecision JsonValue.
Proof. intros a b. refine (cast_if (decide (json_eqb a b = true))); by rewrite <- json_eqb_eq. Defined.

#[export] Instance AssetEntry_eq_dec : EqDecision AssetEntry.
Proof.
  assert (EqDecision Prevout) by solve_decision. assert (EqDecision Txin) by solve_decision.
  solve_decision.
Defined.

(** [value["key"]], [as_str()], [as_u64()] *)
Definition json_get (v : JsonValue) (key : string) : JsonValue :=
  match v with
  | JsonObject entries => from_option snd JsonNull (List.find (λ e, String.eqb (fst e) key) entries)
  | _ => JsonNull
  end.
Definition as_str (v : JsonValue) : option string :=
  match v with JsonString s => Some s | _ => None end.
Definition as_u64 (v : JsonValue) : option Z :=
  match v with
  | JsonNumber s =>
      match DecimalString.NilZero.uint_of_string s with
      | Some u => let z := Z.of_uint u in if z <? 2 ^ 64 then Some z else None
      | None => None
      end
  | _ => None
  end.

(** ** The environment *)

(** A type kept in registry files: its CBOR, and its JSON. *)
Class RegistryData (T : Type) := {
  rd_write : T → bytes;
  rd_read : bytes → T + string;
  rd_from_value : JsonValue → T + string
}.

(** An answer over HTTP: status, the header [Last-Modified], the body. *)
Record HttpAnswer := {
  ha_status : Z;
  ha_last_modified : option string;
  ha_body : JsonValue + string
}.

Class RegistryEnv := {
  #[global] registry_ids :: ElementsIds;
  #[global] assets_data :: RegistryData RegistryAssets;
  #[global] icons_data :: RegistryData RegistryIcons;
  (** the embedded files *)
  hard_coded_value : ElementsNetwork → AssetsOrIcons → JsonValue;
  write_value : JsonValue → bytes;
  write_last_modified : LastModified → bytes;
  read_last_modified : bytes → LastModified + string;
  write_cache : Cache → bytes;
  read_cache : bytes → Cache + string;
  (** the JSON text of a value; the hash of an issued asset's contract and prevout *)
  json_text : JsonValue → string;
  issued_asset : Prevout → string → AssetId + string;
  (** AES-GCM-SIV under the key derived from a key of a wallet; a nonce; SHA256 *)
  aead_encrypt : string → bytes → bytes → bytes;
  aead_decrypt : string → bytes → bytes → bytes + string;
  random_nonce : nat → bytes;
  hash_xpub : string → string;
  (** the HTTP agent, by time *)
  registry_http : nat → string → string → gmap string string → HttpAnswer + string
}.

(** What is written is read back, and what is encrypted decrypted. *)
Class RegistryLaws `{RegistryEnv} := {
  read_write_cache c : read_cache (write_cache c) = inl c;
  decrypt_encrypt key nonce plain : aead_decrypt key nonce (aead_encrypt key nonce plain) = inl plain;
  nonce_length time : length (random_nonce time) = 12%nat;
  read_write_assets (m : RegistryAssets) : rd_read (rd_write m) = inl m;
  read_write_icons (m : RegistryIcons) : rd_read (rd_write m) = inl m
}.

Section Registry.
Context `{RegistryEnv}.

(** [Result] values of other crates. *)
Definition of_result {A} (r : A + string) : RegM A :=
  match r with inl a => ret a | inr e => fail e end.

(** ** The built-in assets *)

Definition hard_coded (T : Type) `{RegistryData T} (n : ElementsNetwork) (what : AssetsOrIcons)
    : outcome T :=
  match rd_from_value (hard_coded_value n what) with
  | inl v => Ok v
  | inr _ => Panic "checked at test time"
  end.

Definition POLICY_ASSET (n : ElementsNetwork) : string :=
  match n with
  | Liquid => "6f0279e9ed041c3d710a9f57d0c02928416460c4b722ae3457a11eec381c526d"
  | LiquidTestnet => "144c654344aa716d6f3abcc1ca90e5641e4e2a7f633bc09fe3baf64585819a49"
  | ElementsRegtest => "5ac9f65c0efcc4775e0baec4ec03abdde22473cd3cf33c0419ca290e0751b225"
  end.

Definition policy_asset_id (n : ElementsNetwork) : outcome AssetId :=
  match AssetId_from_str (POLICY_ASSET n) with Ok id => Ok id | _ => Panic "verified at test time" end.

(** ** Verification *)

Definition contract_string (e : AssetEntry) : string := json_text (ae_contract e).

(** The identifier commits to the contract, and the fields are those of the contract. *)
Definition verifies (e : AssetEntry) : bool + string :=
  match issued_asset (ae_issuance_prevout e) (contract_string e) with
  | inr err => inr err
  | inl asset_id =>
      let contract := json_get (ae_contract e) in
      let ticker := match ae_ticker e with Some val => JsonString val | None => JsonNull end in
      inl (bool_decide (asset_id = ae_asset_id e) &&
           bool_decide (Some (ae_version e) = as_u64 (contract "version")) &&
           bool_decide (Some (ae_issuer_pubkey e) = as_str (contract "issuer_pubkey")) &&
           bool_decide (Some (ae_name e) = as_str (contract "name")) &&
           bool_decide (ticker = contract "ticker") &&
           bool_decide (Some (ae_precision e) = as_u64 (contract "precision")) &&
           bool_decide (ae_entity e = contract "entity"))
  end.

(** [entry.verifies().unwrap_or(false)] *)
Definition is_verified (e : AssetEntry) : bool :=
  match verifies e with inl b => b | inr _ => false end.

(** ** Registry files *)

Definition file_write (f : RegFile) (data : bytes) : RegM unit :=
  modify (λ s, s <| rs_files ::= <[f := data]> |>).

(** Reading a file of the registry; [init] made it. *)
Definition file_contents (f : RegFile) : RegM bytes :=
  let! ready := gets rs_registry_ready in
  do! ensure ready "Registry has not been initialized" in
  let! files := gets rs_files in
  expect (files !! f) "all (network, {assets|icons}) combinations are initialized".

Definition fetch (T : Type) `{RegistryData T} (n : ElementsNetwork) (what : AssetsOrIcons) : RegM T :=
  let! data := file_contents (File_registry n what) in
  match rd_read data with
  | inl value => ret value
  | inr _ =>
      let value := hard_coded_value n what in
      do! file_write (File_registry n what) (write_value value) in
      of_result (rd_from_value value)
  end.

(** [v.extend(..)]: the second map's entries win. *)
Definition extend {A} (v w : gmap AssetId A) : gmap AssetId A := w ∪ v.

Definition get_full (n : ElementsNetwork) : RegM RegistryInfos :=
  let! assets := fetch RegistryAssets n Assets in
  let! built_in := lift (hard_coded RegistryAssets n Assets) in
  let! icons := fetch RegistryIcons n Icons in
  let! built_in_icons := lift (hard_coded RegistryIcons n Icons) in
  ret {| ri_assets := extend assets built_in; ri_icons := extend icons built_in_icons;
         ri_source := None |}.

(** [retain(|id, _| p(id))] *)
Definition retain {A} (p : AssetId → bool) (m : gmap AssetId A) : gmap AssetId A :=
  base.filter (λ kv, p kv.1 = true) m.

Definition contains (ids : list AssetId) (id : AssetId) : bool := bool_decide (id ∈ ids).

Definition filter (registry : RegistryInfos) (matcher : AssetEntry → option string → bool)
    : RegistryInfos :=
  let matched_ids :=
    omap (λ '(id, asset), if matcher asset (ri_icons registry !! id) then Some id else None)
      (map_to_list (ri_assets registry)) in
  registry <| ri_assets ::= retain (contains matched_ids) |>
           <| ri_icons ::= retain (contains matched_ids) |>.

Definition filter_full (n : ElementsNetwork) (matcher : AssetEntry → option string → bool)
    : RegM RegistryInfos :=
  let! registry := get_full n in
  ret (filter registry matcher).

Definition filter_hard_coded (n : ElementsNetwork) (matcher : AssetEntry → option string → bool)
    : RegM RegistryInfos :=
  let! assets := lift (hard_coded RegistryAssets n Assets) in
  let! icons := lift (hard_coded RegistryIcons n Icons) in
  ret (filter {| ri_assets := assets; ri_icons := icons; ri_source := None |} matcher).

Definition get_last_modified (n : ElementsNetwork) (what : AssetsOrIcons) : RegM string :=
  let! data := file_contents (File_last_modified n) in
  let! last_modified := of_result (read_last_modified data) in
  ret (last_modified_of what last_modified).

Definition set_last_modified (new : string) (n : ElementsNetwork) (what : AssetsOrIcons) : RegM unit :=
  let! data := file_contents (File_last_modified n) in
  let! last_modified := of_result (read_last_modified data) in
  file_write (File_last_modified n) (write_last_modified (with_last_modified what new last_modified)).

(** *** Initialization *)

Definition get_file (f : RegFile) (initial : outcome bytes) : RegM unit :=
  let! files := gets rs_files in
  match files !! f with
  | Some _ => ret tt
  | None => let! data := lift initial in file_write f data
  end.

Definition init_network (n : ElementsNetwork) : RegM unit :=
  do! get_file (File_last_modified n)
        (Ok (write_last_modified {| lm_assets := EmptyString; lm_icons := EmptyString |})) in
  do! get_file (File_registry n Assets)
        (let? v := hard_coded RegistryAssets n Assets in Ok (rd_write v)) in
  get_file (File_registry n Icons) (let? v := hard_coded RegistryIcons n Icons in Ok (rd_write v)).

Definition registry_init : RegM unit :=
  do! for_each networks init_network in
  let! ready := gets rs_registry_ready in
  do! ensure (negb ready) "Cannot call `init` more than once" in
  modify (λ s, s <| rs_registry_ready := true |>).

Definition cache_init : RegM unit :=
  let! ready := gets rs_cache_ready in
  do! ensure (negb ready) "Cannot call `init` more than once" in
  modify (λ s, s <| rs_cache_ready := true |>).

Definition reg_init : RegM unit := do! registry_init in cache_init.

(** ** Caches *)

(** [Encryptable] and [Decryptable] of store.rs: the nonce in front. *)
Definition encrypt (key : string) (plain : bytes) : RegM bytes :=
  let! time := gets rs_time in
  do! modify (λ s, s <| rs_time ::= S |>) in
  let nonce := random_nonce time in
  ret (nonce ++ aead_encrypt key nonce plain).

Definition decrypt (key : string) (data : bytes) : bytes + string :=
  if (length data <? 12)%nat then inr "vector should be longer than 12 bytes"
  else aead_decrypt key (take 12 data) (drop 12 data).

(** The cache a file holds. *)
Definition get_cache (xpub : string) (data : bytes) : Cache + string :=
  match decrypt xpub data with
  | inl decrypted => read_cache decrypted
  | inr e => inr e
  end.

Definition from_xpub (xpub : string) (cache_files : gmap string bytes) : Cache :=
  match cache_files !! hash_xpub xpub with
  | Some file => match get_cache xpub file with inl cache => cache | inr _ => cache_default end
  | None => cache_default
  end.

(** The files are listed when they are first used. *)
Definition lock_cache_files : RegM (gmap string bytes) :=
  let! ready := gets rs_cache_ready in
  do! expect (if ready then Some tt else None) "the cache directory has already been initialized" in
  gets rs_caches.

Definition extend_from_registry (registry : RegistryInfos) (choose : list AssetId) (cache : Cache) : Cache :=
  cache <| ca_assets ::= λ m, extend m (retain (contains choose) (ri_assets registry)) |>
        <| ca_icons ::= λ m, extend m (retain (contains choose) (ri_icons registry)) |>.

Definition cache_filter (ids : list AssetId) (cache : Cache) : Cache :=
  cache <| ca_assets ::= retain (contains ids) |> <| ca_icons ::= retain (contains ids) |>.

Definition is_cached (cache : Cache) (id : AssetId) : bool := bool_decide (is_Some (ca_assets cache !! id)).
Definition is_missing (cache : Cache) (id : AssetId) : bool := contains (ca_missing_assets cache) id.

Definition register_missing_assets (ids : list AssetId) (cache : Cache) : Cache :=
  cache <| ca_missing_assets ::= λ l, l ++ ids |>.
Definition register_missing_icons (ids : list AssetId) (cache : Cache) : Cache :=
  cache <| ca_missing_icons ::= λ l, l ++ ids |>.

Definition to_registry (from_cache : bool) (cache : Cache) : RegistryInfos := {|
  ri_assets := ca_assets cache;
  ri_icons := ca_icons cache;
  ri_source := Some (if from_cache then Source_Cache else Source_LocalRegistry)
|}.

Definition cache_update (xpub : string) (cache : Cache) : RegM unit :=
  let! data := encrypt xpub (write_cache cache) in
  modify (λ s, s <| rs_caches ::= <[hash_xpub xpub := data]> |>).

(** One entry of the registry, seen by the two [update_missing_or_updated] functions. *)
Definition update_present {A} `{EqDecision A} (missing : list AssetId)
    (acc : gmap AssetId A * list AssetId) (present : AssetId * A) : gmap AssetId A * list AssetId :=
  let '(entries, to_remove) := acc in
  let '(id, entry) := present in
  let '(entries, to_remove) :=
    if contains missing id then (<[id := entry]> entries, to_remove ++ [id]) else (entries, to_remove) in
  match entries !! id with
  | Some old => (if bool_decide (old ≠ entry) then <[id := entry]> entries else entries, to_remove)
  | None => (entries, to_remove)
  end.

Definition update_missing_or_updated_assets (present : RegistryAssets) (cache : Cache) : Cache :=
  let '(assets, to_remove) :=
    foldl (update_present (ca_missing_assets cache)) (ca_assets cache, []) (map_to_list present) in
  cache <| ca_assets := assets |>
        <| ca_missing_assets ::= List.filter (λ id, negb (contains to_remove id)) |>.

Definition update_missing_or_updated_icons (present : RegistryIcons) (cache : Cache) : Cache :=
  let '(icons, to_remove) :=
    foldl (update_present (ca_missing_icons cache)) (ca_icons cache, []) (map_to_list present) in
  cache <| ca_icons := icons |>
        <| ca_missing_icons ::= List.filter (λ id, negb (contains to_remove id)) |>.

Definition update_missing_assets (xpub : string) (assets : RegistryAssets) : RegM unit :=
  let! cache_files := lock_cache_files in
  cache_update xpub (update_missing_or_updated_assets assets (from_xpub xpub cache_files)).

Definition update_missing_icons (xpub : string) (icons : RegistryIcons) : RegM unit :=
  let! cache_files := lock_cache_files in
  cache_update xpub (update_missing_or_updated_icons icons (from_xpub xpub cache_files)).

(** ** Queries *)

(** [to_ascii_uppercase], and [str::contains] *)
Definition ascii_upper (c : Ascii.ascii) : Ascii.ascii :=
  let n := Ascii.nat_of_ascii c in
  if (97 <=? n)%nat && (n <=? 122)%nat then Ascii.ascii_of_nat (n - 32) else c.
Fixpoint to_ascii_uppercase (s : string) : string :=
  match s with
  | EmptyString => EmptyString
  | String c s => String (ascii_upper c) (to_ascii_uppercase s)
  end.
Fixpoint str_contains (part s : string) : bool :=
  String.prefix part s ||
  match s with EmptyString => false | String _ s => str_contains part s end.

Definition query_matcher (assets_id : option (list AssetId)) (names tickers : option (list string))
    (category : option AssetCategory) (asset : AssetEntry) (icon : option string) : bool :=
  from_option (λ ids, contains ids (ae_asset_id asset)) true assets_id &&
  from_option (λ names, existsb (λ name, str_contains name (to_ascii_uppercase (ae_name asset))) names)
    true names &&
  from_option (λ tickers,
    match ae_ticker asset with Some ticker => bool_decide (ticker ∈ tickers) | None => false end)
    true tickers &&
  (negb (bool_decide (category = Some Category_WithIcons)) || bool_decide (is_Some icon)).

Definition into_query (params : GetAssetsParams) : outcome GetAssetsQuery :=
  let matched (assets_id : option (list AssetId)) (names tickers : option (list string)) category :=
    let names := option_map (List.map to_ascii_uppercase) names in
    let matcher := query_matcher assets_id names tickers category in
    if bool_decide (category = Some Category_HardCoded) then Ok (FromHardCoded matcher)
    else Ok (FromRegistry matcher) in
  match gp_assets_id params, gp_names params, gp_tickers params, gp_category params with
  | Some _, Some _, _, _ | Some _, _, Some _, _ | Some _, _, _, Some _ =>
      Err "Cannot call `get_assets` with both `assets_id` and another field set"
  | None, _, _, Some Category_All => Ok WholeRegistry
  | None, None, None, None => Err "Specify either `assets_id` or one of more of the following fields"
  | Some assets_id, None, None, None =>
      match gp_xpub params with
      | Some xpub => Ok (FromCache assets_id xpub)
      | None => matched (Some assets_id) None None None
      end
  | None, names, tickers, category => matched None names tickers category
  end.

(** The ids asked for, through the cache of a wallet. *)
Definition get_from_cache (n : ElementsNetwork) (assets_id : list AssetId) (xpub : string)
    : RegM RegistryInfos :=
  let! cache_files := lock_cache_files in
  let cache := from_xpub xpub cache_files in
  let cached := List.filter (is_cached cache) assets_id in
  let not_cached := List.filter (λ id, negb (is_cached cache id)) assets_id in
  let not_cached := List.filter (λ id, negb (is_missing cache id)) not_cached in
  match not_cached with
  | [] => ret (to_registry true (cache_filter cached cache))
  | _ :: _ =>
      let! registry := get_full n in
      let contains_asset id := bool_decide (is_Some (ri_assets registry !! id)) in
      let contains_icon id := bool_decide (is_Some (ri_icons registry !! id)) in
      let in_registry := List.filter contains_asset not_cached in
      let assets_not_in_disk := List.filter (λ id, negb (contains_asset id)) not_cached in
      let icons_not_in_disk := List.filter (λ id, negb (contains_icon id)) not_cached in
      let! found :=
        match in_registry with
        | [] => ret (cache, cached, true)
        | _ :: _ =>
            let cache := extend_from_registry registry in_registry cache in
            do! cache_update xpub cache in
            ret (cache, cached ++ in_registry, false)
        end in
      let '(cache, cached, from_cache) := found in
      let! cache :=
        match assets_not_in_disk with
        | [] => ret cache
        | _ :: _ =>
            let cache := register_missing_assets assets_not_in_disk cache in
            do! cache_update xpub cache in ret cache
        end in
      let! cache :=
        match icons_not_in_disk with
        | [] => ret cache
        | _ :: _ =>
            let cache := register_missing_icons icons_not_in_disk cache in
            do! cache_update xpub cache in ret cache
        end in
      ret (to_registry from_cache (cache_filter cached cache))
  end.

Definition reg_get_assets (params : GetAssetsParams) : RegM RegistryInfos :=
  let n := cfg_network (gp_config params) in
  let! query := lift (into_query params) in
  match query with
  | FromCache assets_id xpub => get_from_cache n assets_id xpub
  | FromRegistry matcher => filter_full n matcher
  | FromHardCoded matcher => filter_hard_coded n matcher
  | WholeRegistry => get_full n
  end.

(** ** Refreshing *)

(** http.rs; a status of 400 or more is an error of the agent. *)
Definition http_call (url last_modified : string) (headers : gmap string string)
    : RegM (option (JsonValue * string)) :=
  let! time := gets rs_time in
  do! modify (λ s, s <| rs_time ::= S |>) in
  let! response := of_result (registry_http time url last_modified headers) in
  if ha_status response =? 304 then ret None
  else
    let last_modified := default EmptyString (ha_last_modified response) in
    let! value := of_result (ha_body response) in
    ret (Some (value, last_modified)).

Definition refresh (T : Type) `{RegistryData T} (what : AssetsOrIcons) (params : RefreshAssetsParams) : RegM (option T) :=
  let config := rp_config params in
  let n := cfg_network config in
  let! data := file_contents (File_registry n what) in
  let! last_modified :=
    match rd_read data with
    | inl _ => get_last_modified n what
    | inr _ => ret EmptyString
    end in
  let! answer := http_call (cfg_url config +:+ endpoint what) last_modified (cfg_custom_headers config) in
  match answer with
  | Some (value, new_modified) =>
      let! downloaded := of_result (rd_from_value value) in
      do! file_write (File_registry n what) (rd_write downloaded) in
      do! set_last_modified new_modified n what in
      ret (Some downloaded)
  | None => ret None
  end.

Definition registry_refresh_assets (params : RefreshAssetsParams) : RegM RegistrySource :=
  let! downloaded := refresh RegistryAssets Assets params in
  match downloaded with
  | Some assets =>
      let assets := base.filter (λ kv, is_verified kv.2 = true) assets in
      do! match rp_xpub params with
          | Some xpub => update_missing_assets xpub assets
          | None => ret tt
          end in
      ret Source_Downloaded
  | None => ret Source_NotModified
  end.

Definition registry_refresh_icons (params : RefreshAssetsParams) : RegM RegistrySource :=
  let! downloaded := refresh RegistryIcons Icons params in
  match downloaded with
  | Some icons =>
      do! match rp_xpub params with
          | Some xpub => update_missing_icons xpub icons
          | None => ret tt
          end in
      ret Source_Downloaded
  | None => ret Source_NotModified
  end.

(** The two run in threads of their own; [icons_first] is which came first. *)
Definition reg_refresh_assets (icons_first : bool) (params : RefreshAssetsParams) : RegM RegistrySource :=
  if negb (rp_assets params || rp_icons params) then fail "Neither assets nor icons were requested"
  else
    let assets := if rp_assets params then attempt (registry_refresh_assets params)
                  else ret (inl Source_LocalRegistry) in
    let icons := if rp_icons params then attempt (registry_refresh_icons params)
                 else ret (inl Source_LocalRegistry) in
    let! sources :=
      if icons_first then let! i := icons in let! a := assets in ret (a, i)
      else let! a := assets in let! i := icons in ret (a, i) in
    let '(assets_source, icons_source) := sources in
    let! icons_source := of_result icons_source in
    let! assets_source := of_result assets_source in
    ret (merge assets_source icons_source).

(** ** The client *)

Definition get_registry_config (env : Env) : RegistryConfig :=
  let network :=
    match env_data_network (env_data env) with
    | Network_Mainnet => Liquid
    | Network_Testnet => LiquidTestnet
    | Network_Regtest | Network_Local => ElementsRegtest
    end in
  {| cfg_proxy := None;
     cfg_url := env_data_asset_registry_url (env_data env);
     cfg_network := network;
     cfg_custom_headers := ∅ |}.

(** What the thread started by [init] does. *)
Definition client_refresh (env : Env) (xpub : string) (icons_first : bool) : RegM unit :=
  let! _r := attempt (reg_refresh_assets icons_first
    {| rp_assets := true; rp_icons := true; rp_xpub := Some xpub; rp_config := get_registry_config env |}) in
  ret tt.

Definition client_init : RegM unit :=
  let! r := attempt reg_init in
  match r with
  | inl tt => ret tt
  | inr error =>
      if String.eqb error "Cannot call `init` more than once" then ret tt
      else panic "gdk_registry init failed"
  end.

(** [default_icon] is the built-in icon in Base64. *)
Definition client_asset (default_icon : string) (loaded : RegistryInfos) (asset_id : AssetId) : option Asset :=
  (λ v, {|
    asset_asset_id := asset_id;
    asset_name := ae_name v;
    asset_ticker := default (String.substring 0 4 (Hash32_to_string asset_id)) (ae_ticker v);
    asset_icon := Some (default default_icon (ri_icons loaded !! asset_id));
    asset_precision := ae_precision v;
    asset_icon_url := None;
    asset_instant_swaps := Some false;
    asset_domain := as_str (json_get (ae_entity v) "domain");
    asset_domain_agent := None;
    asset_always_show := None;
    asset_issuance_prevout := Some {|
      issuance_prevout_txid := po_txid (ae_issuance_prevout v);
      issuance_prevout_vout := po_vout (ae_issuance_prevout v) |};
    asset_issuer_pubkey := Some (ae_issuer_pubkey v);
    asset_contract := Some (json_text (ae_contract v)) |}) <$> ri_assets loaded !! asset_id.

Definition client_get_assets (default_icon : string) (env : Env) (xpub : string) (asset_ids : list AssetId)
    : RegM (list Asset) :=
  let! loaded_assets := reg_get_assets {|
    gp_assets_id := Some asset_ids;
    gp_xpub := Some xpub;
    gp_config := get_registry_config env;
    gp_names := None;
    gp_tickers := None;
    gp_category := None |} in
  ret (omap (client_asset default_icon loaded_assets) asset_ids).
End Registry.

(** ** Lemmas: maps *)

Lemma lookup_retain {A} p (m : gmap AssetId A) id :
  retain p m !! id = if p id then m !! id else None.
Proof.
  unfold retain. destruct (p id) eqn:E.
  - destruct (m !! id) as [x|] eqn:Em.
    + by apply map_lookup_filter_Some.
    + apply map_lookup_filter_None. by left.
  - apply map_lookup_filter_None. right. intros x _ Hp. simpl in Hp. congruence.
Qed.

Lemma lookup_extend {A} (v w : gmap AssetId A) id :
  extend v w !! id = match w !! id with Some x => Some x | None => v !! id end.
Proof.
  unfold extend. destruct (w !! id) eqn:E; [by apply lookup_union_Some_l|by apply lookup_union_r].
Qed.

Lemma contains_true ids id : contains ids id = true ↔ id ∈ ids.
Proof. apply bool_decide_eq_true. Qed.

Lemma elem_of_filter_list {A} (p : A → bool) x l : x ∈ List.filter p l ↔ p x = true ∧ x ∈ l.
Proof. rewrite !list_elem_of_In, List.filter_In. tauto. Qed.

Lemma contains_filter (p : AssetId → bool) ids id :
  contains (List.filter p ids) id = p id && contains ids id.
Proof.
  apply eq_true_iff_eq. by rewrite andb_true_iff, !contains_true, elem_of_filter_list.
Qed.

Lemma contains_app ids1 ids2 id : contains (ids1 ++ ids2) id = contains ids1 id || contains ids2 id.
Proof. apply eq_true_iff_eq. by rewrite orb_true_iff, !contains_true, elem_of_app. Qed.

Lemma contains_nil id : contains [] id = false.
Proof. apply bool_decide_eq_false. apply not_elem_of_nil. Qed.

(** ** Lemmas: a wallet's cache in front of the registry *)

(** A cache that knows nothing but what registry [R] says, and of a cached asset all of it. *)
Record coherent (R : RegistryInfos) (c : Cache) : Prop := {
  co_assets id a : ca_assets c !! id = Some a → ri_assets R !! id = Some a;
  co_icons id icon : ca_icons c !! id = Some icon → ri_icons R !! id = Some icon;
  co_complete id a icon :
    ca_assets c !! id = Some a → ri_icons R !! id = Some icon → ca_icons c !! id = Some icon;
  co_missing id : id ∈ ca_missing_assets c → ri_assets R !! id = None
}.

Definition in_assets (R : RegistryInfos) (id : AssetId) : bool :=
  bool_decide (is_Some (ri_assets R !! id)).

(** What [R] says about [ids]. *)
Definition restrict (from_cache : bool) (ids : list AssetId) (R : RegistryInfos) : RegistryInfos := {|
  ri_assets := retain (contains ids) (ri_assets R);
  ri_icons := retain (λ id, contains ids id && in_assets R id) (ri_icons R);
  ri_source := Some (if from_cache then Source_Cache else Source_LocalRegistry)
|}.

Lemma in_assets_true R id : in_assets R id = true ↔ is_Some (ri_assets R !! id).
Proof. apply bool_decide_eq_true. Qed.

Lemma coherent_default R : coherent R cache_default.
Proof.
  split; [intros ?? H|intros ?? H|intros ??? H _|intros ? H]; [destruct (lookup_empty_Some _ _ H)..|].
  by apply not_elem_of_nil in H.
Qed.

Lemma coherent_extend R c ids : coherent R c → coherent R (extend_from_registry R ids c).
Proof.
  intros [Hassets Hicons Hcomplete Hmissing]. split; cbn.
  - intros id a. rewrite lookup_extend, lookup_retain.
    destruct (contains ids id), (ri_assets R !! id) eqn:E; try done; rewrite <- E; apply Hassets.
  - intros id icon. rewrite lookup_extend, lookup_retain.
    destruct (contains ids id), (ri_icons R !! id) eqn:E; try done; rewrite <- E; apply Hicons.
  - intros id a icon. rewrite !lookup_extend, !lookup_retain.
    destruct (contains ids id); [by destruct (ri_icons R !! id)|apply Hcomplete].
  - exact Hmissing.
Qed.

Lemma coherent_register_assets R c ids :
  coherent R c → (∀ id, id ∈ ids → ri_assets R !! id = None) →
  coherent R (register_missing_assets ids c).
Proof.
  intros [Hassets Hicons Hcomplete Hmissing] Hids. split; cbn; [exact Hassets|exact Hicons|exact Hcomplete|].
  intros id [Hin|Hin]%elem_of_app; [by apply Hmissing|by apply Hids].
Qed.

Lemma coherent_register_icons R c ids : coherent R c → coherent R (register_missing_icons ids c).
Proof. intros [Hassets Hicons Hcomplete Hmissing]. by split. Qed.

(** A coherent cache answers for the assets it has, and for those that there are not. *)
Lemma coherent_answer R c from_cache cached ids :
  coherent R c →
  (∀ id, contains cached id = contains ids id && is_cached c id) →
  (∀ id, id ∈ ids → is_cached c id = true ∨ ri_assets R !! id = None) →
  to_registry from_cache (cache_filter cached c) = restrict from_cache ids R.
Proof.
  intros [Hassets Hicons Hcomplete _] Hcached Hids. unfold to_registry, restrict. cbn. f_equal.
  - apply map_eq. intros id. rewrite !lookup_retain, Hcached.
    destruct (contains ids id) eqn:Hin; [|done]. apply contains_true in Hin. cbn.
    destruct (is_cached c id) eqn:Hc; [|destruct (Hids id Hin); congruence].
    apply bool_decide_eq_true in Hc as [a Ha]. by rewrite Ha, (Hassets id a Ha).
  - apply map_eq. intros id. rewrite !lookup_retain, Hcached.
    destruct (contains ids id) eqn:Hin; [|done]. apply contains_true in Hin. cbn.
    destruct (is_cached c id) eqn:Hc.
    + apply bool_decide_eq_true in Hc as [a Ha].
      unfold in_assets. rewrite (Hassets id a Ha). cbn.
      destruct (ri_icons R !! id) as [icon|] eqn:Hicon; [by eapply Hcomplete|].
      destruct (ca_icons c !! id) as [icon|] eqn:E; [|done]. apply Hicons in E. congruence.
    + destruct (Hids id Hin) as [?|Hnone]; [congruence|]. unfold in_assets. by rewrite Hnone.
Qed.

(** What a refresh does to one kind of entries: the registry says [M] before and [M']
    afterwards, the cache has [e] and then [e'], and misses [miss] and then [miss']. *)
Record moved {A} (M M' e e' : gmap AssetId A) (miss miss' : list AssetId) : Prop := {
  mv_agree id x : e' !! id = Some x → M' !! id = Some x;
  mv_kept id : is_Some (e !! id) → is_Some (e' !! id);
  mv_came id x : id ∈ miss → M !! id = None → M' !! id = Some x → e' !! id = Some x;
  mv_still id : id ∈ miss' → id ∈ miss ∧ (M !! id = None → M' !! id = None);
  mv_waits id : id ∈ miss → M' !! id = None → id ∈ miss';
  mv_known id : is_Some (e' !! id) → is_Some (e !! id) ∨ id ∈ miss
}.

Lemma moved_refl {A} (M e : gmap AssetId A) miss :
  (∀ id x, e !! id = Some x → M !! id = Some x) → moved M M e e miss miss.
Proof. intros Ha. split; auto. intros id x _ -> [=]. Qed.

Lemma update_present_eq {A} `{EqDecision A} missing (e : gmap AssetId A) rm id x :
  update_present missing (e, rm) (id, x) =
    (partial_alter (λ o, if contains missing id then Some x else (λ _, x) <$> o) id e,
     if contains missing id then rm ++ [id] else rm).
Proof.
  unfold update_present. destruct (contains missing id).
  - rewrite lookup_insert_eq. by rewrite bool_decide_eq_false_2 by naive_solver.
  - destruct (e !! id) as [y|] eqn:E; f_equal; apply map_eq; intros k.
    + destruct (decide (k = id)) as [->|].
      * rewrite lookup_partial_alter_eq, E. case_bool_decide as Hy; [by rewrite lookup_insert_eq|].
        rewrite E. simpl. congruence.
      * rewrite lookup_partial_alter_ne by done. case_bool_decide; by rewrite ?lookup_insert_ne.
    + destruct (decide (k = id)) as [->|]; [by rewrite lookup_partial_alter_eq, E|].
      by rewrite lookup_partial_alter_ne.
Qed.

Lemma update_present_other {A} `{EqDecision A} missing id (l : list (AssetId * A)) e rm :
  id ∉ l.*1 → (foldl (update_present missing) (e, rm) l).1 !! id = e !! id.
Proof.
  revert e rm. induction l as [|[k x] l IH]; intros e rm Hid; [done|].
  rewrite fmap_cons in Hid. apply not_elem_of_cons in Hid as [Hk Hid].
  cbn [foldl]; rewrite update_present_eq, IH by done. by apply lookup_partial_alter_ne.
Qed.

Lemma update_present_this {A} `{EqDecision A} missing id x (l : list (AssetId * A)) e rm :
  NoDup l.*1 → (id, x) ∈ l →
  (foldl (update_present missing) (e, rm) l).1 !! id =
    if contains missing id then Some x else (λ _, x) <$> e !! id.
Proof.
  revert e rm. induction l as [|[k y] l IH]; intros e rm Hl Hin; [by apply not_elem_of_nil in Hin|].
  rewrite fmap_cons in Hl. apply NoDup_cons in Hl as [Hk Hl].
  cbn [foldl]; rewrite update_present_eq. apply elem_of_cons in Hin as [[= <- <-]|Hin].
  - rewrite update_present_other by done. by rewrite lookup_partial_alter_eq.
  - assert (k ≠ id) by (intros ->; apply Hk; by apply (list_elem_of_fmap_2 fst) in Hin).
    rewrite IH by done. by rewrite lookup_partial_alter_ne.
Qed.

Lemma update_present_removed {A} `{EqDecision A} missing id (l : list (AssetId * A)) e rm :
  id ∈ (foldl (update_present missing) (e, rm) l).2 ↔
  id ∈ rm ∨ (id ∈ missing ∧ id ∈ l.*1).
Proof.
  revert e rm. induction l as [|[k x] l IH]; intros e rm.
  { rewrite elem_of_nil. simpl. tauto. }
  cbn [foldl]; rewrite update_present_eq, IH, fmap_cons, elem_of_cons. cbn [fst].
  destruct (contains missing k) eqn:Ek.
  - apply contains_true in Ek. rewrite elem_of_app, list_elem_of_singleton. naive_solver.
  - assert (k ∉ missing) by (intros Hk%contains_true; congruence). naive_solver.
Qed.

(** Entries that were downloaded go to the cache if it has or misses them. *)
Lemma moved_update {A} `{EqDecision A} (v w m e : gmap AssetId A) miss :
  (∀ id x, e !! id = Some x → extend v w !! id = Some x) →
  (∀ id, is_Some (extend v w !! id) → is_Some (extend m w !! id)) →
  (∀ id x, m !! id = Some x → extend m w !! id = Some x) →
  let r := foldl (update_present miss) (e, []) (map_to_list m) in
  moved (extend v w) (extend m w) e r.1 miss
    (List.filter (λ id, negb (contains r.2 id)) miss).
Proof.
  intros He Hdom Hm r.
  assert (∀ id x, m !! id = Some x → r.1 !! id = if contains miss id then Some x else (λ _, x) <$> e !! id) as R1.
  { intros id x Hid. apply update_present_this; [apply NoDup_fst_map_to_list|by apply elem_of_map_to_list]. }
  assert (∀ id, m !! id = None → r.1 !! id = e !! id) as R2.
  { intros id Hid. apply update_present_other.
    intros ([k x] & -> & Hin%elem_of_map_to_list)%list_elem_of_fmap. simpl in *. congruence. }
  assert (∀ id, contains r.2 id = true ↔ id ∈ miss ∧ is_Some (m !! id)) as R3.
  { intros id. rewrite contains_true. unfold r. rewrite update_present_removed.
    rewrite elem_of_nil. setoid_rewrite list_elem_of_fmap.
    split; [intros [[]|[? ([k x] & -> & Hin%elem_of_map_to_list)]]; naive_solver|].
    intros [? [x Hx]]. right. split; [done|]. exists (id, x). by rewrite elem_of_map_to_list. }
  assert (∀ id, extend v w !! id = None → w !! id = None) as Hw.
  { intros id. rewrite lookup_extend. by destruct (w !! id). }
  assert (∀ id, m !! id = None → extend m w !! id = w !! id) as Hmw.
  { intros id E. rewrite lookup_extend, E. by destruct (w !! id). }
  clearbody r. split.
  - intros id x. destruct (m !! id) as [y|] eqn:Em; [rewrite (R1 _ _ Em)|rewrite (R2 _ Em)].
    + destruct (contains miss id), (e !! id); try done; intros [= <-]; by apply Hm.
    + intros Ex%He. specialize (Hdom id ltac:(by eexists)). rewrite (Hmw _ Em) in *.
      rewrite lookup_extend in Ex. destruct Hdom as [z Hz]. by rewrite Hz in *.
  - intros id [x Hx]. destruct (m !! id) as [y|] eqn:Em; [rewrite (R1 _ _ Em)|rewrite (R2 _ Em)]; rewrite Hx.
    + by destruct (contains miss id).
    + done.
  - intros id x Hin%contains_true Hnone%Hw Hx. destruct (m !! id) as [y|] eqn:Em.
    + rewrite (R1 _ _ Em), Hin. by rewrite <- (Hm _ _ Em), Hx.
    + rewrite (Hmw _ Em) in Hx. congruence.
  - intros id [Hr Hin]%elem_of_filter_list. split; [done|]. intros Hnone%Hw.
    destruct (m !! id) as [y|] eqn:Em; [|by rewrite (Hmw _ Em)].
    assert (contains r.2 id = true) as E by (apply R3; by rewrite Em). by rewrite E in Hr.
  - intros id Hin Hnone. apply elem_of_filter_list. split; [|done].
    destruct (contains r.2 id) eqn:E; [|done]. apply R3 in E as [_ [y Hy]].
    rewrite (Hm _ _ Hy) in Hnone. done.
  - intros id. destruct (m !! id) as [y|] eqn:Em; [rewrite (R1 _ _ Em)|rewrite (R2 _ Em)]; [|by left].
    destruct (contains miss id) eqn:Hin; [right; by apply contains_true|].
    destruct (e !! id); [by left|by intros [? ?]].
Qed.

(** No icon is there before its asset. *)
Definition icons_known (R : RegistryInfos) : Prop :=
  ∀ id, is_Some (ri_icons R !! id) → is_Some (ri_assets R !! id).

(** What a coherent cache must also know to stay so when the registry is refreshed: which
    icons it is waiting for. *)
Record synced (R : RegistryInfos) (c : Cache) : Prop := {
  sy_coherent : coherent R c;
  sy_waits id a : ca_assets c !! id = Some a → ri_icons R !! id = None → id ∈ ca_missing_icons c;
  sy_missing id : id ∈ ca_missing_assets c → id ∈ ca_missing_icons c
}.

Lemma synced_default R : synced R cache_default.
Proof.
  split; [apply coherent_default|intros ?? H; destruct (lookup_empty_Some _ _ H)|].
  by intros id H%not_elem_of_nil.
Qed.

Lemma is_cached_true c id : is_cached c id = true ↔ is_Some (ca_assets c !! id).
Proof. apply bool_decide_eq_true. Qed.

(** The cache after a query has noted every icon there was none of. *)
Lemma synced_miss R c c1 c' ids l found missing no_icon :
  synced R c → coherent R c' → icons_known R →
  (∀ id, contains l id = negb (is_missing c id) && (negb (is_cached c id) && contains ids id)) →
  (∀ id, contains found id = in_assets R id && contains l id) →
  (∀ id, contains missing id = negb (in_assets R id) && contains l id) →
  (∀ id, contains no_icon id = negb (bool_decide (is_Some (ri_icons R !! id))) && contains l id) →
  (∀ id, is_cached c1 id = is_cached c id || contains found id) →
  ca_missing_assets c' = ca_missing_assets c ++ missing →
  ca_missing_icons c' = ca_missing_icons c ++ no_icon →
  ca_assets c' = ca_assets c1 →
  synced R c'.
Proof.
  intros [_ Hwaits Hmiss] Hc' Hknown _ Hfound Hmissing Hno Hc1 Ea Ei Eassets. split; [done|..].
  - intros id a Ha Hicon. rewrite Ei. apply elem_of_app.
    assert (is_cached c1 id = true) as Hcached by (apply is_cached_true; by rewrite <- Eassets, Ha).
    rewrite Hc1 in Hcached. apply orb_true_iff in Hcached as [[a' Ha']%is_cached_true|Hf].
    + left. by eapply Hwaits.
    + right. apply contains_true. rewrite Hno, Hicon. rewrite Hfound in Hf.
      by apply andb_true_iff in Hf as [_ ->].
  - intros id. rewrite Ea, Ei, !elem_of_app. intros [Hin|Hin%contains_true]; [left; by apply Hmiss|].
    right. apply contains_true. rewrite Hno. rewrite Hmissing in Hin.
    apply andb_true_iff in Hin as [Hin ->]. rewrite andb_true_r. unfold in_assets in Hin.
    rewrite negb_true_iff, bool_decide_eq_false in *. intros Hi. by apply Hin, Hknown.
Qed.

(** A refresh that removes nothing leaves a synced cache synced. *)
Lemma synced_moved R R' c c' :
  synced R c → icons_known R → icons_known R' →
  (∀ id, is_Some (ri_icons R !! id) → is_Some (ri_icons R' !! id)) →
  moved (ri_assets R) (ri_assets R') (ca_assets c) (ca_assets c')
    (ca_missing_assets c) (ca_missing_assets c') →
  moved (ri_icons R) (ri_icons R') (ca_icons c) (ca_icons c')
    (ca_missing_icons c) (ca_missing_icons c') →
  synced R' c'.
Proof.
  intros [[_ _ Hcomplete Hmissing] Hwaits Hboth] Hk Hk' Hicons Ma Mi.
  assert (∀ id a, ca_assets c' !! id = Some a → ri_icons R !! id = None → id ∈ ca_missing_icons c) as Hw.
  { intros id a Ha Hn. destruct (mv_known _ _ _ _ _ _ Ma id) as [[b Hb]|Hin]; [by eexists|..].
    - by eapply Hwaits.
    - by apply Hboth. }
  assert (∀ id, id ∈ ca_missing_assets c' → ri_assets R' !! id = None) as Hm'.
  { intros id [Hin Hn]%(mv_still _ _ _ _ _ _ Ma). by apply Hn, Hmissing. }
  split; [split|..].
  - apply (mv_agree _ _ _ _ _ _ Ma).
  - apply (mv_agree _ _ _ _ _ _ Mi).
  - intros id a icon Ha Hicon. destruct (ri_icons R !! id) as [old|] eqn:Eo.
    + destruct (mv_known _ _ _ _ _ _ Ma id) as [[b Hb]|Hin]; [by eexists|..].
      * destruct (mv_kept _ _ _ _ _ _ Mi id) as [j Hj]; [by eexists; eapply Hcomplete|].
        pose proof (mv_agree _ _ _ _ _ _ Mi id j Hj). congruence.
      * destruct (Hk id) as [b Hb]; [by eexists|]. rewrite (Hmissing id Hin) in Hb. done.
    + eapply (mv_came _ _ _ _ _ _ Mi); [by eapply Hw|done|done].
  - exact Hm'.
  - intros id a Ha Hn. apply (mv_waits _ _ _ _ _ _ Mi); [|done]. eapply Hw; [exact Ha|].
    destruct (ri_icons R !! id) eqn:E; [|done]. destruct (Hicons id); [by eexists|congruence].
  - intros id Hin. apply (mv_waits _ _ _ _ _ _ Mi).
    + apply Hboth. by apply (mv_still _ _ _ _ _ _ Ma).
    + destruct (ri_icons R' !! id) eqn:E; [|done].
      destruct (Hk' id) as [a Ha]; [by eexists|]. rewrite (Hm' id Hin) in Ha. done.
Qed.

Section Cached.
Context `{!RegistryEnv} `{!RegistryLaws}.

(** The registry files of network [n] can be read; with the built-in assets they say [R]. *)
Record registry_holds (n : ElementsNetwork) (R : RegistryInfos) (s : RegState) : Prop := {
  rh_ready : rs_registry_ready s = true;
  rh_cache_ready : rs_cache_ready s = true;
  rh_assets : ∃ data v w, rs_files s !! File_registry n Assets = Some data ∧ rd_read data = inl v ∧
    hard_coded RegistryAssets n Assets = Ok w ∧ ri_assets R = extend v w;
  rh_icons : ∃ data v w, rs_files s !! File_registry n Icons = Some data ∧ rd_read data = inl v ∧
    hard_coded RegistryIcons n Icons = Ok w ∧ ri_icons R = extend v w;
  rh_source : ri_source R = None;
  rh_modified : is_Some (rs_files s !! File_last_modified n)
}.

Lemma fetch_run (T : Type) `{RegistryData T} n what data v s :
  rs_registry_ready s = true → rs_files s !! File_registry n what = Some data → rd_read data = inl v →
  fetch T n what s = (s, Ok v).
Proof.
  intros Hready Hdata Hread. unfold fetch.
  rewrite (bind_run _ _ s s data); [by rewrite Hread|].
  unfold file_contents. rewrite bind_gets.
  rewrite (bind_run _ _ s s tt); [|by apply ensure_run].
  rewrite bind_gets. by apply expect_run.
Qed.

Lemma get_full_run n R s : registry_holds n R s → get_full n s = (s, Ok R).
Proof.
  intros [Hready _ (d1 & v1 & w1 & Hd1 & Hv1 & Hw1 & Ha) (d2 & v2 & w2 & Hd2 & Hv2 & Hw2 & Hi) Hs _].
  unfold get_full. rewrite (bind_run _ _ s s v1); [|by eapply fetch_run].
  rewrite (bind_run _ _ s s w1); [|by rewrite Hw1].
  rewrite (bind_run _ _ s s v2); [|by eapply fetch_run].
  rewrite (bind_run _ _ s s w2); [|by rewrite Hw2].
  unfold ret. do 2 f_equal. destruct R. cbn in *. by subst.
Qed.

(** A wallet reads back the cache it wrote. *)
Lemma from_xpub_update xpub c s s' :
  cache_update xpub c s = (s', Ok tt) → from_xpub xpub (rs_caches s') = c.
Proof.
  unfold cache_update, encrypt. intros Hrun. ok_inv. cbn.
  unfold from_xpub. rewrite lookup_insert_eq. unfold get_cache, decrypt.
  set (nonce := random_nonce _). assert (length nonce = 12%nat) as Hn by apply nonce_length.
  rewrite length_app, Hn. cbn. rewrite take_app_length', drop_app_length' by done.
  by rewrite decrypt_encrypt, read_write_cache.
Qed.

Lemma cache_update_run xpub c s : ∃ s', cache_update xpub c s = (s', Ok tt) ∧
  rs_files s' = rs_files s ∧ rs_registry_ready s' = rs_registry_ready s ∧
  rs_cache_ready s' = rs_cache_ready s ∧ from_xpub xpub (rs_caches s') = c.
Proof.
  eexists. split; [reflexivity|]. split_and!; [done..|]. by apply (from_xpub_update xpub c s).
Qed.

Lemma update_run n R xpub c s : registry_holds n R s → ∃ s', cache_update xpub c s = (s', Ok tt) ∧
  registry_holds n R s' ∧ from_xpub xpub (rs_caches s') = c.
Proof.
  intros [Hready Hcache Ha Hi Hs Hm]. destruct (cache_update_run xpub c s) as (s' & Hrun & Hf & Hr & Hc & Hx).
  exists s'. split; [done|]. split; [|done].
  split; [by rewrite Hr|by rewrite Hc|by rewrite_field Hf|by rewrite_field Hf|done|by rewrite_field Hf].
Qed.

(** The state between the steps of [get_from_cache]: the cache is what the file holds. *)
Record caching (n : ElementsNetwork) (R : RegistryInfos) (xpub : string) (c : Cache) (s : RegState)
    : Prop := {
  cg_holds : registry_holds n R s;
  cg_file : from_xpub xpub (rs_caches s) = c;
  cg_coherent : coherent R c
}.

(** Registering what was not found, if anything was not. *)
Lemma register_run n R xpub (ids : list AssetId) (register : list AssetId → Cache → Cache) c s :
  caching n R xpub c s → coherent R (register ids c) → register [] c = c →
  ∃ s', match ids with
        | [] => ret c
        | _ :: _ => let cache := register ids c in do! cache_update xpub cache in ret cache
        end s = (s', Ok (register ids c)) ∧ caching n R xpub (register ids c) s'.
Proof.
  intros Hc Hregister Hnil. destruct ids as [|id ids]; [exists s; by rewrite Hnil|].
  destruct (update_run n R xpub (register (id :: ids) c) s) as (s' & Hrun & Hholds & Hfile).
  { apply (cg_holds _ _ _ _ _ Hc). }
  exists s'. split; [|done]. cbv zeta. by rewrite (bind_run _ _ s s' tt).
Qed.

Lemma register_missing_nil c :
  register_missing_assets [] c = c ∧ register_missing_icons [] c = c.
Proof. unfold register_missing_assets, register_missing_icons, set. cbn. by rewrite !app_nil_r. Qed.

Lemma is_cached_extend R c ids id :
  is_cached (extend_from_registry R ids c) id =
  is_cached c id || (contains ids id && in_assets R id).
Proof.
  unfold is_cached, in_assets. apply eq_true_iff_eq.
  rewrite orb_true_iff, andb_true_iff, !bool_decide_eq_true. cbn.
  rewrite lookup_extend, lookup_retain.
  destruct (contains ids id), (ri_assets R !! id), (ca_assets c !! id);
    rewrite ?is_Some_alt; naive_solver.
Qed.

(** Taking over what was found, if anything was. *)
Lemma found_run n R xpub cached found c s :
  caching n R xpub c s → (∀ id, id ∈ found → in_assets R id = true) →
  ∃ s' c' b, match found with
             | [] => ret (c, cached, true)
             | _ :: _ =>
                 let cache := extend_from_registry R found c in
                 do! cache_update xpub cache in
                 ret (cache, cached ++ found, false)
             end s = (s', Ok (c', cached ++ found, b)) ∧ caching n R xpub c' s' ∧
    (∀ id, is_cached c' id = is_cached c id || contains found id) ∧
    ca_missing_assets c' = ca_missing_assets c ∧ ca_missing_icons c' = ca_missing_icons c.
Proof.
  intros Hc Hfound. destruct found as [|id found].
  { exists s, c, true. rewrite app_nil_r. split_and!; [done..| |done|done].
    intros id. by rewrite contains_nil, orb_false_r. }
  destruct (update_run n R xpub (extend_from_registry R (id :: found) c) s) as (s' & Hrun & Hholds & Hfile).
  { apply (cg_holds _ _ _ _ _ Hc). }
  exists s', (extend_from_registry R (id :: found) c), false. split_and!.
  - cbv zeta. by rewrite (bind_run _ _ s s' tt).
  - split; [done..|]. by apply coherent_extend, (cg_coherent _ _ _ _ _ Hc).
  - intros i. rewrite is_cached_extend. destruct (contains (id :: found) i) eqn:E; [|done].
    by rewrite (Hfound i) by by apply contains_true.
  - done.
  - done.
Qed.

(** The cache after the two steps answers for all that was asked. *)
Lemma miss_answer R c c' b ids cached found l :
  coherent R c' →
  (∀ id, is_missing c id = true → ri_assets R !! id = None) →
  (∀ id, contains cached id = is_cached c id && contains ids id) →
  (∀ id, contains l id = negb (is_missing c id) && (negb (is_cached c id) && contains ids id)) →
  (∀ id, contains found id = in_assets R id && contains l id) →
  (∀ id, is_cached c' id = is_cached c id || contains found id) →
  to_registry b (cache_filter (cached ++ found) c') = restrict b ids R.
Proof.
  intros Hcoherent Hmissing Hcached Hl Hfound Hcached'. apply coherent_answer; [done|..].
  - intros id. rewrite contains_app, Hcached, Hcached', Hfound, Hl.
    destruct (is_missing c id), (is_cached c id), (contains ids id), (in_assets R id); done.
  - intros id Hid%contains_true. rewrite Hcached', Hfound, Hl, Hid.
    destruct (is_missing c id) eqn:Em; [right; by apply Hmissing|].
    destruct (is_cached c id); [by left|]. unfold in_assets.
    destruct (ri_assets R !! id); [by left|by right].
Qed.

Lemma lock_run s : rs_cache_ready s = true → lock_cache_files s = (s, Ok (rs_caches s)).
Proof. intros E. unfold lock_cache_files. rewrite bind_gets. by rewrite_field E. Qed.

Lemma get_from_cache_run n R xpub ids s :
  registry_holds n R s → icons_known R → synced R (from_xpub xpub (rs_caches s)) →
  ∃ s' b, get_from_cache n ids xpub s = (s', Ok (restrict b ids R)) ∧
    registry_holds n R s' ∧ synced R (from_xpub xpub (rs_caches s')).
Proof.
  intros Hholds Hknown Hsynced. pose proof (sy_coherent _ _ Hsynced) as Hcoherent.
  set (c := from_xpub xpub (rs_caches s)) in *.
  assert (caching n R xpub c s) as Hc by done.
  unfold get_from_cache. rewrite (bind_run _ _ s s (rs_caches s)).
  2:{ by eapply lock_run, rh_cache_ready. }
  change (from_xpub xpub (rs_caches s)) with c. cbv zeta.
  set (cached := List.filter (is_cached c) ids).
  set (not_cached := List.filter (λ id, negb (is_missing c id)) _).
  assert (∀ id, contains cached id = is_cached c id && contains ids id) as Hcached
    by apply contains_filter.
  assert (∀ id, contains not_cached id =
    negb (is_missing c id) && (negb (is_cached c id) && contains ids id)) as Hnot.
  { intros id. unfold not_cached. by rewrite !contains_filter. }
  assert (∀ id, is_missing c id = true → ri_assets R !! id = None) as Hmissing.
  { intros id Hid%contains_true. by apply (co_missing R c). }
  clearbody not_cached. destruct not_cached as [|id0 rest].
  { exists s, true. split; [|done]. unfold ret. do 2 f_equal. apply coherent_answer; [done|..].
    - intros id. by rewrite Hcached, andb_comm.
    - intros id Hid%contains_true. specialize (Hnot id). rewrite contains_nil, Hid in Hnot.
      destruct (is_cached c id); [by left|right]. apply Hmissing. by destruct (is_missing c id). }
  set (l := id0 :: rest) in *. rewrite (bind_run _ _ s s R) by by apply get_full_run.
  set (found := List.filter (λ id, bool_decide _) l). set (missing := List.filter _ l).
  set (no_icon := List.filter _ l).
  assert (∀ id, contains found id = in_assets R id && contains l id) as Hfound by apply contains_filter.
  assert (∀ id, contains missing id = negb (in_assets R id) && contains l id) as Hmissed
    by apply (contains_filter (λ id, negb (in_assets R id))).
  assert (∀ id, contains no_icon id = negb (bool_decide (is_Some (ri_icons R !! id))) && contains l id)
    as Hno by apply (contains_filter (λ id, negb (bool_decide (is_Some (ri_icons R !! id))))).
  clearbody found missing no_icon l.
  destruct (found_run n R xpub cached found c s Hc) as (s1 & c1 & b & Hrun1 & Hc1 & Hcached1 & Ea1 & Ei1).
  { intros id Hid%contains_true. rewrite Hfound in Hid. by destruct (in_assets R id). }
  rewrite (bind_run _ _ _ _ _ Hrun1).
  destruct (register_run n R xpub missing register_missing_assets c1 s1 Hc1) as (s2 & Hrun2 & Hc2).
  { apply coherent_register_assets; [apply (cg_coherent _ _ _ _ _ Hc1)|].
    intros id Hid%contains_true. rewrite Hmissed in Hid. unfold in_assets in Hid.
    by destruct (ri_assets R !! id). }
  { apply register_missing_nil. }
  rewrite (bind_run _ _ _ _ _ Hrun2).
  destruct (register_run n R xpub no_icon register_missing_icons _ s2 Hc2) as (s3 & Hrun3 & Hc3).
  { apply coherent_register_icons, (cg_coherent _ _ _ _ _ Hc2). }
  { apply register_missing_nil. }
  rewrite (bind_run _ _ _ _ _ Hrun3).
  destruct Hc3 as [Hholds3 Hfile3 Hcoherent3].
  exists s3, b. split; [|split; [done|rewrite Hfile3]].
  - unfold ret. do 2 f_equal. eapply miss_answer; [done..|]. intros id. by rewrite <- Hcached1.
  - eapply synced_miss; [exact Hsynced|exact Hcoherent3|exact Hknown|exact Hnot|exact Hfound|exact Hmissed
      |exact Hno|exact Hcached1|cbn; by rewrite_field Ea1|cbn; by rewrite_field Ei1|reflexivity].
Qed.

(** *** Refreshing *)

(** What a cache knows of assets, and of icons. *)
Definition assets_part (c : Cache) : RegistryAssets * list AssetId := (ca_assets c, ca_missing_assets c).
Definition icons_part (c : Cache) : RegistryIcons * list AssetId := (ca_icons c, ca_missing_icons c).

Definition taken_over {A} `{EqDecision A} (m : gmap AssetId A) (p : gmap AssetId A * list AssetId)
    : gmap AssetId A * list AssetId :=
  let r := foldl (update_present p.2) (p.1, []) (map_to_list m) in
  (r.1, List.filter (λ id, negb (contains r.2 id)) p.2).

Lemma update_assets_parts m c :
  assets_part (update_missing_or_updated_assets m c) = taken_over m (assets_part c) ∧
  icons_part (update_missing_or_updated_assets m c) = icons_part c.
Proof.
  unfold update_missing_or_updated_assets, taken_over. cbn.
  destruct (foldl _ _ _) as [assets removed]. done.
Qed.

Lemma update_icons_parts m c :
  icons_part (update_missing_or_updated_icons m c) = taken_over m (icons_part c) ∧
  assets_part (update_missing_or_updated_icons m c) = assets_part c.
Proof.
  unfold update_missing_or_updated_icons, taken_over. cbn.
  destruct (foldl _ _ _) as [icons removed]. done.
Qed.

(** The registry file of one kind, with the part [sel] of the cache it feeds: nothing
    happened, or [m] was downloaded and the cache took over what [keep] left of it. *)
Definition fed {A} `{EqDecision A} `{RegistryData (gmap AssetId A)} (n : ElementsNetwork) (xpub : string)
    (what : AssetsOrIcons) (keep : gmap AssetId A → gmap AssetId A)
    (sel : Cache → gmap AssetId A * list AssetId) (s s' : RegState) : Prop :=
  rs_files s' !! File_registry n what = rs_files s !! File_registry n what ∧
    sel (from_xpub xpub (rs_caches s')) = sel (from_xpub xpub (rs_caches s)) ∨
  ∃ m, rs_files s' !! File_registry n what = Some (rd_write m) ∧
    sel (from_xpub xpub (rs_caches s')) = taken_over (keep m) (sel (from_xpub xpub (rs_caches s))).

(** The registry and its caches were initialized. *)
Record usable (n : ElementsNetwork) (s : RegState) : Prop := {
  us_ready : rs_registry_ready s = true;
  us_cache_ready : rs_cache_ready s = true;
  us_modified : is_Some (rs_files s !! File_last_modified n)
}.

Definition readable (T : Type) `{RegistryData T} (n : ElementsNetwork) (what : AssetsOrIcons)
    (s : RegState) : Prop :=
  ∃ data (v : T), rs_files s !! File_registry n what = Some data ∧ rd_read data = inl v.

Lemma file_contents_run f data s :
  rs_registry_ready s = true → rs_files s !! f = Some data → file_contents f s = (s, Ok data).
Proof.
  intros Hready E. unfold file_contents.
  rewrite bind_gets, (bind_run _ _ s s tt) by by apply ensure_run.
  rewrite bind_gets. by apply expect_run.
Qed.

Lemma http_call_run url last_modified headers s :
  ∃ r, http_call url last_modified headers s = (s <| rs_time ::= S |>, r) ∧ ∀ e, r ≠ Panic e.
Proof.
  unfold http_call. rewrite bind_gets, bind_modify.
  destruct (registry_http _ _ _ _) as [response|e]; cbn; [|by eexists].
  destruct (ha_status response =? 304); [by eexists|].
  destruct (ha_body response); by eexists.
Qed.

(** The download: unless it succeeds all files stay as they are. *)
Lemma refresh_run (T : Type) `{RegistryData T} what params s :
  let n := cfg_network (rp_config params) in
  usable n s → readable T n what s →
  wp (refresh T what params) s (λ o s',
    rs_registry_ready s' = rs_registry_ready s ∧ rs_cache_ready s' = rs_cache_ready s ∧
    rs_caches s' = rs_caches s ∧
    match o with
    | Ok (Some v) => ∃ l, rs_files s' =
        <[File_last_modified n := l]> (<[File_registry n what := rd_write v]> (rs_files s))
    | Panic _ => False
    | _ => rs_files s' = rs_files s
    end).
Proof.
  intros n [Hready _ [lm Hlm]] (data & v & Hdata & Hread).
  unfold refresh. fold n. apply wp_bind. unfold wp at 1.
  rewrite (file_contents_run _ data s) by done. cbn [fst snd]. rewrite Hread.
  apply wp_bind. unfold get_last_modified at 1, wp at 1.
  rewrite (bind_run _ _ s s lm) by by apply file_contents_run.
  destruct (read_last_modified lm) as [modified|e] eqn:Em; [|done]. cbn [bind of_result ret fst snd].
  apply wp_bind. unfold wp at 1.
  destruct (http_call_run (cfg_url (rp_config params) +:+ endpoint what) (last_modified_of what modified)
    (cfg_custom_headers (rp_config params)) s) as (r & Ehttp & Hr).
  rewrite Ehttp. clear Ehttp.
  destruct r as [[[value new]|]|e|e]; cbn [fst snd]; [|done|done|by destruct (Hr e)].
  apply wp_bind. unfold wp at 1. destruct (rd_from_value value) as [downloaded|e]; [|done].
  cbn [of_result ret fst snd]. apply wp_bind. unfold file_write at 1, wp at 1. cbn [modify fst snd].
  apply wp_bind. unfold set_last_modified, wp at 1.
  match goal with |- context [bind _ _ ?s2] => rewrite (bind_run _ _ s2 s2 lm) end.
  2:{ apply file_contents_run; [done|]. cbn. by rewrite lookup_insert_ne. }
  rewrite Em. cbn. split_and!; [done..|]. by eexists.
Qed.

(** One of the two parts of a refresh; the other kind of entries is left alone. *)
Record refreshed {A} `{EqDecision A} `{RegistryData (gmap AssetId A)} {B} (n : ElementsNetwork)
    (xpub : string) (what other : AssetsOrIcons) (keep : gmap AssetId A → gmap AssetId A)
    (sel : Cache → gmap AssetId A * list AssetId) (rest : Cache → B) (s s' : RegState) : Prop := {
  rf_usable : usable n s';
  rf_fed : fed n xpub what keep sel s s';
  rf_other : rs_files s' !! File_registry n other = rs_files s !! File_registry n other;
  rf_rest : rest (from_xpub xpub (rs_caches s')) = rest (from_xpub xpub (rs_caches s))
}.

Lemma wp_attempt {A} (m : RegM A) s (Q : RegState → Prop) :
  wp m s (λ o s', match o with Panic _ => False | _ => Q s' end) →
  ∃ s' r, attempt m s = (s', Ok r) ∧ Q s'.
Proof. unfold wp, attempt. destruct (m s) as [s' [a|e|e]]; intros HQ; [by eexists _, _..|done]. Qed.

(** Downloading, and taking over what was downloaded. *)
Lemma refreshed_run {A} `{EqDecision A} `{RegistryData (gmap AssetId A)} {B} params xpub what other
    (keep : gmap AssetId A → gmap AssetId A) (sel : Cache → gmap AssetId A * list AssetId)
    (rest : Cache → B) (upd : gmap AssetId A → Cache → Cache) s :
  let n := cfg_network (rp_config params) in
  what ≠ other →
  (∀ m c, sel (upd m c) = taken_over m (sel c) ∧ rest (upd m c) = rest c) →
  usable n s → readable (gmap AssetId A) n what s →
  wp (let! downloaded := refresh (gmap AssetId A) what params in
      match downloaded with
      | Some entries =>
          do! (let! cache_files := lock_cache_files in
               cache_update xpub (upd (keep entries) (from_xpub xpub cache_files))) in
          ret Source_Downloaded
      | None => ret Source_NotModified
      end) s
    (λ o s', match o with
             | Panic _ => False
             | _ => refreshed n xpub what other keep sel rest s s'
             end).
Proof.
  intros n Hother Hupd Hus Hread. apply wp_bind. eapply wp_mono; [by apply refresh_run|]. fold n.
  intros o s1 (E1 & E2 & E3 & Ho). destruct Hus as [Hr Hc Hm].
  assert (rs_files s1 = rs_files s → refreshed n xpub what other keep sel rest s s1) as Hsame.
  { intros Ef. split; [split; [by rewrite E1|by rewrite E2|by rewrite_field Ef]|left|..];
      by rewrite ?(f_equal (lookup _) Ef), ?E3. }
  destruct o as [[m|]|e|e]; [|by apply Hsame..|done].
  destruct Ho as [l Ef]. unfold wp.
  destruct (cache_update_run xpub (upd (keep m) (from_xpub xpub (rs_caches s1))) s1)
    as (s2 & Hrun & Hf & Hr2 & Hc2 & Hx).
  rewrite (bind_run _ _ s1 s2 tt).
  2:{ rewrite (bind_run _ _ s1 s1 (rs_caches s1)); [exact Hrun|]. apply lock_run. by rewrite E2. }
  cbn [ret fst snd]. destruct (Hupd (keep m) (from_xpub xpub (rs_caches s1))) as [Hsel Hrest].
  rewrite E3 in Hsel, Hrest, Hx. rewrite <- Hx in Hsel, Hrest.
  assert (∀ f, rs_files s2 !! f = (<[File_last_modified n := l]>
    (<[File_registry n what := rd_write m]> (rs_files s))) !! f) as Hfiles.
  { intros f. rewrite <- Ef. exact (f_equal (lookup f) Hf). }
  split.
  - split; [by rewrite Hr2, E1|by rewrite Hc2, E2|]. rewrite Hfiles, lookup_insert_eq. by eexists.
  - right. exists m. split; [|exact Hsel].
    by rewrite Hfiles, lookup_insert_ne, lookup_insert_eq by done.
  - rewrite Hfiles, !lookup_insert_ne by congruence. done.
  - exact Hrest.
Qed.

Definition verified : RegistryAssets → RegistryAssets :=
  base.filter (λ kv, is_verified kv.2 = true).

Lemma refresh_assets_run params xpub s :
  let n := cfg_network (rp_config params) in
  rp_xpub params = Some xpub → usable n s → readable RegistryAssets n Assets s →
  ∃ s' r, attempt (registry_refresh_assets params) s = (s', Ok r) ∧
    refreshed n xpub Assets Icons verified assets_part icons_part s s'.
Proof.
  intros n Hx Hus Hread. apply wp_attempt. unfold registry_refresh_assets. rewrite Hx.
  apply (refreshed_run (B := RegistryIcons * list AssetId) params xpub Assets Icons verified
    assets_part icons_part update_missing_or_updated_assets); [done| |done..].
  apply update_assets_parts.
Qed.

Lemma refresh_icons_run params xpub s :
  let n := cfg_network (rp_config params) in
  rp_xpub params = Some xpub → usable n s → readable RegistryIcons n Icons s →
  ∃ s' r, attempt (registry_refresh_icons params) s = (s', Ok r) ∧
    refreshed n xpub Icons Assets id icons_part assets_part s s'.
Proof.
  intros n Hx Hus Hread. apply wp_attempt. unfold registry_refresh_icons. rewrite Hx.
  apply (refreshed_run (B := RegistryAssets * list AssetId) params xpub Icons Assets id
    icons_part assets_part update_missing_or_updated_icons); [done| |done..].
  apply update_icons_parts.
Qed.

Lemma fed_between {A} `{EqDecision A} `{RegistryData (gmap AssetId A)} n xpub what keep
    (sel : Cache → gmap AssetId A * list AssetId) s s1 s2 s' :
  rs_files s1 !! File_registry n what = rs_files s !! File_registry n what →
  sel (from_xpub xpub (rs_caches s1)) = sel (from_xpub xpub (rs_caches s)) →
  rs_files s' !! File_registry n what = rs_files s2 !! File_registry n what →
  sel (from_xpub xpub (rs_caches s')) = sel (from_xpub xpub (rs_caches s2)) →
  fed n xpub what keep sel s1 s2 → fed n xpub what keep sel s s'.
Proof. unfold fed. intros -> -> -> ->. done. Qed.

(** Both, in whichever order. *)
Lemma reg_refresh_run icons_first config xpub s :
  let n := cfg_network config in
  usable n s → readable RegistryAssets n Assets s → readable RegistryIcons n Icons s →
  ∃ s' r, attempt (reg_refresh_assets icons_first
      {| rp_assets := true; rp_icons := true; rp_xpub := Some xpub; rp_config := config |}) s
      = (s', Ok r) ∧
    usable n s' ∧ fed n xpub Assets verified assets_part s s' ∧ fed n xpub Icons id icons_part s s'.
Proof.
  intros n Hus (da & va & Ha & Ra) (di & vi & Hi & Ri). apply wp_attempt.
  set (params := {| rp_assets := true; rp_icons := true; rp_xpub := Some xpub; rp_config := config |}).
  unfold reg_refresh_assets. cbn [rp_assets rp_icons params orb negb].
  apply wp_bind. unfold wp at 1. destruct icons_first.
  - destruct (refresh_icons_run params xpub s) as (s1 & r1 & Hrun1 & [U1 F1 O1 P1]); [done..| |].
    { by exists di, vi. }
    destruct (refresh_assets_run params xpub s1) as (s2 & r2 & Hrun2 & [U2 F2 O2 P2]); [done..| |].
    { exists da, va. by rewrite O1. }
    rewrite (bind_run _ _ _ _ _ Hrun1), (bind_run _ _ _ _ _ Hrun2). cbn [ret fst snd].
    assert (usable n s2 ∧ fed n xpub Assets verified assets_part s s2 ∧
      fed n xpub Icons id icons_part s s2) as Hs2.
    { split; [done|]. split; [by apply (fed_between _ _ _ _ _ s s1 s2)|by apply (fed_between _ _ _ _ _ s s s1)]. }
    clear -Hs2. by destruct r1, r2.
  - destruct (refresh_assets_run params xpub s) as (s1 & r1 & Hrun1 & [U1 F1 O1 P1]); [done..| |].
    { by exists da, va. }
    destruct (refresh_icons_run params xpub s1) as (s2 & r2 & Hrun2 & [U2 F2 O2 P2]); [done..| |].
    { exists di, vi. by rewrite O1. }
    rewrite (bind_run _ _ _ _ _ Hrun1), (bind_run _ _ _ _ _ Hrun2). cbn [ret fst snd].
    assert (usable n s2 ∧ fed n xpub Assets verified assets_part s s2 ∧
      fed n xpub Icons id icons_part s s2) as Hs2.
    { split; [done|]. split; [by apply (fed_between _ _ _ _ _ s s s1)|by apply (fed_between _ _ _ _ _ s s1 s2)]. }
    clear -Hs2. by destruct r1, r2.
Qed.

(** What is fed to the cache keeps it in step with the registry: nothing was removed, and
    what the file says is what the registry says. *)
Lemma fed_moved {A} `{EqDecision A} `{RegistryData (gmap AssetId A)} n xpub what keep
    (sel : Cache → gmap AssetId A * list AssetId) s s' data (v w : gmap AssetId A) :
  (∀ m : gmap AssetId A, rd_read (rd_write m) = inl m) →
  fed n xpub what keep sel s s' →
  rs_files s !! File_registry n what = Some data → rd_read data = inl v →
  let c := from_xpub xpub (rs_caches s) in
  let c' := from_xpub xpub (rs_caches s') in
  (∀ id x, (sel c).1 !! id = Some x → extend v w !! id = Some x) →
  ∃ data' v', rs_files s' !! File_registry n what = Some data' ∧ rd_read data' = inl v' ∧
    ((∀ id, is_Some (extend v w !! id) → is_Some (extend v' w !! id)) →
     (∀ id x, v' !! id = Some x → extend v' w !! id = Some x) → keep v' = v' →
     moved (extend v w) (extend v' w) (sel c).1 (sel c').1 (sel c).2 (sel c').2).
Proof.
  intros Hlaw [[Ef Es]|(m & Ef & Es)] Hd Hv c c' Hc; fold c in Es; fold c' in Es; rewrite Es.
  - exists data, v. rewrite Ef. split_and!; [done..|]. intros _ _ _. by apply moved_refl.
  - exists (rd_write m), m. split_and!; [done|apply Hlaw|]. intros Hdom Hm ->. by apply moved_update.
Qed.
End Cached.

(** ** What the client shows *)

Section Client.
Context `{!RegistryEnv} `{!RegistryLaws}.
Variables (default_icon : string) (env : Env) (xpub : string).
Let n : ElementsNetwork := cfg_network (get_registry_config env).

(** What a wallet session does: queries, and the refreshing started by [init]; the order
    of the two downloads is anyone's. *)
Inductive RegOp :=
  | Op_query (asset_ids : list AssetId)
  | Op_refresh (icons_first : bool).

Definition run_op (op : RegOp) : RegM unit :=
  match op with
  | Op_query asset_ids => let! _ := client_get_assets default_icon env xpub asset_ids in ret tt
  | Op_refresh icons_first => client_refresh env xpub icons_first
  end.

Fixpoint run_ops (ops : list RegOp) : RegM unit :=
  match ops with
  | [] => ret tt
  | op :: ops => do! run_op op in run_ops ops
  end.

(** A refresh from [s] to [s'] is orderly when the registry loses nothing and has no icon
    without its asset, and what its files then say verifies and does not contradict what is
    built in.  It may add entries and change them, and either download may fail. *)
Record orderly (s s' : RegState) : Prop := {
  or_known R' : (get_full n s').2 = Ok R' → icons_known R';
  or_assets_kept R R' id : (get_full n s).2 = Ok R → (get_full n s').2 = Ok R' →
    is_Some (ri_assets R !! id) → is_Some (ri_assets R' !! id);
  or_icons_kept R R' id : (get_full n s).2 = Ok R → (get_full n s').2 = Ok R' →
    is_Some (ri_icons R !! id) → is_Some (ri_icons R' !! id);
  or_assets R' data (m : RegistryAssets) id a : (get_full n s').2 = Ok R' →
    rs_files s' !! File_registry n Assets = Some data → rd_read data = inl m → m !! id = Some a →
    is_verified a = true ∧ ri_assets R' !! id = Some a;
  or_icons R' data (m : RegistryIcons) id i : (get_full n s').2 = Ok R' →
    rs_files s' !! File_registry n Icons = Some data → rd_read data = inl m → m !! id = Some i →
    ri_icons R' !! id = Some i
}.

Fixpoint orderly_run (ops : list RegOp) (s : RegState) : Prop :=
  match ops with
  | [] => True
  | op :: ops =>
      let s' := (run_op op s).1 in
      match op with Op_query _ => True | Op_refresh _ => orderly s s' end ∧ orderly_run ops s'
  end.

Lemma client_asset_restrict b ids R id :
  id ∈ ids → client_asset default_icon (restrict b ids R) id = client_asset default_icon R id.
Proof.
  intros Hid%contains_true. unfold client_asset. cbn. rewrite !lookup_retain, Hid.
  unfold in_assets. destruct (ri_assets R !! id); [done|done].
Qed.

(** The state between two operations. *)
Record in_step (R : RegistryInfos) (s : RegState) : Prop := {
  is_holds : registry_holds n R s;
  is_known : icons_known R;
  is_synced : synced R (from_xpub xpub (rs_caches s))
}.

Lemma client_get_assets_run R ids s :
  in_step R s →
  ∃ s', client_get_assets default_icon env xpub ids s = (s', Ok (omap (client_asset default_icon R) ids)) ∧
    in_step R s'.
Proof.
  intros [Hholds Hknown Hc].
  destruct (get_from_cache_run n R xpub ids s Hholds Hknown Hc) as (s' & b & Hrun & Hholds' & Hc').
  exists s'. split; [|done]. unfold client_get_assets, reg_get_assets.
  rewrite (bind_run _ _ s s' (restrict b ids R)); [|exact Hrun].
  unfold ret. do 2 f_equal. apply list_omap_ext, Forall2_same_length_lookup_2; [done|].
  intros i id id' Hid Hid'. rewrite Hid in Hid'. injection Hid' as <-.
  by eapply client_asset_restrict, list_elem_of_lookup_2.
Qed.

Lemma client_refresh_run R icons_first s :
  in_step R s →
  ∃ s', client_refresh env xpub icons_first s = (s', Ok tt) ∧
    (orderly s s' → ∃ R', in_step R' s').
Proof.
  intros [Hholds Hknown Hsync]. pose proof (get_full_run n R s Hholds) as Hfull.
  pose proof Hholds as [Hready Hcache (d1 & v1 & w1 & Hd1 & Hv1 & Hw1 & Ha) (d2 & v2 & w2 & Hd2 & Hv2 & Hw2 & Hi) _ Hm].
  destruct (reg_refresh_run icons_first (get_registry_config env) xpub s) as (s' & r & Hrun & Hus & Fa & Fi);
    [done|by exists d1, v1|by exists d2, v2|].
  exists s'. split; [unfold client_refresh; by rewrite (bind_run _ _ _ _ _ Hrun)|]. intros Ho.
  pose proof (sy_coherent _ _ Hsync) as Hco.
  destruct (fed_moved n xpub Assets verified assets_part s s' d1 v1 w1 read_write_assets Fa Hd1 Hv1)
    as (d1' & v1' & Hd1' & Hv1' & Ma). { rewrite <- Ha. apply (co_assets _ _ Hco). }
  destruct (fed_moved n xpub Icons id icons_part s s' d2 v2 w2 read_write_icons Fi Hd2 Hv2)
    as (d2' & v2' & Hd2' & Hv2' & Mi). { rewrite <- Hi. apply (co_icons _ _ Hco). }
  set (R' := {| ri_assets := extend v1' w1; ri_icons := extend v2' w2; ri_source := None |}).
  assert (registry_holds n R' s') as Hholds'.
  { destruct Hus as [? ? ?]. split; [done|done|by exists d1', v1', w1|by exists d2', v2', w2|done|done]. }
  pose proof (f_equal snd (get_full_run n R' s' Hholds')) as Hfull'. cbn in Hfull'.
  apply (f_equal snd) in Hfull. cbn in Hfull.
  assert (icons_known R') as Hk' by by apply (or_known _ _ Ho).
  exists R'. split; [done|done|]. eapply synced_moved; [exact Hsync|exact Hknown|exact Hk'|..].
  - intros id. by apply (or_icons_kept _ _ Ho R R').
  - rewrite Ha. apply Ma.
    + intros id. rewrite <- Ha. by apply (or_assets_kept _ _ Ho R R').
    + intros id x Hx. by eapply (or_assets _ _ Ho R').
    + unfold verified. apply map_filter_id. intros id x Hx. by eapply (or_assets _ _ Ho R').
  - rewrite Hi. apply Mi; [|intros id x Hx; by eapply (or_icons _ _ Ho R')|done].
    intros id. rewrite <- Hi. by apply (or_icons_kept _ _ Ho R R').
Qed.

Lemma run_ops_in_step R ops s :
  in_step R s → orderly_run ops s → ∃ s' R', run_ops ops s = (s', Ok tt) ∧ in_step R' s'.
Proof.
  revert R s. induction ops as [|op ops IH]; intros R s Hs Ho; [by exists s, R|].
  destruct Ho as [Hop Ho]. assert (∃ s1 R1, run_op op s = (s1, Ok tt) ∧ in_step R1 s1) as (s1 & R1 & Hrun & Hs1).
  { destruct op as [ids|icons_first]; cbn [run_op] in *.
    - destruct (client_get_assets_run R ids s Hs) as (s1 & Hrun & Hs1).
      exists s1, R. by rewrite (bind_run _ _ _ _ _ Hrun).
    - destruct (client_refresh_run R icons_first s Hs) as (s1 & Hrun & Hs1).
      rewrite Hrun in Hop. destruct (Hs1 Hop) as [R1 HR1]. by exists s1, R1. }
  rewrite Hrun in Ho. destruct (IH R1 s1 Hs1 Ho) as (s' & R' & Hrest & Hs').
  exists s', R'. cbn [run_ops]. by rewrite (bind_run _ _ _ _ _ Hrun).
Qed.

End Client.

Module RegistrySample.

(** JSON values as trees of strings. *)
Fixpoint tree_of (v : JsonValue) : gen_tree string :=
  match v with
  | JsonNull => GenNode 0 []
  | JsonBool b => GenNode (if b then 1 else 2) []
  | JsonNumber s => GenNode 3 [GenLeaf s]
  | JsonString s => GenNode 4 [GenLeaf s]
  | JsonArray l => GenNode 5 (List.map tree_of l)
  | JsonObject l => GenNode 6 (List.map (λ '(k, v), GenNode 7 [GenLeaf k; tree_of v]) l)
  end.

Fixpoint of_tree (t : gen_tree string) : JsonValue :=
  match t with
  | GenNode 1 _ => JsonBool true
  | GenNode 2 _ => JsonBool false
  | GenNode 3 [GenLeaf s] => JsonNumber s
  | GenNode 4 [GenLeaf s] => JsonString s
  | GenNode 5 l => JsonArray (List.map of_tree l)
  | GenNode 6 l => JsonObject (List.map (λ e, match e with
      | GenNode _ [GenLeaf k; t] => (k, of_tree t)
      | _ => (EmptyString, JsonNull)
      end) l)
  | _ => JsonNull
  end.

Lemma of_tree_of : ∀ v, of_tree (tree_of v) = v.
Proof.
  fix IH 1. intros [|[]|v|v|l|l]; try reflexivity; cbn; f_equal.
  - induction l as [|v l IHl]; [reflexivity|]. cbn. by rewrite (IH v), IHl.
  - induction l as [|[k v] l IHl]; [reflexivity|]. cbn. by rewrite (IH v), IHl.
Qed.

#[local] Instance JsonValue_countable : Countable JsonValue.
Proof. exact (inj_countable' tree_of of_tree of_tree_of). Defined.
#[local] Instance Prevout_eq_dec : EqDecision Prevout.
Proof. solve_decision. Defined.
#[local] Instance Txin_eq_dec : EqDecision Txin.
Proof. solve_decision. Defined.
#[local] Instance Prevout_countable : Countable Prevout.
Proof.
  by refine (inj_countable' (λ p, (po_txid p, po_vout p))
    (λ '(a, b), {| po_txid := a; po_vout := b |}) _).
Defined.
#[local] Instance Txin_countable : Countable Txin.
Proof.
  by refine (inj_countable' (λ p, (txin_txid p, txin_vin p))
    (λ '(a, b), {| txin_txid := a; txin_vin := b |}) _).
Defined.
#[local] Instance AssetEntry_countable : Countable AssetEntry.
Proof.
  by refine (inj_countable' (λ e, (ae_version e, ae_precision e, ae_issuance_txin e,
      ae_issuance_prevout e, ae_ticker e, ae_issuer_pubkey e, ae_name e, ae_asset_id e, ae_entity e,
      ae_contract e))
    (λ '(a, b, c, d, e, f, g, h, i, j), {| ae_version := a; ae_precision := b; ae_issuance_txin := c;
      ae_issuance_prevout := d; ae_ticker := e; ae_issuer_pubkey := f; ae_name := g;
      ae_asset_id := h; ae_entity := i; ae_contract := j |}) _).
Defined.
#[local] Instance Cache_eq_dec : EqDecision Cache.
Proof. solve_decision. Defined.
#[local] Instance Cache_countable : Countable Cache.
Proof.
  by refine (inj_countable' (λ c, (ca_missing_icons c, ca_missing_assets c, ca_icons c, ca_assets c))
    (λ '(a, b, c, d), {| ca_missing_icons := a; ca_missing_assets := b; ca_icons := c;
      ca_assets := d |}) _).
Defined.

Definition id1 : AssetId := replicate 32 1.
Definition id2 : AssetId := replicate 32 2.

Definition contract (name : string) : JsonValue := JsonObject [
  ("entity", JsonNull); ("issuer_pubkey", JsonString "02"); ("name", JsonString name);
  ("precision", JsonNumber "8"); ("ticker", JsonString "TST"); ("version", JsonNumber "0")].

Definition entry (name : string) (c : JsonValue) : AssetEntry := {|
  ae_asset_id := id1;
  ae_contract := c;
  ae_entity := JsonNull;
  ae_issuance_prevout := {| po_txid := []; po_vout := 0 |};
  ae_issuance_txin := {| txin_txid := []; txin_vin := 0 |};
  ae_issuer_pubkey := "02";
  ae_name := name;
  ae_precision := 8;
  ae_ticker := Some "TST";
  ae_version := 0
|}.

Definition genuine : AssetEntry := entry "Test" (contract "Test").
(** The entry of another name than that of its contract. *)
Definition forged : AssetEntry := entry "Tether" (contract "Test").

Definition assets_of (v : JsonValue) : RegistryAssets :=
  match v with
  | JsonBool true => {[ id1 := genuine ]}
  | JsonBool false => {[ id1 := forged ]}
  | _ => ∅
  end.

(** [icon] is whether the icon of [id1] is built in, [served] what the registry serves. *)
Definition env_of (icon : bool) (served : JsonValue) : RegistryEnv := {|
  registry_ids := hex_ids;
  assets_data := {|
    rd_write m := bits (encode m);
    rd_read data := match decode (unbits data) with Some m => inl m | None => inr "no value" end;
    rd_from_value v := inl (assets_of v)
  |};
  icons_data := {|
    rd_write m := bits (encode m);
    rd_read data := match decode (unbits data) with Some m => inl m | None => inr "no value" end;
    rd_from_value v := inl (if icon then {[ id1 := "icon" ]} else ∅)
  |};
  hard_coded_value _ _ := JsonNull;
  write_value v := bits (encode v);
  write_last_modified l := bits (encode (lm_assets l, lm_icons l));
  read_last_modified data :=
    match decode (unbits data) with
    | Some (a, i) => inl {| lm_assets := a; lm_icons := i |}
    | None => inr "no value"
    end;
  write_cache c := bits (encode c);
  read_cache data := match decode (unbits data) with Some c => inl c | None => inr "no value" end;
  json_text v := "{}";
  issued_asset _ _ := inl id1;
  aead_encrypt _ _ data := data;
  aead_decrypt _ _ data := inl data;
  random_nonce _ := replicate 12 0;
  hash_xpub xpub := xpub;
  registry_http _ url last_modified _ := inl {|
    ha_status :=
      if str_contains "icons" url || String.eqb last_modified "today" then 304 else 200;
    ha_last_modified := Some "today";
    ha_body := inl served
  |}
|}.

#[local] Instance laws icon served : @RegistryLaws (env_of icon served).
Proof.
  split; [|done|done|..]; intros; cbn; by rewrite unbits_bits, decode_encode.
Qed.

Definition blank : RegState := {|
  rs_files := ∅; rs_caches := ∅; rs_registry_ready := false; rs_cache_ready := false; rs_time := 0 |}.

(** The client started, and refreshed by the wallet "x". *)
Definition refreshed (icon : bool) (served : JsonValue) : RegState :=
  let env := env_of icon served in
  (client_refresh Env_Prod "x" false (client_init blank).1).1.

(** Nothing is built in. *)
Definition nothing : RegistryInfos := {| ri_assets := ∅; ri_icons := ∅; ri_source := None |}.

Definition started (served : JsonValue) : RegState :=
  let env := env_of false served in (client_init blank).1.

Lemma started_holds served :
  @registry_holds (env_of false served) Liquid nothing (started served).
Proof.
  split; [done|done|..|done|by eexists].
  - exists (bits (encode (∅ : RegistryAssets))), ∅, ∅. split_and!; vm_compute; reflexivity.
  - exists (bits (encode (∅ : RegistryIcons))), ∅, ∅. split_and!; vm_compute; reflexivity.
Qed.

(** A query, a refresh, and two more queries. *)
Definition ops : list RegOp := [Op_query [id1; id2]; Op_refresh false; Op_query [id2]].

Lemma ops_orderly :
  let env := env_of false (JsonBool true) in
  orderly_run "default" Env_Prod "x" ops (started (JsonBool true)).
Proof.
  intros env. refine (conj I (conj _ (conj I I))). split.
  - intros R' E. vm_compute in E. injection E as <-. intros i [? [=]].
  - intros R R' i E E'. vm_compute in E, E'. injection E as <-. injection E' as <-. by intros [? [=]].
  - intros R R' i E E'. vm_compute in E, E'. injection E as <-. injection E' as <-. by intros [? [=]].
  - intros R' data m i a E Ed Em Hi. vm_compute in E, Ed. injection E as <-. injection Ed as <-.
    assert (m = {[ id1 := genuine ]}) as -> by (vm_compute in Em; injection Em as <-; reflexivity).
    apply lookup_singleton_Some in Hi as [<- <-]. split; vm_compute; reflexivity.
  - intros R' data m i a E Ed Em Hi. vm_compute in Ed. injection Ed as <-.
    assert (m = ∅) as -> by (vm_compute in Em; injection Em as <-; reflexivity).
    by rewrite lookup_empty in Hi.
Qed.

End RegistrySample.

Section RegistryExamples.
Import RegistrySample.


(** Verification is for the wallet's cache only: what was downloaded is in the registry
    file as it came, and an entry that does not verify is shown. *)
Example forged_shown :
  let env := env_of true (JsonBool false) in
  is_verified forged = false ∧
  obind (λ assets, Ok (List.map asset_name assets))
    (client_get_assets "default" Env_Prod "x" [id1] (refreshed true (JsonBool false))).2 = Ok ["Tether"].
Proof. vm_compute. by split. Qed.

(** A wallet that asked for an asset before the registry knew it, but knew its icon, never
    gets the icon; another wallet does. *)
Example icon_lost :
  let env := env_of true (JsonBool true) in
  let icons xpub s :=
    let? assets := (client_get_assets "default" Env_Prod xpub [id1] s).2 in
    Ok (List.map asset_icon assets) in
  let asked := (client_get_assets "default" Env_Prod "x" [id1] (client_init blank).1).1 in
  let s := (client_refresh Env_Prod "x" false asked).1 in
  icons "x" s = Ok [Some "default"] ∧ icons "y" s = Ok [Some "icon"].
Proof. vm_compute. by split. Qed.

(** A wallet that asked for an asset before the registry knew it does not learn of it when
    another wallet refreshes the registry; its own refresh then finds nothing new. *)
Example other_wallet_unaware :
  let env := env_of false (JsonBool true) in
  let names xpub s :=
    let? assets := (client_get_assets "default" Env_Prod xpub [id1] s).2 in
    Ok (List.map asset_name assets) in
  let asked := (client_get_assets "default" Env_Prod "x" [id1] (client_init blank).1).1 in
  let s := (client_refresh Env_Prod "x" false (client_refresh Env_Prod "y" false asked).1).1 in
  names "x" s = Ok [] ∧ names "y" s = Ok ["Test"].
Proof. vm_compute. by split. Qed.
End RegistryExamples.
