(* ===== verification/Pin.v ===== *)
(** * The PIN of a wallet

    A mnemonic is kept encrypted under a key that a server gives out for the right PIN
    (rust/gdk_rust/gdk_pin_client/src), and the client keeps what belongs to it
    (rust/sideswap_client/src/pin.rs).  The curve, the hashes, the cipher, the random
    numbers, the server and HTTP are an environment. *)
From stdpp Require Import base numbers strings list.
From Stdlib Require Import ZArith Lia.
From S2P Require Import Prelude Serial Api ClientApi.

Open Scope Z_scope.
#[local] Set Primitive Projections.

(** ** Bytes and text *)

Definition from_hex (s : string) : outcome bytes := ook_or (hex_decode s) "bad hex".

(** ** Data *)

(** A key the client makes for every mnemonic, and the key of the server. *)
Record ClientKey := { client_secret : bytes }.
Record ServerKey := { server_key_bytes : bytes }.
Record Salt := { salt_bytes : bytes }.

(** [PinData] of the library; the client has one of its own ([ClientApi]). *)
Record GdkPinData := {
  pd_encrypted_bytes : bytes;
  pd_client_key : ClientKey;
  pd_salt : Salt;
  pd_hmac : option bytes
}.

Record HandShake := {
  hs_signature : bytes;
  (** the key, and the hash of the bytes it was read from *)
  hs_ske : bytes * bytes
}.

Record RequestEncryptionKey := {
  rek_ske : bytes;
  rek_cke : bytes;
  rek_encryption_key : bytes;
  rek_hmac_key : bytes
}.

Record ResponseDecryptionKey := {
  rdk_decryption_key : bytes;
  rdk_hmac_key : bytes
}.

Record PinServerRequest := {
  pr_cke : string;
  pr_encrypted_data : string;
  pr_hmac_encrypted_data : string;
  pr_ske : string
}.

Record PinServerResponse := {
  pp_encrypted_key : string;
  pp_hmac : string
}.

Inductive ServerOp := GetPin | SetPin.

Record PinClient := {
  pc_proxy : option string;
  pc_url : string;
  pc_public_key : bytes
}.

(** ** The environment *)

Class PinEnv := {
  pin_server : Type;
  (** the fields "sig" and "ske" of a handshake, and the answer to a request; nothing when
      the call fails, an error when the body does not parse *)
  post_handshake : option string → string → pin_server →
    pin_server * option (string * string + string);
  post_request : option string → string → PinServerRequest → pin_server →
    pin_server * option (PinServerResponse + string);
  parse_proxy : string → unit + string;
  show_url : string → string;
  (** random bytes and secret keys, by time *)
  random_bytes : nat → nat → bytes;
  random_secret : nat → bytes;
  sha256 : bytes → bytes;
  hmac_sha256 : bytes → bytes → bytes;
  aes_cbc_encrypt : bytes → bytes → bytes → bytes;
  aes_cbc_decrypt : bytes → bytes → bytes → bytes + string;
  (** keys of the curve, as they are written *)
  parse_secret : bytes → bytes + string;
  parse_public_key : bytes → bytes + string;
  parse_signature : bytes → bytes + string;
  public_key : bytes → bytes;
  shared_secret : bytes → bytes → bytes;
  sign_recoverable : bytes → bytes → Z * bytes;
  verify_ecdsa : bytes → bytes → bytes → bool
}.

(** Sizes, and decrypting what was encrypted. *)
Class PinLaws `{PinEnv} := {
  random_length time n : length (random_bytes time n) = n;
  random_byte time n : Forall is_byte (random_bytes time n);
  secret_byte time : Forall is_byte (random_secret time);
  secret_parses time : parse_secret (random_secret time) = inl (random_secret time);
  sha256_length data : length (sha256 data) = 32%nat;
  hmac_length key data : length (hmac_sha256 key data) = 32%nat;
  aes_byte key iv data : Forall is_byte (aes_cbc_encrypt key iv data);
  aes_inverse key iv data : Forall is_byte data →
    aes_cbc_decrypt key iv (aes_cbc_encrypt key iv data) = inl data;
  public_key_length secret : length (public_key secret) = 33%nat;
  signature_length message secret : length (sign_recoverable message secret).2 = 64%nat
}.

Record PinState `{PinEnv} := {
  pin_time : nat;
  pin_world : pin_server
}.

Section Pin.
Context `{PinEnv}.

Abbreviation PinM := (M PinState).

Definition parsed {A} (r : A + string) : outcome A :=
  match r with inl a => Ok a | inr e => Err e end.

(** Another time, so other random numbers. *)
Definition tick_time : PinM nat :=
  let! time := gets pin_time in
  do! modify (λ s, s <| pin_time ::= S |>) in
  ret time.

Definition new_salt (len : nat) : PinM Salt :=
  let! time := tick_time in
  ret {| salt_bytes := random_bytes time len |}.

Definition new_client_key : PinM ClientKey :=
  let! time := tick_time in
  ret {| client_secret := random_secret time |}.

(** ** crypto.rs *)

(** [Aes256Cbc::new_from_slices] *)
Definition new_from_slices (key iv : bytes) (what : string) : outcome (bytes * bytes) :=
  do? oassert (Nat.eqb (length key) 32 && Nat.eqb (length iv) 16) what in
  Ok (key, iv).

Definition encrypt (plaintext : bytes) (server_key : ServerKey) : PinM (bytes * Salt) :=
  let! salt := new_salt 16 in
  let! '(key, iv) := lift (new_from_slices (server_key_bytes server_key) (salt_bytes salt)
    "Both the ServerKey and the Salt have the right length") in
  ret (aes_cbc_encrypt key iv plaintext, salt).

Definition decrypt (encrypted : bytes) (server_key : ServerKey) (salt : Salt) : outcome bytes :=
  let? '(key, iv) := new_from_slices (server_key_bytes server_key) (salt_bytes salt)
    "Both the ServerKey and the Salt have the right length" in
  parsed (aes_cbc_decrypt key iv encrypted).

(** ** pin_data.rs *)

Definition get_hmac (server_key : ServerKey) (salt : Salt) (encrypted : bytes) : bytes :=
  hmac_sha256 (server_key_bytes server_key) (salt_bytes salt ++ encrypted).

Definition PinData_new (encrypted_bytes : bytes) (client_key : ClientKey) (salt : Salt)
    (server_key : ServerKey) : GdkPinData := {|
  pd_encrypted_bytes := encrypted_bytes;
  pd_client_key := client_key;
  pd_salt := salt;
  pd_hmac := Some (get_hmac server_key salt encrypted_bytes)
|}.

(** ** pin_request.rs *)

(** Reading the handshake off its JSON. *)
Definition parse_handshake (sig ske : string) : outcome HandShake :=
  let? sig_bytes := from_hex sig in
  let? signature := parsed (parse_signature sig_bytes) in
  let? ske_bytes := from_hex ske in
  let? key := parsed (parse_public_key ske_bytes) in
  Ok {| hs_signature := signature; hs_ske := (key, sha256 ske_bytes) |}.

(** [Message::from_slice] *)
Definition message_from_slice (data : bytes) : outcome bytes :=
  do? oensure (Nat.eqb (length data) 32) "malformed message" in Ok data.

Definition handshake_verify (handshake : HandShake) (pin_server_public_key : bytes) : outcome unit :=
  let? message := message_from_slice (snd (hs_ske handshake)) in
  oensure (verify_ecdsa message (hs_signature handshake) pin_server_public_key) "signature failed verification".

Definition derive (value : Z) (key : bytes) : bytes := hmac_sha256 key [value].

(** The keys of one request and its answer, for the secret key of the client's side. *)
Definition request_key (handshake : HandShake) (secret_key : bytes) : RequestEncryptionKey :=
  let shared := shared_secret (fst (hs_ske handshake)) secret_key in {|
  rek_ske := fst (hs_ske handshake);
  rek_cke := public_key secret_key;
  rek_encryption_key := derive 0 shared;
  rek_hmac_key := derive 1 shared
|}.

Definition response_key (handshake : HandShake) (secret_key : bytes) : ResponseDecryptionKey :=
  let shared := shared_secret (fst (hs_ske handshake)) secret_key in {|
  rdk_decryption_key := derive 2 shared;
  rdk_hmac_key := derive 3 shared
|}.

Definition generate_keys (handshake : HandShake)
    : PinM (RequestEncryptionKey * ResponseDecryptionKey) :=
  let! time := tick_time in
  let secret_key := random_secret time in
  ret (request_key handshake secret_key, response_key handshake secret_key).

Definition PinServerRequest_new (pin : string) (client_key : ClientKey)
    (encryption_key : RequestEncryptionKey) : PinM PinServerRequest :=
  let hashed_pin := sha256 (as_bytes pin) in
  let! salt := new_salt 32 in
  let serialized_cke := rek_cke encryption_key in
  let data := serialized_cke ++ hashed_pin ++ salt_bytes salt in
  do! lift (oassert (Nat.eqb (length data) 97) "assertion failed: 97 == v.len()") in
  let! message := lift (message_from_slice (sha256 data)) in
  let '(recovery_id, signature) := sign_recoverable message (client_secret client_key) in
  let payload := hashed_pin ++ salt_bytes salt ++ [(31 + recovery_id) `mod` 256] ++ signature in
  do! lift (oassert (Nat.eqb (length payload) 129) "assertion failed: 129 == v.len()") in
  let! salt := new_salt 16 in
  let! '(key, iv) := lift (new_from_slices (rek_encryption_key encryption_key) (salt_bytes salt)
    "Both the encryption key and the salt have the right length") in
  let encrypted_data := salt_bytes salt ++ aes_cbc_encrypt key iv payload in
  let auth_payload := serialized_cke ++ encrypted_data in
  let hmac_encrypted_data := hmac_sha256 (rek_hmac_key encryption_key) auth_payload in
  ret {|
    pr_ske := hex_encode (rek_ske encryption_key);
    pr_cke := hex_encode serialized_cke;
    pr_encrypted_data := hex_encode encrypted_data;
    pr_hmac_encrypted_data := hex_encode hmac_encrypted_data
  |}.

(** ** pin_client.rs *)

(** The answer is the salt and then the encrypted key, in hex. *)
Definition decrypt_server_key (response : PinServerResponse) (decryption_key : ResponseDecryptionKey)
    : outcome ServerKey :=
  let encrypted_key := pp_encrypted_key response in
  let len := String.length encrypted_key in
  do? oensure (negb (len <? 32)%nat) "Received an invalid response from the PIN server" in
  let? salt_hex := str_prefix encrypted_key 32 in
  let? salt := from_hex salt_hex in
  let? encrypted := from_hex (String.substring 32 (len - 32) encrypted_key) in
  let? '(key, iv) := new_from_slices (rdk_decryption_key decryption_key) salt
    "Both the decryption key and the salt have the right length" in
  let? decrypted := parsed (aes_cbc_decrypt key iv encrypted) in
  Ok {| server_key_bytes := decrypted |}.

Definition response_verify (response : PinServerResponse) (decryption_key : ResponseDecryptionKey)
    : outcome unit :=
  let? encrypted_key := from_hex (pp_encrypted_key response) in
  let hmac := hmac_sha256 (rdk_hmac_key decryption_key) encrypted_key in
  let? expected := from_hex (pp_hmac response) in
  do? oensure (Nat.eqb (length expected) 32) "bad hex length" in
  oensure (bool_decide (hmac = expected)) "Received an invalid response from the PIN server".

(** A call of the server, whatever it does. *)
Definition post {A} (f : pin_server → pin_server * option (A + string)) (error : string) : PinM A := λ s,
  let '(world, answer) := f (pin_world s) in
  (s <| pin_world := world |>, match answer with Some r => parsed r | None => Err error end).

Definition handshake_server (client : PinClient) : PinM HandShake :=
  let! '(sig, ske) := post (post_handshake (pc_proxy client) (pc_url client +:+ "/start_handshake"))
    "Failed handshake with PIN server" in
  lift (parse_handshake sig ske).

Definition op_endpoint (op : ServerOp) : string :=
  match op with GetPin => "get_pin" | SetPin => "set_pin" end.

Definition call_server (client : PinClient) (request : PinServerRequest) (op : ServerOp)
    : PinM PinServerResponse :=
  post (post_request (pc_proxy client) (pc_url client +:+ "/" +:+ op_endpoint op) request)
    "Failed calling the PIN server".

Definition server_op (client : PinClient) (pin : string) (client_key : ClientKey) (op : ServerOp)
    : PinM ServerKey :=
  let! handshake := handshake_server client in
  do! lift (handshake_verify handshake (pc_public_key client)) in
  let! '(request_key, response_key) := generate_keys handshake in
  let! request := PinServerRequest_new pin client_key request_key in
  let! response := call_server client request op in
  do! lift (response_verify response response_key) in
  lift (decrypt_server_key response response_key).

Definition set_pin (client : PinClient) (pin : string) (client_key : ClientKey) : PinM ServerKey :=
  server_op client pin client_key SetPin.
Definition get_pin (client : PinClient) (pin : string) (client_key : ClientKey) : PinM ServerKey :=
  server_op client pin client_key GetPin.

Definition client_encrypt (client : PinClient) (plaintext : bytes) (pin : string) : PinM GdkPinData :=
  let! client_key := new_client_key in
  let! server_key := set_pin client pin client_key in
  let! '(encrypted, salt) := encrypt plaintext server_key in
  ret (PinData_new encrypted client_key salt server_key).

Definition client_decrypt (client : PinClient) (data : GdkPinData) (pin : string) : PinM bytes :=
  let! server_key := get_pin client pin (pd_client_key data) in
  do! match pd_hmac data with
      | Some hmac =>
          ensure (bool_decide (hmac = get_hmac server_key (pd_salt data) (pd_encrypted_bytes data)))
            "The PIN is not valid"
      | None => ret tt
      end in
  lift (decrypt (pd_encrypted_bytes data) server_key (pd_salt data)).

(** ** pin.rs of the client *)

Definition PIN_SERVER_URL : string := "https://jadepin.blockstream.com".
Definition PIN_SERVER_PUBLIC_KEY : string :=
  "0332b7b1348bde8ca4b46b9dcc30320e140ca26428160a27bdbfc30b34ec87c547".

Definition get_pin_client (proxy : option string) : outcome PinClient :=
  do? match proxy with
      | Some proxy => parsed (parse_proxy ("socks5://" +:+ proxy))
      | None => Ok tt
      end in
  let? key :=
    match obind (λ data, parsed (parse_public_key data)) (from_hex PIN_SERVER_PUBLIC_KEY) with
    | Ok key => Ok key
    | Err e | Panic e => Panic e
    end in
  Ok {| pc_proxy := proxy; pc_url := show_url PIN_SERVER_URL; pc_public_key := key |}.

(** From the client's struct to the library's by way of JSON, and back; the client's has
    no field for the hmac. *)
Definition to_gdk_data (details : PinData) : outcome GdkPinData :=
  let? encrypted := from_hex (pin_encrypted_data details) in
  let? secret := obind (λ data, parsed (parse_secret data)) (from_hex (pin_identifier details)) in
  let? salt := from_hex (pin_salt details) in
  do? oensure (Nat.eqb (length salt) 16) "invalid length" in
  Ok {| pd_encrypted_bytes := encrypted; pd_client_key := {| client_secret := secret |};
        pd_salt := {| salt_bytes := salt |}; pd_hmac := None |}.

Definition of_gdk_data (data : GdkPinData) : PinData := {|
  pin_salt := hex_encode (salt_bytes (pd_salt data));
  pin_encrypted_data := hex_encode (pd_encrypted_bytes data);
  pin_identifier := hex_encode (client_secret (pd_client_key data))
|}.

Definition decrypt_pin (details : PinData) (pin : string) (proxy : option string) : PinM string :=
  let! data := lift (to_gdk_data details) in
  let! manager := lift (get_pin_client proxy) in
  let! mnemonic := client_decrypt manager data pin in
  lift (from_utf8 mnemonic).

Definition encrypt_pin (mnemonic pin : string) (proxy : option string) : PinM PinData :=
  let! manager := lift (get_pin_client proxy) in
  let! data := client_encrypt manager (as_bytes mnemonic) pin in
  ret (of_gdk_data data).
End Pin.

(** ** Lemmas: bytes and text *)

Lemma as_bytes_byte s : Forall is_byte (as_bytes s).
Proof.
  unfold as_bytes. apply Forall_forall. intros b Hb. apply list_elem_of_In, in_map_iff in Hb as (c & <- & _).
  unfold is_byte. pose proof (Ascii.N_ascii_bounded c). lia.
Qed.

Lemma of_as_bytes s : of_bytes (as_bytes s) = s.
Proof.
  unfold of_bytes, as_bytes. rewrite map_map. rewrite <- (String.string_of_list_ascii_of_string s) at 2.
  f_equal. transitivity (List.map id (String.list_ascii_of_string s)); [|apply List.map_id].
  apply List.map_ext. intros c. rewrite N2Z.id. apply Ascii.ascii_N_embedding.
Qed.

Lemma from_hex_encode data : Forall is_byte data → from_hex (hex_encode data) = Ok data.
Proof. intros Hd. unfold from_hex. by rewrite hex_decode_encode. Qed.

(** ** A server that keeps its promise *)

(** The server remembers a key for a PIN and the public key of the client that set it,
    and answers whoever makes a request with the keys of its handshake. *)
Class PinServer `{PinEnv} := {
  server_public : bytes;
  stored : pin_server → bytes → bytes → option bytes;
  expects : pin_server → HandShake → Prop;
  server_public_parses :
    obind (λ data, parsed (parse_public_key data)) (from_hex PIN_SERVER_PUBLIC_KEY) = Ok server_public;
  handshake_answered proxy world :
    ∃ world' sig ske handshake,
      post_handshake proxy (show_url PIN_SERVER_URL +:+ "/start_handshake") world =
        (world', Some (inl (sig, ske))) ∧
      parse_handshake sig ske = Ok handshake ∧
      handshake_verify handshake server_public = Ok tt ∧
      expects world' handshake ∧ stored world' = stored world;
  set_answered proxy handshake secret pin client_key s request :
    expects (pin_world s) handshake →
    (PinServerRequest_new pin client_key (request_key handshake secret) s).2 = Ok request →
    ∃ world' response key,
      post_request proxy (show_url PIN_SERVER_URL +:+ "/set_pin") request (pin_world s) =
        (world', Some (inl response)) ∧
      response_verify response (response_key handshake secret) = Ok tt ∧
      decrypt_server_key response (response_key handshake secret) = Ok {| server_key_bytes := key |} ∧
      length key = 32%nat ∧
      stored world' (sha256 (as_bytes pin)) (public_key (client_secret client_key)) = Some key;
  get_answered proxy handshake secret pin client_key s request key :
    expects (pin_world s) handshake →
    (PinServerRequest_new pin client_key (request_key handshake secret) s).2 = Ok request →
    stored (pin_world s) (sha256 (as_bytes pin)) (public_key (client_secret client_key)) = Some key →
    ∃ world' response,
      post_request proxy (show_url PIN_SERVER_URL +:+ "/get_pin") request (pin_world s) =
        (world', Some (inl response)) ∧
      response_verify response (response_key handshake secret) = Ok tt ∧
      decrypt_server_key response (response_key handshake secret) = Ok {| server_key_bytes := key |}
}.

Section PinClient.
Context `{PinEnv}.

(** Whatever answers, a key is taken only from an answer made with the keys of a handshake
    that the key of the server signed. *)
Lemma server_op_authentic client pin client_key op s s' key :
  server_op client pin client_key op s = (s', Ok key) →
  ∃ handshake secret response,
    handshake_verify handshake (pc_public_key client) = Ok tt ∧
    response_verify response (response_key handshake secret) = Ok tt ∧
    decrypt_server_key response (response_key handshake secret) = Ok key.
Proof.
  unfold server_op, generate_keys. intros Hrun. ok_inv.
  by eexists _, _, _.
Qed.
End PinClient.

Section Honest.
Context `{!PinEnv} `{!PinLaws} `{!PinServer}.

Definition the_client (proxy : option string) : PinClient :=
  {| pc_proxy := proxy; pc_url := show_url PIN_SERVER_URL; pc_public_key := server_public |}.

Definition proxy_valid (proxy : option string) : Prop :=
  match proxy with Some p => parse_proxy ("socks5://" +:+ p) = inl tt | None => True end.

Lemma get_pin_client_run proxy : proxy_valid proxy → get_pin_client proxy = Ok (the_client proxy).
Proof.
  intros Hproxy. unfold get_pin_client. rewrite server_public_parses.
  destruct proxy as [p|]; [|done]. unfold proxy_valid in Hproxy. by rewrite Hproxy.
Qed.

Lemma bind_lift {A B} (x : outcome A) (a : A) (k : A → M PinState B) s :
  x = Ok a → bind (lift x) k s = k a s.
Proof. by intros ->. Qed.

Lemma new_salt_run len s :
  new_salt len s = (s <| pin_time ::= S |>, Ok {| salt_bytes := random_bytes (pin_time s) len |}).
Proof. done. Qed.

Lemma new_from_slices_run key iv what :
  length key = 32%nat → length iv = 16%nat → new_from_slices key iv what = Ok (key, iv).
Proof. intros Hk Hi. unfold new_from_slices. by rewrite Hk, Hi. Qed.

(** Whatever the PIN: the sizes are right, and a request is made. *)
Lemma request_run pin client_key handshake secret s :
  ∃ s' request, PinServerRequest_new pin client_key (request_key handshake secret) s = (s', Ok request) ∧
    pin_world s' = pin_world s ∧
    ∃ time rest, pr_encrypted_data request = hex_encode (random_bytes time 16 ++
      aes_cbc_encrypt (rek_encryption_key (request_key handshake secret)) (random_bytes time 16)
        (sha256 (as_bytes pin) ++ rest)).
Proof.
  unfold PinServerRequest_new. cbv zeta.
  rewrite (bind_run _ _ _ _ _ (new_salt_run 32 s)). cbn [salt_bytes].
  assert (length (sha256 (as_bytes pin)) = 32%nat) as Hpin by apply sha256_length.
  rewrite (bind_lift _ tt)
    by (cbn [rek_cke request_key]; by rewrite !length_app, public_key_length, Hpin, random_length).
  set (data := sha256 (_ ++ _)). assert (length data = 32%nat) as Hdata by apply sha256_length.
  rewrite (bind_lift _ data) by (unfold message_from_slice; by rewrite Hdata).
  destruct (sign_recoverable data (client_secret client_key)) as [id sig] eqn:Esig.
  assert (length sig = 64%nat) as Hsig.
  { pose proof (signature_length data (client_secret client_key)) as E. by rewrite Esig in E. }
  rewrite (bind_lift _ tt) by by rewrite !length_app, Hpin, random_length, Hsig.
  rewrite (bind_run _ _ _ _ _ (new_salt_run 16 _)).
  erewrite bind_lift by (apply new_from_slices_run; [apply hmac_length|apply random_length]).
  eexists _, _. split; [reflexivity|]. split; [done|]. by eexists _, _.
Qed.

(** One exchange with the server: the key it says belongs to the PIN and the client. *)
Definition answers_with (op : ServerOp) (pin : string) (client_key : ClientKey)
    (world world' : pin_server) (key : bytes) : Prop :=
  match op with
  | SetPin => length key = 32%nat ∧
      stored world' (sha256 (as_bytes pin)) (public_key (client_secret client_key)) = Some key
  | GetPin => stored world (sha256 (as_bytes pin)) (public_key (client_secret client_key)) = Some key
  end.

Lemma post_run {A} f e (s : PinState) world' (a : A) :
  f (pin_world s) = (world', Some (inl a)) → post f e s = (s <| pin_world := world' |>, Ok a).
Proof. intros E. unfold post. by rewrite E. Qed.

Lemma server_op_run proxy pin client_key op s :
  (op = GetPin →
    is_Some (stored (pin_world s) (sha256 (as_bytes pin)) (public_key (client_secret client_key)))) →
  ∃ s' key, server_op (the_client proxy) pin client_key op s = (s', Ok {| server_key_bytes := key |}) ∧
    answers_with op pin client_key (pin_world s) (pin_world s') key.
Proof.
  intros Hget. destruct (handshake_answered proxy (pin_world s))
    as (w1 & sig & ske & h & Hpost & Hparse & Hverify & Hexpects & Hstored).
  unfold server_op. rewrite (bind_run _ _ s (s <| pin_world := w1 |>) h).
  2:{ unfold handshake_server. erewrite bind_run by by apply post_run. unfold lift. by rewrite Hparse. }
  rewrite (bind_lift _ tt) by done.
  set (s1 := s <| pin_world := w1 |>).
  set (secret := random_secret (pin_time s1)).
  rewrite (bind_run _ _ s1 (s1 <| pin_time ::= S |>) (request_key h secret, response_key h secret)) by done.
  set (s2 := s1 <| pin_time ::= S |>).
  destruct (request_run pin client_key h secret s2) as (s3 & request & Hrequest & Hworld & _).
  rewrite (bind_run _ _ _ _ _ Hrequest).
  assert (expects (pin_world s2) h) as Hexp by done.
  assert ((PinServerRequest_new pin client_key (request_key h secret) s2).2 = Ok request) as Hreq
    by by rewrite Hrequest.
  assert (∃ w' response key,
    post_request proxy (show_url PIN_SERVER_URL +:+ "/" +:+ op_endpoint op) request (pin_world s2) =
      (w', Some (inl response)) ∧
    response_verify response (response_key h secret) = Ok tt ∧
    decrypt_server_key response (response_key h secret) = Ok {| server_key_bytes := key |} ∧
    answers_with op pin client_key (pin_world s) w' key) as (w' & response & key & Hcall & Hv & Hd & Ha).
  { destruct op.
    - destruct (Hget eq_refl) as [key Hkey].
      assert (stored (pin_world s2) (sha256 (as_bytes pin)) (public_key (client_secret client_key)) = Some key)
        as Hkey' by by rewrite <- Hkey, <- Hstored.
      destruct (get_answered proxy h secret pin client_key s2 request key Hexp Hreq Hkey')
        as (w' & response & ? & ? & ?). by exists w', response, key.
    - destruct (set_answered proxy h secret pin client_key s2 request Hexp Hreq)
        as (w' & response & key & ? & ? & ? & ? & ?). by exists w', response, key. }
  rewrite <- Hworld in Hcall.
  unfold call_server. erewrite bind_run by by apply post_run.
  rewrite (bind_lift _ tt) by done. eexists _, key. split; [unfold lift; by rewrite Hd|done].
Qed.

Lemma to_of_gdk_data encrypted time salt_time hmac :
  Forall is_byte encrypted →
  to_gdk_data (of_gdk_data {| pd_encrypted_bytes := encrypted;
    pd_client_key := {| client_secret := random_secret time |};
    pd_salt := {| salt_bytes := random_bytes salt_time 16 |}; pd_hmac := hmac |}) =
  Ok {| pd_encrypted_bytes := encrypted; pd_client_key := {| client_secret := random_secret time |};
        pd_salt := {| salt_bytes := random_bytes salt_time 16 |}; pd_hmac := None |}.
Proof.
  intros Hd. unfold to_gdk_data. cbn [pin_encrypted_data pin_identifier pin_salt of_gdk_data
    pd_encrypted_bytes pd_client_key pd_salt salt_bytes client_secret].
  rewrite (from_hex_encode encrypted Hd). cbn [obind].
  rewrite (from_hex_encode _ (secret_byte time)). cbn [obind]. rewrite secret_parses. cbn [obind parsed].
  rewrite (from_hex_encode _ (random_byte salt_time 16)). cbn [obind]. by rewrite random_length.
Qed.

(** What is kept of a mnemonic: encrypted under the key that the server remembers. *)
Lemma encrypt_pin_run proxy mnemonic pin s :
  proxy_valid proxy →
  ∃ s' time salt_time key, let secret := random_secret time in let iv := random_bytes salt_time 16 in
    encrypt_pin mnemonic pin proxy s = (s', Ok (of_gdk_data (PinData_new
      (aes_cbc_encrypt key iv (as_bytes mnemonic)) {| client_secret := secret |} {| salt_bytes := iv |}
      {| server_key_bytes := key |}))) ∧
    length key = 32%nat ∧
    stored (pin_world s') (sha256 (as_bytes pin)) (public_key secret) = Some key.
Proof.
  intros Hproxy. unfold encrypt_pin. rewrite (bind_lift _ _ _ _ (get_pin_client_run proxy Hproxy)).
  set (time := pin_time s). set (s1 := s <| pin_time ::= S |>).
  destruct (server_op_run proxy pin {| client_secret := random_secret time |} SetPin s1)
    as (s2 & key & Hop & Hlen & Hstored); [done|].
  exists (s2 <| pin_time ::= S |>), time, (pin_time s2), key. cbv zeta. split; [|by split].
  unfold client_encrypt. erewrite bind_run; [reflexivity|].
  rewrite (bind_run _ _ s s1 {| client_secret := random_secret time |}) by done.
  rewrite (bind_run _ _ _ _ _ Hop).
  rewrite (bind_run _ _ s2 (s2 <| pin_time ::= S |>)
    (aes_cbc_encrypt key (random_bytes (pin_time s2) 16) (as_bytes mnemonic),
     {| salt_bytes := random_bytes (pin_time s2) 16 |})); [reflexivity|].
  unfold encrypt. rewrite (bind_run _ _ _ _ _ (new_salt_run 16 s2)).
  by erewrite bind_lift by (apply new_from_slices_run; [done|apply random_length]).
Qed.

(** C38: Over a server that keeps its promise, a mnemonic that was encrypted with a PIN is
    what decrypting with the same PIN gives, whenever that is, through whichever proxy, and
    whatever the server did in between - as long as it remembers the key. *)
Theorem pin_roundtrip proxy proxy' mnemonic pin s :
  proxy_valid proxy → proxy_valid proxy' → utf8_valid (as_bytes mnemonic) = true →
  ∃ s' data, encrypt_pin mnemonic pin proxy s = (s', Ok data) ∧
    ∀ later, stored (pin_world later) = stored (pin_world s') →
    (decrypt_pin data pin proxy' later).2 = Ok mnemonic.
Proof.
  intros Hproxy Hproxy' Hutf8.
  destruct (encrypt_pin_run proxy mnemonic pin s Hproxy) as (s' & time & salt_time & key & Hrun & Hlen & Hstored).
  eexists s', _. split; [exact Hrun|]. intros later Hlater.
  unfold decrypt_pin. erewrite bind_lift by apply to_of_gdk_data, aes_byte.
  rewrite (bind_lift _ _ _ _ (get_pin_client_run proxy' Hproxy')).
  set (data := {| pd_encrypted_bytes := _ |}).
  destruct (server_op_run proxy' pin {| client_secret := random_secret time |} GetPin later)
    as (s2 & key' & Hop & Hkey').
  { intros _. rewrite Hlater. by exists key. }
  change (stored (pin_world later) (sha256 (as_bytes pin)) (public_key (random_secret time)) = Some key')
    in Hkey'.
  assert (key' = key) as -> by (rewrite Hlater in Hkey'; congruence).
  unfold client_decrypt, get_pin. rewrite (bind_run _ _ later s2 (as_bytes mnemonic)).
  { unfold lift, from_utf8. rewrite Hutf8. simpl. by rewrite of_as_bytes. }
  rewrite (bind_run _ _ _ _ _ Hop). rewrite (bind_run _ _ s2 s2 tt) by done.
  unfold decrypt. cbn [pd_salt pd_encrypted_bytes data].
  rewrite new_from_slices_run by (done || apply random_length). cbn [obind].
  by rewrite aes_inverse by apply as_bytes_byte.
Qed.
End Honest.

Module PinSample.
Definition pad (len : nat) (data : bytes) : bytes := take len (data ++ replicate len 0).

Definition rotate (by_ : Z) (data : bytes) : bytes := List.map (λ b, (b + by_) `mod` 256) data.

(** Every session has the same keys, and the key kept for a PIN is made of the PIN. *)
Definition session_key (n : Z) : bytes := pad 32 [n].

Definition answer (request : PinServerRequest) : PinServerResponse :=
  let data := default [] (hex_decode (pr_encrypted_data request)) in
  let pin := take 32 (drop 16 data) in
  let encrypted := replicate 16 0 ++ rotate 2 pin in {|
  pp_encrypted_key := hex_encode encrypted;
  pp_hmac := hex_encode (pad 32 encrypted)
|}.

#[export] Instance env : PinEnv := {
  pin_server := unit;
  post_handshake _ _ w := (w, Some (inl ("00", "00")));
  post_request _ _ request w := (w, Some (inl (answer request)));
  parse_proxy _ := inl tt;
  show_url url := url +:+ "/";
  random_bytes time n := replicate n (Z.of_nat time `mod` 256);
  random_secret time := replicate 32 (Z.of_nat time `mod` 256);
  sha256 data := pad 32 data;
  hmac_sha256 key data := match key with [] => pad 32 data | k :: _ => pad 32 (if k =? 3 then data else key) end;
  aes_cbc_encrypt key _ data := rotate (default 0 (head key)) data;
  aes_cbc_decrypt key _ data := inl (rotate (- default 0 (head key)) data);
  parse_secret := inl;
  parse_public_key := inl;
  parse_signature := inl;
  public_key secret := pad 33 secret;
  shared_secret _ _ := [];
  sign_recoverable _ _ := (0, replicate 64 0);
  verify_ecdsa _ _ _ := true
}.

Lemma pad_length len data : length (pad len data) = len.
Proof. unfold pad. rewrite length_take, length_app, length_replicate. lia. Qed.

Lemma rotate_byte n data : Forall is_byte (rotate n data).
Proof.
  apply Forall_forall. intros b Hb. apply list_elem_of_In, in_map_iff in Hb as (c & <- & _).
  unfold is_byte. apply Z.mod_pos_bound. lia.
Qed.

Lemma rotate_back n data : Forall is_byte data → rotate (- n) (rotate n data) = data.
Proof.
  unfold rotate, is_byte. rewrite map_map. induction 1 as [|b data Hb _ IH]; [done|]. simpl. f_equal; [|done].
  rewrite Zplus_mod_idemp_l. replace (b + n + - n) with b by lia. by apply Z.mod_small.
Qed.

Lemma pad_byte len data : Forall is_byte data → Forall is_byte (pad len data).
Proof.
  intros Hd. apply Forall_take, Forall_app_2; [done|]. apply Forall_replicate. unfold is_byte. lia.
Qed.

Lemma replicate_byte n b : is_byte b → Forall is_byte (replicate n b).
Proof. apply Forall_replicate. Qed.

#[export] Instance laws : PinLaws.
Proof.
  split; cbn; intros.
  - apply length_replicate.
  - apply replicate_byte. apply Z.mod_pos_bound. lia.
  - apply (replicate_byte 32). apply Z.mod_pos_bound. lia.
  - done.
  - apply pad_length.
  - destruct key; apply pad_length.
  - apply rotate_byte.
  - f_equal. by apply rotate_back.
  - apply pad_length.
  - done.
Qed.

(** The server decrypts the PIN's hash out of the request. *)
Lemma answer_request pin client_key h secret s request :
  (PinServerRequest_new pin client_key (request_key h secret) s).2 = Ok request →
  answer request = {|
    pp_encrypted_key := hex_encode (replicate 16 0 ++ rotate 2 (sha256 (as_bytes pin)));
    pp_hmac := hex_encode (pad 32 (replicate 16 0 ++ rotate 2 (sha256 (as_bytes pin)))) |}.
Proof.
  intros Hreq. destruct (request_run pin client_key h secret s) as (s' & r & Hrun & _ & time & rest & Hdata).
  rewrite Hrun in Hreq. injection Hreq as ->. unfold answer. rewrite Hdata, hex_decode_encode.
  2:{ apply Forall_app_2; [apply random_byte|apply aes_byte]. }
  set (data := random_bytes time 16 ++ _).
  assert (take 32 (drop 16 data) = sha256 (as_bytes pin)) as <-; [|reflexivity].
  unfold data. rewrite drop_app_length' by by rewrite random_length.
  change (take 32 (rotate 0 (sha256 (as_bytes pin) ++ rest)) = sha256 (as_bytes pin)).
  unfold rotate. rewrite map_app, take_app_length' by by rewrite length_map, sha256_length.
  assert (Forall is_byte (sha256 (as_bytes pin))) as Hb by apply pad_byte, as_bytes_byte.
  pose proof (rotate_back 0 _ Hb) as E. rewrite <- E at 2. unfold rotate. rewrite map_map.
  apply List.map_ext. intros b. rewrite !Z.add_0_r. by rewrite Z.mod_mod.
Qed.

Lemma substring_all s : String.substring 0 (String.length s) s = s.
Proof. induction s as [|c s IH]; [done|]. simpl. by rewrite IH. Qed.

Lemma hex_length data : String.length (hex_encode data) = (2 * length data)%nat.
Proof. induction data as [|b data IH]; [done|]. simpl. rewrite IH. lia. Qed.

Lemma hex_digit_boundary n : 0 ≤ n < 16 → continuation (hex_digit n) = false.
Proof.
  intros Hn. assert (n ∈ seqZ 0 16) as Hin by (apply elem_of_seqZ; lia). revert n Hn Hin.
  cut (Forall (λ n, continuation (hex_digit n) = false) (seqZ 0 16)).
  { intros H n _ Hin. by eapply Forall_forall in H. }
  vm_compute. repeat constructor.
Qed.

Lemma answer_verifies pin client_key h secret s request :
  (PinServerRequest_new pin client_key (request_key h secret) s).2 = Ok request →
  response_verify (answer request) (response_key h secret) = Ok tt ∧
  decrypt_server_key (answer request) (response_key h secret) =
    Ok {| server_key_bytes := sha256 (as_bytes pin) |}.
Proof.
  intros Hreq. rewrite (answer_request pin client_key h secret s request Hreq).
  assert (Forall is_byte (sha256 (as_bytes pin))) as Hb by apply pad_byte, as_bytes_byte.
  assert (length (rotate 2 (sha256 (as_bytes pin))) = 32%nat) as Hlen.
  { unfold rotate. by rewrite length_map, sha256_length. }
  set (pin_hash := sha256 (as_bytes pin)) in *. set (data := replicate 16 0 ++ rotate 2 pin_hash).
  assert (Forall is_byte data) as Hdata.
  { apply Forall_app_2; [by apply replicate_byte|apply rotate_byte]. }
  split.
  - unfold response_verify. cbn [pp_encrypted_key pp_hmac]. rewrite (from_hex_encode data Hdata). cbn [obind].
    rewrite from_hex_encode by by apply pad_byte. cbn [obind]. rewrite pad_length.
    change (hmac_sha256 (rdk_hmac_key (response_key h secret)) data) with (pad 32 data).
    unfold oensure. cbn [Nat.eqb obind]. by rewrite bool_decide_eq_true_2.
  - unfold decrypt_server_key. cbn [pp_encrypted_key pp_hmac].
    unfold data. rewrite hex_length, length_app, Hlen.
    change (hex_encode (replicate 16 0 ++ rotate 2 pin_hash))
      with ("00000000000000000000000000000000" +:+ hex_encode (rotate 2 pin_hash)).
    pose proof (rotate_byte 2 pin_hash) as Hrb.
    assert (from_hex (hex_encode (rotate 2 pin_hash)) = Ok (rotate 2 pin_hash)) as Hhex by by apply from_hex_encode.
    pose proof (substring_all (hex_encode (rotate 2 pin_hash))) as Hsub.
    pose proof (rotate_back 2 pin_hash Hb) as Hback.
    rewrite hex_length, Hlen in Hsub.
    destruct (rotate 2 pin_hash) as [|b x]; [done|].
    apply Forall_cons_1 in Hrb as [Hbyte _]. unfold is_byte in Hbyte.
    assert (0 ≤ b / 16 < 16) as Hdiv by (split; [apply Z.div_pos|apply Z.div_lt_upper_bound]; lia).
    cbn -[hex_encode continuation from_hex String.substring aes_cbc_decrypt str_prefix].
    assert (str_prefix ("00000000000000000000000000000000" +:+ hex_encode (b :: x)) 32 =
      Ok "00000000000000000000000000000000") as ->.
    { unfold str_prefix. change (is_char_boundary _ 32) with (negb (continuation (hex_digit (b / 16)))).
      by rewrite hex_digit_boundary. }
    change (String.substring 32 64 _) with (String.substring 0 (2 * 32) (hex_encode (b :: x))).
    rewrite Hsub, Hhex.
    change (Ok {| server_key_bytes := rotate (- (2)) (b :: x) |} = Ok {| server_key_bytes := pin_hash |}).
    by rewrite Hback.
Qed.

#[export] Instance server : PinServer.
Proof.
  refine {| server_public := default [] (hex_decode PIN_SERVER_PUBLIC_KEY);
            stored _ pin_hash _ := Some pin_hash; expects _ _ := True |}.
  - by vm_compute.
  - intros proxy w. by eexists w, "00", "00", _.
  - intros proxy h secret pin client_key s request _ Hreq.
    destruct (answer_verifies pin client_key h secret s request Hreq) as [Hv Hd].
    exists tt, (answer request), (sha256 (as_bytes pin)). split_and!; [by destruct (pin_world s)|done..|apply sha256_length|done].
  - intros proxy h secret pin client_key s request key _ Hreq [= <-].
    destruct (answer_verifies pin client_key h secret s request Hreq) as [Hv Hd].
    exists tt, (answer request). split_and!; [by destruct (pin_world s)|done..].
Defined.

Definition pin_start : PinState := {| pin_time := 1; pin_world := tt |}.
End PinSample.

Section PinExamples.
Import PinSample.

Lemma pin_roundtrip_witness :
  ∃ s' data, encrypt_pin "abandon ability able" "123456" None pin_start = (s', Ok data) ∧
    ∀ later, stored (pin_world later) = stored (pin_world s') →
    (decrypt_pin data "123456" (Some "127.0.0.1:9050") later).2 = Ok "abandon ability able".
Proof. apply (pin_roundtrip None (Some "127.0.0.1:9050")); reflexivity. Defined.

(** The library tells a wrong PIN by the hmac of its data; the client does not keep the
    hmac, so that the key the server gives for a wrong PIN is used to decrypt. *)
Example wrong_pin_decrypts :
  let client := the_client None in
  ((let! data := client_encrypt client (as_bytes "abandon") "1" in client_decrypt client data "2") pin_start).2 =
    Err "The PIN is not valid" ∧
  ((let! data := encrypt_pin "abandon" "1" None in decrypt_pin data "2" None) pin_start).2 = Ok "`a`mcnm".
Proof. vm_compute. done. Qed.
End PinExamples.
