(* ===== verification/Swaps.v ===== *)
(** * Swaps from the sign request to the signature

    The client worker ([try_process_sign] in worker.rs) hands the PSET of a sign request
    to the session of the wallet ([verify_and_sign_pset] in gdk_ses_impl.rs).  This file
    puts the two together: what the library GDK is asked to sign has, by GDK's own
    account, just the effect on the wallet that the user agreed to. *)
From stdpp Require Import base numbers gmap strings list.
From Stdlib Require Import ZArith Lia.
From S2P Require Import Prelude F64 Api Types Env Payjoin ClientApi Client Orders Serial Jade GdkApi Session Wallet.

Open Scope Z_scope.

(** More than there is of any asset on Liquid. *)
Definition AMOUNT_LIMIT : Z := 4611686018427387904.

Definition moderate_details (details : PsetDetailsResult) : Prop :=
  (∀ asset v, pdr_satoshi details !! asset = Some v → - AMOUNT_LIMIT < v < AMOUNT_LIMIT) ∧
  (∀ fee, pdr_fee details = Some fee → 0 ≤ fee < AMOUNT_LIMIT).

(** What the wallet has more of an asset after the transaction. *)
Definition gains (details : PsetDetailsResult) (asset : AssetId) : Z :=
  default 0 (pdr_satoshi details !! asset).

(** What it spends of an asset: of L-BTC, GDK counts in the fee. *)
Definition spends (policy_asset : AssetId) (details : PsetDetailsResult) (asset : AssetId) : Z :=
  if decide (asset = policy_asset ∧ gains details asset ≠ 0)
  then default 0 (pdr_fee details) - gains details asset
  else - gains details asset.

Lemma moderate_gains details asset :
  moderate_details details → - AMOUNT_LIMIT < gains details asset < AMOUNT_LIMIT.
Proof.
  intros [Hd _]. unfold gains. destruct (_ !! _) eqn:E; [by apply Hd in E|]. unfold AMOUNT_LIMIT. simpl. lia.
Qed.

Lemma moderate_fee details : moderate_details details → 0 ≤ default 0 (pdr_fee details) < AMOUNT_LIMIT.
Proof.
  intros [_ Hf]. destruct (pdr_fee details); [by apply Hf|]. unfold AMOUNT_LIMIT. simpl. lia.
Qed.

Lemma pset_send_amount_spends policy details asset :
  moderate_details details → pset_send_amount policy details asset = spends policy details asset.
Proof.
  intros Hd. pose proof (moderate_gains details asset Hd) as Hg. pose proof (moderate_fee _ Hd) as Hf.
  unfold AMOUNT_LIMIT in *. unfold pset_send_amount, spends.
  fold (gains details asset). rewrite (wi64_id (- _)) by (unfold in_i64, i64_min, i64_max; lia).
  case_bool_decide as Ha; simpl; [|by rewrite decide_False by tauto].
  destruct (Z.eqb_spec (- gains details asset) 0) as [E|E]; simpl.
  - rewrite decide_False by lia. done.
  - rewrite decide_True by (split; [done|lia]).
    rewrite wi64_id by (unfold in_i64, i64_min, i64_max; lia). lia.
Qed.

(** What the checks of the session mean: the amounts are compared as [i64]. *)
Lemma check_pset_casts policy amounts details :
  moderate_details details → check_pset policy amounts details = Ok tt →
  (∀ asset, is_Some (pdr_satoshi details !! asset) →
    asset = sa_send_asset amounts ∨ asset = sa_recv_asset amounts) ∧
  spends policy details (sa_send_asset amounts) = wi64 (sa_send_amount amounts) ∧
  gains details (sa_recv_asset amounts) = wi64 (sa_recv_amount amounts).
Proof.
  intros Hd Hc. unfold check_pset in Hc. ok_inv.
  rewrite forallb_forall in H. rewrite Z.eqb_eq in H0, Hc.
  rewrite pset_send_amount_spends in H0 by done.
  split_and!; [|done..]. intros asset [v Hv].
  assert (In asset (btree_list (pdr_satoshi details)).*1) as Hin.
  { apply list_elem_of_In, list_elem_of_fmap. exists (asset, v). split; [done|].
    by apply elem_of_btree_list. }
  apply H in Hin. by rewrite orb_true_iff, !bool_decide_eq_true in Hin.
Qed.

Lemma check_pset_spends policy amounts details :
  moderate_details details → 0 ≤ sa_send_amount amounts < 2 ^ 63 → 0 ≤ sa_recv_amount amounts < 2 ^ 63 →
  check_pset policy amounts details = Ok tt →
  (∀ asset, is_Some (pdr_satoshi details !! asset) →
    asset = sa_send_asset amounts ∨ asset = sa_recv_asset amounts) ∧
  spends policy details (sa_send_asset amounts) = sa_send_amount amounts ∧
  gains details (sa_recv_asset amounts) = sa_recv_amount amounts.
Proof.
  intros Hd Hs Hr Hc. apply check_pset_casts in Hc; [|done].
  by rewrite !wi64_id in Hc by (unfold in_i64, i64_min, i64_max; lia).
Qed.

(** ** The terms of an order *)

(** What an order of these terms has its owner pay and receive. *)
Definition terms_amounts (policy_asset : AssetId) (terms : Details) : SwapAmounts :=
  if details_send_bitcoins terms then
    {| sa_send_asset := policy_asset;
       sa_send_amount := details_bitcoin_amount terms + details_server_fee terms;
       sa_recv_asset := details_asset terms; sa_recv_amount := details_asset_amount terms |}
  else
    {| sa_send_asset := details_asset terms; sa_send_amount := details_asset_amount terms;
       sa_recv_asset := policy_asset;
       sa_recv_amount := details_bitcoin_amount terms - details_server_fee terms |}.

(** The fee is below the amount, and no amount overflows. *)
Definition moderate_terms (terms : Details) : Prop :=
  0 ≤ details_server_fee terms ≤ details_bitcoin_amount terms ∧
  details_bitcoin_amount terms < AMOUNT_LIMIT ∧ 0 ≤ details_asset_amount terms < AMOUNT_LIMIT.

(** The effect of a transaction on the wallet is the one of the order's terms. *)
Definition effect_agreed (policy_asset : AssetId) (terms : Details) (effect : PsetDetailsResult) : Prop :=
  (∀ asset, is_Some (pdr_satoshi effect !! asset) →
    asset = policy_asset ∨ asset = details_asset terms) ∧
  if details_send_bitcoins terms then
    spends policy_asset effect policy_asset =
      details_bitcoin_amount terms + details_server_fee terms ∧
    gains effect (details_asset terms) = details_asset_amount terms
  else
    spends policy_asset effect (details_asset terms) = details_asset_amount terms ∧
    gains effect policy_asset = details_bitcoin_amount terms - details_server_fee terms.

(** The same without bounds on the terms: sums are those of [i64], and an amount may be
    negative, which turns paying into receiving. *)
Definition effect_signed (policy_asset : AssetId) (terms : Details) (effect : PsetDetailsResult) : Prop :=
  (∀ asset, is_Some (pdr_satoshi effect !! asset) →
    asset = policy_asset ∨ asset = details_asset terms) ∧
  if details_send_bitcoins terms then
    spends policy_asset effect policy_asset =
      wi64 (details_bitcoin_amount terms + details_server_fee terms) ∧
    gains effect (details_asset terms) = wi64 (details_asset_amount terms)
  else
    spends policy_asset effect (details_asset terms) = wi64 (details_asset_amount terms) ∧
    gains effect policy_asset = wi64 (details_bitcoin_amount terms - details_server_fee terms).

Lemma effect_signed_agreed policy terms effect :
  moderate_terms terms → effect_signed policy terms effect → effect_agreed policy terms effect.
Proof.
  intros (Hfee & Hbtc & Hasset). unfold AMOUNT_LIMIT in *. unfold effect_signed, effect_agreed.
  by rewrite !wi64_id by (unfold in_i64, i64_min, i64_max; lia).
Qed.

Lemma checked_effect policy terms details :
  moderate_terms terms → moderate_details details →
  check_pset policy (terms_amounts policy terms) details = Ok tt → effect_agreed policy terms details.
Proof.
  intros (Hfee & Hbtc & Hasset) Hm Hc. unfold AMOUNT_LIMIT in *.
  unfold effect_agreed. unfold terms_amounts in Hc. destruct (details_send_bitcoins terms).
  all: apply check_pset_spends in Hc; simpl in *; [|done|lia..].
  - done.
  - destruct Hc as (Ha & Hc). split; [|done]. intros asset Hin. apply or_comm. by apply Ha.
Qed.

(** [i64] amounts of moderate terms, as [u64]. *)
Lemma moderate_u64 terms z :
  moderate_terms terms →
  z ∈ [details_asset_amount terms; wi64 (details_bitcoin_amount terms + details_server_fee terms);
       wi64 (details_bitcoin_amount terms - details_server_fee terms)] →
  wu64 z = z.
Proof.
  intros (Hfee & Hbtc & Hasset) Hz. unfold AMOUNT_LIMIT in *. apply wu64_id. unfold in_u64, u64_max.
  apply elem_of_cons in Hz as [->|Hz]; [lia|]. apply elem_of_cons in Hz as [->|Hz]; [|apply list_elem_of_singleton in Hz as ->].
  all: rewrite wi64_id; unfold in_i64, i64_min, i64_max; lia.
Qed.

Lemma moderate_i64 terms :
  moderate_terms terms →
  wi64 (details_bitcoin_amount terms + details_server_fee terms) =
    details_bitcoin_amount terms + details_server_fee terms ∧
  wi64 (details_bitcoin_amount terms - details_server_fee terms) =
    details_bitcoin_amount terms - details_server_fee terms.
Proof.
  intros (Hfee & Hbtc & Hasset). unfold AMOUNT_LIMIT in *.
  by rewrite !wi64_id by (unfold in_i64, i64_min, i64_max; lia).
Qed.

Section Swaps.
Context `{WorkerEnv} `{GdkEnv}.

(** Verified terms have positive amounts, and the fee is below the amount. *)
Lemma verified_terms terms assets :
  verify_amounts assets terms = Ok tt →
  details_bitcoin_amount terms < AMOUNT_LIMIT → details_asset_amount terms < AMOUNT_LIMIT →
  moderate_terms terms.
Proof.
  unfold verify_amounts, moderate_terms. intros Hv Hbtc Hasset. ok_inv.
  repeat match goal with E : (_ <? _) = true |- _ => apply Z.ltb_lt in E
                       | E : (_ <=? _) = true |- _ => apply Z.leb_le in E end.
  unfold MIN_SERVER_FEE in *. lia.
Qed.

Lemma swap_amounts_terms terms :
  moderate_terms terms →
  swap_amounts (details_send_bitcoins terms) (details_asset terms) (details_bitcoin_amount terms)
    (details_asset_amount terms) (details_server_fee terms) = terms_amounts liquid_asset_id terms.
Proof.
  intros Ht. pose proof (moderate_u64 terms) as Hu. destruct (moderate_i64 terms Ht) as [Ha Hs].
  unfold swap_amounts, terms_amounts.
  by destruct (details_send_bitcoins terms); rewrite !(Hu _ Ht), ?Ha, ?Hs by set_solver.
Qed.

(** C4: a swap does to the wallet what the user agreed to.  Handling a sign request, the
    worker asks the session of a wallet for a signature; when that session asks GDK to
    sign, the order of the request is known and was not handled before, its terms are
    those agreed, the PSET signed is that of the request, and GDK had reported of that
    PSET, for the same outputs of the wallet, an effect of exactly the agreed amounts:
    no other asset than the two moves, what is paid and what is received are the terms'
    amounts, with the server fee on the side of L-BTC.  The terms' amounts, and those GDK
    reports, are taken to be below 2^62. *)
Theorem swap_signed_as_agreed msg s account amounts pset nonces assets session o :
  (∀ json details, gdk_parse T_PsetDetails json = Ok details → moderate_details details) →
  gs_policy_asset session = liquid_asset_id →
  details_bitcoin_amount (sign_ntf_details msg) < AMOUNT_LIMIT →
  details_asset_amount (sign_ntf_details msg) < AMOUNT_LIMIT →
  Ev_wallet account (W_verify_and_sign_pset amounts pset nonces)
    ∈ new_events s (try_process_sign msg s).1 →
  GA_psbt_sign o ∈ new_calls session (verify_and_sign_pset amounts pset nonces assets session).1 →
  let terms := sign_ntf_details msg in
  (∃ d, wk_submit_data s !! sign_ntf_order_id msg = Some d ∧
        (sign_ntf_order_id msg ∉ wk_processed_signs s) ∧
        agreed_terms (wk_force_auto_sign_maker s) d terms) ∧
  spo_psbt o = sign_ntf_pset msg ∧
  ∃ effect, told_details {| pdo_psbt := sign_ntf_pset msg; pdo_utxos := spo_utxos o |} effect ∧
            effect_agreed liquid_asset_id terms effect.
Proof.
  intros Hmod Hpol Hbtc Hasset Hw Ho terms. subst terms.
  apply (grows_signs (sign_agreed s msg)) in Hw; [|apply signs_only_try_process_sign].
  destruct Hw as (d & Hd & _ & Hnew & Hv & Hagreed & _ & -> & ->).
  apply pset_checked in Ho as (Hpset & _ & details & Htold & Hcheck). rewrite Hpol in Hcheck.
  split; [by exists d|]. split; [done|]. exists details. split; [done|].
  assert (moderate_terms (sign_ntf_details msg)) as Hterms by by eapply verified_terms.
  rewrite (swap_amounts_terms _ Hterms) in Hcheck. apply checked_effect; [done| |done].
  apply told_parsed in Htold as [json Hjson]. by apply (Hmod json).
Qed.
End Swaps.

(** *** A sale of L-BTC for a token *)
Module SwapSample.
Import OrderSample.

Definition effect : PsetDetailsResult := {|
  pdr_satoshi := {[policy_asset Env_Prod := -10009950; Sample.asset_id := 20000000]};
  pdr_transaction_inputs := []; pdr_transaction_outputs := []; pdr_fee := Some 50 |}.

Definition parse (t : GdkType) (json : Json) : outcome (gdk_type t) :=
  match t with T_PsetDetails => Ok effect | t => WalletSample.parse t json end.

#[export] Instance gdk_env : GdkEnv := WalletSample.env (λ _, "json") parse.

Definition session : GdkSes := WalletSample.session <| gs_policy_asset := policy_asset Env_Prod |>.

Definition offer : Data := accepted OrderSide_Maker.
Definition msg : SignNotification := Sample.sign_msg OrderSide_Maker.

Definition amounts : SwapAmounts :=
  {| sa_send_asset := policy_asset Env_Prod; sa_send_amount := 10010000;
     sa_recv_asset := Sample.asset_id; sa_recv_amount := 20000000 |}.

Definition request : SignPsetOpt :=
  {| spo_psbt := "pset"; spo_utxos := [WalletSample.utxo]; spo_blinding_nonces := [] |}.
End SwapSample.
#[local] Existing Instance OrderSample.sample_env.
#[local] Existing Instance SwapSample.gdk_env.

Lemma sample_effect_moderate : moderate_details SwapSample.effect.
Proof.
  split.
  - intros asset v Hv.
    change ((<[policy_asset Env_Prod := -10009950]> {[Sample.asset_id := 20000000]} : gmap AssetId Z)
      !! asset = Some v) in Hv.
    apply lookup_insert_Some in Hv as [[_ <-]|[_ [_ <-]%lookup_singleton_Some]]; vm_compute; split; reflexivity.
  - intros fee [= <-]. vm_compute. split; [discriminate|reflexivity].
Qed.

Lemma swap_signed_as_agreed_witness :
  GA_psbt_sign SwapSample.request
    ∈ new_calls SwapSample.session
        (verify_and_sign_pset SwapSample.amounts "pset" [] ∅ SwapSample.session).1 ∧
  ∃ effect, effect_agreed (policy_asset Env_Prod) (sign_ntf_details SwapSample.msg) effect.
Proof.
  assert (GA_psbt_sign SwapSample.request
    ∈ new_calls SwapSample.session
        (verify_and_sign_pset SwapSample.amounts "pset" [] ∅ SwapSample.session).1) as Ho.
  { apply (list_elem_of_lookup_2 _ 0). vm_compute. reflexivity. }
  split; [exact Ho|].
  destruct (swap_signed_as_agreed SwapSample.msg SwapSample.offer ACCOUNT_ID_REG SwapSample.amounts
    "pset" [] ∅ SwapSample.session SwapSample.request) as (_ & _ & effect & _ & Heffect).
  - intros json details [= <-]. apply sample_effect_moderate.
  - vm_compute. reflexivity.
  - vm_compute. reflexivity.
  - vm_compute. reflexivity.
  - apply (list_elem_of_lookup_2 _ 1). vm_compute. reflexivity.
  - exact Ho.
  - exists effect. exact Heffect.
Defined.
