(* ===== verification/Headless.v ===== *)
(** * The headless server

    Orders placed over an HTTP interface instead of by a user: the worker
    (rust/sideswap_headless_server/src/worker.rs) with its orders and requests, the
    wallet thread (wallet.rs) with a session of its own, and the data of the interface
    (api_server.rs). *)
From stdpp Require Import base numbers gmap strings list sets pretty.
From Stdlib Require Import ZArith Lia SpecFloat.
From S2P Require Import Prelude F64 Api Links Types Env Payjoin ClientApi Client Serial Jade GdkApi Session Wallet.

Open Scope Z_scope.
#[local] Set Primitive Projections.

(** ** Data of the interface *)

Record NewOrder := {
  no_asset_id : AssetId;
  no_asset_amount : f64;
  no_price : f64;
  no_private : option bool;
  no_ttl_seconds : option Z;
  no_unique_key : option string
}.

Inductive OrderStatusKind := Order_Active | Order_Expired | Order_Succeed.

Record OrderStatus := { os_status : OrderStatusKind; os_txid : option Txid }.

Record OrderInfo := {
  oi_order_id : OrderId;
  oi_asset_id : AssetId;
  oi_bitcoin_amount : Z;
  oi_asset_amount : Z;
  oi_price : f64;
  oi_private : bool
}.

Inductive ApiError :=
  | ChannelClosed
  | ServerMessage (message : string)
  | NotInputs
  | DuplicatedOrder
  | TooManyRequest.

(** Senders of replies are numbered. *)
Inductive ApiReq :=
  | Api_NewOrder (new_order : NewOrder) (res_sender : Z)
  | Api_OrderStatus (order_id : OrderId) (res_sender : Z)
  | Api_ListOrders (res_sender : Z).

(** ** Data of the wallet thread *)

Record SwapInputs := {
  si_recv_address : string;
  si_change_address : string;
  si_utxos : gmap AssetId (list GdkUtxo)
}.

Inductive HwReq := HwReq_Notif | HwReq_SignPset (sign : SignNotification) | HwReq_Timer.

Inductive HwResp :=
  | HwResp_SwapInputs (inputs : SwapInputs)
  | HwResp_SignedPset (order_id : OrderId) (signed_pset : string)
  | HwResp_PsetSignFailed (order_id : OrderId).

(** ** State of the worker *)

Abbreviation OutPoint := (Txid * Z)%type (only parsing).

Inductive OrderState :=
  | Live_Active (inputs : list OutPoint)
  | Live_Succeed (inputs : list OutPoint) (txid : Txid)
  | Order_Failed.

(** The callbacks of [make_async_request], with what they capture. *)
Inductive HsCallback :=
  | Cb_sign (order_id : OrderId)
  | Cb_pset_maker (order_id : OrderId) (details : Details) (new_order : NewOrder) (res_sender : Z)
  | Cb_submit (new_order : NewOrder) (res_sender : Z)
  | Cb_login.

Inductive HsReply :=
  | Reply_order (res : OrderInfo + ApiError)
  | Reply_status (res : OrderStatus + ApiError).

Inductive HsEvent :=
  | Hs_connect (host : string) (port : Z) (use_tls : bool)
  | Hs_request (request_id : string) (req : Request)
  | Hs_wallet (req : HwReq)
  | Hs_reply (res_sender : Z) (reply : HsReply).

Record HsData := {
  hs_env : Env;
  hs_policy_asset : AssetId;
  hs_session_id : SessionId;
  hs_ws_connected : bool;
  hs_async_requests : gmap string HsCallback;
  hs_orders : gmap OrderId OrderState;
  hs_swap_inputs : option SwapInputs;
  hs_unique_orders : gmap string OrderId;
  hs_sign_request_count : Z;
  hs_next_id : Z;
  hs_log : list HsEvent
}.

Definition HsM : Type → Type := M HsData.

(** Messages of [ws::manual]. *)
Abbreviation HsWs := (WrappedResponse ResponseMessage) (only parsing).

Inductive HsReq :=
  | Hs_ApiServer (req : ApiReq)
  | Hs_Wallet (resp : HwResp)
  | Hs_Ws (resp : HsWs).

(** The order in which a random generator puts a list, and the clock of the wallet
    thread in nanoseconds, which may depend on what was read before. *)
Class HsEnv := {
  hs_shuffle : list HsEvent → list GdkUtxo → list GdkUtxo;
  hs_instant : list Z → Z
}.

Section Headless.
Context `{GdkEnv} `{HsEnv}.

(** ** Requests *)

Definition hs_emit (e : HsEvent) : HsM unit := modify (λ s, s <| hs_log ::= cons e |>).

Definition reply (res_sender : Z) (r : HsReply) : HsM unit := hs_emit (Hs_reply res_sender r).

Definition request_ws_connect : HsM unit :=
  let! env := gets hs_env in
  hs_emit (Hs_connect (env_data_host (env_data env)) (env_data_port (env_data env))
             (env_data_use_tls (env_data env))).

(** [ws::next_request_id_str] *)
Definition next_request_id_str : HsM string :=
  let! n := gets hs_next_id in
  do! modify (λ s, s <| hs_next_id := wi64 (n + 1) |>) in
  ret (pretty n).

Definition hs_send_request (req : Request) : HsM unit :=
  let! connected := gets hs_ws_connected in
  if connected : bool then
    let! request_id := next_request_id_str in hs_emit (Hs_request request_id req)
  else ret tt.

(** The callback is called at once with an error when there is no connection. *)
Definition hs_async_request (req : Request) (cb : HsCallback)
    (callback : Response + Error → HsM unit) : HsM unit :=
  let! connected := gets hs_ws_connected in
  if negb connected then
    callback (inr {| err_code := ErrorCode_ServerError; err_message := "Not connected" |})
  else
    let! request_id := next_request_id_str in
    do! hs_emit (Hs_request request_id req) in
    modify (λ s, s <| hs_async_requests ::= <[request_id := cb]> |>).

(** ** Orders *)

Definition hs_cancel_order (order_id : OrderId) : HsM unit :=
  do! modify (λ s, s <| hs_orders ::= <[order_id := Order_Failed]> |>) in
  hs_send_request (Request_Cancel {| cancel_order_id := order_id |}).

Definition get_order_status (order_id : OrderId) : HsM OrderStatus :=
  let! orders := gets hs_orders in
  ret match orders !! order_id with
      | Some (Live_Active _) => {| os_status := Order_Active; os_txid := None |}
      | Some (Live_Succeed _ txid) => {| os_status := Order_Succeed; os_txid := Some txid |}
      | Some Order_Failed | None => {| os_status := Order_Expired; os_txid := None |}
      end.

Definition order_inputs (order : OrderState) : list OutPoint :=
  match order with Live_Active inputs | Live_Succeed inputs _ => inputs | Order_Failed => [] end.

Definition reserved_inputs (orders : gmap OrderId OrderState) : gset OutPoint :=
  list_to_set (concat (order_inputs <$> (map_to_list orders).*2)).

Definition utxo_point (utxo : GdkUtxo) : OutPoint := (gu_txhash utxo, gu_vout utxo).

Definition swap_utxo (utxo : GdkUtxo) : PsetInput := {|
  pset_input_txid := gu_txhash utxo;
  pset_input_vout := gu_vout utxo;
  pset_input_asset := gu_asset_id utxo;
  pset_input_asset_bf := gu_assetblinder utxo;
  pset_input_value := gu_satoshi utxo;
  pset_input_value_bf := gu_amountblinder utxo;
  pset_input_redeem_script := Some (get_redeem_script utxo)
|}.

(** An order with the key of a live one is refused. *)
Definition key_taken (orders : gmap OrderId OrderState) (existing : option OrderId) : bool :=
  match existing with
  | Some existing_order_id =>
      match orders !! existing_order_id with
      | Some (Live_Active _) | Some (Live_Succeed _ _) => true
      | Some Order_Failed | None => false
      end
  | None => false
  end.

Definition on_pset_maker (order_id : OrderId) (details : Details) (new_order : NewOrder)
    (res_sender : Z) (res : Response + Error) : HsM unit :=
  match res with
  | inl (Response_PsetMaker _) =>
      let! orders := gets hs_orders in
      let! unique_orders := gets hs_unique_orders in
      let taken := match no_unique_key new_order with
                   | Some unique_key => key_taken orders (unique_orders !! unique_key)
                   | None => false
                   end in
      if taken then
        do! reply res_sender (Reply_order (inr DuplicatedOrder)) in
        hs_cancel_order order_id
      else
        do! match no_unique_key new_order with
            | Some unique_key =>
                modify (λ s, s <| hs_unique_orders ::= <[unique_key := order_id]> |>)
            | None => ret tt
            end in
        reply res_sender (Reply_order (inl {|
          oi_order_id := order_id; oi_asset_id := details_asset details;
          oi_bitcoin_amount := details_bitcoin_amount details;
          oi_asset_amount := details_asset_amount details; oi_price := details_price details;
          oi_private := true |}))
  | inl _ => panic "unexpected response"
  | inr _ =>
      do! hs_cancel_order order_id in
      reply res_sender (Reply_order (inr NotInputs))
  end.

(** What an order sends. *)
Definition hs_send_side (policy_asset : AssetId) (details : Details) : AssetId * Z :=
  if details_send_bitcoins details then
    (policy_asset, wi64 (details_bitcoin_amount details + details_server_fee details))
  else (details_asset details, details_asset_amount details).

(** The inputs of an asset that no live order has. *)
Definition free_inputs (orders : gmap OrderId OrderState) (inputs : list GdkUtxo) : list GdkUtxo :=
  List.filter (λ input, negb (bool_decide (utxo_point input ∈ reserved_inputs orders))) inputs.

Definition refuse_order (order_id : OrderId) (res_sender : Z) : HsM unit :=
  do! hs_cancel_order order_id in
  reply res_sender (Reply_order (inr NotInputs)).

Definition process_submit_inputs (submit_resp : SubmitResponse) (new_order : NewOrder)
    (res_sender : Z) : HsM unit :=
  let order_id := submit_resp_order_id submit_resp in
  let details := submit_resp_details submit_resp in
  let! swap_inputs := gets hs_swap_inputs in
  match swap_inputs with
  | None => refuse_order order_id res_sender
  | Some swap_inputs =>
      let! policy_asset := gets hs_policy_asset in
      let '(send_asset, send_amount) := hs_send_side policy_asset details in
      let! orders := gets hs_orders in
      let inputs := free_inputs orders (default [] (si_utxos swap_inputs !! send_asset)) in
      let! inputs := gets (λ s, hs_shuffle (hs_log s) inputs) in
      let inputs_amount := wi64 (usum (gu_satoshi <$> inputs)) in
      let inputs := (λ input, (wi64 (gu_satoshi input), swap_utxo input)) <$> inputs in
      if inputs_amount <? send_amount then refuse_order order_id res_sender
      else
        let! inputs := lift (select_utxo_values inputs send_amount) in
        let utxos := (λ input, (pset_input_txid input, pset_input_vout input)) <$> inputs in
        do! modify (λ s, s <| hs_orders ::= <[order_id := Live_Active utxos]> |>) in
        hs_async_request (Request_PsetMaker {|
            pset_maker_order_id := order_id; pset_maker_price := details_price details;
            pset_maker_private := true; pset_maker_ttl_seconds := no_ttl_seconds new_order;
            pset_maker_inputs := inputs; pset_maker_recv_addr := si_recv_address swap_inputs;
            pset_maker_change_addr := si_change_address swap_inputs;
            pset_maker_signed_half := None |})
          (Cb_pset_maker order_id details new_order res_sender)
          (on_pset_maker order_id details new_order res_sender)
  end.

Definition on_submit (new_order : NewOrder) (res_sender : Z) (res : Response + Error) : HsM unit :=
  match res with
  | inl (Response_Submit resp) => process_submit_inputs resp new_order res_sender
  | inl _ => panic "unexpected response"
  | inr err => reply res_sender (Reply_order (inr (ServerMessage (err_message err))))
  end.

Definition process_new_order (new_order : NewOrder) (res_sender : Z) : HsM unit :=
  let! count := gets hs_sign_request_count in
  if 5 <? count then reply res_sender (Reply_order (inr TooManyRequest))
  else
    hs_async_request (Request_Submit {| submit_order := {|
        price_order_asset := no_asset_id new_order; price_order_bitcoin_amount := None;
        price_order_asset_amount := Some (fneg (no_asset_amount new_order));
        price_order_price := Some (no_price new_order); price_order_index_price := None;
        price_order_force_private := None; price_order_disable_price_edit := None |} |})
      (Cb_submit new_order res_sender) (on_submit new_order res_sender).

Definition process_api (req : ApiReq) : HsM unit :=
  match req with
  | Api_NewOrder new_order res_sender => process_new_order new_order res_sender
  | Api_OrderStatus order_id res_sender =>
      let! res := get_order_status order_id in
      reply res_sender (Reply_status (inl res))
  | Api_ListOrders _ => ret tt
  end.

(** ** The interface *)

(** The display of an error, which is the message of a bad request. *)
Definition api_error_msg (e : ApiError) : string :=
  match e with
  | ChannelClosed => "channel closed unexpectedly"
  | ServerMessage message => "server error: " +:+ message
  | NotInputs => "no inputs found"
  | DuplicatedOrder => "duplicated order requested"
  | TooManyRequest => "too many active requests"
  end.

Definition UNAUTHORIZED : Z := 401.

(** A request with the header [authorization], when that is text, goes on to [next] or is
    refused. *)
Definition auth {A} (api_key authorization : option string) (next : A) : A + Z :=
  match api_key with
  | None => inl next
  | Some api_key =>
      match authorization with
      | None => inr UNAUTHORIZED
      | Some auth_header => if String.eqb auth_header api_key then inl next else inr UNAUTHORIZED
      end
  end.

(** ** The wallet's answers *)

Definition on_sign_resp (order_id : OrderId) (res : Response + Error) : HsM unit :=
  match res with
  | inl (Response_Sign _) => ret tt
  | inl _ => panic "unexpected response"
  | inr _ => hs_cancel_order order_id
  end.

(** [sign_request_count -= 1] on [usize] *)
Definition sign_done : HsM unit :=
  modify (λ s, s <| hs_sign_request_count ::= λ n, wu64 (n - 1) |>).

Definition process_wallet (resp : HwResp) : HsM unit :=
  match resp with
  | HwResp_SwapInputs swap_inputs => modify (λ s, s <| hs_swap_inputs := Some swap_inputs |>)
  | HwResp_SignedPset order_id signed_pset =>
      do! sign_done in
      hs_async_request (Request_Sign {| sign_order_id := order_id; sign_signed_pset := signed_pset;
                                        sign_side := OrderSide_Maker |})
        (Cb_sign order_id) (on_sign_resp order_id)
  | HwResp_PsetSignFailed order_id =>
      do! sign_done in
      hs_cancel_order order_id
  end.

(** ** The server *)

(** Orders that are left from a previous run are cancelled. *)
Definition on_login (res : Response + Error) : HsM unit :=
  match res with
  | inl (Response_Login resp) =>
      for_each (login_resp_orders resp) (λ order, hs_cancel_order (order_created_order_id order))
  | inl _ => panic "unexpected response"
  | inr _ => ret tt
  end.

Definition run_hs_callback (cb : HsCallback) (res : Response + Error) : HsM unit :=
  match cb with
  | Cb_sign order_id => on_sign_resp order_id res
  | Cb_pset_maker order_id details new_order res_sender =>
      on_pset_maker order_id details new_order res_sender res
  | Cb_submit new_order res_sender => on_submit new_order res_sender res
  | Cb_login => on_login res
  end.

Definition hs_order_removed (order_id : OrderId) : HsM unit :=
  let! orders := gets hs_orders in
  match orders !! order_id with
  | Some (Live_Active _) | None => ret tt
  | Some _ => modify (λ s, s <| hs_orders ::= <[order_id := Order_Failed]> |>)
  end.

Definition hs_complete (complete : CompleteNotification) : HsM unit :=
  match complete_txid complete with
  | Some txid =>
      let! orders := gets hs_orders in
      let! order := expect (orders !! complete_order_id complete)
        "called `Option::unwrap()` on a `None` value" in
      do! modify (λ s, s <| hs_orders ::= delete (complete_order_id complete) |>) in
      match order with
      | Live_Active inputs =>
          modify (λ s, s <| hs_orders ::= <[complete_order_id complete := Live_Succeed inputs txid]> |>)
      | _ => panic "unexpected state"
      end
  | None => modify (λ s, s <| hs_orders ::= <[complete_order_id complete := Order_Failed]> |>)
  end.

Definition process_notification (notif : Notification) : HsM unit :=
  match notif with
  | Notification_OrderRemoved order => hs_order_removed (order_removed_order_id order)
  | Notification_Complete complete => hs_complete complete
  | Notification_Sign sign =>
      do! hs_emit (Hs_wallet (HwReq_SignPset sign)) in
      modify (λ s, s <| hs_sign_request_count ::= λ n, wu64 (n + 1) |>)
  | _ => ret tt
  end.

Definition process_response (request_id : option RequestId) (res : Response + Error) : HsM unit :=
  let! request_id := expect request_id "called `Option::unwrap()` on a `None` value" in
  match request_id with
  | RequestId_Int _ => ret tt
  | RequestId_String request_id =>
      let! async_requests := gets hs_async_requests in
      match async_requests !! request_id with
      | None => ret tt
      | Some cb =>
          do! modify (λ s, s <| hs_async_requests ::= delete request_id |>) in
          run_hs_callback cb res
      end
  end.

Definition process_ws (resp : HsWs) : HsM unit :=
  match resp with
  | Ws_Connected =>
      do! modify (λ s, s <| hs_ws_connected := true |>) in
      let! session_id := gets hs_session_id in
      hs_async_request (Request_Login {| login_session_id := Some session_id |}) Cb_login on_login
  | Ws_Disconnected =>
      do! modify (λ s, s <| hs_ws_connected := false |>) in
      let! async_requests := gets hs_async_requests in
      do! modify (λ s, s <| hs_async_requests := ∅ |>) in
      do! for_each (btree_list async_requests) (λ e : string * HsCallback,
        run_hs_callback e.2 (inr {| err_code := ErrorCode_ServerError;
                                 err_message := "Server disconnected" |})) in
      request_ws_connect
  | Ws_Response (ResponseMessage_Response request_id res) => process_response request_id res
  | Ws_Response (ResponseMessage_Notification notif) => process_notification notif
  end.

(** ** The main loop *)

Definition hs_process (req : HsReq) : HsM unit :=
  match req with
  | Hs_ApiServer req => process_api req
  | Hs_Wallet resp => process_wallet resp
  | Hs_Ws resp => process_ws resp
  end.

Definition hs_initial (env : Env) (session_id : SessionId) (next_id : Z) (policy_asset : AssetId)
    : HsData := {|
  hs_env := env; hs_policy_asset := policy_asset; hs_session_id := session_id;
  hs_ws_connected := false; hs_async_requests := ∅; hs_orders := ∅; hs_swap_inputs := None;
  hs_unique_orders := ∅; hs_sign_request_count := 0; hs_next_id := next_id; hs_log := [] |}.

Definition run_headless (reqs : list HsReq) : HsM unit :=
  do! request_ws_connect in for_each reqs hs_process.

(** [run]: the policy asset is a constant of the environment. *)
Definition headless_server (env : Env) (session_id : SessionId) (next_id : Z) (reqs : list HsReq)
    : HsData * outcome unit :=
  match AssetId_from_str (env_data_policy_asset (env_data env)) with
  | Ok policy_asset => run_headless reqs (hs_initial env session_id next_id policy_asset)
  | _ => (hs_initial env session_id next_id [],
          Panic "called `Result::unwrap()` on an `Err` value")
  end.
End Headless.

(** ** Orders that are removed *)

(** A server's notice that an order was removed changes nothing of an active order, whose
    inputs stay reserved, and forgets a completed one. *)
Lemma order_removed_inverted id s order :
  hs_orders s !! id = Some order →
  hs_orders (hs_order_removed id s).1 !! id =
    Some (match order with Live_Active inputs => Live_Active inputs | _ => Order_Failed end).
Proof.
  intros Hid. unfold hs_order_removed. rewrite bind_gets. rewrite_field Hid.
  destruct order; simpl; [exact Hid|by apply lookup_insert_eq..].
Qed.

(** ** No output is in two orders *)

Definition reserved_once (orders : gmap OrderId OrderState) : Prop :=
  ∀ a b order order' point, orders !! a = Some order → orders !! b = Some order' →
    point ∈ order_inputs order → point ∈ order_inputs order' → a = b.

Lemma elem_of_reserved (orders : gmap OrderId OrderState) point :
  point ∈ reserved_inputs orders ↔ ∃ id order, orders !! id = Some order ∧ point ∈ order_inputs order.
Proof.
  unfold reserved_inputs. rewrite elem_of_list_to_set, list_elem_of_In, in_concat.
  setoid_rewrite <- list_elem_of_In. split.
  - intros (inputs & (order & -> & Ho)%list_elem_of_fmap & Hp).
    apply list_elem_of_fmap in Ho as ([id order'] & -> & Ho). apply elem_of_map_to_list in Ho. eauto.
  - intros (id & order & Ho & Hp). exists (order_inputs order). split; [|done].
    apply list_elem_of_fmap_2, list_elem_of_fmap. exists (id, order). split; [done|].
    by apply elem_of_map_to_list.
Qed.

Lemma reserved_insert orders id order :
  reserved_once orders → (∀ point, point ∈ order_inputs order → point ∉ reserved_inputs orders) →
  reserved_once (<[id := order]> orders).
Proof.
  intros Hr Hfree a b oa ob point Ha Hb Hpa Hpb.
  destruct (decide (a = id)) as [->|Hna], (decide (b = id)) as [->|Hnb]; [done|..].
  - rewrite lookup_insert_eq in Ha. injection Ha as <-. rewrite lookup_insert_ne in Hb by done.
    exfalso. apply (Hfree point Hpa). apply elem_of_reserved. eauto.
  - rewrite lookup_insert_eq in Hb. injection Hb as <-. rewrite lookup_insert_ne in Ha by done.
    exfalso. apply (Hfree point Hpb). apply elem_of_reserved. eauto.
  - rewrite lookup_insert_ne in Ha, Hb by done. by eapply Hr.
Qed.

Lemma reserved_failed orders id : reserved_once orders → reserved_once (<[id := Order_Failed]> orders).
Proof. intros Hr. apply reserved_insert; [done|]. by intros point ?%elem_of_nil. Qed.

(** The inputs of an order go with it when it is complete. *)
Lemma reserved_delete orders id : reserved_once orders → reserved_once (delete id orders).
Proof.
  intros Hr a b oa ob point [_ Ha]%lookup_delete_Some [_ Hb]%lookup_delete_Some. by eapply Hr.
Qed.

Lemma reserved_complete orders id inputs txid :
  reserved_once orders → orders !! id = Some (Live_Active inputs) →
  reserved_once (<[id := Live_Succeed inputs txid]> (delete id orders)).
Proof.
  intros Hr Hid. apply reserved_insert; [by apply reserved_delete|].
  intros point Hp (a & order & [Hne Ha]%lookup_delete_Some & Hpa)%elem_of_reserved.
  apply Hne. symmetry. by eapply (Hr a id).
Qed.

(** What is taken is among what was offered. *)
Lemma take_selected_elem {T} (inputs : list (Z * T)) selected acc l x :
  take_selected inputs selected acc = Ok l → x ∈ l → x ∈ acc ∨ x ∈ inputs.*2.
Proof.
  revert inputs acc. induction selected as [|v selected IH]; intros inputs acc; simpl; [by intros [= ->]; left|].
  destruct (position _ _) as [i|]; [|done]. destruct (swap_remove i inputs) as [[y rest]|] eqn:E; [|done].
  pose proof (swap_remove_perm _ _ _ _ E) as Hperm. intros Hl Hx.
  destruct (IH _ _ Hl Hx) as [Hx'|Hx']; rewrite Hperm; set_solver.
Qed.

Lemma select_utxo_values_elem {T} (inputs : list (Z * T)) amount l x :
  select_utxo_values inputs amount = Ok l → x ∈ l → x ∈ inputs.*2.
Proof.
  unfold select_utxo_values. intros Hl Hx. ok_inv.
  by destruct (take_selected_elem _ _ _ _ _ Hl Hx) as [?%elem_of_nil|].
Qed.

Section Reserved.
Context `{GdkEnv} `{HsEnv}.
(** A shuffled list has the same elements. *)
Hypothesis shuffle_perm : ∀ log l, hs_shuffle log l ≡ₚ l.

Definition well_reserved (s : HsData) : Prop := reserved_once (hs_orders s).

Lemma keeps_orders {I : gmap OrderId OrderState → Prop} (f : HsData → HsData) :
  (∀ s, hs_orders (f s) = hs_orders s) → keeps (λ s, I (hs_orders s)) (modify f).
Proof. intros Hf. apply keeps_modify. intros s. by rewrite Hf. Qed.
#[local] Hint Extern 1 (keeps well_reserved (modify _)) => by apply keeps_orders : keeps.

Lemma keeps_hs_emit e : keeps well_reserved (hs_emit e).
Proof. by apply keeps_orders. Qed.
#[local] Hint Resolve keeps_hs_emit : keeps.

Lemma keeps_next_request_id_str : keeps well_reserved next_request_id_str.
Proof. unfold next_request_id_str. keeps. Qed.
#[local] Hint Resolve keeps_next_request_id_str : keeps.

Lemma keeps_hs_async_request req cb callback :
  (∀ res, keeps well_reserved (callback res)) → keeps well_reserved (hs_async_request req cb callback).
Proof. intros Hc. unfold hs_async_request. keeps. Qed.

Lemma keeps_hs_cancel_order id : keeps well_reserved (hs_cancel_order id).
Proof.
  unfold hs_cancel_order, hs_send_request. apply keeps_bind; [|intros _; keeps].
  apply keeps_modify. intros s. apply reserved_failed.
Qed.
#[local] Hint Resolve keeps_hs_cancel_order : keeps.

Lemma keeps_on_pset_maker id details new_order sender res :
  keeps well_reserved (on_pset_maker id details new_order sender res).
Proof. unfold on_pset_maker, reply. keeps. Qed.

Lemma keeps_refuse_order id sender : keeps well_reserved (refuse_order id sender).
Proof. unfold refuse_order, reply. keeps. Qed.

(** The inputs of a new order are free. *)
Lemma free_inputs_free orders log utxos (f : GdkUtxo → Z) amount l point :
  select_utxo_values ((λ input, (f input, swap_utxo input)) <$> hs_shuffle log (free_inputs orders utxos))
    amount = Ok l →
  point ∈ (λ input, (pset_input_txid input, pset_input_vout input)) <$> l →
  point ∉ reserved_inputs orders.
Proof.
  intros Hl (input & -> & Hin)%list_elem_of_fmap. eapply select_utxo_values_elem in Hin; [|exact Hl].
  apply list_elem_of_fmap in Hin as ([v input'] & -> & (utxo & [= -> ->] & Hu)%list_elem_of_fmap).
  rewrite shuffle_perm in Hu. apply list_elem_of_In, List.filter_In in Hu as [_ Hu].
  by apply negb_true_iff, bool_decide_eq_false in Hu.
Qed.

Lemma keeps_process_submit_inputs resp new_order sender :
  keeps well_reserved (process_submit_inputs resp new_order sender).
Proof.
  unfold process_submit_inputs. cbv zeta. apply keeps_bind; [apply keeps_gets|].
  intros [swap_inputs|]; [|apply keeps_refuse_order]. apply keeps_bind; [apply keeps_gets|].
  intros policy_asset. destruct (hs_send_side _ _) as [send_asset send_amount]. intros s Hs.
  rewrite !bind_gets. destruct (_ <? send_amount); [by apply keeps_refuse_order|].
  destruct (select_utxo_values _ send_amount) as [l|e|e] eqn:E; [|exact Hs..].
  pose proof (λ point, free_inputs_free _ _ _ _ _ _ point E) as Hfree.
  revert Hs. change (bind (lift (Ok l)) ?k s) with (k l s). cbv beta. rewrite bind_modify.
  intros Hs. apply keeps_hs_async_request; [apply keeps_on_pset_maker|].
  apply reserved_insert; [exact Hs|]. exact Hfree.
Qed.

Lemma keeps_on_submit new_order sender res : keeps well_reserved (on_submit new_order sender res).
Proof.
  pose proof keeps_process_submit_inputs. unfold on_submit, reply. keeps.
Qed.

Lemma keeps_on_login res : keeps well_reserved (on_login res).
Proof. unfold on_login. keeps. Qed.

Lemma keeps_run_hs_callback cb res : keeps well_reserved (run_hs_callback cb res).
Proof.
  destruct cb; simpl; [unfold on_sign_resp; keeps|apply keeps_on_pset_maker|apply keeps_on_submit|apply keeps_on_login].
Qed.

Lemma keeps_read {A B} (I : HsData → Prop) (f : HsData → A) (k : A → HsM B) :
  (∀ s x, f s = x → I s → I (k x s).1) → keeps I (bind (gets f) k).
Proof. intros Hk s Hs. rewrite bind_gets. by apply Hk. Qed.

Lemma keeps_hs_complete complete : keeps well_reserved (hs_complete complete).
Proof.
  unfold hs_complete. destruct (complete_txid complete) as [txid|];
    [|apply keeps_modify; intros s; apply reserved_failed].
  apply keeps_read. intros s orders Horders Hs.
  destruct (orders !! complete_order_id complete) as [order|] eqn:E; [|exact Hs]. subst orders.
  destruct order as [inputs|inputs txid'|].
  - exact (reserved_complete _ _ _ _ Hs E).
  - exact (reserved_delete _ _ Hs).
  - exact (reserved_delete _ _ Hs).
Qed.

Lemma keeps_hs_order_removed id : keeps well_reserved (hs_order_removed id).
Proof.
  unfold hs_order_removed. apply keeps_bind; [apply keeps_gets|]. intros orders.
  assert (keeps well_reserved (modify (λ s, s <| hs_orders ::= <[id := Order_Failed]> |>))) as Hf
    by (apply keeps_modify; intros s; apply reserved_failed).
  destruct (orders !! id) as [[]|]; [apply keeps_ret|exact Hf..|apply keeps_ret].
Qed.

Lemma keeps_on_sign_resp id res : keeps well_reserved (on_sign_resp id res).
Proof. unfold on_sign_resp. keeps. Qed.

Lemma keeps_hs_process req : keeps well_reserved (hs_process req).
Proof.
  pose proof keeps_run_hs_callback. pose proof keeps_hs_complete. pose proof keeps_hs_order_removed.
  pose proof keeps_on_submit. pose proof keeps_on_login. pose proof keeps_on_sign_resp. pose proof keeps_hs_async_request.
  destruct req as [req|resp|resp]; simpl.
  - unfold process_api, process_new_order, get_order_status, reply. keeps.
  - unfold process_wallet, sign_done. keeps.
  - unfold process_ws, process_response, process_notification, request_ws_connect. keeps.
Qed.
End Reserved.

(** C6: no output of the wallet is put into two orders.  Whatever the interface, the wallet
    and the server send, in whatever order, each output is among the inputs of at most one
    live or completed order: an order placed while another holds an output does not get
    it, until that other order fails or is removed. *)
Theorem inputs_reserved_once `{GdkEnv} `{HsEnv} env session_id next_id reqs :
  (∀ log l, hs_shuffle log l ≡ₚ l) →
  reserved_once (hs_orders (headless_server env session_id next_id reqs).1).
Proof.
  intros Hshuffle. unfold headless_server.
  assert (∀ policy, reserved_once (hs_orders (hs_initial env session_id next_id policy))) as Hinit.
  { intros policy a b oa ob point Ha. change ((∅ : gmap OrderId OrderState) !! a = Some oa) in Ha.
    by rewrite lookup_empty in Ha. }
  assert (keeps well_reserved (run_headless reqs)) as Hk.
  { unfold run_headless, request_ws_connect. apply keeps_bind.
    - apply keeps_bind; [apply keeps_gets|]. intros e. apply keeps_hs_emit.
    - intros _. apply keeps_for_each. intros req _. by apply keeps_hs_process. }
  destruct (AssetId_from_str _) as [policy|e|e]; [exact (Hk _ (Hinit policy))|exact (Hinit [])..].
Qed.

(** *** Two orders at once

    A wallet with two outputs of a token; each order takes one of them. *)
Module HeadlessSample.
Definition token : AssetId := [2].

Definition utxo (txid : Txid) : GdkUtxo :=
  WalletSample.utxo <| gu_txhash := txid |> <| gu_asset_id := token |>.

#[export] Instance hs_sample : HsEnv := {| hs_shuffle _ l := l; hs_instant _ := 0 |}.

Definition new_order : NewOrder := {|
  no_asset_id := token; no_asset_amount := S754_zero false; no_price := S754_zero false;
  no_private := None; no_ttl_seconds := None; no_unique_key := None |}.

Definition details : Details := {|
  details_asset := token; details_bitcoin_amount := 100000; details_asset_amount := 1000;
  details_price := S754_zero false; details_server_fee := 500; details_side := OrderSide_Maker;
  details_send_bitcoins := false; details_order_type := OrderType_Asset;
  details_market := MarketType_Stablecoin; details_two_step := None |}.

Definition respond (request_id : string) (resp : Response) : HsReq :=
  Hs_Ws (Ws_Response (ResponseMessage_Response (Some (RequestId_String request_id)) (inl resp))).

Definition submitted (order_id : OrderId) : Response :=
  Response_Submit {| submit_resp_order_id := order_id; submit_resp_details := details |}.

Definition reqs : list HsReq := [
  Hs_Ws Ws_Connected;
  respond "1" (Response_Login {| login_resp_session_id := [7]; login_resp_orders := [] |});
  Hs_Wallet (HwResp_SwapInputs {| si_recv_address := "recv"; si_change_address := "change";
    si_utxos := {[token := [utxo [10]; utxo [11]]]} |});
  Hs_ApiServer (Api_NewOrder new_order 1);
  Hs_ApiServer (Api_NewOrder new_order 2);
  respond "2" (submitted [20]);
  respond "3" (submitted [21])].
End HeadlessSample.
#[local] Existing Instance WalletSample.sample_env.
#[local] Existing Instance HeadlessSample.hs_sample.

Lemma inputs_reserved_once_witness :
  let orders := hs_orders (headless_server Env_Prod [7] 1 HeadlessSample.reqs).1 in
  orders !! [20] = Some (Live_Active [([10], 0)]) ∧ orders !! [21] = Some (Live_Active [([11], 0)]) ∧
  reserved_once orders.
Proof.
  split; [vm_compute; reflexivity|]. split; [vm_compute; reflexivity|].
  apply inputs_reserved_once. intros log l. reflexivity.
Defined.
