(* ===== verification/HeadlessCalls.v ===== *)
(** * The calls of the headless server

    Every call of the interface that places an order or asks for one waits for an answer.
    What the server owes is written down in its callbacks: this file counts answers given
    and answers owed, over a connection of which it is only known that it is a [Link]. *)
From stdpp Require Import base numbers gmap strings list sets pretty.
From Stdlib Require Import ZArith Lia SpecFloat.
From S2P Require Import Prelude F64 Api Links Types Env Payjoin ClientApi Client Serial Jade GdkApi Session Wallet Headless.

Open Scope Z_scope.

(** ** Answers given and owed *)

(** How many answers [r] got, how many a callback owes it, and how many calls it made;
    listing orders is never answered. *)
Definition one (r sender : Z) : nat := if r =? sender then 1 else 0.

Definition answers (r : Z) (log : list HsEvent) : nat :=
  sum_list ((λ e, match e with Hs_reply sender _ => one r sender | _ => 0%nat end) <$> log).

#[global] Arguments answers : simpl never.

Definition owes (r : Z) (cb : HsCallback) : nat :=
  match cb with
  | Cb_pset_maker _ _ _ sender | Cb_submit _ sender => one r sender
  | Cb_sign _ | Cb_login => 0
  end.

Definition owed (r : Z) (requests : gmap string HsCallback) : nat :=
  sum_list (owes r <$> (map_to_list requests).*2).

Definition calls (r : Z) (reqs : list HsReq) : nat :=
  sum_list ((λ req, match req with
                    | Hs_ApiServer (Api_NewOrder _ sender) | Hs_ApiServer (Api_OrderStatus _ sender) =>
                        one r sender
                    | _ => 0%nat
                    end) <$> reqs).

Lemma calls_cons r req reqs : calls r (req :: reqs) = (calls r [req] + calls r reqs)%nat.
Proof. unfold calls. rewrite !fmap_cons, fmap_nil. simpl. lia. Qed.

(** What the connection tells the server. *)
Definition link_part (reqs : list HsReq) : list (WrappedResponse ResponseMessage) :=
  omap (λ req, match req with Hs_Ws resp => Some resp | _ => None end) reqs.

(** Requests sent, which take a number each. *)
Definition is_request (e : HsEvent) : bool := match e with Hs_request _ _ => true | _ => false end.
Definition requests_sent (log : list HsEvent) : Z := Z.of_nat (length (List.filter is_request log)).

Lemma sum_list_perm (l k : list nat) : l ≡ₚ k → sum_list l = sum_list k.
Proof. induction 1; simpl; lia. Qed.

Lemma owed_insert r requests id cb :
  requests !! id = None → owed r (<[id := cb]> requests) = (owes r cb + owed r requests)%nat.
Proof.
  intros Hid. unfold owed. by rewrite (sum_list_perm _ _ (fmap_Permutation _ _ _
    (fmap_Permutation _ _ _ (map_to_list_insert _ _ cb Hid)))).
Qed.

Lemma owed_delete r requests id cb :
  requests !! id = Some cb → owed r requests = (owes r cb + owed r (delete id requests))%nat.
Proof.
  intros Hid. rewrite <- (insert_id requests id cb Hid) at 1. rewrite <- insert_delete_eq.
  apply owed_insert, lookup_delete_eq.
Qed.

Lemma owed_btree r requests :
  owed r requests = sum_list (owes r <$> (btree_list requests).*2).
Proof.
  unfold owed, btree_list. apply sum_list_perm, fmap_Permutation, fmap_Permutation.
  symmetry. apply sort_by_perm.
Qed.

Lemma owed_nothing r requests : (∀ id cb, requests !! id = Some cb → False) → owed r requests = 0%nat.
Proof.
  intros Hn. assert (requests = ∅) as ->; [|done]. apply map_eq. intros id.
  rewrite lookup_empty. destruct (_ !! id) eqn:E; [|done]. by apply Hn in E.
Qed.

(** ** Every step accounts for the answers *)

Section Counting.
Context `{GdkEnv} `{HsEnv} (base : Z).

(** The numbers of requests, from [base] on, are used up. *)
Definition exhausted (s : HsData) : Prop := i64_max - base < requests_sent (hs_log s).

(** Numbers are used once, and callbacks wait under numbers that were used. *)
Definition numbered (s : HsData) : Prop :=
  hs_next_id s = base + requests_sent (hs_log s) ∧ in_i64 (hs_next_id s) ∧
  ∀ id cb, hs_async_requests s !! id = Some cb → ∃ n, id = pretty n ∧ n < hs_next_id s.

Definition accounted (P : Z → Z) (s : HsData) : Prop :=
  exhausted s ∨
  (numbered s ∧ ∀ r, Z.of_nat (answers r (hs_log s) + owed r (hs_async_requests s)) = P r).

(** When [m] succeeds, it gives or owes [d] answers more than before. *)
Definition adds {A} (m : HsM A) (d : Z → nat) : Prop := ∀ P s, accounted P s →
  match m s with (s', Ok _) => accounted (λ r, P r + Z.of_nat (d r)) s' | _ => True end.

Abbreviation none := (λ _ : Z, 0%nat) (only parsing).

Lemma accounted_ext P Q s : (∀ r, P r = Q r) → accounted P s → accounted Q s.
Proof. intros E [?|[Hn Hc]]; [by left|right]. split; [done|]. intros r. by rewrite <- E. Qed.

Lemma adds_ret {A} (a : A) : adds (ret a) none.
Proof. intros P s Hs. eapply accounted_ext; [|exact Hs]. intros r. simpl. lia. Qed.

Lemma adds_fail {A} e d : adds (fail e : HsM A) d.
Proof. by intros P s. Qed.
Lemma adds_panic {A} e d : adds (panic e : HsM A) d.
Proof. by intros P s. Qed.
Lemma adds_lift {A} (o : outcome A) : adds (lift o) none.
Proof. intros P s Hs. destruct o; [by apply (adds_ret a)|done..]. Qed.

Lemma adds_bind {A B} (m : HsM A) (k : A → HsM B) d d' :
  adds m d → (∀ a, adds (k a) d') → adds (bind m k) (λ r, (d r + d' r)%nat).
Proof.
  intros Hm Hk P s Hs. specialize (Hm P s Hs). unfold bind. destruct (m s) as [s1 [a|e|e]]; [|done..].
  specialize (Hk a _ s1 Hm). destruct (k a s1) as [s2 [b|e|e]]; [|done..].
  eapply accounted_ext; [|exact Hk]. intros r. simpl. lia.
Qed.

Lemma adds_ext {A} (m : HsM A) d d' : (∀ r, d r = d' r) → adds m d → adds m d'.
Proof.
  intros E Hm P s Hs. specialize (Hm P s Hs). destruct (m s) as [s' []]; [|done..].
  eapply accounted_ext; [|exact Hm]. intros r. simpl. by rewrite E.
Qed.

(** A first step that owes nothing, and a last one. *)
Lemma adds_first {A B} (m : HsM A) (k : A → HsM B) d :
  adds m none → (∀ a, adds (k a) d) → adds (bind m k) d.
Proof. intros Hm Hk. eapply adds_ext; [|by eapply adds_bind]. done. Qed.

Lemma adds_last {A B} (m : HsM A) (k : A → HsM B) d :
  adds m d → (∀ a, adds (k a) none) → adds (bind m k) d.
Proof. intros Hm Hk. eapply adds_ext; [|by eapply adds_bind]. intros r. simpl. lia. Qed.

Lemma adds_gets {A B} (f : HsData → A) (k : A → HsM B) d :
  (∀ a, adds (k a) d) → adds (bind (gets f) k) d.
Proof. intros Hk P s Hs. rewrite bind_gets. by apply Hk. Qed.

(** Steps that touch neither the log, nor the numbers, nor the callbacks. *)
Definition same_calls (s s' : HsData) : Prop :=
  hs_log s' = hs_log s ∧ hs_next_id s' = hs_next_id s ∧ hs_async_requests s' = hs_async_requests s.

Lemma adds_modify f : (∀ s, same_calls s (f s)) → adds (modify f) none.
Proof.
  intros Hf P s Hs. destruct (Hf s) as (El & En & Er). simpl.
  unfold accounted, exhausted, numbered in *. rewrite El, En, Er.
  destruct Hs as [?|[? Hc]]; [by left|right]. split; [done|]. intros r. rewrite Hc. simpl. lia.
Qed.

Lemma adds_for_each {A} (l : list A) (f : A → HsM unit) d :
  (∀ a, a ∈ l → adds (f a) (λ r, d r a)) → adds (for_each l f) (λ r, sum_list (d r <$> l)).
Proof.
  induction l as [|a l IH]; intros Hf; simpl; [apply adds_ret|].
  apply adds_bind; [apply Hf; left|]. intros _. apply IH. intros b Hb. apply Hf. by right.
Qed.

(** Events that are no requests. *)
Lemma accounted_emit e P s : is_request e = false → accounted P s →
  accounted (λ r, P r + Z.of_nat (answers r [e])) (s <| hs_log ::= cons e |>).
Proof.
  intros He Hs. unfold accounted, exhausted, numbered, requests_sent in *. cbn. rewrite He.
  destruct Hs as [?|[Hn Hc]]; [by left|right]. split; [exact Hn|]. intros r. rewrite <- Hc.
  unfold answers. cbn. lia.
Qed.

Lemma adds_reply sender r : adds (reply sender r) (λ r', one r' sender).
Proof.
  intros P s Hs. eapply accounted_ext; [|by apply (accounted_emit (Hs_reply sender r))].
  intros r'. unfold answers. cbn. lia.
Qed.

Lemma adds_emit e : is_request e = false → (∀ r, answers r [e] = 0%nat) → adds (hs_emit e) none.
Proof.
  intros He Ha P s Hs. eapply accounted_ext; [|by apply accounted_emit]. intros r. simpl. by rewrite Ha.
Qed.

(** A request takes the next number; a callback may be put under it. *)
Definition request_made (req : Request) (cb : option HsCallback) (s : HsData) : HsData :=
  let id := pretty (hs_next_id s) in
  let s' := s <| hs_next_id := wi64 (hs_next_id s + 1) |> <| hs_log ::= cons (Hs_request id req) |> in
  match cb with Some cb => s' <| hs_async_requests ::= <[id := cb]> |> | None => s' end.

Lemma accounted_request req cb P s : accounted P s →
  accounted (λ r, P r + Z.of_nat (from_option (owes r) 0%nat cb)) (request_made req cb s).
Proof.
  intros Hs.
  assert (requests_sent (hs_log (request_made req cb s)) = requests_sent (hs_log s) + 1) as Hsent.
  { unfold requests_sent. destruct cb; cbn; lia. }
  assert (hs_next_id (request_made req cb s) = wi64 (hs_next_id s + 1)) as Hnext by by destruct cb.
  destruct (decide (exhausted (request_made req cb s))) as [?|Hmore]; [by left|right].
  destruct Hs as [Hx|[(Hn & Hi & Hk) Hc]]; [exfalso; apply Hmore; unfold exhausted in *; lia|].
  assert (wi64 (hs_next_id s + 1) = hs_next_id s + 1) as Hid.
  { apply wi64_id. unfold exhausted, in_i64 in *. lia. }
  assert (hs_async_requests s !! pretty (hs_next_id s) = None) as Hnew.
  { destruct (_ !! _) as [c|] eqn:E; [|done]. apply Hk in E as (n & ?%(inj pretty) & ?). lia. }
  split.
  - unfold numbered. rewrite Hsent, Hnext, Hid. split; [lia|]. split; [unfold exhausted, in_i64 in *; lia|].
    intros id c Hc'. destruct cb as [cb|].
    + change (<[pretty (hs_next_id s) := cb]> (hs_async_requests s) !! id = Some c) in Hc'.
      apply lookup_insert_Some in Hc' as [[<- _]|[_ Hc']]; [exists (hs_next_id s); split; [done|lia]|].
      apply Hk in Hc' as (n & -> & ?). exists n. split; [done|lia].
    + apply Hk in Hc' as (n & -> & ?). exists n. split; [done|lia].
  - intros r. rewrite <- Hc. destruct cb as [cb|]; cbn; unfold answers; cbn; [|lia].
    rewrite owed_insert by exact Hnew. lia.
Qed.

Lemma adds_send_request req : adds (hs_send_request req) none.
Proof.
  apply adds_gets. intros [|]; [|apply adds_ret]. intros P s Hs.
  eapply accounted_ext; [|exact (accounted_request req None P s Hs)]. done.
Qed.

Lemma adds_async_request req cb callback :
  (∀ res, adds (callback res) (λ r, owes r cb)) →
  adds (hs_async_request req cb callback) (λ r, owes r cb).
Proof.
  intros Hc. apply adds_gets. intros [|]; [|apply Hc]. intros P s Hs.
  exact (accounted_request req (Some cb) P s Hs).
Qed.

Lemma adds_cancel_order id : adds (hs_cancel_order id) none.
Proof. apply adds_first; [by apply adds_modify|]. intros _. apply adds_send_request. Qed.

Lemma adds_refuse_order id sender : adds (refuse_order id sender) (λ r, one r sender).
Proof. apply adds_first; [apply adds_cancel_order|]. intros _. apply adds_reply. Qed.

(** ** Handlers *)

Lemma adds_on_pset_maker id details new_order sender res :
  adds (on_pset_maker id details new_order sender res) (λ r, one r sender).
Proof.
  destruct res as [resp|err].
  - destruct resp; try apply adds_panic. do 2 (apply adds_gets; intros ?). cbv zeta.
    destruct (match no_unique_key new_order with Some _ => _ | None => false end).
    + apply adds_last; [apply adds_reply|]. intros _. apply adds_cancel_order.
    + apply adds_first; [|intros _; apply adds_reply].
      destruct (no_unique_key new_order); [by apply adds_modify|apply adds_ret].
  - apply adds_first; [apply adds_cancel_order|]. intros _. apply adds_reply.
Qed.

Lemma adds_submit_inputs resp new_order sender :
  adds (process_submit_inputs resp new_order sender) (λ r, one r sender).
Proof.
  unfold process_submit_inputs. cbv zeta. apply adds_gets. intros [inputs|]; [|apply adds_refuse_order].
  apply adds_gets. intros policy_asset. destruct (hs_send_side _ _) as [asset amount].
  apply adds_gets. intros orders. apply adds_gets. intros shuffled.
  destruct (_ <? amount); [apply adds_refuse_order|].
  apply adds_first; [apply adds_lift|]. intros l. apply adds_first; [by apply adds_modify|]. intros _.
  apply (adds_async_request _ (Cb_pset_maker _ _ _ sender)). intros res. apply adds_on_pset_maker.
Qed.

Lemma adds_on_submit new_order sender res :
  adds (on_submit new_order sender res) (λ r, one r sender).
Proof.
  destruct res as [resp|err]; [|apply adds_reply].
  destruct resp; try apply adds_panic. apply adds_submit_inputs.
Qed.

Lemma adds_on_login res : adds (on_login res) none.
Proof.
  destruct res as [resp|err]; [|apply adds_ret]. destruct resp; try apply adds_panic.
  eapply adds_ext; [|apply (adds_for_each _ _ (λ _ _, 0%nat)); intros order _; apply adds_cancel_order].
  intros r. by induction (login_resp_orders _).
Qed.

Lemma adds_on_sign id res : adds (on_sign_resp id res) none.
Proof.
  destruct res as [resp|err]; [|apply adds_cancel_order].
  destruct resp; try apply adds_panic. apply adds_ret.
Qed.

(** A callback gives the answer it owes. *)
Lemma adds_callback cb res : adds (run_hs_callback cb res) (λ r, owes r cb).
Proof.
  destruct cb; [apply adds_on_sign|apply adds_on_pset_maker|apply adds_on_submit|apply adds_on_login].
Qed.

Lemma adds_api req : adds (process_api req) (λ r, calls r [Hs_ApiServer req]).
Proof.
  destruct req as [new_order sender|order_id sender|sender].
  - eapply adds_ext; [|apply adds_gets; intros n; destruct (5 <? n);
      [apply adds_reply|apply (adds_async_request _ (Cb_submit _ sender)), adds_on_submit]].
    intros r. unfold calls. simpl. lia.
  - eapply adds_ext; [|apply adds_first; [apply adds_gets; intros orders; apply adds_ret|];
      intros status; apply adds_reply].
    intros r. unfold calls. simpl. lia.
  - apply adds_ret.
Qed.

Lemma adds_wallet resp : adds (process_wallet resp) none.
Proof.
  destruct resp; simpl; [by apply adds_modify| |].
  - apply adds_first; [by apply adds_modify|]. intros _.
    apply (adds_async_request _ (Cb_sign order_id)). intros res. apply adds_on_sign.
  - apply adds_first; [by apply adds_modify|]. intros _. apply adds_cancel_order.
Qed.

Lemma adds_order_removed id : adds (hs_order_removed id) none.
Proof.
  apply adds_gets. intros orders. by repeat case_match; first [apply adds_ret|apply adds_modify].
Qed.

Lemma adds_complete complete : adds (hs_complete complete) none.
Proof.
  unfold hs_complete. destruct (complete_txid _); [|by apply adds_modify].
  apply adds_gets. intros orders. apply adds_first; [apply adds_lift|]. intros order.
  apply adds_first; [by apply adds_modify|]. intros _. case_match; [by apply adds_modify|apply adds_panic..].
Qed.

Lemma adds_notification notif : adds (process_notification notif) none.
Proof.
  destruct notif; simpl;
    first [apply adds_ret|apply adds_order_removed|apply adds_complete|idtac].
  apply adds_first; [by apply adds_emit|]. intros _. by apply adds_modify.
Qed.

(** A callback that is taken out gives the answer that was owed for it. *)
Lemma adds_response id res : adds (process_response id res) none.
Proof.
  unfold process_response. apply adds_first; [apply adds_lift|]. intros [id'|n]; [|apply adds_ret].
  intros P s Hs. rewrite bind_gets. destruct (hs_async_requests s !! id') as [cb|] eqn:E;
    [|by apply adds_ret].
  set (s1 := s <| hs_async_requests ::= delete id' |>).
  assert (accounted (λ r, P r - Z.of_nat (owes r cb)) s1) as Hs1.
  { destruct Hs as [Hx|[(Hn & Hi & Hk) Hc]]; [by left|right]. split.
    - split; [exact Hn|]. split; [exact Hi|]. intros k c Hk'.
      change (delete id' (hs_async_requests s) !! k = Some c) in Hk'.
      apply lookup_delete_Some in Hk' as [_ Hk']. by apply Hk in Hk'.
    - intros r. rewrite <- Hc, (owed_delete r _ _ _ E). cbn. lia. }
  pose proof (adds_callback cb res _ s1 Hs1) as Hcb.
  change (match run_hs_callback cb res s1 with
          | (s', Ok _) => accounted (λ r, P r + Z.of_nat 0) s' | _ => True end).
  destruct (run_hs_callback cb res s1) as [s2 [u|e|e]]; [|done..].
  eapply accounted_ext; [|exact Hcb]. intros r. simpl. lia.
Qed.

Lemma adds_disconnect requests :
  adds (do! for_each (btree_list requests) (λ e : string * HsCallback,
          run_hs_callback e.2 (inr {| err_code := ErrorCode_ServerError;
                                      err_message := "Server disconnected" |})) in
        request_ws_connect) (λ r, owed r requests).
Proof.
  apply adds_last; [|intros _; apply adds_gets; intros env; by apply adds_emit].
  eapply adds_ext; [|apply (adds_for_each _ _ (λ r e, owes r e.2)); intros e _; apply adds_callback].
  intros r. by rewrite owed_btree, <- list_fmap_compose.
Qed.

(** When the connection ends, every callback gives its answer. *)
Lemma adds_ws resp : adds (process_ws resp) none.
Proof.
  destruct resp as [| |[id res|notif]]; simpl.
  - apply adds_first; [by apply adds_modify|]. intros _. apply adds_gets. intros id.
    apply (adds_async_request _ Cb_login). apply adds_on_login.
  - apply adds_first; [by apply adds_modify|]. intros _ P s Hs. rewrite bind_gets, bind_modify.
    set (requests := hs_async_requests s). set (s1 := s <| hs_async_requests := ∅ |>).
    assert (accounted (λ r, P r - Z.of_nat (owed r requests)) s1) as Hs1.
    { destruct Hs as [Hx|[(Hn & Hi & Hk) Hc]]; [by left|right]. split.
      - split; [exact Hn|]. split; [exact Hi|]. intros k c Hk'.
        change ((∅ : gmap string HsCallback) !! k = Some c) in Hk'. by rewrite lookup_empty in Hk'.
      - intros r. rewrite <- Hc. change (hs_log s1) with (hs_log s).
        change (owed r (hs_async_requests s1)) with 0%nat. fold requests. lia. }
    pose proof (adds_disconnect requests _ s1 Hs1) as Hd.
    destruct (bind _ _ s1) as [s2 [u|e|e]]; [|done..].
    eapply accounted_ext; [|exact Hd]. intros r. simpl. lia.
  - apply adds_response.
  - apply adds_notification.
Qed.

Lemma adds_process req : adds (hs_process req) (λ r, calls r [req]).
Proof. destruct req; [apply adds_api|apply adds_wallet|apply adds_ws]. Qed.

Lemma adds_run reqs : adds (run_headless reqs) (λ r, calls r reqs).
Proof.
  apply adds_first; [apply adds_gets; intros env; by apply adds_emit|]. intros _.
  eapply adds_ext; [|apply (adds_for_each _ _ (λ r req, calls r [req])); intros req _; apply adds_process].
  intros r. induction reqs as [|req reqs IH]; [done|].
  by rewrite fmap_cons, (calls_cons r req reqs), <- IH.
Qed.
End Counting.

(** ** The connection and the server *)

Section Connection.
Context `{GdkEnv} `{HsEnv}.

(** The server takes the connection to be up, and without one waits for nothing. *)
Definition follows (up : bool) (s : HsData) : Prop :=
  hs_ws_connected s = up ∧ (up = false → hs_async_requests s = ∅).

(** Everything but news of the connection keeps that. *)
Lemma follows_modify up f :
  (∀ s, hs_ws_connected (f s) = hs_ws_connected s ∧ hs_async_requests (f s) = hs_async_requests s) →
  keeps (follows up) (modify f).
Proof. intros Hf. apply keeps_modify. intros s Hs. unfold follows. by destruct (Hf s) as [-> ->]. Qed.

#[local] Hint Extern 1 (keeps (follows _) (modify _)) => by apply follows_modify : keeps.

Lemma follows_emit up e : keeps (follows up) (hs_emit e).
Proof. by apply follows_modify. Qed.
#[local] Hint Resolve follows_emit : keeps.

Lemma follows_async up req cb callback :
  (∀ res, keeps (follows up) (callback res)) → keeps (follows up) (hs_async_request req cb callback).
Proof.
  intros Hc s Hs. unfold hs_async_request. rewrite bind_gets.
  destruct (hs_ws_connected s) eqn:E; rewrite_field E; [|by apply Hc].
  destruct Hs as [Hup _]. split; [exact Hup|]. intros ->. congruence.
Qed.

Lemma follows_cancel up id : keeps (follows up) (hs_cancel_order id).
Proof. unfold hs_cancel_order, hs_send_request, next_request_id_str. keeps. Qed.
#[local] Hint Resolve follows_cancel : keeps.
Ltac follows := unfold reply, refuse_order; keeps.

Lemma follows_on_pset_maker up id details new_order sender res :
  keeps (follows up) (on_pset_maker id details new_order sender res).
Proof. unfold on_pset_maker. follows. Qed.

Lemma follows_on_submit up new_order sender res : keeps (follows up) (on_submit new_order sender res).
Proof.
  pose proof follows_async. pose proof follows_on_pset_maker.
  unfold on_submit, process_submit_inputs. follows.
Qed.

Lemma follows_on_sign up id res : keeps (follows up) (on_sign_resp id res).
Proof. unfold on_sign_resp. follows. Qed.

Lemma follows_on_login up res : keeps (follows up) (on_login res).
Proof. unfold on_login. follows. Qed.

Lemma follows_callback up cb res : keeps (follows up) (run_hs_callback cb res).
Proof.
  destruct cb; [apply follows_on_sign|apply follows_on_pset_maker|apply follows_on_submit
               |apply follows_on_login].
Qed.

Lemma follows_response up id res : keeps (follows up) (process_response id res).
Proof.
  unfold process_response. apply keeps_bind; [apply keeps_expect|]. intros [id'|n]; [|apply keeps_ret].
  apply keeps_bind; [apply keeps_gets|]. intros requests. destruct (requests !! id') as [cb|]; [|apply keeps_ret].
  apply keeps_bind; [|intros _; apply follows_callback]. apply keeps_modify. intros s [Hup Hnone].
  split; [exact Hup|]. intros Hd. specialize (Hnone Hd).
  change (delete id' (hs_async_requests s) = ∅). by rewrite Hnone, delete_empty.
Qed.

Lemma follows_process up req :
  match req with Hs_Ws Ws_Connected | Hs_Ws Ws_Disconnected => True
  | _ => keeps (follows up) (hs_process req) end.
Proof.
  pose proof follows_async. pose proof follows_on_submit.
  destruct req as [req|resp|[| |[id res|notif]]]; [..|done|done| |]; simpl.
  - unfold process_api, process_new_order, get_order_status. follows.
  - pose proof follows_on_sign. unfold process_wallet, sign_done. follows.
  - apply follows_response.
  - unfold process_notification, hs_order_removed, hs_complete. follows.
Qed.

Lemma follows_connected s : follows true (process_ws Ws_Connected s).1.
Proof.
  unfold process_ws. rewrite bind_modify. apply (keeps_bind _ _ _ (keeps_gets _ _)); [|split; [done|by intros [=]]].
  intros id. apply follows_async, follows_on_login.
Qed.

Lemma follows_disconnected s : follows false (process_ws Ws_Disconnected s).1.
Proof.
  unfold process_ws. rewrite bind_modify, bind_gets, bind_modify.
  refine (keeps_bind (follows false) _ _ _ _ _ _); [|intros _; unfold request_ws_connect; follows|by split].
  apply keeps_for_each. intros e _. apply follows_callback.
Qed.

Lemma follows_run reqs up up' s s' :
  link_run up (link_part reqs) up' → follows up s → for_each reqs hs_process s = (s', Ok tt) →
  follows up' s'.
Proof.
  revert up s. induction reqs as [|req reqs IH]; intros up s Hl Hs Hr.
  { injection Hr as <-. by inversion Hl; subst. }
  simpl in Hr. unfold bind in Hr. destruct (hs_process req s) as [s1 [[]|e|e]] eqn:Ep; [|done..].
  pose proof (follows_process up req) as Hp.
  destruct req as [req|resp|[| |a]]; simpl in Hl.
  all: try (apply (IH up s1); [exact Hl| |exact Hr]; specialize (Hp s Hs); by rewrite Ep in Hp).
  - inversion Hl; subst. apply (IH true s1); [done| |exact Hr].
    pose proof (follows_connected s) as Hc. change (process_ws Ws_Connected s = (s1, Ok tt)) in Ep.
    by rewrite Ep in Hc.
  - inversion Hl; subst. apply (IH false s1); [done| |exact Hr].
    pose proof (follows_disconnected s) as Hc. change (process_ws Ws_Disconnected s = (s1, Ok tt)) in Ep.
    by rewrite Ep in Hc.
  - inversion Hl; subst. apply (IH true s1); [done| |exact Hr].
    assert (keeps (follows true) (hs_process (Hs_Ws (Ws_Response a)))) as Hk by (destruct a; exact Hp).
    specialize (Hk s Hs). by rewrite Ep in Hk.
Qed.
End Connection.

(** C7: every call of the interface is answered once.  Whatever the callers, the wallet and
    the server send over a connection that keeps the promises of a link, and in whatever
    order: of the calls that place an order or ask for its status, each got one answer or is
    owed one by a callback that waits for the server, never both; the server's view of the
    connection is the one the link told; and without a connection nothing is owed, so that
    every call has its answer.  This is so as long as the server runs - a panic ends its
    thread and with it every call - and has not used up the numbers of its requests. *)
Theorem calls_answered_once `{GdkEnv} `{HsEnv} {I D} asks tells sends
    `{!Link I ResponseMessage D asks tells sends} inputs env session_id next_id reqs s :
  link_part reqs = tells inputs → in_i64 next_id →
  headless_server env session_id next_id reqs = (s, Ok tt) →
  next_id + requests_sent (hs_log s) ≤ i64_max →
  (∀ r, (answers r (hs_log s) + owed r (hs_async_requests s))%nat = calls r reqs) ∧
  ∃ up, link_run false (tells inputs) up ∧ hs_ws_connected s = up ∧
        (up = false → ∀ r, answers r (hs_log s) = calls r reqs).
Proof.
  intros Hpart Hid Hrun Hmax. unfold headless_server in Hrun.
  destruct (AssetId_from_str _) as [policy|e|e]; [|done..].
  set (s0 := hs_initial env session_id next_id policy) in *.
  assert (accounted next_id (λ _, 0) s0) as Hacc.
  { right. split; [|done]. split; [unfold requests_sent; cbn; lia|]. split; [exact Hid|].
    intros id cb Hc. change ((∅ : gmap string HsCallback) !! id = Some cb) in Hc. by rewrite lookup_empty in Hc. }
  pose proof (adds_run next_id reqs _ _ Hacc) as Hc. rewrite Hrun in Hc.
  destruct Hc as [Hx|[_ Hc]]; [unfold exhausted in Hx; lia|].
  assert (∀ r, (answers r (hs_log s) + owed r (hs_async_requests s))%nat = calls r reqs) as Hcount.
  { intros r. specialize (Hc r). simpl in Hc. lia. }
  split; [exact Hcount|]. destruct (link_alternates inputs) as [up Hup]. exists up. split; [exact Hup|].
  rewrite <- Hpart in Hup. unfold run_headless in Hrun.
  assert (follows up s) as [Hconn Hnone].
  { eapply (follows_run reqs false up (request_ws_connect s0).1); [exact Hup| |exact Hrun]. by split. }
  split; [exact Hconn|]. intros Hdown r. specialize (Hcount r). rewrite (Hnone Hdown) in Hcount.
  change (owed r ∅) with 0%nat in Hcount. lia.
Qed.

(** *** A call before and a call after the connection is lost *)
Module CallsSample.
Definition reqs : list HsReq :=
  [Hs_Ws Ws_Connected; Hs_ApiServer (Api_NewOrder HeadlessSample.new_order 1);
   Hs_Ws Ws_Disconnected; Hs_ApiServer (Api_NewOrder HeadlessSample.new_order 2)].

Definition events : list (LinkInput WrappedRequest) :=
  [In_request (Ws_Connect "host" 443 true); In_take_request; In_connected; In_server (Some (inr "lost"))].
End CallsSample.
#[local] Existing Instance LinkSample.ws_env.
#[local] Existing Instance WalletSample.sample_env.
#[local] Existing Instance HeadlessSample.hs_sample.

Lemma calls_answered_once_witness :
  let s := (headless_server Env_Prod [7] 1 CallsSample.reqs).1 in
  answers 1 (hs_log s) = 1%nat ∧ answers 2 (hs_log s) = 1%nat ∧
  ∃ up, link_run false (told (manual_log CallsSample.events)) up ∧ hs_ws_connected s = up ∧
        (up = false → ∀ r, answers r (hs_log s) = calls r CallsSample.reqs).
Proof.
  intros s. split; [vm_compute; reflexivity|]. split; [vm_compute; reflexivity|].
  apply (calls_answered_once (asks_for asked_text) (λ l, told (manual_log l))
    (λ l, sent frame_text (manual_log l)) CallsSample.events Env_Prod [7] 1 CallsSample.reqs s).
  - vm_compute. reflexivity.
  - vm_compute. split; discriminate.
  - vm_compute. reflexivity.
  - vm_compute. discriminate.
Defined.
