(* ===== verification/HeadlessWallet.v ===== *)
(** * The wallet of the headless server

    A thread (rust/sideswap_headless_server/src/wallet.rs) with a session of the library
    GDK of its own, which signs the swaps of the orders of [Headless] and tells its worker
    what the wallet has.  Nobody is asked before it signs, so what it checks itself is all
    there is. *)
From stdpp Require Import base numbers gmap strings list.
From Stdlib Require Import ZArith Lia SpecFloat.
From S2P Require Import Prelude F64 Api Types Env Payjoin ClientApi Client Orders Serial Jade GdkApi Session Wallet JadeSession Swaps Headless.

Open Scope Z_scope.
#[local] Set Primitive Projections.

(** ** State *)

Record HwState := {
  hwt_session : GdkSes;
  hwt_policy_asset : AssetId;
  hwt_timestamp : Z;
  hwt_update_needed : bool;
  (** what the clock showed, and what was called back, newest first *)
  hwt_clock : list Z;
  hwt_resps : list HwResp
}.

Definition HwM : Type → Type := M HwState.

Section HeadlessWallet.
Context `{GdkEnv} `{HsEnv}.

(** ** Operations *)

Definition hw_callback (resp : HwResp) : HwM unit := modify (λ s, s <| hwt_resps ::= cons resp |>).

(** [Instant::now()] *)
Definition hw_now : HwM Z :=
  let! now := gets (λ s, hs_instant (hwt_clock s)) in
  do! modify (λ s, s <| hwt_clock ::= cons now |>) in
  ret now.

(** A method of the session. *)
Definition wallet_call {A} (m : GdkM A) : HwM A := λ s,
  let '(session, r) := m (hwt_session s) in (s <| hwt_session := session |>, r).

(** [Result::unwrap] *)
Definition unwrap_result {A} (r : outcome A) : outcome A :=
  match r with Err e => Panic e | r => r end.

Definition wallet_unwrap {A} (m : GdkM A) : HwM A := λ s,
  let '(s', r) := wallet_call m s in (s', unwrap_result r).

Definition sign_amounts (policy_asset : AssetId) (details : Details) : SwapAmounts :=
  if details_send_bitcoins details then
    {| sa_send_asset := policy_asset;
       sa_send_amount := wu64 (wi64 (details_bitcoin_amount details + details_server_fee details));
       sa_recv_asset := details_asset details;
       sa_recv_amount := wu64 (details_asset_amount details) |}
  else
    {| sa_send_asset := details_asset details;
       sa_send_amount := wu64 (details_asset_amount details);
       sa_recv_asset := policy_asset;
       sa_recv_amount := wu64 (wi64 (details_bitcoin_amount details - details_server_fee details)) |}.

Definition hw_sign_pset (sign : SignNotification) : HwM unit :=
  let! policy_asset := gets hwt_policy_asset in
  let amounts := sign_amounts policy_asset (sign_ntf_details sign) in
  let! sign_res := attempt (wallet_call (verify_and_sign_pset amounts (sign_ntf_pset sign)
                                      (default [] (sign_ntf_nonces sign)) ∅)) in
  match sign_res with
  | inl signed_pset => hw_callback (HwResp_SignedPset (sign_ntf_order_id sign) signed_pset)
  | inr _ => hw_callback (HwResp_PsetSignFailed (sign_ntf_order_id sign))
  end.

(** What a notification of the session says is not looked at. *)
Definition hw_process (req : HwReq) : HwM unit :=
  match req with
  | HwReq_Notif => modify (λ s, s <| hwt_update_needed := true |>)
  | HwReq_SignPset sign => hw_sign_pset sign
  | HwReq_Timer => ret tt
  end.

(** [Instant] counts nanoseconds here; [duration_since] is zero for a later time. *)
Definition UPDATE_PERIOD : Z := 10 * 1000000000.

Definition update_swap_inputs : HwM unit :=
  let! needed := gets hwt_update_needed in
  if needed : bool then
    let! now := hw_now in
    let! timestamp := gets hwt_timestamp in
    if UPDATE_PERIOD <? Z.max 0 (now - timestamp) then
      let! recv := wallet_unwrap get_receive_address in
      let! change := wallet_unwrap get_change_address in
      let! utxos := wallet_unwrap try_get_unspent_outputs in
      do! hw_callback (HwResp_SwapInputs {| si_recv_address := ga_address recv;
                                         si_change_address := ga_address change;
                                         si_utxos := utxos |}) in
      let! now := hw_now in
      modify (λ s, s <| hwt_timestamp := now |> <| hwt_update_needed := false |>)
    else ret tt
  else ret tt.

Definition run_wallet (reqs : list HwReq) : HwM unit :=
  for_each reqs (λ req, do! hw_process req in update_swap_inputs).

Definition wallet_login_info (env : Env) (mnemonic work_dir : string) : SesLoginInfo := {|
  sl_account_id := ACCOUNT_ID_REG; sl_env := env; sl_cache_dir := work_dir;
  sl_wallet_info := Ses_Mnemonic mnemonic; sl_single_sig := true; sl_network := None;
  sl_proxy := None |}.

(** A session is opened and logs in, or the thread panics. *)
Definition start_wallet (env : Env) (mnemonic work_dir : string) : outcome HwState :=
  let? session := unwrap_result (start_processing_impl (wallet_login_info env mnemonic work_dir) []).2 in
  let '(session, res) := login session in
  let? _logged_in := unwrap_result res in
  let? policy_asset := unwrap_result (AssetId_from_str (env_data_policy_asset (env_data env))) in
  let now := hs_instant [] in
  Ok {| hwt_session := session; hwt_policy_asset := policy_asset; hwt_timestamp := now;
        hwt_update_needed := true; hwt_clock := [now]; hwt_resps := [] |}.
End HeadlessWallet.

(** ** The policy asset of a session is fixed *)

Section Policy.
Context `{GdkEnv} (policy_asset : AssetId).

Definition has_policy (s : GdkSes) : Prop := gs_policy_asset s = policy_asset.

Lemma policy_call_gdk t hw c params name what : keeps has_policy (call_gdk t hw c params name what).
Proof.
  unfold call_gdk, call_gdk_err. keeps_step; [keeps|].
  keeps_step; [by apply keeps_modify|]. case_match; [keeps|].
  keeps_step; [keeps|]. by apply keeps_map_err, keeps_run_auth_handler.
Qed.

Lemma policy_ses_gdk t c params name what : keeps has_policy (ses_gdk t c params name what).
Proof. unfold ses_gdk. keeps_step; [keeps|]. apply policy_call_gdk. Qed.

Lemma policy_unspent_outputs : keeps has_policy try_get_unspent_outputs.
Proof.
  unfold try_get_unspent_outputs, get_subaccount. keeps_step; [keeps|].
  apply (policy_ses_gdk T_UnspentOutputs).
Qed.

Lemma policy_addr_info is_internal : keeps has_policy (try_get_addr_info is_internal).
Proof.
  unfold try_get_addr_info, get_subaccount. keeps_step; [keeps|].
  apply (policy_ses_gdk T_Address).
Qed.

Lemma policy_verify_and_sign_pset amounts pset nonces assets :
  keeps has_policy (verify_and_sign_pset amounts pset nonces assets).
Proof.
  unfold verify_and_sign_pset. keeps_step; [apply policy_unspent_outputs|]. cbv zeta.
  keeps_step; [apply (policy_ses_gdk T_PsetDetails)|]. do 2 (keeps_step; [keeps|]).
  destruct (_ =? 0); [keeps|]. apply (policy_ses_gdk T_SignPsetResult).
Qed.

Lemma policy_login : keeps has_policy login.
Proof.
  assert (∀ s n o, has_policy s → has_policy (s <| gs_subaccount := n |> <| gs_receiving_id := o |>)) as Hs
    by done.
  unfold login, amp_subaccount.
  repeat first
    [ lazymatch goal with
      | |- keeps _ (call_gdk ?t _ _ _ _ _) => apply (policy_call_gdk t)
      | |- keeps _ (modify _) => by apply keeps_modify
      end | keeps_step ].
Qed.
End Policy.

(** ** What is signed *)

Section Signed.
Context `{GdkEnv} `{HsEnv}.
Variables (policy_asset : AssetId) (reqs : list HwReq).

(** [o] is the PSET of a request, of which GDK reported the effect of the order's terms. *)
Definition requested (o : SignPsetOpt) : Prop :=
  ∃ sign effect, HwReq_SignPset sign ∈ reqs ∧ spo_psbt o = sign_ntf_pset sign ∧
    spo_blinding_nonces o = default [] (sign_ntf_nonces sign) ∧
    told_details {| pdo_psbt := sign_ntf_pset sign; pdo_utxos := spo_utxos o |} effect ∧
    check_pset policy_asset (sign_amounts policy_asset (sign_ntf_details sign)) effect = Ok tt.

Definition allowed (c : GdkCall) : Prop := signs c → ∃ o, c = GA_psbt_sign o ∧ requested o.

Definition calls_allowed (calls : list GdkCall) : Prop := Forall allowed calls.

Definition sound (s : HwState) : Prop :=
  hwt_policy_asset s = policy_asset ∧ has_policy policy_asset (hwt_session s) ∧
  kept calls_allowed (hwt_session s).

Lemma calls_allowed_cons c l : allowed c → calls_allowed l → calls_allowed (c :: l).
Proof. by constructor. Qed.

Lemma reading_allowed c : ¬ signs c → allowed c.
Proof. by intros Hc ?. Qed.

(** Calls are only added; [P] holds of those a computation makes. *)
Lemma new_calls_app {A} (P : GdkCall → Prop) (m : GdkM A) s :
  (∀ J, (∀ c l, P c → J l → J (c :: l)) → keeps (kept J) m) →
  gdk_calls (m s).1 = new_calls s (m s).1 ++ gdk_calls s ∧ Forall P (new_calls s (m s).1).
Proof.
  intros Hm. destruct (Hm (λ l, ∃ l', l = l' ++ gdk_calls s ∧ Forall P l')) with (s := s) as (l' & E & HP).
  - intros c l Hc (l' & -> & Hl). exists (c :: l'). split; [done|by constructor].
  - by exists [].
  - unfold new_calls. rewrite E, length_app, Nat.add_sub. by rewrite take_app_length.
Qed.

(** The only signature a swap asks for is that of its PSET. *)
Definition swap_call (c : GdkCall) : Prop := signs c → ∃ o, c = GA_psbt_sign o.

Lemma verify_calls J amounts pset nonces assets :
  (∀ c l, swap_call c → J l → J (c :: l)) →
  keeps (kept J) (verify_and_sign_pset amounts pset nonces assets).
Proof.
  intros HJ. unfold verify_and_sign_pset. keeps_step.
  { apply (kept_unspent_outputs J swap_call HJ). by intros c Hc ?. }
  cbv zeta. keeps_step; [by apply (kept_ses_gdk J swap_call HJ T_PsetDetails); intros []|].
  do 2 (keeps_step; [keeps|]). destruct (_ =? 0); [keeps|].
  apply (kept_ses_gdk J swap_call HJ T_SignPsetResult). intros _. by eexists.
Qed.

Lemma requested_new sign g o :
  HwReq_SignPset sign ∈ reqs → has_policy policy_asset g →
  GA_psbt_sign o ∈ new_calls g (verify_and_sign_pset (sign_amounts policy_asset (sign_ntf_details sign))
    (sign_ntf_pset sign) (default [] (sign_ntf_nonces sign)) ∅ g).1 →
  requested o.
Proof.
  intros Hin Hp (Hpset & Hnonces & effect & Htold & Hc)%pset_checked. unfold has_policy in Hp.
  rewrite Hp in Hc. by exists sign, effect.
Qed.

(** Signing for a request. *)
Lemma verified_sound sign g :
  HwReq_SignPset sign ∈ reqs → has_policy policy_asset g → kept calls_allowed g →
  kept calls_allowed (verify_and_sign_pset (sign_amounts policy_asset (sign_ntf_details sign))
    (sign_ntf_pset sign) (default [] (sign_ntf_nonces sign)) ∅ g).1.
Proof.
  intros Hin Hp Hk.
  destruct (new_calls_app swap_call (verify_and_sign_pset (sign_amounts policy_asset (sign_ntf_details sign))
    (sign_ntf_pset sign) (default [] (sign_ntf_nonces sign)) ∅) g) as [E Hnew].
  { intros J. apply verify_calls. }
  unfold kept, calls_allowed. rewrite E. apply Forall_app. split; [|exact Hk].
  rewrite Forall_forall in *. intros c Hc Hs. destruct (Hnew c Hc Hs) as [o ->].
  exists o. split; [done|by eapply requested_new].
Qed.

Lemma sound_wallet {A} (m : GdkM A) s :
  sound s → has_policy policy_asset (m (hwt_session s)).1 → kept calls_allowed (m (hwt_session s)).1 →
  sound (wallet_call m s).1.
Proof. intros (Hp & _) Hpol Hk. unfold wallet_call. destruct (m _) as [g r]. by split. Qed.

#[local] Hint Extern 1 (keeps sound (modify _)) => apply keeps_modify; intros ? Hs; exact Hs : keeps.

Lemma sound_sign_pset sign : HwReq_SignPset sign ∈ reqs → keeps sound (hw_sign_pset sign).
Proof.
  intros Hin s Hs. pose proof Hs as (Hp & Hpol & Hk). unfold hw_sign_pset. rewrite bind_gets. rewrite_field Hp.
  cbv zeta.
  pose proof (sound_wallet (verify_and_sign_pset (sign_amounts policy_asset (sign_ntf_details sign))
    (sign_ntf_pset sign) (default [] (sign_ntf_nonces sign)) ∅) s Hs
    (policy_verify_and_sign_pset _ _ _ _ _ _ Hpol) (verified_sound _ _ Hin Hpol Hk)) as Hw.
  unfold bind, attempt. destruct (wallet_call _ s) as [s' [pset|e|e]]; [exact Hw..].
Qed.

(** A call that signs nothing. *)
Lemma sound_reading {A} (m : GdkM A) :
  keeps (has_policy policy_asset) m → keeps (kept calls_allowed) m → keeps sound (wallet_unwrap m).
Proof.
  intros Hp Hk s Hs. pose proof Hs as (_ & Hpol & Hcalls).
  pose proof (sound_wallet m s Hs (Hp _ Hpol) (Hk _ Hcalls)) as Hw.
  unfold wallet_unwrap. by destruct (wallet_call m s).
Qed.

Lemma sound_update_swap_inputs : keeps sound update_swap_inputs.
Proof.
  assert (∀ i, keeps sound (wallet_unwrap (try_get_addr_info i))) as Haddr.
  { intros i. apply sound_reading; [apply policy_addr_info|].
    apply (kept_addr_info _ allowed calls_allowed_cons reading_allowed). }
  assert (keeps sound (wallet_unwrap try_get_unspent_outputs)) as Hutxos.
  { apply sound_reading; [apply policy_unspent_outputs|].
    apply (kept_unspent_outputs _ allowed calls_allowed_cons reading_allowed). }
  unfold update_swap_inputs, hw_now, hw_callback, get_receive_address, get_change_address. keeps.
Qed.

Lemma sound_run_wallet : keeps sound (run_wallet reqs).
Proof.
  pose proof sound_sign_pset. pose proof sound_update_swap_inputs. unfold run_wallet, hw_process. keeps.
Qed.

End Signed.

Lemma select_network_calls `{GdkEnv} info log name :
  select_network info [] = (log, Ok name) →
  omap (λ e, match e with Gdk_call c => Some c | _ => None end) log = [].
Proof. unfold select_network. intros Hs. ok_inv. by repeat case_match; ok_inv. Qed.

(** A new session has the policy asset of its environment, and has called nothing. *)
Lemma session_started `{GdkEnv} info log g :
  start_processing_impl info [] = (log, Ok g) →
  AssetId_from_str (env_data_policy_asset (env_data (sl_env info))) = Ok (gs_policy_asset g) ∧
  gdk_calls g = [].
Proof.
  unfold start_processing_impl. intros Hs. ok_inv. repeat case_match; simplify_eq.
  injection Hs as <- <-. ok_inv. split; [done|].
  match goal with H : select_network _ _ = _ |- _ => by apply select_network_calls in H end.
Qed.

Lemma unwrap_result_Ok {A} (r : outcome A) a : unwrap_result r = Ok a → r = Ok a.
Proof. by destruct r. Qed.

Lemma sound_start `{GdkEnv} `{HsEnv} reqs env mnemonic work_dir s :
  start_wallet env mnemonic work_dir = Ok s → sound (hwt_policy_asset s) reqs s.
Proof.
  unfold start_wallet. intros Hs. ok_inv. destruct (login _) as [g res] eqn:El. ok_inv.
  repeat match goal with H : unwrap_result _ = Ok _ |- _ => apply unwrap_result_Ok in H end.
  destruct (start_processing_impl _ _) as [log r] eqn:Es. simpl in *. subst r.
  apply session_started in Es as [Hp Hcalls].
  match goal with H : AssetId_from_str _ = Ok _ |- _ => simpl in Hp; rewrite Hp in H; injection H as <- end.
  match goal with H : login ?x = _ |- _ =>
    pose proof (policy_login (gs_policy_asset x) x eq_refl) as Hpol'; rewrite H in Hpol';
    pose proof (kept_login (calls_allowed (gs_policy_asset x) reqs) (allowed (gs_policy_asset x) reqs)
      (calls_allowed_cons _ _) (reading_allowed _ _) x) as Hk; rewrite H in Hk end.
  split; [done|]. split; [exact Hpol'|]. apply Hk. unfold kept. rewrite Hcalls. constructor.
Qed.

(** The check of the amounts, which are cast to [u64] and back. *)
Lemma signed_effect policy terms effect :
  moderate_details effect → check_pset policy (sign_amounts policy terms) effect = Ok tt →
  effect_signed policy terms effect.
Proof.
  intros Hd Hc%check_pset_casts; [|done]. unfold effect_signed. unfold sign_amounts in Hc.
  destruct (details_send_bitcoins terms); cbn in Hc; rewrite !wi64_wu64, (wi64_id (wi64 _)) in Hc
    by apply wi64_range; destruct Hc as (Ha & Hc); (split; [|done]); [done|].
  intros asset Hin. apply or_comm. by apply Ha.
Qed.

(** C16: the headless wallet signs nothing but the swaps of sign requests, for their terms.
    Whatever its thread is sent, everything GDK is asked to sign is the PSET of a sign
    request, with the nonces of the request, of which GDK had reported, for the same
    outputs of the wallet, an effect of exactly the amounts of the terms in the request, as
    [i64] has them: no other asset than the two moves, and the server fee is on the side of
    L-BTC.  The thread does not check the terms; for those of an order, with amounts from
    zero to 2^62 and a fee below the amount, nothing wraps and these are the terms' amounts.
    GDK is taken to report amounts below 2^62. *)
Theorem headless_signs_terms `{GdkEnv} `{HsEnv} env mnemonic work_dir reqs s c :
  (∀ json details, gdk_parse T_PsetDetails json = Ok details → moderate_details details) →
  start_wallet env mnemonic work_dir = Ok s →
  c ∈ gdk_calls (hwt_session (run_wallet reqs s).1) → signs c →
  ∃ o sign effect, c = GA_psbt_sign o ∧ HwReq_SignPset sign ∈ reqs ∧
    spo_psbt o = sign_ntf_pset sign ∧ spo_blinding_nonces o = default [] (sign_ntf_nonces sign) ∧
    told_details {| pdo_psbt := sign_ntf_pset sign; pdo_utxos := spo_utxos o |} effect ∧
    effect_signed (hwt_policy_asset s) (sign_ntf_details sign) effect ∧
    (moderate_terms (sign_ntf_details sign) →
      effect_agreed (hwt_policy_asset s) (sign_ntf_details sign) effect).
Proof.
  intros Hmod Hs%(sound_start reqs) Hc Hsigns. destruct (sound_run_wallet _ _ _ Hs) as (_ & _ & Hk).
  unfold kept, calls_allowed in Hk. rewrite Forall_forall in Hk.
  destruct (Hk c Hc Hsigns) as (o & -> & sign & effect & Hin & Hpset & Hnonces & Htold & Hcheck).
  assert (effect_signed (hwt_policy_asset s) (sign_ntf_details sign) effect) as He.
  { apply signed_effect; [|done]. apply told_parsed in Htold as [json Hjson]. by apply (Hmod json). }
  exists o, sign, effect. split_and!; [done..|]. intros Ht. by apply effect_signed_agreed.
Qed.

(** *** A request for the swap of [SwapSample] *)
Module HeadlessWalletSample.
Definition parse (t : GdkType) (json : Json) : outcome (gdk_type t) :=
  match t with T_LoginUserResult => Ok "hash" | t => SwapSample.parse t json end.

#[export] Instance gdk_env : GdkEnv := WalletSample.env (λ _, "json") parse.

Definition none : HwState := {|
  hwt_session := WalletSample.session; hwt_policy_asset := []; hwt_timestamp := 0;
  hwt_update_needed := false; hwt_clock := []; hwt_resps := [] |}.

Definition started : HwState :=
  match start_wallet (H0 := HeadlessSample.hs_sample) Env_Prod "words" "dir" with
  | Ok s => s
  | _ => none
  end.

Definition reqs : list HwReq := [HwReq_Timer; HwReq_SignPset SwapSample.msg; HwReq_Notif].
End HeadlessWalletSample.
#[local] Existing Instance HeadlessWalletSample.gdk_env.
#[local] Existing Instance HeadlessSample.hs_sample.

Lemma headless_signs_terms_witness :
  ∃ o sign effect, GA_psbt_sign SwapSample.request = GA_psbt_sign o ∧
    sign ∈ [SwapSample.msg] ∧ effect_agreed (policy_asset Env_Prod) (sign_ntf_details sign) effect.
Proof.
  destruct (headless_signs_terms Env_Prod "words" "dir" HeadlessWalletSample.reqs
    HeadlessWalletSample.started (GA_psbt_sign SwapSample.request))
    as (o & sign & effect & Ho & Hin & _ & _ & _ & _ & He).
  - intros json details [= <-]. apply sample_effect_moderate.
  - vm_compute. reflexivity.
  - apply (list_elem_of_lookup_2 _ 0). vm_compute. reflexivity.
  - done.
  - assert (sign = SwapSample.msg) as ->.
    { repeat apply elem_of_cons in Hin as [[= ->]|Hin]; [done|by apply elem_of_nil in Hin]. }
    exists o, SwapSample.msg, effect. split; [exact Ho|]. split; [by left|]. apply He.
    vm_compute. intuition discriminate.
Defined.
