(* ===== verification/Trader.v ===== *)
(** * The headless trader

    A seller without a user (rust/sideswap_headless_trader/src/main.rs): it drives the
    client worker through the messages of the application, keeps orders for a list of
    assets on offer, and follows a price index.  Starting the client library goes through
    its foreign function interface, which is not modelled. *)
From stdpp Require Import base numbers gmap strings list sorting.
From Stdlib Require Import ZArith Lia SpecFloat.
From S2P Require Import Prelude F64 Api Types Env ClientApi.

Open Scope Z_scope.
#[local] Set Primitive Projections.

(** ** Settings and state *)

Record SellAsset := {
  sla_asset_id : AssetId;
  sla_price_usdt : option f64;
  sla_price_lbtc : option f64;
  sla_amp_asset : option bool;
  sla_asset_precision : Z;
  sla_offer_amount : option f64;
  sla_private : option bool;
  sla_count : option Z;
  sla_ttl : option Z
}.

Record SellAssetData := {
  sad_sell_asset : SellAsset;
  sad_last_submit : Z;
  sad_last_price_edit : Z;
  sad_orders : gmap string Order;
  sad_account_id : AccountId;
  sad_asset_balance : option Z
}.

(** What the clock showed, in nanoseconds, and what was sent to the worker. *)
Inductive TrEvent := Tr_now (t : Z) | Tr_sent (msg : ToMsg).

Record TrData := {
  tr_asset_data : list SellAssetData;
  tr_usdt_index_price : option f64;
  tr_log : list TrEvent
}.

Definition TrM : Type → Type := M TrData.

Class TrEnv := {
  #[global] tr_ids :: ElementsIds;
  tr_instant : list TrEvent → Z
}.

Section Trader.
Context `{TrEnv}.

(** ** Operations *)

Definition tr_send (msg : ToMsg) : TrM unit := modify (λ s, s <| tr_log ::= cons (Tr_sent msg) |>).

Definition tr_now : TrM Z :=
  let! now := gets (λ s, tr_instant (tr_log s)) in
  do! modify (λ s, s <| tr_log ::= cons (Tr_now now) |>) in
  ret now.

(** [for x in l.iter_mut() { .. }] and [.map(..).collect()] *)
Fixpoint iter_mut {A B} (f : A → TrM B) (l : list A) : TrM (list B) :=
  match l with
  | [] => ret []
  | a :: l => let! b := f a in let! l := iter_mut f l in ret (b :: l)
  end.

Definition tr_assert (b : bool) (e : string) : TrM unit := lift (oassert b e).

Definition sell_id (a : SellAssetData) : string := Hash32_to_string (sla_asset_id (sad_sell_asset a)).

Definition TR_PERIOD : Z := 10 * 1000000000.

(** [now.duration_since(t) > Duration::from_secs(10)] *)
Definition period_over (now t : Z) : bool := TR_PERIOD <? Z.max 0 (now - t).

(** ** Messages of the worker *)

Definition set_balance (account : AccountId) (balance : Balance) (a : SellAssetData) : SellAssetData :=
  if String.eqb (bal_asset_id balance) (sell_id a) && (account =? sad_account_id a)
  then a <| sad_asset_balance := Some (bal_amount balance) |>
  else a.

(** A loop that is left at the first element that [P] holds of. *)
Fixpoint update_first {A} (P : A → bool) (f : A → A) (l : list A) : list A :=
  match l with
  | [] => []
  | a :: l => if P a then f a :: l else a :: update_first P f l
  end.

Definition accept_review (order_id : string) (sell : SellAsset) : SubmitDecision := {|
  sdn_order_id := order_id; sdn_accept := true; sdn_auto_sign := Some true;
  sdn_private := sla_private sell; sdn_ttl_seconds := sla_ttl sell; sdn_two_step := Some false;
  sdn_tx_chaining_allowed := Some false; sdn_only_unused_utxos := Some true |}.

(** An order that is not signed automatically is left from an earlier run. *)
Definition tr_order_created (order : Order) : TrM unit :=
  if negb (or_auto_sign order) then tr_send (To_CancelOrder (or_order_id order))
  else
    modify (λ s, s <| tr_asset_data ::= update_first (λ a, String.eqb (sell_id a) (or_asset_id order))
                        (λ a, a <| sad_orders ::= <[or_order_id order := order]> |>) |>).

Definition tr_process (usdt : AssetId) (msg : FromMsg) : TrM unit :=
  match msg with
  | From_ServerConnected => tr_send (To_SubscribePrice (Hash32_to_string usdt))
  | From_ServerDisconnected => modify (λ s, s <| tr_usdt_index_price := None |>)
  | From_BalanceUpdate account balances =>
      modify (λ s, s <| tr_asset_data ::= λ l, foldl (λ l b, set_balance account b <$> l) l balances |>)
  | From_NewAsset msg =>
      let! asset_data := gets tr_asset_data in
      for_each asset_data (λ a,
        if String.eqb (pa_asset_id msg) (sell_id a) then
          tr_assert (pa_precision msg =? sla_asset_precision (sad_sell_asset a)) "wrong asset precision"
        else ret tt)
  | From_IndexPrice asset_id ind _ =>
      match AssetId_from_str asset_id with
      | Ok asset_id =>
          if bool_decide (asset_id = usdt) then modify (λ s, s <| tr_usdt_index_price := ind |>)
          else ret tt
      | _ => panic "called `Result::unwrap()` on an `Err` value"
      end
  | From_SubmitReview msg =>
      match AssetId_from_str (rev_asset msg) with
      | Ok asset_id =>
          let! asset_data := gets tr_asset_data in
          let! asset := expect
            (List.find (λ a, bool_decide (sla_asset_id (sad_sell_asset a) = asset_id)) asset_data)
            "must be known" in
          tr_send (To_SubmitDecision (accept_review (rev_order_id msg) (sad_sell_asset asset)))
      | _ => panic "called `Result::unwrap()` on an `Err` value"
      end
  | From_OrderCreated order _ => tr_order_created order
  | From_OrderRemoved order_id =>
      modify (λ s, s <| tr_asset_data ::= update_first (λ a, bool_decide (is_Some (sad_orders a !! order_id)))
                          (λ a, a <| sad_orders ::= delete order_id |>) |>)
  | _ => ret tt
  end.

(** ** Offers *)

Definition sell_price (sell : SellAsset) (usdt_index_price : option f64) : option f64 :=
  match sla_price_lbtc sell, sla_price_usdt sell, usdt_index_price with
  | Some price_lbtc, _, _ => Some price_lbtc
  | None, Some price_usdt, Some usdt_index_price => Some (fdiv price_usdt usdt_index_price)
  | None, _, _ => None
  end.

Definition order_amount (sell : SellAsset) : f64 := default f1 (sla_offer_amount sell).

Definition sell_order (a : SellAssetData) (price : f64) : SubmitOrder := {|
  so_account := sad_account_id a; so_asset_id := sell_id a; so_bitcoin_amount := None;
  so_asset_amount := Some (fneg (order_amount (sad_sell_asset a))); so_price := price;
  so_index_price := None |}.

Definition offer_order (now : Z) (price : f64) (a : SellAssetData) : TrM SellAssetData :=
  let sell := sad_sell_asset a in
  match sad_asset_balance a with
  | Some balance =>
      if (Z.of_nat (size (sad_orders a)) <? default 1 (sla_count sell)) &&
         period_over now (sad_last_submit a)
      then
        do! tr_assert (fgtb (order_amount sell) f0) "assertion failed: order_amount > 0.0" in
        let! wallet_amount := lift (asset_float_amount balance (sla_asset_precision sell)) in
        do! (if fgeb wallet_amount (order_amount sell) then
               tr_send (To_SubmitOrder (sell_order a price))
             else ret tt) in
        ret (a <| sad_last_submit := now |>)
      else ret a
  | None => ret a
  end.

Definition edit_prices (now : Z) (price : f64) (a : SellAssetData) : TrM SellAssetData :=
  if period_over now (sad_last_price_edit a) then
    do! for_each (btree_list (sad_orders a)) (λ e : string * Order,
      if fneb (or_price e.2) price && String.eqb (or_asset_id e.2) (sell_id a) then
        tr_send (To_EditOrder (or_order_id e.2) (Some (Data_Price price)))
      else ret tt) in
    ret (a <| sad_last_price_edit := now |>)
  else ret a.

Definition asset_turn (now : Z) (usdt_index_price : option f64) (a : SellAssetData)
    : TrM SellAssetData :=
  match sell_price (sad_sell_asset a) usdt_index_price with
  | Some price => let! a := offer_order now price a in edit_prices now price a
  | None => ret a
  end.

(** ** The program *)

Definition sell_account (sell : SellAsset) : AccountId :=
  if default false (sla_amp_asset sell) then ACCOUNT_ID_AMP else ACCOUNT_ID_REG.

Definition trader_step (usdt : AssetId) (msg : FromMsg) : TrM unit :=
  let! now := tr_now in
  do! tr_process usdt msg in
  let! usdt_index_price := gets tr_usdt_index_price in
  let! asset_data := gets tr_asset_data in
  let! asset_data := iter_mut (asset_turn now usdt_index_price) asset_data in
  modify (λ s, s <| tr_asset_data := asset_data |>).

Definition new_asset_data (sell : SellAsset) : TrM SellAssetData :=
  do! tr_assert (xorb (bool_decide (is_Some (sla_price_usdt sell)))
                      (bool_decide (is_Some (sla_price_lbtc sell))))
        "price_usdt or price_lbtc must be set" in
  let! last_submit := tr_now in
  let! last_price_edit := tr_now in
  ret {| sad_sell_asset := sell; sad_last_submit := last_submit;
         sad_last_price_edit := last_price_edit; sad_orders := ∅; sad_account_id := sell_account sell;
         sad_asset_balance := None |}.

Definition start_trader (env : Env) (mnemonic : string) (sell_assets : list SellAsset) : TrM AssetId :=
  do! tr_send (To_Login {| login_wallet := Some (Mnemonic mnemonic);
                           login_network := Some Sideswap; login_send_utxo_updates := None;
                           login_force_auto_sign_maker := None |}) in
  let! usdt :=
    match AssetId_from_str (usdt_asset_id (env_data_network (env_data env))) with
    | Ok usdt => ret usdt
    | _ => panic "called `Result::unwrap()` on an `Err` value"
    end in
  let! asset_data := iter_mut new_asset_data sell_assets in
  do! modify (λ s, s <| tr_asset_data := asset_data |>) in
  let uniq_assets : gset AssetId := list_to_set (sla_asset_id <$> sell_assets) in
  do! tr_assert (Nat.eqb (size uniq_assets) (length asset_data)) "Duplicated asset_id are not allowed" in
  ret usdt.

Definition trader (env : Env) (mnemonic : string) (sell_assets : list SellAsset) (msgs : list FromMsg)
    : TrM unit :=
  let! usdt := start_trader env mnemonic sell_assets in
  for_each msgs (trader_step usdt).

Definition tr_initial : TrData :=
  {| tr_asset_data := []; tr_usdt_index_price := None; tr_log := [] |}.
End Trader.

(** ** What is offered *)

(** The time of an event is what the clock showed last; logs are newest first. *)
Fixpoint log_now (log : list TrEvent) : Z :=
  match log with
  | [] => 0
  | Tr_now t :: _ => t
  | Tr_sent _ :: log => log_now log
  end.

(** The times at which an asset was offered, newest first. *)
Fixpoint submits (asset_id : string) (log : list TrEvent) : list Z :=
  match log with
  | [] => []
  | Tr_sent (To_SubmitOrder o) :: log =>
      if String.eqb (so_asset_id o) asset_id then log_now log :: submits asset_id log
      else submits asset_id log
  | _ :: log => submits asset_id log
  end.

Definition well_after (newer older : Z) : Prop := TR_PERIOD < newer - older.

Definition is_submit (e : TrEvent) : bool :=
  match e with Tr_sent (To_SubmitOrder _) => true | _ => false end.

Lemma submits_quiet id e log : is_submit e = false → submits id (e :: log) = submits id log.
Proof. by destruct e as [t|[]]. Qed.

Lemma period_over_after now t : period_over now t = true → well_after now t.
Proof. unfold period_over, well_after, TR_PERIOD. rewrite Z.ltb_lt. lia. Qed.

Section Offers.
Context `{TrEnv}.
Variables (usdt : AssetId) (sell_assets : list SellAsset) (msgs : list FromMsg).

(** A price of the settings, in L-BTC or by an index price the worker sent. *)
Definition price_agreed (sell : SellAsset) (price : f64) : Prop :=
  match sla_price_lbtc sell with
  | Some price_lbtc => price = price_lbtc
  | None => ∃ price_usdt ind asset_id last, sla_price_usdt sell = Some price_usdt ∧
      From_IndexPrice asset_id (Some ind) last ∈ msgs ∧ AssetId_from_str asset_id = Ok usdt ∧
      price = fdiv price_usdt ind
  end.

(** A balance the worker sent. *)
Definition told_balance (sell : SellAsset) (v : Z) : Prop :=
  ∃ balances b, From_BalanceUpdate (sell_account sell) balances ∈ msgs ∧ b ∈ balances ∧
    bal_asset_id b = Hash32_to_string (sla_asset_id sell) ∧ bal_amount b = v.

Definition offered (o : SubmitOrder) : Prop :=
  ∃ sell price balance wallet_amount, sell ∈ sell_assets ∧
    o = {| so_account := sell_account sell; so_asset_id := Hash32_to_string (sla_asset_id sell);
           so_bitcoin_amount := None; so_asset_amount := Some (fneg (order_amount sell));
           so_price := price; so_index_price := None |} ∧
    price_agreed sell price ∧ fgtb (order_amount sell) f0 = true ∧ told_balance sell balance ∧
    asset_float_amount balance (sla_asset_precision sell) = Ok wallet_amount ∧
    fgeb wallet_amount (order_amount sell) = true.

Definition log_ok (log : list TrEvent) : Prop :=
  (∀ o, Tr_sent (To_SubmitOrder o) ∈ log → offered o) ∧
  ∀ id, StronglySorted well_after (submits id log).

Definition asset_ok (log : list TrEvent) (a : SellAssetData) : Prop :=
  sad_sell_asset a ∈ sell_assets ∧ sad_account_id a = sell_account (sad_sell_asset a) ∧
  (∀ v, sad_asset_balance a = Some v → told_balance (sad_sell_asset a) v) ∧
  Forall (λ t, t ≤ sad_last_submit a) (submits (sell_id a) log).

Definition index_told (ind : option f64) : Prop :=
  ∀ price, ind = Some price → ∃ asset_id last,
    From_IndexPrice asset_id (Some price) last ∈ msgs ∧ AssetId_from_str asset_id = Ok usdt.

Definition assets_ok (log : list TrEvent) (l : list SellAssetData) : Prop :=
  (∀ a, a ∈ l → asset_ok log a) ∧ NoDup (sell_id <$> l).

Lemma log_ok_quiet e log : is_submit e = false → log_ok log → log_ok (e :: log).
Proof.
  intros He [Ho Hs]. split.
  - intros o [<-|Hin]%elem_of_cons; [done|by apply Ho].
  - intros id. rewrite submits_quiet by done. apply Hs.
Qed.

Lemma assets_ok_quiet e log l : is_submit e = false → assets_ok log l → assets_ok (e :: log) l.
Proof.
  intros He [Ha Hn]. split; [|done]. intros a (Hin & Hacc & Hb & Ht)%Ha.
  split_and!; [done..|]. by rewrite submits_quiet.
Qed.

(** An offer of one asset. *)
Lemma log_ok_offer now o log :
  log_ok log → log_now log = now → offered o →
  Forall (well_after now) (submits (so_asset_id o) log) →
  log_ok (Tr_sent (To_SubmitOrder o) :: log).
Proof.
  intros [Ho Hs] Hnow Hoff Hfar. split.
  - intros o' [[= ->]|Hin]%elem_of_cons; [done|by apply Ho].
  - intros id. simpl. destruct (String.eqb_spec (so_asset_id o) id) as [<-|]; [|apply Hs].
    rewrite Hnow. by constructor.
Qed.

Lemma offered_later a t now log :
  Forall (λ t, t ≤ sad_last_submit a) (submits (sell_id a) log) →
  period_over now (sad_last_submit a) = true → t ∈ submits (sell_id a) log → well_after now t.
Proof.
  intros Ht Hp%period_over_after Hin. rewrite Forall_forall in Ht. apply Ht in Hin.
  unfold well_after in *. lia.
Qed.

(** ** The turns of the assets *)

Section Turns.
Context (now : Z).

(** The state while the assets of [l] are looked at. *)
Definition turn_ok (l : list SellAssetData) (s : TrData) : Prop :=
  log_ok (tr_log s) ∧ assets_ok (tr_log s) l ∧ log_now (tr_log s) = now ∧
  index_told (tr_usdt_index_price s).

Lemma turn_ok_quiet l msg : is_submit (Tr_sent msg) = false → keeps (turn_ok l) (tr_send msg).
Proof.
  intros He s (Hl & Ha & Hn & Hi). split; [by apply log_ok_quiet|]. split; [by apply assets_ok_quiet|done].
Qed.

Lemma assets_ok_change log done a b todo :
  assets_ok log (done ++ a :: todo) → sad_sell_asset b = sad_sell_asset a →
  sad_account_id b = sad_account_id a → sad_asset_balance b = sad_asset_balance a →
  Forall (λ t, t ≤ sad_last_submit b) (submits (sell_id a) log) →
  assets_ok log (done ++ b :: todo).
Proof.
  intros [Ha Hn] Hsell Hacc Hbal Ht. assert (sell_id b = sell_id a) as Hid by (unfold sell_id; congruence).
  split; [|by rewrite fmap_app, fmap_cons in *; rewrite Hid].
  intros x Hx. apply elem_of_app in Hx as [Hx|Hx]; [apply Ha; set_solver|].
  apply elem_of_cons in Hx as [->|Hx]; [|apply Ha; set_solver].
  destruct (Ha a) as (Hin & Hacc' & Hb & _); [set_solver|]. unfold asset_ok.
  rewrite Hsell, Hacc, Hbal, Hid. done.
Qed.
(** An asset that is offered now; the others have different names. *)
Lemma assets_ok_offer log done a todo price :
  log_now log = now → Forall (λ t, t ≤ now) (submits (sell_id a) log) →
  assets_ok log (done ++ a <| sad_last_submit := now |> :: todo) →
  assets_ok (Tr_sent (To_SubmitOrder (sell_order a price)) :: log)
    (done ++ a <| sad_last_submit := now |> :: todo).
Proof.
  intros Hn Ht [Ha Hnodup]. split; [|done]. rewrite fmap_app, fmap_cons in Hnodup.
  apply NoDup_app in Hnodup as (_ & Hdone & [Htodo _]%NoDup_cons).
  intros x Hx. destruct (Ha x Hx) as (Hin & Hacc & Hb & Hx'). split_and!; [done..|]. simpl.
  destruct (String.eqb_spec (sell_id a) (sell_id x)) as [E|_]; [|exact Hx'].
  apply elem_of_app in Hx as [Hx|[->|Hx]%elem_of_cons].
  - exfalso. apply (Hdone (sell_id x)); [by apply list_elem_of_fmap_2|]. rewrite <- E. by left.
  - rewrite Hn. by constructor.
  - exfalso. apply Htodo. change (sell_id a ∈ sell_id <$> todo). rewrite E. by apply list_elem_of_fmap_2.
Qed.

(** What a turn of one asset has to do, when it leaves the others alone. *)
Definition turns (P : SellAsset → Prop) (f : SellAssetData → TrM SellAssetData) : Prop :=
  ∀ done a todo s, P (sad_sell_asset a) → turn_ok (done ++ a :: todo) s →
  match f a s with
  | (s', Ok b) => turn_ok (done ++ b :: todo) s' ∧ sad_sell_asset b = sad_sell_asset a
  | (s', _) => log_ok (tr_log s')
  end.

Lemma turns_iter f todo : turns (λ _, True) f → ∀ done s, turn_ok (done ++ todo) s →
  match iter_mut f todo s with
  | (s', Ok l) => turn_ok (done ++ l) s'
  | (s', _) => log_ok (tr_log s')
  end.
Proof.
  intros Hf. induction todo as [|a todo IH]; intros don s Hs; [exact Hs|].
  specialize (Hf don a todo s I Hs). simpl. unfold bind at 1. destruct (f a s) as [s1 [b|e|e]]; [|done..].
  destruct Hf as [Hs1 _]. specialize (IH (don ++ [b]) s1). rewrite <- app_assoc in IH. specialize (IH Hs1).
  unfold bind. destruct (iter_mut f todo s1) as [s2 [l|e|e]]; [|done..].
  rewrite <- app_assoc in IH. exact IH.
Qed.

Lemma turns_edit price : turns (λ _, True) (edit_prices now price).
Proof.
  intros don a todo s _ Hs. unfold edit_prices. destruct (period_over _ _); [|by split].
  assert (keeps (turn_ok (don ++ a :: todo)) (for_each (btree_list (sad_orders a)) (λ e : string * Order,
      if fneb (or_price e.2) price && String.eqb (or_asset_id e.2) (sell_id a) then
        tr_send (To_EditOrder (or_order_id e.2) (Some (Data_Price price)))
      else ret tt))) as Hk.
  { apply keeps_for_each. intros e _. case_match; [by apply turn_ok_quiet|apply keeps_ret]. }
  specialize (Hk s Hs). unfold bind. destruct (for_each _ _ s) as [s' [u|e|e]]; [|by destruct Hk..].
  destruct Hk as (Hl & Ha & Hn & Hi). split; [|done]. split; [exact Hl|]. split; [|done].
  pose proof Ha as [Hall _]. eapply assets_ok_change; [exact Ha|done..|]. destruct (Hall a) as (_ & _ & _ & Ht); [set_solver|exact Ht].
Qed.

Lemma turns_offer price : turns (λ sell, price_agreed sell price) (offer_order now price).
Proof.
  intros don a todo s Hprice Hs. pose proof Hs as (Hl & Ha & Hn & Hi). pose proof Ha as [Hall _].
  destruct (Hall a) as (Hin & Hacc & Hb & Ht); [set_solver|]. unfold offer_order.
  destruct (sad_asset_balance a) as [v|]; [|by split]. specialize (Hb v eq_refl).
  destruct (_ <? _); [|by split]. destruct (period_over _ _) eqn:Hover; [|by split]. simpl.
  unfold tr_assert, oassert. destruct (fgtb _ _) eqn:Hpos; [|exact Hl].
  unfold bind, lift. destruct (asset_float_amount _ _) as [w|e|e] eqn:Hw; [|exact Hl..].
  assert (Forall (λ t, t ≤ now) (submits (sell_id a) (tr_log s))) as Hnow.
  { apply Forall_forall. intros t Hin'. eapply offered_later in Hin'; [|done..].
    unfold well_after, TR_PERIOD in Hin'. lia. }
  assert (assets_ok (tr_log s) (don ++ a <| sad_last_submit := now |> :: todo)) as Ha'
    by by eapply assets_ok_change.
  destruct (fgeb _ _) eqn:Henough; [|by split].
  split; [|done]. split; [|split; [by apply assets_ok_offer|done]].
  apply (log_ok_offer now); [done|done| |].
  - exists (sad_sell_asset a), price, v, w. split; [done|]. split; [|done].
    unfold sell_order. by rewrite_field Hacc.
  - apply Forall_forall. intros t Hin'. by eapply offered_later.
Qed.

Lemma turns_asset ind : index_told ind → turns (λ _, True) (asset_turn now ind).
Proof.
  intros Hind don a todo s _ Hs. unfold asset_turn.
  destruct (sell_price _ _) as [price|] eqn:Eprice; [|by split].
  assert (price_agreed (sad_sell_asset a) price) as Hprice.
  { unfold sell_price in Eprice. unfold price_agreed.
    destruct (sla_price_lbtc _); [by injection Eprice|].
    destruct (sla_price_usdt _) as [pu|]; [|done]. destruct ind as [i|]; [|done].
    injection Eprice as <-. destruct (Hind i eq_refl) as (asset_id & last & ? & ?). by exists pu, i, asset_id, last. }
  pose proof (turns_offer price don a todo s Hprice Hs) as Ho. unfold bind.
  destruct (offer_order now price a s) as [s1 [b|e|e]]; [|exact Ho..]. destruct Ho as [Hs1 Hb].
  pose proof (turns_edit price don b todo s1 I Hs1) as He.
  destruct (edit_prices now price b s1) as [s2 [c|e|e]]; [|exact He..].
  destruct He as [Hs2 Hc]. split; [exact Hs2|]. congruence.
Qed.
End Turns.

(** ** Messages *)

(** Nothing changes that an offer depends on, but for a balance the worker tells. *)
Definition same_offer (a b : SellAssetData) : Prop :=
  sad_sell_asset b = sad_sell_asset a ∧ sad_account_id b = sad_account_id a ∧
  sad_last_submit b = sad_last_submit a ∧
  ∀ v, sad_asset_balance b = Some v → sad_account_id a = sell_account (sad_sell_asset a) →
    sad_asset_balance a = Some v ∨ told_balance (sad_sell_asset a) v.

Lemma same_offer_refl a : same_offer a a.
Proof. unfold same_offer. naive_solver. Qed.

Lemma assets_ok_same log l l' : Forall2 same_offer l l' → assets_ok log l → assets_ok log l'.
Proof.
  intros Hl [Ha Hn]. assert (sell_id <$> l' = sell_id <$> l) as Hids.
  { clear Ha Hn. induction Hl as [|a b l l' (Hs & _) _ IH]; [done|]. rewrite !fmap_cons, IH. f_equal.
    unfold sell_id. by rewrite Hs. }
  split; [|by rewrite Hids]. intros b (i & Hb)%list_elem_of_lookup.
  destruct (Forall2_lookup_r _ _ _ _ _ Hl Hb) as (a & Hi & Hs & Hacc & Hlast & Hbal).
  destruct (Ha a) as (Hin & Hacc' & Hb' & Ht); [by eapply list_elem_of_lookup_2|].
  unfold asset_ok, sell_id. rewrite Hs, Hacc, Hlast. split_and!; [done..| |done].
  intros v Hv. destruct (Hbal v Hv Hacc'); auto.
Qed.

Lemma same_offer_orders f a : same_offer a (a <| sad_orders ::= f |>).
Proof. unfold same_offer. naive_solver. Qed.

Lemma same_update_first P f l : (∀ a, same_offer a (f a)) → Forall2 same_offer l (update_first P f l).
Proof.
  intros Hf. induction l as [|a l IH]; simpl; [constructor|].
  destruct (P a); constructor; [done| |apply same_offer_refl|done].
  clear IH. induction l; constructor; [apply same_offer_refl|done].
Qed.

Lemma same_set_balance account balances b l :
  From_BalanceUpdate account balances ∈ msgs → b ∈ balances →
  Forall2 same_offer l (set_balance account b <$> l).
Proof.
  intros Hmsg Hb. induction l as [|a l IH]; constructor; [|exact IH].
  unfold set_balance. destruct (String.eqb_spec (bal_asset_id b) (sell_id a)) as [Hid|]; [|apply same_offer_refl].
  destruct (Z.eqb_spec account (sad_account_id a)) as [->|]; [|apply same_offer_refl].
  split; [done|]. split; [done|]. split; [done|]. intros v [= <-] Hacc. right.
  rewrite Hacc in Hmsg. by exists balances, b.
Qed.

Lemma assets_ok_balances log account balances l :
  From_BalanceUpdate account balances ∈ msgs → assets_ok log l →
  assets_ok log (foldl (λ l b, set_balance account b <$> l) l balances).
Proof.
  intros Hmsg. assert (∀ b, b ∈ balances → b ∈ balances) as Hsub by done. revert Hsub.
  generalize balances at 1 3. intros bs. revert l. induction bs as [|b bs IH]; intros l Hsub Hl; [exact Hl|].
  simpl. apply IH; [intros x Hx; apply Hsub; by right|].
  eapply assets_ok_same; [|exact Hl]. eapply same_set_balance; [done|]. apply Hsub. by left.
Qed.

Section Messages.

(** The state between two messages, at the time [now]. *)
Definition state_ok (s : TrData) : Prop :=
  log_ok (tr_log s) ∧ assets_ok (tr_log s) (tr_asset_data s) ∧ index_told (tr_usdt_index_price s).

Definition state_at (now : Z) (s : TrData) : Prop := log_now (tr_log s) = now ∧ state_ok s.

Lemma state_at_quiet now msg : is_submit (Tr_sent msg) = false → keeps (state_at now) (tr_send msg).
Proof.
  intros He s (Hn & Hl & Ha & Hi). split; [exact Hn|].
  split; [by apply log_ok_quiet|]. split; [by apply assets_ok_quiet|done].
Qed.

Lemma state_at_assets now f :
  (∀ log l, assets_ok log l → assets_ok log (f l)) →
  keeps (state_at now) (modify (λ s, s <| tr_asset_data ::= f |>)).
Proof. intros Hf. apply keeps_modify. intros s (Hn & Hl & Ha & Hi). 
  split; [exact Hn|]. split; [exact Hl|]. split; [by apply Hf|exact Hi].
Qed.

Lemma state_at_process now msg : msg ∈ msgs → keeps (state_at now) (tr_process usdt msg).
Proof.
  assert (∀ log l P f, (∀ a, same_offer a (f a)) → assets_ok log l → assets_ok log (update_first P f l)) as Hfirst.
  { intros log l P f Hf. by apply assets_ok_same, same_update_first. }
  intros Hin. destruct msg; simpl; try apply keeps_ret.
  all: try by apply state_at_quiet.
  - unfold tr_assert. keeps_step; [keeps|]. keeps_step. case_match; apply keeps_lift || apply keeps_ret.
  - apply state_at_assets. intros log l. by apply assets_ok_balances.
  - case_match; [|apply keeps_panic..]. keeps_step; [keeps|]. keeps_step; [keeps|]. by apply state_at_quiet.
  - apply keeps_modify. intros s (Hn & Hl & Ha & _). split; [exact Hn|]. split; [exact Hl|]. split; [exact Ha|done].
  - unfold tr_order_created. case_match; [by apply state_at_quiet|]. apply state_at_assets.
    intros log l. by apply Hfirst, same_offer_orders.
  - apply state_at_assets. intros log l. by apply Hfirst, same_offer_orders.
  - destruct (AssetId_from_str asset_id) as [id|e|e] eqn:Eid; [|apply keeps_panic..].
    case_bool_decide as Hid; [|apply keeps_ret]. subst id.
    apply keeps_modify. intros s (Hn & Hl & Ha & _). split; [exact Hn|]. split; [exact Hl|]. split; [exact Ha|].
    intros price [= ->]. do 2 eexists. by split.
Qed.

(** One message: when the program goes on, the state is as before. *)
Lemma step_ok msg s :
  msg ∈ msgs → state_ok s →
  match trader_step usdt msg s with
  | (s', Ok _) => state_ok s'
  | (s', _) => log_ok (tr_log s')
  end.
Proof.
  intros Hin (Hl & Ha & Hi). unfold trader_step, tr_now. set (now := tr_instant (tr_log s)).
  assert (state_at now (s <| tr_log ::= cons (Tr_now now) |>)) as Hs1.
  { split; [done|]. split; [by apply log_ok_quiet|]. split; [by apply assets_ok_quiet|exact Hi]. }
  unfold bind at 1 2 3, gets at 1, modify at 1. unfold ret at 1. fold now.
  pose proof (state_at_process now msg Hin _ Hs1) as Hs2. unfold bind at 1.
  destruct (tr_process _ _ _) as [s2 [u|e|e]]; [|by destruct Hs2 as (_ & Hl2 & _)..].
  destruct Hs2 as (Hn & Hl2 & Ha2 & Hi2). simpl in Hn, Hl2, Ha2, Hi2. rewrite !bind_gets.
  pose proof (turns_iter now _ (tr_asset_data s2) (turns_asset now _ Hi2) [] s2) as Ht. unfold bind.
  destruct (iter_mut _ _ _) as [s3 [l|e|e]]; [|apply Ht; by split..].
  destruct Ht as (Hl3 & Ha3 & _ & Hi3); [by split|]. by split.
Qed.

Lemma steps_ok ms s :
  (∀ m, m ∈ ms → m ∈ msgs) → state_ok s → log_ok (tr_log (for_each ms (trader_step usdt) s).1).
Proof.
  revert s. induction ms as [|m ms IH]; intros s Hms Hs; [by destruct Hs|].
  pose proof (step_ok m s) as Hm. simpl. unfold bind. destruct (trader_step usdt m s) as [s' [u|e|e]].
  - apply IH; [intros x Hx; apply Hms; by right|]. apply Hm; [apply Hms; by left|done].
  - apply Hm; [apply Hms; by left|done].
  - apply Hm; [apply Hms; by left|done].
Qed.
End Messages.
End Offers.

(** ** The start *)

Lemma usdt_parses `{ElementsIds} env :
  AssetId_from_str (usdt_asset_id (env_data_network (env_data env))) = Ok (usdt_asset env).
Proof. apply builtin_ids_parse. Qed.

Lemma Hash32_to_string_inj h h' :
  Forall is_byte h → Forall is_byte h' → Hash32_to_string h = Hash32_to_string h' → h = h'.
Proof.
  intros Hh Hh' E. apply (inj reverse). apply (inj Some).
  by rewrite <- !hex_decode_encode by (by apply Forall_reverse); apply (f_equal hex_decode).
Qed.

Lemma NoDup_size (l : list AssetId) : size (list_to_set l : gset AssetId) = length l → NoDup l.
Proof.
  assert (∀ l : list AssetId, size (list_to_set l : gset AssetId) ≤ length l)%nat as Hle.
  { clear. intros l. induction l as [|x l IH]; [rewrite list_to_set_nil, size_empty; lia|].
    rewrite list_to_set_cons, size_union_alt, size_singleton.
    simpl.
    enough (size (list_to_set l ∖ {[x]} : gset AssetId) ≤ size (list_to_set l : gset AssetId))%nat by lia.
    apply subseteq_size. set_solver. }
  induction l as [|x l IH]; [constructor|]. rewrite list_to_set_cons. simpl. intros Hs. specialize (Hle l).
  destruct (decide (x ∈ l)) as [Hx|Hx].
  - exfalso. rewrite subseteq_union_1_L in Hs by (intros y; rewrite elem_of_list_to_set; set_solver). lia.
  - constructor; [done|]. apply IH. rewrite size_union in Hs by set_solver. rewrite size_singleton in Hs. lia.
Qed.

Section Start.
Context `{TrEnv}.

(** Nothing was offered yet. *)
Definition unsold (s : TrData) : Prop :=
  Forall (λ e, is_submit e = false) (tr_log s) ∧ tr_usdt_index_price s = None.

Lemma unsold_submits s id : unsold s → submits id (tr_log s) = [].
Proof.
  intros [Hs _]. induction Hs as [|e log He _ IH]; [done|]. by rewrite submits_quiet.
Qed.

Lemma unsold_log_ok usdt sell_assets msgs s : unsold s → log_ok usdt sell_assets msgs (tr_log s).
Proof.
  intros Hs. split.
  - intros o Ho. destruct Hs as [Hs _]. rewrite Forall_forall in Hs. by apply Hs in Ho.
  - intros id. rewrite unsold_submits by done. constructor.
Qed.

Lemma unsold_event e :
  is_submit e = false → keeps unsold (modify (λ s, s <| tr_log ::= cons e |>)).
Proof. intros He. apply keeps_modify. intros s [Hs Hi]. split; [by constructor|done]. Qed.

Lemma unsold_now : keeps unsold tr_now.
Proof. unfold tr_now. keeps_step; [keeps|]. keeps_step; [by apply unsold_event|keeps]. Qed.

Lemma keeps_iter_mut {A B} I (f : A → TrM B) l : (∀ a, keeps I (f a)) → keeps I (iter_mut f l).
Proof.
  intros Hf. induction l as [|a l IH]; simpl; [apply keeps_ret|].
  apply keeps_bind; [apply Hf|]. intros b. apply keeps_bind; [done|]. intros k. apply keeps_ret.
Qed.

Definition new_data (sell : SellAsset) (a : SellAssetData) : Prop :=
  sad_sell_asset a = sell ∧ sad_account_id a = sell_account sell ∧ sad_asset_balance a = None.

Lemma iter_new_asset_data l s s' out :
  iter_mut new_asset_data l s = (s', Ok out) → Forall2 new_data l out.
Proof.
  revert s out. induction l as [|sell l IH]; intros s out; simpl; intros Hs; ok_inv; [constructor|].
  constructor; [|by eapply IH]. unfold new_asset_data, tr_assert in *. ok_inv. done.
Qed.

Lemma unsold_start env mnemonic sell_assets : keeps unsold (start_trader env mnemonic sell_assets).
Proof.
  unfold start_trader. keeps_step; [by apply unsold_event|]. keeps_step; [case_match; keeps|].
  keeps_step.
  { apply keeps_iter_mut. intros sell. unfold new_asset_data, tr_assert. pose proof unsold_now. keeps. }
  keeps_step; [by apply keeps_modify|]. unfold tr_assert. keeps.
Qed.
End Start.

Lemma new_assets_ok msgs sell_assets out s :
  Forall2 new_data sell_assets out → unsold s → NoDup (sla_asset_id <$> sell_assets) →
  Forall (λ sell, Forall is_byte (sla_asset_id sell)) sell_assets →
  assets_ok sell_assets msgs (tr_log s) out.
Proof.
  intros Hnew Hs Hnodup Hbytes. split.
  - intros a (i & Ha)%list_elem_of_lookup.
    destruct (Forall2_lookup_r _ _ _ _ _ Hnew Ha) as (sell & Hi & Hsell & Hacc & Hbal).
    unfold asset_ok. rewrite unsold_submits, Hsell, Hacc, Hbal by done.
    split; [by eapply list_elem_of_lookup_2|]. by split_and!.
  - assert (sell_id <$> out = Hash32_to_string <$> (sla_asset_id <$> sell_assets)) as ->.
    { clear -Hnew. induction Hnew as [|sell a l out (Hsell & _) _ IH]; [done|].
      rewrite !fmap_cons, IH. f_equal. unfold sell_id. by rewrite Hsell. }
    apply NoDup_fmap_2_strong; [|done].
    assert (∀ h, h ∈ sla_asset_id <$> sell_assets → Forall is_byte h) as Hall.
    { intros h (sell & -> & Hin)%list_elem_of_fmap. rewrite Forall_forall in Hbytes. by apply Hbytes. }
    intros h h' Hh Hh'. by apply Hash32_to_string_inj; apply Hall.
Qed.

(** C28: the trader offers what its settings say, covered, and not too often.  Whatever the
    worker sends and the clock shows: every order it submits sells, from the asset's own
    account, the configured positive amount of a configured asset, at the configured
    price in L-BTC or at the configured dollar price over an index price the worker sent,
    against a balance the worker reported that covers it; and any two orders of one asset
    are submitted more than ten seconds apart. *)
Theorem trader_offers `{TrEnv} env mnemonic sell_assets msgs :
  Forall (λ sell, Forall is_byte (sla_asset_id sell)) sell_assets →
  let log := tr_log (trader env mnemonic sell_assets msgs tr_initial).1 in
  (∀ o, Tr_sent (To_SubmitOrder o) ∈ log → offered (usdt_asset env) sell_assets msgs o) ∧
  ∀ asset_id, StronglySorted well_after (submits asset_id log).
Proof.
  intros Hbytes. change (log_ok (usdt_asset env) sell_assets msgs
    (tr_log (trader env mnemonic sell_assets msgs tr_initial).1)).
  unfold trader, bind at 1. pose proof (unsold_start env mnemonic sell_assets tr_initial) as Hun.
  destruct (start_trader env mnemonic sell_assets tr_initial) as [s [usdt|e|e]] eqn:Es;
    [|by apply unsold_log_ok, Hun..].
  assert (unsold s) as Hs by by apply Hun. clear Hun.
  unfold start_trader in Es. rewrite usdt_parses in Es. unfold tr_assert in Es. ok_inv.
  match goal with E : iter_mut _ _ _ = _ |- _ => apply iter_new_asset_data in E; rename E into Hnew end.
  match goal with E : (_ =? _)%nat = true |- _ => apply Nat.eqb_eq in E; rename E into Hsize end.
  apply steps_ok; [done|]. split; [by apply unsold_log_ok|]. split.
  - apply new_assets_ok; [exact Hnew|exact Hs| |done]. apply NoDup_size. rewrite length_fmap, Hsize.
    symmetry. by eapply Forall2_length.
  - destruct Hs as [_ Hi]. intros price Hp.
    assert (None = Some price) by (etransitivity; [symmetry; exact Hi|exact Hp]). done.
Qed.

(** *** A token at two dollars *)
Module TraderSample.
Definition token : AssetId := seqZ 1 32.

Definition sell : SellAsset := {|
  sla_asset_id := token; sla_price_usdt := Some (f64_of_Z 2); sla_price_lbtc := None;
  sla_amp_asset := None; sla_asset_precision := 8; sla_offer_amount := Some (f64_of_Z 3);
  sla_private := None; sla_count := None; sla_ttl := None |}.

Definition msgs : list FromMsg := [
  From_ServerConnected;
  From_IndexPrice (usdt_asset_id Network_Mainnet) (Some (f64_of_Z 50000)) None;
  From_BalanceUpdate ACCOUNT_ID_REG
    [{| bal_asset_id := Hash32_to_string token; bal_amount := 300000000 |}];
  From_ServerConnected; From_ServerConnected].

(** Six seconds between two events. *)
#[export] Instance clock : TrEnv := {| tr_ids := hex_ids; tr_instant log := 6000000000 * Z.of_nat (length log) |}.
End TraderSample.
#[local] Existing Instance TraderSample.clock.

Lemma trader_offers_witness :
  let log := tr_log (trader Env_Prod "words" [TraderSample.sell] TraderSample.msgs tr_initial).1 in
  submits (Hash32_to_string TraderSample.token) log = [66000000000; 48000000000; 36000000000] ∧
  StronglySorted well_after (submits (Hash32_to_string TraderSample.token) log).
Proof.
  split; [vm_compute; reflexivity|].
  apply (trader_offers Env_Prod "words" [TraderSample.sell] TraderSample.msgs).
  apply Forall_singleton, Forall_forall. intros x Hx%elem_of_seqZ. unfold is_byte. lia.
Defined.
