(* ===== verification/History.v ===== *)
(** * The history of a wallet

    The session asks GDK for the transactions of its account in pages of 900
    ([load_transactions] in gdk_ses_impl.rs).  This file states what GDK does for such
    requests and shows that the loop ends and finds every transaction. *)
From stdpp Require Import base numbers gmap strings list fin_maps.
From Stdlib Require Import ZArith Lia Ascii.
From S2P Require Import Prelude F64 Api Types Env Payjoin ClientApi Client Serial Jade GdkApi Session Wallet.

Open Scope Z_scope.

(** The part of a history that a request is for. *)
Definition page_of (history : list GdkTransaction) (opts : ListTransactions) : list GdkTransaction :=
  take (Z.to_nat (lt_count opts)) (drop (Z.to_nat (lt_first opts)) history).

(** A call that is answered at once. *)
Definition answers `{GdkEnv} (p : AuthProc) (t : GdkType) (v : gdk_type t) : Prop :=
  ∃ json error data k, p = AuthStatus (Ok {| auth_result := Some json; auth_error := error;
      auth_required_data := data; auth_status := Status_Done |}) k ∧ gdk_parse t json = Ok v.

Lemma run_answers `{GdkEnv} t hw p params v s :
  answers p t v → (run_auth_handler t hw p params s).2 = Ok v.
Proof.
  intros (json & error & data & k & -> & Hv). unfold run_auth_handler, run_auth_handler_impl.
  unfold bind, lift, gdk_emit, modify, ret, parse_result. simpl. rewrite Hv. by destruct hw.
Qed.

(** The transactions by id. *)
Definition by_id (l : list GdkTransaction) : gmap Txid GdkTransaction :=
  foldl (λ m tx, <[gt_txhash tx := tx]> m) ∅ l.

Lemma by_id_app l k : by_id (l ++ k) = foldl (λ m tx, <[gt_txhash tx := tx]> m) (by_id l) k.
Proof. apply foldl_app. Qed.

Lemma lookup_by_id l txid tx : by_id l !! txid = Some tx → tx ∈ l ∧ gt_txhash tx = txid.
Proof.
  induction l as [|x l IH] using rev_ind; [done|]. rewrite by_id_app. simpl.
  intros [[<- <-]|[_ Hl]]%lookup_insert_Some; [set_solver|]. apply IH in Hl. set_solver.
Qed.

(** Nothing is lost when the ids are different. *)
Lemma by_id_values l : NoDup (gt_txhash <$> l) → (map_to_list (by_id l)).*2 ≡ₚ l.
Proof.
  induction l as [|x l IH] using rev_ind; [done|]. rewrite by_id_app, fmap_app, NoDup_app. simpl.
  intros (Hl & Hx & _). rewrite map_to_list_insert.
  - simpl. rewrite IH by done. apply Permutation_cons_append.
  - apply eq_None_not_Some. intros [tx [Htx E]%lookup_by_id].
    apply (Hx (gt_txhash tx)); [by apply list_elem_of_fmap_2|rewrite E; by left].
Qed.

Lemma wi32_id z : - 2147483648 ≤ z < 2147483648 → wi32 z = z.
Proof. intros Hz. apply wrap_s_id; lia. Qed.

Section History.
Context `{GdkEnv} (subaccount : Z) (history : list GdkTransaction).
Hypothesis history_i32 : Z.of_nat (length history) < 2147483648.
(** What GDK does: it answers each request with its page. *)
Hypothesis gdk_pages : ∀ log opts, lt_subaccount opts = subaccount → lt_count opts = TX_PAGE →
  gdk_start log (GA_get_transactions opts) = None ∧
  answers (gdk_handler log (GA_get_transactions opts)) T_TransactionList (page_of history opts).

(** Before a round: the transactions up to [first] are in the result. *)
Definition loaded (st : gmap Txid GdkTransaction * Z) : Prop :=
  0 ≤ st.2 ≤ Z.of_nat (length history) ∧ st.1 = by_id (take (Z.to_nat st.2) history).

Definition pages_left (st : gmap Txid GdkTransaction * Z) : Z :=
  (Z.of_nat (length history) - st.2) / TX_PAGE.

Lemma ends_get_transactions hw opts params failed what :
  lt_subaccount opts = subaccount → lt_count opts = TX_PAGE →
  ends (λ _, True) (call_gdk_err T_TransactionList hw (GA_get_transactions opts) params failed what)
    (λ o, o = Ok (page_of history opts)).
Proof.
  intros Ho Hc s _. split; [done|]. unfold call_gdk_err, gdk_emit. unfold bind at 1 2. simpl.
  destruct (gdk_pages (gs_log s) opts Ho Hc) as [Hstart _]. rewrite_field Hstart.
  unfold bind, gets, map_err. cbn -[run_auth_handler].
  match goal with |- context [run_auth_handler T_TransactionList hw (gdk_handler ?log _) params ?s1] =>
    pose proof (run_answers T_TransactionList hw _ params _ s1 (proj2 (gdk_pages log opts Ho Hc))) as Hrun;
    destruct (run_auth_handler T_TransactionList hw (gdk_handler log (GA_get_transactions opts)) params s1)
      as [s2 r] end.
  simpl in Hrun. by rewrite Hrun.
Qed.

Lemma by_id_page first n :
  foldl (λ m tx, <[gt_txhash tx := tx]> m) (by_id (take first history))
    (take n (drop first history)) = by_id (take (first + n) history).
Proof. by rewrite <- by_id_app, take_take_drop. Qed.

Lemma ends_load_page st :
  loaded st →
  ends (λ _, True) (load_transactions_page subaccount st)
    (so_far (λ r, match r with
                  | inl result => Ok result = Ok (by_id history)
                  | inr st' => loaded st' ∧ pages_left st' + 1 ≤ pages_left st
                  end) (λ o, o = Ok (by_id history))).
Proof.
  destruct st as [result first]. intros [Hf E]. simpl in Hf, E. subst result.
  unfold load_transactions_page. eapply (ends_bind _ _ _ (λ _, True)); [by split|]. intros hw _.
  eapply (ends_bind _ _ _ (λ l, l = _)).
  { eapply ends_mono; [by apply ends_get_transactions|]. by intros o ->. }
  intros l ->. apply ends_ret. unfold page_of. simpl. rewrite by_id_page.
  rewrite length_take, length_drop.
  assert (Z.to_nat TX_PAGE = 900%nat) as Hpage by reflexivity. rewrite Hpage.
  set (n := (900 `min` (length history - Z.to_nat first))%nat).
  assert (n ≤ 900 ∧ n ≤ length history - Z.to_nat first)%nat as [Hn Hn'] by (unfold n; lia).
  rewrite (wi32_id (Z.of_nat n)) by lia. destruct (Z.eqb_spec (Z.of_nat n) TX_PAGE) as [En|En].
  - rewrite wi32_id by lia. unfold loaded, pages_left. simpl. rewrite En.
    unfold TX_PAGE in *. split_and!; [lia|lia| |].
    + do 2 f_equal. lia.
    + replace (Z.of_nat (length history) - (first + 900)) with
        (Z.of_nat (length history) - first + (-1) * 900) by lia. rewrite Z.div_add by lia. lia.
  - unfold TX_PAGE in En. rewrite take_ge by (unfold n in En; lia). done.
Qed.

(** C25: loading the transactions of a wallet.  When GDK answers each request for
    transactions with that part of a history of fewer than 2^31 transactions, all with
    different ids, the loop over the pages ends within its fuel and succeeds, and what it
    yields are the transactions of the history, each once. *)
Theorem load_transactions_complete s :
  gs_subaccount s = Some subaccount → NoDup (gt_txhash <$> history) →
  ∃ l, (load_transactions s).2 = Ok l ∧ l ≡ₚ history.
Proof.
  intros Hs Hids. exists (map_to_list (by_id history)).*2. split; [|by apply by_id_values].
  unfold load_transactions. rewrite (bind_run _ _ s s subaccount); [|by apply ok_or_run].
  revert s Hs. intros s _. revert s.
  enough (ends (λ _, True) (bind (loop_fuel TX_PAGES (load_transactions_page subaccount) (∅, 0))
    (λ r, match r with inl result => ret (map_to_list result).*2 | inr _ => panic "out of fuel" end))
    (λ o, o = Ok (map_to_list (by_id history)).*2)) as He by (intros s; by apply He).
  apply (ends_bind _ _ _ (λ r, r = inl (by_id history))).
  - eapply ends_mono.
    + apply (ends_loop_fuel _ loaded pages_left (λ o, o = Ok (by_id history))).
      * intros st. apply ends_load_page.
      * split; [simpl; lia|done].
    + intros [[result|st]|e|e]; try done; simpl; [by intros [= ->]|]. intros [[Hst _] Hleft]. exfalso.
      unfold pages_left in Hleft. simpl in Hleft.
      assert (0 ≤ (Z.of_nat (length history) - st.2) / TX_PAGE) by (apply Z.div_pos; [lia|done]).
      assert ((Z.of_nat (length history) - 0) / TX_PAGE < 4194304)
        by (apply Z.div_lt_upper_bound; [done|unfold TX_PAGE; lia]).
      unfold TX_PAGES in Hleft. lia.
  - intros r ->. by apply ends_ret.
Qed.
End History.

(** *** A history of 901 transactions *)
Module HistorySample.
Definition tx (id : Z) : GdkTransaction := {|
  gt_txhash := [id]; gt_block_height := 1; gt_created_at_ts := 0; gt_fee := 30;
  gt_transaction_vsize := 100; gt_transaction_weight := 400; gt_memo := "memo";
  gt_inputs := []; gt_outputs := [] |}.

Definition history : list GdkTransaction := tx <$> seqZ 0 901.

(** Answers say in unary where the page begins. *)
Fixpoint unary (n : nat) : Json :=
  match n with O => EmptyString | S n => String "1"%char (unary n) end.

Definition answer (c : GdkCall) : Json :=
  match c with GA_get_transactions opts => unary (Z.to_nat (lt_first opts)) | _ => "json" end.

Definition parse (t : GdkType) (json : Json) : outcome (gdk_type t) :=
  match t with
  | T_TransactionList => Ok (take 900 (drop (String.length json) history))
  | t => WalletSample.parse t json
  end.

#[export] Instance history_env : GdkEnv := WalletSample.env answer parse.
End HistorySample.
#[local] Existing Instance HistorySample.history_env.

Lemma load_transactions_complete_witness :
  ∃ l, (load_transactions WalletSample.session).2 = Ok l ∧ l ≡ₚ HistorySample.history.
Proof.
  apply (load_transactions_complete 0).
  - vm_compute. reflexivity.
  - intros log opts Ho Hc. split; [reflexivity|].
    exists (HistorySample.unary (Z.to_nat (lt_first opts))), None, None, (λ _, None).
    split; [reflexivity|]. unfold page_of. rewrite Hc. simpl. do 3 f_equal.
    generalize (Z.to_nat (lt_first opts)) as n. induction n as [|n IH]; [reflexivity|]. simpl. by rewrite IH.
  - reflexivity.
  - apply (bool_decide_unpack _). vm_compute. exact I.
Defined.
